(* ===== verification/_CoqProject ===== *)
-Q . S2P
Prelude.v
Python.v
CPython.v
Uuid.v
Store.v
Domain.v
Policy.v
Authority.v
AuthorityLifecycle.v
FactAcquisition.v
Artifacts.v
Commitment.v
Access.v
Lifecycle.v
Obligations.v
Completion.v
Verification.v
Transfer.v
Derivation.v
PolicyPlane.v
Financial.v
Persistence.v
Transactions.v
Governance.v
Kernel.v
Machine.v
KernelClient.v
Outbox.v
UnitOfWork.v
Intake.v
IntakeSafety.v
Api.v
Execution.v
KernelBridge.v
KernelSafety.v
ResponsibilityDischarge.v
DischargeSafety.v
ExecutionSafety.v
CommitmentService.v
CommitmentMachine.v
CommitmentRefinement.v
CommitmentSafety.v
CaseFlow.v
OnboardingEngine.v
OffboardingEngine.v
Admission.v
AdmissionBridge.v
AdmissionSafety.v
BridgeSafety.v
IntakeApi.v
Conversation.v
ConversationSafety.v
Connectors.v
OdooConnector.v
OdooSource.v
KeycloakConnector.v
CommunicationConnector.v
ConnectorSafety.v
Investigation.v
InvestigationService.v
InvestigationSafety.v
InvestigationFlow.v
InvestigationApi.v
OffboardingSafety.v
OffboardingRevocation.v
ProductionTrust.v
Engines.v
Sandbox.v
Scenario.v
KernelWitnesses.v
Witnesses.v
Departure.v
TrustWitnesses.v
ServiceWitnesses.v
AdmissionWitnesses.v
ConversationWitnesses.v
InvestigationWitnesses.v
ConnectorWitnesses.v
ComponentWitnesses.v
CommitmentWitnesses.v
