(* ===== verification/Prelude.v ===== *)
(** * administrative-orchestrator: verification development

    The program turns administrative requests (onboarding, offboarding, financial
    preparation, commitments made in meetings) into cases, has them decided by people
    who hold the authority, and carries the decided effects out in external systems,
    verified by observation.  This library models its core and proves what makes it
    correct.  Paths below are relative to [src/src/administrative_orchestrator/].

    ** How the program is put together

    A delivery of a message or document is verified and kept ([intake/]), belongs to a
    conversation ([conversation.py]), is interpreted and projected to a candidate, and
    a candidate that someone entitled admits is promoted to a case ([admission.py] and
    the bridges of each case kind).  A case is created through the API ([api.py]) or by
    such a promotion, moves
    through a state machine ([service.py], [fact_transitions.py],
    [execution_transitions.py]) under an authority epoch, is evaluated against a
    versioned policy ([policy.py], [policy_plane.py], [financial.py]) and approved by
    decisions whose role, scope and delegation are resolved in [authority.py].  The
    transition, its audit and its wake-up event are one transaction
    ([unit_of_work.py], [messaging.py]), relayed to a durable workflow
    ([workflows/relay.py], [worker.py]).  The workflow runs an engine
    ([verified_obligation_execution.py] and its subclasses), which revalidates the
    governance basis of the approval ([governance.py]), derives obligations, plans,
    dispatches, observes and verifies effects, and completes the case only by proof
    ([obligations.py], [completion.py]).  Effects go to a provider
    ([effect_provider.py]): the sandbox ([sandbox.py]) or the Agent Kernel
    ([integrations/kernel/]), whose responsibilities a completed case gives back
    ([responsibility_discharge.py]).  Meeting commitments ([commitment_*.py]) are a
    second life of cases, driven by time and by messages.  When reality contradicts a
    case, an investigation ([investigation_*.py]) asks an advisory client within a
    budget, gathers evidence and may lead a person to reopen the case under a new
    authority epoch.  People review candidates and investigations through the
    operations API ([operations/]).  The connectors ([integrations/odoo_effects.py],
    [keycloak_effects.py], [communication_effects.py]) are what the Kernel carries
    effects out and verifies them with; [integrations/odoo.py] is the human-resources
    source.

    ** How it is modelled

    Foundations.  This file: results and exceptions (an [exn] keeps its class and its
    message, so a theorem can name the guard that refused), guards, inversion tactics.
    [Python]: the values of [dict[str, Any]] fields, ordered dictionaries, sorting,
    text and JSON; [CPython]: the concrete platform (UUIDv5 over SHA-1, SHA-256, ISO
    dates) on which the witnesses run; [Uuid]; [Store]: tables as finite maps with the
    constraints a commit checks; [Machine]: computations over a world that return or
    raise, with [Respects], the logic in which the invariants are proved.

    One file per component holds its data, its operations and their theorems:
    [Domain], [Policy], [Authority], [AuthorityLifecycle], [FactAcquisition],
    [Artifacts], [Access] ([auth.py], [access_policy.py]), [Lifecycle], [Obligations],
    [Completion], [Verification], [Transfer], [Derivation] (the obligation derivations
    of every case kind), [PolicyPlane], [Financial], [Persistence], [Transactions],
    [Governance], [Outbox], [UnitOfWork], [Api].  The engines: [Execution] is the
    executor over a [World] of tables and a provider, its hooks a record
    ([Hooks]) whose laws ([LawfulHooks], [ExecutionSafety]) the engines of
    [OnboardingEngine] and [OffboardingEngine] discharge; [CaseFlow], [OffboardingSafety],
    [OffboardingRevocation], [ProductionTrust] and [Engines] compose them; [Sandbox]
    is the provider the development deployment uses.  The Agent Kernel: [Kernel]
    ([models.py], [capabilities.py], [mapper.py], [repository.py]), [KernelClient]
    ([client.py], [recovery.py], [evidence.py], [compatibility.py]), [KernelBridge]
    ([bridge.py], [effect_provider.py], [onboarding.py]), [KernelSafety];
    [ResponsibilityDischarge] and [DischargeSafety].  Meeting commitments:
    [Commitment], [CommitmentService], the abstract machine [CommitmentMachine],
    [CommitmentRefinement] and [CommitmentSafety].  Intake and
    admission: [Intake] ([intake/models.py], [repository.py], [service.py],
    [contracts.py]) and [IntakeSafety]; [Admission] ([admission.py]), where the sessions
    of others run between two transactions of a call, and [AdmissionSafety];
    [AdmissionBridge] (the bridges of the five case kinds), [BridgeSafety] and
    [IntakeApi] ([operations/intake.py]).  [Conversation] and [ConversationSafety] are
    [conversation.py].  Investigations: [Investigation] (models, digests, tables and
    repository), [InvestigationService] (the envelope, the policy boundary, the local
    verification of reconciliations and the service), [InvestigationSafety] (the abstract
    bureau, whose sessions interleave), [InvestigationFlow] (the service as paths of the
    bureau) and [InvestigationApi] ([operations/investigations.py]).  Connectors:
    [Connectors] (results, credentials and the wire, which records every exchange),
    [OdooConnector], [OdooSource], [KeycloakConnector], [CommunicationConnector] and
    [ConnectorSafety].  [Scenario],
    [Departure] and the files named [...Witnesses] run whole histories on the concrete platform and apply
    each theorem to one of them.

    A component's state is the tables it writes; an operation is a function to a
    result and the new tables, or a computation over a world where the code calls out
    between transactions.  A session is a transaction: it commits what it wrote or
    writes nothing.  What a call does between two transactions, and where it breaks
    off, is kept; other actors move between calls in the theorems about histories.

    ** Parameters, and what is assumed of them

    [Platform]: the opaque library functions; no law is assumed but in
    [artifacts_round_trip], where a digest is 64 hexadecimal digits.  The provider
    behind the engines is a class ([EffectProvider]); the engines assume only that its
    exceptions are not their own signal ([ProviderContract], discharged by the sandbox
    client and by the Kernel provider).  [KernelHttp] is the Kernel behind its HTTP
    endpoints, [CommunicationGateway] and [ResponsibilityKernel] the message gateway
    and the Kernel as the commitments see it, [read_employee] the human-resources
    source, [WorkflowRuntime] the durable workflow runtime, [TokenLibrary] the
    signature primitives of tokens; nothing is assumed of any of them.  The advisory client
    and the reconciliation verifier of an investigation are parameters in the same way.
    [HttpService] is whatever answers the connectors; only
    [odoo_effects_are_created_once] relies on what Odoo documents of its methods
    ([OdooService], which a small Odoo satisfies in [ConnectorWitnesses]).
    The parsers of policy definitions, onboarding requests and interpretations, which pydantic
    derives from the models, are parameters too.  Clocks are functions of a tick.

    ** What the theorems show

    Engines: an effect is sent at most once in any history of attempts
    ([effects_execute_at_most_once]), decided effects stay decided, outcomes always
    cite verified realizations, a completed case rests on proof, stale governance or a
    changed truth of the source blocks execution, planning covers the obligations,
    what the sandbox executed verifies.  Governance, authority, access and API: a
    basis revalidates exactly when nothing it depends on changed; an authorized case
    is approved, in every state the service reaches; permissions and authentication
    are exact; creation is idempotent; no update is lost; departure revokes authority
    and revocations never grant.  Outbox: nothing is lost, attempts are bounded, a pass
    settles.  Kernel: commands are frozen, receipts are final, success rests on a
    receipt, observations rest on evidence, ownership is exclusive; a discharge leaves
    nothing behind and follows the protocol.  Commitments: the service refines the
    machine; messages go out at most once; commitments are genuine, move forward and
    are silent once cancelled; their reads never fail; a moved case refuses them.
    Intake: a delivery is handed over once, a projection can be read back
    ([projection_round_trip]), a promotion is earned by a final admission, is atomic and
    happens once, and every promotion keeps its lineage ([admission_lineage]).
    Conversations: the timeline is ordered however deliveries arrive, redelivery changes
    nothing, supersession is final, and a message by itself decides nothing.
    Investigations: budgets hold across crashes and concurrent sessions
    ([advisory_budgets_hold]), reopenings are earned and happen once per epoch, the
    service follows the bureau, a reopening puts exactly its case one epoch ahead, and an
    investigation of an earlier epoch is inert.
    Connectors: Odoo records carry a request identity at most once however answers are
    lost; the financial connector calls only what drafts and confirms; the
    human-resources source only reads; sessions are closed only under a recorded marker;
    a message is observed only with the right text and recipient.

    ** Bounds and fuel

    No operation of the model uses fuel: every loop of the code runs over a list or
    recurses on a structure, and its model recurses on the same list.  Integers are
    Python's, without bound; a datetime is a number of microseconds.  Strings are
    sequences of code points below 256.

    ** Not modelled

    Foreign keys between tables, which only add refusals.
    The parsing of documents and the gateway that interprets them, the Feishu webhooks,
    the Keycloak directory, the HTTP and model-runtime clients of investigations, the bodies of the durable workflows, the endpoints of the
    operations API for cases, commitments, transactions and administration with their
    read models, settings, readiness probes, metrics and scripts: they are glue around
    services and runtimes that cannot be read here, or read-only views.  Of
    [policy_plane.py] the default versions and the compilation of definitions, of
    [api.py] the Feishu callback and the health endpoints, of [worker.py] the loop
    around the passes and signal handling. *)

From stdpp Require Import base gmap strings list sorting.
From Stdlib Require Import ZArith NArith Ascii Lia.

Open Scope string_scope.
Open Scope list_scope.

#[global] Set Default Goal Selector "!".

(** ** Scalars

    [uuid]: a UUID is its 128-bit integer, the value Python compares and
    hashes.  [instant]: an offset-aware UTC datetime, in microseconds since the
    epoch; every datetime field of a [UtcModel] is normalised to this form. *)
Abbreviation uuid := N (only parsing).
Abbreviation instant := Z (only parsing).

Declare Scope orch_scope.
Delimit Scope orch_scope with orch.

(** ** Exceptions and results

    A Python call either returns a value or raises; the exception keeps its
    class and its message, so that theorems can name the guard that refused. *)
Inductive exn_class :=
  | ValueError | KeyError | TypeError | AttributeError | AssertionError | PermissionError
  | TransitionError | FinancialQualificationPending
  | AuthorityError | PolicyPlaneError | GovernanceError | ObligationError
  | TransferError | ExecutionConflict | ConcurrencyConflict
  | TransactionRecordConflict | IntegrityError | InvalidOperation
  | AccessDenied | DuplicateIngressEvent | OutboxEventNotFound | OutboxEventNotFailed
  | RuntimeError | FactAcquisitionError
  | KernelExecutionError | KernelExecutionRetryable | KernelSubmissionError | KernelWorkAdmissionError
  | KernelBridgePersistenceError | KernelCompatibilityError | KernelEvidenceError | KernelRecoveryError
  | CommitmentConflict | CommitmentIntakeError
  | ArtifactStoreError | ArtifactNotFound | ArtifactDigestMismatch | ArtifactStorageUnavailable
  | IntakeReceiptConflict | SourceArtifactConflict | PromotionConflict | AssessmentConflict
  | InterpretationConflict | CandidateConflict | CandidateProjectionError
  | CandidateAdmissionError | AdmissionRejected | AdmissionConflict
  | OnboardingAdmissionError | OffboardingAdmissionError | FinancialAdmissionError
  | InvestigationConflict | InvestigationBudgetExceeded | InvestigationNotFound | InvestigationClientError
  | ResponsibilityDischargeBlocked | KernelResponsibilityDischargeError
  | KernelReconciliationVerificationError | ConversationRejected
  | IdentityResolutionError | SenderSpoof | TenantMismatch | ParticipantChanged | OutOfOrderDelivery
  | CandidateSupersessionConflict | MultipleResultsFound
  | CredentialResolutionError | ConnectorConfigurationError | ApplicationRejected
  | OdooSourceError | KeycloakSourceError
  (* an error of the HTTP library or of decoding, with the name of its class *)
  | HttpxError (name : string) | DecodeError (name : string)
  (* [_TransportUnknown], with the class name of its [__cause__] *)
  | TransportUnknown (cause : option string).

Record exn := Exn { exn_cls : exn_class; exn_msg : string }.

#[global] Instance exn_class_eq_dec : EqDecision exn_class.
Proof. solve_decision. Defined.
#[global] Instance exn_eq_dec : EqDecision exn.
Proof. solve_decision. Defined.

Inductive result (A : Type) :=
  | Ok (a : A)
  | Err (e : exn).
Arguments Ok {A} a.
Arguments Err {A} e.

#[global] Instance result_eq_dec {A} `{EqDecision A} : EqDecision (result A).
Proof. solve_decision. Defined.

Definition rbind {A B} (m : result A) (k : A -> result B) : result B :=
  match m with
  | Ok a => k a
  | Err e => Err e
  end.

Definition raise {A} (c : exn_class) (msg : string) : result A := Err (Exn c msg).

(** [guard b c msg]: the early [raise] of a Python guard, [if b: raise c(msg)]. *)
Definition guard (b : bool) (c : exn_class) (msg : string) : result unit :=
  if b then raise c msg else Ok tt.

Notation "'let!' x ':=' m 'in' k" := (rbind m (fun x => k))
  (at level 10, x pattern, m at level 100, k at level 200,
   format "'let!'  x  ':='  m  'in' '//' k") : orch_scope.
Notation "'refuse' b 'with' c 'saying' s ';;' k" :=
  (rbind (guard b c s) (fun _ => k))
  (at level 10, b at level 100, c at level 99, s at level 99, k at level 200,
   format "'refuse'  b  'with'  c  'saying'  s  ';;' '//' k") : orch_scope.

(** [not items] of a Python sequence. *)
Definition is_nil {A} (l : list A) : bool := match l with [] => true | _ => false end.

Lemma is_nil_true {A} (l : list A) : is_nil l = true <-> l = [].
Proof. by destruct l. Qed.

Lemma is_nil_false {A} (l : list A) : is_nil l = false <-> l <> [].
Proof. by destruct l. Qed.

Lemma elem_of_filter_bool {A} (P : A -> bool) (l : list A) x :
  x ∈ List.filter P l <-> x ∈ l /\ P x = true.
Proof. by rewrite !list_elem_of_In, filter_In. Qed.

#[global] Instance filter_bool_Permutation {A} (P : A -> bool) :
  Proper ((≡ₚ) ==> (≡ₚ)) (List.filter P).
Proof.
  induction 1; cbn; repeat match goal with |- context [P ?x] => destruct (P x) end;
    solve [done | by f_equiv | constructor | by etrans].
Qed.

Lemma NoDup_fmap_filter {A B} (f : A -> B) (P : A -> bool) (l : list A) :
  NoDup (f <$> l) -> NoDup (f <$> List.filter P l).
Proof.
  induction l as [|x l IH]; cbn; [done|]. intros [Hx Hl]%NoDup_cons.
  destruct (P x); cbn; [|auto]. apply NoDup_cons. split; [|auto].
  rewrite list_elem_of_fmap in *. setoid_rewrite elem_of_filter_bool. naive_solver.
Qed.

Lemma existsb_elem_of {A} (P : A -> bool) (l : list A) :
  existsb P l = true <-> exists x, x ∈ l /\ P x = true.
Proof. rewrite existsb_exists. by setoid_rewrite list_elem_of_In. Qed.

Lemma forallb_elem_of {A} (P : A -> bool) (l : list A) :
  forallb P l = true <-> forall x, x ∈ l -> P x = true.
Proof. rewrite forallb_forall. by setoid_rewrite list_elem_of_In. Qed.

Lemma filter_none {A} (P : A -> bool) l : (forall x, x ∈ l -> P x = false) -> List.filter P l = [].
Proof.
  induction l as [|x l IH]; intros HP; cbn; [done|].
  rewrite (HP x) by left. apply IH. intros y Hy. apply HP. by right.
Qed.

Definition is_ok {A} (m : result A) : bool := match m with Ok _ => true | Err _ => false end.

Lemma rbind_Ok {A B} (m : result A) (k : A -> result B) b :
  rbind m k = Ok b <-> exists a, m = Ok a /\ k a = Ok b.
Proof.
  destruct m as [a'|e]; cbn; split.
  - intros H. by exists a'.
  - intros (x & [= ->] & H). exact H.
  - discriminate.
  - by intros (x & ? & _).
Qed.

Lemma guard_Ok b c s u : guard b c s = Ok u <-> b = false.
Proof. destruct b, u; unfold guard, raise; naive_solver. Qed.

Lemma rbind_guard_Ok {A} b c s (k : result A) x :
  rbind (guard b c s) (fun _ => k) = Ok x <-> b = false /\ k = Ok x.
Proof. destruct b; cbn; naive_solver. Qed.

(** A refusal of [P and not Q] passes exactly when [P] implies [Q]. *)
Lemma refuse_pair (P Q : Prop) `{base.Decision P, base.Decision Q} :
  bool_decide P && bool_decide Q = false <-> (P -> ~ Q).
Proof. repeat case_bool_decide; cbn; naive_solver. Qed.

Lemma guard_pass c s : guard false c s = Ok tt.
Proof. reflexivity. Qed.

(** Peels the guards and binds of a successful computation off a hypothesis. *)
Ltac inv_ok :=
  repeat match goal with
    | H : rbind _ _ = Ok _ |- _ =>
        apply rbind_Ok in H; let a := fresh "v" in let E := fresh "E" in
        destruct H as (a & E & H)
    | H : guard _ _ _ = Ok _ |- _ => apply guard_Ok in H
    | H : Ok _ = Ok _ |- _ => injection H as H
    | H : Err _ = Ok _ |- _ => discriminate H
    | H : Ok _ = Err _ |- _ => discriminate H
    | H : raise _ _ = Ok _ |- _ => discriminate H
    | u : unit |- _ => destruct u
    end.

(** Turns boolean tests in the hypotheses into propositions. *)
Ltac propify :=
  repeat match goal with
    | H : negb _ = true |- _ => apply negb_true_iff in H
    | H : negb _ = false |- _ => apply negb_false_iff in H
    | H : _ && _ = true |- _ => apply andb_true_iff in H; destruct H
    | H : _ || _ = false |- _ => apply orb_false_iff in H; destruct H
    | H : bool_decide _ = true |- _ => apply bool_decide_eq_true in H
    | H : bool_decide _ = false |- _ => apply bool_decide_eq_false in H
    | H : ~ ~ _ |- _ => apply dec_stable in H
    | H : (_ <=? _)%Z = true |- _ => apply Z.leb_le in H
    | H : (_ <=? _)%Z = false |- _ => apply Z.leb_gt in H
    | H : (_ <? _)%Z = true |- _ => apply Z.ltb_lt in H
    | H : (_ <? _)%Z = false |- _ => apply Z.ltb_ge in H
    end.
