(* ===== verification/Python.v ===== *)
(** * Python values and the standard-library functions the program calls

    [pyval] is the value domain of the [dict[str, Any]] fields of the program
    (fact snapshots, postconditions, observed state, policy definitions): JSON
    data as Python holds it.  A [dict] is an association list in insertion
    order.  Strings are sequences of code points below 256; letter case is
    folded on the ASCII letters only.  [Platform] is the interface to the
    library functions that are opaque to the program's logic: name-based UUIDs,
    SHA-256, the ISO-8601 parser and the textual form of composite values. *)

From stdpp Require Import base gmap strings list pretty sorting.
From Stdlib Require Import ZArith NArith Ascii Lia Permutation.
From Stdlib Require String.
From S2P Require Import Prelude.

Open Scope string_scope.
Open Scope list_scope.

(** ** Values *)

Inductive pyval :=
  | VNone
  | VBool (b : bool)
  | VInt (z : Z)
  | VFloat (m e : Z)   (* the finite float m * 2^e *)
  | VStr (s : string)
  | VList (l : list pyval)
  | VDict (d : list (string * pyval)).

Abbreviation pydict := (list (string * pyval)) (only parsing).

Section pyval_induction.
Variable P : pyval -> Prop.
Hypothesis Hnone : P VNone.
Hypothesis Hbool : forall b, P (VBool b).
Hypothesis Hint : forall z, P (VInt z).
Hypothesis Hfloat : forall m e, P (VFloat m e).
Hypothesis Hstr : forall s, P (VStr s).
Hypothesis Hlist : forall l, Forall P l -> P (VList l).
Hypothesis Hdict : forall d, Forall (fun kv => P (snd kv)) d -> P (VDict d).

Fixpoint pyval_ind' (v : pyval) : P v :=
  match v with
  | VNone => Hnone
  | VBool b => Hbool b
  | VInt z => Hint z
  | VFloat m e => Hfloat m e
  | VStr s => Hstr s
  | VList l =>
      Hlist l ((fix go l : Forall P l :=
        match l with
        | [] => Forall_nil_2 P
        | x :: r => Forall_cons_2 P x r (pyval_ind' x) (go r)
        end) l)
  | VDict d =>
      Hdict d ((fix go d : Forall (fun kv => P (snd kv)) d :=
        match d with
        | [] => Forall_nil_2 _
        | kv :: r => Forall_cons_2 _ kv r (pyval_ind' (snd kv)) (go r)
        end) d)
  end.
End pyval_induction.

(** ** Dictionaries *)

Fixpoint assoc {A} (k : string) (d : list (string * A)) : option A :=
  match d with
  | [] => None
  | (k', v) :: r => if String.eqb k k' then Some v else assoc k r
  end.

(** [d.get(k)]. *)
Definition dict_get (d : pydict) (k : string) : pyval := default VNone (assoc k d).

(** [k in d]. *)
Definition dict_has {A} (d : list (string * A)) (k : string) : bool :=
  match assoc k d with Some _ => true | None => false end.

(** [d[k] = v]: replaces in place, appends a new key. *)
Fixpoint dict_set {A} (d : list (string * A)) (k : string) (v : A) : list (string * A) :=
  match d with
  | [] => [(k, v)]
  | (k', w) :: r => if String.eqb k k' then (k, v) :: r else (k', w) :: dict_set r k v
  end.

Lemma assoc_dict_set {A} (d : list (string * A)) k k' v :
  assoc k (dict_set d k' v) = if bool_decide (k = k') then Some v else assoc k d.
Proof.
  induction d as [|[k0 w] d IH]; cbn.
  - destruct (String.eqb_spec k k'); by case_bool_decide.
  - destruct (String.eqb_spec k' k0) as [->|]; cbn;
      destruct (String.eqb_spec k k0) as [->|]; repeat case_bool_decide; naive_solver.
Qed.

Lemma dict_get_set d k k' (v : pyval) : k <> k' -> dict_get (dict_set d k v) k' = dict_get d k'.
Proof. intros Hne. unfold dict_get. rewrite assoc_dict_set. by rewrite bool_decide_eq_false_2 by congruence. Qed.

Lemma assoc_elem_of {A} (d : list (string * A)) k v : assoc k d = Some v -> (k, v) ∈ d.
Proof.
  induction d as [|[k0 w] d IH]; cbn; [done|].
  destruct (String.eqb_spec k k0) as [->|]; [intros [= ->]; left|right; auto].
Qed.

Lemma assoc_None {A} (d : list (string * A)) k : assoc k d = None <-> k ∉ d.*1.
Proof.
  induction d as [|[k0 w] d IH]; cbn; [split; [by intros _ ?%not_elem_of_nil|done]|].
  rewrite not_elem_of_cons. destruct (String.eqb_spec k k0); naive_solver.
Qed.

Lemma assoc_NoDup {A} (d : list (string * A)) k v :
  NoDup d.*1 -> (k, v) ∈ d -> assoc k d = Some v.
Proof.
  induction d as [|[k0 w] d IH]; cbn; [by intros _ ?%not_elem_of_nil|].
  intros [Hk0 Hnd]%NoDup_cons [[= -> ->]|Hin]%elem_of_cons; [by rewrite String.eqb_refl|].
  destruct (String.eqb_spec k k0) as [->|]; [|auto].
  destruct Hk0. apply list_elem_of_fmap. by exists (k0, v).
Qed.

(** A dict comprehension [{key(x): x for x in l}] over any key type: insertion
    order of the first occurrence, value of the last. *)
Section ordered_dict.
Context {K V : Type} `{EqDecision K}.

Fixpoint odict_get (k : K) (d : list (K * V)) : option V :=
  match d with
  | [] => None
  | (k', v) :: r => if decide (k = k') then Some v else odict_get k r
  end.

Fixpoint odict_set (d : list (K * V)) (k : K) (v : V) : list (K * V) :=
  match d with
  | [] => [(k, v)]
  | (k', w) :: r => if decide (k = k') then (k', v) :: r else (k', w) :: odict_set r k v
  end.

Definition odict_of (key : V -> K) (l : list V) : list (K * V) :=
  fold_left (fun d x => odict_set d (key x) x) l [].

Lemma odict_set_fresh d k v : k ∉ d.*1 -> odict_set d k v = d ++ [(k, v)].
Proof.
  induction d as [|[k' w] d IH]; cbn; [done|]. rewrite not_elem_of_cons. intros [Hne Hd].
  rewrite decide_False by done. by rewrite IH.
Qed.

Lemma odict_of_NoDup key l : NoDup (key <$> l) -> odict_of key l = (fun x => (key x, x)) <$> l.
Proof.
  unfold odict_of. assert (Hg : forall acc, NoDup (acc.*1 ++ (key <$> l)) ->
    fold_left (fun d x => odict_set d (key x) x) l acc = acc ++ ((fun x => (key x, x)) <$> l)).
  { induction l as [|x l IH]; intros acc Hnd; cbn; [by rewrite app_nil_r|].
    rewrite odict_set_fresh.
    - rewrite IH; [by rewrite <- app_assoc|]. by rewrite fmap_app, <- app_assoc.
    - apply NoDup_app in Hnd as (_ & Hd & _). intros Hin. apply (Hd _ Hin). left. }
  intros Hnd. by apply Hg.
Qed.

Lemma odict_get_NoDup key (l : list V) k x :
  NoDup (key <$> l) -> odict_get k (odict_of key l) = Some x <-> x ∈ l /\ key x = k.
Proof.
  intros Hnd. rewrite odict_of_NoDup by done.
  induction l as [|y l IH]; cbn; [split; [done|by intros [?%not_elem_of_nil _]]|].
  apply NoDup_cons in Hnd as [Hy Hnd]. rewrite elem_of_cons.
  destruct (decide (k = key y)) as [->|Hne]; [|rewrite IH by done; naive_solver].
  split; [intros [= <-]; auto|]. intros [[->|Hin] Hk]; [done|].
  destruct Hy. rewrite <- Hk. apply list_elem_of_fmap. by exists x.
Qed.

Lemma elem_of_odict_set d k v k' v' :
  (k', v') ∈ odict_set d k v -> (k', v') ∈ d \/ (k' = k /\ v' = v).
Proof.
  induction d as [|[k0 w] d IH]; cbn; [rewrite list_elem_of_singleton; naive_solver|].
  destruct (decide (k = k0)); rewrite !elem_of_cons; naive_solver.
Qed.

Lemma odict_set_elem d k v : (k, v) ∈ odict_set d k v.
Proof. induction d as [|[k' w] d IH]; cbn; [left|]. case_decide; [subst; left|by right]. Qed.

Lemma odict_set_keeps d k v k' w : (k', w) ∈ d -> (k', w) ∈ odict_set d k v \/ (k' = k /\ odict_get k d = Some w).
Proof.
  induction d as [|[k1 w1] d IH]; cbn; [by intros ?%not_elem_of_nil|].
  intros [[= -> ->]|Hin]%elem_of_cons; case_decide; subst.
  - by right.
  - left. left.
  - left. by right.
  - destruct (IH Hin) as [H'|H']; [left; by right|by right].
Qed.

Lemma odict_set_keys d k v k' : k' ∈ (odict_set d k v).*1 <-> k' = k \/ k' ∈ d.*1.
Proof.
  induction d as [|[k0 w] d IH]; cbn; [rewrite list_elem_of_singleton, elem_of_nil; tauto|].
  destruct (decide (k = k0)) as [->|]; cbn; rewrite ?elem_of_cons, ?IH; tauto.
Qed.

Lemma odict_set_NoDup d k v : NoDup d.*1 -> NoDup (odict_set d k v).*1.
Proof.
  induction d as [|[k0 w] d IH]; cbn; [intros; apply NoDup_singleton|].
  intros [Hk0 Hd]%NoDup_cons. destruct (decide (k = k0)); cbn; apply NoDup_cons; [done|].
  split; [|auto]. rewrite odict_set_keys. naive_solver.
Qed.

(** The values of the dict are the items, one per key. *)
Lemma odict_of_spec key l :
  NoDup (odict_of key l).*1 /\
  (forall k v, (k, v) ∈ odict_of key l -> v ∈ l /\ key v = k) /\
  (forall x, x ∈ l -> key x ∈ (odict_of key l).*1).
Proof.
  unfold odict_of.
  assert (Hg : forall acc, NoDup acc.*1 ->
    let d := fold_left (fun d x => odict_set d (key x) x) l acc in
    NoDup d.*1 /\
    (forall k v, (k, v) ∈ d -> (k, v) ∈ acc \/ (v ∈ l /\ key v = k)) /\
    (forall k, k ∈ acc.*1 -> k ∈ d.*1) /\ (forall x, x ∈ l -> key x ∈ d.*1)).
  { induction l as [|x l IH]; intros acc Hacc; cbn.
    - split_and!; [done|auto|done|by intros x Hx%not_elem_of_nil].
    - destruct (IH (odict_set acc (key x) x)) as (H1 & H2 & H3 & H4); [by apply odict_set_NoDup|].
      split_and!; [done| | |].
      + intros k v Hkv. rewrite elem_of_cons. destruct (H2 k v Hkv) as [Hin|?]; [|naive_solver].
        apply elem_of_odict_set in Hin. naive_solver.
      + intros k Hk. apply H3, odict_set_keys. auto.
      + intros y [->|Hy]%elem_of_cons; [apply H3, odict_set_keys; auto|auto]. }
  destruct (Hg []) as (H1 & H2 & _ & H4); [constructor|]. split_and!; [done| |done].
  intros k v Hkv. destruct (H2 k v Hkv) as [?%not_elem_of_nil|?]; done.
Qed.

Lemma odict_get_ex key (l : list V) k (P : V -> Prop) :
  NoDup (key <$> l) ->
  (exists x, x ∈ l /\ key x = k /\ P x) <->
  match odict_get k (odict_of key l) with Some x => P x | None => False end.
Proof.
  intros Hnd. split.
  - intros (x & Hx & Hk & HP). by rewrite (proj2 (odict_get_NoDup key l k x Hnd) (conj Hx Hk)).
  - destruct (odict_get _ _) as [x|] eqn:E; [|done].
    apply odict_get_NoDup in E as [? ?]; [eauto|done].
Qed.
End ordered_dict.

(** Insertion keeps a Python dict's keys distinct. *)
Fixpoint keys_distinct (v : pyval) : bool :=
  match v with
  | VList l => forallb keys_distinct l
  | VDict d => bool_decide (NoDup d.*1) && forallb (fun kv => keys_distinct (snd kv)) d
  | _ => true
  end.

(** ** Equality and truth

    [True == 1 == 1.0]: booleans, integers and floats compare by value; dicts
    compare as maps, whatever their insertion order. *)
Definition numeric (v : pyval) : option (Z * Z) :=
  match v with
  | VBool b => Some (if b then 1 else 0, 0)%Z
  | VInt z => Some (z, 0)%Z
  | VFloat m e => Some (m, e)
  | _ => None
  end.

Definition numeric_eqb (x y : Z * Z) : bool :=
  let low := Z.min (snd x) (snd y) in
  (fst x * 2 ^ (snd x - low) =? fst y * 2 ^ (snd y - low))%Z.

Fixpoint py_eq (a b : pyval) : bool :=
  match a, b with
  | VNone, VNone => true
  | VStr s, VStr t => String.eqb s t
  | VList l, VList k =>
      (fix go (l k : list pyval) : bool :=
         match l, k with
         | [], [] => true
         | x :: l', y :: k' => py_eq x y && go l' k'
         | _, _ => false
         end) l k
  | VDict d, VDict e =>
      Nat.eqb (length d) (length e) &&
      forallb (fun kv => match assoc (fst kv) e with
                         | Some w => py_eq (snd kv) w
                         | None => false
                         end) d
  | _, _ =>
      match numeric a, numeric b with
      | Some x, Some y => numeric_eqb x y
      | _, _ => false
      end
  end.

Lemma numeric_eqb_refl x : numeric_eqb x x = true.
Proof. unfold numeric_eqb. apply Z.eqb_refl. Qed.

(** A value compares equal to itself when its dicts have distinct keys, as
    every Python dict has. *)
Lemma py_eq_refl v : keys_distinct v = true -> py_eq v v = true.
Proof.
  induction v as [|b|z|m e|s|l IH|d IH] using pyval_ind'; cbn; intros Hk;
    try apply numeric_eqb_refl; [done|apply String.eqb_refl| |].
  - induction IH as [|x l Hx _ IHl]; cbn in *; [done|].
    apply andb_true_iff in Hk as [Hkx Hkl]. by rewrite Hx, IHl.
  - apply andb_true_iff in Hk as [Hnd%bool_decide_eq_true Hk].
    rewrite Nat.eqb_refl. cbn. apply forallb_elem_of. intros [k w] Hin. cbn.
    rewrite (assoc_NoDup d k w Hnd Hin).
    rewrite forallb_elem_of in Hk. specialize (Hk _ Hin).
    rewrite Forall_forall in IH. by apply (IH (k, w)).
Qed.

(** The value under a key of a well-formed dict is well-formed. *)
Lemma dict_get_distinct d k :
  keys_distinct (VDict d) = true -> keys_distinct (dict_get d k) = true.
Proof.
  intros [_ Hd]%andb_true_iff. unfold dict_get. destruct (assoc k d) as [v|] eqn:Ek; [|done].
  rewrite forallb_elem_of in Hd. by apply (Hd (k, v)), assoc_elem_of.
Qed.

Definition truthy (v : pyval) : bool :=
  match v with
  | VNone => false
  | VBool b => b
  | VInt z => negb (z =? 0)%Z
  | VFloat m _ => negb (m =? 0)%Z
  | VStr s => negb (String.eqb s "")
  | VList l => match l with [] => false | _ => true end
  | VDict d => match d with [] => false | _ => true end
  end.

(** [a or b]. *)
Definition py_or (a b : pyval) : pyval := if truthy a then a else b.

(** ** Strings *)

Definition is_space (c : ascii) : bool :=
  let n := nat_of_ascii c in
  (Nat.leb 9 n && Nat.leb n 13) || (Nat.leb 28 n && Nat.leb n 32)
  || Nat.eqb n 133 || Nat.eqb n 160.

Fixpoint drop_space (l : list ascii) : list ascii :=
  match l with
  | c :: r => if is_space c then drop_space r else l
  | [] => []
  end.

Definition strip (s : string) : string :=
  String.string_of_list_ascii
    (rev (drop_space (rev (drop_space (String.list_ascii_of_string s))))).

Lemma drop_space_last l c : is_space c = false -> exists l', drop_space (l ++ [c]) = l' ++ [c].
Proof.
  intros Hc. induction l as [|d l IH]; cbn; [rewrite Hc; by exists []|].
  destruct (is_space d); [done|]. by exists (d :: l).
Qed.

Lemma drop_space_idem l : drop_space (drop_space l) = drop_space l.
Proof. induction l as [|c l IH]; cbn; [done|]. destruct (is_space c) eqn:Hc; [done|]. cbn. by rewrite Hc. Qed.

Lemma drop_space_head l : match drop_space l with c :: _ => is_space c = false | [] => True end.
Proof. induction l as [|c l IH]; cbn; [done|]. by destruct (is_space c) eqn:Hc. Qed.

(** Stripping twice is stripping once. *)
Lemma strip_strip s : strip (strip s) = strip s.
Proof.
  unfold strip. rewrite String.list_ascii_of_string_of_list_ascii. f_equal.
  pose proof (drop_space_head (String.list_ascii_of_string s)) as Hhead.
  destruct (drop_space (String.list_ascii_of_string s)) as [|c l]; [done|]. cbn [rev].
  destruct (drop_space_last (rev l) c Hhead) as [l' Hl']. rewrite Hl', rev_app_distr. cbn [rev app drop_space].
  rewrite Hhead. cbn [rev]. rewrite rev_involutive, <- Hl', drop_space_idem, Hl', rev_app_distr. done.
Qed.

Definition ascii_lower (c : ascii) : ascii :=
  let n := nat_of_ascii c in
  if Nat.leb 65 n && Nat.leb n 90 then ascii_of_nat (n + 32) else c.
Definition ascii_upper (c : ascii) : ascii :=
  let n := nat_of_ascii c in
  if Nat.leb 97 n && Nat.leb n 122 then ascii_of_nat (n - 32) else c.
Definition ascii_alpha (c : ascii) : bool :=
  let n := nat_of_ascii c in
  (Nat.leb 65 n && Nat.leb n 90) || (Nat.leb 97 n && Nat.leb n 122).

Definition map_string (f : ascii -> ascii) (s : string) : string :=
  String.string_of_list_ascii (f <$> String.list_ascii_of_string s).
Definition lower : string -> string := map_string ascii_lower.
Definition upper : string -> string := map_string ascii_upper.
Definition isalpha (s : string) : bool :=
  negb (String.eqb s "") && forallb ascii_alpha (String.list_ascii_of_string s).

Definition nonempty (s : string) : bool := negb (String.eqb s "").

(** [sep.join(items)]. *)
Definition join (sep : string) (items : list string) : string := String.concat sep items.

(** [s.replace("Z", "+00:00")]. *)
Fixpoint replace_Z (s : string) : string :=
  match s with
  | String.EmptyString => ""
  | String.String c r => if Ascii.eqb c "Z" then "+00:00" +:+ replace_Z r else String.String c (replace_Z r)
  end.

(** [str(uuid)]: 32 lower-case hexadecimal digits in groups of 8-4-4-4-12. *)
Definition hex_digit (n : N) : ascii :=
  ascii_of_N (if (n <? 10)%N then 48 + n else 87 + n)%N.

Fixpoint hex_digits (k : nat) (n : N) : list ascii :=
  match k with
  | O => []
  | S k' => hex_digit (N.land (N.shiftr n (4 * N.of_nat k')) 15) :: hex_digits k' n
  end.

Definition uuid_str (u : uuid) : string :=
  let h := hex_digits 32 u in
  let part i n := String.string_of_list_ascii (take n (drop i h)) in
  join "-" [part 0 8; part 8 4; part 12 4; part 16 4; part 20 12].

(** [uuid.hex] *)
Definition uuid_hex (u : uuid) : string := String.string_of_list_ascii (hex_digits 32 u).

(** The bounds a [Field] sets on a text. *)
Definition sized (lo hi : nat) (s : string) : bool :=
  Nat.leb lo (String.length s) && Nat.leb (String.length s) hi.
Definition sized_opt (hi : nat) (o : option string) : bool :=
  match o with Some s => sized 0 hi s | None => true end.

Definition invalid {A} : result A := raise ValueError "validation error".

Definition int_str (z : Z) : string := pretty z.

(** ** Stable sorting, [sorted(items, key=...)] *)

Section sorting.
Context {A : Type} (cmp : A -> A -> comparison).

Fixpoint insert_by (x : A) (l : list A) : list A :=
  match l with
  | [] => [x]
  | y :: r => match cmp x y with Gt => y :: insert_by x r | _ => x :: l end
  end.

Fixpoint sort_by (l : list A) : list A :=
  match l with
  | [] => []
  | x :: r => insert_by x (sort_by r)
  end.

Lemma insert_by_perm x l : Permutation (insert_by x l) (x :: l).
Proof.
  induction l as [|y l IH]; cbn; [done|].
  destruct (cmp x y); [done|done|]. rewrite IH. constructor.
Qed.

Lemma sort_by_perm l : Permutation (sort_by l) l.
Proof. induction l; cbn; [done|]. rewrite insert_by_perm. by f_equiv. Qed.

Lemma elem_of_sort_by x l : x ∈ sort_by l <-> x ∈ l.
Proof. by rewrite sort_by_perm. Qed.

Lemma sort_by_nil_inv l : sort_by l = [] -> l = [].
Proof. intros H. apply Permutation_nil. by rewrite <- (sort_by_perm l), H. Qed.

Lemma length_sort_by l : length (sort_by l) = length l.
Proof. by rewrite sort_by_perm. Qed.

(** A list already in order is left as it is. *)
Lemma sort_by_id l :
  (forall i j x y, (i < j)%nat -> l !! i = Some x -> l !! j = Some y -> cmp x y <> Gt) ->
  sort_by l = l.
Proof.
  induction l as [|x l IH]; intros H; cbn; [done|].
  rewrite IH; [|intros i j a b Hij Ha Hb; apply (H (S i) (S j)); [lia|done|done]].
  destruct l as [|y l]; cbn; [done|].
  destruct (cmp x y) eqn:E; try done.
  exfalso. by apply (H 0%nat 1%nat x y); [lia| | |].
Qed.
End sorting.

(** Sorting by an integer key, [ORDER BY sequence]: the result is in order of
    the key, so it is determined by the rows when their keys are distinct. *)
Section sort_key.
Context {A : Type} (key : A -> Z).

Definition cmp_key (x y : A) : comparison := Z.compare (key x) (key y).

Lemma insert_by_key_sorted x l :
  StronglySorted (fun a b => key a <= key b)%Z l ->
  StronglySorted (fun a b => key a <= key b)%Z (insert_by cmp_key x l).
Proof.
  induction 1 as [|y l Hl IH Hy]; cbn; [by repeat constructor|].
  unfold cmp_key at 1. destruct (Z.compare_spec (key x) (key y)) as [E|E|E].
  - constructor; [by constructor|]. constructor; [lia|].
    eapply Forall_impl; [exact Hy|]. cbn. lia.
  - constructor; [by constructor|]. constructor; [lia|].
    eapply Forall_impl; [exact Hy|]. cbn. lia.
  - constructor; [done|]. rewrite insert_by_perm. constructor; [lia|done].
Qed.

Lemma sort_by_key_sorted l : StronglySorted (fun a b => key a <= key b)%Z (sort_by cmp_key l).
Proof. induction l; cbn; [constructor|]. by apply insert_by_key_sorted. Qed.

Lemma sort_by_key_unique l l' :
  Permutation l l' -> StronglySorted (fun a b => key a < key b)%Z l' -> sort_by cmp_key l = l'.
Proof.
  intros Hp Hs.
  assert (Hinj : forall x y, x ∈ l' -> y ∈ l' -> key x = key y -> x = y).
  { clear Hp. induction Hs as [|z l' _ IH Hz]; [by intros ? ? ?%not_elem_of_nil|].
    rewrite Forall_forall in Hz. intros x y [->|Hx]%elem_of_cons [->|Hy]%elem_of_cons E;
      [done|specialize (Hz _ Hy); lia|specialize (Hz _ Hx); lia|auto]. }
  apply (StronglySorted_unique_strong (fun a b => key a <= key b)%Z).
  - intros x y Hx Hy ? ?. apply Hinj; [|done|lia]. by rewrite <- Hp, <- (sort_by_perm cmp_key l).
  - apply sort_by_key_sorted.
  - clear Hp Hinj. induction Hs as [|z l' _ IH Hz]; constructor; [done|].
    eapply Forall_impl; [exact Hz|]. cbn. lia.
  - by rewrite sort_by_perm.
Qed.
End sort_key.

(** Lexicographic comparison of tuples. *)
Definition cmp_then (a b : comparison) : comparison :=
  match a with Eq => b | _ => a end.

(** [dict.fromkeys(items)] *)
Fixpoint fromkeys (seen items : list string) : list string :=
  match items with
  | [] => seen
  | x :: rest => fromkeys (if bool_decide (x ∈ seen) then seen else seen ++ [x]) rest
  end.

(** ** The platform interface *)

Inductive datetime :=
  | Naive (wall : Z)
  | Aware (wall offset : Z).

Class Platform := {
  (** [uuid.uuid5(namespace, name)] *)
  uuid5_in : uuid -> string -> uuid;
  (** [hashlib.sha256(content).hexdigest()], a character of [content] being a byte *)
  sha256_bytes : string -> string;
  (** [datetime.fromisoformat], [None] standing for its [ValueError] *)
  fromisoformat : string -> option datetime;
  (** [datetime.isoformat] of a UTC datetime *)
  isoformat : instant -> string;
  (** the text [model_dump(mode="json")] gives a UTC datetime *)
  json_datetime : instant -> string;
  (** [str(v)] of floats, lists and dicts, and the float literal of JSON *)
  py_repr : pyval -> string;
}.

(** [uuid.NAMESPACE_URL] *)
Definition NAMESPACE_URL : uuid := 0x6ba7b8119dad11d180b400c04fd430c8%N.

(** [text.encode("utf-8")]: a character of a text is a code point below 256, a
    character of the result a byte. *)
Definition encode_char (c : ascii) : list ascii :=
  let n := N_of_ascii c in
  if (n <? 128)%N then [c] else [ascii_of_N (192 + N.shiftr n 6); ascii_of_N (128 + N.land n 63)].
Definition encode (s : string) : string :=
  String.string_of_list_ascii (String.list_ascii_of_string s ≫= encode_char).

Section with_platform.
Context `{Platform}.

(** [uuid5(NAMESPACE_URL, name)] *)
Definition uuid5 (name : string) : uuid := uuid5_in NAMESPACE_URL name.

(** [hashlib.sha256(text.encode()).hexdigest()] *)
Definition sha256_hex (text : string) : string := sha256_bytes (encode text).

(** [str(v)]. *)
Definition py_str (v : pyval) : string :=
  match v with
  | VNone => "None"
  | VBool b => if b then "True" else "False"
  | VInt z => int_str z
  | VStr s => s
  | _ => py_repr v
  end.

(** [json.dumps(v, sort_keys=True, separators=(",", ":"))]: non-ASCII characters
    are escaped, or kept when [ensure_ascii=False]. *)
Definition json_char (c : ascii) : string :=
  let code := nat_of_ascii c in
  if Nat.eqb code 34 then "\" +:+ String.String c "" else
  if Nat.eqb code 92 then "\\" else
  if Nat.eqb code 8 then "\b" else if Nat.eqb code 9 then "\t" else
  if Nat.eqb code 10 then "\n" else if Nat.eqb code 12 then "\f" else
  if Nat.eqb code 13 then "\r" else
  if Nat.ltb code 32 || Nat.ltb 126 code
  then "\u" +:+ String.string_of_list_ascii (hex_digits 4 (N.of_nat code))
  else String.String c "".

Definition json_char_raw (c : ascii) : string :=
  if Nat.ltb 126 (nat_of_ascii c) then String.String c "" else json_char c.

Definition json_quote (char : ascii -> string) (s : string) : string :=
  let q := String.String (ascii_of_nat 34) "" in
  q +:+ String.concat "" (char <$> String.list_ascii_of_string s) +:+ q.

Definition json_string : string -> string := json_quote json_char.

(** The encoder, over the way strings are quoted. *)
Fixpoint json_encode (quote : string -> string) (v : pyval) : string :=
  match v with
  | VNone => "null"
  | VBool b => if b then "true" else "false"
  | VInt z => int_str z
  | VFloat _ _ => py_repr v
  | VStr s => quote s
  | VList l => "[" +:+ join "," (map (json_encode quote) l) +:+ "]"
  | VDict d =>
      let fields := map (fun kv => (fst kv, quote (fst kv) +:+ ":" +:+ json_encode quote (snd kv))) d in
      let ordered := sort_by (fun x y => String.compare (fst x) (fst y)) fields in
      "{" +:+ join "," (map snd ordered) +:+ "}"
  end.

Definition json_dumps : pyval -> string := json_encode json_string.

Definition json_digest (v : pyval) : string := sha256_hex (json_dumps v).
End with_platform.
