(* ===== verification/CPython.v ===== *)
(** * A concrete platform

    An executable instance of [Platform]: SHA-1 and SHA-256 as FIPS 180-4
    defines them, [uuid.uuid5] over any namespace, and the ISO-8601 forms
    [YYYY-MM-DD], [YYYY-MM-DDTHH:MM:SS] with an optional [+HH:MM] offset (other
    inputs of [datetime.fromisoformat] are refused by this instance).  Only the
    witnesses evaluate it; every theorem is proved for an arbitrary platform. *)

From stdpp Require Import base strings list.
From Stdlib Require Import ZArith NArith Ascii.
From Stdlib Require String.
From S2P Require Import Prelude Python.

Open Scope N_scope.
Open Scope list_scope.

(** ** Bytes and words *)

Definition bytes_of (s : string) : list N := N_of_ascii <$> String.list_ascii_of_string s.
Definition utf8 (s : string) : list N := bytes_of (encode s).

Definition mask32 (x : N) : N := N.land x 4294967295.
Definition rotl (k x : N) : N := mask32 (N.lor (N.shiftl x k) (N.shiftr x (32 - k))).
Definition rotr (k x : N) : N := rotl (32 - k) x.
Definition not32 (x : N) : N := N.lxor x 4294967295.
Definition add32 (x y : N) : N := mask32 (x + y).

Fixpoint big_endian (k : nat) (n : N) : list N :=
  match k with
  | O => []
  | S k' => N.land (N.shiftr n (8 * N.of_nat k')) 255 :: big_endian k' n
  end.
Definition of_big_endian (l : list N) : N := fold_left (fun acc b => 256 * acc + b) l 0.

Definition padded (msg : list N) : list N :=
  let len := length msg in
  let zeros := Nat.modulo (120 - Nat.modulo (S len) 64) 64 in
  msg ++ 128 :: replicate zeros 0 ++ big_endian 8 (8 * N.of_nat len).

Fixpoint chunks (fuel n : nat) (l : list N) : list (list N) :=
  match fuel, l with
  | O, _ | _, [] => []
  | S f, _ => take n l :: chunks f n (drop n l)
  end.
Definition block_words (b : list N) : list N := of_big_endian <$> chunks 16 4 b.
Definition blocks (msg : list N) : list (list N) :=
  let p := padded msg in block_words <$> chunks (S (length p)) 64 p.

Definition word_at (i : nat) (w : list N) : N := default 0 (w !! i).

(** ** SHA-1 *)

Definition sha1_f (t : nat) (b c d : N) : N * N :=
  if Nat.ltb t 20 then (N.lxor d (N.land b (N.lxor c d)), 1518500249)
  else if Nat.ltb t 40 then (N.lxor b (N.lxor c d), 1859775393)
  else if Nat.ltb t 60
  then (N.lor (N.land b c) (N.lor (N.land b d) (N.land c d)), 2400959708)
  else (N.lxor b (N.lxor c d), 3395469782).

Fixpoint sha1_rounds (n t : nat) (w : list N) (st : N * N * N * N * N) : N * N * N * N * N :=
  match n with
  | O => st
  | S n' =>
      let '(a, b, c, d, e) := st in
      let '(f, k) := sha1_f t b c d in
      let tmp := mask32 (rotl 5 a + f + e + k + word_at 0 w) in
      let next := rotl 1 (N.lxor (N.lxor (word_at 13 w) (word_at 8 w))
                                 (N.lxor (word_at 2 w) (word_at 0 w))) in
      sha1_rounds n' (S t) (drop 1 w ++ [next]) (tmp, a, rotl 30 b, c, d)
  end.

Definition sha1_block (h : N * N * N * N * N) (w : list N) : N * N * N * N * N :=
  let '(h0, h1, h2, h3, h4) := h in
  let '(a, b, c, d, e) := sha1_rounds 80 0 w h in
  (add32 h0 a, add32 h1 b, add32 h2 c, add32 h3 d, add32 h4 e).

Definition sha1 (msg : list N) : list N :=
  let '(a, b, c, d, e) :=
    fold_left sha1_block (blocks msg)
      (1732584193, 4023233417, 2562383102, 271733878, 3285377520) in
  [a; b; c; d; e] ≫= big_endian 4.

(** ** SHA-256 *)

Definition sha256_k : list N := [
  1116352408; 1899447441; 3049323471; 3921009573; 961987163; 1508970993; 2453635748; 2870763221;
  3624381080; 310598401; 607225278; 1426881987; 1925078388; 2162078206; 2614888103; 3248222580;
  3835390401; 4022224774; 264347078; 604807628; 770255983; 1249150122; 1555081692; 1996064986;
  2554220882; 2821834349; 2952996808; 3210313671; 3336571891; 3584528711; 113926993; 338241895;
  666307205; 773529912; 1294757372; 1396182291; 1695183700; 1986661051; 2177026350; 2456956037;
  2730485921; 2820302411; 3259730800; 3345764771; 3516065817; 3600352804; 4094571909; 275423344;
  430227734; 506948616; 659060556; 883997877; 958139571; 1322822218; 1537002063; 1747873779;
  1955562222; 2024104815; 2227730452; 2361852424; 2428436474; 2756734187; 3204031479; 3329325298].

Definition small_sigma (a b s x : N) : N := N.lxor (rotr a x) (N.lxor (rotr b x) (N.shiftr x s)).
Definition big_sigma (a b c x : N) : N := N.lxor (rotr a x) (N.lxor (rotr b x) (rotr c x)).

Definition sha256_round (st : list N * (N * N * N * N * N * N * N * N)) (k : N) :=
  let '(w, (a, b, c, d, e, f, g, h)) := st in
  let ch := N.lxor (N.land e f) (N.land (not32 e) g) in
  let t1 := h + big_sigma 6 11 25 e + ch + k + word_at 0 w in
  let maj := N.lxor (N.land a b) (N.lxor (N.land a c) (N.land b c)) in
  let t2 := big_sigma 2 13 22 a + maj in
  let next := mask32 (small_sigma 17 19 10 (word_at 14 w) + word_at 9 w
                      + small_sigma 7 18 3 (word_at 1 w) + word_at 0 w) in
  (drop 1 w ++ [next], (mask32 (t1 + t2), a, b, c, mask32 (d + t1), e, f, g)).

Definition sha256_block (s : list N) (w : list N) : list N :=
  let start := (word_at 0 s, word_at 1 s, word_at 2 s, word_at 3 s,
                word_at 4 s, word_at 5 s, word_at 6 s, word_at 7 s) in
  let '(_, (a, b, c, d, e, f, g, h)) := fold_left sha256_round sha256_k (w, start) in
  zip_with add32 s [a; b; c; d; e; f; g; h].

Definition sha256 (msg : list N) : list N :=
  fold_left sha256_block (blocks msg)
    [1779033703; 3144134277; 1013904242; 2773480762; 1359893119; 2600822924; 528734635; 1541459225]
  ≫= big_endian 4.

Definition hexdigest (bytes : list N) : string :=
  String.string_of_list_ascii (bytes ≫= (fun b => hex_digits 2 b)).

(** ** [uuid.uuid5] *)

Definition cpython_uuid5 (namespace : uuid) (name : string) : uuid :=
  let n := of_big_endian (take 16 (sha1 (big_endian 16 namespace ++ utf8 name))) in
  let versioned := N.lor (N.ldiff n (N.shiftl 15 76)) (N.shiftl 5 76) in
  N.lor (N.ldiff versioned (N.shiftl 3 62)) (N.shiftl 2 62).

(** ** ISO-8601 *)

Definition digit (c : ascii) : option Z :=
  let n := N_of_ascii c in
  if (48 <=? n) && (n <=? 57) then Some (Z.of_N (n - 48)) else None.

Definition two_digits (a b : ascii) : option Z :=
  x ← digit a; y ← digit b; Some (10 * x + y)%Z.

Definition days_from_civil (y m d : Z) : Z :=
  let y' := (if m <=? 2 then y - 1 else y)%Z in
  let era := (y' / 400)%Z in
  let yoe := (y' - era * 400)%Z in
  let doy := ((153 * (m + (if m <=? 2 then 9 else -3)) + 2) / 5 + d - 1)%Z in
  (era * 146097 + (yoe * 365 + yoe / 4 - yoe / 100 + doy) - 719468)%Z.

Definition parse_date (l : list ascii) : option (Z * list ascii) :=
  match l with
  | a :: b :: c :: d :: "-"%char :: e :: f :: "-"%char :: g :: h :: r =>
      y1 ← two_digits a b; y2 ← two_digits c d; m ← two_digits e f; day ← two_digits g h;
      if ((1 <=? m) && (m <=? 12) && (1 <=? day) && (day <=? 31))%Z
      then Some (days_from_civil (100 * y1 + y2) m day, r) else None
  | _ => None
  end.

Definition parse_time (l : list ascii) : option (Z * list ascii) :=
  match l with
  | "T"%char :: a :: b :: ":"%char :: c :: d :: ":"%char :: e :: f :: r =>
      h ← two_digits a b; m ← two_digits c d; s ← two_digits e f;
      if ((h <=? 23) && (m <=? 59) && (s <=? 59))%Z
      then Some (h * 3600 + m * 60 + s, r)%Z else None
  | _ => None
  end.

Definition parse_offset (l : list ascii) : option Z :=
  match l with
  | sign :: a :: b :: ":"%char :: c :: d :: [] =>
      h ← two_digits a b; m ← two_digits c d;
      if Ascii.eqb sign "+" then Some (h * 3600 + m * 60)%Z
      else if Ascii.eqb sign "-" then Some (- (h * 3600 + m * 60))%Z else None
  | _ => None
  end.

Definition cpython_fromisoformat (s : string) : option datetime :=
  '(day, rest) ← parse_date (String.list_ascii_of_string s);
  match rest with
  | [] => Some (Naive (day * 86400 * 1000000)%Z)
  | _ =>
      '(sec, rest') ← parse_time rest;
      let wall := ((day * 86400 + sec) * 1000000)%Z in
      match rest' with
      | [] => Some (Naive wall)
      | _ => off ← parse_offset rest'; Some (Aware wall (off * 1000000)%Z)
      end
  end.

(** The microsecond count, injective like the ISO text it stands for. *)
Definition cpython_isoformat (at_ : instant) : string := int_str at_ +:+ "us".

(** The text of composite values, enough to make the instance total. *)
Fixpoint cpython_repr (v : pyval) : string :=
  match v with
  | VNone => "None"
  | VBool b => if b then "True" else "False"
  | VInt z => int_str z
  | VFloat m e => int_str m +:+ "*2^" +:+ int_str e
  | VStr s => "'" +:+ s +:+ "'"
  | VList l => "[" +:+ join ", " (map cpython_repr l) +:+ "]"
  | VDict d => "{" +:+ join ", " (map (fun kv => "'" +:+ fst kv +:+ "': " +:+ cpython_repr (snd kv)) d) +:+ "}"
  end.

#[export] Instance cpython : Platform := {
  uuid5_in := cpython_uuid5;
  sha256_bytes s := hexdigest (sha256 (bytes_of s));
  fromisoformat := cpython_fromisoformat;
  isoformat := cpython_isoformat;
  json_datetime := cpython_isoformat;
  py_repr := cpython_repr;
}.

(** Test vectors: FIPS 180-4 [abc], and Python's own answers. *)
Example sha1_abc : hexdigest (sha1 (utf8 "abc")) = "a9993e364706816aba3e25717850c26c9cd0d89d"%string.
Proof. vm_compute. reflexivity. Qed.

Example sha256_abc :
  hexdigest (sha256 (utf8 "abc"))
  = "ba7816bf8f01cfea414140de5dae2223b00361a396177a9cb410ff61f20015ad"%string.
Proof. vm_compute. reflexivity. Qed.

Example uuid5_example_org :
  uuid_str (uuid5 "http://example.org/") = "715d503b-5f95-5532-9100-00663eb45ade"%string.
Proof. vm_compute. reflexivity. Qed.

Example fromisoformat_offset :
  cpython_fromisoformat "2026-01-01T02:00:00+02:00"
  = Some (Aware 1767232800000000 7200000000).
Proof. vm_compute. reflexivity. Qed.
