(* ===== verification/Uuid.v ===== *)
(** * Reading a UUID, [UUID(text)]

    The inverse of [str(uuid)], as the engines use it on identifiers kept in
    postconditions: hyphens are dropped and 32 hexadecimal digits read.  The
    [urn:], [uuid:] and brace decorations Python also accepts are refused. *)

From stdpp Require Import base strings list.
From Stdlib Require Import NArith Ascii Lia.
From S2P Require Import Prelude Python.

Open Scope N_scope.

Definition hex_value (c : ascii) : option N :=
  let n := N_of_ascii c in
  if (48 <=? n) && (n <=? 57) then Some (n - 48) else
  if (97 <=? n) && (n <=? 102) then Some (n - 87) else
  if (65 <=? n) && (n <=? 70) then Some (n - 55) else None.

Fixpoint read_hex (digits : list ascii) (acc : N) : option N :=
  match digits with
  | [] => Some acc
  | c :: r => match hex_value c with Some d => read_hex r (16 * acc + d) | None => None end
  end.

Definition hyphen : ascii := "-"%char.

Definition UUID_of (text : string) : result uuid :=
  let digits := List.filter (fun c => negb (Ascii.eqb c hyphen)) (String.list_ascii_of_string text) in
  match (if Nat.eqb (length digits) 32 then read_hex digits 0 else None) with
  | Some u => Ok u
  | None => raise ValueError "badly formed hexadecimal UUID string"
  end.

(** ** Round trip *)

Lemma hex_digit_value n : n < 16 -> hex_value (hex_digit n) = Some n /\ Ascii.eqb (hex_digit n) hyphen = false.
Proof.
  intros Hn. assert (n ∈ N.of_nat <$> seq 0 16) as Hin.
  { apply list_elem_of_fmap. exists (N.to_nat n). split; [lia|]. apply elem_of_seq. lia. }
  revert n Hn Hin. intros n _. cbn. rewrite !elem_of_cons, elem_of_nil.
  intros Hcases. repeat destruct Hcases as [->|Hcases]; try done; vm_compute; split; reflexivity.
Qed.

Lemma digit_small n k : N.land (N.shiftr n k) 15 < 16.
Proof. change 15 with (N.ones 4). rewrite N.land_ones. apply N.mod_lt. done. Qed.

Lemma length_hex_digits k n : length (hex_digits k n) = k.
Proof. induction k as [|k IH]; cbn; [done|]. by rewrite IH. Qed.

Lemma hex_digits_no_hyphen k n : Forall (fun c => Ascii.eqb c hyphen = false) (hex_digits k n).
Proof. induction k; cbn; constructor; [apply hex_digit_value, digit_small|done]. Qed.

Lemma split_digit n k :
  n mod 16 ^ (N.succ k) = 16 ^ k * N.land (N.shiftr n (4 * k)) 15 + n mod 16 ^ k.
Proof.
  change 15 with (N.ones 4). rewrite N.land_ones, N.shiftr_div_pow2.
  change (2 ^ 4) with 16. replace (2 ^ (4 * k)) with (16 ^ k) by (by rewrite N.pow_mul_r).
  rewrite N.pow_succ_r', (N.mul_comm 16). rewrite N.Div0.mod_mul_r. lia.
Qed.

Lemma read_hex_digits k n acc : read_hex (hex_digits k n) acc = Some (acc * 16 ^ N.of_nat k + n mod 16 ^ N.of_nat k).
Proof.
  revert acc. induction k as [|k IH]; intros acc.
  - cbn -[N.modulo]. rewrite N.mod_1_r. f_equal. lia.
  - cbn [hex_digits read_hex]. rewrite (proj1 (hex_digit_value _ (digit_small n _))), IH.
    f_equal. rewrite Nat2N.inj_succ, split_digit, N.pow_succ_r'. nia.
Qed.

Lemma filter_no_hyphen l :
  Forall (fun c => Ascii.eqb c hyphen = false) l -> List.filter (fun c => negb (Ascii.eqb c hyphen)) l = l.
Proof. induction 1 as [|c l Hc _ IH]; cbn; [done|]. rewrite Hc. cbn. by rewrite IH. Qed.

Lemma list_ascii_app a b :
  String.list_ascii_of_string (a +:+ b) = String.list_ascii_of_string a ++ String.list_ascii_of_string b.
Proof.
  induction a as [|c a IH]; [done|].
  change (c :: String.list_ascii_of_string (a +:+ b)
          = c :: String.list_ascii_of_string a ++ String.list_ascii_of_string b).
  by rewrite IH.
Qed.

Lemma uuid_str_digits u :
  List.filter (fun c => negb (Ascii.eqb c hyphen)) (String.list_ascii_of_string (uuid_str u)) = hex_digits 32 u.
Proof.
  unfold uuid_str. remember (hex_digits 32 u) as h eqn:Hh.
  assert (Hno : Forall (fun c => Ascii.eqb c hyphen = false) h) by (rewrite Hh; apply hex_digits_no_hyphen).
  assert (Hlen : length h = 32%nat) by (rewrite Hh; apply length_hex_digits). clear Hh.
  unfold join. cbn [String.concat]. rewrite !list_ascii_app, !String.list_ascii_of_string_of_list_ascii, !List.filter_app.
  change (String.list_ascii_of_string "-") with [hyphen].
  change (List.filter (fun c => negb (Ascii.eqb c hyphen)) [hyphen]) with (@nil ascii). cbn [app].
  rewrite !filter_no_hyphen by (by apply Forall_take, Forall_drop).
  do 32 (destruct h as [|? h]; [discriminate Hlen|]). by destruct h.
Qed.

Lemma UUID_round_trip u : u < 2 ^ 128 -> UUID_of (uuid_str u) = Ok u.
Proof.
  intros Hu. unfold UUID_of. rewrite uuid_str_digits, length_hex_digits, read_hex_digits. cbn [Nat.eqb].
  rewrite N.mul_0_l, N.add_0_l, N.mod_small; [done|]. exact Hu.
Qed.
