(* ===== verification/Store.v ===== *)
(** * Tables

    A table of [persistence.py] is a finite map from its primary key to its
    rows.  [db_get] is [Session.get], [db_add] is [Session.add] followed by the
    flush that refuses a duplicate primary key, [select_where] is an unordered
    [SELECT ... WHERE] (its row order is the map's, as unspecified as SQL's).  A
    transaction is a function from the tables to a result and new tables: when
    it raises, the [with sessions.begin()] block rolls back and the caller's
    tables are the old ones.  Foreign-key constraints, which only add refusals,
    are left to the database. *)

From stdpp Require Import base gmap strings list.
From Stdlib Require Import ZArith.
From S2P Require Import Prelude Python.

Open Scope orch_scope.

Section tables.
Context {K V : Type} `{Countable K}.

Definition db_get (m : gmap K V) (k : K) : option V := m !! k.

Definition db_add (m : gmap K V) (k : K) (v : V) : result (gmap K V) :=
  match m !! k with
  | Some _ => raise IntegrityError "duplicate primary key"
  | None => Ok (<[k := v]> m)
  end.

Definition select_where (P : V -> bool) (m : gmap K V) : list V :=
  List.filter P (map_to_list m).*2.

Lemma elem_of_select_where P (m : gmap K V) v :
  v ∈ select_where P m <-> (exists k, m !! k = Some v) /\ P v = true.
Proof.
  unfold select_where. rewrite list_elem_of_In, filter_In, <- list_elem_of_In.
  f_equiv. rewrite list_elem_of_fmap. split.
  - intros ([k w] & -> & Hin%elem_of_map_to_list). by exists k.
  - intros [k Hk]. exists (k, v). split; [done|]. by apply elem_of_map_to_list.
Qed.

Lemma select_where_nil P (m : gmap K V) :
  select_where P m = [] <-> forall k v, m !! k = Some v -> P v = false.
Proof.
  split.
  - intros Hnil k v Hk. apply not_true_iff_false. intros HP.
    apply (not_elem_of_nil v). rewrite <- Hnil. apply elem_of_select_where. eauto.
  - intros Hall. destruct (select_where P m) as [|v l] eqn:E; [done|].
    assert (v ∈ select_where P m) as [[k Hk] HP]%elem_of_select_where by (rewrite E; left).
    rewrite (Hall k v Hk) in HP. done.
Qed.

Lemma select_where_insert P (m : gmap K V) k v :
  m !! k = None ->
  select_where P (<[k := v]> m) ≡ₚ (if P v then [v] else []) ++ select_where P m.
Proof.
  intros Hk. unfold select_where. rewrite (map_to_list_insert m k v Hk). cbn.
  by destruct (P v).
Qed.

Lemma db_add_Ok (m m' : gmap K V) k v :
  db_add m k v = Ok m' <-> m !! k = None /\ m' = <[k := v]> m.
Proof. unfold db_add, raise. destruct (m !! k); naive_solver. Qed.

(** Rows told apart by an injective test: a selection on it has at most one row. *)
Lemma select_where_unique (P : V -> bool) (m : gmap K V) :
  (forall k1 k2 v1 v2, m !! k1 = Some v1 -> m !! k2 = Some v2 ->
     P v1 = true -> P v2 = true -> k1 = k2) ->
  (length (select_where P m) <= 1)%nat.
Proof.
  intros Hone. unfold select_where.
  assert (Hl : forall l : list (K * V), NoDup l.*1 ->
    (forall kv, kv ∈ l -> m !! kv.1 = Some kv.2) ->
    (length (List.filter P l.*2) <= 1)%nat).
  { intros l. induction l as [|[k v] l IH]; cbn; [lia|].
    intros [Hk Hnd]%NoDup_cons Hin. destruct (P v) eqn:Pv; cbn.
    - rewrite filter_none; [cbn; lia|].
      intros w ([k' w'] & -> & Hw)%list_elem_of_fmap. cbn.
      apply not_true_iff_false. intros Pw. destruct Hk.
      assert (k = k') as ->.
      { eapply Hone; [apply (Hin (k, v)); left|apply (Hin (k', w')); by right|done|done]. }
      apply list_elem_of_fmap. by exists (k', w').
    - apply IH; [done|]. intros kv Hkv. apply Hin. by right. }
  apply Hl; [apply NoDup_fst_map_to_list|]. intros [k v]. apply elem_of_map_to_list.
Qed.

Lemma select_where_filter (P Q : V -> bool) (m : gmap K V) :
  List.filter Q (select_where P m) = select_where (fun v => P v && Q v) m.
Proof.
  unfold select_where. induction (map_to_list m).*2 as [|v l IH]; cbn; [done|].
  destruct (P v); cbn; [destruct (Q v); by rewrite IH|done].
Qed.

(** A table whose rows are stored under the key they carry. *)
Definition keyed (key : V -> K) (m : gmap K V) : Prop :=
  map_Forall (fun k v => key v = k) m.

Lemma keyed_insert key (m : gmap K V) v : keyed key m -> keyed key (<[key v := v]> m).
Proof. intros Hm. by apply map_Forall_insert_2. Qed.

Lemma select_where_NoDup key (m : gmap K V) P : keyed key m -> NoDup (key <$> select_where P m).
Proof.
  intros Hm. unfold select_where. apply NoDup_fmap_filter.
  rewrite <- list_fmap_compose.
  rewrite (list_fmap_ext _ fst); [apply NoDup_fst_map_to_list|].
  intros i [k v] Hi. cbn. apply (Hm k v), elem_of_map_to_list.
  by eapply list_elem_of_lookup_2.
Qed.

Lemma keyed_empty key : keyed key (∅ : gmap K V).
Proof. apply map_Forall_empty. Qed.
End tables.

Create HintDb orch.
#[export] Hint Resolve keyed_insert keyed_empty : orch.

(** [map] with an effect: Python's comprehension over a function that may raise. *)
Fixpoint traverse {A B} (f : A -> result B) (l : list A) : result (list B) :=
  match l with
  | [] => Ok []
  | x :: r => let! y := f x in let! ys := traverse f r in Ok (y :: ys)
  end.

Lemma traverse_Ok {A B} (f : A -> result B) l ys :
  traverse f l = Ok ys <-> Forall2 (fun x y => f x = Ok y) l ys.
Proof.
  revert ys. induction l as [|x l IH]; intros ys; cbn.
  - split; [intros; inv_ok; subst; constructor|]. by inversion 1.
  - split.
    + intros Hb. inv_ok. subst. constructor; [done|]. by apply IH.
    + inversion_clear 1 as [|? y ? ys' Hy Hys]. rewrite Hy. cbn.
      by rewrite (proj2 (IH ys') Hys).
Qed.

Lemma traverse_total {A B} (f : A -> result B) l (g : A -> B) :
  (forall x, x ∈ l -> f x = Ok (g x)) -> traverse f l = Ok (g <$> l).
Proof.
  induction l as [|x l IH]; intros Hf; cbn; [done|].
  rewrite (Hf x) by left. cbn. rewrite IH; [done|]. intros y Hy. apply Hf. by right.
Qed.

Lemma traverse_elem_of {A B} (f : A -> result B) l ys y :
  traverse f l = Ok ys -> y ∈ ys -> exists x, x ∈ l /\ f x = Ok y.
Proof.
  intros Hf%traverse_Ok. induction Hf as [|x z l ys Hx _ IH]; [by intros ?%not_elem_of_nil|].
  intros [->|Hy]%elem_of_cons; [exists x; split; [left|done]|].
  destruct (IH Hy) as (x' & ? & ?). exists x'. split; [by right|done].
Qed.

Lemma traverse_elem_of_l {A B} (f : A -> result B) l ys x :
  traverse f l = Ok ys -> x ∈ l -> exists y, y ∈ ys /\ f x = Ok y.
Proof.
  intros Hf%traverse_Ok [i Hi]%list_elem_of_lookup.
  destruct (Forall2_lookup_l _ _ _ _ _ Hf Hi) as (y & Hy & ?).
  exists y. split; [by eapply list_elem_of_lookup_2|done].
Qed.

Lemma traverse_defined {A B} (f : A -> result B) l :
  (forall x, x ∈ l -> exists y, f x = Ok y) -> exists ys, traverse f l = Ok ys.
Proof.
  induction l as [|x l IH]; intros Hf; cbn; [by eexists|].
  destruct (Hf x) as [y ->]; [left|].
  destruct IH as [ys ->]; [intros; apply Hf; by right|]. by eexists.
Qed.

(** [.scalar_one_or_none()] *)
Definition one_or_none {A} (rows : list A) : result (option A) :=
  match rows with
  | [] => Ok None
  | [row] => Ok (Some row)
  | _ => raise MultipleResultsFound "Multiple rows were found when one or none was required"
  end.

Lemma one_or_none_Ok {A} (l : list A) o :
  one_or_none l = Ok o -> l = match o with Some a => [a] | None => [] end.
Proof. destruct l as [|a [|b l]]; cbn; intros [= <-]; done. Qed.

Lemma select_one_or_none {K V} `{Countable K} (P : V -> bool) (t : gmap K V) v :
  one_or_none (select_where P t) = Ok (Some v) -> (exists k, t !! k = Some v) /\ P v = true.
Proof. intros Ho%one_or_none_Ok. apply elem_of_select_where. rewrite Ho. left. Qed.

(** A loop over a list that threads a state and may raise. *)
Fixpoint for_each {A S} (step : S -> A -> result S) (l : list A) (s : S) : result S :=
  match l with
  | [] => Ok s
  | x :: r => let! s' := step s x in for_each step r s'
  end.

Lemma for_each_inv {A S} (step : S -> A -> result S) (I : S -> Prop) l s s' :
  (forall s x s', x ∈ l -> I s -> step s x = Ok s' -> I s') ->
  I s -> for_each step l s = Ok s' -> I s'.
Proof.
  revert s. induction l as [|x l IH]; intros s Hstep HI Hrun; cbn in Hrun; inv_ok; [by subst|].
  eapply IH; [|eapply Hstep; [left|exact HI|exact E]|exact Hrun].
  intros s1 y s2 Hy. apply Hstep. by right.
Qed.
