(* ===== verification/Domain.v ===== *)
(** * The domain model, [domain.py]

    The enumerations and the pydantic models of the Administrative domain.  A
    model validator becomes a function into [result] that returns the validated
    record or the [ValueError] it raises; [model_copy] does not run validators,
    so the transitions of [Lifecycle] rebuild records directly and validity is a
    theorem about them. *)

From stdpp Require Import base gmap strings list.
From Stdlib Require Import ZArith Lia.
From S2P Require Import Prelude Python.

Open Scope Z_scope.
Open Scope orch_scope.

(** ** Time *)

(** [normalize_datetime]: a naive datetime is read as UTC, an aware one is
    converted to UTC. *)
Definition normalize_datetime (value : datetime) : instant :=
  match value with
  | Naive wall => wall
  | Aware wall offset => wall - offset
  end.

(** The half-open validity window shared by role assignments, identity
    bindings and policies: [valid_from <= at < valid_until]. *)
Definition window_current (valid_from : instant) (valid_until : option instant) (at_ : instant) : bool :=
  (valid_from <=? at_) &&
  match valid_until with None => true | Some u => at_ <? u end.

Lemma window_current_spec vf vu at_ :
  window_current vf vu at_ = true <-> vf <= at_ /\ forall u, vu = Some u -> at_ < u.
Proof.
  unfold window_current. rewrite andb_true_iff, Z.leb_le.
  destruct vu as [u|]; [rewrite Z.ltb_lt|]; naive_solver.
Qed.

(** ** Enumerations *)

Inductive PrincipalKind := PERSON | SERVICE | AGENT.

Inductive CaseStatus :=
  | RECEIVED | GATHERING_FACTS | READY_FOR_POLICY | AWAITING_DECISION
  | AUTHORIZED | EXECUTING | VERIFYING | RECONCILING | REOPEN_REQUIRED
  | WAITING | COMPLETED | CANCELLED | FAILED.

Inductive ReopenReason :=
  | NO_APPLICABLE_POLICY | POLICY_CONFLICT | MISSING_REQUIRED_FACT
  | AUTHORITY_UNRESOLVED | POLICY_UNDERSPECIFIED | GOVERNANCE_STALE
  | SUBJECT_CHANGED | OUTCOME_UNKNOWN_REASON | REALITY_MISMATCH | SCOPE_EXPANSION
  | UNKNOWN_RISK_DIMENSION | OBLIGATION_STALLED | COMMITMENT_CONFLICT
  | LATE_EVIDENCE | HUMAN_REQUESTED_REVIEW.

Inductive DecisionDisposition := APPROVE | REJECT | REQUEST_CHANGES | ESCALATE.

Inductive EffectReversibility :=
  | READ_ONLY | REVERSIBLE | CORRECTABLE | IRREVERSIBLE | REVERSIBILITY_UNKNOWN.

Inductive AuthorityClass :=
  | NORMAL | PII | FINANCIAL | PRIVILEGED_ACCESS | EMPLOYMENT | LEGAL | REGULATED.

Inductive EffectStatus :=
  | PLANNED | DISPATCHED | SUCCEEDED | EFFECT_FAILED | OUTCOME_UNKNOWN.

Inductive RealizationDisposition := VERIFIED | NOT_VERIFIED | MISMATCH | REALIZATION_UNKNOWN.

Inductive FactAuthority := CLAIM | ATTESTED | AUTHORITATIVE.

#[global] Instance PrincipalKind_eq_dec : EqDecision PrincipalKind. Proof. solve_decision. Defined.
#[global] Instance CaseStatus_eq_dec : EqDecision CaseStatus. Proof. solve_decision. Defined.
#[global] Instance ReopenReason_eq_dec : EqDecision ReopenReason. Proof. solve_decision. Defined.
#[global] Instance DecisionDisposition_eq_dec : EqDecision DecisionDisposition. Proof. solve_decision. Defined.
#[global] Instance EffectReversibility_eq_dec : EqDecision EffectReversibility. Proof. solve_decision. Defined.
#[global] Instance AuthorityClass_eq_dec : EqDecision AuthorityClass. Proof. solve_decision. Defined.
#[global] Instance EffectStatus_eq_dec : EqDecision EffectStatus. Proof. solve_decision. Defined.
#[global] Instance RealizationDisposition_eq_dec : EqDecision RealizationDisposition. Proof. solve_decision. Defined.
#[global] Instance FactAuthority_eq_dec : EqDecision FactAuthority. Proof. solve_decision. Defined.


(** The [.value] of an enumeration member, where the program persists or sorts by it. *)
Definition AuthorityClass_value (c : AuthorityClass) : string :=
  match c with
  | NORMAL => "normal" | PII => "pii" | FINANCIAL => "financial"
  | PRIVILEGED_ACCESS => "privileged_access" | EMPLOYMENT => "employment"
  | LEGAL => "legal" | REGULATED => "regulated"
  end.

Definition FactAuthority_value (a : FactAuthority) : string :=
  match a with CLAIM => "claim" | ATTESTED => "attested" | AUTHORITATIVE => "authoritative" end.

Definition CaseStatus_value (s : CaseStatus) : string :=
  match s with
  | RECEIVED => "received" | GATHERING_FACTS => "gathering_facts"
  | READY_FOR_POLICY => "ready_for_policy" | AWAITING_DECISION => "awaiting_decision"
  | AUTHORIZED => "authorized" | EXECUTING => "executing" | VERIFYING => "verifying"
  | RECONCILING => "reconciling" | REOPEN_REQUIRED => "reopen_required"
  | WAITING => "waiting" | COMPLETED => "completed" | CANCELLED => "cancelled"
  | FAILED => "failed"
  end.

(** ** Organisation *)

Record Principal := mkPrincipal {
  p_principal_id : string;
  p_kind : PrincipalKind;
  p_display_name : string;
}.

Record RoleAssignment := mkRoleAssignment {
  ra_assignment_id : uuid;
  ra_principal_id : string;
  ra_role : string;
  ra_organization_scope : string;
  ra_valid_from : instant;
  ra_valid_until : option instant;
}.

Definition RoleAssignment_is_current_at (a : RoleAssignment) (at_ : instant) : bool :=
  window_current (ra_valid_from a) (ra_valid_until a) at_.

Record Delegation := mkDelegation {
  dg_delegation_id : uuid;
  dg_from_principal_id : string;
  dg_to_principal_id : string;
  dg_role : string;
  dg_organization_scope : string;
  dg_valid_from : instant;
  dg_valid_until : instant;
}.

Definition Delegation_validate (d : Delegation) : result Delegation :=
  refuse dg_valid_until d <=? dg_valid_from d with ValueError
    saying "delegation valid_until must be after valid_from";;
  Ok d.

Record PolicyRef := mkPolicyRef {
  pr_policy_id : string;
  pr_version : string;
  pr_owner : string;
  pr_effective_from : instant;
  pr_effective_until : option instant;
}.

Definition PolicyRef_is_current_at (p : PolicyRef) (at_ : instant) : bool :=
  window_current (pr_effective_from p) (pr_effective_until p) at_.

#[global] Instance Principal_eq_dec : EqDecision Principal. Proof. solve_decision. Defined.
#[global] Instance RoleAssignment_eq_dec : EqDecision RoleAssignment. Proof. solve_decision. Defined.
#[global] Instance Delegation_eq_dec : EqDecision Delegation. Proof. solve_decision. Defined.
#[global] Instance PolicyRef_eq_dec : EqDecision PolicyRef. Proof. solve_decision. Defined.

(** ** Evidence and facts *)

Record EvidenceRef := mkEvidenceRef {
  ev_evidence_id : uuid;
  ev_source : string;
  ev_owner : string;
  ev_observed_at : instant;
  ev_version : option string;
  ev_digest : option string;
  ev_metadata : list (string * pyval);
}.

Record FactAssertion := mkFactAssertion {
  fa_value : pyval;
  fa_authority : FactAuthority;
  fa_source : string;
  fa_owner : string;
  fa_source_ref : option string;
  fa_source_version : option string;
  fa_observed_at : instant;
  fa_digest : option string;
}.

Record FactSnapshot := mkFactSnapshot {
  fs_snapshot_id : uuid;
  fs_source : string;
  fs_owner : string;
  fs_authority : FactAuthority;
  fs_source_ref : option string;
  fs_source_version : option string;
  fs_observed_at : instant;
  fs_facts : list (string * pyval);
  fs_assertions : list (string * FactAssertion);
  fs_digest : option string;
}.

(** [assertion_values_match_flattened_facts] *)
Definition assertion_values_match_flattened_facts (s : FactSnapshot) : result FactSnapshot :=
  let check (kv : string * FactAssertion) : result unit :=
    match assoc (fst kv) (fs_facts s) with
    | None => raise ValueError ("fact assertion '" +:+ fst kv +:+ "' has no flattened fact")
    | Some v =>
        guard (negb (py_eq v (fa_value (snd kv)))) ValueError
          ("fact assertion '" +:+ fst kv +:+ "' does not match flattened fact")
    end in
  let! _ := fold_left (fun acc kv => rbind acc (fun _ => check kv)) (fs_assertions s) (Ok tt) in
  Ok s.

(** ** Requests and cases *)

Record AdministrativeRequest := mkAdministrativeRequest {
  rq_request_id : uuid;
  rq_requester_principal_id : string;
  rq_channel : string;
  rq_intent : string;
  rq_received_at : instant;
  rq_source_ref : option string;
}.

Record AdministrativeCase := mkAdministrativeCase {
  c_case_id : uuid;
  c_case_kind : string;
  c_requester_principal_id : string;
  c_subject_ref : string;
  c_status : CaseStatus;
  c_version : Z;
  c_authority_epoch : Z;
  c_fact_snapshot : option FactSnapshot;
  c_policy_ref : option PolicyRef;
  c_evidence : list EvidenceRef;
  c_reopen_reason : option ReopenReason;
  c_created_at : instant;
  c_updated_at : instant;
}.

(** [AdministrativeCase.validate_case] *)
Definition validate_case (c : AdministrativeCase) : result AdministrativeCase :=
  refuse (c_version c <? 1) || (c_authority_epoch c <? 1) with ValueError
    saying "case version and authority_epoch must be positive";;
  refuse bool_decide (c_status c = REOPEN_REQUIRED) && bool_decide (c_reopen_reason c = None)
    with ValueError saying "reopen_required case must record a reopen_reason";;
  refuse bool_decide (c_status c <> REOPEN_REQUIRED) && bool_decide (c_reopen_reason c <> None)
    with ValueError saying "reopen_reason is only valid while case is reopen_required";;
  Ok c.

(** The fields [model_copy(update=...)] replaces in this program. *)
Record case_update := mkCaseUpdate {
  u_status : option CaseStatus;
  u_reopen_reason : option (option ReopenReason);
  u_policy_ref : option (option PolicyRef);
  u_fact_snapshot : option FactSnapshot;
  u_evidence : option (list EvidenceRef);
  u_authority_epoch : option Z;
}.

Definition no_update : case_update := mkCaseUpdate None None None None None None.

(** [case.model_copy(update={..., "version": case.version + 1, "updated_at": now})] *)
Definition model_copy (c : AdministrativeCase) (u : case_update) (now : instant) : AdministrativeCase :=
  mkAdministrativeCase (c_case_id c) (c_case_kind c) (c_requester_principal_id c)
    (c_subject_ref c)
    (default (c_status c) (u_status u))
    (c_version c + 1)
    (default (c_authority_epoch c) (u_authority_epoch u))
    (match u_fact_snapshot u with Some s => Some s | None => c_fact_snapshot c end)
    (default (c_policy_ref c) (u_policy_ref u))
    (default (c_evidence c) (u_evidence u))
    (default (c_reopen_reason c) (u_reopen_reason u))
    (c_created_at c) now.

(** ** Decisions and authorizations *)

Record Decision := mkDecision {
  d_decision_id : uuid;
  d_case_id : uuid;
  d_case_version : Z;
  d_authority_epoch : Z;
  d_principal_id : string;
  d_decision_role : option string;
  d_disposition : DecisionDisposition;
  d_rationale : string;
  d_policy_ref : PolicyRef;
  d_decided_at : instant;
}.

#[global] Instance Decision_eq_dec : EqDecision Decision. Proof. solve_decision. Defined.

Record ExecutionAuthorization := mkExecutionAuthorization {
  ea_authorization_id : uuid;
  ea_case_id : uuid;
  ea_case_version : Z;
  ea_authority_epoch : Z;
  ea_decision_id : option uuid;
  ea_approval_satisfaction_id : option uuid;
  ea_issuer_principal_id : string;
  ea_target_system : string;
  ea_subject_ref : string;
  ea_allowed_operations : list string;
  ea_authority_class : AuthorityClass;
  ea_policy_ref : PolicyRef;
  ea_issued_at : instant;
  ea_expires_at : option instant;
  ea_revoked_at : option instant;
}.

(** [validate_authority_basis_and_operations] *)
Definition ExecutionAuthorization_validate (a : ExecutionAuthorization) : result ExecutionAuthorization :=
  refuse is_nil (ea_allowed_operations a) with ValueError
    saying "authorization must allow at least one operation";;
  let basis_count :=
    (if ea_decision_id a then 1 else 0) + (if ea_approval_satisfaction_id a then 1 else 0) in
  refuse negb (basis_count =? 1) with ValueError
    saying "authorization requires exactly one authority basis: decision or approval satisfaction";;
  Ok a.

#[global] Instance ExecutionAuthorization_eq_dec : EqDecision ExecutionAuthorization.
Proof. solve_decision. Defined.

Definition ExecutionAuthorization_is_current_at (a : ExecutionAuthorization) (at_ : instant) : bool :=
  match ea_revoked_at a with
  | Some r => negb (r <=? at_)
  | None => true
  end &&
  match ea_expires_at a with
  | None => true
  | Some e => at_ <? e
  end.

(** ** Effects, realizations and outcomes *)

Record EffectRecord := mkEffectRecord {
  ef_effect_id : uuid;
  ef_case_id : uuid;
  ef_case_version : Z;
  ef_authority_epoch : Z;
  ef_authorization_id : uuid;
  ef_obligation_id : option uuid;
  ef_governance_basis_id : option uuid;
  ef_target_system : string;
  ef_operation : string;
  ef_subject_ref : string;
  ef_reversibility : EffectReversibility;
  ef_authority_class : AuthorityClass;
  ef_status : EffectStatus;
  ef_provider_ref : option string;
  ef_created_at : instant;
  ef_updated_at : instant;
}.

Record EffectRealizationAssessment := mkEffectRealizationAssessment {
  er_assessment_id : uuid;
  er_effect_id : uuid;
  er_disposition : RealizationDisposition;
  er_evidence : list EvidenceRef;
  er_assessed_at : instant;
}.

(** [verified_requires_evidence] *)
Definition EffectRealizationAssessment_validate (r : EffectRealizationAssessment)
  : result EffectRealizationAssessment :=
  refuse bool_decide (er_disposition r = VERIFIED) &&
         is_nil (er_evidence r)
    with ValueError saying "verified realization requires evidence";;
  Ok r.

Record ConfirmedOutcome := mkConfirmedOutcome {
  co_outcome_id : uuid;
  co_case_id : uuid;
  co_case_version : Z;
  co_authority_epoch : Z;
  co_effect_id : uuid;
  co_realization_assessment_id : uuid;
  co_outcome_kind : string;
  co_evidence : list EvidenceRef;
  co_confirmed_at : instant;
}.

(** [outcome_requires_evidence] *)
Definition ConfirmedOutcome_validate (o : ConfirmedOutcome) : result ConfirmedOutcome :=
  refuse is_nil (co_evidence o)
    with ValueError saying "confirmed outcome requires evidence";;
  Ok o.

(** The well-formedness the case validator enforces, as a proposition. *)
Definition case_valid (c : AdministrativeCase) : Prop :=
  1 <= c_version c /\ 1 <= c_authority_epoch c /\
  (c_status c = REOPEN_REQUIRED <-> c_reopen_reason c <> None).

Lemma validate_case_spec c : validate_case c = Ok c <-> case_valid c.
Proof.
  unfold validate_case, case_valid. split.
  - intros H. inv_ok. propify. split_and!; [lia..|].
    destruct (c_status c), (c_reopen_reason c); naive_solver.
  - intros (Hv & He & Hr).
    assert (c_version c <? 1 = false) as -> by lia.
    assert (c_authority_epoch c <? 1 = false) as -> by lia.
    destruct (c_status c), (c_reopen_reason c); naive_solver.
Qed.
