(* ===== verification/Policy.v ===== *)
(** * Policy evaluation, [policy.py]

    The deterministic evaluators of employee onboarding and offboarding.  The
    evaluators build a [PolicyEvaluation] through its validator, so that each
    is a function into [result]; the theorems show which disposition a fact
    world gets and that a well-formed definition never makes the validator
    raise. *)

From stdpp Require Import base gmap strings list.
From Stdlib Require Import ZArith Lia.
From S2P Require Import Prelude Python Domain.

Open Scope Z_scope.
Open Scope orch_scope.

Inductive PolicyDisposition :=
  | AUTO_CLOSABLE | HUMAN_DECISION_REQUIRED | NEED_MORE_FACTS
  | POLICY_REOPEN_REQUIRED | DENIED.
#[global] Instance PolicyDisposition_eq_dec : EqDecision PolicyDisposition. Proof. solve_decision. Defined.

Record AuthorizedEffectTemplate := mkTemplate {
  t_target_system : string;
  t_operation : string;
  t_authority_class : AuthorityClass;
}.
#[global] Instance AuthorizedEffectTemplate_eq_dec : EqDecision AuthorizedEffectTemplate.
Proof. solve_decision. Defined.

Record ApprovalRule := mkApprovalRule {
  ar_roles : list string;
  ar_require_distinct_principals : bool;
}.

(** [ApprovalRule.validate_rule] *)
Definition ApprovalRule_validate (r : ApprovalRule) : result ApprovalRule :=
  refuse bool_decide (ar_roles r = []) with ValueError
    saying "approval rule requires at least one role";;
  refuse ar_require_distinct_principals r && (Nat.ltb (length (ar_roles r)) 2) with ValueError
    saying "distinct approval requires at least two roles";;
  Ok r.

Definition rule_valid (r : ApprovalRule) : Prop :=
  ar_roles r <> [] /\ (ar_require_distinct_principals r = true -> (2 <= length (ar_roles r))%nat).

Record OnboardingPolicyDefinition := mkOnboardingPolicyDefinition {
  on_required_facts : list string;
  on_standard_approval : ApprovalRule;
  on_privileged_approval : ApprovalRule;
  on_base_effects : list AuthorizedEffectTemplate;
}.

Record OffboardingFacts := mkOffboardingFacts {
  of_employee_ref : string;
  of_termination_status : option string;
  of_termination_effective_at : option string;
  of_employment_type : option string;
  of_department_ref : option string;
  of_manager_principal_id : option string;
  of_employment_episode_ref : option string;
  of_departing_principal_id : option string;
  of_successor_principal_id : option string;
  of_requested_termination_date : option string;
  of_reason : option string;
  of_requested_systems : list string;
  of_requires_privileged_access : bool;
}.

Record OffboardingPolicyDefinition := mkOffboardingPolicyDefinition {
  off_required_authoritative_facts : list string;
  off_standard_approval : ApprovalRule;
  off_privileged_approval : ApprovalRule;
  off_base_effects : list AuthorizedEffectTemplate;
  off_transfer_required_roles : list string;
  off_revoke_only_roles : list string;
  off_effective_time_fact : string;
}.

(** [validate_transfer_classification]: the two role classes are disjoint. *)
Definition validate_transfer_classification (d : OffboardingPolicyDefinition)
  : result OffboardingPolicyDefinition :=
  let overlap := filter (fun r => r ∈ off_revoke_only_roles d) (off_transfer_required_roles d) in
  refuse bool_decide (overlap <> []) with ValueError
    saying "offboarding roles cannot be both transfer-required and revoke-only";;
  Ok d.

Record PolicyEvaluation := mkPolicyEvaluation {
  pe_policy_ref : PolicyRef;
  pe_disposition : PolicyDisposition;
  pe_reason : string;
  pe_missing_facts : list string;
  pe_required_decision_roles : list string;
  pe_require_distinct_decision_principals : bool;
  pe_allowed_effects : list AuthorizedEffectTemplate;
  pe_reopen_reason : option ReopenReason;
}.

(** [PolicyEvaluation.validate_disposition] *)
Definition PolicyEvaluation_validate (e : PolicyEvaluation) : result PolicyEvaluation :=
  refuse bool_decide (pe_disposition e = NEED_MORE_FACTS) && bool_decide (pe_missing_facts e = [])
    with ValueError saying "need_more_facts requires missing_facts";;
  refuse bool_decide (pe_disposition e = HUMAN_DECISION_REQUIRED)
         && bool_decide (pe_required_decision_roles e = [])
    with ValueError saying "human_decision_required requires decision roles";;
  refuse pe_require_distinct_decision_principals e
         && Nat.ltb (length (pe_required_decision_roles e)) 2
    with ValueError saying "distinct decision principals requires at least two required roles";;
  refuse bool_decide (pe_disposition e = AUTO_CLOSABLE)
         && bool_decide (pe_required_decision_roles e <> [])
    with ValueError saying "auto_closable cannot require human decisions";;
  refuse bool_decide (pe_disposition e = AUTO_CLOSABLE) && bool_decide (pe_allowed_effects e <> [])
    with ValueError
    saying "auto_closable is policy-only closure and cannot authorize external effects";;
  refuse bool_decide (pe_disposition e = POLICY_REOPEN_REQUIRED)
         && bool_decide (pe_reopen_reason e = None)
    with ValueError saying "reopen_required policy evaluation requires reopen_reason";;
  refuse bool_decide (pe_disposition e <> POLICY_REOPEN_REQUIRED)
         && bool_decide (pe_reopen_reason e <> None)
    with ValueError saying "reopen_reason is only valid for reopen_required";;
  Ok e.

(** The constructor calls the evaluators make. *)
Definition need_more_facts (ref : PolicyRef) (reason : string) (missing : list string) :=
  PolicyEvaluation_validate
    (mkPolicyEvaluation ref NEED_MORE_FACTS reason missing [] false [] None).
Definition reopen_required (ref : PolicyRef) (reason : string) (why : ReopenReason) :=
  PolicyEvaluation_validate
    (mkPolicyEvaluation ref POLICY_REOPEN_REQUIRED reason [] [] false [] (Some why)).
Definition human_decision_required (ref : PolicyRef) (reason : string) (roles : list string)
    (distinct : bool) (effects : list AuthorizedEffectTemplate) :=
  PolicyEvaluation_validate
    (mkPolicyEvaluation ref HUMAN_DECISION_REQUIRED reason [] roles distinct effects None).

(** ** Onboarding *)

Record OnboardingFacts := mkOnboardingFacts {
  onf_employee_ref : string;
  onf_department_ref : option string;
  onf_manager_principal_id : option string;
  onf_start_date : option string;
  onf_employment_type : option string;
  onf_requested_systems : list string;
  onf_requires_privileged_access : bool;
}.

Definition opt_str (o : option string) : pyval :=
  match o with Some s => VStr s | None => VNone end.

(** [getattr(facts, name)]; [None] is the [AttributeError] of an unknown name. *)
Definition OnboardingFacts_getattr (f : OnboardingFacts) (name : string) : option pyval :=
  assoc name
    [("employee_ref", VStr (onf_employee_ref f));
     ("department_ref", opt_str (onf_department_ref f));
     ("manager_principal_id", opt_str (onf_manager_principal_id f));
     ("start_date", opt_str (onf_start_date f));
     ("employment_type", opt_str (onf_employment_type f));
     ("requested_systems", VList (VStr <$> onf_requested_systems f));
     ("requires_privileged_access", VBool (onf_requires_privileged_access f))].

Definition is_none (v : pyval) : bool := match v with VNone => true | _ => false end.

(** [tuple(name for name in required if getattr(facts, name) is None)] *)
Fixpoint missing_facts (getattr : string -> option pyval) (required : list string)
  : result (list string) :=
  match required with
  | [] => Ok []
  | name :: rest =>
      match getattr name with
      | None => raise AttributeError name
      | Some v =>
          let! more := missing_facts getattr rest in
          Ok (if is_none v then name :: more else more)
      end
  end.

Definition provision_template (system : string) : AuthorizedEffectTemplate :=
  mkTemplate system "account.provision" NORMAL.

(** [OnboardingPolicy.default_definition] *)
Definition OnboardingPolicy_default_definition : OnboardingPolicyDefinition :=
  mkOnboardingPolicyDefinition
    ["department_ref"; "manager_principal_id"; "start_date"; "employment_type"]
    (mkApprovalRule ["hr_approver"] false)
    (mkApprovalRule ["manager"; "access_approver"] true)
    [mkTemplate "hris" "employee.create" EMPLOYMENT;
     mkTemplate "iam" "identity.create" PRIVILEGED_ACCESS].

(** [OnboardingPolicy.evaluate] *)
Definition OnboardingPolicy_evaluate (policy_ref : PolicyRef) (definition : OnboardingPolicyDefinition)
    (facts : OnboardingFacts) : result PolicyEvaluation :=
  let! missing := missing_facts (OnboardingFacts_getattr facts) (on_required_facts definition) in
  if bool_decide (missing <> []) then
    need_more_facts policy_ref "required onboarding facts are missing" missing
  else
    let effects := on_base_effects definition ++ (provision_template <$> onf_requested_systems facts) in
    let rule := if onf_requires_privileged_access facts
                then on_privileged_approval definition else on_standard_approval definition in
    let reason := if onf_requires_privileged_access facts
                  then "privileged access requires the configured multi-party approval rule"
                  else "employment creation requires the configured current approval rule" in
    human_decision_required policy_ref reason (ar_roles rule)
      (ar_require_distinct_principals rule) effects.

(** ** Offboarding *)

Definition OffboardingFacts_getattr (f : OffboardingFacts) (name : string) : option pyval :=
  assoc name
    [("employee_ref", VStr (of_employee_ref f));
     ("termination_status", opt_str (of_termination_status f));
     ("termination_effective_at", opt_str (of_termination_effective_at f));
     ("employment_type", opt_str (of_employment_type f));
     ("department_ref", opt_str (of_department_ref f));
     ("manager_principal_id", opt_str (of_manager_principal_id f));
     ("employment_episode_ref", opt_str (of_employment_episode_ref f));
     ("departing_principal_id", opt_str (of_departing_principal_id f));
     ("successor_principal_id", opt_str (of_successor_principal_id f));
     ("requested_termination_date", opt_str (of_requested_termination_date f));
     ("reason", opt_str (of_reason f));
     ("requested_systems", VList (VStr <$> of_requested_systems f));
     ("requires_privileged_access", VBool (of_requires_privileged_access f))].

(** [OffboardingPolicy.default_definition] *)
Definition OffboardingPolicy_default_definition : OffboardingPolicyDefinition :=
  mkOffboardingPolicyDefinition
    ["employee_ref"; "termination_status"; "termination_effective_at"]
    (mkApprovalRule ["hr_approver"] false)
    (mkApprovalRule ["manager"; "access_approver"] true)
    [mkTemplate "hris" "employee.deactivate" EMPLOYMENT;
     mkTemplate "iam" "identity.disable" PRIVILEGED_ACCESS;
     mkTemplate "iam" "sessions.revoke" PRIVILEGED_ACCESS]
    ["manager"] ["hr_approver"; "access_approver"] "termination_effective_at".

Section offboarding.
Context `{Platform}.

(** [_fact_present] *)
Definition fact_present (value : pyval) : bool :=
  negb (is_none value) && nonempty (strip (py_str value)).

(** [str(facts.termination_status or "").strip().lower()] *)
Definition termination_status (facts : OffboardingFacts) : string :=
  lower (strip (default "" (of_termination_status facts))).

(** [OffboardingPolicy.evaluate] *)
Definition OffboardingPolicy_evaluate (policy_ref : PolicyRef)
    (definition : OffboardingPolicyDefinition) (facts : OffboardingFacts)
    : result PolicyEvaluation :=
  let missing := List.filter
    (fun name => negb (fact_present (default VNone (OffboardingFacts_getattr facts name))))
    (off_required_authoritative_facts definition) in
  if bool_decide (missing <> []) then
    need_more_facts policy_ref "authoritative termination facts are missing" missing
  else
    let status := termination_status facts in
    if bool_decide (status ∈ ["active"; "termination_cancelled"]) then
      reopen_required policy_ref
        "the authoritative HR source does not currently schedule a termination"
        GOVERNANCE_STALE
    else if bool_decide (status ∉ ["termination_scheduled"; "terminated"]) then
      reopen_required policy_ref
        ("unsupported authoritative termination status: '" +:+ status +:+ "'")
        REALITY_MISMATCH
    else
      let rule := if of_requires_privileged_access facts
                  then off_privileged_approval definition
                  else off_standard_approval definition in
      let reason := if of_requires_privileged_access facts
        then "privileged access offboarding requires the configured multi-party approval rule"
        else "employment termination requires the configured current approval rule" in
      human_decision_required policy_ref reason (ar_roles rule)
        (ar_require_distinct_principals rule) (off_base_effects definition).
End offboarding.
Arguments fact_present : simpl never.
Arguments termination_status : simpl never.
Arguments OffboardingFacts_getattr : simpl never.
Arguments OnboardingFacts_getattr : simpl never.

(** ** Lemmas *)

Lemma ApprovalRule_validate_spec r : ApprovalRule_validate r = Ok r <-> rule_valid r.
Proof.
  unfold ApprovalRule_validate, rule_valid. split.
  - intros H. inv_ok. propify. split; [done|]. intros Hd. rewrite Hd in *. cbn in *.
    by apply Nat.ltb_ge.
  - intros [Hr Hd]. rewrite bool_decide_false by done.
    destruct (ar_require_distinct_principals r); [|done].
    destruct (ar_roles r) as [|a [|b l]]; cbn in *; [done| |done]. exfalso. lia.
Qed.

(** What a validated evaluation guarantees to its clients. *)
Definition evaluation_valid (e : PolicyEvaluation) : Prop :=
  (pe_disposition e = NEED_MORE_FACTS -> pe_missing_facts e <> []) /\
  (pe_disposition e = HUMAN_DECISION_REQUIRED -> pe_required_decision_roles e <> []) /\
  (pe_require_distinct_decision_principals e = true ->
     (2 <= length (pe_required_decision_roles e))%nat) /\
  (pe_disposition e = AUTO_CLOSABLE ->
     pe_required_decision_roles e = [] /\ pe_allowed_effects e = []) /\
  (pe_disposition e = POLICY_REOPEN_REQUIRED <-> pe_reopen_reason e <> None).

Lemma PolicyEvaluation_validate_spec e :
  PolicyEvaluation_validate e = Ok e <-> evaluation_valid e.
Proof.
  unfold PolicyEvaluation_validate, evaluation_valid.
  rewrite !rbind_guard_Ok, !refuse_pair, andb_false_iff, Nat.ltb_ge.
  assert (forall A (l : list A), ~ l <> [] <-> l = []) as Hnil by (intros A []; naive_solver).
  rewrite !Hnil. destruct (pe_require_distinct_decision_principals e);
    destruct (decide (pe_disposition e = POLICY_REOPEN_REQUIRED)), (pe_reopen_reason e);
    naive_solver.
Qed.

Lemma PolicyEvaluation_validate_Ok e e' : PolicyEvaluation_validate e = Ok e' -> e' = e.
Proof. unfold PolicyEvaluation_validate. intros H. inv_ok. congruence. Qed.

(** The facts a definition asks for that the fact record leaves at [None]. *)
Definition absent (getattr : string -> option pyval) (name : string) : bool :=
  match getattr name with Some v => is_none v | None => false end.

Lemma missing_facts_spec getattr required missing :
  missing_facts getattr required = Ok missing ->
  missing = List.filter (absent getattr) required.
Proof.
  revert missing. induction required as [|n r IH]; intros missing H; cbn in H; [by inv_ok|].
  destruct (getattr n) as [v|] eqn:E; [|discriminate]. inv_ok. cbn.
  rewrite <- (IH _ E0). unfold absent. by rewrite E.
Qed.

Lemma missing_facts_total getattr required :
  Forall (fun n => is_Some (getattr n)) required ->
  exists missing, missing_facts getattr required = Ok missing.
Proof.
  induction 1 as [|n r [v Hv] _ [m Hm]]; cbn; [eauto|].
  rewrite Hv, Hm. cbn. eauto.
Qed.

(** A rule that passed its validator makes a valid human-decision evaluation. *)
Lemma human_decision_required_valid ref reason rule effects :
  rule_valid rule ->
  let e := mkPolicyEvaluation ref HUMAN_DECISION_REQUIRED reason [] (ar_roles rule)
             (ar_require_distinct_principals rule) effects None in
  human_decision_required ref reason (ar_roles rule) (ar_require_distinct_principals rule) effects
    = Ok e /\ evaluation_valid e.
Proof.
  intros [Hr Hd] e. rewrite <- PolicyEvaluation_validate_spec. split; [|];
    apply PolicyEvaluation_validate_spec; unfold evaluation_valid; cbn; naive_solver.
Qed.

Lemma need_more_facts_valid ref reason missing :
  missing <> [] ->
  let e := mkPolicyEvaluation ref NEED_MORE_FACTS reason missing [] false [] None in
  need_more_facts ref reason missing = Ok e /\ evaluation_valid e.
Proof.
  intros Hm e. rewrite <- PolicyEvaluation_validate_spec. split; [|];
    apply PolicyEvaluation_validate_spec; unfold evaluation_valid; cbn; naive_solver.
Qed.

Lemma reopen_required_valid ref reason why :
  let e := mkPolicyEvaluation ref POLICY_REOPEN_REQUIRED reason [] [] false [] (Some why) in
  reopen_required ref reason why = Ok e /\ evaluation_valid e.
Proof.
  intros e. rewrite <- PolicyEvaluation_validate_spec. split; [|];
    apply PolicyEvaluation_validate_spec; unfold evaluation_valid; cbn; naive_solver.
Qed.

Lemma statuses_disjoint (s : string) :
  s ∈ ["active"; "termination_cancelled"] -> s ∈ ["termination_scheduled"; "terminated"] -> False.
Proof.
  rewrite !list_elem_of_In. cbn.
  by intros [<-|[<-|[]]] [[=]|[[=]|[]]].
Qed.

(** The approval rule a fact world selects. *)
Definition onboarding_rule (d : OnboardingPolicyDefinition) (f : OnboardingFacts) : ApprovalRule :=
  if onf_requires_privileged_access f then on_privileged_approval d else on_standard_approval d.
Definition offboarding_rule (d : OffboardingPolicyDefinition) (f : OffboardingFacts) : ApprovalRule :=
  if of_requires_privileged_access f then off_privileged_approval d else off_standard_approval d.

(** Onboarding evaluation is total and exact on a definition whose required
    facts are known and whose approval rules are valid: it asks for exactly the
    required facts that are absent and then authorizes nothing, or, when none is
    absent, requires the configured decision roles of the privileged or standard
    rule and allows the base effects plus one account provisioning per requested
    system; the evaluation always satisfies its validator. *)
Theorem onboarding_evaluate_exact ref d f :
  Forall (fun n => is_Some (OnboardingFacts_getattr f n)) (on_required_facts d) ->
  rule_valid (on_standard_approval d) -> rule_valid (on_privileged_approval d) ->
  exists e, OnboardingPolicy_evaluate ref d f = Ok e /\ evaluation_valid e /\ pe_policy_ref e = ref /\
    let missing := List.filter (absent (OnboardingFacts_getattr f)) (on_required_facts d) in
    if bool_decide (missing <> []) then
      pe_disposition e = NEED_MORE_FACTS /\ pe_missing_facts e = missing /\ pe_allowed_effects e = []
    else
      pe_disposition e = HUMAN_DECISION_REQUIRED /\
      pe_required_decision_roles e = ar_roles (onboarding_rule d f) /\
      pe_require_distinct_decision_principals e = ar_require_distinct_principals (onboarding_rule d f) /\
      pe_allowed_effects e =
        on_base_effects d ++ (provision_template <$> onf_requested_systems f).
Proof.
  intros Hknown Hs Hp. destruct (missing_facts_total _ _ Hknown) as [m Hm].
  unfold OnboardingPolicy_evaluate. rewrite Hm; cbn [rbind].
  rewrite <- (missing_facts_spec _ _ _ Hm). case_bool_decide as Hne; cbn zeta.
  - destruct (need_more_facts_valid ref "required onboarding facts are missing" m Hne) as [-> ?].
    eexists; split; [done|]. split; [done|]. done.
  - assert (rule_valid (onboarding_rule d f)) as Hr
      by (unfold onboarding_rule; by destruct (onf_requires_privileged_access f)).
    fold (onboarding_rule d f).
    edestruct (human_decision_required_valid ref) as [-> ?]; [exact Hr|].
    eexists; split; [done|]. split; [done|]. done.
Qed.

(** A required authoritative fact is present in the offboarding facts. *)
Definition offboarding_present `{Platform} (f : OffboardingFacts) (n : string) : bool :=
  fact_present (default VNone (OffboardingFacts_getattr f n)).

Definition offboarding_missing `{Platform} (d : OffboardingPolicyDefinition) (f : OffboardingFacts) :=
  List.filter (fun n => negb (offboarding_present f n)) (off_required_authoritative_facts d).

Lemma elem_of_offboarding_missing `{Platform} d f n :
  n ∈ offboarding_missing d f <->
  n ∈ off_required_authoritative_facts d /\ offboarding_present f n = false.
Proof. unfold offboarding_missing. by rewrite !list_elem_of_In, filter_In, negb_true_iff. Qed.

Lemma offboarding_missing_nil `{Platform} d f :
  offboarding_missing d f = [] <->
  forall n, n ∈ off_required_authoritative_facts d -> offboarding_present f n = true.
Proof.
  split.
  - intros Hnil n Hn. apply not_false_iff_true. intros Hf.
    apply (not_elem_of_nil n). rewrite <- Hnil. by apply elem_of_offboarding_missing.
  - intros Hall. destruct (offboarding_missing d f) as [|n l] eqn:E; [done|].
    assert (n ∈ offboarding_missing d f) as [Hin Hf]%elem_of_offboarding_missing
      by (rewrite E; left).
    rewrite (Hall n Hin) in Hf. done.
Qed.

(** The exact evaluation of each offboarding branch. *)
Lemma offboarding_evaluate_branches `{Platform} ref d f :
  rule_valid (off_standard_approval d) -> rule_valid (off_privileged_approval d) ->
  exists e, OffboardingPolicy_evaluate ref d f = Ok e /\ evaluation_valid e /\
    ((offboarding_missing d f <> [] /\ pe_disposition e = NEED_MORE_FACTS /\ pe_allowed_effects e = [])
     \/ (offboarding_missing d f = [] /\ pe_disposition e = POLICY_REOPEN_REQUIRED /\
         termination_status f ∉ ["termination_scheduled"; "terminated"] /\ pe_allowed_effects e = [])
     \/ (offboarding_missing d f = [] /\ pe_disposition e = HUMAN_DECISION_REQUIRED /\
         termination_status f ∈ ["termination_scheduled"; "terminated"] /\
         pe_required_decision_roles e = ar_roles (offboarding_rule d f) /\
         pe_allowed_effects e = off_base_effects d)).
Proof.
  intros Hs Hp. unfold OffboardingPolicy_evaluate.
  change (List.filter _ (off_required_authoritative_facts d)) with (offboarding_missing d f).
  case_bool_decide as Hne.
  { edestruct (need_more_facts_valid ref) as [-> Hv]; [exact Hne|]. naive_solver. }
  cbn zeta. case_bool_decide as Hact.
  { edestruct (reopen_required_valid ref) as [-> Hv]. eexists. split_and!; [done..|].
    right; left. split_and!; [done..| |done]. eauto using statuses_disjoint. }
  case_bool_decide as Hsup.
  { edestruct (reopen_required_valid ref) as [-> Hv]. naive_solver. }
  assert (rule_valid (offboarding_rule d f)) as Hr
    by (unfold offboarding_rule; by destruct (of_requires_privileged_access f)).
  fold (offboarding_rule d f).
  edestruct (human_decision_required_valid ref) as [-> Hv]; [exact Hr|]. naive_solver.
Qed.

(** Offboarding evaluation is total, and effects are authorized only when
    every required authoritative fact is present and the normalised HR status is
    [termination_scheduled] or [terminated]: it asks for more facts exactly when
    a required one is absent, requires the human decision exactly in the
    authorizing state, and no other branch allows an effect. *)
Theorem offboarding_evaluate_exact `{Platform} ref d f :
  rule_valid (off_standard_approval d) -> rule_valid (off_privileged_approval d) ->
  exists e, OffboardingPolicy_evaluate ref d f = Ok e /\ evaluation_valid e /\
    (pe_disposition e = NEED_MORE_FACTS <->
       exists n, n ∈ off_required_authoritative_facts d /\ offboarding_present f n = false) /\
    (pe_disposition e = HUMAN_DECISION_REQUIRED <->
       (forall n, n ∈ off_required_authoritative_facts d -> offboarding_present f n = true) /\
       termination_status f ∈ ["termination_scheduled"; "terminated"]) /\
    (pe_disposition e = HUMAN_DECISION_REQUIRED ->
       pe_required_decision_roles e = ar_roles (offboarding_rule d f) /\
       pe_allowed_effects e = off_base_effects d) /\
    (pe_disposition e <> HUMAN_DECISION_REQUIRED -> pe_allowed_effects e = []).
Proof.
  intros Hs Hp. destruct (offboarding_evaluate_branches ref d f Hs Hp) as (e & He & Hv & Hb).
  exists e. split; [done|]. split; [done|]. setoid_rewrite <- elem_of_offboarding_missing.
  rewrite <- offboarding_missing_nil.
  assert ((exists n, n ∈ offboarding_missing d f) <-> offboarding_missing d f <> []) as ->.
  { destruct (offboarding_missing d f) as [|n l]; split; [by intros (? & ?%not_elem_of_nil)|done|done|].
    intros _. exists n. left. }
  destruct Hb as [(?&->&?)|[(?&->&?&?)|(?&->&?&?&?)]]; naive_solver.
Qed.

(** ** Witnesses *)

Definition sample_policy_ref : PolicyRef := mkPolicyRef "employee-onboarding" "v1" "hr" 0 None.

Definition sample_onboarding_facts : OnboardingFacts :=
  mkOnboardingFacts "emp-1" (Some "eng") (Some "boss") (Some "2026-02-01") (Some "full_time")
    ["wiki"] true.

Lemma onboarding_evaluate_exact_witness :
  exists e, OnboardingPolicy_evaluate sample_policy_ref OnboardingPolicy_default_definition
              sample_onboarding_facts = Ok e /\
    pe_required_decision_roles e = ["manager"; "access_approver"] /\
    length (pe_allowed_effects e) = 3%nat.
Proof.
  destruct (onboarding_evaluate_exact sample_policy_ref OnboardingPolicy_default_definition
              sample_onboarding_facts) as (e & He & _ & _ & Hd).
  - repeat constructor; eexists; reflexivity.
  - split; [discriminate|discriminate].
  - split; [discriminate|intros _; cbn; lia].
  - exists e. destruct Hd as (_ & Hr & _ & Hf). rewrite Hr, Hf. split; [exact He|]. split; reflexivity.
Defined.
