(* ===== verification/Authority.v ===== *)
(** * Organisational authority, [authority.py]

    The tables of principals, identity bindings, role assignments, delegations,
    decision bindings and approval satisfactions, the repository operations over
    them, and the two decision procedures of the module: which role a principal
    decides in, and whether the recorded decisions satisfy the policy's approval
    rule.  [select_role_decisions] keeps the mutable [selected] list and
    [used_principals] set of the source's backtracking search. *)

From stdpp Require Import base gmap strings list.
From Stdlib Require Import ZArith Lia.
From S2P Require Import Prelude Python Domain Policy Store.

Open Scope Z_scope.
Open Scope orch_scope.

Record IdentityBinding := mkIdentityBinding {
  ib_binding_id : uuid;
  ib_provider : string;
  ib_external_subject : string;
  ib_principal_id : string;
  ib_valid_from : instant;
  ib_valid_until : option instant;
}.

Definition IdentityBinding_is_current_at (b : IdentityBinding) (at_ : instant) : bool :=
  window_current (ib_valid_from b) (ib_valid_until b) at_.

Record DecisionAuthorityBinding := mkDecisionAuthorityBinding {
  dab_decision_id : uuid;
  dab_decision_role : string;
  dab_organization_scope : string;
  dab_authenticated_principal_id : string;
  dab_bound_at : instant;
}.

Record ApprovalSatisfaction := mkApprovalSatisfaction {
  as_satisfaction_id : uuid;
  as_case_id : uuid;
  as_authority_epoch : Z;
  as_policy_ref : PolicyRef;
  as_decision_ids : list uuid;
  as_satisfied_roles : list string;
  as_assessed_at : instant;
}.

Record ApprovalAssessment := mkApprovalAssessment {
  aa_satisfied : bool;
  aa_required_roles : list string;
  aa_missing_roles : list string;
  aa_distinct_principals_required : bool;
  aa_selected_decision_ids : list uuid;
  aa_selected_principal_ids : list string;
  aa_satisfaction : option ApprovalSatisfaction;
}.

#[global] Instance IdentityBinding_eq_dec : EqDecision IdentityBinding. Proof. solve_decision. Defined.
#[global] Instance DecisionAuthorityBinding_eq_dec : EqDecision DecisionAuthorityBinding. Proof. solve_decision. Defined.
#[global] Instance ApprovalSatisfaction_eq_dec : EqDecision ApprovalSatisfaction. Proof. solve_decision. Defined.

(** ** Tables *)

Record PrincipalRow := mkPrincipalRow {
  prow_kind : PrincipalKind;
  prow_display_name : string;
  prow_active : bool;
}.

Record AuthorityDb := mkAuthorityDb {
  principals : gmap string PrincipalRow;
  identity_bindings : gmap uuid IdentityBinding;
  role_assignments : gmap uuid RoleAssignment;
  delegations : gmap uuid Delegation;
  decision_bindings : gmap uuid DecisionAuthorityBinding;
  satisfactions : gmap uuid ApprovalSatisfaction;
}.

Definition with_principals (db : AuthorityDb) t :=
  mkAuthorityDb t (identity_bindings db) (role_assignments db) (delegations db)
    (decision_bindings db) (satisfactions db).
Definition with_identity_bindings (db : AuthorityDb) t :=
  mkAuthorityDb (principals db) t (role_assignments db) (delegations db)
    (decision_bindings db) (satisfactions db).
Definition with_role_assignments (db : AuthorityDb) t :=
  mkAuthorityDb (principals db) (identity_bindings db) t (delegations db)
    (decision_bindings db) (satisfactions db).
Definition with_delegations (db : AuthorityDb) t :=
  mkAuthorityDb (principals db) (identity_bindings db) (role_assignments db) t
    (decision_bindings db) (satisfactions db).
Definition with_decision_bindings (db : AuthorityDb) t :=
  mkAuthorityDb (principals db) (identity_bindings db) (role_assignments db) (delegations db)
    t (satisfactions db).
Definition with_satisfactions (db : AuthorityDb) t :=
  mkAuthorityDb (principals db) (identity_bindings db) (role_assignments db) (delegations db)
    (decision_bindings db) t.

(** [_delegation_from_row] rebuilds the model, so it runs the window validator. *)
Definition delegation_from_row (row : Delegation) : result Delegation := Delegation_validate row.

(** ** Repository operations *)

Definition put_principal (db : AuthorityDb) (p : Principal) (active : bool) : Principal * AuthorityDb :=
  (p, with_principals db
        (<[p_principal_id p := mkPrincipalRow (p_kind p) (p_display_name p) active]> (principals db))).

Definition get_principal (db : AuthorityDb) (principal_id : string) : option Principal :=
  match principals db !! principal_id with
  | Some row => if prow_active row
                then Some (mkPrincipal principal_id (prow_kind row) (prow_display_name row))
                else None
  | None => None
  end.

(** [put_identity_binding]: the loop over duplicates returns or raises on its
    first row. *)
Definition put_identity_binding (db : AuthorityDb) (b : IdentityBinding)
  : result (IdentityBinding * AuthorityDb) :=
  match select_where (fun row => bool_decide (ib_provider row = ib_provider b)
                                 && bool_decide (ib_external_subject row = ib_external_subject b))
          (identity_bindings db) with
  | restored :: _ =>
      refuse bool_decide (ib_principal_id restored <> ib_principal_id b)
             || bool_decide (ib_valid_from restored <> ib_valid_from b)
             || bool_decide (ib_valid_until restored <> ib_valid_until b)
        with AuthorityError saying "external identity is already bound with different semantics";;
      Ok (restored, db)
  | [] =>
      let! t := db_add (identity_bindings db) (ib_binding_id b) b in
      Ok (b, with_identity_bindings db t)
  end.

Definition resolve_identity (db : AuthorityDb) (provider external_subject : string) (at_ : instant)
  : option Principal :=
  let rows := select_where (fun row => bool_decide (ib_provider row = provider)
                                       && bool_decide (ib_external_subject row = external_subject))
                (identity_bindings db) in
  match List.filter (fun b => IdentityBinding_is_current_at b at_) rows with
  | [current] => get_principal db (ib_principal_id current)
  | _ => None
  end.

Definition put_role_assignment (db : AuthorityDb) (a : RoleAssignment)
  : result (RoleAssignment * AuthorityDb) :=
  match role_assignments db !! ra_assignment_id a with
  | Some restored =>
      refuse bool_decide (restored <> a) with AuthorityError
        saying "role assignment id already exists with different semantics";;
      Ok (restored, db)
  | None => Ok (a, with_role_assignments db (<[ra_assignment_id a := a]> (role_assignments db)))
  end.

Definition put_delegation (db : AuthorityDb) (d : Delegation) : result (Delegation * AuthorityDb) :=
  match delegations db !! dg_delegation_id d with
  | Some row =>
      let! restored := delegation_from_row row in
      refuse bool_decide (restored <> d) with AuthorityError
        saying "delegation id already exists with different semantics";;
      Ok (restored, db)
  | None => Ok (d, with_delegations db (<[dg_delegation_id d := d]> (delegations db)))
  end.

Definition list_current_identity_bindings (db : AuthorityDb) (principal_id : string) (at_ : instant)
  : list IdentityBinding :=
  List.filter (fun b => IdentityBinding_is_current_at b at_)
    (select_where (fun row => bool_decide (ib_principal_id row = principal_id)) (identity_bindings db)).

Definition list_current_role_assignments (db : AuthorityDb) (principal_id : string) (at_ : instant)
  : list RoleAssignment :=
  List.filter (fun a => RoleAssignment_is_current_at a at_)
    (select_where (fun row => bool_decide (ra_principal_id row = principal_id)) (role_assignments db)).

(** [delegation.valid_from <= at < delegation.valid_until] *)
Definition delegation_current (d : Delegation) (at_ : instant) : bool :=
  (dg_valid_from d <=? at_) && (at_ <? dg_valid_until d).

Definition list_current_delegations_involving (db : AuthorityDb) (principal_id : string) (at_ : instant)
  : result (list Delegation) :=
  let! ds := traverse delegation_from_row
    (select_where (fun row => bool_decide (dg_from_principal_id row = principal_id)
                              || bool_decide (dg_to_principal_id row = principal_id))
      (delegations db)) in
  Ok (List.filter (fun d => delegation_current d at_) ds).

(** [_scope_matches] *)
Definition scope_matches (assignment_scope requested_scope : string) : bool :=
  bool_decide (assignment_scope = "*") || bool_decide (assignment_scope = requested_scope).

Definition assignment_in_force (a : RoleAssignment) (organization_scope : string) (at_ : instant) : bool :=
  RoleAssignment_is_current_at a at_ && scope_matches (ra_organization_scope a) organization_scope.

(** One iteration of the delegation loop of [roles_for]. *)
Definition add_delegated_role (db : AuthorityDb) (organization_scope : string) (at_ : instant)
    (roles : gset string) (row : Delegation) : result (gset string) :=
  let! d := delegation_from_row row in
  if negb (delegation_current d at_ && scope_matches (dg_organization_scope d) organization_scope)
  then Ok roles
  else
    let source := select_where (fun r => bool_decide (ra_principal_id r = dg_from_principal_id d)
                                         && bool_decide (ra_role r = dg_role d))
                    (role_assignments db) in
    if existsb (fun a => assignment_in_force a organization_scope at_) source
    then Ok (roles ∪ {[dg_role d]})
    else Ok roles.

(** [roles_for]: direct current assignments, then each current delegation whose
    delegator holds the role. *)
Definition roles_for (db : AuthorityDb) (principal_id organization_scope : string) (at_ : instant)
  : result (gset string) :=
  let direct := select_where (fun row => bool_decide (ra_principal_id row = principal_id))
                  (role_assignments db) in
  let roles : gset string :=
    list_to_set (ra_role <$> List.filter (fun a => assignment_in_force a organization_scope at_) direct) in
  let delegation_rows := select_where (fun row => bool_decide (dg_to_principal_id row = principal_id))
                           (delegations db) in
  for_each (add_delegated_role db organization_scope at_) delegation_rows roles.

(** [put_decision_binding] with [_put_decision_binding_in_session] *)
Definition put_decision_binding (db : AuthorityDb) (decision : Decision) (organization_scope : string)
  : result (DecisionAuthorityBinding * AuthorityDb) :=
  match d_decision_role decision with
  | None => raise AuthorityError "accepted governed decision must record decision_role"
  | Some role =>
      let binding := mkDecisionAuthorityBinding (d_decision_id decision) role organization_scope
                       (d_principal_id decision) (d_decided_at decision) in
      match decision_bindings db !! d_decision_id decision with
      | Some restored =>
          refuse bool_decide (restored <> binding) with AuthorityError
            saying "decision authority binding already exists with different semantics";;
          Ok (restored, db)
      | None =>
          Ok (binding, with_decision_bindings db
                         (<[d_decision_id decision := binding]> (decision_bindings db)))
      end
  end.

Definition get_decision_binding (db : AuthorityDb) (decision_id : uuid) : option DecisionAuthorityBinding :=
  decision_bindings db !! decision_id.

(** [put_approval_satisfaction] with [_put_satisfaction_in_session] *)
Definition put_approval_satisfaction (db : AuthorityDb) (s : ApprovalSatisfaction)
  : result (ApprovalSatisfaction * AuthorityDb) :=
  match satisfactions db !! as_satisfaction_id s with
  | Some restored =>
      refuse bool_decide (restored <> s) with AuthorityError
        saying "approval satisfaction id already exists with different semantics";;
      Ok (restored, db)
  | None => Ok (s, with_satisfactions db (<[as_satisfaction_id s := s]> (satisfactions db)))
  end.

(** [get_approval_satisfaction]: the latest by [assessed_at]. *)
Definition get_approval_satisfaction (db : AuthorityDb) (case_id : uuid) (authority_epoch : Z)
  : option ApprovalSatisfaction :=
  head (sort_by (fun x y => (as_assessed_at y ?= as_assessed_at x))
    (select_where (fun s => bool_decide (as_case_id s = case_id)
                            && (as_authority_epoch s =? authority_epoch)) (satisfactions db))).

(** ** Which role a principal decides in *)

Definition resolve_decision_role (db : AuthorityDb) (principal_id : string) (evaluation : PolicyEvaluation)
    (organization_scope : string) (requested_role : option string) (at_ : instant) : result string :=
  let required := pe_required_decision_roles evaluation in
  refuse bool_decide (required = []) with AuthorityError
    saying "current policy does not admit human decisions";;
  let! roles := roles_for db principal_id organization_scope at_ in
  let eligible : gset string := roles ∩ list_to_set required in
  match requested_role with
  | Some role =>
      refuse bool_decide (role ∉ required) with AuthorityError
        saying "requested decision role is not required by current policy";;
      refuse bool_decide (role ∉ eligible) with AuthorityError
        saying "authenticated principal is not eligible for requested decision role";;
      Ok role
  | None =>
      match elements eligible with
      | [role] => Ok role
      | _ => raise AuthorityError
          "decision role is ambiguous or authenticated principal has no eligible required role"
      end
  end.

(** ** Approval satisfaction *)

(** [_select_role_decisions]: [visit] carries the mutable [selected] list and
    [used_principals] set. *)
Section select.
Context (distinct : bool) (candidates : list (string * list Decision)).

Definition candidates_of (role : string) : list Decision := default [] (assoc role candidates).

Abbreviation search_state := (list Decision * gset string)%type (only parsing).

(** The [for decision in candidates[role]] loop, [visit_rest] being [visit(index + 1)]. *)
Fixpoint try_candidates (visit_rest : search_state -> bool * search_state)
    (cands : list Decision) (st : search_state) : bool * search_state :=
  match cands with
  | [] => (false, st)
  | decision :: more =>
      let '(selected, used) := st in
      if distinct && bool_decide (d_principal_id decision ∈ used)
      then try_candidates visit_rest more st
      else
        let '(found, (selected', used')) :=
          visit_rest (selected ++ [decision], {[d_principal_id decision]} ∪ used) in
        if found then (true, (selected', used'))
        else
          let popped := removelast selected' in
          let used'' :=
            if forallb (fun item => bool_decide (d_principal_id item <> d_principal_id decision)) popped
            then used' ∖ {[d_principal_id decision]} else used' in
          try_candidates visit_rest more (popped, used'')
  end.

Fixpoint visit (roles : list string) (st : search_state) : bool * search_state :=
  match roles with
  | [] => (true, st)
  | role :: rest => try_candidates (visit rest) (candidates_of role) st
  end.

Definition select_role_decisions (roles : list string) : option (list Decision) :=
  let '(found, (selected, _)) := visit roles ([], ∅) in
  if found then Some selected else None.
End select.

(** The decisions the loop of [assess_approval_satisfaction] skips. *)
Definition decision_applies (case_id : uuid) (authority_epoch : Z) (policy_ref : PolicyRef)
    (candidates : list (string * list Decision)) (d : Decision) : bool :=
  bool_decide (d_case_id d = case_id) && (d_authority_epoch d =? authority_epoch)
  && bool_decide (d_policy_ref d = policy_ref) && bool_decide (d_disposition d = APPROVE)
  && match d_decision_role d with Some r => dict_has candidates r | None => false end.

Definition collect_candidates (db : AuthorityDb) (case_id : uuid) (authority_epoch : Z)
    (policy_ref : PolicyRef) (organization_scope : string) (required_roles : list string)
    (decisions : list Decision) : result (list (string * list Decision)) :=
  let initial := fold_left (fun acc role => dict_set acc role []) required_roles [] in
  for_each (fun candidates d =>
    if negb (decision_applies case_id authority_epoch policy_ref candidates d) then Ok candidates
    else
      let! roles := roles_for db (d_principal_id d) organization_scope (d_decided_at d) in
      match d_decision_role d with
      | Some role =>
          if bool_decide (role ∈ roles)
          then Ok (dict_set candidates role (candidates_of candidates role ++ [d]))
          else Ok candidates
      | None => Ok candidates
      end) decisions initial.

Definition satisfaction_name `{Platform} (case_id : uuid) (authority_epoch : Z) (ids : list uuid) : string :=
  "administrative:approval-satisfaction:" +:+ uuid_str case_id +:+ ":" +:+ int_str authority_epoch
  +:+ ":" +:+ join ":" (sort_by String.compare (uuid_str <$> ids)).

Definition assess_approval_satisfaction `{Platform} (db : AuthorityDb) (case_id : uuid)
    (authority_epoch : Z) (policy_ref : PolicyRef) (evaluation : PolicyEvaluation)
    (decisions : list Decision) (organization_scope : string) (now : instant)
    : result ApprovalAssessment :=
  let required_roles := pe_required_decision_roles evaluation in
  let! candidates := collect_candidates db case_id authority_epoch policy_ref organization_scope
                       required_roles decisions in
  let missing := List.filter (fun role => is_nil (candidates_of candidates role)) required_roles in
  let distinct := pe_require_distinct_decision_principals evaluation in
  if negb (is_nil missing) then
    Ok (mkApprovalAssessment false required_roles missing distinct [] [] None)
  else
    match select_role_decisions distinct candidates required_roles with
    | None => Ok (mkApprovalAssessment false required_roles [] distinct [] [] None)
    | Some selected =>
        let decision_ids := d_decision_id <$> selected in
        let satisfaction := mkApprovalSatisfaction
          (uuid5 (satisfaction_name case_id authority_epoch decision_ids))
          case_id authority_epoch policy_ref decision_ids required_roles now in
        Ok (mkApprovalAssessment true required_roles [] distinct decision_ids
              (d_principal_id <$> selected) (Some satisfaction))
    end.

(** ** The search for approving decisions *)

Section select_correct.
Context (distinct : bool) (candidates : list (string * list Decision)).

Abbreviation pids := (fmap d_principal_id) (only parsing).

(** One candidate decision per role, by pairwise distinct principals when the
    rule asks for it. *)
Definition representatives (roles : list string) (sel : list Decision) : Prop :=
  Forall2 (fun role d => d ∈ candidates_of candidates role) roles sel /\
  (distinct = true -> NoDup (pids sel)).

(** What [visit] does to the shared state: it extends the selection on
    success and restores both components on failure. *)
Definition search_post (roles : list string) (sel : list Decision) (used : gset string)
    (out : bool * (list Decision * gset string)) : Prop :=
  if fst out then
    exists ext, fst (snd out) = sel ++ ext /\
      Forall2 (fun role d => d ∈ candidates_of candidates role) roles ext /\
      (distinct = true -> NoDup (pids (sel ++ ext)))
  else
    snd out = (sel, used) /\
    forall ext, Forall2 (fun role d => d ∈ candidates_of candidates role) roles ext ->
      (distinct = true -> NoDup (pids (sel ++ ext))) -> False.

Definition state_ok (sel : list Decision) (used : gset string) : Prop :=
  used = list_to_set (pids sel) /\ (distinct = true -> NoDup (pids sel)).

Lemma pop_restores sel d :
  (if forallb (fun item => bool_decide (d_principal_id item <> d_principal_id d)) sel
   then ({[d_principal_id d]} ∪ list_to_set (pids sel) : gset string) ∖ {[d_principal_id d]}
   else {[d_principal_id d]} ∪ list_to_set (pids sel)) = list_to_set (pids sel).
Proof.
  destruct (decide (d_principal_id d ∈ pids sel)) as [Hin|Hni].
  - assert (forallb (fun item => bool_decide (d_principal_id item <> d_principal_id d)) sel = false)
      as ->; [|rewrite <- (elem_of_list_to_set (C:=gset string)) in Hin; set_solver].
    apply not_true_iff_false. rewrite forallb_forall. intros Hall.
    apply list_elem_of_fmap in Hin as (x & Hx & Hin).
    apply list_elem_of_In, Hall, bool_decide_eq_true in Hin. congruence.
  - assert (forallb (fun item => bool_decide (d_principal_id item <> d_principal_id d)) sel = true)
      as ->; [|rewrite <- (elem_of_list_to_set (C:=gset string)) in Hni; set_solver].
    apply forallb_forall. intros x Hx. apply bool_decide_eq_true. intros Heq.
    apply Hni. rewrite <- Heq. by apply list_elem_of_fmap_2, list_elem_of_In.
Qed.

Lemma state_ok_push sel used d :
  state_ok sel used -> (distinct && bool_decide (d_principal_id d ∈ used)) = false ->
  state_ok (sel ++ [d]) ({[d_principal_id d]} ∪ used).
Proof.
  intros [-> Hnd] Hd. split.
  - rewrite fmap_app, list_to_set_app_L. set_solver.
  - intros Hdis. rewrite Hdis in *. cbn in Hd. propify.
    rewrite elem_of_list_to_set in Hd. rewrite fmap_app. apply NoDup_app.
    split_and!; [auto| |apply NoDup_singleton].
    intros x Hx ->%list_elem_of_singleton. done.
Qed.

Lemma try_candidates_post rest cands sel used :
  (forall sel used, state_ok sel used ->
     search_post rest sel used (visit distinct candidates rest (sel, used))) ->
  state_ok sel used ->
  let out := try_candidates distinct (visit distinct candidates rest) cands (sel, used) in
  if fst out then
    exists d ext, d ∈ cands /\ fst (snd out) = sel ++ d :: ext /\
      Forall2 (fun role d => d ∈ candidates_of candidates role) rest ext /\
      (distinct = true -> NoDup (pids (sel ++ d :: ext)))
  else
    snd out = (sel, used) /\
    forall d ext, d ∈ cands ->
      Forall2 (fun role d => d ∈ candidates_of candidates role) rest ext ->
      (distinct = true -> NoDup (pids (sel ++ d :: ext))) -> False.
Proof.
  intros IHrest Hst. induction cands as [|d cands IH]; cbn.
  { split; [done|]. by intros d ext ?%not_elem_of_nil. }
  destruct (distinct && bool_decide (d_principal_id d ∈ used)) eqn:Hskip.
  - destruct (try_candidates _ _ _ _) as [[] out]; cbn in *.
    + destruct IH as (d' & ext & ? & ? & ? & ?). exists d', ext. set_solver.
    + destruct IH as [? IH]. split; [done|]. intros d' ext [->|?]%elem_of_cons; [|by eauto].
      intros _ Hnd. propify. destruct Hst as [-> _].
      match goal with H : _ ∈ _ |- _ => rewrite elem_of_list_to_set in H; rename H into Hin end.
      specialize (Hnd ltac:(done)). rewrite fmap_app in Hnd.
      apply NoDup_app in Hnd as (_ & Hnd & _). apply (Hnd _ Hin). left.
  - pose proof (state_ok_push _ _ _ Hst Hskip) as Hst'.
    specialize (IHrest _ _ Hst').
    destruct (visit _ _ rest _) as [[] [sel' used']]; cbn in *.
    + destruct IHrest as (ext & -> & Hf & Hnd). exists d, ext.
      rewrite <- app_assoc in *. set_solver.
    + destruct IHrest as [[= -> ->] Hno]. rewrite removelast_last.
      destruct Hst as [-> Hnd]. rewrite pop_restores.
      destruct (try_candidates _ _ _ _) as [[] out]; cbn in *.
      * destruct IH as (d' & ext & ? & ? & ? & ?). exists d', ext. set_solver.
      * destruct IH as [? IH]. split; [done|]. intros d' ext [->|?]%elem_of_cons; [|by eauto].
        intros Hf Hnd'. apply (Hno ext Hf). by rewrite <- app_assoc.
Qed.

Lemma visit_post roles sel used :
  state_ok sel used -> search_post roles sel used (visit distinct candidates roles (sel, used)).
Proof.
  revert sel used. induction roles as [|role roles IH]; intros sel used Hst; cbn.
  { exists []. rewrite app_nil_r. destruct Hst. auto. }
  pose proof (try_candidates_post roles (candidates_of candidates role) sel used IH Hst) as Hp.
  unfold search_post. destruct (try_candidates _ _ _ _) as [[] out]; cbn in *.
  - destruct Hp as (d & ext & ? & ? & ? & ?). exists (d :: ext). auto.
  - destruct Hp as [? Hno]. split; [done|]. intros ext Hf Hnd.
    inversion Hf as [|? d ? ext' Hd Hf']; subst. by eapply Hno.
Qed.

Lemma select_role_decisions_Some roles sel :
  select_role_decisions distinct candidates roles = Some sel -> representatives roles sel.
Proof.
  unfold select_role_decisions. pose proof (visit_post roles [] ∅) as Hp.
  destruct (visit _ _ _ _) as [[] [sel' used]]; [|done]. intros [= <-].
  destruct Hp as (ext & Heq & Hf & Hnd); [by split; [|intros; constructor]|].
  cbn in Heq. subst. by split.
Qed.

Lemma select_role_decisions_None roles :
  select_role_decisions distinct candidates roles = None <-> forall sel, ~ representatives roles sel.
Proof.
  split.
  - unfold select_role_decisions. pose proof (visit_post roles [] ∅) as Hp.
    destruct (visit _ _ _ _) as [[] [sel' used]]; [done|]. intros _ sel [Hf Hnd].
    destruct Hp as [_ Hno]; [by split; [|intros; constructor]|]. by apply (Hno sel).
  - destruct (select_role_decisions distinct candidates roles) eqn:E; [|done].
    intros Hno. by apply select_role_decisions_Some, Hno in E.
Qed.
End select_correct.

(** ** Roles *)

(** [p] holds [role] in [scope] at [at_] by an assignment of its own. *)
Definition holds_directly (db : AuthorityDb) (p scope : string) (at_ : instant) (role : string) : Prop :=
  exists k a, role_assignments db !! k = Some a /\ ra_principal_id a = p /\ ra_role a = role /\
    assignment_in_force a scope at_ = true.

(** A delegation row grants its role: it is current, its scope matches and its
    delegator holds the role directly. *)
Definition grants (db : AuthorityDb) (scope : string) (at_ : instant) (d : Delegation) (role : string) : Prop :=
  dg_role d = role /\ delegation_current d at_ = true /\
  scope_matches (dg_organization_scope d) scope = true /\
  holds_directly db (dg_from_principal_id d) scope at_ role.

Definition holds_by_delegation (db : AuthorityDb) (p scope : string) (at_ : instant) (role : string) : Prop :=
  exists k d, delegations db !! k = Some d /\ dg_to_principal_id d = p /\ grants db scope at_ d role.

(** Every delegation row addressed to [p] still passes its window validator. *)
Definition delegations_readable (db : AuthorityDb) (p : string) : Prop :=
  forall k d, delegations db !! k = Some d -> dg_to_principal_id d = p ->
    dg_valid_from d < dg_valid_until d.

Lemma delegation_from_row_Ok row d :
  delegation_from_row row = Ok d <-> d = row /\ dg_valid_from row < dg_valid_until row.
Proof.
  unfold delegation_from_row, Delegation_validate. rewrite rbind_guard_Ok, Z.leb_gt. naive_solver.
Qed.

Lemma source_holds db scope at_ d :
  existsb (fun a => assignment_in_force a scope at_)
    (select_where (fun r => bool_decide (ra_principal_id r = dg_from_principal_id d)
                            && bool_decide (ra_role r = dg_role d)) (role_assignments db)) = true
  <-> holds_directly db (dg_from_principal_id d) scope at_ (dg_role d).
Proof.
  rewrite existsb_elem_of. unfold holds_directly. split.
  - intros (a & [[k Hk] HP]%elem_of_select_where & Hf). propify. naive_solver.
  - intros (k & a & Hk & Hp & Hr & Hf). exists a. split; [|done].
    apply elem_of_select_where. split; [by exists k|].
    by rewrite !bool_decide_true.
Qed.

Section roles_loop.
Context (db : AuthorityDb) (scope : string) (at_ : instant).

Abbreviation step := (add_delegated_role db scope at_) (only parsing).

Lemma roles_step_spec roles row :
  dg_valid_from row < dg_valid_until row ->
  exists roles', step roles row = Ok roles' /\
    forall r, r ∈ roles' <-> r ∈ roles \/ grants db scope at_ row r.
Proof.
  intros Hw. unfold add_delegated_role. rewrite (proj2 (delegation_from_row_Ok row row)) by done. cbn.
  unfold grants. destruct (delegation_current row at_); cbn; [|naive_solver].
  destruct (scope_matches (dg_organization_scope row) scope); cbn; [|naive_solver].
  pose proof (source_holds db scope at_ row) as Hs.
  destruct (existsb _ _); eexists; (split; [done|]); intros r; [set_solver|].
  split; [by left|]. intros [?|(<- & _ & _ & Hh)]; [done|]. apply Hs in Hh. done.
Qed.

Lemma roles_loop_spec rows roles :
  Forall (fun row => dg_valid_from row < dg_valid_until row) rows ->
  exists roles', for_each step rows roles = Ok roles' /\
    forall r, r ∈ roles' <-> r ∈ roles \/ exists row, row ∈ rows /\ grants db scope at_ row r.
Proof.
  intros Hall. revert roles. induction Hall as [|row rows Hw _ IH]; intros roles; cbn.
  - eexists; split; [done|]. intros r. split; [by left|].
    by intros [?|(row & ?%not_elem_of_nil & _)].
  - destruct (roles_step_spec roles row Hw) as (roles1 & -> & H1). cbn.
    destruct (IH roles1) as (roles2 & -> & H2). eexists; split; [done|].
    intros r. rewrite H2, H1. set_solver.
Qed.

Lemma roles_loop_readable rows roles roles' :
  for_each step rows roles = Ok roles' ->
  Forall (fun row => dg_valid_from row < dg_valid_until row) rows.
Proof.
  revert roles. induction rows as [|row rows IH]; intros roles H; cbn in H; [constructor|].
  inv_ok. constructor; [|by eapply IH]. unfold add_delegated_role in E. inv_ok.
  by apply delegation_from_row_Ok in E0 as [_ ?].
Qed.
End roles_loop.

Lemma rows_readable db p :
  delegations_readable db p <->
  Forall (fun row => dg_valid_from row < dg_valid_until row)
    (select_where (fun row => bool_decide (dg_to_principal_id row = p)) (delegations db)).
Proof.
  rewrite Forall_forall. split.
  - intros Hr row [[k Hk] HP]%elem_of_select_where. propify. eauto.
  - intros Hr k d Hk Hp. apply Hr, elem_of_select_where. by rewrite bool_decide_true; eauto.
Qed.

Lemma roles_for_total db p scope at_ :
  delegations_readable db p ->
  exists roles, roles_for db p scope at_ = Ok roles /\
    forall role, role ∈ roles <-> holds_directly db p scope at_ role \/ holds_by_delegation db p scope at_ role.
Proof.
  intros Hr%rows_readable. unfold roles_for.
  match goal with |- exists _, for_each _ _ ?roles0 = _ /\ _ =>
    destruct (roles_loop_spec db scope at_ _ roles0 Hr) as (roles & Hrun & Hspec) end.
  exists roles. split; [exact Hrun|]. intros role. rewrite Hspec. f_equiv.
  - rewrite elem_of_list_to_set, list_elem_of_fmap. unfold holds_directly. split.
    + intros (a & -> & [[[k Hk] HP]%elem_of_select_where Hf]%elem_of_filter_bool).
      propify. eauto 10.
    + intros (k & a & Hk & Hp & Hro & Hf). exists a. split; [done|].
      apply elem_of_filter_bool. split; [|done].
      apply elem_of_select_where. by rewrite bool_decide_true; eauto.
  - unfold holds_by_delegation. split.
    + intros (row & [[k Hk] HP]%elem_of_select_where & Hg). propify. eauto 10.
    + intros (k & d & Hk & Hp & Hg). exists d. split; [|done].
      apply elem_of_select_where. by rewrite bool_decide_true; eauto.
Qed.

Lemma roles_for_spec db p scope at_ roles :
  roles_for db p scope at_ = Ok roles ->
  forall role, role ∈ roles <-> holds_directly db p scope at_ role \/ holds_by_delegation db p scope at_ role.
Proof.
  intros Hrun. pose proof Hrun as Hread. unfold roles_for in Hread.
  apply roles_loop_readable, rows_readable in Hread.
  destruct (roles_for_total db p scope at_ Hread) as (roles' & Hrun' & Hspec).
  rewrite Hrun in Hrun'. injection Hrun' as <-. exact Hspec.
Qed.

(** ** Approval *)

(** A recorded decision counts for [role]: it approves this case, epoch and
    policy in that role, and its principal held the role when deciding. *)
Definition counts_for (db : AuthorityDb) (case_id : uuid) (epoch : Z) (pref : PolicyRef)
    (scope : string) (role : string) (d : Decision) : Prop :=
  d_case_id d = case_id /\ d_authority_epoch d = epoch /\ d_policy_ref d = pref /\
  d_disposition d = APPROVE /\ d_decision_role d = Some role /\
  (holds_directly db (d_principal_id d) scope (d_decided_at d) role \/
   holds_by_delegation db (d_principal_id d) scope (d_decided_at d) role).

Lemma decision_applies_spec case_id epoch pref cands d :
  decision_applies case_id epoch pref cands d = true <->
  d_case_id d = case_id /\ d_authority_epoch d = epoch /\ d_policy_ref d = pref /\
  d_disposition d = APPROVE /\ exists role, d_decision_role d = Some role /\ dict_has cands role = true.
Proof.
  unfold decision_applies. rewrite !andb_true_iff, !bool_decide_eq_true, Z.eqb_eq.
  destruct (d_decision_role d); naive_solver.
Qed.

Section candidates.
Context (db : AuthorityDb) (case_id : uuid) (epoch : Z) (pref : PolicyRef) (scope : string).

Abbreviation counts := (counts_for db case_id epoch pref scope) (only parsing).

Definition candidate_step (candidates : list (string * list Decision)) (d : Decision) :=
  if negb (decision_applies case_id epoch pref candidates d) then Ok candidates
  else
    let! roles := roles_for db (d_principal_id d) scope (d_decided_at d) in
    match d_decision_role d with
    | Some role =>
        if bool_decide (role ∈ roles)
        then Ok (dict_set candidates role (candidates_of candidates role ++ [d]))
        else Ok candidates
    | None => Ok candidates
    end.

(** One iteration keeps the keys and adds [d] exactly where it counts. *)
Lemma candidate_step_spec cands d cands' :
  candidate_step cands d = Ok cands' ->
  (forall r, dict_has cands' r = dict_has cands r) /\
  forall r, dict_has cands r = true ->
    forall x, x ∈ candidates_of cands' r <-> x ∈ candidates_of cands r \/ (x = d /\ counts r x).
Proof.
  unfold candidate_step. destruct (decision_applies _ _ _ _ _) eqn:Ha; cbn.
  - apply decision_applies_spec in Ha as (Hc & He & Hp & Hd & role & Hrole & Hhas).
    intros H. inv_ok. rewrite Hrole in H. rename E into Hroles.
    pose proof (roles_for_spec _ _ _ _ _ Hroles role) as Hin.
    case_bool_decide as Hr; inv_ok; subst cands'.
    + split.
      * intros r. unfold dict_has. rewrite assoc_dict_set. case_bool_decide; subst; [|done].
        symmetry. exact Hhas.
      * intros r _ x. unfold candidates_of. rewrite assoc_dict_set.
        case_bool_decide; subst; cbn; unfold counts_for; [set_solver|]. naive_solver.
    + split; [done|]. intros r _ x. unfold counts_for. naive_solver.
  - intros H. inv_ok. subst cands'. split; [done|]. intros r Hr x.
    split; [by left|]. intros [?|[-> Hcount]]; [done|]. exfalso.
    apply not_true_iff_false in Ha. apply Ha, decision_applies_spec.
    unfold counts_for in Hcount. naive_solver.
Qed.

Lemma candidate_loop_spec decisions cands cands' :
  for_each candidate_step decisions cands = Ok cands' ->
  forall r, dict_has cands r = true ->
    forall x, x ∈ candidates_of cands' r <-> x ∈ candidates_of cands r \/ (x ∈ decisions /\ counts r x).
Proof.
  revert cands. induction decisions as [|d ds IH]; intros cands H r Hr x; cbn in H; inv_ok.
  - subst. rewrite elem_of_nil. naive_solver.
  - destruct (candidate_step_spec _ _ _ E) as [Hkeys Hstep].
    rewrite (IH _ H r), (Hstep r Hr) by by rewrite Hkeys. set_solver.
Qed.

Lemma initial_candidates required acc r :
  let init := fold_left (fun acc role => dict_set acc role []) required acc in
  dict_has init r = dict_has acc r || bool_decide (r ∈ required) /\
  (r ∈ required -> candidates_of init r = []).
Proof.
  cbn. revert acc. induction required as [|role required IH]; intros acc; cbn.
  { rewrite orb_false_r. split; [done|]. by intros ?%not_elem_of_nil. }
  destruct (IH (dict_set acc role [])) as [Hk He]. rewrite Hk. split.
  - unfold dict_has. rewrite assoc_dict_set.
    rewrite (bool_decide_ext (r ∈ role :: required) _ (elem_of_cons required r role)), bool_decide_or.
    destruct (assoc r acc), (bool_decide (r = role)), (bool_decide (r ∈ required)); done.
  - intros Hin. destruct (decide (r ∈ required)) as [|Hni]; [auto|].
    assert (r = role) as -> by set_solver.
    clear He Hk Hin. revert Hni. generalize (assoc_dict_set acc role role ([] : list Decision)).
    generalize (dict_set acc role ([] : list Decision)). clear.
    rewrite bool_decide_true by done.
    induction required as [|r' rs IH]; intros l Hl Hni; cbn; [unfold candidates_of; by rewrite Hl|].
    apply not_elem_of_cons in Hni as [Hne Hni]. apply IH; [|done].
    rewrite assoc_dict_set, bool_decide_false by done. exact Hl.
Qed.

Lemma collect_candidates_spec required decisions cands :
  collect_candidates db case_id epoch pref scope required decisions = Ok cands ->
  forall r, r ∈ required -> forall x, x ∈ candidates_of cands r <-> x ∈ decisions /\ counts r x.
Proof.
  intros Hrun r Hr x. destruct (initial_candidates required [] r) as [Hk He].
  rewrite (candidate_loop_spec decisions _ _ Hrun r), (He Hr); [set_solver|].
  rewrite Hk. by rewrite bool_decide_true, orb_true_r.
Qed.
End candidates.

(** The abstract approval rule: one counting decision per required role, by
    pairwise distinct principals when the policy asks for it. *)
Definition approval_witness (db : AuthorityDb) (case_id : uuid) (epoch : Z) (pref : PolicyRef)
    (evaluation : PolicyEvaluation) (decisions : list Decision) (scope : string)
    (sel : list Decision) : Prop :=
  Forall2 (fun role d => d ∈ decisions /\ counts_for db case_id epoch pref scope role d)
    (pe_required_decision_roles evaluation) sel /\
  (pe_require_distinct_decision_principals evaluation = true -> NoDup (d_principal_id <$> sel)).

Lemma representatives_approval db case_id epoch pref evaluation decisions scope cands sel :
  collect_candidates db case_id epoch pref scope (pe_required_decision_roles evaluation) decisions = Ok cands ->
  representatives (pe_require_distinct_decision_principals evaluation) cands
    (pe_required_decision_roles evaluation) sel <->
  approval_witness db case_id epoch pref evaluation decisions scope sel.
Proof.
  intros Hc. unfold representatives, approval_witness. f_equiv.
  pose proof (collect_candidates_spec _ _ _ _ _ _ _ _ Hc) as Hspec. clear Hc.
  revert sel Hspec. induction (pe_required_decision_roles evaluation) as [|role roles IH];
    intros sel Hspec; [split; inversion 1; constructor|].
  split; inversion_clear 1 as [|? d ? sel' Hd Hsel]; (constructor;
    [by apply Hspec; [left|]|apply IH; [|done]; intros r Hr; apply Hspec; by right]).
Qed.

(** The backtracking search of [_select_role_decisions] is sound and
    complete: it returns one candidate decision per role, in role order and by
    distinct principals when required, and returns nothing only when no such
    choice exists. *)
Theorem select_role_decisions_correct distinct candidates roles :
  match select_role_decisions distinct candidates roles with
  | Some sel => representatives distinct candidates roles sel
  | None => forall sel, ~ representatives distinct candidates roles sel
  end.
Proof.
  destruct (select_role_decisions distinct candidates roles) eqn:E.
  - by apply select_role_decisions_Some.
  - by apply select_role_decisions_None.
Qed.

(** [roles_for] is exact: when the delegation rows of the principal are
    readable it succeeds, and a role is in the result if and only if the
    principal holds it directly, currently and in scope, or receives it by one
    current in-scope delegation from a principal who holds it directly;
    delegated roles are never re-delegated. *)
Theorem roles_for_exact db p scope at_ :
  delegations_readable db p ->
  exists roles, roles_for db p scope at_ = Ok roles /\
    forall role, role ∈ roles <->
      holds_directly db p scope at_ role \/ holds_by_delegation db p scope at_ role.
Proof. apply roles_for_total. Qed.

(** What an assessment means, decision by decision. *)
Lemma assess_approval_spec `{Platform} db case_id epoch pref evaluation decisions scope now a :
  assess_approval_satisfaction db case_id epoch pref evaluation decisions scope now = Ok a ->
  (aa_satisfied a = true <->
     exists sel, approval_witness db case_id epoch pref evaluation decisions scope sel) /\
  (aa_satisfied a = true ->
     exists sel s, approval_witness db case_id epoch pref evaluation decisions scope sel /\
       aa_selected_decision_ids a = d_decision_id <$> sel /\ aa_satisfaction a = Some s /\
       as_case_id s = case_id /\ as_authority_epoch s = epoch /\ as_policy_ref s = pref /\
       as_decision_ids s = d_decision_id <$> sel /\
       as_satisfied_roles s = pe_required_decision_roles evaluation) /\
  (aa_satisfied a = false -> aa_satisfaction a = None).
Proof.
  intros Hrun. unfold assess_approval_satisfaction in Hrun. inv_ok. rename v into cands.
  pose proof (fun sel => representatives_approval _ _ _ _ _ _ _ _ sel E) as Hrep.
  set (roles := pe_required_decision_roles evaluation) in *.
  destruct (is_nil (List.filter _ _)) eqn:Hmiss; cbn in Hrun.
  - destruct (select_role_decisions _ _ _) as [sel|] eqn:Hsel; inv_ok; subst a; cbn.
    + apply select_role_decisions_Some, Hrep in Hsel. split_and!; [naive_solver| |done].
      intros _. eexists sel, _. split_and!; [exact Hsel|done..].
    + rewrite select_role_decisions_None in Hsel. split_and!; [|done|done].
      split; [done|]. intros [sel Hw%Hrep]. by apply Hsel in Hw.
  - inv_ok. subst a; cbn. split_and!; [|done|done]. split; [done|].
    intros [sel [Hf _]]. apply is_nil_false in Hmiss.
    destruct (List.filter _ _) as [|role l] eqn:Efl; [done|]. clear Hmiss.
    assert (role ∈ List.filter (fun role => is_nil (candidates_of cands role)) roles)
      as [Hin Hnil%is_nil_true]%elem_of_filter_bool by (rewrite Efl; left).
    apply list_elem_of_lookup in Hin as [i Hi].
    destruct (Forall2_lookup_l _ _ _ _ _ Hf Hi) as (d & _ & Hd).
    apply (collect_candidates_spec _ _ _ _ _ _ _ _ E role) in Hd;
      [|by eapply list_elem_of_lookup_2].
    rewrite Hnil in Hd. by apply not_elem_of_nil in Hd.
Qed.

(** C19: An approval assessment is satisfied if and only if the policy's decision
    structure is closed: every required role has an approving decision for this
    case, epoch and policy by a principal qualified in that role and scope when
    deciding, with distinct principals when required.  A satisfied assessment
    names exactly such a choice and freezes it in its satisfaction record. *)
Theorem assess_approval_exact `{Platform} db case_id epoch pref evaluation decisions scope now a :
  assess_approval_satisfaction db case_id epoch pref evaluation decisions scope now = Ok a ->
  (aa_satisfied a = true <->
     exists sel, approval_witness db case_id epoch pref evaluation decisions scope sel) /\
  (aa_satisfied a = true ->
     exists sel s, approval_witness db case_id epoch pref evaluation decisions scope sel /\
       aa_selected_decision_ids a = d_decision_id <$> sel /\ aa_satisfaction a = Some s /\
       as_case_id s = case_id /\ as_authority_epoch s = epoch /\ as_policy_ref s = pref /\
       as_decision_ids s = d_decision_id <$> sel /\
       as_satisfied_roles s = pe_required_decision_roles evaluation) /\
  (aa_satisfied a = false -> aa_satisfaction a = None).
Proof. apply assess_approval_spec. Qed.

(** The role a decision is recorded in is always one the current policy
    requires and the deciding principal is eligible for; without an explicit
    request it is chosen only when it is the unique such role. *)
Theorem resolve_decision_role_sound db p evaluation scope requested at_ role :
  resolve_decision_role db p evaluation scope requested at_ = Ok role ->
  let eligible r := r ∈ pe_required_decision_roles evaluation /\
    (holds_directly db p scope at_ r \/ holds_by_delegation db p scope at_ r) in
  eligible role /\
  match requested with Some r => r = role | None => forall r, eligible r -> r = role end.
Proof.
  unfold resolve_decision_role. intros Hrun. inv_ok. cbn. propify.
  pose proof (roles_for_spec _ _ _ _ _ E0) as Hspec. destruct requested as [r|]; inv_ok.
  - propify. subst. rewrite <- Hspec. set_solver.
  - set (el := _ ∩ list_to_set (pe_required_decision_roles evaluation)) in *. destruct (elements el) as [|r [|]] eqn:Hel; [done| |done].
    inv_ok. subst r.
    assert (forall x, x ∈ el <-> x = role) as Hx.
    { intros x. rewrite <- elem_of_elements, Hel. set_solver. }
    unfold el in Hx. setoid_rewrite elem_of_intersection in Hx.
    setoid_rewrite elem_of_list_to_set in Hx. setoid_rewrite Hspec in Hx. naive_solver.
Qed.
