(* ===== verification/AuthorityLifecycle.v ===== *)
(** * Revocation of authority, [authority_lifecycle.py]

    The audited operations that end authority: deactivating a principal and
    closing the validity window of an identity binding, a role assignment or a
    delegation; and the audited creation of identity bindings.  Each writes one
    row and appends one lifecycle event, whose identity makes a replay return
    the stored event.  [Windowed] is what [_expire_validity] needs of the three
    row types it is called with. *)

From stdpp Require Import base gmap strings list relations.
From Stdlib Require Import ZArith Lia.
From S2P Require Import Prelude Python Store Domain Policy Authority.

Open Scope Z_scope.
Open Scope orch_scope.

Record AuthorityLifecycleEvent := mkAuthorityLifecycleEvent {
  ev_event_id : uuid;
  ev_event_type : string;
  ev_actor_principal_id : string;
  ev_target_ref : string;
  ev_reason : string;
  ev_payload : pydict;
  ev_occurred_at : instant;
}.

Abbreviation EventDb := (gmap uuid AuthorityLifecycleEvent) (only parsing).

(** Pydantic equality of events; a payload is compared as a dict. *)
Definition event_eqb (a b : AuthorityLifecycleEvent) : bool :=
  bool_decide (ev_event_id a = ev_event_id b)
  && bool_decide (ev_event_type a = ev_event_type b)
  && bool_decide (ev_actor_principal_id a = ev_actor_principal_id b)
  && bool_decide (ev_target_ref a = ev_target_ref b)
  && bool_decide (ev_reason a = ev_reason b)
  && py_eq (VDict (ev_payload a)) (VDict (ev_payload b))
  && bool_decide (ev_occurred_at a = ev_occurred_at b).

(** [_record] *)
Definition record_event (events : EventDb) (event : AuthorityLifecycleEvent)
  : result (AuthorityLifecycleEvent * EventDb) :=
  match events !! ev_event_id event with
  | Some stored =>
      refuse negb (event_eqb stored event) with AuthorityError
        saying "authority lifecycle event id already exists with different semantics";;
      Ok (stored, events)
  | None => Ok (event, <[ev_event_id event := event]> events)
  end.

(** ** Validity windows *)

Class Windowed (R : Type) := {
  win_from : R -> instant;
  win_until : R -> option instant;
  win_close : R -> instant -> R;
  win_payload : R -> pydict;
}.

#[export] Instance IdentityBinding_Windowed : Windowed IdentityBinding := {|
  win_from := ib_valid_from;
  win_until := ib_valid_until;
  win_close b t := mkIdentityBinding (ib_binding_id b) (ib_provider b) (ib_external_subject b)
                     (ib_principal_id b) (ib_valid_from b) (Some t);
  win_payload b := [("binding_id", VStr (uuid_str (ib_binding_id b))); ("provider", VStr (ib_provider b));
                    ("external_subject", VStr (ib_external_subject b));
                    ("principal_id", VStr (ib_principal_id b))];
|}.

#[export] Instance RoleAssignment_Windowed : Windowed RoleAssignment := {|
  win_from := ra_valid_from;
  win_until := ra_valid_until;
  win_close a t := mkRoleAssignment (ra_assignment_id a) (ra_principal_id a) (ra_role a)
                     (ra_organization_scope a) (ra_valid_from a) (Some t);
  win_payload a := [("assignment_id", VStr (uuid_str (ra_assignment_id a)));
                    ("principal_id", VStr (ra_principal_id a)); ("role", VStr (ra_role a));
                    ("organization_scope", VStr (ra_organization_scope a))];
|}.

#[export] Instance Delegation_Windowed : Windowed Delegation := {|
  win_from := dg_valid_from;
  win_until d := Some (dg_valid_until d);
  win_close d t := mkDelegation (dg_delegation_id d) (dg_from_principal_id d) (dg_to_principal_id d)
                     (dg_role d) (dg_organization_scope d) (dg_valid_from d) t;
  win_payload d := [("delegation_id", VStr (uuid_str (dg_delegation_id d)));
                    ("from_principal_id", VStr (dg_from_principal_id d));
                    ("to_principal_id", VStr (dg_to_principal_id d)); ("role", VStr (dg_role d));
                    ("organization_scope", VStr (dg_organization_scope d))];
|}.

(** [previous is None or effective_at < previous] closes the window earlier. *)
Definition closed_at {R} `{Windowed R} (row : R) (effective_at : instant) : R :=
  match win_until row with
  | Some u => if effective_at <? u then win_close row effective_at else row
  | None => win_close row effective_at
  end.

Section lifecycle.
Context `{Platform}.

Definition lifecycle_event_id (event_type target_ref : string) (at_ : instant) : uuid :=
  uuid5 ("administrative:authority-lifecycle:" +:+ event_type +:+ ":" +:+ target_ref +:+ ":"
         +:+ isoformat at_).

Definition expiry_event {R} `{Windowed R} (row : R) (event_type target_ref actor reason : string)
    (effective_at : instant) : AuthorityLifecycleEvent :=
  let row' := closed_at row effective_at in
  mkAuthorityLifecycleEvent (lifecycle_event_id event_type target_ref effective_at) event_type actor
    target_ref reason
    (win_payload row
     ++ [("valid_from", VStr (isoformat (win_from row)));
         ("valid_until", VStr (isoformat (default effective_at (win_until row'))))])
    effective_at.

(** [_expire_validity]; [effective_at] is the caller's [at] or the clock. *)
Definition expire_validity {R} `{Windowed R} (event_type target_prefix label : string)
    (table : gmap uuid R) (events : EventDb) (row_id : uuid) (actor reason : string)
    (effective_at : instant) : result (AuthorityLifecycleEvent * (gmap uuid R * EventDb)) :=
  refuse negb (nonempty (strip reason)) with AuthorityError saying (label +:+ " requires a reason");;
  match table !! row_id with
  | None => raise AuthorityError (label +:+ " target does not exist")
  | Some row =>
      refuse effective_at <? win_from row with AuthorityError
        saying (label +:+ " cannot precede its validity start");;
      let target_ref := target_prefix +:+ ":" +:+ uuid_str row_id in
      let! (event, events') := record_event events
        (expiry_event row event_type target_ref actor reason effective_at) in
      Ok (event, (<[row_id := closed_at row effective_at]> table, events'))
  end.

Definition expire_identity_binding (db : AuthorityDb) (events : EventDb) (binding_id : uuid)
    (actor reason : string) (at_ : instant)
  : result (AuthorityLifecycleEvent * (AuthorityDb * EventDb)) :=
  let! (event, (t, events')) :=
    expire_validity "identity_binding.revoked" "identity-binding" "identity revocation"
      (identity_bindings db) events binding_id actor reason at_ in
  Ok (event, (with_identity_bindings db t, events')).

Definition expire_role_assignment (db : AuthorityDb) (events : EventDb) (assignment_id : uuid)
    (actor reason : string) (at_ : instant)
  : result (AuthorityLifecycleEvent * (AuthorityDb * EventDb)) :=
  let! (event, (t, events')) :=
    expire_validity "role_assignment.expired" "role-assignment" "role assignment expiry"
      (role_assignments db) events assignment_id actor reason at_ in
  Ok (event, (with_role_assignments db t, events')).

Definition expire_delegation (db : AuthorityDb) (events : EventDb) (delegation_id : uuid)
    (actor reason : string) (at_ : instant)
  : result (AuthorityLifecycleEvent * (AuthorityDb * EventDb)) :=
  let! (event, (t, events')) :=
    expire_validity "delegation.expired" "delegation" "delegation expiry"
      (delegations db) events delegation_id actor reason at_ in
  Ok (event, (with_delegations db t, events')).

Definition deactivation_event (principal_id actor reason : string) (occurred_at : instant)
  : AuthorityLifecycleEvent :=
  mkAuthorityLifecycleEvent
    (uuid5 ("administrative:authority-lifecycle:principal.deactivated:" +:+ principal_id +:+ ":"
            +:+ isoformat occurred_at))
    "principal.deactivated" actor ("principal:" +:+ principal_id) reason
    [("principal_id", VStr principal_id)] occurred_at.

Definition deactivate_principal (db : AuthorityDb) (events : EventDb) (principal_id actor reason : string)
    (occurred_at : instant) : result (AuthorityLifecycleEvent * (AuthorityDb * EventDb)) :=
  refuse negb (nonempty (strip reason)) with AuthorityError
    saying "principal deactivation requires a reason";;
  match principals db !! principal_id with
  | None => raise AuthorityError "principal does not exist"
  | Some row =>
      let! (event, events') := record_event events
        (deactivation_event principal_id actor reason occurred_at) in
      Ok (event,
          (with_principals db
             (<[principal_id := mkPrincipalRow (prow_kind row) (prow_display_name row) false]>
                (principals db)), events'))
  end.

(** [_windows_overlap] *)
Definition bindings_overlap (l r : IdentityBinding) : bool :=
  if match ib_valid_until l with Some e => e <=? ib_valid_from r | None => false end then false
  else negb match ib_valid_until r with Some e => e <=? ib_valid_from l | None => false end.

Definition same_identity (provider external_subject : string) (row : IdentityBinding) : bool :=
  bool_decide (ib_provider row = provider) && bool_decide (ib_external_subject row = external_subject).

(** [bind_identity]; the event id is random. *)
Definition bind_identity (db : AuthorityDb) (events : EventDb) (binding : IdentityBinding)
    (actor reason : string) (event_id : uuid)
  : result (AuthorityLifecycleEvent * (AuthorityDb * EventDb)) :=
  refuse negb (nonempty (strip reason)) with AuthorityError saying "identity binding requires a reason";;
  refuse bool_decide (get_principal db (ib_principal_id binding) = None) with AuthorityError
    saying "identity may bind only to an active principal";;
  refuse existsb (fun row => bindings_overlap row binding)
           (select_where (same_identity (ib_provider binding) (ib_external_subject binding))
              (identity_bindings db))
    with AuthorityError saying "identity binding validity overlaps existing binding";;
  let! t := db_add (identity_bindings db) (ib_binding_id binding) binding in
  let! (event, events') := record_event events
    (mkAuthorityLifecycleEvent event_id "identity_binding.created" actor
       ("identity-binding:" +:+ uuid_str (ib_binding_id binding)) reason
       (win_payload binding
        ++ [("valid_from", VStr (json_datetime (ib_valid_from binding)));
            ("valid_until", match ib_valid_until binding with
                            | Some u => VStr (json_datetime u) | None => VNone end)])
       (ib_valid_from binding)) in
  Ok (event, (with_identity_bindings db t, events')).

Definition list_events (events : EventDb) (limit : nat) : list AuthorityLifecycleEvent :=
  take limit (sort_by (fun a b => Z.compare (ev_occurred_at b) (ev_occurred_at a))
                (map_to_list events).*2).
End lifecycle.

(** ** Closing a window *)

Class WindowedLaws (R : Type) `{Windowed R} : Prop := {
  from_close (r : R) t : win_from (win_close r t) = win_from r;
  until_close (r : R) t : win_until (win_close r t) = Some t;
  close_close (r : R) t u : win_close (win_close r t) u = win_close r u;
  payload_close (r : R) t : win_payload (win_close r t) = win_payload r;
  payload_keys (r : R) a b :
    keys_distinct (VDict (win_payload r ++ [("valid_from", VStr a); ("valid_until", VStr b)])) = true;
}.

#[export] Instance IdentityBinding_laws : WindowedLaws IdentityBinding. Proof. by split. Qed.
#[export] Instance RoleAssignment_laws : WindowedLaws RoleAssignment. Proof. by split. Qed.
#[export] Instance Delegation_laws : WindowedLaws Delegation. Proof. by split. Qed.

(** A row is in force at [t]. *)
Definition in_window {R} `{Windowed R} (r : R) (t : instant) : Prop :=
  win_from r <= t /\ match win_until r with Some u => t < u | None => True end.

Section closing.
Context {R : Type} `{WindowedLaws R}.

Lemma closed_from (r : R) t : win_from (closed_at r t) = win_from r.
Proof. unfold closed_at. destruct (win_until r); [case_match; [apply from_close|done]|apply from_close]. Qed.

Lemma closed_payload (r : R) t : win_payload (closed_at r t) = win_payload r.
Proof.
  unfold closed_at. destruct (win_until r); [case_match; [apply payload_close|done]|apply payload_close].
Qed.

Lemma closed_until (r : R) t :
  exists u, win_until (closed_at r t) = Some u /\ u <= t /\ (forall v, win_until r = Some v -> u <= v).
Proof.
  unfold closed_at. destruct (win_until r) as [v|] eqn:Hv.
  - destruct (Z.ltb_spec t v).
    + exists t. rewrite until_close. split_and!; [done|lia|]. intros v' [= <-]. lia.
    + exists v. split_and!; [done|lia|]. intros v' [= <-]. lia.
  - exists t. rewrite until_close. split_and!; [done|lia|done].
Qed.

Lemma closed_idem (r : R) t : closed_at (closed_at r t) t = closed_at r t.
Proof.
  destruct (closed_until r t) as (u & Hu & Hle & _). unfold closed_at at 1. rewrite Hu.
  destruct (Z.ltb_spec t u); [lia|done].
Qed.

Lemma closed_window (r : R) t s : in_window (closed_at r t) s -> in_window r s /\ s < t.
Proof.
  destruct (closed_until r t) as (u & Hu & Hle & Hmin). unfold in_window. rewrite closed_from, Hu.
  intros [Hf Hlt]. split; [|lia]. split; [done|]. destruct (win_until r) as [v|]; [|done].
  specialize (Hmin v eq_refl). lia.
Qed.
End closing.

(** ** Recording events *)

Lemma event_eqb_refl e : keys_distinct (VDict (ev_payload e)) = true -> event_eqb e e = true.
Proof. intros Hk. unfold event_eqb. by rewrite !bool_decide_true, py_eq_refl. Qed.

Lemma record_event_spec (events events' : EventDb) event ev :
  record_event events event = Ok (ev, events') ->
  ev_event_id ev = ev_event_id event /\ ev_occurred_at ev = ev_occurred_at event /\
  ev_target_ref ev = ev_target_ref event /\ events' !! ev_event_id event = Some ev /\
  events ⊆ events' /\
  (keys_distinct (VDict (ev_payload event)) = true -> event_eqb ev event = true).
Proof.
  unfold record_event. destruct (events !! ev_event_id event) as [stored|] eqn:Hs; intros Hrun; inv_ok.
  - simplify_eq. propify.
    match goal with H : event_eqb _ _ = true |- _ => pose proof H as Heq; unfold event_eqb in Heq end.
    propify. split_and!; try done; naive_solver.
  - simplify_eq. rewrite lookup_insert_eq. split_and!; try done; [by apply insert_subseteq|].
    apply event_eqb_refl.
Qed.

Lemma record_event_replay (events : EventDb) event ev :
  events !! ev_event_id event = Some ev -> event_eqb ev event = true ->
  record_event events event = Ok (ev, events).
Proof. unfold record_event. intros -> ->. done. Qed.

Section expiry.
Context `{Platform} {R : Type} `{WindowedLaws R}.

Lemma expiry_event_closed (row : R) et tr actor reason t :
  expiry_event (closed_at row t) et tr actor reason t = expiry_event row et tr actor reason t.
Proof. unfold expiry_event. by rewrite closed_idem, closed_payload, closed_from. Qed.

Lemma expire_row (table table' : gmap uuid R) events events' et tp label id actor reason t ev :
  expire_validity et tp label table events id actor reason t = Ok (ev, (table', events')) ->
  nonempty (strip reason) = true /\
  exists row, table !! id = Some row /\ win_from row <= t /\ table' = <[id := closed_at row t]> table /\
    record_event events (expiry_event row et (tp +:+ ":" +:+ uuid_str id) actor reason t) = Ok (ev, events').
Proof.
  unfold expire_validity. intros Hrun. inv_ok. destruct (table !! id) as [row|]; [|done]. inv_ok.
  destruct v0 as [e es]. inv_ok. simplify_eq. propify. split; [done|]. exists row. by split_and!.
Qed.

(** Ending a validity window is monotone, local, recorded and idempotent: the
    row exists and had started, its end becomes the earlier of its old end and
    the requested time, no other row changes, the event is stored and no event
    is lost, and the same call made again changes nothing and returns the same
    event. *)
Theorem expire_validity_exact (table table' : gmap uuid R) events events' et tp label id actor reason t ev :
  expire_validity et tp label table events id actor reason t = Ok (ev, (table', events')) ->
  (exists row u, table !! id = Some row /\ win_from row <= t /\
     table' = <[id := closed_at row t]> table /\ win_from (closed_at row t) = win_from row /\
     win_until (closed_at row t) = Some u /\ u <= t /\ (forall v, win_until row = Some v -> u <= v)) /\
  ev_occurred_at ev = t /\ events' !! ev_event_id ev = Some ev /\ events ⊆ events' /\
  expire_validity et tp label table' events' id actor reason t = Ok (ev, (table', events')).
Proof.
  intros (Hr & row & Hrow & Hle & -> & Hrec)%expire_row.
  destruct (record_event_spec _ _ _ _ Hrec) as (Hid & Hat & _ & Hst & Hsub & Heq).
  destruct (closed_until row t) as (u & Hu & Hut & Hmin).
  split; [exists row, u; split_and!; try done; apply closed_from|].
  split; [done|]. split; [by rewrite Hid|]. split; [done|].
  unfold expire_validity. rewrite Hr. cbn [negb rbind]. rewrite lookup_insert_eq, closed_from.
  destruct (Z.ltb_spec t (win_from row)); [lia|]. cbn [negb rbind].
  rewrite expiry_event_closed, (record_event_replay _ _ _ Hst); [|apply Heq, payload_keys].
  cbn. by rewrite closed_idem, insert_insert_eq.
Qed.
End expiry.

(** ** Revocation only narrows authority *)

(** The operations that end authority, over the authority tables and the events. *)
Inductive revocation `{Platform} (s s' : AuthorityDb * EventDb) : Prop :=
  | revoke_principal p actor reason t ev (Hs : deactivate_principal s.1 s.2 p actor reason t = Ok (ev, s'))
  | revoke_binding id actor reason t ev (Hs : expire_identity_binding s.1 s.2 id actor reason t = Ok (ev, s'))
  | revoke_role id actor reason t ev (Hs : expire_role_assignment s.1 s.2 id actor reason t = Ok (ev, s'))
  | revoke_delegation id actor reason t ev (Hs : expire_delegation s.1 s.2 id actor reason t = Ok (ev, s')).

(** Each row of the later table is a row of the earlier one, up to an earlier end. *)
Definition narrowed {R} `{Windowed R} (t t' : gmap uuid R) : Prop :=
  forall k r', t' !! k = Some r' -> exists r, t !! k = Some r /\
    (r' = r \/ exists u, r' = win_close r u) /\ forall at_, in_window r' at_ -> in_window r at_.

Record reduced (db db' : AuthorityDb) : Prop := mkReduced {
  red_principals : forall p q, get_principal db' p = Some q -> get_principal db p = Some q;
  red_bindings : narrowed (identity_bindings db) (identity_bindings db');
  red_roles : narrowed (role_assignments db) (role_assignments db');
  red_delegations : narrowed (delegations db) (delegations db');
}.

Lemma narrowed_refl {R} `{Windowed R} (t : gmap uuid R) : narrowed t t.
Proof. intros k r Hr. exists r. split; [done|]. split; [by left|done]. Qed.

Lemma narrowed_insert {R} `{WindowedLaws R} (t : gmap uuid R) id row at_ :
  t !! id = Some row -> narrowed t (<[id := closed_at row at_]> t).
Proof.
  intros Hrow k r' Hr. destruct (decide (k = id)) as [->|Hne].
  - rewrite lookup_insert_eq in Hr. injection Hr as <-. exists row. split; [done|].
    split; [|intros s Hs; by apply closed_window in Hs as [? _]]. unfold closed_at.
    destruct (win_until row); [case_match|]; eauto.
  - rewrite lookup_insert_ne in Hr by done. exists r'. split; [done|]. split; [by left|done].
Qed.

Lemma revocation_reduces `{Platform} s s' : revocation s s' -> reduced s.1 s'.1.
Proof.
  destruct s as [db events], s' as [db' events']. cbn.
  destruct 1 as [p actor reason t ev Hs|id actor reason t ev Hs|id actor reason t ev Hs|id actor reason t ev Hs];
    cbn in Hs.
  - unfold deactivate_principal in Hs. inv_ok. destruct (principals db !! p) as [row|] eqn:Hrow; [|done].
    inv_ok. destruct v as [e es]. inv_ok. simplify_eq.
    split; try apply narrowed_refl. intros p' q. unfold get_principal. cbn.
    destruct (decide (p' = p)) as [->|Hne]; [by rewrite lookup_insert_eq|by rewrite lookup_insert_ne].
  - unfold expire_identity_binding in Hs. inv_ok. destruct v as [e [tb es]]. inv_ok. simplify_eq.
    apply expire_row in E as (_ & row & Hrow & _ & -> & _).
    split; try apply narrowed_refl; [done|]. by apply narrowed_insert.
  - unfold expire_role_assignment in Hs. inv_ok. destruct v as [e [tb es]]. inv_ok. simplify_eq.
    apply expire_row in E as (_ & row & Hrow & _ & -> & _).
    split; try apply narrowed_refl; [done|]. by apply narrowed_insert.
  - unfold expire_delegation in Hs. inv_ok. destruct v as [e [tb es]]. inv_ok. simplify_eq.
    apply expire_row in E as (_ & row & Hrow & _ & -> & _).
    split; try apply narrowed_refl; [done|]. by apply narrowed_insert.
Qed.

Lemma narrowed_trans {R} `{WindowedLaws R} (t1 t2 t3 : gmap uuid R) :
  narrowed t1 t2 -> narrowed t2 t3 -> narrowed t1 t3.
Proof.
  intros H12 H23 k r3 Hr3. destruct (H23 k r3 Hr3) as (r2 & Hr2 & Hc3 & Hw3).
  destruct (H12 k r2 Hr2) as (r1 & Hr1 & Hc2 & Hw2). exists r1. split; [done|].
  split; [|by intros at_ ?%Hw3%Hw2].
  destruct Hc3 as [->|[u ->]]; [done|]. right. exists u.
  destruct Hc2 as [->|[v ->]]; [done|apply close_close].
Qed.

Lemma reduced_refl db : reduced db db.
Proof. split; try apply narrowed_refl. done. Qed.

Lemma reduced_trans db1 db2 db3 : reduced db1 db2 -> reduced db2 db3 -> reduced db1 db3.
Proof.
  intros [Hp1 Hb1 Hr1 Hd1] [Hp2 Hb2 Hr2 Hd2]. split; try by eapply narrowed_trans. eauto.
Qed.

Lemma revocations_reduce `{Platform} s s' : rtc revocation s s' -> reduced s.1 s'.1.
Proof.
  induction 1 as [s|s1 s2 s3 Hstep _ IH]; [apply reduced_refl|].
  eapply reduced_trans; [by apply revocation_reduces|done].
Qed.

Lemma window_current_in_window {R} `{Windowed R} (r : R) at_ :
  window_current (win_from r) (win_until r) at_ = true <-> in_window r at_.
Proof. rewrite window_current_spec. unfold in_window. destruct (win_until r); naive_solver. Qed.

Lemma holds_directly_reduced db db' p scope at_ role :
  reduced db db' -> holds_directly db' p scope at_ role -> holds_directly db p scope at_ role.
Proof.
  intros Hred (k & a' & Hk & Hp & Hr & Hf). destruct (red_roles _ _ Hred k a' Hk) as (a & Ha & Hc & Hw).
  unfold assignment_in_force in Hf. propify.
  assert (in_window a at_) as Hin%(proj2 (window_current_in_window a at_)).
  { apply Hw, (window_current_in_window a'). done. }
  exists k, a. unfold assignment_in_force.
  assert (ra_principal_id a' = ra_principal_id a /\ ra_role a' = ra_role a /\
          ra_organization_scope a' = ra_organization_scope a) as (E1 & E2 & E3)
    by (by destruct Hc as [->|[u ->]]).
  rewrite <- E1, <- E2, <- E3. split_and!; try done. apply andb_true_iff. by split.
Qed.

Lemma holds_by_delegation_reduced db db' p scope at_ role :
  reduced db db' -> holds_by_delegation db' p scope at_ role -> holds_by_delegation db p scope at_ role.
Proof.
  intros Hred (k & d' & Hk & Hp & Hr & Hcur & Hsc & Hh).
  destruct (red_delegations _ _ Hred k d' Hk) as (d & Hd & Hc & Hw).
  assert (dg_to_principal_id d' = dg_to_principal_id d /\ dg_role d' = dg_role d /\
          dg_organization_scope d' = dg_organization_scope d /\
          dg_from_principal_id d' = dg_from_principal_id d) as (E1 & E2 & E3 & E4)
    by (by destruct Hc as [->|[u ->]]).
  assert (in_window d at_) as [Hf Hu].
  { apply Hw. unfold delegation_current in Hcur. propify. by split. }
  exists k, d. unfold grants, delegation_current. rewrite <- E1, <- E2, <- E3, <- E4. cbn in Hf, Hu.
  split_and!; try done; [|by eapply holds_directly_reduced].
  apply andb_true_iff. by rewrite Z.leb_le, Z.ltb_lt.
Qed.

(** ** Identities *)

(** Two bindings of one external identity are never current together. *)
Definition identities_disjoint (db : AuthorityDb) : Prop :=
  forall k1 k2 b1 b2 at_, identity_bindings db !! k1 = Some b1 -> identity_bindings db !! k2 = Some b2 ->
    ib_provider b1 = ib_provider b2 -> ib_external_subject b1 = ib_external_subject b2 ->
    in_window b1 at_ -> in_window b2 at_ -> k1 = k2.

Lemma binding_identity (b b' : IdentityBinding) :
  b' = b \/ (exists u, b' = win_close b u) ->
  ib_provider b' = ib_provider b /\ ib_external_subject b' = ib_external_subject b /\
  ib_principal_id b' = ib_principal_id b.
Proof. by intros [->|[u ->]]. Qed.

Lemma reduced_disjoint db db' : reduced db db' -> identities_disjoint db -> identities_disjoint db'.
Proof.
  intros Hred Hd k1 k2 b1 b2 at_ H1 H2 Hp Hs Hw1 Hw2.
  destruct (red_bindings _ _ Hred k1 b1 H1) as (a1 & Ha1 & (E1 & F1 & _)%binding_identity & Hv1).
  destruct (red_bindings _ _ Hred k2 b2 H2) as (a2 & Ha2 & (E2 & F2 & _)%binding_identity & Hv2).
  apply (Hd k1 k2 a1 a2 at_); auto; congruence.
Qed.

Lemma current_bindings_resolve db provider subject at_ q :
  identities_disjoint db ->
  resolve_identity db provider subject at_ = Some q <->
  exists k b, identity_bindings db !! k = Some b /\ ib_provider b = provider /\
    ib_external_subject b = subject /\ in_window b at_ /\ get_principal db (ib_principal_id b) = Some q.
Proof.
  intros Hd. unfold resolve_identity. rewrite select_where_filter.
  match goal with |- context [select_where ?f ?m] => set (P := f) end.
  set (l := select_where P _).
  assert (HP : forall b, P b = true <->
    (ib_provider b = provider /\ ib_external_subject b = subject) /\ in_window b at_).
  { intros b. unfold P. rewrite !andb_true_iff, !bool_decide_eq_true.
    by rewrite <- (window_current_in_window b). }
  assert (Hlen : (length l <= 1)%nat).
  { apply select_where_unique. intros k1 k2 b1 b2 H1 H2 [[E1 F1] W1]%HP [[E2 F2] W2]%HP.
    eapply Hd; try done; congruence. }
  assert (Hl : forall b, b ∈ l <-> (exists k, identity_bindings db !! k = Some b) /\ P b = true)
    by (intros b; apply elem_of_select_where).
  clearbody l. destruct l as [|b [|b' l]]; cbn in Hlen; [| |lia].
  - split; [discriminate|]. intros (k & b & Hk & E & F & W & _). exfalso. apply (not_elem_of_nil b), Hl.
    split; [by exists k|]. by apply HP.
  - split.
    + intros Hq. destruct (proj1 (Hl b)) as [[k Hk] [[E F] W]%HP]; [left|]. exists k, b. split_and!; done.
    + intros (k & b' & Hk & E & F & W & Hq).
      assert (b' ∈ [b]) as ->%list_elem_of_singleton; [|done].
      apply Hl. split; [by exists k|]. by apply HP.
Qed.

Lemma bindings_not_overlapping (a b : IdentityBinding) at_ :
  bindings_overlap a b = false -> in_window a at_ -> in_window b at_ -> False.
Proof.
  unfold bindings_overlap, in_window. cbn. intros Ho [Ha Ua] [Hb Ub].
  destruct (ib_valid_until a) as [ua|].
  - destruct (Z.leb_spec ua (ib_valid_from b)); [lia|].
    destruct (ib_valid_until b) as [ub|]; [|done]. destruct (Z.leb_spec ub (ib_valid_from a)); [lia|done].
  - destruct (ib_valid_until b) as [ub|]; [|done]. destruct (Z.leb_spec ub (ib_valid_from a)); [lia|done].
Qed.

(** A new binding that is current together with no binding of its identity. *)
Lemma disjoint_insert db t b :
  db_add (identity_bindings db) (ib_binding_id b) b = Ok t ->
  (forall k a at_, identity_bindings db !! k = Some a -> ib_provider a = ib_provider b ->
     ib_external_subject a = ib_external_subject b -> in_window a at_ -> in_window b at_ -> False) ->
  identities_disjoint db -> identities_disjoint (with_identity_bindings db t).
Proof.
  intros [_ ->]%db_add_Ok Hnew Hd k1 k2 b1 b2 at_. cbn.
  rewrite !lookup_insert_Some. intros [[<- <-]|[N1 H1]] [[<- <-]|[N2 H2]] Hp Hs W1 W2; [done|..].
  - by destruct (Hnew k2 b2 at_).
  - by destruct (Hnew k1 b1 at_).
  - by apply (Hd k1 k2 b1 b2 at_).
Qed.

(** What changes identity bindings and authority: bindings put or bound with an
    audit event, and revocations. *)
Inductive identity_step `{Platform} (s s' : AuthorityDb * EventDb) : Prop :=
  | istep_put b b' (Hs : put_identity_binding s.1 b = Ok (b', s'.1))
  | istep_bind b actor reason id ev (Hs : bind_identity s.1 s.2 b actor reason id = Ok (ev, s'))
  | istep_principal p active (Hs : s'.1 = (put_principal s.1 p active).2)
  | istep_revoke (Hs : revocation s s').

Lemma identity_step_disjoint `{Platform} s s' :
  identity_step s s' -> identities_disjoint s.1 -> identities_disjoint s'.1.
Proof.
  destruct 1 as [b b' Hs|b actor reason id ev Hs|p active ->|Hs]; intros Hd.
  - unfold put_identity_binding in Hs. destruct (select_where _ _) as [|r l] eqn:Esel; inv_ok.
    + match goal with H : _ = s'.1 |- _ => rewrite <- H end. eapply disjoint_insert; [exact E| |done]. intros k a at_ Ha Hp Hsub _ _.
      rewrite select_where_nil in Esel. specialize (Esel k a Ha).
      rewrite !bool_decide_eq_true_2 in Esel by done. done.
    + match goal with H : _ = s'.1 |- _ => by rewrite <- H end.
  - destruct s' as [db' events']. unfold bind_identity in Hs. inv_ok. destruct v3 as [e es]. inv_ok.
    simplify_eq. cbn. eapply disjoint_insert; [exact E2| |done]. intros k a at_ Ha Hp Hsub.
    apply bindings_not_overlapping. apply not_true_iff_false. intros Hov.
    assert (existsb (fun row => bindings_overlap row b)
      (select_where (same_identity (ib_provider b) (ib_external_subject b)) (identity_bindings s.1)) = true) as Hex.
    { apply existsb_elem_of. exists a. split; [|done]. apply elem_of_select_where. split; [by exists k|].
      unfold same_identity. by rewrite !bool_decide_eq_true_2. }
    congruence.
  - exact Hd.
  - eapply reduced_disjoint; [by apply revocation_reduces|done].
Qed.

(** External identities resolve unambiguously: after any history of bindings,
    principal updates and revocations that starts with no ambiguity, an external
    subject resolves to a principal exactly when a binding of it is current and
    that principal is active. *)
Theorem identity_resolution_exact `{Platform} s s' provider subject at_ q :
  identities_disjoint s.1 -> rtc identity_step s s' ->
  resolve_identity s'.1 provider subject at_ = Some q <->
  exists k b, identity_bindings s'.1 !! k = Some b /\ ib_provider b = provider /\
    ib_external_subject b = subject /\ in_window b at_ /\ get_principal s'.1 (ib_principal_id b) = Some q.
Proof.
  intros Hd Hrun. apply current_bindings_resolve.
  induction Hrun as [s|s1 s2 s3 Hstep _ IH]; [done|]. by apply IH, (identity_step_disjoint s1).
Qed.

(** Revoking never grants: whatever sequence of deactivations and expiries is
    applied, in any order and at any effective times, no principal gains a role
    at any instant in any scope, no principal becomes active, and no external
    subject comes to resolve to a principal it did not resolve to before. *)
Theorem revocations_never_grant `{Platform} s s' :
  identities_disjoint s.1 -> rtc revocation s s' ->
  (forall p scope at_ roles roles', roles_for s.1 p scope at_ = Ok roles ->
     roles_for s'.1 p scope at_ = Ok roles' -> roles' ⊆ roles) /\
  (forall p q, get_principal s'.1 p = Some q -> get_principal s.1 p = Some q) /\
  (forall provider subject at_ q, resolve_identity s'.1 provider subject at_ = Some q ->
     resolve_identity s.1 provider subject at_ = Some q).
Proof.
  intros Hd Hrun%revocations_reduce. split; [|split].
  - intros p scope at_ roles roles' Hr Hr' role Hin.
    apply (roles_for_spec _ _ _ _ _ Hr). apply (roles_for_spec _ _ _ _ _ Hr') in Hin.
    destruct Hin as [Hh|Hh]; [left; by eapply holds_directly_reduced|right; by eapply holds_by_delegation_reduced].
  - apply (red_principals _ _ Hrun).
  - intros provider subject at_ q.
    rewrite (current_bindings_resolve s'.1) by (by eapply reduced_disjoint).
    rewrite current_bindings_resolve by done. intros (k & b & Hb & Hp & Hs & Hw & Hq).
    destruct (red_bindings _ _ Hrun k b Hb) as (a & Ha & (E1 & E2 & E3)%binding_identity & Hwin).
    exists k, a. rewrite <- E1, <- E2, <- E3. split_and!; auto. by apply (red_principals _ _ Hrun).
Qed.

(** A delegation may be expired at the very instant it starts; the row it leaves
    behind has an empty window, which the delegation model refuses, so that from
    then on the roles of the delegate can no longer be computed at all: every
    query raises. *)
Theorem expiry_at_start_poisons_roles `{Platform} db events id actor reason ev db' events' d :
  delegations db !! id = Some d ->
  expire_delegation db events id actor reason (dg_valid_from d) = Ok (ev, (db', events')) ->
  forall scope at_, exists e, roles_for db' (dg_to_principal_id d) scope at_ = Err e.
Proof.
  intros Hd Hexp scope at_. unfold expire_delegation in Hexp. inv_ok. destruct v as [e [t es]]. inv_ok.
  simplify_eq. apply expire_row in E as (_ & row & Hrow & _ & -> & _).
  assert (row = d) as -> by congruence.
  pose proof (closed_from d (dg_valid_from d)) as Hf.
  destruct (closed_until d (dg_valid_from d)) as (u & Hu & Hle & _).
  destruct (roles_for _ _ scope at_) as [roles|e] eqn:Hroles; [exfalso|by exists e].
  unfold roles_for in Hroles. apply roles_loop_readable, rows_readable in Hroles.
  assert (dg_valid_from (closed_at d (dg_valid_from d)) < dg_valid_until (closed_at d (dg_valid_from d))) as Hlt.
  { apply (Hroles id); [cbn; apply lookup_insert_eq|]. unfold closed_at. by repeat case_match. }
  change (dg_valid_from (closed_at d (dg_valid_from d)) = dg_valid_from d) in Hf.
  change (Some (dg_valid_until (closed_at d (dg_valid_from d))) = Some u) in Hu.
  injection Hu as Hu. lia.
Qed.
