(* ===== verification/FactAcquisition.v ===== *)
(** * Authoritative facts, [fact_acquisition.py] and [integrations/authoritative_sources.py]

    Facts read from the human-resources system are overlaid on the facts of a
    case with their provenance, field by field, and are read again before
    execution and completion.  A record of the source is data; reading it is a
    parameter of the engines that use it. *)

From stdpp Require Import base gmap strings list.
From Stdlib Require Import ZArith Lia.
From S2P Require Import Prelude Python CPython Store Domain.

Open Scope Z_scope.
Open Scope orch_scope.

(** ** Records of an authoritative source *)

Inductive SourceFreshness := FRESH_CURRENT | FRESH_STALE | FRESH_UNKNOWN.

#[global] Instance SourceFreshness_eq_dec : EqDecision SourceFreshness.
Proof. solve_decision. Defined.

Record AuthoritativeRecord := mkAuthoritativeRecord {
  rec_source : string;
  rec_source_ref : string;
  rec_source_version : string;
  rec_observed_at : instant;
  rec_freshness : SourceFreshness;
  rec_value : pydict;
  rec_digest : string;
}.

Definition is_fresh_at (r : AuthoritativeRecord) (at_ : instant) (max_age_seconds : Z) : bool :=
  bool_decide (rec_freshness r = FRESH_CURRENT) && (rec_observed_at r <=? at_)
  && (at_ - rec_observed_at r <=? max_age_seconds * 1000000).

Record ExternalFactValidation := mkExternalFactValidation {
  xv_valid : bool;
  xv_reasons : list string;
}.

Section acquisition.
Context `{Platform}.

(** [_value_digest]; [AuthoritativeRecord.build] computes the same digest. *)
Definition value_digest (v : pyval) : string := json_digest v.

(** [AuthoritativeRecord.build] *)
Definition build_record (source source_ref source_version : string) (value : pydict) (observed_at : instant)
    (freshness : SourceFreshness) : AuthoritativeRecord :=
  mkAuthoritativeRecord source source_ref source_version observed_at freshness value (json_digest (VDict value)).

(** [AuthoritativeRecord.as_fact_snapshot] *)
Definition as_fact_snapshot (r : AuthoritativeRecord) (owner : string) (snapshot_id : uuid) : result FactSnapshot :=
  refuse bool_decide (rec_freshness r <> FRESH_CURRENT) with ValueError
    saying "only current authoritative records may mint FactSnapshot(AUTHORITATIVE)";;
  assertion_values_match_flattened_facts
    (mkFactSnapshot snapshot_id (rec_source r) owner AUTHORITATIVE (Some (rec_source_ref r))
       (Some (rec_source_version r)) (rec_observed_at r) (rec_value r)
       ((fun kv => (fst kv, mkFactAssertion (snd kv) AUTHORITATIVE (rec_source r) owner (Some (rec_source_ref r))
                              (Some (rec_source_version r)) (rec_observed_at r) (Some (rec_digest r))))
          <$> rec_value r)
       (Some (rec_digest r))).

(** ** Overlaying authoritative facts *)

(** [_existing_assertions] *)
Definition existing_assertions (s : FactSnapshot) : list (string * FactAssertion) :=
  if is_nil (fs_assertions s)
  then (fun kv => (fst kv, mkFactAssertion (snd kv) (fs_authority s) (fs_source s) (fs_owner s) (fs_source_ref s)
                             (fs_source_version s) (fs_observed_at s) (Some (value_digest (snd kv)))))
         <$> fs_facts s
  else fs_assertions s.

Definition authoritative_assertion (r : AuthoritativeRecord) (owner : string) (value : pyval) : FactAssertion :=
  mkFactAssertion value AUTHORITATIVE (rec_source r) owner (Some (rec_source_ref r)) (Some (rec_source_version r))
    (rec_observed_at r) (Some (value_digest value)).

(** One iteration of the loop over the authoritative keys. *)
Definition overlay_key (r : AuthoritativeRecord) (owner : string)
    (acc : pydict * list (string * FactAssertion)) (key : string) : pydict * list (string * FactAssertion) :=
  match assoc key (rec_value r) with
  | None | Some VNone => acc
  | Some value => (dict_set (fst acc) key value, dict_set (snd acc) key (authoritative_assertion r owner value))
  end.

(** [assertion.model_dump(mode="json")] *)
Definition assertion_json (a : FactAssertion) : pyval :=
  let opt o := match o with Some s => VStr s | None => VNone end in
  VDict [("value", fa_value a); ("authority", VStr (FactAuthority_value (fa_authority a)));
         ("source", VStr (fa_source a)); ("owner", VStr (fa_owner a)); ("source_ref", opt (fa_source_ref a));
         ("source_version", opt (fa_source_version a)); ("observed_at", VStr (json_datetime (fa_observed_at a)));
         ("digest", opt (fa_digest a))].

(** [_snapshot_digest] *)
Definition snapshot_digest (facts : pydict) (assertions : list (string * FactAssertion)) : string :=
  json_digest (VDict [("facts", VDict facts);
                      ("assertions", VDict ((fun kv => (fst kv, assertion_json (snd kv))) <$> assertions))]).

(** [_merge_authoritative_facts] *)
Definition merge_authoritative_facts (c : AdministrativeCase) (r : AuthoritativeRecord) (source : string)
    (authoritative_keys : list string) (owner : string) (snapshot_id : uuid) : result FactSnapshot :=
  match c_fact_snapshot c with
  | None => raise FactAcquisitionError "case has no current fact snapshot"
  | Some s =>
      refuse negb (truthy (default (VBool false) (assoc "present" (rec_value r)))) with FactAcquisitionError
        saying "authoritative HRIS reports employee absent";;
      let '(facts, assertions) :=
        fold_left (overlay_key r owner) authoritative_keys (fs_facts s, existing_assertions s) in
      assertion_values_match_flattened_facts
        (mkFactSnapshot snapshot_id source owner CLAIM (Some (rec_source_ref r)) (Some (rec_source_version r))
           (rec_observed_at r) facts assertions (Some (snapshot_digest facts assertions)))
  end.

Definition ONBOARDING_AUTHORITATIVE_KEYS : list string :=
  ["employee_ref"; "department_ref"; "start_date"; "employment_type"; "manager_ref"; "work_email"; "active";
   "employment_state"].

Definition OFFBOARDING_AUTHORITATIVE_KEYS : list string :=
  ["employee_ref"; "department_ref"; "employment_type"; "termination_status"; "termination_effective_at";
   "employment_episode_ref"; "departing_principal_id"; "active"].

Definition merge_authoritative_onboarding_facts (c : AdministrativeCase) (r : AuthoritativeRecord) (owner : string)
    (snapshot_id : uuid) : result FactSnapshot :=
  merge_authoritative_facts c r "composite:employee-onboarding" ONBOARDING_AUTHORITATIVE_KEYS owner snapshot_id.

Definition merge_authoritative_offboarding_facts (c : AdministrativeCase) (r : AuthoritativeRecord) (owner : string)
    (snapshot_id : uuid) : result FactSnapshot :=
  merge_authoritative_facts c r "composite:employee-offboarding" OFFBOARDING_AUTHORITATIVE_KEYS owner snapshot_id.

(** ** Revalidation *)

(** The keys [validate_with_dependencies] compares. *)
Definition revalidated_keys : list string :=
  ["employee_ref"; "department_ref"; "start_date"; "employment_type"; "manager_ref"; "work_email"; "active";
   "employment_state"; "termination_status"; "termination_effective_at"; "employment_episode_ref"].

Definition is_dependency (expected_change_keys : list string) (kv : string * FactAssertion) : bool :=
  bool_decide (fa_authority (snd kv) = AUTHORITATIVE) && bool_decide (fst kv ∉ expected_change_keys)
  && bool_decide (fst kv ∈ revalidated_keys).

Definition dependencies (s : FactSnapshot) (expected_change_keys : list string) : list (string * FactAssertion) :=
  List.filter (is_dependency expected_change_keys) (fs_assertions s).

(** The reason a dependency gives, if any. *)
Definition dependency_reason (current : AuthoritativeRecord) (kv : string * FactAssertion) : list string :=
  let '(key, a) := kv in
  if bool_decide (fa_source a <> rec_source current) then ["authoritative source changed for " +:+ key]
  else if bool_decide (fa_source_ref a <> Some (rec_source_ref current))
  then ["authoritative source identity changed for " +:+ key]
  else if negb (py_eq (dict_get (rec_value current) key) (fa_value a))
  then ["authoritative value changed for " +:+ key]
  else [].

(** The judgement on a record that was read. *)
Definition judge_record (expected : list (string * FactAssertion)) (current : AuthoritativeRecord) (now : instant)
    (max_age_seconds : Z) : ExternalFactValidation :=
  if negb (is_fresh_at current now max_age_seconds)
  then mkExternalFactValidation false ["authoritative HRIS observation is stale"]
  else if negb (truthy (default (VBool false) (assoc "present" (rec_value current))))
  then mkExternalFactValidation false ["authoritative HRIS reports subject absent"]
  else let reasons := expected ≫= dependency_reason current in
       mkExternalFactValidation (is_nil reasons) reasons.

(** [validate_with_dependencies] over the outcome of the read and the clock
    after it. *)
Definition validate_with_dependencies (c : AdministrativeCase) (expected_change_keys : list string)
    (read : result AuthoritativeRecord) (now : instant) (max_age_seconds : Z) : ExternalFactValidation :=
  match c_fact_snapshot c with
  | None => mkExternalFactValidation false ["case has no current fact snapshot"]
  | Some s =>
      let expected := dependencies s expected_change_keys in
      if is_nil expected
      then mkExternalFactValidation false ["no authoritative HRIS fact dependencies recorded"]
      else match read with
           | Err e => mkExternalFactValidation false ["authoritative HRIS read failed: " +:+ exn_msg e]
           | Ok current => judge_record expected current now max_age_seconds
           end
  end.
End acquisition.

(** ** Provenance of a merge *)

Section provenance.
Context `{Platform} (r : AuthoritativeRecord) (owner : string).

(** The value the source has for a key. *)
Definition authoritative_value (key : string) : option pyval :=
  match assoc key (rec_value r) with Some VNone => None | o => o end.

Lemma overlay_key_spec acc key k :
  assoc k (fst (overlay_key r owner acc key)) =
    (if bool_decide (k = key) then match authoritative_value key with Some v => Some v | None => assoc k (fst acc) end
     else assoc k (fst acc)) /\
  assoc k (snd (overlay_key r owner acc key)) =
    (if bool_decide (k = key)
     then match authoritative_value key with
          | Some v => Some (authoritative_assertion r owner v)
          | None => assoc k (snd acc)
          end
     else assoc k (snd acc)).
Proof.
  unfold overlay_key, authoritative_value.
  destruct (assoc key (rec_value r)) as [[]|]; cbn; rewrite ?assoc_dict_set; by case_bool_decide.
Qed.

Lemma overlay_spec keys acc k :
  let acc' := fold_left (overlay_key r owner) keys acc in
  let v := if bool_decide (k ∈ keys) then authoritative_value k else None in
  assoc k (fst acc') = match v with Some v => Some v | None => assoc k (fst acc) end /\
  assoc k (snd acc') = match v with Some v => Some (authoritative_assertion r owner v) | None => assoc k (snd acc) end.
Proof.
  cbn zeta. revert acc. induction keys as [|key keys IH]; intros acc.
  { rewrite bool_decide_eq_false_2 by apply not_elem_of_nil. done. }
  cbn [fold_left]. destruct (IH (overlay_key r owner acc key)) as [-> ->].
  destruct (overlay_key_spec acc key k) as [-> ->].
  destruct (decide (k = key)) as [->|Hne].
  - rewrite (bool_decide_eq_true_2 (key = key)) by done. rewrite (bool_decide_eq_true_2 (key ∈ key :: keys)) by left.
    case_bool_decide; by destruct (authoritative_value key).
  - rewrite (bool_decide_eq_false_2 (k = key)) by done.
    assert (Hin : k ∈ key :: keys <-> k ∈ keys) by (rewrite elem_of_cons; naive_solver).
    by rewrite (bool_decide_ext _ _ Hin).
Qed.
End provenance.

(** ** The merge is exact *)

Lemma dict_set_keys {A} (d : list (string * A)) k v k' : k' ∈ (dict_set d k v).*1 <-> k' = k \/ k' ∈ d.*1.
Proof.
  induction d as [|[k0 w] d IH]; cbn.
  - rewrite elem_of_cons. done.
  - destruct (String.eqb_spec k k0) as [->|]; cbn; rewrite !elem_of_cons; [naive_solver|]. rewrite IH. naive_solver.
Qed.

Lemma dict_set_NoDup {A} (d : list (string * A)) k v : NoDup d.*1 -> NoDup (dict_set d k v).*1.
Proof.
  induction d as [|[k0 w] d IH]; cbn; intros Hnd.
  - apply NoDup_cons. split; [apply not_elem_of_nil|constructor].
  - apply NoDup_cons in Hnd as [Hk Hnd]. destruct (String.eqb_spec k k0) as [->|Hne]; cbn; apply NoDup_cons; [done|].
    split; [|auto]. rewrite dict_set_keys. naive_solver.
Qed.

Lemma assertion_values_spec s :
  assertion_values_match_flattened_facts s = Ok s <->
  forall k a, (k, a) ∈ fs_assertions s -> exists v, assoc k (fs_facts s) = Some v /\ py_eq v (fa_value a) = true.
Proof.
  unfold assertion_values_match_flattened_facts.
  match goal with |- context [fold_left (fun acc kv => rbind acc (fun _ => @?f kv))] => set (check := f) end.
  assert (Hcheck : forall kv, check kv = Ok tt <-> exists v, assoc (fst kv) (fs_facts s) = Some v /\ py_eq v (fa_value (snd kv)) = true).
  { intros [k a]. unfold check. cbn. destruct (assoc k (fs_facts s)) as [v|]; [|split; [done|by intros (? & ? & _)]].
    destruct (py_eq v (fa_value a)) eqn:E; cbn; split; try done; [by eexists|]. intros (w & [= <-] & Hw). congruence. }
  assert (Hfold : forall l acc, fold_left (fun acc kv => rbind acc (fun _ => check kv)) l acc = Ok tt <->
            acc = Ok tt /\ forall kv, kv ∈ l -> check kv = Ok tt).
  { intros l. induction l as [|kv l IH]; intros acc; cbn.
    - split; [intros ->; split; [done|]; by intros ? ?%not_elem_of_nil|by intros [-> _]].
    - rewrite IH. setoid_rewrite elem_of_cons. destruct acc as [[]|e]; cbn; naive_solver. }
  split.
  - intros Hr k a Hin. inv_ok. apply Hfold in E as [_ Hall]. by apply (Hcheck (k, a)), Hall.
  - intros Hall. match goal with |- rbind ?m _ = _ => assert (Hm : m = Ok tt); [|by rewrite Hm] end.
    apply (Hfold (fs_assertions s) (Ok tt)). split; [done|]. intros [k a] Hin. apply Hcheck. by apply Hall.
Qed.

(** A snapshot as the service stores it: its dicts have distinct keys and its
    validator accepts it. *)
Record snapshot_wf (s : FactSnapshot) : Prop := {
  sw_facts : keys_distinct (VDict (fs_facts s)) = true;
  sw_assertions : NoDup (fs_assertions s).*1;
  sw_valid : assertion_values_match_flattened_facts s = Ok s;
}.

Section exact.
Context `{Platform}.

Lemma existing_fst s : (existing_assertions s).*1 = if is_nil (fs_assertions s) then (fs_facts s).*1 else (fs_assertions s).*1.
Proof.
  unfold existing_assertions. destruct (is_nil (fs_assertions s)); [|done]. induction (fs_facts s) as [|[k v] l IH]; cbn; congruence.
Qed.

Lemma existing_agrees s k a :
  snapshot_wf s -> assoc k (existing_assertions s) = Some a ->
  exists v, assoc k (fs_facts s) = Some v /\ py_eq v (fa_value a) = true.
Proof.
  intros [Hf Ha Hv] Hk. apply assoc_elem_of in Hk. unfold existing_assertions in Hk.
  destruct (is_nil (fs_assertions s)); [|by apply (proj1 (assertion_values_spec s) Hv)].
  apply list_elem_of_fmap in Hk as ([k' v] & [= <- ->] & Hin). cbn. exists v.
  pose proof Hf as Hd. cbn in Hf. apply andb_true_iff in Hf as [Hnd%bool_decide_eq_true Hvals].
  split; [by apply assoc_NoDup|]. apply py_eq_refl. rewrite forallb_elem_of in Hvals. by apply (Hvals (k, v)).
Qed.

Lemma existing_NoDup s : snapshot_wf s -> NoDup (existing_assertions s).*1.
Proof.
  intros [Hf Ha _]. rewrite existing_fst. destruct (is_nil (fs_assertions s)); [|done].
  cbn in Hf. by apply andb_true_iff in Hf as [Hnd%bool_decide_eq_true _].
Qed.

Lemma overlay_NoDup r owner keys acc :
  NoDup (snd acc).*1 -> NoDup (snd (fold_left (overlay_key r owner) keys acc)).*1.
Proof.
  revert acc. induction keys as [|key keys IH]; intros acc Hnd; cbn; [done|]. apply IH. unfold overlay_key.
  destruct (assoc key (rec_value r)) as [[]|]; cbn; try done; by apply dict_set_NoDup.
Qed.

(** What a merge says of one key. *)
Definition merged_key (r : AuthoritativeRecord) (owner : string) (keys : list string) (s s' : FactSnapshot) (k : string)
  : Prop :=
  match (if bool_decide (k ∈ keys) then authoritative_value r k else None) with
  | Some v => assoc k (fs_facts s') = Some v /\ assoc k (fs_assertions s') = Some (authoritative_assertion r owner v)
  | None => assoc k (fs_facts s') = assoc k (fs_facts s) /\
            assoc k (fs_assertions s') = assoc k (existing_assertions s)
  end.

Definition present (r : AuthoritativeRecord) : bool := truthy (default (VBool false) (assoc "present" (rec_value r))).

Lemma merge_spec c s r source keys owner id :
  c_fact_snapshot c = Some s -> snapshot_wf s -> keys_distinct (VDict (rec_value r)) = true -> present r = true ->
  exists s', merge_authoritative_facts c r source keys owner id = Ok s' /\ fs_authority s' = CLAIM /\
    NoDup (fs_assertions s').*1 /\ forall k, merged_key r owner keys s s' k.
Proof.
  intros Hs Hwf Hrec Hp. unfold merge_authoritative_facts. rewrite Hs. unfold present in Hp. rewrite Hp. cbn [negb guard rbind].
  pose proof (overlay_spec r owner keys (fs_facts s, existing_assertions s)) as Hover. cbn zeta in Hover.
  pose proof (overlay_NoDup r owner keys (fs_facts s, existing_assertions s) (existing_NoDup s Hwf)) as Hnd.
  destruct (fold_left _ keys _) as [facts assertions] eqn:Hfold. cbn [fst snd] in *.
  set (s' := mkFactSnapshot id source owner CLAIM _ _ _ facts assertions _).
  exists s'. assert (Hkeys : forall k, merged_key r owner keys s s' k).
  { intros k. unfold merged_key. destruct (Hover k) as [Hf Ha]. cbn. rewrite Hf, Ha. by destruct (if bool_decide _ then _ else _). }
  split; [|done]. apply (assertion_values_spec s'). intros k a Hin. cbn in Hin |- *.
  apply (assoc_NoDup _ _ _ Hnd) in Hin. destruct (Hover k) as [Hf Ha]. rewrite Hf. rewrite Hin in Ha.
  destruct (if bool_decide (k ∈ keys) then authoritative_value r k else None) as [v|] eqn:Hv.
  - injection Ha as ->. exists v. split; [done|]. cbn. apply py_eq_refl.
    destruct (bool_decide (k ∈ keys)); [|done]. unfold authoritative_value in Hv.
    pose proof (dict_get_distinct _ k Hrec) as Hd. unfold dict_get in Hd.
    destruct (assoc k (rec_value r)) as [w|]; [|done]. destruct w; by simplify_eq.
  - by apply (existing_agrees s k a Hwf).
Qed.

(** Overlaying is exact: on a stored snapshot and a source that reports the
    employee the merge succeeds, and each fact of the result either is the
    source's own value with authoritative provenance from that record, for the
    listed keys the source has a value for, or keeps the value and the provenance
    it had; a fact the request alone asserts is never promoted, and the snapshot
    as a whole stays a claim. *)
Theorem overlay_is_exact c s r source keys owner id :
  c_fact_snapshot c = Some s -> snapshot_wf s -> keys_distinct (VDict (rec_value r)) = true ->
  if present r
  then exists s', merge_authoritative_facts c r source keys owner id = Ok s' /\ fs_authority s' = CLAIM /\
         forall k, merged_key r owner keys s s' k
  else merge_authoritative_facts c r source keys owner id
       = raise FactAcquisitionError "authoritative HRIS reports employee absent".
Proof.
  intros Hs Hwf Hrec. destruct (present r) eqn:Hp.
  - destruct (merge_spec c s r source keys owner id Hs Hwf Hrec Hp) as (s' & ? & ? & _ & ?). eauto.
  - unfold merge_authoritative_facts. rewrite Hs. unfold present in Hp. by rewrite Hp.
Qed.

(** ** Revalidation is exact *)

(** A dependency that still holds. *)
Definition still_holds (current : AuthoritativeRecord) (k : string) (a : FactAssertion) : Prop :=
  fa_source a = rec_source current /\ fa_source_ref a = Some (rec_source_ref current) /\
  py_eq (dict_get (rec_value current) k) (fa_value a) = true.

Lemma dependency_reason_nil current k a : dependency_reason current (k, a) = [] <-> still_holds current k a.
Proof.
  unfold dependency_reason, still_holds. case_bool_decide as H1; [split; [done|by intros (? & _)]|].
  case_bool_decide as H2; [split; [done|by intros (_ & ? & _)]|].
  destruct (py_eq _ _); cbn; [|split; [done|by intros (_ & _ & ?)]]. split; [|done].
  intros _. split_and!; first [done|by apply dec_stable].
Qed.

Lemma validate_exact c keys read now max_age :
  xv_valid (validate_with_dependencies c keys read now max_age) = true <->
  exists s current, c_fact_snapshot c = Some s /\ dependencies s keys <> [] /\ read = Ok current /\
    is_fresh_at current now max_age = true /\ present current = true /\
    forall k a, (k, a) ∈ dependencies s keys -> still_holds current k a.
Proof.
  unfold validate_with_dependencies. destruct (c_fact_snapshot c) as [s|]; [|naive_solver].
  destruct (dependencies s keys) as [|d ds] eqn:Hd; cbn [is_nil]; [naive_solver|].
  destruct read as [current|e]; [|naive_solver]. unfold judge_record. fold (present current).
  destruct (is_fresh_at current now max_age) eqn:Hf; cbn; [|naive_solver].
  destruct (present current) eqn:Hp; cbn; [|naive_solver].
  assert (Hall : is_nil (dependency_reason current d ++ (ds ≫= dependency_reason current)) = true <->
                 forall k a, (k, a) ∈ d :: ds -> still_holds current k a).
  { change (dependency_reason current d ++ (ds ≫= dependency_reason current)) with ((d :: ds) ≫= dependency_reason current).
    rewrite is_nil_true. split.
    - intros Hnil k a Hin. apply dependency_reason_nil. destruct (dependency_reason current (k, a)) as [|x l] eqn:E; [done|].
      assert (Hx : x ∈ (d :: ds) ≫= dependency_reason current).
      { apply list_elem_of_bind. exists (k, a). split; [rewrite E; left|done]. }
      rewrite Hnil in Hx. by apply not_elem_of_nil in Hx.
    - intros Hh. destruct ((d :: ds) ≫= dependency_reason current) as [|x l] eqn:E; [done|].
      assert (Hx : x ∈ (d :: ds) ≫= dependency_reason current) by (rewrite E; left).
      apply list_elem_of_bind in Hx as ([k a] & Hx & Hin). rewrite (proj2 (dependency_reason_nil _ _ _) (Hh k a Hin)) in Hx.
      by apply not_elem_of_nil in Hx. }
  rewrite Hall. split; [intros Hh; exists s, current; split_and!; [done|by rewrite Hd|done..|by rewrite Hd]|].
  intros (s' & current' & [= <-] & _ & [= <-] & _ & _ & Hh). by rewrite Hd in Hh.
Qed.

(** Revalidation is exact: it passes if and only if the case records at least
    one authoritative dependency outside the keys its approved effects change,
    the source was read, the record is current and young enough and reports the
    subject, and every such dependency has the same source, identity and value. *)
Theorem revalidation_is_exact c keys read now max_age :
  xv_valid (validate_with_dependencies c keys read now max_age) = true <->
  exists s current, c_fact_snapshot c = Some s /\ dependencies s keys <> [] /\ read = Ok current /\
    is_fresh_at current now max_age = true /\ present current = true /\
    forall k a, (k, a) ∈ dependencies s keys -> still_holds current k a.
Proof. apply validate_exact. Qed.

Lemma dependency_in s keys k a :
  NoDup (fs_assertions s).*1 ->
  (k, a) ∈ dependencies s keys <->
  assoc k (fs_assertions s) = Some a /\ fa_authority a = AUTHORITATIVE /\ k ∉ keys /\ k ∈ revalidated_keys.
Proof.
  intros Hnd. unfold dependencies. rewrite elem_of_filter_bool. unfold is_dependency. cbn. split.
  - intros [Hin Hb]. propify. split_and!; try done. by apply assoc_NoDup.
  - intros (Hk & ? & ? & ?). split; [by apply assoc_elem_of|]. by rewrite !bool_decide_true.
Qed.

(** A first merge revalidates: a snapshot merged from a record onto facts that
    had no authoritative provenance passes revalidation against any fresh read
    with the same identity and values, as long as the source had a value for one
    of the merged keys. *)
Theorem first_merge_revalidates c s r owner id s' c' current now max_age k v :
  c_fact_snapshot c = Some s -> snapshot_wf s -> keys_distinct (VDict (rec_value r)) = true ->
  (forall k a, assoc k (existing_assertions s) = Some a -> fa_authority a <> AUTHORITATIVE) ->
  merge_authoritative_onboarding_facts c r owner id = Ok s' -> c_fact_snapshot c' = Some s' ->
  k ∈ ONBOARDING_AUTHORITATIVE_KEYS -> authoritative_value r k = Some v ->
  rec_source current = rec_source r -> rec_source_ref current = rec_source_ref r -> rec_value current = rec_value r ->
  is_fresh_at current now max_age = true ->
  xv_valid (validate_with_dependencies c' [] (Ok current) now max_age) = true.
Proof.
  intros Hs Hwf Hrec Hfirst Hmerge Hc' Hk Hv Hsrc Href Hval Hfresh.
  assert (Hp : present r = true).
  { unfold merge_authoritative_onboarding_facts, merge_authoritative_facts in Hmerge. rewrite Hs in Hmerge. inv_ok.
    propify. done. }
  unfold merge_authoritative_onboarding_facts in Hmerge.
  destruct (merge_spec c s r "composite:employee-onboarding" ONBOARDING_AUTHORITATIVE_KEYS owner id Hs Hwf Hrec Hp)
    as (s2 & Hm & _ & Hnd & Hkeys). rewrite Hmerge in Hm. injection Hm as <-.
  apply validate_exact. exists s', current. unfold present in *. rewrite Hval. split_and!; try done.
  - intros Hnil. apply (not_elem_of_nil (k, authoritative_assertion r owner v)). rewrite <- Hnil.
    apply dependency_in; [done|]. specialize (Hkeys k). unfold merged_key in Hkeys.
    rewrite bool_decide_eq_true_2, Hv in Hkeys by done. destruct Hkeys as [_ Ha]. split_and!; try done.
    + apply not_elem_of_nil.
    + clear -Hk. unfold ONBOARDING_AUTHORITATIVE_KEYS, revalidated_keys in *.
      rewrite !elem_of_cons in *. intuition.
  - intros k0 a (Ha & Hauth & _ & _)%dependency_in; [|done]. specialize (Hkeys k0). unfold merged_key in Hkeys.
    destruct (if bool_decide _ then _ else _) as [w|] eqn:Hw.
    + destruct Hkeys as [_ Hk0]. rewrite Ha in Hk0. injection Hk0 as ->. unfold still_holds. cbn.
      rewrite Hsrc, Href, Hval. split_and!; try done. case_bool_decide; [|done]. unfold authoritative_value in Hw.
      pose proof (dict_get_distinct _ k0 Hrec) as Hd. unfold dict_get in *.
      destruct (assoc k0 (rec_value r)) as [x|]; [|done]. destruct x; simplify_eq; by apply py_eq_refl.
    + destruct Hkeys as [_ Hk0]. rewrite Ha in Hk0. exfalso. by eapply Hfirst.
Qed.

(** A value the source withdraws is never given up: when a stored authoritative
    fact has a value and the source no longer reports one, merging the source's
    record keeps the old assertion as authoritative, and every revalidation of
    the merged snapshot against that source fails. *)
Theorem withdrawn_value_never_revalidates c s r owner id s' c' current now max_age k a :
  c_fact_snapshot c = Some s -> snapshot_wf s -> keys_distinct (VDict (rec_value r)) = true ->
  merge_authoritative_onboarding_facts c r owner id = Ok s' -> c_fact_snapshot c' = Some s' ->
  assoc k (existing_assertions s) = Some a -> fa_authority a = AUTHORITATIVE -> k ∈ revalidated_keys ->
  fa_value a <> VNone -> authoritative_value r k = None ->
  rec_value current = rec_value r ->
  xv_valid (validate_with_dependencies c' [] (Ok current) now max_age) = false.
Proof.
  intros Hs Hwf Hrec Hmerge Hc' Hk Hauth Hrk Hsome Hnone Hval.
  assert (Hp : present r = true).
  { unfold merge_authoritative_onboarding_facts, merge_authoritative_facts in Hmerge. rewrite Hs in Hmerge. inv_ok.
    propify. done. }
  unfold merge_authoritative_onboarding_facts in Hmerge.
  destruct (merge_spec c s r "composite:employee-onboarding" ONBOARDING_AUTHORITATIVE_KEYS owner id Hs Hwf Hrec Hp)
    as (s2 & Hm & _ & Hnd & Hkeys). rewrite Hmerge in Hm. injection Hm as <-.
  apply not_true_iff_false. intros (s2 & cur & Hs2 & _ & [= <-] & _ & _ & Hall)%validate_exact.
  rewrite Hc' in Hs2. injection Hs2 as <-. specialize (Hkeys k). unfold merged_key in Hkeys.
  assert (Hno : (if bool_decide (k ∈ ONBOARDING_AUTHORITATIVE_KEYS) then authoritative_value r k else None) = None)
    by (rewrite Hnone; by destruct (bool_decide _)).
  rewrite Hno in Hkeys. destruct Hkeys as [_ Ha]. rewrite Hk in Ha.
  destruct (Hall k a) as (_ & _ & Heq).
  { apply dependency_in; [done|]. split_and!; try done. apply not_elem_of_nil. }
  rewrite Hval in Heq. unfold authoritative_value in Hnone. unfold dict_get in Heq.
  destruct (assoc k (rec_value r)) as [x|]; [destruct x; try done|]; by destruct (fa_value a).
Qed.
End exact.
