(* ===== verification/Artifacts.v ===== *)
(** * The artifact store, [intake/artifacts.py]

    Content-addressed files: the object named by a SHA-256 digest holds the bytes
    with that digest.  A directory is the map of its object names to their bytes,
    a string whose characters are bytes; [ad_usable] is false when the operating
    system refuses the directory, its creation or its use.  Object names are
    digests, so the check that a path stays inside the directory never fails. *)

From stdpp Require Import base gmap strings list relations.
From Stdlib Require Import ZArith Lia Ascii.
From S2P Require Import Prelude Python CPython.

Open Scope orch_scope.

Definition STORAGE_PREFIX : string := "filesystem://sha256/".

Record StoredArtifact := mkStoredArtifact {
  sa_storage_ref : string;
  sa_digest : string;
  sa_size : Z;
}.

Record ArtifactDir := mkArtifactDir {
  ad_objects : gmap string string;
  ad_usable : bool;
}.

Definition empty_dir : ArtifactDir := mkArtifactDir ∅ true.

(** [_DIGEST_PATTERN.fullmatch] *)
Definition is_hex_lower (c : ascii) : bool :=
  let n := nat_of_ascii c in (Nat.leb 48 n && Nat.leb n 57) || (Nat.leb 97 n && Nat.leb n 102).
Definition is_digest (s : string) : bool :=
  Nat.eqb (String.length s) 64 && forallb is_hex_lower (String.list_ascii_of_string s).

(** [_normalise_digest] *)
Definition normalise_digest (digest : string) : result string :=
  let normalised := lower (strip digest) in
  refuse negb (is_digest normalised) with ArtifactStoreError
    saying "artifact digest must be a SHA-256 hex string";;
  Ok normalised.

Definition normalise_expected (expected : option string) : result (option string) :=
  match expected with
  | Some e => let! n := normalise_digest e in Ok (Some n)
  | None => Ok None
  end.

(** [text[len(prefix):] if text.startswith(prefix)] *)
Definition after_prefix (prefix text : string) : option string :=
  if String.prefix prefix text
  then Some (String.substring (String.length prefix) (String.length text - String.length prefix) text)
  else None.

(** [_digest_from_storage_ref] *)
Definition digest_from_storage_ref (storage_ref : string) : result string :=
  match after_prefix STORAGE_PREFIX storage_ref with
  | None => raise ArtifactStoreError "unsupported artifact storage reference"
  | Some rest => normalise_digest rest
  end.

(** [_stored_artifact] *)
Definition stored_artifact (digest content : string) : StoredArtifact :=
  mkStoredArtifact (STORAGE_PREFIX +:+ digest) digest (Z.of_nat (String.length content)).

Definition digest_mismatch {A} (expected actual : string) : result A :=
  raise ArtifactDigestMismatch ("artifact digest mismatch: expected " +:+ expected +:+ ", got " +:+ actual).

(** [if expected is not None and expected != digest: raise ArtifactDigestMismatch] *)
Definition check_expected (expected : option string) (digest : string) : result unit :=
  let! expected := normalise_expected expected in
  match expected with
  | Some e => if bool_decide (e <> digest) then digest_mismatch e digest else Ok tt
  | None => Ok tt
  end.

(** [_ensure_storage_dir] *)
Definition ensure_storage_dir (d : ArtifactDir) : result unit :=
  guard (negb (ad_usable d)) ArtifactStorageUnavailable "artifact storage is unavailable".

Section store.
Context `{Platform}.

(** Bytes read back must have the digest that names them. *)
Definition intact (digest content : string) : result string :=
  if bool_decide (sha256_bytes content <> digest) then digest_mismatch digest (sha256_bytes content)
  else Ok content.

(** [FilesystemArtifactStore.put] *)
Definition artifact_put (d : ArtifactDir) (content : string) (expected_digest : option string)
  : result (StoredArtifact * ArtifactDir) :=
  let digest := sha256_bytes content in
  let! _ := check_expected expected_digest digest in
  let! _ := ensure_storage_dir d in
  match ad_objects d !! digest with
  | Some existing => let! existing := intact digest existing in Ok (stored_artifact digest existing, d)
  | None => Ok (stored_artifact digest content,
                mkArtifactDir (<[digest := content]> (ad_objects d)) (ad_usable d))
  end.

(** [FilesystemArtifactStore.get] *)
Definition artifact_get (d : ArtifactDir) (storage_ref : string) (expected_digest : option string) : result string :=
  let! digest := digest_from_storage_ref storage_ref in
  let! _ := check_expected expected_digest digest in
  let! _ := ensure_storage_dir d in
  match ad_objects d !! digest with
  | None => raise ArtifactNotFound ("artifact object not found: " +:+ storage_ref)
  | Some content => intact digest content
  end.

(** [FilesystemArtifactStore.verify_digest] *)
Definition verify_digest (d : ArtifactDir) (storage_ref expected_digest : string) : result bool :=
  let! _ := artifact_get d storage_ref (Some expected_digest) in Ok true.

(** ** What a reference promises *)

(** Anything may happen to a directory but the loss or the change of an object:
    later writes, and the operating system coming and going. *)
Definition kept (d d' : ArtifactDir) : Prop := ad_objects d ⊆ ad_objects d'.

Lemma put_kept d content e a d' : artifact_put d content e = Ok (a, d') -> kept d d'.
Proof.
  unfold artifact_put, kept. intros Hp. inv_ok. destruct (ad_objects d !! sha256_bytes content) as [old|] eqn:Ho.
  - inv_ok. by simplify_eq.
  - simplify_eq. cbn. by apply insert_subseteq.
Qed.

Lemma after_prefix_app prefix rest : after_prefix prefix (prefix +:+ rest) = Some rest.
Proof.
  unfold after_prefix.
  assert (Hpre : String.prefix prefix (prefix +:+ rest) = true).
  { induction prefix as [|c prefix IH]; [by destruct rest|].
    change (String.prefix (String.String c prefix) (String.String c (prefix +:+ rest)) = true).
    cbn. by destruct (ascii_dec c c). }
  rewrite Hpre. f_equal.
  assert (Hlen : (String.length (prefix +:+ rest) - String.length prefix = String.length rest)%nat).
  { assert (String.length (prefix +:+ rest) = (String.length prefix + String.length rest)%nat) as ->; [|lia].
    clear Hpre. induction prefix as [|c prefix IH]; [done|].
    change (S (String.length (prefix +:+ rest)) = S (String.length prefix + String.length rest)). by rewrite IH. }
  rewrite Hlen. clear Hpre Hlen. induction prefix as [|c prefix IH]; [|exact IH].
  change (String.substring 0 (String.length rest) rest = rest). clear.
  induction rest as [|c rest IH]; cbn; [done|]. by rewrite IH.
Qed.

Lemma hex_not_space c : is_hex_lower c = true -> is_space c = false.
Proof. destruct c as [[] [] [] [] [] [] [] []]; vm_compute; congruence. Qed.
Lemma hex_lower_fixed c : is_hex_lower c = true -> ascii_lower c = c.
Proof. destruct c as [[] [] [] [] [] [] [] []]; vm_compute; congruence. Qed.

Lemma drop_space_none l : forallb (fun c => negb (is_space c)) l = true -> drop_space l = l.
Proof. destruct l as [|c l]; cbn; [done|]. by destruct (is_space c). Qed.

Lemma normalise_digest_id s : is_digest s = true -> normalise_digest s = Ok s.
Proof.
  intros Hd. assert (Hh : forall c, c ∈ String.list_ascii_of_string s -> is_hex_lower c = true).
  { apply andb_true_iff in Hd as [_ Hall]. intros c Hc. rewrite forallb_elem_of in Hall. by apply Hall. }
  assert (Hs : strip s = s).
  { assert (Hn : forall l, (forall c, c ∈ l -> is_hex_lower c = true) -> drop_space l = l).
    { intros l Hl. apply drop_space_none, forallb_elem_of. intros c Hc. by rewrite hex_not_space by auto. }
    unfold strip. rewrite (Hn _ Hh), Hn, rev_involutive, String.string_of_list_ascii_of_string; [done|].
    intros c Hc. apply Hh. by apply list_elem_of_In, in_rev, list_elem_of_In. }
  unfold normalise_digest. rewrite Hs.
  assert (Hl : lower s = s).
  { unfold lower, map_string. rewrite <- (String.string_of_list_ascii_of_string s) at 2. f_equal. clear Hs Hd.
    induction (String.list_ascii_of_string s) as [|c l IH]; cbn; [done|].
    rewrite hex_lower_fixed, IH; [done| |apply Hh; left]. intros c' Hc'. apply Hh. by right. }
  rewrite Hl, Hd. done.
Qed.

Lemma digest_of_stored digest content :
  is_digest digest = true -> digest_from_storage_ref (sa_storage_ref (stored_artifact digest content)) = Ok digest.
Proof. intros Hd. unfold digest_from_storage_ref, stored_artifact. cbn [sa_storage_ref]. by rewrite after_prefix_app, normalise_digest_id. Qed.

Lemma intact_Ok digest content c : intact digest content = Ok c <-> c = content /\ sha256_bytes content = digest.
Proof. unfold intact, digest_mismatch, raise. case_bool_decide; naive_solver. Qed.

(** What was put can be read: a put that returns gives a reference that, in any
    later directory that lost no object and is usable, reads back bytes of the
    same digest and of the recorded size, and exactly the bytes put unless bytes
    of the same digest were there before; and whatever happened to the directory,
    a read returns only bytes whose digest is the one the reference names. *)
Theorem artifacts_round_trip d content expected a d' d'' :
  is_digest (sha256_bytes content) = true ->
  artifact_put d content expected = Ok (a, d') -> kept d' d'' -> ad_usable d'' = true ->
  sa_digest a = sha256_bytes content /\
  (exists bytes, artifact_get d'' (sa_storage_ref a) (Some (sa_digest a)) = Ok bytes /\
     sha256_bytes bytes = sha256_bytes content /\ sa_size a = Z.of_nat (String.length bytes) /\
     (ad_objects d !! sha256_bytes content = None -> bytes = content)) /\
  (forall any bytes, artifact_get any (sa_storage_ref a) None = Ok bytes -> sha256_bytes bytes = sa_digest a).
Proof.
  intros Hdig Hput Hkept Huse.
  assert (exists bytes, a = stored_artifact (sha256_bytes content) bytes /\ ad_objects d' !! sha256_bytes content = Some bytes /\
            sha256_bytes bytes = sha256_bytes content /\ (ad_objects d !! sha256_bytes content = None -> bytes = content))
    as (bytes & -> & Hobj & Hsha & Hnew).
  { unfold artifact_put in Hput. inv_ok. destruct (ad_objects d !! sha256_bytes content) as [old|] eqn:Ho.
    - inv_ok. match goal with Hi : intact _ _ = Ok _ |- _ => apply intact_Ok in Hi as [-> Hi] end.
      simplify_eq. exists old. by split_and!.
    - simplify_eq. exists content. split_and!; try done. cbn. apply lookup_insert_eq. }
  split; [done|]. split.
  - exists bytes. split_and!; try done. unfold artifact_get. rewrite digest_of_stored by done. cbn [rbind sa_digest stored_artifact].
    unfold check_expected, normalise_expected. rewrite normalise_digest_id by done. cbn [rbind].
    rewrite bool_decide_eq_false_2 by naive_solver. cbn [rbind]. unfold ensure_storage_dir, guard. rewrite Huse. cbn [negb rbind].
    rewrite (lookup_weaken _ _ _ _ Hobj Hkept). by apply intact_Ok.
  - intros any bytes' Hget. unfold artifact_get in Hget. rewrite digest_of_stored in Hget by done. cbn [rbind] in Hget.
    inv_ok. destruct (ad_objects any !! sha256_bytes content); [|discriminate Hget].
    by apply intact_Ok in Hget as [-> ->].
Qed.
End store.
