(* ===== verification/Commitment.v ===== *)
(** * Meeting commitments: models and repository,
      [commitment_models.py] and [commitment_repository.py]

    A row holds the fields of its model; reading it rebuilds the model and runs
    its validation, which is the function [..._validate].  The foreign keys only
    add refusals and are left to the database; the unique columns are checked. *)

From stdpp Require Import base gmap strings list relations.
From Stdlib Require Import ZArith Lia.
From S2P Require Import Prelude Python CPython Store Domain.

Open Scope Z_scope.
Open Scope orch_scope.

(** ** Enumerations *)

Inductive CandidateCommitmentClassification :=
  | EXPLICIT_SELF_COMMITMENT | AMBIGUOUS_COMMITMENT | ASPIRATION | SUGGESTION | INFORMATION
  | ASSIGNMENT_TO_OTHER.

Inductive CandidateCommitmentStatus :=
  | CC_ACTIVE | CC_SUPERSEDED | CC_ADMITTED | CC_REJECTED | CC_REQUIRES_HUMAN_REVIEW.

Inductive CommitmentState :=
  | CS_ACTIVE | CS_OVERDUE | CS_FULFILLED | CS_CANCELLED | CS_REOPEN_REQUIRED.

Inductive CommitmentFulfillmentKind := EVIDENCE_VERIFIED | AUTHORIZED_ATTESTATION.

Inductive CommunicationDeliveryState :=
  | PREPARED | TRANSPORT_ACCEPTED | DELIVERY_CONFIRMED | RETRYING | PERMANENT_FAILED | DELIVERY_UNKNOWN.

#[global] Instance CandidateCommitmentClassification_eq_dec : EqDecision CandidateCommitmentClassification.
Proof. solve_decision. Defined.
#[global] Instance CandidateCommitmentStatus_eq_dec : EqDecision CandidateCommitmentStatus.
Proof. solve_decision. Defined.
#[global] Instance CommitmentState_eq_dec : EqDecision CommitmentState. Proof. solve_decision. Defined.
#[global] Instance CommitmentFulfillmentKind_eq_dec : EqDecision CommitmentFulfillmentKind.
Proof. solve_decision. Defined.
#[global] Instance CommunicationDeliveryState_eq_dec : EqDecision CommunicationDeliveryState.
Proof. solve_decision. Defined.

Definition CommitmentState_value (s : CommitmentState) : string :=
  match s with
  | CS_ACTIVE => "active" | CS_OVERDUE => "overdue" | CS_FULFILLED => "fulfilled"
  | CS_CANCELLED => "cancelled" | CS_REOPEN_REQUIRED => "reopen_required"
  end.

(** ** Models *)

Record CandidateCommitment := mkCandidateCommitment {
  cc_candidate_commitment_id : uuid;
  cc_source_artifact_ref : uuid;
  cc_interpretation_ref : uuid;
  cc_evidence_span_refs : list uuid;
  cc_candidate_committer_identity : string;
  cc_candidate_action : string;
  cc_candidate_due_text : option string;
  cc_candidate_due_at : option instant;
  cc_candidate_scope_ref : option string;
  cc_candidate_beneficiary : option string;
  cc_classification : CandidateCommitmentClassification;
  cc_status : CandidateCommitmentStatus;
  cc_created_at : instant;
  cc_superseded_by : option uuid;
}.

(** The field bounds and [validate_candidate]. *)
Definition CandidateCommitment_validate (c : CandidateCommitment) : result CandidateCommitment :=
  if negb (is_nil (cc_evidence_span_refs c)) && sized 1 512 (cc_candidate_committer_identity c)
     && sized 1 2000 (cc_candidate_action c) && sized_opt 512 (cc_candidate_due_text c)
     && sized_opt 1000 (cc_candidate_scope_ref c) && sized_opt 1000 (cc_candidate_beneficiary c)
  then
    refuse bool_decide (cc_status c = CC_SUPERSEDED) && bool_decide (cc_superseded_by c = None) with ValueError
      saying "superseded candidate requires superseded_by";;
    Ok c
  else invalid.

Record SpeakerPrincipalResolution := mkSpeakerPrincipalResolution {
  sp_resolution_id : uuid;
  sp_candidate_ref : uuid;
  sp_source_speaker_identity : string;
  sp_resolved_principal_id : string;
  sp_provider : string;
  sp_external_subject : string;
  sp_basis : pydict;
  sp_resolver_type : string;
  sp_resolved_at : instant;
}.

Definition SpeakerPrincipalResolution_validate (r : SpeakerPrincipalResolution) : result SpeakerPrincipalResolution :=
  if sized 1 512 (sp_source_speaker_identity r) && sized 1 255 (sp_resolved_principal_id r)
     && sized 1 128 (sp_provider r) && sized 1 1000 (sp_external_subject r) && negb (is_nil (sp_basis r))
     && sized 1 128 (sp_resolver_type r)
  then Ok r else invalid.

Record CommitmentRecord := mkCommitmentRecord {
  cm_commitment_id : uuid;
  cm_candidate_ref : uuid;
  cm_case_id : uuid;
  cm_authority_epoch : Z;
  cm_committer_principal_id : string;
  cm_committer_external_subject : string;
  cm_commitment_action : string;
  cm_due_at : instant;
  cm_due_time_basis : string;
  cm_scope_ref : option string;
  cm_beneficiary_principal_id : option string;
  cm_fulfillment_kind : CommitmentFulfillmentKind;
  cm_state : CommitmentState;
  cm_version : Z;
  cm_responsibility_ref : option string;
  cm_responsibility_version : option Z;
  cm_responsibility_admission_ref : option string;
  cm_responsibility_assessment_ref : option string;
  cm_responsibility_proposal_ref : option string;
  cm_responsibility_discharge_assessment_ref : option string;
  cm_responsibility_discharge_decision_ref : option string;
  cm_responsibility_transition_ref : option string;
  cm_created_at : instant;
  cm_updated_at : instant;
  cm_was_overdue : bool;
}.

#[global] Instance CommitmentRecord_eq_dec : EqDecision CommitmentRecord. Proof. solve_decision. Defined.

Definition CommitmentRecord_validate (c : CommitmentRecord) : result CommitmentRecord :=
  if (1 <=? cm_authority_epoch c) && sized 1 255 (cm_committer_principal_id c)
     && sized 1 1000 (cm_committer_external_subject c) && sized 1 2000 (cm_commitment_action c)
     && sized 1 512 (cm_due_time_basis c) && sized_opt 1000 (cm_scope_ref c)
     && sized_opt 255 (cm_beneficiary_principal_id c) && (1 <=? cm_version c)
     && match cm_responsibility_version c with Some v => 1 <=? v | None => true end
  then Ok c else invalid.

Record CommitmentFulfillmentAttestation := mkCommitmentFulfillmentAttestation {
  at_attestation_id : uuid;
  at_case_id : uuid;
  at_authority_epoch : Z;
  at_commitment_version : Z;
  at_principal_id : string;
  at_disposition : string;
  at_basis : pydict;
  at_attested_at : instant;
}.

Definition CommitmentFulfillmentAttestation_validate (a : CommitmentFulfillmentAttestation)
  : result CommitmentFulfillmentAttestation :=
  if (1 <=? at_authority_epoch a) && (1 <=? at_commitment_version a) && sized 1 255 (at_principal_id a)
     && sized 1 64 (at_disposition a) && negb (is_nil (at_basis a))
  then Ok a else invalid.

Record CommunicationDraftRecord := mkCommunicationDraftRecord {
  dr_draft_id : uuid;
  dr_case_id : uuid;
  dr_authority_epoch : Z;
  dr_channel : string;
  dr_recipient_principal_id : string;
  dr_recipient_external_subject : string;
  dr_content_storage_ref : string;
  dr_content_digest : string;
  dr_content_size : Z;
  dr_draft_kind : string;
  dr_generator_ref : string;
  dr_created_at : instant;
  dr_superseded_by : option uuid;
}.

#[global] Instance CommunicationDraftRecord_eq_dec : EqDecision CommunicationDraftRecord. Proof. solve_decision. Defined.

Definition CommunicationDraftRecord_validate (d : CommunicationDraftRecord) : result CommunicationDraftRecord :=
  if (1 <=? dr_authority_epoch d) && sized 1 64 (dr_channel d) && sized 1 255 (dr_recipient_principal_id d)
     && sized 1 1000 (dr_recipient_external_subject d) && sized 1 2000 (dr_content_storage_ref d)
     && sized 64 64 (dr_content_digest d) && (1 <=? dr_content_size d) && sized 1 128 (dr_draft_kind d)
     && sized 1 512 (dr_generator_ref d)
  then Ok d else invalid.

(** [read_state] has the one member [UNKNOWN] and is left out. *)
Record CommunicationEffectRecord := mkCommunicationEffectRecord {
  ce_communication_event_id : uuid;
  ce_case_id : uuid;
  ce_authority_epoch : Z;
  ce_draft_id : uuid;
  ce_effect_id : uuid;
  ce_delivery_state : CommunicationDeliveryState;
  ce_provider_message_ref : option string;
  ce_attempts : Z;
  ce_last_error_code : option string;
  ce_created_at : instant;
  ce_updated_at : instant;
}.

#[global] Instance CommunicationEffectRecord_eq_dec : EqDecision CommunicationEffectRecord.
Proof. solve_decision. Defined.

Definition CommunicationEffectRecord_validate (c : CommunicationEffectRecord) : result CommunicationEffectRecord :=
  if (1 <=? ce_authority_epoch c) && sized_opt 1000 (ce_provider_message_ref c) && (0 <=? ce_attempts c)
     && sized_opt 256 (ce_last_error_code c)
  then Ok c else invalid.

(** ** Tables *)

Record CommitmentDb := mkCommitmentDb {
  m_candidates : gmap uuid CandidateCommitment;
  m_resolutions : gmap uuid SpeakerPrincipalResolution;
  m_commitments : gmap uuid CommitmentRecord;
  m_attestations : gmap uuid CommitmentFulfillmentAttestation;
  m_drafts : gmap uuid CommunicationDraftRecord;
  m_communications : gmap uuid CommunicationEffectRecord;
}.

Definition empty_commitment_db : CommitmentDb := mkCommitmentDb ∅ ∅ ∅ ∅ ∅ ∅.

Definition set_candidates (db : CommitmentDb) t :=
  mkCommitmentDb t (m_resolutions db) (m_commitments db) (m_attestations db) (m_drafts db) (m_communications db).
Definition set_resolutions (db : CommitmentDb) t :=
  mkCommitmentDb (m_candidates db) t (m_commitments db) (m_attestations db) (m_drafts db) (m_communications db).
Definition set_commitments (db : CommitmentDb) t :=
  mkCommitmentDb (m_candidates db) (m_resolutions db) t (m_attestations db) (m_drafts db) (m_communications db).
Definition set_attestations (db : CommitmentDb) t :=
  mkCommitmentDb (m_candidates db) (m_resolutions db) (m_commitments db) t (m_drafts db) (m_communications db).
Definition set_drafts (db : CommitmentDb) t :=
  mkCommitmentDb (m_candidates db) (m_resolutions db) (m_commitments db) (m_attestations db) t (m_communications db).
Definition set_communications (db : CommitmentDb) t :=
  mkCommitmentDb (m_candidates db) (m_resolutions db) (m_commitments db) (m_attestations db) (m_drafts db) t.

(** [restored != x] of the models whose fields include a dict. *)
Definition resolution_eqb (a b : SpeakerPrincipalResolution) : bool :=
  bool_decide (sp_resolution_id a = sp_resolution_id b) && bool_decide (sp_candidate_ref a = sp_candidate_ref b)
  && bool_decide (sp_source_speaker_identity a = sp_source_speaker_identity b)
  && bool_decide (sp_resolved_principal_id a = sp_resolved_principal_id b)
  && bool_decide (sp_provider a = sp_provider b) && bool_decide (sp_external_subject a = sp_external_subject b)
  && py_eq (VDict (sp_basis a)) (VDict (sp_basis b)) && bool_decide (sp_resolver_type a = sp_resolver_type b)
  && bool_decide (sp_resolved_at a = sp_resolved_at b).

Definition attestation_eqb (a b : CommitmentFulfillmentAttestation) : bool :=
  bool_decide (at_attestation_id a = at_attestation_id b) && bool_decide (at_case_id a = at_case_id b)
  && bool_decide (at_authority_epoch a = at_authority_epoch b)
  && bool_decide (at_commitment_version a = at_commitment_version b)
  && bool_decide (at_principal_id a = at_principal_id b) && bool_decide (at_disposition a = at_disposition b)
  && py_eq (VDict (at_basis a)) (VDict (at_basis b)) && bool_decide (at_attested_at a = at_attested_at b).

#[global] Instance CandidateCommitment_eq_dec : EqDecision CandidateCommitment. Proof. solve_decision. Defined.

(** [.scalars().first()] of a selection *)
Definition first_row {K V} `{Countable K} (P : V -> bool) (t : gmap K V) : option V := head (select_where P t).

(** ** [CommitmentRepository] *)

Definition put_candidate (db : CommitmentDb) (candidate : CandidateCommitment)
  : result (CandidateCommitment * CommitmentDb) :=
  match m_candidates db !! cc_candidate_commitment_id candidate with
  | Some row =>
      let! restored := CandidateCommitment_validate row in
      refuse bool_decide (restored <> candidate) with CommitmentConflict
        saying "candidate commitment identity was reused";;
      Ok (restored, db)
  | None =>
      Ok (candidate, set_candidates db (<[cc_candidate_commitment_id candidate := candidate]> (m_candidates db)))
  end.

Definition get_candidate (db : CommitmentDb) (candidate_id : uuid) : result (option CandidateCommitment) :=
  match m_candidates db !! candidate_id with
  | None => Ok None
  | Some row => let! c := CandidateCommitment_validate row in Ok (Some c)
  end.

Definition list_candidates (db : CommitmentDb) (status : option CandidateCommitmentStatus) (limit : nat)
  : result (list CandidateCommitment) :=
  traverse CandidateCommitment_validate
    (take limit (sort_by (fun a b => Z.compare (cc_created_at b) (cc_created_at a))
       (select_where (fun c => match status with Some s => bool_decide (cc_status c = s) | None => true end)
          (m_candidates db)))).

(** The row of a candidate with its status replaced. *)
Definition with_candidate_status (c : CandidateCommitment) (status : CandidateCommitmentStatus)
    (superseded_by : option uuid) : CandidateCommitment :=
  mkCandidateCommitment (cc_candidate_commitment_id c) (cc_source_artifact_ref c) (cc_interpretation_ref c)
    (cc_evidence_span_refs c) (cc_candidate_committer_identity c) (cc_candidate_action c) (cc_candidate_due_text c)
    (cc_candidate_due_at c) (cc_candidate_scope_ref c) (cc_candidate_beneficiary c) (cc_classification c) status
    (cc_created_at c) superseded_by.

Definition update_candidate_status (db : CommitmentDb) (candidate_id : uuid) (status : CandidateCommitmentStatus)
    (superseded_by : option uuid) : result (CandidateCommitment * CommitmentDb) :=
  match m_candidates db !! candidate_id with
  | None => raise KeyError ("candidate commitment " +:+ uuid_str candidate_id +:+ " not found")
  | Some row =>
      let! c := CandidateCommitment_validate (with_candidate_status row status superseded_by) in
      Ok (c, set_candidates db (<[candidate_id := c]> (m_candidates db)))
  end.

Definition resolution_of (db : CommitmentDb) (candidate_id : uuid) : option SpeakerPrincipalResolution :=
  first_row (fun r => bool_decide (sp_candidate_ref r = candidate_id)) (m_resolutions db).

Definition put_resolution (db : CommitmentDb) (resolution : SpeakerPrincipalResolution)
  : result (SpeakerPrincipalResolution * CommitmentDb) :=
  match m_resolutions db !! sp_resolution_id resolution with
  | Some row =>
      let! restored := SpeakerPrincipalResolution_validate row in
      refuse negb (resolution_eqb restored resolution) with CommitmentConflict
        saying "speaker resolution identity was reused";;
      Ok (restored, db)
  | None =>
      match resolution_of db (sp_candidate_ref resolution) with
      | Some existing =>
          let! restored := SpeakerPrincipalResolution_validate existing in
          refuse negb (resolution_eqb restored resolution) with CommitmentConflict
            saying "candidate already has a different speaker resolution";;
          Ok (restored, db)
      | None =>
          Ok (resolution, set_resolutions db (<[sp_resolution_id resolution := resolution]> (m_resolutions db)))
      end
  end.

Definition get_resolution (db : CommitmentDb) (candidate_id : uuid) : result (option SpeakerPrincipalResolution) :=
  match resolution_of db candidate_id with
  | None => Ok None
  | Some row => let! r := SpeakerPrincipalResolution_validate row in Ok (Some r)
  end.

Definition commitment_for (db : CommitmentDb) (candidate_id : uuid) : option CommitmentRecord :=
  first_row (fun c => bool_decide (cm_candidate_ref c = candidate_id)) (m_commitments db).

Definition commitment_of_case (db : CommitmentDb) (case_id : uuid) : option CommitmentRecord :=
  first_row (fun c => bool_decide (cm_case_id c = case_id)) (m_commitments db).

Definition read_commitment (row : option CommitmentRecord) : result (option CommitmentRecord) :=
  match row with
  | None => Ok None
  | Some row => let! c := CommitmentRecord_validate row in Ok (Some c)
  end.

(** The [case_id] column is unique too. *)
Definition put_commitment (db : CommitmentDb) (commitment : CommitmentRecord)
  : result (CommitmentRecord * CommitmentDb) :=
  match m_commitments db !! cm_commitment_id commitment with
  | Some row =>
      let! restored := CommitmentRecord_validate row in
      refuse bool_decide (restored <> commitment) with CommitmentConflict saying "commitment identity was reused";;
      Ok (restored, db)
  | None =>
      match commitment_for db (cm_candidate_ref commitment) with
      | Some existing =>
          let! restored := CommitmentRecord_validate existing in
          refuse bool_decide (restored <> commitment) with CommitmentConflict
            saying "candidate already has a different commitment";;
          Ok (restored, db)
      | None =>
          refuse negb (bool_decide (commitment_of_case db (cm_case_id commitment) = None)) with IntegrityError
            saying "duplicate case_id";;
          Ok (commitment, set_commitments db (<[cm_commitment_id commitment := commitment]> (m_commitments db)))
      end
  end.

Definition get_commitment (db : CommitmentDb) (case_id : uuid) : result (option CommitmentRecord) :=
  read_commitment (commitment_of_case db case_id).

Definition get_commitment_for_candidate (db : CommitmentDb) (candidate_id : uuid) : result (option CommitmentRecord) :=
  read_commitment (commitment_for db candidate_id).

(** The row after [setattr] of [_commitment_values]: its three identities stay. *)
Definition copy_commitment_values (row c : CommitmentRecord) (version : Z) : CommitmentRecord :=
  mkCommitmentRecord (cm_commitment_id row) (cm_candidate_ref row) (cm_case_id row) (cm_authority_epoch c)
    (cm_committer_principal_id c) (cm_committer_external_subject c) (cm_commitment_action c) (cm_due_at c)
    (cm_due_time_basis c) (cm_scope_ref c) (cm_beneficiary_principal_id c) (cm_fulfillment_kind c) (cm_state c)
    version (cm_responsibility_ref c) (cm_responsibility_version c) (cm_responsibility_admission_ref c)
    (cm_responsibility_assessment_ref c) (cm_responsibility_proposal_ref c)
    (cm_responsibility_discharge_assessment_ref c) (cm_responsibility_discharge_decision_ref c)
    (cm_responsibility_transition_ref c) (cm_created_at c) (cm_updated_at c) (cm_was_overdue c).

Definition update_commitment (db : CommitmentDb) (commitment : CommitmentRecord)
  : result (CommitmentRecord * CommitmentDb) :=
  match m_commitments db !! cm_commitment_id commitment with
  | None => raise KeyError ("commitment " +:+ uuid_str (cm_commitment_id commitment) +:+ " not found")
  | Some row =>
      refuse bool_decide (cm_version row <> cm_version commitment) with CommitmentConflict
        saying "commitment version changed";;
      let! updated := CommitmentRecord_validate (copy_commitment_values row commitment (cm_version commitment + 1)) in
      Ok (updated, set_commitments db (<[cm_commitment_id commitment := updated]> (m_commitments db)))
  end.

Definition attestation_of (db : CommitmentDb) (case_id : uuid) (commitment_version : Z)
  : option CommitmentFulfillmentAttestation :=
  first_row (fun a => bool_decide (at_case_id a = case_id) && bool_decide (at_commitment_version a = commitment_version))
    (m_attestations db).

Definition put_attestation (db : CommitmentDb) (attestation : CommitmentFulfillmentAttestation)
  : result (CommitmentFulfillmentAttestation * CommitmentDb) :=
  match m_attestations db !! at_attestation_id attestation with
  | Some row =>
      let! restored := CommitmentFulfillmentAttestation_validate row in
      refuse negb (attestation_eqb restored attestation) with CommitmentConflict
        saying "attestation identity was reused";;
      Ok (restored, db)
  | None =>
      match attestation_of db (at_case_id attestation) (at_commitment_version attestation) with
      | Some existing =>
          let! restored := CommitmentFulfillmentAttestation_validate existing in
          refuse negb (attestation_eqb restored attestation) with CommitmentConflict
            saying "commitment already has a different attestation";;
          Ok (restored, db)
      | None =>
          Ok (attestation, set_attestations db (<[at_attestation_id attestation := attestation]> (m_attestations db)))
      end
  end.

Definition get_attestation (db : CommitmentDb) (case_id : uuid) (commitment_version : Z)
  : result (option CommitmentFulfillmentAttestation) :=
  match attestation_of db case_id commitment_version with
  | None => Ok None
  | Some row => let! a := CommitmentFulfillmentAttestation_validate row in Ok (Some a)
  end.

Definition put_draft (db : CommitmentDb) (draft : CommunicationDraftRecord)
  : result (CommunicationDraftRecord * CommitmentDb) :=
  match m_drafts db !! dr_draft_id draft with
  | Some row =>
      let! restored := CommunicationDraftRecord_validate row in
      refuse bool_decide (restored <> draft) with CommitmentConflict saying "communication draft identity was reused";;
      Ok (restored, db)
  | None => Ok (draft, set_drafts db (<[dr_draft_id draft := draft]> (m_drafts db)))
  end.

Definition get_draft (db : CommitmentDb) (draft_id : uuid) : result (option CommunicationDraftRecord) :=
  match m_drafts db !! draft_id with
  | None => Ok None
  | Some row => let! d := CommunicationDraftRecord_validate row in Ok (Some d)
  end.

Definition communication_of_effect (db : CommitmentDb) (effect_id : uuid) : option CommunicationEffectRecord :=
  first_row (fun c => bool_decide (ce_effect_id c = effect_id)) (m_communications db).

Definition put_communication (db : CommitmentDb) (communication : CommunicationEffectRecord)
  : result (CommunicationEffectRecord * CommitmentDb) :=
  match m_communications db !! ce_communication_event_id communication with
  | Some row =>
      let! restored := CommunicationEffectRecord_validate row in
      refuse bool_decide (restored <> communication) with CommitmentConflict
        saying "communication event identity was reused";;
      Ok (restored, db)
  | None =>
      match communication_of_effect db (ce_effect_id communication) with
      | Some existing =>
          let! restored := CommunicationEffectRecord_validate existing in
          refuse bool_decide (restored <> communication) with CommitmentConflict
            saying "effect already has a different communication event";;
          Ok (restored, db)
      | None =>
          Ok (communication,
              set_communications db (<[ce_communication_event_id communication := communication]> (m_communications db)))
      end
  end.

Definition read_communication (row : option CommunicationEffectRecord) : result (option CommunicationEffectRecord) :=
  match row with
  | None => Ok None
  | Some row => let! c := CommunicationEffectRecord_validate row in Ok (Some c)
  end.

Definition get_communication (db : CommitmentDb) (effect_id : uuid) : result (option CommunicationEffectRecord) :=
  read_communication (communication_of_effect db effect_id).

Definition get_communication_event (db : CommitmentDb) (communication_event_id : uuid)
  : result (option CommunicationEffectRecord) := read_communication (m_communications db !! communication_event_id).

Definition list_communications (db : CommitmentDb) (case_id : uuid) (authority_epoch : option Z)
  : result (list CommunicationEffectRecord) :=
  traverse CommunicationEffectRecord_validate
    (sort_by (fun a b => cmp_then (Z.compare (ce_created_at a) (ce_created_at b))
                           (N.compare (ce_communication_event_id a) (ce_communication_event_id b)))
       (select_where (fun c => bool_decide (ce_case_id c = case_id)
                               && match authority_epoch with
                                  | Some e => bool_decide (ce_authority_epoch c = e)
                                  | None => true
                                  end) (m_communications db))).

Definition update_communication (db : CommitmentDb) (communication : CommunicationEffectRecord)
  : result (CommunicationEffectRecord * CommitmentDb) :=
  match m_communications db !! ce_communication_event_id communication with
  | None => raise KeyError ("communication event " +:+ uuid_str (ce_communication_event_id communication)
                            +:+ " not found")
  | Some _ =>
      let! updated := CommunicationEffectRecord_validate communication in
      Ok (updated, set_communications db (<[ce_communication_event_id communication := updated]> (m_communications db)))
  end.
