(* ===== verification/Access.v ===== *)
(** * Who may do what, [auth.py] and [access_policy.py]

    A request is authenticated to an active principal of the authority plane,
    by a development header or by the subject of a verified bearer token, and
    then authorized for one permission on one case or scope from the roles the
    principal currently holds.  [oidc_verify] stands for the OIDC verifier and
    [jwt_segments] for the decoding of a compact token: base64, JSON and the HMAC
    of its signature.  The outcome of an endpoint is a reply, the error it
    answers with, or an exception it does not handle. *)

From stdpp Require Import base gmap strings list.
From Stdlib Require Import ZArith Lia Ascii.
From Stdlib Require String.
From S2P Require Import Prelude Python CPython Store Domain Policy Authority.

Open Scope Z_scope.
Open Scope orch_scope.

(** ** Replies *)

Inductive reply (A : Type) :=
  | Reply (a : A)
  | HTTPError (status_code : Z) (detail : string)
  | Uncaught (e : exn).
Arguments Reply {A} a. Arguments HTTPError {A} status_code detail. Arguments Uncaught {A} e.

(** The built-in base classes an [except] clause may name. *)
Definition is_ValueError (c : exn_class) : bool :=
  bool_decide (c ∈ [ValueError; TransitionError; FinancialQualificationPending; AuthorityError;
                    PolicyPlaneError; OutboxEventNotFound; OutboxEventNotFailed; CommitmentIntakeError;
                    CandidateProjectionError; CandidateAdmissionError; AdmissionRejected;
                    OnboardingAdmissionError; OffboardingAdmissionError; FinancialAdmissionError;
                    ConversationRejected; IdentityResolutionError; SenderSpoof; TenantMismatch;
                    ParticipantChanged; OutOfOrderDelivery; CandidateSupersessionConflict]).

(** [try: r  except <caught> as exc: raise HTTPException(status, str(exc))] *)
Definition answer {A} (caught : exn_class -> bool) (status_code : Z) (r : result A) : reply A :=
  match r with
  | Ok a => Reply a
  | Err e => if caught (exn_cls e) then HTTPError status_code (exn_msg e) else Uncaught e
  end.

(** [raise HTTPException(status, detail)] with a fixed detail *)
Definition answer_with {A} (caught : exn_class -> bool) (status_code : Z) (detail : string) (r : result A)
  : reply A :=
  match r with
  | Ok a => Reply a
  | Err e => if caught (exn_cls e) then HTTPError status_code detail else Uncaught e
  end.

Definition uncaught {A} (r : result A) : reply A := answer (fun _ => false) 500 r.

(** An error answer ends the endpoint. *)
Definition reply_bind {A B} (r : reply A) (k : A -> reply B) : reply B :=
  match r with Reply a => k a | HTTPError c d => HTTPError c d | Uncaught e => Uncaught e end.

Notation "'let?' x ':=' r 'in' k" := (reply_bind r (fun x => k))
  (at level 200, x pattern, r at level 100, k at level 200, right associativity) : orch_scope.

(** ** Authentication *)

Record Request := mkRequest {
  hdr_principal_id : option string;      (* X-Principal-ID *)
  hdr_authorization : option string;     (* Authorization *)
}.

Record AuthSettings := mkAuthSettings {
  auth_mode : string;
  jwt_secret : string;
  jwt_issuer : string;
  jwt_audience : string;
  oidc_issuer : string;
}.

Record AuthenticatedPrincipal := mkAuthenticatedPrincipal {
  ap_principal : Principal;
  ap_auth_mode : string;
  ap_external_subject : string;
}.

(** What the token code takes from base64, [json] and [hmac]: the JSON object a
    base64url segment encodes, and whether the signature segment decodes to the
    HMAC-SHA256 of the signing input; and the OIDC verifier, which may only fail
    with [OidcVerificationError], a [ValueError]. *)
Class TokenLibrary := {
  decode_json_segment : string -> result pydict;
  compare_hmac_sha256 : string -> string -> string -> result bool;
  oidc_verify : string -> result pydict;
}.

(** [isinstance(v, int)], booleans included. *)
Definition isinstance_int (v : pyval) : option Z :=
  match v with VInt n => Some n | VBool b => Some (if b then 1 else 0) | _ => None end.

Definition ch_slash : ascii := ascii_of_nat 47.
Definition ch_dot : ascii := ascii_of_nat 46.

(** [s.rstrip("/")] *)
Fixpoint drop_slashes (l : list ascii) : list ascii :=
  match l with c :: r => if Ascii.eqb c ch_slash then drop_slashes r else l | [] => [] end.
Definition rstrip_slash (s : string) : string :=
  String.string_of_list_ascii (rev (drop_slashes (rev (String.list_ascii_of_string s)))).

(** [s.split(".")] *)
Fixpoint split_dot (s : string) : list string :=
  match s with
  | EmptyString => [""]
  | String c r =>
      match split_dot r with
      | part :: parts => if Ascii.eqb c ch_dot then "" :: part :: parts else String c part :: parts
      | [] => [""]
      end
  end.

(** [s.removeprefix("Bearer ")] of a string that has the prefix *)
Definition drop_bearer (s : string) : string := String.substring 7 (String.length s - 7) s.

Section auth.
Context `{Platform} `{TokenLibrary}.

(** [audience in audiences]; building a set of unhashable members raises. *)
Definition hashable (v : pyval) : bool := match v with VList _ | VDict _ => false | _ => true end.
Definition audience_listed (audience : string) (aud : pyval) : result bool :=
  match aud with
  | VStr s => Ok (bool_decide (s = audience))
  | VList l =>
      refuse negb (forallb hashable l) with TypeError saying "unhashable type";;
      Ok (existsb (fun v => py_eq v (VStr audience)) l)
  | _ => Ok false
  end.

Definition claims_subject (claims : pydict) : bool :=
  match dict_get claims "sub" with VStr s => nonempty (strip s) | _ => false end.

(** The checks on the claims of a signed token; [now] is the clock in seconds. *)
Definition check_claims (claims : pydict) (issuer audience : string) (now : Z) : result pydict :=
  refuse negb (claims_subject claims) with ValueError saying "JWT sub is required";;
  match isinstance_int (dict_get claims "iat"), isinstance_int (dict_get claims "exp") with
  | Some issued_at, Some expires_at =>
      refuse now + 60 <? issued_at with ValueError saying "JWT iat is in the future";;
      refuse expires_at <=? now with ValueError saying "JWT has expired";;
      refuse match isinstance_int (dict_get claims "nbf") with Some n => now + 60 <? n | None => false end
        with ValueError saying "JWT is not yet valid";;
      refuse negb (py_eq (dict_get claims "iss") (VStr issuer)) with ValueError
        saying "JWT issuer mismatch";;
      let! listed := audience_listed audience (dict_get claims "aud") in
      refuse negb listed with ValueError saying "JWT audience mismatch";;
      Ok claims
  | _, _ => raise ValueError "JWT iat and exp are required integer timestamps"
  end.

(** [_decode_hs256_jwt] *)
Definition decode_hs256_jwt (token secret issuer audience : string) (now : Z) : result pydict :=
  match split_dot token with
  | [encoded_header; encoded_payload; encoded_signature] =>
      let! header := decode_json_segment encoded_header in
      let! claims := decode_json_segment encoded_payload in
      refuse negb (py_eq (dict_get header "alg") (VStr "HS256")) with ValueError
        saying "only HS256 is accepted by this compatibility profile";;
      let! signed := compare_hmac_sha256 secret (encoded_header +:+ "." +:+ encoded_payload) encoded_signature in
      refuse negb signed with ValueError saying "invalid JWT signature";;
      check_claims claims issuer audience now
  | _ => raise ValueError "JWT must have three segments"
  end.

Definition bearer_token (request : Request) : reply string :=
  let header := default "" (hdr_authorization request) in
  if negb (String.prefix "Bearer " header) then HTTPError 401 "Bearer token is required"
  else
    let token := strip (drop_bearer header) in
    if negb (nonempty token) then HTTPError 401 "Bearer token is required" else Reply token.

(** The principal an external subject is bound to. *)
Definition bound_principal (db : AuthorityDb) (provider mode : string) (claims : pydict) (at_ : instant)
  : reply AuthenticatedPrincipal :=
  match assoc "sub" claims with
  | None => Uncaught (Exn KeyError "sub")
  | Some sub =>
      let subject := strip (py_str sub) in
      match resolve_identity db provider subject at_ with
      | None => HTTPError 403 "authenticated identity is not currently bound to an active principal"
      | Some principal => Reply (mkAuthenticatedPrincipal principal mode subject)
      end
  end.

Definition authenticate_development (db : AuthorityDb) (request : Request) : reply AuthenticatedPrincipal :=
  let principal_id := strip (default "" (hdr_principal_id request)) in
  if negb (nonempty principal_id)
  then HTTPError 401 "X-Principal-ID is required in development auth mode"
  else match get_principal db principal_id with
       | None => HTTPError 403 "development principal is not registered in the authority plane"
       | Some principal => Reply (mkAuthenticatedPrincipal principal "development" principal_id)
       end.

Definition authenticate_jwt (settings : AuthSettings) (db : AuthorityDb) (request : Request) (at_ : instant)
  : reply AuthenticatedPrincipal :=
  let? token := bearer_token request in
  if negb (nonempty (jwt_secret settings)) then HTTPError 503 "JWT authentication is not configured"
  else
    let? claims := answer_with is_ValueError 401 "invalid bearer token"
                     (decode_hs256_jwt token (jwt_secret settings) (jwt_issuer settings) (jwt_audience settings)
                        (at_ / 1000000)) in
    bound_principal db (jwt_issuer settings) "jwt" claims at_.

Definition authenticate_oidc (settings : AuthSettings) (db : AuthorityDb) (request : Request) (at_ : instant)
  : reply AuthenticatedPrincipal :=
  let? token := bearer_token request in
  let? claims := answer_with is_ValueError 401 "invalid OIDC bearer token" (oidc_verify token) in
  bound_principal db (rstrip_slash (oidc_issuer settings)) "oidc" claims at_.

Definition authenticate (settings : AuthSettings) (db : AuthorityDb) (request : Request) (at_ : instant)
  : reply AuthenticatedPrincipal :=
  let mode := lower (strip (auth_mode settings)) in
  if bool_decide (mode = "development") then authenticate_development db request
  else if bool_decide (mode = "jwt") then authenticate_jwt settings db request at_
  else if bool_decide (mode = "oidc") then authenticate_oidc settings db request at_
  else HTTPError 503 "unsupported authentication mode".
End auth.

(** ** Authorization *)

Inductive AdministrativePermission :=
  | CASE_READ | FACTS_READ | FACTS_ATTEST | COMMITMENT_ATTEST | FACTS_REFRESH_AUTHORITATIVE
  | DECISION_SUBMIT | CASE_REASSESS | POLICY_READ | POLICY_MANAGE | AUDIT_READ | OPERATIONS_READ
  | INTAKE_REVIEW | INVESTIGATION_READ | INVESTIGATION_REQUEST | INVESTIGATION_REVIEW
  | REOPEN_AUTHORIZE | IDENTITY_MANAGE | DEAD_LETTER_READ | DEAD_LETTER_REPLAY.

#[global] Instance AdministrativePermission_eq_dec : EqDecision AdministrativePermission.
Proof. solve_decision. Defined.

Definition AdministrativePermission_value (p : AdministrativePermission) : string :=
  match p with
  | CASE_READ => "case.read" | FACTS_READ => "case.facts.read" | FACTS_ATTEST => "case.facts.attest"
  | COMMITMENT_ATTEST => "commitment.fulfillment.attest"
  | FACTS_REFRESH_AUTHORITATIVE => "case.facts.refresh_authoritative"
  | DECISION_SUBMIT => "decision.submit" | CASE_REASSESS => "case.reassess"
  | POLICY_READ => "policy.read" | POLICY_MANAGE => "policy.manage" | AUDIT_READ => "audit.read"
  | OPERATIONS_READ => "operations.read" | INTAKE_REVIEW => "intake.review"
  | INVESTIGATION_READ => "investigation.read" | INVESTIGATION_REQUEST => "investigation.request"
  | INVESTIGATION_REVIEW => "investigation.review" | REOPEN_AUTHORIZE => "case.reopen.authorize"
  | IDENTITY_MANAGE => "identity.manage" | DEAD_LETTER_READ => "dead_letter.read"
  | DEAD_LETTER_REPLAY => "dead_letter.replay"
  end.

Definition CASE_READER_ROLES : list string :=
  ["hr_approver"; "manager"; "access_approver"; "hr_operator"; "administrative_operator";
   "administrative_auditor"; "administrative_admin"].
Definition FACT_ATTEST_ROLES : list string := ["hr_operator"; "administrative_operator"; "administrative_admin"].
Definition REASSESS_ROLES : list string := ["administrative_operator"; "administrative_admin"].
Definition POLICY_READ_ROLES : list string :=
  ["policy_owner"; "administrative_operator"; "administrative_auditor"; "administrative_admin"].
Definition POLICY_MANAGE_ROLES : list string := ["policy_owner"; "administrative_admin"].
Definition AUDIT_READ_ROLES : list string :=
  ["administrative_operator"; "administrative_auditor"; "administrative_admin"].
Definition OPERATIONS_READ_ROLES : list string :=
  ["administrative_operator"; "administrative_auditor"; "platform_operator"; "administrative_admin"].
Definition INTAKE_REVIEW_ROLES : list string := ["administrative_operator"; "administrative_admin"].
Definition INVESTIGATION_READ_ROLES : list string :=
  ["administrative_operator"; "administrative_auditor"; "administrative_admin"; "platform_operator"].
Definition INVESTIGATION_REQUEST_ROLES : list string := ["administrative_operator"; "administrative_admin"].
Definition INVESTIGATION_REVIEW_ROLES : list string := ["administrative_operator"; "administrative_admin"].
Definition REOPEN_AUTHORIZE_ROLES : list string := ["administrative_operator"; "administrative_admin"].
Definition IDENTITY_MANAGE_ROLES : list string := ["administrative_admin"].
Definition PLATFORM_OPS_ROLES : list string := ["platform_operator"; "administrative_admin"].

(** [bool(roles.intersection(names))] *)
Definition holds_any (roles : gset string) (names : list string) : bool :=
  existsb (fun r => bool_decide (r ∈ roles)) names.

Definition requested_by (c : option AdministrativeCase) (principal_id : string) : bool :=
  match c with Some c => bool_decide (c_requester_principal_id c = principal_id) | None => false end.

Section access.
Context `{Platform}.

(** [_case_scope] *)
Definition case_scope (c : option AdministrativeCase) : string :=
  match c with
  | None => "*"
  | Some c =>
      match c_fact_snapshot c with
      | None => "*"
      | Some s => let department := dict_get (fs_facts s) "department_ref" in
                  if truthy department then py_str department else "*"
      end
  end.

Definition access_scope (c : option AdministrativeCase) (organization_scope : option string) : string :=
  match organization_scope with
  | Some s => if nonempty s then s else case_scope c
  | None => case_scope c
  end.

Definition allows (db : AuthorityDb) (principal_id : string) (permission : AdministrativePermission)
    (c : option AdministrativeCase) (organization_scope : option string) (at_ : instant) : result bool :=
  match get_principal db principal_id with
  | None => Ok false
  | Some _ =>
      let! roles := roles_for db principal_id (access_scope c organization_scope) at_ in
      Ok match permission with
         | CASE_READ | FACTS_READ => requested_by c principal_id || holds_any roles CASE_READER_ROLES
         | FACTS_ATTEST | FACTS_REFRESH_AUTHORITATIVE => holds_any roles FACT_ATTEST_ROLES
         | COMMITMENT_ATTEST => requested_by c principal_id || holds_any roles FACT_ATTEST_ROLES
         | DECISION_SUBMIT => bool_decide (roles <> ∅)
         | CASE_REASSESS => holds_any roles REASSESS_ROLES
         | POLICY_READ => holds_any roles POLICY_READ_ROLES
         | POLICY_MANAGE => holds_any roles POLICY_MANAGE_ROLES
         | AUDIT_READ => holds_any roles AUDIT_READ_ROLES
         | OPERATIONS_READ => holds_any roles OPERATIONS_READ_ROLES
         | INTAKE_REVIEW => holds_any roles INTAKE_REVIEW_ROLES
         | INVESTIGATION_READ => holds_any roles INVESTIGATION_READ_ROLES
         | INVESTIGATION_REQUEST => holds_any roles INVESTIGATION_REQUEST_ROLES
         | INVESTIGATION_REVIEW => holds_any roles INVESTIGATION_REVIEW_ROLES
         | REOPEN_AUTHORIZE => holds_any roles REOPEN_AUTHORIZE_ROLES
         | IDENTITY_MANAGE => holds_any roles IDENTITY_MANAGE_ROLES
         | DEAD_LETTER_READ | DEAD_LETTER_REPLAY => holds_any roles PLATFORM_OPS_ROLES
         end
  end.

(** [AdministrativeAccessPolicy.require] *)
Definition require_access (db : AuthorityDb) (principal_id : string) (permission : AdministrativePermission)
    (c : option AdministrativeCase) (organization_scope : option string) (at_ : instant) : result unit :=
  let! allowed := allows db principal_id permission c organization_scope at_ in
  guard (negb allowed) AccessDenied
    ("principal " +:+ principal_id +:+ " lacks " +:+ AdministrativePermission_value permission).

(** [api._authorize] *)
Definition authorize (db : AuthorityDb) (actor : AuthenticatedPrincipal) (permission : AdministrativePermission)
    (c : option AdministrativeCase) (organization_scope : option string) (at_ : instant) : reply unit :=
  answer (fun k => bool_decide (k = AccessDenied)) 403
    (require_access db (p_principal_id (ap_principal actor)) permission c organization_scope at_).
End access.

(** ** Authentication proves an active principal *)

Lemma reply_bind_Reply {A B} (r : reply A) (k : A -> reply B) b :
  reply_bind r k = Reply b <-> exists a, r = Reply a /\ k a = Reply b.
Proof. destruct r; cbn; naive_solver. Qed.

Lemma answer_Reply {A} caught status (r : result A) a : answer caught status r = Reply a <-> r = Ok a.
Proof. destruct r as [x|[c m]]; cbn; [|destruct (caught c)]; naive_solver. Qed.

Lemma answer_with_Reply {A} caught status detail (r : result A) a :
  answer_with caught status detail r = Reply a <-> r = Ok a.
Proof. destruct r as [x|[c m]]; cbn; [|destruct (caught c)]; naive_solver. Qed.

(** Exactly one current binding of the external subject, to this principal. *)
Definition bound_to (db : AuthorityDb) (provider subject : string) (at_ : instant) (p : Principal) : Prop :=
  resolve_identity db provider subject at_ = Some p.

Lemma resolve_identity_active db provider subject at_ p :
  resolve_identity db provider subject at_ = Some p -> get_principal db (p_principal_id p) = Some p.
Proof.
  unfold resolve_identity. destruct (List.filter _ _) as [|b [|]]; try done.
  unfold get_principal. destruct (principals db !! ib_principal_id b) as [row|] eqn:Hrow; [|done].
  destruct (prow_active row) eqn:Ha; [|done]. intros [= <-]. cbn. by rewrite Hrow, Ha.
Qed.

Section auth_correct.
Context `{Platform} `{TokenLibrary}.

(** A token [decode_hs256_jwt] accepts: three segments, signed under the secret
    with HS256, for the issuer and audience, and within its time window. *)
Definition acceptable_token (token secret issuer audience : string) (now : Z) (claims : pydict) : Prop :=
  exists h c sig header issued_at expires_at,
    split_dot token = [h; c; sig] /\ decode_json_segment h = Ok header /\ decode_json_segment c = Ok claims /\
    py_eq (dict_get header "alg") (VStr "HS256") = true /\
    compare_hmac_sha256 secret (h +:+ "." +:+ c) sig = Ok true /\
    claims_subject claims = true /\
    isinstance_int (dict_get claims "iat") = Some issued_at /\ issued_at <= now + 60 /\
    isinstance_int (dict_get claims "exp") = Some expires_at /\ now < expires_at /\
    (forall n, isinstance_int (dict_get claims "nbf") = Some n -> n <= now + 60) /\
    py_eq (dict_get claims "iss") (VStr issuer) = true /\
    audience_listed audience (dict_get claims "aud") = Ok true.

Lemma check_claims_Ok claims issuer audience now claims' :
  check_claims claims issuer audience now = Ok claims' ->
  claims' = claims /\ claims_subject claims = true /\ exists issued_at expires_at,
    isinstance_int (dict_get claims "iat") = Some issued_at /\ issued_at <= now + 60 /\
    isinstance_int (dict_get claims "exp") = Some expires_at /\ now < expires_at /\
    (forall n, isinstance_int (dict_get claims "nbf") = Some n -> n <= now + 60) /\
    py_eq (dict_get claims "iss") (VStr issuer) = true /\
    audience_listed audience (dict_get claims "aud") = Ok true.
Proof.
  unfold check_claims. intros Hc. inv_ok.
  destruct (isinstance_int (dict_get claims "iat")) as [i|], (isinstance_int (dict_get claims "exp")) as [x|];
    try done. inv_ok.
  destruct (isinstance_int (dict_get claims "nbf")) as [n|]; propify; subst; split_and!; try done;
    exists i, x; split_and!; try done; try lia; intros ? [=]; subst; lia.
Qed.

Lemma decode_hs256_jwt_sound token secret issuer audience now claims :
  decode_hs256_jwt token secret issuer audience now = Ok claims ->
  acceptable_token token secret issuer audience now claims.
Proof.
  unfold decode_hs256_jwt. destruct (split_dot token) as [|h [|c [|sig [|]]]] eqn:Hsplit; try done. intros Hd. inv_ok.
  apply check_claims_Ok in Hd as (-> & Hs & i & x & ?). propify. subst.
  exists h, c, sig, v, i, x. naive_solver.
Qed.

(** What an authenticated request proves of its caller, by mode. *)
Definition proves_identity (settings : AuthSettings) (db : AuthorityDb) (request : Request) (at_ : instant)
    (actor : AuthenticatedPrincipal) : Prop :=
  let p := ap_principal actor in
  (ap_auth_mode actor = "development" /\ lower (strip (auth_mode settings)) = "development" /\
   strip (default "" (hdr_principal_id request)) = p_principal_id p) \/
  (ap_auth_mode actor = "jwt" /\ nonempty (jwt_secret settings) = true /\
   exists token claims, bearer_token request = Reply token /\
     acceptable_token token (jwt_secret settings) (jwt_issuer settings) (jwt_audience settings)
       (at_ / 1000000) claims /\
     exists sub, dict_get claims "sub" = VStr sub /\ bound_to db (jwt_issuer settings) (strip sub) at_ p) \/
  (ap_auth_mode actor = "oidc" /\
   exists token claims sub, bearer_token request = Reply token /\ oidc_verify token = Ok claims /\
     assoc "sub" claims = Some sub /\
     bound_to db (rstrip_slash (oidc_issuer settings)) (strip (py_str sub)) at_ p).

Lemma bound_principal_Reply db provider mode claims at_ actor :
  bound_principal db provider mode claims at_ = Reply actor ->
  ap_auth_mode actor = mode /\ exists sub, assoc "sub" claims = Some sub /\
    bound_to db provider (strip (py_str sub)) at_ (ap_principal actor).
Proof.
  unfold bound_principal. destruct (assoc "sub" claims) as [sub|]; [|done].
  destruct (resolve_identity _ _ _ _) as [p|] eqn:Hr; [|done]. intros [= <-]. cbn. eauto.
Qed.

End auth_correct.

(** ** Authorization is exact *)

(** The roles that carry a permission; [None] for any role at all. *)
Definition permitting_roles (permission : AdministrativePermission) : option (list string) :=
  match permission with
  | CASE_READ | FACTS_READ => Some CASE_READER_ROLES
  | FACTS_ATTEST | FACTS_REFRESH_AUTHORITATIVE | COMMITMENT_ATTEST => Some FACT_ATTEST_ROLES
  | DECISION_SUBMIT => None
  | CASE_REASSESS => Some REASSESS_ROLES
  | POLICY_READ => Some POLICY_READ_ROLES
  | POLICY_MANAGE => Some POLICY_MANAGE_ROLES
  | AUDIT_READ => Some AUDIT_READ_ROLES
  | OPERATIONS_READ => Some OPERATIONS_READ_ROLES
  | INTAKE_REVIEW => Some INTAKE_REVIEW_ROLES
  | INVESTIGATION_READ => Some INVESTIGATION_READ_ROLES
  | INVESTIGATION_REQUEST => Some INVESTIGATION_REQUEST_ROLES
  | INVESTIGATION_REVIEW => Some INVESTIGATION_REVIEW_ROLES
  | REOPEN_AUTHORIZE => Some REOPEN_AUTHORIZE_ROLES
  | IDENTITY_MANAGE => Some IDENTITY_MANAGE_ROLES
  | DEAD_LETTER_READ | DEAD_LETTER_REPLAY => Some PLATFORM_OPS_ROLES
  end.

(** The permissions the requester of a case has on it without any role. *)
Definition requester_may (permission : AdministrativePermission) : bool :=
  bool_decide (permission ∈ [CASE_READ; FACTS_READ; COMMITMENT_ATTEST]).

Definition holds_role (db : AuthorityDb) (p scope : string) (at_ : instant) (role : string) : Prop :=
  holds_directly db p scope at_ role \/ holds_by_delegation db p scope at_ role.

(** A principal may use a permission on a case or scope. *)
Definition permitted `{Platform} (db : AuthorityDb) (p : string) (permission : AdministrativePermission)
    (c : option AdministrativeCase) (organization_scope : option string) (at_ : instant) : Prop :=
  is_Some (get_principal db p) /\
  ((requester_may permission = true /\ requested_by c p = true) \/
   exists role, holds_role db p (access_scope c organization_scope) at_ role /\
     match permitting_roles permission with Some names => role ∈ names | None => True end).

Lemma holds_any_spec roles names : holds_any roles names = true <-> exists r, r ∈ roles /\ r ∈ names.
Proof.
  unfold holds_any. rewrite existsb_elem_of. split.
  - intros (r & ? & ?). propify. eauto.
  - intros (r & ? & ?). exists r. by rewrite bool_decide_true.
Qed.

(** [bool(roles.intersection(names))], or [bool(roles)] *)
Definition carries (roles : gset string) (names : option (list string)) : bool :=
  match names with Some names => holds_any roles names | None => bool_decide (roles <> ∅) end.

Lemma carries_spec roles names :
  carries roles names = true <->
  exists r, r ∈ roles /\ match names with Some names => r ∈ names | None => True end.
Proof.
  destruct names as [names|]; cbn; [apply holds_any_spec|]. rewrite bool_decide_eq_true. split.
  - intros (r & Hr)%set_choose_L. by exists r.
  - intros (r & Hr & _) ->. by apply not_elem_of_empty in Hr.
Qed.

(** Every branch of [allows] has the same shape. *)
Lemma allows_shape `{Platform} db p permission c scope at_ principal :
  get_principal db p = Some principal ->
  allows db p permission c scope at_ =
    let! roles := roles_for db p (access_scope c scope) at_ in
    Ok ((requester_may permission && requested_by c p) || carries roles (permitting_roles permission)).
Proof. intros Hp. unfold allows. rewrite Hp. by destruct permission. Qed.

Lemma allows_permitted `{Platform} db p permission c scope at_ b :
  allows db p permission c scope at_ = Ok b ->
  b = true <-> permitted db p permission c scope at_.
Proof.
  unfold permitted. destruct (get_principal db p) as [principal|] eqn:Hp.
  - rewrite (allows_shape _ _ _ _ _ _ _ Hp). intros Ha. inv_ok. subst b.
    pose proof (roles_for_spec _ _ _ _ _ E) as Hspec. unfold holds_role. setoid_rewrite <- Hspec.
    rewrite orb_true_iff, andb_true_iff, carries_spec. split; [by split|]. by intros [_ ?].
  - unfold allows. rewrite Hp. intros [= <-]. split; [done|]. by intros [[? ?] _].
Qed.

(** Authorization is exact: with readable delegations every request gets an
    answer, and it is granted if and only if the principal is active and either
    is the case's requester, for the permissions a requester has, or currently
    holds, directly or by delegation and in the scope of the case, a role that
    carries the permission. *)
Theorem authorization_is_exact `{Platform} db actor permission c scope at_ :
  let p := p_principal_id (ap_principal actor) in
  delegations_readable db p ->
  (authorize db actor permission c scope at_ = Reply tt /\ permitted db p permission c scope at_) \/
  (authorize db actor permission c scope at_
     = HTTPError 403 ("principal " +:+ p +:+ " lacks " +:+ AdministrativePermission_value permission) /\
   ~ permitted db p permission c scope at_).
Proof.
  intros p Hread. unfold authorize, require_access. fold p.
  destruct (allows db p permission c scope at_) as [b|e] eqn:Ha.
  - apply allows_permitted in Ha. destruct b; cbn; [left|right]; (split; [done|]); [by apply Ha|].
    intros Hp%Ha. done.
  - exfalso. destruct (get_principal db p) as [principal|] eqn:Hp.
    + rewrite (allows_shape _ _ _ _ _ _ _ Hp) in Ha.
      destruct (roles_for_total db p (access_scope c scope) at_ Hread) as (roles & Hr & _).
      rewrite Hr in Ha. done.
    + unfold allows in Ha. by rewrite Hp in Ha.
Qed.

Lemma authorize_permitted `{Platform} db actor permission c scope at_ u :
  authorize db actor permission c scope at_ = Reply u ->
  permitted db (p_principal_id (ap_principal actor)) permission c scope at_.
Proof.
  unfold authorize, require_access. rewrite answer_Reply. intros Ha. inv_ok.
  apply allows_permitted in E. propify. by apply E.
Qed.
