(* ===== verification/Lifecycle.v ===== *)
(** * The case lifecycle, [service.py], [execution_transitions.py] and
      [fact_transitions.py]

    Each transition of the case state machine is a function into [result]: its
    guards are the [TransitionError]s of the source in source order, and the
    clock reading it stamps into [updated_at] is the argument [now].  The step
    relation over all of them carries the theorems: the case validator is an
    invariant although [model_copy] never runs it, the authority epoch fences
    every change of facts, evidence or policy, and closure needs an approval. *)

From stdpp Require Import base gmap strings list relations.
From Stdlib Require Import ZArith Lia Ascii.
From Stdlib Require String.
From S2P Require Import Prelude Python Domain Policy Authority.

Open Scope Z_scope.
Open Scope orch_scope.

(** ** Creation and facts *)

Definition create_case (request : AdministrativeRequest) (case_kind subject_ref : string)
    (fact_snapshot : option FactSnapshot) (case_id : uuid) (now : instant) : result AdministrativeCase :=
  validate_case (mkAdministrativeCase case_id case_kind (rq_requester_principal_id request) subject_ref
    RECEIVED 1 1 fact_snapshot None [] None now now).

Definition terminal (s : CaseStatus) : bool := bool_decide (s ∈ [COMPLETED; CANCELLED]).

Definition replace_fact_snapshot (c : AdministrativeCase) (s : FactSnapshot) (now : instant)
  : result AdministrativeCase :=
  refuse terminal (c_status c) with TransitionError
    saying "terminal case cannot replace current facts";;
  Ok (model_copy c (mkCaseUpdate None None None (Some s) None (Some (c_authority_epoch c + 1))) now).

Definition add_evidence (c : AdministrativeCase) (e : EvidenceRef) (now : instant)
  : result AdministrativeCase :=
  refuse terminal (c_status c) with TransitionError
    saying "terminal case cannot accept new ordinary evidence";;
  Ok (model_copy c (mkCaseUpdate None None None None (Some (c_evidence c ++ [e]))
                      (Some (c_authority_epoch c + 1))) now).

(** [fact_transitions.replace_facts_for_reevaluation] *)
Definition replace_facts_for_reevaluation (c : AdministrativeCase) (s : FactSnapshot) (now : instant)
  : result AdministrativeCase :=
  refuse terminal (c_status c) with TransitionError
    saying "terminal case cannot replace current facts";;
  Ok (model_copy c (mkCaseUpdate (Some GATHERING_FACTS) (Some None) (Some None) (Some s) None
                      (Some (c_authority_epoch c + 1))) now).

(** A transition that only moves the status. *)
Definition move (c : AdministrativeCase) (s : CaseStatus) (now : instant) : AdministrativeCase :=
  model_copy c (mkCaseUpdate (Some s) None None None None None) now.

(** ** Policy and decisions *)

Definition start_policy_evaluation (c : AdministrativeCase) (now : instant) : result AdministrativeCase :=
  refuse bool_decide (c_status c ∉ [RECEIVED; GATHERING_FACTS; READY_FOR_POLICY])
    with TransitionError
    saying ("cannot evaluate policy from status " +:+ CaseStatus_value (c_status c));;
  Ok (move c READY_FOR_POLICY now).

Definition apply_policy_evaluation (c : AdministrativeCase) (e : PolicyEvaluation) (now : instant)
  : result AdministrativeCase :=
  refuse bool_decide (c_status c <> READY_FOR_POLICY) with TransitionError
    saying "policy evaluation requires ready_for_policy state";;
  let common status reason :=
    model_copy c (mkCaseUpdate (Some status) reason (Some (Some (pe_policy_ref e))) None None
                    (Some (c_authority_epoch c + 1))) now in
  match pe_disposition e with
  | NEED_MORE_FACTS => Ok (common GATHERING_FACTS None)
  | HUMAN_DECISION_REQUIRED => Ok (common AWAITING_DECISION None)
  | AUTO_CLOSABLE => Ok (common COMPLETED None)
  | DENIED => Ok (common CANCELLED None)
  | POLICY_REOPEN_REQUIRED => Ok (common REOPEN_REQUIRED (Some (pe_reopen_reason e)))
  end.

Definition record_decision (c : AdministrativeCase) (d : Decision) (approval_complete : bool)
    (now : instant) : result AdministrativeCase :=
  refuse bool_decide (c_status c <> AWAITING_DECISION) with TransitionError
    saying "decision requires awaiting_decision state";;
  refuse bool_decide (d_case_id d <> c_case_id c) with TransitionError
    saying "decision belongs to a different case";;
  refuse bool_decide (d_authority_epoch d <> c_authority_epoch c) with TransitionError
    saying "decision is not bound to the current authority epoch";;
  refuse bool_decide (d_case_version d <> c_version c) with TransitionError
    saying "decision is not bound to the current case version";;
  refuse bool_decide (c_policy_ref c <> Some (d_policy_ref d)) with TransitionError
    saying "decision is not bound to the current policy version";;
  let status := match d_disposition d with
    | APPROVE => if approval_complete then AUTHORIZED else AWAITING_DECISION
    | REJECT => CANCELLED
    | REQUEST_CHANGES => GATHERING_FACTS
    | ESCALATE => REOPEN_REQUIRED
    end in
  if bool_decide (status = REOPEN_REQUIRED)
  then Ok (model_copy c (mkCaseUpdate (Some status) (Some (Some AUTHORITY_UNRESOLVED)) None None None
                           (Some (c_authority_epoch c + 1))) now)
  else Ok (move c status now).

(** ** Execution authorization *)

Definition mint_execution_authorization (c : AdministrativeCase) (d : Decision)
    (issuer_principal_id target_system : string) (allowed_operations : list string)
    (authority_class : AuthorityClass) (expires_at : option instant)
    (authorization_id : uuid) (now : instant) : result ExecutionAuthorization :=
  refuse bool_decide (c_status c <> AUTHORIZED) with TransitionError
    saying "execution authorization requires an authorized case";;
  refuse bool_decide (d_disposition d <> APPROVE) with TransitionError
    saying "only an approving decision may support execution authorization";;
  refuse bool_decide (d_case_id d <> c_case_id c) with TransitionError
    saying "decision belongs to a different case";;
  refuse bool_decide (d_authority_epoch d <> c_authority_epoch c) with TransitionError
    saying "decision is stale for the current authority epoch";;
  refuse (c_version c <=? d_case_version d) with TransitionError
    saying "decision must precede the current case state";;
  match c_policy_ref c with
  | None => raise TransitionError "decision policy is not current"
  | Some policy =>
      refuse bool_decide (d_policy_ref d <> policy) with TransitionError
        saying "decision policy is not current";;
      ExecutionAuthorization_validate
        (mkExecutionAuthorization authorization_id (c_case_id c) (c_version c) (c_authority_epoch c)
           (Some (d_decision_id d)) None issuer_principal_id target_system (c_subject_ref c)
           allowed_operations authority_class policy now expires_at None)
  end.

Definition mint_execution_authorization_from_approval (c : AdministrativeCase) (s : ApprovalSatisfaction)
    (issuer_principal_id target_system : string) (allowed_operations : list string)
    (authority_class : AuthorityClass) (expires_at : option instant)
    (authorization_id : uuid) (now : instant) : result ExecutionAuthorization :=
  refuse bool_decide (c_status c <> AUTHORIZED) with TransitionError
    saying "execution authorization requires an authorized case";;
  refuse bool_decide (as_case_id s <> c_case_id c) with TransitionError
    saying "approval satisfaction belongs to a different case";;
  refuse bool_decide (as_authority_epoch s <> c_authority_epoch c) with TransitionError
    saying "approval satisfaction is stale for the current authority epoch";;
  match c_policy_ref c with
  | None => raise TransitionError "approval satisfaction policy is not current"
  | Some policy =>
      refuse bool_decide (as_policy_ref s <> policy) with TransitionError
        saying "approval satisfaction policy is not current";;
      refuse is_nil (as_decision_ids s) || is_nil (as_satisfied_roles s) with TransitionError
        saying "approval satisfaction has no supporting decisions";;
      ExecutionAuthorization_validate
        (mkExecutionAuthorization authorization_id (c_case_id c) (c_version c) (c_authority_epoch c)
           None (Some (as_satisfaction_id s)) issuer_principal_id target_system (c_subject_ref c)
           allowed_operations authority_class policy now expires_at None)
  end.

Definition validate_execution_authorization (c : AdministrativeCase) (a : ExecutionAuthorization)
    (operation : string) (now : instant) : result unit :=
  refuse bool_decide (ea_case_id a <> c_case_id c) with TransitionError
    saying "authorization belongs to a different case";;
  refuse bool_decide (ea_authority_epoch a <> c_authority_epoch c) with TransitionError
    saying "authorization is stale for the current authority epoch";;
  refuse bool_decide (c_status c ∉ [AUTHORIZED; EXECUTING]) with TransitionError
    saying "authorization may be used only while authorized or executing";;
  refuse bool_decide (ea_subject_ref a <> c_subject_ref c) with TransitionError
    saying "authorization subject does not match current case subject";;
  refuse negb (ExecutionAuthorization_is_current_at a now) with TransitionError
    saying "authorization is expired or revoked";;
  refuse bool_decide (operation ∉ ea_allowed_operations a) with TransitionError
    saying "operation is outside the authorization scope";;
  Ok tt.

Definition plan_effect (c : AdministrativeCase) (a : ExecutionAuthorization) (operation : string)
    (reversibility : EffectReversibility) (effect_id : uuid) (now : instant) : result EffectRecord :=
  refuse bool_decide (c_status c <> AUTHORIZED) with TransitionError
    saying "effect planning requires an authorized case";;
  let! _ := validate_execution_authorization c a operation now in
  Ok (mkEffectRecord effect_id (c_case_id c) (c_version c) (c_authority_epoch c)
        (ea_authorization_id a) None None (ea_target_system a) operation (c_subject_ref c)
        reversibility (ea_authority_class a) PLANNED None now now).

(** ** Execution *)

Definition begin_execution (c : AdministrativeCase) (now : instant) : result AdministrativeCase :=
  refuse bool_decide (c_status c <> AUTHORIZED) with TransitionError
    saying "execution may begin only from authorized state";;
  Ok (move c EXECUTING now).

Definition begin_verification (c : AdministrativeCase) (now : instant) : result AdministrativeCase :=
  refuse bool_decide (c_status c <> EXECUTING) with TransitionError
    saying "verification may begin only from executing state";;
  Ok (move c VERIFYING now).

Definition begin_reconciliation (c : AdministrativeCase) (now : instant) : result AdministrativeCase :=
  refuse bool_decide (c_status c ∉ [EXECUTING; VERIFYING]) with TransitionError
    saying "reconciliation requires executing or verifying state";;
  Ok (move c RECONCILING now).

Definition resume_verification (c : AdministrativeCase) (now : instant) : result AdministrativeCase :=
  refuse bool_decide (c_status c <> RECONCILING) with TransitionError
    saying "verification resume requires reconciling state";;
  Ok (move c VERIFYING now).

Definition complete_verified_case (c : AdministrativeCase)
    (expected_effect_count verified_outcome_count : Z) (now : instant) : result AdministrativeCase :=
  refuse bool_decide (c_status c <> VERIFYING) with TransitionError
    saying "completion requires verifying state";;
  refuse (expected_effect_count <? 1) with TransitionError
    saying "completion requires at least one planned effect";;
  refuse negb (verified_outcome_count =? expected_effect_count) with TransitionError
    saying "completion requires a verified outcome for every planned effect";;
  Ok (move c COMPLETED now).

Definition fail_execution (c : AdministrativeCase) (now : instant) : result AdministrativeCase :=
  refuse bool_decide (c_status c ∉ [AUTHORIZED; EXECUTING; VERIFYING; RECONCILING]) with TransitionError
    saying "execution failure requires an active execution state";;
  Ok (move c FAILED now).

(** ** Reopen *)

Definition require_reopen (c : AdministrativeCase) (reason : ReopenReason) (now : instant)
  : result AdministrativeCase :=
  refuse terminal (c_status c) with TransitionError
    saying "terminal case cannot be reopened by ordinary transition";;
  Ok (model_copy c (mkCaseUpdate (Some REOPEN_REQUIRED) (Some (Some reason)) None None None
                      (Some (c_authority_epoch c + 1))) now).

Definition explicit_reopen (c : AdministrativeCase) (now : instant) : result AdministrativeCase :=
  refuse bool_decide (c_status c <> REOPEN_REQUIRED) with TransitionError
    saying "explicit reopen requires reopen_required state";;
  Ok (model_copy c (mkCaseUpdate (Some GATHERING_FACTS) (Some None) None None None None) now).

(** ** Waiting for an effective time *)

(** [text[:-1] + "+00:00"] when [text] ends in [Z]. *)
Definition expand_zulu (text : string) : string :=
  match rev (String.list_ascii_of_string text) with
  | "Z"%char :: r => String.string_of_list_ascii (rev r) +:+ "+00:00"
  | _ => text
  end.

Section waiting.
Context `{Platform}.

Definition parse_effective_at (value : pyval) : option instant :=
  match value with
  | VStr s =>
      let text := strip s in
      if nonempty text then normalize_datetime <$> fromisoformat (expand_zulu text) else None
  | _ => None
  end.

Definition authoritative_effective_time (c : AdministrativeCase) : option instant :=
  match c_fact_snapshot c with
  | None => None
  | Some snapshot =>
      match assoc "termination_effective_at" (fs_assertions snapshot) with
      | None => None
      | Some assertion =>
          if bool_decide (fa_authority assertion = AUTHORITATIVE)
          then parse_effective_at (fa_value assertion) else None
      end
  end.

(** [current] is the caller's [now] or the clock; [now] stamps [updated_at]. *)
Definition begin_waiting_for_effective_time (c : AdministrativeCase) (current now : instant)
  : result AdministrativeCase :=
  refuse bool_decide (c_case_kind c <> "employee-offboarding") with TransitionError
    saying "only employee-offboarding cases wait for an effective time";;
  refuse bool_decide (c_status c <> AUTHORIZED) with TransitionError
    saying ("cannot wait for an effective time from status " +:+ CaseStatus_value (c_status c));;
  match authoritative_effective_time c with
  | None => raise TransitionError
      "effective-time waiting requires an authoritative termination_effective_at"
  | Some effective_at =>
      refuse effective_at <=? current with TransitionError
        saying "effective time has already passed; revalidate instead of waiting";;
      Ok (move c WAITING now)
  end.

Definition resume_from_waiting (c : AdministrativeCase) (current now : instant)
  : result AdministrativeCase :=
  refuse bool_decide (c_status c <> WAITING) with TransitionError
    saying ("cannot resume from status " +:+ CaseStatus_value (c_status c));;
  match authoritative_effective_time c with
  | None => raise TransitionError "waiting case lost its authoritative termination time"
  | Some effective_at =>
      refuse current <? effective_at with TransitionError
        saying "effective time has not been reached";;
      Ok (move c AUTHORIZED now)
  end.

(** ** The state machine *)

Inductive case_op :=
  | OpReplaceFactSnapshot (s : FactSnapshot)
  | OpAddEvidence (e : EvidenceRef)
  | OpReplaceFactsForReevaluation (s : FactSnapshot)
  | OpStartPolicyEvaluation
  | OpApplyPolicyEvaluation (e : PolicyEvaluation)
  | OpRecordDecision (d : Decision) (approval_complete : bool)
  | OpBeginExecution
  | OpBeginVerification
  | OpBeginReconciliation
  | OpResumeVerification
  | OpComplete (expected verified : Z)
  | OpFail
  | OpRequireReopen (r : ReopenReason)
  | OpExplicitReopen
  | OpBeginWaiting (current : instant)
  | OpResumeFromWaiting (current : instant).

Definition apply_op (op : case_op) (c : AdministrativeCase) (now : instant) : result AdministrativeCase :=
  match op with
  | OpReplaceFactSnapshot s => replace_fact_snapshot c s now
  | OpAddEvidence e => add_evidence c e now
  | OpReplaceFactsForReevaluation s => replace_facts_for_reevaluation c s now
  | OpStartPolicyEvaluation => start_policy_evaluation c now
  | OpApplyPolicyEvaluation e => apply_policy_evaluation c e now
  | OpRecordDecision d complete => record_decision c d complete now
  | OpBeginExecution => begin_execution c now
  | OpBeginVerification => begin_verification c now
  | OpBeginReconciliation => begin_reconciliation c now
  | OpResumeVerification => resume_verification c now
  | OpComplete n m => complete_verified_case c n m now
  | OpFail => fail_execution c now
  | OpRequireReopen r => require_reopen c r now
  | OpExplicitReopen => explicit_reopen c now
  | OpBeginWaiting t => begin_waiting_for_effective_time c t now
  | OpResumeFromWaiting t => resume_from_waiting c t now
  end.

(** Policy evaluations reach the state machine through their validator. *)
Definition op_valid (op : case_op) : Prop :=
  match op with OpApplyPolicyEvaluation e => evaluation_valid e | _ => True end.

(** A run of the state machine: the operations applied, latest first. *)
Inductive run (c0 : AdministrativeCase) : list case_op -> AdministrativeCase -> Prop :=
  | run_nil : run c0 [] c0
  | run_step ops c op now c' :
      run c0 ops c -> op_valid op -> apply_op op c now = Ok c' -> run c0 (op :: ops) c'.
End waiting.

(** ** Invariants of the state machine *)

Section invariants.
Context `{Platform}.

(** Case analysis on a successful transition. *)
Ltac transition_cases H :=
  match type of H with
  | apply_op ?op _ _ = Ok _ => destruct op; cbn [apply_op] in H
  end;
  unfold replace_fact_snapshot, add_evidence, replace_facts_for_reevaluation,
    start_policy_evaluation, apply_policy_evaluation, record_decision, begin_execution,
    begin_verification, begin_reconciliation, resume_verification, complete_verified_case,
    fail_execution, require_reopen, explicit_reopen, begin_waiting_for_effective_time,
    resume_from_waiting, terminal in H;
  inv_ok;
  repeat match goal with
    | H : match ?x with _ => _ end = Ok _ |- _ => destruct x eqn:?; inv_ok
    | H : (if ?b then _ else _) = Ok _ |- _ => destruct b eqn:?; inv_ok
    end; propify; subst; cbn in *.

(** The frame of every transition: identity is kept, the version advances by
    exactly one, the authority epoch by at most one, and it advances whenever
    the facts, the evidence or the policy change. *)
Lemma apply_op_frame op c now c' :
  apply_op op c now = Ok c' ->
  c_case_id c' = c_case_id c /\ c_case_kind c' = c_case_kind c /\
  c_requester_principal_id c' = c_requester_principal_id c /\ c_subject_ref c' = c_subject_ref c /\
  c_version c' = c_version c + 1 /\
  (c_authority_epoch c' = c_authority_epoch c + 1 \/
   c_authority_epoch c' = c_authority_epoch c /\ c_fact_snapshot c' = c_fact_snapshot c /\
   c_policy_ref c' = c_policy_ref c /\ c_evidence c' = c_evidence c).
Proof. intros Hop. transition_cases Hop; auto 10. Qed.

Lemma apply_op_valid op c now c' :
  case_valid c -> op_valid op -> apply_op op c now = Ok c' -> case_valid c'.
Proof.
  intros (Hv & He & Hr) Hop Hrun. unfold case_valid.
  transition_cases Hrun; (split; [lia|]); (split; [lia|]);
    try (unfold evaluation_valid in Hop);
    try match goal with E : ?s ∈ _ |- _ => rewrite !elem_of_cons, elem_of_nil in E end;
    destruct_or?;
    repeat match goal with E : c_status _ = _ |- _ => rewrite E in * end;
    try done; naive_solver.
Qed.

Lemma apply_op_not_terminal op c now c' :
  apply_op op c now = Ok c' -> c_status c <> COMPLETED /\ c_status c <> CANCELLED.
Proof.
  intros Hrun.
  transition_cases Hrun; try (split; congruence);
    match goal with E : context [_ ∈ _] |- _ => rewrite !elem_of_cons, elem_of_nil in E end;
    (naive_solver || (destruct_or?; split; congruence)).
Qed.

(** The statuses in which an approved case is being carried out. *)
Definition in_execution (s : CaseStatus) : bool :=
  bool_decide (s ∈ [AUTHORIZED; EXECUTING; VERIFYING; RECONCILING; WAITING]).

(** A case enters execution only by a completing approval, and otherwise stays
    in it only if it was in it. *)
Lemma apply_op_in_execution op c now c' :
  apply_op op c now = Ok c' -> in_execution (c_status c') = true ->
  in_execution (c_status c) = true \/
  exists d, op = OpRecordDecision d true /\ d_disposition d = APPROVE /\
    d_case_id d = c_case_id c /\ d_authority_epoch d = c_authority_epoch c /\
    c_policy_ref c = Some (d_policy_ref d).
Proof.
  intros Hrun. transition_cases Hrun; intros Hex; try done; try (left; congruence);
    try (left; repeat match goal with E : c_status _ = _ |- _ => rewrite E end; done);
    try (left; match goal with E : ?s ∈ _ |- _ => rewrite !elem_of_cons, elem_of_nil in E end;
         destruct_or?; try done; match goal with E : c_status _ = _ |- _ => by rewrite E end).
  all: destruct (d_disposition d) eqn:Hd, approval_complete; try done; right; exists d; auto.
Qed.

Lemma apply_op_completed op c now c' :
  apply_op op c now = Ok c' -> c_status c' = COMPLETED ->
  (exists n, op = OpComplete n n /\ 1 <= n /\ c_status c = VERIFYING) \/
  (exists e, op = OpApplyPolicyEvaluation e /\ pe_disposition e = AUTO_CLOSABLE).
Proof.
  intros Hrun. pose proof (apply_op_not_terminal _ _ _ _ Hrun) as [Hnc _].
  transition_cases Hrun; intros Hst; try done; try congruence.
  all: try (by right; eauto).
  all: try (by destruct (d_disposition _), approval_complete).
  left. assert (verified = expected) as -> by lia. eauto.
Qed.

Lemma run_frame c0 ops c :
  run c0 ops c ->
  c_case_id c = c_case_id c0 /\ c_case_kind c = c_case_kind c0 /\
  c_subject_ref c = c_subject_ref c0 /\ c_version c = c_version c0 + Z.of_nat (length ops) /\
  c_authority_epoch c0 <= c_authority_epoch c <= c_authority_epoch c0 + Z.of_nat (length ops) /\
  (c_authority_epoch c = c_authority_epoch c0 ->
     c_fact_snapshot c = c_fact_snapshot c0 /\ c_policy_ref c = c_policy_ref c0 /\
     c_evidence c = c_evidence c0).
Proof.
  induction 1 as [|ops c op now c' _ IH _ Hop].
  - cbn. split_and!; try done; lia.
  - destruct IH as (? & ? & ? & ? & ? & IHe).
    apply apply_op_frame in Hop as (? & ? & ? & ? & ? & He).
    cbn [length]. split_and!; try congruence; try lia.
    intros Hsame. destruct He as [?|(? & -> & -> & ->)]; [lia|]. apply IHe. lia.
Qed.

Lemma run_valid c0 ops c : case_valid c0 -> run c0 ops c -> case_valid c.
Proof. intros Hv. induction 1; [done|]. by eapply apply_op_valid. Qed.

Lemma run_in_execution c0 ops c :
  in_execution (c_status c0) = false -> run c0 ops c -> in_execution (c_status c) = true ->
  exists d, OpRecordDecision d true ∈ ops /\ d_disposition d = APPROVE /\
    d_case_id d = c_case_id c /\ c_authority_epoch c0 <= d_authority_epoch d <= c_authority_epoch c.
Proof.
  intros H0 Hrun. induction Hrun as [|ops c op now c' Hrun IH _ Hop]; [congruence|].
  intros Hex. pose proof (run_frame _ _ _ Hrun) as (_ & _ & _ & _ & Hep & _).
  destruct (apply_op_frame _ _ _ _ Hop) as (Hid & _ & _ & _ & _ & He).
  destruct (apply_op_in_execution _ _ _ _ Hop Hex) as [Hbefore|(d & -> & Hd & Hc & Hde & _)].
  - destruct (IH Hbefore) as (d & Hin & ? & ? & ?). exists d.
    split; [by right|]. split_and!; try congruence; lia.
  - exists d. split; [left|]. split_and!; try congruence; lia.
Qed.

Lemma create_case_Ok request kind subject fs cid now :
  create_case request kind subject fs cid now =
    Ok (mkAdministrativeCase cid kind (rq_requester_principal_id request) subject
          RECEIVED 1 1 fs None [] None now now).
Proof. reflexivity. Qed.

(** Well-formedness is an invariant of the whole state machine: every case
    reached from creation by any sequence of transitions passes the model's
    validator (a reopen reason exactly while reopen is required, positive
    version and epoch), its version counts the transitions and its authority
    epoch never decreases. *)
Theorem reachable_case_valid request kind subject fs cid now c0 ops c :
  create_case request kind subject fs cid now = Ok c0 -> run c0 ops c ->
  validate_case c = Ok c /\ c_case_id c = cid /\ c_subject_ref c = subject /\
  c_version c = 1 + Z.of_nat (length ops) /\ 1 <= c_authority_epoch c <= c_version c.
Proof.
  rewrite create_case_Ok. intros [= <-] Hrun.
  pose proof (run_frame _ _ _ Hrun) as (? & ? & ? & Hver & Hep & _). cbn in *.
  split_and!; try done; try lia. apply validate_case_spec.
  eapply run_valid; [|exact Hrun]. unfold case_valid; cbn. split_and!; [lia..|]. naive_solver.
Qed.

(** The authority epoch fences authorizations: an authorization minted from
    a decision or from an approval on case state [c0] can be used on a later
    state only if, between the two, the fact snapshot, the policy reference and
    the evidence are all unchanged; and then only for an allowed operation on
    the same case and subject, in the authorized or executing state. *)
Theorem authorization_fenced_by_epoch c0 a ops c operation now :
  (exists d iss tgt allowed cls exp aid t,
     mint_execution_authorization c0 d iss tgt allowed cls exp aid t = Ok a) \/
  (exists s iss tgt allowed cls exp aid t,
     mint_execution_authorization_from_approval c0 s iss tgt allowed cls exp aid t = Ok a) ->
  run c0 ops c ->
  validate_execution_authorization c a operation now = Ok tt ->
  c_authority_epoch c = c_authority_epoch c0 /\
  c_fact_snapshot c = c_fact_snapshot c0 /\ c_policy_ref c = c_policy_ref c0 /\
  c_evidence c = c_evidence c0 /\ operation ∈ ea_allowed_operations a /\
  c_status c ∈ [AUTHORIZED; EXECUTING] /\ c_policy_ref c = Some (ea_policy_ref a).
Proof.
  intros Hmint Hrun Hval.
  assert (ea_authority_epoch a = c_authority_epoch c0 /\ c_policy_ref c0 = Some (ea_policy_ref a))
    as [Hea Hpol].
  { destruct Hmint as [(d & iss & tgt & allowed & cls & exp & aid & t & Hm)
                      |(s & iss & tgt & allowed & cls & exp & aid & t & Hm)].
    - unfold mint_execution_authorization, ExecutionAuthorization_validate in Hm. inv_ok.
      destruct (c_policy_ref c0); inv_ok. by subst a.
    - unfold mint_execution_authorization_from_approval, ExecutionAuthorization_validate in Hm. inv_ok.
      destruct (c_policy_ref c0); inv_ok. by subst a. }
  unfold validate_execution_authorization in Hval. inv_ok. propify.
  pose proof (run_frame _ _ _ Hrun) as (_ & _ & _ & _ & _ & Hsame).
  destruct Hsame as (? & ? & ?); [congruence|]. split_and!; congruence || done.
Qed.

(** No case is carried out without an approval: a case reached from creation
    that is authorized, executing, verifying, reconciling or waiting has on its
    path a completing approval decision for this case, taken at an authority
    epoch no later than the current one. *)
Theorem execution_requires_approval request kind subject fs cid now c0 ops c :
  create_case request kind subject fs cid now = Ok c0 -> run c0 ops c ->
  in_execution (c_status c) = true ->
  exists d, OpRecordDecision d true ∈ ops /\ d_disposition d = APPROVE /\
    d_case_id d = cid /\ 1 <= d_authority_epoch d <= c_authority_epoch c.
Proof.
  rewrite create_case_Ok. intros [= <-] Hrun Hex.
  destruct (fun H0 => run_in_execution _ _ _ H0 Hrun Hex) as (d & ? & ? & Hc & ?); [done|].
  exists d. apply run_frame in Hrun as [Hid _]. cbn in *. split_and!; congruence || lia || done.
Qed.

(** Completion is earned: a completed case was completed either by its
    policy declaring it auto-closable, or from the verifying state with at least
    one planned effect and as many verified outcomes as effects, an approval
    being on its path; and no transition leaves a completed or cancelled case. *)
Theorem completion_is_earned request kind subject fs cid now c0 ops c :
  create_case request kind subject fs cid now = Ok c0 -> run c0 ops c -> c_status c = COMPLETED ->
  ((exists e, head ops = Some (OpApplyPolicyEvaluation e) /\ pe_disposition e = AUTO_CLOSABLE /\
      pe_allowed_effects e = []) \/
   (exists n d, head ops = Some (OpComplete n n) /\ 1 <= n /\
      OpRecordDecision d true ∈ ops /\ d_disposition d = APPROVE /\ d_case_id d = cid)) /\
  forall op t, exists e, apply_op op c t = Err e.
Proof.
  rewrite create_case_Ok. intros [= <-] Hrun Hst. split.
  - inversion Hrun as [Heq|ops' c1 op t c' Hrun1 Hvalid Hop Ho Hc]; subst; [done|].
    destruct (apply_op_completed _ _ _ _ Hop Hst) as [(n & -> & Hn & Hver)|(e & -> & Hauto)].
    + right. destruct (fun H0 => run_in_execution _ _ _ H0 Hrun1) as (d & Hin & Hd & Hc & _);
        [done|by rewrite Hver|].
      apply run_frame in Hrun1 as [Hid _]. exists n, d. cbn in *.
      split_and!; try done; [by right|congruence].
    + left. exists e. cbn in Hvalid. unfold evaluation_valid in Hvalid. naive_solver.
  - intros op t. destruct (apply_op op c t) as [c'|e] eqn:E; [|eauto].
    apply apply_op_not_terminal in E as [? _]. done.
Qed.

(** Effect planning is exact: it succeeds precisely on an authorized case
    with a current, matching authorization that allows the operation, and the
    planned effect takes its target system and authority class from the
    authorization and its subject, version and epoch from the case. *)
Theorem plan_effect_exact c a operation rev eid now e :
  plan_effect c a operation rev eid now = Ok e <->
  c_status c = AUTHORIZED /\ ea_case_id a = c_case_id c /\
  ea_authority_epoch a = c_authority_epoch c /\ ea_subject_ref a = c_subject_ref c /\
  ExecutionAuthorization_is_current_at a now = true /\ operation ∈ ea_allowed_operations a /\
  e = mkEffectRecord eid (c_case_id c) (c_version c) (c_authority_epoch c) (ea_authorization_id a)
        None None (ea_target_system a) operation (c_subject_ref c) rev (ea_authority_class a)
        PLANNED None now now.
Proof.
  unfold plan_effect, validate_execution_authorization. split.
  - intros Hp. inv_ok. propify. naive_solver.
  - intros (Hs & Hc & He & Hsub & Hcur & Hin & ->).
    rewrite Hs, Hc, He, Hsub, Hcur. rewrite !bool_decide_false; [done|..]; auto.
    intros Hn. apply Hn. left.
Qed.

(** Waiting for an effective time loses nothing: a case that began waiting
    resumes exactly at or after its authoritative effective time, strictly later
    than it began to wait, in the authorized state with the authority epoch,
    facts, policy and evidence it had, two versions on. *)
Theorem waiting_round_trip c t1 n1 w t2 n2 :
  begin_waiting_for_effective_time c t1 n1 = Ok w ->
  exists effective_at, authoritative_effective_time c = Some effective_at /\ t1 < effective_at /\
    (t2 < effective_at -> exists e, resume_from_waiting w t2 n2 = Err e) /\
    (effective_at <= t2 -> exists c', resume_from_waiting w t2 n2 = Ok c' /\
       c_status c' = c_status c /\ c_authority_epoch c' = c_authority_epoch c /\
       c_fact_snapshot c' = c_fact_snapshot c /\ c_policy_ref c' = c_policy_ref c /\
       c_evidence c' = c_evidence c /\ c_version c' = c_version c + 2).
Proof.
  unfold begin_waiting_for_effective_time. intros Hw. inv_ok. propify.
  destruct (authoritative_effective_time c) as [eff|] eqn:Heff; inv_ok. propify. subst w.
  exists eff. split; [done|]. split; [lia|]. unfold resume_from_waiting.
  change (authoritative_effective_time (move c WAITING n1)) with (authoritative_effective_time c).
  rewrite Heff. cbn [move model_copy c_status default]. rewrite bool_decide_false by auto. cbn.
  split; intros Ht.
  - rewrite (proj2 (Z.ltb_lt _ _) Ht). eexists. reflexivity.
  - rewrite (proj2 (Z.ltb_ge _ _) Ht). eexists. split; [reflexivity|]. cbn.
    split_and!; try done; lia.
Qed.
End invariants.
