(* ===== verification/Obligations.v ===== *)
(** * Business obligations, [obligations.py]

    The obligation records of a case, the four tables they are kept in and the
    [ObligationRepository] operations.  A row keeps enumeration members by
    their [.value], as the columns do, so loading a row may raise [ValueError];
    the theorems show that no sequence of repository operations produces a row
    that fails to load. *)

From stdpp Require Import base gmap strings list sorting.
From Stdlib Require Import ZArith Lia.
From S2P Require Import Prelude Python CPython Store Domain.

Open Scope Z_scope.
Open Scope orch_scope.

Inductive ObligationFulfillmentKind := EXTERNAL_EFFECT_VERIFIED | DOMAIN_STATE_VERIFIED.

#[global] Instance ObligationFulfillmentKind_eq_dec : EqDecision ObligationFulfillmentKind.
Proof. solve_decision. Defined.

Definition ObligationFulfillmentKind_value (k : ObligationFulfillmentKind) : string :=
  match k with
  | EXTERNAL_EFFECT_VERIFIED => "external_effect_verified"
  | DOMAIN_STATE_VERIFIED => "domain_state_verified"
  end.

(** [ObligationFulfillmentKind(value)] *)
Definition ObligationFulfillmentKind_of (s : string) : result ObligationFulfillmentKind :=
  if bool_decide (s = "external_effect_verified") then Ok EXTERNAL_EFFECT_VERIFIED else
  if bool_decide (s = "domain_state_verified") then Ok DOMAIN_STATE_VERIFIED else
  raise ValueError (s +:+ " is not a valid ObligationFulfillmentKind").

(** [AuthorityClass(value)] *)
Definition AuthorityClass_of (s : string) : result AuthorityClass :=
  match List.find (fun c => bool_decide (AuthorityClass_value c = s))
          [NORMAL; PII; FINANCIAL; PRIVILEGED_ACCESS; EMPLOYMENT; LEGAL; REGULATED] with
  | Some c => Ok c
  | None => raise ValueError (s +:+ " is not a valid AuthorityClass")
  end.

Record AdministrativeObligation := mkAdministrativeObligation {
  ob_obligation_id : uuid;
  ob_case_id : uuid;
  ob_authority_epoch : Z;
  ob_governance_basis_id : uuid;
  ob_kind : string;
  ob_subject_ref : string;
  ob_target_system : string;
  ob_required_operation : string;
  ob_expected_postcondition : pydict;
  ob_authority_class : AuthorityClass;
  ob_required : bool;
  ob_fulfillment_kind : ObligationFulfillmentKind;
}.

Record AdministrativeObligationSet := mkAdministrativeObligationSet {
  os_requirement_id : uuid;
  os_case_id : uuid;
  os_authority_epoch : Z;
  os_governance_basis_id : uuid;
  os_obligations : list AdministrativeObligation;
}.

Record EffectObligationLink := mkEffectObligationLink {
  ln_effect_id : uuid;
  ln_obligation_id : uuid;
  ln_governance_basis_id : uuid;
}.

#[global] Instance EffectObligationLink_eq_dec : EqDecision EffectObligationLink.
Proof. solve_decision. Defined.

Record ObligationDomainStateFulfillment := mkObligationDomainStateFulfillment {
  fl_fulfillment_id : uuid;
  fl_obligation_id : uuid;
  fl_case_id : uuid;
  fl_authority_epoch : Z;
  fl_governance_basis_id : uuid;
  fl_fulfillment_kind : ObligationFulfillmentKind;
  fl_verified_by : string;
  fl_reason : string;
  fl_observed_state_digest : string;
  fl_evidence_ref : option string;
  fl_observed_at : instant;
}.

#[global] Instance ObligationDomainStateFulfillment_eq_dec :
  EqDecision ObligationDomainStateFulfillment.
Proof. solve_decision. Defined.

(** Pydantic equality: field by field, dicts by Python equality. *)
Definition obligation_eqb (a b : AdministrativeObligation) : bool :=
  bool_decide (ob_obligation_id a = ob_obligation_id b)
  && bool_decide (ob_case_id a = ob_case_id b)
  && bool_decide (ob_authority_epoch a = ob_authority_epoch b)
  && bool_decide (ob_governance_basis_id a = ob_governance_basis_id b)
  && bool_decide (ob_kind a = ob_kind b)
  && bool_decide (ob_subject_ref a = ob_subject_ref b)
  && bool_decide (ob_target_system a = ob_target_system b)
  && bool_decide (ob_required_operation a = ob_required_operation b)
  && py_eq (VDict (ob_expected_postcondition a)) (VDict (ob_expected_postcondition b))
  && bool_decide (ob_authority_class a = ob_authority_class b)
  && bool_decide (ob_required a = ob_required b)
  && bool_decide (ob_fulfillment_kind a = ob_fulfillment_kind b).

Fixpoint obligations_eqb (a b : list AdministrativeObligation) : bool :=
  match a, b with
  | [], [] => true
  | x :: a', y :: b' => obligation_eqb x y && obligations_eqb a' b'
  | _, _ => false
  end.

Definition obligation_set_eqb (a b : AdministrativeObligationSet) : bool :=
  bool_decide (os_requirement_id a = os_requirement_id b)
  && bool_decide (os_case_id a = os_case_id b)
  && bool_decide (os_authority_epoch a = os_authority_epoch b)
  && bool_decide (os_governance_basis_id a = os_governance_basis_id b)
  && obligations_eqb (os_obligations a) (os_obligations b).

(** ** Tables *)

Record ObligationSetRow := mkObligationSetRow {
  sr_requirement_id : uuid;
  sr_case_id : uuid;
  sr_authority_epoch : Z;
  sr_governance_basis_id : uuid;
}.

Record ObligationRow := mkObligationRow {
  or_obligation_id : uuid;
  or_requirement_id : uuid;
  or_sequence : Z;
  or_case_id : uuid;
  or_authority_epoch : Z;
  or_governance_basis_id : uuid;
  or_kind : string;
  or_subject_ref : string;
  or_target_system : string;
  or_required_operation : string;
  or_expected_postcondition_json : pydict;
  or_authority_class : string;
  or_required : bool;
  or_fulfillment_kind : string;
}.

Record ObligationDomainStateFulfillmentRow := mkObligationDomainStateFulfillmentRow {
  fr_fulfillment_id : uuid;
  fr_obligation_id : uuid;
  fr_case_id : uuid;
  fr_authority_epoch : Z;
  fr_governance_basis_id : uuid;
  fr_fulfillment_kind : string;
  fr_verified_by : string;
  fr_reason : string;
  fr_observed_state_digest : string;
  fr_evidence_ref : option string;
  fr_observed_at : instant;
}.

Record ObligationDb := mkObligationDb {
  obligation_sets : gmap uuid ObligationSetRow;
  obligations : gmap uuid ObligationRow;
  effect_obligation_links : gmap uuid EffectObligationLink;
  obligation_fulfillments : gmap uuid ObligationDomainStateFulfillmentRow;
}.

Definition empty_obligation_db : ObligationDb := mkObligationDb ∅ ∅ ∅ ∅.

(** ** Loading rows *)

Definition obligation_from_row (item : ObligationRow) : result AdministrativeObligation :=
  let! cls := AuthorityClass_of (or_authority_class item) in
  let! kind := ObligationFulfillmentKind_of
    (if nonempty (or_fulfillment_kind item) then or_fulfillment_kind item
     else ObligationFulfillmentKind_value EXTERNAL_EFFECT_VERIFIED) in
  Ok (mkAdministrativeObligation (or_obligation_id item) (or_case_id item)
        (or_authority_epoch item) (or_governance_basis_id item) (or_kind item)
        (or_subject_ref item) (or_target_system item) (or_required_operation item)
        (or_expected_postcondition_json item) cls (or_required item) kind).

(** [_load_in_session] *)
Definition load_in_session (db : ObligationDb) (requirement_id : uuid)
  : result AdministrativeObligationSet :=
  match obligation_sets db !! requirement_id with
  | None => raise KeyError ("obligation set " +:+ uuid_str requirement_id +:+ " not found")
  | Some row =>
      let obligation_rows := sort_by (cmp_key or_sequence)
        (select_where (fun r => bool_decide (or_requirement_id r = requirement_id)) (obligations db)) in
      let sequences := or_sequence <$> obligation_rows in
      refuse bool_decide (sequences <> seqZ 0 (Z.of_nat (length obligation_rows)))
        with ObligationError saying "persisted obligation sequence must be contiguous from zero";;
      let! items := traverse obligation_from_row obligation_rows in
      Ok (mkAdministrativeObligationSet (sr_requirement_id row) (sr_case_id row)
            (sr_authority_epoch row) (sr_governance_basis_id row) items)
  end.

Definition sets_for (db : ObligationDb) (case_id : uuid) (authority_epoch : Z) : list ObligationSetRow :=
  select_where (fun r => bool_decide (sr_case_id r = case_id)
                         && bool_decide (sr_authority_epoch r = authority_epoch))
    (obligation_sets db).

(** ** Repository operations *)

Definition obligation_row (requirement_id : uuid) (sequence : nat) (item : AdministrativeObligation)
  : ObligationRow :=
  mkObligationRow (ob_obligation_id item) requirement_id (Z.of_nat sequence) (ob_case_id item)
    (ob_authority_epoch item) (ob_governance_basis_id item) (ob_kind item) (ob_subject_ref item)
    (ob_target_system item) (ob_required_operation item) (ob_expected_postcondition item)
    (AuthorityClass_value (ob_authority_class item)) (ob_required item)
    (ObligationFulfillmentKind_value (ob_fulfillment_kind item)).

(** The flush of one row: the primary key and
    [uq_admin_obligation_requirement_sequence]. *)
Definition add_obligation_row (m : gmap uuid ObligationRow) (row : ObligationRow)
  : result (gmap uuid ObligationRow) :=
  refuse negb (is_nil (select_where
                 (fun r => bool_decide (or_requirement_id r = or_requirement_id row)
                           && bool_decide (or_sequence r = or_sequence row)) m))
    with IntegrityError saying "uq_admin_obligation_requirement_sequence";;
  db_add m (or_obligation_id row) row.

Definition put_in_session (db : ObligationDb) (obligation_set : AdministrativeObligationSet)
  : result (AdministrativeObligationSet * ObligationDb) :=
  let existing_sets := sets_for db (os_case_id obligation_set) (os_authority_epoch obligation_set) in
  refuse (1 <? Z.of_nat (length existing_sets)) with ObligationError
    saying "multiple obligation sets exist for one case and authority epoch";;
  match existing_sets with
  | row :: _ =>
      let! restored := load_in_session db (sr_requirement_id row) in
      refuse negb (obligation_set_eqb restored obligation_set) with ObligationError
        saying "obligation set already exists with different semantics";;
      Ok (restored, db)
  | [] =>
      let! sets := db_add (obligation_sets db) (os_requirement_id obligation_set)
        (mkObligationSetRow (os_requirement_id obligation_set) (os_case_id obligation_set)
           (os_authority_epoch obligation_set) (os_governance_basis_id obligation_set)) in
      match for_each add_obligation_row
              (imap (obligation_row (os_requirement_id obligation_set)) (os_obligations obligation_set))
              (obligations db) with
      | Ok rows =>
          Ok (obligation_set,
              mkObligationDb sets rows (effect_obligation_links db) (obligation_fulfillments db))
      | Err (Exn IntegrityError _) =>
          raise ObligationError "obligation set concurrently exists for this case and authority epoch"
      | Err e => Err e
      end
  end.

(** [ObligationRepository.link_effect] *)
Definition effect_implements (effect : EffectRecord) (obligation : AdministrativeObligation) : bool :=
  bool_decide (ef_target_system effect = ob_target_system obligation)
  && bool_decide (ef_operation effect = ob_required_operation obligation)
  && bool_decide (ef_subject_ref effect = ob_subject_ref obligation)
  && bool_decide (ef_authority_class effect = ob_authority_class obligation).

Definition link_effect (db : ObligationDb) (effect : EffectRecord) (obligation : AdministrativeObligation)
  : result (EffectObligationLink * ObligationDb) :=
  refuse bool_decide (ef_case_id effect <> ob_case_id obligation) with ObligationError
    saying "effect and obligation belong to different cases";;
  refuse bool_decide (ef_authority_epoch effect <> ob_authority_epoch obligation) with ObligationError
    saying "effect and obligation belong to different authority epochs";;
  refuse negb (effect_implements effect obligation) with ObligationError
    saying "effect does not implement the declared obligation";;
  let link := mkEffectObligationLink (ef_effect_id effect) (ob_obligation_id obligation)
                (ob_governance_basis_id obligation) in
  match effect_obligation_links db !! ef_effect_id effect with
  | Some restored =>
      refuse bool_decide (restored <> link) with ObligationError
        saying "effect already links to a different obligation";;
      Ok (restored, db)
  | None =>
      refuse negb (is_nil (select_where
                     (fun l => bool_decide (ln_obligation_id l = ob_obligation_id obligation))
                     (effect_obligation_links db)))
        with ObligationError saying "obligation already has a different effect";;
      Ok (link, mkObligationDb (obligation_sets db) (obligations db)
                  (<[ef_effect_id effect := link]> (effect_obligation_links db))
                  (obligation_fulfillments db))
  end.

Definition get_current (db : ObligationDb) (case_id : uuid) (authority_epoch : Z)
  : result (option AdministrativeObligationSet) :=
  let rows := sets_for db case_id authority_epoch in
  refuse (1 <? Z.of_nat (length rows)) with ObligationError
    saying "multiple obligation sets exist for one case and authority epoch";;
  match rows with
  | [] => Ok None
  | row :: _ => let! s := load_in_session db (sr_requirement_id row) in Ok (Some s)
  end.

(** [list_links]: the inner join with [ObligationRow] on its primary key. *)
Definition list_links (db : ObligationDb) (case_id : uuid) (authority_epoch : Z)
  : list EffectObligationLink :=
  sort_by (fun a b => N.compare (ln_effect_id a) (ln_effect_id b))
    (select_where (fun l =>
       match obligations db !! ln_obligation_id l with
       | Some r => bool_decide (or_case_id r = case_id)
                   && bool_decide (or_authority_epoch r = authority_epoch)
       | None => false
       end) (effect_obligation_links db)).

Definition fulfillment_row (f : ObligationDomainStateFulfillment) : ObligationDomainStateFulfillmentRow :=
  mkObligationDomainStateFulfillmentRow (fl_fulfillment_id f) (fl_obligation_id f) (fl_case_id f)
    (fl_authority_epoch f) (fl_governance_basis_id f)
    (ObligationFulfillmentKind_value (fl_fulfillment_kind f)) (fl_verified_by f) (fl_reason f)
    (fl_observed_state_digest f) (fl_evidence_ref f) (fl_observed_at f).

(** [_fulfillment_from_row] *)
Definition fulfillment_from_row (row : ObligationDomainStateFulfillmentRow)
  : result ObligationDomainStateFulfillment :=
  let! kind := ObligationFulfillmentKind_of (fr_fulfillment_kind row) in
  Ok (mkObligationDomainStateFulfillment (fr_fulfillment_id row) (fr_obligation_id row)
        (fr_case_id row) (fr_authority_epoch row) (fr_governance_basis_id row) kind
        (fr_verified_by row) (fr_reason row) (fr_observed_state_digest row)
        (fr_evidence_ref row) (fr_observed_at row)).

(** [_fulfillment_semantics]: the dump of every field; the excluded
    [created_at] is not a field of the model, so [observed_at] takes part. *)
Definition fulfillment_semantics (f : ObligationDomainStateFulfillment) :=
  (fl_fulfillment_id f, fl_obligation_id f, fl_case_id f, fl_authority_epoch f,
   fl_governance_basis_id f, fl_fulfillment_kind f, fl_verified_by f, fl_reason f,
   fl_observed_state_digest f, fl_evidence_ref f, fl_observed_at f).

Definition record_domain_state_fulfillment (db : ObligationDb) (f : ObligationDomainStateFulfillment)
  : result (ObligationDomainStateFulfillment * ObligationDb) :=
  match obligations db !! fl_obligation_id f with
  | None => raise ObligationError "domain-state fulfillment requires a persisted obligation"
  | Some obligation_row =>
      refuse bool_decide (or_case_id obligation_row <> fl_case_id f) with ObligationError
        saying "fulfillment and obligation belong to different cases";;
      refuse bool_decide (or_authority_epoch obligation_row <> fl_authority_epoch f)
        with ObligationError
        saying "fulfillment and obligation belong to different authority epochs";;
      refuse bool_decide (or_fulfillment_kind obligation_row
                          <> ObligationFulfillmentKind_value DOMAIN_STATE_VERIFIED)
        with ObligationError saying "only domain-state obligations accept a domain-state fulfillment";;
      match obligation_fulfillments db !! fl_fulfillment_id f with
      | Some existing =>
          let! restored := fulfillment_from_row existing in
          refuse bool_decide (fulfillment_semantics restored <> fulfillment_semantics f)
            with ObligationError saying "fulfillment identity was reused with different semantics";;
          Ok (restored, db)
      | None =>
          refuse negb (is_nil (select_where
                         (fun r => bool_decide (fr_obligation_id r = fl_obligation_id f))
                         (obligation_fulfillments db)))
            with ObligationError saying "obligation already has a different domain-state fulfillment";;
          Ok (f, mkObligationDb (obligation_sets db) (obligations db) (effect_obligation_links db)
                   (<[fl_fulfillment_id f := fulfillment_row f]> (obligation_fulfillments db)))
      end
  end.

Definition get_domain_state_fulfillment (db : ObligationDb) (obligation_id : uuid)
  : result (option ObligationDomainStateFulfillment) :=
  match select_where (fun r => bool_decide (fr_obligation_id r = obligation_id))
          (obligation_fulfillments db) with
  | [] => Ok None
  | row :: _ => let! f := fulfillment_from_row row in Ok (Some f)
  end.

Definition list_domain_state_fulfillments (db : ObligationDb) (case_id : uuid) (authority_epoch : Z)
  : result (list ObligationDomainStateFulfillment) :=
  traverse fulfillment_from_row
    (sort_by (fun a b => N.compare (fr_obligation_id a) (fr_obligation_id b))
       (select_where (fun r => bool_decide (fr_case_id r = case_id)
                               && bool_decide (fr_authority_epoch r = authority_epoch))
          (obligation_fulfillments db))).

(** ** Enumeration values and rows read back what was written *)

Lemma AuthorityClass_of_value c : AuthorityClass_of (AuthorityClass_value c) = Ok c.
Proof. by destruct c. Qed.

Lemma ObligationFulfillmentKind_of_value k :
  ObligationFulfillmentKind_of (ObligationFulfillmentKind_value k) = Ok k.
Proof. by destruct k. Qed.

Lemma obligation_row_roundtrip rid i o : obligation_from_row (obligation_row rid i o) = Ok o.
Proof.
  unfold obligation_from_row. cbn [obligation_row or_authority_class or_fulfillment_kind].
  rewrite AuthorityClass_of_value. cbn [rbind].
  destruct o as [? ? ? ? ? ? ? ? ? ? ? k]. by destruct k.
Qed.

Lemma fulfillment_row_roundtrip f : fulfillment_from_row (fulfillment_row f) = Ok f.
Proof.
  unfold fulfillment_from_row. cbn [fulfillment_row fr_fulfillment_kind].
  rewrite ObligationFulfillmentKind_of_value. by destruct f.
Qed.

(** ** What a batch of rows adds *)

Lemma add_rows_select l m m' P :
  for_each add_obligation_row l m = Ok m' ->
  select_where P m' ≡ₚ List.filter P l ++ select_where P m.
Proof.
  revert m. induction l as [|r l IH]; intros m Hrun; cbn in Hrun; inv_ok; [by subst|].
  unfold add_obligation_row in E. inv_ok. apply db_add_Ok in E as [Hk ->].
  rewrite (IH _ Hrun), (select_where_insert _ _ _ _ Hk). cbn [List.filter].
  destruct (P r); cbn; [|done]. by rewrite Permutation_middle.
Qed.

Lemma add_rows_lookup l m m' k v :
  for_each add_obligation_row l m = Ok m' ->
  m' !! k = Some v <-> m !! k = Some v \/ (v ∈ l /\ or_obligation_id v = k).
Proof.
  revert m. induction l as [|r l IH]; intros m Hrun; cbn in Hrun; inv_ok.
  { subst. split; [by left|]. by intros [?|[?%not_elem_of_nil _]]. }
  unfold add_obligation_row in E. inv_ok. apply db_add_Ok in E as [Hk ->].
  rewrite (IH _ Hrun), elem_of_cons, lookup_insert_Some. split.
  - intros [[[<- <-]|[? ?]]|[? ?]]; eauto.
  - intros [Hm|[[->|?] <-]]; eauto.
    left. right. split; [congruence|done].
Qed.

Lemma elem_of_imap_row rid l r :
  r ∈ imap (obligation_row rid) l <-> exists i o, l !! i = Some o /\ r = obligation_row rid i o.
Proof.
  rewrite list_elem_of_lookup. split.
  - intros [i Hi]. rewrite list_lookup_imap in Hi.
    destruct (l !! i) as [o|] eqn:E; simplify_eq/=. eauto.
  - intros (i & o & Ho & ->). exists i. by rewrite list_lookup_imap, Ho.
Qed.

Lemma imap_rows_sorted rid k l :
  StronglySorted (fun a b => or_sequence a < or_sequence b)
    (imap (fun i => obligation_row rid (k + i)) l).
Proof.
  revert k. induction l as [|o l IH]; intros k; cbn; [constructor|]. constructor.
  - rewrite (imap_ext _ (fun i => obligation_row rid (S k + i))); [apply IH|].
    intros i x _. cbn. f_equal. lia.
  - apply Forall_forall. intros r (i & Hi)%list_elem_of_lookup.
    rewrite list_lookup_imap in Hi. destruct (l !! i); simplify_eq/=. lia.
Qed.

Lemma imap_rows_sequence rid l :
  or_sequence <$> imap (obligation_row rid) l = seqZ 0 (Z.of_nat (length l)).
Proof.
  apply list_eq. intros i. rewrite list_lookup_fmap, list_lookup_imap.
  destruct (l !! i) as [o|] eqn:E; cbn.
  - symmetry. apply lookup_seqZ. apply lookup_lt_Some in E. lia.
  - symmetry. apply lookup_seqZ_ge. apply lookup_ge_None in E. lia.
Qed.

Lemma traverse_imap_rows rid l : traverse obligation_from_row (imap (obligation_row rid) l) = Ok l.
Proof.
  apply traverse_Ok, Forall2_same_length_lookup_2; [by rewrite length_imap|].
  intros i r o Hr Ho. rewrite list_lookup_imap, Ho in Hr. simplify_eq/=.
  apply obligation_row_roundtrip.
Qed.

Lemma filter_all {A} (P : A -> bool) l : (forall x, x ∈ l -> P x = true) -> List.filter P l = l.
Proof.
  induction l as [|x l IH]; intros HP; cbn; [done|].
  rewrite (HP x) by left. f_equal. apply IH. intros y Hy. apply HP. by right.
Qed.

Lemma load_sorted_rows db rid row l :
  obligation_sets db !! rid = Some row ->
  select_where (fun r => bool_decide (or_requirement_id r = rid)) (obligations db)
    ≡ₚ imap (obligation_row rid) l ->
  load_in_session db rid =
    Ok (mkAdministrativeObligationSet (sr_requirement_id row) (sr_case_id row)
          (sr_authority_epoch row) (sr_governance_basis_id row) l).
Proof.
  intros Hrow Hperm. unfold load_in_session. rewrite Hrow.
  rewrite (sort_by_key_unique or_sequence _ _ Hperm) by apply (imap_rows_sorted rid 0 l).
  rewrite imap_rows_sequence, length_imap, traverse_imap_rows.
  by rewrite bool_decide_eq_false_2 by (intros Hn; by apply Hn).
Qed.

Lemma seqZ_sorted m n : StronglySorted Z.lt (seqZ m n).
Proof.
  unfold seqZ. apply (StronglySorted_fmap _ lt); [lia|].
  generalize 0%nat. induction (Z.to_nat n) as [|k IH]; intros i; cbn; constructor; [done|].
  apply Forall_forall. intros x Hx%elem_of_seq. lia.
Qed.

Lemma StronglySorted_fmap_key {A} (key : A -> Z) l :
  StronglySorted Z.lt (key <$> l) -> StronglySorted (fun a b => key a < key b) l.
Proof.
  induction l as [|x l IH]; cbn; intros Hs; [constructor|].
  apply StronglySorted_inv in Hs as [Hs Hx]. constructor; [by apply IH|].
  rewrite Forall_fmap in Hx. exact Hx.
Qed.

(** Loading depends on the rows of the set only. *)
Lemma load_frame db db' rid s :
  obligation_sets db' !! rid = obligation_sets db !! rid ->
  select_where (fun r => bool_decide (or_requirement_id r = rid)) (obligations db')
    ≡ₚ select_where (fun r => bool_decide (or_requirement_id r = rid)) (obligations db) ->
  load_in_session db rid = Ok s -> load_in_session db' rid = Ok s.
Proof.
  intros Hs Hp Hload. unfold load_in_session in *. rewrite Hs.
  destruct (obligation_sets db !! rid) as [row|]; [|done].
  set (rows := select_where _ (obligations db)) in *.
  assert (StronglySorted (fun a b => or_sequence a < or_sequence b)
            (sort_by (cmp_key or_sequence) rows)) as Hlt.
  { apply StronglySorted_fmap_key. inv_ok. propify. rewrite E. apply seqZ_sorted. }
  rewrite (sort_by_key_unique or_sequence _ (sort_by (cmp_key or_sequence) rows)); [done| |done].
  by rewrite Hp, sort_by_perm.
Qed.

(** ** The database invariant *)

Record ob_wf (db : ObligationDb) : Prop := {
  wf_sets_keyed : keyed sr_requirement_id (obligation_sets db);
  wf_rows_keyed : keyed or_obligation_id (obligations db);
  wf_links_keyed : keyed ln_effect_id (effect_obligation_links db);
  wf_fulfillments_keyed : keyed fr_fulfillment_id (obligation_fulfillments db);
  (** at most one set per case and authority epoch *)
  wf_one_set : forall k1 k2 s1 s2,
    obligation_sets db !! k1 = Some s1 -> obligation_sets db !! k2 = Some s2 ->
    sr_case_id s1 = sr_case_id s2 -> sr_authority_epoch s1 = sr_authority_epoch s2 -> k1 = k2;
  (** every obligation row belongs to a set *)
  wf_rows_fk : forall k r, obligations db !! k = Some r ->
    is_Some (obligation_sets db !! or_requirement_id r);
  (** every set loads *)
  wf_loads : forall rid, is_Some (obligation_sets db !! rid) ->
    exists s, load_in_session db rid = Ok s;
  (** an obligation has at most one effect, an effect at most one obligation *)
  wf_links_one_to_one : forall e1 e2 l1 l2,
    effect_obligation_links db !! e1 = Some l1 -> effect_obligation_links db !! e2 = Some l2 ->
    ln_obligation_id l1 = ln_obligation_id l2 -> e1 = e2;
  (** a fulfillment proves one domain-state obligation of its case and epoch *)
  wf_fulfillments_fk : forall k f, obligation_fulfillments db !! k = Some f ->
    exists r, obligations db !! fr_obligation_id f = Some r /\
      or_case_id r = fr_case_id f /\ or_authority_epoch r = fr_authority_epoch f /\
      or_fulfillment_kind r = ObligationFulfillmentKind_value DOMAIN_STATE_VERIFIED;
  wf_fulfillments_one : forall k1 k2 f1 f2,
    obligation_fulfillments db !! k1 = Some f1 -> obligation_fulfillments db !! k2 = Some f2 ->
    fr_obligation_id f1 = fr_obligation_id f2 -> k1 = k2;
  wf_fulfillments_load : forall k f, obligation_fulfillments db !! k = Some f ->
    exists f', fulfillment_from_row f = Ok f';
}.

Lemma ob_wf_empty : ob_wf empty_obligation_db.
Proof. split; cbn; try apply keyed_empty; try (by intros *; rewrite lookup_empty). Qed.

Lemma sets_for_nil db case epoch :
  sets_for db case epoch = [] <->
  forall k s, obligation_sets db !! k = Some s -> sr_case_id s = case ->
    sr_authority_epoch s <> epoch.
Proof.
  unfold sets_for. rewrite select_where_nil. split.
  - intros H k s Hk Hc He. specialize (H k s Hk).
    by rewrite !bool_decide_eq_true_2 in H.
  - intros H k s Hk. rewrite <- not_true_iff_false, andb_true_iff, !bool_decide_eq_true.
    intros [Hc He]. by apply (H k s).
Qed.

(** What a successful [put] of a new set leaves behind. *)
Lemma put_new db s rows :
  ob_wf db ->
  obligation_sets db !! os_requirement_id s = None ->
  for_each add_obligation_row (imap (obligation_row (os_requirement_id s)) (os_obligations s))
    (obligations db) = Ok rows ->
  let db' := mkObligationDb
    (<[os_requirement_id s := mkObligationSetRow (os_requirement_id s) (os_case_id s)
        (os_authority_epoch s) (os_governance_basis_id s)]> (obligation_sets db))
    rows (effect_obligation_links db) (obligation_fulfillments db) in
  load_in_session db' (os_requirement_id s) = Ok s /\
  forall rid x, load_in_session db rid = Ok x -> load_in_session db' rid = Ok x.
Proof.
  intros Hwf Hfresh Hrows db'. split.
  - rewrite (load_sorted_rows db' _ (mkObligationSetRow (os_requirement_id s) (os_case_id s)
      (os_authority_epoch s) (os_governance_basis_id s)) (os_obligations s));
      [by destruct s|cbn; apply lookup_insert_eq|].
    cbn [obligations db']. rewrite (add_rows_select _ _ _ _ Hrows), filter_all.
    + rewrite (proj2 (select_where_nil _ _)); [by rewrite app_nil_r|].
      intros k r Hr. apply bool_decide_eq_false_2. intros Hid.
      destruct (wf_rows_fk _ Hwf _ _ Hr) as [? Hx]. congruence.
    + intros r (i & o & _ & ->)%elem_of_imap_row. by apply bool_decide_eq_true_2.
  - intros rid x Hx. assert (rid <> os_requirement_id s) as Hne.
    { intros ->. unfold load_in_session in Hx. by rewrite Hfresh in Hx. }
    eapply load_frame; [| |exact Hx]; cbn.
    + by apply lookup_insert_ne.
    + rewrite (add_rows_select _ _ _ _ Hrows), filter_none; [done|].
      intros r (i & o & _ & ->)%elem_of_imap_row. by apply bool_decide_eq_false_2.
Qed.

Lemma put_in_session_cases db s r db' :
  put_in_session db s = Ok (r, db') ->
  (db' = db /\ obligation_set_eqb r s = true /\
   exists row, sets_for db (os_case_id s) (os_authority_epoch s) = [row] /\
               load_in_session db (sr_requirement_id row) = Ok r) \/
  (r = s /\ sets_for db (os_case_id s) (os_authority_epoch s) = [] /\
   obligation_sets db !! os_requirement_id s = None /\
   exists rows,
     for_each add_obligation_row (imap (obligation_row (os_requirement_id s)) (os_obligations s))
       (obligations db) = Ok rows /\
     db' = mkObligationDb
       (<[os_requirement_id s := mkObligationSetRow (os_requirement_id s) (os_case_id s)
           (os_authority_epoch s) (os_governance_basis_id s)]> (obligation_sets db))
       rows (effect_obligation_links db) (obligation_fulfillments db)).
Proof.
  unfold put_in_session. intros Hput. inv_ok. propify.
  destruct (sets_for db _ _) as [|row [|row' l]]; [right|left|cbn in E; lia].
  - inv_ok. apply db_add_Ok in E0 as [Hk ->].
    destruct (for_each _ _ _) as [rows|[[] ?]] eqn:Hrows; simplify_eq/=. eauto 10.
  - inv_ok. simplify_eq. propify. eauto 10.
Qed.

Lemma put_in_session_wf db s r db' :
  ob_wf db -> put_in_session db s = Ok (r, db') -> ob_wf db'.
Proof.
  intros Hwf [(-> & _)|(-> & Hnil & Hk & rows & Hrows & ->)]%put_in_session_cases; [done|].
  destruct (put_new db s rows Hwf Hk Hrows) as [Hnew Hold].
  rewrite sets_for_nil in Hnil. destruct Hwf. split; cbn in *; try done.
  - by apply (keyed_insert sr_requirement_id _ (mkObligationSetRow _ _ _ _)).
  - intros k v [Hv|[_ <-]]%(add_rows_lookup _ _ _ _ _ Hrows); [by apply wf_rows_keyed0|done].
  - intros k1 k2 s1 s2 [[<- <-]|[? H1]]%lookup_insert_Some [[<- <-]|[? H2]]%lookup_insert_Some;
      cbn; intros Hc He; [done| | |by eapply wf_one_set0].
    + by destruct (Hnil _ _ H2).
    + by destruct (Hnil _ _ H1).
  - intros k v [Hv|[Hv _]]%(add_rows_lookup _ _ _ _ _ Hrows); apply lookup_insert_is_Some.
    + destruct (decide (os_requirement_id s = or_requirement_id v)); [by left|].
      right. split; [done|]. by eapply wf_rows_fk0.
    + left. by apply elem_of_imap_row in Hv as (i & o & _ & ->).
  - intros rid [<-|[? Hs]]%lookup_insert_is_Some; [by exists s|].
    destruct (wf_loads0 _ Hs) as [x Hx]. exists x. by apply Hold.
  - intros k f Hf. destruct (wf_fulfillments_fk0 _ _ Hf) as (o & Ho & ?).
    exists o. split; [|done]. apply (add_rows_lookup _ _ _ _ _ Hrows). by left.
Qed.

Lemma link_effect_cases db e o l db' :
  link_effect db e o = Ok (l, db') ->
  l = mkEffectObligationLink (ef_effect_id e) (ob_obligation_id o) (ob_governance_basis_id o) /\
  ef_case_id e = ob_case_id o /\ ef_authority_epoch e = ob_authority_epoch o /\
  effect_implements e o = true /\
  ((db' = db /\ effect_obligation_links db !! ef_effect_id e = Some l) \/
   (effect_obligation_links db !! ef_effect_id e = None /\
    (forall k l', effect_obligation_links db !! k = Some l' ->
       ln_obligation_id l' <> ob_obligation_id o) /\
    db' = mkObligationDb (obligation_sets db) (obligations db)
            (<[ef_effect_id e := l]> (effect_obligation_links db)) (obligation_fulfillments db))).
Proof.
  unfold link_effect. intros Hl. inv_ok. propify.
  destruct (effect_obligation_links db !! _) as [l0|] eqn:El; inv_ok; propify; simplify_eq.
  - naive_solver.
  - apply is_nil_true in E2. rewrite select_where_nil in E2.
    split_and!; try done. right. split_and!; try done.
    intros k l' Hk Heq. specialize (E2 _ _ Hk). by rewrite bool_decide_eq_true_2 in E2.
Qed.

Lemma link_effect_wf db e o l db' :
  ob_wf db -> link_effect db e o = Ok (l, db') -> ob_wf db'.
Proof.
  intros Hwf (-> & _ & _ & _ & [[-> _]|(Hk & Hfresh & ->)])%link_effect_cases; [done|].
  destruct Hwf. split; cbn in *; try done.
  - by apply (keyed_insert ln_effect_id _ (mkEffectObligationLink _ _ _)).
  - intros e1 e2 l1 l2 [[<- <-]|[? H1]]%lookup_insert_Some [[<- <-]|[? H2]]%lookup_insert_Some;
      cbn; intros Heq; [done| | |by eapply wf_links_one_to_one0].
    + by destruct (Hfresh _ _ H2).
    + by destruct (Hfresh _ _ H1).
Qed.

Lemma record_fulfillment_cases db f f' db' :
  record_domain_state_fulfillment db f = Ok (f', db') ->
  f' = f /\
  (exists r, obligations db !! fl_obligation_id f = Some r /\ or_case_id r = fl_case_id f /\
     or_authority_epoch r = fl_authority_epoch f /\
     or_fulfillment_kind r = ObligationFulfillmentKind_value DOMAIN_STATE_VERIFIED) /\
  ((db' = db /\ exists row, obligation_fulfillments db !! fl_fulfillment_id f = Some row /\
                            fulfillment_from_row row = Ok f) \/
   (obligation_fulfillments db !! fl_fulfillment_id f = None /\
    (forall k r, obligation_fulfillments db !! k = Some r ->
       fr_obligation_id r <> fl_obligation_id f) /\
    db' = mkObligationDb (obligation_sets db) (obligations db) (effect_obligation_links db)
            (<[fl_fulfillment_id f := fulfillment_row f]> (obligation_fulfillments db)))).
Proof.
  unfold record_domain_state_fulfillment. intros Hr.
  destruct (obligations db !! _) as [r|] eqn:Er; inv_ok; propify.
  destruct (obligation_fulfillments db !! _) as [row|] eqn:Ef; inv_ok; propify; simplify_eq.
  - assert (f' = f) as -> by (destruct f', f; unfold fulfillment_semantics in *; cbn in *; congruence).
    split; [done|]. split; [by exists r|]. left. eauto.
  - apply is_nil_true in E2. rewrite select_where_nil in E2.
    split; [done|]. split; [eauto 10|]. right. split_and!; try done.
    intros k r' Hk Heq. specialize (E2 _ _ Hk). by rewrite bool_decide_eq_true_2 in E2.
Qed.

Lemma record_fulfillment_wf db f f' db' :
  ob_wf db -> record_domain_state_fulfillment db f = Ok (f', db') -> ob_wf db'.
Proof.
  intros Hwf (-> & (r & Hr & Hrow) & [[-> _]|(Hk & Hfresh & ->)])%record_fulfillment_cases; [done|].
  destruct Hwf. split; cbn in *; try done.
  - by apply (keyed_insert fr_fulfillment_id _ (fulfillment_row f)).
  - intros k g [[_ <-]|[? Hg]]%lookup_insert_Some; [|by eapply wf_fulfillments_fk0]. eauto.
  - intros k1 k2 f1 f2 [[<- <-]|[? H1]]%lookup_insert_Some [[<- <-]|[? H2]]%lookup_insert_Some;
      cbn; intros Heq; [done| | |by eapply wf_fulfillments_one0].
    + by destruct (Hfresh _ _ H2).
    + by destruct (Hfresh _ _ H1).
  - intros k g [[_ <-]|[? Hg]]%lookup_insert_Some; [|by eapply wf_fulfillments_load0].
    exists f. apply fulfillment_row_roundtrip.
Qed.

(** ** Histories of the repository *)

Inductive ob_step (db db' : ObligationDb) : Prop :=
  | step_put s r (Hput : put_in_session db s = Ok (r, db'))
  | step_link e o l (Hlink : link_effect db e o = Ok (l, db'))
  | step_record f f' (Hrec : record_domain_state_fulfillment db f = Ok (f', db')).

Definition ob_reachable (db : ObligationDb) : Prop := rtc ob_step empty_obligation_db db.

Lemma ob_step_wf db db' : ob_wf db -> ob_step db db' -> ob_wf db'.
Proof.
  intros Hwf []; eauto using put_in_session_wf, link_effect_wf, record_fulfillment_wf.
Qed.

Lemma reachable_wf db : ob_reachable db -> ob_wf db.
Proof.
  unfold ob_reachable. generalize empty_obligation_db, ob_wf_empty.
  intros db0 Hwf Hr. revert Hwf. induction Hr; eauto using ob_step_wf.
Qed.

Lemma sets_for_one db case epoch :
  ob_wf db -> (length (sets_for db case epoch) <= 1)%nat.
Proof.
  intros Hwf. apply select_where_unique. intros k1 k2 s1 s2 H1 H2 HP1 HP2. propify.
  eapply wf_one_set; [done|exact H1|exact H2|congruence|congruence].
Qed.

Lemma sets_for_lookup db rid row :
  ob_wf db -> obligation_sets db !! rid = Some row ->
  sets_for db (sr_case_id row) (sr_authority_epoch row) = [row].
Proof.
  intros Hwf Hrow.
  assert (Hin : row ∈ sets_for db (sr_case_id row) (sr_authority_epoch row)).
  { apply elem_of_select_where. split; [by exists rid|]. by rewrite !bool_decide_eq_true_2. }
  pose proof (sets_for_one db (sr_case_id row) (sr_authority_epoch row) Hwf) as Hlen.
  destruct (sets_for db _ _) as [|x [|y l]]; cbn in Hlen;
    [by apply not_elem_of_nil in Hin| |lia].
  by apply list_elem_of_singleton in Hin as ->.
Qed.

Lemma get_current_wf db case epoch :
  ob_wf db ->
  get_current db case epoch =
    match sets_for db case epoch with
    | [] => Ok None
    | row :: _ => let! s := load_in_session db (sr_requirement_id row) in Ok (Some s)
    end.
Proof.
  intros Hwf. pose proof (sets_for_one db case epoch Hwf). unfold get_current.
  destruct (1 <? _) eqn:E; propify; [lia|]. done.
Qed.

Lemma get_current_Some db case epoch s :
  ob_wf db ->
  get_current db case epoch = Ok (Some s) <->
  exists rid row, obligation_sets db !! rid = Some row /\ sr_case_id row = case /\
    sr_authority_epoch row = epoch /\ load_in_session db rid = Ok s.
Proof.
  intros Hwf. rewrite get_current_wf by done. split.
  - destruct (sets_for db case epoch) as [|row l] eqn:Hs; [done|]. intros Hl. inv_ok. simplify_eq.
    assert (row ∈ sets_for db case epoch) as [[rid Hrid] HP]%elem_of_select_where
      by (rewrite Hs; left).
    propify. exists rid, row. by rewrite <- (wf_sets_keyed _ Hwf rid row Hrid) at 2.
  - intros (rid & row & Hrow & <- & <- & Hload).
    rewrite (sets_for_lookup db rid row Hwf Hrow).
    rewrite (wf_sets_keyed _ Hwf rid row Hrow), Hload. done.
Qed.

Lemma get_current_total db case epoch : ob_wf db -> exists o, get_current db case epoch = Ok o.
Proof.
  intros Hwf. rewrite get_current_wf by done.
  destruct (sets_for db case epoch) as [|row l] eqn:Hs; [by eexists|].
  assert (row ∈ sets_for db case epoch) as [[rid Hrid] _]%elem_of_select_where
    by (rewrite Hs; left).
  destruct (wf_loads _ Hwf (sr_requirement_id row)) as [s ->]; [|by eexists].
  rewrite (wf_sets_keyed _ Hwf rid row Hrid). by eexists.
Qed.

(** One step keeps every stored set. *)
Lemma ob_step_keeps_sets db db' case epoch s :
  ob_wf db -> ob_step db db' ->
  get_current db case epoch = Ok (Some s) -> get_current db' case epoch = Ok (Some s).
Proof.
  intros Hwf Hstep. pose proof (ob_step_wf _ _ Hwf Hstep) as Hwf'.
  rewrite !get_current_Some by done. intros (rid & row & Hrow & Hc & He & Hload).
  exists rid, row. destruct Hstep as [s' r Hput|e o l Hlink|f f' Hrec].
  - apply put_in_session_cases in Hput as [(-> & _)|(-> & _ & Hk & rows & Hrows & ->)]; [done|].
    split_and!; try done.
    + cbn. rewrite lookup_insert_ne; [done|congruence].
    + by apply (put_new db s' rows Hwf Hk Hrows).
  - apply link_effect_cases in Hlink as (_ & _ & _ & _ & [[-> _]|(_ & _ & ->)]); done.
  - apply record_fulfillment_cases in Hrec as (_ & _ & [[-> _]|(_ & _ & ->)]); done.
Qed.

(** ** Keys of what is read back *)

Lemma load_fields db rid row s :
  obligation_sets db !! rid = Some row -> load_in_session db rid = Ok s ->
  os_case_id s = sr_case_id row /\ os_authority_epoch s = sr_authority_epoch row.
Proof. unfold load_in_session. intros -> Hl. inv_ok. by subst s. Qed.

Lemma get_current_case db case epoch s :
  ob_wf db -> get_current db case epoch = Ok (Some s) ->
  os_case_id s = case /\ os_authority_epoch s = epoch.
Proof.
  intros Hwf (rid & row & Hrow & <- & <- & Hload)%get_current_Some; [|done].
  by eapply load_fields.
Qed.

Lemma traverse_keys {A B} (f : A -> result B) (ka : A -> uuid) (kb : B -> uuid) l ys :
  (forall x y, f x = Ok y -> kb y = ka x) -> traverse f l = Ok ys -> kb <$> ys = ka <$> l.
Proof.
  intros Hk Hf%traverse_Ok. induction Hf as [|x y l ys Hxy _ IH]; cbn; [done|].
  by rewrite IH, (Hk _ _ Hxy).
Qed.

Lemma get_current_NoDup db case epoch s :
  ob_wf db -> get_current db case epoch = Ok (Some s) -> NoDup (ob_obligation_id <$> os_obligations s).
Proof.
  intros Hwf (rid & row & Hrow & _ & _ & Hload)%get_current_Some; [|done].
  unfold load_in_session in Hload. rewrite Hrow in Hload. inv_ok. subst s. cbn [os_obligations].
  rewrite (traverse_keys obligation_from_row or_obligation_id _ _ _) by
    (exact E0 || (intros x y Hxy; unfold obligation_from_row in Hxy; inv_ok; by subst y)).
  rewrite (fmap_Permutation _ _ _ (sort_by_perm _ _)).
  by apply select_where_NoDup, wf_rows_keyed.
Qed.

(** Under an injective second key a keyed table has distinct second keys too. *)
Lemma select_where_NoDup_inj {V} (k2 : V -> uuid) (m : gmap uuid V) P :
  (forall e1 e2 l1 l2, m !! e1 = Some l1 -> m !! e2 = Some l2 -> k2 l1 = k2 l2 -> e1 = e2) ->
  NoDup (k2 <$> select_where P m).
Proof.
  intros Hinj. unfold select_where. apply NoDup_fmap_filter. rewrite <- list_fmap_compose.
  apply NoDup_fmap_2_strong; [|apply NoDup_map_to_list].
  intros [e1 l1] [e2 l2] H1%elem_of_map_to_list H2%elem_of_map_to_list Heq. cbn in Heq.
  assert (e1 = e2) as -> by eauto. congruence.
Qed.

Lemma list_links_NoDup db case epoch :
  ob_wf db -> NoDup (ln_obligation_id <$> list_links db case epoch).
Proof.
  intros Hwf. unfold list_links. rewrite (fmap_Permutation _ _ _ (sort_by_perm _ _)).
  apply select_where_NoDup_inj. by apply wf_links_one_to_one.
Qed.

Lemma list_fulfillments_NoDup db case epoch fs :
  ob_wf db -> list_domain_state_fulfillments db case epoch = Ok fs ->
  NoDup (fl_obligation_id <$> fs).
Proof.
  intros Hwf Hf. unfold list_domain_state_fulfillments in Hf.
  rewrite (traverse_keys fulfillment_from_row fr_obligation_id _ _ _) by
    (exact Hf || (intros x y Hxy; unfold fulfillment_from_row in Hxy; inv_ok; by subst y)).
  rewrite (fmap_Permutation _ _ _ (sort_by_perm _ _)).
  apply select_where_NoDup_inj. by apply wf_fulfillments_one.
Qed.

(** ** Theorems *)

(** In every state a history of repository operations reaches, reading is
    total: the current obligation set of a case and epoch loads without raising
    and is unique, the fulfillments of a case load, an obligation has at most
    one effect, and each fulfillment belongs to a domain-state obligation of
    the same case and epoch. *)
Theorem repository_reads_never_fail (db : ObligationDb) (case_id : uuid) (epoch : Z) :
  ob_reachable db ->
  (exists o, get_current db case_id epoch = Ok o) /\
  (exists fs, list_domain_state_fulfillments db case_id epoch = Ok fs) /\
  (forall l1 l2, l1 ∈ list_links db case_id epoch -> l2 ∈ list_links db case_id epoch ->
     ln_obligation_id l1 = ln_obligation_id l2 -> l1 = l2) /\
  (forall fs f, list_domain_state_fulfillments db case_id epoch = Ok fs -> f ∈ fs ->
     exists r, obligations db !! fl_obligation_id f = Some r /\ or_case_id r = case_id /\
       or_authority_epoch r = epoch /\
       or_fulfillment_kind r = ObligationFulfillmentKind_value DOMAIN_STATE_VERIFIED).
Proof.
  intros Hwf%reachable_wf. split_and!.
  - by apply get_current_total.
  - apply traverse_defined. intros r [[k Hk] _]%elem_of_sort_by%elem_of_select_where.
    by eapply wf_fulfillments_load.
  - intros l1 l2 [[e1 H1] _]%elem_of_sort_by%elem_of_select_where
      [[e2 H2] _]%elem_of_sort_by%elem_of_select_where Heq.
    assert (e1 = e2) as -> by by eapply wf_links_one_to_one. congruence.
  - intros fs f Hfs Hin.
    destruct (traverse_elem_of _ _ _ _ Hfs Hin) as (row & Hrow & Hf).
    apply elem_of_sort_by, elem_of_select_where in Hrow as [[k Hk] HP]. cbn in HP; propify.
    destruct (wf_fulfillments_fk _ Hwf _ _ Hk) as (r & Hr & Hc & He & Hkind).
    unfold fulfillment_from_row in Hf. inv_ok. subst f. cbn. exists r. split_and!; [done|congruence|congruence|done].
Qed.

Lemma put_persists (db db' db'' : ObligationDb) (s r : AdministrativeObligationSet) :
  ob_wf db ->
  put_in_session db s = Ok (r, db') ->
  rtc ob_step db' db'' ->
  get_current db'' (os_case_id s) (os_authority_epoch s) = Ok (Some r) /\
  (r = s \/ obligation_set_eqb r s = true).
Proof.
  intros Hwf Hput Hrtc.
  assert (Hwf' : ob_wf db') by (by eapply put_in_session_wf).
  assert (get_current db' (os_case_id s) (os_authority_epoch s) = Ok (Some r) /\
                 (r = s \/ obligation_set_eqb r s = true)) as [Hnow Hr].
  { apply put_in_session_cases in Hput
      as [(-> & Heq & row & Hs & Hload)|(-> & Hnil & Hk & rows & Hrows & ->)].
    - split; [|by right]. rewrite get_current_wf, Hs by done. by rewrite Hload.
    - split; [|by left]. apply get_current_Some; [done|].
      eexists (os_requirement_id s), _. split; [cbn; apply lookup_insert_eq|]. split_and!; [done|done|].
      exact (proj1 (put_new db s rows Hwf Hk Hrows)). }
  split; [|done]. clear Hput Hr Hwf. induction Hrtc; [done|].
  eauto using ob_step_wf, ob_step_keeps_sets.
Qed.

(** An obligation set, once stored, is what every later read of its case
    and epoch returns, whatever operations follow; and [put] either stores the
    set it was given or returns the stored set when that compares equal. *)
Theorem obligation_set_is_immutable (db db' db'' : ObligationDb) (s r : AdministrativeObligationSet) :
  ob_reachable db ->
  put_in_session db s = Ok (r, db') ->
  rtc ob_step db' db'' ->
  get_current db'' (os_case_id s) (os_authority_epoch s) = Ok (Some r) /\
  (r = s \/ obligation_set_eqb r s = true).
Proof. intros Hwf%reachable_wf. by apply put_persists. Qed.
