(* ===== verification/Completion.v ===== *)
(** * Completion of a case, [completion.py]

    [_assess_obligations] decides from the obligation set, the effects, the
    confirmed outcomes, the realization assessments, the links and the
    fulfillments of a case whether every required obligation is proven.  The
    lookup dicts keep Python's last-wins semantics, and the five lists the loop
    appends to are threaded through it. *)

From stdpp Require Import base gmap strings list.
From Stdlib Require Import ZArith Lia.
From S2P Require Import Prelude Python CPython Store Domain Obligations.

Open Scope Z_scope.
Open Scope orch_scope.

Record CompletionRequirement := mkCompletionRequirement {
  cr_requirement_id : string;
  cr_required_effect_ids : list uuid;
  cr_required_outcome_kinds : list string;
  cr_required_obligation_ids : list uuid;
  cr_governance_basis_id : option uuid;
}.

Record CompletionAssessment := mkCompletionAssessment {
  ca_requirement_id : string;
  ca_satisfied : bool;
  ca_missing_effect_ids : list uuid;
  ca_missing_outcome_kinds : list string;
  ca_missing_obligation_ids : list uuid;
  ca_uncovered_obligation_ids : list uuid;
  ca_missing_realization_obligation_ids : list uuid;
  ca_missing_domain_state_obligation_ids : list uuid;
  ca_governance_basis_id : option uuid;
  ca_blocking_reasons : list string;
}.

Definition effect_outcome_kind (effect : EffectRecord) : string :=
  ef_target_system effect +:+ "." +:+ ef_operation effect +:+ ".verified".

Definition onboarding_completion_requirement (effects : list EffectRecord) : CompletionRequirement :=
  mkCompletionRequirement "employee-onboarding-v1-legacy" (ef_effect_id <$> effects)
    (effect_outcome_kind <$> effects) [] None.

(** The lists the loop appends to. *)
Record gaps := mkGaps {
  g_uncovered : list uuid;
  g_missing_confirmed : list uuid;
  g_missing_kinds : list string;
  g_missing_realizations : list uuid;
  g_missing_domain_state : list uuid;
}.

Definition no_gaps : gaps := mkGaps [] [] [] [] [].

Definition add_uncovered (g : gaps) (i : uuid) :=
  mkGaps (g_uncovered g ++ [i]) (g_missing_confirmed g) (g_missing_kinds g)
    (g_missing_realizations g) (g_missing_domain_state g).
Definition add_missing_confirmed (g : gaps) (i : uuid) :=
  mkGaps (g_uncovered g) (g_missing_confirmed g ++ [i]) (g_missing_kinds g)
    (g_missing_realizations g) (g_missing_domain_state g).
Definition add_missing_kind (g : gaps) (k : string) :=
  mkGaps (g_uncovered g) (g_missing_confirmed g) (g_missing_kinds g ++ [k])
    (g_missing_realizations g) (g_missing_domain_state g).
Definition add_missing_realization (g : gaps) (i : uuid) :=
  mkGaps (g_uncovered g) (g_missing_confirmed g) (g_missing_kinds g)
    (g_missing_realizations g ++ [i]) (g_missing_domain_state g).
Definition add_missing_domain_state (g : gaps) (i : uuid) :=
  mkGaps (g_uncovered g) (g_missing_confirmed g) (g_missing_kinds g)
    (g_missing_realizations g) (g_missing_domain_state g ++ [i]).

Definition verified_kind (o : AdministrativeObligation) : string :=
  ob_target_system o +:+ "." +:+ ob_required_operation o +:+ ".verified".

Section assess.
Variable obligation_set : AdministrativeObligationSet.
Variable effects : list EffectRecord.
Variable outcomes : list ConfirmedOutcome.
Variable realizations : list EffectRealizationAssessment.
Variable links : list EffectObligationLink.
Variable fulfillments : list ObligationDomainStateFulfillment.

(** The realization a confirmed outcome cites exists, is about the effect and
    is [VERIFIED]. *)
Definition realization_verified (effect_id : uuid) (item : ConfirmedOutcome) : bool :=
  match odict_get (co_realization_assessment_id item) (odict_of er_assessment_id realizations) with
  | Some r => bool_decide (er_effect_id r = effect_id) && bool_decide (er_disposition r = VERIFIED)
  | None => false
  end.

Definition current_fulfillments : list ObligationDomainStateFulfillment :=
  List.filter (fun item => bool_decide (fl_case_id item = os_case_id obligation_set)
                           && bool_decide (fl_authority_epoch item = os_authority_epoch obligation_set))
    fulfillments.

(** The body of the loop over [required.items()]. *)
Definition assess_obligation (g : gaps) (entry : uuid * AdministrativeObligation) : gaps :=
  let '(obligation_id, obligation) := entry in
  if bool_decide (ob_fulfillment_kind obligation = DOMAIN_STATE_VERIFIED) then
    match odict_get obligation_id (odict_of fl_obligation_id current_fulfillments) with
    | None => add_missing_domain_state g obligation_id
    | Some _ => g
    end
  else
    match odict_get obligation_id (odict_of ln_obligation_id links) with
    | None => add_uncovered g obligation_id
    | Some link =>
        match odict_get (ln_effect_id link) (odict_of ef_effect_id effects) with
        | None => add_uncovered g obligation_id
        | Some effect =>
            if negb (effect_implements effect obligation) then add_uncovered g obligation_id
            else
              let effect_outcomes :=
                List.filter (fun o => bool_decide (co_effect_id o = ef_effect_id effect)) outcomes in
              let g := if is_nil effect_outcomes then add_missing_confirmed g obligation_id else g in
              let required_kind := verified_kind obligation in
              let matching_outcomes :=
                List.filter (fun o => bool_decide (co_outcome_kind o = required_kind)) effect_outcomes in
              if is_nil matching_outcomes then add_missing_kind g required_kind
              else if negb (existsb (realization_verified (ef_effect_id effect)) matching_outcomes)
              then add_missing_realization g obligation_id
              else g
        end
    end.

Definition required_items : list (uuid * AdministrativeObligation) :=
  odict_of ob_obligation_id (List.filter ob_required (os_obligations obligation_set)).

Definition reason_if (missing : bool) (s : string) : list string := if missing then [s] else [].

(** [_assess_obligations] *)
Definition assess_obligations : CompletionAssessment :=
  let g := fold_left assess_obligation required_items no_gaps in
  let reasons :=
    reason_if (negb (is_nil (g_uncovered g)))
      "one or more required business obligations are not covered by an effect"
    ++ reason_if (negb (is_nil (g_missing_confirmed g)))
      "one or more required business obligations lack a confirmed outcome"
    ++ reason_if (negb (is_nil (g_missing_kinds g)))
      "one or more required business outcome kinds are not confirmed"
    ++ reason_if (negb (is_nil (g_missing_realizations g)))
      "one or more confirmed outcomes lack a verified realization for the same effect"
    ++ reason_if (negb (is_nil (g_missing_domain_state g)))
      "one or more required domain-state obligations lack verified Administrative state" in
  mkCompletionAssessment (uuid_str (os_requirement_id obligation_set)) (is_nil reasons)
    [] (g_missing_kinds g) (g_missing_confirmed g) (g_uncovered g) (g_missing_realizations g)
    (g_missing_domain_state g) (Some (os_governance_basis_id obligation_set)) reasons.

(** [_assess_legacy]: the loop over [zip(effects, required_outcome_kinds)]. *)
Definition assess_legacy_effect (g : list uuid * list string * list uuid)
    (entry : EffectRecord * string) : list uuid * list string * list uuid :=
  let '(missing_effect_ids, missing_outcome_kinds, missing_realizations) := g in
  let '(effect, expected_kind) := entry in
  let effect_outcomes :=
    List.filter (fun o => bool_decide (co_effect_id o = ef_effect_id effect)) outcomes in
  if is_nil effect_outcomes then
    (missing_effect_ids ++ [ef_effect_id effect], missing_outcome_kinds ++ [expected_kind],
     missing_realizations)
  else
    let matching := List.filter (fun o => bool_decide (co_outcome_kind o = expected_kind)) effect_outcomes in
    if is_nil matching then
      (missing_effect_ids, missing_outcome_kinds ++ [expected_kind], missing_realizations)
    else if negb (existsb (realization_verified (ef_effect_id effect)) matching) then
      (missing_effect_ids, missing_outcome_kinds, missing_realizations ++ [ef_effect_id effect])
    else g.

Definition assess_legacy : CompletionAssessment :=
  let requirement := onboarding_completion_requirement effects in
  let '(missing_effect_ids, missing_outcome_kinds, missing_realizations) :=
    fold_left assess_legacy_effect (zip effects (cr_required_outcome_kinds requirement)) ([], [], []) in
  let reasons :=
    reason_if (negb (is_nil missing_effect_ids)) "one or more planned effects lack a confirmed outcome"
    ++ reason_if (negb (is_nil missing_outcome_kinds))
      "one or more declared business outcomes are not confirmed"
    ++ reason_if (negb (is_nil missing_realizations))
      "one or more confirmed outcomes lack a verified realization for the same effect" in
  mkCompletionAssessment (cr_requirement_id requirement) (is_nil reasons)
    missing_effect_ids missing_outcome_kinds [] [] missing_realizations [] None reasons.
End assess.
Arguments assess_obligation : simpl never.
Arguments assess_legacy_effect : simpl never.

(** ** What it means for an obligation to be proven *)

Section proof_of_obligation.
Variable case_id : uuid.
Variable epoch : Z.
Variable effects : list EffectRecord.
Variable outcomes : list ConfirmedOutcome.
Variable realizations : list EffectRealizationAssessment.
Variable links : list EffectObligationLink.
Variable fulfillments : list ObligationDomainStateFulfillment.

(** An outcome of the effect, of the required kind, citing a verified
    realization of the same effect. *)
Definition outcome_proven (effect_id : uuid) (kind : string) : Prop :=
  exists outcome realization,
    outcome ∈ outcomes /\ co_effect_id outcome = effect_id /\ co_outcome_kind outcome = kind /\
    realization ∈ realizations /\ er_assessment_id realization = co_realization_assessment_id outcome /\
    er_effect_id realization = effect_id /\ er_disposition realization = VERIFIED.

Definition externally_proven (o : AdministrativeObligation) : Prop :=
  exists link effect,
    link ∈ links /\ ln_obligation_id link = ob_obligation_id o /\
    effect ∈ effects /\ ef_effect_id effect = ln_effect_id link /\
    effect_implements effect o = true /\ outcome_proven (ef_effect_id effect) (verified_kind o).

Definition domain_proven (o : AdministrativeObligation) : Prop :=
  exists f, f ∈ fulfillments /\ fl_obligation_id f = ob_obligation_id o /\
    fl_case_id f = case_id /\ fl_authority_epoch f = epoch.

Definition obligation_proven (o : AdministrativeObligation) : Prop :=
  match ob_fulfillment_kind o with
  | DOMAIN_STATE_VERIFIED => domain_proven o
  | EXTERNAL_EFFECT_VERIFIED => externally_proven o
  end.
End proof_of_obligation.

(** [assess_administrative_completion] *)
Definition assess_administrative_completion (obligation_set : AdministrativeObligationSet)
    (effects : list EffectRecord) (outcomes : list ConfirmedOutcome)
    (realizations : option (list EffectRealizationAssessment))
    (links : option (list EffectObligationLink))
    (fulfillments : option (list ObligationDomainStateFulfillment)) : CompletionAssessment :=
  assess_obligations obligation_set effects outcomes
    (default [] realizations) (default [] links) (default [] fulfillments).

(** [assess_onboarding_completion]: its first two arguments are unions. *)
Definition assess_onboarding_completion
    (requirement_or_effects : AdministrativeObligationSet + list EffectRecord)
    (effects_or_outcomes : list EffectRecord + list ConfirmedOutcome)
    (outcomes : option (list ConfirmedOutcome))
    (realizations : option (list EffectRealizationAssessment))
    (links : option (list EffectObligationLink))
    (fulfillments : option (list ObligationDomainStateFulfillment)) : result CompletionAssessment :=
  match requirement_or_effects, effects_or_outcomes with
  | inr legacy_effects, inr legacy_outcomes =>
      Ok (assess_legacy legacy_effects legacy_outcomes (default [] realizations))
  | inr legacy_effects, inl items =>
      refuse negb (is_nil items) with AssertionError saying "";;
      Ok (assess_legacy legacy_effects [] (default [] realizations))
  | inl obligation_set, _ =>
      match outcomes with
      | None => raise ValueError "obligation-backed completion requires confirmed outcomes"
      | Some outcomes =>
          match effects_or_outcomes with
          | inl effects =>
              Ok (assess_administrative_completion obligation_set effects outcomes
                    realizations links fulfillments)
          | inr items =>
              refuse negb (is_nil items) with TypeError
                saying "obligation-backed completion requires effect records";;
              Ok (assess_administrative_completion obligation_set [] outcomes
                    realizations links fulfillments)
          end
      end
  end.

(** ** Lemmas on the loop *)

Lemma ex_and_2 {A} (P Q : Prop) (R : A -> Prop) :
  (exists x, P /\ Q /\ R x) <-> P /\ Q /\ exists x, R x.
Proof. naive_solver. Qed.

Lemma snoc_nil {A} (l : list A) x : l ++ [x] <> [].
Proof. by destruct l. Qed.

Lemma add_uncovered_gap g i : add_uncovered g i <> no_gaps.
Proof. intros [=]. by eapply snoc_nil. Qed.
Lemma add_missing_kind_gap g i : add_missing_kind g i <> no_gaps.
Proof. intros [=]. by eapply snoc_nil. Qed.
Lemma add_missing_realization_gap g i : add_missing_realization g i <> no_gaps.
Proof. intros [=]. by eapply snoc_nil. Qed.
Lemma add_missing_domain_state_gap g i : add_missing_domain_state g i <> no_gaps.
Proof. intros [=]. by eapply snoc_nil. Qed.

Section assess_lemmas.
Variable effects : list EffectRecord.
Variable outcomes : list ConfirmedOutcome.
Variable realizations : list EffectRealizationAssessment.
Variable links : list EffectObligationLink.
Variable fulfillments : list ObligationDomainStateFulfillment.
Hypothesis effects_distinct : NoDup (ef_effect_id <$> effects).
Hypothesis realizations_distinct : NoDup (er_assessment_id <$> realizations).
Hypothesis links_distinct : NoDup (ln_obligation_id <$> links).
Hypothesis fulfillments_distinct : NoDup (fl_obligation_id <$> fulfillments).

Lemma realization_verified_spec effect_id item :
  realization_verified realizations effect_id item = true <->
  exists r, r ∈ realizations /\ er_assessment_id r = co_realization_assessment_id item /\
    er_effect_id r = effect_id /\ er_disposition r = VERIFIED.
Proof.
  unfold realization_verified. rewrite (odict_get_ex _ _ _ _ realizations_distinct).
  destruct (odict_get _ _) as [r|]; [|done].
  by rewrite andb_true_iff, !bool_decide_eq_true.
Qed.

Lemma outcomes_verified_spec effect_id kind :
  existsb (realization_verified realizations effect_id)
    (List.filter (fun o => bool_decide (co_outcome_kind o = kind))
       (List.filter (fun o => bool_decide (co_effect_id o = effect_id)) outcomes)) = true <->
  outcome_proven outcomes realizations effect_id kind.
Proof.
  rewrite existsb_elem_of. unfold outcome_proven.
  setoid_rewrite realization_verified_spec. setoid_rewrite elem_of_filter_bool.
  setoid_rewrite elem_of_filter_bool. setoid_rewrite bool_decide_eq_true. naive_solver.
Qed.

Lemma domain_assessed s id :
  odict_get id (odict_of fl_obligation_id (current_fulfillments s fulfillments)) <> None <->
  exists f, f ∈ fulfillments /\ fl_obligation_id f = id /\
    fl_case_id f = os_case_id s /\ fl_authority_epoch f = os_authority_epoch s.
Proof.
  assert (Hnd : NoDup (fl_obligation_id <$> current_fulfillments s fulfillments)).
  { by apply NoDup_fmap_filter. }
  split.
  - intros Hs. destruct (odict_get _ _) as [f|] eqn:E; [|done].
    apply odict_get_NoDup in E as [Hf Hid]; [|done].
    apply elem_of_filter_bool in Hf as [Hf HP]. propify. eauto.
  - intros (f & Hf & Hid & Hc & He) Hnone.
    assert (f ∈ current_fulfillments s fulfillments) as Hin.
    { apply elem_of_filter_bool. by rewrite !bool_decide_eq_true_2. }
    by rewrite (proj2 (odict_get_NoDup _ _ _ f Hnd) (conj Hin Hid)) in Hnone.
Qed.

Definition proven (s : AdministrativeObligationSet) : AdministrativeObligation -> Prop :=
  obligation_proven (os_case_id s) (os_authority_epoch s) effects outcomes realizations links
    fulfillments.

Lemma assess_obligation_ok s g o :
  assess_obligation s effects outcomes realizations links fulfillments g (ob_obligation_id o, o)
    = no_gaps <-> g = no_gaps /\ proven s o.
Proof.
  unfold assess_obligation, proven, obligation_proven.
  destruct (ob_fulfillment_kind o).
  - rewrite bool_decide_eq_false_2 by done. unfold externally_proven.
    setoid_rewrite ex_and_2. rewrite (odict_get_ex _ _ _ _ links_distinct).
    destruct (odict_get _ (odict_of ln_obligation_id links)) as [link|];
      [|split; [intros []%add_uncovered_gap|naive_solver]].
    rewrite (odict_get_ex _ _ _ _ effects_distinct).
    destruct (odict_get _ (odict_of ef_effect_id effects)) as [effect|] eqn:Heff;
      [|split; [intros []%add_uncovered_gap|naive_solver]].
    destruct (effect_implements effect o) eqn:Himp; cbn [negb];
      [|split; [intros []%add_uncovered_gap|naive_solver]].
    pose proof (outcomes_verified_spec (ef_effect_id effect) (verified_kind o)) as Hout.
    set (here := List.filter _ outcomes) in *.
    destruct (existsb _ _) eqn:Hex; cbn [negb].
    + destruct here as [|h here']; [done|]. cbn [is_nil].
      destruct (List.filter _ _); [done|]. cbn [is_nil]. naive_solver.
    + split; [|naive_solver].
      destruct (is_nil (List.filter _ here));
        [intros []%add_missing_kind_gap|intros []%add_missing_realization_gap].
  - rewrite bool_decide_eq_true_2 by done. unfold domain_proven. rewrite <- domain_assessed.
    destruct (odict_get _ _); [naive_solver|].
    split; [intros []%add_missing_domain_state_gap|naive_solver].
Qed.

Lemma assess_fold_ok s l g :
  fold_left (assess_obligation s effects outcomes realizations links fulfillments)
    ((fun o => (ob_obligation_id o, o)) <$> l) g = no_gaps <->
  g = no_gaps /\ forall o, o ∈ l -> proven s o.
Proof.
  revert g. induction l as [|o l IH]; intros g; cbn.
  - split; [intros ->; split; [done|by intros ? ?%not_elem_of_nil]|naive_solver].
  - rewrite IH, assess_obligation_ok. setoid_rewrite elem_of_cons. naive_solver.
Qed.
End assess_lemmas.

Lemma assess_satisfied_no_gaps s effects outcomes realizations links fulfillments :
  ca_satisfied (assess_obligations s effects outcomes realizations links fulfillments) = true <->
  fold_left (assess_obligation s effects outcomes realizations links fulfillments)
    (required_items s) no_gaps = no_gaps.
Proof.
  unfold assess_obligations. cbn [ca_satisfied].
  destruct (fold_left _ _ _) as [u c k r d]. cbn [g_uncovered g_missing_confirmed g_missing_kinds
    g_missing_realizations g_missing_domain_state].
  destruct u, c, k, r, d; cbn; naive_solver.
Qed.

Lemma assess_obligations_satisfied s effects outcomes realizations links fulfillments :
  NoDup (ob_obligation_id <$> List.filter ob_required (os_obligations s)) ->
  NoDup (ef_effect_id <$> effects) -> NoDup (er_assessment_id <$> realizations) ->
  NoDup (ln_obligation_id <$> links) -> NoDup (fl_obligation_id <$> fulfillments) ->
  ca_satisfied (assess_obligations s effects outcomes realizations links fulfillments) = true <->
  forall o, o ∈ os_obligations s -> ob_required o = true ->
    proven effects outcomes realizations links fulfillments s o.
Proof.
  intros Ho He Hr Hl Hf. rewrite assess_satisfied_no_gaps. unfold required_items.
  rewrite odict_of_NoDup, assess_fold_ok by done.
  setoid_rewrite elem_of_filter_bool. naive_solver.
Qed.

Lemma legacy_fold_ok outcomes realizations l g :
  NoDup (er_assessment_id <$> realizations) ->
  fold_left (assess_legacy_effect outcomes realizations) (zip l (effect_outcome_kind <$> l)) g
    = ([], [], []) <->
  g = ([], [], []) /\ forall e, e ∈ l ->
    outcome_proven outcomes realizations (ef_effect_id e) (effect_outcome_kind e).
Proof.
  intros Hr. revert g. induction l as [|e l IH]; intros g; cbn.
  { split; [intros ->; split; [done|by intros ? ?%not_elem_of_nil]|naive_solver]. }
  rewrite IH. setoid_rewrite elem_of_cons.
  pose proof (outcomes_verified_spec outcomes realizations Hr (ef_effect_id e)
                (effect_outcome_kind e)) as Hout.
  destruct g as [[a b] c]. unfold assess_legacy_effect.
  set (here := List.filter _ outcomes) in *.
  destruct (existsb _ _) eqn:Hex; cbn [negb].
  - destruct here as [|h here']; [done|]. cbn [is_nil].
    destruct (List.filter _ _); [done|]. cbn [is_nil]. naive_solver.
  - split; [intros [Hg _]; exfalso|naive_solver].
    repeat case_match; simplify_eq/=;
      match goal with H : ?x ++ [_] = [] |- _ => by apply snoc_nil in H end.
Qed.

(** ** Theorems *)

Section exactness.
Variable s : AdministrativeObligationSet.
Variable effects : list EffectRecord.
Variable realizations : list EffectRealizationAssessment.
Variable links : list EffectObligationLink.
Variable fulfillments : list ObligationDomainStateFulfillment.
(** The lists come from tables, keyed as the tables are. *)
Hypothesis obligations_distinct : NoDup (ob_obligation_id <$> os_obligations s).
Hypothesis effects_distinct : NoDup (ef_effect_id <$> effects).
Hypothesis realizations_distinct : NoDup (er_assessment_id <$> realizations).
Hypothesis links_distinct : NoDup (ln_obligation_id <$> links).
Hypothesis fulfillments_distinct : NoDup (fl_obligation_id <$> fulfillments).

(** The assessment is satisfied exactly when every required obligation is
    proven: a domain-state obligation by a fulfillment of the same case and
    epoch, an external one by a linked effect that implements it and has a
    confirmed outcome of the required kind citing a verified realization of that
    effect.  Neither kind of proof stands in for the other. *)
Theorem completion_exact (outcomes : list ConfirmedOutcome) :
  ca_satisfied (assess_administrative_completion s effects outcomes
                  (Some realizations) (Some links) (Some fulfillments)) = true <->
  forall o, o ∈ os_obligations s -> ob_required o = true ->
    obligation_proven (os_case_id s) (os_authority_epoch s) effects outcomes realizations links
      fulfillments o.
Proof. apply assess_obligations_satisfied; auto using NoDup_fmap_filter. Qed.

(** Evidence only adds up: a satisfied assessment stays satisfied when
    further outcomes are recorded. *)
Theorem completion_monotone (outcomes more : list ConfirmedOutcome) :
  outcomes ⊆ more ->
  ca_satisfied (assess_administrative_completion s effects outcomes
                  (Some realizations) (Some links) (Some fulfillments)) = true ->
  ca_satisfied (assess_administrative_completion s effects more
                  (Some realizations) (Some links) (Some fulfillments)) = true.
Proof.
  intros Hsub. unfold assess_administrative_completion. cbn [default].
  rewrite !assess_obligations_satisfied by auto using NoDup_fmap_filter.
  intros Hall o Ho Hreq. specialize (Hall o Ho Hreq). revert Hall.
  unfold proven, obligation_proven. destruct (ob_fulfillment_kind o); [|done].
  intros (l & e & ? & ? & ? & ? & ? & oc & r & Hoc & ?).
  exists l, e. split_and!; try done. exists oc, r. split; [by apply Hsub|done].
Qed.
End exactness.

(** The historical assessment by effects is satisfied exactly when every
    planned effect has a confirmed outcome of its own kind that cites a verified
    realization of the same effect. *)
Theorem legacy_completion_exact (effects : list EffectRecord) (outcomes : list ConfirmedOutcome)
    (realizations : list EffectRealizationAssessment) :
  NoDup (er_assessment_id <$> realizations) ->
  ca_satisfied (assess_legacy effects outcomes realizations) = true <->
  forall e, e ∈ effects ->
    outcome_proven outcomes realizations (ef_effect_id e) (effect_outcome_kind e).
Proof.
  intros Hr. unfold assess_legacy, onboarding_completion_requirement. cbn [cr_required_outcome_kinds].
  pose proof (legacy_fold_ok outcomes realizations effects ([], [], []) Hr) as Hg.
  destruct (fold_left _ _ _) as [[a b] c] eqn:Hfold. cbn [ca_satisfied].
  destruct a, b, c; cbn; naive_solver.
Qed.

(** Completion over stored records: for any state of the obligation
    repository, the assessment of the case's stored obligation set with its
    stored links and fulfillments is satisfied exactly when every required
    obligation of the set is proven; uniqueness of obligations, links and
    fulfillments is what the repository guarantees. *)
Theorem stored_completion_exact (db : ObligationDb) (case_id : uuid) (epoch : Z)
    (s : AdministrativeObligationSet) (fulfillments : list ObligationDomainStateFulfillment)
    (effects : list EffectRecord) (outcomes : list ConfirmedOutcome)
    (realizations : list EffectRealizationAssessment) :
  ob_reachable db ->
  get_current db case_id epoch = Ok (Some s) ->
  list_domain_state_fulfillments db case_id epoch = Ok fulfillments ->
  NoDup (ef_effect_id <$> effects) -> NoDup (er_assessment_id <$> realizations) ->
  ca_satisfied (assess_administrative_completion s effects outcomes (Some realizations)
                  (Some (list_links db case_id epoch)) (Some fulfillments)) = true <->
  forall o, o ∈ os_obligations s -> ob_required o = true ->
    obligation_proven case_id epoch effects outcomes realizations
      (list_links db case_id epoch) fulfillments o.
Proof.
  intros Hwf%reachable_wf Hcur Hful He Hr.
  destruct (get_current_case _ _ _ _ Hwf Hcur) as [<- <-].
  apply assess_obligations_satisfied; [|done|done|by apply list_links_NoDup|].
  - apply NoDup_fmap_filter. by eapply get_current_NoDup.
  - by eapply list_fulfillments_NoDup.
Qed.
