(* ===== verification/Verification.v ===== *)
(** * Verification of observed reality, [verification.py], [production_verification.py]
      and the observation model of [effect_provider.py]

    An observation of the authoritative system is compared with the frozen
    postcondition of an obligation.  [differences] is the dict the source builds,
    in its insertion order; a comparison that Python would refuse
    ([.items()] of a value that is no dict, [tuple()] of a number) raises. *)

From stdpp Require Import base gmap strings list.
From Stdlib Require Import ZArith Lia.
From Stdlib Require String.
From S2P Require Import Prelude Python CPython Store Domain.

Open Scope Z_scope.
Open Scope orch_scope.

(** ** Observations *)

Inductive ProviderExecutionStatus := PX_SUCCEEDED | PX_FAILED | PX_OUTCOME_UNKNOWN.

Record ProviderExecutionResult := mkProviderExecutionResult {
  px_status : ProviderExecutionStatus;
  px_provider_ref : option string;
  px_error : option string;
  px_retryable : bool;
}.

Inductive ObservationAvailability := AVAILABLE | UNAVAILABLE | AVAILABILITY_UNKNOWN.
Inductive ObservationPresence := PRESENT | ABSENT | PRESENCE_UNKNOWN.
Inductive ObservationFreshness := CURRENT | STALE | FRESHNESS_UNKNOWN.

#[global] Instance ProviderExecutionStatus_eq_dec : EqDecision ProviderExecutionStatus. Proof. solve_decision. Defined.
#[global] Instance ObservationAvailability_eq_dec : EqDecision ObservationAvailability. Proof. solve_decision. Defined.
#[global] Instance ObservationPresence_eq_dec : EqDecision ObservationPresence. Proof. solve_decision. Defined.
#[global] Instance ObservationFreshness_eq_dec : EqDecision ObservationFreshness. Proof. solve_decision. Defined.

Record RealityObservation := mkRealityObservation {
  ro_availability : ObservationAvailability;
  ro_presence : ObservationPresence;
  ro_freshness : ObservationFreshness;
  ro_target_system : string;
  ro_operation : string;
  ro_subject_ref : string;
  ro_provider_ref : option string;
  ro_state : pydict;
  ro_digest : option string;
  ro_observed_at : instant;
  ro_error_class : option string;
  ro_found : option bool;
}.

(** [map_legacy_found]: the input of the model when only [found] is given. *)
Definition map_legacy_found (presence : option ObservationPresence) (found : option (option bool))
  : ObservationPresence :=
  match presence, found with
  | Some p, _ => p
  | None, Some (Some true) => PRESENT
  | None, Some _ => ABSENT
  | None, None => PRESENCE_UNKNOWN
  end.

(** [fill_legacy_found] *)
Definition fill_legacy_found (o : RealityObservation) : RealityObservation :=
  match ro_found o with
  | Some _ => o
  | None =>
      mkRealityObservation (ro_availability o) (ro_presence o) (ro_freshness o)
        (ro_target_system o) (ro_operation o) (ro_subject_ref o) (ro_provider_ref o)
        (ro_state o) (ro_digest o) (ro_observed_at o) (ro_error_class o)
        (match ro_presence o with
         | PRESENT => Some true
         | ABSENT => Some false
         | PRESENCE_UNKNOWN => None
         end)
  end.

(** ** Semantic verification *)

Inductive VerificationDisposition :=
  | V_VERIFIED | V_ABSENT | V_MISMATCH | V_UNAVAILABLE | V_UNKNOWN | V_STALE.

#[global] Instance VerificationDisposition_eq_dec : EqDecision VerificationDisposition. Proof. solve_decision. Defined.

Record SemanticVerificationResult := mkSemanticVerificationResult {
  sv_disposition : VerificationDisposition;
  sv_reason : string;
  sv_differences : pydict;
}.

(** [type(v).__name__] *)
Definition type_name (v : pyval) : string :=
  match v with
  | VNone => "NoneType" | VBool _ => "bool" | VInt _ => "int" | VFloat _ _ => "float"
  | VStr _ => "str" | VList _ => "list" | VDict _ => "dict"
  end.

Definition difference (expected actual : pyval) : pyval :=
  VDict [("expected", expected); ("actual", actual)].

(** One key compared: [if actual != expected: differences[key] = {...}]. *)
Definition compare_field (key : string) (expected actual : pyval) (differences : pydict) : pydict :=
  if py_eq actual expected then differences
  else dict_set differences key (difference expected actual).

(** [expected.get(field, default)] *)
Definition dict_get_default (d : pydict) (k : string) (dflt : pyval) : pyval :=
  default dflt (assoc k d).

(** The identity of the effect: target system, operation and subject. *)
Definition compare_identity (effect : EffectRecord) (observation : RealityObservation)
    (expected differences : pydict) : pydict :=
  let differences := compare_field "target_system"
    (dict_get_default expected "target_system" (VStr (ef_target_system effect)))
    (VStr (ro_target_system observation)) differences in
  let differences := compare_field "operation"
    (dict_get_default expected "operation" (VStr (ef_operation effect)))
    (VStr (ro_operation observation)) differences in
  compare_field "subject_ref"
    (dict_get_default expected "subject_ref" (VStr (ef_subject_ref effect)))
    (VStr (ro_subject_ref observation)) differences.

(** The expected payload, field by field. *)
Definition compare_payload (expected state differences : pydict) : result pydict :=
  let expected_payload := dict_get_default expected "payload" (VDict []) in
  if truthy expected_payload then
    match dict_get state "payload" with
    | VDict payload =>
        match expected_payload with
        | VDict fields =>
            Ok (fold_left (fun ds kv => compare_field ("payload." +:+ fst kv) (snd kv)
                                          (dict_get payload (fst kv)) ds) fields differences)
        | v => raise AttributeError (type_name v +:+ " object has no attribute 'items'")
        end
    | payload =>
        Ok (dict_set differences "payload"
              (difference (VStr "mapping") (VStr (type_name payload))))
    end
  else Ok differences.

(** [tuple(v)] *)
Definition py_tuple (v : pyval) : result (list pyval) :=
  match v with
  | VList l => Ok l
  | VStr s => Ok ((fun c => VStr (String.String c "")) <$> String.list_ascii_of_string s)
  | VDict d => Ok ((fun kv => VStr (fst kv)) <$> d)
  | v => raise TypeError (type_name v +:+ " object is not iterable")
  end.

(** [_legacy_expected_postcondition] *)
Definition payload_fields : list string :=
  ["employee_ref"; "department_ref"; "manager_principal_id"; "start_date"; "employment_type"].

(** [{field: facts.get(field) for field in fields if facts.get(field) is not None}] *)
Definition present_facts (fields : list string) (facts : pydict) : pydict :=
  omap (fun f => match dict_get facts f with VNone => None | v => Some (f, v) end) fields.

Definition legacy_expected_postcondition (effect : EffectRecord) (facts : pydict) : pydict :=
  let expected :=
    [("target_system", VStr (ef_target_system effect));
     ("operation", VStr (ef_operation effect));
     ("subject_ref", VStr (ef_subject_ref effect));
     ("active", VBool true);
     ("payload", VDict (present_facts payload_fields facts))] in
  if bool_decide (ef_operation effect = "account.provision")
  then dict_set expected "requested_system" (VStr (ef_target_system effect))
  else expected.

(** The guards on availability, freshness and presence, in order; [None] when
    the observation establishes presence. *)
Definition observation_refusal (observation : RealityObservation)
    (unavailable no_availability stale no_freshness absent no_presence : string)
  : option SemanticVerificationResult :=
  match ro_availability observation with
  | UNAVAILABLE => Some (mkSemanticVerificationResult V_UNAVAILABLE unavailable [])
  | AVAILABILITY_UNKNOWN => Some (mkSemanticVerificationResult V_UNKNOWN no_availability [])
  | AVAILABLE =>
      match ro_freshness observation with
      | STALE => Some (mkSemanticVerificationResult V_STALE stale [])
      | FRESHNESS_UNKNOWN => Some (mkSemanticVerificationResult V_UNKNOWN no_freshness [])
      | CURRENT =>
          match ro_presence observation with
          | ABSENT => Some (mkSemanticVerificationResult V_ABSENT absent [])
          | PRESENCE_UNKNOWN => Some (mkSemanticVerificationResult V_UNKNOWN no_presence [])
          | PRESENT => None
          end
      end
  end.

Definition compare_active (expected state differences : pydict) : pydict :=
  match assoc "active" expected with
  | Some v => compare_field "active" v (dict_get state "active") differences
  | None => differences
  end.

Definition compare_employee (effect : EffectRecord) (state differences : pydict) : pydict :=
  match dict_get state "payload" with
  | VDict payload =>
      compare_field "payload.employee_ref" (VStr (ef_subject_ref effect))
        (dict_get payload "employee_ref") differences
  | _ => differences
  end.

Definition compare_requested (facts expected differences : pydict) : result pydict :=
  match dict_get expected "requested_system" with
  | VNone => Ok differences
  | expected_system =>
      let! requested := py_tuple (py_or (dict_get facts "requested_systems") (VList [])) in
      if negb (is_nil requested) && negb (existsb (fun v => py_eq v expected_system) requested)
      then Ok (dict_set differences "requested_systems"
                 (VDict [("expected_contains", expected_system); ("actual", VList requested)]))
      else Ok differences
  end.

Definition verify_onboarding_observation (effect : EffectRecord) (observation : RealityObservation)
    (facts : option pydict) (expected_postcondition : option pydict)
  : result SemanticVerificationResult :=
  match observation_refusal observation
          "authoritative reality source is currently unavailable"
          "observation did not establish whether authoritative reality was available"
          "authoritative observation is stale"
          "authoritative observation freshness is unknown"
          "authoritative source explicitly reports that the realization is absent"
          "observation does not establish realization presence" with
  | Some refusal => Ok refusal
  | None =>
      let expected := match expected_postcondition with
                      | Some ((_ :: _) as e) => e
                      | _ => legacy_expected_postcondition effect (default [] facts)
                      end in
      let state := ro_state observation in
      let differences := compare_identity effect observation expected [] in
      let differences := compare_active expected state differences in
      let! differences := compare_payload expected state differences in
      let differences := compare_employee effect state differences in
      let! differences := compare_requested (default [] facts) expected differences in
      if negb (is_nil differences) then
        Ok (mkSemanticVerificationResult V_MISMATCH
              "authoritative reality does not satisfy the frozen onboarding postcondition" differences)
      else
        Ok (mkSemanticVerificationResult V_VERIFIED
              "fresh authoritative reality satisfies the frozen onboarding postcondition" [])
  end.

(** [settlement in {"paid", "settled", "executed"}]: membership in a set hashes
    its operand first, so a list or a dict raises. *)
Definition settlement_reported (state : pydict) : result bool :=
  let! in_set :=
    match dict_get state "settlement" with
    | VStr s => Ok (bool_decide (s = "paid") || bool_decide (s = "settled") || bool_decide (s = "executed"))
    | VList _ => raise TypeError "unhashable type: 'list'"
    | VDict _ => raise TypeError "unhashable type: 'dict'"
    | _ => Ok false
    end in
  Ok (in_set || match dict_get state "settlement_executed" with VBool true => true | _ => false end).

Definition compare_settlement (expected state differences : pydict) : result pydict :=
  if py_eq (dict_get expected "settlement") (VStr "forbidden") then
    let! settled := settlement_reported state in
    if settled then
      Ok (dict_set differences "settlement"
            (difference (VStr "not settled") (py_or (dict_get state "settlement") (VBool true))))
    else Ok differences
  else Ok differences.

Definition verify_financial_observation (effect : EffectRecord) (observation : RealityObservation)
    (expected_postcondition : option pydict) : result SemanticVerificationResult :=
  match observation_refusal observation
          "authoritative ERP reality source is currently unavailable"
          "ERP observation did not establish authoritative availability"
          "authoritative ERP observation is stale"
          "ERP observation freshness is unknown"
          "authoritative ERP source reports that the preparation is absent"
          "ERP observation does not establish preparation presence" with
  | Some refusal => Ok refusal
  | None =>
      let expected := match expected_postcondition with
                      | Some ((_ :: _) as e) => e
                      | _ => [("target_system", VStr (ef_target_system effect));
                              ("operation", VStr (ef_operation effect));
                              ("subject_ref", VStr (ef_subject_ref effect))]
                      end in
      let state := ro_state observation in
      let differences := compare_identity effect observation expected [] in
      let! differences := compare_payload expected state differences in
      let! differences := compare_settlement expected state differences in
      if negb (is_nil differences) then
        Ok (mkSemanticVerificationResult V_MISMATCH
              "authoritative ERP reality does not satisfy the frozen preparation postcondition" differences)
      else
        Ok (mkSemanticVerificationResult V_VERIFIED
              "fresh authoritative ERP reality satisfies the frozen preparation postcondition" [])
  end.

(** ** Production readback, [production_verification.py] *)

Definition complete_readback_postcondition (expected : pydict) (observed : option pydict) : pydict :=
  let completed := default [] observed in
  match dict_get expected "payload" with
  | VDict payload =>
      if dict_has completed "payload" then completed
      else dict_set completed "payload" (VDict payload)
  | _ => completed
  end.

Definition readback_satisfies_expected (expected : pydict) (observed : option pydict) : bool :=
  match observed with
  | None => false
  | Some o => forallb (fun kv => py_eq (dict_get o (fst kv)) (snd kv)) expected
  end.

(** ** Specification *)

(** The observation establishes that the realization is there, now. *)
Definition established (o : RealityObservation) : Prop :=
  ro_availability o = AVAILABLE /\ ro_freshness o = CURRENT /\ ro_presence o = PRESENT.

Section agreement.
Variable effect : EffectRecord.
Variable observation : RealityObservation.
Variables expected facts : pydict.
Let state := ro_state observation.

Definition identity_agrees : Prop :=
  py_eq (VStr (ro_target_system observation))
    (dict_get_default expected "target_system" (VStr (ef_target_system effect))) = true /\
  py_eq (VStr (ro_operation observation))
    (dict_get_default expected "operation" (VStr (ef_operation effect))) = true /\
  py_eq (VStr (ro_subject_ref observation))
    (dict_get_default expected "subject_ref" (VStr (ef_subject_ref effect))) = true.

Definition active_agrees : Prop :=
  forall v, assoc "active" expected = Some v -> py_eq (dict_get state "active") v = true.

(** Every expected payload field is in the observed payload, with its value. *)
Definition payload_agrees : Prop :=
  truthy (dict_get_default expected "payload" (VDict [])) = true ->
  exists payload fields,
    dict_get state "payload" = VDict payload /\
    dict_get_default expected "payload" (VDict []) = VDict fields /\
    forall k v, (k, v) ∈ fields -> py_eq (dict_get payload k) v = true.

Definition employee_agrees : Prop :=
  forall payload, dict_get state "payload" = VDict payload ->
    py_eq (dict_get payload "employee_ref") (VStr (ef_subject_ref effect)) = true.

Definition requested_agrees : Prop :=
  dict_get expected "requested_system" = VNone \/
  exists requested,
    py_tuple (py_or (dict_get facts "requested_systems") (VList [])) = Ok requested /\
    (requested = [] \/
     exists v, v ∈ requested /\ py_eq v (dict_get expected "requested_system") = true).

(** The ERP reports no settlement where the postcondition forbids one. *)
Definition settlement_agrees : Prop :=
  py_eq (dict_get expected "settlement") (VStr "forbidden") = true ->
  settlement_reported state = Ok false.
End agreement.

(** ** Lemmas *)

Lemma dict_set_not_nil {A} (d : list (string * A)) k v : dict_set d k v <> [].
Proof. destruct d as [|[k' w] d]; cbn; [done|]. by destruct (String.eqb k k'). Qed.

Lemma compare_field_nil k e a ds : compare_field k e a ds = [] <-> ds = [] /\ py_eq a e = true.
Proof.
  unfold compare_field. destruct (py_eq a e); [naive_solver|].
  split; [intros []%dict_set_not_nil|naive_solver].
Qed.

Lemma compare_identity_nil effect obs expected ds :
  compare_identity effect obs expected ds = [] <-> ds = [] /\ identity_agrees effect obs expected.
Proof. unfold compare_identity, identity_agrees. rewrite !compare_field_nil. naive_solver. Qed.

Lemma compare_active_nil obs expected ds :
  compare_active expected (ro_state obs) ds = [] <-> ds = [] /\ active_agrees obs expected.
Proof.
  unfold compare_active, active_agrees.
  destruct (assoc "active" expected); [rewrite compare_field_nil|]; naive_solver.
Qed.

Lemma compare_employee_nil effect obs ds :
  compare_employee effect (ro_state obs) ds = [] <-> ds = [] /\ employee_agrees effect obs.
Proof.
  unfold compare_employee, employee_agrees.
  destruct (dict_get (ro_state obs) "payload"); try rewrite compare_field_nil; naive_solver.
Qed.

Lemma compare_fields_nil payload fields ds :
  fold_left (fun ds kv => compare_field ("payload." +:+ fst kv) (snd kv)
                            (dict_get payload (fst kv)) ds) fields ds = [] <->
  ds = [] /\ forall k v, (k, v) ∈ fields -> py_eq (dict_get payload k) v = true.
Proof.
  revert ds. induction fields as [|[k v] fields IH]; intros ds; cbn [fold_left fst snd].
  - split; [intros ->; split; [done|by intros ? ? ?%not_elem_of_nil]|naive_solver].
  - rewrite IH, compare_field_nil. setoid_rewrite elem_of_cons. naive_solver.
Qed.

Lemma compare_payload_nil obs expected ds :
  compare_payload expected (ro_state obs) ds = Ok [] <-> ds = [] /\ payload_agrees obs expected.
Proof.
  unfold compare_payload, payload_agrees.
  destruct (truthy _) eqn:Et; [|naive_solver].
  destruct (dict_get (ro_state obs) "payload") as [| | | | | |payload];
    try (split; [intros [= []%dict_set_not_nil]|naive_solver]).
  destruct (dict_get_default expected "payload" (VDict [])) as [| | | | | |fields];
    try (split; [done|naive_solver]).
  split; [intros [= H%compare_fields_nil]; naive_solver|].
  intros [-> H]. f_equal. apply compare_fields_nil. naive_solver.
Qed.

Lemma compare_requested_nil facts expected ds :
  compare_requested facts expected ds = Ok [] <-> ds = [] /\ requested_agrees expected facts.
Proof.
  unfold compare_requested, requested_agrees.
  generalize (dict_get expected "requested_system"). intros sys.
  assert (Hgo : sys <> VNone ->
    (let! requested := py_tuple (py_or (dict_get facts "requested_systems") (VList [])) in
     if negb (is_nil requested) && negb (existsb (fun v => py_eq v sys) requested)
     then Ok (dict_set ds "requested_systems"
                (VDict [("expected_contains", sys); ("actual", VList requested)]))
     else Ok ds) = Ok [] <->
    ds = [] /\ (sys = VNone \/ exists requested,
      py_tuple (py_or (dict_get facts "requested_systems") (VList [])) = Ok requested /\
      (requested = [] \/ exists v, v ∈ requested /\ py_eq v sys = true))).
  { intros Hsys. destruct (py_tuple _) as [requested|ex]; cbn [rbind]; [|naive_solver].
    destruct (is_nil requested) eqn:En; cbn [negb andb];
      [apply is_nil_true in En; naive_solver|apply is_nil_false in En].
    destruct (existsb _ _) eqn:Ex; cbn [negb].
    - apply existsb_elem_of in Ex. split; [intros [= ->]; eauto 10|by intros [-> _]].
    - split; [intros [= []%dict_set_not_nil]|].
      intros [_ [?|(req & [= <-] & [?|Hv%existsb_elem_of])]]; [done|done|]. congruence. }
  destruct sys; [naive_solver|by apply Hgo..].
Qed.

Lemma compare_settlement_nil obs expected ds :
  compare_settlement expected (ro_state obs) ds = Ok [] <-> ds = [] /\ settlement_agrees obs expected.
Proof.
  unfold compare_settlement, settlement_agrees. destruct (py_eq _ _); [|naive_solver].
  destruct (settlement_reported _) as [[]|e]; cbn [rbind]; try naive_solver.
  split; [intros [= []%dict_set_not_nil]|naive_solver].
Qed.

Lemma observation_refusal_spec o a b c d e f :
  match observation_refusal o a b c d e f with
  | None => established o
  | Some r => ~ established o /\ sv_disposition r <> V_VERIFIED
  end.
Proof.
  unfold observation_refusal, established.
  destruct (ro_availability o), (ro_freshness o), (ro_presence o); cbn; naive_solver.
Qed.

(** A verified ERP observation reports no settlement that was forbidden. *)
Lemma financial_verified_settlement effect obs expected r :
  verify_financial_observation effect obs (Some expected) = Ok r ->
  sv_disposition r = V_VERIFIED ->
  py_eq (dict_get expected "settlement") (VStr "forbidden") = true ->
  settlement_reported (ro_state obs) = Ok false.
Proof.
  unfold verify_financial_observation. intros Hv Hd Hs.
  match goal with H : context [observation_refusal ?a ?b ?c ?d ?e ?f ?g] |- _ =>
    pose proof (observation_refusal_spec a b c d e f g) as Hspec;
    destruct (observation_refusal a b c d e f g) end; [naive_solver|].
  destruct expected as [|kv rest]; [done|]. inv_ok.
  destruct v0; cbn [is_nil negb] in Hv; simplify_eq/=.
  apply compare_settlement_nil in E0 as [_ Hagree]. by apply Hagree.
Qed.

Lemma onboarding_verified_spec (effect : EffectRecord) (obs : RealityObservation)
    (facts : option pydict) (k0 : string) (v0 : pyval) (rest : pydict) :
  let expected := (k0, v0) :: rest in
  (exists r, verify_onboarding_observation effect obs facts (Some expected) = Ok r /\
             sv_disposition r = V_VERIFIED) <->
  established obs /\ identity_agrees effect obs expected /\ active_agrees obs expected /\
  payload_agrees obs expected /\ employee_agrees effect obs /\
  requested_agrees expected (default [] facts).
Proof.
  intros expected. unfold verify_onboarding_observation.
  pose proof (observation_refusal_spec obs
    "authoritative reality source is currently unavailable"
    "observation did not establish whether authoritative reality was available"
    "authoritative observation is stale" "authoritative observation freshness is unknown"
    "authoritative source explicitly reports that the realization is absent"
    "observation does not establish realization presence") as Hspec.
  destruct (observation_refusal _ _ _ _ _ _ _) as [r|]; [naive_solver|].
  fold expected.
  pose proof (compare_requested_nil (default [] facts) expected) as Hreq.
  pose proof (compare_payload_nil obs expected) as Hpay.
  pose proof (compare_employee_nil effect obs) as Hemp.
  pose proof (compare_active_nil obs expected) as Hact.
  pose proof (compare_identity_nil effect obs expected []) as Hid.
  split.
  - intros (r & Hr & Hd). inv_ok.
    destruct v1; cbn [is_nil negb] in Hr; simplify_eq/=.
    apply Hreq in E0 as [E0 ?]. apply Hemp in E0 as [-> ?].
    apply Hpay in E as [E ?]. apply Hact in E as [E ?]. apply Hid in E as [_ ?]. done.
  - intros (_ & Hi & Ha & Hp & He & Hq).
    rewrite (proj2 (Hpay _)) by (split; [|done]; apply Hact; split; [|done]; by apply Hid).
    cbn [rbind]. rewrite (proj2 (Hreq _)) by (split; [by apply Hemp|done]). by eexists.
Qed.

(** ** Theorems *)

(** An onboarding effect is declared verified exactly when the observation
    is available, current and present, and agrees with the frozen postcondition
    on the effect's identity, the active flag, every payload field, the
    employee and the requested system. *)
Theorem onboarding_verified_exact (effect : EffectRecord) (obs : RealityObservation)
    (facts : option pydict) (k0 : string) (v0 : pyval) (rest : pydict) :
  let expected := (k0, v0) :: rest in
  (exists r, verify_onboarding_observation effect obs facts (Some expected) = Ok r /\
             sv_disposition r = V_VERIFIED) <->
  established obs /\ identity_agrees effect obs expected /\ active_agrees obs expected /\
  payload_agrees obs expected /\ employee_agrees effect obs /\
  requested_agrees expected (default [] facts).
Proof. apply onboarding_verified_spec. Qed.

(** An ERP preparation is declared verified exactly when the observation
    is available, current and present, agrees on identity and payload, and, where
    the postcondition forbids settlement, reports none.  In particular a paid,
    settled or executed transaction never verifies. *)
Theorem financial_verified_exact (effect : EffectRecord) (obs : RealityObservation)
    (k0 : string) (v0 : pyval) (rest : pydict) :
  let expected := (k0, v0) :: rest in
  (exists r, verify_financial_observation effect obs (Some expected) = Ok r /\
             sv_disposition r = V_VERIFIED) <->
  established obs /\ identity_agrees effect obs expected /\ payload_agrees obs expected /\
  settlement_agrees obs expected.
Proof.
  intros expected. unfold verify_financial_observation.
  pose proof (observation_refusal_spec obs
    "authoritative ERP reality source is currently unavailable"
    "ERP observation did not establish authoritative availability"
    "authoritative ERP observation is stale" "ERP observation freshness is unknown"
    "authoritative ERP source reports that the preparation is absent"
    "ERP observation does not establish preparation presence") as Hspec.
  destruct (observation_refusal _ _ _ _ _ _ _) as [r|]; [naive_solver|].
  fold expected.
  pose proof (compare_settlement_nil obs expected) as Hset.
  pose proof (compare_payload_nil obs expected) as Hpay.
  pose proof (compare_identity_nil effect obs expected []) as Hid.
  split.
  - intros (r & Hr & Hd). inv_ok.
    destruct v1; cbn [is_nil negb] in Hr; simplify_eq/=.
    apply Hset in E0 as [-> ?]. apply Hpay in E as [E ?]. apply Hid in E as [_ ?]. done.
  - intros (_ & Hi & Hp & Hs).
    rewrite (proj2 (Hpay _)) by (split; [by apply Hid|done]).
    cbn [rbind]. rewrite (proj2 (Hset _)) by done. by eexists.
Qed.

(** Completing a provider readback never hides a mismatch: the completed
    readback satisfies the frozen postcondition exactly when the provider itself
    returned every expected value, the payload excepted where the provider
    returned none. *)
Theorem readback_completion_exact (expected observed : pydict) :
  keys_distinct (VDict expected) = true ->
  readback_satisfies_expected expected
    (Some (complete_readback_postcondition expected (Some observed))) = true <->
  forall k v, (k, v) ∈ expected ->
    py_eq (dict_get observed k) v = true \/
    (k = "payload" /\ dict_has observed "payload" = false /\ exists d, v = VDict d).
Proof.
  intros Hk. pose proof Hk as Hk'. cbn in Hk'. apply andb_true_iff in Hk' as [Hnd Hvals].
  apply bool_decide_eq_true in Hnd. rewrite forallb_elem_of in Hvals.
  unfold readback_satisfies_expected. rewrite forallb_elem_of.
  unfold complete_readback_postcondition. cbn [default from_option id].
  assert (Hsame : (forall kv, kv ∈ expected -> py_eq (dict_get observed kv.1) kv.2 = true) <->
                  (forall k v, (k, v) ∈ expected -> py_eq (dict_get observed k) v = true)).
  { split; [intros H k v Hin; by apply (H (k, v))|intros H [k v] Hin; by apply H]. }
  destruct (dict_get expected "payload") as [| | | | | |p] eqn:Ep;
    [cbv beta; rewrite Hsame; split; [naive_solver|];
     intros H k v Hin; destruct (H k v Hin) as [?|(-> & _ & d & ->)]; [done|];
     unfold dict_get in Ep; by rewrite (assoc_NoDup expected "payload" (VDict d) Hnd Hin) in Ep..|].
  destruct (dict_has observed "payload") eqn:Eh; [cbv beta iota zeta; rewrite Hsame; naive_solver|].
  split.
  - intros H k v Hin. specialize (H (k, v) Hin). cbn [fst snd] in H. revert H.
    unfold dict_get. rewrite assoc_dict_set. case_bool_decide as Hkp; [subst k|auto].
    intros _. right. split_and!; try done. exists p.
    unfold dict_get in Ep. by rewrite (assoc_NoDup expected "payload" v Hnd Hin) in Ep.
  - intros H [k v] Hin. cbn [fst snd]. unfold dict_get. rewrite assoc_dict_set.
    case_bool_decide as Hkp.
    + subst k. unfold dict_get in Ep. rewrite (assoc_NoDup expected "payload" v Hnd Hin) in Ep.
      cbn in Ep. subst v. cbn [default]. apply py_eq_refl. apply (Hvals _ Hin).
    + destruct (H k v Hin) as [?|(? & _)]; [done|by destruct Hkp].
Qed.
