(* ===== verification/Transfer.v ===== *)
(** * Transfer of responsibilities, [transfer.py]

    When an employee leaves, each of their current role assignments becomes a
    transfer requirement: revoke-only, or to be transferred to a successor whose
    qualification is assessed against the authority model.  The repository keeps
    the requirements and moves a qualified one to [FULFILLED]. *)

From stdpp Require Import base gmap strings list.
From Stdlib Require Import ZArith Lia.
From S2P Require Import Prelude Python CPython Store Domain Policy Authority.

Open Scope Z_scope.
Open Scope orch_scope.

Inductive TransferMode := REVOKE_ONLY | TRANSFER_REQUIRED.

Inductive TransferRequirementStatus :=
  | READY_TO_REVOKE | SUCCESSOR_MISSING | SUCCESSOR_UNQUALIFIED
  | SUCCESSOR_QUALIFIED | TRANSFER_FULFILLED.

#[global] Instance TransferMode_eq_dec : EqDecision TransferMode. Proof. solve_decision. Defined.
#[global] Instance TransferRequirementStatus_eq_dec : EqDecision TransferRequirementStatus. Proof. solve_decision. Defined.

Record AdministrativeTransferRequirement := mkTransferRequirement {
  tr_requirement_id : uuid;
  tr_case_id : uuid;
  tr_authority_epoch : Z;
  tr_governance_basis_id : uuid;
  tr_departing_principal_id : string;
  tr_relationship_kind : string;
  tr_relationship_ref : uuid;
  tr_role : string;
  tr_organization_scope : string;
  tr_transfer_mode : TransferMode;
  tr_successor_principal_id : option string;
  tr_effective_at : instant;
  tr_status : TransferRequirementStatus;
  tr_qualification_reason : string;
  tr_created_at : instant;
}.

(** [validate_status] *)
Definition TransferRequirement_validate (r : AdministrativeTransferRequirement)
  : result AdministrativeTransferRequirement :=
  refuse bool_decide (tr_status r ∈ [SUCCESSOR_UNQUALIFIED; SUCCESSOR_QUALIFIED; TRANSFER_FULFILLED])
         && bool_decide (tr_successor_principal_id r = None)
    with ValueError saying "successor status requires successor_principal_id";;
  refuse bool_decide (tr_transfer_mode r = REVOKE_ONLY) && bool_decide (tr_status r <> READY_TO_REVOKE)
    with ValueError saying "revoke-only requirement must be ready_to_revoke";;
  Ok r.

Abbreviation TransferDb := (gmap uuid AdministrativeTransferRequirement) (only parsing).

(** [_from_row] rebuilds the model and so runs its validator. *)
Definition transfer_from_row (row : AdministrativeTransferRequirement)
  : result AdministrativeTransferRequirement := TransferRequirement_validate row.

(** [_semantics]: every field but [created_at]. *)
Definition transfer_semantics (r : AdministrativeTransferRequirement) :=
  (tr_requirement_id r, tr_case_id r, tr_authority_epoch r, tr_governance_basis_id r,
   tr_departing_principal_id r, tr_relationship_kind r, tr_relationship_ref r, tr_role r,
   tr_organization_scope r, tr_transfer_mode r, tr_successor_principal_id r, tr_effective_at r,
   tr_status r, tr_qualification_reason r).

Definition put_transfer (db : TransferDb) (requirement : AdministrativeTransferRequirement)
  : result TransferDb :=
  match db !! tr_requirement_id requirement with
  | Some row =>
      let! restored := transfer_from_row row in
      refuse bool_decide (transfer_semantics restored <> transfer_semantics requirement)
        with TransferError saying "transfer requirement id already exists with different semantics";;
      Ok db
  | None => Ok (<[tr_requirement_id requirement := requirement]> db)
  end.

Definition put_all (db : TransferDb) (requirements : list AdministrativeTransferRequirement)
  : result (list AdministrativeTransferRequirement * TransferDb) :=
  let! db' := for_each put_transfer requirements db in
  Ok (requirements, db').

Definition list_for_case (db : TransferDb) (case_id : uuid) (authority_epoch : Z)
  : result (list AdministrativeTransferRequirement) :=
  traverse transfer_from_row
    (sort_by (fun a b =>
       cmp_then (String.compare (tr_relationship_kind a) (tr_relationship_kind b))
         (cmp_then (String.compare (tr_role a) (tr_role b))
            (N.compare (tr_relationship_ref a) (tr_relationship_ref b))))
       (select_where (fun r => bool_decide (tr_case_id r = case_id)
                               && bool_decide (tr_authority_epoch r = authority_epoch)) db)).

Definition set_fulfilled (r : AdministrativeTransferRequirement) : AdministrativeTransferRequirement :=
  mkTransferRequirement (tr_requirement_id r) (tr_case_id r) (tr_authority_epoch r)
    (tr_governance_basis_id r) (tr_departing_principal_id r) (tr_relationship_kind r)
    (tr_relationship_ref r) (tr_role r) (tr_organization_scope r) (tr_transfer_mode r)
    (tr_successor_principal_id r) (tr_effective_at r) TRANSFER_FULFILLED
    "qualified successor role is current in the required organization scope" (tr_created_at r).

Definition mark_fulfilled (db : TransferDb) (requirement_id : uuid) (successor_principal_id : string)
  : result (AdministrativeTransferRequirement * TransferDb) :=
  match db !! requirement_id with
  | None => raise TransferError "transfer requirement does not exist"
  | Some row =>
      let! current := transfer_from_row row in
      refuse bool_decide (tr_transfer_mode current <> TRANSFER_REQUIRED) with TransferError
        saying "revoke-only requirement cannot be marked transferred";;
      refuse bool_decide (tr_successor_principal_id current <> Some successor_principal_id)
        with TransferError saying "transfer fulfillment successor does not match qualification";;
      if bool_decide (tr_status current = TRANSFER_FULFILLED) then Ok (current, db) else
      refuse bool_decide (tr_status current <> SUCCESSOR_QUALIFIED) with TransferError
        saying "transfer requirement lacks a qualified successor";;
      let! updated := transfer_from_row (set_fulfilled row) in
      Ok (updated, <[requirement_id := set_fulfilled row]> db)
  end.

(** ** Derivation *)

(** [_qualify_successor] *)
Definition qualify_successor (authority : AuthorityDb) (departing_principal_id : string)
    (successor_principal_id : option string) (organization_scope : string) (at_ : instant)
  : result (TransferRequirementStatus * string) :=
  match successor_principal_id with
  | None => Ok (SUCCESSOR_MISSING, "policy requires a successor but no successor principal was supplied")
  | Some successor =>
      if bool_decide (successor = departing_principal_id) then
        Ok (SUCCESSOR_UNQUALIFIED, "successor cannot be the departing principal")
      else match get_principal authority successor with
      | None => Ok (SUCCESSOR_UNQUALIFIED, "successor principal does not exist or is inactive")
      | Some _ =>
          let! roles := roles_for authority successor organization_scope at_ in
          if bool_decide (roles = ∅) then
            Ok (SUCCESSOR_UNQUALIFIED,
                "successor has no current authority in the required organization scope")
          else
            Ok (SUCCESSOR_QUALIFIED,
                "successor is active, distinct, and current in the required organization scope")
      end
  end.

Section derive.
Context `{Platform}.

(** [str(facts.get(key) or "").strip()] *)
Definition fact_text (facts : pydict) (key : string) : string :=
  strip (py_str (py_or (dict_get facts key) (VStr ""))).

(** [normalize_datetime(datetime.fromisoformat(str(facts[key]).replace("Z", "+00:00")))],
    [None] standing for the [KeyError] or [ValueError] the callers catch. *)
Definition fact_instant (facts : pydict) (key : string) : option instant :=
  match assoc key facts with
  | None => None
  | Some v => normalize_datetime <$> fromisoformat (replace_Z (py_str v))
  end.

Definition transfer_requirement_id (c : AdministrativeCase) (governance_basis_id assignment_id : uuid) : uuid :=
  uuid5 ("administrative:transfer:" +:+ uuid_str (c_case_id c) +:+ ":" +:+ int_str (c_authority_epoch c)
         +:+ ":" +:+ uuid_str governance_basis_id +:+ ":role_assignment:" +:+ uuid_str assignment_id).

(** One iteration of the loop over the current role assignments. *)
Definition derive_transfer_requirement (c : AdministrativeCase) (d : OffboardingPolicyDefinition)
    (authority : AuthorityDb) (governance_basis_id : uuid) (departing : string)
    (successor : option string) (effective_at now : instant) (assignment : RoleAssignment)
  : result AdministrativeTransferRequirement :=
  let! (mode, (status, reason)) :=
    if bool_decide (ra_role assignment ∈ off_transfer_required_roles d) then
      let! q := qualify_successor authority departing successor (ra_organization_scope assignment)
                  effective_at in
      Ok (TRANSFER_REQUIRED, q)
    else if bool_decide (ra_role assignment ∈ off_revoke_only_roles d) then
      Ok (REVOKE_ONLY, (READY_TO_REVOKE, "policy classifies the role as revoke-only"))
    else
      raise TransferError ("offboarding policy does not classify current role '"
                           +:+ ra_role assignment +:+ "'") in
  TransferRequirement_validate
    (mkTransferRequirement (transfer_requirement_id c governance_basis_id (ra_assignment_id assignment))
       (c_case_id c) (c_authority_epoch c) governance_basis_id departing "role_assignment"
       (ra_assignment_id assignment) (ra_role assignment) (ra_organization_scope assignment) mode
       (if bool_decide (mode = TRANSFER_REQUIRED) then successor else None)
       effective_at status reason now).

Definition derive_transfer_requirements (c : AdministrativeCase) (d : OffboardingPolicyDefinition)
    (authority : AuthorityDb) (governance_basis_id : uuid) (now : instant)
  : result (list AdministrativeTransferRequirement) :=
  refuse bool_decide (c_case_kind c <> "employee-offboarding") with TransferError
    saying "transfer requirements require employee-offboarding case";;
  match c_fact_snapshot c with
  | None => raise TransferError "transfer requirements require current facts"
  | Some snapshot =>
      let facts := fs_facts snapshot in
      let departing := fact_text facts "departing_principal_id" in
      refuse negb (nonempty departing) with TransferError saying "departing_principal_id is required";;
      match fact_instant facts (off_effective_time_fact d) with
      | None => raise TransferError "qualified termination effective time is required"
      | Some effective_at =>
          let successor_text := fact_text facts "successor_principal_id" in
          let successor := if nonempty successor_text then Some successor_text else None in
          traverse (derive_transfer_requirement c d authority governance_basis_id departing
                      successor effective_at now)
            (list_current_role_assignments authority departing effective_at)
      end
  end.
End derive.

(** ** Lemmas *)

Definition transfer_valid (r : AdministrativeTransferRequirement) : Prop :=
  (tr_status r ∈ [SUCCESSOR_UNQUALIFIED; SUCCESSOR_QUALIFIED; TRANSFER_FULFILLED] ->
     tr_successor_principal_id r <> None) /\
  (tr_transfer_mode r = REVOKE_ONLY -> tr_status r = READY_TO_REVOKE).

Lemma transfer_validate_Ok r r' : TransferRequirement_validate r = Ok r' <-> r' = r /\ transfer_valid r.
Proof.
  unfold TransferRequirement_validate, transfer_valid.
  rewrite !rbind_guard_Ok, !refuse_pair. split.
  - intros (H1 & H2 & [= ->]). split_and!; [done..|]. intros Hm. by apply dec_stable, H2.
  - intros (-> & H1 & H2). split_and!; [done| |done]. intros Hm Hn. by apply Hn, H2.
Qed.

(** The successor may take over: active, another person, with some authority
    in the scope at that time. *)
Definition successor_qualifies (authority : AuthorityDb) (departing successor scope : string)
    (at_ : instant) : Prop :=
  successor <> departing /\ (exists p, get_principal authority successor = Some p) /\
  exists roles, roles_for authority successor scope at_ = Ok roles /\ roles <> ∅.

Lemma qualify_successor_spec authority departing successor scope at_ status reason :
  qualify_successor authority departing successor scope at_ = Ok (status, reason) ->
  (status = SUCCESSOR_QUALIFIED <->
     exists s, successor = Some s /\ successor_qualifies authority departing s scope at_) /\
  (status = SUCCESSOR_MISSING <-> successor = None) /\
  (status = SUCCESSOR_MISSING \/ status = SUCCESSOR_UNQUALIFIED \/ status = SUCCESSOR_QUALIFIED).
Proof.
  unfold qualify_successor, successor_qualifies. intros Hq.
  destruct successor as [s|]; [|simplify_eq; naive_solver].
  case_bool_decide; [simplify_eq; naive_solver|].
  destruct (get_principal authority s) as [p|] eqn:Ep; [|simplify_eq; naive_solver].
  inv_ok. case_bool_decide; simplify_eq; (split; [|naive_solver]); split.
  - done.
  - intros (s' & [= <-] & _ & _ & roles & Hroles & Hne). congruence.
  - eauto 10.
  - done.
Qed.

Lemma derive_one_spec `{Platform} c d authority gb departing successor effective_at now a r :
  derive_transfer_requirement c d authority gb departing successor effective_at now a = Ok r ->
  transfer_valid r /\
  tr_relationship_ref r = ra_assignment_id a /\ tr_role r = ra_role a /\
  tr_organization_scope r = ra_organization_scope a /\ tr_departing_principal_id r = departing /\
  (tr_transfer_mode r = TRANSFER_REQUIRED <-> ra_role a ∈ off_transfer_required_roles d) /\
  (tr_transfer_mode r = REVOKE_ONLY ->
     ra_role a ∈ off_revoke_only_roles d /\ tr_status r = READY_TO_REVOKE) /\
  (tr_status r = SUCCESSOR_QUALIFIED <->
     tr_transfer_mode r = TRANSFER_REQUIRED /\
     exists s, successor = Some s /\
       successor_qualifies authority departing s (ra_organization_scope a) effective_at) /\
  tr_status r <> TRANSFER_FULFILLED.
Proof.
  unfold derive_transfer_requirement. intros Hr. inv_ok.
  destruct v as [mode [status reason]]. apply transfer_validate_Ok in Hr as [-> Hv].
  split; [done|]. cbn. repeat case_bool_decide; inv_ok; simplify_eq.
  - apply qualify_successor_spec in E0 as (Hq & _ & Hs).
    split_and!; try done; [|destruct Hs as [->|[->| ->]]; done].
    rewrite Hq. split; [done|by intros [_ ?]].
  - split_and!; try done. split; [done|by intros [? _]].
Qed.

(** ** Theorems *)

(** The derived transfer requirements cover the departing principal's
    current role assignments one by one, in order, and every role is classified
    by the policy; a requirement is qualified exactly when its role must be
    transferred and the proposed successor is active, another person and holds
    authority in the role's scope at the effective time; none starts fulfilled,
    and every one satisfies the model's validator. *)
Theorem transfer_requirements_exact `{Platform} c d authority gb now reqs snapshot effective_at :
  derive_transfer_requirements c d authority gb now = Ok reqs ->
  c_fact_snapshot c = Some snapshot ->
  fact_instant (fs_facts snapshot) (off_effective_time_fact d) = Some effective_at ->
  let departing := fact_text (fs_facts snapshot) "departing_principal_id" in
  let successor := fact_text (fs_facts snapshot) "successor_principal_id" in
  Forall2 (fun a r =>
    transfer_valid r /\
    tr_relationship_ref r = ra_assignment_id a /\ tr_role r = ra_role a /\
    (tr_transfer_mode r = TRANSFER_REQUIRED /\ ra_role a ∈ off_transfer_required_roles d \/
     tr_transfer_mode r = REVOKE_ONLY /\ ra_role a ∈ off_revoke_only_roles d) /\
    (tr_status r = SUCCESSOR_QUALIFIED <->
       ra_role a ∈ off_transfer_required_roles d /\ nonempty successor = true /\
       successor_qualifies authority departing successor (ra_organization_scope a) effective_at) /\
    tr_status r <> TRANSFER_FULFILLED)
    (list_current_role_assignments authority departing effective_at) reqs.
Proof.
  unfold derive_transfer_requirements. intros Hd Hs He. rewrite Hs in Hd. inv_ok.
  rewrite He in Hd. apply traverse_Ok in Hd. eapply Forall2_impl; [exact Hd|].
  intros a r Hr%derive_one_spec.
  destruct Hr as (? & ? & ? & ? & ? & Hm & Hrev & Hq & ?). split_and!; try done.
  - destruct (tr_transfer_mode r) eqn:Emode; [right; split; [done|by apply Hrev]|left].
    split; [done|by apply Hm].
  - rewrite Hq, Hm. destruct (nonempty (fact_text _ "successor_principal_id")).
    + split; [intros [? (s & Hss & ?)]; by simplify_eq|intros (? & _ & ?); eauto].
    + split; [intros [_ (s & Hss & _)]; done|by intros (_ & ? & _)].
Qed.

(** A transfer is marked fulfilled only from a qualified state and for
    the qualified successor; the call changes no other requirement, and marking
    again returns the same record. *)
Theorem mark_fulfilled_exact (db db' : TransferDb) rid successor r :
  mark_fulfilled db rid successor = Ok (r, db') ->
  (exists row, db !! rid = Some row /\ tr_transfer_mode row = TRANSFER_REQUIRED /\
     tr_successor_principal_id row = Some successor /\
     (tr_status row = SUCCESSOR_QUALIFIED \/ tr_status row = TRANSFER_FULFILLED)) /\
  tr_status r = TRANSFER_FULFILLED /\ db' !! rid = Some r /\
  (forall k, k <> rid -> db' !! k = db !! k) /\
  mark_fulfilled db' rid successor = Ok (r, db').
Proof.
  unfold mark_fulfilled at 1. intros Hm. destruct (db !! rid) as [row|] eqn:Erow; [|done].
  inv_ok. pose proof E as Erow'. apply transfer_validate_Ok in E as [-> Hv]. propify.
  case_bool_decide as Hst.
  - simplify_eq. split_and!; try done; [by eauto 10|].
    unfold mark_fulfilled. rewrite Erow, Erow'. cbn [rbind].
    rewrite E0, E1, Hst. by rewrite !bool_decide_eq_false_2, bool_decide_eq_true_2 by auto.
  - inv_ok. propify. simplify_eq. apply transfer_validate_Ok in E2 as [-> Hv'].
    split_and!; try done; [by eauto 10|apply lookup_insert_eq|intros; by apply lookup_insert_ne|].
    unfold mark_fulfilled. rewrite lookup_insert_eq. unfold transfer_from_row.
    rewrite (proj2 (transfer_validate_Ok _ (set_fulfilled row))) by done. cbn [rbind].
    cbn [set_fulfilled tr_transfer_mode tr_successor_principal_id tr_status].
    rewrite E0, E1. by rewrite !bool_decide_eq_false_2, bool_decide_eq_true_2 by auto.
Qed.
