(* ===== verification/Derivation.v ===== *)
(** * Derivation of obligations

    [onboarding_obligations.py], [offboarding_obligations.py],
    [financial_obligations.py], [obligation_derivation.py] and
    [obligation_derivation_common.py]: the obligation set a policy evaluation
    freezes for a case. *)

From stdpp Require Import base gmap strings list.
From Stdlib Require Import ZArith Lia.
From S2P Require Import Prelude Python CPython Store Domain Policy Authority Obligations.
From S2P Require Import Verification Transfer.

Open Scope Z_scope.
Open Scope orch_scope.

Section derivation.
Context `{Platform}.

Definition obligation_set_id (c : AdministrativeCase) (governance_basis_id : uuid) : uuid :=
  uuid5 ("administrative:obligation-set:" +:+ uuid_str (c_case_id c) +:+ ":"
         +:+ int_str (c_authority_epoch c) +:+ ":" +:+ uuid_str governance_basis_id).

Definition obligation_name (c : AdministrativeCase) (discriminator : string) : string :=
  "administrative:obligation:" +:+ uuid_str (c_case_id c) +:+ ":"
  +:+ int_str (c_authority_epoch c) +:+ ":" +:+ discriminator.

Definition obligation_set_for (c : AdministrativeCase) (governance_basis_id : uuid)
    (items : list AdministrativeObligation) : AdministrativeObligationSet :=
  mkAdministrativeObligationSet (obligation_set_id c governance_basis_id) (c_case_id c)
    (c_authority_epoch c) governance_basis_id items.

(** [domain_or_external_obligation] *)
Definition domain_or_external_obligation (c : AdministrativeCase) (governance_basis_id : uuid)
    (discriminator kind target_system operation : string) (expected_postcondition : pydict)
    (authority_class : AuthorityClass) (fulfillment_kind : ObligationFulfillmentKind)
  : AdministrativeObligation :=
  mkAdministrativeObligation (uuid5 (obligation_name c discriminator)) (c_case_id c)
    (c_authority_epoch c) governance_basis_id kind (c_subject_ref c) target_system operation
    expected_postcondition authority_class true fulfillment_kind.

(** ** Onboarding *)

Definition template_key (t : AuthorizedEffectTemplate) : string * string * AuthorityClass :=
  (t_target_system t, t_operation t, t_authority_class t).

Definition compare_template (a b : AuthorizedEffectTemplate) : comparison :=
  cmp_then (String.compare (t_target_system a) (t_target_system b))
    (cmp_then (String.compare (t_operation a) (t_operation b))
       (String.compare (AuthorityClass_value (t_authority_class a))
          (AuthorityClass_value (t_authority_class b)))).

Definition onboarding_postcondition (c : AdministrativeCase) (facts : pydict)
    (template : AuthorizedEffectTemplate) : pydict :=
  let expected :=
    [("target_system", VStr (t_target_system template));
     ("operation", VStr (t_operation template));
     ("subject_ref", VStr (c_subject_ref c));
     ("active", VBool true);
     ("payload", VDict (present_facts payload_fields facts))] in
  if bool_decide (t_operation template = "account.provision")
  then dict_set expected "requested_system" (VStr (t_target_system template))
  else expected.

Definition onboarding_obligation (c : AdministrativeCase) (facts : pydict) (governance_basis_id : uuid)
    (template : AuthorizedEffectTemplate) : AdministrativeObligation :=
  mkAdministrativeObligation
    (uuid5 (obligation_name c (t_target_system template +:+ ":" +:+ t_operation template)))
    (c_case_id c) (c_authority_epoch c) governance_basis_id
    (t_target_system template +:+ "." +:+ t_operation template) (c_subject_ref c)
    (t_target_system template) (t_operation template)
    (onboarding_postcondition c facts template) (t_authority_class template) true
    EXTERNAL_EFFECT_VERIFIED.

Definition derive_onboarding_obligations (c : AdministrativeCase) (evaluation : PolicyEvaluation)
    (governance_basis_id : uuid) : result AdministrativeObligationSet :=
  match c_fact_snapshot c with
  | None => raise ObligationError "onboarding obligations require current facts"
  | Some snapshot =>
      refuse bool_decide (Some (pe_policy_ref evaluation) <> c_policy_ref c) with ObligationError
        saying "onboarding obligations require current policy evaluation";;
      let templates := (odict_of template_key (pe_allowed_effects evaluation)).*2 in
      let items := onboarding_obligation c (fs_facts snapshot) governance_basis_id
                     <$> sort_by compare_template templates in
      refuse is_nil items with ObligationError
        saying "current onboarding policy produces no required obligations";;
      Ok (obligation_set_for c governance_basis_id items)
  end.

(** ** Offboarding *)

Definition effect_order (t : AuthorizedEffectTemplate) : Z :=
  if bool_decide (t_target_system t = "iam") && bool_decide (t_operation t = "identity.disable") then 0 else
  if bool_decide (t_target_system t = "iam") && bool_decide (t_operation t = "sessions.revoke") then 1 else
  if bool_decide (t_target_system t = "hris") && bool_decide (t_operation t = "employee.deactivate") then 2 else
  99.

Definition compare_offboarding (a b : AuthorizedEffectTemplate) : comparison :=
  cmp_then (Z.compare (effect_order a) (effect_order b))
    (cmp_then (String.compare (t_target_system a) (t_target_system b))
       (String.compare (t_operation a) (t_operation b))).

Definition offboarding_effect_state (operation : string) : option pydict :=
  if bool_decide (operation = "employee.deactivate") then Some [("active", VBool false)] else
  if bool_decide (operation = "identity.disable") then Some [("enabled", VBool false)] else
  if bool_decide (operation = "sessions.revoke") then Some [("active_sessions", VInt 0)] else
  None.

Definition offboarding_fields : list string :=
  ["employee_ref"; "employment_episode_ref"; "termination_status"; "termination_effective_at"].

Definition offboarding_effect_obligation (c : AdministrativeCase) (facts : pydict)
    (governance_basis_id : uuid) (template : AuthorizedEffectTemplate)
  : result AdministrativeObligation :=
  match offboarding_effect_state (t_operation template) with
  | None => raise ObligationError ("offboarding effect has no postcondition contract: '"
                                   +:+ t_operation template +:+ "'")
  | Some effect_state =>
      Ok (domain_or_external_obligation c governance_basis_id
            ("external:" +:+ t_target_system template +:+ ":" +:+ t_operation template)
            (t_target_system template +:+ "." +:+ t_operation template)
            (t_target_system template) (t_operation template)
            ([("target_system", VStr (t_target_system template));
              ("operation", VStr (t_operation template));
              ("subject_ref", VStr (c_subject_ref c))]
             ++ effect_state
             ++ [("payload", VDict (present_facts offboarding_fields facts))])
            (t_authority_class template) EXTERNAL_EFFECT_VERIFIED)
  end.

Definition identity_binding_obligation (c : AdministrativeCase) (governance_basis_id : uuid)
    (departing : string) (binding : IdentityBinding) : AdministrativeObligation :=
  domain_or_external_obligation c governance_basis_id
    ("identity-binding:" +:+ uuid_str (ib_binding_id binding))
    "administrative.identity_binding.expire" "administrative" "identity_binding.expire"
    [("binding_id", VStr (uuid_str (ib_binding_id binding))); ("principal_id", VStr departing);
     ("current", VBool false)] PRIVILEGED_ACCESS DOMAIN_STATE_VERIFIED.

Definition opt_text (o : option string) : pyval := match o with Some s => VStr s | None => VNone end.

Definition transfer_obligations (c : AdministrativeCase) (governance_basis_id : uuid)
    (departing : string) (requirement : AdministrativeTransferRequirement)
  : list AdministrativeObligation :=
  domain_or_external_obligation c governance_basis_id
    ("role-expire:" +:+ uuid_str (tr_relationship_ref requirement))
    "administrative.role_assignment.expire" "administrative" "role_assignment.expire"
    [("assignment_id", VStr (uuid_str (tr_relationship_ref requirement)));
     ("principal_id", VStr departing); ("current", VBool false)]
    EMPLOYMENT DOMAIN_STATE_VERIFIED
  :: (if bool_decide (tr_transfer_mode requirement = TRANSFER_REQUIRED) then
        [domain_or_external_obligation c governance_basis_id
           ("role-transfer:" +:+ uuid_str (tr_requirement_id requirement))
           "administrative.role_assignment.transfer" "administrative" "role_assignment.transfer"
           [("transfer_requirement_id", VStr (uuid_str (tr_requirement_id requirement)));
            ("successor_principal_id", opt_text (tr_successor_principal_id requirement));
            ("role", VStr (tr_role requirement));
            ("organization_scope", VStr (tr_organization_scope requirement));
            ("current", VBool true)] EMPLOYMENT DOMAIN_STATE_VERIFIED]
      else []).

Definition delegation_obligation (c : AdministrativeCase) (governance_basis_id : uuid)
    (delegation : Delegation) : AdministrativeObligation :=
  domain_or_external_obligation c governance_basis_id
    ("delegation-expire:" +:+ uuid_str (dg_delegation_id delegation))
    "administrative.delegation.expire" "administrative" "delegation.expire"
    [("delegation_id", VStr (uuid_str (dg_delegation_id delegation))); ("current", VBool false)]
    EMPLOYMENT DOMAIN_STATE_VERIFIED.

Definition deactivate_obligation (c : AdministrativeCase) (governance_basis_id : uuid)
    (departing : string) : AdministrativeObligation :=
  domain_or_external_obligation c governance_basis_id
    ("principal-deactivate:" +:+ departing) "administrative.principal.deactivate"
    "administrative" "principal.deactivate"
    [("principal_id", VStr departing); ("active", VBool false)] EMPLOYMENT DOMAIN_STATE_VERIFIED.

Definition derive_offboarding_obligations (c : AdministrativeCase) (evaluation : PolicyEvaluation)
    (policy_ref : PolicyRef) (d : OffboardingPolicyDefinition) (authority : AuthorityDb)
    (governance_basis_id : uuid)
    (transfer_requirements : option (list AdministrativeTransferRequirement)) (now : instant)
  : result AdministrativeObligationSet :=
  refuse bool_decide (c_case_kind c <> "employee-offboarding") with ObligationError
    saying "offboarding obligations require employee-offboarding case";;
  match c_fact_snapshot c with
  | None => raise ObligationError "offboarding obligations require current facts"
  | Some snapshot =>
      refuse bool_decide (Some (pe_policy_ref evaluation) <> c_policy_ref c)
             || bool_decide (Some policy_ref <> c_policy_ref c) with ObligationError
        saying "offboarding obligations require current policy evaluation";;
      let facts := fs_facts snapshot in
      let departing := fact_text facts "departing_principal_id" in
      refuse negb (nonempty departing) with ObligationError
        saying "offboarding obligations require departing_principal_id";;
      match fact_instant facts (off_effective_time_fact d) with
      | None => raise ObligationError "qualified termination effective time is required"
      | Some effective_at =>
          let! transfers :=
            match transfer_requirements with
            | Some t => Ok t
            | None => derive_transfer_requirements c d authority governance_basis_id now
            end in
          let! external := traverse (offboarding_effect_obligation c facts governance_basis_id)
            (sort_by compare_offboarding (pe_allowed_effects evaluation)) in
          let bindings := identity_binding_obligation c governance_basis_id departing
            <$> list_current_identity_bindings authority departing effective_at in
          let roles := transfers ≫= transfer_obligations c governance_basis_id departing in
          let! delegated := list_current_delegations_involving authority departing effective_at in
          Ok (obligation_set_for c governance_basis_id
                (external ++ bindings ++ roles
                 ++ (delegation_obligation c governance_basis_id <$> delegated)
                 ++ [deactivate_obligation c governance_basis_id departing]))
      end
  end.

(** ** Financial preparation *)

Definition expected_operations (case_kind : string) : option (list string) :=
  if bool_decide (case_kind = "procurement-request")
  then Some ["purchase_order.create_draft"; "purchase_order.confirm"] else
  if bool_decide (case_kind = "invoice-ap-preparation") then Some ["vendor_bill.create_draft"] else
  if bool_decide (case_kind = "expense-reimbursement") then Some ["expense_report.create"] else
  None.

Definition operation_order (operation : string) : Z :=
  if bool_decide (operation = "purchase_order.create_draft") then 0 else
  if bool_decide (operation = "purchase_order.confirm") then 1 else
  if bool_decide (operation = "vendor_bill.create_draft") then 0 else
  if bool_decide (operation = "expense_report.create") then 0 else 99.

Definition compare_financial (a b : AuthorizedEffectTemplate) : comparison :=
  cmp_then (String.compare (t_target_system a) (t_target_system b))
    (cmp_then (Z.compare (operation_order (t_operation a)) (operation_order (t_operation b)))
       (String.compare (t_operation a) (t_operation b))).

Definition financial_postcondition (c : AdministrativeCase) (facts : pydict) (operation : string)
  : pydict :=
  let expected :=
    [("target_system", VStr "erp"); ("operation", VStr operation);
     ("subject_ref", VStr (c_subject_ref c));
     ("transaction_case_ref", VStr (uuid_str (c_case_id c)));
     ("authority_epoch", VInt (c_authority_epoch c));
     ("payload", VDict facts);
     ("preconditions", VList [VStr "qualification_assessments_current"]);
     ("settlement", VStr "forbidden")] in
  let expected :=
    if bool_decide (c_case_kind c = "procurement-request")
       || bool_decide (c_case_kind c = "invoice-ap-preparation")
    then dict_set expected "vendor_qualification" (VStr "required") else expected in
  let expected :=
    if bool_decide (c_case_kind c = "invoice-ap-preparation")
    then dict_set expected "three_way_match" (VStr "required") else expected in
  if bool_decide (operation = "purchase_order.confirm")
  then dict_set expected "requires_draft_reference" (VBool true) else expected.

Definition financial_obligation (c : AdministrativeCase) (facts : pydict) (governance_basis_id : uuid)
    (operations : list string) (template : AuthorizedEffectTemplate)
  : result AdministrativeObligation :=
  refuse bool_decide (t_target_system template <> "erp") with ObligationError
    saying "financial effects must target the ERP boundary";;
  refuse bool_decide (t_operation template ∉ operations) with ObligationError
    saying ("financial effect is outside the case contract: '" +:+ t_operation template +:+ "'");;
  Ok (domain_or_external_obligation c governance_basis_id
        ("external:erp:" +:+ t_operation template) ("erp." +:+ t_operation template) "erp"
        (t_operation template) (financial_postcondition c facts (t_operation template))
        (t_authority_class template) EXTERNAL_EFFECT_VERIFIED).

Definition derive_financial_obligations (c : AdministrativeCase) (evaluation : PolicyEvaluation)
    (governance_basis_id : uuid) : result AdministrativeObligationSet :=
  match expected_operations (c_case_kind c) with
  | None => raise ObligationError "financial obligations require a supported transaction case"
  | Some operations =>
      match c_fact_snapshot c with
      | None => raise ObligationError "financial obligations require current facts"
      | Some snapshot =>
          refuse bool_decide (Some (pe_policy_ref evaluation) <> c_policy_ref c) with ObligationError
            saying "financial obligations require current policy evaluation";;
          refuse is_nil (pe_allowed_effects evaluation) with ObligationError
            saying "current financial policy produces no required obligations";;
          let! items := traverse
            (financial_obligation c (fs_facts snapshot) governance_basis_id operations)
            (sort_by compare_financial (pe_allowed_effects evaluation)) in
          Ok (obligation_set_for c governance_basis_id items)
      end
  end.

(** ** Dispatch by case kind *)

Definition derive_administrative_obligations (c : AdministrativeCase) (evaluation : PolicyEvaluation)
    (governance_basis_id : uuid)
    (offboarding_policy : option (PolicyRef * OffboardingPolicyDefinition))
    (authority : option AuthorityDb) (now : instant) : result AdministrativeObligationSet :=
  if bool_decide (c_case_kind c = "employee-onboarding") then
    derive_onboarding_obligations c evaluation governance_basis_id
  else if bool_decide (c_case_kind c = "employee-offboarding") then
    match offboarding_policy, authority with
    | Some (ref, d), Some db =>
        derive_offboarding_obligations c evaluation ref d db governance_basis_id None now
    | _, _ => raise ObligationError "offboarding derivation requires policy and authority repository"
    end
  else if bool_decide (c_case_kind c = "procurement-request")
          || bool_decide (c_case_kind c = "invoice-ap-preparation")
          || bool_decide (c_case_kind c = "expense-reimbursement") then
    derive_financial_obligations c evaluation governance_basis_id
  else
    raise ObligationError ("no obligation derivation is registered for case kind '"
                           +:+ c_case_kind c +:+ "'").
End derivation.

(** ** Theorems *)

(** What every derived obligation of a case has in common. *)
Definition bound_to (c : AdministrativeCase) (gb : uuid) (o : AdministrativeObligation) : Prop :=
  ob_case_id o = c_case_id c /\ ob_authority_epoch o = c_authority_epoch c /\
  ob_governance_basis_id o = gb /\ ob_subject_ref o = c_subject_ref c /\ ob_required o = true.

(** The obligation demands exactly the effect a template authorises. *)
Definition demands (o : AdministrativeObligation) (t : AuthorizedEffectTemplate) : Prop :=
  ob_target_system o = t_target_system t /\ ob_required_operation o = t_operation t /\
  ob_authority_class o = t_authority_class t /\
  ob_fulfillment_kind o = EXTERNAL_EFFECT_VERIFIED.

Lemma demands_unique o t t' : demands o t -> demands o t' -> t = t'.
Proof. destruct t, t'; unfold demands; cbn. intros (?&?&?&_) (?&?&?&_). congruence. Qed.

Section theorems.
Context `{Platform}.

Lemma onboarding_templates effects t :
  t ∈ sort_by compare_template (odict_of template_key effects).*2 <-> t ∈ effects.
Proof.
  rewrite elem_of_sort_by. destruct (odict_of_spec template_key effects) as (_ & Hs & Hc).
  rewrite list_elem_of_fmap. split.
  - intros ([k v] & -> & Hkv). by apply Hs in Hkv as [? _].
  - intros Ht. pose proof (Hc t Ht) as ([k v] & Hk & Hkv)%list_elem_of_fmap. cbn in Hk.
    exists (k, v). split; [|done]. apply Hs in Hkv as [_ Hv].
    destruct t, v; unfold template_key in *; cbn in *; congruence.
Qed.

(** The onboarding obligations are the policy's allowed effects: each
    allowed effect is demanded by an obligation and each obligation demands an
    allowed effect, bound to the case, its epoch, its subject and the governance
    basis; no two demand the same effect. *)
Theorem onboarding_obligations_exact c evaluation gb s :
  derive_onboarding_obligations c evaluation gb = Ok s ->
  os_case_id s = c_case_id c /\ os_authority_epoch s = c_authority_epoch c /\
  os_governance_basis_id s = gb /\ c_policy_ref c = Some (pe_policy_ref evaluation) /\
  (forall o, o ∈ os_obligations s ->
     bound_to c gb o /\ exists t, t ∈ pe_allowed_effects evaluation /\ demands o t) /\
  (forall t, t ∈ pe_allowed_effects evaluation -> exists o, o ∈ os_obligations s /\ demands o t) /\
  NoDup ((fun o => (ob_target_system o, ob_required_operation o, ob_authority_class o))
           <$> os_obligations s).
Proof.
  unfold derive_onboarding_obligations. destruct (c_fact_snapshot c) as [snap|]; [|done].
  intros Hd. inv_ok. propify. subst s. cbn [os_case_id os_authority_epoch os_governance_basis_id
    os_obligations obligation_set_for]. split_and!; try done.
  - intros o (t & -> & Ht)%list_elem_of_fmap. rewrite onboarding_templates in Ht.
    split; [done|]. by exists t.
  - intros t Ht. exists (onboarding_obligation c (fs_facts snap) gb t).
    split; [|done]. apply list_elem_of_fmap. exists t. split; [done|]. by rewrite onboarding_templates.
  - rewrite <- list_fmap_compose.
    rewrite (list_fmap_ext _ template_key) by done.
    rewrite (fmap_Permutation template_key _ _ (sort_by_perm compare_template _)).
    destruct (odict_of_spec template_key (pe_allowed_effects evaluation)) as (Hnd & Hs & _).
    rewrite <- list_fmap_compose, (list_fmap_ext _ fst); [done|].
    intros i [k v] Hi. cbn. by apply (Hs k v), (list_elem_of_lookup_2 _ i).
Qed.

(** The coverage of a departing principal's standing relationships. *)
Definition domain_demand (o : AdministrativeObligation) (operation : string) (key : string)
    (value : pyval) : Prop :=
  ob_fulfillment_kind o = DOMAIN_STATE_VERIFIED /\ ob_target_system o = "administrative" /\
  ob_required_operation o = operation /\
  assoc key (ob_expected_postcondition o) = Some value.

(** The obligations of a departure, part by part. *)
Lemma offboarding_shape c evaluation ref d authority gb transfers now s snapshot at_ :
  derive_offboarding_obligations c evaluation ref d authority gb (Some transfers) now = Ok s ->
  c_fact_snapshot c = Some snapshot ->
  fact_instant (fs_facts snapshot) (off_effective_time_fact d) = Some at_ ->
  let departing := fact_text (fs_facts snapshot) "departing_principal_id" in
  exists external ds,
    traverse (offboarding_effect_obligation c (fs_facts snapshot) gb)
      (sort_by compare_offboarding (pe_allowed_effects evaluation)) = Ok external /\
    list_current_delegations_involving authority departing at_ = Ok ds /\
    os_obligations s =
      external
      ++ (identity_binding_obligation c gb departing
            <$> list_current_identity_bindings authority departing at_)
      ++ (transfers ≫= transfer_obligations c gb departing)
      ++ (delegation_obligation c gb <$> ds) ++ [deactivate_obligation c gb departing].
Proof.
  intros Hd Hsnap Hat departing. unfold derive_offboarding_obligations in Hd.
  rewrite Hsnap in Hd. inv_ok. rewrite Hat in Hd. inv_ok. subst s v. eauto.
Qed.

Lemma offboarding_effect_spec c facts gb t o :
  offboarding_effect_obligation c facts gb t = Ok o -> bound_to c gb o /\ demands o t.
Proof.
  unfold offboarding_effect_obligation. destruct (offboarding_effect_state _); [|done].
  by intros [= <-].
Qed.

Lemma transfer_obligations_bound c gb departing r o :
  o ∈ transfer_obligations c gb departing r -> bound_to c gb o.
Proof.
  unfold transfer_obligations. intros [->|Ho]%elem_of_cons; [done|].
  case_bool_decide; [by apply list_elem_of_singleton in Ho as ->|by apply not_elem_of_nil in Ho].
Qed.

(** The offboarding obligations leave nothing of the departing principal
    behind: every allowed external effect, every identity binding, role (with
    its transfer where one is required) and delegation current at the effective
    time, and the principal itself, is demanded; all are bound to the case. *)
Theorem offboarding_obligations_cover c evaluation ref d authority gb transfers now s snapshot at_ :
  derive_offboarding_obligations c evaluation ref d authority gb (Some transfers) now = Ok s ->
  c_fact_snapshot c = Some snapshot ->
  fact_instant (fs_facts snapshot) (off_effective_time_fact d) = Some at_ ->
  let departing := fact_text (fs_facts snapshot) "departing_principal_id" in
  (forall o, o ∈ os_obligations s -> bound_to c gb o) /\
  (forall t, t ∈ pe_allowed_effects evaluation -> exists o, o ∈ os_obligations s /\ demands o t) /\
  (forall b, b ∈ list_current_identity_bindings authority departing at_ ->
     exists o, o ∈ os_obligations s /\
       domain_demand o "identity_binding.expire" "binding_id" (VStr (uuid_str (ib_binding_id b)))) /\
  (forall r, r ∈ transfers ->
     (exists o, o ∈ os_obligations s /\
       domain_demand o "role_assignment.expire" "assignment_id"
         (VStr (uuid_str (tr_relationship_ref r)))) /\
     (tr_transfer_mode r = TRANSFER_REQUIRED ->
      exists o, o ∈ os_obligations s /\
        domain_demand o "role_assignment.transfer" "transfer_requirement_id"
          (VStr (uuid_str (tr_requirement_id r))))) /\
  (exists ds, list_current_delegations_involving authority departing at_ = Ok ds /\
     forall g, g ∈ ds -> exists o, o ∈ os_obligations s /\
       domain_demand o "delegation.expire" "delegation_id" (VStr (uuid_str (dg_delegation_id g)))) /\
  (exists o, o ∈ os_obligations s /\
     domain_demand o "principal.deactivate" "principal_id" (VStr departing)).
Proof.
  intros Hd Hsnap Hat departing.
  destruct (offboarding_shape _ _ _ _ _ _ _ _ _ _ _ Hd Hsnap Hat) as (external & ds & Hext & Hds & Hos).
  fold departing in Hds, Hos. rewrite Hos. setoid_rewrite elem_of_app. split_and!.
  - intros o. rewrite !elem_of_app, list_elem_of_singleton.
    intros [Ho|[Ho|[Ho|[Ho| ->]]]]; [| | | |done].
    + destruct (traverse_elem_of _ _ _ _ Hext Ho) as (t & _ & Ht).
      by apply offboarding_effect_spec in Ht as [? _].
    + by apply list_elem_of_fmap in Ho as (b & -> & _).
    + apply list_elem_of_bind in Ho as (r & Hr & _). by eapply transfer_obligations_bound.
    + by apply list_elem_of_fmap in Ho as (g & -> & _).
  - intros t Ht%(elem_of_sort_by compare_offboarding).
    destruct (traverse_elem_of_l _ _ _ _ Hext Ht) as (o & Ho & Hto).
    exists o. split; [by left|]. by apply offboarding_effect_spec in Hto as [_ ?].
  - intros b Hb. exists (identity_binding_obligation c gb departing b). split; [|done].
    rewrite !elem_of_app. right; left. apply list_elem_of_fmap. eauto.
  - intros r Hr. unfold transfer_obligations. split; [|intros Hm].
    all: eexists; split; [right; apply elem_of_app; right; apply elem_of_app; left;
      apply list_elem_of_bind; exists r; split; [|done]|].
    + left.
    + done.
    + rewrite bool_decide_eq_true_2 by done. right; left.
    + done.
  - exists ds. split; [done|]. intros g Hg. exists (delegation_obligation c gb g). split; [|done].
    rewrite !elem_of_app. do 3 right; left. apply list_elem_of_fmap. eauto.
  - exists (deactivate_obligation c gb departing). split; [|done].
    rewrite !elem_of_app. do 4 right. by apply list_elem_of_singleton.
Qed.

Lemma financial_obligation_spec c facts gb operations t o :
  financial_obligation c facts gb operations t = Ok o ->
  bound_to c gb o /\ demands o t /\ ob_target_system o = "erp" /\
  ob_required_operation o ∈ operations /\
  ob_expected_postcondition o = financial_postcondition c facts (ob_required_operation o).
Proof.
  unfold financial_obligation. intros Ho. inv_ok. propify. subst o. unfold demands. cbn. done.
Qed.

Lemma financial_settlement_forbidden c facts operation :
  dict_get (financial_postcondition c facts operation) "settlement" = VStr "forbidden".
Proof.
  unfold financial_postcondition, dict_get. repeat (case_match; rewrite ?assoc_dict_set); done.
Qed.

(** Financial obligations stay inside the contract of the case kind: each
    demands an allowed effect on the ERP, each allowed effect is demanded, and
    whatever the observation says, a preparation whose ERP record reports a
    settlement is never verified against such an obligation. *)
Theorem financial_obligations_bounded c evaluation gb s :
  derive_financial_obligations c evaluation gb = Ok s ->
  (exists operations, expected_operations (c_case_kind c) = Some operations /\
     forall o, o ∈ os_obligations s ->
       ob_target_system o = "erp" /\ ob_required_operation o ∈ operations) /\
  (forall o, o ∈ os_obligations s ->
     bound_to c gb o /\ exists t, t ∈ pe_allowed_effects evaluation /\ demands o t) /\
  (forall t, t ∈ pe_allowed_effects evaluation -> exists o, o ∈ os_obligations s /\ demands o t) /\
  (forall o effect obs r, o ∈ os_obligations s ->
     verify_financial_observation effect obs (Some (ob_expected_postcondition o)) = Ok r ->
     sv_disposition r = V_VERIFIED -> settlement_reported (ro_state obs) = Ok false).
Proof.
  unfold derive_financial_obligations. intros Hd.
  destruct (expected_operations (c_case_kind c)) as [operations|]; [|done].
  destruct (c_fact_snapshot c) as [snap|]; [|done]. inv_ok. subst s. cbn [os_obligations obligation_set_for].
  assert (Hin : forall o, o ∈ v1 -> exists t, t ∈ pe_allowed_effects evaluation /\
                  financial_obligation c (fs_facts snap) gb operations t = Ok o).
  { intros o Ho. destruct (traverse_elem_of _ _ _ _ E1 Ho) as (t & Ht%elem_of_sort_by & ?). eauto. }
  split_and!.
  - exists operations. split; [done|].
    intros o Ho. destruct (Hin o Ho) as (t & _ & Ht%financial_obligation_spec). naive_solver.
  - intros o Ho. destruct (Hin o Ho) as (t & ? & Ht%financial_obligation_spec). naive_solver.
  - intros t Ht%(elem_of_sort_by compare_financial).
    destruct (traverse_elem_of_l _ _ _ _ E1 Ht) as (o & Ho & Hto%financial_obligation_spec).
    naive_solver.
  - intros o effect obs r Ho Hv Hverified.
    destruct (Hin o Ho) as (t & _ & (_ & _ & _ & _ & Hpost)%financial_obligation_spec).
    apply (financial_verified_settlement effect obs (ob_expected_postcondition o) r Hv Hverified).
    by rewrite Hpost, financial_settlement_forbidden.
Qed.
End theorems.
