(* ===== verification/PolicyPlane.v ===== *)
(** * The policy plane, [policy_plane.py]

    Versioned policies: a version's content is immutable, its lifecycle status
    changes, and at most one active version is effective at any instant. *)

From stdpp Require Import base gmap strings list.
From Stdlib Require Import ZArith Lia.
From S2P Require Import Prelude Python CPython Store Domain.

Open Scope Z_scope.
Open Scope orch_scope.

Inductive PolicyVersionStatus := DRAFT | ACTIVE | SHADOW | INACTIVE | RETIRED.
#[global] Instance PolicyVersionStatus_eq_dec : EqDecision PolicyVersionStatus. Proof. solve_decision. Defined.

Record PolicyVersionRecord := mkPolicyVersionRecord {
  pv_policy_id : string;
  pv_version : string;
  pv_owner : string;
  pv_status : PolicyVersionStatus;
  pv_effective_from : instant;
  pv_effective_until : option instant;
  pv_definition : pydict;
  pv_created_at : instant;
}.

Definition pv_policy_ref (r : PolicyVersionRecord) : PolicyRef :=
  mkPolicyRef (pv_policy_id r) (pv_version r) (pv_owner r) (pv_effective_from r) (pv_effective_until r).

Definition definition_digest `{Platform} (r : PolicyVersionRecord) : string :=
  json_digest (VDict (pv_definition r)).

Definition is_effective_at (r : PolicyVersionRecord) (at_ : instant) : bool :=
  bool_decide (pv_status r = ACTIVE) && PolicyRef_is_current_at (pv_policy_ref r) at_.

Record PolicyLifecycleEvent := mkPolicyLifecycleEvent {
  le_event_id : uuid;
  le_policy_id : string;
  le_version : string;
  le_action : string;
  le_actor_principal_id : string;
  le_reason : string;
  le_occurred_at : instant;
}.

Record PolicyDb := mkPolicyDb {
  policy_versions : gmap (string * string) PolicyVersionRecord;
  policy_events : gmap uuid PolicyLifecycleEvent;
}.

Definition empty_policy_db : PolicyDb := mkPolicyDb ∅ ∅.

(** [model_copy(update={"status": s})], and the row's status assignment. *)
Definition with_status (r : PolicyVersionRecord) (s : PolicyVersionStatus) : PolicyVersionRecord :=
  mkPolicyVersionRecord (pv_policy_id r) (pv_version r) (pv_owner r) s (pv_effective_from r)
    (pv_effective_until r) (pv_definition r) (pv_created_at r).

(** [_windows_overlap] *)
Definition windows_overlap (left_start : instant) (left_end : option instant)
    (right_start : instant) (right_end : option instant) : bool :=
  match right_end with None => true | Some e => left_start <? e end &&
  match left_end with None => true | Some e => right_start <? e end.

(** [_assert_no_active_overlap]: [Some e] is the first overlapping version. *)
Definition find_active_overlap (db : PolicyDb) (candidate : PolicyVersionRecord)
    (excluding_version : option string) : option PolicyVersionRecord :=
  List.find (fun row =>
      negb (bool_decide (excluding_version = Some (pv_version row)))
      && windows_overlap (pv_effective_from candidate) (pv_effective_until candidate)
           (pv_effective_from row) (pv_effective_until row))
    (select_where (fun row => bool_decide (pv_policy_id row = pv_policy_id candidate)
                              && bool_decide (pv_status row = ACTIVE)) (policy_versions db)).

Definition assert_no_active_overlap (db : PolicyDb) (candidate : PolicyVersionRecord)
    (excluding_version : option string) : result unit :=
  match find_active_overlap db candidate excluding_version with
  | Some existing =>
      raise PolicyPlaneError ("active policy windows overlap: " +:+ pv_policy_id candidate +:+ ":"
                              +:+ pv_version candidate +:+ " and " +:+ pv_version existing)
  | None => Ok tt
  end.

Definition same_definition (restored record : PolicyVersionRecord) : bool :=
  bool_decide (pv_policy_id restored = pv_policy_id record)
  && bool_decide (pv_version restored = pv_version record)
  && bool_decide (pv_owner restored = pv_owner record)
  && bool_decide (pv_effective_from restored = pv_effective_from record)
  && bool_decide (pv_effective_until restored = pv_effective_until record)
  && py_eq (VDict (pv_definition restored)) (VDict (pv_definition record))
  && bool_decide (pv_created_at restored = pv_created_at record).

Definition put_version (db : PolicyDb) (record : PolicyVersionRecord)
  : result (PolicyVersionRecord * PolicyDb) :=
  match policy_versions db !! (pv_policy_id record, pv_version record) with
  | Some restored =>
      refuse negb (same_definition restored record) with PolicyPlaneError
        saying "policy version is immutable once created";;
      Ok (restored, db)
  | None =>
      let! _ := if bool_decide (pv_status record = ACTIVE)
                then assert_no_active_overlap db record None else Ok tt in
      Ok (record, mkPolicyDb (<[(pv_policy_id record, pv_version record) := record]> (policy_versions db))
                    (policy_events db))
  end.

Definition create_draft (db : PolicyDb) (record : PolicyVersionRecord)
  : result (PolicyVersionRecord * PolicyDb) :=
  refuse bool_decide (pv_status record <> DRAFT) with PolicyPlaneError
    saying "create_draft requires draft status";;
  put_version db record.

Definition version_not_found {A} (policy_id version : string) : result A :=
  raise KeyError ("policy version " +:+ policy_id +:+ ":" +:+ version +:+ " not found").

(** [activate] and [retire]; [event_id] and [now] are the event's defaults. *)
Definition activate (db : PolicyDb) (policy_id version actor reason : string) (event_id : uuid)
    (now : instant) : result (PolicyVersionRecord * PolicyDb) :=
  refuse negb (nonempty (strip reason)) with PolicyPlaneError
    saying "policy activation requires a reason";;
  match policy_versions db !! (policy_id, version) with
  | None => version_not_found policy_id version
  | Some row =>
      let! _ := assert_no_active_overlap db (with_status row ACTIVE) (Some version) in
      let! events := db_add (policy_events db) event_id
        (mkPolicyLifecycleEvent event_id policy_id version "activate" actor reason now) in
      Ok (with_status row ACTIVE,
          mkPolicyDb (<[(policy_id, version) := with_status row ACTIVE]> (policy_versions db)) events)
  end.

Definition retire (db : PolicyDb) (policy_id version actor reason : string) (event_id : uuid)
    (now : instant) : result (PolicyVersionRecord * PolicyDb) :=
  refuse negb (nonempty (strip reason)) with PolicyPlaneError
    saying "policy retirement requires a reason";;
  match policy_versions db !! (policy_id, version) with
  | None => version_not_found policy_id version
  | Some row =>
      let! events := db_add (policy_events db) event_id
        (mkPolicyLifecycleEvent event_id policy_id version "retire" actor reason now) in
      Ok (with_status row RETIRED,
          mkPolicyDb (<[(policy_id, version) := with_status row RETIRED]> (policy_versions db)) events)
  end.

Definition set_status (db : PolicyDb) (policy_id version : string) (status : PolicyVersionStatus)
  : result (PolicyVersionRecord * PolicyDb) :=
  match policy_versions db !! (policy_id, version) with
  | None => version_not_found policy_id version
  | Some row =>
      let! _ := if bool_decide (status = ACTIVE)
                then assert_no_active_overlap db (with_status row status) (Some version) else Ok tt in
      Ok (with_status row status,
          mkPolicyDb (<[(policy_id, version) := with_status row status]> (policy_versions db))
            (policy_events db))
  end.

Definition get_version (db : PolicyDb) (policy_id version : string) : option PolicyVersionRecord :=
  policy_versions db !! (policy_id, version).

Definition list_versions (db : PolicyDb) (policy_id : string) : list PolicyVersionRecord :=
  sort_by (fun a b => cmp_then (Z.compare (pv_effective_from a) (pv_effective_from b))
                        (String.compare (pv_version a) (pv_version b)))
    (select_where (fun row => bool_decide (pv_policy_id row = policy_id)) (policy_versions db)).

Definition list_lifecycle_events (db : PolicyDb) (policy_id : string) : list PolicyLifecycleEvent :=
  sort_by (fun a b => cmp_then (Z.compare (le_occurred_at a) (le_occurred_at b))
                        (N.compare (le_event_id a) (le_event_id b)))
    (select_where (fun row => bool_decide (le_policy_id row = policy_id)) (policy_events db)).

Definition resolve_current (db : PolicyDb) (policy_id : string) (at_ : instant)
  : result PolicyVersionRecord :=
  match List.filter (fun r => is_effective_at r at_) (list_versions db policy_id) with
  | [] => raise PolicyPlaneError ("no active current policy version for " +:+ policy_id)
  | [r] => Ok r
  | _ => raise PolicyPlaneError ("multiple active current policy versions for " +:+ policy_id)
  end.

(** ** Histories *)

Inductive policy_step (db db' : PolicyDb) : Prop :=
  | pstep_put r x (Hs : put_version db r = Ok (x, db'))
  | pstep_draft r x (Hs : create_draft db r = Ok (x, db'))
  | pstep_activate p v a why e now x (Hs : activate db p v a why e now = Ok (x, db'))
  | pstep_retire p v a why e now x (Hs : retire db p v a why e now = Ok (x, db'))
  | pstep_status p v s x (Hs : set_status db p v s = Ok (x, db')).

Definition policy_reachable (db : PolicyDb) : Prop := rtc policy_step empty_policy_db db.

(** Versions stored under their key; active versions of a policy do not overlap. *)
Record policy_wf (db : PolicyDb) : Prop := {
  pwf_keyed : keyed (fun r => (pv_policy_id r, pv_version r)) (policy_versions db);
  pwf_disjoint : forall k1 k2 r1 r2,
    policy_versions db !! k1 = Some r1 -> policy_versions db !! k2 = Some r2 -> k1 <> k2 ->
    pv_policy_id r1 = pv_policy_id r2 -> pv_status r1 = ACTIVE -> pv_status r2 = ACTIVE ->
    windows_overlap (pv_effective_from r1) (pv_effective_until r1)
      (pv_effective_from r2) (pv_effective_until r2) = false;
}.

Lemma policy_wf_empty : policy_wf empty_policy_db.
Proof. split; cbn; [apply keyed_empty|]. intros *. by rewrite lookup_empty. Qed.

Lemma windows_overlap_sym a b c d : windows_overlap a b c d = windows_overlap c d a b.
Proof. unfold windows_overlap. apply andb_comm. Qed.

(** Windows that share an instant overlap. *)
Lemma windows_share_instant a b c d at_ :
  window_current a b at_ = true -> window_current c d at_ = true -> windows_overlap a b c d = true.
Proof.
  rewrite !window_current_spec. intros [Ha Hb] [Hc Hd]. unfold windows_overlap.
  apply andb_true_iff. split.
  - destruct d as [d|]; [|done]. specialize (Hd d eq_refl). lia.
  - destruct b as [b|]; [|done]. specialize (Hb b eq_refl). lia.
Qed.

Lemma assert_no_active_overlap_spec db candidate excl :
  assert_no_active_overlap db candidate excl = Ok tt <->
  forall k row, policy_versions db !! k = Some row ->
    pv_policy_id row = pv_policy_id candidate -> pv_status row = ACTIVE ->
    excl <> Some (pv_version row) ->
    windows_overlap (pv_effective_from candidate) (pv_effective_until candidate)
      (pv_effective_from row) (pv_effective_until row) = false.
Proof.
  unfold assert_no_active_overlap, find_active_overlap.
  destruct (List.find _ _) as [e|] eqn:Hf.
  - split; [done|]. intros H. exfalso.
    apply find_some in Hf as [[[k Hk] HP]%list_elem_of_In%elem_of_select_where Ht].
    propify. specialize (H k e Hk). rewrite H in *; done.
  - split; [|done]. intros _ k row Hk Hp Hs He. apply not_true_iff_false. intros Ho.
    assert (Hin : row ∈ select_where (fun row => bool_decide (pv_policy_id row = pv_policy_id candidate)
                              && bool_decide (pv_status row = ACTIVE)) (policy_versions db)).
    { apply elem_of_select_where. split; [eauto|]. by rewrite !bool_decide_eq_true_2. }
    apply list_elem_of_In in Hin. pose proof (find_none _ _ Hf _ Hin) as Hn. cbn in Hn.
    by rewrite Ho, bool_decide_eq_false_2 in Hn.
Qed.

(** Storing a version that is not active, or that overlaps no other active
    version, keeps the invariant. *)
Lemma policy_wf_store db k row events :
  policy_wf db -> k = (pv_policy_id row, pv_version row) ->
  (pv_status row = ACTIVE ->
   forall k' r, policy_versions db !! k' = Some r -> k' <> k -> pv_policy_id r = pv_policy_id row ->
     pv_status r = ACTIVE ->
     windows_overlap (pv_effective_from row) (pv_effective_until row)
       (pv_effective_from r) (pv_effective_until r) = false) ->
  policy_wf (mkPolicyDb (<[k := row]> (policy_versions db)) events).
Proof.
  intros [Hk Hd] -> Hnew. split; cbn.
  - by apply (keyed_insert (fun r => (pv_policy_id r, pv_version r))).
  - intros k1 k2 r1 r2 [[<- <-]|[? H1]]%lookup_insert_Some [[<- <-]|[? H2]]%lookup_insert_Some Hne
      Hp Hs1 Hs2; [done|eauto..|eauto].
    rewrite windows_overlap_sym. eauto.
Qed.

Lemma policy_step_wf db db' : policy_wf db -> policy_step db db' -> policy_wf db'.
Proof.
  intros Hwf Hstep. assert (Hkey : forall k r, policy_versions db !! k = Some r ->
    k = (pv_policy_id r, pv_version r)) by (intros k r Hr; symmetry; by apply (pwf_keyed _ Hwf)).
  assert (Hput : forall r x, put_version db r = Ok (x, db') -> policy_wf db').
  { intros r x Hs. unfold put_version in Hs. destruct (_ !! _) as [old|] eqn:El; inv_ok; simplify_eq.
    - done.
    - apply policy_wf_store; [done|done|]. intros Ha k' r' Hr' Hne Hp Hst.
      rewrite bool_decide_eq_true_2 in E by done.
      rewrite assert_no_active_overlap_spec in E. by eapply E. }
  assert (Hact : forall p v row events, policy_versions db !! (p, v) = Some row ->
    assert_no_active_overlap db (with_status row ACTIVE) (Some v) = Ok tt ->
    policy_wf (mkPolicyDb (<[(p, v) := with_status row ACTIVE]> (policy_versions db)) events)).
  { intros p v row events Hrow Ho. rewrite assert_no_active_overlap_spec in Ho.
    pose proof (Hkey _ _ Hrow) as [= -> ->]. apply policy_wf_store; [done|done|].
    intros _ k' r' Hr' Hne Hp Hst. eapply Ho; [done..|].
    intros [= Hv]. apply Hne. rewrite (Hkey _ _ Hr'). cbn in Hp. by rewrite Hv, Hp. }
  assert (Hother : forall p v row s events, policy_versions db !! (p, v) = Some row -> s <> ACTIVE ->
    policy_wf (mkPolicyDb (<[(p, v) := with_status row s]> (policy_versions db)) events)).
  { intros p v row s events Hrow Hs. pose proof (Hkey _ _ Hrow) as [= -> ->].
    by apply policy_wf_store. }
  destruct Hstep as [r x Hs|r x Hs|p v a why e now x Hs|p v a why e now x Hs|p v s x Hs].
  - eauto.
  - unfold create_draft in Hs. inv_ok. eauto.
  - unfold activate in Hs. inv_ok. destruct (_ !! _) as [row|] eqn:El; inv_ok; simplify_eq. eauto.
  - unfold retire in Hs. inv_ok. destruct (_ !! _) as [row|] eqn:El; inv_ok; simplify_eq. eauto.
  - unfold set_status in Hs. destruct (_ !! _) as [row|] eqn:El; inv_ok; simplify_eq.
    case_bool_decide; subst; eauto.
Qed.

Lemma policy_reachable_wf db : policy_reachable db -> policy_wf db.
Proof.
  unfold policy_reachable. generalize empty_policy_db, policy_wf_empty.
  intros db0 Hwf Hr. revert Hwf. induction Hr; eauto using policy_step_wf.
Qed.

(** The version in force at an instant. *)
Definition in_force (db : PolicyDb) (policy_id : string) (at_ : instant) (r : PolicyVersionRecord) : Prop :=
  policy_versions db !! (policy_id, pv_version r) = Some r /\ pv_status r = ACTIVE /\
  window_current (pv_effective_from r) (pv_effective_until r) at_ = true.

Lemma elem_of_effective db policy_id at_ r :
  policy_wf db ->
  r ∈ List.filter (fun r => is_effective_at r at_) (list_versions db policy_id) <->
  in_force db policy_id at_ r.
Proof.
  intros Hwf. rewrite elem_of_filter_bool. unfold list_versions, in_force, is_effective_at.
  rewrite elem_of_sort_by, elem_of_select_where, andb_true_iff, !bool_decide_eq_true. split.
  - intros [[[k Hk] <-] [? ?]]. split_and!; try done.
    by rewrite (pwf_keyed _ Hwf k r Hk).
  - intros (Hk & ? & ?). split_and!; try done; [eauto|].
    by pose proof (pwf_keyed _ Hwf _ _ Hk) as [= ->].
Qed.

Lemma in_force_unique db policy_id at_ r1 r2 :
  policy_wf db -> in_force db policy_id at_ r1 -> in_force db policy_id at_ r2 -> r1 = r2.
Proof.
  intros Hwf (H1 & Ha1 & Hw1) (H2 & Ha2 & Hw2).
  destruct (decide (pv_version r1 = pv_version r2)) as [Hv|Hv]; [congruence|].
  pose proof (pwf_keyed _ Hwf _ _ H1) as [= Hp1]. pose proof (pwf_keyed _ Hwf _ _ H2) as [= Hp2].
  assert (Ho : windows_overlap (pv_effective_from r1) (pv_effective_until r1)
                 (pv_effective_from r2) (pv_effective_until r2) = false).
  { eapply (pwf_disjoint _ Hwf); [exact H1|exact H2| | | |]; congruence. }
  by rewrite (windows_share_instant _ _ _ _ at_) in Ho.
Qed.

(** In every state the policy plane reaches, resolving the current policy
    returns the one active version whose window contains the instant, whenever
    there is one; the "multiple active" refusal is unreachable. *)
Theorem resolve_current_exact (db : PolicyDb) (policy_id : string) (at_ : instant) :
  policy_reachable db ->
  (forall r, resolve_current db policy_id at_ = Ok r <-> in_force db policy_id at_ r) /\
  (forall e, resolve_current db policy_id at_ = Err e ->
     e = Exn PolicyPlaneError ("no active current policy version for " +:+ policy_id)).
Proof.
  intros Hwf%policy_reachable_wf. unfold resolve_current.
  pose proof (fun r => elem_of_effective db policy_id at_ r Hwf) as Hel.
  assert (Hnd : NoDup (List.filter (fun r => is_effective_at r at_) (list_versions db policy_id))).
  { rewrite <- (list_fmap_id (List.filter _ _)). apply NoDup_fmap_filter. rewrite list_fmap_id.
    unfold list_versions. rewrite sort_by_perm.
    eapply (NoDup_fmap_1 (fun r => (pv_policy_id r, pv_version r))), select_where_NoDup.
    apply pwf_keyed, Hwf. }
  destruct (List.filter _ _) as [|r1 [|r2 l]]; (split; [intros r|intros e]).
  - rewrite <- Hel. split; [done|by intros ?%not_elem_of_nil].
  - by intros [= <-].
  - rewrite <- Hel, list_elem_of_singleton. split; [by intros [= ->]|by intros ->].
  - done.
  - exfalso. apply NoDup_cons in Hnd as [Hn _]. apply Hn.
    rewrite (in_force_unique db policy_id at_ r1 r2); [left|done|apply Hel; left|].
    apply Hel. right. left.
  - exfalso. apply NoDup_cons in Hnd as [Hn _]. apply Hn.
    rewrite (in_force_unique db policy_id at_ r1 r2); [left|done|apply Hel; left|].
    apply Hel. right. left.
Qed.

Lemma policy_step_immutable db db' k r :
  policy_step db db' -> policy_versions db !! k = Some r ->
  exists s, policy_versions db' !! k = Some (with_status r s).
Proof.
  intros Hstep Hr.
  assert (Hid : forall db1, policy_versions db1 !! k = Some r ->
    exists s, policy_versions db1 !! k = Some (with_status r s)).
  { intros db1 H1. exists (pv_status r). rewrite H1. by destruct r. }
  assert (Hset : forall k' row s ev, policy_versions db !! k' = Some row ->
    exists s', policy_versions (mkPolicyDb (<[k' := with_status row s]> (policy_versions db)) ev) !! k
               = Some (with_status r s')).
  { intros k' row s ev Hrow. cbn. destruct (decide (k' = k)) as [->|Hne].
    - simplify_eq. exists s. apply lookup_insert_eq.
    - exists (pv_status r). rewrite lookup_insert_ne, Hr by done. by destruct r. }
  assert (Hput : forall x y, put_version db x = Ok (y, db') ->
    exists s, policy_versions db' !! k = Some (with_status r s)).
  { intros x y Hs. unfold put_version in Hs. destruct (policy_versions db !! (pv_policy_id x, pv_version x)) as [old|] eqn:El; inv_ok; simplify_eq.
    - by apply Hid.
    - apply Hid. cbn. rewrite lookup_insert_ne; [done|congruence]. }
  destruct Hstep as [x y Hs|x y Hs|p v a why e now x Hs|p v a why e now x Hs|p v s x Hs].
  - eauto.
  - unfold create_draft in Hs. inv_ok. eauto.
  - unfold activate in Hs. inv_ok. destruct (policy_versions db !! (p, v)) as [row|] eqn:El; inv_ok; simplify_eq. eauto.
  - unfold retire in Hs. inv_ok. destruct (policy_versions db !! (p, v)) as [row|] eqn:El; inv_ok; simplify_eq. eauto.
  - unfold set_status in Hs. destruct (policy_versions db !! (p, v)) as [row|] eqn:El; inv_ok; simplify_eq. eauto.
Qed.

(** A policy version, once stored, keeps its owner, window, definition and
    creation time through every later history; only its status moves. *)
Theorem policy_version_is_immutable (db db' : PolicyDb) (policy_id version : string)
    (r : PolicyVersionRecord) :
  get_version db policy_id version = Some r -> rtc policy_step db db' ->
  exists s, get_version db' policy_id version = Some (with_status r s).
Proof.
  unfold get_version. intros Hr Hrtc. revert r Hr.
  induction Hrtc as [db|db db1 db2 Hstep _ IH]; intros r Hr.
  - exists (pv_status r). rewrite Hr. by destruct r.
  - destruct (policy_step_immutable _ _ _ _ Hstep Hr) as [s Hs]. exact (IH _ Hs).
Qed.
