(* ===== verification/Financial.v ===== *)
(** * Financial facts, policies and qualification, [financial.py]

    Exact money, the procurement, invoice and expense policies, vendor
    qualification, duplicate detection and the three-way match.  A [Decimal] is
    a coefficient and a decimal exponent, or one of the special values; its
    comparisons raise [InvalidOperation] where Python's do. *)

From stdpp Require Import base gmap strings list.
From Stdlib Require Import ZArith NArith Ascii Lia.
From Stdlib Require String.
From S2P Require Import Prelude Python CPython Store Domain Policy.

Open Scope Z_scope.
Open Scope orch_scope.

(** ** Decimals *)

Inductive decimal :=
  | DFin (m e : Z)      (* m * 10^e *)
  | DInf (negative : bool)
  | DNaN
  | DsNaN.

(** Both coefficients at the smaller exponent. *)
Definition aligned (m1 e1 m2 e2 : Z) : Z * Z :=
  let low := Z.min e1 e2 in (m1 * 10 ^ (e1 - low), m2 * 10 ^ (e2 - low)).

(** [a == b] *)
Definition decimal_eqb (a b : decimal) : result bool :=
  match a, b with
  | DsNaN, _ | _, DsNaN => raise InvalidOperation "comparison involving sNaN"
  | DNaN, _ | _, DNaN => Ok false
  | DInf n1, DInf n2 => Ok (Bool.eqb n1 n2)
  | DInf _, DFin _ _ | DFin _ _, DInf _ => Ok false
  | DFin m1 e1, DFin m2 e2 => let '(x, y) := aligned m1 e1 m2 e2 in Ok (x =? y)
  end.

(** [a < b] *)
Definition decimal_ltb (a b : decimal) : result bool :=
  match a, b with
  | DsNaN, _ | _, DsNaN | DNaN, _ | _, DNaN => raise InvalidOperation "comparison involving NaN"
  | DInf n1, DInf n2 => Ok (n1 && negb n2)
  | DInf n, DFin _ _ => Ok n
  | DFin _ _, DInf n => Ok (negb n)
  | DFin m1 e1, DFin m2 e2 => let '(x, y) := aligned m1 e1 m2 e2 in Ok (x <? y)
  end.

(** [Decimal(text)], [None] standing for its [InvalidOperation]. *)
Definition digit_value (c : ascii) : option Z :=
  let n := Z.of_nat (nat_of_ascii c) in
  if (48 <=? n) && (n <=? 57) then Some (n - 48) else None.

Fixpoint read_digits (l : list ascii) (acc : Z) (count : nat) : Z * nat * list ascii :=
  match l with
  | c :: r => match digit_value c with
              | Some d => read_digits r (acc * 10 + d) (S count)
              | None => (acc, count, l)
              end
  | [] => (acc, count, [])
  end.

Definition read_sign (l : list ascii) : bool * list ascii :=
  match l with
  | "-"%char :: r => (true, r)
  | "+"%char :: r => (false, r)
  | _ => (false, l)
  end.

(** The exponent part after the mantissa: [e[+-]?digits+] or nothing. *)
Definition read_exponent (l : list ascii) : option Z :=
  match l with
  | [] => Some 0
  | c :: r =>
      if Ascii.eqb (ascii_lower c) "e" then
        let '(neg, r) := read_sign r in
        match read_digits r 0 0 with
        | (v, S _, []) => Some (if neg then - v else v)
        | _ => None
        end
      else None
  end.

Definition read_number (l : list ascii) : option (Z * Z) :=
  let '(int_part, n_int, r) := read_digits l 0 0 in
  let '(m, n_frac, r) :=
    match r with
    | "."%char :: r' => read_digits r' int_part 0
    | _ => (int_part, 0%nat, r)
    end in
  match (n_int + n_frac)%nat with
  | O => None
  | S _ => match read_exponent r with
           | Some e => Some (m, e - Z.of_nat n_frac)
           | None => None
           end
  end.

Definition all_digits (l : list ascii) : bool :=
  match read_digits l 0 0 with (_, _, []) => true | _ => false end.

Definition starts_with (p l : list ascii) : bool := bool_decide (take (length p) l = p).

Definition parse_decimal (text : string) : option decimal :=
  let l := List.filter (fun c => negb (Ascii.eqb c "_")) (String.list_ascii_of_string (strip text)) in
  let '(neg, r) := read_sign l in
  match read_number r with
  | Some (m, e) => Some (DFin (if neg then - m else m) e)
  | None =>
      let low := ascii_lower <$> r in
      let nan := String.list_ascii_of_string "nan" in
      let snan := String.list_ascii_of_string "snan" in
      if bool_decide (low = String.list_ascii_of_string "inf")
         || bool_decide (low = String.list_ascii_of_string "infinity") then Some (DInf neg) else
      if starts_with nan low && all_digits (drop 3 low) then Some DNaN else
      if starts_with snan low && all_digits (drop 4 low) then Some DsNaN else None
  end.

(** [_decimal_value]: floats and [None] are refused; the text of a bool, a list
    or a dict is never a number. *)
Definition decimal_value (value : pyval) : option decimal :=
  match value with
  | VInt z => Some (DFin z 0)
  | VStr s => parse_decimal s
  | _ => None
  end.

(** ** Money *)

Record Money := mkMoney { amount : decimal; currency : string }.

(** [Money]: a finite, non-negative decimal (the model type admits no [NaN] or
    infinity) and a three-letter currency, stripped and upper-cased. *)
Definition normalize_currency (value : string) : result string :=
  let normalized := upper (strip value) in
  refuse negb (bool_decide (String.length normalized = 3%nat)) || negb (isalpha normalized)
    with ValueError saying "currency must be a three-letter uppercase code";;
  Ok normalized.

Definition is_finite (d : decimal) : bool := match d with DFin _ _ => true | _ => false end.

Definition Money_validate (amount : decimal) (currency : string) : result Money :=
  refuse negb (is_finite amount) with ValueError saying "finite number required";;
  refuse negb (bool_decide (String.length currency = 3%nat)) with ValueError
    saying "currency must have 3 characters";;
  let! code := normalize_currency currency in
  let! negative := decimal_ltb amount (DFin 0 0) in
  refuse negative with ValueError saying "money amount cannot be negative";;
  Ok (mkMoney amount code).

(** ** Facts *)

Record ProcurementFacts := mkProcurementFacts {
  pf_description : option string;
  pf_requested_quantity : option decimal;
  pf_estimated_amount : option Money;
  pf_candidate_vendor : option string;
  pf_vendor_ref : option string;
  pf_vendor_tax_id : option string;
  pf_cost_center : option string;
  pf_needed_by : option string;
  pf_quote_ref : option string;
}.

Record InvoiceLine := mkInvoiceLine {
  il_description : string;
  il_quantity : decimal;
  il_unit_price : Money;
  il_line_total : option Money;
}.

Record InvoiceFacts := mkInvoiceFacts {
  if_vendor_name : option string;
  if_vendor_ref : option string;
  if_vendor_tax_id : option string;
  if_invoice_number : option string;
  if_invoice_date : option string;
  if_total : option Money;
  if_po_number : option string;
  if_line_items : list InvoiceLine;
  if_document_revision : option string;
  if_document_digest : option string;
}.

Record ExpenseFacts := mkExpenseFacts {
  xf_employee_ref : option string;
  xf_merchant : option string;
  xf_expense_date : option string;
  xf_amount : option Money;
  xf_category : option string;
  xf_business_purpose : option string;
  xf_receipt_ref : option string;
}.

(** The policies only ask whether an attribute [is None]. *)
Definition attr {A} (o : option A) : pyval := match o with Some _ => VBool true | None => VNone end.

Definition ProcurementFacts_getattr (f : ProcurementFacts) (name : string) : option pyval :=
  assoc name
    [("description", attr (pf_description f)); ("requested_quantity", attr (pf_requested_quantity f));
     ("estimated_amount", attr (pf_estimated_amount f));
     ("candidate_vendor", attr (pf_candidate_vendor f)); ("vendor_ref", attr (pf_vendor_ref f));
     ("vendor_tax_id", attr (pf_vendor_tax_id f)); ("cost_center", attr (pf_cost_center f));
     ("needed_by", attr (pf_needed_by f)); ("quote_ref", attr (pf_quote_ref f))].

Definition InvoiceFacts_getattr (f : InvoiceFacts) (name : string) : option pyval :=
  assoc name
    [("vendor_name", attr (if_vendor_name f)); ("vendor_ref", attr (if_vendor_ref f));
     ("vendor_tax_id", attr (if_vendor_tax_id f)); ("invoice_number", attr (if_invoice_number f));
     ("invoice_date", attr (if_invoice_date f)); ("total", attr (if_total f));
     ("po_number", attr (if_po_number f)); ("line_items", VBool true);
     ("document_revision", attr (if_document_revision f));
     ("document_digest", attr (if_document_digest f))].

Definition ExpenseFacts_getattr (f : ExpenseFacts) (name : string) : option pyval :=
  assoc name
    [("employee_ref", attr (xf_employee_ref f)); ("merchant", attr (xf_merchant f));
     ("expense_date", attr (xf_expense_date f)); ("amount", attr (xf_amount f));
     ("category", attr (xf_category f)); ("business_purpose", attr (xf_business_purpose f));
     ("receipt_ref", attr (xf_receipt_ref f))].

Definition financial_fields (case_kind : string) : option (list string) :=
  if bool_decide (case_kind = "procurement-request") then
    Some ["description"; "requested_quantity"; "estimated_amount"; "candidate_vendor"; "vendor_ref";
          "vendor_tax_id"; "cost_center"; "needed_by"; "quote_ref"] else
  if bool_decide (case_kind = "invoice-ap-preparation") then
    Some ["vendor_name"; "vendor_ref"; "vendor_tax_id"; "invoice_number"; "invoice_date"; "total";
          "po_number"; "line_items"; "document_revision"; "document_digest"] else
  if bool_decide (case_kind = "expense-reimbursement") then
    Some ["employee_ref"; "merchant"; "expense_date"; "amount"; "category"; "business_purpose";
          "receipt_ref"] else None.

Definition has_material_financial_revision (case_kind : string) (previous current : pydict)
  : result bool :=
  match financial_fields case_kind with
  | None => raise ValueError ("unsupported financial case kind: '" +:+ case_kind +:+ "'")
  | Some fields =>
      Ok (existsb (fun f => negb (py_eq (dict_get previous f) (dict_get current f))) fields)
  end.

(** ** Qualification records *)

Inductive TransactionQualificationResult :=
  | QUALIFIED | INCOMPLETE | TQ_MISMATCH | AMBIGUOUS | DUPLICATE.
#[global] Instance TransactionQualificationResult_eq_dec : EqDecision TransactionQualificationResult.
Proof. solve_decision. Defined.

Record VendorMasterRecord := mkVendorMasterRecord {
  vm_vendor_ref : string;
  vm_legal_name : string;
  vm_tax_id : option string;
  vm_company_ref : option string;
}.

Record VendorQualification := mkVendorQualification {
  vq_result : TransactionQualificationResult;
  vq_vendor : option VendorMasterRecord;
  vq_blocking_reasons : list string;
}.

Record InvoiceQualificationSummary := mkInvoiceQualificationSummary {
  is_vendor : VendorQualification;
  is_duplicate : bool;
  is_three_way_match : TransactionQualificationResult;
  is_blocking_reasons : list string;
}.

Definition summary_result (s : InvoiceQualificationSummary) : TransactionQualificationResult :=
  if bool_decide (vq_result (is_vendor s) <> QUALIFIED) then vq_result (is_vendor s) else
  if is_duplicate s then DUPLICATE else is_three_way_match s.

Record AdministrativeCaseEvidenceLink := mkEvidenceLink {
  el_link_id : uuid;
  el_case_id : uuid;
  el_authority_epoch : Z;
  el_artifact_ref : uuid;
  el_representation_ref : option uuid;
  el_declared_role : string;
  el_source : string;
  el_linked_at : instant;
  el_linked_by : string;
}.

Record TransactionQualificationAssessment := mkAssessment {
  ta_assessment_id : uuid;
  ta_case_id : uuid;
  ta_authority_epoch : Z;
  ta_assessment_kind : string;
  ta_supersedes_assessment_id : option uuid;
  ta_input_refs : list string;
  ta_rule_ref : string;
  ta_result : TransactionQualificationResult;
  ta_blocking_reasons : list string;
  ta_created_at : instant;
}.

#[global] Instance AdministrativeCaseEvidenceLink_eq_dec : EqDecision AdministrativeCaseEvidenceLink.
Proof. solve_decision. Defined.
#[global] Instance TransactionQualificationAssessment_eq_dec : EqDecision TransactionQualificationAssessment.
Proof. solve_decision. Defined.

(** The field constraints of the assessment model. *)
Definition assessment_validate (a : TransactionQualificationAssessment)
  : result TransactionQualificationAssessment :=
  refuse (ta_authority_epoch a <? 1)
         || negb (nonempty (ta_assessment_kind a))
         || Nat.ltb 128 (String.length (ta_assessment_kind a))
         || is_nil (ta_input_refs a)
         || negb (nonempty (ta_rule_ref a)) || Nat.ltb 512 (String.length (ta_rule_ref a))
    with ValueError saying "transaction qualification assessment is malformed";;
  Ok a.

(** ** Policies *)

Record ProcurementPolicyDefinition := mkProcurementPolicyDefinition {
  pp_required_facts : list string;
  pp_normal_threshold : Money;
  pp_high_value_threshold : Money;
  pp_standard_approval : ApprovalRule;
  pp_high_value_approval : ApprovalRule;
}.

Record InvoiceAPPolicyDefinition := mkInvoiceAPPolicyDefinition {
  ip_required_facts : list string;
  ip_approval : ApprovalRule;
}.

Record ExpensePolicyDefinition := mkExpensePolicyDefinition {
  xp_required_facts : list string;
  xp_receipt_required_above : Money;
  xp_maximum_amount : Money;
  xp_allowed_categories : list string;
  xp_approval : ApprovalRule;
}.

Definition ProcurementPolicy_default_definition : ProcurementPolicyDefinition :=
  mkProcurementPolicyDefinition
    ["description"; "requested_quantity"; "estimated_amount"; "candidate_vendor"; "cost_center"]
    (mkMoney (DFin 100000 (-2)) "USD") (mkMoney (DFin 1000000 (-2)) "USD")
    (mkApprovalRule ["procurement_approver"] false)
    (mkApprovalRule ["procurement_approver"; "finance_approver"] true).

Definition InvoiceAPPolicy_default_definition : InvoiceAPPolicyDefinition :=
  mkInvoiceAPPolicyDefinition
    ["vendor_name"; "invoice_number"; "invoice_date"; "total"; "po_number"]
    (mkApprovalRule ["finance_approver"] false).

Definition ExpensePolicy_default_definition : ExpensePolicyDefinition :=
  mkExpensePolicyDefinition
    ["employee_ref"; "merchant"; "expense_date"; "amount"; "category"; "receipt_ref"]
    (mkMoney (DFin 2500 (-2)) "USD") (mkMoney (DFin 100000 (-2)) "USD")
    ["office"; "office-supplies"; "travel"; "meals"] (mkApprovalRule ["finance_approver"] false).

Definition erp_effect (operation : string) : AuthorizedEffectTemplate :=
  mkTemplate "erp" operation FINANCIAL.

Definition ProcurementPolicy_evaluate (policy_ref : PolicyRef) (d : ProcurementPolicyDefinition)
    (facts : ProcurementFacts) : result PolicyEvaluation :=
  let! missing := missing_facts (ProcurementFacts_getattr facts) (pp_required_facts d) in
  if bool_decide (missing <> []) then
    need_more_facts policy_ref "required procurement facts are missing" missing
  else match pf_estimated_amount facts with
  | None => raise AssertionError ""
  | Some m =>
      if bool_decide (currency m <> currency (pp_normal_threshold d)) then
        reopen_required policy_ref
          "procurement currency is outside the configured policy currency" UNKNOWN_RISK_DIMENSION
      else
        let! high := decimal_ltb (amount (pp_high_value_threshold d)) (amount m) in
        let approval := if high then pp_high_value_approval d else pp_standard_approval d in
        human_decision_required policy_ref "procurement requires configured financial approval"
          (ar_roles approval) (ar_require_distinct_principals approval)
          [erp_effect "purchase_order.create_draft"; erp_effect "purchase_order.confirm"]
  end.

Definition InvoiceAPPolicy_evaluate (policy_ref : PolicyRef) (d : InvoiceAPPolicyDefinition)
    (facts : InvoiceFacts) : result PolicyEvaluation :=
  let! missing := missing_facts (InvoiceFacts_getattr facts) (ip_required_facts d) in
  if bool_decide (missing <> []) then
    need_more_facts policy_ref "required invoice facts are missing" missing
  else
    human_decision_required policy_ref "vendor bill preparation requires configured finance approval"
      (ar_roles (ip_approval d)) (ar_require_distinct_principals (ip_approval d))
      [erp_effect "vendor_bill.create_draft"].

(** [ExpensePolicy.evaluate] does not pass the rule's
    [require_distinct_principals] on. *)
Definition ExpensePolicy_evaluate (policy_ref : PolicyRef) (d : ExpensePolicyDefinition)
    (facts : ExpenseFacts) : result PolicyEvaluation :=
  let! missing := missing_facts (ExpenseFacts_getattr facts) (xp_required_facts d) in
  if bool_decide (missing <> []) then
    need_more_facts policy_ref "required expense facts are missing" missing
  else match xf_amount facts with
  | None => raise AssertionError ""
  | Some m =>
      if bool_decide (currency m <> currency (xp_maximum_amount d)) then
        reopen_required policy_ref
          "expense currency is outside the configured policy currency" UNKNOWN_RISK_DIMENSION
      else
        let! over := decimal_ltb (amount (xp_maximum_amount d)) (amount m) in
        if over then
          reopen_required policy_ref "expense exceeds the versioned maximum amount" SCOPE_EXPANSION
        else if negb (match xf_category facts with
                      | Some c => bool_decide (c ∈ xp_allowed_categories d)
                      | None => false
                      end) then
          reopen_required policy_ref
            "expense category is outside the configured allowlist" UNKNOWN_RISK_DIMENSION
        else
          human_decision_required policy_ref
            "expense record preparation requires configured finance approval"
            (ar_roles (xp_approval d)) false [erp_effect "expense_report.create"]
  end.

(** ** Qualification *)

(** [(value or "").strip()] *)
Definition stripped (o : option string) : string := strip (default "" o).

Definition qualify_vendor (candidate_name candidate_tax_id : option string)
    (records : list VendorMasterRecord) : VendorQualification :=
  let tax_id := stripped candidate_tax_id in
  let name := lower (stripped candidate_name) in
  let matches :=
    if nonempty tax_id
    then List.filter (fun r => bool_decide (vm_tax_id r = Some tax_id)) records
    else List.filter (fun r => bool_decide (lower (vm_legal_name r) = name)) records in
  match matches with
  | [vendor] => mkVendorQualification QUALIFIED (Some vendor) []
  | [] => mkVendorQualification AMBIGUOUS None ["authoritative vendor master returned no match"]
  | _ => mkVendorQualification AMBIGUOUS None ["authoritative vendor master returned multiple matches"]
  end.

Abbreviation strdict := (list (string * string)) (only parsing).

Definition detect_duplicate_invoice (vendor_ref invoice_number : string) (existing : list strdict) : bool :=
  existsb (fun item => bool_decide (assoc "vendor_ref" item = Some vendor_ref)
                       && bool_decide (assoc "invoice_number" item = Some invoice_number)) existing.

Definition detect_duplicate_document (content_digest : option string) (existing_artifacts : list strdict)
  : bool :=
  match content_digest with
  | Some d =>
      if nonempty d
      then existsb (fun item => bool_decide (assoc "content_digest" item = Some d)) existing_artifacts
      else false
  | None => false
  end.

(** A comparison that ends the function: [Some r] is the early [return r]. *)
Definition early (b : bool) (r : TransactionQualificationResult) : option TransactionQualificationResult :=
  if b then Some r else None.

(** The first early return of a sequence of checks. *)
Fixpoint first_return {A} (check : A -> result (option TransactionQualificationResult)) (l : list A)
  : result (option TransactionQualificationResult) :=
  match l with
  | [] => Ok None
  | x :: r =>
      let! o := check x in
      match o with
      | Some v => Ok (Some v)
      | None => first_return check r
      end
  end.

(** One iteration of the loop over the purchase-order lines. *)
Definition match_po_line (entry : InvoiceLine * pyval) : result (option TransactionQualificationResult) :=
  let '(invoice_line, po_line) := entry in
  match po_line with
  | VDict d =>
      match decimal_value (dict_get d "quantity"), decimal_value (dict_get d "unit_price") with
      | Some po_quantity, Some po_unit_price =>
          let! same_quantity := decimal_eqb (il_quantity invoice_line) po_quantity in
          if negb same_quantity then Ok (Some TQ_MISMATCH) else
          if negb (py_eq (VStr (currency (il_unit_price invoice_line))) (dict_get d "currency"))
          then Ok (Some TQ_MISMATCH) else
          let! same_price := decimal_eqb (amount (il_unit_price invoice_line)) po_unit_price in
          Ok (early (negb same_price) TQ_MISMATCH)
      | _, _ => Ok (Some INCOMPLETE)
      end
  | _ => Ok (Some TQ_MISMATCH)
  end.

(** One iteration of the loop over the receipt lines. *)
Definition match_receipt_line (entry : InvoiceLine * pyval)
  : result (option TransactionQualificationResult) :=
  let '(invoice_line, receipt_line) := entry in
  match receipt_line with
  | VDict d =>
      match decimal_value (dict_get d "quantity") with
      | None => Ok (Some INCOMPLETE)
      | Some receipt_quantity =>
          let! short := decimal_ltb receipt_quantity (il_quantity invoice_line) in
          Ok (early short TQ_MISMATCH)
      end
  | _ => Ok (Some TQ_MISMATCH)
  end.

(** The lines of a document against the invoice lines: absent, of the wrong
    type, of the wrong number, or compared one by one. *)
Definition match_lines (check : InvoiceLine * pyval -> result (option TransactionQualificationResult))
    (invoice_lines : list InvoiceLine) (lines : pyval) : result (option TransactionQualificationResult) :=
  match lines with
  | VNone => Ok None
  | VList items =>
      if negb (Nat.eqb (length items) (length invoice_lines)) then Ok (Some TQ_MISMATCH)
      else first_return check (zip invoice_lines items)
  | _ => Ok (Some TQ_MISMATCH)
  end.

(** [a and b and a != b] for an optional field of the invoice and a value of the
    order. *)
Definition conflicting (a : option string) (b : pyval) : bool :=
  truthy (opt_str a) && truthy b && negb (py_eq (opt_str a) b).

Definition match_three_way (invoice : InvoiceFacts) (purchase_order receipt : pydict)
  : result TransactionQualificationResult :=
  match if_total invoice with
  | None => Ok INCOMPLETE
  | Some total =>
      if negb (py_eq (VStr (currency total)) (dict_get purchase_order "currency")) then Ok TQ_MISMATCH else
      if negb (py_eq (opt_str (if_po_number invoice)) (dict_get purchase_order "po_number"))
      then Ok TQ_MISMATCH else
      if conflicting (if_vendor_ref invoice) (dict_get purchase_order "vendor_ref")
      then Ok TQ_MISMATCH else
      if conflicting (if_vendor_tax_id invoice) (dict_get purchase_order "vendor_tax_id")
      then Ok TQ_MISMATCH else
      match decimal_value (dict_get purchase_order "total") with
      | None => Ok INCOMPLETE
      | Some po_total =>
          let! same_total := decimal_eqb (amount total) po_total in
          if negb same_total then Ok TQ_MISMATCH else
          if negb (py_eq (dict_get purchase_order "receipt_ref") (dict_get receipt "receipt_ref"))
          then Ok TQ_MISMATCH else
          let! po := match_lines match_po_line (if_line_items invoice) (dict_get purchase_order "line_items") in
          match po with
          | Some r => Ok r
          | None =>
              let! rc := match_lines match_receipt_line (if_line_items invoice)
                           (dict_get receipt "line_items") in
              Ok (default QUALIFIED rc)
          end
      end
  end.

(** [qualify_invoice_transaction]; the three ids and the clock are the defaults
    of the assessment model. *)
Definition qualify_invoice_transaction (case_id : uuid) (authority_epoch : Z) (invoice : InvoiceFacts)
    (vendor_records : list VendorMasterRecord) (purchase_order receipt : pydict)
    (existing_invoices : list strdict) (input_refs : list string) (rule_ref : string)
    (existing_artifacts : list strdict) (id1 id2 id3 : uuid) (now : instant)
  : result (InvoiceQualificationSummary * list TransactionQualificationAssessment) :=
  let assessment id kind result reasons :=
    assessment_validate
      (mkAssessment id case_id authority_epoch kind None input_refs rule_ref result reasons now) in
  let vendor := qualify_vendor (if_vendor_name invoice) (if_vendor_tax_id invoice) vendor_records in
  let! vendor_assessment :=
    assessment id1 "vendor_qualification" (vq_result vendor) (vq_blocking_reasons vendor) in
  match vq_vendor vendor with
  | None =>
      Ok (mkInvoiceQualificationSummary vendor false INCOMPLETE (vq_blocking_reasons vendor),
          [vendor_assessment])
  | Some record =>
      let duplicate :=
        detect_duplicate_invoice (vm_vendor_ref record) (default "" (if_invoice_number invoice))
          existing_invoices
        || detect_duplicate_document (if_document_digest invoice) existing_artifacts in
      let! duplicate_assessment :=
        assessment id2 "duplicate_invoice_check" (if duplicate then DUPLICATE else QUALIFIED)
          (if duplicate then ["authoritative ERP invoice identity already exists"] else []) in
      let! three_way := match_three_way invoice purchase_order receipt in
      let! three_way_assessment :=
        assessment id3 "three_way_match" three_way
          (if bool_decide (three_way <> QUALIFIED)
           then ["invoice, PO, and receipt do not match"] else []) in
      Ok (mkInvoiceQualificationSummary vendor duplicate three_way
            (ta_blocking_reasons duplicate_assessment ++ ta_blocking_reasons three_way_assessment),
          [vendor_assessment; duplicate_assessment; three_way_assessment])
  end.

(** ** Specification of the three-way match *)

Definition po_line_agrees (invoice_line : InvoiceLine) (po_line : pyval) : Prop :=
  exists d q p, po_line = VDict d /\
    decimal_value (dict_get d "quantity") = Some q /\ decimal_value (dict_get d "unit_price") = Some p /\
    decimal_eqb (il_quantity invoice_line) q = Ok true /\
    py_eq (VStr (currency (il_unit_price invoice_line))) (dict_get d "currency") = true /\
    decimal_eqb (amount (il_unit_price invoice_line)) p = Ok true.

(** The receipt covers the invoiced quantity. *)
Definition receipt_line_covers (invoice_line : InvoiceLine) (receipt_line : pyval) : Prop :=
  exists d q, receipt_line = VDict d /\ decimal_value (dict_get d "quantity") = Some q /\
    decimal_ltb q (il_quantity invoice_line) = Ok false.

(** A document that lists lines lists as many as the invoice, each agreeing. *)
Definition lines_agree (agrees : InvoiceLine -> pyval -> Prop) (invoice_lines : list InvoiceLine)
    (lines : pyval) : Prop :=
  lines = VNone \/ exists items, lines = VList items /\ Forall2 agrees invoice_lines items.

Definition three_way_agreement (invoice : InvoiceFacts) (po receipt : pydict) : Prop :=
  exists total po_total, if_total invoice = Some total /\
    decimal_value (dict_get po "total") = Some po_total /\
    decimal_eqb (amount total) po_total = Ok true /\
    py_eq (VStr (currency total)) (dict_get po "currency") = true /\
    py_eq (opt_str (if_po_number invoice)) (dict_get po "po_number") = true /\
    conflicting (if_vendor_ref invoice) (dict_get po "vendor_ref") = false /\
    conflicting (if_vendor_tax_id invoice) (dict_get po "vendor_tax_id") = false /\
    py_eq (dict_get po "receipt_ref") (dict_get receipt "receipt_ref") = true /\
    lines_agree po_line_agrees (if_line_items invoice) (dict_get po "line_items") /\
    lines_agree receipt_line_covers (if_line_items invoice) (dict_get receipt "line_items").

Lemma match_po_line_None l v : match_po_line (l, v) = Ok None <-> po_line_agrees l v.
Proof.
  unfold match_po_line, po_line_agrees, early.
  destruct v as [| | | | | |d]; try (split; [done|intros (?&?&?&[=]&_)]).
  destruct (decimal_value (dict_get d "quantity")) as [q|] eqn:Eq;
    [|split; [done|intros (?&?&?&[= <-]&?&_); congruence]].
  destruct (decimal_value (dict_get d "unit_price")) as [p|] eqn:Ep;
    [|split; [done|intros (?&?&?&[= <-]&_&?&_); congruence]].
  split.
  - intros Hm. inv_ok. destruct v; [|done]. cbn [negb] in Hm.
    destruct (py_eq _ _) eqn:Ec; [|done]. cbn [negb] in Hm. inv_ok.
    destruct v; [|done]. eauto 10.
  - intros (d' & q' & p' & [= <-] & Hq & Hp & He & Hc & Hpr). simplify_eq.
    rewrite He. cbn [rbind negb]. by rewrite Hc, Hpr.
Qed.

Lemma match_receipt_line_None l v : match_receipt_line (l, v) = Ok None <-> receipt_line_covers l v.
Proof.
  unfold match_receipt_line, receipt_line_covers, early.
  destruct v as [| | | | | |d]; try (split; [done|intros (?&?&[=]&_)]).
  destruct (decimal_value (dict_get d "quantity")) as [q|] eqn:Eq;
    [|split; [done|intros (?&?&[= <-]&?&_); congruence]].
  split.
  - intros Hm. inv_ok. destruct v; [done|]. eauto.
  - intros (d' & q' & [= <-] & Hq & Hl). simplify_eq. by rewrite Hl.
Qed.

Lemma first_return_None {A} (check : A -> result (option TransactionQualificationResult)) l :
  first_return check l = Ok None <-> Forall (fun x => check x = Ok None) l.
Proof.
  induction l as [|x l IH]; cbn; [split; [constructor|done]|].
  rewrite Forall_cons, <- IH. destruct (check x) as [[r|]|e]; cbn; naive_solver.
Qed.

Lemma match_lines_None check agrees lines v :
  (forall l x, check (l, x) = Ok None <-> agrees l x) ->
  match_lines check lines v = Ok None <-> lines_agree agrees lines v.
Proof.
  intros Hc. unfold match_lines, lines_agree.
  destruct v as [| | | | |items|]; try (split; [done|intros [[=]|(?&[=]&_)]]).
  { split; [by left|done]. }
  destruct (Nat.eqb_spec (length items) (length lines)) as [El|Nl]; cbn [negb].
  - rewrite first_return_None. split.
    + intros Hall. right. exists items. split; [done|].
      apply Forall2_same_length_lookup_2; [done|]. intros i l x Hl Hx.
      rewrite Forall_lookup in Hall. apply Hc, (Hall i). by apply lookup_zip_with_Some; eauto.
    + intros [[=]|(items' & [= <-] & HF)]. apply Forall_lookup. intros i [l x] Hi.
      apply lookup_zip_with_Some in Hi as (l' & x' & [= -> ->] & Hl & Hx).
      apply Hc. by eapply Forall2_lookup_lr.
  - split; [done|]. intros [[=]|(items' & [= <-] & HF)].
    by apply Forall2_length in HF.
Qed.

(** An early return is never a qualification. *)
Lemma match_lines_refuses check lines v :
  (forall x, check x <> Ok (Some QUALIFIED)) -> match_lines check lines v <> Ok (Some QUALIFIED).
Proof.
  intros Hc. unfold match_lines. destruct v as [| | | | |items|]; try done.
  destruct (negb _); [done|]. induction (zip lines items) as [|x l IH]; cbn; [done|].
  specialize (Hc x). destruct (check x) as [[r|]|e]; cbn; [congruence|exact IH|done].
Qed.

Lemma match_po_line_refuses x : match_po_line x <> Ok (Some QUALIFIED).
Proof.
  destruct x as [l v]. unfold match_po_line, early. intros H.
  repeat (case_match; inv_ok; try done).
Qed.

Lemma match_receipt_line_refuses x : match_receipt_line x <> Ok (Some QUALIFIED).
Proof.
  destruct x as [l v]. unfold match_receipt_line, early. intros H.
  repeat (case_match; inv_ok; try done).
Qed.

Lemma three_way_qualified invoice po receipt :
  match_three_way invoice po receipt = Ok QUALIFIED <-> three_way_agreement invoice po receipt.
Proof.
  unfold match_three_way, three_way_agreement.
  pose proof (match_lines_None match_po_line po_line_agrees (if_line_items invoice)
    (dict_get po "line_items") match_po_line_None) as Hpo.
  pose proof (match_lines_None match_receipt_line receipt_line_covers (if_line_items invoice)
    (dict_get receipt "line_items") match_receipt_line_None) as Hrc.
  destruct (if_total invoice) as [total|]; [|split; [done|intros (?&?&[=]&_)]].
  destruct (decimal_value (dict_get po "total")) as [po_total|] eqn:Et;
    [|split; [repeat case_match; done|intros (?&?&_&[=]&_)]].
  split.
  - intros Hm. exists total, po_total.
    destruct (py_eq (VStr (currency total)) _); [|done].
    destruct (py_eq (opt_str (if_po_number invoice)) _); [|done]. cbn [negb] in Hm.
    destruct (conflicting (if_vendor_ref invoice) _); [done|].
    destruct (conflicting (if_vendor_tax_id invoice) _); [done|]. inv_ok.
    destruct v; [|done]. destruct (py_eq (dict_get po "receipt_ref") _); [|done].
    cbn [negb] in Hm. inv_ok.
    destruct v as [r|]; [simplify_eq; by apply match_lines_refuses in E0; [|apply match_po_line_refuses]|].
    inv_ok.
    destruct v as [r|]; [cbn in Hm; subst r;
      by apply match_lines_refuses in E1; [|apply match_receipt_line_refuses]|]. split_and!; try done; [by apply Hpo|by apply Hrc].
  - intros (total' & po_total' & [= <-] & [= <-] & He & Hc & Hn & Hv & Ht & Hr & Hl1 & Hl2).
    rewrite Hc, Hn, Hv, Ht, He. cbn [rbind negb]. rewrite Hr. cbn [negb].
    rewrite (proj2 Hpo Hl1). cbn [rbind]. by rewrite (proj2 Hrc Hl2).
Qed.

(** ** Theorems *)

(** The three-way match qualifies an invoice exactly when invoice, order
    and receipt agree: same currency, order number, total and receipt, no vendor
    conflict, every listed order line equal in quantity, currency and price, and
    every listed receipt line covering the invoiced quantity. *)
Theorem match_three_way_exact (invoice : InvoiceFacts) (po receipt : pydict) :
  match_three_way invoice po receipt = Ok QUALIFIED <-> three_way_agreement invoice po receipt.
Proof. apply three_way_qualified. Qed.

Lemma qualify_vendor_spec name tax records v :
  qualify_vendor name tax records = v ->
  (vq_result v = QUALIFIED <-> exists r, vq_vendor v = Some r) /\
  (forall r, vq_vendor v = Some r ->
     List.filter (fun r => if nonempty (stripped tax) then bool_decide (vm_tax_id r = Some (stripped tax))
                           else bool_decide (lower (vm_legal_name r) = lower (stripped name))) records
     = [r]).
Proof.
  unfold qualify_vendor. intros <-. destruct (nonempty (stripped tax));
    destruct (List.filter _ _) as [|r [|r' l]]; cbn; naive_solver.
Qed.

Lemma assessment_validate_Ok a b : assessment_validate a = Ok b -> b = a.
Proof. unfold assessment_validate. intros H. by inv_ok. Qed.

(** An invoice is qualified as a whole exactly when its three assessments
    exist and are each qualified; then exactly one vendor of the master matches,
    neither its number nor its document is a duplicate, and the three-way match
    holds.  All assessments carry the case and epoch they were made for. *)
Theorem qualify_invoice_exact case_id epoch invoice vendors po receipt existing refs rule artifacts
    i1 i2 i3 now summary assessments :
  qualify_invoice_transaction case_id epoch invoice vendors po receipt existing refs rule artifacts
    i1 i2 i3 now = Ok (summary, assessments) ->
  Forall (fun a => ta_case_id a = case_id /\ ta_authority_epoch a = epoch) assessments /\
  (summary_result summary = QUALIFIED <->
     length assessments = 3%nat /\ Forall (fun a => ta_result a = QUALIFIED) assessments) /\
  (summary_result summary = QUALIFIED ->
     exists vendor, vq_vendor (is_vendor summary) = Some vendor /\ vendor ∈ vendors /\
       detect_duplicate_invoice (vm_vendor_ref vendor) (default "" (if_invoice_number invoice)) existing
         = false /\
       detect_duplicate_document (if_document_digest invoice) artifacts = false /\
       three_way_agreement invoice po receipt).
Proof.
  unfold qualify_invoice_transaction.
  destruct (qualify_vendor_spec (if_vendor_name invoice) (if_vendor_tax_id invoice) vendors _ eq_refl) as [Hres Hone].
  set (vendor := qualify_vendor (if_vendor_name invoice) (if_vendor_tax_id invoice) vendors) in *.
  intros Hq. inv_ok. apply assessment_validate_Ok in E as ->.
  unfold summary_result. destruct (vq_vendor vendor) as [record|] eqn:Ev; inv_ok; simplify_eq;
    cbn [is_vendor is_duplicate is_three_way_match].
  - apply assessment_validate_Ok in E as ->. apply assessment_validate_Ok in E1 as ->.
    rewrite (proj2 Hres) by eauto. rewrite (bool_decide_eq_false_2 (QUALIFIED <> QUALIFIED)) by (intros Hn; by apply Hn).
    specialize (Hone record eq_refl).
    assert (record ∈ vendors) as Hin.
    { assert (record ∈ [record]) as Hr by left. rewrite <- Hone in Hr.
      by apply elem_of_filter_bool in Hr as [? _]. }
    destruct (detect_duplicate_invoice _ _ _) eqn:D1; cbn [orb];
      [split_and!; [by repeat constructor|split; [done|intros [_ HF]; by inversion_clear HF as [|? ? _ HF'];
         inversion_clear HF']|done]|].
    destruct (detect_duplicate_document _ _) eqn:D2;
      [split_and!; [by repeat constructor|split; [done|intros [_ HF]; by inversion_clear HF as [|? ? _ HF'];
         inversion_clear HF']|done]|].
    split_and!; [by repeat constructor| |].
    + split; [intros ->; split; [done|by repeat constructor; cbn; rewrite (proj2 Hres) by eauto]|].
      intros [_ HF]. inversion_clear HF as [|? ? _ HF']. inversion_clear HF' as [|? ? _ HF''].
      by inversion_clear HF''.
    + intros ->. exists record. split_and!; try done. by apply three_way_qualified.
  - assert (Hn : vq_result vendor <> QUALIFIED) by (rewrite Hres; by intros [? ?]).
    rewrite bool_decide_eq_true_2 by done.
    split_and!; [by repeat constructor|split; [done|by intros [? _]]|done].
Qed.

(** Finite amounts compare by value. *)
Definition exceeds (m1 e1 m2 e2 : Z) : Prop :=
  m2 * 10 ^ (e2 - Z.min e1 e2) < m1 * 10 ^ (e1 - Z.min e1 e2).

#[global] Instance exceeds_dec m1 e1 m2 e2 : base.Decision (exceeds m1 e1 m2 e2).
Proof. unfold exceeds. apply _. Defined.

(** Procurement above the high-value threshold always needs the
    high-value approval rule, and at or below it the standard one; a foreign
    currency is never approved, it reopens the case; and whatever the facts, no
    effect but the two purchase-order operations is ever allowed. *)
Theorem procurement_evaluate_exact ref d f m e t te cur :
  Forall (fun n => is_Some (ProcurementFacts_getattr f n)) (pp_required_facts d) ->
  rule_valid (pp_standard_approval d) -> rule_valid (pp_high_value_approval d) ->
  pf_estimated_amount f = Some (mkMoney (DFin m e) cur) ->
  amount (pp_high_value_threshold d) = DFin t te ->
  exists ev, ProcurementPolicy_evaluate ref d f = Ok ev /\ evaluation_valid ev /\
    let missing := List.filter (absent (ProcurementFacts_getattr f)) (pp_required_facts d) in
    let rule := if bool_decide (exceeds m e t te) then pp_high_value_approval d
                else pp_standard_approval d in
    (missing <> [] -> pe_disposition ev = NEED_MORE_FACTS /\ pe_missing_facts ev = missing /\
                      pe_allowed_effects ev = []) /\
    (missing = [] -> cur <> currency (pp_normal_threshold d) ->
       pe_disposition ev = POLICY_REOPEN_REQUIRED /\ pe_allowed_effects ev = []) /\
    (missing = [] -> cur = currency (pp_normal_threshold d) ->
       pe_disposition ev = HUMAN_DECISION_REQUIRED /\
       pe_required_decision_roles ev = ar_roles rule /\
       pe_require_distinct_decision_principals ev = ar_require_distinct_principals rule /\
       pe_allowed_effects ev = [erp_effect "purchase_order.create_draft";
                                erp_effect "purchase_order.confirm"]).
Proof.
  intros Hknown Hs Hh Ham Hth. destruct (missing_facts_total _ _ Hknown) as [ms Hm].
  unfold ProcurementPolicy_evaluate. rewrite Hm; cbn [rbind].
  rewrite <- (missing_facts_spec _ _ _ Hm). case_bool_decide as Hne; cbn zeta.
  - destruct (need_more_facts_valid ref "required procurement facts are missing" ms Hne) as [-> ?].
    eexists; split; [done|]. split; [done|]. split_and!; [done|naive_solver..].
  - subst ms. rewrite Ham. cbn [currency amount].
    case_bool_decide as Hc.
    + edestruct (reopen_required_valid ref) as [-> ?]. eexists; split; [done|]. split; [done|].
      split_and!; [done|done|naive_solver].
    + rewrite Hth. cbn [decimal_ltb aligned]. cbn [rbind].
      assert (Hb : (t * 10 ^ (te - Z.min te e) <? m * 10 ^ (e - Z.min te e))
                   = bool_decide (exceeds m e t te)).
      { unfold exceeds. rewrite (Z.min_comm te e). case_bool_decide; lia. }
      rewrite Hb. clear Hb.
      set (rule := if bool_decide _ then _ else _).
      assert (rule_valid rule) as Hr by (unfold rule; by destruct (bool_decide _)).
      edestruct (human_decision_required_valid ref) as [-> ?]; [exact Hr|].
      eexists; split; [done|]. split; [done|]. split_and!; [done|naive_solver|done].
Qed.

(** An expense over the versioned maximum, in another currency or in a
    category outside the allowlist is never approved: no evaluation of it allows
    an effect. *)
Theorem expense_out_of_policy_never_allowed ref d f ev money over :
  ExpensePolicy_evaluate ref d f = Ok ev ->
  xf_amount f = Some money ->
  decimal_ltb (amount (xp_maximum_amount d)) (amount money) = Ok over ->
  currency money <> currency (xp_maximum_amount d) \/ over = true \/
    (forall c, xf_category f = Some c -> c ∉ xp_allowed_categories d) ->
  pe_allowed_effects ev = [] /\ pe_disposition ev <> HUMAN_DECISION_REQUIRED /\
  pe_disposition ev <> AUTO_CLOSABLE.
Proof.
  unfold ExpensePolicy_evaluate. intros Hev Ham Hov Hbad. inv_ok. rewrite Ham, Hov in Hev.
  unfold need_more_facts, reopen_required, human_decision_required in Hev. cbn [rbind] in Hev.
  repeat case_match; apply PolicyEvaluation_validate_Ok in Hev; subst ev; cbn;
    try (split_and!; done); exfalso;
    repeat match goal with
      | H : bool_decide _ = false |- _ => apply bool_decide_eq_false in H
      | H : negb _ = false |- _ => apply negb_false_iff in H
      end.
  - destruct Hbad as [?|[?|Hc]]; [naive_solver|done|].
    match goal with H : bool_decide _ = true |- _ => apply bool_decide_eq_true in H end.
    by eapply Hc.
Qed.

(** An expense policy whose rule asks for distinct principals does not get
    them: the evaluation of an in-policy expense never requires distinct
    decision principals, whatever the definition says. *)
Theorem expense_never_requires_distinct ref d f ev :
  ExpensePolicy_evaluate ref d f = Ok ev -> pe_require_distinct_decision_principals ev = false.
Proof.
  unfold ExpensePolicy_evaluate, need_more_facts, reopen_required, human_decision_required.
  intros Hev. inv_ok. repeat (case_match; inv_ok);
    first [by apply PolicyEvaluation_validate_Ok in Hev as -> | done].
Qed.
