(* ===== verification/Persistence.v ===== *)
(** * Case and execution records, [persistence.py] and [execution_repository.py]

    The tables of requests, cases, policy evaluations, decisions,
    authorizations, effects, realizations, outcomes and audit events, and the
    operations of [SqlStore] and [ExecutionRepository] over them.  Reading a row
    rebuilds its model, so it runs the model's validators.  An audit event keeps
    its case, type and payload; its random id and timestamp are left out. *)

From stdpp Require Import base gmap strings list.
From Stdlib Require Import ZArith Lia.
From S2P Require Import Prelude Python CPython Store Domain Policy Obligations.

Open Scope Z_scope.
Open Scope orch_scope.

(** ** Values of the enumerations the audit events mention *)

Definition DecisionDisposition_value (d : DecisionDisposition) : string :=
  match d with
  | APPROVE => "approve" | REJECT => "reject" | REQUEST_CHANGES => "request_changes"
  | ESCALATE => "escalate"
  end.

Definition EffectStatus_value (s : EffectStatus) : string :=
  match s with
  | PLANNED => "planned" | DISPATCHED => "dispatched" | SUCCEEDED => "succeeded"
  | EFFECT_FAILED => "failed" | OUTCOME_UNKNOWN => "outcome_unknown"
  end.

Definition RealizationDisposition_value (d : RealizationDisposition) : string :=
  match d with
  | VERIFIED => "verified" | NOT_VERIFIED => "not_verified" | MISMATCH => "mismatch"
  | REALIZATION_UNKNOWN => "unknown"
  end.

Definition EffectReversibility_value (r : EffectReversibility) : string :=
  match r with
  | READ_ONLY => "read_only" | REVERSIBLE => "reversible" | CORRECTABLE => "correctable"
  | IRREVERSIBLE => "irreversible" | REVERSIBILITY_UNKNOWN => "unknown"
  end.

Definition PolicyDisposition_value (d : PolicyDisposition) : string :=
  match d with
  | AUTO_CLOSABLE => "auto_closable" | HUMAN_DECISION_REQUIRED => "human_decision_required"
  | NEED_MORE_FACTS => "need_more_facts" | POLICY_REOPEN_REQUIRED => "reopen_required"
  | DENIED => "denied"
  end.

(** ** Tables *)

Record CaseRow := mkCaseRow { cr_request : uuid; cr_case : AdministrativeCase }.

Record PolicyEvaluationRow := mkPolicyEvaluationRow {
  per_case_id : uuid;
  per_case_version : Z;
  per_authority_epoch : Z;
  per_evaluation : PolicyEvaluation;
}.

Record AuditEvent := mkAuditEvent {
  au_case_id : uuid;
  au_event_type : string;
  au_payload : pydict;
}.

Record ExecDb := mkExecDb {
  x_requests : gmap uuid AdministrativeRequest;
  x_cases : gmap uuid CaseRow;
  x_evaluations : list PolicyEvaluationRow;   (* in insertion order, the sequence column *)
  x_decisions : gmap uuid Decision;
  x_authorizations : gmap uuid ExecutionAuthorization;
  x_effects : gmap uuid EffectRecord;
  x_realizations : gmap uuid EffectRealizationAssessment;
  x_outcomes : gmap uuid ConfirmedOutcome;
  x_audit : list AuditEvent;
}.

Definition set_requests (db : ExecDb) t :=
  mkExecDb t (x_cases db) (x_evaluations db) (x_decisions db) (x_authorizations db) (x_effects db)
    (x_realizations db) (x_outcomes db) (x_audit db).
Definition set_cases (db : ExecDb) t :=
  mkExecDb (x_requests db) t (x_evaluations db) (x_decisions db) (x_authorizations db) (x_effects db)
    (x_realizations db) (x_outcomes db) (x_audit db).
Definition set_evaluations (db : ExecDb) t :=
  mkExecDb (x_requests db) (x_cases db) t (x_decisions db) (x_authorizations db) (x_effects db)
    (x_realizations db) (x_outcomes db) (x_audit db).
Definition set_decisions (db : ExecDb) t :=
  mkExecDb (x_requests db) (x_cases db) (x_evaluations db) t (x_authorizations db) (x_effects db)
    (x_realizations db) (x_outcomes db) (x_audit db).
Definition set_authorizations (db : ExecDb) t :=
  mkExecDb (x_requests db) (x_cases db) (x_evaluations db) (x_decisions db) t (x_effects db)
    (x_realizations db) (x_outcomes db) (x_audit db).
Definition set_effects (db : ExecDb) t :=
  mkExecDb (x_requests db) (x_cases db) (x_evaluations db) (x_decisions db) (x_authorizations db) t
    (x_realizations db) (x_outcomes db) (x_audit db).
Definition set_realizations (db : ExecDb) t :=
  mkExecDb (x_requests db) (x_cases db) (x_evaluations db) (x_decisions db) (x_authorizations db)
    (x_effects db) t (x_outcomes db) (x_audit db).
Definition set_outcomes (db : ExecDb) t :=
  mkExecDb (x_requests db) (x_cases db) (x_evaluations db) (x_decisions db) (x_authorizations db)
    (x_effects db) (x_realizations db) t (x_audit db).

(** [_append_audit] *)
Definition append_audit (db : ExecDb) (case_id : uuid) (event_type : string) (payload : pydict) : ExecDb :=
  mkExecDb (x_requests db) (x_cases db) (x_evaluations db) (x_decisions db) (x_authorizations db)
    (x_effects db) (x_realizations db) (x_outcomes db)
    (x_audit db ++ [mkAuditEvent case_id event_type payload]).

Definition opt_uuid (o : option uuid) : pyval :=
  match o with Some u => VStr (uuid_str u) | None => VNone end.

(** [{**a, **b}] *)
Definition dict_merge (a b : pydict) : pydict :=
  fold_left (fun d kv => dict_set d (fst kv) (snd kv)) b a.

(** ** [SqlStore] *)

Definition snapshot_id_of (c : AdministrativeCase) : option uuid := fs_snapshot_id <$> c_fact_snapshot c.

(** [SqlStore.create_case] *)
Definition store_create_case (db : ExecDb) (request : AdministrativeRequest) (c : AdministrativeCase)
  : result ExecDb :=
  let! requests := db_add (x_requests db) (rq_request_id request) request in
  let! cases := db_add (x_cases db) (c_case_id c) (mkCaseRow (rq_request_id request) c) in
  Ok (append_audit (set_cases (set_requests db requests) cases) (c_case_id c) "case.created"
        [("request_id", VStr (uuid_str (rq_request_id request)));
         ("case_kind", VStr (c_case_kind c)); ("case_version", VInt (c_version c));
         ("authority_epoch", VInt (c_authority_epoch c));
         ("fact_snapshot_id", opt_uuid (snapshot_id_of c))]).

(** [_case_from_row]: [model_validate] of the case and its snapshot. *)
Definition case_from_row (row : CaseRow) : result AdministrativeCase :=
  let! _ := match c_fact_snapshot (cr_case row) with
            | Some s => rbind (assertion_values_match_flattened_facts s) (fun _ => Ok tt)
            | None => Ok tt
            end in
  validate_case (cr_case row).

Lemma case_from_row_Ok row c : case_from_row row = Ok c -> c = cr_case row.
Proof. unfold case_from_row, validate_case. intros Hc. inv_ok. done. Qed.

Definition get_case (db : ExecDb) (case_id : uuid) : result (option AdministrativeCase) :=
  match x_cases db !! case_id with
  | None => Ok None
  | Some row => let! c := case_from_row row in Ok (Some c)
  end.

(** [_copy_case_into_row]: every field but the id and the creation time. *)
Definition copy_case_into_row (row : CaseRow) (c : AdministrativeCase) : CaseRow :=
  mkCaseRow (cr_request row)
    (mkAdministrativeCase (c_case_id (cr_case row)) (c_case_kind c) (c_requester_principal_id c)
       (c_subject_ref c) (c_status c) (c_version c) (c_authority_epoch c) (c_fact_snapshot c)
       (c_policy_ref c) (c_evidence c) (c_reopen_reason c) (c_created_at (cr_case row))
       (c_updated_at c)).

Definition update_case (db : ExecDb) (c : AdministrativeCase) (expected_previous_version : Z)
    (event_type : string) (payload : pydict) : result ExecDb :=
  match x_cases db !! c_case_id c with
  | None => raise KeyError ("case " +:+ uuid_str (c_case_id c) +:+ " not found")
  | Some row =>
      refuse bool_decide (c_version (cr_case row) <> expected_previous_version)
        with ConcurrencyConflict
        saying ("case " +:+ uuid_str (c_case_id c) +:+ " version changed: expected "
                +:+ int_str expected_previous_version +:+ ", found "
                +:+ int_str (c_version (cr_case row)));;
      Ok (append_audit
            (set_cases db (<[c_case_id c := copy_case_into_row row c]> (x_cases db)))
            (c_case_id c) event_type
            (dict_merge [("case_version", VInt (c_version c));
                         ("authority_epoch", VInt (c_authority_epoch c));
                         ("status", VStr (CaseStatus_value (c_status c)))] payload))
  end.

Definition append_policy_evaluation (db : ExecDb) (case_id : uuid) (case_version authority_epoch : Z)
    (evaluation : PolicyEvaluation) : ExecDb :=
  append_audit
    (set_evaluations db (x_evaluations db
       ++ [mkPolicyEvaluationRow case_id case_version authority_epoch evaluation]))
    case_id "policy.evaluated"
    [("case_version", VInt case_version); ("authority_epoch", VInt authority_epoch);
     ("policy_id", VStr (pr_policy_id (pe_policy_ref evaluation)));
     ("policy_version", VStr (pr_version (pe_policy_ref evaluation)));
     ("disposition", VStr (PolicyDisposition_value (pe_disposition evaluation)))].

Definition get_latest_policy_evaluation (db : ExecDb) (case_id : uuid) : result (option PolicyEvaluation) :=
  match last (List.filter (fun r => bool_decide (per_case_id r = case_id)) (x_evaluations db)) with
  | None => Ok None
  | Some row => let! e := PolicyEvaluation_validate (per_evaluation row) in Ok (Some e)
  end.

Definition append_decision (db : ExecDb) (d : Decision) : result ExecDb :=
  let! t := db_add (x_decisions db) (d_decision_id d) d in
  Ok (append_audit (set_decisions db t) (d_case_id d) "decision.recorded"
        [("decision_id", VStr (uuid_str (d_decision_id d))); ("case_version", VInt (d_case_version d));
         ("authority_epoch", VInt (d_authority_epoch d)); ("principal_id", VStr (d_principal_id d));
         ("decision_role", opt_str (d_decision_role d));
         ("disposition", VStr (DecisionDisposition_value (d_disposition d)));
         ("policy_id", VStr (pr_policy_id (d_policy_ref d)));
         ("policy_version", VStr (pr_version (d_policy_ref d)))]).

Definition get_decision (db : ExecDb) (decision_id : uuid) : option Decision :=
  x_decisions db !! decision_id.

(** The raw inserts of [SqlStore]: only the primary key is checked. *)
Definition append_authorization (db : ExecDb) (a : ExecutionAuthorization) : result ExecDb :=
  let! t := db_add (x_authorizations db) (ea_authorization_id a) a in
  Ok (append_audit (set_authorizations db t) (ea_case_id a) "authorization.issued"
        [("authorization_id", VStr (uuid_str (ea_authorization_id a)));
         ("decision_id", opt_uuid (ea_decision_id a));
         ("approval_satisfaction_id", opt_uuid (ea_approval_satisfaction_id a));
         ("case_version", VInt (ea_case_version a)); ("authority_epoch", VInt (ea_authority_epoch a));
         ("target_system", VStr (ea_target_system a));
         ("allowed_operations", VList (VStr <$> ea_allowed_operations a));
         ("authority_class", VStr (AuthorityClass_value (ea_authority_class a)))]).

Definition append_effect (db : ExecDb) (e : EffectRecord) : result ExecDb :=
  let! t := db_add (x_effects db) (ef_effect_id e)
    (mkEffectRecord (ef_effect_id e) (ef_case_id e) (ef_case_version e) (ef_authority_epoch e)
       (ef_authorization_id e) None None (ef_target_system e) (ef_operation e) (ef_subject_ref e)
       (ef_reversibility e) (ef_authority_class e) (ef_status e) (ef_provider_ref e)
       (ef_created_at e) (ef_updated_at e)) in
  Ok (append_audit (set_effects db t) (ef_case_id e) "effect.planned"
        [("effect_id", VStr (uuid_str (ef_effect_id e)));
         ("authorization_id", VStr (uuid_str (ef_authorization_id e)));
         ("case_version", VInt (ef_case_version e)); ("authority_epoch", VInt (ef_authority_epoch e));
         ("target_system", VStr (ef_target_system e)); ("operation", VStr (ef_operation e));
         ("reversibility", VStr (EffectReversibility_value (ef_reversibility e)));
         ("authority_class", VStr (AuthorityClass_value (ef_authority_class e)))]).

Definition append_realization (db : ExecDb) (a : EffectRealizationAssessment) (case_id : uuid)
  : result ExecDb :=
  let! t := db_add (x_realizations db) (er_assessment_id a) a in
  Ok (append_audit (set_realizations db t) case_id "effect.realization_assessed"
        [("assessment_id", VStr (uuid_str (er_assessment_id a)));
         ("effect_id", VStr (uuid_str (er_effect_id a)));
         ("disposition", VStr (RealizationDisposition_value (er_disposition a)))]).

Definition append_outcome (db : ExecDb) (o : ConfirmedOutcome) : result ExecDb :=
  let! t := db_add (x_outcomes db) (co_outcome_id o) o in
  Ok (append_audit (set_outcomes db t) (co_case_id o) "outcome.confirmed"
        [("outcome_id", VStr (uuid_str (co_outcome_id o)));
         ("effect_id", VStr (uuid_str (co_effect_id o)));
         ("outcome_kind", VStr (co_outcome_kind o)); ("case_version", VInt (co_case_version o));
         ("authority_epoch", VInt (co_authority_epoch o))]).

Definition list_audit_events (db : ExecDb) (case_id : uuid) : list AuditEvent :=
  List.filter (fun e => bool_decide (au_case_id e = case_id)) (x_audit db).

(** ** [ExecutionRepository] *)

Definition get_latest_decision (db : ExecDb) (case_id : uuid) : option Decision :=
  head (sort_by (fun a b => cmp_then (Z.compare (d_decided_at b) (d_decided_at a))
                              (N.compare (d_decision_id b) (d_decision_id a)))
          (select_where (fun d => bool_decide (d_case_id d = case_id)) (x_decisions db))).

Definition get_authorization (db : ExecDb) (authorization_id : uuid)
  : result (option ExecutionAuthorization) :=
  match x_authorizations db !! authorization_id with
  | None => Ok None
  | Some row => let! a := ExecutionAuthorization_validate row in Ok (Some a)
  end.

Definition put_authorization (db : ExecDb) (a : ExecutionAuthorization)
  : result (ExecutionAuthorization * ExecDb) :=
  match x_authorizations db !! ea_authorization_id a with
  | Some row =>
      let! restored := ExecutionAuthorization_validate row in
      refuse bool_decide (restored <> a) with ExecutionConflict
        saying "authorization id already exists with different semantics";;
      Ok (restored, db)
  | None =>
      Ok (a, append_audit
               (set_authorizations db (<[ea_authorization_id a := a]> (x_authorizations db)))
               (ea_case_id a) "authorization.issued"
               [("authorization_id", VStr (uuid_str (ea_authorization_id a)));
                ("decision_id", opt_uuid (ea_decision_id a));
                ("approval_satisfaction_id", opt_uuid (ea_approval_satisfaction_id a));
                ("authority_epoch", VInt (ea_authority_epoch a));
                ("target_system", VStr (ea_target_system a));
                ("allowed_operations", VList (VStr <$> ea_allowed_operations a))])
  end.

(** The effect table has no lineage columns; a row keeps [None] there. *)
Definition effect_row (e : EffectRecord) : EffectRecord :=
  mkEffectRecord (ef_effect_id e) (ef_case_id e) (ef_case_version e) (ef_authority_epoch e)
    (ef_authorization_id e) None None (ef_target_system e) (ef_operation e) (ef_subject_ref e)
    (ef_reversibility e) (ef_authority_class e) (ef_status e) (ef_provider_ref e)
    (ef_created_at e) (ef_updated_at e).

(** [_effect_from_row] with [_effect_lineage]: the link table supplies the
    obligation and the governance basis. *)
Definition effect_from_row (links : gmap uuid EffectObligationLink) (row : EffectRecord) : EffectRecord :=
  let lineage := links !! ef_effect_id row in
  mkEffectRecord (ef_effect_id row) (ef_case_id row) (ef_case_version row) (ef_authority_epoch row)
    (ef_authorization_id row) (ln_obligation_id <$> lineage) (ln_governance_basis_id <$> lineage)
    (ef_target_system row) (ef_operation row) (ef_subject_ref row) (ef_reversibility row)
    (ef_authority_class row) (ef_status row) (ef_provider_ref row) (ef_created_at row)
    (ef_updated_at row).

(** [_effect_identity] *)
Definition effect_identity (e : EffectRecord) :=
  (ef_effect_id e, ef_case_id e, ef_authority_epoch e, ef_authorization_id e, ef_target_system e,
   ef_operation e, ef_subject_ref e, ef_reversibility e, ef_authority_class e).

Definition put_effect (db : ExecDb) (links : gmap uuid EffectObligationLink) (e : EffectRecord)
  : result (EffectRecord * ExecDb) :=
  match x_effects db !! ef_effect_id e with
  | Some row =>
      let restored := effect_from_row links row in
      refuse bool_decide (effect_identity restored <> effect_identity e) with ExecutionConflict
        saying "effect id already exists with different semantics";;
      Ok (restored, db)
  | None =>
      Ok (e, append_audit (set_effects db (<[ef_effect_id e := effect_row e]> (x_effects db)))
               (ef_case_id e) "effect.planned"
               [("effect_id", VStr (uuid_str (ef_effect_id e)));
                ("authorization_id", VStr (uuid_str (ef_authorization_id e)));
                ("authority_epoch", VInt (ef_authority_epoch e));
                ("target_system", VStr (ef_target_system e)); ("operation", VStr (ef_operation e))])
  end.

Definition get_effect (db : ExecDb) (links : gmap uuid EffectObligationLink) (effect_id : uuid)
  : option EffectRecord := effect_from_row links <$> x_effects db !! effect_id.

Definition list_effects (db : ExecDb) (links : gmap uuid EffectObligationLink) (case_id : uuid)
    (authority_epoch : Z) : list EffectRecord :=
  effect_from_row links <$>
    sort_by (fun a b => cmp_then (String.compare (ef_target_system a) (ef_target_system b))
                          (cmp_then (String.compare (ef_operation a) (ef_operation b))
                             (N.compare (ef_effect_id a) (ef_effect_id b))))
      (select_where (fun e => bool_decide (ef_case_id e = case_id)
                              && bool_decide (ef_authority_epoch e = authority_epoch)) (x_effects db)).

Definition with_effect_status (row : EffectRecord) (status : EffectStatus)
    (provider_ref : option string) (now : instant) : EffectRecord :=
  mkEffectRecord (ef_effect_id row) (ef_case_id row) (ef_case_version row) (ef_authority_epoch row)
    (ef_authorization_id row) (ef_obligation_id row) (ef_governance_basis_id row)
    (ef_target_system row) (ef_operation row) (ef_subject_ref row) (ef_reversibility row)
    (ef_authority_class row) status
    (match provider_ref with Some _ => provider_ref | None => ef_provider_ref row end)
    (ef_created_at row) now.

Definition set_effect_status (db : ExecDb) (links : gmap uuid EffectObligationLink) (effect_id : uuid)
    (status : EffectStatus) (provider_ref : option string) (now : instant)
  : result (EffectRecord * ExecDb) :=
  match x_effects db !! effect_id with
  | None => raise KeyError ("effect " +:+ uuid_str effect_id +:+ " not found")
  | Some row =>
      if bool_decide (ef_status row = status)
         && (bool_decide (provider_ref = None) || bool_decide (ef_provider_ref row = provider_ref))
      then Ok (effect_from_row links row, db)
      else
        let row' := with_effect_status row status provider_ref now in
        Ok (effect_from_row links row',
            append_audit (set_effects db (<[effect_id := row']> (x_effects db)))
              (ef_case_id row) "effect.status_changed"
              [("effect_id", VStr (uuid_str effect_id)); ("status", VStr (EffectStatus_value status));
               ("provider_ref", opt_str (ef_provider_ref row'))])
  end.

(** Pydantic equality of evidence, realizations and outcomes. *)
Definition evidence_eqb (a b : EvidenceRef) : bool :=
  bool_decide (ev_evidence_id a = ev_evidence_id b) && bool_decide (ev_source a = ev_source b)
  && bool_decide (ev_owner a = ev_owner b) && bool_decide (ev_observed_at a = ev_observed_at b)
  && bool_decide (ev_version a = ev_version b) && bool_decide (ev_digest a = ev_digest b)
  && py_eq (VDict (ev_metadata a)) (VDict (ev_metadata b)).

Fixpoint evidence_list_eqb (a b : list EvidenceRef) : bool :=
  match a, b with
  | [], [] => true
  | x :: a', y :: b' => evidence_eqb x y && evidence_list_eqb a' b'
  | _, _ => false
  end.

Definition realization_eqb (a b : EffectRealizationAssessment) : bool :=
  bool_decide (er_assessment_id a = er_assessment_id b) && bool_decide (er_effect_id a = er_effect_id b)
  && bool_decide (er_disposition a = er_disposition b)
  && evidence_list_eqb (er_evidence a) (er_evidence b)
  && bool_decide (er_assessed_at a = er_assessed_at b).

Definition outcome_eqb (a b : ConfirmedOutcome) : bool :=
  bool_decide (co_outcome_id a = co_outcome_id b) && bool_decide (co_case_id a = co_case_id b)
  && bool_decide (co_case_version a = co_case_version b)
  && bool_decide (co_authority_epoch a = co_authority_epoch b)
  && bool_decide (co_effect_id a = co_effect_id b)
  && bool_decide (co_realization_assessment_id a = co_realization_assessment_id b)
  && bool_decide (co_outcome_kind a = co_outcome_kind b)
  && evidence_list_eqb (co_evidence a) (co_evidence b)
  && bool_decide (co_confirmed_at a = co_confirmed_at b).

Definition put_realization (db : ExecDb) (a : EffectRealizationAssessment) (case_id : uuid)
  : result (EffectRealizationAssessment * ExecDb) :=
  match x_effects db !! er_effect_id a with
  | None => raise ExecutionConflict "realization requires a persisted effect"
  | Some effect =>
      refuse bool_decide (ef_case_id effect <> case_id) with ExecutionConflict
        saying "realization case does not match its effect";;
      match x_realizations db !! er_assessment_id a with
      | Some row =>
          let! restored := EffectRealizationAssessment_validate row in
          refuse negb (realization_eqb restored a) with ExecutionConflict
            saying "realization id already exists with different semantics";;
          Ok (restored, db)
      | None =>
          Ok (a, append_audit (set_realizations db (<[er_assessment_id a := a]> (x_realizations db)))
                   case_id "effect.realization_assessed"
                   [("assessment_id", VStr (uuid_str (er_assessment_id a)));
                    ("effect_id", VStr (uuid_str (er_effect_id a)));
                    ("disposition", VStr (RealizationDisposition_value (er_disposition a)))])
      end
  end.

Definition get_realization (db : ExecDb) (assessment_id : uuid)
  : result (option EffectRealizationAssessment) :=
  match x_realizations db !! assessment_id with
  | None => Ok None
  | Some row => let! r := EffectRealizationAssessment_validate row in Ok (Some r)
  end.

Definition list_realizations (db : ExecDb) (case_id : uuid) (authority_epoch : option Z)
  : result (list EffectRealizationAssessment) :=
  traverse EffectRealizationAssessment_validate
    (sort_by (fun a b => cmp_then (Z.compare (er_assessed_at a) (er_assessed_at b))
                           (N.compare (er_assessment_id a) (er_assessment_id b)))
       (select_where (fun r =>
          match x_effects db !! er_effect_id r with
          | Some e => bool_decide (ef_case_id e = case_id)
                      && match authority_epoch with
                         | Some n => bool_decide (ef_authority_epoch e = n)
                         | None => true
                         end
          | None => false
          end) (x_realizations db))).

Definition put_outcome (db : ExecDb) (o : ConfirmedOutcome) : result (ConfirmedOutcome * ExecDb) :=
  match x_effects db !! co_effect_id o with
  | None => raise ExecutionConflict "outcome requires a persisted effect"
  | Some effect =>
      match x_realizations db !! co_realization_assessment_id o with
      | None => raise ExecutionConflict "outcome requires a persisted realization"
      | Some realization =>
          refuse bool_decide (er_effect_id realization <> co_effect_id o) with ExecutionConflict
            saying "outcome realization belongs to a different effect";;
          refuse bool_decide (ef_case_id effect <> co_case_id o)
                 || bool_decide (ef_case_version effect <> co_case_version o)
                 || bool_decide (ef_authority_epoch effect <> co_authority_epoch o)
            with ExecutionConflict
            saying "outcome case, version, or authority epoch does not match its effect";;
          match x_outcomes db !! co_outcome_id o with
          | Some row =>
              let! restored := ConfirmedOutcome_validate row in
              refuse negb (outcome_eqb restored o) with ExecutionConflict
                saying "outcome id already exists with different semantics";;
              Ok (restored, db)
          | None =>
              Ok (o, append_audit (set_outcomes db (<[co_outcome_id o := o]> (x_outcomes db)))
                       (co_case_id o) "outcome.confirmed"
                       [("outcome_id", VStr (uuid_str (co_outcome_id o)));
                        ("effect_id", VStr (uuid_str (co_effect_id o)));
                        ("outcome_kind", VStr (co_outcome_kind o));
                        ("authority_epoch", VInt (co_authority_epoch o))])
          end
      end
  end.

Definition get_outcome (db : ExecDb) (outcome_id : uuid) : result (option ConfirmedOutcome) :=
  match x_outcomes db !! outcome_id with
  | None => Ok None
  | Some row => let! o := ConfirmedOutcome_validate row in Ok (Some o)
  end.

Definition list_outcomes (db : ExecDb) (case_id : uuid) (authority_epoch : option Z)
  : result (list ConfirmedOutcome) :=
  traverse ConfirmedOutcome_validate
    (sort_by (fun a b => cmp_then (Z.compare (co_confirmed_at a) (co_confirmed_at b))
                           (N.compare (co_outcome_id a) (co_outcome_id b)))
       (select_where (fun o => bool_decide (co_case_id o = case_id)
                               && match authority_epoch with
                                  | Some n => bool_decide (co_authority_epoch o = n)
                                  | None => true
                                  end) (x_outcomes db))).
