(* ===== verification/Transactions.v ===== *)
(** * Transaction evidence and qualification records, [transaction_repository.py]

    Append-only evidence links and qualification assessments; a new assessment
    of a kind must supersede the current one, so that each kind has at most one
    current assessment per case and epoch. *)

From stdpp Require Import base gmap strings list.
From Stdlib Require Import ZArith Lia.
From S2P Require Import Prelude Python CPython Store Domain Policy Financial Obligations.
From S2P Require Import Persistence.

Open Scope Z_scope.
Open Scope orch_scope.

Record OutboxMessage := mkOutboxMessage {
  ob_event_type : string;
  ob_aggregate_id : string;
  ob_payload : pydict;
}.

Record TxnDb := mkTxnDb {
  t_links : gmap uuid AdministrativeCaseEvidenceLink;
  t_assessments : gmap uuid TransactionQualificationAssessment;
  t_outbox : list OutboxMessage;
}.

Definition empty_txn_db : TxnDb := mkTxnDb ∅ ∅ [].

(** [_link_semantics], [_assessment_semantics]: every field but the id. *)
Definition link_semantics (l : AdministrativeCaseEvidenceLink) :=
  (el_case_id l, el_authority_epoch l, el_artifact_ref l, el_representation_ref l,
   el_declared_role l, el_source l, el_linked_at l, el_linked_by l).

Definition assessment_semantics (a : TransactionQualificationAssessment) :=
  (ta_case_id a, ta_authority_epoch a, ta_assessment_kind a, ta_supersedes_assessment_id a,
   ta_input_refs a, ta_rule_ref a, ta_result a, ta_blocking_reasons a, ta_created_at a).

Definition TransactionQualificationResult_value (r : TransactionQualificationResult) : string :=
  match r with
  | QUALIFIED => "qualified" | INCOMPLETE => "incomplete" | TQ_MISMATCH => "mismatch"
  | AMBIGUOUS => "ambiguous" | DUPLICATE => "duplicate"
  end.

(** SQL compares a NULL [representation_ref] with [IS NULL], as SQLAlchemy
    renders [== None]. *)
Definition append_evidence_link (x : ExecDb) (t : TxnDb) (link : AdministrativeCaseEvidenceLink)
  : result (AdministrativeCaseEvidenceLink * (ExecDb * TxnDb)) :=
  match t_links t !! el_link_id link with
  | Some restored =>
      refuse bool_decide (link_semantics restored <> link_semantics link) with TransactionRecordConflict
        saying "evidence link identity was reused with different semantics";;
      Ok (restored, (x, t))
  | None =>
      match select_where (fun l =>
              bool_decide (el_case_id l = el_case_id link)
              && bool_decide (el_authority_epoch l = el_authority_epoch link)
              && bool_decide (el_artifact_ref l = el_artifact_ref link)
              && bool_decide (el_representation_ref l = el_representation_ref link)
              && bool_decide (el_declared_role l = el_declared_role link)) (t_links t) with
      | restored :: _ =>
          refuse bool_decide (link_semantics restored <> link_semantics link)
            with TransactionRecordConflict
            saying "evidence link semantics already exist with different identity";;
          Ok (restored, (x, t))
      | [] =>
          Ok (link,
              (append_audit x (el_case_id link) "transaction.evidence_link.appended"
                 [("link_id", VStr (uuid_str (el_link_id link)));
                  ("authority_epoch", VInt (el_authority_epoch link));
                  ("artifact_ref", VStr (uuid_str (el_artifact_ref link)));
                  ("representation_ref", opt_uuid (el_representation_ref link));
                  ("declared_role", VStr (el_declared_role link))],
               mkTxnDb (<[el_link_id link := link]> (t_links t)) (t_assessments t) (t_outbox t)))
      end
  end.

Definition list_evidence_links (t : TxnDb) (case_id : uuid) (authority_epoch : Z)
  : list AdministrativeCaseEvidenceLink :=
  sort_by (fun a b => cmp_then (Z.compare (el_linked_at a) (el_linked_at b))
                        (N.compare (el_link_id a) (el_link_id b)))
    (select_where (fun l => bool_decide (el_case_id l = case_id)
                            && bool_decide (el_authority_epoch l = authority_epoch)) (t_links t)).

(** [superseded_ids]: the targets of the rows' supersessions. *)
Definition superseded_ids (rows : list TransactionQualificationAssessment) : list uuid :=
  omap ta_supersedes_assessment_id rows.

Definition not_superseded (rows : list TransactionQualificationAssessment)
    (a : TransactionQualificationAssessment) : bool :=
  bool_decide (ta_assessment_id a ∉ superseded_ids rows).

Definition same_kind (a b : TransactionQualificationAssessment) : bool :=
  bool_decide (ta_case_id a = ta_case_id b)
  && bool_decide (ta_authority_epoch a = ta_authority_epoch b)
  && bool_decide (ta_assessment_kind a = ta_assessment_kind b).

(** The supersession rules of [append_assessment]. *)
Definition check_supersession (t : TxnDb) (a : TransactionQualificationAssessment) : result unit :=
  match ta_supersedes_assessment_id a with
  | Some target =>
      match t_assessments t !! target with
      | None => raise TransactionRecordConflict
          "qualification assessment supersession target does not exist"
      | Some superseded =>
          refuse negb (same_kind superseded a) with TransactionRecordConflict
            saying "qualification assessment supersession target has incompatible identity";;
          guard (negb (is_nil (select_where
                   (fun r => bool_decide (ta_supersedes_assessment_id r = Some target))
                   (t_assessments t))))
            TransactionRecordConflict
            "qualification assessment supersession target is already superseded"
      end
  | None =>
      let same_kind_rows := select_where (fun r => same_kind r a) (t_assessments t) in
      guard (negb (is_nil (List.filter (not_superseded same_kind_rows) same_kind_rows)))
        TransactionRecordConflict "new qualification assessment must supersede the current assessment"
  end.

Definition append_assessment (x : ExecDb) (t : TxnDb) (a : TransactionQualificationAssessment)
  : result (TransactionQualificationAssessment * (ExecDb * TxnDb)) :=
  match t_assessments t !! ta_assessment_id a with
  | Some restored =>
      refuse bool_decide (assessment_semantics restored <> assessment_semantics a)
        with TransactionRecordConflict
        saying "qualification assessment identity was reused with different semantics";;
      Ok (restored, (x, t))
  | None =>
      let! _ := check_supersession t a in
      Ok (a,
          (append_audit x (ta_case_id a) "transaction.qualification_assessment.appended"
             [("assessment_id", VStr (uuid_str (ta_assessment_id a)));
              ("authority_epoch", VInt (ta_authority_epoch a));
              ("assessment_kind", VStr (ta_assessment_kind a));
              ("result", VStr (TransactionQualificationResult_value (ta_result a)));
              ("rule_ref", VStr (ta_rule_ref a))],
           mkTxnDb (t_links t) (<[ta_assessment_id a := a]> (t_assessments t))
             (t_outbox t ++
              [mkOutboxMessage "workflow.case_changed" (uuid_str (ta_case_id a))
                 [("case_id", VStr (uuid_str (ta_case_id a)));
                  ("authority_epoch", VInt (ta_authority_epoch a));
                  ("cause", VStr "qualification_assessment");
                  ("assessment_id", VStr (uuid_str (ta_assessment_id a)));
                  ("assessment_kind", VStr (ta_assessment_kind a))]])))
  end.

Definition list_assessments (t : TxnDb) (case_id : uuid) (authority_epoch : Z)
  : list TransactionQualificationAssessment :=
  sort_by (fun a b => cmp_then (Z.compare (ta_created_at a) (ta_created_at b))
                        (N.compare (ta_assessment_id a) (ta_assessment_id b)))
    (select_where (fun a => bool_decide (ta_case_id a = case_id)
                            && bool_decide (ta_authority_epoch a = authority_epoch))
       (t_assessments t)).

(** [_current_assessments_from_rows] *)
Definition ambiguous_kinds (current : list TransactionQualificationAssessment) : list string :=
  let by_kind := remove_dups (ta_assessment_kind <$> current) in
  sort_by String.compare
    (List.filter (fun k =>
       Nat.ltb 1 (length (List.filter (fun a => bool_decide (ta_assessment_kind a = k)) current)))
       by_kind).

Definition current_assessments_from_rows (rows : list TransactionQualificationAssessment)
  : result (list TransactionQualificationAssessment) :=
  let current := List.filter (not_superseded rows) rows in
  let ambiguous := ambiguous_kinds current in
  refuse negb (is_nil ambiguous) with TransactionRecordConflict
    saying ("multiple current qualification assessments exist for: " +:+ join ", " ambiguous);;
  Ok current.

(** [current_assessments_in_session] and [list_current_assessments]. *)
Definition list_current_assessments (t : TxnDb) (case_id : uuid) (authority_epoch : Z)
  : result (list TransactionQualificationAssessment) :=
  current_assessments_from_rows
    (select_where (fun a => bool_decide (ta_case_id a = case_id)
                            && bool_decide (ta_authority_epoch a = authority_epoch))
       (t_assessments t)).

(** ** Histories *)

Inductive txn_step (t t' : TxnDb) : Prop :=
  | tstep_link x x' l r (Hs : append_evidence_link x t l = Ok (r, (x', t')))
  | tstep_assess x x' a r (Hs : append_assessment x t a = Ok (r, (x', t'))).

Definition txn_reachable (t : TxnDb) : Prop := rtc txn_step empty_txn_db t.

(** A stored assessment that no stored assessment supersedes. *)
Definition is_current (m : gmap uuid TransactionQualificationAssessment)
    (a : TransactionQualificationAssessment) : Prop :=
  m !! ta_assessment_id a = Some a /\
  forall k r, m !! k = Some r -> ta_supersedes_assessment_id r <> Some (ta_assessment_id a).

Record txn_wf (t : TxnDb) : Prop := {
  twf_keyed : keyed ta_assessment_id (t_assessments t);
  twf_targets : forall k r target, t_assessments t !! k = Some r ->
    ta_supersedes_assessment_id r = Some target ->
    exists s, t_assessments t !! target = Some s /\ same_kind s r = true;
  twf_one_current : forall a b, is_current (t_assessments t) a -> is_current (t_assessments t) b ->
    same_kind a b = true -> a = b;
}.

Lemma same_kind_spec a b : same_kind a b = true <->
  ta_case_id a = ta_case_id b /\ ta_authority_epoch a = ta_authority_epoch b /\
  ta_assessment_kind a = ta_assessment_kind b.
Proof. unfold same_kind. rewrite !andb_true_iff, !bool_decide_eq_true. tauto. Qed.

Lemma txn_wf_empty : txn_wf empty_txn_db.
Proof.
  split; cbn; [apply keyed_empty|by intros *; rewrite lookup_empty|].
  intros a b [Ha _]. by rewrite lookup_empty in Ha.
Qed.

Lemma elem_of_superseded rows u :
  u ∈ superseded_ids rows <-> exists r, r ∈ rows /\ ta_supersedes_assessment_id r = Some u.
Proof. unfold superseded_ids. rewrite list_elem_of_omap. naive_solver. Qed.

(** Currency inside a selection of whole kinds is currency in the table. *)
Lemma not_superseded_spec t P a :
  txn_wf t ->
  (forall r s, same_kind s r = true -> P s = true -> P r = true) ->
  a ∈ List.filter (not_superseded (select_where P (t_assessments t))) (select_where P (t_assessments t))
  <-> is_current (t_assessments t) a /\ P a = true.
Proof.
  intros Hwf HP. rewrite elem_of_filter_bool. unfold not_superseded, is_current.
  rewrite bool_decide_eq_true, elem_of_superseded, elem_of_select_where. split.
  - intros [[[k Hk] Ha] Hn]. split; [|done].
    pose proof (twf_keyed _ Hwf _ _ Hk) as Hid. cbn in Hid. subst k. split; [done|].
    intros k r Hr Hs. apply Hn. exists r. split; [|done]. apply elem_of_select_where.
    split; [eauto|]. destruct (twf_targets _ Hwf _ _ _ Hr Hs) as (s & Hs' & Hkind).
    assert (s = a) as -> by congruence. by eapply HP.
  - intros [[Hk Hn] Ha]. split; [eauto|]. intros (r & [[k Hr] _]%elem_of_select_where & Hs).
    by eapply Hn.
Qed.

Lemma append_assessment_wf t a :
  txn_wf t -> t_assessments t !! ta_assessment_id a = None -> check_supersession t a = Ok tt ->
  txn_wf (mkTxnDb (t_links t) (<[ta_assessment_id a := a]> (t_assessments t)) (t_outbox t)).
Proof.
  intros Hwf Hfresh Hchk.
  (* every other current assessment of the kind is the superseded one *)
  assert (Hcur : forall b, is_current (t_assessments t) b -> same_kind b a = true ->
            ta_supersedes_assessment_id a = Some (ta_assessment_id b)).
  { intros b Hb Hk. unfold check_supersession in Hchk.
    destruct (ta_supersedes_assessment_id a) as [target|].
    - destruct (t_assessments t !! target) as [s|] eqn:Es; [|done]. inv_ok. propify.
      apply is_nil_true in Hchk. rewrite select_where_nil in Hchk.
      assert (Hs : is_current (t_assessments t) s).
      { pose proof (twf_keyed _ Hwf _ _ Es) as Hid. cbn in Hid. split; [congruence|].
        intros k r Hr Hsup. specialize (Hchk k r Hr). rewrite Hid in Hsup.
        by rewrite bool_decide_eq_true_2 in Hchk. }
      pose proof (twf_keyed _ Hwf _ _ Es) as Hid. cbn in Hid.
      rewrite (twf_one_current _ Hwf b s Hb Hs); [congruence|].
      rewrite same_kind_spec in *. intuition congruence.
    - apply guard_Ok in Hchk. propify. apply is_nil_true in Hchk. exfalso.
      apply (not_elem_of_nil b). rewrite <- Hchk. apply not_superseded_spec; [done| |done].
      intros r s. rewrite !same_kind_spec. intuition congruence. }
  assert (Hdown : forall b, b <> a -> is_current (<[ta_assessment_id a := a]> (t_assessments t)) b ->
            is_current (t_assessments t) b /\ ta_supersedes_assessment_id a <> Some (ta_assessment_id b)).
  { intros b Hne [Hb Hn]. rewrite lookup_insert_Some in Hb. destruct Hb as [[_ ?]|[Hid Hb]]; [done|].
    split; [|apply (Hn (ta_assessment_id a)), lookup_insert_eq].
    split; [done|]. intros k r Hr. apply (Hn k). rewrite lookup_insert_ne; [done|congruence]. }
  split; cbn.
  - by apply keyed_insert, twf_keyed.
  - intros k r target [[<- <-]|[? Hr]]%lookup_insert_Some Hs.
    + unfold check_supersession in Hchk. rewrite Hs in Hchk.
      destruct (t_assessments t !! target) as [s|] eqn:Es; [|done]. inv_ok. propify.
      exists s. split; [|done]. rewrite lookup_insert_ne; [done|congruence].
    + destruct (twf_targets _ Hwf _ _ _ Hr Hs) as (s & Hs' & ?). exists s. split; [|done].
      rewrite lookup_insert_ne; [done|congruence].
  - intros b c Hb Hc Hk. destruct (decide (b = a)) as [->|Hba], (decide (c = a)) as [->|Hca]; [done| | |].
    + destruct (Hdown c Hca Hc) as [Hc' Hn]. destruct Hn. apply Hcur; [done|].
      rewrite same_kind_spec in *. intuition congruence.
    + destruct (Hdown b Hba Hb) as [Hb' Hn]. by destruct Hn; apply Hcur.
    + destruct (Hdown b Hba Hb) as [Hb' _], (Hdown c Hca Hc) as [Hc' _].
      by apply (twf_one_current _ Hwf).
Qed.

Lemma txn_step_wf t t' : txn_wf t -> txn_step t t' -> txn_wf t'.
Proof.
  intros Hwf [x x' l r Hs|x x' a r Hs].
  - unfold append_evidence_link in Hs. destruct (t_links t !! _); inv_ok; simplify_eq; [done|].
    destruct (select_where _ _); inv_ok; simplify_eq; [|done].
    destruct Hwf. by split.
  - unfold append_assessment in Hs. destruct (t_assessments t !! _) eqn:El; inv_ok; simplify_eq; [done|].
    destruct (append_assessment_wf t _ Hwf El E) as [H1 H2 H3]. by split.
Qed.

Lemma txn_reachable_wf t : txn_reachable t -> txn_wf t.
Proof.
  unfold txn_reachable. generalize empty_txn_db, txn_wf_empty.
  intros t0 Hwf Hr. revert Hwf. induction Hr; eauto using txn_step_wf.
Qed.

Lemma one_per_kind t P k :
  txn_wf t -> (forall r s, same_kind s r = true -> P s = true -> P r = true) ->
  (forall a b, P a = true -> P b = true -> ta_case_id a = ta_case_id b /\
                                          ta_authority_epoch a = ta_authority_epoch b) ->
  let current := List.filter (not_superseded (select_where P (t_assessments t)))
                   (select_where P (t_assessments t)) in
  (length (List.filter (fun a => bool_decide (ta_assessment_kind a = k)) current) <= 1)%nat.
Proof.
  intros Hwf HP Hgroup current.
  assert (Hnd : NoDup (List.filter (fun a => bool_decide (ta_assessment_kind a = k)) current)).
  { eapply (NoDup_fmap_1 ta_assessment_id), NoDup_fmap_filter, NoDup_fmap_filter,
      select_where_NoDup, twf_keyed, Hwf. }
  assert (Hin : forall a, a ∈ List.filter (fun a => bool_decide (ta_assessment_kind a = k)) current ->
            is_current (t_assessments t) a /\ P a = true /\ ta_assessment_kind a = k).
  { intros a [Ha Hk%bool_decide_eq_true]%elem_of_filter_bool.
    apply not_superseded_spec in Ha; naive_solver. }
  destruct (List.filter _ current) as [|a [|b l]]; cbn; [lia|lia|exfalso].
  destruct (Hin a) as (Ha & Pa & Ka); [left|]. destruct (Hin b) as (Hb & Pb & Kb); [right; left|].
  apply NoDup_cons in Hnd as [Hn _]. apply Hn.
  rewrite (twf_one_current _ Hwf a b Ha Hb); [left|].
  apply same_kind_spec. destruct (Hgroup a b Pa Pb). split_and!; congruence.
Qed.

(** In every state the repository reaches, listing the current
    qualification assessments of a case and epoch succeeds and returns exactly
    the stored assessments that nothing supersedes, at most one per kind: the
    "multiple current" conflict is unreachable. *)
Theorem current_assessments_exact (t : TxnDb) (case_id : uuid) (epoch : Z) :
  txn_reachable t ->
  exists current, list_current_assessments t case_id epoch = Ok current /\
    (forall a, a ∈ current <-> is_current (t_assessments t) a /\ ta_case_id a = case_id /\
                              ta_authority_epoch a = epoch) /\
    (forall a b, a ∈ current -> b ∈ current -> ta_assessment_kind a = ta_assessment_kind b -> a = b).
Proof.
  intros Hwf%txn_reachable_wf. unfold list_current_assessments, current_assessments_from_rows.
  set (P := fun a => bool_decide (ta_case_id a = case_id) && bool_decide (ta_authority_epoch a = epoch)).
  assert (Pspec : forall a, P a = true <-> ta_case_id a = case_id /\ ta_authority_epoch a = epoch).
  { intros a. unfold P. by rewrite andb_true_iff, !bool_decide_eq_true. }
  assert (HP : forall r s, same_kind s r = true -> P s = true -> P r = true).
  { intros r s. rewrite same_kind_spec, !Pspec. intuition congruence. }
  assert (Hamb : ambiguous_kinds (List.filter (not_superseded (select_where P (t_assessments t)))
                   (select_where P (t_assessments t))) = []).
  { unfold ambiguous_kinds. rewrite filter_none; [done|]. intros k _.
    apply Nat.ltb_ge, (one_per_kind t P k Hwf HP).
    intros a b Ha%Pspec Hb%Pspec. intuition congruence. }
  rewrite Hamb. cbn [is_nil negb guard rbind]. eexists. split; [done|].
  assert (Hel : forall a, a ∈ List.filter (not_superseded (select_where P (t_assessments t)))
                  (select_where P (t_assessments t)) <->
                is_current (t_assessments t) a /\ ta_case_id a = case_id /\ ta_authority_epoch a = epoch).
  { intros a. rewrite not_superseded_spec by done. by rewrite Pspec. }
  split; [exact Hel|]. intros a b (Ha & ? & ?)%Hel (Hb & ? & ?)%Hel Hk.
  apply (twf_one_current _ Hwf); [done|done|]. apply same_kind_spec. split_and!; congruence.
Qed.
