(* ===== verification/Governance.v ===== *)
(** * The governance basis, [governance.py]

    What an approval rested on: the facts, the policy version, the approvers'
    qualifications and the transaction assessments, frozen when the approval is
    satisfied and checked again before the case acts on it. *)

From stdpp Require Import base gmap strings list.
From Stdlib Require Import ZArith Lia.
From S2P Require Import Prelude Python CPython Store Domain Policy Authority PolicyPlane Financial.
From S2P Require Import Obligations Persistence Transactions.

Open Scope Z_scope.
Open Scope orch_scope.

Record GovernanceQualification := mkGovernanceQualification {
  gq_decision_id : uuid;
  gq_principal_id : string;
  gq_role : string;
  gq_qualification_refs : list string;
}.

Record TransactionQualificationBasis := mkTransactionQualificationBasis {
  tb_assessment_id : uuid;
  tb_assessment_kind : string;
  tb_assessment_digest : string;
}.

#[global] Instance GovernanceQualification_eq_dec : EqDecision GovernanceQualification. Proof. solve_decision. Defined.
#[global] Instance TransactionQualificationBasis_eq_dec : EqDecision TransactionQualificationBasis. Proof. solve_decision. Defined.

Record GovernanceBasis := mkGovernanceBasis {
  gb_basis_id : uuid;
  gb_case_id : uuid;
  gb_case_version_at_basis : Z;
  gb_authority_epoch : Z;
  gb_fact_snapshot_id : uuid;
  gb_fact_digest : string;
  gb_policy_ref : PolicyRef;
  gb_policy_definition_digest : string;
  gb_organization_scope : string;
  gb_approval_satisfaction_id : uuid;
  gb_qualifications : list GovernanceQualification;
  gb_authority_digest : string;
  gb_basis_digest : string;
  gb_created_at : instant;
  gb_fact_dependency_keys : option (list string);
  gb_fact_dependency_values : pydict;
  gb_expected_change_keys : list string;
  gb_transaction_qualifications : list TransactionQualificationBasis;
}.

(** [dependency_scope_is_unambiguous] *)
Definition GovernanceBasis_validate (b : GovernanceBasis) : result GovernanceBasis :=
  match gb_fact_dependency_keys b with
  | None => Ok b
  | Some keys =>
      let overlap := sort_by String.compare
        (remove_dups (List.filter (fun k => bool_decide (k ∈ gb_expected_change_keys b)) keys)) in
      refuse negb (is_nil overlap) with ValueError
        saying ("expected self-induced changes cannot be governance dependencies: "
                +:+ join ", " overlap);;
      Ok b
  end.

Record GovernanceValidation := mkGovernanceValidation {
  gv_valid : bool;
  gv_reasons : list string;
  gv_checked_at : instant;
}.

Abbreviation GovDb := (gmap uuid GovernanceBasis) (only parsing).

(** Pydantic equality of two bases: the dependency values are a dict. *)
Definition basis_eqb (a b : GovernanceBasis) : bool :=
  bool_decide (gb_basis_id a = gb_basis_id b) && bool_decide (gb_case_id a = gb_case_id b)
  && bool_decide (gb_case_version_at_basis a = gb_case_version_at_basis b)
  && bool_decide (gb_authority_epoch a = gb_authority_epoch b)
  && bool_decide (gb_fact_snapshot_id a = gb_fact_snapshot_id b)
  && bool_decide (gb_fact_digest a = gb_fact_digest b)
  && bool_decide (gb_policy_ref a = gb_policy_ref b)
  && bool_decide (gb_policy_definition_digest a = gb_policy_definition_digest b)
  && bool_decide (gb_organization_scope a = gb_organization_scope b)
  && bool_decide (gb_approval_satisfaction_id a = gb_approval_satisfaction_id b)
  && bool_decide (gb_qualifications a = gb_qualifications b)
  && bool_decide (gb_authority_digest a = gb_authority_digest b)
  && bool_decide (gb_basis_digest a = gb_basis_digest b)
  && bool_decide (gb_created_at a = gb_created_at b)
  && bool_decide (gb_fact_dependency_keys a = gb_fact_dependency_keys b)
  && py_eq (VDict (gb_fact_dependency_values a)) (VDict (gb_fact_dependency_values b))
  && bool_decide (gb_expected_change_keys a = gb_expected_change_keys b)
  && bool_decide (gb_transaction_qualifications a = gb_transaction_qualifications b).

(** ** Qualification of an approver, [_select_qualification_basis] *)

Definition role_ref (a : RoleAssignment) : string := "role:" +:+ uuid_str (ra_assignment_id a).
Definition delegation_ref (d : Delegation) : string := "delegation:" +:+ uuid_str (dg_delegation_id d).

(** [min(items, key=...)]: the first of the stably sorted items. *)
Definition min_by {A} (cmp : A -> A -> comparison) (l : list A) : option A := head (sort_by cmp l).

Definition role_rows (db : AuthorityDb) (principal_id role : string) : list RoleAssignment :=
  select_where (fun r => bool_decide (ra_principal_id r = principal_id)
                         && bool_decide (ra_role r = role)) (role_assignments db).

(** The loop over the delegation rows: one candidate per source assignment. *)
Definition delegation_candidates (db : AuthorityDb) (principal_id role scope : string) (at_ : instant)
  : list (string * string) :=
  select_where (fun d => bool_decide (dg_to_principal_id d = principal_id)
                         && bool_decide (dg_role d = role)) (delegations db)
  ≫= fun d =>
    if window_current (dg_valid_from d) (Some (dg_valid_until d)) at_
       && scope_matches (dg_organization_scope d) scope
    then (fun a => (delegation_ref d, role_ref a)) <$>
           List.filter (fun a => assignment_in_force a scope at_)
             (role_rows db (dg_from_principal_id d) role)
    else [].

Definition select_qualification_basis (db : AuthorityDb) (principal_id role scope : string)
    (at_ : instant) : option (list string) :=
  match principals db !! principal_id with
  | Some row =>
      if prow_active row then
        match List.filter (fun a => assignment_in_force a scope at_) (role_rows db principal_id role) with
        | [] =>
            match min_by (fun a b => cmp_then (String.compare (fst a) (fst b))
                                       (String.compare (snd a) (snd b)))
                    (delegation_candidates db principal_id role scope at_) with
            | Some (x, y) => Some [x; y]
            | None => None
            end
        | direct =>
            (fun a => [role_ref a]) <$>
              min_by (fun a b => String.compare (uuid_str (ra_assignment_id a))
                                   (uuid_str (ra_assignment_id b))) direct
        end
      else None
  | None => None
  end.

Section governance.
Context `{Platform}.

(** ** Digests *)

Definition policy_ref_json (r : PolicyRef) : pyval :=
  VDict [("policy_id", VStr (pr_policy_id r)); ("version", VStr (pr_version r));
         ("owner", VStr (pr_owner r)); ("effective_from", VStr (json_datetime (pr_effective_from r)));
         ("effective_until", match pr_effective_until r with
                             | Some u => VStr (json_datetime u) | None => VNone end)].

(** [assessment.model_dump(mode="json", exclude={"assessment_id"})] *)
Definition assessment_json (a : TransactionQualificationAssessment) : pyval :=
  VDict [("case_id", VStr (uuid_str (ta_case_id a))); ("authority_epoch", VInt (ta_authority_epoch a));
         ("assessment_kind", VStr (ta_assessment_kind a));
         ("supersedes_assessment_id", opt_uuid (ta_supersedes_assessment_id a));
         ("input_refs", VList (VStr <$> ta_input_refs a)); ("rule_ref", VStr (ta_rule_ref a));
         ("result", VStr (TransactionQualificationResult_value (ta_result a)));
         ("blocking_reasons", VList (VStr <$> ta_blocking_reasons a));
         ("created_at", VStr (json_datetime (ta_created_at a)))].

Definition qualification_json (q : GovernanceQualification) : pyval :=
  VDict [("decision_id", VStr (uuid_str (gq_decision_id q)));
         ("principal_id", VStr (gq_principal_id q)); ("role", VStr (gq_role q));
         ("qualification_refs", VList (VStr <$> gq_qualification_refs q))].

Definition transaction_basis_json (b : TransactionQualificationBasis) : pyval :=
  VDict [("assessment_id", VStr (uuid_str (tb_assessment_id b)));
         ("assessment_kind", VStr (tb_assessment_kind b));
         ("assessment_digest", VStr (tb_assessment_digest b))].

(** [_transaction_qualification_basis] *)
Definition transaction_qualification_basis (t : TxnDb) (c : AdministrativeCase)
  : result (list TransactionQualificationBasis) :=
  let! assessments := list_current_assessments t (c_case_id c) (c_authority_epoch c) in
  Ok ((fun a => mkTransactionQualificationBasis (ta_assessment_id a) (ta_assessment_kind a)
                  (json_digest (assessment_json a))) <$>
        sort_by (fun a b => cmp_then (String.compare (ta_assessment_kind a) (ta_assessment_kind b))
                              (String.compare (uuid_str (ta_assessment_id a))
                                 (uuid_str (ta_assessment_id b)))) assessments).

(** ** Building and storing a basis *)

(** The qualification of one approval decision. *)
Definition qualify_decision (x : ExecDb) (auth : AuthorityDb) (scope : string) (at_ : instant)
    (decision_id : uuid) : result GovernanceQualification :=
  match x_decisions x !! decision_id with
  | None => raise GovernanceError ("approval decision " +:+ uuid_str decision_id +:+ " is not persisted")
  | Some decision =>
      let role := default "" (d_decision_role decision) in
      refuse negb (nonempty role) with GovernanceError
        saying "governed approval decision lacks decision_role";;
      match select_qualification_basis auth (d_principal_id decision) role scope at_ with
      | None => raise GovernanceError ("principal " +:+ d_principal_id decision
                  +:+ " is not currently qualified as " +:+ role)
      | Some refs => Ok (mkGovernanceQualification (d_decision_id decision) (d_principal_id decision)
                           role refs)
      end
  end.

(** The dict whose digest is [basis_digest]. *)
Definition basis_payload (b : GovernanceBasis) : pyval :=
  VDict ([("case_id", VStr (uuid_str (gb_case_id b))); ("authority_epoch", VInt (gb_authority_epoch b));
          ("fact_snapshot_id", VStr (uuid_str (gb_fact_snapshot_id b)));
          ("fact_digest", VStr (gb_fact_digest b)); ("policy", policy_ref_json (gb_policy_ref b));
          ("policy_definition_digest", VStr (gb_policy_definition_digest b));
          ("organization_scope", VStr (gb_organization_scope b));
          ("approval_satisfaction_id", VStr (uuid_str (gb_approval_satisfaction_id b)));
          ("authority_digest", VStr (gb_authority_digest b));
          ("transaction_qualifications",
             VList (transaction_basis_json <$> gb_transaction_qualifications b))]
         ++ match gb_fact_dependency_keys b with
            | Some keys => [("fact_dependency_keys", VList (VStr <$> keys));
                            ("expected_change_keys", VList (VStr <$> gb_expected_change_keys b))]
            | None => []
            end).

Definition with_basis_digest (b : GovernanceBasis) (digest : string) : GovernanceBasis :=
  mkGovernanceBasis (gb_basis_id b) (gb_case_id b) (gb_case_version_at_basis b)
    (gb_authority_epoch b) (gb_fact_snapshot_id b) (gb_fact_digest b) (gb_policy_ref b)
    (gb_policy_definition_digest b) (gb_organization_scope b) (gb_approval_satisfaction_id b)
    (gb_qualifications b) (gb_authority_digest b) digest (gb_created_at b)
    (gb_fact_dependency_keys b) (gb_fact_dependency_values b) (gb_expected_change_keys b)
    (gb_transaction_qualifications b).

Definition with_transaction_qualifications (b : GovernanceBasis)
    (l : list TransactionQualificationBasis) : GovernanceBasis :=
  mkGovernanceBasis (gb_basis_id b) (gb_case_id b) (gb_case_version_at_basis b)
    (gb_authority_epoch b) (gb_fact_snapshot_id b) (gb_fact_digest b) (gb_policy_ref b)
    (gb_policy_definition_digest b) (gb_organization_scope b) (gb_approval_satisfaction_id b)
    (gb_qualifications b) (gb_authority_digest b) (gb_basis_digest b) (gb_created_at b)
    (gb_fact_dependency_keys b) (gb_fact_dependency_values b) (gb_expected_change_keys b) l.

(** [{key: facts.get(key) for key in keys}] *)
Definition dependency_values (keys : list string) (facts : pydict) : pydict :=
  fold_left (fun d k => dict_set d k (dict_get facts k)) keys [].

(** [_build_basis] *)
Definition build_basis (x : ExecDb) (auth : AuthorityDb) (policies : PolicyDb) (t : TxnDb)
    (c : AdministrativeCase) (snapshot : FactSnapshot) (policy_ref : PolicyRef)
    (satisfaction : ApprovalSatisfaction) (scope : string)
    (fact_dependency_keys : option (list string)) (expected_change_keys : list string)
  : result GovernanceBasis :=
  match policy_versions policies !! (pr_policy_id policy_ref, pr_version policy_ref) with
  | None => raise GovernanceError "current policy version is not persisted"
  | Some policy_row =>
      let at_ := as_assessed_at satisfaction in
      let! unsorted := traverse (qualify_decision x auth scope at_) (as_decision_ids satisfaction) in
      let qualifications :=
        sort_by (fun a b => cmp_then (String.compare (gq_role a) (gq_role b))
                   (cmp_then (String.compare (gq_principal_id a) (gq_principal_id b))
                      (String.compare (uuid_str (gq_decision_id a)) (uuid_str (gq_decision_id b)))))
          unsorted in
      let! transaction_qualifications := transaction_qualification_basis t c in
      let basis :=
        mkGovernanceBasis
          (uuid5 ("administrative:governance-basis:" +:+ uuid_str (c_case_id c) +:+ ":"
                  +:+ int_str (c_authority_epoch c) +:+ ":"
                  +:+ uuid_str (as_satisfaction_id satisfaction)))
          (c_case_id c) (c_version c) (c_authority_epoch c) (fs_snapshot_id snapshot)
          (json_digest (VDict (fs_facts snapshot))) policy_ref
          (json_digest (VDict (pv_definition policy_row))) scope (as_satisfaction_id satisfaction)
          qualifications (json_digest (VList (qualification_json <$> qualifications))) "" at_
          fact_dependency_keys
          (match fact_dependency_keys with
           | None => []
           | Some keys => dependency_values keys (fs_facts snapshot)
           end)
          expected_change_keys transaction_qualifications in
      GovernanceBasis_validate (with_basis_digest basis (json_digest (basis_payload basis)))
  end.

(** [_put_in_session], with the unique constraint on the satisfaction. *)
Definition put_basis (g : GovDb) (b : GovernanceBasis) : result (GovernanceBasis * GovDb) :=
  match g !! gb_basis_id b with
  | Some row =>
      let! restored := GovernanceBasis_validate row in
      refuse negb (basis_eqb restored b) with GovernanceError
        saying "governance basis id already exists with different semantics";;
      Ok (restored, g)
  | None =>
      refuse negb (is_nil (select_where
               (fun r => bool_decide (gb_approval_satisfaction_id r = gb_approval_satisfaction_id b)) g))
        with IntegrityError saying "approval_satisfaction_id";;
      Ok (b, <[gb_basis_id b := b]> g)
  end.

Definition create_for_approval (g : GovDb) (x : ExecDb) (auth : AuthorityDb) (policies : PolicyDb)
    (t : TxnDb) (c : AdministrativeCase) (satisfaction : ApprovalSatisfaction) (scope : string)
    (fact_dependency_keys : option (list string)) (expected_change_keys : list string)
  : result (GovernanceBasis * GovDb) :=
  match c_fact_snapshot c, c_policy_ref c with
  | Some snapshot, Some policy_ref =>
      refuse bool_decide (as_case_id satisfaction <> c_case_id c) with GovernanceError
        saying "approval satisfaction belongs to another case";;
      refuse bool_decide (as_authority_epoch satisfaction <> c_authority_epoch c) with GovernanceError
        saying "approval satisfaction is stale";;
      refuse bool_decide (as_policy_ref satisfaction <> policy_ref) with GovernanceError
        saying "approval satisfaction policy is stale";;
      let! basis := build_basis x auth policies t c snapshot policy_ref satisfaction scope
                      fact_dependency_keys expected_change_keys in
      put_basis g basis
  | _, _ => raise GovernanceError "governance basis requires current facts and policy"
  end.

Definition get_for_approval (g : GovDb) (approval_satisfaction_id : uuid)
  : result (option GovernanceBasis) :=
  match select_where (fun r => bool_decide (gb_approval_satisfaction_id r = approval_satisfaction_id)) g with
  | [] => Ok None
  | row :: _ => let! b := GovernanceBasis_validate row in Ok (Some b)
  end.

Definition get_current_for_case (g : GovDb) (case_id : uuid) (authority_epoch : Z)
  : result (option GovernanceBasis) :=
  match min_by (fun a b => Z.compare (gb_created_at b) (gb_created_at a))
          (select_where (fun r => bool_decide (gb_case_id r = case_id)
                                  && bool_decide (gb_authority_epoch r = authority_epoch)) g) with
  | None => Ok None
  | Some row => let! b := GovernanceBasis_validate row in Ok (Some b)
  end.

(** ** Revalidation *)

Definition reason (b : bool) (s : string) : list string := if b then [s] else [].

Definition fact_reasons (basis : GovernanceBasis) (c : AdministrativeCase) : list string :=
  match c_fact_snapshot c with
  | None => ["case no longer has a current fact snapshot"]
  | Some snapshot =>
      match gb_fact_dependency_keys basis with
      | None =>
          reason (bool_decide (fs_snapshot_id snapshot <> gb_fact_snapshot_id basis))
            "current fact snapshot differs from governance basis"
          ++ reason (bool_decide (json_digest (VDict (fs_facts snapshot)) <> gb_fact_digest basis))
            "current fact content differs from governance basis"
      | Some keys =>
          keys ≫= fun key =>
            reason (negb (py_eq (dict_get (fs_facts snapshot) key)
                            (dict_get (gb_fact_dependency_values basis) key)))
              ("authoritative dependency changed for " +:+ key)
      end
  end.

Definition policy_reasons (policies : PolicyDb) (basis : GovernanceBasis) (c : AdministrativeCase)
    (at_ : instant) : list string :=
  match c_policy_ref c with
  | None => ["case no longer has a current policy"]
  | Some r => reason (bool_decide (r <> gb_policy_ref basis))
                "case policy reference differs from governance basis"
  end ++
  match resolve_current policies (pr_policy_id (gb_policy_ref basis)) at_ with
  | Err e => ["current policy cannot be resolved: " +:+ exn_msg e]
  | Ok current_policy =>
      reason (bool_decide (pv_policy_ref current_policy <> gb_policy_ref basis))
        "current effective policy version differs from governance basis"
      ++ reason (bool_decide (json_digest (VDict (pv_definition current_policy))
                              <> gb_policy_definition_digest basis))
        "current policy definition differs from governance basis"
  end.

Definition transaction_reasons (t : TxnDb) (basis : GovernanceBasis) (c : AdministrativeCase)
  : list string :=
  let '(reasons, current) :=
    match transaction_qualification_basis t c with
    | Ok l => ([], l)
    | Err e => (["current transaction qualifications are ambiguous: " +:+ exn_msg e], [])
    end in
  reasons ++
  reason (negb (is_nil (gb_transaction_qualifications basis))
          && bool_decide (current <> gb_transaction_qualifications basis))
    "transaction qualification basis changed".

Definition qualification_reasons (auth : AuthorityDb) (basis : GovernanceBasis) (now : instant)
  : list string :=
  gb_qualifications basis ≫= fun q =>
    match select_qualification_basis auth (gq_principal_id q) (gq_role q)
            (gb_organization_scope basis) now with
    | None => ["principal " +:+ gq_principal_id q +:+ " no longer qualifies as " +:+ gq_role q]
    | Some refs => reason (bool_decide (refs <> gq_qualification_refs q))
                     ("qualification basis changed for " +:+ gq_principal_id q +:+ ":" +:+ gq_role q)
    end.

(** [revalidate]; [at_] is the clock the policy plane reads, [now] the later one
    the qualifications are checked at. *)
Definition revalidate (policies : PolicyDb) (t : TxnDb) (auth : AuthorityDb) (basis : GovernanceBasis)
    (c : AdministrativeCase) (at_ now : instant) : GovernanceValidation :=
  let reasons :=
    reason (bool_decide (c_case_id c <> gb_case_id basis)
            || bool_decide (c_authority_epoch c <> gb_authority_epoch basis))
      "case authority epoch no longer matches governance basis"
    ++ fact_reasons basis c ++ policy_reasons policies basis c at_
    ++ transaction_reasons t basis c ++ qualification_reasons auth basis now in
  mkGovernanceValidation (is_nil reasons) reasons now.

(** [bind_current_transaction_qualifications] *)
Definition bind_current_transaction_qualifications (g : GovDb) (t : TxnDb) (basis : GovernanceBasis)
    (c : AdministrativeCase) : result (GovernanceBasis * GovDb) :=
  refuse bool_decide (gb_case_id basis <> c_case_id c)
         || bool_decide (gb_authority_epoch basis <> c_authority_epoch c) with GovernanceError
    saying "transaction qualification binding is stale";;
  match g !! gb_basis_id basis with
  | None => raise GovernanceError "governance basis is not persisted"
  | Some row =>
      let! restored := GovernanceBasis_validate row in
      match transaction_qualification_basis t c with
      | Err e => raise GovernanceError (exn_msg e)
      | Ok [] => Ok (restored, g)
      | Ok current =>
          match gb_transaction_qualifications restored with
          | _ :: _ =>
              refuse bool_decide (gb_transaction_qualifications restored <> current)
                with GovernanceError saying "transaction qualification basis is stale";;
              Ok (restored, g)
          | [] =>
              let updated := with_transaction_qualifications restored current in
              let updated := with_basis_digest updated (json_digest (basis_payload updated)) in
              Ok (updated, <[gb_basis_id basis := updated]> g)
          end
      end
  end.
End governance.

(** ** Lemmas *)

Lemma min_by_nil {A} cmp (l : list A) : min_by cmp l = None <-> l = [].
Proof.
  unfold min_by. split; [|by intros ->].
  intros Hh. apply (sort_by_nil_inv cmp). by destruct (sort_by cmp l).
Qed.

Lemma elem_of_role_rows db p role a :
  a ∈ role_rows db p role <->
  (exists k, role_assignments db !! k = Some a) /\ ra_principal_id a = p /\ ra_role a = role.
Proof.
  unfold role_rows. rewrite elem_of_select_where, andb_true_iff, !bool_decide_eq_true. naive_solver.
Qed.

Lemma direct_nil db p role scope at_ :
  List.filter (fun a => assignment_in_force a scope at_) (role_rows db p role) = [] <->
  ~ holds_directly db p scope at_ role.
Proof.
  split.
  - intros Hnil (k & a & Hk & Hp & Hr & Hf). apply (not_elem_of_nil a). rewrite <- Hnil.
    apply elem_of_filter_bool. split; [|done]. apply elem_of_role_rows. eauto.
  - intros Hn. apply filter_none. intros a ((k & Hk) & Hp & Hr)%elem_of_role_rows.
    apply not_true_iff_false. intros Hf. apply Hn. by exists k, a.
Qed.

Lemma delegation_candidates_spec db p role scope at_ :
  delegation_candidates db p role scope at_ <> [] <-> holds_by_delegation db p scope at_ role.
Proof.
  assert (Hcur : forall d, window_current (dg_valid_from d) (Some (dg_valid_until d)) at_
                           = delegation_current d at_) by done.
  split; cycle 1.
  - intros (k & d & Hk & Hp & Hrole & Hc & Hs & (k' & a & Ha & Hpa & Hra & Hf)) Hnil.
    apply (not_elem_of_nil (delegation_ref d, role_ref a)). rewrite <- Hnil.
    unfold delegation_candidates. apply list_elem_of_bind. exists d. split.
    + rewrite Hcur, Hc, Hs. apply list_elem_of_fmap. exists a. split; [done|].
      apply elem_of_filter_bool. split; [|done]. apply elem_of_role_rows. eauto.
    + apply elem_of_select_where. split; [eauto|]. by rewrite !bool_decide_eq_true_2.
  - destruct (delegation_candidates db p role scope at_) as [|xy l] eqn:E; [done|].
    intros _. assert (xy ∈ delegation_candidates db p role scope at_) as Hin by (rewrite E; left).
    unfold delegation_candidates in Hin. apply list_elem_of_bind in Hin as (d & Hxy & Hd).
    rewrite elem_of_select_where, andb_true_iff, !bool_decide_eq_true in Hd.
    destruct Hd as [[k Hk] [Hp Hrole]]. rewrite Hcur in Hxy.
    destruct (delegation_current d at_) eqn:Hc; [|by apply not_elem_of_nil in Hxy].
    destruct (scope_matches _ _) eqn:Hs; [|by apply not_elem_of_nil in Hxy].
    apply list_elem_of_fmap in Hxy as (a & _ & [Ha Hf]%elem_of_filter_bool).
    apply elem_of_role_rows in Ha as ((k' & Ha) & Hpa & Hra).
    exists k, d. unfold grants. split_and!; try done. by exists k', a.
Qed.

Definition principal_active (db : AuthorityDb) (p : string) : Prop :=
  exists row, principals db !! p = Some row /\ prow_active row = true.

Lemma select_qualification_spec db p role scope at_ :
  is_Some (select_qualification_basis db p role scope at_) <->
  principal_active db p /\
  (holds_directly db p scope at_ role \/ holds_by_delegation db p scope at_ role).
Proof.
  unfold select_qualification_basis, principal_active.
  destruct (principals db !! p) as [row|]; [|split; [by intros [? ?]|by intros [(?&?&_) _]]].
  destruct (prow_active row) eqn:Hact; [|split; [by intros [? ?]|intros [(?&[= <-]&?) _]; congruence]].
  pose proof (direct_nil db p role scope at_) as Hd.
  pose proof (delegation_candidates_spec db p role scope at_) as Hg.
  assert (Hdec : (exists r, Some row = Some r /\ prow_active r = true) /\
      (holds_directly db p scope at_ role \/ holds_by_delegation db p scope at_ role) <->
      (holds_directly db p scope at_ role \/ holds_by_delegation db p scope at_ role)) by naive_solver.
  rewrite Hdec. clear Hdec.
  destruct (List.filter _ _) as [|a l] eqn:Ef.
  - destruct (min_by _ _) as [[x y]|] eqn:Em.
    + split; [intros _; right|by eexists]. apply Hg. intros Hnil. by rewrite Hnil in Em.
    + apply min_by_nil in Em. rewrite Em in Hg. split; [by intros [? ?]|].
      intros [Hdir|Hdel%Hg]; [by apply Hd in Hdir|done].
  - split; [intros _; left|intros _; apply fmap_is_Some].
    + assert (Hin : a ∈ List.filter (fun a => assignment_in_force a scope at_) (role_rows db p role))
        by (rewrite Ef; left).
      apply elem_of_filter_bool in Hin as [((k & ?) & ? & ?)%elem_of_role_rows ?]. by exists k, a.
    + destruct (min_by _ _) eqn:Em; [by eexists|by apply min_by_nil in Em].
Qed.

Lemma imp_iff_compat_l (A B C : Prop) : (B <-> C) -> ((A -> B) <-> (A -> C)).
Proof. tauto. Qed.

Lemma reason_nil b s : reason b s = [] <-> b = false.
Proof. by destruct b. Qed.

Lemma app_nil_iff {A} (l k : list A) : l ++ k = [] <-> l = [] /\ k = [].
Proof. destruct l; naive_solver. Qed.

Lemma bind_nil {A B} (f : A -> list B) l : l ≫= f = [] <-> forall x, x ∈ l -> f x = [].
Proof.
  induction l as [|x l IH]; cbn; [split; [by intros _ ? ?%not_elem_of_nil|done]|].
  rewrite app_nil_iff, IH. setoid_rewrite elem_of_cons. naive_solver.
Qed.

(** ** What a valid revalidation means *)

Section valid.
Context `{Platform}.

(** The facts the approval depended on are what they were. *)
Definition facts_unchanged (basis : GovernanceBasis) (c : AdministrativeCase) : Prop :=
  exists snapshot, c_fact_snapshot c = Some snapshot /\
    match gb_fact_dependency_keys basis with
    | None => fs_snapshot_id snapshot = gb_fact_snapshot_id basis /\
              json_digest (VDict (fs_facts snapshot)) = gb_fact_digest basis
    | Some keys => forall k, k ∈ keys ->
        py_eq (dict_get (fs_facts snapshot) k) (dict_get (gb_fact_dependency_values basis) k) = true
    end.

(** The policy version in force is the approved one, with the same definition. *)
Definition policy_unchanged (policies : PolicyDb) (basis : GovernanceBasis) (c : AdministrativeCase)
    (at_ : instant) : Prop :=
  c_policy_ref c = Some (gb_policy_ref basis) /\
  exists r, resolve_current policies (pr_policy_id (gb_policy_ref basis)) at_ = Ok r /\
    pv_policy_ref r = gb_policy_ref basis /\
    json_digest (VDict (pv_definition r)) = gb_policy_definition_digest basis.

Definition transactions_unchanged (t : TxnDb) (basis : GovernanceBasis) (c : AdministrativeCase) : Prop :=
  exists current, transaction_qualification_basis t c = Ok current /\
    (gb_transaction_qualifications basis <> [] -> current = gb_transaction_qualifications basis).

(** Every approver still qualifies, through the same assignments. *)
Definition approvers_unchanged (auth : AuthorityDb) (basis : GovernanceBasis) (now : instant) : Prop :=
  forall q, q ∈ gb_qualifications basis ->
    select_qualification_basis auth (gq_principal_id q) (gq_role q) (gb_organization_scope basis) now
    = Some (gq_qualification_refs q).

Lemma fact_reasons_nil basis c : fact_reasons basis c = [] <-> facts_unchanged basis c.
Proof.
  unfold fact_reasons, facts_unchanged.
  destruct (c_fact_snapshot c) as [s|]; [|split; [done|by intros (? & ? & _)]].
  destruct (gb_fact_dependency_keys basis) as [keys|].
  - rewrite bind_nil. setoid_rewrite reason_nil. setoid_rewrite negb_false_iff. naive_solver.
  - rewrite app_nil_iff, !reason_nil, !bool_decide_eq_false. split.
    + intros [?%dec_stable ?%dec_stable]. eauto.
    + intros (s' & [= <-] & -> & ->). naive_solver.
Qed.

Lemma policy_reasons_nil policies basis c at_ :
  policy_reasons policies basis c at_ = [] <-> policy_unchanged policies basis c at_.
Proof.
  unfold policy_reasons, policy_unchanged. rewrite app_nil_iff. f_equiv.
  - destruct (c_policy_ref c) as [r|]; [|done].
    rewrite reason_nil, bool_decide_eq_false. split; [by intros ->%dec_stable|intros [= ->]; naive_solver].
  - destruct (resolve_current _ _ _) as [r|e]; [|naive_solver].
    rewrite app_nil_iff, !reason_nil, !bool_decide_eq_false. split.
    + intros [?%dec_stable ?%dec_stable]. eauto.
    + intros (r' & [= <-] & -> & ->). naive_solver.
Qed.

Lemma transaction_reasons_nil t basis c :
  transaction_reasons t basis c = [] <-> transactions_unchanged t basis c.
Proof.
  unfold transaction_reasons, transactions_unchanged.
  destruct (transaction_qualification_basis t c) as [l|e]; [|naive_solver].
  cbn [app]. rewrite reason_nil, andb_false_iff, negb_false_iff, is_nil_true, bool_decide_eq_false.
  split.
  - intros Hor. exists l. split; [done|]. intros Hne. destruct Hor as [?|?%dec_stable]; [by destruct Hne|done].
  - intros (l' & [= <-] & Himp).
    destruct (decide (gb_transaction_qualifications basis = [])); [by left|right].
    rewrite Himp by done. naive_solver.
Qed.

Lemma qualification_reasons_nil auth basis now :
  qualification_reasons auth basis now = [] <-> approvers_unchanged auth basis now.
Proof.
  unfold qualification_reasons, approvers_unchanged. rewrite bind_nil.
  apply forall_proper. intros q. apply imp_iff_compat_l.
  destruct (select_qualification_basis _ _ _ _ _) as [refs|]; [|done].
  rewrite reason_nil, bool_decide_eq_false. split; [by intros ->%dec_stable|intros [= ->]; naive_solver].
Qed.

Lemma revalidate_spec policies t auth basis c at_ now :
  gv_valid (revalidate policies t auth basis c at_ now) = true <->
  c_case_id c = gb_case_id basis /\ c_authority_epoch c = gb_authority_epoch basis /\
  facts_unchanged basis c /\ policy_unchanged policies basis c at_ /\
  transactions_unchanged t basis c /\ approvers_unchanged auth basis now.
Proof.
  unfold revalidate. cbn [gv_valid]. rewrite is_nil_true, !app_nil_iff.
  rewrite fact_reasons_nil, policy_reasons_nil, transaction_reasons_nil, qualification_reasons_nil.
  rewrite reason_nil, orb_false_iff, !bool_decide_eq_false. split.
  - intros ([?%dec_stable ?%dec_stable] & ?). tauto.
  - intros (Hc & He & ?). split; [|tauto]. split; intros Hn; by apply Hn.
Qed.

(** ** Theorems *)

(** An approver's qualification exists exactly when the principal is
    active and holds the role in the scope at that time, directly or through a
    current delegation; so, where the delegation rows are readable, it agrees
    with the roles the authority model computes. *)
Theorem qualification_agrees_with_roles auth p role scope at_ roles :
  roles_for auth p scope at_ = Ok roles ->
  is_Some (select_qualification_basis auth p role scope at_) <->
  (exists row, principals auth !! p = Some row /\ prow_active row = true) /\ role ∈ roles.
Proof.
  intros Hr. rewrite select_qualification_spec. unfold principal_active.
  pose proof (roles_for_spec auth p scope at_ roles Hr role) as Hspec. rewrite Hspec. tauto.
Qed.

(** C10: A governance basis revalidates exactly when nothing it rested on has
    moved: the same case and authority epoch, the same facts (or the same values
    of the declared dependencies), the approved policy version still the one in
    force with the same definition, the same current transaction assessments
    where any were bound, and every approver still qualified through the same
    assignments. *)
Theorem revalidate_exact policies t auth basis c at_ now :
  gv_valid (revalidate policies t auth basis c at_ now) = true <->
  c_case_id c = gb_case_id basis /\ c_authority_epoch c = gb_authority_epoch basis /\
  facts_unchanged basis c /\ policy_unchanged policies basis c at_ /\
  transactions_unchanged t basis c /\ approvers_unchanged auth basis now.
Proof. apply revalidate_spec. Qed.

Lemma dependency_values_get keys facts k :
  k ∈ keys -> dict_get (dependency_values keys facts) k = dict_get facts k.
Proof.
  unfold dependency_values, dict_get.
  assert (Hg : forall acc, k ∈ keys \/ assoc k acc = Some (dict_get facts k) ->
    assoc k (fold_left (fun d k => dict_set d k (dict_get facts k)) keys acc) = Some (dict_get facts k)).
  { induction keys as [|k0 keys IH]; intros acc Hk; cbn.
    - destruct Hk as [?%not_elem_of_nil|?]; done.
    - apply IH. rewrite assoc_dict_set. rewrite elem_of_cons in Hk.
      case_bool_decide; [subst; by right|]. naive_solver. }
  intros Hk. rewrite Hg by (by left). done.
Qed.

Lemma GovernanceBasis_validate_Ok b b' : GovernanceBasis_validate b = Ok b' -> b' = b.
Proof.
  unfold GovernanceBasis_validate. intros Hv. destruct (gb_fact_dependency_keys b); by inv_ok.
Qed.

Lemma basis_eqb_id a b : basis_eqb a b = true -> gb_basis_id a = gb_basis_id b.
Proof. unfold basis_eqb. intros Hb. by propify. Qed.

(** A basis is born valid: revalidated in the state it was built in, at
    the instant of the approval, while the approved policy is the one in force,
    it holds. *)
Theorem fresh_basis_revalidates g x auth policies t c satisfaction scope keys expected basis g' r at_ :
  create_for_approval g x auth policies t c satisfaction scope keys expected = Ok (basis, g') ->
  g !! gb_basis_id basis = None ->
  (forall s, c_fact_snapshot c = Some s -> keys_distinct (VDict (fs_facts s)) = true) ->
  resolve_current policies (pr_policy_id (as_policy_ref satisfaction)) at_ = Ok r ->
  pv_policy_ref r = as_policy_ref satisfaction ->
  policy_versions policies !! (pv_policy_id r, pv_version r) = Some r ->
  gv_valid (revalidate policies t auth basis c at_ (as_assessed_at satisfaction)) = true.
Proof.
  intros Hcreate Hfresh Hdist Hres Href Hrow. unfold create_for_approval in Hcreate.
  destruct (c_fact_snapshot c) as [s|] eqn:Hs; [|done].
  destruct (c_policy_ref c) as [pref|] eqn:Hp; [|done]. inv_ok. propify. subst pref.
  assert (v2 = basis) as ->.
  { unfold put_basis in Hcreate. destruct (g !! gb_basis_id v2) as [old|] eqn:Eg; inv_ok; simplify_eq; [|done].
    match goal with H : GovernanceBasis_validate old = Ok _ |- _ =>
      apply GovernanceBasis_validate_Ok in H; subst old end.
    propify. match goal with H : basis_eqb _ _ = true |- _ => apply basis_eqb_id in H end.
    congruence. }
  clear Hcreate. apply revalidate_spec.
  unfold build_basis in E2. rewrite <- Href in E2. cbn [pv_policy_ref pr_policy_id pr_version] in E2.
  rewrite Hrow in E2. inv_ok. apply GovernanceBasis_validate_Ok in E2. subst basis.
  cbn [with_basis_digest gb_case_id gb_authority_epoch]. split_and!; try done.
  - exists s. split; [done|]. cbn [with_basis_digest gb_fact_dependency_keys
      gb_fact_dependency_values gb_fact_snapshot_id gb_fact_digest]. destruct keys as [ks|]; [|done].
    intros k Hk. rewrite dependency_values_get by done. apply py_eq_refl.
    by apply dict_get_distinct, Hdist.
  - unfold policy_unchanged. cbn [with_basis_digest gb_policy_ref gb_policy_definition_digest].
    rewrite Hp, Href. rewrite <- Href in Hres |- *. split; [done|]. exists r. cbn [pv_policy_ref pr_policy_id pr_version] in *. by rewrite ?Hrow.
  - exists v0. by split.
  - intros q Hq. cbn in *. rewrite elem_of_sort_by in Hq.
    destruct (traverse_elem_of _ _ _ _ E1 Hq) as (d & _ & Hd). unfold qualify_decision in Hd.
    destruct (x_decisions x !! d) as [dec|]; [|done]. inv_ok.
    destruct (select_qualification_basis _ _ _ _ _) eqn:Esel; inv_ok. by subst q.
Qed.
End valid.
