(* ===== verification/Kernel.v ===== *)
(** * The Agent Kernel bridge: data, mapping and tables,
      [integrations/kernel/models.py], [capabilities.py], [mapper.py] and
      [repository.py]

    A governed obligation becomes an execution grant, an effect intent with
    frozen parameters and a projection: the four payloads that propose the work to
    the Kernel and the references the Kernel answers with.  A projection is stored
    as its immutable part, which [_same_projection_semantics] compares, and the
    three groups of references its life fills in one after the other. *)

From stdpp Require Import base gmap strings list.
From Stdlib Require Import ZArith Lia Ascii.
From Stdlib Require String.
From S2P Require Import Prelude Python CPython Uuid Store Domain Policy Authority Lifecycle Obligations Verification.
From S2P Require Import PolicyPlane Financial Persistence Transactions Governance.

Open Scope Z_scope.
Open Scope orch_scope.

(** ** Models *)

Inductive KernelProjectionStatus := KP_SHADOW | KP_SUBMITTED | KP_ADMITTED | KP_CUTOVER | KP_REJECTED.
Inductive KernelWorkAdmissionStatus := WORK_MATERIALIZED | PRIORITY_REJECTED | PORTFOLIO_REJECTED.
Inductive KernelExecutionStatus :=
  | KE_AUTHORIZATION_REJECTED | KE_EXECUTION_FAILED | KE_EXECUTION_UNKNOWN | KE_VERIFIED_FAIL | KE_COMPLETED.

#[global] Instance KernelProjectionStatus_eq_dec : EqDecision KernelProjectionStatus.
Proof. solve_decision. Defined.
#[global] Instance KernelWorkAdmissionStatus_eq_dec : EqDecision KernelWorkAdmissionStatus.
Proof. solve_decision. Defined.
#[global] Instance KernelExecutionStatus_eq_dec : EqDecision KernelExecutionStatus.
Proof. solve_decision. Defined.

Definition KernelProjectionStatus_value (s : KernelProjectionStatus) : string :=
  match s with
  | KP_SHADOW => "shadow" | KP_SUBMITTED => "submitted" | KP_ADMITTED => "admitted" | KP_CUTOVER => "cutover"
  | KP_REJECTED => "rejected"
  end.
Definition KernelWorkAdmissionStatus_value (s : KernelWorkAdmissionStatus) : string :=
  match s with
  | WORK_MATERIALIZED => "work-materialized" | PRIORITY_REJECTED => "priority-rejected"
  | PORTFOLIO_REJECTED => "portfolio-rejected"
  end.
Definition KernelExecutionStatus_value (s : KernelExecutionStatus) : string :=
  match s with
  | KE_AUTHORIZATION_REJECTED => "authorization-rejected" | KE_EXECUTION_FAILED => "execution-failed"
  | KE_EXECUTION_UNKNOWN => "execution-unknown" | KE_VERIFIED_FAIL => "verified-fail" | KE_COMPLETED => "completed"
  end.

Record AdministrativeExecutionGrant := mkAdministrativeExecutionGrant {
  gr_grant_id : uuid;
  gr_case_id : uuid;
  gr_authority_epoch : Z;
  gr_obligation_id : uuid;
  gr_governance_basis_id : uuid;
  gr_approval_satisfaction_id : uuid;
  gr_policy_ref : PolicyRef;
  gr_subject_ref : string;
  gr_target_system : string;
  gr_operation : string;
  gr_authority_class : AuthorityClass;
  gr_expected_postcondition : pydict;
  gr_issued_by : string;
  gr_issued_at : instant;
}.

Record AdministrativeEffectIntent := mkAdministrativeEffectIntent {
  ei_intent_id : uuid;
  ei_grant_id : uuid;
  ei_case_id : uuid;
  ei_authority_epoch : Z;
  ei_obligation_id : uuid;
  ei_capability : string;
  ei_subject_ref : string;
  ei_parameters : pydict;
  ei_expected_postcondition : pydict;
  ei_created_at : instant;
}.

(** The part of a projection that never changes. *)
Record ProjectionSemantics := mkProjectionSemantics {
  ps_projection_id : uuid;
  ps_case_id : uuid;
  ps_authority_epoch : Z;
  ps_grant_id : uuid;
  ps_intent_id : uuid;
  ps_obligation_id : uuid;
  ps_contract_catalog : string;
  ps_runtime_protocol : string;
  ps_persistent_responsibility_contract : string;
  ps_responsibility_payload : pydict;
  ps_admission_payload : pydict;
  ps_assessment_payload : pydict;
  ps_work_proposal_payload : pydict;
  ps_created_at : instant;
}.

Record ProposalRefs := mkProposalRefs {
  kernel_responsibility_ref : option string;
  kernel_admission_ref : option string;
  kernel_assessment_ref : option string;
  kernel_proposal_ref : option string;
}.

Record WorkAdmissionRefs := mkWorkAdmissionRefs {
  kernel_work_admission_status : option KernelWorkAdmissionStatus;
  kernel_admission_policy_ref : option string;
  kernel_priority_judgment_ref : option string;
  kernel_resource_pool_ref : option string;
  kernel_portfolio_admission_ref : option string;
  kernel_reservation_ref : option string;
  kernel_commitment_ref : option string;
  kernel_work_ref : option string;
}.

Record ExecutionRefs := mkExecutionRefs {
  kernel_execution_status : option KernelExecutionStatus;
  kernel_execution_ref : option string;
  kernel_run_ref : option string;
  kernel_request_ref : option string;
  kernel_authorization_ref : option string;
  kernel_provider_id : option string;
  kernel_action_ref : option string;
  kernel_outcome_ref : option string;
  kernel_evidence_ref : option string;
  kernel_execution_responsibility_ref : option string;
  kernel_execution_processed_at : option instant;
}.

#[global] Instance ProposalRefs_eq_dec : EqDecision ProposalRefs.
Proof. solve_decision. Defined.
#[global] Instance WorkAdmissionRefs_eq_dec : EqDecision WorkAdmissionRefs.
Proof. solve_decision. Defined.
#[global] Instance ExecutionRefs_eq_dec : EqDecision ExecutionRefs.
Proof. solve_decision. Defined.

Record KernelShadowProjection := mkKernelShadowProjection {
  kp_semantics : ProjectionSemantics;
  kp_status : KernelProjectionStatus;
  kp_proposal : ProposalRefs;
  kp_work : WorkAdmissionRefs;
  kp_execution : ExecutionRefs;
  kp_updated_at : instant;
}.

Definition kp_id (p : KernelShadowProjection) : uuid := ps_projection_id (kp_semantics p).

Definition no_proposal : ProposalRefs := mkProposalRefs None None None None.
Definition no_work : WorkAdmissionRefs := mkWorkAdmissionRefs None None None None None None None None.
Definition no_execution : ExecutionRefs := mkExecutionRefs None None None None None None None None None None None.

(** [not value] of an optional string *)
Definition falsy (o : option string) : bool := match o with Some s => negb (nonempty s) | None => true end.
Definition given {A} (o : option A) : bool := match o with Some _ => true | None => false end.

(** The four stages [refs_match_status] checks, each a list of refusals. *)
Definition proposal_complete (r : ProposalRefs) : bool :=
  negb (existsb falsy [kernel_responsibility_ref r; kernel_admission_ref r; kernel_assessment_ref r;
                       kernel_proposal_ref r]).

Definition check_work (status : KernelProjectionStatus) (r : WorkAdmissionRefs) : result unit :=
  refuse bool_decide (status ∈ [KP_ADMITTED; KP_REJECTED; KP_CUTOVER])
         && bool_decide (kernel_work_admission_status r = None)
    with ValueError saying "post-admission projection requires Work admission status";;
  refuse bool_decide (status ∈ [KP_ADMITTED; KP_REJECTED; KP_CUTOVER])
         && (falsy (kernel_admission_policy_ref r) || falsy (kernel_priority_judgment_ref r))
    with ValueError saying "post-admission projection requires policy and priority refs";;
  refuse bool_decide (status ∈ [KP_ADMITTED; KP_CUTOVER])
         && bool_decide (kernel_work_admission_status r <> Some WORK_MATERIALIZED)
    with ValueError saying "admitted kernel projection requires materialized Work status";;
  refuse bool_decide (status ∈ [KP_ADMITTED; KP_CUTOVER])
         && existsb falsy [kernel_resource_pool_ref r; kernel_portfolio_admission_ref r; kernel_reservation_ref r;
                           kernel_commitment_ref r; kernel_work_ref r]
    with ValueError saying "admitted kernel projection requires complete Work admission refs";;
  refuse bool_decide (status = KP_REJECTED) && bool_decide (kernel_work_admission_status r = Some WORK_MATERIALIZED)
    with ValueError saying "rejected kernel projection cannot reference materialized Work";;
  refuse bool_decide (status = KP_REJECTED)
         && existsb (fun o => negb (falsy o)) [kernel_work_ref r; kernel_reservation_ref r; kernel_commitment_ref r]
    with ValueError saying "rejected kernel projection cannot carry reservation or Work refs";;
  refuse bool_decide (status = KP_REJECTED) && bool_decide (kernel_work_admission_status r = Some PORTFOLIO_REJECTED)
         && (falsy (kernel_resource_pool_ref r) || falsy (kernel_portfolio_admission_ref r))
    with ValueError saying "portfolio rejection requires pool and portfolio refs";;
  refuse bool_decide (status = KP_REJECTED) && bool_decide (kernel_work_admission_status r = Some PRIORITY_REJECTED)
         && (negb (falsy (kernel_resource_pool_ref r)) || negb (falsy (kernel_portfolio_admission_ref r)))
    with ValueError saying "priority rejection must stop before resource admission refs";;
  Ok tt.

(** The references of an execution, its time apart. *)
Definition execution_ref_list (r : ExecutionRefs) : list (option string) :=
  [kernel_execution_ref r; kernel_run_ref r; kernel_request_ref r; kernel_authorization_ref r; kernel_provider_id r;
   kernel_action_ref r; kernel_outcome_ref r; kernel_evidence_ref r; kernel_execution_responsibility_ref r].

Definition check_execution (status : KernelProjectionStatus) (r : ExecutionRefs) : result unit :=
  refuse bool_decide (kernel_execution_status r = None)
         && (existsb given (execution_ref_list r) || given (kernel_execution_processed_at r))
    with ValueError saying "kernel execution refs require an execution status";;
  refuse bool_decide (kernel_execution_status r <> None) && falsy (kernel_execution_ref r)
    with ValueError saying "kernel execution status requires execution ref";;
  refuse bool_decide (status = KP_CUTOVER) && bool_decide (kernel_execution_status r <> Some KE_COMPLETED)
    with ValueError saying "cutover projection requires completed Kernel execution";;
  refuse bool_decide (status = KP_CUTOVER)
         && (existsb falsy (execution_ref_list r) || negb (given (kernel_execution_processed_at r)))
    with ValueError saying "cutover projection requires complete Kernel execution lineage";;
  Ok tt.

(** [refs_match_status] *)
Definition refs_match_status (p : KernelShadowProjection) : result KernelShadowProjection :=
  refuse bool_decide (kp_status p <> KP_SHADOW) && negb (proposal_complete (kp_proposal p))
    with ValueError saying "submitted kernel projection requires full proposal-prefix refs";;
  let! _ := check_work (kp_status p) (kp_work p) in
  let! _ := check_execution (kp_status p) (kp_execution p) in
  Ok p.

(** ** Capabilities *)

Definition OFFBOARDING_CUTOVER_CAPABILITIES : list string :=
  ["administrative.hris.employee.deactivate.v1"; "administrative.iam.identity.disable.v1";
   "administrative.iam.sessions.revoke.v1"].
Definition FINANCIAL_CUTOVER_CAPABILITIES : list string :=
  ["administrative.erp.purchase-order.create-draft.v1"; "administrative.erp.purchase-order.confirm.v1";
   "administrative.erp.vendor-bill.create-draft.v1"; "administrative.erp.expense-report.create.v1"].
Definition KERNEL_CUTOVER_CAPABILITIES : list string :=
  ["administrative.hris.employee.create.v1"; "administrative.iam.identity.create.v1"]
  ++ OFFBOARDING_CUTOVER_CAPABILITIES ++ FINANCIAL_CUTOVER_CAPABILITIES
  ++ ["administrative.communication.message.send.v1"].

(** [text.strip().lower().replace("_", "-")] *)
Definition capability_part (text : string) : string :=
  map_string (fun c => if Ascii.eqb c "_" then "-"%char else c) (lower (strip text)).
Definition capability_name (target operation : string) : string :=
  "administrative." +:+ capability_part target +:+ "." +:+ capability_part operation +:+ ".v1".

Definition capability_for (o : AdministrativeObligation) : result string :=
  refuse negb (nonempty (capability_part (ob_target_system o)))
         || negb (nonempty (capability_part (ob_required_operation o)))
    with ValueError saying "administrative obligation cannot map to an empty kernel capability";;
  Ok (capability_name (ob_target_system o) (ob_required_operation o)).

(** ** The contracts a Kernel announces, [KernelContractIdentity] *)

Record KernelContractIdentity := mkKernelContractIdentity {
  ki_catalog_version : string;
  ki_owner : string;
  ki_runtime_protocol : string;
  ki_persistent_responsibility_contract : string;
  ki_domain_responsibility_proposal_contract : string;
  ki_build_revision : option string;
  ki_responsibility_work_admission_contract : option string;
  ki_responsibility_assessment_record_contract : option string;
  ki_responsibility_discharge_decision_record_contract : option string;
  ki_responsibility_lifecycle_transition_apply_contract : option string;
  ki_responsibility_status_view_contract : option string;
  ki_bounded_domain_effect_execution_contract : option string;
  ki_bounded_domain_effect_recovery_contract : option string;
  ki_bounded_domain_effect_resolution_view : option string;
  ki_domain_effect_verification_evidence_view : option string;
}.

(** ** The mapping *)

Section mapping.
Context `{Platform}.

(** [_uuid], the parts joined with colons; [_kernel_ref] *)
Definition kernel_uuid (kind : string) (parts : list string) : uuid :=
  uuid5 ("administrative-kernel:" +:+ kind +:+ ":" +:+ join ":" parts).
Definition kernel_ref (prefix : string) (value : uuid) : string :=
  prefix +:+ "_" +:+ String.string_of_list_ascii (hex_digits 32 value).

Definition derive_execution_grant (c : AdministrativeCase) (o : AdministrativeObligation) (g : GovernanceBasis)
  : result AdministrativeExecutionGrant :=
  refuse bool_decide (c_case_id c <> ob_case_id o) || bool_decide (c_case_id c <> gb_case_id g)
    with ValueError saying "grant inputs belong to different administrative cases";;
  refuse bool_decide (c_authority_epoch c <> ob_authority_epoch o)
    with ValueError saying "obligation is bound to a stale administrative authority epoch";;
  refuse bool_decide (c_authority_epoch c <> gb_authority_epoch g)
    with ValueError saying "governance basis is bound to a stale administrative authority epoch";;
  refuse bool_decide (ob_governance_basis_id o <> gb_basis_id g)
    with ValueError saying "obligation does not bind the supplied governance basis";;
  refuse bool_decide (c_policy_ref c <> Some (gb_policy_ref g))
    with ValueError saying "execution grant requires the current governed policy";;
  Ok (mkAdministrativeExecutionGrant
        (kernel_uuid "grant" [uuid_str (c_case_id c); int_str (c_authority_epoch c); uuid_str (ob_obligation_id o)])
        (c_case_id c) (c_authority_epoch c) (ob_obligation_id o) (gb_basis_id g) (gb_approval_satisfaction_id g)
        (gb_policy_ref g) (ob_subject_ref o) (ob_target_system o) (ob_required_operation o) (ob_authority_class o)
        (ob_expected_postcondition o) "service:administrative-orchestrator" (gb_created_at g)).

Definition derive_effect_intent (c : AdministrativeCase) (grant : AdministrativeExecutionGrant)
    (parameter_overrides : option pydict) : result AdministrativeEffectIntent :=
  refuse bool_decide (c_case_id c <> gr_case_id grant) || bool_decide (c_authority_epoch c <> gr_authority_epoch grant)
    with ValueError saying "effect intent requires a current administrative execution grant";;
  match c_fact_snapshot c with
  | None => raise ValueError "effect intent requires a current fact snapshot"
  | Some snapshot =>
      let parameters := match parameter_overrides with
                        | Some overrides => dict_merge (fs_facts snapshot) overrides
                        | None => fs_facts snapshot
                        end in
      Ok (mkAdministrativeEffectIntent (kernel_uuid "intent" [uuid_str (gr_grant_id grant)]) (gr_grant_id grant)
            (gr_case_id grant) (gr_authority_epoch grant) (gr_obligation_id grant)
            (capability_name (gr_target_system grant) (gr_operation grant)) (gr_subject_ref grant)
            (dict_set parameters "subject_ref" (VStr (gr_subject_ref grant))) (gr_expected_postcondition grant)
            (gr_issued_at grant))
  end.

Definition text_list (l : list string) : pyval := VList (VStr <$> l).

Definition responsibility_proposal (grant : AdministrativeExecutionGrant) (ref schema : string) : pydict :=
  [("id", VStr ref); ("object_type", VStr "StandingResponsibility");
   ("created_at", VStr (isoformat (gr_issued_at grant)));
   ("responsibility_kind", VStr "administrative-obligation");
   ("statement", VStr ("Discharge administrative obligation " +:+ uuid_str (gr_obligation_id grant) +:+ " for "
                       +:+ gr_subject_ref grant +:+ " under grant " +:+ uuid_str (gr_grant_id grant) +:+ "."));
   ("scope", VDict [("administrative_case_id", VStr (uuid_str (gr_case_id grant)));
                    ("authority_epoch", VStr (int_str (gr_authority_epoch grant)));
                    ("obligation_id", VStr (uuid_str (gr_obligation_id grant)));
                    ("governance_basis_id", VStr (uuid_str (gr_governance_basis_id grant)));
                    ("execution_grant_id", VStr (uuid_str (gr_grant_id grant)));
                    ("target_system", VStr (gr_target_system grant)); ("operation", VStr (gr_operation grant));
                    ("policy_ref", VStr (pr_policy_id (gr_policy_ref grant) +:+ ":" +:+ pr_version (gr_policy_ref grant)))]);
   ("schema_version", VStr schema)].

Definition admission_proposal (grant : AdministrativeExecutionGrant) (id ref : string) : pydict :=
  let created_at := VStr (isoformat (gr_issued_at grant)) in
  [("id", VStr id); ("object_type", VStr "ResponsibilityAdmission"); ("created_at", created_at);
   ("responsibility_ref", VStr ref); ("responsibility_version", VInt 1); ("principal_ref", VStr (gr_issued_by grant));
   ("basis_refs", text_list ["administrative-grant:" +:+ uuid_str (gr_grant_id grant);
                             "governance-basis:" +:+ uuid_str (gr_governance_basis_id grant);
                             "approval-satisfaction:" +:+ uuid_str (gr_approval_satisfaction_id grant)]);
   ("admitted_at", created_at)].

Definition assessment_proposal (grant : AdministrativeExecutionGrant) (intent : AdministrativeEffectIntent)
    (id ref : string) : pydict :=
  let created_at := VStr (isoformat (gr_issued_at grant)) in
  [("id", VStr id); ("object_type", VStr "ResponsibilityAssessment"); ("created_at", created_at);
   ("responsibility_ref", VStr ref); ("responsibility_version", VInt 1); ("subject_ref", VStr (gr_subject_ref grant));
   ("assessment_kind", VStr "administrative-obligation-ready");
   ("basis_refs", text_list ["administrative-intent:" +:+ uuid_str (ei_intent_id intent);
                             "administrative-grant:" +:+ uuid_str (gr_grant_id grant);
                             "governance-basis:" +:+ uuid_str (gr_governance_basis_id grant)]);
   ("assessed_at", created_at);
   ("rationale", VStr "administrative policy, approval, governance and business obligation are closed")].

Definition work_proposal (grant : AdministrativeExecutionGrant) (intent : AdministrativeEffectIntent)
    (id ref assessment_ref : string) : pydict :=
  [("id", VStr id); ("object_type", VStr "WorkProposal"); ("created_at", VStr (isoformat (gr_issued_at grant)));
   ("responsibility_ref", VStr ref); ("responsibility_version", VInt 1); ("assessment_ref", VStr assessment_ref);
   ("subject_ref", VStr (gr_subject_ref grant)); ("work_kind", VStr "administrative-effect");
   ("title", VStr (gr_target_system grant +:+ ": " +:+ gr_operation grant +:+ " " +:+ gr_subject_ref grant));
   ("description", VStr ("Execute one governed administrative effect intent. Administrative business grant "
                         +:+ "is provenance only; Kernel runtime authority remains required separately."));
   ("requested_resources",
    VDict [("compute_units", VInt 0); ("api_calls", VInt 1); ("money_minor", VInt 0); ("human_attention_units", VInt 0);
           ("concurrency_slots", VInt 1);
           ("domain_quota", VDict [("administrative:" +:+ gr_target_system grant, VInt 1)])]);
   ("requested_capabilities", text_list [ei_capability intent]);
   ("expected_result", VStr (json_dumps (VDict (ei_expected_postcondition intent))));
   ("stop_conditions", text_list ["administrative-authority-epoch-changed:" +:+ uuid_str (gr_case_id grant) +:+ ":"
                                  +:+ int_str (gr_authority_epoch grant);
                                  "governance-basis-invalidated:" +:+ uuid_str (gr_governance_basis_id grant)]);
   ("escalation_conditions", text_list ["runtime-authorization-denied"; "reality-unavailable-or-unknown";
                                        "semantic-postcondition-mismatch"]);
   ("effect_class", VStr "external-effect")].

Definition project_to_kernel (grant : AdministrativeExecutionGrant) (intent : AdministrativeEffectIntent)
    (compatibility : KernelContractIdentity) : result KernelShadowProjection :=
  refuse bool_decide (ei_grant_id intent <> gr_grant_id grant)
         || bool_decide (ei_obligation_id intent <> gr_obligation_id grant)
    with ValueError saying "kernel projection requires an effect intent derived from the same grant";;
  let by_grant prefix kind := kernel_ref prefix (kernel_uuid kind [uuid_str (gr_grant_id grant)]) in
  let responsibility_ref := by_grant "resp_admin" "responsibility" in
  let admission_ref := by_grant "resp_admission_admin" "admission" in
  let assessment_ref := by_grant "assessment_admin" "assessment" in
  let proposal_ref := kernel_ref "proposal_admin" (kernel_uuid "proposal" [uuid_str (ei_intent_id intent)]) in
  let contract := ki_persistent_responsibility_contract compatibility in
  Ok (mkKernelShadowProjection
        (mkProjectionSemantics
           (kernel_uuid "projection" [uuid_str (gr_grant_id grant); uuid_str (ei_intent_id intent)])
           (gr_case_id grant) (gr_authority_epoch grant) (gr_grant_id grant) (ei_intent_id intent)
           (gr_obligation_id grant) (ki_catalog_version compatibility) (ki_runtime_protocol compatibility) contract
           (responsibility_proposal grant responsibility_ref contract)
           (admission_proposal grant admission_ref responsibility_ref)
           (assessment_proposal grant intent assessment_ref responsibility_ref)
           (work_proposal grant intent proposal_ref responsibility_ref assessment_ref)
           (gr_issued_at grant))
        KP_SHADOW no_proposal no_work no_execution (gr_issued_at grant)).
End mapping.

(** ** Receipts *)

Record KernelProposalReceipt := mkKernelProposalReceipt {
  pc_responsibility_ref : string;
  pc_admission_ref : string;
  pc_assessment_ref : string;
  pc_proposal_ref : string;
}.

Record KernelWorkAdmissionReceipt := mkKernelWorkAdmissionReceipt {
  wc_status : KernelWorkAdmissionStatus;
  wc_proposal_ref : string;
  wc_policy_ref : string;
  wc_priority_judgment_ref : string;
  wc_resource_pool_ref : option string;
  wc_portfolio_admission_ref : option string;
  wc_reservation_ref : option string;
  wc_commitment_ref : option string;
  wc_work_ref : option string;
}.

Record KernelExecutionReceipt := mkKernelExecutionReceipt {
  xc_status : KernelExecutionStatus;
  xc_execution_ref : string;
  xc_work_ref : string;
  xc_processed_at : datetime;
  xc_run_ref : option string;
  xc_request_ref : option string;
  xc_authorization_ref : option string;
  xc_provider_id : option string;
  xc_external_operation_ref : option string;
  xc_action_ref : option string;
  xc_outcome_ref : option string;
  xc_evidence_ref : option string;
  xc_responsibility_ref : option string;
}.

(** [expected_refs], [_receipt_refs], [_execution_receipt_refs] *)
Definition proposal_refs (r : KernelProposalReceipt) : ProposalRefs :=
  mkProposalRefs (Some (pc_responsibility_ref r)) (Some (pc_admission_ref r)) (Some (pc_assessment_ref r))
    (Some (pc_proposal_ref r)).
Definition receipt_refs (r : KernelWorkAdmissionReceipt) : WorkAdmissionRefs :=
  mkWorkAdmissionRefs (Some (wc_status r)) (Some (wc_policy_ref r)) (Some (wc_priority_judgment_ref r))
    (wc_resource_pool_ref r) (wc_portfolio_admission_ref r) (wc_reservation_ref r) (wc_commitment_ref r)
    (wc_work_ref r).
Definition execution_receipt_refs (r : KernelExecutionReceipt) : ExecutionRefs :=
  mkExecutionRefs (Some (xc_status r)) (Some (xc_execution_ref r)) (xc_run_ref r) (xc_request_ref r)
    (xc_authorization_ref r) (xc_provider_id r) (xc_action_ref r) (xc_outcome_ref r) (xc_evidence_ref r)
    (xc_responsibility_ref r) (Some (normalize_datetime (xc_processed_at r))).

(** A time without an offset equals no time of a stored row. *)
Definition same_execution_refs (refs : ExecutionRefs) (r : KernelExecutionReceipt) : bool :=
  bool_decide (refs = execution_receipt_refs r) && match xc_processed_at r with Naive _ => false | Aware _ _ => true end.

(** ** The tables *)

Record BridgeDb := mkBridgeDb {
  bd_grants : gmap uuid AdministrativeExecutionGrant;
  bd_intents : gmap uuid AdministrativeEffectIntent;
  bd_projections : gmap uuid KernelShadowProjection;
}.

Definition empty_bridge_db : BridgeDb := mkBridgeDb ∅ ∅ ∅.

Definition set_grants (d : BridgeDb) t : BridgeDb := mkBridgeDb t (bd_intents d) (bd_projections d).
Definition set_intents (d : BridgeDb) t : BridgeDb := mkBridgeDb (bd_grants d) t (bd_projections d).
Definition set_projections (d : BridgeDb) t : BridgeDb := mkBridgeDb (bd_grants d) (bd_intents d) t.

Definition dict_eqb (a b : pydict) : bool := py_eq (VDict a) (VDict b).

(** [restored != grant], [restored != intent] *)
Definition grant_eqb (a b : AdministrativeExecutionGrant) : bool :=
  bool_decide (gr_grant_id a = gr_grant_id b) && bool_decide (gr_case_id a = gr_case_id b)
  && bool_decide (gr_authority_epoch a = gr_authority_epoch b)
  && bool_decide (gr_obligation_id a = gr_obligation_id b)
  && bool_decide (gr_governance_basis_id a = gr_governance_basis_id b)
  && bool_decide (gr_approval_satisfaction_id a = gr_approval_satisfaction_id b)
  && bool_decide (gr_policy_ref a = gr_policy_ref b) && bool_decide (gr_subject_ref a = gr_subject_ref b)
  && bool_decide (gr_target_system a = gr_target_system b) && bool_decide (gr_operation a = gr_operation b)
  && bool_decide (gr_authority_class a = gr_authority_class b)
  && dict_eqb (gr_expected_postcondition a) (gr_expected_postcondition b)
  && bool_decide (gr_issued_by a = gr_issued_by b) && bool_decide (gr_issued_at a = gr_issued_at b).

Definition intent_eqb (a b : AdministrativeEffectIntent) : bool :=
  bool_decide (ei_intent_id a = ei_intent_id b) && bool_decide (ei_grant_id a = ei_grant_id b)
  && bool_decide (ei_case_id a = ei_case_id b) && bool_decide (ei_authority_epoch a = ei_authority_epoch b)
  && bool_decide (ei_obligation_id a = ei_obligation_id b) && bool_decide (ei_capability a = ei_capability b)
  && bool_decide (ei_subject_ref a = ei_subject_ref b) && dict_eqb (ei_parameters a) (ei_parameters b)
  && dict_eqb (ei_expected_postcondition a) (ei_expected_postcondition b)
  && bool_decide (ei_created_at a = ei_created_at b).

(** [_same_projection_semantics] *)
Definition same_projection_semantics (a b : KernelShadowProjection) : bool :=
  let a := kp_semantics a in let b := kp_semantics b in
  bool_decide (ps_projection_id a = ps_projection_id b) && bool_decide (ps_case_id a = ps_case_id b)
  && bool_decide (ps_authority_epoch a = ps_authority_epoch b) && bool_decide (ps_grant_id a = ps_grant_id b)
  && bool_decide (ps_intent_id a = ps_intent_id b) && bool_decide (ps_obligation_id a = ps_obligation_id b)
  && bool_decide (ps_contract_catalog a = ps_contract_catalog b)
  && bool_decide (ps_runtime_protocol a = ps_runtime_protocol b)
  && bool_decide (ps_persistent_responsibility_contract a = ps_persistent_responsibility_contract b)
  && dict_eqb (ps_responsibility_payload a) (ps_responsibility_payload b)
  && dict_eqb (ps_admission_payload a) (ps_admission_payload b)
  && dict_eqb (ps_assessment_payload a) (ps_assessment_payload b)
  && dict_eqb (ps_work_proposal_payload a) (ps_work_proposal_payload b)
  && bool_decide (ps_created_at a = ps_created_at b).

(** The unique constraints of a new row. *)
Definition taken {V} (P : V -> bool) (t : gmap uuid V) : bool := negb (is_nil (select_where P t)).

Definition put_grant (d : BridgeDb) (grant : AdministrativeExecutionGrant)
  : result (AdministrativeExecutionGrant * BridgeDb) :=
  match bd_grants d !! gr_grant_id grant with
  | Some restored =>
      refuse negb (grant_eqb restored grant) with KernelBridgePersistenceError
        saying "administrative execution grant identity rebound";;
      Ok (restored, d)
  | None =>
      refuse taken (fun g => bool_decide (gr_obligation_id g = gr_obligation_id grant)) (bd_grants d)
        with IntegrityError saying "duplicate grant";;
      Ok (grant, set_grants d (<[gr_grant_id grant := grant]> (bd_grants d)))
  end.

Definition get_grant (d : BridgeDb) (grant_id : uuid) : option AdministrativeExecutionGrant := bd_grants d !! grant_id.

Definition put_intent (d : BridgeDb) (intent : AdministrativeEffectIntent)
  : result (AdministrativeEffectIntent * BridgeDb) :=
  match bd_intents d !! ei_intent_id intent with
  | Some restored =>
      refuse negb (intent_eqb restored intent) with KernelBridgePersistenceError
        saying "administrative effect intent identity rebound";;
      Ok (restored, d)
  | None =>
      refuse taken (fun i => bool_decide (ei_grant_id i = ei_grant_id intent)
                             || bool_decide (ei_obligation_id i = ei_obligation_id intent)) (bd_intents d)
        with IntegrityError saying "duplicate intent";;
      Ok (intent, set_intents d (<[ei_intent_id intent := intent]> (bd_intents d)))
  end.

Definition get_intent (d : BridgeDb) (intent_id : uuid) : option AdministrativeEffectIntent := bd_intents d !! intent_id.

(** [_projection_from_row]: restoring a row validates it. *)
Definition projection_from_row (row : KernelShadowProjection) : result KernelShadowProjection := refs_match_status row.

Definition put_projection (d : BridgeDb) (projection : KernelShadowProjection)
  : result (KernelShadowProjection * BridgeDb) :=
  match bd_projections d !! kp_id projection with
  | Some row =>
      let! restored := projection_from_row row in
      refuse negb (same_projection_semantics restored projection) with KernelBridgePersistenceError
        saying "kernel projection identity rebound";;
      Ok (restored, d)
  | None =>
      let s := kp_semantics projection in
      refuse taken (fun p => bool_decide (ps_grant_id (kp_semantics p) = ps_grant_id s)
                             || bool_decide (ps_intent_id (kp_semantics p) = ps_intent_id s)
                             || bool_decide (ps_obligation_id (kp_semantics p) = ps_obligation_id s)) (bd_projections d)
        with IntegrityError saying "duplicate projection";;
      Ok (projection, set_projections d (<[kp_id projection := projection]> (bd_projections d)))
  end.

(** The opening of the three [mark_] transactions and of the retry: the stored
    projection, its semantics unchanged. *)
Definition current_projection (d : BridgeDb) (projection : KernelShadowProjection) (drift : string)
  : result KernelShadowProjection :=
  match bd_projections d !! kp_id projection with
  | None => raise KernelBridgePersistenceError "kernel projection is not persisted"
  | Some row =>
      let! current := projection_from_row row in
      refuse negb (same_projection_semantics current projection) with KernelBridgePersistenceError
        saying ("kernel projection semantics changed before " +:+ drift);;
      Ok current
  end.

(** Their end: flush and restore. *)
Definition save_projection (d : BridgeDb) (row : KernelShadowProjection) : result (KernelShadowProjection * BridgeDb) :=
  let! restored := projection_from_row row in
  Ok (restored, set_projections d (<[kp_id row := row]> (bd_projections d))).

Definition mark_submitted (d : BridgeDb) (projection : KernelShadowProjection) (receipt : KernelProposalReceipt)
    (now : instant) : result (KernelShadowProjection * BridgeDb) :=
  let! current := current_projection d projection "submit" in
  if bool_decide (kp_status current = KP_SUBMITTED) then
    refuse bool_decide (kp_proposal current <> proposal_refs receipt) with KernelBridgePersistenceError
      saying "submitted kernel receipt identity rebound";;
    Ok (current, d)
  else
    refuse bool_decide (kp_status current <> KP_SHADOW) with KernelBridgePersistenceError
      saying ("kernel projection cannot submit from " +:+ KernelProjectionStatus_value (kp_status current));;
    save_projection d (mkKernelShadowProjection (kp_semantics current) KP_SUBMITTED (proposal_refs receipt)
                         (kp_work current) (kp_execution current) now).

Definition mark_work_admission (d : BridgeDb) (projection : KernelShadowProjection)
    (receipt : KernelWorkAdmissionReceipt) (now : instant) : result (KernelShadowProjection * BridgeDb) :=
  let! current := current_projection d projection "Work admission" in
  refuse bool_decide (kernel_proposal_ref (kp_proposal current) <> Some (wc_proposal_ref receipt))
    with KernelBridgePersistenceError saying "Kernel Work admission proposal identity rebound";;
  let target := if bool_decide (wc_status receipt = WORK_MATERIALIZED) then KP_ADMITTED else KP_REJECTED in
  if bool_decide (kp_status current ∈ [KP_ADMITTED; KP_REJECTED]) then
    refuse bool_decide (kp_status current <> target) || bool_decide (kp_work current <> receipt_refs receipt)
      with KernelBridgePersistenceError saying "Kernel Work admission receipt identity rebound";;
    Ok (current, d)
  else
    refuse bool_decide (kp_status current <> KP_SUBMITTED) with KernelBridgePersistenceError
      saying ("kernel projection cannot admit Work from " +:+ KernelProjectionStatus_value (kp_status current));;
    save_projection d (mkKernelShadowProjection (kp_semantics current) target (kp_proposal current)
                         (receipt_refs receipt) (kp_execution current) now).

Definition reopen_priority_rejected (d : BridgeDb) (projection : KernelShadowProjection) (expected_policy_ref : string)
    (now : instant) : result (KernelShadowProjection * BridgeDb) :=
  let! current := current_projection d projection "admission retry" in
  let work := kp_work current in
  refuse bool_decide (kp_status current <> KP_REJECTED) with KernelBridgePersistenceError
    saying "kernel admission retry requires a rejected projection";;
  refuse bool_decide (kernel_work_admission_status work <> Some PRIORITY_REJECTED) with KernelBridgePersistenceError
    saying "only priority-rejected projections may be re-entered";;
  refuse falsy (kernel_admission_policy_ref work) with KernelBridgePersistenceError
    saying "priority-rejected projection lacks its source policy ref";;
  refuse bool_decide (kernel_admission_policy_ref work = Some expected_policy_ref) with KernelBridgePersistenceError
    saying "admission retry requires a changed Kernel policy ref";;
  refuse existsb given [kernel_resource_pool_ref work; kernel_portfolio_admission_ref work; kernel_reservation_ref work;
                        kernel_commitment_ref work; kernel_work_ref work]
    with KernelBridgePersistenceError saying "priority-rejected projection unexpectedly contains Work refs";;
  save_projection d (mkKernelShadowProjection (kp_semantics current) KP_SUBMITTED (kp_proposal current) no_work
                       (kp_execution current) now).

Definition mark_execution (d : BridgeDb) (projection : KernelShadowProjection) (receipt : KernelExecutionReceipt)
    (now : instant) : result (KernelShadowProjection * BridgeDb) :=
  let! current := current_projection d projection "execution" in
  refuse bool_decide (kernel_work_ref (kp_work current) <> Some (xc_work_ref receipt))
    with KernelBridgePersistenceError saying "Kernel execution Work identity rebound";;
  let target := if bool_decide (xc_status receipt = KE_COMPLETED) then KP_CUTOVER else KP_ADMITTED in
  if bool_decide (kernel_execution_status (kp_execution current) <> None) then
    refuse bool_decide (kp_status current <> target)
           || negb (same_execution_refs (kp_execution current) receipt)
      with KernelBridgePersistenceError saying "Kernel execution receipt identity rebound";;
    Ok (current, d)
  else
    refuse bool_decide (kp_status current <> KP_ADMITTED) with KernelBridgePersistenceError
      saying ("kernel projection cannot execute from " +:+ KernelProjectionStatus_value (kp_status current));;
    save_projection d (mkKernelShadowProjection (kp_semantics current) target (kp_proposal current) (kp_work current)
                         (execution_receipt_refs receipt) now).

Definition get_projection_for_obligation (d : BridgeDb) (obligation_id : uuid)
  : result (option KernelShadowProjection) :=
  match select_where (fun p => bool_decide (ps_obligation_id (kp_semantics p) = obligation_id)) (bd_projections d) with
  | [] => Ok None
  | row :: _ => let! p := projection_from_row row in Ok (Some p)
  end.

Definition list_projections (d : BridgeDb) (case_id : uuid) (authority_epoch : Z) : result (list KernelShadowProjection) :=
  traverse projection_from_row
    (sort_by (fun a b => N.compare (kp_id a) (kp_id b))
       (select_where (fun p => bool_decide (ps_case_id (kp_semantics p) = case_id)
                               && bool_decide (ps_authority_epoch (kp_semantics p) = authority_epoch))
          (bd_projections d))).

Definition list_projections_for_case (d : BridgeDb) (case_id : uuid) : result (list KernelShadowProjection) :=
  traverse projection_from_row
    (sort_by (fun a b => cmp_then (Z.compare (ps_authority_epoch (kp_semantics a)) (ps_authority_epoch (kp_semantics b)))
                           (N.compare (kp_id a) (kp_id b)))
       (select_where (fun p => bool_decide (ps_case_id (kp_semantics p) = case_id)) (bd_projections d))).
