(* ===== verification/Machine.v ===== *)
(** * Computations over a mutable world

    The engines mutate the database, the provider plane and the clock, and may
    raise at any call; what was committed before the exception stays committed.
    [M S A] is such a computation over the world [S].  [Respects] is the
    interface the proofs compose with: a computation moves the world along
    [moves] when it returns and along [breaks] when it raises, which may depend on
    the exception. *)

From stdpp Require Import base list strings.
From S2P Require Import Prelude.

Definition M (S A : Type) : Type := S -> result A * S.

Section monad.
Context {S : Type}.

Definition ret {A} (a : A) : M S A := fun s => (Ok a, s).
Definition throw {A} (c : exn_class) (msg : string) : M S A := fun s => (raise c msg, s).

Definition bind {A B} (m : M S A) (k : A -> M S B) : M S B := fun s =>
  match m s with
  | (Ok a, s') => k a s'
  | (Err e, s') => (Err e, s')
  end.

(** A pure call that may raise. *)
Definition lift {A} (r : result A) : M S A := fun s => (r, s).

(** Reading the world. *)
Definition gets {A} (f : S -> A) : M S A := fun s => (Ok (f s), s).
Definition reads {A} (f : S -> result A) : M S A := fun s => (f s, s).

(** A transaction: it commits what it wrote, or raises and writes nothing. *)
Definition transact {A} (f : S -> result (A * S)) : M S A := fun s =>
  match f s with
  | Ok (a, s') => (Ok a, s')
  | Err e => (Err e, s)
  end.

(** [try: m  except c: handler] *)
Definition catch {A} (m : M S A) (c : exn_class) (handler : M S A) : M S A := fun s =>
  match m s with
  | (Err e, s') => if bool_decide (exn_cls e = c) then handler s' else (Err e, s')
  | r => r
  end.
End monad.

Declare Scope machine_scope.
Delimit Scope machine_scope with machine.
Notation "'do!' x ':=' m 'in' k" := (bind m (fun x => k))
  (at level 10, x pattern, m at level 100, k at level 200,
   format "'do!'  x  ':='  m  'in' '//' k") : machine_scope.
Notation "'also!' m 'then' k" := (bind m (fun _ => k))
  (at level 10, m at level 100, k at level 200,
   format "'also!'  m  'then' '//' k") : machine_scope.

(** ** Reasoning *)

Lemma bind_Ok {S A B} (m : M S A) (k : A -> M S B) s b s' :
  bind m k s = (Ok b, s') <-> exists a s1, m s = (Ok a, s1) /\ k a s1 = (Ok b, s').
Proof.
  unfold bind. split.
  - destruct (m s) as [[a|e] s1] eqn:E; [|done]. intros H. by exists a, s1.
  - by intros (a & s1 & -> & H).
Qed.

Lemma transact_Ok {S A} (f : S -> result (A * S)) s a s' :
  transact f s = (Ok a, s') <-> f s = Ok (a, s').
Proof. unfold transact. destruct (f s) as [[a1 s1]|e]; split; naive_solver. Qed.

(** Peels the steps of a computation that returned. *)
Ltac inv_run :=
  repeat match goal with
    | H : bind _ _ _ = (Ok _, _) |- _ =>
        apply bind_Ok in H; let a := fresh "a" in let s := fresh "s" in let E := fresh "R" in
        destruct H as (a & s & E & H)
    | H : ret _ _ = (Ok _, _) |- _ => unfold ret in H
    | H : gets _ _ = (Ok _, _) |- _ => unfold gets in H
    | H : reads _ _ = (Ok _, _) |- _ => unfold reads in H
    | H : lift _ _ = (Ok _, _) |- _ => unfold lift in H
    | H : throw _ _ _ = (Ok _, _) |- _ => discriminate H
    | H : transact _ _ = (Ok _, _) |- _ => apply transact_Ok in H
    | H : (Ok _, _) = (Ok _, _) |- _ => injection H as H; try subst
    | H : (Err _, _) = (Ok _, _) |- _ => discriminate H
    | H : (?r, ?s) = (Ok _, _) |- _ => injection H as H; try subst s
    end.

Section respects.
Context {S : Type}.

(** How a computation may move the world. *)
Record Motion := mkMotion {
  moves : S -> S -> Prop;
  breaks : exn -> S -> S -> Prop;
  moves_refl : forall s, moves s s;
  moves_trans : forall s1 s2 s3, moves s1 s2 -> moves s2 s3 -> moves s1 s3;
  moves_breaks : forall e s1 s2, moves s1 s2 -> breaks e s1 s2;
  breaks_trans : forall e s1 s2 s3, moves s1 s2 -> breaks e s2 s3 -> breaks e s1 s3;
}.

Class Respects (R : Motion) {A} (m : M S A) : Prop :=
  respects : forall s r s', m s = (r, s') ->
    match r with Ok _ => moves R s s' | Err e => breaks R e s s' end.

Context (R : Motion).

Lemma breaks_refl e s : breaks R e s s.
Proof. apply moves_breaks, moves_refl. Qed.

#[export] Instance respects_ret {A} (a : A) : Respects R (ret a).
Proof. intros s r s' [= <- <-]. apply moves_refl. Qed.

#[export] Instance respects_throw {A} c msg : Respects R (throw (A := A) c msg).
Proof. intros s r s' [= <- <-]. apply breaks_refl. Qed.

#[export] Instance respects_lift {A} (x : result A) : Respects R (lift x).
Proof. intros s r s' [= <- <-]. destruct x; [apply moves_refl|apply breaks_refl]. Qed.

#[export] Instance respects_gets {A} (f : S -> A) : Respects R (gets f).
Proof. intros s r s' [= <- <-]. apply moves_refl. Qed.

#[export] Instance respects_reads {A} (f : S -> result A) : Respects R (reads f).
Proof. intros s r s' [= <- <-]. destruct (f s); [apply moves_refl|apply breaks_refl]. Qed.

#[export] Instance respects_bind {A B} (m : M S A) (k : A -> M S B) :
  Respects R m -> (forall a, Respects R (k a)) -> Respects R (bind m k).
Proof.
  intros Hm Hk s r s'. unfold bind. destruct (m s) as [[a|e] s1] eqn:E; intros Hrun.
  - apply Hm in E. apply Hk in Hrun.
    destruct r; [by eapply moves_trans|by eapply breaks_trans].
  - apply Hm in E. by injection Hrun as <- <-.
Qed.

Lemma respects_transact {A} (f : S -> result (A * S)) :
  (forall s a s', f s = Ok (a, s') -> moves R s s') -> Respects R (transact f).
Proof.
  intros Hf s r s'. unfold transact. destruct (f s) as [[a s1]|e] eqn:E; intros [= <- <-];
    [by eapply Hf|apply breaks_refl].
Qed.

(** A handler resumes the motion where the exception it catches allows it. *)
Lemma respects_catch {A} (m : M S A) c (handler : M S A) :
  (forall e s s', exn_cls e = c -> breaks R e s s' -> moves R s s') ->
  Respects R m -> Respects R handler -> Respects R (catch m c handler).
Proof.
  intros Hc Hm Hh s r s'. unfold catch. destruct (m s) as [[a|e] s1] eqn:E; apply Hm in E.
  - by intros [= <- <-].
  - case_bool_decide as Hcls; [|by intros [= <- <-]]. intros Hrun. apply Hh in Hrun.
    specialize (Hc _ _ _ Hcls E). destruct r; [by eapply moves_trans|by eapply breaks_trans].
Qed.

(** The same, at one world: what is known there may be used. *)
Definition respects_at {A} (m : M S A) (s : S) : Prop :=
  forall r s', m s = (r, s') -> match r with Ok _ => moves R s s' | Err e => breaks R e s s' end.

Lemma respects_bind_at {A B} (m : M S A) (k : A -> M S B) s :
  respects_at m s -> (forall a s1, m s = (Ok a, s1) -> respects_at (k a) s1) ->
  respects_at (bind m k) s.
Proof.
  intros Hm Hk r s'. unfold bind. destruct (m s) as [[a|e] s1] eqn:E; intros Hrun.
  - specialize (Hm _ _ E). apply (Hk a s1 eq_refl) in Hrun. cbn in Hm.
    destruct r; [by eapply moves_trans|by eapply breaks_trans].
  - specialize (Hm _ _ E). by injection Hrun as <- <-.
Qed.

Lemma respects_transact_at {A} (f : S -> result (A * S)) s :
  (forall a s', f s = Ok (a, s') -> moves R s s') -> respects_at (transact f) s.
Proof.
  intros Hf r s'. unfold transact. destruct (f s) as [[a s1]|e] eqn:E; intros [= <- <-];
    [by eapply Hf|apply breaks_refl].
Qed.

Lemma respects_everywhere {A} (m : M S A) : (forall s, respects_at m s) -> Respects R m.
Proof. intros Hm s r s'. apply Hm. Qed.

Lemma at_world {A} (m : M S A) s : Respects R m -> respects_at m s.
Proof. intros Hm r s'. apply Hm. Qed.
End respects.
Arguments Motion : clear implicits.
Arguments moves {S} m s s'.
Arguments breaks {S} m e s s'.
Arguments respects_at {S} R {A} m s.

(** Walks through the sequencing and the branches of a computation. *)
Ltac respect :=
  repeat first
    [ progress intros
    | apply respects_ret | apply respects_throw | apply respects_lift
    | apply respects_gets | apply respects_reads
    | match goal with |- Respects _ (bind _ _) => apply respects_bind end
    | match goal with |- Respects _ (match ?x with _ => _ end) => destruct x end
    | assumption
    | typeclasses eauto ].
