(* ===== verification/KernelClient.v ===== *)
(** * The Agent Kernel's HTTP contracts,
      [integrations/kernel/client.py], [recovery.py], [evidence.py] and
      [compatibility.py]

    The Kernel is a service: [KernelHttp] is what a request to it returns.  Every
    answer is parsed the way the clients parse it; an answer that is not what its
    schema promises is refused, never guessed. *)

From stdpp Require Import base gmap strings list.
From Stdlib Require Import ZArith Lia Ascii.
From Stdlib Require String.
From S2P Require Import Prelude Python CPython Uuid Store Domain Policy Authority Access Lifecycle Obligations.
From S2P Require Import Verification PolicyPlane Financial Persistence Transactions Governance Kernel Machine.

Open Scope Z_scope.
Open Scope orch_scope.
Open Scope machine_scope.

(** ** Requests and replies *)

(** What [httpx] gives the caller: an error of the transport, a status that
    [raise_for_status] turns into an exception, a body that is not JSON, or JSON.
    [message] is the text of the exception. *)
Inductive HttpReply :=
  | HttpLost (message : string)
  | HttpRefused (status_code : Z) (text message : string)
  | HttpNotJson (message : string)
  | HttpJson (value : pyval).

Class KernelHttp (P : Type) := {
  (** [httpx.post(base_url + path, json=payload)] *)
  kernel_post : P -> string -> pydict -> HttpReply * P;
  (** [httpx.get(base_url + path)] *)
  kernel_get : P -> string -> HttpReply * P;
}.

(** [except (httpx.HTTPError, ValueError) as exc: raise c(f"{prefix}: {exc}")] *)
Definition reply_json (c : exn_class) (prefix : string) (reply : HttpReply) : result pyval :=
  match reply with
  | HttpJson v => Ok v
  | HttpLost m | HttpRefused _ _ m | HttpNotJson m => raise c (prefix +:+ ": " +:+ m)
  end.

Definition as_object (c : exn_class) (msg : string) (v : pyval) : result pydict :=
  match v with VDict d => Ok d | _ => raise c msg end.

(** [value not in {...}]: testing an unhashable value raises. *)
Definition one_of (c : exn_class) (msg : string) (allowed : list string) (v : pyval) : result string :=
  refuse negb (hashable v) with TypeError saying "unhashable type";;
  match v with
  | VStr s => if bool_decide (s ∈ allowed) then Ok s else raise c msg
  | _ => raise c msg
  end.

(** [raw.get(name)] that must be a non-empty string, and one that may be absent. *)
Definition required_text (c : exn_class) (msg : string) (v : pyval) : result string :=
  match v with VStr s => if nonempty s then Ok s else raise c msg | _ => raise c msg end.
Definition required_ref (c : exn_class) (msg : string) (raw : pydict) (name : string) : result string :=
  required_text c (msg +:+ name) (dict_get raw name).
Definition optional_ref (c : exn_class) (msg : string) (raw : pydict) (name : string) : result (option string) :=
  match dict_get raw name with
  | VNone => Ok None
  | VStr s => if nonempty s then Ok (Some s) else raise c (msg +:+ name)
  | _ => raise c (msg +:+ name)
  end.

(** [value == text], [value is not False] *)
Definition is_text (v : pyval) (s : string) : bool := match v with VStr t => bool_decide (t = s) | _ => false end.
Definition not_false (v : pyval) : bool := match v with VBool false => false | _ => true end.

(** [[name for name, value in refs.items() if not value]] *)
Definition missing (refs : list (string * option string)) : list string :=
  (List.filter (fun kv => falsy (snd kv)) refs).*1.

Section clients.
Context `{Hplat : Platform} {P : Type} `{Hhttp : KernelHttp P}.

Definition post (path : string) (payload : pydict) : M P HttpReply := fun p =>
  let '(reply, p') := kernel_post p path payload in (Ok reply, p').
Definition get (path : string) : M P HttpReply := fun p =>
  let '(reply, p') := kernel_get p path in (Ok reply, p').

(** [datetime.fromisoformat(text.replace("Z", "+00:00"))] of a present text *)
Definition required_time (c : exn_class) (lacks invalid : string) (v : pyval) : result datetime :=
  match v with
  | VStr s =>
      if negb (nonempty s) then raise c lacks
      else match fromisoformat (replace_Z s) with Some t => Ok t | None => raise c invalid end
  | _ => raise c lacks
  end.

(** ** Proposals *)

Definition confirmed_ref (raw : pydict) (key : string) (expected : pyval) : result string :=
  match expected with
  | VStr e =>
      refuse negb (nonempty e) with KernelSubmissionError saying ("shadow projection lacks canonical " +:+ key);;
      refuse negb (is_text (dict_get raw key) e) with KernelSubmissionError
        saying ("agent-kernel receipt " +:+ key +:+ " does not match submitted canonical identity");;
      Ok e
  | _ => raise KernelSubmissionError ("shadow projection lacks canonical " +:+ key)
  end.

Definition proposal_receipt (responsibility admission assessment proposal : pydict) (reply : HttpReply)
  : result KernelProposalReceipt :=
  let! v := reply_json KernelSubmissionError "agent-kernel proposal submission failed" reply in
  let! raw := as_object KernelSubmissionError "agent-kernel proposal receipt must be a JSON object" v in
  refuse negb (is_text (dict_get raw "schema") "domain-responsibility-proposal-receipt-v1")
    with KernelSubmissionError saying "agent-kernel returned an incompatible proposal receipt schema";;
  refuse negb (is_text (dict_get raw "status") "proposal-recorded") with KernelSubmissionError
    saying "agent-kernel did not confirm proposal recording";;
  refuse not_false (dict_get raw "authority_bearing") with KernelSubmissionError
    saying "agent-kernel proposal receipt must be explicitly non-authoritative";;
  let! responsibility_ref := confirmed_ref raw "responsibility_ref" (dict_get responsibility "id") in
  let! admission_ref := confirmed_ref raw "admission_ref" (dict_get admission "id") in
  let! assessment_ref := confirmed_ref raw "assessment_ref" (dict_get assessment "id") in
  let! proposal_ref := confirmed_ref raw "proposal_ref" (dict_get proposal "id") in
  Ok (mkKernelProposalReceipt responsibility_ref admission_ref assessment_ref proposal_ref).

Definition submit_payload (responsibility admission assessment proposal : pydict) : M P KernelProposalReceipt :=
  do! reply := post "/v1/responsibilities/domain-proposals"
    [("schema", VStr "domain-responsibility-proposal-v1"); ("responsibility", VDict responsibility);
     ("admission", VDict admission); ("assessment", VDict assessment); ("proposal", VDict proposal)] in
  lift (proposal_receipt responsibility admission assessment proposal reply).

Definition submit (projection : KernelShadowProjection) : M P KernelProposalReceipt :=
  let s := kp_semantics projection in
  submit_payload (ps_responsibility_payload s) (ps_admission_payload s) (ps_assessment_payload s)
    (ps_work_proposal_payload s).

(** ** Work admission *)

Definition admission_status (s : string) : KernelWorkAdmissionStatus :=
  if bool_decide (s = "work-materialized") then WORK_MATERIALIZED
  else if bool_decide (s = "priority-rejected") then PRIORITY_REJECTED else PORTFOLIO_REJECTED.

(** The references each status must and must not carry. *)
Definition check_admission_refs (status : KernelWorkAdmissionStatus) (pool portfolio reservation commitment work : option string)
  : result unit :=
  match status with
  | WORK_MATERIALIZED =>
      let lacks := missing [("resource_pool_ref", pool); ("portfolio_admission_ref", portfolio);
                            ("reservation_ref", reservation); ("commitment_ref", commitment); ("work_ref", work)] in
      refuse negb (is_nil lacks) with KernelWorkAdmissionError
        saying ("materialized Work admission receipt lacks refs: " +:+ join ", " lacks);;
      Ok tt
  | PRIORITY_REJECTED =>
      refuse existsb given [pool; portfolio; reservation; commitment; work] with KernelWorkAdmissionError
        saying "priority-rejected receipt must stop before resource and Work refs";;
      Ok tt
  | PORTFOLIO_REJECTED =>
      refuse falsy pool || falsy portfolio with KernelWorkAdmissionError
        saying "portfolio-rejected receipt requires pool and portfolio refs";;
      refuse existsb given [reservation; commitment; work] with KernelWorkAdmissionError
        saying "portfolio-rejected receipt must stop before reservation and Work refs";;
      Ok tt
  end.

Definition work_admission_receipt (proposal_ref expected_policy_ref : string) (reply : HttpReply)
  : result KernelWorkAdmissionReceipt :=
  let! v := reply_json KernelWorkAdmissionError "agent-kernel Work admission failed" reply in
  let! raw := as_object KernelWorkAdmissionError "agent-kernel Work admission receipt must be a JSON object" v in
  refuse negb (is_text (dict_get raw "schema") "responsibility-work-admission-receipt-v1")
    with KernelWorkAdmissionError saying "agent-kernel returned an incompatible Work admission receipt schema";;
  refuse not_false (dict_get raw "authority_bearing") with KernelWorkAdmissionError
    saying "agent-kernel Work admission receipt must be explicitly non-authoritative";;
  refuse negb (is_text (dict_get raw "proposal_ref") proposal_ref) with KernelWorkAdmissionError
    saying "agent-kernel Work admission proposal identity mismatch";;
  refuse negb (is_text (dict_get raw "policy_ref") expected_policy_ref) with KernelWorkAdmissionError
    saying "agent-kernel Work admission policy identity mismatch";;
  let! status := one_of KernelWorkAdmissionError "agent-kernel returned unknown Work admission status"
                   ["work-materialized"; "priority-rejected"; "portfolio-rejected"] (dict_get raw "status") in
  let! priority := required_text KernelWorkAdmissionError "Work admission receipt lacks priority judgment ref"
                     (dict_get raw "priority_judgment_ref") in
  let ref := optional_ref KernelWorkAdmissionError "invalid Work admission " raw in
  let! pool := ref "resource_pool_ref" in
  let! portfolio := ref "portfolio_admission_ref" in
  let! reservation := ref "reservation_ref" in
  let! commitment := ref "commitment_ref" in
  let! work := ref "work_ref" in
  let! _ := check_admission_refs (admission_status status) pool portfolio reservation commitment work in
  Ok (mkKernelWorkAdmissionReceipt (admission_status status) proposal_ref expected_policy_ref priority pool portfolio
        reservation commitment work).

Definition admit_work (projection : KernelShadowProjection) (expected_policy_ref : string) : M P KernelWorkAdmissionReceipt :=
  if bool_decide (kp_status projection <> KP_SUBMITTED)
  then throw KernelWorkAdmissionError "kernel Work admission requires submitted projection"
  else
    match kernel_proposal_ref (kp_proposal projection) with
    | Some proposal_ref =>
        if negb (nonempty proposal_ref)
        then throw KernelWorkAdmissionError "submitted projection lacks Kernel proposal ref"
        else
          do! reply := post "/v1/responsibilities/work-admissions"
            [("schema", VStr "responsibility-work-admission-v1"); ("proposal_ref", VStr proposal_ref);
             ("expected_policy_ref", VStr expected_policy_ref)] in
          lift (work_admission_receipt proposal_ref expected_policy_ref reply)
    | None => throw KernelWorkAdmissionError "submitted projection lacks Kernel proposal ref"
    end.

(** ** Execution *)

Definition execution_status (s : string) : KernelExecutionStatus :=
  if bool_decide (s = "authorization-rejected") then KE_AUTHORIZATION_REJECTED
  else if bool_decide (s = "execution-failed") then KE_EXECUTION_FAILED
  else if bool_decide (s = "execution-unknown") then KE_EXECUTION_UNKNOWN
  else if bool_decide (s = "verified-fail") then KE_VERIFIED_FAIL else KE_COMPLETED.

Definition EXECUTION_STATUSES : list string :=
  ["authorization-rejected"; "execution-failed"; "execution-unknown"; "verified-fail"; "completed"].

(** The references a completed and a refuted execution must carry. *)
Definition receipt_complete (r : KernelExecutionReceipt) : result unit :=
  let completed := missing
    [("run_ref", xc_run_ref r); ("request_ref", xc_request_ref r); ("authorization_ref", xc_authorization_ref r);
     ("provider_id", xc_provider_id r); ("action_ref", xc_action_ref r); ("outcome_ref", xc_outcome_ref r);
     ("evidence_ref", xc_evidence_ref r); ("responsibility_ref", xc_responsibility_ref r)] in
  refuse bool_decide (xc_status r = KE_COMPLETED) && negb (is_nil completed) with KernelExecutionError
    saying ("completed execution receipt lacks refs: " +:+ join ", " completed);;
  let refuted := missing
    [("run_ref", xc_run_ref r); ("request_ref", xc_request_ref r); ("provider_id", xc_provider_id r);
     ("action_ref", xc_action_ref r); ("outcome_ref", xc_outcome_ref r); ("evidence_ref", xc_evidence_ref r)] in
  refuse bool_decide (xc_status r = KE_VERIFIED_FAIL) && negb (is_nil refuted) with KernelExecutionError
    saying ("verified-fail receipt lacks refs: " +:+ join ", " refuted);;
  Ok tt.

(** [_execution_receipt] *)
Definition execution_receipt (v : pyval) (expected_work_ref : option string) : result KernelExecutionReceipt :=
  let! raw := as_object KernelExecutionError "agent-kernel execution receipt must be a JSON object" v in
  refuse negb (is_text (dict_get raw "schema") "bounded-domain-effect-execution-receipt-v1")
    with KernelExecutionError saying "agent-kernel returned incompatible execution receipt schema";;
  refuse not_false (dict_get raw "authority_bearing") with KernelExecutionError
    saying "agent-kernel execution receipt must be non-authoritative";;
  let! status := one_of KernelExecutionError "agent-kernel returned unknown execution status" EXECUTION_STATUSES
                   (dict_get raw "status") in
  let! execution_ref := required_ref KernelExecutionError "execution receipt lacks " raw "execution_ref" in
  let! work_ref := required_ref KernelExecutionError "execution receipt lacks " raw "work_ref" in
  refuse match expected_work_ref with Some e => bool_decide (work_ref <> e) | None => false end
    with KernelExecutionError saying "agent-kernel execution Work identity rebound";;
  let! processed_at := required_time KernelExecutionError "execution receipt lacks processed_at"
                         "execution receipt processed_at is invalid" (dict_get raw "processed_at") in
  let ref := optional_ref KernelExecutionError "execution receipt has invalid " raw in
  let! run := ref "run_ref" in
  let! request := ref "request_ref" in
  let! authorization := ref "authorization_ref" in
  let! provider := ref "provider_id" in
  let! operation := ref "external_operation_ref" in
  let! action := ref "action_ref" in
  let! outcome := ref "outcome_ref" in
  let! evidence := ref "evidence_ref" in
  let! responsibility := ref "responsibility_ref" in
  let receipt := mkKernelExecutionReceipt (execution_status status) execution_ref work_ref processed_at run request
                   authorization provider operation action outcome evidence responsibility in
  let! _ := receipt_complete receipt in
  Ok receipt.

Definition execution_command (work_ref : string) (grant : AdministrativeExecutionGrant)
    (intent : AdministrativeEffectIntent) : pydict :=
  [("schema", VStr "bounded-domain-effect-execution-v1"); ("work_ref", VStr work_ref);
   ("domain_intent_ref", VStr (uuid_str (ei_intent_id intent)));
   ("domain_grant_ref", VStr (uuid_str (gr_grant_id grant)));
   ("governance_basis_ref", VStr (uuid_str (gr_governance_basis_id grant)));
   ("approval_satisfaction_ref", VStr (uuid_str (gr_approval_satisfaction_id grant)));
   ("capability", VStr (ei_capability intent)); ("subject_ref", VStr (ei_subject_ref intent));
   ("authority_epoch", VInt (ei_authority_epoch intent)); ("parameters", VDict (ei_parameters intent));
   ("expected_postcondition", VDict (ei_expected_postcondition intent));
   ("observed_at", VStr (isoformat (ei_created_at intent)))].

(** The guards before the request; the work it is for. *)
Definition execution_work (projection : KernelShadowProjection) (grant : AdministrativeExecutionGrant)
    (intent : AdministrativeEffectIntent) : result string :=
  refuse bool_decide (kp_status projection <> KP_ADMITTED) with KernelExecutionError
    saying "kernel execution requires admitted Work";;
  match kernel_work_ref (kp_work projection) with
  | Some work_ref =>
      refuse negb (nonempty work_ref) with KernelExecutionError saying "admitted projection lacks Kernel Work ref";;
      refuse bool_decide (ps_grant_id (kp_semantics projection) <> gr_grant_id grant)
             || bool_decide (ps_intent_id (kp_semantics projection) <> ei_intent_id intent)
        with KernelExecutionError saying "kernel execution inputs do not match persisted projection";;
      refuse bool_decide (gr_grant_id grant <> ei_grant_id intent)
             || bool_decide (gr_obligation_id grant <> ei_obligation_id intent)
        with KernelExecutionError saying "kernel execution grant and intent identities rebound";;
      Ok work_ref
  | None => raise KernelExecutionError "admitted projection lacks Kernel Work ref"
  end.

(** A lost or unreadable answer may be tried again, and so may a server error. *)
Definition execution_answer (work_ref : string) (reply : HttpReply) : result KernelExecutionReceipt :=
  match reply with
  | HttpRefused code text _ =>
      raise (if (500 <=? code) && (code <? 600) then KernelExecutionRetryable else KernelExecutionError)
        ("agent-kernel bounded execution failed: HTTP " +:+ int_str code +:+ ": " +:+ String.substring 0 500 text)
  | HttpLost m | HttpNotJson m => raise KernelExecutionRetryable ("agent-kernel bounded execution failed: " +:+ m)
  | HttpJson v => execution_receipt v (Some work_ref)
  end.

Definition inspect_execution (execution_ref : string) (expected_work_ref : option string)
  : M P (option KernelExecutionReceipt) :=
  do! reply := get ("/v1/domain-effects/executions/" +:+ execution_ref) in
  match reply with
  | HttpRefused 404 _ _ => ret None
  | _ =>
      do! v := lift (reply_json KernelExecutionError "agent-kernel execution inspection failed" reply) in
      do! receipt := lift (execution_receipt v expected_work_ref) in
      if bool_decide (xc_execution_ref receipt <> execution_ref)
      then throw KernelExecutionError "agent-kernel execution inspection identity rebound"
      else ret (Some receipt)
  end.

(** ** Recovery *)

Record KernelExecutionResolution := mkKernelExecutionResolution {
  rn_execution_ref : string;
  rn_original_status : string;
  rn_current_status : string;
  rn_work_ref : string;
  rn_processed_at : datetime;
  rn_run_ref : option string;
  rn_request_ref : option string;
  rn_recovery_observation_ref : option string;
  rn_recovery_disposition_ref : option string;
  rn_recovery_application_ref : option string;
  rn_outcome_ref : option string;
  rn_evidence_ref : option string;
  rn_responsibility_ref : option string;
  rn_reason : string;
}.

Definition RESOLUTION_STATUSES : list string :=
  EXECUTION_STATUSES ++ ["recovery-pending"; "recovery-unavailable"; "manual-resolution-required"; "recovered-failed";
                         "recovered-verified-fail"; "recovered-completed"].

(** [_resolution] *)
Definition resolution (v : pyval) (expected_execution_ref : string) (expected_work_ref : option string)
  : result KernelExecutionResolution :=
  let! raw := as_object KernelRecoveryError "agent-kernel resolution must be a JSON object" v in
  refuse negb (is_text (dict_get raw "schema") "bounded-domain-effect-resolution-v1")
    with KernelRecoveryError saying "agent-kernel returned incompatible resolution schema";;
  refuse not_false (dict_get raw "authority_bearing") with KernelRecoveryError
    saying "agent-kernel resolution must be explicitly non-authoritative";;
  let! execution_ref := required_ref KernelRecoveryError "Kernel resolution lacks " raw "execution_ref" in
  refuse bool_decide (execution_ref <> expected_execution_ref) with KernelRecoveryError
    saying "Kernel recovery execution identity rebound";;
  let! work_ref := required_ref KernelRecoveryError "Kernel resolution lacks " raw "work_ref" in
  refuse match expected_work_ref with Some e => bool_decide (work_ref <> e) | None => false end
    with KernelRecoveryError saying "Kernel recovery Work identity rebound";;
  let! original := required_ref KernelRecoveryError "Kernel resolution lacks " raw "original_status" in
  let! status := one_of KernelRecoveryError "agent-kernel returned unknown recovery status" RESOLUTION_STATUSES
                   (dict_get raw "current_status") in
  let! processed_at := required_time KernelRecoveryError "Kernel resolution lacks processed_at"
                         "Kernel resolution processed_at is invalid" (dict_get raw "processed_at") in
  let ref := optional_ref KernelRecoveryError "Kernel resolution has invalid " raw in
  let! run := ref "run_ref" in
  let! request := ref "request_ref" in
  let! observation := ref "recovery_observation_ref" in
  let! disposition := ref "recovery_disposition_ref" in
  let! application := ref "recovery_application_ref" in
  let! outcome := ref "outcome_ref" in
  let! evidence := ref "evidence_ref" in
  let! responsibility := ref "responsibility_ref" in
  let lacks := missing
    [("run_ref", run); ("request_ref", request); ("recovery_observation_ref", observation);
     ("recovery_disposition_ref", disposition); ("recovery_application_ref", application); ("outcome_ref", outcome);
     ("evidence_ref", evidence); ("responsibility_ref", responsibility)] in
  refuse bool_decide (status = "recovered-completed") && negb (is_nil lacks) with KernelRecoveryError
    saying ("recovered-completed resolution lacks refs: " +:+ join ", " lacks);;
  match dict_get raw "reason" with
  | VStr reason =>
      Ok (mkKernelExecutionResolution execution_ref original status work_ref processed_at run request observation
            disposition application outcome evidence responsibility reason)
  | _ => raise KernelRecoveryError "Kernel resolution reason must be a string"
  end.

Definition recover (execution_ref : string) (expected_work_ref : option string) : M P KernelExecutionResolution :=
  if negb (nonempty (strip execution_ref)) then throw KernelRecoveryError "Kernel recovery requires execution_ref"
  else
    do! reply := post "/v1/domain-effects/recoveries"
      [("schema", VStr "bounded-domain-effect-recovery-v1"); ("execution_ref", VStr execution_ref)] in
    do! v := lift (reply_json KernelRecoveryError "agent-kernel recovery request failed" reply) in
    lift (resolution v execution_ref expected_work_ref).

Definition inspect_resolution (execution_ref : string) (expected_work_ref : option string)
  : M P (option KernelExecutionResolution) :=
  if negb (nonempty (strip execution_ref))
  then throw KernelRecoveryError "Kernel resolution inspection requires execution_ref"
  else
    do! reply := get ("/v1/domain-effects/executions/" +:+ execution_ref +:+ "/resolution") in
    match reply with
    | HttpRefused 404 _ _ => ret None
    | _ =>
        do! v := lift (reply_json KernelRecoveryError "agent-kernel resolution inspection failed" reply) in
        do! r := lift (resolution v execution_ref expected_work_ref) in
        ret (Some r)
    end.

(** ** Evidence *)

Record KernelEvidenceView := mkKernelEvidenceView {
  ev_evidence_ref : string;
  ev_action_ref : string;
  ev_work_ref : string;
  ev_run_ref : string;
  ev_objective_result : string;
  ev_observed_postcondition : pydict;
  ev_expected_postcondition : pydict;
  ev_verification_request_ref : string;
  ev_verification_attempt_ref : string;
  ev_verifier_provider_id : string;
  ev_verifier_provider_execution_binding_ref : string;
  ev_captured_at : datetime;
}.

Definition evidence_view (evidence_ref : string) (v : pyval) : result KernelEvidenceView :=
  let! raw := as_object KernelEvidenceError "agent-kernel evidence view must be a JSON object" v in
  refuse negb (is_text (dict_get raw "schema") "domain-effect-verification-evidence-view-v1")
    with KernelEvidenceError saying "agent-kernel returned incompatible evidence view schema";;
  refuse not_false (dict_get raw "authority_bearing") with KernelEvidenceError
    saying "agent-kernel evidence view must be explicitly non-authoritative";;
  refuse negb (is_text (dict_get raw "evidence_ref") evidence_ref) with KernelEvidenceError
    saying "agent-kernel evidence identity rebound";;
  let! objective := one_of KernelEvidenceError "agent-kernel evidence view lacks closed objective result"
                      ["pass"; "fail"] (dict_get raw "objective_result") in
  match dict_get raw "observed_postcondition", dict_get raw "expected_postcondition" with
  | VDict observed, VDict expected =>
      let! captured_at := required_time KernelEvidenceError "agent-kernel evidence view lacks captured_at"
                            "agent-kernel evidence captured_at is invalid" (dict_get raw "captured_at") in
      let ref := required_ref KernelEvidenceError "agent-kernel evidence view lacks " raw in
      let! action := ref "action_ref" in
      let! work := ref "work_ref" in
      let! run := ref "run_ref" in
      let! request := ref "verification_request_ref" in
      let! attempt := ref "verification_attempt_ref" in
      let! provider := ref "verifier_provider_id" in
      let! binding := ref "verifier_provider_execution_binding_ref" in
      Ok (mkKernelEvidenceView evidence_ref action work run objective observed expected request attempt provider binding
            captured_at)
  | _, _ => raise KernelEvidenceError "agent-kernel evidence view lacks postcondition objects"
  end.

Definition inspect_evidence (evidence_ref : string) : M P (option KernelEvidenceView) :=
  do! reply := get ("/v1/domain-effects/evidence/" +:+ evidence_ref) in
  match reply with
  | HttpRefused 404 _ _ => ret None
  | _ =>
      do! v := lift (reply_json KernelEvidenceError "agent-kernel evidence inspection failed" reply) in
      do! view := lift (evidence_view evidence_ref v) in
      ret (Some view)
  end.

(** ** Responsibility discharge *)

Abbreviation Discharge := KernelResponsibilityDischargeError (only parsing).

(** [_post_discharge] *)
Definition post_discharge (path : string) (payload : pydict) : M P pydict :=
  do! reply := post path payload in
  do! v := lift (reply_json Discharge "agent-kernel responsibility discharge request failed" reply) in
  lift (as_object Discharge "agent-kernel responsibility discharge receipt must be a JSON object" v).

(** [_require_non_authoritative] *)
Definition require_non_authoritative (raw : pydict) : result unit :=
  guard (not_false (dict_get raw "authority_bearing")) Discharge
    "agent-kernel responsibility discharge receipt must be explicitly non-authoritative".

Definition is_version (v : pyval) (version : Z) : bool := match v with VInt n => n =? version | _ => false end.

(** [_validate_responsibility_object] *)
Definition validate_responsibility_object (v : pyval) (object_type responsibility_ref : string) (version : Z)
  : result pydict :=
  let! raw := as_object Discharge "agent-kernel responsibility receipt object must be a JSON object" v in
  refuse negb (is_text (dict_get raw "object_type") object_type) with Discharge
    saying ("agent-kernel responsibility receipt object must be " +:+ object_type);;
  refuse negb (is_text (dict_get raw "responsibility_ref") responsibility_ref) with Discharge
    saying "agent-kernel responsibility receipt responsibility identity rebound";;
  refuse negb (is_version (dict_get raw "responsibility_version") version) with Discharge
    saying "agent-kernel responsibility receipt version mismatch";;
  Ok raw.

(** The commands of a discharge. *)
Definition assessment_command (assessment_ref responsibility_ref : string) (version : Z)
    (subject_ref assessment_kind : string) (basis_refs : list string) (assessed_at : instant)
    (fresh_until : option instant) (rationale : string) (created_at : instant) : pydict :=
  let assessment :=
    [("id", VStr assessment_ref); ("object_type", VStr "ResponsibilityAssessment");
     ("responsibility_ref", VStr responsibility_ref); ("responsibility_version", VInt version);
     ("subject_ref", VStr subject_ref); ("assessment_kind", VStr assessment_kind);
     ("basis_refs", text_list basis_refs); ("assessed_at", VStr (isoformat assessed_at));
     ("rationale", VStr rationale); ("created_at", VStr (isoformat created_at))]
    ++ match fresh_until with Some t => [("fresh_until", VStr (isoformat t))] | None => [] end in
  [("schema", VStr "responsibility-assessment-record-v1"); ("assessment", VDict assessment)].

Definition decision_command (decision_ref responsibility_ref : string) (version : Z) (assessment_ref : string)
    (basis_refs : list string) (policy_ref : string) (decided_at : instant) (rationale : string) (created_at : instant)
  : pydict :=
  [("schema", VStr "responsibility-discharge-decision-record-v1");
   ("decision", VDict
      [("id", VStr decision_ref); ("object_type", VStr "ResponsibilityDischargeDecision");
       ("responsibility_ref", VStr responsibility_ref); ("responsibility_version", VInt version);
       ("status_at_decision", VStr "active"); ("assessment_ref", VStr assessment_ref);
       ("disposition", VStr "discharge"); ("basis_refs", text_list basis_refs); ("policy_ref", VStr policy_ref);
       ("decided_at", VStr (isoformat decided_at)); ("rationale", VStr rationale);
       ("created_at", VStr (isoformat created_at))])].

Definition transition_command (transition_ref responsibility_ref : string) (version : Z) (decision_ref : string)
    (basis_refs : list string) (applied_at : instant) (reason : string) (created_at : instant) : pydict :=
  [("schema", VStr "responsibility-lifecycle-transition-apply-v1");
   ("transition", VDict
      [("id", VStr transition_ref); ("object_type", VStr "ResponsibilityLifecycleTransition");
       ("responsibility_ref", VStr responsibility_ref); ("responsibility_version", VInt version);
       ("from_status", VStr "active"); ("to_status", VStr "discharged"); ("decision_ref", VStr decision_ref);
       ("basis_refs", text_list basis_refs); ("applied_at", VStr (isoformat applied_at)); ("reason", VStr reason);
       ("created_at", VStr (isoformat created_at))])].

Definition record_assessment (assessment_ref responsibility_ref : string) (version : Z)
    (subject_ref assessment_kind : string) (basis_refs : list string) (assessed_at : instant)
    (fresh_until : option instant) (rationale : string) (created_at : instant) : M P unit :=
  do! raw := post_discharge "/v1/responsibilities/assessments"
    (assessment_command assessment_ref responsibility_ref version subject_ref assessment_kind basis_refs assessed_at
       fresh_until rationale created_at) in
  lift (refuse negb (is_text (dict_get raw "schema") "responsibility-assessment-receipt-v1") with Discharge
          saying "agent-kernel returned an incompatible responsibility assessment receipt schema";;
        let! _ := require_non_authoritative raw in
        let! returned := validate_responsibility_object (dict_get raw "assessment") "ResponsibilityAssessment"
                           responsibility_ref version in
        guard (negb (is_text (dict_get returned "id") assessment_ref)) Discharge
          "agent-kernel assessment receipt identity rebound").

Definition record_discharge_decision (decision_ref responsibility_ref : string) (version : Z) (assessment_ref : string)
    (basis_refs : list string) (policy_ref : string) (decided_at : instant) (rationale : string) (created_at : instant)
  : M P unit :=
  do! raw := post_discharge "/v1/responsibilities/discharge-decisions"
    (decision_command decision_ref responsibility_ref version assessment_ref basis_refs policy_ref decided_at rationale
       created_at) in
  lift (refuse negb (is_text (dict_get raw "schema") "responsibility-discharge-decision-receipt-v1") with Discharge
          saying "agent-kernel returned an incompatible responsibility discharge decision receipt schema";;
        let! _ := require_non_authoritative raw in
        let! returned := validate_responsibility_object (dict_get raw "decision") "ResponsibilityDischargeDecision"
                           responsibility_ref version in
        refuse negb (is_text (dict_get returned "id") decision_ref)
               || negb (is_text (dict_get returned "assessment_ref") assessment_ref) with Discharge
          saying "agent-kernel discharge decision receipt identity rebound";;
        guard (negb (is_text (dict_get raw "status_after_decision") "active")) Discharge
          "agent-kernel discharge decision must leave responsibility active").

Definition apply_lifecycle_transition (transition_ref responsibility_ref : string) (version : Z) (decision_ref : string)
    (basis_refs : list string) (applied_at : instant) (reason : string) (created_at : instant) : M P unit :=
  do! raw := post_discharge "/v1/responsibilities/lifecycle-transitions"
    (transition_command transition_ref responsibility_ref version decision_ref basis_refs applied_at reason created_at) in
  lift (refuse negb (is_text (dict_get raw "schema") "responsibility-lifecycle-transition-receipt-v1") with Discharge
          saying "agent-kernel returned an incompatible responsibility lifecycle receipt schema";;
        let! _ := require_non_authoritative raw in
        let! returned := validate_responsibility_object (dict_get raw "transition") "ResponsibilityLifecycleTransition"
                           responsibility_ref version in
        refuse negb (is_text (dict_get returned "id") transition_ref)
               || negb (is_text (dict_get returned "decision_ref") decision_ref) with Discharge
          saying "agent-kernel lifecycle transition receipt identity rebound";;
        refuse negb (is_text (dict_get returned "from_status") "active")
               || negb (is_text (dict_get returned "to_status") "discharged") with Discharge
          saying "agent-kernel lifecycle transition status semantics rebound";;
        guard (negb (is_text (dict_get raw "current_status") "discharged")) Discharge
          "agent-kernel lifecycle transition did not confirm discharged status").

(** [urllib.parse.quote(text, safe="")] *)
Definition url_safe (c : ascii) : bool :=
  let n := N_of_ascii c in
  ((48 <=? n) && (n <=? 57))%N || ((65 <=? n) && (n <=? 90))%N || ((97 <=? n) && (n <=? 122))%N
  || Ascii.eqb c "_" || Ascii.eqb c "." || Ascii.eqb c "-" || Ascii.eqb c "~".
Definition percent (c : ascii) : string :=
  if url_safe c then String.String c "" else "%" +:+ upper (String.string_of_list_ascii (hex_digits 2 (N_of_ascii c))).
Definition url_quote (text : string) : string :=
  String.concat "" (percent <$> String.list_ascii_of_string (encode text)).

(** [get_responsibility_status]: the current status *)
Definition get_responsibility_status (responsibility_ref : string) (expected_version : Z) : M P string :=
  do! reply := get ("/v1/responsibilities/" +:+ url_quote responsibility_ref +:+ "/status") in
  lift (
    let! v := reply_json Discharge "agent-kernel responsibility status inspection failed" reply in
    let! raw := as_object Discharge "agent-kernel responsibility status must be a JSON object" v in
    refuse negb (is_text (dict_get raw "schema") "responsibility-status-view-v1") with Discharge
      saying "agent-kernel returned an incompatible responsibility status schema";;
    let! _ := require_non_authoritative raw in
    refuse negb (is_text (dict_get raw "responsibility_ref") responsibility_ref) with Discharge
      saying "agent-kernel responsibility status identity rebound";;
    refuse negb (is_version (dict_get raw "responsibility_version") expected_version) with Discharge
      saying "agent-kernel responsibility status version mismatch";;
    one_of Discharge "agent-kernel returned unknown responsibility status" ["active"; "suspended"; "discharged"]
      (dict_get raw "current_status")).

(** ** The contract catalog *)

(** [str(contracts[key]["current"])]; [None] is a [KeyError] or a [TypeError]. *)
Definition current_of (v : pyval) : option string :=
  match v with VDict d => py_str <$> assoc "current" d | _ => None end.
Definition required_contract (contracts : pydict) (key : string) : option string := assoc key contracts ≫= current_of.
Definition optional_contract (contracts : pydict) (key : string) : option (option string) :=
  match dict_get contracts key with
  | VNone => Some None
  | v => Some <$> current_of v
  end.

(** The structural part of [validate_kernel_catalog]. *)
Definition catalog_identity (raw : pydict) : option KernelContractIdentity :=
  match assoc "contracts" raw with
  | Some (VDict contracts) =>
      persistent ← required_contract contracts "persistent_responsibility";
      proposal ← required_contract contracts "domain_responsibility_proposal";
      work ← optional_contract contracts "responsibility_work_admission";
      assessment ← optional_contract contracts "responsibility_assessment_record";
      decision ← optional_contract contracts "responsibility_discharge_decision_record";
      transition ← optional_contract contracts "responsibility_lifecycle_transition_apply";
      status ← optional_contract contracts "responsibility_status";
      execution ← optional_contract contracts "bounded_domain_effect_execution";
      recovery ← optional_contract contracts "bounded_domain_effect_recovery";
      let resolution := match dict_get contracts "bounded_domain_effect_recovery" with
                        | VDict d => match dict_get d "resolution" with VNone => None | v => Some (py_str v) end
                        | _ => None
                        end in
      evidence ← match dict_get raw "views" with
                 | VNone => Some None
                 | VDict views => optional_contract views "domain_effect_verification_evidence"
                 | _ => None
                 end;
      let build := match dict_get raw "build_revision" with
                   | VNone => None
                   | v => if nonempty (strip (py_str v)) then Some (strip (py_str v)) else None
                   end in
      catalog ← assoc "catalog_version" raw;
      owner ← assoc "owner" raw;
      protocol ← assoc "runtime_protocol" raw;
      Some (mkKernelContractIdentity (py_str catalog) (py_str owner) (py_str protocol) persistent proposal build work
              assessment decision transition status execution recovery resolution evidence)
  | _ => None
  end.

Record CatalogRequirements := mkCatalogRequirements {
  expected_build_revision : option string;
  require_build_revision : bool;
  require_work_admission : bool;
  require_responsibility_discharge : bool;
  require_domain_effect_execution : bool;
  require_domain_effect_recovery : bool;
  require_domain_effect_evidence : bool;
}.

Definition repr_opt (o : option string) : string := match o with Some s => py_repr (VStr s) | None => "None" end.
Definition mismatch (b : bool) (text : string) : list string := if b then [text] else [].

(** [name=actual, expected expected] *)
Definition differs (name : string) (actual : option string) (expected : string) : list string :=
  mismatch (bool_decide (actual <> Some expected))
    (name +:+ "=" +:+ repr_opt actual +:+ ", expected " +:+ py_repr (VStr expected)).
Definition differs_if_given (name : string) (actual : option string) (expected : string) : list string :=
  if given actual then differs name actual expected else [].
Definition missing_contract (required : bool) (actual : option string) (text expected : string) : list string :=
  mismatch (required && bool_decide (actual <> Some expected)) (text +:+ py_repr (VStr expected)).

Definition EXPECTED_WORK_ADMISSION : string := "responsibility-work-admission-v1".
Definition EXPECTED_EXECUTION : string := "bounded-domain-effect-execution-v1".
Definition EXPECTED_RECOVERY : string := "bounded-domain-effect-recovery-v1".
Definition EXPECTED_RESOLUTION : string := "bounded-domain-effect-resolution-v1".
Definition EXPECTED_EVIDENCE_VIEW : string := "domain-effect-verification-evidence-view-v1".

(** [optional_contracts] *)
Definition discharge_contracts (i : KernelContractIdentity) : list (string * option string * string) :=
  [("responsibility_assessment_record", ki_responsibility_assessment_record_contract i,
    "responsibility-assessment-record-v1");
   ("responsibility_discharge_decision_record", ki_responsibility_discharge_decision_record_contract i,
    "responsibility-discharge-decision-record-v1");
   ("responsibility_lifecycle_transition_apply", ki_responsibility_lifecycle_transition_apply_contract i,
    "responsibility-lifecycle-transition-apply-v1");
   ("responsibility_status", ki_responsibility_status_view_contract i, "responsibility-status-view-v1")].

Definition catalog_mismatches (i : KernelContractIdentity) (q : CatalogRequirements) : list string :=
  mismatch (require_build_revision q && falsy (ki_build_revision i))
    "build_revision is required for this deployment profile"
  ++ match expected_build_revision q with
     | Some e => differs "build_revision" (ki_build_revision i) e
     | None => []
     end
  ++ differs "catalog_version" (Some (ki_catalog_version i)) "agent-kernel-contracts-v1"
  ++ differs "owner" (Some (ki_owner i)) "agent-kernel/contracts"
  ++ differs "runtime_protocol" (Some (ki_runtime_protocol i)) "2.0"
  ++ differs "persistent_responsibility" (Some (ki_persistent_responsibility_contract i)) "persistent-responsibility-v1"
  ++ differs "domain_responsibility_proposal" (Some (ki_domain_responsibility_proposal_contract i))
       "domain-responsibility-proposal-v1"
  ++ differs_if_given "responsibility_work_admission" (ki_responsibility_work_admission_contract i)
       EXPECTED_WORK_ADMISSION
  ++ (discharge_contracts i ≫= fun '(name, actual, expected) => differs_if_given name actual expected)
  ++ (if require_responsibility_discharge q then
        discharge_contracts i ≫= fun '(name, actual, expected) =>
          missing_contract true actual (name +:+ " is required for responsibility discharge: expected ") expected
      else [])
  ++ differs_if_given "bounded_domain_effect_execution" (ki_bounded_domain_effect_execution_contract i)
       EXPECTED_EXECUTION
  ++ differs_if_given "bounded_domain_effect_recovery" (ki_bounded_domain_effect_recovery_contract i) EXPECTED_RECOVERY
  ++ differs_if_given "bounded_domain_effect_resolution" (ki_bounded_domain_effect_resolution_view i)
       EXPECTED_RESOLUTION
  ++ differs_if_given "domain_effect_verification_evidence" (ki_domain_effect_verification_evidence_view i)
       EXPECTED_EVIDENCE_VIEW
  ++ missing_contract (require_work_admission q) (ki_responsibility_work_admission_contract i)
       "responsibility_work_admission is required for admission mode or cutover mode: expected "
       EXPECTED_WORK_ADMISSION
  ++ missing_contract (require_domain_effect_execution q) (ki_bounded_domain_effect_execution_contract i)
       "bounded_domain_effect_execution is required for cutover mode: expected " EXPECTED_EXECUTION
  ++ mismatch (require_domain_effect_recovery q
               && (bool_decide (ki_bounded_domain_effect_recovery_contract i <> Some EXPECTED_RECOVERY)
                   || bool_decide (ki_bounded_domain_effect_resolution_view i <> Some EXPECTED_RESOLUTION)))
       ("bounded_domain_effect_recovery/resolution are required for cutover mode: expected "
        +:+ py_repr (VStr EXPECTED_RECOVERY) +:+ " + " +:+ py_repr (VStr EXPECTED_RESOLUTION))
  ++ missing_contract (require_domain_effect_evidence q) (ki_domain_effect_verification_evidence_view i)
       "domain_effect_verification_evidence is required for cutover mode: expected " EXPECTED_EVIDENCE_VIEW.

Definition validate_kernel_catalog (raw : pydict) (q : CatalogRequirements) : result KernelContractIdentity :=
  match catalog_identity raw with
  | None => raise KernelCompatibilityError "kernel contract catalog is structurally incomplete"
  | Some identity =>
      let mismatches := catalog_mismatches identity q in
      refuse negb (is_nil mismatches) with KernelCompatibilityError
        saying ("incompatible agent-kernel contracts: " +:+ join "; " mismatches);;
      Ok identity
  end.

(** [HttpKernelContractProbe.fetch_identity] *)
Definition fetch_identity (q : CatalogRequirements) : M P KernelContractIdentity :=
  do! reply := get "/v1/contracts" in
  lift (let! v := reply_json KernelCompatibilityError "agent-kernel contract probe unavailable" reply in
        let! payload := as_object KernelCompatibilityError "agent-kernel contract catalog must be a JSON object" v in
        validate_kernel_catalog payload q).
End clients.
