(* ===== verification/Outbox.v ===== *)
(** * The transactional outbox, [messaging.py], [workflows/relay.py], [worker.py]

    Business transactions emit events into the outbox table; the worker claims
    a batch under a lease, dispatches each event to the durable workflow runtime
    and marks it dispatched or to be retried with a growing delay, until
    [max_attempts] fail; failed events wait for an operator's replay.  Each
    function is one transaction: [FOR UPDATE SKIP LOCKED] makes concurrent claims
    act on disjoint rows, so that concurrent workers are interleavings of these
    transactions.  DBOS, which starts and wakes workflows, and the Feishu
    pipeline are the parameters of [WorkflowRuntime]. *)

From stdpp Require Import base gmap strings list relations.
From Stdlib Require Import ZArith Lia.
From S2P Require Import Prelude Python CPython Uuid Store Domain Policy Persistence Machine.

Open Scope Z_scope.
Open Scope orch_scope.
Open Scope machine_scope.

(** ** The table *)

Inductive OutboxStatus := OUTBOX_PENDING | OUTBOX_PROCESSING | OUTBOX_DISPATCHED | OUTBOX_FAILED.

#[export] Instance OutboxStatus_eq_dec : EqDecision OutboxStatus.
Proof. solve_decision. Defined.

Definition OutboxStatus_value (s : OutboxStatus) : string :=
  match s with
  | OUTBOX_PENDING => "pending" | OUTBOX_PROCESSING => "processing"
  | OUTBOX_DISPATCHED => "dispatched" | OUTBOX_FAILED => "failed"
  end.

Record OutboxEventRow := mkOutboxEventRow {
  oe_event_id : uuid;
  oe_event_type : string;
  oe_aggregate_id : string;
  oe_payload : pydict;
  oe_status : OutboxStatus;
  oe_attempts : Z;
  oe_next_attempt_at : option instant;
  oe_lease_until : option instant;
  oe_last_error : option string;
  oe_created_at : instant;
}.

Record OutboxReplayAuditRow := mkOutboxReplayAuditRow {
  oa_audit_id : uuid;
  oa_event_id : uuid;
  oa_actor_principal_id : string;
  oa_reason : string;
  oa_occurred_at : instant;
}.

Record OutboxDb := mkOutboxDb {
  ox_events : gmap uuid OutboxEventRow;
  ox_replays : gmap uuid OutboxReplayAuditRow;
}.

Definition empty_outbox : OutboxDb := mkOutboxDb ∅ ∅.

Definition set_events (db : OutboxDb) t : OutboxDb := mkOutboxDb t (ox_replays db).

Record OutboxEvent := mkOutboxEvent {
  ox_event_id : uuid;
  ox_event_type : string;
  ox_aggregate_id : string;
  ox_payload : pydict;
  ox_attempts : Z;
}.

Record ReplayedOutboxEvent := mkReplayedOutboxEvent {
  rp_event_id : uuid;
  rp_status : OutboxStatus;
  rp_attempts : Z;
  rp_audit_id : uuid;
}.

(** [text[:2000]] *)
Definition clip (s : string) : string := String.substring 0 2000 s.

(** The columns a transaction on the outbox writes. *)
Definition with_delivery (row : OutboxEventRow) (status : OutboxStatus) (attempts : Z)
    (next_attempt_at lease_until : option instant) (last_error : option string) : OutboxEventRow :=
  mkOutboxEventRow (oe_event_id row) (oe_event_type row) (oe_aggregate_id row) (oe_payload row)
    status attempts next_attempt_at lease_until last_error (oe_created_at row).

(** [order_by(created_at, event_id)] *)
Definition compare_created (a b : OutboxEventRow) : comparison :=
  cmp_then (Z.compare (oe_created_at a) (oe_created_at b)) (N.compare (oe_event_id a) (oe_event_id b)).

(** [select(...).where(P).order_by(...).limit(batch)] *)
Definition select_batch (P : OutboxEventRow -> bool) (batch : nat) (db : OutboxDb) : list OutboxEventRow :=
  take batch (sort_by compare_created (select_where P (ox_events db))).

(** The loop that writes the selected rows back. *)
Definition update_rows (f : OutboxEventRow -> OutboxEventRow) (rows : list OutboxEventRow) (db : OutboxDb)
  : OutboxDb :=
  set_events db (fold_left (fun t row => <[oe_event_id row := f row]> t) rows (ox_events db)).

(** ** Transactions *)

Definition emit_outbox (db : OutboxDb) (event_type aggregate_id : string) (payload : pydict)
    (event_id : uuid) (now : instant) : result OutboxDb :=
  let! t := db_add (ox_events db) event_id
    (mkOutboxEventRow event_id event_type aggregate_id payload OUTBOX_PENDING 0 None None None now) in
  Ok (set_events db t).

Definition lease_expired (now : instant) (row : OutboxEventRow) : bool :=
  bool_decide (oe_status row = OUTBOX_PROCESSING)
  && match oe_lease_until row with Some l => l <? now | None => false end.

Definition returned_to_pending (row : OutboxEventRow) : OutboxEventRow :=
  with_delivery row OUTBOX_PENDING (oe_attempts row) (oe_next_attempt_at row) None
    (Some "lease expired; returned to pending").

Definition recover_expired_leases (db : OutboxDb) (batch : nat) (now : instant) : nat * OutboxDb :=
  let rows := select_batch (lease_expired now) batch db in
  (length rows, update_rows returned_to_pending rows db).

Definition claimable (now : instant) (row : OutboxEventRow) : bool :=
  bool_decide (oe_status row = OUTBOX_PENDING)
  && match oe_next_attempt_at row with Some t => t <=? now | None => true end.

Definition leased (until : instant) (row : OutboxEventRow) : OutboxEventRow :=
  with_delivery row OUTBOX_PROCESSING (oe_attempts row) (oe_next_attempt_at row) (Some until)
    (oe_last_error row).

Definition event_of (row : OutboxEventRow) : OutboxEvent :=
  mkOutboxEvent (oe_event_id row) (oe_event_type row) (oe_aggregate_id row) (oe_payload row) (oe_attempts row).

(** A second is a million of the clock's microseconds. *)
Definition seconds (n : Z) : Z := n * 1000000.

Definition claim_outbox (db : OutboxDb) (batch : nat) (lease_seconds : Z) (now : instant)
  : list OutboxEvent * OutboxDb :=
  let rows := select_batch (claimable now) batch db in
  (event_of <$> rows, update_rows (leased (now + seconds lease_seconds)) rows db).

Definition mark_dispatched (db : OutboxDb) (event_id : uuid) : OutboxDb :=
  match ox_events db !! event_id with
  | None => db
  | Some row =>
      set_events db (<[event_id := with_delivery row OUTBOX_DISPATCHED (oe_attempts row)
                         (oe_next_attempt_at row) None None]> (ox_events db))
  end.

(** [min(60, 2 ** max(0, attempts - 1))] *)
Definition delay_seconds (attempts : Z) : Z := Z.min 60 (2 ^ Z.max 0 (attempts - 1)).

Definition retried (row : OutboxEventRow) (error : string) (max_attempts : Z) (now : instant) : OutboxEventRow :=
  let attempts := oe_attempts row + 1 in
  if max_attempts <=? attempts
  then with_delivery row OUTBOX_FAILED attempts None None (Some (clip error))
  else with_delivery row OUTBOX_PENDING attempts (Some (now + seconds (delay_seconds attempts))) None
         (Some (clip error)).

Definition mark_retry (db : OutboxDb) (event_id : uuid) (error : string) (max_attempts : Z) (now : instant)
  : bool * OutboxDb :=
  match ox_events db !! event_id with
  | None => (false, db)
  | Some row =>
      (max_attempts <=? oe_attempts row + 1,
       set_events db (<[event_id := retried row error max_attempts now]> (ox_events db)))
  end.

Definition replay_failed_outbox (db : OutboxDb) (event_id : uuid) (reason actor_principal_id : string)
    (audit_id : uuid) (now : instant) : result (ReplayedOutboxEvent * OutboxDb) :=
  refuse negb (nonempty (strip reason)) with ValueError saying "dead-letter replay requires a reason";;
  match ox_events db !! event_id with
  | None => raise OutboxEventNotFound "outbox event does not exist"
  | Some row =>
      refuse bool_decide (oe_status row <> OUTBOX_FAILED) with OutboxEventNotFailed
        saying ("only failed outbox events may be replayed; current status is "
                +:+ OutboxStatus_value (oe_status row));;
      let replay_reason := clip (strip reason) in
      let actor := if nonempty (strip actor_principal_id) then strip actor_principal_id
                   else "system:outbox-replay" in
      let! replays := db_add (ox_replays db) audit_id
        (mkOutboxReplayAuditRow audit_id (oe_event_id row) actor replay_reason now) in
      let row' := with_delivery row OUTBOX_PENDING 0 None None
                    (Some (clip ("dead-letter replay requested: " +:+ replay_reason))) in
      Ok (mkReplayedOutboxEvent (oe_event_id row) (oe_status row') (oe_attempts row') audit_id,
          mkOutboxDb (<[event_id := row']> (ox_events db)) replays)
  end.

(** [FailedOutboxEvent] has columns of the row; the rows stand for it. *)
Definition list_failed_outbox (db : OutboxDb) (limit : Z) : list OutboxEventRow :=
  take (Z.to_nat (Z.max 1 (Z.min limit 1000)))
    (sort_by (fun a b => compare_created b a)
       (select_where (fun r => bool_decide (oe_status r = OUTBOX_FAILED)) (ox_events db))).

(** ** The relay *)

Definition CASE_CHANGED_TOPIC : string := "case_changed".
Definition FEISHU_INTAKE_EVENT_TYPE : string := "intake.feishu.received".

Record WorkflowWakeAction := mkWorkflowWakeAction {
  wa_workflow_id : string;
  wa_topic : string;
  wa_message : pydict;
  wa_idempotency_key : string;
}.

Record FeishuInboxAction := mkFeishuInboxAction {
  fi_receipt_id : string;
  fi_payload : pydict;
  fi_idempotency_key : string;
}.

Inductive Workflow := onboarding_case_workflow | offboarding_case_workflow | meeting_commitment_case_workflow.

Section relay.
Context `{Platform}.

Definition plan_outbox_action (event : OutboxEvent) : result WorkflowWakeAction :=
  refuse bool_decide (ox_event_type event <> "workflow.case_changed") with ValueError
    saying ("no DBOS relay action for event type '" +:+ ox_event_type event +:+ "'");;
  let case_id := py_str (py_or (dict_get (ox_payload event) "case_id") (VStr (ox_aggregate_id event))) in
  refuse negb (nonempty case_id) with ValueError saying "workflow.case_changed requires case_id";;
  Ok (mkWorkflowWakeAction case_id CASE_CHANGED_TOPIC
        (dict_merge (ox_payload event) [("event_id", VStr (uuid_str (ox_event_id event)))])
        (uuid_str (ox_event_id event))).

Definition plan_feishu_inbox_action (event : OutboxEvent) : result FeishuInboxAction :=
  refuse bool_decide (ox_event_type event <> FEISHU_INTAKE_EVENT_TYPE) with ValueError
    saying ("no Feishu intake action for event type '" +:+ ox_event_type event +:+ "'");;
  refuse existsb (fun field => negb (nonempty (strip (py_str (py_or (dict_get (ox_payload event) field)
                                                                 (VStr ""))))))
           ["event_id"; "tenant_ref"; "message_id"; "sender_external_subject"]
    with ValueError saying "Feishu intake event is missing provider identity metadata";;
  Ok (mkFeishuInboxAction (uuid_str (ox_event_id event)) (ox_payload event) (uuid_str (ox_event_id event))).

Definition workflow_for (case_kind : string) : option Workflow :=
  if bool_decide (case_kind = "employee-onboarding") then Some onboarding_case_workflow
  else if bool_decide (case_kind = "employee-offboarding") then Some offboarding_case_workflow
  else if bool_decide (case_kind = "procurement-request") then Some onboarding_case_workflow
  else if bool_decide (case_kind = "invoice-ap-preparation") then Some onboarding_case_workflow
  else if bool_decide (case_kind = "expense-reimbursement") then Some onboarding_case_workflow
  else if bool_decide (case_kind = "meeting-commitment") then Some meeting_commitment_case_workflow
  else None.

(** The runtime the relay hands over to: starting the workflow under its id and
    sending it the message, and the Feishu pipeline when one is configured. *)
Class WorkflowRuntime (D : Type) := {
  runtime_wake : D -> Workflow -> WorkflowWakeAction -> result unit * D;
  runtime_feishu : option (D -> pydict -> result unit * D);
}.

(** The kind of the case to wake: from the message, or the stored case. *)
Definition case_kind_of (x : ExecDb) (action : WorkflowWakeAction) : result string :=
  let case_kind := strip (py_str (py_or (dict_get (wa_message action) "case_kind") (VStr ""))) in
  if nonempty case_kind then Ok case_kind
  else
    let! case_id := UUID_of (wa_workflow_id action) in
    let! found := get_case x case_id in
    Ok (match found with Some c => c_case_kind c | None => "" end).

Section runtime.
Context {D : Type} `{WorkflowRuntime D}.

Definition execute_outbox_action (x : ExecDb) (action : WorkflowWakeAction) (d : D) : result unit * D :=
  match case_kind_of x action with
  | Err e => (Err e, d)
  | Ok case_kind =>
      match workflow_for case_kind with
      | None => (raise ValueError ("no DBOS workflow for case kind '" +:+ case_kind +:+ "'"), d)
      | Some workflow => runtime_wake d workflow action
      end
  end.

Definition dispatch_outbox_event (x : ExecDb) (event : OutboxEvent) (d : D) : result unit * D :=
  if bool_decide (ox_event_type event = FEISHU_INTAKE_EVENT_TYPE) then
    match runtime_feishu with
    | None => (raise ValueError "Feishu intake processor is not configured", d)
    | Some process =>
        match plan_feishu_inbox_action event with
        | Err e => (Err e, d)
        | Ok action => process d (fi_payload action)
        end
    end
  else
    match plan_outbox_action event with
    | Err e => (Err e, d)
    | Ok action => execute_outbox_action x action d
    end.

(** ** One pass of the worker *)

(** The outbox, the runtime, the readings of the clock, and the dispatches
    made with their outcome. *)
Record Relay := mkRelay {
  rl_outbox : OutboxDb;
  rl_runtime : D;
  rl_ticks : nat;
  rl_trace : list (uuid * bool);
}.

Context (clock : nat -> instant) (x : ExecDb).

Definition relay_event (max_attempts : Z) (event : OutboxEvent) (w : Relay) : bool * Relay :=
  let '(r, d) := dispatch_outbox_event x event (rl_runtime w) in
  match r with
  | Err e =>
      let db := snd (mark_retry (rl_outbox w) (ox_event_id event) (exn_msg e) max_attempts (clock (rl_ticks w))) in
      (false, mkRelay db d (S (rl_ticks w)) (rl_trace w ++ [(ox_event_id event, false)]))
  | Ok _ =>
      (true, mkRelay (mark_dispatched (rl_outbox w) (ox_event_id event)) d (rl_ticks w)
               (rl_trace w ++ [(ox_event_id event, true)]))
  end.

Fixpoint relay_events (max_attempts : Z) (events : list OutboxEvent) (dispatched failed : nat) (w : Relay)
  : nat * nat * Relay :=
  match events with
  | [] => (dispatched, failed, w)
  | event :: rest =>
      let '(ok, w') := relay_event max_attempts event w in
      if ok : bool then relay_events max_attempts rest (S dispatched) failed w'
      else relay_events max_attempts rest dispatched (S failed) w'
  end.

Definition relay_once (outbox_batch : nat) (outbox_lease_seconds outbox_max_attempts : Z) (w : Relay)
  : (nat * nat * nat) * Relay :=
  let '(recovered, db) := recover_expired_leases (rl_outbox w) outbox_batch (clock (rl_ticks w)) in
  let '(events, db) := claim_outbox db outbox_batch outbox_lease_seconds (clock (S (rl_ticks w))) in
  let '(dispatched, failed, w') := relay_events outbox_max_attempts events 0 0
    (mkRelay db (rl_runtime w) (S (S (rl_ticks w))) (rl_trace w)) in
  ((recovered, dispatched, failed), w').
End runtime.
End relay.
Arguments Relay : clear implicits.

(** ** Batches *)

Section batches.
Context (f : OutboxEventRow -> OutboxEventRow).

Lemma update_rows_lookup rows db k :
  keyed oe_event_id (ox_events db) ->
  (forall r, r ∈ rows -> ox_events db !! oe_event_id r = Some r) ->
  ox_events (update_rows f rows db) !! k =
    if bool_decide (k ∈ oe_event_id <$> rows) then f <$> ox_events db !! k else ox_events db !! k.
Proof.
  unfold update_rows. cbn. intros _ Hrows.
  assert (Hfold : forall l (t : gmap uuid OutboxEventRow), (forall r, r ∈ l -> ox_events db !! oe_event_id r = Some r) ->
    fold_left (fun t row => <[oe_event_id row := f row]> t) l t !! k =
      if bool_decide (k ∈ oe_event_id <$> l) then f <$> ox_events db !! k else t !! k).
  { clear rows Hrows. intros l. induction l as [|r l IH]; intros t Hl; cbn; [by rewrite bool_decide_eq_false_2 by apply not_elem_of_nil|].
    rewrite IH by (intros r' Hr'; apply Hl; by right). case_bool_decide as Hk.
    - by rewrite bool_decide_eq_true_2 by by right.
    - destruct (decide (k = oe_event_id r)) as [->|Hne].
      + rewrite lookup_insert_eq, bool_decide_eq_true_2 by left. by rewrite (Hl r) by left.
      + rewrite lookup_insert_ne by done. rewrite bool_decide_eq_false_2; [done|].
        intros [?|?]%elem_of_cons; done. }
  by apply Hfold.
Qed.
End batches.

Lemma select_batch_in P batch db r :
  keyed oe_event_id (ox_events db) -> r ∈ select_batch P batch db ->
  ox_events db !! oe_event_id r = Some r /\ P r = true.
Proof.
  intros Hk Hr. apply elem_of_take in Hr as (i & Hi & _). apply list_elem_of_lookup_2 in Hi.
  apply elem_of_sort_by, elem_of_select_where in Hi as [[k Hr] HP]. by rewrite (Hk k r Hr).
Qed.

Lemma update_rows_size f P batch db :
  keyed oe_event_id (ox_events db) ->
  size (ox_events (update_rows f (select_batch P batch db) db)) = size (ox_events db).
Proof.
  intros Hk. rewrite <- !size_dom. f_equal. apply set_eq. intros k. rewrite !elem_of_dom.
  rewrite update_rows_lookup by (done || intros x Hx; by apply select_batch_in in Hx as [? _]).
  case_bool_decide; [apply fmap_is_Some|done].
Qed.

Lemma select_batch_NoDup P batch db :
  keyed oe_event_id (ox_events db) -> NoDup (oe_event_id <$> select_batch P batch db).
Proof.
  intros Hk. unfold select_batch. eapply (sublist_NoDup _ (oe_event_id <$> sort_by compare_created (select_where P (ox_events db)))).
  - rewrite sort_by_perm. by apply select_where_NoDup.
  - rewrite fmap_take. apply sublist_take.
Qed.

(** Nothing is left out of a batch that is large enough. *)
Lemma select_batch_all P batch db k r :
  ox_events db !! k = Some r -> P r = true -> (size (ox_events db) <= batch)%nat ->
  r ∈ select_batch P batch db.
Proof.
  intros Hr HP Hb. unfold select_batch. rewrite take_ge.
  - apply elem_of_sort_by, elem_of_select_where. by split; [exists k|].
  - rewrite length_sort_by. unfold select_where.
    etrans; [apply List.filter_length_le|]. by rewrite length_fmap, length_map_to_list.
Qed.

(** ** Histories *)

Inductive outbox_label :=
  | Emitted (id : uuid)
  | Recovered (now : instant)
  | Claimed (now : instant)
  | Dispatched (id : uuid)
  | Retried (id : uuid) (now : instant)
  | Replayed (id : uuid).

(** One transaction of a producer, of a worker or of an operator. *)
Inductive outbox_step (max_attempts : Z) : outbox_label -> OutboxDb -> OutboxDb -> Prop :=
  | step_emit db event_type aggregate_id payload id now db'
      (Hs : emit_outbox db event_type aggregate_id payload id now = Ok db') :
      outbox_step max_attempts (Emitted id) db db'
  | step_recover db batch now :
      outbox_step max_attempts (Recovered now) db (snd (recover_expired_leases db batch now))
  | step_claim db batch lease now :
      outbox_step max_attempts (Claimed now) db (snd (claim_outbox db batch lease now))
  | step_dispatched db id : outbox_step max_attempts (Dispatched id) db (mark_dispatched db id)
  | step_retry db id error now :
      outbox_step max_attempts (Retried id now) db (snd (mark_retry db id error max_attempts now))
  | step_replay db id reason actor audit_id now r db'
      (Hs : replay_failed_outbox db id reason actor audit_id now = Ok (r, db')) :
      outbox_step max_attempts (Replayed id) db db'.

Inductive outbox_run (max_attempts : Z) : list outbox_label -> OutboxDb -> OutboxDb -> Prop :=
  | run_none db : outbox_run max_attempts [] db db
  | run_then l ls db db1 db' : outbox_step max_attempts l db db1 -> outbox_run max_attempts ls db1 db' ->
      outbox_run max_attempts (l :: ls) db db'.

(** What one transaction may do to one row. *)
Inductive row_step (max_attempts : Z) (r : OutboxEventRow) : outbox_label -> OutboxEventRow -> Prop :=
  | row_same l : row_step max_attempts r l r
  | row_recovered now : lease_expired now r = true ->
      row_step max_attempts r (Recovered now) (returned_to_pending r)
  | row_leased now until : claimable now r = true -> row_step max_attempts r (Claimed now) (leased until r)
  | row_dispatched :
      row_step max_attempts r (Dispatched (oe_event_id r))
        (with_delivery r OUTBOX_DISPATCHED (oe_attempts r) (oe_next_attempt_at r) None None)
  | row_retried error now :
      row_step max_attempts r (Retried (oe_event_id r) now) (retried r error max_attempts now)
  | row_replayed error : oe_status r = OUTBOX_FAILED ->
      row_step max_attempts r (Replayed (oe_event_id r)) (with_delivery r OUTBOX_PENDING 0 None None error).

Definition new_row (r : OutboxEventRow) : Prop :=
  oe_status r = OUTBOX_PENDING /\ oe_attempts r = 0 /\ oe_lease_until r = None /\ oe_next_attempt_at r = None.

(** A transaction row by row: each old row is kept or changed as above, a new
    row is a fresh pending event. *)
Definition rows_step (max_attempts : Z) (l : outbox_label) (db db' : OutboxDb) : Prop :=
  forall k, match ox_events db !! k with
            | Some r => exists r', ox_events db' !! k = Some r' /\ row_step max_attempts r l r' /\ oe_event_id r' = k
            | None => forall r', ox_events db' !! k = Some r' -> new_row r' /\ oe_event_id r' = k
            end.

Section steps.
Context (max_attempts : Z).

Lemma update_rows_step l f P batch db :
  keyed oe_event_id (ox_events db) ->
  (forall r, P r = true -> row_step max_attempts r l (f r) /\ oe_event_id (f r) = oe_event_id r) ->
  rows_step max_attempts l db (update_rows f (select_batch P batch db) db).
Proof.
  intros Hk Hf k. rewrite update_rows_lookup by (done || intros r Hr; by apply select_batch_in in Hr as [? _]).
  case_bool_decide as Hin.
  - apply list_elem_of_fmap in Hin as (r & -> & Hr). apply select_batch_in in Hr as [Hr HP]; [|done].
    rewrite Hr. destruct (Hf r HP). by exists (f r).
  - destruct (ox_events db !! k) as [r|] eqn:Hr; [|done]. exists r. split_and!; [done|constructor|by apply Hk].
Qed.

Lemma insert_step l id r0 r' db replays :
  keyed oe_event_id (ox_events db) -> ox_events db !! id = Some r0 ->
  row_step max_attempts r0 l r' -> oe_event_id r' = id ->
  rows_step max_attempts l db (mkOutboxDb (<[id := r']> (ox_events db)) replays).
Proof.
  intros Hk Hr0 Hstep Hid k. cbn. destruct (decide (k = id)) as [->|Hne].
  - rewrite Hr0, lookup_insert_eq. by exists r'.
  - rewrite lookup_insert_ne by done. destruct (ox_events db !! k) as [r|] eqn:Hr; [|done].
    exists r. split_and!; [done|constructor|by apply Hk].
Qed.

Lemma same_step l db : keyed oe_event_id (ox_events db) -> rows_step max_attempts l db db.
Proof.
  intros Hk k. destruct (ox_events db !! k) as [r|] eqn:Hr; [|done].
  exists r. split_and!; [done|constructor|by apply Hk].
Qed.

Lemma step_rows l db db' :
  keyed oe_event_id (ox_events db) -> outbox_step max_attempts l db db' -> rows_step max_attempts l db db'.
Proof.
  intros Hk. destruct 1.
  - unfold emit_outbox in Hs. inv_ok. subst db'. apply db_add_Ok in E as [Hnew ->]. intros k. cbn.
    destruct (decide (k = id)) as [->|Hne].
    + rewrite Hnew, lookup_insert_eq. by intros r' [= <-].
    + rewrite lookup_insert_ne by done. destruct (ox_events db !! k) as [r|] eqn:Hr; [|done].
      exists r. split_and!; [done|constructor|by apply Hk].
  - apply update_rows_step; [done|]. intros r HP. by split; [constructor|].
  - apply update_rows_step; [done|]. intros r HP. by split; [constructor|].
  - unfold mark_dispatched. destruct (ox_events db !! id) as [r|] eqn:Hr; [|by apply same_step].
    pose proof (Hk id r Hr) as <-. by eapply insert_step; [|exact Hr|constructor|].
  - unfold mark_retry. destruct (ox_events db !! id) as [r|] eqn:Hr; [|by apply same_step].
    pose proof (Hk id r Hr) as <-. eapply insert_step; [done|exact Hr|constructor|].
    unfold retried. by case_match.
  - unfold replay_failed_outbox in Hs. inv_ok. destruct (ox_events db !! id) as [r0|] eqn:Hr; [|done].
    inv_ok. propify. subst db'. pose proof (Hk id r0 Hr) as <-.
    eapply insert_step; [done|exact Hr|by constructor|done].
Qed.

Lemma rows_step_keyed l db db' :
  rows_step max_attempts l db db' -> keyed oe_event_id (ox_events db').
Proof.
  intros Hs k r Hr. specialize (Hs k). destruct (ox_events db !! k) as [r0|].
  - destruct Hs as (r' & Hr' & _ & Hid). congruence.
  - by apply Hs.
Qed.
End steps.

(** ** Invariants *)

Definition open_event (r : OutboxEventRow) : Prop :=
  oe_status r = OUTBOX_PENDING \/ oe_status r = OUTBOX_PROCESSING.

(** A processing event carries a lease and no other does, and an event still to
    be delivered has attempts left. *)
Record row_ok (max_attempts : Z) (r : OutboxEventRow) : Prop := {
  ok_lease : oe_status r = OUTBOX_PROCESSING <-> oe_lease_until r <> None;
  ok_attempts : open_event r -> oe_attempts r < max_attempts;
}.

Record outbox_wf (max_attempts : Z) (db : OutboxDb) : Prop := {
  wf_keyed : keyed oe_event_id (ox_events db);
  wf_rows : forall k r, ox_events db !! k = Some r -> row_ok max_attempts r;
}.

(** What an event says, as opposed to how its delivery stands. *)
Definition content (r : OutboxEventRow) :=
  (oe_event_id r, oe_event_type r, oe_aggregate_id r, oe_payload r, oe_created_at r).

Section invariants.
Context (max_attempts : Z) (Hmax : 0 < max_attempts).

Lemma row_step_ok r l r' : row_ok max_attempts r -> row_step max_attempts r l r' -> row_ok max_attempts r'.
Proof.
  intros [Hl Ha]. unfold open_event in Ha. destruct 1; [done|..]; split; unfold open_event; cbn; try done.
  - intros _. apply Ha. unfold lease_expired in *. propify. by right.
  - intros _. apply Ha. unfold claimable in *. propify. by left.
  - naive_solver.
  - unfold retried. case_match; cbn; naive_solver.
  - unfold retried. case_match eqn:Hm; cbn; [naive_solver|]. propify. done.
Qed.

Lemma new_row_ok r : new_row r -> row_ok max_attempts r.
Proof. intros (Hs & Ha & Hl & _). split; [rewrite Hs, Hl; naive_solver|by rewrite Ha]. Qed.

Lemma row_step_content r l r' : row_step max_attempts r l r' -> content r' = content r.
Proof. destruct 1; try done. unfold retried. by case_match. Qed.

Lemma step_wf l db db' :
  outbox_wf max_attempts db -> outbox_step max_attempts l db db' -> outbox_wf max_attempts db'.
Proof.
  intros [Hk Hok] Hs%step_rows; [|done]. split; [by eapply rows_step_keyed|]. intros k r' Hr'.
  specialize (Hs k). destruct (ox_events db !! k) as [r|] eqn:Hr.
  - destruct Hs as (r1 & Hr1 & Hstep & _). rewrite Hr' in Hr1. injection Hr1 as ->.
    eapply row_step_ok; [by apply (Hok k)|done].
  - by apply new_row_ok, Hs.
Qed.

Lemma run_wf ls db db' :
  outbox_wf max_attempts db -> outbox_run max_attempts ls db db' -> outbox_wf max_attempts db'.
Proof. intros Hwf Hrun. induction Hrun; eauto using step_wf. Qed.

Lemma run_keeps ls db db' k r :
  outbox_wf max_attempts db -> outbox_run max_attempts ls db db' -> ox_events db !! k = Some r ->
  exists r', ox_events db' !! k = Some r' /\ content r' = content r.
Proof.
  intros Hwf Hrun. revert r Hwf. induction Hrun as [db|l ls db db1 db' Hstep Hrun IH]; intros r Hwf Hr; [eauto|].
  pose proof (step_rows _ _ _ _ (wf_keyed _ _ Hwf) Hstep k) as Hk. rewrite Hr in Hk.
  destruct Hk as (r1 & Hr1 & Hs & _). destruct (IH r1) as (r' & Hr' & Hc); [by eapply step_wf|done|].
  exists r'. split; [done|]. by rewrite Hc, (row_step_content _ _ _ Hs).
Qed.

(** An event is due again: its lease is over and its delay has passed. *)
Definition due (now : instant) (r : OutboxEventRow) : Prop :=
  (forall t, oe_lease_until r = Some t -> t < now) /\
  (forall t, oe_next_attempt_at r = Some t -> t <= now).

Lemma recovered_claimable now r :
  row_ok max_attempts r -> open_event r -> due now r ->
  claimable now (if lease_expired now r then returned_to_pending r else r) = true.
Proof.
  intros [Hl _] Ho [Hlease Hnext].
  assert (Hn : match oe_next_attempt_at r with Some t => t <=? now | None => true end = true).
  { destruct (oe_next_attempt_at r) as [t|]; [|done]. by apply Z.leb_le, Hnext. }
  assert (Hexp : lease_expired now r = bool_decide (oe_status r = OUTBOX_PROCESSING)).
  { unfold lease_expired. case_bool_decide as Hs; [|done]. cbn.
    destruct (oe_lease_until r) as [t|]; [by apply Z.ltb_lt, Hlease|naive_solver]. }
  rewrite Hexp. case_bool_decide as Hs; [done|]. unfold claimable. rewrite Hn.
  by rewrite bool_decide_eq_true_2 by by destruct Ho.
Qed.

(** C16: No event is lost.  After any history of producers, workers and operators
    every event is still there with its content; an event neither dispatched nor
    failed is pending, or processing under a lease; and once its lease and its
    delay are over, a pass of the worker with a batch as large as the table
    claims it again. *)
Theorem outbox_loses_nothing ls db db' k r :
  outbox_wf max_attempts db -> outbox_run max_attempts ls db db' -> ox_events db !! k = Some r ->
  exists r', ox_events db' !! k = Some r' /\ content r' = content r /\
    (oe_status r' = OUTBOX_DISPATCHED \/ oe_status r' = OUTBOX_FAILED \/ open_event r') /\
    (oe_status r' = OUTBOX_PROCESSING -> oe_lease_until r' <> None) /\
    (open_event r' -> forall now now' batch lease, due now r' -> now <= now' ->
       (size (ox_events db') <= batch)%nat ->
       k ∈ ox_event_id <$> fst (claim_outbox (snd (recover_expired_leases db' batch now)) batch lease now')).
Proof.
  intros Hwf Hrun Hr. destruct (run_keeps _ _ _ _ _ Hwf Hrun Hr) as (r' & Hr' & Hc).
  pose proof (run_wf _ _ _ Hwf Hrun) as [Hk Hok]. exists r'. split_and!; [done|done| | |].
  - destruct (oe_status r') eqn:Hs; unfold open_event; rewrite Hs; auto.
  - apply (ok_lease _ _ (Hok k r' Hr')).
  - intros Ho now now' batch lease Hdue Hle Hb. cbn [claim_outbox recover_expired_leases fst snd].
    rewrite <- list_fmap_compose.
    set (r2 := if lease_expired now r' then returned_to_pending r' else r').
    set (db2 := update_rows returned_to_pending (select_batch (lease_expired now) batch db') db').
    assert (Hr2 : ox_events db2 !! k = Some r2).
    { unfold db2. rewrite update_rows_lookup by (done || intros x Hx; by apply select_batch_in in Hx as [? _]).
      rewrite Hr'. unfold r2. destruct (lease_expired now r') eqn:Hexp.
      - rewrite bool_decide_eq_true_2; [done|]. rewrite <- (Hk k r' Hr'). apply list_elem_of_fmap_2.
        by eapply select_batch_all.
      - rewrite bool_decide_eq_false_2; [done|]. intros (x & Hx & Hin)%list_elem_of_fmap.
        apply select_batch_in in Hin as [Hin HP]; [|done]. rewrite <- Hx in Hin. congruence. }
    assert (Hid : oe_event_id r2 = k) by (unfold r2; destruct (lease_expired now r'); by apply (Hk k r' Hr')).
    assert (Hcl : claimable now' r2 = true).
    { pose proof (recovered_claimable now r' (Hok k r' Hr') Ho Hdue) as Hcl. fold r2 in Hcl.
      unfold claimable in *. propify. apply andb_true_iff. split; [by apply bool_decide_eq_true_2|].
      destruct (oe_next_attempt_at r2); [|done]. propify. apply Z.leb_le. lia. }
    apply list_elem_of_fmap. exists r2. split; [done|]. eapply select_batch_all; [exact Hr2|done|].
    unfold db2. by rewrite update_rows_size.
Qed.

(** ** Leases *)

(** A transaction that neither settles the event nor reads the clock after [until]. *)
Definition respects_lease (id : uuid) (until : instant) (l : outbox_label) : Prop :=
  match l with
  | Emitted _ => True
  | Recovered now | Claimed now => now <= until
  | Dispatched i | Retried i _ | Replayed i => i <> id
  end.

Definition held (until : instant) (r : OutboxEventRow) : Prop :=
  oe_status r = OUTBOX_PROCESSING /\ oe_lease_until r = Some until.

Lemma held_step r l r' until :
  row_step max_attempts r l r' -> respects_lease (oe_event_id r) until l -> held until r -> held until r'.
Proof.
  intros Hstep Hl [Hs Hu]. destruct Hstep; cbn in Hl; try done.
  - unfold lease_expired in *. rewrite Hu in *. propify. lia.
  - unfold claimable in *. propify. congruence.
Qed.

Lemma held_run ls db db' id until :
  outbox_wf max_attempts db -> outbox_run max_attempts ls db db' ->
  Forall (respects_lease id until) ls ->
  (exists r, ox_events db !! id = Some r /\ held until r) ->
  exists r, ox_events db' !! id = Some r /\ held until r.
Proof.
  intros Hwf Hrun. revert Hwf. induction Hrun as [db|l ls db db1 db' Hstep Hrun IH]; intros Hwf Hls Hh; [done|].
  apply Forall_cons in Hls as [Hl Hls]. destruct Hh as (r & Hr & Hh).
  pose proof (step_rows _ _ _ _ (wf_keyed _ _ Hwf) Hstep id) as Hk. rewrite Hr in Hk.
  destruct Hk as (r1 & Hr1 & Hs & _). apply IH; [by eapply step_wf|done|]. exists r1. split; [done|].
  rewrite <- (wf_keyed _ _ Hwf id r Hr) in Hl. by eapply held_step.
Qed.

Lemma claimed_event batch lease now db id :
  keyed oe_event_id (ox_events db) -> id ∈ ox_event_id <$> fst (claim_outbox db batch lease now) ->
  exists r, ox_events db !! id = Some r /\ claimable now r = true /\
    ox_events (snd (claim_outbox db batch lease now)) !! id = Some (leased (now + seconds lease) r).
Proof.
  intros Hk Hid. unfold claim_outbox in Hid |- *. cbn [fst snd] in *. rewrite <- list_fmap_compose in Hid. apply list_elem_of_fmap in Hid as (r & -> & Hr).
  destruct (select_batch_in _ _ _ _ Hk Hr) as [Hlook HP]. exists r. split_and!; [done|done|].
  rewrite update_rows_lookup by (done || intros x Hx; by apply select_batch_in in Hx as [? _]).
  change ((ox_event_id ∘ event_of) r) with (oe_event_id r). rewrite Hlook.
  rewrite bool_decide_eq_true_2; [done|]. by apply (list_elem_of_fmap_2 oe_event_id).
Qed.

(** A claim is exclusive while its lease lasts: an event claimed at [now] for
    [lease] seconds is claimed by no other worker, and not taken back, until the
    lease ends or the claim is settled, whatever the other transactions do. *)
Theorem claims_are_exclusive batch lease now db ls db' id now' batch' lease' :
  outbox_wf max_attempts db -> id ∈ ox_event_id <$> fst (claim_outbox db batch lease now) ->
  outbox_run max_attempts ls (snd (claim_outbox db batch lease now)) db' ->
  Forall (respects_lease id (now + seconds lease)) ls -> now' <= now + seconds lease ->
  id ∉ ox_event_id <$> fst (claim_outbox db' batch' lease' now').
Proof.
  intros Hwf Hid Hrun Hls Hnow Hagain.
  pose proof (step_wf _ _ _ Hwf (step_claim max_attempts db batch lease now)) as Hwf1.
  destruct (claimed_event _ _ _ _ _ (wf_keyed _ _ Hwf) Hid) as (r & _ & _ & Hl).
  destruct (held_run _ _ _ _ _ Hwf1 Hrun Hls) as (r' & Hr' & Hs & _); [by eexists|].
  destruct (claimed_event _ _ _ _ _ (wf_keyed _ _ (run_wf _ _ _ Hwf1 Hrun)) Hagain) as (r2 & Hr2 & HP & _).
  unfold claimable in HP. propify. congruence.
Qed.

(** ** Attempts *)

Definition is_retry (id : uuid) (l : outbox_label) : bool :=
  match l with Retried i _ => bool_decide (i = id) | _ => false end.

Definition not_replayed (id : uuid) (l : outbox_label) : Prop :=
  match l with Replayed i => i <> id | _ => True end.

Lemma attempts_step r l r' :
  row_step max_attempts r l r' -> not_replayed (oe_event_id r) l ->
  oe_attempts r <= oe_attempts r' /\ (is_retry (oe_event_id r) l = false -> oe_attempts r' = oe_attempts r) /\
  oe_attempts r' <= oe_attempts r + 1.
Proof.
  intros Hstep Hl. destruct Hstep; cbn in *; try (split_and!; [lia|done|lia]).
  - unfold retried. rewrite bool_decide_eq_true_2 by done. case_match; cbn; (split_and!; [lia|done|lia]).
Qed.

Lemma retry_counts db db' id now :
  outbox_wf max_attempts db -> outbox_step max_attempts (Retried id now) db db' ->
  forall r, ox_events db !! id = Some r -> exists r', ox_events db' !! id = Some r' /\ oe_attempts r' = oe_attempts r + 1.
Proof.
  intros Hwf Hstep r Hr. inversion Hstep; subst. unfold mark_retry. rewrite Hr. cbn. rewrite lookup_insert_eq.
  eexists. split; [done|]. unfold retried. by case_match.
Qed.

(** Delivery is bounded: from its emission, and as long as nobody replays it,
    the failed deliveries of an event are counted one by one, and once they
    reach [max_attempts] the event is not claimed any more. *)
Theorem attempts_are_bounded ls db db' id r now batch lease :
  outbox_wf max_attempts db -> outbox_run max_attempts ls db db' -> Forall (not_replayed id) ls ->
  ox_events db !! id = Some r -> oe_attempts r = 0 ->
  exists r', ox_events db' !! id = Some r' /\
    oe_attempts r' = Z.of_nat (length (List.filter (is_retry id) ls)) /\
    (id ∈ ox_event_id <$> fst (claim_outbox db' batch lease now) ->
     (Z.of_nat (length (List.filter (is_retry id) ls)) < max_attempts)).
Proof.
  intros Hwf Hrun Hls Hr Ha.
  assert (Hcount : exists r', ox_events db' !! id = Some r' /\
    oe_attempts r' = oe_attempts r + Z.of_nat (length (List.filter (is_retry id) ls))).
  { clear Ha. revert r Hr Hwf Hls. induction Hrun as [db|l ls db db1 db' Hstep Hrun IH]; intros r Hr Hwf Hls;
      [exists r; split; [done|cbn; lia]|].
    apply Forall_cons in Hls as [Hl Hls].
    pose proof (step_rows _ _ _ _ (wf_keyed _ _ Hwf) Hstep id) as Hk. rewrite Hr in Hk.
    destruct Hk as (r1 & Hr1 & Hs & _). rewrite <- (wf_keyed _ _ Hwf id r Hr) in Hl.
    destruct (attempts_step _ _ _ Hs Hl) as (_ & Hsame & _). rewrite (wf_keyed _ _ Hwf id r Hr) in Hsame.
    destruct (IH r1 Hr1 (step_wf _ _ _ Hwf Hstep) Hls) as (r' & Hr' & Hc). exists r'. split; [done|]. cbn.
    destruct (is_retry id l) eqn:Hret; cbn [length]; [|rewrite Hc, Hsame by done; lia].
    destruct l as [| | | |i t|]; try done. cbn in Hret. propify. subst i.
    destruct (retry_counts _ _ _ _ Hwf Hstep r Hr) as (r2 & Hr2 & Hc2). rewrite Hr1 in Hr2. injection Hr2 as <-. lia. }
  destruct Hcount as (r' & Hr' & Hc). exists r'. split; [done|]. split; [lia|]. intros Hclaim.
  pose proof (run_wf _ _ _ Hwf Hrun) as Hwf'.
  destruct (claimed_event _ _ _ _ _ (wf_keyed _ _ Hwf') Hclaim) as (r2 & Hr2 & HP & _).
  rewrite Hr' in Hr2. injection Hr2 as <-. unfold claimable in HP. propify.
  assert (oe_attempts r' < max_attempts); [|lia]. apply (wf_rows _ _ Hwf' id r' Hr'). by left.
Qed.
End invariants.

(** ** A pass of the worker *)

(** How a dispatched event ends up. *)
Definition settled (max_attempts : Z) (event : OutboxEvent) (ok : bool) (r : OutboxEventRow) : Prop :=
  if ok then oe_status r = OUTBOX_DISPATCHED
  else oe_attempts r = ox_attempts event + 1 /\
       oe_status r = if max_attempts <=? oe_attempts r then OUTBOX_FAILED else OUTBOX_PENDING.

Section pass.
Context `{Platform} {D : Type} `{WorkflowRuntime D} (clock : nat -> instant) (x : ExecDb) (max_attempts : Z).

Lemma relay_event_settles event (w : Relay D) r :
  ox_events (rl_outbox w) !! ox_event_id event = Some r -> oe_attempts r = ox_attempts event ->
  exists ok w' r' l, relay_event clock x max_attempts event w = (ok, w') /\
    rl_trace w' = rl_trace w ++ [(ox_event_id event, ok)] /\
    ox_events (rl_outbox w') !! ox_event_id event = Some r' /\ settled max_attempts event ok r' /\
    (forall k, k <> ox_event_id event -> ox_events (rl_outbox w') !! k = ox_events (rl_outbox w) !! k) /\
    outbox_step max_attempts l (rl_outbox w) (rl_outbox w').
Proof.
  intros Hr Ha. unfold relay_event. destruct (dispatch_outbox_event _ _ _) as [[u|e] d].
  - eexists true, _, _, (Dispatched (ox_event_id event)). split; [done|]. cbn [rl_trace rl_outbox].
    split; [done|]. pose proof (step_dispatched max_attempts (rl_outbox w) (ox_event_id event)) as Hstep.
    unfold mark_dispatched in *. rewrite Hr in *. cbn. rewrite lookup_insert_eq. split_and!; try done.
    intros k Hk. by apply lookup_insert_ne.
  - eexists false, _, (retried r (exn_msg e) max_attempts (clock (rl_ticks w))),
      (Retried (ox_event_id event) (clock (rl_ticks w))).
    split; [done|]. cbn [rl_trace rl_outbox]. split; [done|].
    pose proof (step_retry max_attempts (rl_outbox w) (ox_event_id event) (exn_msg e) (clock (rl_ticks w))) as Hstep.
    unfold mark_retry in *. rewrite Hr in *. cbn [snd] in *. split; [apply lookup_insert_eq|].
    split; [|split; [|exact Hstep]].
    + unfold settled, retried. rewrite Ha. destruct (max_attempts <=? ox_attempts event + 1) eqn:Hm; cbn; by rewrite Hm.
    + intros k Hk. by apply lookup_insert_ne.
Qed.

Lemma relay_events_settle events dispatched failed (w : Relay D) :
  NoDup (ox_event_id <$> events) ->
  (forall e, e ∈ events -> exists r, ox_events (rl_outbox w) !! ox_event_id e = Some r /\
     oe_attempts r = ox_attempts e) ->
  exists oks ls w',
    relay_events clock x max_attempts events dispatched failed w
      = ((dispatched + length (List.filter id oks))%nat, (failed + length (List.filter negb oks))%nat, w') /\
    length oks = length events /\ rl_trace w' = rl_trace w ++ zip (ox_event_id <$> events) oks /\
    (forall k, k ∉ ox_event_id <$> events -> ox_events (rl_outbox w') !! k = ox_events (rl_outbox w) !! k) /\
    (forall e ok, (e, ok) ∈ zip events oks ->
       exists r, ox_events (rl_outbox w') !! ox_event_id e = Some r /\ settled max_attempts e ok r) /\
    outbox_run max_attempts ls (rl_outbox w) (rl_outbox w').
Proof.
  revert dispatched failed w. induction events as [|e events IH]; intros dispatched failed w Hnd Hin.
  { exists [], [], w. cbn. rewrite !Nat.add_0_r, app_nil_r. split_and!; try done; [|constructor].
    by intros e ok ?%not_elem_of_nil. }
  cbn in Hnd. apply NoDup_cons in Hnd as [Hid Hnd]. destruct (Hin e) as (r & Hr & Ha); [left|].
  destruct (relay_event_settles e w r Hr Ha) as (ok & w1 & r1 & l & Hev & Htr & Hr1 & Hset & Hother & Hstep).
  assert (Hne : forall e', e' ∈ events -> ox_event_id e' <> ox_event_id e).
  { intros e' He' Heq. apply Hid. rewrite <- Heq. by apply list_elem_of_fmap_2. }
  destruct (IH (if ok then S dispatched else dispatched) (if ok then failed else S failed) w1 Hnd)
    as (oks & ls & w' & Hrun & Hlen & Htrace & Hrest & Hall & Hhist).
  { intros e' He'. rewrite Hother by (by apply Hne). apply Hin. by right. }
  exists (ok :: oks), (l :: ls), w'. cbn. rewrite Hev. split.
  { destruct ok; rewrite Hrun; cbn; do 2 f_equal; lia. }
  rewrite Htrace, Htr, Hlen, <- app_assoc. split_and!; try done; [..|by econstructor].
  - intros k [Hk1 Hk2]%not_elem_of_cons. by rewrite Hrest, Hother.
  - intros e' ok' [[= -> ->]|Hzip]%elem_of_cons; [|by apply Hall]. exists r1. by rewrite Hrest.
Qed.

(** C17: A pass of the worker settles everything it claims: the events it claims are
    dispatched once each and in order, a poisoned event does not stop the
    others, each ends dispatched or with one more attempt, pending or failed
    when the attempts are used up; the counts returned are those of the
    outcomes; and the pass is a history of outbox transactions. *)
Theorem relay_pass_settles batch lease (w : Relay D) :
  outbox_wf max_attempts (rl_outbox w) -> 0 < max_attempts ->
  exists recovered events oks ls w',
    relay_once clock x batch lease max_attempts w
      = ((recovered, length (List.filter id oks), length (List.filter negb oks)), w') /\
    events = fst (claim_outbox (snd (recover_expired_leases (rl_outbox w) batch (clock (rl_ticks w))))
                    batch lease (clock (S (rl_ticks w)))) /\
    NoDup (ox_event_id <$> events) /\ length oks = length events /\
    rl_trace w' = rl_trace w ++ zip (ox_event_id <$> events) oks /\
    (forall e ok, (e, ok) ∈ zip events oks ->
       exists r, ox_events (rl_outbox w') !! ox_event_id e = Some r /\ settled max_attempts e ok r) /\
    outbox_run max_attempts ls (rl_outbox w) (rl_outbox w').
Proof.
  intros Hwf Hmax. unfold relay_once.
  pose proof (step_recover max_attempts (rl_outbox w) batch (clock (rl_ticks w))) as Hs1.
  destruct (recover_expired_leases _ _ _) as [recovered db1] eqn:Hrec. cbn [snd] in *.
  pose proof (step_wf _ Hmax _ _ _ Hwf Hs1) as Hwf1.
  pose proof (step_claim max_attempts db1 batch lease (clock (S (rl_ticks w)))) as Hs2.
  assert (Hnd : NoDup (ox_event_id <$> fst (claim_outbox db1 batch lease (clock (S (rl_ticks w)))))).
  { unfold claim_outbox. cbn [fst]. rewrite <- list_fmap_compose.
    apply (select_batch_NoDup _ _ _ (wf_keyed _ _ Hwf1)). }
  assert (Hrows : forall e, e ∈ fst (claim_outbox db1 batch lease (clock (S (rl_ticks w)))) ->
    exists r, ox_events (snd (claim_outbox db1 batch lease (clock (S (rl_ticks w))))) !! ox_event_id e = Some r /\
      oe_attempts r = ox_attempts e).
  { intros e He. destruct (claimed_event batch lease (clock (S (rl_ticks w))) db1 (ox_event_id e))
      as (r & Hr & _ & Hl); [apply Hwf1|by apply list_elem_of_fmap_2|]. eexists. split; [exact Hl|]. cbn.
    unfold claim_outbox in He. cbn [fst] in He. apply list_elem_of_fmap in He as (r' & -> & Hr').
    apply select_batch_in in Hr' as [Hr' _]; [|apply Hwf1]. change (ox_event_id (event_of r')) with (oe_event_id r') in Hr.
    rewrite Hr' in Hr. by injection Hr as ->. }
  destruct (claim_outbox db1 batch lease _) as [events db2]. cbn [fst snd] in *.
  destruct (relay_events_settle events 0 0 (mkRelay db2 (rl_runtime w) (S (S (rl_ticks w))) (rl_trace w)) Hnd Hrows)
    as (oks & ls & w' & Hrun & Hlen & Htr & _ & Hall & Hhist).
  exists recovered, events, oks, (Recovered (clock (rl_ticks w)) :: Claimed (clock (S (rl_ticks w))) :: ls), w'.
  rewrite Hrun. split_and!; try done. by do 2 (econstructor; [done|]).
Qed.
End pass.
