(* ===== verification/UnitOfWork.v ===== *)
(** * Atomic case transitions, [unit_of_work.py], [fact_history.py], [ingress.py]

    The persistence boundary of case creation and of the transitions that move
    authority.  Each operation is one transaction over the case records, the
    history of fact snapshots, the ingress receipts, the authority and governance
    tables and the outbox: it commits everything it wrote or, when it raises,
    nothing.  The random id of an emitted event and the clock are arguments; the
    policy plane and the transaction records, which it only reads, are
    parameters. *)

From stdpp Require Import base gmap strings list relations.
From Stdlib Require Import ZArith Lia.
From S2P Require Import Prelude Python CPython Uuid Store Domain Policy Authority Lifecycle Obligations.
From S2P Require Import PolicyPlane Financial Persistence Transactions Governance Machine Outbox.

Open Scope Z_scope.
Open Scope orch_scope.

(** ** The history of fact snapshots *)

Record FactSnapshotHistoryRow := mkFactSnapshotHistoryRow {
  fh_snapshot : FactSnapshot;
  fh_case_id : uuid;
  fh_case_version : Z;
  fh_authority_epoch : Z;
  fh_recorded_at : instant;
}.

(** Pydantic equality of assertions and snapshots. *)
Definition assertion_eqb (a b : FactAssertion) : bool :=
  py_eq (fa_value a) (fa_value b) && bool_decide (fa_authority a = fa_authority b)
  && bool_decide (fa_source a = fa_source b) && bool_decide (fa_owner a = fa_owner b)
  && bool_decide (fa_source_ref a = fa_source_ref b) && bool_decide (fa_source_version a = fa_source_version b)
  && bool_decide (fa_observed_at a = fa_observed_at b) && bool_decide (fa_digest a = fa_digest b).

Definition assertions_eqb (a b : list (string * FactAssertion)) : bool :=
  Nat.eqb (length a) (length b)
  && forallb (fun kv => match assoc (fst kv) b with
                        | Some w => assertion_eqb (snd kv) w
                        | None => false
                        end) a.

Definition snapshot_eqb (a b : FactSnapshot) : bool :=
  bool_decide (fs_snapshot_id a = fs_snapshot_id b) && bool_decide (fs_source a = fs_source b)
  && bool_decide (fs_owner a = fs_owner b) && bool_decide (fs_authority a = fs_authority b)
  && bool_decide (fs_source_ref a = fs_source_ref b) && bool_decide (fs_source_version a = fs_source_version b)
  && bool_decide (fs_observed_at a = fs_observed_at b)
  && py_eq (VDict (fs_facts a)) (VDict (fs_facts b)) && assertions_eqb (fs_assertions a) (fs_assertions b)
  && bool_decide (fs_digest a = fs_digest b).

(** [_snapshot_from_row] validates the snapshot. *)
Definition snapshot_from_row (row : FactSnapshotHistoryRow) : result FactSnapshot :=
  assertion_values_match_flattened_facts (fh_snapshot row).

Definition persist_fact_snapshot (t : gmap uuid FactSnapshotHistoryRow) (c : AdministrativeCase) (now : instant)
  : result (gmap uuid FactSnapshotHistoryRow) :=
  match c_fact_snapshot c with
  | None => Ok t
  | Some snapshot =>
      match t !! fs_snapshot_id snapshot with
      | Some existing =>
          let! restored := snapshot_from_row existing in
          refuse negb (snapshot_eqb restored snapshot) || bool_decide (fh_case_id existing <> c_case_id c)
            with ValueError saying "fact snapshot id already exists with different semantics";;
          Ok t
      | None =>
          Ok (<[fs_snapshot_id snapshot := mkFactSnapshotHistoryRow snapshot (c_case_id c) (c_version c)
                                             (c_authority_epoch c) now]> t)
      end
  end.

Definition list_fact_snapshots (t : gmap uuid FactSnapshotHistoryRow) (case_id : uuid)
  : result (list FactSnapshot) :=
  traverse snapshot_from_row
    (sort_by (fun a b => cmp_then (Z.compare (fh_case_version a) (fh_case_version b))
                (cmp_then (Z.compare (fh_recorded_at a) (fh_recorded_at b))
                   (N.compare (fs_snapshot_id (fh_snapshot a)) (fs_snapshot_id (fh_snapshot b)))))
       (select_where (fun r => bool_decide (fh_case_id r = case_id)) t)).

(** ** Ingress receipts *)

Record IngressReceipt := mkIngressReceipt {
  ir_source_event_id : string;
  ir_request_id : uuid;
  ir_case_id : uuid;
  ir_created_at : instant;
}.

Definition persist_ingress_receipt (t : gmap string IngressReceipt) (source_event_id : string)
    (request_id case_id : uuid) (now : instant) : result (gmap string IngressReceipt) :=
  let source_event_id := strip source_event_id in
  refuse negb (nonempty source_event_id) with ValueError saying "source_event_id must not be blank";;
  match t !! source_event_id with
  | Some _ => raise DuplicateIngressEvent ("source event '" +:+ source_event_id +:+ "' already created a case")
  | None => Ok (<[source_event_id := mkIngressReceipt source_event_id request_id case_id now]> t)
  end.

Definition get_ingress_receipt (t : gmap string IngressReceipt) (source_event_id : string)
  : option IngressReceipt := t !! strip source_event_id.

(** ** The unit of work *)

Record UowDb := mkUowDb {
  u_exec : ExecDb;
  u_snapshots : gmap uuid FactSnapshotHistoryRow;
  u_ingress : gmap string IngressReceipt;
  u_authority : AuthorityDb;
  u_governance : gmap uuid GovernanceBasis;
  u_outbox : OutboxDb;
}.

(** [_EXPECTED_GOVERNANCE_CHANGE_KEYS] *)
Definition expected_governance_change_keys (c : AdministrativeCase) : list string :=
  if bool_decide (c_case_kind c = "employee-offboarding") then ["active"] else [].

Definition FactAuthority_text (s : option FactSnapshot) : pyval :=
  match s with Some s => VStr (FactAuthority_value (fs_authority s)) | None => VNone end.

Section uow.
Context `{Platform} (policies : PolicyDb) (txns : TxnDb).

(** [_require_version] *)
Definition require_version (x : ExecDb) (expected : AdministrativeCase) : result CaseRow :=
  match x_cases x !! c_case_id expected with
  | None => raise KeyError ("case " +:+ uuid_str (c_case_id expected) +:+ " not found")
  | Some row =>
      refuse bool_decide (c_version (cr_case row) <> c_version expected) with ConcurrencyConflict
        saying ("case " +:+ uuid_str (c_case_id expected) +:+ " version changed: expected "
                +:+ int_str (c_version expected) +:+ ", found " +:+ int_str (c_version (cr_case row)));;
      refuse bool_decide (c_authority_epoch (cr_case row) <> c_authority_epoch expected)
        with ConcurrencyConflict
        saying ("case " +:+ uuid_str (c_case_id expected) +:+ " authority epoch changed: expected "
                +:+ int_str (c_authority_epoch expected) +:+ ", found "
                +:+ int_str (c_authority_epoch (cr_case row)));;
      Ok row
  end.

(** [_copy_case_into_row(row, after)] *)
Definition write_case (x : ExecDb) (row : CaseRow) (after : AdministrativeCase) : ExecDb :=
  set_cases x (<[c_case_id after := copy_case_into_row row after]> (x_cases x)).

(** The wake-up of the case's workflow. *)
Definition emit_case_changed (o : OutboxDb) (after : AdministrativeCase) (cause : string) (extra : pydict)
    (event_id : uuid) (now : instant) : result OutboxDb :=
  emit_outbox o "workflow.case_changed" (uuid_str (c_case_id after))
    ([("case_id", VStr (uuid_str (c_case_id after))); ("case_kind", VStr (c_case_kind after));
      ("case_version", VInt (c_version after)); ("authority_epoch", VInt (c_authority_epoch after));
      ("status", VStr (CaseStatus_value (c_status after))); ("cause", VStr cause)] ++ extra)
    event_id now.

Definition uow_create_case (db : UowDb) (request : AdministrativeRequest) (c : AdministrativeCase)
    (source_event_id : option string) (now : instant) : result UowDb :=
  refuse bool_decide (rq_requester_principal_id request <> c_requester_principal_id c) with ValueError
    saying "request and case requester must match";;
  let x := u_exec db in
  let! requests := db_add (x_requests x) (rq_request_id request) request in
  let! cases := db_add (x_cases x) (c_case_id c) (mkCaseRow (rq_request_id request) c) in
  let! snapshots := persist_fact_snapshot (u_snapshots db) c now in
  let! ingress := match source_event_id with
                  | Some id => persist_ingress_receipt (u_ingress db) id (rq_request_id request) (c_case_id c) now
                  | None => Ok (u_ingress db)
                  end in
  Ok (mkUowDb
        (append_audit (set_cases (set_requests x requests) cases) (c_case_id c) "case.created"
           [("request_id", VStr (uuid_str (rq_request_id request))); ("source_event_id", opt_str source_event_id);
            ("case_kind", VStr (c_case_kind c)); ("case_version", VInt (c_version c));
            ("authority_epoch", VInt (c_authority_epoch c));
            ("fact_snapshot_id", opt_uuid (snapshot_id_of c));
            ("fact_authority", FactAuthority_text (c_fact_snapshot c))])
        snapshots ingress (u_authority db) (u_governance db) (u_outbox db)).

Definition policy_applied_payload (after : AdministrativeCase) (evaluation : PolicyEvaluation) : pydict :=
  [("case_version", VInt (c_version after)); ("authority_epoch", VInt (c_authority_epoch after));
   ("status", VStr (CaseStatus_value (c_status after)));
   ("policy_disposition", VStr (PolicyDisposition_value (pe_disposition evaluation)))].

Definition apply_policy_transition (db : UowDb) (before after : AdministrativeCase)
    (evaluation : PolicyEvaluation) (event_id : uuid) (now : instant) : result UowDb :=
  refuse bool_decide (c_case_id before <> c_case_id after) with ValueError
    saying "policy transition cannot change case identity";;
  refuse c_version after <=? c_version before with ValueError
    saying "policy transition must advance case version";;
  refuse bool_decide (c_authority_epoch after <> c_authority_epoch before + 1) with ValueError
    saying "policy transition must advance authority epoch exactly once";;
  refuse bool_decide (c_policy_ref after <> Some (pe_policy_ref evaluation)) with ValueError
    saying "case policy must match persisted policy evaluation";;
  let x := u_exec db in
  let! row := require_version x before in
  let x := append_policy_evaluation x (c_case_id after) (c_version after) (c_authority_epoch after) evaluation in
  let x := append_audit (write_case x row after) (c_case_id after) "case.policy_applied"
             (policy_applied_payload after evaluation) in
  let! outbox := emit_case_changed (u_outbox db) after "policy_evaluated" [] event_id now in
  Ok (mkUowDb x (u_snapshots db) (u_ingress db) (u_authority db) (u_governance db) outbox).

Definition replace_facts_and_apply_policy (db : UowDb) (before after : AdministrativeCase)
    (evaluation : PolicyEvaluation) (event_id : uuid) (now : instant) : result UowDb :=
  refuse bool_decide (c_case_id before <> c_case_id after) with ValueError
    saying "fact transition cannot change case identity";;
  match c_fact_snapshot after with
  | None => raise ValueError "fact transition requires a current fact snapshot"
  | Some snapshot =>
      refuse bool_decide (snapshot_id_of before = Some (fs_snapshot_id snapshot)) with ValueError
        saying "fact transition requires a new snapshot identity";;
      refuse c_version after <=? c_version before with ValueError
        saying "fact transition must advance case version";;
      refuse c_authority_epoch after <=? c_authority_epoch before with ValueError
        saying "fact transition must invalidate the previous authority epoch";;
      refuse bool_decide (c_policy_ref after <> Some (pe_policy_ref evaluation)) with ValueError
        saying "re-evaluated case policy must match persisted evaluation";;
      let x := u_exec db in
      let! row := require_version x before in
      let! snapshots := persist_fact_snapshot (u_snapshots db) after now in
      let x := append_policy_evaluation x (c_case_id after) (c_version after) (c_authority_epoch after) evaluation in
      let x := append_audit (write_case x row after) (c_case_id after) "facts.replaced"
        [("case_version", VInt (c_version after)); ("authority_epoch", VInt (c_authority_epoch after));
         ("fact_snapshot_id", VStr (uuid_str (fs_snapshot_id snapshot)));
         ("previous_fact_snapshot_id", opt_uuid (snapshot_id_of before));
         ("fact_authority", VStr (FactAuthority_value (fs_authority snapshot)));
         ("source", VStr (fs_source snapshot)); ("source_ref", opt_str (fs_source_ref snapshot));
         ("source_version", opt_str (fs_source_version snapshot))] in
      let x := append_audit x (c_case_id after) "case.policy_applied"
        (policy_applied_payload after evaluation ++ [("cause", VStr "facts_replaced")]) in
      let! outbox := emit_case_changed (u_outbox db) after "facts_replaced" [] event_id now in
      Ok (mkUowDb x snapshots (u_ingress db) (u_authority db) (u_governance db) outbox)
  end.

(** The guards of [apply_decision_transition]. *)
Definition check_decision (before after : AdministrativeCase) (decision : Decision)
    (organization_scope : option string) (approval : option ApprovalSatisfaction) : result unit :=
  refuse bool_decide (c_case_id before <> c_case_id after) || bool_decide (d_case_id decision <> c_case_id before)
    with ValueError saying "decision transition cannot change case identity";;
  refuse bool_decide (d_case_version decision <> c_version before) with ValueError
    saying "decision must be bound to the pre-transition case version";;
  refuse bool_decide (d_authority_epoch decision <> c_authority_epoch before) with ValueError
    saying "decision must be bound to the pre-transition authority epoch";;
  refuse bool_decide (c_version after <> c_version before + 1) with ValueError
    saying "decision transition must advance case version exactly once";;
  refuse bool_decide (c_policy_ref before <> Some (d_policy_ref decision)) with ValueError
    saying "decision must be bound to the current policy";;
  refuse bool_decide (d_decision_role decision <> None) && bool_decide (organization_scope = None)
    with ValueError saying "governed decision role requires an organization scope";;
  match approval with
  | None => Ok tt
  | Some a =>
      refuse bool_decide (as_case_id a <> c_case_id after) with ValueError
        saying "approval satisfaction belongs to a different case";;
      refuse bool_decide (as_authority_epoch a <> c_authority_epoch after) with ValueError
        saying "approval satisfaction is stale for the case authority epoch";;
      refuse bool_decide (Some (as_policy_ref a) <> c_policy_ref after) with ValueError
        saying "approval satisfaction policy is not current";;
      guard (bool_decide (d_decision_id decision ∉ as_decision_ids a)) ValueError
        "final decision must be part of approval satisfaction"
  end.

(** [organization_scope or "*"] *)
Definition scope_or_any (scope : option string) : string :=
  match scope with Some s => if nonempty s then s else "*" | None => "*" end.

(** The approval part of the transaction: satisfaction, basis and audit event. *)
Definition record_approval (x : ExecDb) (authority : AuthorityDb) (governance : gmap uuid GovernanceBasis)
    (after : AdministrativeCase) (scope : string) (approval : option ApprovalSatisfaction)
  : result (option GovernanceBasis * (ExecDb * AuthorityDb * gmap uuid GovernanceBasis)) :=
  match approval with
  | None => Ok (None, (x, authority, governance))
  | Some a =>
      let! (_, authority') := put_approval_satisfaction authority a in
      let! (basis, governance') := create_for_approval governance x authority' policies txns after a scope None
                                     (expected_governance_change_keys after) in
      Ok (Some basis,
          (append_audit x (c_case_id after) "approval.satisfied"
             [("satisfaction_id", VStr (uuid_str (as_satisfaction_id a)));
              ("decision_ids", VList ((fun i => VStr (uuid_str i)) <$> as_decision_ids a));
              ("satisfied_roles", VList (VStr <$> as_satisfied_roles a));
              ("authority_epoch", VInt (as_authority_epoch a));
              ("governance_basis_id", VStr (uuid_str (gb_basis_id basis)));
              ("governance_basis_digest", VStr (gb_basis_digest basis))],
           authority', governance'))
  end.

Definition approval_refs (approval : option ApprovalSatisfaction) (basis : option GovernanceBasis) : pydict :=
  [("approval_satisfaction_id", opt_uuid (as_satisfaction_id <$> approval));
   ("governance_basis_id", opt_uuid (gb_basis_id <$> basis))].

Definition apply_decision_transition (db : UowDb) (before after : AdministrativeCase) (decision : Decision)
    (organization_scope : option string) (approval : option ApprovalSatisfaction)
    (event_id : uuid) (now : instant) : result UowDb :=
  let! _ := check_decision before after decision organization_scope approval in
  let x := u_exec db in
  let! row := require_version x before in
  let! decisions := db_add (x_decisions x) (d_decision_id decision) decision in
  let x := set_decisions x decisions in
  let scope := scope_or_any organization_scope in
  let! authority := match d_decision_role decision with
                    | Some _ => let! (_, a) := put_decision_binding (u_authority db) decision scope in Ok a
                    | None => Ok (u_authority db)
                    end in
  let! (basis, (x, authority, governance)) :=
    record_approval x authority (u_governance db) after scope approval in
  let x := append_audit (write_case x row after) (d_case_id decision) "decision.recorded"
    [("decision_id", VStr (uuid_str (d_decision_id decision)));
     ("case_version", VInt (d_case_version decision)); ("authority_epoch", VInt (d_authority_epoch decision));
     ("principal_id", VStr (d_principal_id decision)); ("decision_role", opt_str (d_decision_role decision));
     ("disposition", VStr (DecisionDisposition_value (d_disposition decision)));
     ("policy_id", VStr (pr_policy_id (d_policy_ref decision)));
     ("policy_version", VStr (pr_version (d_policy_ref decision)))] in
  let x := append_audit x (c_case_id after) "case.decision_applied"
    ([("case_version", VInt (c_version after)); ("authority_epoch", VInt (c_authority_epoch after));
      ("status", VStr (CaseStatus_value (c_status after)));
      ("decision_id", VStr (uuid_str (d_decision_id decision)))] ++ approval_refs approval basis) in
  let! outbox := emit_case_changed (u_outbox db) after "decision_recorded"
    (("decision_id", VStr (uuid_str (d_decision_id decision))) :: approval_refs approval basis) event_id now in
  Ok (mkUowDb x (u_snapshots db) (u_ingress db) authority governance outbox).

(** ** Histories *)

(** A transaction that moves the stored case from [before] to [after]. *)
Inductive case_move (db db' : UowDb) (before after : AdministrativeCase) : Prop :=
  | move_policy evaluation event_id now
      (Hs : apply_policy_transition db before after evaluation event_id now = Ok db')
  | move_facts evaluation event_id now
      (Hs : replace_facts_and_apply_policy db before after evaluation event_id now = Ok db')
  | move_decision decision scope approval event_id now
      (Hs : apply_decision_transition db before after decision scope approval event_id now = Ok db').

Inductive uow_step (db db' : UowDb) : Prop :=
  | step_create request c source_event_id now
      (Hs : uow_create_case db request c source_event_id now = Ok db')
  | step_move before after (Hs : case_move db db' before after).
End uow.

(** ** What a transition commits *)

Lemma require_version_Ok x expected row :
  require_version x expected = Ok row ->
  x_cases x !! c_case_id expected = Some row /\ c_version (cr_case row) = c_version expected /\
  c_authority_epoch (cr_case row) = c_authority_epoch expected.
Proof.
  unfold require_version. intros Hr. destruct (x_cases x !! _) as [r|]; [|done]. inv_ok. propify. by subst.
Qed.

(** The effect of a committed move on the case table and the outbox. *)
Record moved (db db' : UowDb) (before after : AdministrativeCase) : Prop := {
  mv_case_id : c_case_id before = c_case_id after;
  mv_version : c_version before < c_version after;
  mv_row : exists row, x_cases (u_exec db) !! c_case_id before = Some row /\
    c_version (cr_case row) = c_version before /\ c_authority_epoch (cr_case row) = c_authority_epoch before /\
    x_cases (u_exec db') = <[c_case_id after := copy_case_into_row row after]> (x_cases (u_exec db));
  mv_event : exists cause extra event_id now,
    emit_case_changed (u_outbox db) after cause extra event_id now = Ok (u_outbox db');
  mv_ingress : u_ingress db' = u_ingress db;
}.

Lemma record_approval_cases `{Platform} policies txns x authority g after scope approval basis x' authority' g' :
  record_approval policies txns x authority g after scope approval = Ok (basis, (x', authority', g')) ->
  x_cases x' = x_cases x.
Proof.
  unfold record_approval. destruct approval as [a|]; intros Hr; inv_ok; [|by simplify_eq].
  destruct v as [? au]. inv_ok. destruct v as [b g1]. inv_ok. by simplify_eq.
Qed.

Lemma case_move_moved `{Platform} policies txns db db' before after :
  case_move policies txns db db' before after -> moved db db' before after.
Proof.
  destruct 1.
  - unfold apply_policy_transition in Hs. inv_ok. propify. subst db'.
    match goal with H : require_version _ _ = Ok _ |- _ => apply require_version_Ok in H as (Hr & Hv & He) end.
    split; cbn; try done; [by eexists|eauto 10].
  - unfold replace_facts_and_apply_policy in Hs. inv_ok. destruct (c_fact_snapshot after); [|done].
    inv_ok. propify. subst db'.
    match goal with H : require_version _ _ = Ok _ |- _ => apply require_version_Ok in H as (Hr & Hv & He) end.
    split; cbn; try done; [by eexists|eauto 10].
  - unfold apply_decision_transition in Hs. inv_ok.
    match goal with H : require_version _ _ = Ok _ |- _ => apply require_version_Ok in H as (Hr & Hv & He) end.
    match goal with H : record_approval _ _ _ _ _ _ _ _ = Ok ?v |- _ => destruct v as [basis [[x a] g]];
      apply record_approval_cases in H as Hc end.
    inv_ok. subst db'. unfold check_decision in *. inv_ok. propify.
    split; cbn; try done; [lia|by rewrite Hc; eexists|eauto 10].
Qed.

(** What of [after] a case row holds. *)
Definition holds_case (row : CaseRow) (after : AdministrativeCase) : Prop :=
  c_version (cr_case row) = c_version after /\ c_authority_epoch (cr_case row) = c_authority_epoch after /\
  c_status (cr_case row) = c_status after /\ c_policy_ref (cr_case row) = c_policy_ref after /\
  c_fact_snapshot (cr_case row) = c_fact_snapshot after.

Lemma uuid_str_nonempty u : nonempty (uuid_str u) = true.
Proof. reflexivity. Qed.

(** The relay's reading of an event emitted by [emit_case_changed]. *)
Lemma wake_planned `{Platform} o c cause extra event_id now o' :
  emit_case_changed o c cause extra event_id now = Ok o' ->
  exists event action, ox_events o !! event_id = None /\ o' = set_events o (<[event_id := event]> (ox_events o)) /\
    new_row event /\ plan_outbox_action (event_of event) = Ok action /\
    wa_workflow_id action = uuid_str (c_case_id c) /\
    dict_get (wa_message action) "case_version" = VInt (c_version c) /\
    dict_get (wa_message action) "authority_epoch" = VInt (c_authority_epoch c).
Proof.
  unfold emit_case_changed, emit_outbox. intros Hemit. inv_ok. subst o'. apply db_add_Ok in E as [Hnew ->].
  eexists. eexists (mkWorkflowWakeAction (uuid_str (c_case_id c)) _ _ _). split; [exact Hnew|].
  split; [done|]. split; [done|]. split.
  - unfold plan_outbox_action, event_of. cbn [ox_event_type ox_payload ox_aggregate_id ox_event_id oe_event_type
      oe_payload oe_aggregate_id oe_event_id]. rewrite bool_decide_eq_false_2 by (intros Hn; by apply Hn).
    cbn [guard rbind]. cbn [dict_get assoc app String.eqb]. unfold py_or. cbn [truthy].
    reflexivity.
  - cbn [wa_workflow_id wa_message]. split; [done|]. unfold dict_merge. cbn [fold_left fst snd].
    rewrite !dict_get_set by done. done.
Qed.

Section theorems.
Context `{Platform} (policies : PolicyDb) (txns : TxnDb).

(** A committed transition wakes the workflow: the case row holds the new state
    and in the same transaction exactly one event is added to the outbox,
    pending, and the relay plans it as the wake-up of this case with the new
    version and epoch; no other case row and no other event changes. *)
Theorem transitions_wake_the_workflow db db' before after :
  case_move policies txns db db' before after ->
  (exists row, x_cases (u_exec db') !! c_case_id before = Some row /\ holds_case row after) /\
  (forall k, k <> c_case_id before -> x_cases (u_exec db') !! k = x_cases (u_exec db) !! k) /\
  exists event_id event action,
    ox_events (u_outbox db) !! event_id = None /\
    ox_events (u_outbox db') = <[event_id := event]> (ox_events (u_outbox db)) /\
    oe_status event = OUTBOX_PENDING /\ oe_next_attempt_at event = None /\
    plan_outbox_action (event_of event) = Ok action /\
    wa_workflow_id action = uuid_str (c_case_id before) /\
    dict_get (wa_message action) "case_version" = VInt (c_version after) /\
    dict_get (wa_message action) "authority_epoch" = VInt (c_authority_epoch after).
Proof.
  intros [Hid _ (row & Hrow & _ & _ & Hcases) (cause & extra & event_id & now & Hemit) _]%case_move_moved.
  rewrite Hcases, <- Hid. split; [|split].
  - exists (copy_case_into_row row after). by rewrite lookup_insert_eq.
  - intros k Hk. by apply lookup_insert_ne.
  - apply wake_planned in Hemit as (event & action & Hnew & -> & (Hs & _ & _ & Hn) & Hplan & Hw & Hv & He).
    exists event_id, event, action. split_and!; try done. by rewrite Hid.
Qed.

Lemma uow_create_Ok db request c source now db' :
  uow_create_case db request c source now = Ok db' ->
  x_cases (u_exec db) !! c_case_id c = None /\
  x_cases (u_exec db') = <[c_case_id c := mkCaseRow (rq_request_id request) c]> (x_cases (u_exec db)) /\
  match source with
  | Some id => nonempty (strip id) = true /\ u_ingress db !! strip id = None /\
      u_ingress db' = <[strip id := mkIngressReceipt (strip id) (rq_request_id request) (c_case_id c) now]>
                        (u_ingress db)
  | None => u_ingress db' = u_ingress db
  end.
Proof.
  unfold uow_create_case. intros Hc. inv_ok. subst db'.
  match goal with H : db_add (x_cases _) _ _ = Ok _ |- _ => apply db_add_Ok in H as [Hnew ->] end.
  split; [done|]. split; [done|]. destruct source as [id|]; [|by inv_ok]. cbn.
  match goal with H : persist_ingress_receipt _ _ _ _ _ = Ok _ |- _ => unfold persist_ingress_receipt in H end.
  inv_ok. propify. destruct (u_ingress db !! strip id) eqn:Hid; [done|]. by inv_ok.
Qed.

(** Versions of a stored case never go back. *)
Lemma step_versions db db' k row :
  uow_step policies txns db db' -> x_cases (u_exec db) !! k = Some row ->
  exists row', x_cases (u_exec db') !! k = Some row' /\ c_version (cr_case row) <= c_version (cr_case row').
Proof.
  intros [request c source now Hs|before after Hs] Hk.
  - apply uow_create_Ok in Hs as (Hnew & -> & _). exists row. split; [|lia].
    rewrite lookup_insert_ne; [done|]. intros <-. congruence.
  - apply case_move_moved in Hs as [Hid Hv (r0 & Hr0 & Hver & _ & Hc) _ _]. rewrite Hc, <- Hid.
    destruct (decide (k = c_case_id before)) as [->|Hne].
    + rewrite lookup_insert_eq. eexists. split; [done|]. cbn. rewrite Hk in Hr0. injection Hr0 as ->. lia.
    + rewrite lookup_insert_ne by done. exists row. split; [done|lia].
Qed.

Lemma steps_versions db db' k row :
  rtc (uow_step policies txns) db db' -> x_cases (u_exec db) !! k = Some row ->
  exists row', x_cases (u_exec db') !! k = Some row' /\ c_version (cr_case row) <= c_version (cr_case row').
Proof.
  intros Hrun. revert row. induction Hrun as [db|db1 db2 db3 Hs _ IH]; intros row Hk; [exists row; split; [done|lia]|].
  destruct (step_versions _ _ _ _ Hs Hk) as (row1 & Hk1 & H1). destruct (IH row1 Hk1) as (row2 & Hk2 & H2).
  exists row2. split; [done|lia].
Qed.


Lemma step_receipts db db' k receipt :
  uow_step policies txns db db' -> u_ingress db !! k = Some receipt -> u_ingress db' !! k = Some receipt.
Proof.
  intros [request c source now Hs|before after Hs] Hk.
  - apply uow_create_Ok in Hs as (_ & _ & Hi). destruct source as [id|]; [|by rewrite Hi].
    destruct Hi as (_ & Hnew & ->). rewrite lookup_insert_ne; [done|]. intros <-. congruence.
  - apply case_move_moved in Hs as [_ _ _ _ Hi]. by rewrite Hi.
Qed.

(** A source event creates one case: after a creation under a source event id,
    in every later state its receipt names that request and case, under any
    spelling with surrounding blanks, and no creation under it can commit. *)
Theorem one_case_per_source_event db db1 db2 request c id now id' request' c' now' db3 :
  uow_create_case db request c (Some id) now = Ok db1 -> rtc (uow_step policies txns) db1 db2 ->
  strip id' = strip id ->
  get_ingress_receipt (u_ingress db2) id'
    = Some (mkIngressReceipt (strip id) (rq_request_id request) (c_case_id c) now) /\
  uow_create_case db2 request' c' (Some id') now' <> Ok db3.
Proof.
  intros Hc Hrun Hid. apply uow_create_Ok in Hc as (_ & _ & Hne & Hnew & Hi).
  assert (Hr : u_ingress db2 !! strip id
               = Some (mkIngressReceipt (strip id) (rq_request_id request) (c_case_id c) now)).
  { assert (Hr1 : u_ingress db1 !! strip id
              = Some (mkIngressReceipt (strip id) (rq_request_id request) (c_case_id c) now))
      by (rewrite Hi; apply lookup_insert_eq).
    clear Hi. induction Hrun as [|x y z Hs _ IH]; [done|]. by apply IH, (step_receipts x). }
  split; [unfold get_ingress_receipt; by rewrite Hid|]. intros Hc'%uow_create_Ok.
  destruct Hc' as (_ & _ & _ & Hnone & _). rewrite Hid in Hnone. congruence.
Qed.

(** The basis of an approval is about the approved state. *)
Definition basis_of_approval (b : GovernanceBasis) (c : AdministrativeCase) (a : ApprovalSatisfaction) : Prop :=
  gb_case_id b = c_case_id c /\ gb_authority_epoch b = c_authority_epoch c /\
  gb_approval_satisfaction_id b = as_satisfaction_id a /\ Some (gb_policy_ref b) = c_policy_ref c /\
  Some (gb_fact_snapshot_id b) = snapshot_id_of c.

Lemma basis_eqb_about a b :
  basis_eqb a b = true ->
  gb_basis_id a = gb_basis_id b /\ gb_case_id a = gb_case_id b /\ gb_authority_epoch a = gb_authority_epoch b /\
  gb_approval_satisfaction_id a = gb_approval_satisfaction_id b /\ gb_policy_ref a = gb_policy_ref b /\
  gb_fact_snapshot_id a = gb_fact_snapshot_id b.
Proof. unfold basis_eqb. intros Hb. by propify. Qed.

Lemma create_for_approval_stored g x auth c a scope keys expected b g' :
  create_for_approval g x auth policies txns c a scope keys expected = Ok (b, g') ->
  g' !! gb_basis_id b = Some b /\ basis_of_approval b c a.
Proof.
  unfold create_for_approval. destruct (c_fact_snapshot c) as [s|] eqn:Hs; [|done].
  destruct (c_policy_ref c) as [p|] eqn:Hp; [|done]. intros Hc. inv_ok. propify.
  assert (Hv : basis_of_approval v2 c a).
  { unfold build_basis in E2. destruct (policy_versions policies !! _); [|done]. inv_ok.
    apply GovernanceBasis_validate_Ok in E2. subst v2. unfold basis_of_approval, snapshot_id_of. rewrite Hs, Hp. done. }
  unfold put_basis in Hc. destruct (g !! gb_basis_id v2) as [row|] eqn:Hrow; inv_ok; propify; simplify_eq.
  - apply GovernanceBasis_validate_Ok in E3. subst row.
    destruct (basis_eqb_about _ _ E4) as (H1 & H2 & H3 & H4 & H5 & H6). split; [by rewrite H1|].
    unfold basis_of_approval in *. by rewrite H2, H3, H4, H5, H6.
  - split; [apply lookup_insert_eq|done].
Qed.

Lemma put_binding_stored auth d role scope b auth' :
  put_decision_binding auth d scope = Ok (b, auth') -> d_decision_role d = Some role ->
  get_decision_binding auth' (d_decision_id d) = Some b /\ dab_decision_role b = role /\
  dab_authenticated_principal_id b = d_principal_id d.
Proof.
  unfold put_decision_binding, get_decision_binding. intros Hp Hr. rewrite Hr in Hp.
  destruct (decision_bindings auth !! _) as [row|] eqn:Hrow; inv_ok; propify; simplify_eq; [done|].
  cbn. by rewrite lookup_insert_eq.
Qed.

Lemma record_approval_stored x auth g after scope a basis x' auth' g' :
  record_approval policies txns x auth g after scope (Some a) = Ok (basis, (x', auth', g')) ->
  x_decisions x' = x_decisions x /\ decision_bindings auth' = decision_bindings auth /\
  satisfactions auth' !! as_satisfaction_id a = Some a /\
  exists b, g' !! gb_basis_id b = Some b /\ basis_of_approval b after a.
Proof.
  unfold record_approval. intros Hr. inv_ok. destruct v as [a' au]. inv_ok. destruct v as [b g1]. inv_ok. simplify_eq.
  apply create_for_approval_stored in E0. split; [done|].
  unfold put_approval_satisfaction in E. destruct (satisfactions auth !! _) as [row|] eqn:Hrow; inv_ok; propify;
    simplify_eq; cbn; rewrite ?lookup_insert_eq; eauto.
Qed.

Lemma approval_commits db db' before after decision role scope a event_id now :
  apply_decision_transition policies txns db before after decision scope (Some a) event_id now = Ok db' ->
  d_decision_role decision = Some role ->
  x_decisions (u_exec db') !! d_decision_id decision = Some decision /\
  (exists binding, get_decision_binding (u_authority db') (d_decision_id decision) = Some binding /\
     dab_decision_role binding = role /\ dab_authenticated_principal_id binding = d_principal_id decision) /\
  satisfactions (u_authority db') !! as_satisfaction_id a = Some a /\
  d_decision_id decision ∈ as_decision_ids a /\
  (exists b, u_governance db' !! gb_basis_id b = Some b /\ basis_of_approval b after a) /\
  exists row, x_cases (u_exec db') !! c_case_id before = Some row /\ holds_case row after.
Proof.
  intros Hrun Hrole. pose proof Hrun as Hmove.
  apply (move_decision policies txns db db' before after decision scope (Some a) event_id now) in Hmove.
  apply case_move_moved in Hmove as [Hid _ (row & _ & _ & _ & Hc) _ _].
  unfold apply_decision_transition in Hrun. rewrite Hrole in Hrun. inv_ok.
  match goal with H : check_decision _ _ _ _ _ = _ |- _ => unfold check_decision in H end. inv_ok. propify.
  destruct v4 as [binding auth1]. inv_ok. subst v2. destruct v3 as [basis [[x auth2] g2]]. inv_ok. subst db'. cbn in *.
  apply record_approval_stored in E3 as (Hdec & Hbind & Hsat & Hbasis).
  destruct (put_binding_stored _ _ _ _ _ _ E4 Hrole) as (Hb & Hr & Hp). unfold get_decision_binding in *.
  rewrite Hdec, Hbind, Hc. cbn. apply db_add_Ok in E1 as [_ ->]. rewrite lookup_insert_eq.
  split_and!; eauto. eexists. rewrite Hid, lookup_insert_eq. by split.
Qed.

(** An approval commits as a whole: when the transaction of the deciding
    decision commits, the decision, the authority it was given under, the
    satisfaction and a governance basis about the approved case, its epoch, its
    policy and its fact snapshot are stored together with the new case state. *)
Theorem approval_commits_with_its_basis db db' before after decision role scope a event_id now :
  apply_decision_transition policies txns db before after decision scope (Some a) event_id now = Ok db' ->
  d_decision_role decision = Some role ->
  x_decisions (u_exec db') !! d_decision_id decision = Some decision /\
  (exists binding, get_decision_binding (u_authority db') (d_decision_id decision) = Some binding /\
     dab_decision_role binding = role /\ dab_authenticated_principal_id binding = d_principal_id decision) /\
  satisfactions (u_authority db') !! as_satisfaction_id a = Some a /\
  d_decision_id decision ∈ as_decision_ids a /\
  (exists b, u_governance db' !! gb_basis_id b = Some b /\ basis_of_approval b after a) /\
  exists row, x_cases (u_exec db') !! c_case_id before = Some row /\ holds_case row after.
Proof. apply approval_commits. Qed.
End theorems.
