(* ===== verification/Intake.v ===== *)
(** * Intake: candidates and their lineage,
      [intake/models.py], [intake/repository.py], [intake/service.py]

    What arrives from a provider is kept with its lineage: receipts, artifacts,
    evidence spans, interpretations, candidate facts and requests, assessments and
    promotions.  A row holds the fields of its model; reading it validates them
    again.  The tables are one record, [IntakeDb]. *)

From stdpp Require Import base gmap strings list.
From Stdlib Require Import ZArith Lia.
From S2P Require Import Prelude Python Uuid Store Domain Outbox.

Open Scope Z_scope.
Open Scope orch_scope.

(** ** Enumerations *)

Inductive IntakeVerificationStatus := IV_PENDING | IV_VERIFIED | IV_REJECTED.
Inductive InterpretationStatus := IN_PENDING | IN_SUCCEEDED | IN_FAILED | IN_INVALID.
Inductive CandidateAuthority := CA_CLAIM | CA_ATTESTED_CANDIDATE.
Inductive CandidateStatus := CR_ACTIVE | CR_SUPERSEDED | CR_ADMITTED | CR_REJECTED.
Inductive CandidateCaseUpdateStatus := CU_REQUIRES_HUMAN_REVIEW.
Inductive IntakeDisposition :=
  | ID_ADMIT | ID_NEEDS_CLARIFICATION | ID_INFORMATION_ONLY | ID_UNSUPPORTED | ID_DUPLICATE | ID_AMBIGUOUS
  | ID_REQUIRES_HUMAN_REVIEW.
Inductive AssessmentAuthority := MODEL_SUGGESTION | DETERMINISTIC_RULE | HUMAN_REVIEW.

#[global] Instance IntakeVerificationStatus_eq_dec : EqDecision IntakeVerificationStatus. Proof. solve_decision. Defined.
#[global] Instance InterpretationStatus_eq_dec : EqDecision InterpretationStatus. Proof. solve_decision. Defined.
#[global] Instance CandidateAuthority_eq_dec : EqDecision CandidateAuthority. Proof. solve_decision. Defined.
#[global] Instance CandidateStatus_eq_dec : EqDecision CandidateStatus. Proof. solve_decision. Defined.
#[global] Instance IntakeDisposition_eq_dec : EqDecision IntakeDisposition. Proof. solve_decision. Defined.
#[global] Instance AssessmentAuthority_eq_dec : EqDecision AssessmentAuthority. Proof. solve_decision. Defined.

(** ** Models *)

(** [_require_text] *)
Definition require_text (value field_name : string) : result unit :=
  guard (negb (nonempty (strip value))) ValueError (field_name +:+ " must not be blank").

Fixpoint require_texts (fields : list (string * string)) : result unit :=
  match fields with
  | [] => Ok tt
  | (value, name) :: rest => let! _ := require_text value name in require_texts rest
  end.

Record IntakeReceipt := mkIntakeReceipt {
  re_receipt_id : uuid;
  re_source_system : string;
  re_tenant_ref : string;
  re_source_event_id : string;
  re_received_at : instant;
  re_verification_status : IntakeVerificationStatus;
  re_artifact_ref : option uuid;
  re_delivery_digest : string;
}.

(** The field bounds and [validate_delivery_identity]. *)
Definition IntakeReceipt_validate (r : IntakeReceipt) : result IntakeReceipt :=
  if sized 1 128 (re_source_system r) && sized 1 512 (re_tenant_ref r) && sized 1 512 (re_source_event_id r)
     && sized 1 128 (re_delivery_digest r)
  then
    let! _ := require_texts [(re_source_system r, "source_system"); (re_tenant_ref r, "tenant_ref");
                             (re_source_event_id r, "source_event_id"); (re_delivery_digest r, "delivery_digest")] in
    Ok r
  else invalid.

Record SourceArtifact := mkSourceArtifact {
  ar_artifact_id : uuid;
  ar_source_kind : string;
  ar_source_system : string;
  ar_tenant_ref : string;
  ar_canonical_source_ref : string;
  ar_source_revision : string;
  ar_source_event_ref : string;
  ar_actor_external_identity_ref : option string;
  ar_captured_at : instant;
  ar_source_timestamp : option instant;
  ar_content_digest : string;
  ar_storage_ref : string;
  ar_mime_type : option string;
  ar_size : Z;
  ar_authenticity_class : string;
  ar_retention_class : string;
}.

Definition SourceArtifact_validate (a : SourceArtifact) : result SourceArtifact :=
  if sized 1 128 (ar_source_kind a) && sized 1 128 (ar_source_system a) && sized 1 512 (ar_tenant_ref a)
     && sized 1 1000 (ar_canonical_source_ref a) && sized 1 256 (ar_source_revision a)
     && sized 1 512 (ar_source_event_ref a) && sized_opt 1000 (ar_actor_external_identity_ref a)
     && sized 1 128 (ar_content_digest a) && sized 1 2000 (ar_storage_ref a) && sized_opt 255 (ar_mime_type a)
     && (0 <=? ar_size a) && sized 1 128 (ar_authenticity_class a) && sized 1 128 (ar_retention_class a)
  then
    let! _ := require_texts
      [(ar_source_kind a, "source_kind"); (ar_source_system a, "source_system"); (ar_tenant_ref a, "tenant_ref");
       (ar_canonical_source_ref a, "canonical_source_ref"); (ar_source_revision a, "source_revision");
       (ar_source_event_ref a, "source_event_ref"); (ar_content_digest a, "content_digest");
       (ar_storage_ref a, "storage_ref"); (ar_authenticity_class a, "authenticity_class");
       (ar_retention_class a, "retention_class")] in
    Ok a
  else invalid.

Record EvidenceSpan := mkEvidenceSpan {
  es_evidence_span_id : uuid;
  es_artifact_ref : uuid;
  es_representation_ref : option uuid;
  es_representation_digest : string;
  es_locator_kind : string;
  es_locator : pydict;
  es_extractor_ref : string;
  es_locator_digest : option string;
}.

Record InterpretationRecord := mkInterpretationRecord {
  ip_interpretation_id : uuid;
  ip_artifact_refs : list uuid;
  ip_interpretation_profile_ref : string;
  ip_model_provider : string;
  ip_model_identity : string;
  ip_model_version : string;
  ip_schema_ref : string;
  ip_interpreted_at : instant;
  ip_structured_output : pydict;
  ip_evidence_span_refs : list uuid;
  ip_response_digest : string;
  ip_status : InterpretationStatus;
}.

(** The field bounds and [validate_provenance]. *)
Definition InterpretationRecord_validate (i : InterpretationRecord) : result InterpretationRecord :=
  if negb (is_nil (ip_artifact_refs i)) && sized 1 512 (ip_interpretation_profile_ref i)
     && sized 1 128 (ip_model_provider i) && sized 1 512 (ip_model_identity i) && sized 1 256 (ip_model_version i)
     && sized 1 512 (ip_schema_ref i) && sized 1 128 (ip_response_digest i)
  then
    let! _ := require_texts
      [(ip_interpretation_profile_ref i, "interpretation_profile_ref"); (ip_model_provider i, "model_provider");
       (ip_model_identity i, "model_identity"); (ip_model_version i, "model_version"); (ip_schema_ref i, "schema_ref");
       (ip_response_digest i, "response_digest")] in
    Ok i
  else invalid.

Record CandidateFactAssertion := mkCandidateFactAssertion {
  cf_candidate_fact_id : uuid;
  cf_fact_key : string;
  cf_value : pyval;
  cf_authority : CandidateAuthority;
  cf_interpretation_ref : option uuid;
  cf_source_refs : list uuid;
  cf_evidence_span_refs : list uuid;
  cf_no_evidence_reason : option string;
  cf_extractor_ref : option string;
  cf_created_at : instant;
}.

(** The field bounds and [validate_candidate_provenance]. *)
Definition CandidateFactAssertion_validate (f : CandidateFactAssertion) : result CandidateFactAssertion :=
  if sized 1 512 (cf_fact_key f) && negb (is_nil (cf_source_refs f)) && sized_opt 2000 (cf_no_evidence_reason f)
     && sized_opt 512 (cf_extractor_ref f)
  then
    let! _ := require_text (cf_fact_key f) "fact_key" in
    refuse is_nil (cf_evidence_span_refs f) && negb (nonempty (strip (default "" (cf_no_evidence_reason f))))
      with ValueError saying "candidate fact requires evidence_span_refs or no_evidence_reason";;
    Ok f
  else invalid.

Record CandidateAdministrativeRequest := mkCandidateAdministrativeRequest {
  cq_candidate_id : uuid;
  cq_conversation_ref : string;
  cq_interpretation_refs : list uuid;
  cq_candidate_requester : string;
  cq_candidate_intent : string;
  cq_candidate_fact_refs : list uuid;
  cq_source_refs : list uuid;
  cq_created_at : instant;
  cq_supersedes_candidate_ref : option uuid;
  cq_status : CandidateStatus;
}.

#[global] Instance CandidateAdministrativeRequest_eq_dec : EqDecision CandidateAdministrativeRequest.
Proof. solve_decision. Defined.

(** The field bounds and [validate_candidate_request]. *)
Definition CandidateAdministrativeRequest_validate (c : CandidateAdministrativeRequest)
  : result CandidateAdministrativeRequest :=
  if sized 1 1000 (cq_conversation_ref c) && negb (is_nil (cq_interpretation_refs c))
     && sized 1 1000 (cq_candidate_requester c) && sized 1 2000 (cq_candidate_intent c) && negb (is_nil (cq_source_refs c))
  then
    let! _ := require_texts [(cq_conversation_ref c, "conversation_ref"); (cq_candidate_requester c, "candidate_requester");
                             (cq_candidate_intent c, "candidate_intent")] in
    Ok c
  else invalid.

Record CandidateCaseUpdate := mkCandidateCaseUpdate {
  cu_candidate_update_id : uuid;
  cu_case_id : uuid;
  cu_conversation_ref : string;
  cu_interpretation_refs : list uuid;
  cu_candidate_fact_refs : list uuid;
  cu_source_refs : list uuid;
  cu_created_at : instant;
  cu_status : CandidateCaseUpdateStatus;
}.

Record IntakeAssessment := mkIntakeAssessment {
  ia_assessment_id : uuid;
  ia_candidate_ref : uuid;
  ia_disposition : IntakeDisposition;
  ia_basis : pydict;
  ia_authority : AssessmentAuthority;
  ia_is_final : bool;
  ia_reviewer_principal_id : option string;
  ia_created_at : instant;
}.

(** The field bound and [validate_assessment_authority]. *)
Definition IntakeAssessment_validate (a : IntakeAssessment) : result IntakeAssessment :=
  if sized_opt 255 (ia_reviewer_principal_id a) then
    refuse ia_is_final a && bool_decide (ia_authority a = MODEL_SUGGESTION) with ValueError
      saying "model suggestion cannot be a final intake assessment";;
    refuse ia_is_final a && is_nil (ia_basis a) with ValueError
      saying "final intake assessment requires a non-empty basis";;
    refuse ia_is_final a && bool_decide (ia_authority a = HUMAN_REVIEW)
           && negb (nonempty (strip (default "" (ia_reviewer_principal_id a)))) with ValueError
      saying "human final assessment requires reviewer_principal_id";;
    Ok a
  else invalid.

Record PromotionRecord := mkPromotionRecord {
  pm_promotion_id : uuid;
  pm_candidate_ref : uuid;
  pm_assessment_ref : uuid;
  pm_request_id : uuid;
  pm_ingress_receipt_ref : string;
  pm_promoted_at : instant;
  pm_promotion_policy_ref : string;
}.

(** The field bounds and [validate_promotion_lineage]. *)
Definition PromotionRecord_validate (p : PromotionRecord) : result PromotionRecord :=
  if sized 1 1000 (pm_ingress_receipt_ref p) && sized 1 512 (pm_promotion_policy_ref p) then
    let! _ := require_texts [(pm_ingress_receipt_ref p, "ingress_receipt_ref");
                             (pm_promotion_policy_ref p, "promotion_policy_ref")] in
    Ok p
  else invalid.

(** ** Tables *)

Record IntakeDb := mkIntakeDb {
  it_receipts : gmap uuid IntakeReceipt;
  it_artifacts : gmap uuid SourceArtifact;
  it_spans : gmap uuid EvidenceSpan;
  it_interpretations : gmap uuid InterpretationRecord;
  it_facts : gmap uuid CandidateFactAssertion;
  it_candidates : gmap uuid CandidateAdministrativeRequest;
  it_updates : gmap uuid CandidateCaseUpdate;
  it_assessments : gmap uuid IntakeAssessment;
  it_promotions : gmap uuid PromotionRecord;
}.
Definition empty_intake_db : IntakeDb := mkIntakeDb ∅ ∅ ∅ ∅ ∅ ∅ ∅ ∅ ∅.

Definition set_receipts (d : IntakeDb) t :=
  mkIntakeDb t (it_artifacts d) (it_spans d) (it_interpretations d) (it_facts d) (it_candidates d) (it_updates d)
    (it_assessments d) (it_promotions d).
Definition set_artifacts (d : IntakeDb) t :=
  mkIntakeDb (it_receipts d) t (it_spans d) (it_interpretations d) (it_facts d) (it_candidates d) (it_updates d)
    (it_assessments d) (it_promotions d).
Definition set_spans (d : IntakeDb) t :=
  mkIntakeDb (it_receipts d) (it_artifacts d) t (it_interpretations d) (it_facts d) (it_candidates d) (it_updates d)
    (it_assessments d) (it_promotions d).
Definition set_interpretations (d : IntakeDb) t :=
  mkIntakeDb (it_receipts d) (it_artifacts d) (it_spans d) t (it_facts d) (it_candidates d) (it_updates d)
    (it_assessments d) (it_promotions d).
Definition set_facts (d : IntakeDb) t :=
  mkIntakeDb (it_receipts d) (it_artifacts d) (it_spans d) (it_interpretations d) t (it_candidates d) (it_updates d)
    (it_assessments d) (it_promotions d).
Definition set_candidates (d : IntakeDb) t :=
  mkIntakeDb (it_receipts d) (it_artifacts d) (it_spans d) (it_interpretations d) (it_facts d) t (it_updates d)
    (it_assessments d) (it_promotions d).
Definition set_updates (d : IntakeDb) t :=
  mkIntakeDb (it_receipts d) (it_artifacts d) (it_spans d) (it_interpretations d) (it_facts d) (it_candidates d) t
    (it_assessments d) (it_promotions d).
Definition set_assessments (d : IntakeDb) t :=
  mkIntakeDb (it_receipts d) (it_artifacts d) (it_spans d) (it_interpretations d) (it_facts d) (it_candidates d)
    (it_updates d) t (it_promotions d).
Definition set_promotions (d : IntakeDb) t :=
  mkIntakeDb (it_receipts d) (it_artifacts d) (it_spans d) (it_interpretations d) (it_facts d) (it_candidates d)
    (it_updates d) (it_assessments d) t.

(** A flush whose [IntegrityError] becomes [c]. *)
Definition flushed {A} (c : exn_class) (msg : string) (r : result A) : result A :=
  match r with Ok a => Ok a | Err _ => raise c msg end.

(** ** Receipts *)

Definition same_delivery (system tenant event : string) (r : IntakeReceipt) : bool :=
  bool_decide (re_source_system r = system) && bool_decide (re_tenant_ref r = tenant)
  && bool_decide (re_source_event_id r = event).

(** [select(IntakeReceiptRow).where(...).scalar_one_or_none()] *)
Definition find_receipt (d : IntakeDb) (system tenant event : string) : option IntakeReceipt :=
  head (select_where (same_delivery system tenant event) (it_receipts d)).

(** The receipt a redelivery finds, unless its digest differs. *)
Definition redelivered (existing receipt : IntakeReceipt) : result IntakeReceipt :=
  refuse bool_decide (re_delivery_digest existing <> re_delivery_digest receipt) with IntakeReceiptConflict
    saying "delivery identity was redelivered with a different digest";;
  IntakeReceipt_validate existing.

Definition persist_intake_receipt (d : IntakeDb) (receipt : IntakeReceipt) : result (IntakeReceipt * IntakeDb) :=
  match find_receipt d (re_source_system receipt) (re_tenant_ref receipt) (re_source_event_id receipt) with
  | Some existing => let! r := redelivered existing receipt in Ok (r, d)
  | None =>
      let! t := flushed IntakeReceiptConflict "delivery identity was concurrently inserted"
                  (db_add (it_receipts d) (re_receipt_id receipt) receipt) in
      Ok (receipt, set_receipts d t)
  end.

Record IntakeDeliveryAcceptance := mkIntakeDeliveryAcceptance {
  ac_receipt : IntakeReceipt;
  ac_outbox_event_id : uuid;
  ac_created : bool;
}.

Definition persist_verified_receipt_and_enqueue (d : IntakeDb) (o : OutboxDb) (receipt : IntakeReceipt)
    (event_type aggregate_id : string) (payload : pydict) (now : instant)
  : result (IntakeDeliveryAcceptance * IntakeDb * OutboxDb) :=
  refuse bool_decide (re_verification_status receipt <> IV_VERIFIED) with ValueError
    saying "only verified intake receipts may be enqueued";;
  match find_receipt d (re_source_system receipt) (re_tenant_ref receipt) (re_source_event_id receipt) with
  | Some existing =>
      let! restored := redelivered existing receipt in
      let! o' := match ox_events o !! re_receipt_id existing with
                 | Some _ => Ok o
                 | None => emit_outbox o event_type aggregate_id payload (re_receipt_id existing) now
                 end in
      Ok (mkIntakeDeliveryAcceptance restored (re_receipt_id existing) false, d, o')
  | None =>
      let! (t, o') := flushed IntakeReceiptConflict "delivery identity was concurrently inserted"
        (let! t := db_add (it_receipts d) (re_receipt_id receipt) receipt in
         let! o' := emit_outbox o event_type aggregate_id payload (re_receipt_id receipt) now in
         Ok (t, o')) in
      Ok (mkIntakeDeliveryAcceptance receipt (re_receipt_id receipt) true, set_receipts d t, o')
  end.

Definition with_artifact (r : IntakeReceipt) (artifact_id : uuid) : IntakeReceipt :=
  mkIntakeReceipt (re_receipt_id r) (re_source_system r) (re_tenant_ref r) (re_source_event_id r) (re_received_at r)
    (re_verification_status r) (Some artifact_id) (re_delivery_digest r).

Definition attach_artifact_to_receipt (d : IntakeDb) (receipt_id artifact_id : uuid) : result (IntakeReceipt * IntakeDb) :=
  match it_receipts d !! receipt_id with
  | None => raise IntakeReceiptConflict "intake receipt does not exist"
  | Some row =>
      refuse match re_artifact_ref row with Some a => bool_decide (a <> artifact_id) | None => false end
        with IntakeReceiptConflict saying "intake receipt is already linked to another artifact";;
      let! r := IntakeReceipt_validate (with_artifact row artifact_id) in
      Ok (r, set_receipts d (<[receipt_id := with_artifact row artifact_id]> (it_receipts d)))
  end.

Definition get_intake_receipt (d : IntakeDb) (source_system tenant_ref source_event_id : string)
  : result (option IntakeReceipt) :=
  match find_receipt d source_system tenant_ref source_event_id with
  | None => Ok None
  | Some row => let! r := IntakeReceipt_validate row in Ok (Some r)
  end.

(** ** Artifacts and interpretations *)

Definition append_source_artifact (d : IntakeDb) (artifact : SourceArtifact) : result (SourceArtifact * IntakeDb) :=
  match head (select_where (fun a => bool_decide (ar_source_system a = ar_source_system artifact)
                                     && bool_decide (ar_tenant_ref a = ar_tenant_ref artifact)
                                     && bool_decide (ar_canonical_source_ref a = ar_canonical_source_ref artifact)
                                     && bool_decide (ar_source_revision a = ar_source_revision artifact))
                (it_artifacts d)) with
  | Some existing =>
      refuse bool_decide (ar_content_digest existing <> ar_content_digest artifact) with SourceArtifactConflict
        saying "canonical source revision was redelivered with a different digest";;
      let! a := SourceArtifact_validate existing in
      Ok (a, d)
  | None =>
      let! t := flushed SourceArtifactConflict "canonical source revision was concurrently inserted"
                  (db_add (it_artifacts d) (ar_artifact_id artifact) artifact) in
      Ok (artifact, set_artifacts d t)
  end.

Definition interpretation_eqb (a b : InterpretationRecord) : bool :=
  bool_decide (ip_interpretation_id a = ip_interpretation_id b) && bool_decide (ip_artifact_refs a = ip_artifact_refs b)
  && bool_decide (ip_interpretation_profile_ref a = ip_interpretation_profile_ref b)
  && bool_decide (ip_model_provider a = ip_model_provider b) && bool_decide (ip_model_identity a = ip_model_identity b)
  && bool_decide (ip_model_version a = ip_model_version b) && bool_decide (ip_schema_ref a = ip_schema_ref b)
  && bool_decide (ip_interpreted_at a = ip_interpreted_at b)
  && py_eq (VDict (ip_structured_output a)) (VDict (ip_structured_output b))
  && bool_decide (ip_evidence_span_refs a = ip_evidence_span_refs b)
  && bool_decide (ip_response_digest a = ip_response_digest b) && bool_decide (ip_status a = ip_status b).

Definition append_interpretation (d : IntakeDb) (i : InterpretationRecord) : result (InterpretationRecord * IntakeDb) :=
  match it_interpretations d !! ip_interpretation_id i with
  | Some existing =>
      let! restored := InterpretationRecord_validate existing in
      refuse negb (interpretation_eqb restored i) with InterpretationConflict
        saying "interpretation identity was reused with different semantics";;
      Ok (restored, d)
  | None =>
      let! t := db_add (it_interpretations d) (ip_interpretation_id i) i in
      Ok (i, set_interpretations d t)
  end.

Definition list_interpretations (d : IntakeDb) (artifact_ref : uuid) : result (list InterpretationRecord) :=
  traverse InterpretationRecord_validate
    (select_where (fun i => bool_decide (artifact_ref ∈ ip_artifact_refs i)) (it_interpretations d)).

(** ** Candidates *)

(** [_candidate_fact_semantics(a) == _candidate_fact_semantics(b)] *)
Definition same_fact_semantics (a b : CandidateFactAssertion) : bool :=
  bool_decide (cf_candidate_fact_id a = cf_candidate_fact_id b) && bool_decide (cf_fact_key a = cf_fact_key b)
  && py_eq (cf_value a) (cf_value b) && bool_decide (cf_authority a = cf_authority b)
  && bool_decide (cf_interpretation_ref a = cf_interpretation_ref b) && bool_decide (cf_source_refs a = cf_source_refs b)
  && bool_decide (cf_evidence_span_refs a = cf_evidence_span_refs b)
  && bool_decide (cf_no_evidence_reason a = cf_no_evidence_reason b)
  && bool_decide (cf_extractor_ref a = cf_extractor_ref b).

Definition append_candidate_fact (d : IntakeDb) (f : CandidateFactAssertion) : result (CandidateFactAssertion * IntakeDb) :=
  match it_facts d !! cf_candidate_fact_id f with
  | Some existing =>
      let! restored := CandidateFactAssertion_validate existing in
      refuse negb (same_fact_semantics restored f) with CandidateConflict
        saying "candidate fact identity was reused with different semantics";;
      Ok (restored, d)
  | None =>
      let! t := db_add (it_facts d) (cf_candidate_fact_id f) f in
      Ok (f, set_facts d t)
  end.

Definition get_candidate_fact (d : IntakeDb) (fact_ref : uuid) : result (option CandidateFactAssertion) :=
  match it_facts d !! fact_ref with
  | None => Ok None
  | Some row => let! f := CandidateFactAssertion_validate row in Ok (Some f)
  end.

Definition with_candidate_state (c : CandidateAdministrativeRequest) (status : CandidateStatus)
  : CandidateAdministrativeRequest :=
  mkCandidateAdministrativeRequest (cq_candidate_id c) (cq_conversation_ref c) (cq_interpretation_refs c)
    (cq_candidate_requester c) (cq_candidate_intent c) (cq_candidate_fact_refs c) (cq_source_refs c) (cq_created_at c)
    (cq_supersedes_candidate_ref c) status.

(** [_candidate_semantics(a) == _candidate_semantics(b)]: all but the status *)
Definition same_candidate_semantics (a b : CandidateAdministrativeRequest) : bool :=
  bool_decide (with_candidate_state a CR_ACTIVE = with_candidate_state b CR_ACTIVE).

Definition append_candidate_request (d : IntakeDb) (c : CandidateAdministrativeRequest)
  : result (CandidateAdministrativeRequest * IntakeDb) :=
  match it_candidates d !! cq_candidate_id c with
  | Some existing =>
      let! restored := CandidateAdministrativeRequest_validate existing in
      refuse negb (same_candidate_semantics restored c) with CandidateConflict
        saying "candidate identity was reused with different semantics";;
      Ok (restored, d)
  | None =>
      let! t := db_add (it_candidates d) (cq_candidate_id c) c in
      Ok (c, set_candidates d t)
  end.

(** [IntakeRepository.get_candidate] *)
Definition get_candidate_request (d : IntakeDb) (candidate_ref : uuid) : result (option CandidateAdministrativeRequest) :=
  match it_candidates d !! candidate_ref with
  | None => Ok None
  | Some row => let! c := CandidateAdministrativeRequest_validate row in Ok (Some c)
  end.

(** [IntakeRepository.list_candidates] *)
Definition list_candidate_requests (d : IntakeDb) (status : option CandidateStatus) (limit : nat)
  : result (list CandidateAdministrativeRequest) :=
  traverse CandidateAdministrativeRequest_validate
    (take limit
       (sort_by (fun a b => Z.compare (cq_created_at b) (cq_created_at a))
          (select_where (fun c => match status with Some s => bool_decide (cq_status c = s) | None => true end)
             (it_candidates d)))).

Definition list_candidate_facts (d : IntakeDb) (candidate_ref : uuid) : result (list CandidateFactAssertion) :=
  let! candidate := get_candidate_request d candidate_ref in
  match candidate with
  | None => Ok []
  | Some c => traverse CandidateFactAssertion_validate (omap (fun id => it_facts d !! id) (cq_candidate_fact_refs c))
  end.

Definition append_case_update (d : IntakeDb) (u : CandidateCaseUpdate) : result (CandidateCaseUpdate * IntakeDb) :=
  let! t := db_add (it_updates d) (cu_candidate_update_id u) u in
  Ok (u, set_updates d t).

(** ** Assessments and promotions *)

(** The constraints of the table: no final model suggestion, one final assessment
    per candidate. *)
Definition append_intake_assessment (d : IntakeDb) (a : IntakeAssessment) : result (IntakeAssessment * IntakeDb) :=
  let final r := ia_is_final r && bool_decide (ia_candidate_ref r = ia_candidate_ref a) in
  refuse ia_is_final a && (bool_decide (ia_authority a = MODEL_SUGGESTION)
                           || negb (is_nil (select_where final (it_assessments d)))) with AssessmentConflict
    saying "candidate already has a different final intake assessment";;
  let! t := flushed AssessmentConflict "candidate already has a different final intake assessment"
              (db_add (it_assessments d) (ia_assessment_id a) a) in
  Ok (a, set_assessments d t).

Definition get_assessment (d : IntakeDb) (assessment_ref : uuid) : result (option IntakeAssessment) :=
  match it_assessments d !! assessment_ref with
  | None => Ok None
  | Some row => let! a := IntakeAssessment_validate row in Ok (Some a)
  end.

Definition list_intake_assessments (d : IntakeDb) (candidate_ref : uuid) : result (list IntakeAssessment) :=
  traverse IntakeAssessment_validate
    (sort_by (fun a b => Z.compare (ia_created_at a) (ia_created_at b))
       (select_where (fun a => bool_decide (ia_candidate_ref a = candidate_ref)) (it_assessments d))).

Definition find_promotion (d : IntakeDb) (candidate_ref : uuid) : option PromotionRecord :=
  head (select_where (fun p => bool_decide (pm_candidate_ref p = candidate_ref)) (it_promotions d)).
Definition request_promoted (d : IntakeDb) (request_id : uuid) : bool :=
  negb (is_nil (select_where (fun p => bool_decide (pm_request_id p = request_id)) (it_promotions d))).

Definition persist_promotion (d : IntakeDb) (p : PromotionRecord) : result (PromotionRecord * IntakeDb) :=
  match find_promotion d (pm_candidate_ref p) with
  | Some row =>
      let! existing := PromotionRecord_validate row in
      refuse bool_decide (pm_assessment_ref existing <> pm_assessment_ref p)
             || bool_decide (pm_request_id existing <> pm_request_id p)
             || bool_decide (pm_ingress_receipt_ref existing <> pm_ingress_receipt_ref p)
             || bool_decide (pm_promotion_policy_ref existing <> pm_promotion_policy_ref p)
        with PromotionConflict saying "candidate was already promoted with different lineage";;
      Ok (existing, d)
  | None =>
      refuse request_promoted d (pm_request_id p) with PromotionConflict
        saying "request was already linked to another promotion";;
      let! t := flushed PromotionConflict "candidate or request was concurrently promoted"
                  (db_add (it_promotions d) (pm_promotion_id p) p) in
      Ok (p, set_promotions d t)
  end.

Definition get_promotion (d : IntakeDb) (candidate_ref : uuid) : result (option PromotionRecord) :=
  match find_promotion d candidate_ref with
  | None => Ok None
  | Some row => let! p := PromotionRecord_validate row in Ok (Some p)
  end.

(** ** Spans and projection: digests and texts need the platform *)

Record DraftResponse := mkDraftResponse {
  dr_draft_id : uuid;
  dr_candidate_ref : uuid;
  dr_body : string;
  dr_source_refs : list uuid;
  dr_created_at : instant;
}.

Record CandidateProjection := mkCandidateProjection {
  jp_candidate : CandidateAdministrativeRequest;
  jp_facts : list CandidateFactAssertion;
  jp_draft_response : option DraftResponse;
}.

Definition DraftResponse_validate (r : DraftResponse) : result DraftResponse :=
  if sized 1 10000 (dr_body r) && negb (is_nil (dr_source_refs r)) then Ok r else invalid.

Section platform.
Context `{Platform}.

(** [_locator_digest] *)
Definition locator_digest (locator : pydict) : string := sha256_hex (json_encode (json_quote json_char_raw) (VDict locator)).

(** The field bounds and [validate_locator_digest], which fills the digest. *)
Definition EvidenceSpan_validate (s : EvidenceSpan) : result EvidenceSpan :=
  if sized 1 128 (es_representation_digest s) && sized 1 128 (es_locator_kind s) && negb (is_nil (es_locator s))
     && sized 1 512 (es_extractor_ref s)
     && match es_locator_digest s with Some g => sized 64 64 g | None => true end
  then
    let expected := locator_digest (es_locator s) in
    refuse match es_locator_digest s with Some g => bool_decide (g <> expected) | None => false end with ValueError
      saying "locator_digest does not match canonical locator";;
    let! _ := require_texts [(es_representation_digest s, "representation_digest"); (es_locator_kind s, "locator_kind");
                             (es_extractor_ref s, "extractor_ref")] in
    Ok (mkEvidenceSpan (es_evidence_span_id s) (es_artifact_ref s) (es_representation_ref s) (es_representation_digest s)
          (es_locator_kind s) (es_locator s) (es_extractor_ref s) (Some expected))
  else invalid.

Definition append_evidence_span (d : IntakeDb) (s : EvidenceSpan) : result (EvidenceSpan * IntakeDb) :=
  match head (select_where (fun r => bool_decide (es_artifact_ref r = es_artifact_ref s)
                                     && bool_decide (es_representation_digest r = es_representation_digest s)
                                     && bool_decide (es_locator_digest r = es_locator_digest s)
                                     && bool_decide (es_extractor_ref r = es_extractor_ref s))
                (it_spans d)) with
  | Some existing => let! r := EvidenceSpan_validate existing in Ok (r, d)
  | None =>
      let! t := db_add (it_spans d) (es_evidence_span_id s) s in
      Ok (s, set_spans d t)
  end.

(** ** [CandidateProjectionService]; [ids] and [clock] are what [uuid4] and
    [utcnow] give the objects, in the order they are made. *)

(** [_verified_evidence_refs] *)
Fixpoint verify_refs (trusted verified : list uuid) (raw_refs : list pyval) : result (list uuid) :=
  match raw_refs with
  | [] => Ok verified
  | raw :: rest =>
      match UUID_of (py_str raw) with
      | Err _ => raise CandidateProjectionError "evidence_span_refs must contain UUIDs"
      | Ok ref =>
          verify_refs trusted
            (if bool_decide (ref ∈ trusted) && negb (bool_decide (ref ∈ verified)) then verified ++ [ref] else verified) rest
      end
  end.
Definition verified_evidence_refs (raw_refs : pyval) (i : InterpretationRecord) : result (list uuid) :=
  match raw_refs with
  | VNone => Ok []
  | VList l => verify_refs (ip_evidence_span_refs i) [] l
  | _ => raise CandidateProjectionError "evidence_span_refs must be a list when present"
  end.

Definition project_fact (i : InterpretationRecord) (source_refs : list uuid) (id : uuid) (now : instant) (raw : pyval)
  : result CandidateFactAssertion :=
  match raw with
  | VDict raw_fact =>
      match dict_get raw_fact "fact_key" with
      | VStr fact_key =>
          refuse negb (nonempty (strip fact_key)) with CandidateProjectionError
            saying "each candidate fact requires fact_key";;
          let! evidence := verified_evidence_refs (dict_get raw_fact "evidence_span_refs") i in
          CandidateFactAssertion_validate
            (mkCandidateFactAssertion id fact_key (dict_get raw_fact "value") CA_CLAIM (Some (ip_interpretation_id i))
               source_refs evidence
               (if is_nil evidence then Some "No verified EvidenceSpan reference was supplied by the interpretation."
                else None)
               (Some "interpretation-projection-v1") now)
      | _ => raise CandidateProjectionError "each candidate fact requires fact_key"
      end
  | _ => raise CandidateProjectionError "each candidate fact must be an object"
  end.

Fixpoint project_facts (i : InterpretationRecord) (source_refs : list uuid) (ids : nat -> uuid) (clock : nat -> instant)
    (n : nat) (raws : list pyval) : result (list CandidateFactAssertion) :=
  match raws with
  | [] => Ok []
  | raw :: rest =>
      let! f := project_fact i source_refs (ids n) (clock n) raw in
      let! fs := project_facts i source_refs ids clock (S n) rest in
      Ok (f :: fs)
  end.

(** [_draft_response] *)
Definition draft_response (output : pydict) (c : CandidateAdministrativeRequest) (source_refs : list uuid) (id : uuid)
    (now : instant) : result (option DraftResponse) :=
  match dict_get output "draft_response" with
  | VNone => Ok None
  | VStr body =>
      refuse negb (nonempty (strip body)) with CandidateProjectionError
        saying "draft_response must be a non-blank string";;
      let! r := DraftResponse_validate (mkDraftResponse id (cq_candidate_id c) body source_refs now) in
      Ok (Some r)
  | _ => raise CandidateProjectionError "draft_response must be a non-blank string"
  end.

(** [CandidateProjectionService.project] *)
Definition project_candidate (i : InterpretationRecord) (conversation_ref candidate_requester : string)
    (source_refs : list uuid) (ids : nat -> uuid) (clock : nat -> instant) : result CandidateProjection :=
  refuse is_nil source_refs with CandidateProjectionError saying "candidate projection requires source_refs";;
  let output := ip_structured_output i in
  let! intent := match default (VStr "unclassified") (assoc "candidate_intent" output) with
                 | VStr s => if nonempty (strip s) then Ok s
                             else raise CandidateProjectionError "candidate_intent must be a non-blank string"
                 | _ => raise CandidateProjectionError "candidate_intent must be a non-blank string"
                 end in
  let! raw_facts := match default (VList []) (assoc "candidate_facts" output) with
                    | VList l => Ok l
                    | _ => raise CandidateProjectionError "candidate_facts must be a list when present"
                    end in
  let! facts := project_facts i source_refs ids clock 0 raw_facts in
  let n := length facts in
  let! candidate := CandidateAdministrativeRequest_validate
    (mkCandidateAdministrativeRequest (ids n) conversation_ref [ip_interpretation_id i] candidate_requester intent
       (cf_candidate_fact_id <$> facts) source_refs (clock n) None CR_ACTIVE) in
  let! draft := draft_response output candidate source_refs (ids (S n)) (clock (S n)) in
  Ok (mkCandidateProjection candidate facts draft).
End platform.
