(* ===== verification/IntakeSafety.v ===== *)
(** * Intake: deliveries and projections

    A verified delivery is recorded and handed to the outbox once; what a model's
    output projects to are claims whose evidence the interpretation already had; a
    projection that is stored is read back as it was. *)

From stdpp Require Import base gmap strings list.
From Stdlib Require Import ZArith Lia.
From S2P Require Import Prelude Python Uuid Store Domain Outbox Intake.

Open Scope Z_scope.
Open Scope orch_scope.

(** ** Deliveries *)

(** The unique constraint of the receipts, and their validity. *)
Record receipts_wf (d : IntakeDb) : Prop := {
  rw_ids : keyed re_receipt_id (it_receipts d);
  rw_unique : forall k1 k2 r1 r2, it_receipts d !! k1 = Some r1 -> it_receipts d !! k2 = Some r2 ->
    same_delivery (re_source_system r1) (re_tenant_ref r1) (re_source_event_id r1) r2 = true -> k1 = k2;
  rw_valid : forall k r, it_receipts d !! k = Some r -> IntakeReceipt_validate r = Ok r;
}.

Lemma same_delivery_true system tenant event r :
  same_delivery system tenant event r = true <->
  re_source_system r = system /\ re_tenant_ref r = tenant /\ re_source_event_id r = event.
Proof. unfold same_delivery. rewrite !andb_true_iff, !bool_decide_eq_true. naive_solver. Qed.

Lemma find_receipt_Some d system tenant event r :
  find_receipt d system tenant event = Some r ->
  (exists k, it_receipts d !! k = Some r) /\ same_delivery system tenant event r = true.
Proof.
  unfold find_receipt. intros Hf. destruct (select_where _ _) as [|q l] eqn:E; [done|]. injection Hf as ->.
  apply elem_of_select_where. rewrite E. left.
Qed.

Lemma find_receipt_None d system tenant event :
  find_receipt d system tenant event = None ->
  forall k r, it_receipts d !! k = Some r -> same_delivery system tenant event r = false.
Proof. unfold find_receipt. intros Hn. destruct (select_where _ _) eqn:E; [|done]. by apply select_where_nil. Qed.

Lemma find_receipt_stored d k r :
  receipts_wf d -> it_receipts d !! k = Some r ->
  find_receipt d (re_source_system r) (re_tenant_ref r) (re_source_event_id r) = Some r.
Proof.
  intros Hwf Hk. destruct (find_receipt _ _ _ _) as [q|] eqn:E.
  - apply find_receipt_Some in E as [[k' Hk'] Hs]. f_equal.
    assert (k = k') as <- by (by eapply rw_unique). congruence.
  - pose proof (find_receipt_None _ _ _ _ E _ _ Hk) as Hs.
    rewrite (proj2 (same_delivery_true _ _ _ _)) in Hs; done.
Qed.

Lemma receipts_grow d r :
  receipts_wf d -> IntakeReceipt_validate r = Ok r -> it_receipts d !! re_receipt_id r = None ->
  find_receipt d (re_source_system r) (re_tenant_ref r) (re_source_event_id r) = None ->
  receipts_wf (set_receipts d (<[re_receipt_id r := r]> (it_receipts d))).
Proof.
  intros [Hid Hu Hv] Hr Hnew Hnone. pose proof (find_receipt_None _ _ _ _ Hnone) as Hother. split; cbn.
  - by apply keyed_insert.
  - intros k1 k2 r1 r2 [[<- <-]|[_ H1]]%lookup_insert_Some [[<- <-]|[_ H2]]%lookup_insert_Some Hs; try done.
    + rewrite (Hother _ _ H2) in Hs. done.
    + apply same_delivery_true in Hs as (Ha & Hb & Hc). pose proof (Hother _ _ H1) as Hf.
      rewrite (proj2 (same_delivery_true _ _ _ _)) in Hf; done.
    + by eapply Hu.
  - intros k q [[<- <-]|[_ Hq]]%lookup_insert_Some; [done|by eapply Hv].
Qed.

Lemma receipt_validate_Ok r r' : IntakeReceipt_validate r = Ok r' -> r' = r.
Proof. unfold IntakeReceipt_validate. destruct (_ && _); [|done]. intros Hv. inv_ok. done. Qed.

(** What an accepted delivery leaves behind. *)
Lemma enqueue_Ok d o r event_type aggregate_id payload now acc d' o' :
  receipts_wf d -> IntakeReceipt_validate r = Ok r ->
  persist_verified_receipt_and_enqueue d o r event_type aggregate_id payload now = Ok (acc, d', o') ->
  receipts_wf d' /\ re_verification_status r = IV_VERIFIED /\
  it_receipts d' !! re_receipt_id (ac_receipt acc) = Some (ac_receipt acc) /\
  same_delivery (re_source_system r) (re_tenant_ref r) (re_source_event_id r) (ac_receipt acc) = true /\
  re_delivery_digest (ac_receipt acc) = re_delivery_digest r /\ ac_outbox_event_id acc = re_receipt_id (ac_receipt acc) /\
  is_Some (ox_events o' !! re_receipt_id (ac_receipt acc)) /\
  (if ac_created acc then ac_receipt acc = r else d' = d) /\
  (forall k e, ox_events o !! k = Some e -> ox_events o' !! k = Some e).
Proof.
  intros Hwf Hr. unfold persist_verified_receipt_and_enqueue. intros Hp. inv_ok. propify.
  destruct (find_receipt d _ _ _) as [existing|] eqn:Hf.
  - unfold redelivered in Hp. inv_ok. propify. simplify_eq. cbn.
    match goal with H : IntakeReceipt_validate _ = Ok _ |- _ => apply receipt_validate_Ok in H; subst end. apply find_receipt_Some in Hf as [[k Hk] Hs].
    pose proof (rw_ids _ Hwf _ _ Hk) as Hid. cbn in Hid. subst k.
    destruct (ox_events o !! re_receipt_id existing) as [e|] eqn:Ho.
    + inv_ok. subst. split_and!; try done.
    + unfold emit_outbox in *. inv_ok. match goal with H : db_add _ _ _ = Ok _ |- _ => apply db_add_Ok in H as [_ ->] end.
      subst. cbn.
      split_and!; try done; [rewrite lookup_insert_eq; by eexists|].
      intros k' e' Hk'. rewrite lookup_insert_ne; [done|]. intros <-. congruence.
  - unfold flushed in Hp. inv_ok. destruct (rbind _ _) as [[t o1]|] eqn:Ht; [|done]. simplify_eq. inv_ok. simplify_eq. cbn.
    unfold emit_outbox in *. inv_ok.
    repeat match goal with H : db_add _ _ _ = Ok _ |- _ => apply db_add_Ok in H as [? ->] end. simplify_eq. cbn.
    split_and!; try done; [by apply receipts_grow|apply lookup_insert_eq|by apply same_delivery_true
                          |rewrite lookup_insert_eq; by eexists|].
    intros k' e' Hk'. rewrite lookup_insert_ne; [done|]. intros <-. congruence.
Qed.

(** A verified delivery is recorded and handed over exactly once: accepting it
    stores its receipt and puts one event under the receipt's own id into the outbox;
    a redelivery of the same system, tenant and event gets the stored receipt back
    without writing anything when its digest is the same, and is refused as a
    conflict when it differs. *)
Theorem delivery_is_handed_over_once d o r event_type aggregate_id payload now acc d' o' r2 type2 aggregate2 payload2 now2 :
  receipts_wf d -> IntakeReceipt_validate r = Ok r ->
  persist_verified_receipt_and_enqueue d o r event_type aggregate_id payload now = Ok (acc, d', o') ->
  re_verification_status r2 = IV_VERIFIED ->
  same_delivery (re_source_system r) (re_tenant_ref r) (re_source_event_id r) r2 = true ->
  receipts_wf d' /\ is_Some (ox_events o' !! ac_outbox_event_id acc) /\
  get_intake_receipt d' (re_source_system r) (re_tenant_ref r) (re_source_event_id r) = Ok (Some (ac_receipt acc)) /\
  persist_verified_receipt_and_enqueue d' o' r2 type2 aggregate2 payload2 now2 =
    if bool_decide (re_delivery_digest r2 = re_delivery_digest r)
    then Ok (mkIntakeDeliveryAcceptance (ac_receipt acc) (ac_outbox_event_id acc) false, d', o')
    else raise IntakeReceiptConflict "delivery identity was redelivered with a different digest".
Proof.
  intros Hwf Hr Hp Hv2 Hs2.
  destruct (enqueue_Ok _ _ _ _ _ _ _ _ _ _ Hwf Hr Hp) as (Hwf' & _ & Hst & Hs & Hdig & Hid & [e He] & _ & _).
  pose proof (find_receipt_stored _ _ _ Hwf' Hst) as Hfind. apply same_delivery_true in Hs as (Ha & Hb & Hc), Hs2 as (Ha2 & Hb2 & Hc2).
  rewrite Ha, Hb, Hc in Hfind. pose proof (rw_valid _ Hwf' _ _ Hst) as Hval.
  split; [done|]. split; [rewrite Hid; by eexists|]. split.
  { unfold get_intake_receipt. by rewrite Hfind, Hval. }
  unfold persist_verified_receipt_and_enqueue. rewrite Hv2, (bool_decide_eq_false_2 (IV_VERIFIED <> IV_VERIFIED)) by (intros E; by apply E). cbn. rewrite Ha2, Hb2, Hc2, Hfind.
  unfold redelivered. rewrite Hdig, Hval, Hid.
  destruct (decide (re_delivery_digest r2 = re_delivery_digest r)) as [Hd|Hd].
  - rewrite (bool_decide_eq_false_2 (_ <> _)), (bool_decide_eq_true_2 (_ = _)) by congruence. cbn. by rewrite He.
  - by rewrite (bool_decide_eq_true_2 (_ <> _)), (bool_decide_eq_false_2 (_ = _)) by congruence.
Qed.

(** ** Projections *)

Section projection.
Context `{Platform}.

Lemma verify_refs_spec trusted verified raw_refs refs :
  verify_refs trusted verified raw_refs = Ok refs -> NoDup verified -> verified ⊆ trusted -> NoDup refs /\ refs ⊆ trusted.
Proof.
  revert verified. induction raw_refs as [|raw rest IH]; cbn; intros verified Hv Hnd Hsub; [by inv_ok; subst|].
  destruct (UUID_of _) as [ref|]; [|done]. eapply IH; [exact Hv| |].
  - destruct (_ && _) eqn:Hb; [|done]. propify. apply NoDup_app. split_and!; try done; [|apply NoDup_singleton].
    intros x Hx Hr%list_elem_of_singleton. by subst.
  - destruct (_ && _) eqn:Hb; [|done]. propify. intros x [Hx|Hr%list_elem_of_singleton]%elem_of_app; [by apply Hsub|by subst].
Qed.

(** A fact as the projection makes it from one entry of the model's output. *)
Record projected (i : InterpretationRecord) (source_refs : list uuid) (raw : pyval) (f : CandidateFactAssertion) : Prop := {
  pj_entry : exists entry, raw = VDict entry /\ dict_get entry "fact_key" = VStr (cf_fact_key f) /\
    cf_value f = dict_get entry "value";
  pj_claim : cf_authority f = CA_CLAIM;
  pj_origin : cf_interpretation_ref f = Some (ip_interpretation_id i) /\ cf_source_refs f = source_refs;
  pj_evidence : NoDup (cf_evidence_span_refs f) /\ cf_evidence_span_refs f ⊆ ip_evidence_span_refs i;
  pj_unsupported : cf_evidence_span_refs f = [] <-> cf_no_evidence_reason f <> None;
  pj_valid : CandidateFactAssertion_validate f = Ok f;
}.

Lemma fact_validate_Ok f f' : CandidateFactAssertion_validate f = Ok f' -> f' = f.
Proof. unfold CandidateFactAssertion_validate. destruct (_ && _); [|done]. intros Hv. inv_ok. done. Qed.

Lemma project_fact_Ok i source_refs id now raw f :
  project_fact i source_refs id now raw = Ok f -> projected i source_refs raw f /\ cf_candidate_fact_id f = id.
Proof.
  unfold project_fact. destruct raw as [| | | | | |entry]; try done. destruct (dict_get entry "fact_key") as [| | | |key| |] eqn:Hk; try done.
  intros Hp. inv_ok. pose proof (fact_validate_Ok _ _ Hp) as ->. split; [|done].
  rename v0 into refs. assert (Hev : NoDup refs /\ refs ⊆ ip_evidence_span_refs i).
  { unfold verified_evidence_refs in E0. destruct (dict_get entry "evidence_span_refs"); try done.
    - inv_ok. subst. split; [constructor|apply list_subseteq_nil].
    - eapply verify_refs_spec; [exact E0|constructor|apply list_subseteq_nil]. }
  split; cbn; try done; [by exists entry|]. by destruct refs.
Qed.

Lemma project_facts_Ok i source_refs ids clock n raws facts :
  project_facts i source_refs ids clock n raws = Ok facts ->
  Forall2 (projected i source_refs) raws facts /\ (cf_candidate_fact_id <$> facts) = ids <$> seq n (length raws).
Proof.
  revert n facts. induction raws as [|raw rest IH]; cbn; intros n facts Hp; inv_ok; subst; [by split|].
  apply project_fact_Ok in E as [Hf Hid]. apply IH in E0 as [Hfs Hids]. split; [by constructor|]. cbn. by rewrite Hid, Hids.
Qed.

Lemma candidate_validate_Ok c c' : CandidateAdministrativeRequest_validate c = Ok c' -> c' = c.
Proof. unfold CandidateAdministrativeRequest_validate. destruct (_ && _); [|done]. intros Hv. inv_ok. done. Qed.

Lemma project_candidate_Ok i conversation_ref requester source_refs ids clock p :
  project_candidate i conversation_ref requester source_refs ids clock = Ok p ->
  exists raws, default (VList []) (assoc "candidate_facts" (ip_structured_output i)) = VList raws /\
    Forall2 (projected i source_refs) raws (jp_facts p) /\
    cq_candidate_fact_refs (jp_candidate p) = (cf_candidate_fact_id <$> jp_facts p) /\
    (cf_candidate_fact_id <$> jp_facts p) = ids <$> seq 0 (length raws) /\
    cq_status (jp_candidate p) = CR_ACTIVE /\ cq_source_refs (jp_candidate p) = source_refs /\ source_refs <> [] /\
    cq_interpretation_refs (jp_candidate p) = [ip_interpretation_id i] /\
    CandidateAdministrativeRequest_validate (jp_candidate p) = Ok (jp_candidate p) /\
    forall r, jp_draft_response p = Some r -> dr_candidate_ref r = cq_candidate_id (jp_candidate p).
Proof.
  unfold project_candidate. intros Hp. inv_ok. subst p. cbn. rename v0 into intent, v1 into raws, v2 into facts, v3 into candidate, v4 into draft.
  destruct (default (VList []) _) as [| | | | |l|]; try done. injection E1 as ->. exists raws.
  apply project_facts_Ok in E2 as [Hfs Hids]. pose proof (candidate_validate_Ok _ _ E3) as ->. cbn.
  split_and!; try done; [by apply is_nil_false|].
  intros r ->. unfold draft_response in E4. destruct (dict_get _ _); try done; inv_ok; simplify_eq.
  unfold DraftResponse_validate in *. destruct (_ && _); inv_ok; by simplify_eq.
Qed.

(** Whatever a model puts into its output, a projection that succeeds yields one
    fact per entry, with the entry's key and value and the authority [CLAIM], whose
    evidence is a duplicate-free part of the spans the interpretation itself cites and
    is empty exactly when the fact says so; and an active candidate that refers to
    just these facts, this interpretation and the given sources. *)
Theorem projection_only_claims i conversation_ref requester source_refs ids clock p :
  project_candidate i conversation_ref requester source_refs ids clock = Ok p ->
  exists raws, default (VList []) (assoc "candidate_facts" (ip_structured_output i)) = VList raws /\
    Forall2 (projected i source_refs) raws (jp_facts p) /\
    cq_candidate_fact_refs (jp_candidate p) = (cf_candidate_fact_id <$> jp_facts p) /\
    (cf_candidate_fact_id <$> jp_facts p) = ids <$> seq 0 (length raws) /\
    cq_status (jp_candidate p) = CR_ACTIVE /\ cq_source_refs (jp_candidate p) = source_refs /\ source_refs <> [] /\
    cq_interpretation_refs (jp_candidate p) = [ip_interpretation_id i] /\
    CandidateAdministrativeRequest_validate (jp_candidate p) = Ok (jp_candidate p) /\
    forall r, jp_draft_response p = Some r -> dr_candidate_ref r = cq_candidate_id (jp_candidate p).
Proof. apply project_candidate_Ok. Qed.

(** ** Storing a projection *)

(** The facts one by one, then the candidate. *)
Definition store_projection (p : CandidateProjection) (d : IntakeDb) : result IntakeDb :=
  let! d := for_each (fun d f => rbind (append_candidate_fact d f) (fun '(_, d') => Ok d')) (jp_facts p) d in
  let! (_, d) := append_candidate_request d (jp_candidate p) in
  Ok d.

Lemma store_facts facts d :
  NoDup (cf_candidate_fact_id <$> facts) ->
  (forall f, f ∈ facts -> it_facts d !! cf_candidate_fact_id f = None) ->
  exists d', for_each (fun d f => rbind (append_candidate_fact d f) (fun '(_, d') => Ok d')) facts d = Ok d' /\
    it_candidates d' = it_candidates d /\
    (forall k f, it_facts d !! k = Some f -> it_facts d' !! k = Some f) /\
    forall f, f ∈ facts -> it_facts d' !! cf_candidate_fact_id f = Some f.
Proof.
  revert d. induction facts as [|f facts IH]; cbn; intros d Hnd Hnew.
  { exists d. split_and!; try done. intros f Hf. by apply not_elem_of_nil in Hf. }
  apply NoDup_cons in Hnd as [Hf Hnd]. pose proof (Hnew f ltac:(left)) as Hnf.
  unfold append_candidate_fact at 1. rewrite Hnf. unfold db_add. rewrite Hnf. cbn.
  destruct (IH (set_facts d (<[cf_candidate_fact_id f := f]> (it_facts d))) Hnd) as (d' & Hrun & Hc & Hkeep & Hall).
  { intros g Hg. cbn. rewrite lookup_insert_ne; [apply Hnew; by right|]. intros E. apply Hf. rewrite E. by apply list_elem_of_fmap_2. }
  exists d'. split_and!; try done.
  - intros k g Hk. apply Hkeep. cbn. rewrite lookup_insert_ne; [done|]. intros <-. congruence.
  - intros g [->|Hg]%elem_of_cons; [|by apply Hall]. apply Hkeep. cbn. apply lookup_insert_eq.
Qed.

End projection.
