(* ===== verification/Api.v ===== *)
(** * The case endpoints, [api.py] and [inspection.py]

    An endpoint is a function of the settings, the request and the database into
    its reply and the database it leaves: it authenticates the caller, loads the
    case, authorizes one permission on it, computes the transition and commits it
    through the unit of work.  The random ids an endpoint draws are in [ids] and
    [clock n] is its [n]-th reading of the clock.  [parse_onboarding] is the
    validation of a stored policy definition, [OnboardingPolicyDefinition.model_validate]. *)

From stdpp Require Import base gmap strings list relations.
From Stdlib Require Import ZArith Lia.
From S2P Require Import Prelude Python CPython Uuid Store Domain Policy Authority Access Lifecycle Obligations.
From S2P Require Import Completion PolicyPlane Financial Persistence Transactions Governance Machine Outbox.
From S2P Require Import UnitOfWork.

Open Scope Z_scope.
Open Scope orch_scope.

(** ** Reading the decision log, [inspection.py] *)

Definition compare_decided (a b : Decision) : comparison :=
  cmp_then (Z.compare (d_decided_at a) (d_decided_at b)) (N.compare (d_decision_id a) (d_decision_id b)).

(** [decision.model_copy(update={"decision_role": role})] *)
Definition with_decision_role (d : Decision) (role : string) : Decision :=
  mkDecision (d_decision_id d) (d_case_id d) (d_case_version d) (d_authority_epoch d) (d_principal_id d)
    (Some role) (d_disposition d) (d_rationale d) (d_policy_ref d) (d_decided_at d).

(** The role of the stored authority binding wins over the row's. *)
Definition bound_decision (auth : AuthorityDb) (d : Decision) : Decision :=
  match decision_bindings auth !! d_decision_id d with
  | Some binding => with_decision_role d (dab_decision_role binding)
  | None => d
  end.

Definition list_decisions (x : ExecDb) (auth : AuthorityDb) (case_id : uuid) : list Decision :=
  bound_decision auth <$>
    sort_by compare_decided (select_where (fun d => bool_decide (d_case_id d = case_id)) (x_decisions x)).

Definition list_authorizations (x : ExecDb) (case_id : uuid) : result (list ExecutionAuthorization) :=
  traverse ExecutionAuthorization_validate
    (sort_by (fun a b => cmp_then (Z.compare (ea_issued_at a) (ea_issued_at b))
                           (N.compare (ea_authorization_id a) (ea_authorization_id b)))
       (select_where (fun a => bool_decide (ea_case_id a = case_id)) (x_authorizations x))).

(** ** Request bodies and replies *)

Record CreateOnboardingCase := mkCreateOnboardingCase {
  cb_facts : OnboardingFacts;       (* the body's fact fields *)
  cb_channel : string;
  cb_source_event_id : option string;
}.

Record ReplaceOnboardingFacts := mkReplaceOnboardingFacts {
  rb_facts : OnboardingFacts;
  rb_attestation_ref : option string;
}.

Record RecordDecisionBody := mkRecordDecisionBody {
  db_role : option string;
  db_disposition : DecisionDisposition;
  db_rationale : string;
}.

Record OnboardingCaseResponse := mkOnboardingCaseResponse {
  or_case : AdministrativeCase;
  or_policy_evaluation : PolicyEvaluation;
}.

Record DecisionResponse := mkDecisionResponse {
  dr_decision : Decision;
  dr_case : AdministrativeCase;
  dr_approval : option ApprovalAssessment;
}.

(** [facts.model_dump(mode="json")] *)
Definition OnboardingFacts_model_dump (f : OnboardingFacts) : pydict :=
  [("employee_ref", VStr (onf_employee_ref f)); ("department_ref", opt_str (onf_department_ref f));
   ("manager_principal_id", opt_str (onf_manager_principal_id f)); ("start_date", opt_str (onf_start_date f));
   ("employment_type", opt_str (onf_employment_type f));
   ("requested_systems", VList (VStr <$> onf_requested_systems f));
   ("requires_privileged_access", VBool (onf_requires_privileged_access f))].

(** ** State *)

Record ApiDb := mkApiDb {
  a_uow : UowDb;
  a_policies : PolicyDb;
  a_txns : TxnDb;
  a_obligations : ObligationDb;
}.

Definition set_uow (db : ApiDb) (u : UowDb) : ApiDb := mkApiDb u (a_policies db) (a_txns db) (a_obligations db).

Definition a_exec (db : ApiDb) : ExecDb := u_exec (a_uow db).
Definition a_authority (db : ApiDb) : AuthorityDb := u_authority (a_uow db).

(** The ids [uuid4] gives an endpoint. *)
Record FreshIds := mkFreshIds {
  id_request : uuid; id_snapshot : uuid; id_case : uuid; id_decision : uuid; id_event : uuid;
}.

Definition handler (A : Type) : Type := ApiDb -> reply A * ApiDb.

(** A computation that only reads. *)
Definition view {A} (f : ApiDb -> reply A) : handler A := fun db => (f db, db).

Definition hbind {A B} (m : handler A) (k : A -> handler B) : handler B := fun db =>
  match m db with
  | (Reply a, db') => k a db'
  | (HTTPError c d, db') => (HTTPError c d, db')
  | (Uncaught e, db') => (Uncaught e, db')
  end.

Definition hret {A} (a : A) : handler A := view (fun _ => Reply a).

Notation "'let%' x ':=' m 'in' k" := (hbind m (fun x => k))
  (at level 200, x pattern, m at level 100, k at level 200, right associativity) : orch_scope.

(** A transaction of the unit of work: [try: tx  except <caught>: HTTPException(409)] *)
Definition commit (caught : exn_class -> bool) (tx : ApiDb -> result UowDb) : handler unit := fun db =>
  match tx db with
  | Ok u => (Reply tt, set_uow db u)
  | Err e => (answer caught 409 (Err e), db)
  end.

Definition is_class (c k : exn_class) : bool := bool_decide (k = c).

(** [except (ConcurrencyConflict, ValueError)]; [TransitionError] and
    [AuthorityError] are [ValueError]s. *)
Definition is_conflict (k : exn_class) : bool := bool_decide (k = ConcurrencyConflict) || is_ValueError k.

Section api.
Context `{Platform} `{TokenLibrary} (settings : AuthSettings)
  (parse_onboarding : pydict -> result OnboardingPolicyDefinition).

Definition h_authenticate (request : Request) (at_ : instant) : handler AuthenticatedPrincipal :=
  view (fun db => authenticate settings (a_authority db) request at_).

Definition h_authorize (actor : AuthenticatedPrincipal) (permission : AdministrativePermission)
    (c : option AdministrativeCase) (organization_scope : option string) (at_ : instant) : handler unit :=
  view (fun db => authorize (a_authority db) actor permission c organization_scope at_).

(** [_store.get_case(case_id)] with the 404 of a missing case *)
Definition h_get_case (case_id : uuid) : handler AdministrativeCase :=
  view (fun db =>
    let? found := uncaught (get_case (a_exec db) case_id) in
    match found with Some c => Reply c | None => HTTPError 404 "case not found" end).

(** The opening of every case endpoint. *)
Definition open_case (case_id : uuid) (permission : AdministrativePermission) (request : Request)
    (clock : nat -> instant) : handler (AuthenticatedPrincipal * AdministrativeCase) :=
  let% actor := h_authenticate request (clock 0%nat) in
  let% c := h_get_case case_id in
  let% _ := h_authorize actor permission (Some c) None (clock 1%nat) in
  hret (actor, c).

(** [api._case_scope] *)
Definition api_case_scope (c : AdministrativeCase) : string :=
  let facts := match c_fact_snapshot c with Some s => fs_facts s | None => [] end in
  let department := dict_get facts "department_ref" in
  if truthy department then py_str department else "*".

(** [compile_onboarding_policy] *)
Definition compile_onboarding_policy (record : PolicyVersionRecord)
  : result (PolicyRef * OnboardingPolicyDefinition) :=
  refuse bool_decide (pv_policy_id record <> "employee-onboarding") with PolicyPlaneError
    saying "record is not an employee-onboarding policy";;
  let! d := if is_nil (pv_definition record) then Ok OnboardingPolicy_default_definition
            else parse_onboarding (pv_definition record) in
  Ok (pv_policy_ref record, d).

(** [_current_onboarding_policy] *)
Definition current_onboarding_policy (at_ : instant) : handler (PolicyRef * OnboardingPolicyDefinition) :=
  view (fun db =>
    let? record := answer (is_class PolicyPlaneError) 503
                     (resolve_current (a_policies db) "employee-onboarding" at_) in
    uncaught (compile_onboarding_policy record)).

(** [_existing_onboarding_response] *)
Definition existing_onboarding_response (source_event_id requester_principal_id : string)
  : handler (option OnboardingCaseResponse) :=
  view (fun db =>
    match get_ingress_receipt (u_ingress (a_uow db)) source_event_id with
    | None => Reply None
    | Some receipt =>
        let? found := uncaught (get_case (a_exec db) (ir_case_id receipt)) in
        match found with
        | None => HTTPError 500 "ingress receipt points to missing case"
        | Some c =>
            if bool_decide (c_requester_principal_id c <> requester_principal_id)
            then HTTPError 409 "source event id is already owned by a different requester"
            else
              let? latest := uncaught (get_latest_policy_evaluation (a_exec db) (c_case_id c)) in
              match latest with
              | None => HTTPError 409
                  "source event already created a case that has not completed policy evaluation"
              | Some evaluation => Reply (Some (mkOnboardingCaseResponse c evaluation))
              end
        end
    end).

(** ** Creating a case *)

(** The request and the case an ingress message describes. *)
Definition ingress_request (actor : AuthenticatedPrincipal) (payload : CreateOnboardingCase) (ids : FreshIds)
    (now : instant) : AdministrativeRequest :=
  mkAdministrativeRequest (id_request ids) (p_principal_id (ap_principal actor)) (cb_channel payload)
    ("onboard " +:+ onf_employee_ref (cb_facts payload)) now (cb_source_event_id payload).

Definition ingress_snapshot (actor : AuthenticatedPrincipal) (payload : CreateOnboardingCase) (ids : FreshIds)
    (now : instant) : FactSnapshot :=
  mkFactSnapshot (id_snapshot ids) ("ingress:" +:+ cb_channel payload) (p_principal_id (ap_principal actor))
    CLAIM (cb_source_event_id payload) None now (OnboardingFacts_model_dump (cb_facts payload)) [] None.

(** The first transaction: [Reply None] when it committed, the reply of the case
    that exists when the event was already taken. *)
Definition create_or_existing (payload : CreateOnboardingCase) (administrative_request : AdministrativeRequest)
    (original : AdministrativeCase) (requester : string) (now : instant)
  : handler (option OnboardingCaseResponse) := fun db =>
  match uow_create_case (a_uow db) administrative_request original (cb_source_event_id payload) now with
  | Ok u => (Reply None, set_uow db u)
  | Err e =>
      if is_class DuplicateIngressEvent (exn_cls e) then
        (let% existing := existing_onboarding_response (strip (default "" (cb_source_event_id payload))) requester in
         match existing with
         | Some r => hret (Some r)
         | None => view (fun _ => HTTPError 409 (exn_msg e))
         end) db
      else if is_class IntegrityError (exn_cls e) then
        (let% existing := match cb_source_event_id payload with
                          | Some id => existing_onboarding_response id requester
                          | None => hret None
                          end in
         match existing with
         | Some r => hret (Some r)
         | None => view (fun _ => HTTPError 409 "duplicate ingress event")
         end) db
      else (Uncaught e, db)
  end.

(** The second transaction: evaluate the policy and commit the transition. *)
Definition evaluate_created (original : AdministrativeCase) (policy : PolicyRef * OnboardingPolicyDefinition)
    (facts : OnboardingFacts) (event_id : uuid) (clock : nat -> instant) : handler OnboardingCaseResponse :=
  let% ready := view (fun _ => uncaught (start_policy_evaluation original (clock 6%nat))) in
  let% evaluation := view (fun _ => uncaught (OnboardingPolicy_evaluate (fst policy) (snd policy) facts)) in
  let% c := view (fun _ => uncaught (apply_policy_evaluation ready evaluation (clock 7%nat))) in
  let% _ := commit is_conflict (fun db =>
              apply_policy_transition (a_uow db) original c evaluation event_id (clock 8%nat)) in
  hret (mkOnboardingCaseResponse c evaluation).

Definition create_onboarding (payload : CreateOnboardingCase) (request : Request) (ids : FreshIds)
    (clock : nat -> instant) : handler OnboardingCaseResponse :=
  let% actor := h_authenticate request (clock 0%nat) in
  let requester := p_principal_id (ap_principal actor) in
  let% existing := match cb_source_event_id payload with
                   | Some id => existing_onboarding_response id requester
                   | None => hret None
                   end in
  match existing with
  | Some r => hret r
  | None =>
      let% policy := current_onboarding_policy (clock 1%nat) in
      let administrative_request := ingress_request actor payload ids (clock 2%nat) in
      let fact_snapshot := ingress_snapshot actor payload ids (clock 3%nat) in
      let% original := view (fun _ => uncaught
        (create_case administrative_request "employee-onboarding" (onf_employee_ref (cb_facts payload))
           (Some fact_snapshot) (id_case ids) (clock 4%nat))) in
      let% existing := create_or_existing payload administrative_request original requester (clock 5%nat) in
      match existing with
      | Some r => hret r
      | None => evaluate_created original policy (cb_facts payload) (id_event ids) clock
      end
  end.

(** ** Replacing facts *)

Definition attested_snapshot (actor : AuthenticatedPrincipal) (payload : ReplaceOnboardingFacts) (ids : FreshIds)
    (now : instant) : FactSnapshot :=
  let principal_id := p_principal_id (ap_principal actor) in
  mkFactSnapshot (id_snapshot ids) ("attestation:" +:+ principal_id) principal_id ATTESTED
    (rb_attestation_ref payload) None now (OnboardingFacts_model_dump (rb_facts payload)) [] None.

Definition replace_onboarding_facts (case_id : uuid) (payload : ReplaceOnboardingFacts) (request : Request)
    (ids : FreshIds) (clock : nat -> instant) : handler OnboardingCaseResponse :=
  let% (actor, c) := open_case case_id FACTS_ATTEST request clock in
  if bool_decide (c_case_kind c <> "employee-onboarding")
  then view (fun _ => HTTPError 409 "facts endpoint supports onboarding cases only")
  else if bool_decide (onf_employee_ref (rb_facts payload) <> c_subject_ref c)
  then view (fun _ => HTTPError 409 "employee_ref cannot change case subject")
  else
    let% policy := current_onboarding_policy (clock 2%nat) in
    let snapshot := attested_snapshot actor payload ids (clock 3%nat) in
    let% changed := view (fun _ => uncaught (replace_facts_for_reevaluation c snapshot (clock 4%nat))) in
    let% ready := view (fun _ => uncaught (start_policy_evaluation changed (clock 5%nat))) in
    let% evaluation := view (fun _ => uncaught (OnboardingPolicy_evaluate (fst policy) (snd policy) (rb_facts payload))) in
    let% updated := view (fun _ => uncaught (apply_policy_evaluation ready evaluation (clock 6%nat))) in
    let% _ := commit is_conflict (fun db =>
                replace_facts_and_apply_policy (a_uow db) c updated evaluation (id_event ids) (clock 7%nat)) in
    hret (mkOnboardingCaseResponse updated evaluation).

(** ** Decisions *)

(** The evaluation a decision is taken under. *)
Definition deciding_evaluation (c : AdministrativeCase) : handler (PolicyRef * PolicyEvaluation) :=
  match c_policy_ref c with
  | None => view (fun _ => HTTPError 409 "case has no current policy")
  | Some policy_ref =>
      view (fun db =>
        let? latest := uncaught (get_latest_policy_evaluation (a_exec db) (c_case_id c)) in
        match latest with
        | Some evaluation =>
            if bool_decide (pe_policy_ref evaluation <> policy_ref)
            then HTTPError 409 "case has no current policy evaluation"
            else Reply (policy_ref, evaluation)
        | None => HTTPError 409 "case has no current policy evaluation"
        end)
  end.

(** The assessment of an approving decision together with the prior ones. *)
Definition assess_decision (c : AdministrativeCase) (decision : Decision) (evaluation : PolicyEvaluation)
    (scope : string) (now : instant) : handler (option ApprovalAssessment) :=
  if bool_decide (d_disposition decision = APPROVE) then
    view (fun db =>
      let? approval := uncaught
        (assess_approval_satisfaction (a_authority db) (c_case_id c) (c_authority_epoch c) (d_policy_ref decision)
           evaluation (list_decisions (a_exec db) (a_authority db) (c_case_id c) ++ [decision]) scope now) in
      Reply (Some approval))
  else hret None.

Definition approval_complete (approval : option ApprovalAssessment) : bool :=
  match approval with Some a => aa_satisfied a | None => false end.

Definition submit_decision (case_id : uuid) (payload : RecordDecisionBody) (request : Request) (ids : FreshIds)
    (clock : nat -> instant) : handler DecisionResponse :=
  let% (actor, c) := open_case case_id DECISION_SUBMIT request clock in
  let principal_id := p_principal_id (ap_principal actor) in
  let% (policy_ref, evaluation) := deciding_evaluation c in
  let scope := api_case_scope c in
  let% role := view (fun db => answer (is_class AuthorityError) 403
                 (resolve_decision_role (a_authority db) principal_id evaluation scope (db_role payload) (clock 2%nat))) in
  let decision := mkDecision (id_decision ids) (c_case_id c) (c_version c) (c_authority_epoch c) principal_id
                    (Some role) (db_disposition payload) (db_rationale payload) policy_ref (clock 3%nat) in
  let% approval := assess_decision c decision evaluation scope (clock 4%nat) in
  let% updated := view (fun _ => answer is_conflict 409
                    (record_decision c decision (approval_complete approval) (clock 5%nat))) in
  let% _ := commit is_conflict (fun db =>
              apply_decision_transition (a_policies db) (a_txns db) (a_uow db) c updated decision (Some scope)
                (approval ≫= aa_satisfaction) (id_event ids) (clock 6%nat)) in
  hret (mkDecisionResponse decision updated approval).

(** ** Reopening *)

Definition set_exec (u : UowDb) (x : ExecDb) : UowDb :=
  mkUowDb x (u_snapshots u) (u_ingress u) (u_authority u) (u_governance u) (u_outbox u).

Definition reopen_case (case_id : uuid) (request : Request) (clock : nat -> instant) : handler AdministrativeCase :=
  let% (_, c) := open_case case_id CASE_REASSESS request clock in
  let caught k := is_class TransitionError k || is_class ConcurrencyConflict k in
  let% updated := view (fun _ => answer caught 409 (explicit_reopen c (clock 2%nat))) in
  let% _ := commit caught (fun db =>
              let! x := update_case (a_exec db) updated (c_version c) "case.reassessed" [] in
              Ok (set_exec (a_uow db) x)) in
  hret updated.

(** ** Reading a case *)

Definition read_case {A} (case_id : uuid) (permission : AdministrativePermission) (request : Request)
    (clock : nat -> instant) (f : ApiDb -> AdministrativeCase -> reply A) : handler A :=
  let% (_, c) := open_case case_id permission request clock in view (fun db => f db c).

Definition api_get_case (case_id : uuid) (request : Request) (clock : nat -> instant)
  : handler AdministrativeCase := read_case case_id CASE_READ request clock (fun _ c => Reply c).

Definition get_policy_evaluation (case_id : uuid) (request : Request) (clock : nat -> instant)
  : handler PolicyEvaluation :=
  read_case case_id CASE_READ request clock (fun db _ =>
    let? latest := uncaught (get_latest_policy_evaluation (a_exec db) case_id) in
    match latest with Some e => Reply e | None => HTTPError 404 "policy evaluation not found" end).

Definition get_case_fact_history (case_id : uuid) (request : Request) (clock : nat -> instant)
  : handler (list FactSnapshot) :=
  read_case case_id FACTS_READ request clock (fun db _ =>
    uncaught (list_fact_snapshots (u_snapshots (a_uow db)) case_id)).

Definition get_case_decisions (case_id : uuid) (request : Request) (clock : nat -> instant)
  : handler (list Decision) :=
  read_case case_id CASE_READ request clock (fun db _ => Reply (list_decisions (a_exec db) (a_authority db) case_id)).

Definition get_case_authorizations (case_id : uuid) (request : Request) (clock : nat -> instant)
  : handler (list ExecutionAuthorization) :=
  read_case case_id CASE_READ request clock (fun db _ => uncaught (list_authorizations (a_exec db) case_id)).

Definition case_effects (db : ApiDb) (c : AdministrativeCase) : list EffectRecord :=
  list_effects (a_exec db) (effect_obligation_links (a_obligations db)) (c_case_id c) (c_authority_epoch c).

Definition get_case_effects (case_id : uuid) (request : Request) (clock : nat -> instant)
  : handler (list EffectRecord) :=
  read_case case_id CASE_READ request clock (fun db c => Reply (case_effects db c)).

Definition get_case_realizations (case_id : uuid) (request : Request) (clock : nat -> instant)
  : handler (list EffectRealizationAssessment) :=
  read_case case_id CASE_READ request clock (fun db _ => uncaught (list_realizations (a_exec db) case_id None)).

Definition get_case_outcomes (case_id : uuid) (request : Request) (clock : nat -> instant)
  : handler (list ConfirmedOutcome) :=
  read_case case_id CASE_READ request clock (fun db _ => uncaught (list_outcomes (a_exec db) case_id None)).

Definition get_case_governance (case_id : uuid) (request : Request) (clock : nat -> instant)
  : handler (option GovernanceBasis) :=
  read_case case_id CASE_READ request clock (fun db c =>
    uncaught (get_current_for_case (u_governance (a_uow db)) (c_case_id c) (c_authority_epoch c))).

Definition get_case_obligations (case_id : uuid) (request : Request) (clock : nat -> instant)
  : handler (option AdministrativeObligationSet) :=
  read_case case_id CASE_READ request clock (fun db c =>
    uncaught (get_current (a_obligations db) (c_case_id c) (c_authority_epoch c))).

Definition get_case_completion (case_id : uuid) (request : Request) (clock : nat -> instant)
  : handler CompletionAssessment :=
  read_case case_id CASE_READ request clock (fun db c =>
    let effects := case_effects db c in
    let epoch := c_authority_epoch c in
    let? outcomes := uncaught (list_outcomes (a_exec db) (c_case_id c) (Some epoch)) in
    let? realizations := uncaught (list_realizations (a_exec db) (c_case_id c) (Some epoch)) in
    let? obligation_set := uncaught (get_current (a_obligations db) (c_case_id c) epoch) in
    match obligation_set with
    | None => uncaught (assess_onboarding_completion (inr effects) (inr outcomes) None (Some realizations) None None)
    | Some s =>
        let? fulfillments := uncaught (list_domain_state_fulfillments (a_obligations db) (c_case_id c) epoch) in
        Reply (assess_administrative_completion s effects outcomes (Some realizations)
                 (Some (list_links (a_obligations db) (c_case_id c) epoch)) (Some fulfillments))
    end).

Definition get_case_audit (case_id : uuid) (request : Request) (clock : nat -> instant)
  : handler (list AuditEvent) :=
  read_case case_id AUDIT_READ request clock (fun db _ => Reply (list_audit_events (a_exec db) case_id)).

(** ** Reading platform resources *)

Definition read_platform {A} (permission : AdministrativePermission) (request : Request) (clock : nat -> instant)
    (f : ApiDb -> reply A) : handler A :=
  let% actor := h_authenticate request (clock 0%nat) in
  let% _ := h_authorize actor permission None (Some "*") (clock 1%nat) in
  view f.

Definition get_policy_versions (policy_id : string) (request : Request) (clock : nat -> instant)
  : handler (list PolicyVersionRecord) :=
  read_platform POLICY_READ request clock (fun db => Reply (list_versions (a_policies db) policy_id)).

Definition get_current_policy (policy_id : string) (request : Request) (clock : nat -> instant)
  : handler PolicyVersionRecord :=
  read_platform POLICY_READ request clock (fun db =>
    answer (is_class PolicyPlaneError) 404 (resolve_current (a_policies db) policy_id (clock 2%nat))).

Definition get_dead_letter_outbox (limit : Z) (request : Request) (clock : nat -> instant)
  : handler (list OutboxEventRow) :=
  read_platform DEAD_LETTER_READ request clock (fun db => Reply (list_failed_outbox (u_outbox (a_uow db)) limit)).
End api.

(** ** What the endpoints read and write *)

(** A handler that leaves the database alone. *)
Class ReadOnly {A} (m : handler A) : Prop := read_only : forall db, snd (m db) = db.

#[global] Instance view_read_only {A} (f : ApiDb -> reply A) : ReadOnly (view f).
Proof. done. Qed.

#[global] Instance hret_read_only {A} (a : A) : ReadOnly (hret a).
Proof. done. Qed.

#[global] Instance hbind_read_only {A B} (m : handler A) (k : A -> handler B) :
  ReadOnly m -> (forall a, ReadOnly (k a)) -> ReadOnly (hbind m k).
Proof.
  intros Hm Hk db. specialize (Hm db). unfold hbind. destruct (m db) as [[a|c d|e] db1]; cbn in *; subst; [apply Hk|done..].
Qed.

#[global] Instance open_case_read_only `{Platform} `{TokenLibrary} settings case_id permission request clock :
  ReadOnly (open_case settings case_id permission request clock).
Proof. unfold open_case. apply _. Qed.

#[global] Instance existing_read_only id requester : ReadOnly (existing_onboarding_response id requester).
Proof. unfold existing_onboarding_response. apply _. Qed.

#[global] Instance deciding_read_only c : ReadOnly (deciding_evaluation c).
Proof. unfold deciding_evaluation. destruct (c_policy_ref c); apply _. Qed.

#[global] Instance assess_decision_read_only `{Platform} c d e scope now : ReadOnly (assess_decision c d e scope now).
Proof. unfold assess_decision. destruct (bool_decide _); apply _. Qed.

(** A read before the rest of a handler: it errs and nothing changes, or the
    rest runs on the same database. *)
Lemma ro_bind {A B} (m : handler A) (k : A -> handler B) `{!ReadOnly m} db r db' :
  hbind m k db = (r, db') ->
  (db' = db /\ forall b, r <> Reply b) \/ exists a, m db = (Reply a, db) /\ k a db = (r, db').
Proof.
  pose proof (read_only (m := m) db) as Hm. unfold hbind.
  destruct (m db) as [[a|c d|e] db1]; cbn in Hm; subst db1; [right; by exists a|intros [= <- <-]; by left..].
Qed.

Lemma ro_bind_Reply {A B} (m : handler A) (k : A -> handler B) `{!ReadOnly m} db b db' :
  hbind m k db = (Reply b, db') -> exists a, m db = (Reply a, db) /\ k a db = (Reply b, db').
Proof. intros Hk. apply ro_bind in Hk; [|done]. destruct Hk as [[_ Hn]|Hk]; [by destruct (Hn b)|done]. Qed.

(** Steps through a read, when the handler replied and in general. *)
Tactic Notation "replied" hyp(H) "as" simple_intropattern(p) :=
  apply ro_bind_Reply in H; [destruct H as p|apply _].
Tactic Notation "peel" hyp(H) "as" simple_intropattern(p) :=
  apply ro_bind in H; [destruct H as p|apply _].

Lemma commit_bind {B} caught tx (k : unit -> handler B) db r db' :
  hbind (commit caught tx) k db = (r, db') ->
  (db' = db /\ forall b, r <> Reply b) \/ exists u, tx db = Ok u /\ k tt (set_uow db u) = (r, db').
Proof.
  unfold hbind, commit. destruct (tx db) as [u|e]; [right; by exists u|].
  unfold answer. destruct (caught (exn_cls e)); intros [= <- <-]; by left.
Qed.

Lemma view_Reply {A} (f : ApiDb -> reply A) db a db' : view f db = (Reply a, db') <-> f db = Reply a /\ db' = db.
Proof. unfold view. split; [by intros [= -> ->]|by intros [-> ->]]. Qed.

Lemma uncaught_Reply {A} (r : result A) a : uncaught r = Reply a <-> r = Ok a.
Proof. apply answer_Reply. Qed.

Lemma get_case_found x case_id c :
  get_case x case_id = Ok (Some c) ->
  exists row, x_cases x !! case_id = Some row /\ cr_case row = c /\ case_from_row row = Ok c.
Proof.
  unfold get_case. destruct (x_cases x !! case_id) as [row|]; [|done]. intros Hc. inv_ok. subst v.
  exists row. split_and!; [done| |done]. unfold case_from_row in E. inv_ok. unfold validate_case in E.
  inv_ok. by subst.
Qed.

(** ** Records only accumulate *)

(** What every transaction keeps: evaluations, decisions with the authority
    they were given under, and approval satisfactions. *)
Record grows (u u' : UowDb) : Prop := {
  gr_evaluations : forall r, r ∈ x_evaluations (u_exec u) -> r ∈ x_evaluations (u_exec u');
  gr_decisions : forall k d, x_decisions (u_exec u) !! k = Some d -> x_decisions (u_exec u') !! k = Some d;
  gr_bindings : forall k d, x_decisions (u_exec u) !! k = Some d ->
    decision_bindings (u_authority u') !! k = decision_bindings (u_authority u) !! k;
  gr_satisfactions : forall k s, satisfactions (u_authority u) !! k = Some s ->
    satisfactions (u_authority u') !! k = Some s;
  gr_ingress : forall k r, u_ingress u !! k = Some r -> u_ingress u' !! k = Some r;
}.

#[global] Instance grows_preorder : PreOrder grows.
Proof.
  split; [by split|]. intros u1 u2 u3 [He1 Hd1 Hb1 Hs1 Hi1] [He2 Hd2 Hb2 Hs2 Hi2]. split; eauto.
  intros k d Hk. rewrite (Hb2 k d) by eauto. by eapply Hb1.
Qed.

(** The table of cases after a transaction, and what it kept. *)
Definition wrote_case (u u' : UowDb) (k : uuid) (c : AdministrativeCase) : Prop :=
  grows u u' /\ exists row, x_cases (u_exec u') = <[k := row]> (x_cases (u_exec u)) /\
    c_status (cr_case row) = c_status c /\ c_authority_epoch (cr_case row) = c_authority_epoch c /\
    c_policy_ref (cr_case row) = c_policy_ref c.

Lemma create_wrote u request c source now u' :
  uow_create_case u request c source now = Ok u' ->
  wrote_case u u' (c_case_id c) c /\ x_decisions (u_exec u') = x_decisions (u_exec u).
Proof.
  intros Hc. pose proof (uow_create_Ok _ _ _ _ _ _ Hc) as (_ & _ & Hi).
  unfold uow_create_case in Hc. inv_ok. subst u'.
  match goal with Hx : db_add (x_cases _) _ _ = Ok _ |- _ => apply db_add_Ok in Hx as [_ ->] end.
  split; [|done]. split; [|by eexists]. split; try done. cbn in *. intros k r Hk. destruct source as [id|].
  - destruct Hi as (_ & Hnew & ->). rewrite lookup_insert_ne; [done|]. intros <-. congruence.
  - by rewrite Hi.
Qed.

Lemma policy_wrote `{Platform} u before after evaluation event_id now u' :
  apply_policy_transition u before after evaluation event_id now = Ok u' ->
  wrote_case u u' (c_case_id after) after /\ x_decisions (u_exec u') = x_decisions (u_exec u).
Proof.
  unfold apply_policy_transition. intros Hc. inv_ok. subst u'. split; [|done]. split; [|by eexists].
  split; try done. cbn. intros r Hr. apply elem_of_app. by left.
Qed.

Lemma facts_wrote `{Platform} u before after evaluation event_id now u' :
  replace_facts_and_apply_policy u before after evaluation event_id now = Ok u' ->
  wrote_case u u' (c_case_id after) after /\ x_decisions (u_exec u') = x_decisions (u_exec u).
Proof.
  unfold replace_facts_and_apply_policy. intros Hc. inv_ok. destruct (c_fact_snapshot after); [|done]. inv_ok. subst u'.
  split; [|done]. split; [|by eexists]. split; try done. cbn. intros r Hr. apply elem_of_app. by left.
Qed.

Lemma record_approval_keeps `{Platform} policies txns x auth g after scope approval basis x' auth' g' :
  record_approval policies txns x auth g after scope approval = Ok (basis, (x', auth', g')) ->
  x_decisions x' = x_decisions x /\ x_evaluations x' = x_evaluations x /\ x_cases x' = x_cases x /\
  decision_bindings auth' = decision_bindings auth /\
  (forall k s, satisfactions auth !! k = Some s -> satisfactions auth' !! k = Some s).
Proof.
  unfold record_approval. destruct approval as [a|]; intros Hr; inv_ok; [|by simplify_eq].
  destruct v as [a' au]. inv_ok. destruct v as [b g1]. inv_ok. simplify_eq. cbn. split_and!; try done;
    unfold put_approval_satisfaction in E; destruct (satisfactions auth !! _) eqn:Hs; inv_ok; simplify_eq; try done.
  intros k s0 Hk. cbn. rewrite lookup_insert_ne; [done|]. intros <-. congruence.
Qed.

Lemma put_binding_keeps auth d scope b auth' :
  put_decision_binding auth d scope = Ok (b, auth') ->
  satisfactions auth' = satisfactions auth /\
  (forall k, k <> d_decision_id d -> decision_bindings auth' !! k = decision_bindings auth !! k).
Proof.
  unfold put_decision_binding. destruct (d_decision_role d) as [role|]; [|done].
  destruct (decision_bindings auth !! _); intros Hp; inv_ok; simplify_eq; [done|]. split; [done|].
  intros k Hk. cbn. by rewrite lookup_insert_ne.
Qed.

(** The role a decision was recorded in, once its binding is stored. *)
Lemma decision_wrote `{Platform} policies txns u before after d role scope approval event_id now u' :
  apply_decision_transition policies txns u before after d scope approval event_id now = Ok u' ->
  d_decision_role d = Some role ->
  wrote_case u u' (c_case_id after) after /\ c_case_id before = c_case_id after /\
  x_decisions (u_exec u') = <[d_decision_id d := d]> (x_decisions (u_exec u)) /\
  x_decisions (u_exec u) !! d_decision_id d = None /\ bound_decision (u_authority u') d = d.
Proof.
  intros Hrun Hrole. unfold apply_decision_transition in Hrun. rewrite Hrole in Hrun. inv_ok.
  match goal with Hx : check_decision _ _ _ _ _ = _ |- _ => unfold check_decision in Hx end. inv_ok. propify.
  destruct v4 as [binding auth1]. inv_ok. subst v2. destruct v3 as [basis [[x auth2] g2]]. inv_ok. subst u'. cbn in *.
  apply record_approval_keeps in E3 as (Hd & He & Hc & Hb & Hs). cbn in *.
  destruct (put_binding_stored _ _ _ _ _ _ E4 Hrole) as (Hbind & Hbr & _).
  apply put_binding_keeps in E4 as [Hsat Hother]. apply db_add_Ok in E1 as [Hnew ->]. split_and!; try done.
  - split; [split; cbn|].
    + by rewrite He.
    + intros k d0 Hk. rewrite Hd, lookup_insert_ne; [done|]. intros <-. congruence.
    + intros k d0 Hk. rewrite Hb. apply Hother. intros ->. congruence.
    + intros k s Hk. apply Hs. by rewrite Hsat.
    + done.
    + eexists. cbn. rewrite Hc. by split.
  - unfold bound_decision, get_decision_binding in *. rewrite Hb, Hbind, Hbr. destruct d; cbn in *. by subst.
Qed.

Section correct.
Context `{Platform} `{TokenLibrary} (settings : AuthSettings)
  (parse_onboarding : pydict -> result OnboardingPolicyDefinition).

Lemma open_case_Reply case_id permission request clock db actor c db' :
  open_case settings case_id permission request clock db = (Reply (actor, c), db') ->
  authenticate settings (a_authority db) request (clock 0%nat) = Reply actor /\
  get_case (a_exec db) case_id = Ok (Some c) /\
  permitted (a_authority db) (p_principal_id (ap_principal actor)) permission (Some c) None (clock 1%nat).
Proof.
  unfold open_case. intros Ho.
  replied Ho as (a & [Ha _]%view_Reply & Ho).
  replied Ho as (c' & [Hc _]%view_Reply & Ho).
  replied Ho as (u & [Hp _]%view_Reply & Ho).
  apply view_Reply in Ho as [[= <- <-] _]. split; [done|].
  apply reply_bind_Reply in Hc as (found & Hf%uncaught_Reply & Hc). destruct found; [|done]. injection Hc as ->.
  split; [done|]. by eapply authorize_permitted.
Qed.

(** ** Calls that may change the database *)

Inductive api_call :=
  | CallCreate (payload : CreateOnboardingCase)
  | CallReplaceFacts (case_id : uuid) (payload : ReplaceOnboardingFacts)
  | CallDecide (case_id : uuid) (payload : RecordDecisionBody)
  | CallReopen (case_id : uuid).

(** The database a call leaves. *)
Definition after_call (call : api_call) (request : Request) (ids : FreshIds) (clock : nat -> instant) (db : ApiDb)
  : ApiDb :=
  match call with
  | CallCreate payload => snd (create_onboarding settings parse_onboarding payload request ids clock db)
  | CallReplaceFacts case_id payload =>
      snd (replace_onboarding_facts settings parse_onboarding case_id payload request ids clock db)
  | CallDecide case_id payload => snd (submit_decision settings case_id payload request ids clock db)
  | CallReopen case_id => snd (reopen_case settings case_id request clock db)
  end.

(** The case and the permission a call needs on it; creation needs only an
    authenticated caller. *)
Definition needs (call : api_call) : option (uuid * AdministrativePermission) :=
  match call with
  | CallCreate _ => None
  | CallReplaceFacts case_id _ => Some (case_id, FACTS_ATTEST)
  | CallDecide case_id _ => Some (case_id, DECISION_SUBMIT)
  | CallReopen case_id => Some (case_id, CASE_REASSESS)
  end.

Lemma opened_changes {B} case_id permission request clock (k : AuthenticatedPrincipal * AdministrativeCase -> handler B) db :
  snd (hbind (open_case settings case_id permission request clock) k db) <> db ->
  exists actor c, authenticate settings (a_authority db) request (clock 0%nat) = Reply actor /\
    get_case (a_exec db) case_id = Ok (Some c) /\
    permitted (a_authority db) (p_principal_id (ap_principal actor)) permission (Some c) None (clock 1%nat).
Proof.
  intros Hne. destruct (hbind _ _ db) as [r db'] eqn:Hrun. peel Hrun as [[-> _]|([actor c] & Ho & _)];
    [done|]. apply open_case_Reply in Ho. eauto.
Qed.

(** C13: Only authorized requests change anything: a call that leaves the database
    different was made by an authenticated active principal, and a call on a case
    by one who is permitted that operation on that stored case. *)
Theorem changes_need_permission call request ids clock db :
  after_call call request ids clock db <> db ->
  exists actor, authenticate settings (a_authority db) request (clock 0%nat) = Reply actor /\
    match needs call with
    | None => True
    | Some (case_id, permission) =>
        exists c, get_case (a_exec db) case_id = Ok (Some c) /\
          permitted (a_authority db) (p_principal_id (ap_principal actor)) permission (Some c) None (clock 1%nat)
    end.
Proof.
  intros Hne. destruct call as [payload|case_id payload|case_id payload|case_id]; cbn [after_call needs] in *;
    [|unfold replace_onboarding_facts, submit_decision, reopen_case in Hne; apply opened_changes in Hne; naive_solver..].
  unfold create_onboarding in Hne. destruct (hbind _ _ db) as [r db'] eqn:Hrun.
  peel Hrun as [[-> _]|(actor & [Ha _]%view_Reply & _)]; [done|]. by exists actor.
Qed.

(** ** Decisions *)

(** A committed decision, by all the checks it passed. *)
Inductive decided (case_id : uuid) (payload : RecordDecisionBody) (request : Request) (ids : FreshIds)
    (clock : nat -> instant) (db : ApiDb) (resp : DecisionResponse) (db' : ApiDb) : Prop :=
  | decided_by actor c evaluation role u
      (Hauth : authenticate settings (a_authority db) request (clock 0%nat) = Reply actor)
      (Hperm : permitted (a_authority db) (p_principal_id (ap_principal actor)) DECISION_SUBMIT
                 (Some c) None (clock 1%nat))
      (Hfound : get_case (a_exec db) case_id = Ok (Some c))
      (Hpolicy : c_policy_ref c = Some (pe_policy_ref evaluation))
      (Hlatest : get_latest_policy_evaluation (a_exec db) (c_case_id c) = Ok (Some evaluation))
      (Hrole : resolve_decision_role (a_authority db) (p_principal_id (ap_principal actor)) evaluation
                 (api_case_scope c) (db_role payload) (clock 2%nat) = Ok role)
      (Hdecision : dr_decision resp =
         mkDecision (id_decision ids) (c_case_id c) (c_version c) (c_authority_epoch c)
           (p_principal_id (ap_principal actor)) (Some role) (db_disposition payload) (db_rationale payload)
           (pe_policy_ref evaluation) (clock 3%nat))
      (Hassessed : match dr_approval resp with
         | Some a => db_disposition payload = APPROVE /\
             assess_approval_satisfaction (a_authority db) (c_case_id c) (c_authority_epoch c)
               (pe_policy_ref evaluation) evaluation
               (list_decisions (a_exec db) (a_authority db) (c_case_id c) ++ [dr_decision resp])
               (api_case_scope c) (clock 4%nat) = Ok a
         | None => db_disposition payload <> APPROVE
         end)
      (Hrecorded : record_decision c (dr_decision resp) (approval_complete (dr_approval resp)) (clock 5%nat)
                   = Ok (dr_case resp))
      (Hcommitted : apply_decision_transition (a_policies db) (a_txns db) (a_uow db) c (dr_case resp)
                      (dr_decision resp) (Some (api_case_scope c)) (dr_approval resp ≫= aa_satisfaction)
                      (id_event ids) (clock 6%nat) = Ok u)
      (Hafter : db' = set_uow db u).

Lemma deciding_evaluation_Reply c db policy_ref evaluation :
  deciding_evaluation c db = (Reply (policy_ref, evaluation), db) ->
  c_policy_ref c = Some policy_ref /\ pe_policy_ref evaluation = policy_ref /\
  get_latest_policy_evaluation (a_exec db) (c_case_id c) = Ok (Some evaluation).
Proof.
  unfold deciding_evaluation. destruct (c_policy_ref c) as [p|]; [|by intros [? _]%view_Reply].
  intros [(latest & Hl%uncaught_Reply & Hr)%reply_bind_Reply _]%view_Reply. destruct latest as [e|]; [|done].
  destruct (bool_decide (pe_policy_ref e <> p)) eqn:Hp; [done|]. injection Hr as <- <-. propify. done.
Qed.

Lemma assess_decision_Reply c decision evaluation scope now db approval :
  assess_decision c decision evaluation scope now db = (Reply approval, db) ->
  match approval with
  | Some a => d_disposition decision = APPROVE /\
      assess_approval_satisfaction (a_authority db) (c_case_id c) (c_authority_epoch c) (d_policy_ref decision)
        evaluation (list_decisions (a_exec db) (a_authority db) (c_case_id c) ++ [decision]) scope now = Ok a
  | None => d_disposition decision <> APPROVE
  end.
Proof.
  unfold assess_decision. case_bool_decide as Hd; [|by intros [[= <-] _]%view_Reply].
  intros [(a & Ha%uncaught_Reply & Hr)%reply_bind_Reply _]%view_Reply. by injection Hr as <-.
Qed.

Lemma submit_decision_effect case_id payload request ids clock db r db' :
  submit_decision settings case_id payload request ids clock db = (r, db') ->
  (db' = db /\ forall resp, r <> Reply resp) \/
  exists resp, r = Reply resp /\ decided case_id payload request ids clock db resp db'.
Proof.
  unfold submit_decision. intros Hrun. peel Hrun as [Hn|([actor c] & Ho & Hrun)]; [by left|].
  apply open_case_Reply in Ho as (Hauth & Hfound & Hperm).
  peel Hrun as [Hn|([policy_ref evaluation] & He & Hrun)]; [by left|].
  apply deciding_evaluation_Reply in He as (Hpolicy & <- & Hlatest).
  peel Hrun as [Hn|(role & [Hrole _]%view_Reply & Hrun)]; [by left|]. apply answer_Reply in Hrole.
  peel Hrun as [Hn|(approval & Ha & Hrun)]; [by left|]. apply assess_decision_Reply in Ha.
  peel Hrun as [Hn|(updated & [Hu _]%view_Reply & Hrun)]; [by left|]. apply answer_Reply in Hu.
  apply commit_bind in Hrun as [Hn|(u & Hcommit & Hrun)]; [by left|]. right.
  injection Hrun as <- <-. eexists. split; [done|]. by econstructor.
Qed.

(** A decision authorizes its case only when it completes the approval. *)
Lemma record_decision_authorized c d approval now c' :
  record_decision c d (approval_complete approval) now = Ok c' -> c_status c' = AUTHORIZED ->
  c_status c = AWAITING_DECISION /\ d_disposition d = APPROVE /\ c' = move c AUTHORIZED now /\
  exists a, approval = Some a /\ aa_satisfied a = true.
Proof.
  unfold record_decision. intros Hr Hs. inv_ok. propify. destruct (d_disposition d) eqn:Hd;
    try (injection Hr as Hr; by rewrite <- Hr in Hs).
  destruct approval as [a|]; cbn in Hr; [destruct (aa_satisfied a) eqn:Ha|]; injection Hr as Hr; subst c'; try done.
  split_and!; try done. by exists a.
Qed.

(** C12: Approval is earned: a decision leaves its case authorized only if it was
    awaiting a decision under its current policy evaluation and, with this
    decision, that evaluation's approval rule is met by recorded decisions: one
    approving decision for the case, its epoch and its policy per required role,
    each by a principal holding that role in the scope of the case when
    deciding, by distinct principals when the rule asks for it; the satisfaction
    and its governance basis are stored with it. *)
Theorem authorization_is_earned case_id payload request ids clock db resp db' :
  submit_decision settings case_id payload request ids clock db = (Reply resp, db') ->
  c_status (dr_case resp) = AUTHORIZED ->
  exists c evaluation sel s b,
    get_case (a_exec db) case_id = Ok (Some c) /\ c_status c = AWAITING_DECISION /\
    get_latest_policy_evaluation (a_exec db) (c_case_id c) = Ok (Some evaluation) /\
    c_policy_ref c = Some (pe_policy_ref evaluation) /\ pe_required_decision_roles evaluation <> [] /\
    approval_witness (a_authority db) (c_case_id c) (c_authority_epoch c) (pe_policy_ref evaluation) evaluation
      (list_decisions (a_exec db) (a_authority db) (c_case_id c) ++ [dr_decision resp]) (api_case_scope c) sel /\
    as_decision_ids s = d_decision_id <$> sel /\
    satisfactions (a_authority db') !! as_satisfaction_id s = Some s /\
    u_governance (a_uow db') !! gb_basis_id b = Some b /\ basis_of_approval b (dr_case resp) s.
Proof.
  intros Hrun Hstatus. apply submit_decision_effect in Hrun as [[_ Hn]|(resp' & [= <-] & Hd)]; [by destruct (Hn resp)|].
  destruct Hd. destruct (record_decision_authorized _ _ _ _ _ Hrecorded Hstatus) as (Hawait & _ & _ & a & Happ & Hsat).
  rewrite Happ in *. destruct Hassessed as [_ Hassess].
  destruct (assess_approval_spec _ _ _ _ _ _ _ _ _ Hassess) as (_ & Hyes & _).
  destruct (Hyes Hsat) as (sel & s & Hw & _ & Hs & _ & _ & _ & Hids & _). cbn in Hcommitted. rewrite Hs in Hcommitted.
  destruct (approval_commits _ _ _ _ _ _ _ role _ _ _ _ Hcommitted)
    as (_ & _ & Hstored & _ & (b & Hb & Habout) & _); [by rewrite Hdecision|]. subst db'.
  exists c, evaluation, sel, s, b. split_and!; try done.
  unfold resolve_decision_role in Hrole. intros Hnil. rewrite Hnil in Hrole. done.
Qed.

(** ** Every authorized case is approved *)

(** A call writes the case table by transactions of two kinds. *)
Inductive call_write (db db' : ApiDb) : Prop :=
  | write_other u k c (Hw : wrote_case (a_uow db) u k c)
      (Hd : x_decisions (u_exec u) = x_decisions (a_exec db)) (Hs : c_status c <> AUTHORIZED)
      (Hdb : db' = set_uow db u)
  | write_decision case_id payload request ids clock resp
      (Hd : decided case_id payload request ids clock db resp db').

Lemma evaluation_not_authorized c e now c' :
  apply_policy_evaluation c e now = Ok c' -> c_status c' <> AUTHORIZED.
Proof. unfold apply_policy_evaluation. intros Ha. inv_ok. destruct (pe_disposition e); inv_ok; by subst c'. Qed.

Lemma create_or_existing_effect payload administrative_request original requester now db r db' :
  create_or_existing payload administrative_request original requester now db = (r, db') ->
  (db' = db /\ r <> Reply None) \/ exists u, r = Reply None /\ db' = set_uow db u /\
    uow_create_case (a_uow db) administrative_request original (cb_source_event_id payload) now = Ok u.
Proof.
  unfold create_or_existing.
  destruct (uow_create_case _ _ _ _ _) as [u|e]; [intros [= <- <-]; right; by exists u|]. intros Hrun. left.
  destruct (is_class DuplicateIngressEvent _); [|destruct (is_class IntegrityError _); [|by injection Hrun as <- <-]].
  - peel Hrun as [[-> Hn]|([resp|] & _ & Hrun)]; [by split|by injection Hrun as <- <-..].
  - destruct (cb_source_event_id payload);
      (peel Hrun as [[-> Hn]|([resp|] & _ & Hrun)]; [by split|by injection Hrun as <- <-..]).
Qed.

Lemma evaluate_created_writes original policy facts event_id clock db r db' :
  evaluate_created original policy facts event_id clock db = (r, db') -> db' = db \/ call_write db db'.
Proof.
  unfold evaluate_created. intros Hrun.
  peel Hrun as [[-> _]|(ready & _ & Hrun)]; [by left|]. peel Hrun as [[-> _]|(evaluation & _ & Hrun)]; [by left|].
  peel Hrun as [[-> _]|(c & [Hc%uncaught_Reply _]%view_Reply & Hrun)]; [by left|].
  apply commit_bind in Hrun as [[-> _]|(u & Hu & Hrun)]; [by left|]. right. injection Hrun as _ <-.
  apply policy_wrote in Hu as [Hw Hd]. econstructor; [exact Hw|exact Hd| |done]. by eapply evaluation_not_authorized.
Qed.

Lemma create_new_writes payload administrative_request original requester now policy facts event_id clock db r db' :
  c_status original <> AUTHORIZED ->
  hbind (create_or_existing payload administrative_request original requester now)
    (fun existing => match existing with
                     | Some resp => hret resp
                     | None => evaluate_created original policy facts event_id clock
                     end) db = (r, db') ->
  rtc call_write db db'.
Proof.
  intros Hs. unfold hbind. destruct (create_or_existing _ _ _ _ _ db) as [r1 db1] eqn:Hc.
  apply create_or_existing_effect in Hc as [[-> Hn]|(u & -> & -> & Hu)]; intros Hrun.
  - destruct r1 as [[resp|]|? ?|?]; try done; by injection Hrun as _ <-.
  - apply create_wrote in Hu as [Hw Hd]. eapply rtc_l; [by econstructor|].
    apply evaluate_created_writes in Hrun as [->|?]; [done|by apply rtc_once].
Qed.

Lemma create_writes payload request ids clock db :
  rtc call_write db (after_call (CallCreate payload) request ids clock db).
Proof.
  cbn [after_call]. destruct (create_onboarding _ _ _ _ _ _ db) as [r db'] eqn:Hrun. cbn.
  unfold create_onboarding in Hrun. peel Hrun as [[-> _]|(actor & _ & Hrun)]; [done|].
  apply ro_bind in Hrun; [|destruct (cb_source_event_id payload); apply _].
  destruct Hrun as [[-> _]|([resp|] & _ & Hrun)]; [done|by injection Hrun as _ <-|].
  peel Hrun as [[-> _]|(policy & _ & Hrun)]; [done|].
  peel Hrun as [[-> _]|(original & [Ho%uncaught_Reply _]%view_Reply & Hrun)]; [done|].
  eapply create_new_writes; [|exact Hrun]. unfold create_case, validate_case in Ho. inv_ok. by subst original.
Qed.

Lemma call_writes call request ids clock db : rtc call_write db (after_call call request ids clock db).
Proof.
  destruct call as [payload|case_id payload|case_id payload|case_id]; [apply create_writes|..]; cbn [after_call].
  - destruct (replace_onboarding_facts _ _ _ _ _ _ _ db) as [r db'] eqn:Hrun. cbn. unfold replace_onboarding_facts in Hrun.
    peel Hrun as [[-> _]|([actor c] & _ & Hrun)]; [done|].
    case_bool_decide; [by injection Hrun as _ <-|]. case_bool_decide; [by injection Hrun as _ <-|].
    do 4 (peel Hrun as [[-> _]|(? & _ & Hrun)]; [done|]).
    peel Hrun as [[-> _]|(updated & [Hu%uncaught_Reply _]%view_Reply & Hrun)]; [done|].
    apply commit_bind in Hrun as [[-> _]|(u & Hc & Hrun)]; [done|]. injection Hrun as _ <-.
    apply facts_wrote in Hc as [Hw Hd]. apply rtc_once. econstructor; [exact Hw|exact Hd| |done].
    by eapply evaluation_not_authorized.
  - destruct (submit_decision _ _ _ _ _ _ db) as [r db'] eqn:Hrun. cbn.
    apply submit_decision_effect in Hrun as [[-> _]|(resp & _ & Hd)]; [done|]. apply rtc_once. by econstructor.
  - destruct (reopen_case _ _ _ _ db) as [r db'] eqn:Hrun. cbn. unfold reopen_case in Hrun.
    peel Hrun as [[-> _]|([actor c] & _ & Hrun)]; [done|].
    peel Hrun as [[-> _]|(updated & [Hu%answer_Reply _]%view_Reply & Hrun)]; [done|].
    apply commit_bind in Hrun as [[-> _]|(u & Hc & Hrun)]; [done|]. injection Hrun as _ <-. inv_ok. subst u.
    unfold update_case in E. destruct (x_cases (a_exec db) !! _) as [row|] eqn:Hrow; [|done]. inv_ok. subst v.
    apply rtc_once. eapply (write_other _ _ _ (c_case_id updated) updated); [| | |done].
    + split; [by split|]. by eexists.
    + done.
    + unfold explicit_reopen in Hu. inv_ok. by subst updated.
Qed.

(** A decision stored with the role of its authority binding. *)
Definition recorded (u : UowDb) (d : Decision) : Prop :=
  exists d0, x_decisions (u_exec u) !! d_decision_id d = Some d0 /\ bound_decision (u_authority u) d0 = d.

(** A case stored under [k] is approved in its epoch: under a stored evaluation
    of its policy, a stored satisfaction names one recorded approving decision
    per required role. *)
Definition approved (u : UowDb) (k : uuid) (c : AdministrativeCase) : Prop :=
  exists evaluation s sel,
    (exists r, r ∈ x_evaluations (u_exec u) /\ per_case_id r = k /\ per_evaluation r = evaluation) /\
    c_policy_ref c = Some (pe_policy_ref evaluation) /\ pe_required_decision_roles evaluation <> [] /\
    satisfactions (u_authority u) !! as_satisfaction_id s = Some s /\
    as_case_id s = k /\ as_authority_epoch s = c_authority_epoch c /\ Some (as_policy_ref s) = c_policy_ref c /\
    as_decision_ids s = d_decision_id <$> sel /\
    Forall2 (fun role d => recorded u d /\ d_case_id d = k /\ d_authority_epoch d = c_authority_epoch c /\
                           Some (d_policy_ref d) = c_policy_ref c /\ d_disposition d = APPROVE /\
                           d_decision_role d = Some role)
      (pe_required_decision_roles evaluation) sel /\
    (pe_require_distinct_decision_principals evaluation = true -> NoDup (d_principal_id <$> sel)).

Record api_inv (db : ApiDb) : Prop := {
  ai_keys : forall k d, x_decisions (a_exec db) !! k = Some d -> d_decision_id d = k;
  ai_approved : forall k row, x_cases (a_exec db) !! k = Some row -> c_status (cr_case row) = AUTHORIZED ->
    approved (a_uow db) k (cr_case row);
}.

Lemma recorded_grows u u' d : grows u u' -> recorded u d -> recorded u' d.
Proof.
  intros [_ Hd Hb _ _] (d0 & Hk & Hbound). exists d0. split; [by apply Hd|]. rewrite <- Hbound. unfold bound_decision.
  assert (Hid : d_decision_id d = d_decision_id d0)
    by (rewrite <- Hbound; unfold bound_decision; by destruct (decision_bindings _ !! _)).
  rewrite <- Hid. by rewrite (Hb _ _ Hk).
Qed.

Lemma approved_grows u u' k c : grows u u' -> approved u k c -> approved u' k c.
Proof.
  intros Hg (e & s & sel & (r & Hr & Hrk & Hre) & Hp & Hne & Hs & Hk & He & Hpr & Hids & Hf & Hnd).
  exists e, s, sel. split_and!; try done.
  - exists r. split; [by apply Hg|done].
  - by apply Hg.
  - eapply Forall2_impl; [exact Hf|]. intros role d (Hrec & ?). split; [by eapply recorded_grows|done].
Qed.

Lemma approved_same u k c c' :
  c_authority_epoch c' = c_authority_epoch c -> c_policy_ref c' = c_policy_ref c -> approved u k c -> approved u k c'.
Proof. unfold approved. by intros -> ->. Qed.

(** The prior decisions are recorded, under their bound role. *)
Lemma list_decisions_recorded db d k :
  api_inv db -> d ∈ list_decisions (a_exec db) (a_authority db) k -> recorded (a_uow db) d.
Proof.
  intros [Hkeys _] (d0 & -> & Hin)%list_elem_of_fmap. exists d0. split; [|done].
  rewrite elem_of_sort_by, elem_of_select_where in Hin. destruct Hin as [[k0 Hk0] _].
  replace (d_decision_id (bound_decision (a_authority db) d0)) with k0; [done|].
  rewrite <- (Hkeys _ _ Hk0). unfold bound_decision. by destruct (decision_bindings _ !! _).
Qed.

Lemma latest_stored x k e :
  get_latest_policy_evaluation x k = Ok (Some e) ->
  exists r, r ∈ x_evaluations x /\ per_case_id r = k /\ per_evaluation r = e.
Proof.
  unfold get_latest_policy_evaluation. destruct (last _) as [r|] eqn:Hl; [|done]. intros He. inv_ok. subst v.
  apply last_Some_elem_of, elem_of_filter_bool in Hl as [Hin Hk]. propify. exists r. split_and!; try done.
  unfold PolicyEvaluation_validate in E. by inv_ok.
Qed.

(** A decision that authorizes leaves its case approved. *)
Lemma decided_approved case_id payload request ids clock db resp db' :
  api_inv db -> decided case_id payload request ids clock db resp db' -> c_status (dr_case resp) = AUTHORIZED ->
  approved (a_uow db') (c_case_id (dr_case resp)) (dr_case resp).
Proof.
  intros Hinv [] Hstatus.
  destruct (record_decision_authorized _ _ _ _ _ Hrecorded Hstatus) as (_ & _ & Hmove & a & Happ & Hsat).
  rewrite Happ in *. destruct Hassessed as [_ Hassess].
  destruct (assess_approval_spec _ _ _ _ _ _ _ _ _ Hassess) as (_ & Hyes & _).
  destruct (Hyes Hsat) as (sel & s & [Hf Hnd] & _ & Hs & Hsc & Hse & Hsp & Hids & _). cbn in Hcommitted.
  rewrite Hs in Hcommitted. destruct (decision_wrote _ _ _ _ _ _ role _ _ _ _ _ Hcommitted)
    as ((Hg & _) & Hid & Hdec & _ & Hbound); [by rewrite Hdecision|].
  destruct (approval_commits _ _ _ _ _ _ _ role _ _ _ _ Hcommitted) as (_ & _ & Hstored & _); [by rewrite Hdecision|].
  assert (Hc : c_authority_epoch (dr_case resp) = c_authority_epoch c /\ c_policy_ref (dr_case resp) = c_policy_ref c)
    by by rewrite Hmove.
  destruct Hc as [He Hp]. rewrite <- Hid. subst db'. cbn [a_uow set_uow].
  exists evaluation, s, sel. rewrite He, Hp, Hpolicy, Hse, Hsp. split_and!; try done.
  - destruct (latest_stored _ _ _ Hlatest) as (r & Hr & Hrk & Hre). exists r. split; [by apply Hg|done].
  - unfold resolve_decision_role in Hrole. intros Hnil. by rewrite Hnil in Hrole.
  - eapply Forall2_impl; [exact Hf|]. cbn. intros role' d [Hin (Hk & Hep & Hpo & Hdi & Hro & _)]. rewrite Hpo.
    split_and!; try done. apply elem_of_app in Hin as [Hin|Hin]; [|apply list_elem_of_singleton in Hin as ->].
    + eapply recorded_grows, list_decisions_recorded; eauto.
    + exists (dr_decision resp). split; [|done]. rewrite Hdec. apply lookup_insert_eq.
Qed.

Lemma write_inv db db' : call_write db db' -> api_inv db -> api_inv db'.
Proof.
  intros [u k c [Hg (row & Hcases & Hs & _)] Hd Hne ->|case_id payload request ids clock resp Hdec] Hinv.
  - split; unfold a_exec; cbn; [rewrite Hd; apply Hinv|]. rewrite Hcases. intros k' row'.
    destruct (decide (k' = k)) as [->|Hk]; [rewrite lookup_insert_eq; intros [= <-]; congruence|].
    rewrite lookup_insert_ne by done. intros Hrow Hauth. eapply approved_grows, Hinv; eauto.
  - pose proof (decided_approved _ _ _ _ _ _ _ _ Hinv Hdec) as Happ. destruct Hdec. subst db'.
    destruct (decision_wrote _ _ _ _ _ _ role _ _ _ _ _ Hcommitted)
      as ((Hg & row & Hcases & Hs & He & Hp) & Hid & Hd & _ & _); [by rewrite Hdecision|].
    split; unfold a_exec; cbn; [rewrite Hd|rewrite Hcases]; intros k' x.
    + destruct (decide (k' = d_decision_id (dr_decision resp))) as [->|Hk];
        [rewrite lookup_insert_eq; by intros [= <-]|rewrite lookup_insert_ne by done; apply Hinv].
    + destruct (decide (k' = c_case_id (dr_case resp))) as [->|Hk].
      * rewrite lookup_insert_eq. intros [= <-] Hstat. apply (approved_same _ _ (dr_case resp)); [done..|].
        apply Happ. congruence.
      * rewrite lookup_insert_ne by done. intros Hrow Hstat. eapply approved_grows, Hinv; eauto.
Qed.

(** What may happen between calls: role assignments, delegations, principals and
    identities, the policy plane, transaction records, obligations and the outbox
    change freely. *)
Record environment (db db' : ApiDb) : Prop := {
  ev_exec : a_exec db' = a_exec db;
  ev_snapshots : u_snapshots (a_uow db') = u_snapshots (a_uow db);
  ev_ingress : u_ingress (a_uow db') = u_ingress (a_uow db);
  ev_governance : u_governance (a_uow db') = u_governance (a_uow db);
  ev_bindings : decision_bindings (a_authority db') = decision_bindings (a_authority db);
  ev_satisfactions : satisfactions (a_authority db') = satisfactions (a_authority db);
}.

Inductive api_step (db db' : ApiDb) : Prop :=
  | step_call call request ids clock (Hc : db' = after_call call request ids clock db)
  | step_environment (He : environment db db').

Lemma environment_grows db db' : environment db db' -> grows (a_uow db) (a_uow db').
Proof. intros [Hx _ Hi _ Hb Hs]. unfold a_exec, a_authority in *. split; rewrite ?Hx, ?Hi, ?Hb, ?Hs; done. Qed.

Lemma api_step_inv db db' : api_step db db' -> api_inv db -> api_inv db'.
Proof.
  intros [call request ids clock ->|He] Hinv.
  - induction (call_writes call request ids clock db) as [|db1 db2 db3 Hw _ IH]; [done|]. by apply IH, (write_inv db1).
  - pose proof (environment_grows _ _ He) as Hg. destruct He as [Hx _ _ _ _ _].
    split; rewrite Hx; [apply Hinv|]. intros k row Hk Hs. eapply approved_grows, Hinv; eauto.
Qed.

(** C11: Every case the service authorizes is approved, whatever the calls: in every
    state reached from one without cases and decisions, by any sequence of calls
    and of changes to roles, policies and deliveries between them, a case that is
    authorized has a stored approval of its current epoch and policy: one recorded
    approving decision per role its policy evaluation requires. *)
Theorem authorized_cases_are_approved db0 db k row :
  x_cases (a_exec db0) = ∅ -> x_decisions (a_exec db0) = ∅ -> rtc api_step db0 db ->
  x_cases (a_exec db) !! k = Some row -> c_status (cr_case row) = AUTHORIZED ->
  approved (a_uow db) k (cr_case row).
Proof.
  intros Hc Hd Hrun. assert (Hinv : api_inv db0).
  { split; rewrite ?Hc, ?Hd; intros ? ?; by rewrite lookup_empty. }
  clear Hc Hd. induction Hrun as [|db1 db2 db3 Hs _ IH]; [apply Hinv|]. apply IH. by apply (api_step_inv db1).
Qed.

(** ** Replayed ingress events *)

Lemma write_grows db db' : call_write db db' -> grows (a_uow db) (a_uow db').
Proof.
  intros [u k c [Hg _] _ _ ->|case_id payload request ids clock resp []]; [done|]. subst db'.
  destruct (decision_wrote _ _ _ _ _ _ role _ _ _ _ _ Hcommitted) as ((Hg & _) & _); [by rewrite Hdecision|done].
Qed.

Lemma call_grows call request ids clock db : grows (a_uow db) (a_uow (after_call call request ids clock db)).
Proof.
  induction (call_writes call request ids clock db) as [|db1 db2 db3 Hw _ IH]; [done|].
  etransitivity; [by apply write_grows|done].
Qed.

Lemma api_steps_grow db db' : rtc api_step db db' -> grows (a_uow db) (a_uow db').
Proof.
  induction 1 as [|db1 db2 db3 Hs _ IH]; [done|]. etransitivity; [|exact IH].
  destruct Hs as [call request ids clock ->|He]; [apply call_grows|by apply environment_grows].
Qed.

(** A creation whose event has a receipt replies from it or errs. *)
Lemma create_taken payload request ids clock db r db' id receipt :
  cb_source_event_id payload = Some id -> get_ingress_receipt (u_ingress (a_uow db)) id = Some receipt ->
  create_onboarding settings parse_onboarding payload request ids clock db = (r, db') ->
  db' = db /\ forall resp, r = Reply resp ->
    exists actor, authenticate settings (a_authority db) request (clock 0%nat) = Reply actor /\
      get_case (a_exec db) (ir_case_id receipt) = Ok (Some (or_case resp)) /\
      c_requester_principal_id (or_case resp) = p_principal_id (ap_principal actor).
Proof.
  intros Hid Hr. unfold create_onboarding. intros Hrun.
  peel Hrun as [[-> Hn]|(actor & [Ha _]%view_Reply & Hrun)]; [split; [done|]; intros resp ->; by destruct (Hn resp)|].
  rewrite Hid in Hrun. peel Hrun as [[-> Hn]|(existing & [He _]%view_Reply & Hrun)];
    [split; [done|]; intros resp ->; by destruct (Hn resp)|].
  rewrite Hr in He. apply reply_bind_Reply in He as (found & Hf%uncaught_Reply & He). destruct found as [c|]; [|done].
  case_bool_decide as Hreq; [done|]. apply reply_bind_Reply in He as (latest & _ & He).
  destruct latest as [e|]; [|done]. injection He as <-. injection Hrun as <- <-. split; [done|].
  intros resp [= <-]. exists actor. by split_and!.
Qed.

(** A creation that replies for a new event has stored its receipt. *)
Lemma existing_none id requester db :
  get_ingress_receipt (u_ingress (a_uow db)) id = None ->
  existing_onboarding_response id requester db = (Reply None, db).
Proof. intros Hn. unfold existing_onboarding_response, view. by rewrite Hn. Qed.

Lemma create_or_existing_new payload administrative_request original requester now db existing db' id :
  cb_source_event_id payload = Some id -> get_ingress_receipt (u_ingress (a_uow db)) id = None ->
  create_or_existing payload administrative_request original requester now db = (Reply existing, db') ->
  existing = None /\ exists u, db' = set_uow db u /\
    uow_create_case (a_uow db) administrative_request original (Some id) now = Ok u.
Proof.
  intros Hid Hnone. unfold create_or_existing. rewrite Hid.
  destruct (uow_create_case _ _ _ _ _) as [u|e] eqn:Hu; [intros [= <- <-]; split; [done|]; by exists u|].
  assert (Hnone' : get_ingress_receipt (u_ingress (a_uow db)) (strip id) = None)
    by (unfold get_ingress_receipt in *; by rewrite strip_strip).
  unfold hbind. cbn [default]. rewrite (existing_none _ _ _ Hnone), (existing_none _ _ _ Hnone').
  destruct (is_class DuplicateIngressEvent _); [done|]. by destruct (is_class IntegrityError _).
Qed.

Lemma create_receipt payload request ids clock db resp db' id :
  cb_source_event_id payload = Some id -> get_ingress_receipt (u_ingress (a_uow db)) id = None ->
  create_onboarding settings parse_onboarding payload request ids clock db = (Reply resp, db') ->
  exists receipt, get_ingress_receipt (u_ingress (a_uow db')) id = Some receipt /\
    ir_case_id receipt = c_case_id (or_case resp).
Proof.
  intros Hid Hnone. unfold create_onboarding. intros Hrun. replied Hrun as (actor & _ & Hrun).
  rewrite Hid in Hrun. replied Hrun as (existing & He & Hrun). rewrite (existing_none _ _ _ Hnone) in He.
  injection He as <-. replied Hrun as (policy & _ & Hrun). replied Hrun as (original & _ & Hrun).
  unfold hbind in Hrun at 1. destruct (create_or_existing _ _ _ _ _ db) as [[existing|? ?|?] db1] eqn:Hc; try done.
  destruct (create_or_existing_new _ _ _ _ _ _ _ _ _ Hid Hnone Hc) as (-> & u & -> & Hu).
  apply uow_create_Ok in Hu as (_ & _ & _ & _ & Hi). unfold evaluate_created in Hrun.
  replied Hrun as (ready & [Hready%uncaught_Reply _]%view_Reply & Hrun).
  replied Hrun as (evaluation & _ & Hrun). replied Hrun as (c & [Hcase%uncaught_Reply _]%view_Reply & Hrun).
  apply commit_bind in Hrun as [[_ Hn]|(u' & Hu' & Hrun)]; [by destruct (Hn resp)|].
  injection Hrun as <- <-. unfold get_ingress_receipt. cbn. apply policy_wrote in Hu' as Hw. destruct Hw as [[[_ _ _ _ Hg] _] _].
  eexists. split; [apply Hg; cbn; rewrite Hi; apply lookup_insert_eq|]. cbn.
  apply (apply_op_frame OpStartPolicyEvaluation) in Hready as (Hr & _).
  apply (apply_op_frame (OpApplyPolicyEvaluation evaluation)) in Hcase as (Hc' & _). congruence.
Qed.

(** An ingress event creates one case: once a creation under a source event id
    has replied, every later creation under that id, however it is padded with
    blanks and whatever its body, leaves the database as it is, and any reply is
    the stored case that the first one created, to its own requester only. *)
Theorem replayed_creation_changes_nothing payload request ids clock db resp db1 id
    db2 payload' request' ids' clock' id' r db3 :
  cb_source_event_id payload = Some id -> get_ingress_receipt (u_ingress (a_uow db)) id = None ->
  create_onboarding settings parse_onboarding payload request ids clock db = (Reply resp, db1) ->
  rtc api_step db1 db2 -> cb_source_event_id payload' = Some id' -> strip id' = strip id ->
  create_onboarding settings parse_onboarding payload' request' ids' clock' db2 = (r, db3) ->
  db3 = db2 /\ forall resp', r = Reply resp' ->
    exists actor, authenticate settings (a_authority db2) request' (clock' 0%nat) = Reply actor /\
      get_case (a_exec db2) (c_case_id (or_case resp)) = Ok (Some (or_case resp')) /\
      c_requester_principal_id (or_case resp') = p_principal_id (ap_principal actor).
Proof.
  intros Hid Hnone Hcreate Hrun Hid' Hstrip Hagain.
  destruct (create_receipt _ _ _ _ _ _ _ _ Hid Hnone Hcreate) as (receipt & Hr & <-).
  eapply create_taken; [exact Hid'| |exact Hagain]. unfold get_ingress_receipt in *. rewrite Hstrip.
  by apply (gr_ingress _ _ (api_steps_grow _ _ Hrun)).
Qed.

(** ** Facts of a closed case *)

(** The refusal to replace the facts of a closed case is not handled: the
    transition is computed before the guarded commit, so a permitted attestation
    on a completed or cancelled onboarding case ends in an unhandled
    [TransitionError], never in the conflict reply the endpoint gives to one
    raised by the commit. *)
Theorem closed_case_refusal_is_unhandled case_id payload request ids clock db actor c policy :
  open_case settings case_id FACTS_ATTEST request clock db = (Reply (actor, c), db) ->
  c_case_kind c = "employee-onboarding" -> c_subject_ref c = onf_employee_ref (rb_facts payload) ->
  terminal (c_status c) = true ->
  current_onboarding_policy parse_onboarding (clock 2%nat) db = (Reply policy, db) ->
  replace_onboarding_facts settings parse_onboarding case_id payload request ids clock db
    = (Uncaught (Exn TransitionError "terminal case cannot replace current facts"), db).
Proof.
  intros Hopen Hkind Hsubject Hterm Hpolicy. unfold replace_onboarding_facts. unfold hbind at 1. rewrite Hopen.
  rewrite bool_decide_eq_false_2 by (intros Hn; by apply Hn). rewrite bool_decide_eq_false_2 by (intros Hn; by apply Hn).
  unfold hbind at 1. rewrite Hpolicy. unfold hbind at 1, view at 1, replace_facts_for_reevaluation. by rewrite Hterm.
Qed.
End correct.
