(* ===== verification/Execution.v ===== *)
(** * The verified obligation executor, [verified_obligation_execution.py]

    The generic driver of authorized cases: dispatch every planned effect,
    reconcile unknown outcomes by observing reality, record realizations and
    confirmed outcomes, and complete the case when the assessment is satisfied.
    What differs between domains is a record of hooks, the overridable methods
    of [OnboardingExecutionEngine]; the provider is a parameter, the protocol
    [EffectProvider].  The world holds every repository the engine reaches, the
    provider plane, the trace of the calls made to it and the clock. *)

From stdpp Require Import base gmap strings list.
From Stdlib Require Import ZArith Lia.
From S2P Require Import Prelude Python CPython Store Domain Policy Authority Lifecycle Obligations.
From S2P Require Import Completion Verification PolicyPlane Persistence Transactions Governance.
From S2P Require Import AuthorityLifecycle Transfer Machine.

Open Scope Z_scope.
Open Scope orch_scope.
Open Scope machine_scope.

(** ** The provider protocol *)

Class EffectProvider (P : Type) := {
  provider_execute : P -> EffectRecord -> pydict -> result ProviderExecutionResult * P;
  provider_observe : P -> EffectRecord -> result RealityObservation * P;
  (** what the bridge of a Kernel cut-over provider prepares for a linked
      effect; any other provider prepares nothing *)
  provider_prepare : P -> AdministrativeCase -> AdministrativeObligation -> GovernanceBasis ->
    result unit * P;
}.

(** What the engines rely on: an exception of the provider is not one of the
    engine's own signals. *)
Class ProviderContract (P : Type) `{EffectProvider P} : Prop :=
  execute_raises p effect payload e p' :
    provider_execute p effect payload = (Err e, p') -> exn_cls e <> FinancialQualificationPending.

(** A call made to the provider. *)
Inductive ProviderCall :=
  | Executed (effect_id : uuid) (payload : pydict)
  | Observed (effect_id : uuid)
  | Prepared (obligation_id : uuid).

(** ** The world *)

Record World (P : Type) := mkWorld {
  w_exec : ExecDb;
  w_obligations : ObligationDb;
  w_authority : AuthorityDb;
  w_governance : gmap uuid GovernanceBasis;
  w_policies : PolicyDb;
  w_transactions : TxnDb;
  w_transfers : TransferDb;
  w_lifecycle : EventDb;
  w_provider : P;
  w_calls : list ProviderCall;
  w_ticks : nat;
}.
Arguments mkWorld {P}.
Arguments w_exec {P}. Arguments w_obligations {P}. Arguments w_authority {P}.
Arguments w_governance {P}. Arguments w_policies {P}. Arguments w_transactions {P}.
Arguments w_transfers {P}. Arguments w_lifecycle {P}. Arguments w_provider {P}.
Arguments w_calls {P}. Arguments w_ticks {P}.

Definition set_exec {P} (w : World P) (x : ExecDb) : World P :=
  mkWorld x (w_obligations w) (w_authority w) (w_governance w) (w_policies w) (w_transactions w)
    (w_transfers w) (w_lifecycle w) (w_provider w) (w_calls w) (w_ticks w).
Definition set_obligations {P} (w : World P) (o : ObligationDb) : World P :=
  mkWorld (w_exec w) o (w_authority w) (w_governance w) (w_policies w) (w_transactions w)
    (w_transfers w) (w_lifecycle w) (w_provider w) (w_calls w) (w_ticks w).
Definition set_governance {P} (w : World P) (g : gmap uuid GovernanceBasis) : World P :=
  mkWorld (w_exec w) (w_obligations w) (w_authority w) g (w_policies w) (w_transactions w)
    (w_transfers w) (w_lifecycle w) (w_provider w) (w_calls w) (w_ticks w).
Definition set_authority {P} (w : World P) (a : AuthorityDb) : World P :=
  mkWorld (w_exec w) (w_obligations w) a (w_governance w) (w_policies w) (w_transactions w)
    (w_transfers w) (w_lifecycle w) (w_provider w) (w_calls w) (w_ticks w).
Definition set_transfers {P} (w : World P) (t : TransferDb) : World P :=
  mkWorld (w_exec w) (w_obligations w) (w_authority w) (w_governance w) (w_policies w) (w_transactions w)
    t (w_lifecycle w) (w_provider w) (w_calls w) (w_ticks w).
Definition set_lifecycle {P} (w : World P) (s : AuthorityDb * EventDb) : World P :=
  mkWorld (w_exec w) (w_obligations w) s.1 (w_governance w) (w_policies w) (w_transactions w)
    (w_transfers w) s.2 (w_provider w) (w_calls w) (w_ticks w).
Definition set_provider {P} (w : World P) (p : P) (call : ProviderCall) : World P :=
  mkWorld (w_exec w) (w_obligations w) (w_authority w) (w_governance w) (w_policies w) (w_transactions w)
    (w_transfers w) (w_lifecycle w) p (w_calls w ++ [call]) (w_ticks w).
Definition set_ticks {P} (w : World P) (n : nat) : World P :=
  mkWorld (w_exec w) (w_obligations w) (w_authority w) (w_governance w) (w_policies w) (w_transactions w)
    (w_transfers w) (w_lifecycle w) (w_provider w) (w_calls w) n.

(** The link table supplies an effect's lineage. *)
Definition w_links {P} (w : World P) : gmap uuid EffectObligationLink :=
  effect_obligation_links (w_obligations w).

Definition snapshot_facts (c : AdministrativeCase) : pydict :=
  match c_fact_snapshot c with Some s => fs_facts s | None => [] end.

Definition ObservationAvailability_value (a : ObservationAvailability) : string :=
  match a with
  | AVAILABLE => "available" | UNAVAILABLE => "unavailable" | AVAILABILITY_UNKNOWN => "unknown"
  end.
Definition ObservationPresence_value (p : ObservationPresence) : string :=
  match p with PRESENT => "present" | ABSENT => "absent" | PRESENCE_UNKNOWN => "unknown" end.
Definition ObservationFreshness_value (f : ObservationFreshness) : string :=
  match f with CURRENT => "current" | STALE => "stale" | FRESHNESS_UNKNOWN => "unknown" end.
Definition VerificationDisposition_value (d : VerificationDisposition) : string :=
  match d with
  | V_VERIFIED => "verified" | V_ABSENT => "absent" | V_MISMATCH => "mismatch"
  | V_UNAVAILABLE => "unavailable" | V_UNKNOWN => "unknown" | V_STALE => "stale"
  end.

(** [next((item for item in items if p(item)), None)] *)
Definition first_where {A} (p : A -> bool) (items : list A) : option A := head (List.filter p items).

(** [_obligation_for_effect] *)
Definition obligation_for_effect (effect_id : uuid) (obligation_set : option AdministrativeObligationSet)
    (links : list EffectObligationLink) : option AdministrativeObligation :=
  match obligation_set with
  | None => None
  | Some s =>
      match first_where (fun l => bool_decide (ln_effect_id l = effect_id)) links with
      | None => None
      | Some l => first_where (fun o => bool_decide (ob_obligation_id o = ln_obligation_id l))
                    (os_obligations s)
      end
  end.

Inductive DispatchState := dispatch_failed | dispatch_outcome_unknown | dispatch_succeeded.
Inductive VerifyState := verify_mismatch | verify_incomplete | verify_verified.

#[global] Instance DispatchState_eq_dec : EqDecision DispatchState. Proof. solve_decision. Defined.
#[global] Instance VerifyState_eq_dec : EqDecision VerifyState. Proof. solve_decision. Defined.

Section executor.
Context `{Platform} {P : Type} `{EffectProvider P} (clock : nat -> instant) (enforced : bool).

Local Abbreviation M := (M (World P)).

(** ** Steps *)

(** [utcnow()] *)
Definition utcnow : M instant := fun w => (Ok (clock (w_ticks w)), set_ticks w (S (w_ticks w))).

Definition execute (effect : EffectRecord) (payload : pydict) : M ProviderExecutionResult := fun w =>
  let '(r, p) := provider_execute (w_provider w) effect payload in
  (r, set_provider w p (Executed (ef_effect_id effect) payload)).

Definition observe (effect : EffectRecord) : M RealityObservation := fun w =>
  let '(r, p) := provider_observe (w_provider w) effect in
  (r, set_provider w p (Observed (ef_effect_id effect))).

(** A transaction on the case and execution tables. *)
Definition on_exec {A} (f : World P -> result (A * ExecDb)) : M A :=
  transact (fun w => let! (a, x) := f w in Ok (a, set_exec w x)).
Definition on_obligations {A} (f : World P -> result (A * ObligationDb)) : M A :=
  transact (fun w => let! (a, o) := f w in Ok (a, set_obligations w o)).
Definition on_governance {A} (f : World P -> result (A * gmap uuid GovernanceBasis)) : M A :=
  transact (fun w => let! (a, g) := f w in Ok (a, set_governance w g)).

(** A transaction on the authority tables, on them and the lifecycle events, on
    the transfer requirements. *)
Definition on_authority {A} (f : World P -> result (A * AuthorityDb)) : M A :=
  transact (fun w => let! (a, d) := f w in Ok (a, set_authority w d)).
Definition on_lifecycle {A} (f : World P -> result (A * (AuthorityDb * EventDb))) : M A :=
  transact (fun w => let! (a, s) := f w in Ok (a, set_lifecycle w s)).
Definition on_transfers {A} (f : World P -> result (A * TransferDb)) : M A :=
  transact (fun w => let! (a, t) := f w in Ok (a, set_transfers w t)).

Definition prepare (c : AdministrativeCase) (o : AdministrativeObligation) (b : GovernanceBasis) : M unit :=
  fun w => let '(r, p) := provider_prepare (w_provider w) c o b in
           (r, set_provider w p (Prepared (ob_obligation_id o))).

Definition require_case (case_id : uuid) : M AdministrativeCase :=
  do! found := reads (fun w => get_case (w_exec w) case_id) in
  match found with
  | None => throw KeyError ("case " +:+ uuid_str case_id +:+ " not found")
  | Some c => ret c
  end.

Definition persist_case_transition (before after : AdministrativeCase) (event_type : string)
    (payload : pydict) : M unit :=
  on_exec (fun w => let! x := update_case (w_exec w) after (c_version before) event_type payload in
                    Ok (tt, x)).

(** A transition of [service.py] or [execution_transitions.py] at the clock. *)
Definition transition (f : instant -> result AdministrativeCase) : M AdministrativeCase :=
  do! now := utcnow in lift (f now).

Definition stable_id (kind : string) (c : AdministrativeCase) (parts : list string) : uuid :=
  uuid5 ("administrative:" +:+ kind +:+ ":" +:+ uuid_str (c_case_id c) +:+ ":"
         +:+ int_str (c_authority_epoch c) +:+ ":" +:+ join ":" parts).

Definition update_effect_status (effect_id : uuid) (status : EffectStatus)
    (provider_ref : option string) : M EffectRecord :=
  do! now := utcnow in
  on_exec (fun w => set_effect_status (w_exec w) (w_links w) effect_id status provider_ref now).

(** [owner.repository.get_effect(planned.effect_id) or planned] *)
Definition current_effect (planned : EffectRecord) : M EffectRecord :=
  gets (fun w => default planned (get_effect (w_exec w) (w_links w) (ef_effect_id planned))).

Definition reopen_for_governance (c : AdministrativeCase) (v : GovernanceValidation)
  : M AdministrativeCase :=
  do! reopened := transition (require_reopen c GOVERNANCE_STALE) in
  also! persist_case_transition c reopened "case.governance_revalidation_required"
        [("reasons", VList (VStr <$> gv_reasons v))] then
  ret reopened.

Definition reopen_for_mismatch (c : AdministrativeCase) : M AdministrativeCase :=
  do! reopened := transition (require_reopen c REALITY_MISMATCH) in
  also! persist_case_transition c reopened "case.reopen_required"
        [("reason", VStr "reality_mismatch")] then
  ret reopened.

(** ** The hooks of the owning engine *)

Record Hooks := mkHooks {
  plan_current_effects : AdministrativeCase -> M unit;
  validate_current_governance : AdministrativeCase -> M (option GovernanceValidation);
  verify_observation : AdministrativeCase -> EffectRecord -> RealityObservation -> pydict ->
    option pydict -> result SemanticVerificationResult;
  payload_for_effect : EffectRecord -> list EffectRecord -> pydict -> M (option pydict);
  effect_dispatch_order : EffectRecord -> EffectRecord -> comparison;
  assess_completion : AdministrativeObligationSet -> list EffectRecord -> list ConfirmedOutcome ->
    list EffectRealizationAssessment -> list EffectObligationLink -> M CompletionAssessment;
  assess_completion_without_obligations : list EffectRecord -> list ConfirmedOutcome ->
    list EffectRealizationAssessment -> result CompletionAssessment;
  handle_completion_blocked : AdministrativeCase -> CompletionAssessment -> M AdministrativeCase;
}.

(** ** Dispatch *)

Section drive.
Context (owner : Hooks) (c : AdministrativeCase) (effects : list EffectRecord)
  (obligation_set : option AdministrativeObligationSet) (links : list EffectObligationLink).

(** What the observation of an effect already sent decides: [Some unknown] to
    go on to the next effect, [None] to dispatch this one. *)
Definition reconcile_dispatched (effect : EffectRecord) : M (option bool) :=
  do! observation := observe effect in
  do! verification := lift (verify_observation owner c effect observation (snapshot_facts c)
                              (ob_expected_postcondition
                                 <$> obligation_for_effect (ef_effect_id effect) obligation_set links)) in
  match sv_disposition verification with
  | V_VERIFIED =>
      also! update_effect_status (ef_effect_id effect) SUCCEEDED (ro_provider_ref observation) then
      ret (Some false)
  | V_MISMATCH =>
      also! update_effect_status (ef_effect_id effect) OUTCOME_UNKNOWN (ro_provider_ref observation) then
      ret (Some true)
  | V_UNAVAILABLE | V_UNKNOWN | V_STALE => ret (Some true)
  | V_ABSENT =>
      if bool_decide (ef_status effect = OUTCOME_UNKNOWN) then ret (Some true) else ret None
  end.

(** One execution, its result recorded: [inl] is the early return of
    ["failed"], [inr] tells whether the outcome is unknown. *)
Definition execute_effect (effect : EffectRecord) (payload : pydict) : M (unit + bool) :=
  do! outcome := execute effect payload in
  match px_status outcome with
  | PX_SUCCEEDED =>
      also! update_effect_status (ef_effect_id effect) SUCCEEDED (px_provider_ref outcome) then
      ret (inr false)
  | PX_OUTCOME_UNKNOWN =>
      also! update_effect_status (ef_effect_id effect) OUTCOME_UNKNOWN (px_provider_ref outcome) then
      ret (inr true)
  | PX_FAILED =>
      also! update_effect_status (ef_effect_id effect) EFFECT_FAILED (px_provider_ref outcome) then
      ret (inl tt)
  end.

Definition dispatch_effect (effect : EffectRecord) : M (unit + bool) :=
  also! update_effect_status (ef_effect_id effect) DISPATCHED None then
  do! dispatch_payload := payload_for_effect owner effect effects (snapshot_facts c) in
  match dispatch_payload with
  | None => ret (inr true)
  | Some payload => execute_effect effect payload
  end.

Definition drive_effect (planned : EffectRecord) : M (unit + bool) :=
  do! effect := current_effect planned in
  match ef_status effect with
  | EFFECT_FAILED => ret (inl tt)
  | SUCCEEDED => ret (inr false)
  | DISPATCHED | OUTCOME_UNKNOWN =>
      do! decided := reconcile_dispatched effect in
      match decided with
      | Some unknown => ret (inr unknown)
      | None => dispatch_effect effect
      end
  | PLANNED => dispatch_effect effect
  end.

Fixpoint drive_loop (queue : list EffectRecord) (saw_unknown : bool) : M DispatchState :=
  match queue with
  | [] => ret (if saw_unknown then dispatch_outcome_unknown else dispatch_succeeded)
  | planned :: rest =>
      do! step := drive_effect planned in
      match step with
      | inl _ => ret dispatch_failed
      | inr unknown => drive_loop rest (saw_unknown || unknown)
      end
  end.

Definition drive_dispatch : M DispatchState :=
  drive_loop (sort_by (effect_dispatch_order owner) effects) false.

(** ** Verification *)

Definition put_outcome_step (o : ConfirmedOutcome) : M ConfirmedOutcome :=
  do! o := lift (ConfirmedOutcome_validate o) in
  on_exec (fun w => put_outcome (w_exec w) o).

Definition confirmed_outcome (effect : EffectRecord) (r : EffectRealizationAssessment)
  : ConfirmedOutcome :=
  mkConfirmedOutcome (stable_id "outcome" c [uuid_str (ef_effect_id effect)]) (c_case_id c)
    (ef_case_version effect) (c_authority_epoch c) (ef_effect_id effect) (er_assessment_id r)
    (effect_outcome_kind effect) (er_evidence r) (er_assessed_at r).

Definition observation_evidence (effect : EffectRecord) (observation : RealityObservation)
    (verification : SemanticVerificationResult) (obligation : option AdministrativeObligation)
  : EvidenceRef :=
  mkEvidenceRef (stable_id "evidence" c [uuid_str (ef_effect_id effect)])
    ("reality:" +:+ ef_target_system effect) (ef_target_system effect) (ro_observed_at observation)
    (ro_provider_ref observation) (ro_digest observation)
    [("state", VDict (ro_state observation));
     ("availability", VStr (ObservationAvailability_value (ro_availability observation)));
     ("presence", VStr (ObservationPresence_value (ro_presence observation)));
     ("freshness", VStr (ObservationFreshness_value (ro_freshness observation)));
     ("semantic_verification",
        VDict [("disposition", VStr (VerificationDisposition_value (sv_disposition verification)));
               ("reason", VStr (sv_reason verification));
               ("differences", VDict (sv_differences verification))]);
     ("obligation_id", opt_uuid (ob_obligation_id <$> obligation));
     ("governance_basis_id", opt_uuid (ob_governance_basis_id <$> obligation))].

(** A fresh read-back of one effect, recorded when it verifies: [inl] is the
    early return of ["mismatch"], [inr] tells whether it is incomplete. *)
Definition verify_fresh (effect : EffectRecord) (obligation : option AdministrativeObligation)
  : M (unit + bool) :=
  do! observation := observe effect in
  do! verification := lift (verify_observation owner c effect observation (snapshot_facts c)
                              (ob_expected_postcondition <$> obligation)) in
  match sv_disposition verification with
  | V_MISMATCH => ret (inl tt)
  | V_VERIFIED =>
      do! assessment := lift (EffectRealizationAssessment_validate
        (mkEffectRealizationAssessment (stable_id "realization" c [uuid_str (ef_effect_id effect)])
           (ef_effect_id effect) VERIFIED
           [observation_evidence effect observation verification obligation]
           (ro_observed_at observation))) in
      do! assessment := on_exec (fun w => put_realization (w_exec w) assessment (c_case_id c)) in
      also! put_outcome_step (confirmed_outcome effect assessment) then
      ret (inr false)
  | _ => ret (inr true)
  end.

(** The outcome of one effect: already confirmed, confirmed from a persisted
    realization, or from a fresh read-back. *)
Definition confirm_effect (effect : EffectRecord) (obligation : option AdministrativeObligation)
  : M (unit + bool) :=
  do! existing_outcome := reads (fun w =>
    get_outcome (w_exec w) (stable_id "outcome" c [uuid_str (ef_effect_id effect)])) in
  match existing_outcome with
  | Some o =>
      if bool_decide (co_case_id o <> c_case_id c)
         || bool_decide (co_authority_epoch o <> c_authority_epoch c)
         || bool_decide (co_effect_id o <> ef_effect_id effect)
      then throw TransitionError "persisted outcome does not match current effect authority"
      else ret (inr false)
  | None =>
      do! existing_realization := reads (fun w =>
        get_realization (w_exec w) (stable_id "realization" c [uuid_str (ef_effect_id effect)])) in
      match existing_realization with
      | Some r =>
          if bool_decide (er_effect_id r <> ef_effect_id effect)
             || bool_decide (er_disposition r <> VERIFIED)
          then throw TransitionError "persisted realization does not verify the current effect"
          else
            also! put_outcome_step (confirmed_outcome effect r) then
            ret (inr false)
      | None => verify_fresh effect obligation
      end
  end.

Definition verify_effect (planned : EffectRecord) : M (unit + bool) :=
  do! effect := current_effect planned in
  let obligation := obligation_for_effect (ef_effect_id effect) obligation_set links in
  match obligation_set, obligation with
  | Some _, None => ret (inl tt)
  | _, _ => confirm_effect effect obligation
  end.

Fixpoint verify_loop (queue : list EffectRecord) (incomplete : bool) : M VerifyState :=
  match queue with
  | [] => ret (if incomplete then verify_incomplete else verify_verified)
  | planned :: rest =>
      do! step := verify_effect planned in
      match step with
      | inl _ => ret verify_mismatch
      | inr skipped => verify_loop rest (incomplete || skipped)
      end
  end.

Definition verify_all : M VerifyState := verify_loop effects false.
End drive.

(** ** The run of a case *)

(** The engine that owns the executor: the hooks, with its [_drive_dispatch]
    and [_verify_all]. *)
Record Owner := mkOwner {
  hooks :> Hooks;
  owner_drive_dispatch : AdministrativeCase -> list EffectRecord -> option AdministrativeObligationSet ->
    list EffectObligationLink -> M DispatchState;
  owner_verify_all : AdministrativeCase -> list EffectRecord -> option AdministrativeObligationSet ->
    list EffectObligationLink -> M VerifyState;
}.

Section run.
Context (owner : Owner).

(** [if governance is not None and not governance.valid: return reopen]: an
    early return is [inl], going on is [inr]. *)
Definition governance_gate (c : AdministrativeCase) : M (AdministrativeCase + unit) :=
  do! governance := validate_current_governance owner c in
  match governance with
  | Some v =>
      if negb (gv_valid v) then do! r := reopen_for_governance c v in ret (inl r)
      else ret (inr tt)
  | None => ret (inr tt)
  end.

(** The [AUTHORIZED] block. *)
Definition start_phase (c : AdministrativeCase) : M AdministrativeCase :=
  if bool_decide (c_status c = AUTHORIZED) then
    also! plan_current_effects owner c then
    do! executing := transition (begin_execution c) in
    also! persist_case_transition c executing "case.execution_started" [] then
    ret executing
  else ret c.

(** The [EXECUTING] block. *)
Definition dispatch_phase (case_id : uuid) (c : AdministrativeCase) (effects : list EffectRecord)
    (obligation_set : option AdministrativeObligationSet) (links : list EffectObligationLink)
  : M (AdministrativeCase + AdministrativeCase) :=
  if bool_decide (c_status c = EXECUTING) then
    do! dispatch_state := owner_drive_dispatch owner c effects obligation_set links in
    do! c := require_case case_id in
    match dispatch_state with
    | dispatch_failed =>
        do! failed := transition (fail_execution c) in
        also! persist_case_transition c failed "case.execution_failed"
              [("reason", VStr "one or more effects failed definitively")] then
        ret (inl failed)
    | dispatch_outcome_unknown =>
        do! reconciling := transition (begin_reconciliation c) in
        also! persist_case_transition c reconciling "case.reconciliation_started"
              [("reason", VStr "one or more effect outcomes are unknown or not observable")] then
        ret (inr reconciling)
    | dispatch_succeeded =>
        do! verifying := transition (begin_verification c) in
        also! persist_case_transition c verifying "case.verification_started" [] then
        ret (inr verifying)
    end
  else ret (inr c).

(** The [RECONCILING] block. *)
Definition reconcile_phase (case_id : uuid) (c : AdministrativeCase) (effects : list EffectRecord)
    (obligation_set : option AdministrativeObligationSet) (links : list EffectObligationLink)
  : M (AdministrativeCase + AdministrativeCase) :=
  if bool_decide (c_status c = RECONCILING) then
    do! outcome := owner_verify_all owner c effects obligation_set links in
    match outcome with
    | verify_mismatch => do! r := reopen_for_mismatch c in ret (inl r)
    | verify_incomplete => do! r := require_case case_id in ret (inl r)
    | verify_verified =>
        do! resumed := transition (resume_verification c) in
        also! persist_case_transition c resumed "case.reconciliation_resolved" [] then
        ret (inr resumed)
    end
  else ret (inr c).

Definition assess_phase (c : AdministrativeCase) (effects : list EffectRecord)
    (obligation_set : option AdministrativeObligationSet) (links : list EffectObligationLink)
    (outcomes : list ConfirmedOutcome) : M CompletionAssessment :=
  do! realizations := reads (fun w =>
    list_realizations (w_exec w) (c_case_id c) (Some (c_authority_epoch c))) in
  match obligation_set with
  | None =>
      if enforced then throw TransitionError "governed completion requires an obligation set"
      else lift (assess_completion_without_obligations owner effects outcomes realizations)
  | Some s => assess_completion owner s effects outcomes realizations links
  end.

Definition complete_phase (c : AdministrativeCase) (effects : list EffectRecord)
    (outcomes : list ConfirmedOutcome) (completion : CompletionAssessment) : M AdministrativeCase :=
  do! completed := transition (complete_verified_case c (Z.of_nat (length effects))
                                 (Z.of_nat (length outcomes))) in
  also! persist_case_transition c completed "case.completed"
        [("completion_requirement_id", VStr (ca_requirement_id completion));
         ("governance_basis_id", opt_uuid (ca_governance_basis_id completion))] then
  ret completed.

(** The [VERIFYING] block. *)
Definition verify_phase (c : AdministrativeCase) (effects : list EffectRecord)
    (obligation_set : option AdministrativeObligationSet) (links : list EffectObligationLink)
  : M AdministrativeCase :=
  do! outcome := owner_verify_all owner c effects obligation_set links in
  match outcome with
  | verify_mismatch => reopen_for_mismatch c
  | verify_incomplete =>
      do! reconciling := transition (begin_reconciliation c) in
      also! persist_case_transition c reconciling "case.reconciliation_started"
            [("reason", VStr "fresh authoritative read-back did not verify every obligation")] then
      ret reconciling
  | verify_verified =>
      do! gate := governance_gate c in
      match gate with
      | inl reopened => ret reopened
      | inr _ =>
          do! outcomes := reads (fun w =>
            list_outcomes (w_exec w) (c_case_id c) (Some (c_authority_epoch c))) in
          do! completion := assess_phase c effects obligation_set links outcomes in
          if negb (ca_satisfied completion) then handle_completion_blocked owner c completion
          else complete_phase c effects outcomes completion
      end
  end.

(** The statuses [run] leaves alone. *)
Definition not_executable (s : CaseStatus) : bool :=
  bool_decide (s ∈ [COMPLETED; CANCELLED; FAILED]) ||
  bool_decide (s ∈ [RECEIVED; GATHERING_FACTS; READY_FOR_POLICY; AWAITING_DECISION;
                    REOPEN_REQUIRED; WAITING]).

Definition settle_phase (case_id : uuid) (c : AdministrativeCase) (effects : list EffectRecord)
    (obligation_set : option AdministrativeObligationSet) (links : list EffectObligationLink)
  : M AdministrativeCase :=
  do! gate := governance_gate c in
  match gate with
  | inl reopened => ret reopened
  | inr _ =>
      do! reconciled := reconcile_phase case_id c effects obligation_set links in
      match reconciled with
      | inl r => ret r
      | inr c =>
          if bool_decide (c_status c = VERIFYING) then verify_phase c effects obligation_set links
          else require_case case_id
      end
  end.

Definition drive_phase (case_id : uuid) (c : AdministrativeCase) : M AdministrativeCase :=
  do! c := start_phase c in
  do! effects := gets (fun w =>
    list_effects (w_exec w) (w_links w) (c_case_id c) (c_authority_epoch c)) in
  if is_nil effects then throw TransitionError "authorized onboarding case has no planned effects"
  else
    do! obligation_set := reads (fun w =>
      get_current (w_obligations w) (c_case_id c) (c_authority_epoch c)) in
    do! links := gets (fun w => list_links (w_obligations w) (c_case_id c) (c_authority_epoch c)) in
    do! dispatched := dispatch_phase case_id c effects obligation_set links in
    match dispatched with
    | inl r => ret r
    | inr c => settle_phase case_id c effects obligation_set links
    end.

Definition run (case_id : uuid) : M AdministrativeCase :=
  do! c := require_case case_id in
  if not_executable (c_status c) then ret c
  else
    do! gate := governance_gate c in
    match gate with
    | inl reopened => ret reopened
    | inr _ => drive_phase case_id c
    end.
End run.
End executor.
