(* ===== verification/KernelBridge.v ===== *)
(** * The Agent Kernel bridge and its effect provider,
      [integrations/kernel/bridge.py], [effect_provider.py] and [onboarding.py]

    The bridge hands a governed obligation to the Kernel step by step; the
    cut-over provider makes the Kernel's ownership of a capability exclusive.  The
    records the bridge reads from the store are those of the moment it reads:
    [records n] is what it finds at tick [n], like [clock n] is the time.
    [br_commands] logs the execution commands sent, by projection. *)

From stdpp Require Import base gmap strings list.
From Stdlib Require Import ZArith Lia.
From S2P Require Import Prelude Python CPython Uuid Store Domain Policy Authority Access Lifecycle Obligations.
From S2P Require Import Verification Transfer Derivation PolicyPlane Financial Persistence Transactions Governance Kernel Machine.
From S2P Require Import KernelClient Execution.

Open Scope Z_scope.
Open Scope orch_scope.
Open Scope machine_scope.

(** The settings the bridge reads. *)
Record KernelSettings := mkKernelSettings {
  kernel_bridge_mode : string;
  kernel_supported_revision : string;
  runtime_profile : string;
  kernel_responsibility_admission_policy_ref : string;
  external_effects_enabled : bool;
  bridge_requires_discharge : bool;   (* [require_responsibility_discharge] of the constructor *)
}.

(** The tables of the store the bridge reads. *)
Record Records := mkRecords {
  rc_exec : ExecDb;
  rc_obligations : ObligationDb;
  rc_authority : AuthorityDb;
  rc_governance : gmap uuid GovernanceBasis;
  rc_policies : PolicyDb;
  rc_transactions : TxnDb;
}.

Record Bridge (P : Type) := mkBridge {
  br_db : BridgeDb;
  br_identity : option KernelContractIdentity;
  br_refs : gmap uuid string;
  br_plane : P;
  br_commands : list (uuid * pydict);
  br_ticks : nat;
}.
Arguments mkBridge {P}. Arguments br_db {P}. Arguments br_identity {P}. Arguments br_refs {P}. Arguments br_plane {P}.
Arguments br_commands {P}. Arguments br_ticks {P}.

Definition with_db {P} (b : Bridge P) (d : BridgeDb) : Bridge P :=
  mkBridge d (br_identity b) (br_refs b) (br_plane b) (br_commands b) (br_ticks b).
Definition with_identity {P} (b : Bridge P) (i : KernelContractIdentity) : Bridge P :=
  mkBridge (br_db b) (Some i) (br_refs b) (br_plane b) (br_commands b) (br_ticks b).
Definition with_refs {P} (b : Bridge P) (r : gmap uuid string) : Bridge P :=
  mkBridge (br_db b) (br_identity b) r (br_plane b) (br_commands b) (br_ticks b).
Definition with_plane {P} (b : Bridge P) (p : P) : Bridge P :=
  mkBridge (br_db b) (br_identity b) (br_refs b) p (br_commands b) (br_ticks b).
Definition with_command {P} (b : Bridge P) (projection_id : uuid) (command : pydict) : Bridge P :=
  mkBridge (br_db b) (br_identity b) (br_refs b) (br_plane b) (br_commands b ++ [(projection_id, command)]) (br_ticks b).
Definition bridge_tick {P} (b : Bridge P) : Bridge P :=
  mkBridge (br_db b) (br_identity b) (br_refs b) (br_plane b) (br_commands b) (S (br_ticks b)).

(** A new bridge object over the same store. *)
Definition new_bridge {P} (b : Bridge P) : Bridge P :=
  mkBridge (br_db b) None ∅ (br_plane b) (br_commands b) (br_ticks b).

Section bridge.
Context `{Hplat : Platform} {P : Type} `{Hhttp : KernelHttp P} (clock : nat -> instant) (records : nat -> Records)
  (settings : KernelSettings).

Local Abbreviation B := (M (Bridge P)).

Definition bridge_now : B instant := fun b => (Ok (clock (br_ticks b)), bridge_tick b).
Definition read_records : B Records := fun b => (Ok (records (br_ticks b)), bridge_tick b).
Definition on_bridge_db {A} (f : BridgeDb -> result (A * BridgeDb)) : B A :=
  transact (fun b => let! (a, d) := f (br_db b) in Ok (a, with_db b d)).
Definition on_kernel {A} (m : M P A) : B A := fun b =>
  let '(r, p) := m (br_plane b) in (r, with_plane b p).

Definition bridge_enabled : bool := negb (bool_decide (kernel_bridge_mode settings = "disabled")).
Definition shadow_only : bool := bool_decide (kernel_bridge_mode settings = "shadow").
Definition admission_shadow : bool := bool_decide (kernel_bridge_mode settings = "admission").
Definition cutover : bool := bool_decide (kernel_bridge_mode settings = "cutover").
Definition requires_work_admission : bool := bool_decide (kernel_bridge_mode settings ∈ ["admission"; "cutover"]).

Definition owns (o : AdministrativeObligation) : result bool :=
  if cutover then let! capability := capability_for o in Ok (bool_decide (capability ∈ KERNEL_CUTOVER_CAPABILITIES))
  else Ok false.

Definition should_retry_priority_rejection (p : KernelShadowProjection) : bool :=
  requires_work_admission && bool_decide (kp_status p = KP_REJECTED)
  && bool_decide (kernel_work_admission_status (kp_work p) = Some PRIORITY_REJECTED)
  && bool_decide (kernel_admission_policy_ref (kp_work p) <> Some (kernel_responsibility_admission_policy_ref settings)).

(** ** Compatibility *)

Definition catalog_requirements : CatalogRequirements :=
  mkCatalogRequirements
    (if nonempty (strip (kernel_supported_revision settings)) then Some (strip (kernel_supported_revision settings))
     else None)
    (bool_decide (runtime_profile settings ∈ ["staging"; "production"])) requires_work_admission
    (bridge_requires_discharge settings) cutover cutover cutover.

(** What a mode requires of the contracts, cached or given. *)
Definition check_identity (i : KernelContractIdentity) : result KernelContractIdentity :=
  refuse requires_work_admission && bool_decide (ki_responsibility_work_admission_contract i = None)
    with KernelCompatibilityError saying "kernel admission/cutover mode requires responsibility-work-admission-v1";;
  refuse bridge_requires_discharge settings
         && existsb (fun '(_, actual, expected) => bool_decide (actual <> Some expected)) (discharge_contracts i)
    with KernelCompatibilityError
    saying "kernel offboarding discharge requires all responsibility discharge contracts";;
  refuse cutover && bool_decide (ki_bounded_domain_effect_execution_contract i = None)
    with KernelCompatibilityError
    saying "kernel cutover is fail-closed without bounded-domain-effect-execution-v1";;
  refuse cutover && (bool_decide (ki_bounded_domain_effect_recovery_contract i = None)
                     || bool_decide (ki_bounded_domain_effect_resolution_view i = None))
    with KernelCompatibilityError
    saying "kernel cutover is fail-closed without bounded-domain-effect recovery/resolution v1";;
  refuse cutover && bool_decide (ki_domain_effect_verification_evidence_view i = None)
    with KernelCompatibilityError
    saying "kernel cutover is fail-closed without domain-effect-verification-evidence-view-v1";;
  Ok i.

Definition compatibility : B KernelContractIdentity :=
  if negb bridge_enabled then throw KernelCompatibilityError "kernel bridge is disabled"
  else
    do! cached := gets br_identity in
    do! identity := match cached with
                    | Some i => ret i
                    | None =>
                        do! i := on_kernel (fetch_identity catalog_requirements) in
                        fun b => (Ok i, with_identity b i)
                    end in
    lift (check_identity identity).

(** ** Preparation *)

(** [client().execute(projection, grant, intent)], its command logged *)
Definition send_execution (projection : KernelShadowProjection) (grant : AdministrativeExecutionGrant)
    (intent : AdministrativeEffectIntent) : B KernelExecutionReceipt :=
  do! work_ref := lift (execution_work projection grant intent) in
  let command := execution_command work_ref grant intent in
  do! reply := (fun b =>
    let '(r, b') := on_kernel (post "/v1/domain-effects/executions" command) b in
    (r, with_command b' (kp_id projection) command)) in
  lift (execution_answer work_ref reply).

(** The last phase: execution of an admitted projection the bridge owns. *)
Definition execute_admitted (projection : KernelShadowProjection) (grant : AdministrativeExecutionGrant)
    (intent : AdministrativeEffectIntent) : B KernelShadowProjection :=
  if bool_decide (kp_status projection = KP_CUTOVER) then ret projection
  else if bool_decide (kp_status projection <> KP_ADMITTED) then
    throw KernelCompatibilityError
      ("kernel physical execution cannot continue from " +:+ KernelProjectionStatus_value (kp_status projection))
  else if given (kernel_execution_status (kp_execution projection)) then ret projection
  else if negb (external_effects_enabled settings) then ret projection
  else
    do! receipt := send_execution projection grant intent in
    also! (fun b => (Ok tt, match xc_external_operation_ref receipt with
                            | Some ref => if nonempty ref then with_refs b (<[kp_id projection := ref]> (br_refs b)) else b
                            | None => b
                            end)) then
    do! now := bridge_now in
    on_bridge_db (fun d => mark_execution d projection receipt now).

(** From the stored projection to a submitted and admitted one. *)
Definition retry_rejected (projection : KernelShadowProjection) : B KernelShadowProjection :=
  if should_retry_priority_rejection projection then
    do! now := bridge_now in
    on_bridge_db (fun d => reopen_priority_rejected d projection (kernel_responsibility_admission_policy_ref settings) now)
  else ret projection.

Definition submit_shadow (projection : KernelShadowProjection) : B KernelShadowProjection :=
  if bool_decide (kp_status projection = KP_SHADOW) then
    do! receipt := on_kernel (submit projection) in
    do! now := bridge_now in
    on_bridge_db (fun d => mark_submitted d projection receipt now)
  else ret projection.

Definition admit_submitted (projection : KernelShadowProjection) : B KernelShadowProjection :=
  if requires_work_admission && bool_decide (kp_status projection = KP_SUBMITTED) then
    do! receipt := on_kernel (admit_work projection (kernel_responsibility_admission_policy_ref settings)) in
    do! now := bridge_now in
    on_bridge_db (fun d => mark_work_admission d projection receipt now)
  else ret projection.

(** [KernelExecutionBridge.prepare] *)
Definition prepare_obligation (c : AdministrativeCase) (o : AdministrativeObligation) (g : GovernanceBasis)
    (parameter_overrides : option pydict) : B (option KernelShadowProjection) :=
  if negb bridge_enabled then ret None
  else
    do! identity := compatibility in
    do! derived := lift (derive_execution_grant c o g) in
    do! grant := on_bridge_db (fun d => put_grant d derived) in
    do! derived := lift (derive_effect_intent c grant parameter_overrides) in
    do! intent := on_bridge_db (fun d => put_intent d derived) in
    do! planned := lift (project_to_kernel grant intent identity) in
    do! projection := on_bridge_db (fun d => put_projection d planned) in
    do! projection := retry_rejected projection in
    do! projection := submit_shadow projection in
    if shadow_only then ret (Some projection)
    else
      do! projection := admit_submitted projection in
      if admission_shadow || bool_decide (kp_status projection = KP_REJECTED) then ret (Some projection)
      else if negb cutover then ret (Some projection)
      else
        do! owned := lift (owns o) in
        if negb owned then ret (Some projection)
        else
          do! projection := execute_admitted projection grant intent in
          ret (Some projection).

(** The checks of [prepare_effect] against the store: the case, the obligation
    and the basis the effect is executed under. *)
Definition effect_basis (r : Records) (effect : EffectRecord) (at_ now : instant)
  : result (AdministrativeCase * AdministrativeObligation * GovernanceBasis) :=
  match ef_obligation_id effect with
  | None => raise KernelCompatibilityError "Kernel-owned effect lacks an obligation identity"
  | Some obligation_id =>
      let! found := get_case (rc_exec r) (ef_case_id effect) in
      match found with
      | None => raise KernelCompatibilityError ("case " +:+ uuid_str (ef_case_id effect) +:+ " not found for Kernel effect")
      | Some c =>
          refuse bool_decide (c_authority_epoch c <> ef_authority_epoch effect) with KernelCompatibilityError
            saying "Kernel effect authority epoch is stale";;
          let! evaluation := get_latest_policy_evaluation (rc_exec r) (c_case_id c) in
          match evaluation with
          | None => raise KernelCompatibilityError "Kernel effect requires the current policy evaluation"
          | Some evaluation =>
              refuse bool_decide (Some (pe_policy_ref evaluation) <> c_policy_ref c) with KernelCompatibilityError
                saying "Kernel effect requires the current policy evaluation";;
              match get_approval_satisfaction (rc_authority r) (c_case_id c) (c_authority_epoch c) with
              | None => raise KernelCompatibilityError "Kernel effect requires current approval satisfaction"
              | Some satisfaction =>
                  refuse bool_decide (Some (as_policy_ref satisfaction) <> c_policy_ref c) with KernelCompatibilityError
                    saying "Kernel effect requires current approval satisfaction";;
                  refuse negb (forallb (fun role => bool_decide (role ∈ as_satisfied_roles satisfaction))
                                 (pe_required_decision_roles evaluation)) with KernelCompatibilityError
                    saying "Kernel effect approval satisfaction does not cover required roles";;
                  let! governance := get_for_approval (rc_governance r) (as_satisfaction_id satisfaction) in
                  match governance with
                  | None => raise KernelCompatibilityError "Kernel effect requires a governance basis"
                  | Some governance =>
                      let validation := revalidate (rc_policies r) (rc_transactions r) (rc_authority r) governance c at_ now in
                      refuse negb (gv_valid validation) with KernelCompatibilityError
                        saying ("Kernel effect governance basis is stale: " +:+ join "; " (gv_reasons validation));;
                      let! obligation_set := get_current (rc_obligations r) (c_case_id c) (c_authority_epoch c) in
                      match obligation_set with
                      | None => raise KernelCompatibilityError "Kernel effect requires a current obligation set"
                      | Some obligation_set =>
                          match first_where (fun o => bool_decide (ob_obligation_id o = obligation_id))
                                  (os_obligations obligation_set) with
                          | None => raise KernelCompatibilityError "Kernel effect obligation is not in the current set"
                          | Some o =>
                              refuse bool_decide (ob_target_system o <> ef_target_system effect)
                                     || bool_decide (ob_required_operation o <> ef_operation effect)
                                     || bool_decide (ob_subject_ref o <> ef_subject_ref effect)
                                     || bool_decide (ob_authority_class o <> ef_authority_class effect)
                                with KernelCompatibilityError saying "Kernel effect does not implement its obligation";;
                              Ok (c, o, governance)
                          end
                      end
                  end
              end
          end
      end
  end.

Definition prepare_effect (effect : EffectRecord) (payload : pydict) : B (option KernelShadowProjection) :=
  do! r := read_records in
  do! at_ := bridge_now in
  do! now := bridge_now in
  do! (c, o, governance) := lift (effect_basis r effect at_ now) in
  prepare_obligation c o governance (Some payload).

Definition external_operation_ref_for (projection : option KernelShadowProjection) : B (option string) :=
  gets (fun b => projection ← projection; br_refs b !! kp_id projection).
End bridge.

(** ** The cut-over provider, [KernelCutoverEffectProvider] *)

Record KernelProvider (F P : Type) := mkKernelProvider {
  kv_fallback : F;
  kv_bridge : Bridge P;
}.
Arguments mkKernelProvider {F P}. Arguments kv_fallback {F P}. Arguments kv_bridge {F P}.

(** [try: m], the exception kept *)
Definition attempt {S A} (m : M S A) : M S (result A) := fun s => let '(r, s') := m s in (Ok r, s').

Section provider.
Context `{Hplat : Platform} {F P : Type} `{Hfallback : EffectProvider F} `{Hhttp : KernelHttp P}
  (clock : nat -> instant) (records : nat -> Records) (settings : KernelSettings).

Local Abbreviation K := (M (KernelProvider F P)).

Definition on_fallback {A} (f : F -> result A * F) : K A := fun k =>
  let '(r, x) := f (kv_fallback k) in (r, mkKernelProvider x (kv_bridge k)).
Definition on_bridge {A} (m : M (Bridge P) A) : K A := fun k =>
  let '(r, b) := m (kv_bridge k) in (r, mkKernelProvider (kv_fallback k) b).

(** [_kernel_owned] *)
Definition kernel_owned (effect : EffectRecord) : bool :=
  cutover settings
  && bool_decide (capability_name (ef_target_system effect) (ef_operation effect) ∈ KERNEL_CUTOVER_CAPABILITIES).

(** [_projection] *)
Definition effect_projection (effect : EffectRecord) : M (Bridge P) (option KernelShadowProjection) :=
  match ef_obligation_id effect with
  | None => ret None
  | Some obligation_id => reads (fun b => get_projection_for_obligation (br_db b) obligation_id)
  end.

(** [_provider_ref]: an empty reference is unresolved, too. *)
Definition or_unresolved (o : option string) : string :=
  match o with Some s => if nonempty s then s else "unresolved" | None => "unresolved" end.
Definition kernel_provider_ref (projection : option KernelShadowProjection) : string :=
  match projection with
  | None => "agent-kernel:unresolved"
  | Some p => "agent-kernel:" +:+ or_unresolved (kernel_provider_id (kp_execution p)) +:+ ":"
              +:+ or_unresolved (kernel_execution_ref (kp_execution p))
  end.

Definition execution_of (projection : option KernelShadowProjection) : option KernelExecutionStatus :=
  p ← projection; kernel_execution_status (kp_execution p).

Definition unsuccessful (status : ProviderExecutionStatus) (ref error : string) (retryable : bool)
  : ProviderExecutionResult :=
  mkProviderExecutionResult status (Some ref) (Some error) retryable.
Definition successful (ref : string) : ProviderExecutionResult :=
  mkProviderExecutionResult PX_SUCCEEDED (Some ref) None false.

(** [projection.kernel_execution_ref] and the work it must be of. *)
Definition resolution_target (projection : option KernelShadowProjection) : option (string * option string) :=
  p ← projection;
  match kernel_execution_ref (kp_execution p) with
  | Some ref => if nonempty ref then Some (ref, kernel_work_ref (kp_work p)) else None
  | None => None
  end.

(** [_recover] and [_inspect_resolution] *)
Definition try_recover (projection : option KernelShadowProjection) : M (Bridge P) (option KernelExecutionResolution) :=
  match resolution_target projection with
  | None => ret None
  | Some (ref, work) =>
      catch (do! r := on_kernel (recover ref work) in ret (Some r)) KernelRecoveryError (ret None)
  end.
Definition try_inspect_resolution (projection : option KernelShadowProjection)
  : M (Bridge P) (option KernelExecutionResolution) :=
  match resolution_target projection with
  | None => ret None
  | Some (ref, work) => catch (on_kernel (inspect_resolution ref work)) KernelRecoveryError (ret None)
  end.

(** What a projection says of the execution. *)
Definition execution_outcome (projection : option KernelShadowProjection) : M (Bridge P) ProviderExecutionResult :=
  let ref := kernel_provider_ref projection in
  let unreceipted := unsuccessful PX_OUTCOME_UNKNOWN ref
    "Kernel-owned capability lacks a durable execution receipt; local fallback forbidden" false in
  match projection with
  | None => ret unreceipted
  | Some p =>
      if bool_decide (kp_status p = KP_REJECTED) then
        let rejection := match kernel_work_admission_status (kp_work p) with
                         | Some s => KernelWorkAdmissionStatus_value s
                         | None => "unknown"
                         end in
        ret (unsuccessful PX_FAILED ref ("Kernel Work admission rejected: " +:+ rejection) false)
      else
        match kernel_execution_status (kp_execution p) with
        | Some KE_COMPLETED =>
            do! operation := external_operation_ref_for projection in
            ret (successful (match operation with Some o => if nonempty o then o else ref | None => ref end))
        | Some KE_EXECUTION_UNKNOWN =>
            do! resolved := try_recover projection in
            ret match resolved with
                | None => unsuccessful PX_OUTCOME_UNKNOWN ref
                    "Kernel execution outcome is unknown and canonical recovery is unavailable" false
                | Some r =>
                    if bool_decide (rn_current_status r = "recovered-completed") then successful ref
                    else if bool_decide (rn_current_status r = "recovered-failed")
                    then unsuccessful PX_FAILED ref "Kernel reconciliation confirmed execution failure" false
                    else unsuccessful PX_OUTCOME_UNKNOWN ref
                           ("Kernel recovery did not establish successful execution: " +:+ rn_current_status r) false
                end
        | Some KE_VERIFIED_FAIL =>
            ret (unsuccessful PX_OUTCOME_UNKNOWN ref
                   "Kernel independent verification failed; local fallback forbidden" false)
        | Some s =>
            ret (unsuccessful PX_FAILED ref
                   ("Kernel bounded execution terminated as " +:+ KernelExecutionStatus_value s) false)
        | None => ret unreceipted
        end
  end.

(** The exceptions of a preparation that [execute] turns into a result. *)
Definition preparation_failure (projection : option KernelShadowProjection) (e : exn) : option ProviderExecutionResult :=
  let ref := kernel_provider_ref projection in
  let c := exn_cls e in
  if bool_decide (c = KernelExecutionRetryable) then Some (unsuccessful PX_OUTCOME_UNKNOWN ref (exn_msg e) true)
  else if bool_decide (c = KernelExecutionError) then Some (unsuccessful PX_FAILED ref (exn_msg e) false)
  else if bool_decide (c ∈ [KernelSubmissionError; KernelWorkAdmissionError])
  then Some (unsuccessful PX_OUTCOME_UNKNOWN ref (exn_msg e) false)
  else if bool_decide (c ∈ [KernelBridgePersistenceError; KernelCompatibilityError]) || is_ValueError c
  then Some (unsuccessful PX_FAILED ref (exn_msg e) false)
  else None.

Definition needs_preparation (projection : option KernelShadowProjection) : bool :=
  match projection with
  | None => true
  | Some p =>
      bool_decide (kp_status p = KP_ADMITTED) && negb (given (kernel_execution_status (kp_execution p)))
      || should_retry_priority_rejection settings p
  end.

Definition kernel_execute (effect : EffectRecord) (payload : pydict) : M (Bridge P) ProviderExecutionResult :=
  do! projection := effect_projection effect in
  if needs_preparation projection then
    do! prepared := attempt (prepare_effect clock records settings effect payload) in
    match prepared with
    | Ok projection => execution_outcome projection
    | Err e =>
        match preparation_failure projection e with
        | Some failure => ret failure
        | None => fun b => (Err e, b)
        end
    end
  else execution_outcome projection.

Definition cutover_execute (effect : EffectRecord) (payload : pydict) : K ProviderExecutionResult :=
  if negb (kernel_owned effect) then on_fallback (fun x => provider_execute x effect payload)
  else on_bridge (kernel_execute effect payload).

(** ** Observation *)

(** [_unknown_observation] *)
Definition unknown_observation (effect : EffectRecord) (provider_ref : string) (observed_at : instant)
    (error_class : string) : RealityObservation :=
  fill_legacy_found
    (mkRealityObservation AVAILABILITY_UNKNOWN PRESENCE_UNKNOWN FRESHNESS_UNKNOWN (ef_target_system effect)
       (ef_operation effect) (ef_subject_ref effect) (Some provider_ref) [] None observed_at (Some error_class) None).

(** The evidence an execution claims, the result it claims and when. *)
Definition claimed_evidence (projection : option KernelShadowProjection) (fallback_time : instant)
  : M (Bridge P) (option string * option string * instant) :=
  let observed_at := default fallback_time (p ← projection; kernel_execution_processed_at (kp_execution p)) in
  let stored := p ← projection; kernel_evidence_ref (kp_execution p) in
  match execution_of projection with
  | Some KE_COMPLETED => ret (stored, Some "pass", observed_at)
  | Some KE_VERIFIED_FAIL => ret (stored, Some "fail", observed_at)
  | Some KE_EXECUTION_UNKNOWN =>
      do! resolved := try_inspect_resolution projection in
      ret match resolved with
          | None => (None, None, observed_at)
          | Some r =>
              let at_ := normalize_datetime (rn_processed_at r) in
              if bool_decide (rn_current_status r = "recovered-completed") then (rn_evidence_ref r, Some "pass", at_)
              else if bool_decide (rn_current_status r = "recovered-verified-fail")
              then (rn_evidence_ref r, Some "fail", at_)
              else (None, None, at_)
          end
  | _ => ret (None, None, observed_at)
  end.

(** The first reason the evidence is not evidence of this projection. *)
Definition identity_rebound (name : string) (actual : string) (expected : option string) : option string :=
  if falsy expected || bool_decide (Some actual <> expected)
  then Some ("kernel_evidence_" +:+ name +:+ "_identity_rebound") else None.
Definition evidence_refusal (p : KernelShadowProjection) (intent : AdministrativeEffectIntent)
    (evidence : KernelEvidenceView) (expected_result : string) : option string :=
  if negb (dict_eqb (ev_expected_postcondition evidence) (ei_expected_postcondition intent))
  then Some "kernel_evidence_expected_postcondition_rebound"
  else
    match identity_rebound "work" (ev_work_ref evidence) (kernel_work_ref (kp_work p)),
          identity_rebound "run" (ev_run_ref evidence) (kernel_run_ref (kp_execution p)),
          identity_rebound "action" (ev_action_ref evidence) (kernel_action_ref (kp_execution p)) with
    | Some r, _, _ | None, Some r, _ | None, None, Some r => Some r
    | None, None, None =>
        if bool_decide (ev_objective_result evidence <> expected_result)
        then Some "kernel_evidence_objective_result_mismatch" else None
    end.

Definition evidence_observation (effect : EffectRecord) (evidence : KernelEvidenceView) : RealityObservation :=
  fill_legacy_found
    (mkRealityObservation AVAILABLE PRESENT CURRENT (ef_target_system effect) (ef_operation effect)
       (ef_subject_ref effect)
       (Some ("agent-kernel-verifier:" +:+ ev_verifier_provider_id evidence +:+ ":"
              +:+ ev_verifier_provider_execution_binding_ref evidence))
       (ev_observed_postcondition evidence) (Some (ev_evidence_ref evidence))
       (normalize_datetime (ev_captured_at evidence)) None None).

Definition kernel_observe (effect : EffectRecord) : M (Bridge P) RealityObservation :=
  do! projection := effect_projection effect in
  let ref := kernel_provider_ref projection in
  do! (evidence_ref, expected_result, observed_at) := claimed_evidence projection (ef_updated_at effect) in
  match expected_result, projection, evidence_ref with
  | None, _, _ => ret (unknown_observation effect ref observed_at "kernel_execution_not_verified")
  | Some expected_result, Some p, Some evidence_ref =>
      if negb (nonempty evidence_ref)
      then ret (unknown_observation effect ref observed_at "kernel_evidence_ref_unavailable")
      else
        do! inspected := attempt (on_kernel (inspect_evidence evidence_ref)) in
        match inspected with
        | Err e =>
            if bool_decide (exn_cls e = KernelEvidenceError)
            then ret (unknown_observation effect ref observed_at "kernel_evidence_read_error")
            else fun b => (Err e, b)
        | Ok None => ret (unknown_observation effect ref observed_at "kernel_evidence_unavailable")
        | Ok (Some evidence) =>
            let captured_at := normalize_datetime (ev_captured_at evidence) in
            do! intent := gets (fun b => get_intent (br_db b) (ps_intent_id (kp_semantics p))) in
            match intent with
            | None => ret (unknown_observation effect ref captured_at "kernel_intent_unavailable")
            | Some intent =>
                ret match evidence_refusal p intent evidence expected_result with
                    | Some reason => unknown_observation effect ref captured_at reason
                    | None => evidence_observation effect evidence
                    end
            end
        end
  | _, _, _ => ret (unknown_observation effect ref observed_at "kernel_evidence_ref_unavailable")
  end.

Definition cutover_observe (effect : EffectRecord) : K RealityObservation :=
  if negb (kernel_owned effect) then on_fallback (fun x => provider_observe x effect)
  else on_bridge (kernel_observe effect).

(** To the engines the cut-over provider is an effect provider like any other. *)
#[global] Instance cutover_provider : EffectProvider (KernelProvider F P) := {
  provider_execute k effect payload := cutover_execute effect payload k;
  provider_observe k effect := cutover_observe effect k;
  provider_prepare k c o g :=
    on_bridge (also! prepare_obligation clock settings c o g None then ret tt) k;
}.
End provider.

(** ** [prepare_onboarding_kernel_shadow] *)

Record ShadowWorld (P : Type) := mkShadowWorld { sw_obligations : ObligationDb; sw_bridge : Bridge P }.
Arguments mkShadowWorld {P}. Arguments sw_obligations {P}. Arguments sw_bridge {P}.

Section shadow.
Context `{Hplat : Platform} {P : Type} `{Hhttp : KernelHttp P} (clock : nat -> instant) (settings : KernelSettings).

Local Abbreviation W := (M (ShadowWorld P)).

Definition shadow_bridge {A} (m : M (Bridge P) A) : W A := fun w =>
  let '(r, b) := m (sw_bridge w) in (r, mkShadowWorld (sw_obligations w) b).

(** The governed basis of the case, [r] the records apart from the obligations. *)
Definition shadow_governance (r : Records) (c : AdministrativeCase) (at_ now : instant)
  : result (PolicyEvaluation * GovernanceBasis) :=
  let! evaluation := get_latest_policy_evaluation (rc_exec r) (c_case_id c) in
  match evaluation with
  | None => raise TransitionError "kernel bridge requires the current policy evaluation"
  | Some evaluation =>
      refuse bool_decide (Some (pe_policy_ref evaluation) <> c_policy_ref c) with TransitionError
        saying "kernel bridge requires the current policy evaluation";;
      match get_approval_satisfaction (rc_authority r) (c_case_id c) (c_authority_epoch c) with
      | None => raise TransitionError "kernel bridge requires current approval satisfaction"
      | Some satisfaction =>
          refuse bool_decide (Some (as_policy_ref satisfaction) <> c_policy_ref c) with TransitionError
            saying "kernel bridge approval satisfaction policy is stale";;
          refuse negb (forallb (fun role => bool_decide (role ∈ as_satisfied_roles satisfaction))
                         (pe_required_decision_roles evaluation)) with TransitionError
            saying "kernel bridge approval satisfaction does not cover required roles";;
          let! governance := get_for_approval (rc_governance r) (as_satisfaction_id satisfaction) in
          match governance with
          | None => raise TransitionError "kernel bridge requires a dependency-scoped governance basis"
          | Some governance =>
              let validation := revalidate (rc_policies r) (rc_transactions r) (rc_authority r) governance c at_ now in
              refuse negb (gv_valid validation) with TransitionError
                saying ("kernel bridge governance basis is stale: " +:+ join "; " (gv_reasons validation));;
              Ok (evaluation, governance)
          end
      end
  end.

(** The obligation set: the stored one, or the one derived and stored now. *)
Definition shadow_obligations (db : ObligationDb) (c : AdministrativeCase) (evaluation : PolicyEvaluation)
    (governance : GovernanceBasis) : result (AdministrativeObligationSet * ObligationDb) :=
  let! found := get_current db (c_case_id c) (c_authority_epoch c) in
  match found with
  | Some s =>
      refuse bool_decide (os_governance_basis_id s <> gb_basis_id governance) with TransitionError
        saying "kernel bridge obligation set binds a different governance basis";;
      Ok (s, db)
  | None =>
      let! derived :=
        if bool_decide (c_case_kind c = "employee-onboarding")
        then derive_onboarding_obligations c evaluation (gb_basis_id governance)
        else if bool_decide (c_case_kind c ∈ ["procurement-request"; "invoice-ap-preparation"; "expense-reimbursement"])
        then derive_financial_obligations c evaluation (gb_basis_id governance)
        else raise TransitionError ("kernel shadow does not support case kind " +:+ py_repr (VStr (c_case_kind c))) in
      let! (_, db') := put_in_session db derived in
      Ok (derived, db')
  end.

Fixpoint prepare_each (c : AdministrativeCase) (governance : GovernanceBasis) (obligations : list AdministrativeObligation)
  : M (Bridge P) (list KernelShadowProjection) :=
  match obligations with
  | [] => ret []
  | o :: rest =>
      do! projection := prepare_obligation clock settings c o governance None in
      do! projections := prepare_each c governance rest in
      ret (match projection with Some p => p :: projections | None => projections end)
  end.

Definition prepare_onboarding_kernel_shadow (r : Records) (case_id : uuid) : W (list KernelShadowProjection) :=
  if negb (bridge_enabled settings) then ret []
  else
    do! found := lift (get_case (rc_exec r) case_id) in
    match found with
    | None => throw KeyError ("case " +:+ uuid_str case_id +:+ " not found")
    | Some c =>
        if negb (bool_decide (c_status c ∈ [AUTHORIZED; EXECUTING; VERIFYING; RECONCILING])) then ret []
        else
          do! at_ := shadow_bridge (bridge_now clock) in
          do! now := shadow_bridge (bridge_now clock) in
          do! (evaluation, governance) := lift (shadow_governance r c at_ now) in
          do! s := transact (fun w =>
            let! (s, db) := shadow_obligations (sw_obligations w) c evaluation governance in
            Ok (s, mkShadowWorld db (sw_bridge w))) in
          shadow_bridge (prepare_each c governance (os_obligations s))
    end.
End shadow.
