(* ===== verification/KernelSafety.v ===== *)
(** * The Agent Kernel bridge: what it guarantees

    The bridge tables and the log of execution commands, through any history of
    calls on the cut-over provider and the bridge, returned or broken off, with the
    bridge object replaced and everything outside changed in between. *)

From stdpp Require Import base gmap strings list relations.
From Stdlib Require Import ZArith Lia.
From S2P Require Import Prelude Python CPython Uuid Store Domain Policy Authority Access Lifecycle Obligations.
From S2P Require Import Verification Transfer Derivation PolicyPlane Financial Persistence Transactions Governance Kernel Machine.
From S2P Require Import KernelClient Execution KernelBridge.

Open Scope Z_scope.

(** ** The tables and the log *)

(** An admitted projection, executed or not. *)
Definition in_work (p : KernelShadowProjection) : Prop := kp_status p = KP_ADMITTED \/ kp_status p = KP_CUTOVER.
Definition receipted (p : KernelShadowProjection) : Prop := kernel_execution_status (kp_execution p) <> None.

(** A receipt is of admitted work, and a completed one cuts over. *)
Definition sound_receipt (p : KernelShadowProjection) : Prop :=
  (receipted p -> in_work p) /\ (kernel_execution_status (kp_execution p) = Some KE_COMPLETED -> kp_status p = KP_CUTOVER).

(** How a stored projection may change. *)
Record advanced (p p' : KernelShadowProjection) : Prop := {
  ad_semantics : kp_semantics p' = kp_semantics p;
  ad_proposal : kp_status p <> KP_SHADOW -> kp_status p' <> KP_SHADOW /\ kp_proposal p' = kp_proposal p;
  ad_work : in_work p -> in_work p' /\ kp_work p' = kp_work p;
  ad_receipt : receipted p -> kp_execution p' = kp_execution p /\ kp_status p' = kp_status p;
}.

(** The command of a stored, admitted projection. *)
Definition command_of `{Platform} (d : BridgeDb) (id : uuid) (command : pydict) : Prop :=
  exists p g i w, bd_projections d !! id = Some p /\ in_work p /\ kernel_work_ref (kp_work p) = Some w /\
    bd_grants d !! ps_grant_id (kp_semantics p) = Some g /\ bd_intents d !! ps_intent_id (kp_semantics p) = Some i /\
    command = execution_command w g i.

Record tables_ok (d : BridgeDb) : Prop := {
  to_grants : keyed gr_grant_id (bd_grants d);
  to_intents : keyed ei_intent_id (bd_intents d);
  to_projections : forall id p, bd_projections d !! id = Some p -> kp_id p = id /\ refs_match_status p = Ok p;
  to_one_obligation : forall id1 id2 p1 p2, bd_projections d !! id1 = Some p1 -> bd_projections d !! id2 = Some p2 ->
    ps_obligation_id (kp_semantics p1) = ps_obligation_id (kp_semantics p2) -> id1 = id2;
  to_receipts : forall id p, bd_projections d !! id = Some p -> sound_receipt p;
}.

Record tables_later (d d' : BridgeDb) : Prop := {
  tl_grants : bd_grants d ⊆ bd_grants d';
  tl_intents : bd_intents d ⊆ bd_intents d';
  tl_projections : forall id p, bd_projections d !! id = Some p ->
    exists p', bd_projections d' !! id = Some p' /\ advanced p p';
}.

#[global] Instance advanced_preorder : PreOrder advanced.
Proof.
  split.
  - intros p. by split.
  - intros p1 p2 p3 [S1 P1 W1 R1] [S2 P2 W2 R2]. split.
    + congruence.
    + intros H. destruct (P1 H) as [H' E']. destruct (P2 H') as [H'' E'']. split; [done|congruence].
    + intros H. destruct (W1 H) as [H' E']. destruct (W2 H') as [H'' E'']. split; [done|congruence].
    + intros H. destruct (R1 H) as [E' F']. assert (receipted p2) as H' by (unfold receipted; by rewrite E').
      destruct (R2 H') as [E'' F'']. split; congruence.
Qed.

#[global] Instance tables_later_preorder : PreOrder tables_later.
Proof.
  split.
  - intros d. split; [done|done|]. intros id p Hp. exists p. split; [done|reflexivity].
  - intros d1 d2 d3 [G1 I1 P1] [G2 I2 P2]. split; [by etrans|by etrans|].
    intros id p Hp. destruct (P1 _ _ Hp) as (p' & Hp' & Ha). destruct (P2 _ _ Hp') as (p'' & Hp'' & Ha').
    exists p''. split; [done|by etrans].
Qed.

Lemma command_later `{Platform} d d' id command :
  tables_later d d' -> command_of d id command -> command_of d' id command.
Proof.
  intros [Hg Hi Hp] (p & g & i & w & Hs & Hw & Hr & Hgr & Hin & ->).
  destruct (Hp _ _ Hs) as (p' & Hs' & [Hsem _ Hwork _]). destruct (Hwork Hw) as [Hw' Ew].
  exists p', g, i, w. rewrite Ew, Hsem. split_and!; try done; by eapply lookup_weaken.
Qed.

Lemma command_unique `{Platform} d id c1 c2 : command_of d id c1 -> command_of d id c2 -> c1 = c2.
Proof. intros (p & g & i & w & ? & ? & ? & ? & ? & ->) (p2 & g2 & i2 & w2 & ? & ? & ? & ? & ? & ->). simplify_eq. done. Qed.

(** ** The repository *)

Lemma taken_false {V} (P : V -> bool) (t : gmap uuid V) :
  taken P t = false <-> forall k v, t !! k = Some v -> P v = false.
Proof. unfold taken. rewrite negb_false_iff, is_nil_true. apply select_where_nil. Qed.

Lemma empty_tables_ok : tables_ok empty_bridge_db.
Proof. split; try apply keyed_empty; intros *; cbn; by rewrite lookup_empty. Qed.

(** A change of the grants or intents alone. *)
Lemma put_grant_ok d grant g d' :
  tables_ok d -> put_grant d grant = Ok (g, d') ->
  tables_ok d' /\ tables_later d d' /\ bd_grants d' !! gr_grant_id g = Some g /\ gr_obligation_id g = gr_obligation_id grant.
Proof.
  intros [Hg Hi Hp Ho Hre]. unfold put_grant. destruct (bd_grants d !! gr_grant_id grant) as [old|] eqn:E; intros Hput; inv_ok.
  - simplify_eq. pose proof (Hg _ _ E) as Hid. cbn in Hid. propify. unfold grant_eqb in *. propify.
    split_and!; [by split|reflexivity|by rewrite Hid|done].
  - simplify_eq. split_and!; [split; try done; by apply keyed_insert| |apply lookup_insert_eq|done].
    split; [by apply insert_subseteq|done|]. intros id p Hs. exists p. split; [done|reflexivity].
Qed.

Lemma put_intent_ok d intent i d' :
  tables_ok d -> put_intent d intent = Ok (i, d') ->
  tables_ok d' /\ tables_later d d' /\ bd_intents d' !! ei_intent_id i = Some i /\ ei_obligation_id i = ei_obligation_id intent.
Proof.
  intros [Hg Hi Hp Ho Hre]. unfold put_intent. destruct (bd_intents d !! ei_intent_id intent) as [old|] eqn:E; intros Hput; inv_ok.
  - simplify_eq. pose proof (Hi _ _ E) as Hid. cbn in Hid. propify. unfold intent_eqb in *. propify.
    split_and!; [by split|reflexivity|by rewrite Hid|done].
  - simplify_eq. split_and!; [split; try done; by apply keyed_insert| |apply lookup_insert_eq|done].
    split; [done|by apply insert_subseteq|]. intros id p Hs. exists p. split; [done|reflexivity].
Qed.

Lemma refs_match_id p p' : refs_match_status p = Ok p' -> p' = p.
Proof. unfold refs_match_status. intros ?. inv_ok. by simplify_eq. Qed.

(** Storing a projection over one it advances. *)
Lemma save_projection_ok d p p' row d' :
  tables_ok d -> bd_projections d !! kp_id p = Some p -> advanced p row -> sound_receipt row ->
  save_projection d row = Ok (p', d') ->
  p' = row /\ tables_ok d' /\ tables_later d d' /\ bd_projections d' !! kp_id row = Some row.
Proof.
  intros [Hg Hi Hp Ho Hre] Hs Ha Hrow. unfold save_projection, projection_from_row. intros ?. inv_ok. simplify_eq.
  pose proof (refs_match_id _ _ E) as ->. assert (Hid : kp_id row = kp_id p) by (unfold kp_id; by rewrite (ad_semantics _ _ Ha)).
  split_and!; [done| | |apply lookup_insert_eq].
  - split; [done|done| | |].
    + intros id q. cbn. rewrite lookup_insert_Some. intros [[<- <-]|[_ Hq]]; [done|by apply Hp].
    + intros id1 id2 q1 q2. cbn. rewrite !lookup_insert_Some.
      intros [[<- <-]|[Hne1 Hq1]] [[<- <-]|[Hne2 Hq2]] Heq; [done| | |by eapply Ho].
      * exfalso. apply Hne2. rewrite Hid. eapply Ho; [exact Hs|exact Hq2|]. by rewrite <- (ad_semantics _ _ Ha).
      * exfalso. apply Hne1. rewrite Hid. symmetry. eapply Ho; [exact Hq1|exact Hs|]. by rewrite <- (ad_semantics _ _ Ha).
    + intros id q. cbn. rewrite lookup_insert_Some. intros [[<- <-]|[_ Hq]]; [done|by eapply Hre].
  - split; [done|done|]. intros id q Hq. cbn. destruct (decide (id = kp_id row)) as [->|Hne].
    + exists row. rewrite lookup_insert_eq. split; [done|]. rewrite Hid in Hq. by simplify_eq.
    + exists q. rewrite lookup_insert_ne by done. split; [done|reflexivity].
Qed.

Lemma put_projection_ok d projection p d' :
  tables_ok d -> refs_match_status projection = Ok projection -> ~ receipted projection ->
  put_projection d projection = Ok (p, d') ->
  tables_ok d' /\ tables_later d d' /\ bd_projections d' !! kp_id p = Some p /\
  ps_obligation_id (kp_semantics p) = ps_obligation_id (kp_semantics projection).
Proof.
  intros Hok Hv Hnew. destruct Hok as [Hg Hi Hp Ho Hre]. unfold put_projection, projection_from_row.
  destruct (bd_projections d !! kp_id projection) as [row|] eqn:E; intros Hput; inv_ok.
  - simplify_eq. match goal with H : refs_match_status row = Ok _ |- _ => pose proof (refs_match_id _ _ H) as -> end.
    destruct (Hp _ _ E) as [Hid _]. propify. unfold same_projection_semantics in *. cbv zeta in *. propify.
    split_and!; [by split|reflexivity|congruence|done].
  - simplify_eq. pose proof (proj1 (taken_false _ _) E0) as Hfree.
    assert (Hfresh : forall id q, bd_projections d !! id = Some q ->
              ps_obligation_id (kp_semantics q) <> ps_obligation_id (kp_semantics p)).
    { intros id q Hq He. specialize (Hfree _ _ Hq). cbn in Hfree. rewrite !orb_false_iff in Hfree. destruct Hfree as [_ Hfree].
      by apply bool_decide_eq_false in Hfree. }
    split_and!; [|split; [done|done|]|apply lookup_insert_eq|done].
    + split; [done|done| | |].
      * intros id q. cbn. rewrite lookup_insert_Some. intros [[<- <-]|[_ Hq]]; [done|by apply Hp].
      * intros id1 id2 q1 q2. cbn. rewrite !lookup_insert_Some.
        intros [[<- <-]|[Hne1 Hq1]] [[<- <-]|[Hne2 Hq2]] Heq; [done| | |by eapply Ho].
        -- by destruct (Hfresh _ _ Hq2).
        -- by destruct (Hfresh _ _ Hq1).
      * intros id q. cbn. rewrite lookup_insert_Some. intros [[<- <-]|[_ Hq]]; [|by eapply Hre].
        split; [done|]. intros Hc. destruct Hnew. unfold receipted. by rewrite Hc.
    + intros id q Hq. exists q. cbn. rewrite lookup_insert_ne; [split; [done|reflexivity]|congruence].
Qed.

Lemma current_projection_Ok d projection drift current :
  tables_ok d -> current_projection d projection drift = Ok current ->
  bd_projections d !! kp_id current = Some current /\ kp_id current = kp_id projection.
Proof.
  intros Hok. unfold current_projection. destruct (bd_projections d !! kp_id projection) as [row|] eqn:E; [|done].
  intros ?. inv_ok. simplify_eq. pose proof (refs_match_id _ _ E0) as ->. destruct (to_projections _ Hok _ _ E) as [Hid _].
  by rewrite Hid.
Qed.

(** What every change of a projection establishes. *)
Definition changed (d : BridgeDb) (projection p : KernelShadowProjection) (d' : BridgeDb) : Prop :=
  tables_ok d' /\ tables_later d d' /\ bd_projections d' !! kp_id p = Some p /\ kp_id p = kp_id projection.

Lemma changed_save d current projection row p d' :
  tables_ok d -> bd_projections d !! kp_id current = Some current -> kp_id current = kp_id projection ->
  advanced current row -> sound_receipt row -> save_projection d row = Ok (p, d') -> changed d projection p d'.
Proof.
  intros Hok Hs Hid Ha Hre Hsave. destruct (save_projection_ok _ _ _ _ _ Hok Hs Ha Hre Hsave) as (-> & ? & ? & ?).
  split_and!; try done. rewrite <- Hid. unfold kp_id. by rewrite (ad_semantics _ _ Ha).
Qed.

(** Opens one of the transactions: the stored projection, and its status. *)
Ltac projection_step :=
  let H := fresh in intros H; inv_ok;
  match goal with
  | Hok : tables_ok ?d, Hc : current_projection ?d _ _ = Ok ?c |- _ =>
      destruct (current_projection_Ok _ _ _ _ Hok Hc) as [Hs Hid]; destruct (to_receipts _ Hok _ _ Hs) as [Hre Hco]
  end.

(** Decides a claim about the status of a projection. *)
Ltac by_status :=
  unfold in_work, receipted in *; cbn; intros;
  try match goal with Hre : ?A -> _, H : ?A |- _ => specialize (Hre H) end;
  try case_bool_decide; intuition congruence.

Lemma mark_submitted_ok d projection receipt now p d' :
  tables_ok d -> mark_submitted d projection receipt now = Ok (p, d') -> changed d projection p d'.
Proof.
  intros Hok. unfold mark_submitted. projection_step.
  destruct (bool_decide (kp_status v = KP_SUBMITTED)); inv_ok; propify; simplify_eq; [by split_and!|].
  eapply (changed_save _ _ _ _ _ _ Hok Hs Hid); [split|split|eassumption]; by_status.
Qed.

Lemma mark_work_admission_ok d projection receipt now p d' :
  tables_ok d -> mark_work_admission d projection receipt now = Ok (p, d') -> changed d projection p d'.
Proof.
  intros Hok. unfold mark_work_admission. projection_step.
  destruct (bool_decide (kp_status v ∈ _)); inv_ok; propify; simplify_eq; [by split_and!|].
  eapply (changed_save _ _ _ _ _ _ Hok Hs Hid); [split|split|eassumption]; by_status.
Qed.

Lemma reopen_ok d projection policy now p d' :
  tables_ok d -> reopen_priority_rejected d projection policy now = Ok (p, d') -> changed d projection p d'.
Proof.
  intros Hok. unfold reopen_priority_rejected. projection_step. propify.
  eapply (changed_save _ _ _ _ _ _ Hok Hs Hid); [split|split|eassumption]; by_status.
Qed.

Lemma mark_execution_ok d projection receipt now p d' :
  tables_ok d -> mark_execution d projection receipt now = Ok (p, d') -> changed d projection p d' /\ receipted p.
Proof.
  intros Hok. unfold mark_execution. projection_step.
  destruct (bool_decide (kernel_execution_status (kp_execution v) <> None)) eqn:Er; inv_ok; propify; simplify_eq; [by split_and!|].
  match goal with H : save_projection _ _ = Ok _ |- _ => rename H into Hsave end.
  assert (Hp : exists row, p = row /\ receipted row).
  { pose proof Hsave as Hsv. unfold save_projection, projection_from_row in Hsv. inv_ok. simplify_eq.
    eexists. split; [done|]. rewrite (refs_match_id _ _ E2). done. }
  destruct Hp as (row & -> & Hr). split; [|done].
  eapply (changed_save _ _ _ _ _ _ Hok Hs Hid); [split|split|eassumption]; by_status.
Qed.

(** ** The bridge *)

Section paths.
Context `{Hplat : Platform} {P : Type}.
Implicit Types (b : Bridge P).

Definition bwf b : Prop :=
  tables_ok (br_db b) /\ forall id c, (id, c) ∈ br_commands b -> command_of (br_db b) id c.

(** No command is sent for a projection whose receipt is stored. *)
Definition blater b b' : Prop :=
  tables_later (br_db b) (br_db b') /\
  exists new, br_commands b' = br_commands b ++ new /\
    forall id c p, (id, c) ∈ new -> bd_projections (br_db b) !! id = Some p -> ~ receipted p.

#[global] Instance blater_preorder : PreOrder blater.
Proof.
  split.
  - intros b. split; [reflexivity|]. exists []. rewrite app_nil_r. split; [done|]. by intros ??? ?%not_elem_of_nil.
  - intros b1 b2 b3 [T1 (n1 & E1 & H1)] [T2 (n2 & E2 & H2)]. split; [by etrans|]. exists (n1 ++ n2).
    split; [by rewrite E2, E1, app_assoc|]. intros id c p [Hin|Hin]%elem_of_app Hp; [by eapply H1|].
    intros Hr. destruct (tl_projections _ _ T1 _ _ Hp) as (p' & Hp' & Ha). apply (H2 _ _ _ Hin Hp').
    unfold receipted. by rewrite (proj1 (ad_receipt _ _ Ha Hr)).
Qed.

(** The tables and the log stay. *)
Definition bstill b b' : Prop := br_db b' = br_db b /\ br_commands b' = br_commands b.

Definition still : Motion (Bridge P).
Proof.
  refine (mkMotion bstill (fun _ => bstill) _ _ _ _); unfold bstill; [done| |done|]; intros; intuition congruence.
Defined.

Lemma bstill_wf b b' : bstill b b' -> bwf b -> bwf b' /\ blater b b'.
Proof.
  intros [Ed Ec] [Hok Hc]. unfold bwf, blater. rewrite Ed, Ec. split; [done|]. split; [reflexivity|].
  exists []. rewrite app_nil_r. split; [done|]. by intros ??? ?%not_elem_of_nil.
Qed.

(** From [b] the computation keeps the invariant, moves forward, and a result
    satisfies [Q]. *)
Definition bpath {A} (m : M (Bridge P) A) b (Q : A -> Bridge P -> Prop) : Prop :=
  bwf b -> forall r b', m b = (r, b') ->
    bwf b' /\ blater b b' /\ match r with Ok a => Q a b' | Err _ => True end.

Lemma bpath_ret {A} (a : A) b (Q : A -> Bridge P -> Prop) : Q a b -> bpath (ret a) b Q.
Proof. intros HQ Hwf r b' [= <- <-]. split_and!; [done|reflexivity|done]. Qed.

Lemma bpath_throw {A} c msg b (Q : A -> Bridge P -> Prop) : bpath (throw c msg) b Q.
Proof. intros Hwf r b' [= <- <-]. split_and!; [done|reflexivity|done]. Qed.

Lemma bpath_bind {A B} (m : M (Bridge P) A) (k : A -> M (Bridge P) B) b Q Q' :
  bpath m b Q' -> (forall a b1, bwf b1 -> blater b b1 -> Q' a b1 -> bpath (k a) b1 Q) -> bpath (bind m k) b Q.
Proof.
  intros Hm Hk Hwf r b'. unfold bind. destruct (m b) as [[a|e] b1] eqn:E; destruct (Hm Hwf _ _ E) as (Hwf1 & Hl & HQ).
  - intros Hr. destruct (Hk a b1 Hwf1 Hl HQ Hwf1 r b' Hr) as (Hwf' & Hl' & HQ'). split_and!; [done|by etrans|done].
  - intros [= <- <-]. done.
Qed.

Lemma bpath_mono {A} (m : M (Bridge P) A) b (Q Q' : A -> Bridge P -> Prop) :
  bpath m b Q -> (forall a b', bwf b' -> blater b b' -> Q a b' -> Q' a b') -> bpath m b Q'.
Proof.
  intros Hm HQ Hwf r b' Hr. destruct (Hm Hwf r b' Hr) as (Hwf' & Hl & H). split_and!; [done|done|].
  destruct r; [by apply HQ|done].
Qed.

Lemma bpath_still {A} (m : M (Bridge P) A) b :
  Respects still m -> bpath m b (fun a b' => m b = (Ok a, b') /\ bstill b b').
Proof.
  intros Hm Hwf r b' Hr. pose proof (Hm _ _ _ Hr) as Hs. assert (bstill b b') as Hst by (by destruct r).
  destruct (bstill_wf _ _ Hst Hwf) as [Hwf' Hl]. split_and!; [done|done|]. by destruct r.
Qed.

Lemma bpath_skip {A B} (m : M (Bridge P) A) (k : A -> M (Bridge P) B) b Q :
  Respects still m -> (forall a b1, m b = (Ok a, b1) -> bstill b b1 -> bpath (k a) b1 Q) -> bpath (bind m k) b Q.
Proof. intros Hm Hk. eapply bpath_bind; [by apply bpath_still|]. intros a b1 _ _ [? ?]. by apply Hk. Qed.

(** A transaction on the tables. *)
Lemma bpath_write {A} (f : BridgeDb -> result (A * BridgeDb)) b (Q : A -> Bridge P -> Prop) :
  (forall a d', tables_ok (br_db b) -> f (br_db b) = Ok (a, d') ->
     tables_ok d' /\ tables_later (br_db b) d' /\ Q a (with_db b d')) ->
  bpath (on_bridge_db f) b Q.
Proof.
  intros Hf [Hok Hc] r b'. unfold on_bridge_db, transact. destruct (f (br_db b)) as [[a d']|e] eqn:E; cbn; intros [= <- <-].
  - destruct (Hf a d' Hok eq_refl) as (Hok' & Hl & HQ). split_and!; [split; [done|]|split; [done|]|done].
    + intros id c Hin. eapply command_later; [exact Hl|]. by apply Hc.
    + exists []. rewrite app_nil_r. split; [done|]. by intros ??? ?%not_elem_of_nil.
  - split_and!; [done|reflexivity|done].
Qed.

#[global] Instance still_on_kernel {A} (m : M P A) : Respects still (on_kernel m).
Proof. intros b r b'. unfold on_kernel. destruct (m (br_plane b)) as [x p]. intros [= <- <-]. by destruct x. Qed.
#[global] Instance still_identity i : Respects still (fun b : Bridge P => (Ok i, with_identity b i)).
Proof. intros b r b' [= <- <-]. done. Qed.
End paths.
#[global] Hint Extern 0 (Respects still (fun b => (Ok _, with_identity b _))) => apply still_identity : typeclass_instances.

Section bridge_paths.
Context `{Hplat : Platform} {P : Type} `{Hhttp : KernelHttp P} (clock : nat -> instant) (records : nat -> Records)
  (settings : KernelSettings).
Implicit Types (b : Bridge P).

#[global] Instance still_now : Respects (still (P := P)) (bridge_now clock).
Proof. intros b r b' [= <- <-]. done. Qed.
#[global] Instance still_records : Respects (still (P := P)) (read_records records).
Proof. intros b r b' [= <- <-]. done. Qed.
#[global] Instance still_compatibility : Respects (still (P := P)) (compatibility settings).
Proof. unfold compatibility. respect. Qed.

(** The stored projection, of the obligation [o]. *)
Definition stored_for (o : uuid) (p : KernelShadowProjection) b : Prop :=
  bd_projections (br_db b) !! kp_id p = Some p /\ ps_obligation_id (kp_semantics p) = o.

Lemma stored_still o p b b' : bstill b b' -> stored_for o p b -> stored_for o p b'.
Proof. intros [Ed _]. unfold stored_for. by rewrite Ed. Qed.

(** A projection changed by one of the [mark_] transactions. *)
Lemma bpath_mark (f : BridgeDb -> result (KernelShadowProjection * BridgeDb)) projection o b :
  (forall p d', tables_ok (br_db b) -> f (br_db b) = Ok (p, d') -> changed (br_db b) projection p d') ->
  stored_for o projection b -> bpath (on_bridge_db f) b (stored_for o).
Proof.
  intros Hf [Hs Ho]. apply bpath_write. intros p d' Hok Hr. destruct (Hf p d' Hok Hr) as (Hok' & Hl & Hs' & Hid).
  split_and!; [done|done|]. split; [done|].
  destruct (tl_projections _ _ Hl _ _ Hs) as (p' & Hp' & Ha). rewrite <- Hid, Hs' in Hp'. simplify_eq.
  by rewrite (ad_semantics _ _ Ha).
Qed.

Lemma retry_rejected_path projection o b :
  stored_for o projection b -> bpath (retry_rejected clock settings projection) b (stored_for o).
Proof.
  intros Hs. unfold retry_rejected. destruct (should_retry_priority_rejection _ _); [|by apply bpath_ret].
  apply bpath_skip; [apply _|]. intros now b1 _ Hst. eapply bpath_mark; [|by eapply stored_still].
  intros p d' Hok Hr. by eapply reopen_ok.
Qed.

Lemma submit_shadow_path projection o b :
  stored_for o projection b -> bpath (submit_shadow clock projection) b (stored_for o).
Proof.
  intros Hs. unfold submit_shadow. destruct (bool_decide _); [|by apply bpath_ret].
  apply bpath_skip; [apply _|]. intros receipt b1 _ Hst1. apply bpath_skip; [apply _|]. intros now b2 _ Hst2.
  eapply bpath_mark; [|eapply stored_still; [exact Hst2|]; by eapply stored_still].
  intros p d' Hok Hr. by eapply mark_submitted_ok.
Qed.

Lemma admit_submitted_path projection o b :
  stored_for o projection b -> bpath (admit_submitted clock settings projection) b (stored_for o).
Proof.
  intros Hs. unfold admit_submitted. destruct (_ && _); [|by apply bpath_ret].
  apply bpath_skip; [apply _|]. intros receipt b1 _ Hst1. apply bpath_skip; [apply _|]. intros now b2 _ Hst2.
  eapply bpath_mark; [|eapply stored_still; [exact Hst2|]; by eapply stored_still].
  intros p d' Hok Hr. by eapply mark_work_admission_ok.
Qed.

Lemma execution_work_Ok p g i w :
  execution_work p g i = Ok w ->
  kp_status p = KP_ADMITTED /\ kernel_work_ref (kp_work p) = Some w /\ ps_grant_id (kp_semantics p) = gr_grant_id g /\
  ps_intent_id (kp_semantics p) = ei_intent_id i.
Proof.
  unfold execution_work. intros ?. inv_ok. destruct (kernel_work_ref (kp_work p)) eqn:Ew; [|done]. inv_ok. propify. simplify_eq.
  naive_solver.
Qed.

(** Sending: the command is the one of the stored projection. *)
Lemma send_execution_path projection g i o b :
  stored_for o projection b -> bd_grants (br_db b) !! gr_grant_id g = Some g ->
  bd_intents (br_db b) !! ei_intent_id i = Some i -> ~ receipted projection ->
  bpath (send_execution projection g i) b (fun _ b' => br_db b' = br_db b).
Proof.
  intros [Hs Ho] Hg Hi Hnr. unfold send_execution. apply bpath_skip; [apply _|]. intros w b1 Hw [Ed Ec].
  unfold lift in Hw. simplify_eq/=. apply execution_work_Ok in H as (Hst & Hwork & Hgid & Hiid).
  eapply (bpath_bind _ _ _ _ (fun _ b' => br_db b' = br_db b1)); [|].
  - intros [Hok Hc] r b'. unfold on_kernel. destruct (post _ _ (br_plane b1)) as [x p']. intros [= <- <-].
    assert (Hcmd : command_of (br_db b1) (kp_id projection) (execution_command w g i)).
    { exists projection, g, i, w. rewrite Hgid, Hiid. split_and!; try done. by left. }
    split_and!; [split; [done|]|split; [reflexivity|]|by destruct x].
    + intros id c [Hin|[= -> ->]%list_elem_of_singleton]%elem_of_app; [by apply Hc|done].
    + eexists. split; [done|]. intros id c p [= -> ->]%list_elem_of_singleton Hp. cbn in Hp. by simplify_eq.
  - intros reply b2 _ _ Ed2. eapply bpath_mono; [apply bpath_still, _|]. intros a b3 _ _ [_ [Ed3 _]]. congruence.
Qed.

Lemma execute_admitted_path projection g i o b :
  stored_for o projection b -> bd_grants (br_db b) !! gr_grant_id g = Some g ->
  bd_intents (br_db b) !! ei_intent_id i = Some i ->
  bpath (execute_admitted clock settings projection g i) b (stored_for o).
Proof.
  intros Hs Hg Hi. unfold execute_admitted.
  destruct (bool_decide (kp_status projection = KP_CUTOVER)); [by apply bpath_ret|].
  destruct (bool_decide (kp_status projection <> KP_ADMITTED)); [by apply bpath_throw|].
  destruct (given _) eqn:Egiven; [by apply bpath_ret|]. destruct (negb _); [by apply bpath_ret|].
  assert (~ receipted projection).
  { unfold receipted, given in *. destruct (kernel_execution_status _); [done|]. intros H. by apply H. }
  eapply bpath_bind; [by eapply send_execution_path|]. intros receipt b1 _ _ Ed1.
  apply (bpath_bind _ _ _ _ (fun _ b2 => br_db b2 = br_db b1)).
  { eapply bpath_mono; [apply bpath_still|].
    - intros s r s' [= <- <-]. destruct (xc_external_operation_ref receipt) as [ref|]; [by destruct (nonempty ref)|done].
    - intros a b2 _ _ [_ [Ed _]]. done. }
  intros _ b2 _ _ Ed2. apply bpath_skip; [apply _|]. intros now b3 _ [Ed3 _].
  eapply bpath_mark; [|]; [intros p d' Hok Hr; by eapply mark_execution_ok|].
  destruct Hs as [Hs Ho]. split; [|done]. congruence.
Qed.

Lemma derived_grant_obligation c o g grant :
  derive_execution_grant c o g = Ok grant -> gr_obligation_id grant = ob_obligation_id o.
Proof. unfold derive_execution_grant. intros ?. inv_ok. by simplify_eq. Qed.

Lemma projected_wf g i identity p :
  project_to_kernel g i identity = Ok p ->
  refs_match_status p = Ok p /\ ~ receipted p /\ ps_obligation_id (kp_semantics p) = gr_obligation_id g.
Proof.
  unfold project_to_kernel. intros ?. inv_ok. simplify_eq. split; [done|]. split; [|done]. intros Hr. by apply Hr.
Qed.

(** What a preparation leaves: the stored projection of the obligation. *)
Definition prepared (o : AdministrativeObligation) (r : option KernelShadowProjection) b : Prop :=
  match r with Some p => stored_for (ob_obligation_id o) p b | None => bridge_enabled settings = false end.

Lemma prepare_obligation_path c o g overrides b :
  bpath (prepare_obligation clock settings c o g overrides) b (prepared o).
Proof.
  unfold prepare_obligation. destruct (negb (bridge_enabled settings)) eqn:Een.
  { apply bpath_ret. by propify. }
  apply bpath_skip; [apply _|]. intros identity b1 _ _. apply bpath_skip; [apply _|]. intros derived b2 Hd _.
  unfold lift in Hd. injection Hd as Hd _. apply derived_grant_obligation in Hd.
  eapply (bpath_bind _ _ _ _ (fun grant b3 => bd_grants (br_db b3) !! gr_grant_id grant = Some grant /\
                                        gr_obligation_id grant = ob_obligation_id o)).
  { apply bpath_write. intros grant d' Hok Hput. destruct (put_grant_ok _ _ _ _ Hok Hput) as (? & ? & ? & ?).
    split_and!; try done. congruence. }
  intros grant b3 _ _ [Hgrant Hgo]. apply bpath_skip; [apply _|]. intros derived_intent b4 _ [Ed4 _].
  eapply (bpath_bind _ _ _ _ (fun intent b5 => bd_intents (br_db b5) !! ei_intent_id intent = Some intent)).
  { apply bpath_write. intros intent d' Hok Hput. destruct (put_intent_ok _ _ _ _ Hok Hput) as (? & ? & ? & ?). done. }
  intros intent b5 _ [[Hlg _ _] _] Hintent. rewrite <- Ed4 in Hgrant. apply (lookup_weaken _ _ _ _ Hgrant) in Hlg.
  apply bpath_skip; [apply _|]. intros planned b6 Hplan [Ed6 _]. unfold lift in Hplan. injection Hplan as Hplan _.
  destruct (projected_wf _ _ _ _ Hplan) as (Hv & Hnr & Hpo).
  eapply (bpath_bind _ _ _ _ (stored_for (ob_obligation_id o))).
  { apply bpath_write. intros p d' Hok Hput. destruct (put_projection_ok _ _ _ _ Hok Hv Hnr Hput) as (? & ? & ? & ?).
    split_and!; try done. split; [done|]. congruence. }
  intros p7 b7 _ [[Hlg7 Hli7 _] _] Hs7. rewrite Ed6 in Hlg7, Hli7.
  pose proof (lookup_weaken _ _ _ _ Hlg Hlg7) as Hg7. pose proof (lookup_weaken _ _ _ _ Hintent Hli7) as Hi7.
  eapply bpath_bind; [by apply retry_rejected_path|]. intros p8 b8 _ [[Hlg8 Hli8 _] _] Hs8.
  eapply bpath_bind; [by apply submit_shadow_path|]. intros p9 b9 _ [[Hlg9 Hli9 _] _] Hs9.
  destruct (shadow_only settings); [by apply bpath_ret|].
  eapply bpath_bind; [by apply admit_submitted_path|]. intros p10 b10 _ [[Hlg10 Hli10 _] _] Hs10.
  destruct (_ || _); [by apply bpath_ret|]. destruct (negb (cutover settings)); [by apply bpath_ret|].
  apply bpath_skip; [apply _|]. intros owned b11 _ [Ed11 Ec11]. pose proof (stored_still _ _ _ _ (conj Ed11 Ec11) Hs10) as Hs11.
  destruct (negb owned); [by apply bpath_ret|].
  eapply bpath_bind; [apply (execute_admitted_path p10 grant intent _ _ Hs11); rewrite Ed11; eapply lookup_weaken;
    [exact Hg7| |exact Hi7|]; by repeat (etrans; [eassumption|])|].
  intros p12 b12 _ _ Hs12. by apply bpath_ret.
Qed.

(** The obligation of an effect. *)
Definition obligation_of (effect : EffectRecord) (o : AdministrativeObligation) : Prop :=
  ef_obligation_id effect = Some (ob_obligation_id o).

Lemma effect_basis_obligation r effect at_ now c o g :
  effect_basis r effect at_ now = Ok (c, o, g) -> obligation_of effect o.
Proof.
  unfold effect_basis, obligation_of. destruct (ef_obligation_id effect) as [oid|]; [|done]. intros ?. inv_ok.
  repeat match goal with
    | H : match ?x with Some _ => _ | None => _ end = Ok _ |- _ => destruct x eqn:?; [|discriminate H]; inv_ok
    end.
  simplify_eq. match goal with H : first_where _ _ = Some _ |- _ => rename H into Hfirst end.
  unfold first_where in Hfirst. apply head_Some_elem_of in Hfirst. apply elem_of_filter_bool in Hfirst as [_ Hf].
  apply bool_decide_eq_true in Hf. by rewrite Hf.
Qed.

Lemma prepare_effect_path effect payload b :
  bpath (prepare_effect clock records settings effect payload) b
    (fun r b' => exists o, obligation_of effect o /\ prepared o r b').
Proof.
  unfold prepare_effect. do 3 (apply bpath_skip; [apply _|]; intros ? ? _ _).
  apply bpath_skip; [apply _|]. intros [[c o] g] b4 Hb _. unfold lift in Hb. injection Hb as Hb _.
  apply effect_basis_obligation in Hb. eapply bpath_mono; [apply prepare_obligation_path|]. intros r b' _ _ Hr. by exists o.
Qed.

Lemma respects_catch_still {A} (m : M (Bridge P) A) c h : Respects still m -> Respects still h -> Respects still (catch m c h).
Proof. apply respects_catch. by intros e s s' _ ?. Qed.

#[global] Instance still_try_recover p : Respects (still (P := P)) (try_recover p).
Proof. unfold try_recover. destruct (resolution_target p) as [[ref work]|]; [|respect]. apply respects_catch_still; respect. Qed.
#[global] Instance still_try_inspect p : Respects (still (P := P)) (try_inspect_resolution p).
Proof. unfold try_inspect_resolution. destruct (resolution_target p) as [[ref work]|]; [|respect]. apply respects_catch_still; respect. Qed.
#[global] Instance still_outcome p : Respects (still (P := P)) (execution_outcome p).
Proof. unfold execution_outcome, external_operation_ref_for. respect. Qed.
#[global] Instance still_projection effect : Respects (still (P := P)) (effect_projection effect).
Proof. unfold effect_projection. respect. Qed.
#[global] Instance still_attempt {A} (m : M (Bridge P) A) : Respects still m -> Respects still (attempt m).
Proof. intros Hm s r s'. unfold attempt. destruct (m s) as [x s1] eqn:E. intros [= <- <-]. apply Hm in E. by destruct x. Qed.
#[global] Instance still_claimed p t : Respects (still (P := P)) (claimed_evidence p t).
Proof. unfold claimed_evidence. respect. Qed.
#[global] Instance still_observe effect : Respects (still (P := P)) (kernel_observe effect).
Proof.
  unfold kernel_observe, claimed_evidence. respect.
  all: try (intros s r s' [= <- <-]; done).
Qed.

Lemma bpath_attempt {A} (m : M (Bridge P) A) b Q :
  bpath m b Q -> bpath (attempt m) b (fun r b' => match r with Ok a => Q a b' | Err _ => True end).
Proof.
  intros Hm Hwf r b'. unfold attempt. destruct (m b) as [x b1] eqn:E. intros [= <- <-]. by apply (Hm Hwf).
Qed.

(** An execution: where it ends the projection it judged is stored. *)
Definition judged (effect : EffectRecord) (p : option KernelShadowProjection) b : Prop :=
  match p with
  | Some p => exists o, ef_obligation_id effect = Some o /\ stored_for o p b
  | None => True
  end.

Lemma effect_projection_path effect b : bpath (effect_projection effect) b (judged effect).
Proof.
  intros Hwf r b' Hr. destruct (bpath_still (effect_projection effect) b _ Hwf r b' Hr) as (Hwf' & Hl & HQ).
  split_and!; [done|done|]. destruct r as [[p|]|]; cbn; try done. destruct HQ as [Hrun [Ed _]].
  unfold effect_projection, reads in Hrun. destruct (ef_obligation_id effect) as [o|]; [|done].
  injection Hrun as Hrun _. exists o. split; [done|]. unfold stored_for. rewrite Ed. unfold get_projection_for_obligation in Hrun.
  destruct (select_where _ _) as [|row l] eqn:Esel; [done|]. inv_ok. simplify_eq.
  assert (Hin : row ∈ select_where (fun p => bool_decide (ps_obligation_id (kp_semantics p) = o)) (bd_projections (br_db b)))
    by (rewrite Esel; left).
  apply elem_of_select_where in Hin as [[k Hk] Ho]. apply bool_decide_eq_true in Ho.
  match goal with H : projection_from_row row = Ok _ |- _ => apply refs_match_id in H as -> end.
  destruct (to_projections _ (proj1 Hwf) _ _ Hk) as [<- _]. done.
Qed.

Lemma kernel_execute_path effect payload b :
  bpath (kernel_execute clock records settings effect payload) b (fun _ _ => True).
Proof.
  unfold kernel_execute. eapply bpath_bind; [apply effect_projection_path|]. intros p b1 _ _ _.
  destruct (needs_preparation settings p); [|eapply bpath_mono; [apply bpath_still, _|done]].
  eapply bpath_bind; [apply bpath_attempt, prepare_effect_path|]. intros r b2 _ _ _.
  destruct r as [q|e]; [eapply bpath_mono; [apply bpath_still, _|done]|].
  destruct (preparation_failure p e); [by apply bpath_ret|]. intros Hwf r b' [= <- <-]. split_and!; [done|reflexivity|done].
Qed.
End bridge_paths.

(** ** Histories *)

(** The calls made on a provider and on its bridge: by the engines, and by the
    workflow that prepares the obligations of a case before it runs an engine. *)
Inductive kernel_call :=
  | KernelExecute (effect : EffectRecord) (payload : pydict)
  | KernelObserve (effect : EffectRecord)
  | KernelPrepare (c : AdministrativeCase) (o : AdministrativeObligation) (g : GovernanceBasis)
  | KernelShadow (r : Records) (obligations : ObligationDb) (case_id : uuid).

Section histories.
Context `{Hplat : Platform} {F P : Type} `{Hfallback : EffectProvider F} `{Hhttp : KernelHttp P}
  (clock : nat -> instant) (records : nat -> Records) (settings : KernelSettings).
Implicit Types (k : KernelProvider F P).

(** The bridge's part of [prepare_onboarding_kernel_shadow]. *)
Definition run_shadow (r : Records) (obligations : ObligationDb) (case_id : uuid)
  : M (Bridge P) (list KernelShadowProjection) := fun b =>
  let '(x, w) := prepare_onboarding_kernel_shadow clock settings r case_id (mkShadowWorld obligations b) in (x, sw_bridge w).

Definition kernel_serve (call : kernel_call) : M (KernelProvider F P) unit :=
  let drop {A} (m : M (KernelProvider F P) A) := bind m (fun _ => ret tt) in
  match call with
  | KernelExecute effect payload => drop (cutover_execute clock records settings effect payload)
  | KernelObserve effect => drop (cutover_observe settings effect)
  | KernelPrepare c o g => drop (on_bridge (prepare_obligation clock settings c o g None))
  | KernelShadow r obligations case_id => drop (on_bridge (run_shadow r obligations case_id))
  end.

(** A call, returned or not, or anything that leaves the bridge tables and the
    Kernel's log of commands alone: a new bridge object, time, the other tables. *)
Definition kernel_step k k' : Prop :=
  (exists call r, kernel_serve call k = (r, k')) \/ bstill (kv_bridge k) (kv_bridge k').

Definition keeps {A} (m : M (KernelProvider F P) A) : Prop :=
  forall k r k', m k = (r, k') -> bwf (kv_bridge k) -> bwf (kv_bridge k') /\ blater (kv_bridge k) (kv_bridge k').

Lemma keeps_bridge {A} (m : M (Bridge P) A) Q : (forall b, bpath m b Q) -> keeps (on_bridge m).
Proof.
  intros Hm k r k'. unfold on_bridge. destruct (m (kv_bridge k)) as [x b] eqn:E. intros [= <- <-] Hwf.
  destruct (Hm _ Hwf _ _ E) as (? & ? & _). done.
Qed.

Lemma keeps_fallback {A} (f : F -> result A * F) : keeps (on_fallback f).
Proof.
  intros k r k'. unfold on_fallback. destruct (f (kv_fallback k)) as [x y]. intros [= <- <-] Hwf. split; [done|reflexivity].
Qed.

Lemma keeps_drop {A} (m : M (KernelProvider F P) A) : keeps m -> keeps (bind m (fun _ => ret tt)).
Proof.
  intros Hm k r k'. unfold bind. destruct (m k) as [[a|e] k1] eqn:E; intros [= <- <-]; by apply (Hm _ _ _ E).
Qed.

Lemma prepare_each_path c g obligations b : bpath (P := P) (prepare_each clock settings c g obligations) b (fun _ _ => True).
Proof.
  revert b. induction obligations as [|o rest IH]; intros b; [by apply bpath_ret|]. cbn [prepare_each].
  eapply bpath_bind; [apply prepare_obligation_path|]. intros p b1 _ _ _. eapply bpath_bind; [apply IH|].
  intros. by apply bpath_ret.
Qed.

Lemma run_shadow_path r obligations case_id b : bpath (run_shadow r obligations case_id) b (fun _ _ => True).
Proof.
  intros Hwf x b'. unfold run_shadow, prepare_onboarding_kernel_shadow.
  assert (Hquit : forall b1, bstill b b1 -> bwf b1 /\ blater b b1 /\ True).
  { intros b1 Hst. destruct (bstill_wf _ _ Hst Hwf). by split_and!. }
  destruct (negb (bridge_enabled settings)); [intros [= <- <-]; by apply (Hquit b)|].
  unfold bind, lift, throw, ret. destruct (get_case (rc_exec r) case_id) as [[c|]|e];
    [|intros [= <- <-]; by apply (Hquit b)..].
  destruct (negb _); [intros [= <- <-]; by apply (Hquit b)|].
  unfold shadow_bridge, bridge_now. cbn [sw_bridge sw_obligations br_ticks].
  set (b2 := bridge_tick (bridge_tick b)). assert (Hb2 : bstill b b2) by done.
  destruct (shadow_governance _ _ _ _) as [[evaluation g]|e];
    [|intros [= <- <-]; by apply (Hquit b2)].
  unfold transact. cbn [sw_obligations sw_bridge]. destruct (shadow_obligations _ _ _ _) as [[s db]|e]; cbn;
    [|intros [= <- <-]; by apply (Hquit b2)].
  destruct (prepare_each clock settings c g (os_obligations s) b2) as [x2 b3] eqn:E. intros [= <- <-].
  destruct (Hquit b2 Hb2) as (Hwf2 & Hl2 & _). destruct (prepare_each_path _ _ _ _ Hwf2 _ _ E) as (? & ? & _).
  cbn. split_and!; [done|by etrans|]. by destruct x2.
Qed.

Lemma serve_keeps call : keeps (kernel_serve call).
Proof.
  destruct call; cbn [kernel_serve]; apply keeps_drop.
  - unfold cutover_execute. destruct (negb _); [apply keeps_fallback|]. eapply keeps_bridge. intros b. apply kernel_execute_path.
  - unfold cutover_observe. destruct (negb _); [apply keeps_fallback|]. apply (keeps_bridge _ (fun _ _ => True)). intros b.
    eapply bpath_mono; [apply bpath_still, _|done].
  - eapply keeps_bridge. intros b. apply prepare_obligation_path.
  - eapply keeps_bridge. intros b. apply run_shadow_path.
Qed.

Lemma history_keeps k k' :
  rtc kernel_step k k' -> bwf (kv_bridge k) -> bwf (kv_bridge k') /\ blater (kv_bridge k) (kv_bridge k').
Proof.
  induction 1 as [k|k k1 k2 Hs _ IH]; intros Hwf; [by split|].
  assert (bwf (kv_bridge k1) /\ blater (kv_bridge k) (kv_bridge k1)) as [Hwf1 Hl].
  { destruct Hs as [(call & r & Hc)|Hst]; [by eapply serve_keeps|by apply bstill_wf]. }
  destruct (IH Hwf1). split; [done|by etrans].
Qed.

Lemma filter_free (id : uuid) (l : list (uuid * pydict)) : (forall c, (id, c) ∉ l) -> filter (fun x => x.1 = id) l = [].
Proof.
  induction l as [|[i c] l IH]; intros Hl; [done|]. rewrite filter_cons. case_decide as Hi; cbn in Hi.
  - subst i. destruct (Hl c). left.
  - apply IH. intros c' Hin. apply (Hl c'). by right.
Qed.

(** A bridge over new tables. *)
Definition fresh_bridge (b : Bridge P) : Prop := br_db b = empty_bridge_db /\ br_commands b = [].

Lemma fresh_wf b : fresh_bridge b -> bwf b.
Proof. intros [Ed Ec]. unfold bwf. rewrite Ed, Ec. split; [apply empty_tables_ok|]. by intros ?? ?%not_elem_of_nil. Qed.

(** ** Theorems *)

(** C26: Whatever is sent again is the same command: through any history of calls,
    returned or broken off, every execution command sent for an obligation is the
    command of its one stored projection, frozen with the grant, the intent and
    the admitted work, so two commands for one obligation are equal. *)
Theorem commands_are_frozen k k' id1 id2 c1 c2 :
  fresh_bridge (kv_bridge k) -> rtc kernel_step k k' ->
  (id1, c1) ∈ br_commands (kv_bridge k') -> (id2, c2) ∈ br_commands (kv_bridge k') ->
  exists p1 p2, bd_projections (br_db (kv_bridge k')) !! id1 = Some p1 /\
    bd_projections (br_db (kv_bridge k')) !! id2 = Some p2 /\ in_work p1 /\ in_work p2 /\
    (ps_obligation_id (kp_semantics p1) = ps_obligation_id (kp_semantics p2) -> id1 = id2 /\ c1 = c2).
Proof.
  intros Hf Hh H1 H2. destruct (history_keeps _ _ Hh (fresh_wf _ Hf)) as [[Hok Hc] _].
  pose proof (Hc _ _ H1) as C1. pose proof (Hc _ _ H2) as C2.
  destruct C1 as (p1 & g1 & i1 & w1 & Hp1 & Hw1 & Hrest1) eqn:E1. destruct C2 as (p2 & g2 & i2 & w2 & Hp2 & Hw2 & Hrest2) eqn:E2.
  exists p1, p2. split_and!; try done. intros Ho. pose proof (to_one_obligation _ Hok _ _ _ _ Hp1 Hp2 Ho) as ->.
  split; [done|]. by eapply command_unique; apply Hc.
Qed.

(** A receipt is final: once the receipt of an execution is stored, through any
    history of calls it is never rewritten and no further command is sent for its
    projection. *)
Theorem receipts_are_final k k' id p :
  bwf (kv_bridge k) -> bd_projections (br_db (kv_bridge k)) !! id = Some p -> receipted p -> rtc kernel_step k k' ->
  (exists p', bd_projections (br_db (kv_bridge k')) !! id = Some p' /\ kp_semantics p' = kp_semantics p /\
     kp_execution p' = kp_execution p /\ kp_status p' = kp_status p /\ kp_work p' = kp_work p) /\
  filter (fun x => x.1 = id) (br_commands (kv_bridge k')) = filter (fun x => x.1 = id) (br_commands (kv_bridge k)).
Proof.
  intros Hwf Hp Hr Hh. destruct (history_keeps _ _ Hh Hwf) as [Hwf' [Hl (new & Hnew & Hfree)]]. split.
  - destruct (tl_projections _ _ Hl _ _ Hp) as (p' & Hp' & [Hs _ Hw Hre]). exists p'. destruct (Hre Hr). split_and!; try done.
    by apply Hw, (to_receipts _ (proj1 Hwf) _ _ Hp).
  - rewrite Hnew, filter_app. rewrite (filter_free id new); [by rewrite app_nil_r|]. intros c Hin. by eapply Hfree.
Qed.
End histories.

(** ** The provider *)

Section ownership.
Context `{Hplat : Platform} {P : Type} `{Hhttp : KernelHttp P} (clock : nat -> instant) (records : nat -> Records)
  (settings : KernelSettings).

(** Ownership is exclusive: executing or observing an effect of a capability the
    Kernel owns leaves the fallback provider alone and gives the same answer and the
    same bridge whatever that provider is; any other effect leaves the bridge, its
    tables and the Kernel alone. *)
Theorem kernel_ownership_is_exclusive F F' (HF : EffectProvider F) (HF' : EffectProvider F') effect payload
    (x : F) (x' : F') (b : Bridge P) :
  if kernel_owned settings effect then
    (exists r b1, cutover_execute clock records settings effect payload (mkKernelProvider x b) = (r, mkKernelProvider x b1) /\
       cutover_execute clock records settings effect payload (mkKernelProvider x' b) = (r, mkKernelProvider x' b1)) /\
    (exists r b1, cutover_observe settings effect (mkKernelProvider x b) = (r, mkKernelProvider x b1) /\
       cutover_observe settings effect (mkKernelProvider x' b) = (r, mkKernelProvider x' b1))
  else
    (exists r y, cutover_execute clock records settings effect payload (mkKernelProvider x b) = (r, mkKernelProvider y b) /\
       provider_execute x effect payload = (r, y)) /\
    (exists r y, cutover_observe settings effect (mkKernelProvider x b) = (r, mkKernelProvider y b) /\
       provider_observe x effect = (r, y)).
Proof.
  unfold cutover_execute, cutover_observe. destruct (kernel_owned settings effect); cbn [negb]; unfold on_bridge, on_fallback;
    cbn [kv_bridge kv_fallback].
  - destruct (kernel_execute _ _ _ _ _ b) as [r b1]. destruct (kernel_observe _ b) as [r2 b2]. split; by eexists _, _.
  - destruct (provider_execute x effect payload) as [r y]. destruct (provider_observe x effect) as [r2 y2]. split; by eexists _, _.
Qed.

(** ** Evidence *)

(** The view is evidence of this projection, of its intent and with this result. *)
Record evidence_supports (p : KernelShadowProjection) (i : AdministrativeEffectIntent) (v : KernelEvidenceView)
    (result : string) : Prop := {
  es_expected : dict_eqb (ev_expected_postcondition v) (ei_expected_postcondition i) = true;
  es_work : kernel_work_ref (kp_work p) = Some (ev_work_ref v);
  es_run : kernel_run_ref (kp_execution p) = Some (ev_run_ref v);
  es_action : kernel_action_ref (kp_execution p) = Some (ev_action_ref v);
  es_result : ev_objective_result v = result;
}.

Lemma identity_kept name actual expected : identity_rebound name actual expected = None -> expected = Some actual.
Proof. unfold identity_rebound. destruct (falsy expected); cbn; [done|]. case_bool_decide as E; [done|]. intros _. by symmetry. Qed.

Lemma evidence_accepted p i v result : evidence_refusal p i v result = None -> evidence_supports p i v result.
Proof.
  unfold evidence_refusal. destruct (dict_eqb _ _) eqn:Ed; [|done]. cbn [negb].
  destruct (identity_rebound "work" _ _) eqn:Ew; [done|]. destruct (identity_rebound "run" _ _) eqn:Er; [done|].
  destruct (identity_rebound "action" _ _) eqn:Ea; [done|]. case_bool_decide as Hres; [done|]. intros _.
  apply identity_kept in Ew, Er, Ea. by split.
Qed.

(** What a projection claims as its evidence: what its receipt names, or what a
    resolution of the Kernel names for an execution of unknown outcome. *)
Inductive claims_evidence (p : KernelShadowProjection) (b : Bridge P) : string -> string -> Prop :=
  | claims_completed ref :
      kernel_execution_status (kp_execution p) = Some KE_COMPLETED -> kernel_evidence_ref (kp_execution p) = Some ref ->
      claims_evidence p b ref "pass"
  | claims_refuted ref :
      kernel_execution_status (kp_execution p) = Some KE_VERIFIED_FAIL -> kernel_evidence_ref (kp_execution p) = Some ref ->
      claims_evidence p b ref "fail"
  | claims_resolved ref result r b' :
      kernel_execution_status (kp_execution p) = Some KE_EXECUTION_UNKNOWN ->
      try_inspect_resolution (Some p) b = (Ok (Some r), b') -> rn_evidence_ref r = Some ref ->
      (rn_current_status r = "recovered-completed" /\ result = "pass" \/
       rn_current_status r = "recovered-verified-fail" /\ result = "fail") ->
      claims_evidence p b ref result.

Lemma claimed_evidence_Ok projection t b ref result at_ b' :
  claimed_evidence projection t b = (Ok (Some ref, Some result, at_), b') ->
  exists p, projection = Some p /\ claims_evidence p b ref result.
Proof.
  unfold claimed_evidence, execution_of. destruct projection as [p|]; cbn; [|done]. intros Hr. exists p. split; [done|].
  destruct (kernel_execution_status (kp_execution p)) as [[]|] eqn:Es; try discriminate Hr.
  - apply bind_Ok in Hr as (o & b1 & Hi & Hr). destruct o as [r|]; [|discriminate Hr]. unfold ret in Hr.
    case_bool_decide as H1; [|case_bool_decide as H2; [|discriminate Hr]]; injection Hr as Hr <- _ _;
      eapply claims_resolved; eauto.
  - injection Hr as Hr <- _ _. by apply claims_refuted.
  - injection Hr as Hr <- _ _. by apply claims_completed.
Qed.

(** A fact the provider reports of an owned effect rests on evidence: the Kernel's
    verification view that the stored projection of the effect's obligation claims,
    bound to the projection's work, run and action, to the postcondition of the
    stored intent and to the claimed result; the state reported is the state
    verified. *)
Theorem observations_rest_on_evidence effect (b b' : Bridge P) o :
  kernel_observe effect b = (Ok o, b') -> ro_availability o = AVAILABLE ->
  exists obligation p i v ref result plane,
    ef_obligation_id effect = Some obligation /\
    get_projection_for_obligation (br_db b) obligation = Ok (Some p) /\ claims_evidence p b ref result /\
    fst (inspect_evidence ref plane) = Ok (Some v) /\
    get_intent (br_db b) (ps_intent_id (kp_semantics p)) = Some i /\ evidence_supports p i v result /\
    o = evidence_observation effect v /\ ro_state o = ev_observed_postcondition v.
Proof.
  unfold kernel_observe. intros Hr Hav. apply bind_Ok in Hr as (projection & b1 & Hp & Hr).
  assert (b1 = b) as ->.
  { unfold effect_projection, reads, ret in Hp. destruct (ef_obligation_id effect); congruence. }
  apply bind_Ok in Hr as ([[evidence expected] at_] & b2 & Hc & Hr).
  assert (Hunknown : forall ref t e b3, ret (unknown_observation effect ref t e) b3 = (Ok o, b') -> False).
  { intros ref t e b3 [= <- _]. discriminate Hav. }
  destruct expected as [result|]; [|by eapply Hunknown in Hr].
  destruct projection as [p|]; [|by eapply Hunknown in Hr]. destruct evidence as [ref|]; [|by eapply Hunknown in Hr].
  destruct (negb (nonempty ref)); [by eapply Hunknown in Hr|].
  pose proof (still_claimed _ _ _ _ _ Hc) as [Ed _].
  apply bind_Ok in Hr as (inspected & b3 & Hi & Hr). unfold attempt, on_kernel in Hi.
  destruct (inspect_evidence ref (br_plane b2)) as [answer plane] eqn:Ev. injection Hi as <- <-.
  destruct answer as [[v|]|e]; [|by eapply Hunknown in Hr|].
  2: { case_bool_decide; [|done]. by eapply Hunknown in Hr. }
  apply bind_Ok in Hr as (intent & b4 & Hg & Hr). unfold gets in Hg. injection Hg as <- <-.
  cbn [br_db with_plane] in Hr. rewrite Ed in Hr.
  destruct (get_intent (br_db b) (ps_intent_id (kp_semantics p))) as [i|] eqn:Eint; [|by injection Hr as <- _].
  unfold ret in Hr. destruct (evidence_refusal p i v result) eqn:Eref; [by injection Hr as <- _|]. injection Hr as <- _.
  apply claimed_evidence_Ok in Hc as (p' & [= <-] & Hcl). unfold effect_projection, reads in Hp.
  destruct (ef_obligation_id effect) as [obligation|]; [|done]. injection Hp as Hp.
  exists obligation, p, i, v, ref, result, (br_plane b2). rewrite Ev. split_and!; try done. by apply evidence_accepted.
Qed.
End ownership.

(** ** Success *)

Section outcomes.
Context `{Hplat : Platform} {P : Type} `{Hhttp : KernelHttp P} (clock : nat -> instant) (records : nat -> Records)
  (settings : KernelSettings).

(** The whole lineage of an execution. *)
Definition complete_lineage (r : ExecutionRefs) : Prop :=
  Forall (fun o => falsy o = false) (execution_ref_list r) /\ kernel_execution_processed_at r <> None.

(** What a success of the provider may rest on: the stored receipt of a completed
    execution, or a recovery of the Kernel, asked just now for the stored execution
    of unknown outcome, that confirms it. *)
Inductive success_basis (p : KernelShadowProjection) : Prop :=
  | basis_receipt :
      kernel_execution_status (kp_execution p) = Some KE_COMPLETED -> kp_status p = KP_CUTOVER ->
      complete_lineage (kp_execution p) -> success_basis p
  | basis_recovery plane ref r :
      kernel_execution_status (kp_execution p) = Some KE_EXECUTION_UNKNOWN ->
      kernel_execution_ref (kp_execution p) = Some ref ->
      fst (recover ref (kernel_work_ref (kp_work p)) plane) = Ok r -> rn_execution_ref r = ref ->
      kernel_work_ref (kp_work p) = Some (rn_work_ref r) -> rn_current_status r = "recovered-completed" ->
      rn_evidence_ref r <> None -> success_basis p.

Lemma missing_none refs name o : is_nil (missing refs) = true -> (name, o) ∈ refs -> falsy o = false.
Proof.
  rewrite is_nil_true. unfold missing. intros Hm%fmap_nil_inv Hin. destruct (falsy o) eqn:E; [|done].
  assert ((name, o) ∈ List.filter (fun kv => falsy (snd kv)) refs) as Hf by by apply elem_of_filter_bool.
  rewrite Hm in Hf. by apply not_elem_of_nil in Hf.
Qed.

Lemma resolution_Ok v ref work r :
  resolution v ref work = Ok r ->
  rn_execution_ref r = ref /\ (forall w, work = Some w -> rn_work_ref r = w) /\
  (rn_current_status r = "recovered-completed" -> rn_evidence_ref r <> None).
Proof.
  unfold resolution. intros Hr. inv_ok. simplify_eq.
  match type of Hr with match ?x with _ => _ end = _ => destruct x; try done end. injection Hr as <-. cbn [rn_execution_ref
    rn_work_ref rn_current_status rn_evidence_ref]. split_and!.
  - by apply bool_decide_eq_false, dec_stable in E3.
  - intros w ->. by apply bool_decide_eq_false, dec_stable in E5.
  - intros Hst. rewrite bool_decide_true in E17 by done. apply negb_false_iff in E17.
    eapply missing_none with (name := "evidence_ref") in E17; [|do 6 right; left]. by destruct v16.
Qed.

Lemma recover_Ok ref work plane r plane' :
  recover ref work plane = (Ok r, plane') ->
  rn_execution_ref r = ref /\ (forall w, work = Some w -> rn_work_ref r = w) /\
  (rn_current_status r = "recovered-completed" -> rn_evidence_ref r <> None).
Proof.
  unfold recover. destruct (negb _); [done|]. intros Hr. apply bind_Ok in Hr as (reply & p1 & _ & Hr).
  apply bind_Ok in Hr as (v & p2 & _ & Hr). unfold lift in Hr. injection Hr as Hr _. by eapply resolution_Ok.
Qed.

(** What a stored, receipted projection carries. *)
Lemma receipt_refs_stored id p (b : Bridge P) :
  bwf b -> bd_projections (br_db b) !! id = Some p -> receipted p ->
  (exists w, kernel_work_ref (kp_work p) = Some w) /\
  (kernel_execution_status (kp_execution p) = Some KE_COMPLETED -> kp_status p = KP_CUTOVER /\ complete_lineage (kp_execution p)).
Proof.
  intros [Hok _] Hp Hr. destruct (to_projections _ Hok _ _ Hp) as [_ Hm]. destruct (to_receipts _ Hok _ _ Hp) as [Hw Hcut].
  specialize (Hw Hr). unfold refs_match_status, check_work, check_execution in Hm. inv_ok.
  assert (Hst : bool_decide (kp_status p ∈ [KP_ADMITTED; KP_CUTOVER]) = true).
  { apply bool_decide_eq_true. destruct Hw as [-> | ->]; set_solver. }
  split.
  - repeat match goal with H : bool_decide (kp_status p ∈ [KP_ADMITTED; KP_CUTOVER]) && _ = false |- _ =>
      rewrite Hst in H; cbn [andb existsb] in H end.
    propify. destruct (kernel_work_ref (kp_work p)); [by eexists|done].
  - intros Hc. specialize (Hcut Hc). split; [done|].
    match goal with H : bool_decide (kp_status p = KP_CUTOVER) && (_ || _) = false |- _ =>
      rewrite bool_decide_true in H by done; cbn [andb] in H; apply orb_false_iff in H as [Hl Ht] end.
    split; [|by destruct (kernel_execution_processed_at _)]. apply Forall_forall. intros o Ho.
    destruct (falsy o) eqn:Ef; [|done]. rewrite <- Hl. symmetry. apply existsb_elem_of. by exists o.
Qed.

Lemma outcome_success p b r b' :
  execution_outcome (P := P) (Some p) b = (Ok r, b') -> px_status r = PX_SUCCEEDED ->
  kernel_execution_status (kp_execution p) = Some KE_COMPLETED \/
  kernel_execution_status (kp_execution p) = Some KE_EXECUTION_UNKNOWN /\
    exists b1 n, try_recover (Some p) b = (Ok (Some n), b1) /\ rn_current_status n = "recovered-completed".
Proof.
  unfold execution_outcome. case_bool_decide; [by intros [= <- _]|].
  destruct (kernel_execution_status (kp_execution p)) as [[]|] eqn:Es; try (by intros [= <- _]); [|by left].
  intros Hr Hs. right. split; [done|]. apply bind_Ok in Hr as (o & b1 & Hrec & [= <- _]).
  destruct o as [n|]; [|done]. exists b1, n. split; [done|]. by case_bool_decide; [|case_bool_decide].
Qed.

Lemma try_recover_Ok p b n b' :
  try_recover (P := P) (Some p) b = (Ok (Some n), b') ->
  exists ref, kernel_execution_ref (kp_execution p) = Some ref /\
    fst (recover ref (kernel_work_ref (kp_work p)) (br_plane b)) = Ok n.
Proof.
  unfold try_recover, resolution_target. cbn. destruct (kernel_execution_ref (kp_execution p)) as [ref|]; [|done].
  destruct (nonempty ref); [|done]. unfold catch, bind, on_kernel.
  destruct (recover ref _ (br_plane b)) as [[x|e] pl] eqn:E; cbn; [intros [= <- _]; by exists ref; rewrite E|].
  by case_bool_decide.
Qed.

Lemma preparation_never_succeeds projection e r : preparation_failure projection e = Some r -> px_status r <> PX_SUCCEEDED.
Proof.
  unfold preparation_failure. repeat case_bool_decide; cbn [orb]; try (by intros [= <-]).
  destruct (is_ValueError _); [by intros [= <-]|done].
Qed.

(** An answer of [execute] judges a stored projection, or a preparation that failed. *)
Lemma kernel_execute_judges effect payload (b b' : Bridge P) r :
  bwf b -> kernel_execute clock records settings effect payload b = (Ok r, b') -> px_status r = PX_SUCCEEDED ->
  exists projection b1, bwf b1 /\ judged effect projection b1 /\ execution_outcome projection b1 = (Ok r, b').
Proof.
  intros Hwf Hr Hs. unfold kernel_execute in Hr. apply bind_Ok in Hr as (q & b1 & Hq & Hr).
  destruct (effect_projection_path effect b Hwf _ _ Hq) as (Hwf1 & _ & Hj).
  destruct (needs_preparation settings q); [|by exists q, b1].
  apply bind_Ok in Hr as (x & b2 & Hx & Hr).
  destruct (bpath_attempt _ _ _ (prepare_effect_path clock records settings effect payload b1) Hwf1 _ _ Hx) as (Hwf2 & _ & HQ).
  destruct x as [q'|e].
  - exists q', b2. split_and!; [done| |done]. destruct q' as [p|]; [|done]. destruct HQ as (o & Hob & Hpr). by eexists.
  - destruct (preparation_failure q e) eqn:Ef; [|done]. injection Hr as -> _. by apply preparation_never_succeeds in Ef.
Qed.

(** C27: A success rests on a receipt: when the provider reports an owned effect done, the
    bridge stores, for the effect's obligation, a projection with the receipt of a
    completed execution and its whole lineage, or the Kernel confirmed the stored
    execution completed when asked to recover it. *)
Theorem success_rests_on_receipt effect payload (b b' : Bridge P) r :
  bwf b -> kernel_execute clock records settings effect payload b = (Ok r, b') -> px_status r = PX_SUCCEEDED ->
  exists obligation p, ef_obligation_id effect = Some obligation /\
    bd_projections (br_db b') !! kp_id p = Some p /\ ps_obligation_id (kp_semantics p) = obligation /\ success_basis p.
Proof.
  intros Hwf Hr Hs. destruct (kernel_execute_judges _ _ _ _ _ Hwf Hr Hs) as (projection & b1 & Hwf1 & Hj & Ho).
  destruct projection as [p|]; [|by injection Ho as <- _]. destruct Hj as (obligation & Hob & Hst & Hid).
  pose proof (still_outcome _ _ _ _ Ho) as [Ed _]. exists obligation, p. rewrite Ed. split_and!; [done..|].
  destruct (outcome_success _ _ _ _ Ho Hs) as [Hc|(Hu & b2 & n & Hrec & Hn)].
  - destruct (receipt_refs_stored _ _ _ Hwf1 Hst) as [_ Hcut]; [by unfold receipted; rewrite Hc|].
    destruct (Hcut Hc). by apply basis_receipt.
  - destruct (receipt_refs_stored _ _ _ Hwf1 Hst) as [[w Hw] _]; [by unfold receipted; rewrite Hu|].
    apply try_recover_Ok in Hrec as (ref & Href & Hrec). destruct (recover ref _ (br_plane b1)) as [x pl] eqn:E. cbn in Hrec. subst x.
    destruct (recover_Ok _ _ _ _ _ E) as (H1 & H2 & H3). apply (basis_recovery p (br_plane b1) ref n); try done.
    + by rewrite E.
    + by rewrite Hw, (H2 w).
    + by apply H3.
Qed.
End outcomes.

(** ** The provider's contract *)

Section contract.
Context `{Hplat : Platform} {F P : Type} `{Hfallback : EffectProvider F} {Hcontract : ProviderContract F} `{Hhttp : KernelHttp P}
  (clock : nat -> instant) (records : nat -> Records) (settings : KernelSettings).

Definition unsignalled {A} (r : result A) : Prop :=
  match r with Ok _ => True | Err e => exn_cls e <> FinancialQualificationPending end.

Lemma unsignalled_bind {A B} (m : result A) (k : A -> result B) :
  unsignalled m -> (forall a, unsignalled (k a)) -> unsignalled (rbind m k).
Proof. destruct m; cbn; auto. Qed.

Lemma unsignalled_guard b c msg : c <> FinancialQualificationPending -> unsignalled (guard b c msg).
Proof. by destruct b. Qed.

Ltac unsignal :=
  repeat first [apply unsignalled_bind; [|intros ?] | apply unsignalled_guard; discriminate | exact I | discriminate
               | match goal with |- unsignalled (match ?x with _ => _ end) => destruct x end].

(** What the bridge reads and asks raises errors of its own. *)
Lemma stored_projection_unsignalled d obligation : unsignalled (get_projection_for_obligation d obligation).
Proof.
  unfold get_projection_for_obligation. destruct (select_where _ _) as [|row l]; [exact I|]. apply unsignalled_bind; [|intros ?; exact I].
  unfold projection_from_row, refs_match_status, check_work, check_execution. unsignal.
Qed.

Lemma recover_unsignalled ref work (plane : P) : unsignalled (fst (recover ref work plane)).
Proof.
  unfold recover. destruct (negb _); [done|]. unfold bind, post, lift. destruct (kernel_post _ _ _) as [reply p'].
  destruct reply as [| | |v]; cbn; try discriminate. unfold resolution, as_object, required_ref, required_text, one_of, required_time, optional_ref. unsignal.
Qed.

Lemma outcome_raises projection (b b' : Bridge P) e :
  execution_outcome projection b = (Err e, b') -> exn_cls e <> FinancialQualificationPending.
Proof.
  unfold execution_outcome. destruct projection as [p|]; [|done]. case_bool_decide; [done|].
  destruct (kernel_execution_status (kp_execution p)) as [[]|]; try done.
  unfold try_recover. destruct (resolution_target _) as [[ref work]|]; [|done]. unfold bind, catch, on_kernel.
  pose proof (recover_unsignalled ref work (br_plane b)) as Hu. destruct (recover ref work (br_plane b)) as [[x|e'] pl]; [done|].
  cbn. case_bool_decide; [done|]. by intros [= <- _].
Qed.

Lemma kernel_execute_raises effect payload (b b' : Bridge P) e :
  kernel_execute clock records settings effect payload b = (Err e, b') -> exn_cls e <> FinancialQualificationPending.
Proof.
  unfold kernel_execute, bind at 1. destruct (effect_projection effect b) as [[q|e'] b1] eqn:Eq.
  - destruct (needs_preparation settings q); [|apply outcome_raises]. unfold bind, attempt.
    destruct (prepare_effect _ _ _ _ _ b1) as [[x|e'] b2]; [apply outcome_raises|].
    destruct (preparation_failure q e') eqn:Ef; [done|]. intros [= <- _] He. unfold preparation_failure in Ef. by rewrite He in Ef.
  - intros [= <- _]. unfold effect_projection, reads in Eq. destruct (ef_obligation_id effect) as [o|]; [|done].
    pose proof (stored_projection_unsignalled (br_db b) o) as Hu. injection Eq as Eq _. by rewrite Eq in Hu.
Qed.

(** The cut-over provider keeps its fallback's contract with the engines, so what is
    proved of the engines holds of them over the Kernel. *)
#[global] Instance cutover_contract : ProviderContract (KernelProvider F P) (H := cutover_provider clock records settings).
Proof.
  intros k effect payload e k'. cbn. unfold cutover_execute. destruct (negb _).
  - unfold on_fallback. destruct (provider_execute _ _ _) as [r x] eqn:E. intros [= -> _]. by eapply execute_raises.
  - unfold on_bridge. destruct (kernel_execute _ _ _ _ _ _) as [r x] eqn:E. intros [= -> _]. by eapply kernel_execute_raises.
Qed.
End contract.
