(* ===== verification/ResponsibilityDischarge.v ===== *)
(** * Discharge of Kernel responsibilities, [responsibility_discharge.py]

    A completed case gives back every responsibility the Kernel holds for it: the
    service assesses completion from the stored records, projects the set of
    responsibilities from the bridge tables, and drives the Kernel through
    assessment, decision and transition of each.  [Drive] is the bridge together
    with the lists the loop fills, which survive an exception. *)

From stdpp Require Import base gmap strings list.
From Stdlib Require Import ZArith Lia.
From S2P Require Import Prelude Python CPython Uuid Store Domain Policy Authority Access Lifecycle Obligations Completion.
From S2P Require Import Verification Transfer Derivation PolicyPlane Financial Persistence Transactions Governance Kernel Machine.
From S2P Require Import KernelClient Execution KernelBridge KernelSafety.

Open Scope Z_scope.
Open Scope orch_scope.
Open Scope machine_scope.

Inductive ResponsibilityDischargeStatus := DISCHARGE_PENDING | DISCHARGE_DISCHARGED.

#[global] Instance ResponsibilityDischargeStatus_eq_dec : EqDecision ResponsibilityDischargeStatus.
Proof. solve_decision. Defined.

Record ResponsibilityHandle := mkResponsibilityHandle {
  rh_responsibility_ref : string;
  rh_responsibility_version : Z;
  rh_obligation_ids : list uuid;
}.

(** The lists the loop fills. *)
Record Progress := mkProgress {
  pg_discharged : list string;
  pg_assessments : list (string * string);
  pg_decisions : list (string * string);
  pg_transitions : list (string * string);
}.
Definition no_progress : Progress := mkProgress [] [] [] [].

Record ResponsibilityDischargeResult := mkResponsibilityDischargeResult {
  rd_status : ResponsibilityDischargeStatus;
  rd_responsibility_refs : list string;
  rd_progress : Progress;
  rd_completion : CompletionAssessment;
  rd_blocker : option string;
}.

Definition blocked (blocker : string) (responsibility_refs : list string) (completion : CompletionAssessment)
  : ResponsibilityDischargeResult :=
  mkResponsibilityDischargeResult DISCHARGE_PENDING responsibility_refs no_progress completion (Some blocker).
Definition pending_result (blocker : string) (responsibility_refs : list string) (progress : Progress)
    (completion : CompletionAssessment) : ResponsibilityDischargeResult :=
  mkResponsibilityDischargeResult DISCHARGE_PENDING responsibility_refs progress completion (Some blocker).
Definition unsatisfied_completion (reason : string) : CompletionAssessment :=
  mkCompletionAssessment ("blocked:" +:+ reason) false [] [] [] [] [] [] None [reason].

Abbreviation Blocked := ResponsibilityDischargeBlocked (only parsing).

(** ** References *)

Definition policy_ref_text (c : AdministrativeCase) : result string :=
  match c_policy_ref c with
  | None => raise Blocked "missing_current_policy"
  | Some p => Ok ("policy:" +:+ pr_policy_id p +:+ ":" +:+ pr_version p)
  end.

Section refs.
Context `{Hplat : Platform}.

(** [_discharge_refs]: assessment, decision and transition *)
Definition discharge_refs (c : AdministrativeCase) (h : ResponsibilityHandle) : string * string * string :=
  let prefix := uuid_str (c_case_id c) +:+ ":" +:+ int_str (c_version c) +:+ ":" +:+ int_str (c_authority_epoch c) +:+ ":"
                +:+ rh_responsibility_ref h +:+ ":" +:+ int_str (rh_responsibility_version h) in
  ("assessment_admin_discharge_" +:+ uuid_hex (uuid5 ("assessment:" +:+ prefix)),
   "decision_admin_discharge_" +:+ uuid_hex (uuid5 ("decision:" +:+ prefix)),
   "transition_admin_discharge_" +:+ uuid_hex (uuid5 ("transition:" +:+ prefix))).

Definition basis_refs (c : AdministrativeCase) (h : ResponsibilityHandle) (completion : CompletionAssessment)
    (effects : list EffectRecord) (outcomes : list ConfirmedOutcome) (links : list EffectObligationLink)
    (fulfillments : list ObligationDomainStateFulfillment) : result (list string) :=
  let! policy := policy_ref_text c in
  let known id := existsb (fun e => bool_decide (ef_effect_id e = id)) effects in
  let owned id := bool_decide (id ∈ rh_obligation_ids h) in
  let refs :=
    ["administrative-case:" +:+ uuid_str (c_case_id c) +:+ ":version:" +:+ int_str (c_version c) +:+ ":epoch:"
       +:+ int_str (c_authority_epoch c);
     "completion-assessment:" +:+ ca_requirement_id completion;
     "responsibility:" +:+ rh_responsibility_ref h +:+ ":version:" +:+ int_str (rh_responsibility_version h); policy]
    ++ ((fun id => "administrative-obligation:" +:+ uuid_str id) <$> rh_obligation_ids h)
    ++ ((fun l => "administrative-effect:" +:+ uuid_str (ln_effect_id l)) <$>
          List.filter (fun l => owned (ln_obligation_id l) && known (ln_effect_id l)) links)
    ++ ((fun o => "confirmed-outcome:" +:+ uuid_str (co_outcome_id o)) <$>
          List.filter (fun o => known (co_effect_id o)) outcomes)
    ++ ((fun f => "domain-fulfillment:" +:+ uuid_str (fl_fulfillment_id f)) <$>
          List.filter (fun f => owned (fl_obligation_id f)) fulfillments) in
  Ok (sort_by String.compare (remove_dups refs)).
End refs.

(** ** The set of responsibilities *)

(** What the loop over the projections gathers: those of the case's epoch, the
    version and the obligations of each responsibility, and the projections whose
    execution a resolution of the Kernel showed completed. *)
Record Gathered := mkGathered {
  ga_current : list KernelShadowProjection;
  ga_by_ref : list (string * (Z * list uuid));
  ga_recovered : list uuid;
}.
Definition nothing_gathered : Gathered := mkGathered [] [] [].

Definition responsibility_of (p : KernelShadowProjection) : result string :=
  match kernel_responsibility_ref (kp_proposal p) with
  | Some ref => if nonempty ref then Ok ref else raise Blocked "kernel_projection_missing_responsibility_ref"
  | None => raise Blocked "kernel_projection_missing_responsibility_ref"
  end.

Definition responsibility_version_of (p : KernelShadowProjection) : result Z :=
  match dict_get (ps_admission_payload (kp_semantics p)) "responsibility_version" with
  | VInt n => if n <? 1 then raise Blocked "kernel_projection_missing_responsibility_version" else Ok n
  | _ => raise Blocked "kernel_projection_missing_responsibility_version"
  end.

Definition add_once (id : uuid) (ids : list uuid) : list uuid := if bool_decide (id ∈ ids) then ids else ids ++ [id].

Definition group_by_ref (by_ref : list (string * (Z * list uuid))) (ref : string) (version : Z) (obligation : uuid)
  : result (list (string * (Z * list uuid))) :=
  match odict_get ref by_ref with
  | None => Ok (odict_set by_ref ref (version, [obligation]))
  | Some (v, ids) =>
      refuse bool_decide (v <> version) with Blocked saying "responsibility_version_rebound";;
      Ok (odict_set by_ref ref (v, add_once obligation ids))
  end.

Definition handles_of (by_ref : list (string * (Z * list uuid))) : list ResponsibilityHandle :=
  (fun '(ref, (version, ids)) =>
     mkResponsibilityHandle ref version (sort_by (fun a b => String.compare (uuid_str a) (uuid_str b)) ids)) <$>
  sort_by (fun a b => String.compare (fst a) (fst b)) by_ref.

Definition required_external (s : AdministrativeObligationSet) : list AdministrativeObligation :=
  List.filter (fun o => ob_required o && bool_decide (ob_fulfillment_kind o = EXTERNAL_EFFECT_VERIFIED)) (os_obligations s).

Record Drive (P : Type) := mkDrive { dv_bridge : Bridge P; dv_progress : Progress }.
Arguments mkDrive {P}. Arguments dv_bridge {P}. Arguments dv_progress {P}.

Section service.
Context `{Hplat : Platform} {P : Type} `{Hhttp : KernelHttp P} (settings : KernelSettings).

Local Abbreviation B := (M (Bridge P)).

(** [_projection_execution_completed] *)
Definition projection_execution_completed (p : KernelShadowProjection) (responsibility_ref : string) : B bool :=
  if bool_decide (kp_status p = KP_CUTOVER) && bool_decide (kernel_execution_status (kp_execution p) = Some KE_COMPLETED)
  then ret true
  else
    match kernel_execution_ref (kp_execution p) with
    | Some ref =>
        if bool_decide (kp_status p <> KP_ADMITTED)
           || bool_decide (kernel_execution_status (kp_execution p) <> Some KE_EXECUTION_UNKNOWN) || negb (nonempty ref)
        then ret false
        else
          do! resolved := catch (on_kernel (inspect_resolution ref (kernel_work_ref (kp_work p)))) KernelRecoveryError
                            (throw Blocked "kernel_recovery_resolution_unavailable:KernelRecoveryError") in
          match resolved with
          | Some r =>
              if bool_decide (rn_current_status r <> "recovered-completed") then ret false
              else if bool_decide (rn_responsibility_ref r <> Some responsibility_ref)
              then throw Blocked "kernel_recovery_responsibility_identity_rebound"
              else ret true
          | None => ret false
          end
    | None => ret false
    end.

(** One projection of the loop. *)
Definition gather (c : AdministrativeCase) (g : Gathered) (p : KernelShadowProjection) : B Gathered :=
  if bool_decide (kp_status p = KP_SHADOW) then throw Blocked "kernel_projection_missing_responsibility_ref"
  else
    do! ref := lift (responsibility_of p) in
    do! version := lift (responsibility_version_of p) in
    do! recovered :=
      if bool_decide (kernel_execution_status (kp_execution p) = Some KE_EXECUTION_UNKNOWN) then
        do! completed := projection_execution_completed p ref in
        if negb completed then throw Blocked "historical_external_responsibility_not_completed"
        else ret (kp_id p :: ga_recovered g)
      else ret (ga_recovered g) in
    let rebound := match kernel_execution_responsibility_ref (kp_execution p) with
                   | Some r => bool_decide (r <> ref)
                   | None => false
                   end in
    if rebound then throw Blocked "kernel_execution_responsibility_identity_rebound"
    else
      do! by_ref := lift (group_by_ref (ga_by_ref g) ref version (ps_obligation_id (kp_semantics p))) in
      ret (mkGathered
             (if bool_decide (ps_authority_epoch (kp_semantics p) = c_authority_epoch c) then ga_current g ++ [p]
              else ga_current g)
             by_ref recovered).

Fixpoint gather_all (c : AdministrativeCase) (g : Gathered) (projections : list KernelShadowProjection) : B Gathered :=
  match projections with
  | [] => ret g
  | p :: rest => do! g := gather c g p in gather_all c g rest
  end.

(** One required external obligation of the current set. *)
Definition check_current (g : Gathered) (o : AdministrativeObligation) : B unit :=
  match List.filter (fun p => bool_decide (ps_obligation_id (kp_semantics p) = ob_obligation_id o)) (ga_current g) with
  | [p] =>
      do! ref := lift (responsibility_of p) in
      if bool_decide (kp_id p ∈ ga_recovered g) then ret tt
      else
        do! completed := projection_execution_completed p ref in
        if completed then ret tt else throw Blocked "current_external_responsibility_not_completed"
  | _ => throw Blocked "missing_or_duplicate_current_kernel_projection"
  end.

Fixpoint check_all (g : Gathered) (obligations : list AdministrativeObligation) : B unit :=
  match obligations with
  | [] => ret tt
  | o :: rest => also! check_current g o then check_all g rest
  end.

Definition project_responsibility_set (c : AdministrativeCase) (s : AdministrativeObligationSet)
  : B (list ResponsibilityHandle) :=
  do! projections := reads (fun b => list_projections_for_case (br_db b) (c_case_id c)) in
  do! g := gather_all c nothing_gathered projections in
  also! check_all g (required_external s) then
  ret (handles_of (ga_by_ref g)).

(** ** The discharge of one responsibility *)

Local Abbreviation D := (M (Drive P)).

Definition on_drive {A} (m : B A) : D A := fun d =>
  let '(r, b) := m (dv_bridge d) in (r, mkDrive b (dv_progress d)).
Definition advance (f : Progress -> Progress) : D unit := fun d => (Ok tt, mkDrive (dv_bridge d) (f (dv_progress d))).

Definition status_of (h : ResponsibilityHandle) : D string :=
  on_drive (on_kernel (get_responsibility_status (rh_responsibility_ref h) (rh_responsibility_version h))).

Definition seconds_later (t : instant) (n : Z) : instant := t + n * 1000000.

(** The body of the loop: [Some blocker] is an early return. *)
Definition drive_handle (c : AdministrativeCase) (completion : CompletionAssessment) (effects : list EffectRecord)
    (outcomes : list ConfirmedOutcome) (links : list EffectObligationLink)
    (fulfillments : list ObligationDomainStateFulfillment) (h : ResponsibilityHandle) : D (option string) :=
  let ref := rh_responsibility_ref h in
  let version := rh_responsibility_version h in
  let discharged := advance (fun p =>
    mkProgress (pg_discharged p ++ [ref]) (pg_assessments p) (pg_decisions p) (pg_transitions p)) in
  do! status := status_of h in
  if bool_decide (status = "discharged") then also! discharged then ret None
  else if bool_decide (status <> "active") then ret (Some "responsibility_not_active")
  else
    let '(assessment_ref, decision_ref, transition_ref) := discharge_refs c h in
    do! basis := lift (basis_refs c h completion effects outcomes links fulfillments) in
    let at_ := c_updated_at c in
    also! on_drive (on_kernel (record_assessment assessment_ref ref version (c_subject_ref c)
            "administrative-responsibility-discharge-reassessment" basis at_ None
            "Administrative CompletionAssessment is satisfied and all required outcomes and domain fulfillments are verified."
            at_)) then
    also! advance (fun p => mkProgress (pg_discharged p) (pg_assessments p ++ [(ref, assessment_ref)]) (pg_decisions p)
                              (pg_transitions p)) then
    do! after_assessment := status_of h in
    if bool_decide (after_assessment <> "active") then ret (Some "assessment_did_not_leave_responsibility_active")
    else
      do! policy := lift (policy_ref_text c) in
      also! on_drive (on_kernel (record_discharge_decision decision_ref ref version assessment_ref (assessment_ref :: basis)
              policy (seconds_later at_ 1) "Fresh completion assessment supports explicit discharge judgment."
              (seconds_later at_ 1))) then
      also! advance (fun p => mkProgress (pg_discharged p) (pg_assessments p) (pg_decisions p ++ [(ref, decision_ref)])
                                (pg_transitions p)) then
      do! after_decision := status_of h in
      if bool_decide (after_decision <> "active") then ret (Some "decision_did_not_leave_responsibility_active")
      else
        also! on_drive (on_kernel (apply_lifecycle_transition transition_ref ref version decision_ref
                [decision_ref; assessment_ref] (seconds_later at_ 2)
                "Administrative responsibility is explicitly discharged after verified completion."
                (seconds_later at_ 2))) then
        also! advance (fun p => mkProgress (pg_discharged p) (pg_assessments p) (pg_decisions p)
                                  (pg_transitions p ++ [(ref, transition_ref)])) then
        do! final := status_of h in
        if bool_decide (final <> "discharged") then ret (Some "transition_did_not_confirm_discharge")
        else also! discharged then ret None.

(** The exceptions the loop turns into a pending result. *)
Definition discharge_blocker (e : exn) : option string :=
  if bool_decide (exn_cls e = Blocked) then Some (exn_msg e)
  else if bool_decide (exn_cls e = KernelResponsibilityDischargeError)
  then Some "kernel_discharge_unavailable:KernelResponsibilityDischargeError"
  else None.

(** [_drive_kernel_discharge], [step] the body of the loop *)
Fixpoint drive_handles (step : ResponsibilityHandle -> D (option string)) (handles : list ResponsibilityHandle)
  : D (option string) :=
  match handles with
  | [] => ret None
  | h :: rest =>
      do! outcome := attempt (step h) in
      match outcome with
      | Ok None => drive_handles step rest
      | Ok (Some blocker) => ret (Some blocker)
      | Err e => match discharge_blocker e with
                 | Some blocker => ret (Some blocker)
                 | None => fun d => (Err e, d)
                 end
      end
  end.

Definition drive_kernel_discharge (c : AdministrativeCase) (handles : list ResponsibilityHandle)
    (completion : CompletionAssessment) (effects : list EffectRecord) (outcomes : list ConfirmedOutcome)
    (links : list EffectObligationLink) (fulfillments : list ObligationDomainStateFulfillment)
  : B ResponsibilityDischargeResult := fun b =>
  let refs := rh_responsibility_ref <$> handles in
  let '(r, d) := drive_handles (drive_handle c completion effects outcomes links fulfillments) handles
                   (mkDrive b no_progress) in
  (match r with
   | Ok None => Ok (mkResponsibilityDischargeResult DISCHARGE_DISCHARGED refs (dv_progress d) completion None)
   | Ok (Some blocker) => Ok (pending_result blocker refs (dv_progress d) completion)
   | Err e => Err e
   end, dv_bridge d).

(** ** The service *)

Record CompletionRecords := mkCompletionRecords {
  cr_effects : list EffectRecord;
  cr_outcomes : list ConfirmedOutcome;
  cr_realizations : list EffectRealizationAssessment;
  cr_links : list EffectObligationLink;
  cr_fulfillments : list ObligationDomainStateFulfillment;
}.

Definition completion_records (x : ExecDb) (od : ObligationDb) (c : AdministrativeCase) : result CompletionRecords :=
  let effects := list_effects x (effect_obligation_links od) (c_case_id c) (c_authority_epoch c) in
  let! outcomes := list_outcomes x (c_case_id c) (Some (c_authority_epoch c)) in
  let! realizations := list_realizations x (c_case_id c) (Some (c_authority_epoch c)) in
  let! fulfillments := list_domain_state_fulfillments od (c_case_id c) (c_authority_epoch c) in
  Ok (mkCompletionRecords effects outcomes realizations (list_links od (c_case_id c) (c_authority_epoch c)) fulfillments).

Definition completion_of (s : AdministrativeObligationSet) (r : CompletionRecords) : CompletionAssessment :=
  assess_administrative_completion s (cr_effects r) (cr_outcomes r) (Some (cr_realizations r)) (Some (cr_links r))
    (Some (cr_fulfillments r)).

(** [discharge], [x] and [od] the stored records *)
Definition discharge (x : ExecDb) (od : ObligationDb) (c : AdministrativeCase) : B ResponsibilityDischargeResult :=
  do! found := lift (get_current od (c_case_id c) (c_authority_epoch c)) in
  match found with
  | None => ret (blocked "missing_current_obligation_set" [] (unsatisfied_completion "missing_current_obligation_set"))
  | Some s =>
      do! r := lift (completion_records x od c) in
      let completion := completion_of s r in
      if bool_decide (c_status c <> COMPLETED) then ret (blocked "case_not_completed" [] completion)
      else if negb (ca_satisfied completion) then ret (blocked "completion_assessment_not_satisfied" [] completion)
      else if negb (cutover settings) then ret (blocked "kernel_cutover_required" [] completion)
      else
        do! projected := attempt (project_responsibility_set c s) in
        match projected with
        | Err e => if bool_decide (exn_cls e = Blocked) then ret (blocked (exn_msg e) [] completion) else fun b => (Err e, b)
        | Ok [] => ret (mkResponsibilityDischargeResult DISCHARGE_DISCHARGED [] no_progress completion None)
        | Ok handles =>
            do! compatible := attempt (compatibility settings) in
            match compatible with
            | Err e =>
                if bool_decide (exn_cls e = KernelCompatibilityError)
                then ret (blocked "kernel_compatibility_unavailable:KernelCompatibilityError"
                            (rh_responsibility_ref <$> handles) completion)
                else fun b => (Err e, b)
            | Ok _ =>
                drive_kernel_discharge c handles completion (cr_effects r) (cr_outcomes r) (cr_links r) (cr_fulfillments r)
            end
        end
  end.
End service.
