(* ===== verification/DischargeSafety.v ===== *)
(** * What the discharge of responsibilities guarantees

    A discharged case left no responsibility behind, and the Kernel was driven along
    the protocol: per responsibility at most one assessment, then its decision, then
    its transition, under identities that a repetition reuses. *)

From stdpp Require Import base gmap strings list.
From Stdlib Require Import ZArith Lia.
From S2P Require Import Prelude Python CPython Uuid Store Domain Policy Authority Access Lifecycle Obligations Completion.
From S2P Require Import Verification Transfer Derivation PolicyPlane Financial Persistence Transactions Governance Kernel Machine.
From S2P Require Import KernelClient Execution KernelBridge KernelSafety ResponsibilityDischarge.

Open Scope Z_scope.

(** ** The set of responsibilities *)

Section gathering.
Context `{Hplat : Platform} {P : Type} `{Hhttp : KernelHttp P}.
Implicit Types (p : KernelShadowProjection) (g : Gathered) (b : Bridge P).

(** The execution of a projection completed: its receipt says so, or a resolution of
    the Kernel for its unknown outcome does. *)
Inductive execution_completed p (ref : string) : Prop :=
  | completed_receipt :
      kp_status p = KP_CUTOVER -> kernel_execution_status (kp_execution p) = Some KE_COMPLETED -> execution_completed p ref
  | completed_recovery xref (plane : P) r :
      kp_status p = KP_ADMITTED -> kernel_execution_status (kp_execution p) = Some KE_EXECUTION_UNKNOWN ->
      kernel_execution_ref (kp_execution p) = Some xref ->
      fst (inspect_resolution xref (kernel_work_ref (kp_work p)) plane) = Ok (Some r) ->
      rn_current_status r = "recovered-completed" -> rn_responsibility_ref r = Some ref -> execution_completed p ref.

Lemma completed_true p ref b b' :
  projection_execution_completed (P := P) p ref b = (Ok true, b') -> execution_completed p ref.
Proof.
  unfold projection_execution_completed. case_bool_decide as Hs; cbn [andb].
  { case_bool_decide as Hc; [intros _; by apply completed_receipt|]. destruct (kernel_execution_ref _); [|done].
    rewrite bool_decide_true by (by rewrite Hs). done. }
  destruct (kernel_execution_ref (kp_execution p)) as [xref|] eqn:Ex; [|done].
  destruct (_ || _) eqn:Eg; [done|]. apply orb_false_iff in Eg as [[Ha Hu]%orb_false_iff _].
  apply bool_decide_eq_false in Ha, Hu. apply dec_stable in Ha, Hu. intros Hr.
  apply bind_Ok in Hr as (resolved & b1 & Hi & Hr). destruct resolved as [r|]; [|done].
  case_bool_decide as Hst; [done|]. case_bool_decide as Href; [done|].
  unfold catch, on_kernel in Hi. destruct (inspect_resolution _ _ (br_plane b)) as [x pl] eqn:Ei.
  destruct x as [o|e]; cbn in Hi; [|case_bool_decide; done]. injection Hi as -> _.
  apply (completed_recovery p ref xref (br_plane b) r); try done. by rewrite Ei.
Qed.

(** The responsibility and the version a projection carries. *)
Definition carries_responsibility p (ref : string) (version : Z) : Prop :=
  kernel_responsibility_ref (kp_proposal p) = Some ref /\ responsibility_version_of p = Ok version.

Lemma responsibility_of_Ok p ref : responsibility_of p = Ok ref -> kernel_responsibility_ref (kp_proposal p) = Some ref.
Proof. unfold responsibility_of. destruct (kernel_responsibility_ref _) as [r|]; [|done]. destruct (nonempty r); [congruence|done]. Qed.

(** What is gathered of the projections [ps], from [g0]. *)
Record gathers (c : AdministrativeCase) (ps : list KernelShadowProjection) (g0 g : Gathered) : Prop := {
  gh_current : ga_current g = ga_current g0 ++
    List.filter (fun p => bool_decide (ps_authority_epoch (kp_semantics p) = c_authority_epoch c)) ps;
  gh_keys : NoDup (ga_by_ref g0).*1 -> NoDup (ga_by_ref g).*1;
  gh_kept : forall ref v, (exists ids, (ref, (v, ids)) ∈ ga_by_ref g0) -> exists ids, (ref, (v, ids)) ∈ ga_by_ref g;
  gh_all : forall p, p ∈ ps -> exists ref v ids, carries_responsibility p ref v /\ (ref, (v, ids)) ∈ ga_by_ref g;
  gh_recovered : forall id, id ∈ ga_recovered g ->
    id ∈ ga_recovered g0 \/ exists p ref, p ∈ ps /\ kp_id p = id /\ kernel_responsibility_ref (kp_proposal p) = Some ref /\
      execution_completed p ref;
}.

Lemma group_by_ref_Ok d ref v o d' :
  group_by_ref d ref v o = Ok d' ->
  (exists ids, (ref, (v, ids)) ∈ d') /\ (NoDup d.*1 -> NoDup d'.*1) /\
  (forall ref' v', (exists ids, (ref', (v', ids)) ∈ d) -> exists ids, (ref', (v', ids)) ∈ d').
Proof.
  unfold group_by_ref. destruct (odict_get ref d) as [[v0 ids0]|] eqn:Eg; intros ?; inv_ok; simplify_eq.
  - apply bool_decide_eq_false, dec_stable in E as ->. split_and!.
    + eexists. apply odict_set_elem.
    + apply odict_set_NoDup.
    + intros ref' v' [ids Hin]. destruct (odict_set_keeps d ref (v, add_once o ids0) _ _ Hin) as [Hk|[-> Hk]]; [by eexists|].
      rewrite Eg in Hk. injection Hk as -> ->. eexists. apply odict_set_elem.
  - split_and!.
    + eexists. apply odict_set_elem.
    + apply odict_set_NoDup.
    + intros ref' v' [ids Hin]. destruct (odict_set_keeps d ref (v, [o]) _ _ Hin) as [Hk|[-> Hk]]; [by eexists|].
      by rewrite Eg in Hk.
Qed.

Lemma gather_Ok c g0 p b g b' : gather c g0 p b = (Ok g, b') -> gathers c [p] g0 g.
Proof.
  unfold gather. case_bool_decide as Hs; [done|]. intros Hr.
  apply bind_Ok in Hr as (ref & b1 & Hr1 & Hr). unfold lift in Hr1. injection Hr1 as Href <-.
  apply bind_Ok in Hr as (v & b1 & Hr1 & Hr). unfold lift in Hr1. injection Hr1 as Hv <-.
  apply bind_Ok in Hr as (recovered & b2 & Hrec & Hr). 
  destruct (match kernel_execution_responsibility_ref (kp_execution p) with Some r => bool_decide (r <> ref) | None => false end); [done|].
  apply bind_Ok in Hr as (d & b3 & Hd & Hr). unfold lift in Hd. injection Hd as Hd _. injection Hr as <- _.
  apply responsibility_of_Ok in Href. destruct (group_by_ref_Ok _ _ _ _ _ Hd) as (Hnew & Hnd & Hkept). split; cbn.
  - destruct (bool_decide (ps_authority_epoch _ = _)); [done|by rewrite app_nil_r].
  - exact Hnd.
  - exact Hkept.
  - intros q ->%list_elem_of_singleton. destruct Hnew as [ids Hin]. by exists ref, v, ids.
  - intros id Hid. destruct (bool_decide (kernel_execution_status _ = _)); [|injection Hrec as <- _; by left].
    apply bind_Ok in Hrec as (completed & b4 & Hc & Hrec). destruct completed; [|done]. injection Hrec as <- _.
    apply elem_of_cons in Hid as [->|Hid]; [right|by left]. exists p, ref. split_and!; [by left|done|done|by eapply completed_true].
Qed.

Lemma gathers_trans c ps qs g0 g1 g : gathers c ps g0 g1 -> gathers c qs g1 g -> gathers c (ps ++ qs) g0 g.
Proof.
  intros [C1 N1 K1 A1 R1] [C2 N2 K2 A2 R2]. split.
  - by rewrite C2, C1, List.filter_app, app_assoc.
  - auto.
  - auto.
  - intros p [Hp|Hp]%elem_of_app; [|auto]. destruct (A1 p Hp) as (ref & v & ids & Hc & Hin).
    destruct (K2 ref v) as [ids' Hin']; [by eexists|]. by exists ref, v, ids'.
  - intros id Hid. destruct (R2 id Hid) as [H|(p & ref & Hp & H)].
    + destruct (R1 id H) as [|(p & ref & Hp & H')]; [by left|]. right. exists p, ref. split; [apply elem_of_app; by left|done].
    + right. exists p, ref. split; [apply elem_of_app; by right|done].
Qed.

Lemma gather_all_Ok c ps g0 b g b' : gather_all c g0 ps b = (Ok g, b') -> gathers c ps g0 g.
Proof.
  revert g0 b. induction ps as [|p ps IH]; intros g0 b; cbn [gather_all].
  - intros [= <- _]. split; cbn; [by rewrite app_nil_r|done|done|by intros ? ?%not_elem_of_nil|by left].
  - intros Hr. apply bind_Ok in Hr as (g1 & b1 & H1 & Hr). apply (gathers_trans c [p] ps g0 g1 g); [by eapply gather_Ok|by eapply IH].
Qed.

(** Every required obligation has one projection of the epoch, completed. *)
Definition covered g (o : AdministrativeObligation) : Prop :=
  exists p ref, List.filter (fun p => bool_decide (ps_obligation_id (kp_semantics p) = ob_obligation_id o)) (ga_current g) = [p] /\
    kernel_responsibility_ref (kp_proposal p) = Some ref /\ (kp_id p ∈ ga_recovered g \/ execution_completed p ref).

Lemma check_all_Ok g os b u b' : check_all (P := P) g os b = (Ok u, b') -> Forall (covered g) os.
Proof.
  revert b. induction os as [|o os IH]; intros b; cbn [check_all]; [by constructor|].
  intros Hr. apply bind_Ok in Hr as (u1 & b1 & H1 & Hr). constructor; [|by eapply IH]. clear Hr IH.
  unfold check_current in H1. destruct (List.filter _ _) as [|p [|]] eqn:Ef; try done.
  apply bind_Ok in H1 as (ref & b2 & Hr & H1). unfold lift in Hr. injection Hr as Href _. apply responsibility_of_Ok in Href.
  exists p, ref. split_and!; [done|done|]. case_bool_decide; [by left|right].
  apply bind_Ok in H1 as (done_ & b3 & Hc & H1). destruct done_; [|done]. by eapply completed_true.
Qed.
End gathering.

(** ** Driving the Kernel *)

Section driving.
Context `{Hplat : Platform} {P : Type} `{Hhttp : KernelHttp P}.
Implicit Types (d : Drive P).

Definition reported_discharged (ref : string) (version : Z) : Prop :=
  exists plane : P, fst (get_responsibility_status ref version plane) = Ok "discharged".

Lemma on_drive_Ok {A} (m : M (Bridge P) A) d a d' : on_drive m d = (Ok a, d') -> dv_progress d' = dv_progress d.
Proof. unfold on_drive. destruct (m (dv_bridge d)) as [r b]. by intros [= _ <-]. Qed.

Lemma status_of_Ok h d st d' :
  status_of h d = (Ok st, d') -> dv_progress d' = dv_progress d /\
  exists plane : P, fst (get_responsibility_status (rh_responsibility_ref h) (rh_responsibility_version h) plane) = Ok st.
Proof.
  unfold status_of. intros Hr. split; [by eapply on_drive_Ok|]. exists (br_plane (dv_bridge d)).
  unfold on_drive, on_kernel in Hr. destruct (get_responsibility_status _ _ _) as [r pl]. by injection Hr as -> _.
Qed.

Lemma drive_handle_Ok c completion effects outcomes links fulfillments h d d' :
  drive_handle c completion effects outcomes links fulfillments h d = (Ok None, d') ->
  reported_discharged (rh_responsibility_ref h) (rh_responsibility_version h) /\
  pg_discharged (dv_progress d') = pg_discharged (dv_progress d) ++ [rh_responsibility_ref h].
Proof.
  unfold drive_handle. intros Hr. apply bind_Ok in Hr as (st & d1 & Hs & Hr). apply status_of_Ok in Hs as [E1 Hs].
  case_bool_decide as Hd.
  { subst st. unfold bind, advance, ret in Hr. injection Hr as <-. cbn. rewrite E1. done. }
  case_bool_decide; [done|]. destruct (discharge_refs c h) as [[aref dref] tref].
  apply bind_Ok in Hr as (basis & d2 & Hb & Hr). injection Hb as _ <-.
  apply bind_Ok in Hr as (u & d3 & Ha%on_drive_Ok & Hr). apply bind_Ok in Hr as (u1 & d4 & Hadv & Hr).
  unfold advance in Hadv. injection Hadv as _ <-.
  apply bind_Ok in Hr as (st2 & d5 & [E5 _]%status_of_Ok & Hr). case_bool_decide; [done|].
  apply bind_Ok in Hr as (policy & d6 & Hp & Hr). injection Hp as _ <-.
  apply bind_Ok in Hr as (u2 & d7 & Hdec%on_drive_Ok & Hr). apply bind_Ok in Hr as (u3 & d8 & Hadv & Hr).
  unfold advance in Hadv. injection Hadv as _ <-.
  apply bind_Ok in Hr as (st3 & d9 & [E9 _]%status_of_Ok & Hr). case_bool_decide; [done|].
  apply bind_Ok in Hr as (u4 & d10 & Ht%on_drive_Ok & Hr). apply bind_Ok in Hr as (u5 & d11 & Hadv & Hr).
  unfold advance in Hadv. injection Hadv as _ <-.
  apply bind_Ok in Hr as (st4 & d12 & [E12 Hfin]%status_of_Ok & Hr). case_bool_decide as Hf; [done|].
  subst st4. unfold bind, advance, ret in Hr. injection Hr as <-. cbn in *. split; [done|].
  rewrite E12. cbn. rewrite Ht, E9. cbn. rewrite Hdec, E5. cbn. by rewrite Ha, E1.
Qed.

Lemma drive_handles_Ok step hs d d' :
  (forall h d d', step h d = (Ok None, d') ->
     reported_discharged (rh_responsibility_ref h) (rh_responsibility_version h) /\
     pg_discharged (dv_progress d') = pg_discharged (dv_progress d) ++ [rh_responsibility_ref h]) ->
  drive_handles (P := P) step hs d = (Ok None, d') ->
  Forall (fun h => reported_discharged (rh_responsibility_ref h) (rh_responsibility_version h)) hs /\
  pg_discharged (dv_progress d') = pg_discharged (dv_progress d) ++ (rh_responsibility_ref <$> hs).
Proof.
  intros Hstep. revert d. induction hs as [|h hs IH]; intros d; cbn [drive_handles].
  { intros [= <-]. split; [constructor|]. by rewrite app_nil_r. }
  intros Hr. apply bind_Ok in Hr as (outcome & d1 & Ho & Hr). unfold attempt in Ho.
  destruct (step h d) as [r d2] eqn:Es. injection Ho as <- <-.
  destruct r as [[blocker|]|e]; [done| |by destruct (discharge_blocker e)].
  apply Hstep in Es as [Hc Hp]. apply IH in Hr as [Hall Hp']. split; [by constructor|]. rewrite Hp', Hp. by rewrite <- app_assoc.
Qed.

Lemma handles_of_spec by_ref ref v :
  (exists ids, (ref, (v, ids)) ∈ by_ref) <->
  exists h, h ∈ handles_of by_ref /\ rh_responsibility_ref h = ref /\ rh_responsibility_version h = v.
Proof.
  unfold handles_of. split.
  - intros [ids Hin]. eexists (mkResponsibilityHandle ref v _). split; [|done].
    apply list_elem_of_fmap. exists (ref, (v, ids)). split; [done|]. by apply elem_of_sort_by.
  - intros (h & Hh & <- & <-). apply list_elem_of_fmap in Hh as ([r [w ids]] & -> & Hin). apply elem_of_sort_by in Hin. by exists ids.
Qed.
End driving.

Section service.
Context `{Hplat : Platform} {P : Type} `{Hhttp : KernelHttp P} (settings : KernelSettings).

Lemma listed_projection d case_id ps p :
  list_projections_for_case d case_id = Ok ps -> p ∈ ps -> exists id, bd_projections d !! id = Some p.
Proof.
  unfold list_projections_for_case. intros Hl Hp. destruct (traverse_elem_of _ _ _ _ Hl Hp) as (row & Hrow & Hfrom).
  apply refs_match_id in Hfrom as ->. apply elem_of_sort_by, elem_of_select_where in Hrow as [Hrow _]. exact Hrow.
Qed.

Lemma listed_once d case_id ps p q :
  tables_ok d -> list_projections_for_case d case_id = Ok ps -> p ∈ ps -> q ∈ ps -> kp_id p = kp_id q -> p = q.
Proof.
  intros Hok Hl Hp Hq Hid. destruct (listed_projection _ _ _ _ Hl Hp) as [i Hi], (listed_projection _ _ _ _ Hl Hq) as [j Hj].
  destruct (to_projections _ Hok _ _ Hi) as [Ei _], (to_projections _ Hok _ _ Hj) as [Ej _]. congruence.
Qed.

(** The projections of the case's epoch for an obligation. *)
Definition current_projections (c : AdministrativeCase) (o : AdministrativeObligation) (ps : list KernelShadowProjection)
  : list KernelShadowProjection :=
  List.filter (fun p => bool_decide (ps_obligation_id (kp_semantics p) = ob_obligation_id o))
    (List.filter (fun p => bool_decide (ps_authority_epoch (kp_semantics p) = c_authority_epoch c)) ps).

(** What a projected set stands for. *)
Definition all_covered (c : AdministrativeCase) (s : AdministrativeObligationSet) (ps : list KernelShadowProjection) : Prop :=
  forall o, o ∈ required_external s -> exists p ref, current_projections c o ps = [p] /\
    kernel_responsibility_ref (kp_proposal p) = Some ref /\ execution_completed (P := P) p ref.

Lemma project_responsibility_set_Ok c s (b b' : Bridge P) handles :
  tables_ok (br_db b) -> project_responsibility_set c s b = (Ok handles, b') ->
  exists ps, list_projections_for_case (br_db b) (c_case_id c) = Ok ps /\ all_covered c s ps /\
    forall p, p ∈ ps -> exists h, h ∈ handles /\ carries_responsibility p (rh_responsibility_ref h) (rh_responsibility_version h).
Proof.
  intros Hok Hr. unfold project_responsibility_set in Hr. apply bind_Ok in Hr as (ps & b3 & Hps & Hr). injection Hps as Hps <-.
  apply bind_Ok in Hr as (g & b4 & Hg%gather_all_Ok & Hr). apply bind_Ok in Hr as (u & b5 & Hchk%check_all_Ok & Hr).
  injection Hr as <- <-. destruct Hg as [Hcur _ _ Hall Hrec]. cbn in Hcur. exists ps. split_and!; [done| |].
  - intros o Ho. rewrite Forall_forall in Hchk. destruct (Hchk o Ho) as (p & ref & Hp & Href & Hc).
    exists p, ref. unfold current_projections. rewrite <- Hcur. split_and!; [done|done|].
    destruct Hc as [Hid|]; [|done]. destruct (Hrec _ Hid) as [?%not_elem_of_nil|(q & ref' & Hq & Heq & Href' & Hc)]; [done|].
    assert (Hin : p ∈ ps).
    { assert (Hf : p ∈ [p]) by left. rewrite <- Hp, Hcur in Hf. by apply elem_of_filter_bool in Hf as [[? _]%elem_of_filter_bool _]. }
    assert (q = p) as -> by by eapply listed_once. by rewrite Href in Href'; injection Href' as ->.
  - intros p Hp. destruct (Hall p Hp) as (ref & v & ids & Hc & Hin).
    destruct (proj1 (handles_of_spec (ga_by_ref g) ref v)) as (h & Hh & <- & <-); [by eexists|]. by exists h.
Qed.

Lemma drive_kernel_discharge_Ok c handles completion effects outcomes links fulfillments (b b' : Bridge P) r :
  drive_kernel_discharge c handles completion effects outcomes links fulfillments b = (Ok r, b') ->
  rd_status r = DISCHARGE_DISCHARGED ->
  rd_responsibility_refs r = rh_responsibility_ref <$> handles /\
  Forall (fun h => reported_discharged (P := P) (rh_responsibility_ref h) (rh_responsibility_version h)) handles /\
  pg_discharged (rd_progress r) = rd_responsibility_refs r.
Proof.
  unfold drive_kernel_discharge. destruct (drive_handles _ _ _) as [x d] eqn:Ed.
  destruct x as [[blocker|]|e]; intros Hr Hs; [by injection Hr as <- _| |done]. injection Hr as <- _. cbn.
  apply drive_handles_Ok in Ed as [Hall Hp]; [|intros h d1 d2; apply drive_handle_Ok]. split_and!; done.
Qed.

(** C28: A discharge that is complete leaves no responsibility behind: the case is
    completed by the stored records, every required external obligation of its
    current set has exactly one projection of the case's epoch, whose execution
    completed by its receipt or by a resolution of the Kernel, and for every
    projection of the case, of any epoch, the Kernel itself reported the
    responsibility it carries as discharged. *)
Theorem discharge_leaves_nothing_behind x od c (b b' : Bridge P) r :
  tables_ok (br_db b) -> discharge settings x od c b = (Ok r, b') -> rd_status r = DISCHARGE_DISCHARGED ->
  exists s records ps,
    get_current od (c_case_id c) (c_authority_epoch c) = Ok (Some s) /\ completion_records x od c = Ok records /\
    c_status c = COMPLETED /\ ca_satisfied (completion_of s records) = true /\ cutover settings = true /\
    list_projections_for_case (br_db b) (c_case_id c) = Ok ps /\
    (forall o, o ∈ required_external s -> exists p ref, current_projections c o ps = [p] /\
       kernel_responsibility_ref (kp_proposal p) = Some ref /\ execution_completed (P := P) p ref) /\
    (forall p, p ∈ ps -> exists ref version, carries_responsibility p ref version /\ ref ∈ rd_responsibility_refs r /\
       reported_discharged (P := P) ref version) /\
    pg_discharged (rd_progress r) = rd_responsibility_refs r.
Proof.
  intros Hok Hr Hst. unfold discharge in Hr. apply bind_Ok in Hr as (found & b1 & Hs & Hr). injection Hs as Hs <-.
  destruct found as [s|]; [|by injection Hr as <- _]. apply bind_Ok in Hr as (records & b1 & Hrec & Hr). injection Hrec as Hrec <-.
  case_bool_decide as Hc; [by injection Hr as <- _|].
  destruct (ca_satisfied _) eqn:Esat; [|by injection Hr as <- _]. cbn [negb] in Hr.
  destruct (cutover settings) eqn:Ecut; [|by injection Hr as <- _]. cbn [negb] in Hr.
  apply bind_Ok in Hr as (projected & b1 & Hp & Hr). unfold attempt in Hp.
  destruct (project_responsibility_set c s b) as [x1 b2] eqn:Eproj. injection Hp as <- <-.
  destruct x1 as [handles|e]; [|by case_bool_decide; [injection Hr as <- _|]].
  destruct (project_responsibility_set_Ok _ _ _ _ _ Hok Eproj) as (ps & Hps & Hcov & Hall).
  exists s, records, ps. split_and!; try done.
  - intros p Hin. destruct (Hall p Hin) as (h & Hh & Hcar). exists (rh_responsibility_ref h), (rh_responsibility_version h).
    split; [done|]. destruct handles as [|h0 hs]; [by apply not_elem_of_nil in Hh|].
    apply bind_Ok in Hr as (compatible & b3 & Hcmp & Hr). destruct compatible as [i|e]; [|by case_bool_decide; [injection Hr as <- _|]].
    apply drive_kernel_discharge_Ok in Hr as (-> & Hconf & _); [|done]. rewrite Forall_forall in Hconf.
    split; [by apply list_elem_of_fmap_2|by apply Hconf].
  - destruct handles as [|h0 hs]; [by injection Hr as <- _|].
    apply bind_Ok in Hr as (compatible & b3 & Hcmp & Hr). destruct compatible as [i|e]; [|by case_bool_decide; [injection Hr as <- _|]].
    by apply drive_kernel_discharge_Ok in Hr as (_ & _ & Hd).
Qed.
End service.

(** ** The tables *)

Section tables.
Context `{Hplat : Platform} {P : Type} `{Hhttp : KernelHttp P} (settings : KernelSettings).

Definition dstill : Motion (Drive P).
Proof.
  refine (mkMotion (fun d d' => bstill (dv_bridge d) (dv_bridge d')) (fun _ d d' => bstill (dv_bridge d) (dv_bridge d')) _ _ _ _);
    unfold bstill; [done| |done|]; intros; intuition congruence.
Defined.

#[local] Instance dstill_on_drive {A} (m : M (Bridge P) A) : Respects still m -> Respects dstill (on_drive m).
Proof. intros Hm d r d'. unfold on_drive. destruct (m (dv_bridge d)) as [x b] eqn:E. intros [= <- <-]. apply (Hm _ _ _ E). Qed.
#[local] Instance dstill_advance f : Respects dstill (advance f).
Proof. intros d r d' [= <- <-]. done. Qed.
#[local] Instance dstill_status h : Respects dstill (status_of h).
Proof. unfold status_of. apply _. Qed.

Lemma dstill_handle c completion effects outcomes links fulfillments h :
  Respects dstill (drive_handle c completion effects outcomes links fulfillments h).
Proof. unfold drive_handle. destruct (discharge_refs c h) as [[aref dref] tref]. respect. Qed.

Lemma dstill_handles step hs : (forall h, Respects dstill (step h)) -> Respects dstill (drive_handles step hs).
Proof.
  intros Hstep. induction hs as [|h hs IH]; cbn [drive_handles]; [respect|]. intros d r d'. unfold bind, attempt.
  destruct (step h d) as [x d1] eqn:E. apply Hstep in E. assert (Hd : bstill (dv_bridge d) (dv_bridge d1)) by by destruct x.
  destruct x as [[blocker|]|e]; [by intros [= <- <-]| |destruct (discharge_blocker e); by intros [= <- <-]].
  intros Hr. apply IH in Hr. unfold moves, breaks, dstill, bstill in *. destruct r; intuition congruence.
Qed.

#[local] Instance still_drive_kernel c handles completion effects outcomes links fulfillments :
  Respects (still (P := P)) (drive_kernel_discharge c handles completion effects outcomes links fulfillments).
Proof.
  intros b r b'. unfold drive_kernel_discharge. destruct (drive_handles _ _ _) as [x d] eqn:E.
  apply (dstill_handles _ _ (dstill_handle _ _ _ _ _ _)) in E. intros [= <- <-]. by destruct x as [[]|].
Qed.

#[local] Instance still_completed p ref : Respects (still (P := P)) (projection_execution_completed p ref).
Proof. unfold projection_execution_completed. respect. all: apply respects_catch_still; respect. Qed.
#[local] Instance still_gather c g p : Respects (still (P := P)) (gather c g p).
Proof. unfold gather. respect. Qed.
#[local] Instance still_gather_all c g ps : Respects (still (P := P)) (gather_all c g ps).
Proof. revert g. induction ps as [|p ps IH]; intros g; cbn [gather_all]; respect. Qed.
#[local] Instance still_check_all g os : Respects (still (P := P)) (check_all g os).
Proof. induction os as [|o os IH]; cbn [check_all]; [respect|]. unfold check_current. respect. Qed.
#[local] Instance still_project c s : Respects (still (P := P)) (project_responsibility_set c s).
Proof. unfold project_responsibility_set. respect. Qed.

Lemma still_discharge x od c : Respects (still (P := P)) (discharge settings x od c).
Proof. unfold discharge. respect. all: try (intros b r b' [= <- <-]; done). Qed.
End tables.

(** ** The protocol

    Any Kernel, with the commands posted to it recorded. *)

Record Traced (P : Type) := mkTraced { tr_plane : P; tr_posts : list (string * pydict) }.
Arguments mkTraced {P}. Arguments tr_plane {P}. Arguments tr_posts {P}.

#[global] Instance traced_kernel {P} `{KernelHttp P} : KernelHttp (Traced P) := {|
  kernel_post t path payload :=
    let '(reply, p) := kernel_post (tr_plane t) path payload in (reply, mkTraced p (tr_posts t ++ [(path, payload)]));
  kernel_get t path := let '(reply, p) := kernel_get (tr_plane t) path in (reply, mkTraced p (tr_posts t)) |}.

(** Computations by what they post: [l] when they return, a prefix of it at most. *)
Section emission.
Context {S : Type} (posts : S -> list (string * pydict)).

Definition emits {A} (m : M S A) (l : list (string * pydict)) : Prop :=
  forall s r s', m s = (r, s') ->
    match r with
    | Ok _ => posts s' = posts s ++ l
    | Err _ => exists l', l' `prefix_of` l /\ posts s' = posts s ++ l'
    end.
Definition emits_upto {A} (m : M S A) (l : list (string * pydict)) : Prop :=
  forall s r s', m s = (r, s') -> exists l', l' `prefix_of` l /\ posts s' = posts s ++ l'.

Lemma emits_weaken {A} (m : M S A) l : emits m l -> emits_upto m l.
Proof. intros Hm s r s' Hr. specialize (Hm _ _ _ Hr). destruct r; [by exists l|done]. Qed.

Lemma upto_mono {A} (m : M S A) l k : emits_upto m l -> emits_upto m (l ++ k).
Proof. intros Hm s r s' Hr. destruct (Hm _ _ _ Hr) as (l' & Hl & Hp). exists l'. split; [by apply prefix_app_r|done]. Qed.

Lemma emits_ret {A} (a : A) : emits (ret a) [].
Proof. intros s r s' [= <- <-]. by rewrite app_nil_r. Qed.
Lemma emits_throw {A} c msg : emits (throw (A := A) c msg) [].
Proof. intros s r s' [= <- <-]. exists []. by rewrite app_nil_r. Qed.
Lemma emits_lift {A} (x : result A) : emits (lift x) [].
Proof. intros s r s' [= <- <-]. destruct x; [by rewrite app_nil_r|]. exists []. by rewrite app_nil_r. Qed.
Lemma emits_reads {A} (f : S -> result A) : emits (reads f) [].
Proof. intros s r s' [= <- <-]. destruct (f s); [by rewrite app_nil_r|]. exists []. by rewrite app_nil_r. Qed.
Lemma emits_gets {A} (f : S -> A) : emits (gets f) [].
Proof. intros s r s' [= <- <-]. by rewrite app_nil_r. Qed.

Lemma emits_bind {A B} (m : M S A) (k : A -> M S B) l1 l2 :
  emits m l1 -> (forall a, emits (k a) l2) -> emits (bind m k) (l1 ++ l2).
Proof.
  intros Hm Hk s r s'. unfold bind. destruct (m s) as [[a|e] s1] eqn:E; specialize (Hm _ _ _ E).
  - intros Hr. specialize (Hk a _ _ _ Hr). destruct r; [by rewrite Hk, Hm, app_assoc|].
    destruct Hk as (l' & Hl & ->). exists (l1 ++ l'). rewrite Hm, app_assoc. split; [by apply prefix_app|done].
  - intros [= <- <-]. destruct Hm as (l' & Hl & ->). exists l'. split; [by apply prefix_app_r|done].
Qed.

Lemma upto_bind {A B} (m : M S A) (k : A -> M S B) l1 l2 :
  emits m l1 -> (forall a, emits_upto (k a) l2) -> emits_upto (bind m k) (l1 ++ l2).
Proof.
  intros Hm Hk s r s'. unfold bind. destruct (m s) as [[a|e] s1] eqn:E; specialize (Hm _ _ _ E).
  - intros Hr. destruct (Hk a _ _ _ Hr) as (l' & Hl & ->). exists (l1 ++ l'). rewrite Hm, app_assoc.
    split; [by apply prefix_app|done].
  - intros [= <- <-]. destruct Hm as (l' & Hl & ->). exists l'. split; [by apply prefix_app_r|done].
Qed.

Lemma emits_quiet_bind {A B} (m : M S A) (k : A -> M S B) l : emits m [] -> (forall a, emits (k a) l) -> emits (bind m k) l.
Proof. apply (emits_bind m k [] l). Qed.
Lemma upto_quiet_bind {A B} (m : M S A) (k : A -> M S B) l :
  emits m [] -> (forall a, emits_upto (k a) l) -> emits_upto (bind m k) l.
Proof. apply (upto_bind m k [] l). Qed.

Lemma emits_catch {A} (m : M S A) c h : emits m [] -> emits h [] -> emits (catch m c h) [].
Proof.
  intros Hm Hh s r s'. unfold catch. destruct (m s) as [[a|e] s1] eqn:E; specialize (Hm _ _ _ E).
  - intros [= <- <-]. done.
  - destruct Hm as (l' & ->%prefix_nil_inv & Hp). rewrite app_nil_r in Hp. case_bool_decide.
    + intros Hr. specialize (Hh _ _ _ Hr). by rewrite Hp in Hh.
    + intros [= <- <-]. exists []. by rewrite app_nil_r.
Qed.

Lemma emits_attempt {A} (m : M S A) : emits m [] -> emits (attempt m) [].
Proof.
  intros Hm s r s'. unfold attempt. destruct (m s) as [x s1] eqn:E. intros [= <- <-]. specialize (Hm _ _ _ E).
  destruct x; [done|]. by destruct Hm as (l' & ->%prefix_nil_inv & Hp).
Qed.
End emission.

Create HintDb emission.
#[global] Hint Resolve emits_ret emits_throw emits_lift emits_reads emits_gets emits_catch emits_attempt : emission.

(** Peels a computation that posts nothing. *)
Ltac quiet :=
  repeat first
    [ solve [auto with emission]
    | apply emits_quiet_bind; [|intros ?] | apply emits_catch | apply emits_attempt
    | match goal with |- emits _ (match ?x with _ => _ end) _ => destruct x end ].

Section protocol.
Context `{Hplat : Platform} {P : Type} `{Hhttp : KernelHttp P} (settings : KernelSettings).

Abbreviation K := (Traced P) (only parsing).
Definition bridge_posts (b : Bridge K) : list (string * pydict) := tr_posts (br_plane b).
Definition drive_posts (d : Drive K) : list (string * pydict) := bridge_posts (dv_bridge d).

Lemma emits_get path : emits (S := K) tr_posts (get path) [].
Proof. intros t r t'. unfold get. cbn. destruct (kernel_get (tr_plane t) path) as [reply p]. intros [= <- <-]. cbn. by rewrite app_nil_r. Qed.
Lemma emits_post path payload : emits (S := K) tr_posts (post path payload) [(path, payload)].
Proof. intros t r t'. unfold post. cbn. destruct (kernel_post (tr_plane t) path payload) as [reply p]. by intros [= <- <-]. Qed.

Lemma emits_on_kernel {A} (m : M K A) l : emits tr_posts m l -> emits bridge_posts (on_kernel m) l.
Proof.
  intros Hm b r b'. unfold on_kernel, bridge_posts. destruct (m (br_plane b)) as [x t] eqn:E. intros [= <- <-]. by apply (Hm _ _ _ E).
Qed.
Lemma emits_on_drive {A} (m : M (Bridge K) A) l : emits bridge_posts m l -> emits drive_posts (on_drive m) l.
Proof.
  intros Hm d r d'. unfold on_drive, drive_posts. destruct (m (dv_bridge d)) as [x b] eqn:E. intros [= <- <-]. by apply (Hm _ _ _ E).
Qed.
Lemma emits_advance f : emits drive_posts (advance f) [].
Proof. intros d r d' [= <- <-]. by rewrite app_nil_r. Qed.
#[local] Hint Resolve emits_get emits_on_kernel emits_on_drive emits_advance : emission.

(** Reading the Kernel. *)
Lemma emits_inspect ref work : emits (S := K) tr_posts (inspect_resolution ref work) [].
Proof. unfold inspect_resolution. quiet. Qed.
Lemma emits_fetch q : emits (S := K) tr_posts (fetch_identity q) [].
Proof. unfold fetch_identity. quiet. Qed.
Lemma emits_status ref v : emits (S := K) tr_posts (get_responsibility_status ref v) [].
Proof. unfold get_responsibility_status. quiet. Qed.
#[local] Hint Resolve emits_inspect emits_fetch emits_status : emission.

Lemma emits_completed p ref : emits bridge_posts (projection_execution_completed p ref) [].
Proof. unfold projection_execution_completed. quiet. Qed.
#[local] Hint Resolve emits_completed : emission.

Lemma emits_gather c g p : emits bridge_posts (gather c g p) [].
Proof. unfold gather. quiet. Qed.
#[local] Hint Resolve emits_gather : emission.
Lemma emits_gather_all c g ps : emits bridge_posts (gather_all c g ps) [].
Proof. revert g. induction ps as [|p ps IH]; intros g; cbn [gather_all]; quiet. Qed.
#[local] Hint Resolve emits_gather_all : emission.
Lemma emits_check_all g os : emits bridge_posts (check_all g os) [].
Proof. induction os as [|o os IH]; cbn [check_all]; [quiet|]. unfold check_current. quiet. Qed.
#[local] Hint Resolve emits_check_all : emission.
Lemma emits_project c s : emits bridge_posts (project_responsibility_set c s) [].
Proof. unfold project_responsibility_set. quiet. Qed.
Lemma emits_compatibility : emits bridge_posts (compatibility (P := K) settings) [].
Proof.
  unfold compatibility. quiet. intros b r b' [= <- <-]. by rewrite app_nil_r.
Qed.
#[local] Hint Resolve emits_project emits_compatibility : emission.

(** One command each. *)
Lemma emits_post_discharge path payload : emits (S := K) tr_posts (post_discharge path payload) [(path, payload)].
Proof. unfold post_discharge. apply (emits_bind tr_posts _ _ [(path, payload)] []); [apply emits_post|]. intros reply. quiet. Qed.

Lemma emits_command {A} path payload (k : pydict -> result A) :
  emits (S := K) tr_posts (bind (post_discharge path payload) (fun raw => lift (k raw))) [(path, payload)].
Proof. apply (emits_bind tr_posts _ _ [(path, payload)] []); [apply emits_post_discharge|]. intros raw. apply emits_lift. Qed.

(** The commands of the discharge of one responsibility. *)
Definition discharge_chain (c : AdministrativeCase) (completion : CompletionAssessment) (records : CompletionRecords)
    (h : ResponsibilityHandle) : list (string * pydict) :=
  let ref := rh_responsibility_ref h in
  let version := rh_responsibility_version h in
  let at_ := c_updated_at c in
  let '(assessment_ref, decision_ref, transition_ref) := discharge_refs c h in
  match basis_refs c h completion (cr_effects records) (cr_outcomes records) (cr_links records) (cr_fulfillments records),
        policy_ref_text c with
  | Ok basis, Ok policy =>
      [("/v1/responsibilities/assessments",
        assessment_command assessment_ref ref version (c_subject_ref c) "administrative-responsibility-discharge-reassessment"
          basis at_ None
          "Administrative CompletionAssessment is satisfied and all required outcomes and domain fulfillments are verified." at_);
       ("/v1/responsibilities/discharge-decisions",
        decision_command decision_ref ref version assessment_ref (assessment_ref :: basis) policy (seconds_later at_ 1)
          "Fresh completion assessment supports explicit discharge judgment." (seconds_later at_ 1));
       ("/v1/responsibilities/lifecycle-transitions",
        transition_command transition_ref ref version decision_ref [decision_ref; assessment_ref] (seconds_later at_ 2)
          "Administrative responsibility is explicitly discharged after verified completion." (seconds_later at_ 2))]
  | _, _ => []
  end.

Lemma status_emits h : emits drive_posts (status_of h) [].
Proof. unfold status_of. auto with emission. Qed.

Lemma upto_ret {A} (a : A) l : emits_upto drive_posts (ret a) l.
Proof. apply (upto_mono _ _ []), emits_weaken, emits_ret. Qed.

Lemma upto_lift {A B} (x : result A) (k : A -> M (Drive K) B) l :
  (forall a, x = Ok a -> emits_upto drive_posts (k a) l) -> emits_upto drive_posts (bind (lift x) k) l.
Proof.
  intros Hk d r d'. unfold bind, lift. destruct x as [a|e]; [by apply Hk|]. intros [= <- <-]. exists [].
  split; [apply prefix_nil|by rewrite app_nil_r].
Qed.

Lemma drive_handle_emits c completion records h :
  emits_upto drive_posts
    (drive_handle c completion (cr_effects records) (cr_outcomes records) (cr_links records) (cr_fulfillments records) h)
    (discharge_chain c completion records h).
Proof.
  unfold drive_handle, discharge_chain. apply upto_quiet_bind; [apply status_emits|]. intros st.
  destruct (bool_decide _); [apply upto_quiet_bind; [apply emits_advance|intros; apply upto_ret]|].
  destruct (bool_decide _); [apply upto_ret|]. destruct (discharge_refs c h) as [[aref dref] tref].
  apply upto_lift. intros basis Hb. rewrite Hb. destruct (policy_ref_text c) as [policy|e] eqn:Ep;
    [|by unfold basis_refs in Hb; rewrite Ep in Hb].
  apply (upto_bind drive_posts _ _ [_]); [apply emits_on_drive, emits_on_kernel, emits_command|intros _].
  apply upto_quiet_bind; [apply emits_advance|intros _].
  apply upto_quiet_bind; [apply status_emits|]. intros st2. destruct (bool_decide _); [apply upto_ret|].
  apply upto_lift. intros policy' [= <-].
  apply (upto_bind drive_posts _ _ [_]); [apply emits_on_drive, emits_on_kernel, emits_command|intros _].
  apply upto_quiet_bind; [apply emits_advance|intros _].
  apply upto_quiet_bind; [apply status_emits|]. intros st3. destruct (bool_decide _); [apply upto_ret|].
  apply (upto_bind drive_posts _ _ [_]); [apply emits_on_drive, emits_on_kernel, emits_command|intros _].
  apply upto_quiet_bind; [apply emits_advance|intros _].
  apply upto_quiet_bind; [apply status_emits|]. intros st4. destruct (bool_decide _); [apply upto_ret|].
  apply upto_quiet_bind; [apply emits_advance|]. intros; apply upto_ret.
Qed.

Lemma drive_handles_emits step chain hs d r d' :
  (forall h, emits_upto drive_posts (step h) (chain h)) -> drive_handles step hs d = (r, d') ->
  exists sent, drive_posts d' = drive_posts d ++ concat sent /\ Forall2 (fun h l => l `prefix_of` chain h) hs sent.
Proof.
  intros Hstep. revert d. induction hs as [|h hs IH]; intros d; cbn [drive_handles].
  { intros [= <- <-]. exists []. by rewrite app_nil_r. }
  unfold bind at 1, attempt. destruct (step h d) as [x d1] eqn:Es. apply Hstep in Es as (l & Hl & Hp).
  assert (Hstop : exists sent, drive_posts d1 = drive_posts d ++ concat sent /\ Forall2 (fun h l => l `prefix_of` chain h) (h :: hs) sent).
  { exists (l :: ((fun _ => []) <$> hs)). split.
    - rewrite Hp. cbn. f_equal. clear. induction hs; cbn; [by rewrite app_nil_r|done].
    - constructor; [done|]. apply Forall2_fmap_r, Forall_Forall2_diag, Forall_true. intros. apply prefix_nil. }
  destruct x as [[blocker|]|e].
  - by intros [= <- <-].
  - intros Hr. apply IH in Hr as (sent & Hs & Hf). exists (l :: sent). cbn. rewrite Hs, Hp, app_assoc. split; [done|by constructor].
  - destruct (discharge_blocker e); intros [= <- <-]; exact Hstop.
Qed.

Lemma handles_of_NoDup by_ref : NoDup by_ref.*1 -> NoDup (rh_responsibility_ref <$> handles_of by_ref).
Proof.
  intros Hnd. unfold handles_of. rewrite <- list_fmap_compose.
  rewrite (list_fmap_ext _ fst); [|by intros i [? [? ?]] _]. by rewrite (sort_by_perm _ by_ref).
Qed.

Lemma emits_nothing {S A} (posts : S -> list (string * pydict)) (m : M S A) s r s' :
  emits posts m [] -> m s = (r, s') -> posts s' = posts s.
Proof.
  intros Hm Hr. specialize (Hm _ _ _ Hr). destruct r; [by rewrite app_nil_r in Hm|].
  destruct Hm as (l & ->%prefix_nil_inv & Hp). by rewrite app_nil_r in Hp.
Qed.

Lemma projected_NoDup c s (b b' : Bridge K) handles :
  project_responsibility_set c s b = (Ok handles, b') -> NoDup (rh_responsibility_ref <$> handles).
Proof.
  unfold project_responsibility_set. intros Hr. apply bind_Ok in Hr as (ps & b1 & _ & Hr).
  apply bind_Ok in Hr as (g & b2 & Hg%gather_all_Ok & Hr). apply bind_Ok in Hr as (u & b3 & _ & [= <- _]).
  apply handles_of_NoDup, (gh_keys _ _ _ _ Hg). apply NoDup_nil_2.
Qed.

(** The protocol is followed: a discharge, whatever comes of it, leaves the bridge
    tables and the log of execution commands alone; it posts nothing to the Kernel,
    or the case is completed by the stored records and what it posts is, for each of
    the distinct responsibilities in turn, an initial part of its one chain of
    assessment, decision and transition. *)
Theorem discharge_follows_the_protocol x od c (b b' : Bridge K) r :
  discharge settings x od c b = (r, b') ->
  bstill b b' /\
  (bridge_posts b' = bridge_posts b \/
   exists s records handles sent,
     get_current od (c_case_id c) (c_authority_epoch c) = Ok (Some s) /\ completion_records x od c = Ok records /\
     c_status c = COMPLETED /\ ca_satisfied (completion_of s records) = true /\
     NoDup (rh_responsibility_ref <$> handles) /\ bridge_posts b' = bridge_posts b ++ concat sent /\
     Forall2 (fun h l => l `prefix_of` discharge_chain c (completion_of s records) records h) handles sent).
Proof.
  intros Hr. split; [pose proof (still_discharge settings x od c _ _ _ Hr) as Hs; by destruct r|].
  unfold discharge, bind at 1, lift in Hr. destruct (get_current _ _ _) as [[s|]|e] eqn:Es;
    [|left; by injection Hr as <- <-..].
  unfold bind at 1 in Hr. destruct (completion_records x od c) as [records|e] eqn:Erec; [|left; by injection Hr as <- <-].
  case_bool_decide as Hc; [left; by injection Hr as <- <-|].
  destruct (ca_satisfied _) eqn:Esat; [|left; by injection Hr as <- <-]. cbn [negb] in Hr.
  destruct (cutover settings); [|left; by injection Hr as <- <-]. cbn [negb] in Hr.
  unfold bind at 1, attempt in Hr. destruct (project_responsibility_set c s b) as [x1 b1] eqn:Ep.
  assert (Hp1 : bridge_posts b1 = bridge_posts b) by by eapply emits_nothing; [apply emits_project|].
  destruct x1 as [[|h hs]|e]; [left; by injection Hr as <- <-| |case_bool_decide; left; by injection Hr as <- <-].
  unfold bind at 1, attempt in Hr. destruct (compatibility settings b1) as [x2 b2] eqn:Ec.
  assert (Hp2 : bridge_posts b2 = bridge_posts b1) by by eapply emits_nothing; [apply emits_compatibility|].
  destruct x2 as [i|e]; [|case_bool_decide; left; injection Hr as <- <-; congruence].
  right. unfold drive_kernel_discharge in Hr. destruct (drive_handles _ (h :: hs) _) as [x3 d] eqn:Ed.
  apply drive_handles_emits with (chain := discharge_chain c (completion_of s records) records) in Ed as (sent & Hsent & Hf);
    [|intros; apply drive_handle_emits].
  exists s, records, (h :: hs), sent. injection Hr as _ <-. split_and!; try done.
  - by eapply projected_NoDup.
  - rewrite <- Hp1, <- Hp2. exact Hsent.
Qed.
End protocol.
