(* ===== verification/ExecutionSafety.v ===== *)
(** * Safety of the executor

    How a run may move the world, for every domain whose hooks behave: effects
    keep their identity and their statuses only advance, confirmed outcomes and
    realizations are never rewritten, the evidence chain behind every outcome is
    intact, and no effect whose provider outcome was already decided is sent to
    the provider again. *)

From stdpp Require Import base gmap strings list relations.
From Stdlib Require Import ZArith Lia.
From S2P Require Import Prelude Python CPython Store Domain Policy Authority Lifecycle Obligations.
From S2P Require Import Completion Verification PolicyPlane Persistence Transactions Governance.
From S2P Require Import Machine Execution.

Open Scope Z_scope.
Open Scope orch_scope.

(** ** Vocabulary *)

(** The provider outcome is settled, or unknown and only reality may settle it. *)
Definition decided (s : EffectStatus) : bool :=
  match s with SUCCEEDED | EFFECT_FAILED | OUTCOME_UNKNOWN => true | PLANNED | DISPATCHED => false end.

(** The statuses an effect may move to. *)
Definition status_advances (s s' : EffectStatus) : Prop :=
  s = s' \/
  match s with
  | PLANNED | DISPATCHED => s' <> PLANNED
  | OUTCOME_UNKNOWN => s' = SUCCEEDED
  | SUCCEEDED | EFFECT_FAILED => False
  end.

Definition same_effect (a b : EffectRecord) : Prop :=
  effect_identity a = effect_identity b /\ ef_case_version a = ef_case_version b.

Definition executed (calls : list ProviderCall) : list uuid :=
  omap (fun call => match call with Executed e _ => Some e | Observed _ | Prepared _ => None end) calls.

Lemma executed_app a b : executed (a ++ b) = executed a ++ executed b.
Proof. apply omap_app. Qed.

Lemma advances_refl s : status_advances s s.
Proof. by left. Qed.

Lemma advances_trans s1 s2 s3 : status_advances s1 s2 -> status_advances s2 s3 -> status_advances s1 s3.
Proof. unfold status_advances. destruct s1, s2, s3; naive_solver. Qed.

Lemma advances_decided s s' : status_advances s s' -> decided s = true -> decided s' = true.
Proof. unfold status_advances. destruct s, s'; naive_solver. Qed.

(** How the execution tables may move. *)
Record advance (x x' : ExecDb) : Prop := mkAdvance {
  adv_effects : forall id row, x_effects x !! id = Some row ->
    exists row', x_effects x' !! id = Some row' /\ same_effect row row' /\
      status_advances (ef_status row) (ef_status row');
  adv_realizations : x_realizations x ⊆ x_realizations x';
  adv_outcomes : x_outcomes x ⊆ x_outcomes x';
}.

Lemma advance_refl x : advance x x.
Proof. split; [|done|done]. intros id row Hrow. exists row. by repeat split; [..|left]. Qed.

Lemma advance_trans x1 x2 x3 : advance x1 x2 -> advance x2 x3 -> advance x1 x3.
Proof.
  intros [He1 Hr1 Ho1] [He2 Hr2 Ho2]. split; [|by etrans|by etrans].
  intros id row Hrow. destruct (He1 id row Hrow) as (row1 & Hrow1 & [Hi1 Hv1] & Ha1).
  destruct (He2 id row1 Hrow1) as (row2 & Hrow2 & [Hi2 Hv2] & Ha2). exists row2. split; [done|].
  split; [split; congruence|by eapply advances_trans].
Qed.

Lemma advance_tables x x' :
  x_effects x' = x_effects x -> x_realizations x ⊆ x_realizations x' -> x_outcomes x ⊆ x_outcomes x' ->
  advance x x'.
Proof.
  intros He Hr Ho. split; [|done|done]. intros id row Hrow. exists row. rewrite He. by repeat split; [..|left].
Qed.

(** The evidence chain: rows sit under their keys, every outcome is confirmed by
    a persisted VERIFIED realization of the same persisted effect, and agrees
    with that effect on case, case version and authority epoch. *)
Definition outcome_backed (x : ExecDb) (o : ConfirmedOutcome) : Prop :=
  exists effect r, x_effects x !! co_effect_id o = Some effect /\
    x_realizations x !! co_realization_assessment_id o = Some r /\
    er_effect_id r = co_effect_id o /\ er_disposition r = VERIFIED /\ er_evidence r <> [] /\
    ef_case_id effect = co_case_id o /\ ef_case_version effect = co_case_version o /\
    ef_authority_epoch effect = co_authority_epoch o.

Record chain_ok (x : ExecDb) : Prop := mkChainOk {
  ck_effects : keyed ef_effect_id (x_effects x);
  ck_realizations : keyed er_assessment_id (x_realizations x);
  ck_outcomes : keyed co_outcome_id (x_outcomes x);
  ck_backed : map_Forall (fun _ o => outcome_backed x o) (x_outcomes x);
}.

Lemma backed_advance x x' o : advance x x' -> outcome_backed x o -> outcome_backed x' o.
Proof.
  intros [He Hr _] (effect & r & Hef & Hre & Hrest).
  destruct (He _ _ Hef) as (effect' & Hef' & [Hi Hv] & _). unfold effect_identity in Hi. simplify_eq.
  exists effect', r. split; [done|]. split; [by eapply lookup_weaken|]. naive_solver congruence.
Qed.

Section safety.
Context `{Hplat : Platform} {P : Type} `{Hprov : EffectProvider P} {Hcontract : ProviderContract P}
  (clock : nat -> instant) (enforced : bool).

Definition decided_in (w : World P) (id : uuid) : Prop :=
  exists row, x_effects (w_exec w) !! id = Some row /\ decided (ef_status row) = true.

Lemma decided_advance (w w' : World P) id :
  advance (w_exec w) (w_exec w') -> decided_in w id -> decided_in w' id.
Proof.
  intros [He _ _] (row & Hrow & Hd). destruct (He _ _ Hrow) as (row' & Hrow' & _ & Ha).
  exists row'. split; [done|]. by eapply advances_decided.
Qed.

(** The calls a computation added: none executes an effect decided before, and
    none executes an effect twice. *)
Definition calls_since (w w' : World P) (new : list ProviderCall) : Prop :=
  w_calls w' = w_calls w ++ new /\ NoDup (executed new) /\
  forall id, id ∈ executed new -> ~ decided_in w id.

Definition safe_move (w w' : World P) : Prop :=
  chain_ok (w_exec w) ->
  chain_ok (w_exec w') /\ advance (w_exec w) (w_exec w') /\
  exists new, calls_since w w' new /\ forall id, id ∈ executed new -> decided_in w' id.

Definition safe_break (w w' : World P) : Prop :=
  chain_ok (w_exec w) ->
  chain_ok (w_exec w') /\ advance (w_exec w) (w_exec w') /\ exists new, calls_since w w' new.

(** An exception may leave an effect sent and not settled, but never the one the
    engine catches. *)
Definition safe_raise (e : exn) (w w' : World P) : Prop :=
  safe_break w w' /\ (exn_cls e = FinancialQualificationPending -> safe_move w w').

Lemma calls_since_nil w w' : w_calls w' = w_calls w -> calls_since w w' [].
Proof.
  intros Hc. split; [by rewrite app_nil_r|]. split; [constructor|]. by intros id ?%not_elem_of_nil.
Qed.

Lemma calls_since_app w1 w2 w3 new1 new2 :
  advance (w_exec w1) (w_exec w2) -> calls_since w1 w2 new1 ->
  (forall id, id ∈ executed new1 -> decided_in w2 id) -> calls_since w2 w3 new2 ->
  calls_since w1 w3 (new1 ++ new2).
Proof.
  intros Ha (Hc1 & Hn1 & Hd1) Hdec (Hc2 & Hn2 & Hd2). unfold calls_since. rewrite executed_app.
  split; [by rewrite Hc2, Hc1, app_assoc|]. split.
  - apply NoDup_app. split; [done|]. split; [|done]. intros id H1 H2. by eapply Hd2, Hdec.
  - intros id [Hin|Hin]%elem_of_app; [by apply Hd1|]. intros Hd. eapply Hd2; [done|].
    by eapply decided_advance.
Qed.

Program Definition safe : Motion (World P) :=
  {| moves := safe_move; breaks := safe_raise |}.
Next Obligation.
  intros w Hck. split; [done|]. split; [apply advance_refl|]. exists [].
  split; [by apply calls_since_nil|]. by intros id ?%not_elem_of_nil.
Qed.
Next Obligation.
  intros w1 w2 w3 H1 H2 Hck. destruct (H1 Hck) as (Hck2 & Ha1 & new1 & Hs1 & Hd1).
  destruct (H2 Hck2) as (Hck3 & Ha2 & new2 & Hs2 & Hd2).
  split; [done|]. split; [by eapply advance_trans|]. exists (new1 ++ new2).
  split; [by eapply calls_since_app|]. rewrite executed_app.
  intros id [Hin|Hin]%elem_of_app; [|by apply Hd2]. by eapply decided_advance, Hd1.
Qed.
Next Obligation.
  intros e w1 w2 H1. split; [|done]. intros Hck. destruct (H1 Hck) as (? & ? & new & ? & _). eauto.
Qed.
Next Obligation.
  intros e w1 w2 w3 H1 [H2 H3]. split; [|intros He; eapply safe_obligation_2; [done|by apply H3]].
  intros Hck. destruct (H1 Hck) as (Hck2 & Ha1 & new1 & Hs1 & Hd1).
  destruct (H2 Hck2) as (Hck3 & Ha2 & new2 & Hs2).
  split; [done|]. split; [by eapply advance_trans|]. exists (new1 ++ new2). by eapply calls_since_app.
Qed.

(** ** Steps that leave the execution tables alone *)

Definition same_tables (x x' : ExecDb) : Prop :=
  x_effects x' = x_effects x /\ x_realizations x' = x_realizations x /\ x_outcomes x' = x_outcomes x.

Lemma same_tables_chain x x' : same_tables x x' -> chain_ok x -> chain_ok x'.
Proof.
  intros (He & Hr & Ho) [Hke Hkr Hko Hb]. split; [by rewrite He|by rewrite Hr|by rewrite Ho|].
  rewrite Ho. intros id o Hlo. specialize (Hb id o Hlo). unfold outcome_backed in *. by rewrite He, Hr.
Qed.

Lemma same_tables_advance x x' : same_tables x x' -> advance x x'.
Proof. intros (He & Hr & Ho). apply advance_tables; [done|by rewrite Hr|by rewrite Ho]. Qed.

Lemma quiet_calls (w w' : World P) new :
  same_tables (w_exec w) (w_exec w') -> w_calls w' = w_calls w ++ new -> executed new = [] ->
  safe_move w w'.
Proof.
  intros Ht Hc Hn Hck. split; [by eapply same_tables_chain|]. split; [by apply same_tables_advance|].
  exists new. unfold calls_since. rewrite Hn. split; [|by intros id ?%not_elem_of_nil].
  split; [done|]. split; [constructor|]. by intros id ?%not_elem_of_nil.
Qed.

Lemma quiet_move (w w' : World P) :
  same_tables (w_exec w) (w_exec w') -> w_calls w' = w_calls w -> safe_move w w'.
Proof. intros Ht Hc. apply (quiet_calls w w' []); [done|by rewrite app_nil_r|done]. Qed.

Lemma move_break e w w' : safe_move w w' -> safe_raise e w w'.
Proof. apply (moves_breaks safe). Qed.

#[export] Instance respects_utcnow : Respects safe (utcnow clock).
Proof. intros w r w' [= <- <-]. by apply quiet_move. Qed.

#[export] Instance respects_observe effect : Respects safe (observe (P := P) effect).
Proof.
  intros w r w'. unfold observe. destruct (provider_observe _ _) as [o p]. intros [= <- <-].
  assert (Hm : safe_move w (set_provider w p (Observed (ef_effect_id effect)))).
  { by apply (quiet_calls _ _ [Observed (ef_effect_id effect)]). }
  destruct o; [done|by apply move_break].
Qed.

#[export] Instance respects_transition f : Respects safe (transition (P := P) clock f).
Proof. unfold transition. respect. Qed.

#[export] Instance respects_require_case case_id : Respects safe (require_case (P := P) case_id).
Proof. unfold require_case. respect. Qed.

Lemma update_case_tables x c v event payload x' :
  update_case x c v event payload = Ok x' -> same_tables x x'.
Proof. unfold update_case. destruct (x_cases x !! c_case_id c); intros ?; inv_ok; by subst. Qed.

#[export] Instance respects_persist before after event payload :
  Respects safe (persist_case_transition (P := P) before after event payload).
Proof.
  apply respects_transact. intros w u w' Hrun. inv_ok. subst. simplify_eq.
  apply quiet_move; [|done]. by eapply update_case_tables.
Qed.

#[export] Instance respects_current_effect planned : Respects safe (current_effect (P := P) planned).
Proof. apply respects_gets. Qed.

#[export] Instance respects_reopen_mismatch c : Respects safe (reopen_for_mismatch (P := P) clock c).
Proof. unfold reopen_for_mismatch. respect. Qed.

#[export] Instance respects_reopen_governance c v :
  Respects safe (reopen_for_governance (P := P) clock c v).
Proof. unfold reopen_for_governance. respect. Qed.

(** ** Writing an effect's status *)

Definition status_written (x x' : ExecDb) (id : uuid) (st : EffectStatus) : Prop :=
  exists row row', x_effects x !! id = Some row /\ x_effects x' = <[id := row']> (x_effects x) /\
    same_effect row row' /\ ef_status row' = st /\
    x_realizations x' = x_realizations x /\ x_outcomes x' = x_outcomes x.

Lemma set_effect_status_written x links id st pr now e x' :
  set_effect_status x links id st pr now = Ok (e, x') -> status_written x x' id st.
Proof.
  unfold set_effect_status. destruct (x_effects x !! id) as [row|] eqn:Hrow; [|done].
  destruct (_ && _) eqn:Hb; intros Hrun; inv_ok; simplify_eq.
  - propify. exists row, row. by rewrite insert_id.
  - exists row, (with_effect_status row st pr now). by repeat split.
Qed.

Lemma chain_advance x x' :
  advance x x' -> keyed ef_effect_id (x_effects x') -> x_realizations x' = x_realizations x ->
  x_outcomes x' = x_outcomes x -> chain_ok x -> chain_ok x'.
Proof.
  intros Ha Hk Hr Ho [_ Hkr Hko Hb]. split; [done|by rewrite Hr|by rewrite Ho|].
  rewrite Ho. intros id o Hlo. eapply backed_advance; [done|by eapply Hb].
Qed.

Lemma written_advance x x' id st :
  chain_ok x -> status_written x x' id st ->
  (forall row, x_effects x !! id = Some row -> status_advances (ef_status row) st) ->
  chain_ok x' /\ advance x x'.
Proof.
  intros Hck (row & row' & Hrow & He & [Hi Hv] & Hst & Hr & Ho) Hadv.
  assert (advance x x') as Ha.
  { split; [|by rewrite Hr|by rewrite Ho]. intros id' row1 Hrow1. rewrite He.
    destruct (decide (id' = id)) as [->|Hne]; [|rewrite lookup_insert_ne by done; exists row1; by repeat split; [..|left]].
    rewrite lookup_insert_eq. assert (row1 = row) as -> by congruence. exists row'.
    split; [done|]. split; [by split|]. rewrite Hst. by apply Hadv. }
  split; [|done]. apply (chain_advance x); [done| |done|done|done]. rewrite He.
  pose proof (ck_effects _ Hck id row Hrow) as Hid. cbn in Hid.
  replace id with (ef_effect_id row') by (unfold effect_identity in Hi; congruence).
  apply keyed_insert, (ck_effects _ Hck).
Qed.

Lemma update_status_spec w id st pr r (w' : World P) :
  update_effect_status clock id st pr w = (r, w') ->
  w_calls w' = w_calls w /\
  match r with
  | Ok _ => status_written (w_exec w) (w_exec w') id st
  | Err e => same_tables (w_exec w) (w_exec w') /\ exn_cls e = KeyError
  end.
Proof.
  unfold update_effect_status, on_exec, transact, bind, utcnow. cbn.
  destruct (set_effect_status _ _ _ _ _ _) as [[e x]|] eqn:E; cbn; intros [= <- <-]; split; try done.
  - by eapply set_effect_status_written.
  - split; [done|]. unfold set_effect_status in E. destruct (_ !! id); [by destruct (_ && _)|].
    by injection E as <-.
Qed.

Lemma update_status_at id st pr w :
  (forall row, x_effects (w_exec w) !! id = Some row -> status_advances (ef_status row) st) ->
  respects_at safe (update_effect_status (P := P) clock id st pr) w.
Proof.
  intros Hadv r w' Hrun. apply update_status_spec in Hrun as [Hc Hr]. destruct r.
  - intros Hck. destruct (written_advance _ _ _ _ Hck Hr Hadv) as [Hck' Ha]. split; [done|]. split; [done|].
    exists []. split; [by apply calls_since_nil|]. by intros ? ?%not_elem_of_nil.
  - apply move_break. apply quiet_move; [by destruct Hr|done].
Qed.

(** ** Dispatch *)

(** What the executor relies on of the engine that owns it. *)
Class LawfulHooks (owner : Hooks (P := P)) : Prop := {
  law_plan c : Respects safe (plan_current_effects owner c);
  law_governance c : Respects safe (validate_current_governance owner c);
  law_payload e es p w r w' : payload_for_effect owner e es p w = (r, w') -> w' = w;
  law_assess s es os rs ls : Respects safe (assess_completion owner s es os rs ls);
  law_blocked c a : Respects safe (handle_completion_blocked owner c a);
}.

Definition undecided (w : World P) (id : uuid) : Prop :=
  forall row, x_effects (w_exec w) !! id = Some row -> decided (ef_status row) = false.

Lemma undecided_not w id : undecided w id -> ~ decided_in w id.
Proof. intros Hu (row & Hrow & Hd). rewrite (Hu row Hrow) in Hd. done. Qed.

Lemma undecided_advances s s' : decided s = false -> s' <> PLANNED -> status_advances s s'.
Proof. unfold status_advances. destruct s; naive_solver. Qed.

(** An effect sent and then settled: one execution of an undecided effect. *)
Lemma settle_at w w1 id payload st pr r w' :
  undecided w id -> same_tables (w_exec w) (w_exec w1) -> w_calls w1 = w_calls w ++ [Executed id payload] ->
  decided st = true -> update_effect_status clock id st pr w1 = (r, w') ->
  match r with Ok _ => safe_move w w' | Err e => safe_raise e w w' end.
Proof.
  intros Hu Ht Hc Hst Hrun. pose proof (undecided_not w id Hu) as Hnd.
  apply update_status_spec in Hrun as [Hc' Hr]. rewrite Hc in Hc'.
  assert (Hsince : calls_since w w' [Executed id payload]).
  { split; [done|]. cbn. split; [apply NoDup_singleton|]. by intros ? ->%list_elem_of_singleton. }
  destruct r as [e|e].
  - intros Hck. assert (Hw : status_written (w_exec w) (w_exec w') id st).
    { destruct Ht as (He & Hre & Ho), Hr as (row & row' & H1 & H2 & H3 & H4 & H5 & H6).
      exists row, row'. rewrite <- He, <- Hre, <- Ho. by split_and!. }
    destruct (written_advance _ _ _ _ Hck Hw) as [Hck' Ha].
    { intros row Hrow. apply undecided_advances; [by apply Hu|]. by intros ->. }
    split; [done|]. split; [done|]. exists [Executed id payload]. split; [done|]. cbn.
    intros ? ->%list_elem_of_singleton. destruct Hw as (row & row' & _ & He & _ & Hs & _).
    exists row'. rewrite He, lookup_insert_eq, Hs. done.
  - destruct Hr as [Hr Hcls]. split; [|by rewrite Hcls]. intros Hck.
    assert (same_tables (w_exec w) (w_exec w')) as Ht'.
    { destruct Ht as (? & ? & ?), Hr as (? & ? & ?). repeat split; congruence. }
    split; [by eapply same_tables_chain|]. split; [by apply same_tables_advance|].
    by exists [Executed id payload].
Qed.

Lemma execute_spec effect payload w r w' :
  execute effect payload w = (r, w') ->
  w_exec w' = w_exec w /\ w_calls w' = w_calls w ++ [Executed (ef_effect_id effect) payload] /\
  match r with Ok _ => True | Err e => exn_cls e <> FinancialQualificationPending end.
Proof.
  unfold execute. destruct (provider_execute _ _ _) as [r1 p] eqn:E. intros [= <- <-].
  split; [done|]. split; [done|]. destruct r1; [done|]. by eapply execute_raises.
Qed.

Section lawful.
Context (owner : Hooks (P := P)) {Hlaw : LawfulHooks owner}.

Lemma execute_at effect payload w :
  undecided w (ef_effect_id effect) ->
  respects_at safe (execute_effect clock effect payload) w.
Proof.
  intros Hu r w'. unfold execute_effect, bind at 1. destruct (execute effect payload w) as [o w1] eqn:Hex.
  apply execute_spec in Hex as (He & Hc & Hcls).
  assert (Ht : same_tables (w_exec w) (w_exec w1)) by by rewrite He.
  destruct o as [o|e].
  - destruct (px_status o); unfold bind, ret;
      destruct (update_effect_status _ _ _ _ _) as [r1 w2] eqn:Hup;
      (eapply settle_at in Hup; [|exact Hu|exact Ht|exact Hc|reflexivity]);
      destruct r1; by intros [= <- <-].
  - intros [= <- <-]. split; [|done]. intros Hck. split; [by eapply same_tables_chain|]. split; [by apply same_tables_advance|].
    exists [Executed (ef_effect_id effect) payload]. split; [done|]. split; [apply NoDup_singleton|]. cbn.
    intros ? ->%list_elem_of_singleton. by apply undecided_not.
Qed.

Lemma dispatch_effect_at c effects effect w :
  undecided w (ef_effect_id effect) -> respects_at safe (dispatch_effect clock owner c effects effect) w.
Proof.
  intros Hu. apply respects_bind_at.
  { apply update_status_at. intros row Hrow. apply undecided_advances; [by apply Hu|done]. }
  intros e w1 Hup. apply update_status_spec in Hup as [_ (row & row' & _ & He & _ & Hst & _)].
  apply respects_bind_at.
  { intros r w2 Hp. apply law_payload in Hp as ->. destruct r; [apply moves_refl|apply breaks_refl]. }
  intros payload w2 Hp. apply law_payload in Hp as ->.
  destruct payload as [payload|]; [|apply at_world; respect]. apply execute_at.
  intros row1. rewrite He, lookup_insert_eq. intros [= <-]. by rewrite Hst.
Qed.

(** The chain may be assumed: it is what a motion is conditional on. *)
Lemma assume_chain {A} (m : M (World P) A) w :
  (chain_ok (w_exec w) -> respects_at safe m w) -> respects_at safe m w.
Proof.
  intros Hm r w' Hrun. destruct r as [a|e].
  - intros Hck. exact (Hm Hck _ _ Hrun Hck).
  - split; [intros Hck|intros He Hck]; destruct (Hm Hck _ _ Hrun) as [Hb Hp]; [by apply Hb|by apply Hp].
Qed.

(** The effect a loop step works on: its status is the stored one. *)
Definition reads_status (w : World P) (effect : EffectRecord) : Prop :=
  forall row, x_effects (w_exec w) !! ef_effect_id effect = Some row -> ef_status row = ef_status effect.

Lemma current_effect_reads planned w effect w' :
  chain_ok (w_exec w) -> current_effect (P := P) planned w = (Ok effect, w') ->
  w' = w /\ ef_effect_id effect = ef_effect_id planned /\ reads_status w effect.
Proof.
  intros Hck Hrun. unfold current_effect, gets in Hrun. injection Hrun as Heff <-. split; [done|].
  unfold get_effect in Heff. unfold reads_status.
  destruct (x_effects (w_exec w) !! ef_effect_id planned) as [row|] eqn:Hrow; cbn in Heff; subst effect.
  - pose proof (ck_effects _ Hck _ _ Hrow) as Hid. cbn in Hid |- *. split; [done|].
    intros row1. rewrite Hid, Hrow. by intros [= ->].
  - split; [done|]. rewrite Hrow. done.
Qed.

Lemma observe_exec effect w r w' : observe (P := P) effect w = (r, w') -> w_exec w' = w_exec w.
Proof. unfold observe. destruct (provider_observe _ _). by intros [= _ <-]. Qed.

Lemma reconcile_at c obligation_set links effect w :
  reads_status w effect -> ef_status effect = DISPATCHED \/ ef_status effect = OUTCOME_UNKNOWN ->
  respects_at safe (reconcile_dispatched clock owner c obligation_set links effect) w.
Proof.
  intros Hread Hst. apply respects_bind_at; [apply at_world, respects_observe|].
  intros o w1 Hob. apply observe_exec in Hob.
  apply respects_bind_at; [apply at_world, respects_lift|].
  intros v w2 [= Hv <-]. assert (Hadv : forall st, st = SUCCEEDED \/ st = OUTCOME_UNKNOWN ->
    forall row, x_effects (w_exec w1) !! ef_effect_id effect = Some row -> status_advances (ef_status row) st).
  { intros st Hs row Hrow. rewrite Hob in Hrow. rewrite (Hread _ Hrow). unfold status_advances.
    destruct Hst as [-> | ->], Hs as [-> | ->]; naive_solver. }
  destruct (sv_disposition v); try (apply at_world; respect; fail);
    (apply respects_bind_at; [apply update_status_at, Hadv; auto|intros; apply at_world; respect]).
Qed.

Lemma reconcile_passes c obligation_set links effect w w' :
  reconcile_dispatched (P := P) clock owner c obligation_set links effect w = (Ok None, w') ->
  w_exec w' = w_exec w /\ ef_status effect <> OUTCOME_UNKNOWN.
Proof.
  unfold reconcile_dispatched. intros Hrun. apply bind_Ok in Hrun as (o & w1 & Hob & Hrun).
  apply bind_Ok in Hrun as (v & w2 & [= Hv <-] & Hrun). apply observe_exec in Hob.
  destruct (sv_disposition v); try (apply bind_Ok in Hrun as (? & ? & _ & Hrun)); try discriminate Hrun.
  case_bool_decide; [discriminate Hrun|]. by injection Hrun as <-.
Qed.

Lemma drive_effect_respects c effects obligation_set links planned :
  Respects safe (drive_effect clock owner c effects obligation_set links planned).
Proof.
  apply respects_everywhere. intros w. apply assume_chain. intros Hck.
  apply respects_bind_at; [apply at_world, respects_current_effect|]. intros effect w1 Hcur.
  destruct (current_effect_reads _ _ _ _ Hck Hcur) as (-> & _ & Hread).
  assert (Hund : decided (ef_status effect) = false -> undecided w (ef_effect_id effect)).
  { intros Hd row Hrow. by rewrite (Hread _ Hrow). }
  destruct (ef_status effect) eqn:Hst; try (apply at_world; respect; fail).
  - by apply dispatch_effect_at, Hund.
  - apply respects_bind_at; [apply reconcile_at; auto|]. intros [unknown|] w1 Hre; [apply at_world; respect|].
    apply reconcile_passes in Hre as [He Hne]. apply dispatch_effect_at. unfold undecided. rewrite He. by apply Hund.
  - apply respects_bind_at; [apply reconcile_at; auto|]. intros [unknown|] w1 Hre; [apply at_world; respect|].
    apply reconcile_passes in Hre as [_ Hne]. done.
Qed.

Lemma drive_loop_respects c effects obligation_set links queue saw_unknown :
  Respects safe (drive_loop clock owner c effects obligation_set links queue saw_unknown).
Proof.
  revert saw_unknown. induction queue as [|planned rest IH]; intros saw_unknown; cbn; [respect|].
  apply respects_bind; [apply drive_effect_respects|]. intros [u|unknown]; [respect|apply IH].
Qed.

Lemma drive_dispatch_respects c effects obligation_set links :
  Respects safe (drive_dispatch clock owner c effects obligation_set links).
Proof. apply drive_loop_respects. Qed.

(** ** What the dispatch state tells *)

Definition has_status (w : World P) (id : uuid) (st : EffectStatus) : Prop :=
  exists row, x_effects (w_exec w) !! id = Some row /\ ef_status row = st.

Lemma succeeded_advance w w' id :
  advance (w_exec w) (w_exec w') -> has_status w id SUCCEEDED -> has_status w' id SUCCEEDED.
Proof.
  intros [He _ _] (row & Hrow & Hs). destruct (He _ _ Hrow) as (row' & Hrow' & _ & Ha).
  exists row'. split; [done|]. rewrite Hs in Ha. by destruct Ha.
Qed.

Lemma written_status w w' id st pr e :
  update_effect_status clock id st pr w = (Ok e, w') -> has_status w' id st.
Proof.
  intros Hup. apply update_status_spec in Hup as [_ (row & row' & _ & He & _ & Hs & _)].
  exists row'. by rewrite He, lookup_insert_eq.
Qed.

(** How one loop step leaves its effect: sent and settled as the step reports. *)
Definition step_status (r : unit + bool) (w : World P) (id : uuid) : Prop :=
  match r with
  | inl _ => has_status w id EFFECT_FAILED
  | inr false => has_status w id SUCCEEDED
  | inr true => True
  end.

Lemma execute_effect_status effect payload w r w' :
  execute_effect clock effect payload w = (Ok r, w') -> step_status r w' (ef_effect_id effect).
Proof.
  intros Hrun. apply bind_Ok in Hrun as (o & w1 & _ & Hrun).
  destruct (px_status o); apply bind_Ok in Hrun as (e & w2 & Hup & Hrun); injection Hrun as <- <-;
    [by eapply written_status..|done].
Qed.

Lemma dispatch_effect_status c effects effect w r w' :
  dispatch_effect clock owner c effects effect w = (Ok r, w') -> step_status r w' (ef_effect_id effect).
Proof.
  intros Hrun. apply bind_Ok in Hrun as (e & w1 & _ & Hrun). apply bind_Ok in Hrun as (p & w2 & _ & Hrun).
  destruct p as [payload|]; [by eapply execute_effect_status|]. by injection Hrun as <- <-.
Qed.

Lemma reconcile_status c os ls effect w unknown w' :
  reconcile_dispatched clock owner c os ls effect w = (Ok (Some unknown), w') ->
  step_status (inr unknown) w' (ef_effect_id effect).
Proof.
  intros Hrun. apply bind_Ok in Hrun as (o & w1 & _ & Hrun). apply bind_Ok in Hrun as (v & w2 & _ & Hrun).
  destruct (sv_disposition v); try (injection Hrun as <- <-; done).
  - apply bind_Ok in Hrun as (e & w3 & Hup & Hrun). injection Hrun as <- <-. by eapply written_status.
  - case_bool_decide; [by injection Hrun as <- <-|discriminate Hrun].
  - apply bind_Ok in Hrun as (e & w3 & _ & Hrun). by injection Hrun as <- <-.
Qed.

Lemma drive_effect_status c effects os ls planned w r w' :
  chain_ok (w_exec w) -> is_Some (x_effects (w_exec w) !! ef_effect_id planned) ->
  drive_effect clock owner c effects os ls planned w = (Ok r, w') ->
  step_status r w' (ef_effect_id planned).
Proof.
  intros Hck [row Hrow] Hrun. apply bind_Ok in Hrun as (effect & w1 & Hcur & Hrun).
  destruct (current_effect_reads _ _ _ _ Hck Hcur) as (-> & Hid & Hread). rewrite <- Hid in Hrow |- *.
  pose proof (Hread _ Hrow) as Hst.
  destruct (ef_status effect); try (by eapply dispatch_effect_status);
    try (injection Hrun as <- <-; by exists row).
  all: apply bind_Ok in Hrun as ([unknown|] & w1 & Hre & Hrun); [|by eapply dispatch_effect_status].
  all: injection Hrun as <- <-; by eapply reconcile_status.
Qed.

Lemma drive_loop_status c effects os ls queue saw_unknown w d w' :
  chain_ok (w_exec w) -> (forall e, e ∈ queue -> is_Some (x_effects (w_exec w) !! ef_effect_id e)) ->
  drive_loop clock owner c effects os ls queue saw_unknown w = (Ok d, w') ->
  (d = dispatch_succeeded -> saw_unknown = false /\
     forall e, e ∈ queue -> has_status w' (ef_effect_id e) SUCCEEDED) /\
  (d = dispatch_failed -> exists e, e ∈ queue /\ has_status w' (ef_effect_id e) EFFECT_FAILED).
Proof.
  revert saw_unknown w. induction queue as [|e0 rest IH]; intros b w Hck Hin Hrun; cbn in Hrun.
  - injection Hrun as <- <-. destruct b; (split; [|done]); [done|]. intros _. split; [done|].
    by intros e ?%not_elem_of_nil.
  - apply bind_Ok in Hrun as (r & w1 & Hstep & Hrun).
    pose proof (drive_effect_status _ _ _ _ _ _ _ _ Hck (Hin e0 ltac:(left)) Hstep) as Hs.
    destruct (drive_effect_respects c effects os ls e0 _ _ _ Hstep Hck) as (Hck1 & Ha1 & _).
    destruct r as [u|unknown].
    { injection Hrun as <- <-. split; [done|]. intros _. exists e0. split; [left|done]. }
    destruct (drive_loop_respects c effects os ls rest (b || unknown) _ _ _ Hrun Hck1) as (_ & Ha2 & _).
    assert (Hin1 : forall e, e ∈ rest -> is_Some (x_effects (w_exec w1) !! ef_effect_id e)).
    { intros e He. destruct (Hin e) as [row Hrow]; [by right|].
      destruct (adv_effects _ _ Ha1 _ _ Hrow) as (row' & -> & _). by eexists. }
    destruct (IH _ _ Hck1 Hin1 Hrun) as [IHs IHf]. split.
    + intros Hd. destruct (IHs Hd) as [[-> ->]%orb_false_iff Hrest]. split; [done|].
      intros e [->|He]%elem_of_cons; [|by apply Hrest]. by eapply succeeded_advance.
    + intros Hd. destruct (IHf Hd) as (e & He & Hf). exists e. split; [by right|done].
Qed.

(** ** Verification *)

Definition proves (r : EffectRealizationAssessment) : Prop :=
  er_disposition r = VERIFIED /\ er_evidence r <> [].

Lemma validated_proves r r' :
  EffectRealizationAssessment_validate r = Ok r' -> er_disposition r = VERIFIED -> r' = r /\ proves r.
Proof.
  unfold EffectRealizationAssessment_validate. intros Hv Hd. inv_ok. subst. split; [done|]. split; [done|].
  rewrite bool_decide_eq_true_2 in E by done. cbn in E. by apply is_nil_false.
Qed.

(** What [put_realization] leaves in the table. *)
Lemma put_realization_spec x a case_id a' x' :
  put_realization x a case_id = Ok (a', x') ->
  x_effects x' = x_effects x /\ x_outcomes x' = x_outcomes x /\
  er_effect_id a' = er_effect_id a /\ er_disposition a' = er_disposition a /\
  er_assessment_id a' = er_assessment_id a /\ x_realizations x' !! er_assessment_id a = Some a' /\
  (x' = x /\ is_ok (EffectRealizationAssessment_validate a') = true \/
   a' = a /\ x_realizations x !! er_assessment_id a = None /\
   x_realizations x' = <[er_assessment_id a := a]> (x_realizations x)).
Proof.
  unfold put_realization. destruct (x_effects x !! er_effect_id a) as [effect|]; [|done].
  intros Hrun. apply rbind_Ok in Hrun as (u & _ & Hrun).
  destruct (x_realizations x !! er_assessment_id a) as [row|] eqn:Hrow.
  - inv_ok. simplify_eq. assert (row = a') as -> by (unfold EffectRealizationAssessment_validate in E; by inv_ok).
    unfold realization_eqb in *. propify. split_and!; try done. left. by rewrite E.
  - inv_ok. simplify_eq. cbn. rewrite lookup_insert_eq. split_and!; try done. by right.
Qed.

Lemma outcomes_chain x x' :
  x_effects x' = x_effects x -> x_realizations x ⊆ x_realizations x' ->
  keyed er_assessment_id (x_realizations x') -> x_outcomes x' = x_outcomes x -> chain_ok x ->
  chain_ok x' /\ advance x x'.
Proof.
  intros He Hr Hk Ho [Hke Hkr Hko Hb]. assert (advance x x') as Ha by (apply advance_tables; [done..|by rewrite Ho]).
  split; [|done]. split; [by rewrite He|done|by rewrite Ho|]. rewrite Ho. intros id o Hlo.
  eapply backed_advance; [done|by eapply Hb].
Qed.

#[local] Instance respects_put_realization a case_id :
  Respects safe (on_exec (P := P) (fun w => put_realization (w_exec w) a case_id)).
Proof.
  apply respects_transact. intros w a' w' Hrun Hck. inv_ok. destruct v as [a1 x']. inv_ok. simplify_eq.
  apply put_realization_spec in E as (He & Ho & _ & _ & _ & _ & Hcase).
  assert (chain_ok x' /\ advance (w_exec w) x') as [Hck' Ha].
  { destruct Hcase as [[-> _]|(-> & Hnone & Hr)]; [by split; [|apply advance_refl]|].
    apply outcomes_chain; [done|by rewrite Hr; apply insert_subseteq| |done|done].
    rewrite Hr. apply keyed_insert, (ck_realizations _ Hck). }
  split; [done|]. split; [done|]. exists []. split; [by apply calls_since_nil|]. by intros ? ?%not_elem_of_nil.
Qed.

Lemma put_outcome_spec x o o' x' :
  put_outcome x o = Ok (o', x') ->
  x_effects x' = x_effects x /\ x_realizations x' = x_realizations x /\
  (exists effect r, x_effects x !! co_effect_id o = Some effect /\
     x_realizations x !! co_realization_assessment_id o = Some r /\ er_effect_id r = co_effect_id o /\
     ef_case_id effect = co_case_id o /\ ef_case_version effect = co_case_version o /\
     ef_authority_epoch effect = co_authority_epoch o) /\
  (exists stored, x_outcomes x' !! co_outcome_id o = Some stored /\ co_effect_id stored = co_effect_id o /\
     co_case_id stored = co_case_id o /\ co_authority_epoch stored = co_authority_epoch o) /\
  (x' = x \/ x_outcomes x !! co_outcome_id o = None /\
              x_outcomes x' = <[co_outcome_id o := o]> (x_outcomes x)).
Proof.
  unfold put_outcome. destruct (x_effects x !! co_effect_id o) as [effect|] eqn:Hef; [|done].
  destruct (x_realizations x !! co_realization_assessment_id o) as [r|] eqn:Hre; [|done].
  intros Hrun. apply rbind_guard_Ok in Hrun as [Hr1 Hrun]. apply rbind_guard_Ok in Hrun as [Hr2 Hrun].
  propify. assert (exists effect' r', Some effect = Some effect' /\ Some r = Some r' /\ er_effect_id r' = co_effect_id o /\
     ef_case_id effect' = co_case_id o /\ ef_case_version effect' = co_case_version o /\
     ef_authority_epoch effect' = co_authority_epoch o) as Hback by (by exists effect, r).
  destruct (x_outcomes x !! co_outcome_id o) as [row|] eqn:Hrow.
  - inv_ok. simplify_eq. assert (row = o') as -> by (unfold ConfirmedOutcome_validate in E; by inv_ok).
    unfold outcome_eqb in *. propify. split_and!; try done; [|by left].
    exists o'. by split_and!.
  - inv_ok. simplify_eq. cbn. split_and!; try done; [|by right]. exists o'. by rewrite lookup_insert_eq.
Qed.

Lemma put_outcome_at o w :
  (forall r, x_realizations (w_exec w) !! co_realization_assessment_id o = Some r -> proves r) ->
  respects_at safe (put_outcome_step (P := P) o) w.
Proof.
  intros Hproves. apply respects_bind_at; [apply at_world, respects_lift|].
  intros o1 w1 Hval. unfold lift in Hval. injection Hval as Hval <-.
  assert (o1 = o) as -> by (unfold ConfirmedOutcome_validate in Hval; by inv_ok).
  apply respects_transact_at. intros o2 w2 Hrun Hck. inv_ok. destruct v as [o3 x']. inv_ok. simplify_eq.
  apply put_outcome_spec in E as (He & Hr & Hback & _ & Hcase).
  assert (advance (w_exec w) x') as Ha.
  { destruct Hcase as [->|(Hnone & Ho)]; [apply advance_refl|].
    apply advance_tables; [done|by rewrite Hr|]. rewrite Ho. by apply insert_subseteq. }
  split; [|split; [done|exists []; split; [by apply calls_since_nil|by intros ? ?%not_elem_of_nil]]].
  destruct Hcase as [->|(Hnone & Ho)]; [done|]. destruct Hck as [Hke Hkr Hko Hb].
  split; cbn; [by rewrite He|by rewrite Hr|rewrite Ho; by apply keyed_insert|].
  rewrite Ho. apply map_Forall_insert_2.
  - eapply backed_advance; [exact Ha|]. destruct Hback as (effect & r & H1 & H2 & H3 & H4).
    destruct (Hproves r H2). exists effect, r. by split_and!; try apply H4.
  - intros id o' Hlo. eapply backed_advance; [exact Ha|]. by eapply Hb.
Qed.

Lemma on_exec_Ok {A} (f : World P -> result (A * ExecDb)) w a w' :
  on_exec f w = (Ok a, w') -> exists x, f w = Ok (a, x) /\ w' = set_exec w x.
Proof.
  unfold on_exec. intros Hrun. apply transact_Ok in Hrun. inv_ok. destruct v as [a1 x]. inv_ok.
  simplify_eq. eauto.
Qed.

Lemma verify_fresh_respects c effect obligation :
  Respects safe (verify_fresh owner c effect obligation).
Proof.
  apply respects_bind; [apply respects_observe|]. intros o. apply respects_bind; [apply respects_lift|].
  intros v. destruct (sv_disposition v); try (respect; fail). apply respects_everywhere. intros w.
  apply respects_bind_at; [apply at_world, respects_lift|]. intros a w1 [= <- <-].
  apply respects_bind_at; [apply at_world, respects_put_realization|]. intros a' w1 Hput.
  apply respects_bind_at; [|intros; apply at_world; respect].
  apply put_outcome_at. cbn. apply on_exec_Ok in Hput as (x & Hput & ->).
  apply put_realization_spec in Hput as (_ & _ & _ & Hd & Hid & Hl & Hcase). rewrite Hid. cbn.
  intros r Hr. cbn in Hl. assert (r = a') as -> by congruence.
  destruct Hcase as [[_ Hok]|(-> & _)]; [|done].
  destruct (EffectRealizationAssessment_validate a') as [a2|] eqn:Hv; [|done].
  by eapply validated_proves.
Qed.

Lemma existing_realization_proves (w : World P) id r :
  chain_ok (w_exec w) -> get_realization (w_exec w) id = Ok (Some r) -> er_disposition r = VERIFIED ->
  er_assessment_id r = id /\
  forall r', x_realizations (w_exec w) !! er_assessment_id r = Some r' -> proves r'.
Proof.
  intros Hck Hget Hd. unfold get_realization in Hget.
  destruct (x_realizations (w_exec w) !! id) as [row|] eqn:Hrow; inv_ok; simplify_eq.
  assert (row = r) as -> by (unfold EffectRealizationAssessment_validate in E; by inv_ok).
  pose proof (ck_realizations _ Hck _ _ Hrow) as Hid. cbn in Hid. split; [done|].
  intros r' Hr'. rewrite Hid, Hrow in Hr'. injection Hr' as <-. by eapply validated_proves.
Qed.

Lemma confirm_effect_respects c effect obligation :
  Respects safe (confirm_effect owner c effect obligation).
Proof.
  apply respects_bind; [apply respects_reads|]. intros [o|]; [respect|].
  apply respects_everywhere. intros w. apply assume_chain. intros Hck.
  apply respects_bind_at; [apply at_world, respects_reads|].
  intros [r|] w1 Hr; [|apply at_world, verify_fresh_respects].
  unfold reads in Hr. injection Hr as Hr <-. destruct (_ || _) eqn:Hb; [apply at_world, respects_throw|].
  propify. apply respects_bind_at; [|intros; apply at_world; respect]. apply put_outcome_at. cbn.
  by eapply existing_realization_proves.
Qed.

Lemma verify_effect_respects c obligation_set links planned :
  Respects safe (verify_effect owner c obligation_set links planned).
Proof.
  apply respects_bind; [apply respects_current_effect|]. intros effect.
  destruct obligation_set, (obligation_for_effect _ _ _); try apply confirm_effect_respects. respect.
Qed.

Lemma verify_loop_respects c obligation_set links queue incomplete :
  Respects safe (verify_loop owner c obligation_set links queue incomplete).
Proof.
  revert incomplete. induction queue as [|planned rest IH]; intros incomplete; cbn; [respect|].
  apply respects_bind; [apply verify_effect_respects|]. intros [u|skipped]; [respect|apply IH].
Qed.

Lemma verify_all_respects c effects obligation_set links :
  Respects safe (verify_all owner c effects obligation_set links).
Proof. apply verify_loop_respects. Qed.

(** ** What "verified" means *)

(** An effect has a confirmed outcome of this case and authority epoch. *)
Definition confirmed (x : ExecDb) (c : AdministrativeCase) (effect_id : uuid) : Prop :=
  exists id o, x_outcomes x !! id = Some o /\ co_effect_id o = effect_id /\
    co_case_id o = c_case_id c /\ co_authority_epoch o = c_authority_epoch c.

Lemma put_outcome_step_confirms c effect r (w w' : World P) o :
  put_outcome_step (confirmed_outcome c effect r) w = (Ok o, w') ->
  confirmed (w_exec w') c (ef_effect_id effect).
Proof.
  intros Hrun. apply bind_Ok in Hrun as (o1 & w1 & Hval & Hrun). unfold lift in Hval.
  injection Hval as Hval <-. unfold ConfirmedOutcome_validate in Hval. inv_ok. subst o1.
  apply on_exec_Ok in Hrun as (x & Hput & ->).
  apply put_outcome_spec in Hput as (_ & _ & _ & (stored & Hl & He & Hc & Hep) & _).
  by exists (co_outcome_id (confirmed_outcome c effect r)), stored.
Qed.

Lemma verify_fresh_confirms c effect obligation (w w' : World P) :
  verify_fresh owner c effect obligation w = (Ok (inr false), w') ->
  confirmed (w_exec w') c (ef_effect_id effect).
Proof.
  intros Hrun. apply bind_Ok in Hrun as (o & w1 & _ & Hrun). apply bind_Ok in Hrun as (v & w2 & _ & Hrun).
  destruct (sv_disposition v); try discriminate Hrun.
  apply bind_Ok in Hrun as (a & w3 & _ & Hrun). apply bind_Ok in Hrun as (a' & w4 & _ & Hrun).
  apply bind_Ok in Hrun as (o' & w5 & Hput & Hrun). injection Hrun as <-.
  by apply put_outcome_step_confirms in Hput.
Qed.

Lemma confirm_effect_confirms c effect obligation (w w' : World P) :
  confirm_effect owner c effect obligation w = (Ok (inr false), w') ->
  confirmed (w_exec w') c (ef_effect_id effect).
Proof.
  intros Hrun. apply bind_Ok in Hrun as (eo & w1 & Heo & Hrun). unfold reads in Heo. injection Heo as Heo <-.
  unfold get_outcome in Heo.
  destruct (x_outcomes (w_exec w) !! _) as [row|] eqn:Hrow; inv_ok; subst eo.
  - unfold ConfirmedOutcome_validate in E. inv_ok. subst v. destruct (_ || _) eqn:Hb; [discriminate Hrun|].
    injection Hrun as <-. propify. eexists _, row. by split_and!.
  - apply bind_Ok in Hrun as (er & w2 & Her & Hrun). unfold reads in Her. injection Her as _ <-.
    destruct er as [r|]; [|by eapply verify_fresh_confirms]. destruct (_ || _); [discriminate Hrun|].
    apply bind_Ok in Hrun as (o & w3 & Hput & Hrun). injection Hrun as <-.
    by apply put_outcome_step_confirms in Hput.
Qed.

Lemma confirmed_advance x x' c id : advance x x' -> confirmed x c id -> confirmed x' c id.
Proof. intros Ha (i & o & Hl & Ho). exists i, o. split; [|done]. by eapply lookup_weaken, adv_outcomes. Qed.

Lemma verify_effect_confirms c obligation_set links planned (w w' : World P) :
  chain_ok (w_exec w) ->
  verify_effect owner c obligation_set links planned w = (Ok (inr false), w') ->
  confirmed (w_exec w') c (ef_effect_id planned).
Proof.
  intros Hck Hrun. apply bind_Ok in Hrun as (effect & w1 & Hcur & Hrun).
  destruct (current_effect_reads _ _ _ _ Hck Hcur) as (-> & <- & _).
  destruct obligation_set, (obligation_for_effect _ _ _); cbv beta iota zeta in Hrun;
    try discriminate Hrun; exact (confirm_effect_confirms _ _ _ _ _ Hrun).
Qed.

Lemma verify_loop_confirms c obligation_set links queue incomplete (w w' : World P) :
  chain_ok (w_exec w) ->
  verify_loop owner c obligation_set links queue incomplete w = (Ok verify_verified, w') ->
  incomplete = false /\
  forall e, e ∈ queue -> confirmed (w_exec w') c (ef_effect_id e).
Proof.
  revert incomplete w. induction queue as [|planned rest IH]; intros incomplete w Hck Hrun; cbn in Hrun.
  - destruct incomplete; [discriminate Hrun|]. split; [done|]. by intros e ?%not_elem_of_nil.
  - apply bind_Ok in Hrun as ([u|skipped] & w1 & Hstep & Hrun); [discriminate Hrun|].
    destruct (verify_effect_respects c obligation_set links planned _ _ _ Hstep Hck) as (Hck1 & _).
    pose proof (verify_loop_respects c obligation_set links rest (incomplete || skipped) _ _ _ Hrun Hck1) as (_ & Ha & _).
    destruct (IH _ _ Hck1 Hrun) as [Hinc Hrest]. apply orb_false_iff in Hinc as [-> ->]. split; [done|].
    intros e [->|He]%elem_of_cons; [|by apply Hrest]. eapply confirmed_advance; [exact Ha|].
    exact (verify_effect_confirms _ _ _ _ _ _ Hck Hstep).
Qed.

(** C8: The dispatch state says what happened: "succeeded" means every effect of
    the list is now stored as succeeded, "failed" means one is stored as failed. *)
Theorem dispatch_state_is_faithful c effects os ls (w w' : World P) d :
  chain_ok (w_exec w) ->
  (forall e, e ∈ effects -> is_Some (x_effects (w_exec w) !! ef_effect_id e)) ->
  drive_dispatch clock owner c effects os ls w = (Ok d, w') ->
  (d = dispatch_succeeded -> forall e, e ∈ effects -> has_status w' (ef_effect_id e) SUCCEEDED) /\
  (d = dispatch_failed -> exists e, e ∈ effects /\ has_status w' (ef_effect_id e) EFFECT_FAILED).
Proof.
  intros Hck Hin Hrun. unfold drive_dispatch in Hrun.
  assert (Hq : forall e, e ∈ sort_by (effect_dispatch_order owner) effects ->
    is_Some (x_effects (w_exec w) !! ef_effect_id e)) by (intros e He%elem_of_sort_by; by apply Hin).
  destruct (drive_loop_status _ _ _ _ _ _ _ _ _ Hck Hq Hrun) as [Hs Hf].
  split; intros Hd.
  - intros e He. apply (proj2 (Hs Hd)). by apply elem_of_sort_by.
  - destruct (Hf Hd) as (e & He%elem_of_sort_by & Hfe). eauto.
Qed.
End lawful.

(** ** The run *)

Class LawfulOwner (owner : Owner (P := P)) : Prop := {
  law_hooks :: LawfulHooks (hooks owner);
  law_drive c es os ls : Respects safe (owner_drive_dispatch owner c es os ls);
  law_verify c es os ls : Respects safe (owner_verify_all owner c es os ls);
}.

Section lawful_owner.
Context (owner : Owner (P := P)) {Howner : LawfulOwner owner}.

#[export] Instance owner_plan c : Respects safe (plan_current_effects owner c) := law_plan c.
#[export] Instance owner_governance c : Respects safe (validate_current_governance owner c) := law_governance c.
#[export] Instance owner_assess s es os rs ls : Respects safe (assess_completion owner s es os rs ls) :=
  law_assess s es os rs ls.
#[export] Instance owner_blocked c a : Respects safe (handle_completion_blocked owner c a) := law_blocked c a.
#[export] Instance owner_drive c es os ls : Respects safe (owner_drive_dispatch owner c es os ls) :=
  law_drive c es os ls.
#[export] Instance owner_verify c es os ls : Respects safe (owner_verify_all owner c es os ls) :=
  law_verify c es os ls.

#[export] Instance gate_respects c : Respects safe (governance_gate clock owner c).
Proof. unfold governance_gate. respect. Qed.

#[export] Instance start_respects c : Respects safe (start_phase clock owner c).
Proof. unfold start_phase. respect. Qed.

#[export] Instance dispatch_phase_respects id c es os ls :
  Respects safe (dispatch_phase clock owner id c es os ls).
Proof. unfold dispatch_phase. respect. Qed.

#[export] Instance reconcile_phase_respects id c es os ls :
  Respects safe (reconcile_phase clock owner id c es os ls).
Proof. unfold reconcile_phase. respect. Qed.

#[export] Instance assess_phase_respects c es os ls outcomes :
  Respects safe (assess_phase enforced owner c es os ls outcomes).
Proof. unfold assess_phase. respect. Qed.

#[export] Instance complete_phase_respects c es outcomes a :
  Respects safe (complete_phase (P := P) clock c es outcomes a).
Proof. unfold complete_phase. respect. Qed.

#[export] Instance verify_phase_respects c es os ls :
  Respects safe (verify_phase clock enforced owner c es os ls).
Proof. unfold verify_phase. respect. Qed.

#[export] Instance settle_phase_respects id c es os ls :
  Respects safe (settle_phase clock enforced owner id c es os ls).
Proof. unfold settle_phase. respect. Qed.

#[export] Instance drive_phase_respects id c : Respects safe (drive_phase clock enforced owner id c).
Proof. unfold drive_phase. respect. Qed.

Lemma run_respects case_id : Respects safe (run clock enforced owner case_id).
Proof. unfold run. respect. Qed.
End lawful_owner.
End safety.
