(* ===== verification/CommitmentService.v ===== *)
(** * Meeting commitments: the service,
      [commitment_service.py] and its coordinators

    A model of a meeting proposes candidates; an authorized reviewer resolves the
    speaker, qualifies the due time and admits the commitment as a governed case;
    the due coordinator makes it overdue and sends its messages; the committer
    attests fulfilment; reviewers revise or cancel.  Every repository or
    unit-of-work call is its own transaction, so an operation that raises keeps
    what it committed before.

    Parameters: the readings of the clock and the random identifiers, the settings,
    the parser of a meeting interpretation, the message gateway, the Kernel client
    and, through [EffectProvider], the Kernel's execution of an effect. *)

From stdpp Require Import base gmap strings list relations.
From Stdlib Require Import ZArith Lia.
From S2P Require Import Prelude Python CPython Uuid Store Domain Policy Authority Artifacts Commitment Access Lifecycle.
From S2P Require Import Obligations Verification PolicyPlane Financial Persistence Transactions Governance Machine.
From S2P Require Import Outbox UnitOfWork Execution.

Open Scope Z_scope.
Open Scope orch_scope.
Open Scope machine_scope.

(** [M9_NAMESPACE], [REVIEW_ROLES] *)
Definition M9_NAMESPACE : uuid := 0x7c4f2b4a7ed54c72a45c4ecbcb1a46a3%N.
Definition REVIEW_ROLES : list string := ["administrative_operator"; "administrative_admin"].

Record ResponsibilityRefs := mkResponsibilityRefs {
  rf_responsibility_ref : string;
  rf_responsibility_version : Z;
  rf_admission_ref : option string;
  rf_assessment_ref : option string;
  rf_proposal_ref : option string;
}.

(** The settings the service reads.  [cs_secret_file] is the text of the secret
    file, [None] when it is not a regular file. *)
Record CommitmentSettings := mkCommitmentSettings {
  cs_external_effects_enabled : bool;
  cs_kernel_bridge_mode : string;
  cs_communication_gateway_base_url : string;
  cs_communication_transport_secret : option string;
  cs_communication_transport_secret_file : string;
  cs_secret_file : option string;
}.

(** What the gateway's answer is to the caller: [httpx] raises an error of some
    class, or a response whose body is or is not JSON. *)
Inductive GatewayAnswer :=
  | HttpRaised (class_name : string)
  | HttpStatus (status_code : Z) (body : string + pyval).  (* left: the class of the decoding error *)

Class CommunicationGateway (P : Type) := {
  (** [hmac.new(secret, message, sha256).hexdigest()] *)
  hmac_sha256 : string -> string -> string;
  (** [httpx.post(url, content, headers)]: url, body, event id, timestamp, signature *)
  http_post : P -> string -> string -> string -> string -> string -> GatewayAnswer * P;
  (** binding a value to a text column of the database *)
  bind_text : pyval -> result (option string);
}.

Class ResponsibilityKernel (P : Type) := {
  (** [bridge.compatibility().persistent_responsibility_contract] *)
  kernel_contract : P -> result string * P;
  (** [client.submit_payload]: responsibility, admission, assessment, proposal *)
  kernel_submit : P -> pydict -> pydict -> pydict -> pydict -> result ResponsibilityRefs * P;
  (** [client.get_responsibility_status(ref, version).current_status] *)
  kernel_status : P -> string -> Z -> result string * P;
  kernel_record_assessment : P -> pydict -> result unit * P;
  kernel_record_discharge_decision : P -> pydict -> result unit * P;
  kernel_apply_lifecycle_transition : P -> pydict -> result unit * P;
}.

(** ** The world *)

Record CWorld (P : Type) := mkCWorld {
  k_uow : UowDb;
  k_policies : PolicyDb;
  k_txns : TxnDb;
  k_obligations : ObligationDb;
  k_commitments : CommitmentDb;
  k_artifacts : ArtifactDir;
  k_plane : P;
  k_sent : list uuid;   (* the communication events handed to the gateway or the Kernel *)
  k_ticks : nat;
}.
Arguments mkCWorld {P}.
Arguments k_uow {P}. Arguments k_policies {P}. Arguments k_txns {P}. Arguments k_obligations {P}.
Arguments k_commitments {P}. Arguments k_artifacts {P}. Arguments k_plane {P}. Arguments k_sent {P}.
Arguments k_ticks {P}.

Definition k_exec {P} (w : CWorld P) : ExecDb := u_exec (k_uow w).
Definition k_authority {P} (w : CWorld P) : AuthorityDb := u_authority (k_uow w).
Definition k_links {P} (w : CWorld P) : gmap uuid EffectObligationLink := effect_obligation_links (k_obligations w).

Definition put_uow {P} (w : CWorld P) (u : UowDb) : CWorld P :=
  mkCWorld u (k_policies w) (k_txns w) (k_obligations w) (k_commitments w) (k_artifacts w) (k_plane w) (k_sent w)
    (k_ticks w).
Definition put_policies {P} (w : CWorld P) (d : PolicyDb) : CWorld P :=
  mkCWorld (k_uow w) d (k_txns w) (k_obligations w) (k_commitments w) (k_artifacts w) (k_plane w) (k_sent w)
    (k_ticks w).
Definition put_obligations {P} (w : CWorld P) (o : ObligationDb) : CWorld P :=
  mkCWorld (k_uow w) (k_policies w) (k_txns w) o (k_commitments w) (k_artifacts w) (k_plane w) (k_sent w) (k_ticks w).
Definition put_commitments {P} (w : CWorld P) (c : CommitmentDb) : CWorld P :=
  mkCWorld (k_uow w) (k_policies w) (k_txns w) (k_obligations w) c (k_artifacts w) (k_plane w) (k_sent w) (k_ticks w).
Definition put_artifacts {P} (w : CWorld P) (d : ArtifactDir) : CWorld P :=
  mkCWorld (k_uow w) (k_policies w) (k_txns w) (k_obligations w) (k_commitments w) d (k_plane w) (k_sent w) (k_ticks w).
Definition put_plane {P} (w : CWorld P) (p : P) : CWorld P :=
  mkCWorld (k_uow w) (k_policies w) (k_txns w) (k_obligations w) (k_commitments w) (k_artifacts w) p (k_sent w)
    (k_ticks w).
Definition log_sent {P} (w : CWorld P) (event_id : uuid) : CWorld P :=
  mkCWorld (k_uow w) (k_policies w) (k_txns w) (k_obligations w) (k_commitments w) (k_artifacts w) (k_plane w)
    (k_sent w ++ [event_id]) (k_ticks w).
Definition tick {P} (w : CWorld P) : CWorld P :=
  mkCWorld (k_uow w) (k_policies w) (k_txns w) (k_obligations w) (k_commitments w) (k_artifacts w) (k_plane w)
    (k_sent w) (S (k_ticks w)).

(** [set_exec] of the unit of work's tables *)
Definition put_exec {P} (w : CWorld P) (x : ExecDb) : CWorld P :=
  let u := k_uow w in
  put_uow w (mkUowDb x (u_snapshots u) (u_ingress u) (u_authority u) (u_governance u) (u_outbox u)).

(** The drafts a meeting interpretation proposes, [MeetingCommitmentDraft]; a due
    time without an offset was refused. *)
Record MeetingCommitmentDraft := mkMeetingCommitmentDraft {
  md_speaker_label : string;
  md_candidate_action : string;
  md_candidate_due_text : option string;
  md_candidate_due_at : option instant;
  md_candidate_scope_ref : option string;
  md_candidate_beneficiary : option string;
  md_classification : CandidateCommitmentClassification;
  md_evidence_span_refs : list uuid;
}.

(** The fields of an [InterpretationRecord] the service reads. *)
Record Interpretation := mkInterpretation {
  in_interpretation_id : uuid;
  in_artifact_refs : list uuid;
  in_interpretation_profile_ref : string;
  in_structured_output : pydict;
  in_evidence_span_refs : list uuid;
}.

(** [tuple(dict.fromkeys(items))] *)
Fixpoint dedup (items : list uuid) : list uuid :=
  match items with
  | [] => []
  | x :: r => x :: List.filter (fun y => negb (bool_decide (y = x))) (dedup r)
  end.

(** ** Updates of a commitment, [commitment.model_copy(update=...)] *)

Definition revised_commitment (c : CommitmentRecord) (authority_epoch : Z) (due_at : instant) (due_time_basis : string)
    (state : CommitmentState) (was_overdue : bool) (updated_at : instant) : CommitmentRecord :=
  mkCommitmentRecord (cm_commitment_id c) (cm_candidate_ref c) (cm_case_id c) authority_epoch
    (cm_committer_principal_id c) (cm_committer_external_subject c) (cm_commitment_action c) due_at due_time_basis
    (cm_scope_ref c) (cm_beneficiary_principal_id c) (cm_fulfillment_kind c) state (cm_version c)
    (cm_responsibility_ref c) (cm_responsibility_version c) (cm_responsibility_admission_ref c)
    (cm_responsibility_assessment_ref c) (cm_responsibility_proposal_ref c)
    (cm_responsibility_discharge_assessment_ref c) (cm_responsibility_discharge_decision_ref c)
    (cm_responsibility_transition_ref c) (cm_created_at c) updated_at was_overdue.

Definition in_state (c : CommitmentRecord) (state : CommitmentState) (was_overdue : bool) (updated_at : instant)
  : CommitmentRecord :=
  revised_commitment c (cm_authority_epoch c) (cm_due_at c) (cm_due_time_basis c) state was_overdue updated_at.

Definition with_responsibility (c : CommitmentRecord) (r : ResponsibilityRefs) : CommitmentRecord :=
  mkCommitmentRecord (cm_commitment_id c) (cm_candidate_ref c) (cm_case_id c) (cm_authority_epoch c)
    (cm_committer_principal_id c) (cm_committer_external_subject c) (cm_commitment_action c) (cm_due_at c)
    (cm_due_time_basis c) (cm_scope_ref c) (cm_beneficiary_principal_id c) (cm_fulfillment_kind c) (cm_state c)
    (cm_version c) (Some (rf_responsibility_ref r)) (Some (rf_responsibility_version r)) (rf_admission_ref r)
    (rf_assessment_ref r) (rf_proposal_ref r)
    (cm_responsibility_discharge_assessment_ref c) (cm_responsibility_discharge_decision_ref c)
    (cm_responsibility_transition_ref c) (cm_created_at c) (cm_updated_at c) (cm_was_overdue c).

Definition with_discharge (c : CommitmentRecord) (assessment_ref decision_ref transition_ref : string)
    (updated_at : instant) : CommitmentRecord :=
  mkCommitmentRecord (cm_commitment_id c) (cm_candidate_ref c) (cm_case_id c) (cm_authority_epoch c)
    (cm_committer_principal_id c) (cm_committer_external_subject c) (cm_commitment_action c) (cm_due_at c)
    (cm_due_time_basis c) (cm_scope_ref c) (cm_beneficiary_principal_id c) (cm_fulfillment_kind c) (cm_state c)
    (cm_version c) (cm_responsibility_ref c) (cm_responsibility_version c) (cm_responsibility_admission_ref c)
    (cm_responsibility_assessment_ref c) (cm_responsibility_proposal_ref c)
    (Some assessment_ref) (Some decision_ref) (Some transition_ref) (cm_created_at c) updated_at (cm_was_overdue c).

Definition delivered (c : CommunicationEffectRecord) (state : CommunicationDeliveryState)
    (provider_message_ref : option string) (attempts : Z) (last_error_code : option string) (updated_at : instant)
  : CommunicationEffectRecord :=
  mkCommunicationEffectRecord (ce_communication_event_id c) (ce_case_id c) (ce_authority_epoch c) (ce_draft_id c)
    (ce_effect_id c) state provider_message_ref attempts last_error_code (ce_created_at c) updated_at.

(** [{"delivery_state": ..., "last_error_code": ..., "updated_at": ...}] *)
Definition undelivered (c : CommunicationEffectRecord) (state : CommunicationDeliveryState) (code : string)
    (updated_at : instant) : CommunicationEffectRecord :=
  delivered c state (ce_provider_message_ref c) (ce_attempts c) (Some code) updated_at.

(** [case.model_copy(update={"case_id": case_id})] *)
Definition with_case_id (c : AdministrativeCase) (case_id : uuid) : AdministrativeCase :=
  mkAdministrativeCase case_id (c_case_kind c) (c_requester_principal_id c) (c_subject_ref c) (c_status c) (c_version c)
    (c_authority_epoch c) (c_fact_snapshot c) (c_policy_ref c) (c_evidence c) (c_reopen_reason c) (c_created_at c)
    (c_updated_at c).

Section service.
Context `{Hplat : Platform} {P : Type} `{Hprov : EffectProvider P} `{Hgate : CommunicationGateway P}
  `{Hkern : ResponsibilityKernel P} (clock : nat -> instant) (fresh : nat -> uuid) (settings : CommitmentSettings)
  (parse_meeting : pydict -> result (list MeetingCommitmentDraft)).

Local Abbreviation M := (M (CWorld P)).

(** ** Steps *)

Definition m9_id (name : string) : uuid := uuid5_in M9_NAMESPACE name.

Definition now : M instant := fun w => (Ok (clock (k_ticks w)), tick w).
Definition uuid4 : M uuid := fun w => (Ok (fresh (k_ticks w)), tick w).

Definition on_uow (f : CWorld P -> result UowDb) : M unit :=
  transact (fun w => let! u := f w in Ok (tt, put_uow w u)).
Definition on_records {A} (f : ExecDb -> result (A * ExecDb)) : M A :=
  transact (fun w => let! (a, x) := f (k_exec w) in Ok (a, put_exec w x)).
Definition on_records_linked {A} (f : ExecDb -> gmap uuid EffectObligationLink -> result (A * ExecDb)) : M A :=
  transact (fun w => let! (a, x) := f (k_exec w) (k_links w) in Ok (a, put_exec w x)).
Definition on_commitments {A} (f : CommitmentDb -> result (A * CommitmentDb)) : M A :=
  transact (fun w => let! (a, d) := f (k_commitments w) in Ok (a, put_commitments w d)).
Definition on_obligation_db {A} (f : ObligationDb -> result (A * ObligationDb)) : M A :=
  transact (fun w => let! (a, d) := f (k_obligations w) in Ok (a, put_obligations w d)).

(** A call of the Kernel client. *)
Definition on_plane {A} (f : P -> result A * P) : M A := fun w =>
  let '(r, p) := f (k_plane w) in (r, put_plane w p).

Definition load_case (case_id : uuid) : M (option AdministrativeCase) := reads (fun w => get_case (k_exec w) case_id).
Definition load_commitment (case_id : uuid) : M (option CommitmentRecord) :=
  reads (fun w => get_commitment (k_commitments w) case_id).

Definition intake_error {A} (msg : string) : M A := throw CommitmentIntakeError msg.

(** [commitment is None or case is None] *)
Definition load_both (case_id : uuid) : M (CommitmentRecord * AdministrativeCase) :=
  do! commitment := load_commitment case_id in
  do! c := load_case case_id in
  match commitment, c with
  | Some commitment, Some c => ret (commitment, c)
  | _, _ => intake_error "commitment case not found"
  end.

Definition save_commitment (c : CommitmentRecord) : M CommitmentRecord :=
  on_commitments (fun db => update_commitment db c).
Definition save_communication (c : CommunicationEffectRecord) : M CommunicationEffectRecord :=
  on_commitments (fun db => update_communication db c).

(** ** Reviewers and candidates *)

(** [_require_reviewer] *)
Definition require_reviewer (principal_id : string) : M unit :=
  do! principal := gets (fun w => get_principal (k_authority w) principal_id) in
  do! at_ := now in
  do! roles := reads (fun w => roles_for (k_authority w) principal_id "*" at_) in
  if bool_decide (principal = None) || negb (holds_any roles REVIEW_ROLES)
  then throw PermissionError ("principal " +:+ principal_id +:+ " lacks an M9 commitment review role")
  else ret tt.

(** [_candidate] *)
Definition admissible_candidate (candidate_id : uuid) : M CandidateCommitment :=
  do! found := reads (fun w => get_candidate (k_commitments w) candidate_id) in
  match found with
  | None => intake_error "meeting commitment candidate not found"
  | Some candidate =>
      if bool_decide (cc_status candidate ∈ [CC_REJECTED; CC_SUPERSEDED])
      then intake_error "candidate is no longer admissible"
      else ret candidate
  end.

(** One iteration of the loop over the drafts. *)
Definition candidate_refs (interpretation : Interpretation) (evidence_spans : list uuid) (draft : MeetingCommitmentDraft)
  : result (list uuid) :=
  let refs := dedup (md_evidence_span_refs draft ++ in_evidence_span_refs interpretation) in
  let refs := match refs, evidence_spans with [], [span] => [span] | _, _ => refs end in
  refuse is_nil refs with CommitmentIntakeError
    saying "meeting commitment candidate requires at least one EvidenceSpan";;
  refuse negb (is_nil evidence_spans) && existsb (fun ref => bool_decide (ref ∉ evidence_spans)) refs
    with CommitmentIntakeError saying "candidate references an unavailable EvidenceSpan";;
  Ok refs.

Definition create_candidate (interpretation : Interpretation) (artifact_ref : uuid) (evidence_spans : list uuid)
    (index : nat) (draft : MeetingCommitmentDraft) : M CandidateCommitment :=
  do! refs := lift (candidate_refs interpretation evidence_spans draft) in
  do! created_at := now in
  do! candidate := lift (CandidateCommitment_validate
    (mkCandidateCommitment
       (m9_id ("candidate:" +:+ uuid_str (in_interpretation_id interpretation) +:+ ":" +:+ int_str (Z.of_nat index)))
       artifact_ref (in_interpretation_id interpretation) refs (md_speaker_label draft) (md_candidate_action draft)
       (md_candidate_due_text draft) (md_candidate_due_at draft) (md_candidate_scope_ref draft)
       (md_candidate_beneficiary draft) (md_classification draft) CC_ACTIVE created_at None)) in
  on_commitments (fun db => put_candidate db candidate).

Fixpoint create_candidates (interpretation : Interpretation) (artifact_ref : uuid) (evidence_spans : list uuid)
    (index : nat) (drafts : list MeetingCommitmentDraft) : M (list CandidateCommitment) :=
  match drafts with
  | [] => ret []
  | draft :: rest =>
      do! c := create_candidate interpretation artifact_ref evidence_spans index draft in
      do! cs := create_candidates interpretation artifact_ref evidence_spans (S index) rest in
      ret (c :: cs)
  end.

(** [create_candidates_from_interpretation]; [evidence_spans] are the identities
    of the spans. *)
Definition create_candidates_from_interpretation (interpretation : Interpretation) (source_artifact_ref : option uuid)
    (evidence_spans : list uuid) : M (list CandidateCommitment) :=
  if bool_decide (in_interpretation_profile_ref interpretation <> "meeting.commitment.v1") then ret []
  else if is_nil (in_structured_output interpretation) then ret []
  else
    do! drafts := lift (parse_meeting (in_structured_output interpretation)) in
    do! artifact_ref := match source_artifact_ref, in_artifact_refs interpretation with
                        | Some ref, _ => ret ref
                        | None, ref :: _ => ret ref
                        | None, [] => throw KeyError "tuple index out of range"
                        end in
    create_candidates interpretation artifact_ref evidence_spans 0 drafts.

Definition resolve_speaker (candidate_id : uuid) (reviewer_principal_id external_subject : string) (basis : pydict)
    (provider : string) : M SpeakerPrincipalResolution :=
  do! candidate := admissible_candidate candidate_id in
  also! require_reviewer reviewer_principal_id then
  let external_subject := strip external_subject in
  let provider := strip provider in
  if negb (nonempty external_subject) || negb (nonempty provider) || is_nil basis
  then intake_error "speaker resolution requires provider, subject and basis"
  else
    do! at_ := now in
    do! principal := gets (fun w => resolve_identity (k_authority w) provider external_subject at_) in
    match principal with
    | None => intake_error "speaker identity is unresolved or has zero/multiple current bindings"
    | Some principal =>
        do! resolved_at := now in
        do! resolution := lift (SpeakerPrincipalResolution_validate
          (mkSpeakerPrincipalResolution (m9_id ("resolution:" +:+ uuid_str candidate_id)) candidate_id
             (cc_candidate_committer_identity candidate) (p_principal_id principal) provider external_subject
             (dict_set basis "reviewer_principal_id" (VStr reviewer_principal_id)) "authorized_human" resolved_at)) in
        on_commitments (fun db => put_resolution db resolution)
    end.

(** ** The commitment policy *)

(** [datetime(2026, 1, 1, tzinfo=UTC)] *)
Definition m9_baseline : instant := 1767225600 * 1000000.

(** [default_commitment_policy_version] *)
Definition default_commitment_policy_version : PolicyVersionRecord :=
  mkPolicyVersionRecord "meeting-commitment" "m9-v1" "administrative-orchestrator" ACTIVE m9_baseline None
    [("required_decision_roles", VList [VStr "administrative_operator"]);
     ("require_distinct_decision_principals", VBool false);
     ("allowed_effects",
      VList [VDict [("target_system", VStr "communication"); ("operation", VStr "message.send");
                    ("authority_class", VStr "normal")]]);
     ("confirmation", VStr "internal_feishu_one_to_one_fixed_template");
     ("reminder", VStr "one_bounded_internal_feishu_one_to_one");
     ("fulfillment", VList [VStr "authorized_attestation"; VStr "evidence_verified"])]
    m9_baseline.

(** [_current_policy]: any exception of the resolution falls back to the default. *)
Definition current_policy : M PolicyVersionRecord :=
  do! at_ := now in
  do! resolved := gets (fun w => resolve_current (k_policies w) "meeting-commitment" at_) in
  match resolved with
  | Ok record => ret record
  | Err _ =>
      transact (fun w =>
        let! (_, policies) := put_version (k_policies w) default_commitment_policy_version in
        Ok (default_commitment_policy_version, put_policies w policies))
  end.

(** [_commitment_policy_evaluation] *)
Definition commitment_policy_evaluation (policy : PolicyVersionRecord) : PolicyEvaluation :=
  mkPolicyEvaluation (pv_policy_ref policy) HUMAN_DECISION_REQUIRED
    "M9 commitment admission requires an authorized human decision" [] ["administrative_operator"] false
    [mkTemplate "communication" "message.send" NORMAL] None.

(** [_assess_approval] and the refusal of an assessment that is not satisfied. *)
Definition require_approval (c : AdministrativeCase) (policy_ref : PolicyRef) (evaluation : PolicyEvaluation)
    (decision : Decision) (refusal : string) : M ApprovalSatisfaction :=
  do! at_ := now in
  do! assessment := reads (fun w =>
    assess_approval_satisfaction (k_authority w) (c_case_id c) (c_authority_epoch c) policy_ref evaluation
      [decision] "*" at_) in
  match aa_satisfied assessment, aa_satisfaction assessment with
  | true, Some satisfaction => ret satisfaction
  | _, _ => intake_error refusal
  end.

(** The decision a reviewer takes on the awaiting case, and its transition. *)
Definition decide_commitment (awaiting : AdministrativeCase) (evaluation : PolicyEvaluation) (decision_id : uuid)
    (reviewer_principal_id rationale refusal : string) : M AdministrativeCase :=
  match c_policy_ref awaiting with
  | None => throw ValueError "validation error"
  | Some policy_ref =>
      do! decided_at := now in
      let decision := mkDecision decision_id (c_case_id awaiting) (c_version awaiting) (c_authority_epoch awaiting)
                        reviewer_principal_id (Some "administrative_operator") APPROVE rationale policy_ref decided_at in
      do! satisfaction := require_approval awaiting policy_ref evaluation decision refusal in
      do! at_ := now in
      do! authorized := lift (record_decision awaiting decision true at_) in
      do! event_id := uuid4 in
      do! at_ := now in
      also! on_uow (fun w => apply_decision_transition (k_policies w) (k_txns w) (k_uow w) awaiting authorized decision
                               (Some "*") (Some satisfaction) event_id at_) then
      ret authorized
  end.

(** ** Communications, [commitment_communication.py] *)

(** [communication_text(...).encode("utf-8")] *)
Definition communication_bytes (commitment : CommitmentRecord) (draft_kind : string) : string :=
  let label := if bool_decide (draft_kind = "confirmation") then "确认" else "提醒" in
  "行政承诺" +:+ label +:+ "：请确认你承诺在 " +:+ encode (isoformat (cm_due_at commitment)) +:+ " 前完成："
  +:+ encode (cm_commitment_action commitment) +:+ "。回复仅用于记录，不代表承诺已完成。".

Definition versioned_id (prefix : string) (commitment : CommitmentRecord) (kind : string) : uuid :=
  m9_id (prefix +:+ ":" +:+ uuid_str (cm_commitment_id commitment) +:+ ":" +:+ int_str (cm_version commitment)
         +:+ ":" +:+ kind).

(** [effect_ids[kind]], [obligation_ids[kind]], the event of an effect *)
Definition communication_effect_id (commitment : CommitmentRecord) (kind : string) : uuid :=
  versioned_id "effect" commitment kind.
Definition communication_obligation_id (commitment : CommitmentRecord) (kind : string) : uuid :=
  m9_id ("obligation:" +:+ uuid_str (communication_effect_id commitment kind)).
Definition event_of_effect (effect_id : uuid) : uuid := m9_id ("event:" +:+ uuid_str effect_id).

Definition prepare_draft (commitment : CommitmentRecord) (draft_kind : string) : M CommunicationDraftRecord :=
  do! stored := transact (fun w =>
    let! (a, d) := artifact_put (k_artifacts w) (communication_bytes commitment draft_kind) None in
    Ok (a, put_artifacts w d)) in
  do! draft := lift (CommunicationDraftRecord_validate
    (mkCommunicationDraftRecord (versioned_id "draft" commitment draft_kind) (cm_case_id commitment)
       (cm_authority_epoch commitment) "feishu-one-to-one" (cm_committer_principal_id commitment)
       (cm_committer_external_subject commitment) (sa_storage_ref stored) (sa_digest stored) (sa_size stored) draft_kind
       ("administrative-orchestrator:m9-template:" +:+ draft_kind +:+ ":v1") (cm_updated_at commitment) None)) in
  also! on_commitments (fun db => put_draft db draft) then
  ret draft.

(** [authorization.model_copy(update={"issued_at": issued_at})], and the identity *)
Definition issued_as (a : ExecutionAuthorization) (authorization_id : uuid) (issued_at : instant)
  : ExecutionAuthorization :=
  mkExecutionAuthorization authorization_id (ea_case_id a) (ea_case_version a) (ea_authority_epoch a) (ea_decision_id a)
    (ea_approval_satisfaction_id a) (ea_issuer_principal_id a) (ea_target_system a) (ea_subject_ref a)
    (ea_allowed_operations a) (ea_authority_class a) (ea_policy_ref a) issued_at (ea_expires_at a) (ea_revoked_at a).

Definition communication_authorization (commitment : CommitmentRecord) (c : AdministrativeCase)
    (approval : ApprovalSatisfaction) : M ExecutionAuthorization :=
  do! id := uuid4 in
  do! at_ := now in
  do! minted := lift (mint_execution_authorization_from_approval c approval "service:administrative-orchestrator"
                        "communication" ["message.send"] NORMAL None id at_) in
  let authorization := issued_as minted
    (m9_id ("authorization:" +:+ uuid_str (cm_case_id commitment) +:+ ":" +:+ int_str (cm_authority_epoch commitment)))
    (cm_updated_at commitment) in
  do! existing := reads (fun w => get_authorization (k_exec w) (ea_authorization_id authorization)) in
  match existing with
  | None => on_records (fun x => put_authorization x authorization)
  | Some existing =>
      if bool_decide (issued_as existing (ea_authorization_id existing) (ea_issued_at authorization) <> authorization)
      then throw ExecutionConflict "communication authorization semantics drifted"
      else ret existing
  end.

(** [build_obligation]; the digest of the prepared text is that of its bytes. *)
Definition build_obligation (commitment : CommitmentRecord) (c : AdministrativeCase) (governance : GovernanceBasis)
    (kind : string) : AdministrativeObligation :=
  mkAdministrativeObligation (communication_obligation_id commitment kind) (cm_case_id commitment)
    (cm_authority_epoch commitment) (gb_basis_id governance) ("meeting-commitment-communication:" +:+ kind)
    (c_subject_ref c) "communication" "message.send"
    [("communication_event_id", VStr (uuid_str (event_of_effect (communication_effect_id commitment kind))));
     ("recipient_external_subject", VStr (cm_committer_external_subject commitment));
     ("content_digest", VStr (sha256_bytes (communication_bytes commitment kind)));
     ("transport_accepted", VBool true); ("delivery_confirmed", VBool true); ("read_state", VStr "unknown")]
    NORMAL true EXTERNAL_EFFECT_VERIFIED.

Definition communication_obligation_set (commitment : CommitmentRecord) (c : AdministrativeCase)
    (governance : GovernanceBasis) : AdministrativeObligationSet :=
  mkAdministrativeObligationSet
    (m9_id ("obligation-set:" +:+ uuid_str (cm_case_id commitment) +:+ ":" +:+ int_str (cm_authority_epoch commitment)))
    (cm_case_id commitment) (cm_authority_epoch commitment) (gb_basis_id governance)
    [build_obligation commitment c governance "confirmation"; build_obligation commitment c governance "reminder"].

(** The event an obligation of an existing set names, checked against the draft. *)
Definition expected_event (obligation : AdministrativeObligation) (draft : CommunicationDraftRecord) : result uuid :=
  let post := ob_expected_postcondition obligation in
  match dict_get post "communication_event_id" with
  | VStr text =>
      match UUID_of text with
      | Err _ => raise CommitmentIntakeError "communication obligation event identity is invalid"
      | Ok event_id =>
          refuse negb (py_eq (dict_get post "recipient_external_subject") (VStr (dr_recipient_external_subject draft)))
                 || negb (py_eq (dict_get post "content_digest") (VStr (dr_content_digest draft)))
            with CommitmentIntakeError saying "communication obligation postcondition drifted";;
          Ok event_id
      end
  | _ => raise CommitmentIntakeError "communication obligation event identity is unavailable"
  end.

(** The obligation a message of this kind fulfils, its effect and its event. *)
Definition choose_obligation (commitment : CommitmentRecord) (c : AdministrativeCase) (governance : GovernanceBasis)
    (draft : CommunicationDraftRecord) (draft_kind : string) : M (AdministrativeObligation * uuid * uuid) :=
  let obligation_set := communication_obligation_set commitment c governance in
  do! existing := reads (fun w => get_current (k_obligations w) (cm_case_id commitment) (cm_authority_epoch commitment)) in
  match existing with
  | None =>
      also! on_obligation_db (fun db => put_in_session db obligation_set) then
      match first_where (fun o => bool_decide (ob_obligation_id o = communication_obligation_id commitment draft_kind))
              (os_obligations obligation_set) with
      | None => throw RuntimeError "StopIteration"
      | Some obligation =>
          let effect_id := communication_effect_id commitment draft_kind in
          ret (obligation, effect_id, event_of_effect effect_id)
      end
  | Some existing =>
      if bool_decide (os_governance_basis_id existing <> gb_basis_id governance)
      then intake_error "communication obligation governance basis drifted"
      else
        match first_where (fun o => bool_decide (ob_kind o = "meeting-commitment-communication:" +:+ draft_kind))
                (os_obligations existing) with
        | None => intake_error "communication obligation kind is unavailable"
        | Some obligation =>
            do! links := gets (fun w => list_links (k_obligations w) (cm_case_id commitment)
                                          (cm_authority_epoch commitment)) in
            let effect_id :=
              match first_where (fun l => bool_decide (ln_obligation_id l = ob_obligation_id obligation)) links with
              | Some l => ln_effect_id l
              | None => m9_id ("effect:" +:+ uuid_str (ob_obligation_id obligation))
              end in
            do! event_id := lift (expected_event obligation draft) in
            ret (obligation, effect_id, event_id)
        end
  end.

(** [effect.model_copy(update=...)] of the planned effect *)
Definition planned_as (e : EffectRecord) (effect_id obligation_id basis_id : uuid) (at_ : instant) : EffectRecord :=
  mkEffectRecord effect_id (ef_case_id e) (ef_case_version e) (ef_authority_epoch e) (ef_authorization_id e)
    (Some obligation_id) (Some basis_id) (ef_target_system e) (ef_operation e) (ef_subject_ref e) (ef_reversibility e)
    (ef_authority_class e) (ef_status e) (ef_provider_ref e) at_ at_.

(** [CommitmentCommunicationCoordinator.ensure] *)
Definition ensure_communication (commitment : CommitmentRecord) (draft_kind : string) : M CommunicationEffectRecord :=
  do! found := load_case (cm_case_id commitment) in
  match found with
  | None => intake_error "communication requires a current governed case"
  | Some c =>
      if bool_decide (c_policy_ref c = None) then intake_error "communication requires a current governed case"
      else if bool_decide (c_authority_epoch c <> cm_authority_epoch commitment)
      then intake_error "communication requires commitment revalidation after an authority epoch change"
      else if bool_decide (draft_kind ∉ ["confirmation"; "reminder"])
      then intake_error "unsupported communication draft kind"
      else
        do! draft := prepare_draft commitment draft_kind in
        do! approval := gets (fun w =>
          get_approval_satisfaction (k_authority w) (cm_case_id commitment) (cm_authority_epoch commitment)) in
        match approval with
        | None => intake_error "communication requires current approval satisfaction"
        | Some approval =>
            do! governance := reads (fun w =>
              get_current_for_case (u_governance (k_uow w)) (cm_case_id commitment) (cm_authority_epoch commitment)) in
            match governance with
            | None => intake_error "communication requires current governance basis"
            | Some governance =>
                do! authorization := communication_authorization commitment c approval in
                do! (obligation, effect_id, event_id) := choose_obligation commitment c governance draft draft_kind in
                do! random_id := uuid4 in
                do! at_ := now in
                do! planned := lift (plan_effect c authorization "message.send" IRREVERSIBLE random_id at_) in
                let effect := planned_as planned effect_id (ob_obligation_id obligation) (gb_basis_id governance)
                                (cm_updated_at commitment) in
                also! on_records_linked (fun x links => put_effect x links effect) then
                also! on_obligation_db (fun db => link_effect db effect obligation) then
                do! event := lift (CommunicationEffectRecord_validate
                  (mkCommunicationEffectRecord event_id (cm_case_id commitment) (cm_authority_epoch commitment)
                     (versioned_id "draft" commitment draft_kind) effect_id PREPARED None 0 None
                     (cm_updated_at commitment) (cm_updated_at commitment))) in
                on_commitments (fun db => put_communication db event)
            end
        end
  end.

(** ** Dispatch *)

(** [communication_secret] *)
Definition communication_secret : string :=
  let from_file :=
    if nonempty (strip (cs_communication_transport_secret_file settings))
    then match cs_secret_file settings with Some text => strip text | None => "" end
    else "" in
  match cs_communication_transport_secret settings with
  | Some value => if nonempty (strip value) then strip value else from_file
  | None => from_file
  end.

(** [json.dumps({...}, ensure_ascii=False, separators=(",", ":")).encode("utf-8")];
    the text is already bytes. *)
Definition gateway_body (communication : CommunicationEffectRecord) (draft : CommunicationDraftRecord) (text : string)
  : string :=
  let field k v := json_quote json_char_raw k +:+ ":" +:+ json_quote json_char_raw v in
  "{" +:+ join "," [field "eventId" (uuid_str (ce_communication_event_id communication));
                    field "recipientOpenId" (encode (dr_recipient_external_subject draft));
                    field "text" text; field "draftKind" (encode (dr_draft_kind draft))] +:+ "}".

Definition LF : string := String.String (Ascii.ascii_of_nat 10) "".

(** The handler of [except (httpx.HTTPError, ValueError, UnicodeError)] *)
Definition outcome_unknown (communication : CommunicationEffectRecord) (class_name : string)
  : M CommunicationEffectRecord :=
  do! at_ := now in
  save_communication (delivered communication DELIVERY_UNKNOWN (ce_provider_message_ref communication)
                        (ce_attempts communication + 1) (Some class_name) at_).

(** A write inside the [try]: its validation error is a [ValueError]. *)
Definition save_or_unknown (communication updated : CommunicationEffectRecord) : M CommunicationEffectRecord :=
  catch (save_communication updated) ValueError (outcome_unknown communication "ValidationError").

(** What the answer of the gateway makes of the communication. *)
Definition settle_answer (communication : CommunicationEffectRecord) (answer : GatewayAnswer)
  : M CommunicationEffectRecord :=
  match answer with
  | HttpRaised class_name => outcome_unknown communication class_name
  | HttpStatus status_code body =>
      if 400 <=? status_code then
        do! at_ := now in
        save_or_unknown communication
          (delivered communication
             (if bool_decide (status_code ∈ [408; 425; 429; 500; 502; 503; 504]) then DELIVERY_UNKNOWN
              else PERMANENT_FAILED)
             (ce_provider_message_ref communication) (ce_attempts communication + 1)
             (Some ("GATEWAY_HTTP_" +:+ int_str status_code)) at_)
      else
        match body with
        | inl class_name => outcome_unknown communication class_name
        | inr (VDict payload) =>
            let confirmed := truthy (default (VBool false) (assoc "deliveryConfirmed" payload)) in
            do! at_ := now in
            do! ref := lift (bind_text (dict_get payload "providerMessageRef")) in
            save_or_unknown communication
              (delivered communication (if confirmed then DELIVERY_CONFIRMED else TRANSPORT_ACCEPTED) ref
                 (ce_attempts communication + 1) None at_)
        | inr _ => outcome_unknown communication "ValueError"
        end
  end.

(** The gateway branch of [dispatch]. *)
Definition dispatch_via_gateway (communication : CommunicationEffectRecord) (draft : CommunicationDraftRecord)
  : M CommunicationEffectRecord :=
  let gateway := rstrip_slash (strip (cs_communication_gateway_base_url settings)) in
  if negb (nonempty gateway) || negb (nonempty communication_secret) then
    do! at_ := now in
    save_communication (undelivered communication RETRYING "COMMUNICATION_TRANSPORT_NOT_CONFIGURED" at_)
  else
    do! text := reads (fun w => artifact_get (k_artifacts w) (dr_content_storage_ref draft)
                                  (Some (dr_content_digest draft))) in
    let body := gateway_body communication draft text in
    do! at_ := now in
    let event := uuid_str (ce_communication_event_id communication) in
    let timestamp := int_str (Z.quot at_ 1000000) in
    let signature := hmac_sha256 (encode communication_secret) (timestamp +:+ LF +:+ event +:+ LF +:+ sha256_bytes body) in
    do! answer := (fun w =>
      let '(answer, p) := http_post (k_plane w) (gateway +:+ "/v1/administrative/communications") body event timestamp
                            signature in
      (Ok answer, log_sent (put_plane w p) (ce_communication_event_id communication))) in
    settle_answer communication answer.

(** [dispatch_via_kernel]: [execute] and [observe] of the Kernel cut-over provider *)
Definition dispatch_via_kernel (communication : CommunicationEffectRecord) (draft : CommunicationDraftRecord)
  : M CommunicationEffectRecord :=
  do! found := gets (fun w => get_effect (k_exec w) (k_links w) (ce_effect_id communication)) in
  match found with
  | None => intake_error "communication effect lineage is incomplete"
  | Some effect =>
      do! result := (fun w =>
        let '(r, p) := provider_execute (k_plane w) effect
          [("communication_event_id", VStr (uuid_str (ce_communication_event_id communication)));
           ("recipient_open_id", VStr (dr_recipient_external_subject draft));
           ("content_storage_ref", VStr (dr_content_storage_ref draft));
           ("content_digest", VStr (dr_content_digest draft)); ("draft_kind", VStr (dr_draft_kind draft))] in
        (r, log_sent (put_plane w p) (ce_communication_event_id communication))) in
      do! (state, error_code, message_ref) :=
        match px_status result with
        | PX_FAILED => ret (PERMANENT_FAILED, Some "KERNEL_EXECUTION_FAILED", None)
        | PX_OUTCOME_UNKNOWN => ret (DELIVERY_UNKNOWN, Some "KERNEL_EXECUTION_OUTCOME_UNKNOWN", None)
        | PX_SUCCEEDED =>
            do! observation := on_plane (fun p => provider_observe p effect) in
            if bool_decide (ro_availability observation = AVAILABLE) && bool_decide (ro_presence observation = PRESENT)
               && bool_decide (ro_freshness observation = CURRENT)
            then ret (DELIVERY_CONFIRMED, None,
                      match dict_get (ro_state observation) "provider_message_ref" with
                      | VStr s => if nonempty s then Some s else None
                      | _ => None
                      end)
            else ret (DELIVERY_UNKNOWN, Some "KERNEL_VERIFICATION_UNAVAILABLE", None)
        end in
      do! at_ := now in
      save_communication (delivered communication state message_ref (ce_attempts communication + 1) error_code at_)
  end.

(** [CommitmentCommunicationCoordinator.dispatch] *)
Definition dispatch_communication (communication_event_id : uuid) : M CommunicationEffectRecord :=
  do! found := reads (fun w => get_communication_event (k_commitments w) communication_event_id) in
  match found with
  | None => intake_error "communication event not found"
  | Some communication =>
      if bool_decide (ce_delivery_state communication <> PREPARED) then ret communication
      else
        do! draft := reads (fun w => get_draft (k_commitments w) (ce_draft_id communication)) in
        do! c := load_case (ce_case_id communication) in
        do! commitment := load_commitment (ce_case_id communication) in
        match draft, c, commitment with
        | Some draft, Some _, Some commitment =>
            if bool_decide (ce_authority_epoch communication <> cm_authority_epoch commitment) then
              do! at_ := now in
              save_communication (undelivered communication PERMANENT_FAILED "STALE_AUTHORITY_EPOCH" at_)
            else if bool_decide (cs_kernel_bridge_mode settings = "cutover")
            then dispatch_via_kernel communication draft
            else dispatch_via_gateway communication draft
        | _, _, _ => intake_error "communication lineage is incomplete"
        end
  end.

(** ** The due coordinator, [commitment_due.py] *)

Record DriveResult := mkDriveResult {
  dv_case_id : uuid;
  dv_commitment_state : CommitmentState;
  dv_due_at : instant;
  dv_dispatched : list uuid;
  dv_reason : option string;
}.

(** [any(draft is not None and draft.draft_kind == "reminder" for ...)] *)
Fixpoint any_reminder (db : CommitmentDb) (items : list CommunicationEffectRecord) : result bool :=
  match items with
  | [] => Ok false
  | item :: rest =>
      let! draft := get_draft db (ce_draft_id item) in
      match draft with
      | Some draft => if bool_decide (dr_draft_kind draft = "reminder") then Ok true else any_reminder db rest
      | None => any_reminder db rest
      end
  end.

Definition has_reminder (db : CommitmentDb) (case_id : uuid) : result bool :=
  let! items := list_communications db case_id None in any_reminder db items.

(** The loop over the communications of the current epoch. *)
Fixpoint dispatch_prepared (items : list CommunicationEffectRecord) : M (list uuid) :=
  match items with
  | [] => ret []
  | item :: rest =>
      if bool_decide (ce_delivery_state item = PREPARED) then
        also! dispatch_communication (ce_communication_event_id item) then
        do! ids := dispatch_prepared rest in
        ret (ce_communication_event_id item :: ids)
      else dispatch_prepared rest
  end.

(** An active commitment at or past its due time becomes overdue. *)
Definition advance_due (commitment : CommitmentRecord) (at_ : instant) : M CommitmentRecord :=
  if bool_decide (cm_state commitment = CS_ACTIVE) && (cm_due_at commitment <=? at_)
  then save_commitment (in_state commitment CS_OVERDUE true at_)
  else ret commitment.

Definition ensure_reminder (commitment : CommitmentRecord) : M unit :=
  if bool_decide (cm_state commitment = CS_OVERDUE) then
    do! found := reads (fun w => has_reminder (k_commitments w) (cm_case_id commitment)) in
    if found : bool then ret tt
    else also! ensure_communication commitment "reminder" then ret tt
  else ret tt.

(** [at or utcnow()] *)
Definition at_or_now (at_ : option instant) : M instant := match at_ with Some t => ret t | None => now end.

Definition drive (case_id : uuid) (at_ : option instant) : M DriveResult :=
  do! at_ := at_or_now at_ in
  do! (commitment, c) := load_both case_id in
  if bool_decide (cm_authority_epoch commitment <> c_authority_epoch c)
  then intake_error "commitment drive requires revalidation after an authority epoch change"
  else
    do! commitment := advance_due commitment at_ in
    also! ensure_reminder commitment then
    if negb (cs_external_effects_enabled settings)
    then ret (mkDriveResult case_id (cm_state commitment) (cm_due_at commitment) [] (Some "external_effects_disabled"))
    else
      do! items := reads (fun w => list_communications (k_commitments w) case_id
                                     (Some (cm_authority_epoch commitment))) in
      do! dispatched := dispatch_prepared items in
      ret (mkDriveResult case_id (cm_state commitment) (cm_due_at commitment) dispatched None).

(** ** Fulfilment, [commitment_lifecycle.py] *)

Definition attestation_for (commitment : CommitmentRecord) (principal_id : string) (basis : pydict) (at_ : instant)
  : CommitmentFulfillmentAttestation :=
  mkCommitmentFulfillmentAttestation
    (m9_id ("attestation:" +:+ uuid_str (cm_case_id commitment) +:+ ":" +:+ int_str (cm_version commitment)))
    (cm_case_id commitment) (cm_authority_epoch commitment) (cm_version commitment) principal_id "fulfilled" basis at_.

(** [case.model_copy(update={"status": ..., "version": case.version + 1, ...})] *)
Definition completed_case (c : AdministrativeCase) (at_ : instant) : AdministrativeCase :=
  model_copy c (mkCaseUpdate (Some COMPLETED) None None None None None) at_.

Definition attest_fulfillment (case_id : uuid) (principal_id : string) (basis : pydict) (at_ : option instant)
  : M CommitmentRecord :=
  do! at_ := at_or_now at_ in
  do! (commitment, c) := load_both case_id in
  if bool_decide (cm_authority_epoch commitment <> c_authority_epoch c)
  then intake_error "fulfillment requires commitment revalidation after an authority epoch change"
  else if bool_decide (principal_id <> cm_committer_principal_id commitment)
  then throw PermissionError "only the qualified committer may attest fulfillment"
  else
    do! principal := gets (fun w => get_principal (k_authority w) principal_id) in
    if bool_decide (principal = None) then intake_error "attesting principal is inactive or unknown"
    else if is_nil basis then intake_error "fulfillment attestation requires a basis"
    else if bool_decide (cm_state commitment = CS_FULFILLED) then ret commitment
    else
      do! attested_at := now in
      do! attestation := lift (CommitmentFulfillmentAttestation_validate
                                 (attestation_for commitment principal_id basis attested_at)) in
      also! on_commitments (fun db => put_attestation db attestation) then
      do! updated := save_commitment (in_state commitment CS_FULFILLED
                                        (cm_was_overdue commitment || (cm_due_at commitment <? at_)) at_) in
      if terminal (c_status c) then ret updated
      else
        also! on_records (fun x =>
          let! x' := update_case x (completed_case c at_) (c_version c) "commitment.fulfilled"
                       [("attestation_id", VStr (uuid_str (at_attestation_id attestation)))] in Ok (tt, x')) then
        ret updated.

(** ** Cancellation, [commitment_cancellation.py] *)

Definition cancelled_case (c : AdministrativeCase) (at_ : instant) : AdministrativeCase :=
  model_copy c (mkCaseUpdate (Some CANCELLED) None None None None (Some (c_authority_epoch c + 1))) at_.

(** The loop that closes the undelivered communications. *)
Fixpoint close_communications (items : list CommunicationEffectRecord) (at_ : instant) : M unit :=
  match items with
  | [] => ret tt
  | item :: rest =>
      if bool_decide (ce_delivery_state item ∈ [PREPARED; RETRYING]) then
        also! save_communication (undelivered item PERMANENT_FAILED "COMMITMENT_CANCELLED" at_) then
        close_communications rest at_
      else close_communications rest at_
  end.

Definition cancel_commitment (case_id : uuid) (reviewer_principal_id basis : string) : M CommitmentRecord :=
  also! require_reviewer reviewer_principal_id then
  let basis := strip basis in
  if negb (nonempty basis) then intake_error "commitment cancellation requires a basis"
  else
    do! (commitment, c) := load_both case_id in
    if bool_decide (cm_authority_epoch commitment <> c_authority_epoch c)
    then intake_error "commitment cancellation requires revalidation after an authority epoch change"
    else if bool_decide (cm_state commitment = CS_CANCELLED) then ret commitment
    else if bool_decide (cm_state commitment = CS_FULFILLED) || terminal (c_status c)
    then intake_error "fulfilled or terminal commitment cannot be cancelled"
    else
      do! at_ := now in
      also! on_records (fun x =>
        let! x' := update_case x (cancelled_case c at_) (c_version c) "commitment.cancelled"
                     [("reviewer_principal_id", VStr reviewer_principal_id); ("basis_digest", VStr (sha256_hex basis));
                      ("responsibility_reassessment_required",
                       VBool (bool_decide (cm_responsibility_ref commitment <> None)))] in Ok (tt, x')) then
      do! cancelled := save_commitment
        (revised_commitment commitment (c_authority_epoch c + 1) (cm_due_at commitment) (cm_due_time_basis commitment)
           CS_CANCELLED (cm_was_overdue commitment) at_) in
      do! items := reads (fun w => list_communications (k_commitments w) case_id None) in
      also! close_communications items at_ then
      ret cancelled.

(** ** Revision, [commitment_revision.py] *)

(** [case.fact_snapshot.model_copy(update={"snapshot_id", "facts", "observed_at"})] *)
Definition revised_snapshot (s : FactSnapshot) (snapshot_id : uuid) (due_at : instant) (basis : string) (at_ : instant)
  : FactSnapshot :=
  mkFactSnapshot snapshot_id (fs_source s) (fs_owner s) (fs_authority s) (fs_source_ref s) (fs_source_version s) at_
    (dict_set (dict_set (fs_facts s) "due_at" (VStr (isoformat due_at))) "due_time_basis" (VStr basis))
    (fs_assertions s) (fs_digest s).

(** The re-evaluation of the changed facts, committed as one transaction. *)
Definition reevaluate_facts (c : AdministrativeCase) (snapshot : FactSnapshot)
  : M (AdministrativeCase * PolicyEvaluation) :=
  do! at_ := now in
  do! changed := lift (replace_facts_for_reevaluation c snapshot at_) in
  do! policy := current_policy in
  let evaluation := commitment_policy_evaluation policy in
  do! at_ := now in
  do! ready := lift (start_policy_evaluation changed at_) in
  do! at_ := now in
  do! awaiting := lift (apply_policy_evaluation ready evaluation at_) in
  do! event_id := uuid4 in
  do! at_ := now in
  also! on_uow (fun w => replace_facts_and_apply_policy (k_uow w) c awaiting evaluation event_id at_) then
  ret (awaiting, evaluation).

Definition revise_due_at (case_id : uuid) (reviewer_principal_id : string) (due_at : datetime) (basis : string)
  : M CommitmentRecord :=
  also! require_reviewer reviewer_principal_id then
  match due_at with
  | Naive _ => intake_error "due revision requires an offset-aware time and basis"
  | Aware wall offset =>
      let due_at := wall - offset in
      if negb (nonempty (strip basis)) then intake_error "due revision requires an offset-aware time and basis"
      else
        do! commitment := load_commitment case_id in
        do! c := load_case case_id in
        match commitment, c with
        | Some commitment, Some c =>
            if bool_decide (cm_state commitment ∈ [CS_FULFILLED; CS_CANCELLED])
            then intake_error "commitment cannot be revised in its current state"
            else if bool_decide (cm_authority_epoch commitment <> c_authority_epoch c)
            then intake_error "commitment revision requires revalidation after an authority epoch change"
            else
              match c_fact_snapshot c with
              | None => intake_error "due revision requires a current fact snapshot"
              | Some s =>
                  do! at_ := now in
                  let next_version := int_str (cm_version commitment + 1) in
                  let snapshot := revised_snapshot s
                    (m9_id ("facts:" +:+ uuid_str case_id +:+ ":" +:+ next_version)) due_at basis at_ in
                  do! (awaiting, evaluation) := reevaluate_facts c snapshot in
                  do! authorized := decide_commitment awaiting evaluation
                    (m9_id ("revision-decision:" +:+ uuid_str case_id +:+ ":" +:+ next_version)) reviewer_principal_id
                    "Human-qualified commitment due-time revision"
                    "reviewer does not satisfy the revised commitment policy" in
                  do! revised := save_commitment
                    (revised_commitment commitment (c_authority_epoch authorized) due_at basis CS_ACTIVE
                       (cm_was_overdue commitment) at_) in
                  also! ensure_communication revised "confirmation" then
                  ret revised
              end
        | _, _ => intake_error "commitment cannot be revised in its current state"
        end
  end.

(** ** Provisioning the Kernel responsibility, [commitment_responsibility.py] *)

Definition strings (l : list string) : pyval := VList (VStr <$> l).

Definition responsibility_payload (c : AdministrativeCase) (policy : PolicyRef) (commitment : CommitmentRecord)
    (governance : GovernanceBasis) (ref schema_version : string) : pydict :=
  [("id", VStr ref); ("object_type", VStr "StandingResponsibility");
   ("created_at", VStr (isoformat (cm_created_at commitment)));
   ("responsibility_kind", VStr "administrative-commitment");
   ("statement", VStr "Maintain one admitted administrative responsibility until explicit discharge.");
   ("scope", VDict [("administrative_case_id", VStr (uuid_str (c_case_id c)));
                    ("authority_epoch", VStr (int_str (c_authority_epoch c)));
                    ("commitment_ref", VStr (uuid_str (cm_commitment_id commitment)));
                    ("governance_basis_id", VStr (uuid_str (gb_basis_id governance)));
                    ("policy_ref", VStr (pr_policy_id policy +:+ ":" +:+ pr_version policy))]);
   ("schema_version", VStr schema_version)].

Definition commitment_basis_refs (commitment : CommitmentRecord) (governance : GovernanceBasis) : list string :=
  ["commitment:" +:+ uuid_str (cm_commitment_id commitment);
   "governance-basis:" +:+ uuid_str (gb_basis_id governance)].

Definition admission_payload (commitment : CommitmentRecord) (governance : GovernanceBasis) (id ref : string) : pydict :=
  let created_at := VStr (isoformat (cm_created_at commitment)) in
  [("id", VStr id); ("object_type", VStr "ResponsibilityAdmission"); ("created_at", created_at);
   ("responsibility_ref", VStr ref); ("responsibility_version", VInt 1);
   ("principal_ref", VStr (cm_committer_principal_id commitment));
   ("basis_refs", strings (commitment_basis_refs commitment governance
                           ++ ["approval-satisfaction:" +:+ uuid_str (gb_approval_satisfaction_id governance)]));
   ("admitted_at", created_at)].

Definition assessment_payload (commitment : CommitmentRecord) (governance : GovernanceBasis) (id ref : string) : pydict :=
  let created_at := VStr (isoformat (cm_created_at commitment)) in
  [("id", VStr id); ("object_type", VStr "ResponsibilityAssessment"); ("created_at", created_at);
   ("responsibility_ref", VStr ref); ("responsibility_version", VInt 1);
   ("subject_ref", VStr (cm_committer_principal_id commitment));
   ("assessment_kind", VStr "administrative-commitment-ready");
   ("basis_refs", strings (commitment_basis_refs commitment governance)); ("assessed_at", created_at);
   ("rationale", VStr "Administrative policy, identity, approval and due time are qualified.")].

Definition proposal_payload (c : AdministrativeCase) (commitment : CommitmentRecord) (id ref assessment_ref : string)
  : pydict :=
  [("id", VStr id); ("object_type", VStr "WorkProposal"); ("created_at", VStr (isoformat (cm_created_at commitment)));
   ("responsibility_ref", VStr ref); ("responsibility_version", VInt 1); ("assessment_ref", VStr assessment_ref);
   ("subject_ref", VStr (cm_committer_principal_id commitment)); ("work_kind", VStr "administrative-commitment");
   ("title", VStr "Maintain admitted administrative responsibility");
   ("description", VStr "Proposal prefix only; M9 does not admit Kernel Work for a meeting commitment.");
   ("requested_resources",
    VDict [("compute_units", VInt 0); ("api_calls", VInt 0); ("money_minor", VInt 0); ("human_attention_units", VInt 0);
           ("concurrency_slots", VInt 0); ("domain_quota", VDict [])]);
   ("requested_capabilities", VList []);
   ("expected_result", VStr "explicit responsibility discharge after fulfillment assessment");
   ("stop_conditions", strings ["administrative-authority-epoch-changed:" +:+ uuid_str (c_case_id c)]);
   ("escalation_conditions", strings ["responsibility-discharge-basis-insufficient"]);
   ("effect_class", VStr "read-only")].

(** [KernelCommitmentResponsibilityProvisioner.provision] *)
Definition kernel_provision (c : AdministrativeCase) (commitment : CommitmentRecord) (governance : GovernanceBasis)
  : M ResponsibilityRefs :=
  match c_policy_ref c with
  | None => intake_error "Kernel responsibility requires a current policy"
  | Some policy =>
      do! contract := on_plane kernel_contract in
      let root := m9_id ("kernel-responsibility:" +:+ uuid_str (cm_commitment_id commitment)) in
      let sub prefix name := prefix +:+ uuid_hex (m9_id (name +:+ ":" +:+ uuid_str root)) in
      let ref := "m9resp_" +:+ uuid_hex root in
      let assessment_ref := sub "m9assessment_" "assessment" in
      do! receipt := catch
        (on_plane (fun p => kernel_submit p
           (responsibility_payload c policy commitment governance ref contract)
           (admission_payload commitment governance (sub "m9admission_" "admission") ref)
           (assessment_payload commitment governance assessment_ref ref)
           (proposal_payload c commitment (sub "m9proposal_" "proposal") ref assessment_ref)))
        KernelSubmissionError (intake_error "Kernel responsibility proposal was not recorded") in
      ret (mkResponsibilityRefs (rf_responsibility_ref receipt) 1 (rf_admission_ref receipt)
             (rf_assessment_ref receipt) (rf_proposal_ref receipt))
  end.

(** The provisioner the constructor chooses. *)
Definition provision (c : AdministrativeCase) (commitment : CommitmentRecord) (governance : GovernanceBasis)
  : M CommitmentRecord :=
  if bool_decide (cs_kernel_bridge_mode settings <> "disabled") then
    do! refs := kernel_provision c commitment governance in
    ret (with_responsibility commitment refs)
  else ret commitment.

(** ** Admission *)

Definition admission_facts (candidate_id : uuid) (candidate : CandidateCommitment) (resolution : SpeakerPrincipalResolution)
    (due_at : instant) (due_time_basis : string) : pydict :=
  [("candidate_ref", VStr (uuid_str candidate_id));
   ("committer_principal_id", VStr (sp_resolved_principal_id resolution));
   ("committer_external_subject", VStr (sp_external_subject resolution));
   ("commitment_action", VStr (cc_candidate_action candidate)); ("due_at", VStr (isoformat due_at));
   ("due_time_basis", VStr due_time_basis); ("source_artifact_ref", VStr (uuid_str (cc_source_artifact_ref candidate)));
   ("evidence_span_refs", strings (uuid_str <$> cc_evidence_span_refs candidate))].

(** The case of a candidate: created now, or the one an earlier attempt left. *)
Definition open_commitment_case (candidate_id : uuid) (candidate : CandidateCommitment)
    (resolution : SpeakerPrincipalResolution) (due_at : instant) (due_time_basis : string) : M AdministrativeCase :=
  let case_id := m9_id ("case:" +:+ uuid_str candidate_id) in
  do! received_at := now in
  let request := mkAdministrativeRequest (m9_id ("request:" +:+ uuid_str candidate_id))
    (sp_resolved_principal_id resolution) "meeting-intake" "meeting-commitment" received_at
    (Some ("candidate-commitment:" +:+ uuid_str candidate_id)) in
  do! snapshot_id := uuid4 in
  do! observed_at := now in
  let snapshot := mkFactSnapshot snapshot_id "meeting.commitment.v1" "administrative-orchestrator" CLAIM
    (Some ("interpretation:" +:+ uuid_str (cc_interpretation_ref candidate))) None observed_at
    (admission_facts candidate_id candidate resolution due_at due_time_basis) [] None in
  do! random_id := uuid4 in
  do! at_ := now in
  do! created := lift (create_case request "meeting-commitment" ("commitment:" +:+ uuid_str candidate_id)
                         (Some snapshot) random_id at_) in
  let original := with_case_id created case_id in
  do! at_ := now in
  catch
    (also! on_uow (fun w => uow_create_case (k_uow w) request original None at_) then ret original)
    IntegrityError
    (do! replayed := load_case case_id in
     match replayed with
     | None => throw CommitmentConflict "commitment admission conflicted"
     | Some c => ret c
     end).

(** From a received case to one that awaits a decision; any other case is read
    again. *)
Definition evaluate_commitment_case (original : AdministrativeCase) (evaluation : PolicyEvaluation)
  : M AdministrativeCase :=
  if bool_decide (c_status original = RECEIVED) then
    do! at_ := now in
    do! ready := lift (start_policy_evaluation original at_) in
    do! at_ := now in
    do! awaiting := lift (apply_policy_evaluation ready evaluation at_) in
    do! event_id := uuid4 in
    do! at_ := now in
    also! on_uow (fun w => apply_policy_transition (k_uow w) original awaiting evaluation event_id at_) then
    ret awaiting
  else
    do! found := load_case (c_case_id original) in
    ret (default original found).

Definition authorize_commitment_case (candidate_id : uuid) (current : AdministrativeCase) (evaluation : PolicyEvaluation)
    (reviewer_principal_id : string) : M AdministrativeCase :=
  if bool_decide (c_status current = AWAITING_DECISION) then
    decide_commitment current evaluation (m9_id ("decision:" +:+ uuid_str candidate_id)) reviewer_principal_id
      "Human-qualified explicit self commitment" "reviewer does not satisfy the commitment policy"
  else if bool_decide (c_status current = AUTHORIZED) then ret current
  else intake_error ("commitment admission cannot continue from case status " +:+ CaseStatus_value (c_status current)).

Definition new_commitment (candidate_id : uuid) (candidate : CandidateCommitment) (resolution : SpeakerPrincipalResolution)
    (current : AdministrativeCase) (due_at : instant) (due_time_basis : string)
    (fulfillment_kind : CommitmentFulfillmentKind) : CommitmentRecord :=
  mkCommitmentRecord (m9_id ("commitment:" +:+ uuid_str candidate_id)) candidate_id (c_case_id current)
    (c_authority_epoch current) (sp_resolved_principal_id resolution) (sp_external_subject resolution)
    (cc_candidate_action candidate) due_at due_time_basis (cc_candidate_scope_ref candidate) None fulfillment_kind
    CS_ACTIVE 1 None None None None None None None None (c_updated_at current) (c_updated_at current) false.

(** The part of [confirm_candidate] for a candidate without a commitment. *)
Definition admit_candidate (candidate_id : uuid) (candidate : CandidateCommitment)
    (resolution : SpeakerPrincipalResolution) (reviewer_principal_id : string) (due_at : instant)
    (due_time_basis : string) (fulfillment_kind : CommitmentFulfillmentKind) : M (AdministrativeCase * CommitmentRecord) :=
  do! policy := current_policy in
  let evaluation := commitment_policy_evaluation policy in
  do! original := open_commitment_case candidate_id candidate resolution due_at due_time_basis in
  do! current := evaluate_commitment_case original evaluation in
  do! current := authorize_commitment_case candidate_id current evaluation reviewer_principal_id in
  do! found := load_case (m9_id ("case:" +:+ uuid_str candidate_id)) in
  let current := default current found in
  do! governance := reads (fun w =>
    get_current_for_case (u_governance (k_uow w)) (c_case_id current) (c_authority_epoch current)) in
  match governance with
  | None => intake_error "approved commitment has no governance basis"
  | Some governance =>
      do! commitment := lift (CommitmentRecord_validate
        (new_commitment candidate_id candidate resolution current due_at due_time_basis fulfillment_kind)) in
      do! commitment := provision current commitment governance in
      do! commitment := on_commitments (fun db => put_commitment db commitment) in
      also! on_commitments (fun db => update_candidate_status db candidate_id CC_ADMITTED None) then
      also! ensure_communication commitment "confirmation" then
      ret (current, commitment)
  end.

Definition confirm_candidate (candidate_id : uuid) (reviewer_principal_id : string) (qualified_due_at : datetime)
    (due_time_basis : string) (fulfillment_kind : CommitmentFulfillmentKind)
  : M (AdministrativeCase * CommitmentRecord) :=
  also! require_reviewer reviewer_principal_id then
  match qualified_due_at with
  | Naive _ => intake_error "qualified due_at must be offset-aware"
  | Aware wall offset =>
      let due_at := wall - offset in
      let due_time_basis := strip due_time_basis in
      if negb (nonempty due_time_basis) then intake_error "qualified due time requires a basis"
      else
        do! candidate := admissible_candidate candidate_id in
        if bool_decide (cc_classification candidate <> EXPLICIT_SELF_COMMITMENT)
        then intake_error "only explicit self commitments may be admitted"
        else
          do! resolution := reads (fun w => get_resolution (k_commitments w) candidate_id) in
          match resolution with
          | None => intake_error "speaker principal resolution is required"
          | Some resolution =>
              do! existing := reads (fun w => get_commitment_for_candidate (k_commitments w) candidate_id) in
              match existing with
              | Some existing =>
                  do! c := load_case (cm_case_id existing) in
                  match c with
                  | None => throw CommitmentConflict "commitment points to a missing case"
                  | Some c =>
                      if bool_decide (cm_due_at existing <> due_at)
                      then throw CommitmentConflict "candidate already has a different qualified due time"
                      else ret (c, existing)
                  end
              | None =>
                  admit_candidate candidate_id candidate resolution reviewer_principal_id due_at due_time_basis
                    fulfillment_kind
              end
          end
  end.

(** ** Discharge *)

Definition discharge_responsibility (case_id : uuid) : M CommitmentRecord :=
  do! (commitment, c) := load_both case_id in
  if bool_decide (cm_state commitment <> CS_FULFILLED)
  then intake_error "responsibility discharge requires fulfillment"
  else
    match cm_responsibility_ref commitment, cm_responsibility_version commitment with
    | Some ref, Some version =>
        if negb (nonempty ref) then intake_error "Kernel responsibility has not been provisioned"
        else
          do! status := on_plane (fun p => kernel_status p ref version) in
          if bool_decide (status = "discharged") then ret commitment
          else
            let root := uuid_str (cm_commitment_id commitment) +:+ ":" +:+ int_str (cm_version commitment) in
            let sub prefix name := prefix +:+ uuid_hex (m9_id (root +:+ ":" +:+ name)) in
            let assessment_ref := sub "m9discharge_assessment_" "assessment" in
            let decision_ref := sub "m9discharge_decision_" "decision" in
            let transition_ref := sub "m9transition_" "transition" in
            let basis_refs := ["commitment:" +:+ uuid_str (cm_commitment_id commitment);
                               "fulfillment-attestation:" +:+ uuid_str case_id] in
            do! at_ := now in
            let responsibility := [("responsibility_ref", VStr ref); ("responsibility_version", VInt version)] in
            also! on_plane (fun p => kernel_record_assessment p
              ([("assessment_ref", VStr assessment_ref)] ++ responsibility
               ++ [("subject_ref", VStr (cm_committer_principal_id commitment));
                   ("assessment_kind", VStr "commitment-fulfilled"); ("basis_refs", strings basis_refs);
                   ("assessed_at", VStr (isoformat at_)); ("fresh_until", VNone);
                   ("rationale", VStr "Fulfillment was assessed from the durable authorized attestation.");
                   ("created_at", VStr (isoformat at_))])) then
            let policy_ref := match c_policy_ref c with
                              | Some p => pr_policy_id p +:+ ":" +:+ pr_version p
                              | None => "meeting-commitment:m9-v1"
                              end in
            also! on_plane (fun p => kernel_record_discharge_decision p
              ([("decision_ref", VStr decision_ref)] ++ responsibility
               ++ [("assessment_ref", VStr assessment_ref); ("basis_refs", strings (basis_refs ++ [assessment_ref]));
                   ("policy_ref", VStr policy_ref); ("decided_at", VStr (isoformat at_));
                   ("rationale", VStr "Explicit discharge decision after fulfillment assessment.");
                   ("created_at", VStr (isoformat at_))])) then
            also! on_plane (fun p => kernel_apply_lifecycle_transition p
              ([("transition_ref", VStr transition_ref)] ++ responsibility
               ++ [("decision_ref", VStr decision_ref);
                   ("basis_refs", strings (basis_refs ++ [assessment_ref; decision_ref]));
                   ("applied_at", VStr (isoformat at_));
                   ("reason", VStr "Commitment fulfilled and responsibility explicitly discharged.");
                   ("created_at", VStr (isoformat at_))])) then
            save_commitment (with_discharge commitment assessment_ref decision_ref transition_ref at_)
    | _, _ => intake_error "Kernel responsibility has not been provisioned"
    end.
End service.
