(* ===== verification/CommitmentMachine.v ===== *)
(** * Meeting commitments: the abstract machine

    What the service promises of its tables, as a transition system over the
    commitment tables and the messages handed to the outside world.  The invariants
    of commitments and messages are theorems about its histories;
    [CommitmentRefinement] shows that every operation of the service is a path of
    the machine. *)

From stdpp Require Import base gmap strings list relations.
From Stdlib Require Import ZArith Lia.
From S2P Require Import Prelude Python CPython Store Domain Commitment.

Open Scope Z_scope.

Record MState := mkMState { ms_db : CommitmentDb; ms_sent : list uuid }.

Definition with_db (s : MState) (db : CommitmentDb) : MState := mkMState db (ms_sent s).

(** ** How a commitment may evolve *)

(** What a commitment keeps for ever: its identity and what was promised by whom. *)
Record same_promise (c c' : CommitmentRecord) : Prop := {
  sp_id : cm_commitment_id c' = cm_commitment_id c;
  sp_candidate : cm_candidate_ref c' = cm_candidate_ref c;
  sp_case : cm_case_id c' = cm_case_id c;
  sp_committer : cm_committer_principal_id c' = cm_committer_principal_id c;
  sp_subject : cm_committer_external_subject c' = cm_committer_external_subject c;
  sp_action : cm_commitment_action c' = cm_commitment_action c;
}.

Definition closed (s : CommitmentState) : bool := bool_decide (s ∈ [CS_FULFILLED; CS_CANCELLED]).

(** The committer attested the fulfilment of this version. *)
Definition attested (db : CommitmentDb) (c : CommitmentRecord) : Prop :=
  exists k a, m_attestations db !! k = Some a /\ at_case_id a = cm_case_id c /\
    at_commitment_version a = cm_version c /\ at_principal_id a = cm_committer_principal_id c.

Inductive evolution (db : CommitmentDb) (c c' : CommitmentRecord) : Prop :=
  | ev_due (Hs : cm_state c = CS_ACTIVE) (Hs' : cm_state c' = CS_OVERDUE) (Hw : cm_was_overdue c' = true)
      (He : cm_authority_epoch c' = cm_authority_epoch c) (Hd : cm_due_at c' = cm_due_at c)
  | ev_fulfil (Hs : cm_state c <> CS_FULFILLED) (Hs' : cm_state c' = CS_FULFILLED) (Ha : attested db c)
      (He : cm_authority_epoch c' = cm_authority_epoch c) (Hd : cm_due_at c' = cm_due_at c)
  | ev_cancel (Hs : closed (cm_state c) = false) (Hs' : cm_state c' = CS_CANCELLED)
      (He : cm_authority_epoch c' = cm_authority_epoch c + 1) (Hd : cm_due_at c' = cm_due_at c)
  | ev_revise (Hs : closed (cm_state c) = false) (Hs' : cm_state c' = CS_ACTIVE)
      (He : cm_authority_epoch c' = cm_authority_epoch c + 2)
  | ev_discharge (Hs : cm_state c = CS_FULFILLED) (Hs' : cm_state c' = CS_FULFILLED)
      (He : cm_authority_epoch c' = cm_authority_epoch c) (Hd : cm_due_at c' = cm_due_at c).

(** ** The steps *)

(** A communication keeps what it is about. *)
Record same_message (c c' : CommunicationEffectRecord) : Prop := {
  sm_id : ce_communication_event_id c' = ce_communication_event_id c;
  sm_case : ce_case_id c' = ce_case_id c;
  sm_epoch : ce_authority_epoch c' = ce_authority_epoch c;
  sm_draft : ce_draft_id c' = ce_draft_id c;
  sm_effect : ce_effect_id c' = ce_effect_id c;
}.

Definition commitment_in (db : CommitmentDb) (c : CommitmentRecord) : Prop :=
  m_commitments db !! cm_commitment_id c = Some c.

Definition put_row_communication (db : CommitmentDb) (c : CommunicationEffectRecord) : CommitmentDb :=
  set_communications db (<[ce_communication_event_id c := c]> (m_communications db)).

Inductive cstep (s : MState) : MState -> Prop :=
  | step_candidate c :
      CandidateCommitment_validate c = Ok c -> cc_status c = CC_ACTIVE ->
      m_candidates (ms_db s) !! cc_candidate_commitment_id c = None ->
      cstep s (with_db s (set_candidates (ms_db s) (<[cc_candidate_commitment_id c := c]> (m_candidates (ms_db s)))))
  | step_resolution r candidate :
      SpeakerPrincipalResolution_validate r = Ok r ->
      m_candidates (ms_db s) !! sp_candidate_ref r = Some candidate ->
      sp_source_speaker_identity r = cc_candidate_committer_identity candidate ->
      m_resolutions (ms_db s) !! sp_resolution_id r = None ->
      resolution_of (ms_db s) (sp_candidate_ref r) = None ->
      cstep s (with_db s (set_resolutions (ms_db s) (<[sp_resolution_id r := r]> (m_resolutions (ms_db s)))))
  | step_admit c candidate r :
      CommitmentRecord_validate c = Ok c ->
      m_candidates (ms_db s) !! cm_candidate_ref c = Some candidate ->
      cc_classification candidate = EXPLICIT_SELF_COMMITMENT ->
      cm_commitment_action c = cc_candidate_action candidate ->
      resolution_of (ms_db s) (cm_candidate_ref c) = Some r ->
      cm_committer_principal_id c = sp_resolved_principal_id r ->
      cm_committer_external_subject c = sp_external_subject r ->
      cm_state c = CS_ACTIVE -> cm_version c = 1 ->
      m_commitments (ms_db s) !! cm_commitment_id c = None ->
      commitment_for (ms_db s) (cm_candidate_ref c) = None ->
      commitment_of_case (ms_db s) (cm_case_id c) = None ->
      cstep s (with_db s (set_commitments (ms_db s) (<[cm_commitment_id c := c]> (m_commitments (ms_db s)))))
  | step_admitted id candidate c :
      m_candidates (ms_db s) !! id = Some candidate -> commitment_in (ms_db s) c -> cm_candidate_ref c = id ->
      CandidateCommitment_validate (with_candidate_status candidate CC_ADMITTED None)
        = Ok (with_candidate_status candidate CC_ADMITTED None) ->
      cstep s (with_db s (set_candidates (ms_db s)
                            (<[id := with_candidate_status candidate CC_ADMITTED None]> (m_candidates (ms_db s)))))
  | step_commitment c c' :
      commitment_in (ms_db s) c -> same_promise c c' -> cm_version c' = cm_version c + 1 ->
      (cm_was_overdue c = true -> cm_was_overdue c' = true) ->
      evolution (ms_db s) c c' -> CommitmentRecord_validate c' = Ok c' ->
      cstep s (with_db s (set_commitments (ms_db s) (<[cm_commitment_id c' := c']> (m_commitments (ms_db s)))))
  | step_attest a c :
      CommitmentFulfillmentAttestation_validate a = Ok a -> commitment_in (ms_db s) c ->
      at_case_id a = cm_case_id c -> at_commitment_version a = cm_version c ->
      at_principal_id a = cm_committer_principal_id c ->
      m_attestations (ms_db s) !! at_attestation_id a = None ->
      cstep s (with_db s (set_attestations (ms_db s) (<[at_attestation_id a := a]> (m_attestations (ms_db s)))))
  | step_draft d :
      CommunicationDraftRecord_validate d = Ok d -> m_drafts (ms_db s) !! dr_draft_id d = None ->
      cstep s (with_db s (set_drafts (ms_db s) (<[dr_draft_id d := d]> (m_drafts (ms_db s)))))
  | step_prepare m c :
      CommunicationEffectRecord_validate m = Ok m -> ce_delivery_state m = PREPARED ->
      commitment_in (ms_db s) c -> cm_case_id c = ce_case_id m -> cm_authority_epoch c = ce_authority_epoch m ->
      closed (cm_state c) = false ->
      m_communications (ms_db s) !! ce_communication_event_id m = None ->
      communication_of_effect (ms_db s) (ce_effect_id m) = None ->
      cstep s (with_db s (put_row_communication (ms_db s) m))
  | step_close m m' :
      CommunicationEffectRecord_validate m' = Ok m' ->
      m_communications (ms_db s) !! ce_communication_event_id m = Some m -> same_message m m' ->
      ce_delivery_state m = PREPARED \/ ce_delivery_state m = RETRYING -> ce_delivery_state m' <> PREPARED ->
      cstep s (with_db s (put_row_communication (ms_db s) m'))
  | step_send m m' c :
      CommunicationEffectRecord_validate m' = Ok m' ->
      m_communications (ms_db s) !! ce_communication_event_id m = Some m -> same_message m m' ->
      ce_delivery_state m = PREPARED -> ce_delivery_state m' <> PREPARED ->
      commitment_in (ms_db s) c -> cm_case_id c = ce_case_id m -> cm_authority_epoch c = ce_authority_epoch m ->
      cstep s (mkMState (put_row_communication (ms_db s) m') (ms_sent s ++ [ce_communication_event_id m])).

(** An operation that raises may have handed over a message it did not settle. *)
Inductive bstep (s : MState) : MState -> Prop :=
  | bstep_step s' : cstep s s' -> bstep s s'
  | bstep_lost m c :
      m_communications (ms_db s) !! ce_communication_event_id m = Some m -> ce_delivery_state m = PREPARED ->
      commitment_in (ms_db s) c -> cm_case_id c = ce_case_id m -> cm_authority_epoch c = ce_authority_epoch m ->
      bstep s (mkMState (ms_db s) (ms_sent s ++ [ce_communication_event_id m])).

(** ** Well-formed tables *)

Record tables_wf (db : CommitmentDb) : Prop := {
  tw_candidates : map_Forall (fun k c => cc_candidate_commitment_id c = k /\ CandidateCommitment_validate c = Ok c)
                    (m_candidates db);
  tw_resolutions : map_Forall (fun k r => sp_resolution_id r = k /\ SpeakerPrincipalResolution_validate r = Ok r)
                     (m_resolutions db);
  tw_commitments : map_Forall (fun k c => cm_commitment_id c = k /\ CommitmentRecord_validate c = Ok c)
                     (m_commitments db);
  tw_attestations : map_Forall (fun k a => at_attestation_id a = k /\ CommitmentFulfillmentAttestation_validate a = Ok a)
                      (m_attestations db);
  tw_drafts : map_Forall (fun k d => dr_draft_id d = k /\ CommunicationDraftRecord_validate d = Ok d) (m_drafts db);
  tw_communications :
    map_Forall (fun k m => ce_communication_event_id m = k /\ CommunicationEffectRecord_validate m = Ok m)
      (m_communications db);
  tw_one_case : forall c1 c2, commitment_in db c1 -> commitment_in db c2 -> cm_case_id c1 = cm_case_id c2 -> c1 = c2;
  tw_one_candidate : forall c1 c2, commitment_in db c1 -> commitment_in db c2 ->
    cm_candidate_ref c1 = cm_candidate_ref c2 -> c1 = c2;
}.

Lemma empty_tables_wf : tables_wf empty_commitment_db.
Proof. split; try apply map_Forall_empty; intros c1 c2 Hc; unfold commitment_in in Hc; cbn in Hc;
  by rewrite lookup_empty in Hc. Qed.

(** [.first()] finds nothing exactly when no row satisfies the test, and finds a
    row of the table that does. *)
Lemma first_row_None {K V} `{Countable K} (P : V -> bool) (t : gmap K V) :
  first_row P t = None <-> forall k v, t !! k = Some v -> P v = false.
Proof.
  unfold first_row. rewrite <- select_where_nil. destruct (select_where P t); [naive_solver|]. split; discriminate.
Qed.

Lemma first_row_Some {K V} `{Countable K} (P : V -> bool) (t : gmap K V) v :
  first_row P t = Some v -> (exists k, t !! k = Some v) /\ P v = true.
Proof.
  unfold first_row. intros Hv. apply elem_of_select_where. destruct (select_where P t) as [|x l] eqn:E; [done|].
  injection Hv as ->. left.
Qed.

Section wf.
Context (db : CommitmentDb) (Hwf : tables_wf db).

Lemma stored_commitment k c : m_commitments db !! k = Some c -> commitment_in db c.
Proof. intros Hc. destruct (tw_commitments _ Hwf _ _ Hc) as [<- _]. exact Hc. Qed.

Lemma commitment_of_case_Some case_id c :
  commitment_of_case db case_id = Some c <-> commitment_in db c /\ cm_case_id c = case_id.
Proof.
  unfold commitment_of_case. split.
  - intros [[k Hk] Hc%bool_decide_eq_true]%first_row_Some. split; [by eapply stored_commitment|done].
  - intros [Hc Hid]. destruct (first_row _ _) as [c'|] eqn:E.
    + apply first_row_Some in E as [[k Hk] Hc'%bool_decide_eq_true]. f_equal. symmetry.
      apply (tw_one_case _ Hwf); [done|by eapply stored_commitment|congruence].
    + rewrite first_row_None in E. specialize (E _ _ Hc). rewrite bool_decide_eq_false in E. done.
Qed.

Lemma commitment_for_Some candidate_id c :
  commitment_for db candidate_id = Some c <-> commitment_in db c /\ cm_candidate_ref c = candidate_id.
Proof.
  unfold commitment_for. split.
  - intros [[k Hk] Hc%bool_decide_eq_true]%first_row_Some. split; [by eapply stored_commitment|done].
  - intros [Hc Hid]. destruct (first_row _ _) as [c'|] eqn:E.
    + apply first_row_Some in E as [[k Hk] Hc'%bool_decide_eq_true]. f_equal. symmetry.
      apply (tw_one_candidate _ Hwf); [done|by eapply stored_commitment|congruence].
    + rewrite first_row_None in E. specialize (E _ _ Hc). rewrite bool_decide_eq_false in E. done.
Qed.
End wf.

Lemma validated_id {A} (v : A -> result A) (a a' : A) :
  (forall x y, v x = Ok y -> y = x) -> v a = Ok a' -> v a' = Ok a'.
Proof. intros Hv Ha. by rewrite (Hv _ _ Ha) in Ha |- *. Qed.

(** ** The steps keep the tables well formed *)

Lemma commitment_in_insert db c c' :
  commitment_in (set_commitments db (<[cm_commitment_id c := c]> (m_commitments db))) c' <->
  c' = c \/ (commitment_in db c' /\ cm_commitment_id c' <> cm_commitment_id c).
Proof.
  unfold commitment_in. cbn. destruct (decide (cm_commitment_id c' = cm_commitment_id c)) as [E|E].
  - rewrite E, lookup_insert_eq. naive_solver.
  - rewrite lookup_insert_ne by done. naive_solver.
Qed.

(** The rows another table's insert leaves alone. *)
Ltac keep_tables Hwf :=
  destruct Hwf as [Hw1 Hw2 Hw3 Hw4 Hw5 Hw6 Hw7 Hw8]; split; cbn; try assumption;
  try (by apply map_Forall_insert_2).

Lemma cstep_wf s s' : tables_wf (ms_db s) -> cstep s s' -> tables_wf (ms_db s').
Proof.
  intros Hwf Hstep. destruct Hstep; cbn.
  - keep_tables Hwf.
  - keep_tables Hwf.
  - assert (Hnew : forall c', commitment_in (ms_db s) c' -> cm_case_id c' <> cm_case_id c /\ cm_candidate_ref c' <> cm_candidate_ref c).
    { intros c' Hc'. split; intros E.
      - pose proof (proj2 (commitment_of_case_Some _ Hwf _ _) (conj Hc' E)). congruence.
      - pose proof (proj2 (commitment_for_Some _ Hwf _ _) (conj Hc' E)). congruence. }
    keep_tables Hwf; intros c1 c2 [->|[K1 _]]%commitment_in_insert [->|[K2 _]]%commitment_in_insert E; try done.
    + by destruct (proj1 (Hnew _ K2)).
    + by destruct (proj1 (Hnew _ K1)).
    + by apply Hw7.
    + by destruct (proj2 (Hnew _ K2)).
    + by destruct (proj2 (Hnew _ K1)).
    + by apply Hw8.
  - destruct (tw_candidates _ Hwf _ _ H) as [Hid _]. keep_tables Hwf.
  - destruct H0 as [Hid Hcand Hcase _ _ _].
    assert (Hother : forall c2, commitment_in (ms_db s) c2 -> cm_commitment_id c2 <> cm_commitment_id c' ->
              cm_case_id c2 <> cm_case_id c' /\ cm_candidate_ref c2 <> cm_candidate_ref c').
    { intros c2 Hc2 Hne. split; intros E; destruct Hne; rewrite Hid; f_equal.
      - apply (tw_one_case _ Hwf); congruence.
      - apply (tw_one_candidate _ Hwf); congruence. }
    keep_tables Hwf; intros c1 c2 [->|[K1 K2]]%commitment_in_insert [->|[K3 K4]]%commitment_in_insert E; try done.
    + by destruct (proj1 (Hother _ K3 K4)).
    + by destruct (proj1 (Hother _ K1 K2)).
    + by apply Hw7.
    + by destruct (proj2 (Hother _ K3 K4)).
    + by destruct (proj2 (Hother _ K1 K2)).
    + by apply Hw8.
  - keep_tables Hwf.
  - keep_tables Hwf.
  - keep_tables Hwf.
  - keep_tables Hwf.
  - keep_tables Hwf.
Qed.

Lemma bstep_wf s s' : tables_wf (ms_db s) -> bstep s s' -> tables_wf (ms_db s').
Proof. intros Hwf [s1 Hs|]; [by eapply cstep_wf|done]. Qed.

Lemma csteps_bsteps s s' : rtc cstep s s' -> rtc bstep s s'.
Proof. intros Hs. eapply rtc_subrel; [|exact Hs]. intros ? ?. apply bstep_step. Qed.

Lemma bsteps_wf s s' : tables_wf (ms_db s) -> rtc bstep s s' -> tables_wf (ms_db s').
Proof. intros Hwf Hs. induction Hs as [|s1 s2 s3 Hs _ IH]; [done|]. apply IH. by eapply bstep_wf. Qed.

(** ** Genuine commitments *)

(** A commitment goes back to what a speaker said and a reviewer resolved; a
    fulfilled one to its committer's attestation of an earlier version. *)
Record genuine (db : CommitmentDb) (c : CommitmentRecord) : Prop := {
  gn_candidate : exists candidate, m_candidates db !! cm_candidate_ref c = Some candidate /\
    cc_classification candidate = EXPLICIT_SELF_COMMITMENT /\ cc_candidate_action candidate = cm_commitment_action c;
  gn_speaker : exists k r, m_resolutions db !! k = Some r /\ sp_candidate_ref r = cm_candidate_ref c /\
    sp_resolved_principal_id r = cm_committer_principal_id c /\
    sp_external_subject r = cm_committer_external_subject c;
  gn_attested : cm_state c = CS_FULFILLED -> exists k a, m_attestations db !! k = Some a /\
    at_case_id a = cm_case_id c /\ at_principal_id a = cm_committer_principal_id c /\
    at_commitment_version a < cm_version c;
}.

Definition all_genuine (db : CommitmentDb) : Prop := forall c, commitment_in db c -> genuine db c.

(** What a step never takes away: the content of candidates, the resolutions and
    the attestations. *)
Record retains (db db' : CommitmentDb) : Prop := {
  rt_candidates : forall k c, m_candidates db !! k = Some c ->
    exists c', m_candidates db' !! k = Some c' /\ cc_classification c' = cc_classification c /\
      cc_candidate_action c' = cc_candidate_action c;
  rt_resolutions : m_resolutions db ⊆ m_resolutions db';
  rt_attestations : m_attestations db ⊆ m_attestations db';
}.

Lemma cstep_retains s s' : cstep s s' -> retains (ms_db s) (ms_db s').
Proof.
  intros Hs. split.
  - destruct Hs; cbn; eauto.
    + intros k c0 Hk. exists c0. split; [|done]. rewrite lookup_insert_ne; [done|]. intros E. rewrite <- E in Hk. congruence.
    + intros k c0 Hk. destruct (decide (k = id)) as [->|]; [|rewrite lookup_insert_ne by done; eauto].
      rewrite lookup_insert_eq. eexists. split; [done|]. simplify_eq. done.
  - destruct Hs; cbn; try done. by apply insert_subseteq.
  - destruct Hs; cbn; try done. by apply insert_subseteq.
Qed.

Lemma genuine_retained db db' c : retains db db' -> genuine db c -> genuine db' c.
Proof.
  intros [Hc Hr Ha] [(cand & Hk & Hx & Hy) (k & r & Hk' & Hs) Hf]. split.
  - destruct (Hc _ _ Hk) as (cand' & ? & ? & ?). exists cand'. split_and!; congruence.
  - exists k, r. split; [by eapply lookup_weaken|done].
  - intros Hst. destruct (Hf Hst) as (k2 & a & Hka & Hrest). exists k2, a. split; [by eapply lookup_weaken|done].
Qed.

Lemma evolved_genuine db c c' :
  genuine db c -> same_promise c c' -> cm_version c' = cm_version c + 1 -> evolution db c c' -> genuine db c'.
Proof.
  intros [Hcand Hsp Hat] [Hid Hcr Hca Hco Hsu Hac] Hv Hev. split; [by rewrite Hcr, Hac|by rewrite Hcr, Hco, Hsu|].
  intros Hst. rewrite Hca, Hco, Hv. destruct Hev; try congruence.
  - destruct Ha as (k & a & Hk & H1 & H2 & H3). exists k, a. split_and!; try done. lia.
  - destruct (Hat Hs) as (k & a & Hk & H1 & H2 & H3). exists k, a. split_and!; try done. lia.
Qed.

Lemma cstep_genuine s s' : cstep s s' -> all_genuine (ms_db s) -> all_genuine (ms_db s').
Proof.
  intros Hs Hall c0 Hc0. pose proof (cstep_retains _ _ Hs) as Hret.
  assert (Hold : commitment_in (ms_db s) c0 -> genuine (ms_db s') c0) by (intros; eapply genuine_retained; eauto).
  destruct Hs; cbn in *; try (by apply Hold).
  - apply commitment_in_insert in Hc0 as [->|[Hc0 _]]; [|by apply Hold].
    match goal with Hr : resolution_of _ _ = Some _ |- _ => apply first_row_Some in Hr as [[k Hk] Hb%bool_decide_eq_true] end.
    split; [by exists candidate|by exists k, r|congruence].
  - apply commitment_in_insert in Hc0 as [->|[Hc0 _]]; [|by apply Hold].
    eapply genuine_retained; [exact Hret|]. eapply evolved_genuine; eauto.
Qed.

Lemma bstep_genuine s s' : bstep s s' -> all_genuine (ms_db s) -> all_genuine (ms_db s').
Proof. intros [s1 Hs|]; [by apply cstep_genuine|done]. Qed.

Lemma bsteps_genuine s s' : rtc bstep s s' -> all_genuine (ms_db s) -> all_genuine (ms_db s').
Proof. induction 1 as [|? ? ? Hs _ IH]; [done|]. intros Ha. by eapply IH, bstep_genuine. Qed.

(** ** A fulfilled commitment stays fulfilled *)

(** Two states of one commitment, the second later. *)
Record later (c c' : CommitmentRecord) : Prop := {
  lt_promise : same_promise c c';
  lt_version : cm_version c <= cm_version c';
  lt_epoch : cm_authority_epoch c <= cm_authority_epoch c';
  lt_overdue : cm_was_overdue c = true -> cm_was_overdue c' = true;
  lt_fulfilled : cm_state c = CS_FULFILLED -> cm_state c' = CS_FULFILLED;
  lt_closed : closed (cm_state c) = true ->
    closed (cm_state c') = true /\ cm_authority_epoch c' = cm_authority_epoch c;
}.

Lemma later_refl c : later c c.
Proof. by split; [split| | | | |]. Qed.

Lemma later_trans c1 c2 c3 : later c1 c2 -> later c2 c3 -> later c1 c3.
Proof.
  intros [[] ? ? ? ? Hc1] [[] ? ? ? ? Hc2]. split; [split; congruence|lia|lia|auto..].
  intros Hc. destruct (Hc1 Hc) as [Hc' E1]. destruct (Hc2 Hc') as [? E2]. split; [done|congruence].
Qed.

Lemma evolution_later db c c' :
  same_promise c c' -> cm_version c' = cm_version c + 1 -> (cm_was_overdue c = true -> cm_was_overdue c' = true) ->
  evolution db c c' -> later c c'.
Proof.
  intros Hp Hv Hw Hev. split; [done|lia| |done| |].
  - destruct Hev; lia.
  - destruct Hev; try congruence; intros Hf; rewrite Hf in Hs; discriminate Hs.
  - destruct Hev; rewrite Hs'; try done; intros Hc; [rewrite Hs in Hc; discriminate Hc|congruence..].
Qed.

Lemma cstep_later s s' c :
  cstep s s' -> commitment_in (ms_db s) c -> exists c', commitment_in (ms_db s') c' /\ later c c'.
Proof.
  intros Hs Hc. pose proof (later_refl c) as Hr. destruct Hs as [| |c0|? ? c0|c0 c1 Hc0 Hp Hv Hw Hev Hval| | | | |]; cbn; eauto.
  - exists c. split; [|done]. apply commitment_in_insert. right. split; [done|]. intros E.
    unfold commitment_in in Hc. congruence.
  - destruct (decide (cm_commitment_id c = cm_commitment_id c1)) as [E|E].
    + exists c1. split; [apply commitment_in_insert; by left|].
      assert (c = c0) as ->; [|by eapply evolution_later].
      destruct Hp as [Hid _ _ _ _ _]. unfold commitment_in in *. rewrite E, Hid in Hc. congruence.
    + exists c. split; [|done]. apply commitment_in_insert. by right.
Qed.

Lemma bsteps_later s s' c :
  rtc bstep s s' -> commitment_in (ms_db s) c -> exists c', commitment_in (ms_db s') c' /\ later c c'.
Proof.
  intros Hs. revert c. induction Hs as [s|s1 s2 s3 Hs _ IH]; intros c Hc; [exists c; by split; [|apply later_refl]|].
  assert (exists c2, commitment_in (ms_db s2) c2 /\ later c c2) as (c2 & Hc2 & Hl).
  { destruct Hs as [s' Hs|]; [by eapply cstep_later|]. exists c. by split; [|apply later_refl]. }
  destruct (IH _ Hc2) as (c3 & Hc3 & Hl3). exists c3. split; [done|]. by eapply later_trans.
Qed.

(** ** Messages *)

Definition settled (s : MState) (id : uuid) : Prop :=
  exists m, m_communications (ms_db s) !! id = Some m /\ ce_delivery_state m <> PREPARED.

Definition sent_inv (s : MState) : Prop := NoDup (ms_sent s) /\ forall id, id ∈ ms_sent s -> settled s id.

Lemma settled_insert s m id sent :
  ce_delivery_state m <> PREPARED -> settled s id -> settled (mkMState (put_row_communication (ms_db s) m) sent) id.
Proof.
  intros Hm (m0 & Hm0 & Hs). unfold settled. cbn. destruct (decide (id = ce_communication_event_id m)) as [->|].
  - exists m. by rewrite lookup_insert_eq.
  - exists m0. by rewrite lookup_insert_ne.
Qed.

Lemma cstep_sent s s' : cstep s s' -> sent_inv s -> sent_inv s'.
Proof.
  intros Hs [Hnd Hset].
  destruct Hs as [| | | | | | |m c Hv Hp Hc _ _ _ Hnew _|m m' Hv Hm Hsame Hst Hst'|m m' c Hv Hm Hsame Hst Hst' _ _ _];
    try (split; [exact Hnd|]; intros i Hid; destruct (Hset i Hid) as (m0 & ? & ?); by exists m0).
  - split; [exact Hnd|]. intros id Hid. destruct (Hset id Hid) as (m0 & Hm0 & ?). exists m0. split; [|done]. cbn.
    rewrite lookup_insert_ne; [done|]. intros E. rewrite E in Hnew. congruence.
  - split; [exact Hnd|]. intros id Hid. apply settled_insert; [done|by apply Hset].
  - split; cbn.
    + apply NoDup_app. split_and!; [done| |apply NoDup_singleton].
      intros id Hid ->%list_elem_of_singleton. destruct (Hset _ Hid) as (m0 & Hm0 & Hne). congruence.
    + intros id [Hid|Hid%list_elem_of_singleton]%elem_of_app.
      * apply settled_insert; [done|by apply Hset].
      * subst id. exists m'. split; [|done]. cbn. rewrite <- (sm_id _ _ Hsame). apply lookup_insert_eq.
Qed.

Lemma csteps_sent s s' : rtc cstep s s' -> sent_inv s -> sent_inv s'.
Proof. induction 1 as [|? ? ? Hs _ IH]; [done|]. intros Hi. by eapply IH, cstep_sent. Qed.

(** ** Silence *)

(** The case is over for its messages: its commitment is closed and what still
    waits to be sent belongs to an earlier epoch. *)
Definition silent (case_id : uuid) (s : MState) : Prop :=
  exists c, commitment_in (ms_db s) c /\ cm_case_id c = case_id /\ closed (cm_state c) = true /\
    forall k m, m_communications (ms_db s) !! k = Some m -> ce_case_id m = case_id ->
      ce_delivery_state m = PREPARED -> ce_authority_epoch m <> cm_authority_epoch c.

(** A message that belongs to another case. *)
Definition of_another_case (case_id : uuid) (s : MState) (id : uuid) : Prop :=
  exists m, m_communications (ms_db s) !! id = Some m /\ ce_case_id m <> case_id.

Lemma silent_row case_id db epoch m k m0 :
  (forall k m, m_communications db !! k = Some m -> ce_case_id m = case_id -> ce_delivery_state m = PREPARED ->
     ce_authority_epoch m <> epoch) ->
  (ce_case_id m = case_id -> ce_delivery_state m = PREPARED -> ce_authority_epoch m <> epoch) ->
  m_communications (put_row_communication db m) !! k = Some m0 -> ce_case_id m0 = case_id ->
  ce_delivery_state m0 = PREPARED -> ce_authority_epoch m0 <> epoch.
Proof.
  intros Hold Hm Hk. cbn in Hk. destruct (decide (k = ce_communication_event_id m)) as [->|Hne].
  - rewrite lookup_insert_eq in Hk. injection Hk as <-. done.
  - rewrite lookup_insert_ne in Hk by done. by apply (Hold k).
Qed.

Lemma silent_step case_id s s' : tables_wf (ms_db s) -> bstep s s' -> silent case_id s -> silent case_id s'.
Proof.
  intros Hwf Hs (c0 & Hc0 & Hid0 & Hcl0 & Hset).
  destruct (bsteps_later _ _ c0 (rtc_once _ _ Hs) Hc0) as (c1 & Hc1 & Hl). destruct (lt_closed _ _ Hl Hcl0) as [Hcl1 He1].
  exists c1. split_and!; [done|by rewrite (sp_case _ _ (lt_promise _ _ Hl))|done|]. rewrite He1. clear Hc1 Hl Hcl1 He1 c1.
  destruct Hs as [s' Hs|]; [|done].
  destruct Hs as [| | | | | | |m c Hv Hp Hc Hcase _ Hcl Hnew _|m m' Hv Hm Hsame Hst Hst'|m m' c Hv Hm Hsame Hst Hst' _ _ _];
    cbn [ms_db with_db]; try done; intros k mm; (apply silent_row; [exact Hset|]); try done.
  intros E. assert (c = c0) as -> by (apply (tw_one_case _ Hwf); congruence). congruence.
Qed.

Lemma cstep_another_case case_id s s' id : cstep s s' -> of_another_case case_id s id -> of_another_case case_id s' id.
Proof.
  intros Hs (m0 & Hm0 & Hne). unfold of_another_case.
  assert (Hput : forall m m', m_communications (ms_db s) !! ce_communication_event_id m = Some m -> same_message m m' ->
    exists m1, m_communications (put_row_communication (ms_db s) m') !! id = Some m1 /\ ce_case_id m1 <> case_id).
  { intros m m' Hm [Hid Hcase _ _ _]. cbn. destruct (decide (id = ce_communication_event_id m')) as [->|].
    - exists m'. rewrite lookup_insert_eq. split; [done|]. rewrite Hid in Hm0. congruence.
    - exists m0. by rewrite lookup_insert_ne. }
  destruct Hs as [| | | | | | |m c Hv Hp Hc _ _ _ Hnew _|m m' Hv Hm Hsame _ _|m m' c Hv Hm Hsame _ _ _ _ _];
    cbn [ms_db with_db]; try (by exists m0); try (by eapply Hput).
  exists m0. split; [|done]. cbn. rewrite lookup_insert_ne; [done|]. intros E. rewrite E in Hnew. congruence.
Qed.

Lemma bstep_another_case case_id s s' id : bstep s s' -> of_another_case case_id s id -> of_another_case case_id s' id.
Proof. intros [s1 Hs|]; [by eapply cstep_another_case|]. done. Qed.

Lemma bsteps_another_case case_id s s' id :
  rtc bstep s s' -> of_another_case case_id s id -> of_another_case case_id s' id.
Proof. induction 1 as [|? ? ? Hs _ IH]; [done|]. intros Ho. by eapply IH, bstep_another_case. Qed.

Lemma bstep_sends case_id s s' : tables_wf (ms_db s) -> bstep s s' -> silent case_id s ->
  exists new, ms_sent s' = ms_sent s ++ new /\ forall id, id ∈ new -> of_another_case case_id s id.
Proof.
  intros Hwf Hs (c0 & Hc0 & Hid0 & Hcl0 & Hset).
  assert (Hsame : ms_sent s' = ms_sent s -> exists new, ms_sent s' = ms_sent s ++ new /\ forall id, id ∈ new -> of_another_case case_id s id).
  { intros ->. exists []. split; [by rewrite app_nil_r|]. by intros id ?%not_elem_of_nil. }
  assert (Hone : forall m c, m_communications (ms_db s) !! ce_communication_event_id m = Some m -> ce_delivery_state m = PREPARED ->
            commitment_in (ms_db s) c -> cm_case_id c = ce_case_id m -> cm_authority_epoch c = ce_authority_epoch m ->
            forall id, id ∈ [ce_communication_event_id m] -> of_another_case case_id s id).
  { intros m c Hm Hp Hc Hcase Hep id ->%list_elem_of_singleton. exists m. split; [done|]. intros E.
    assert (c = c0) as -> by (apply (tw_one_case _ Hwf); congruence). by apply (Hset _ _ Hm). }
  destruct Hs as [s' Hs|]; [destruct Hs; try (by apply Hsame)|]; eexists; (split; [reflexivity|]); eauto.
Qed.

Lemma silent_history case_id s s' : tables_wf (ms_db s) -> rtc bstep s s' -> silent case_id s ->
  exists new, ms_sent s' = ms_sent s ++ new /\ forall id, id ∈ new -> of_another_case case_id s' id.
Proof.
  intros Hwf Hs. revert Hwf. induction Hs as [s|s1 s2 s3 Hs Hss IH]; intros Hwf Hsi.
  - exists []. split; [by rewrite app_nil_r|]. by intros id ?%not_elem_of_nil.
  - destruct (bstep_sends _ _ _ Hwf Hs Hsi) as (n1 & Hn1 & Ho1).
    destruct IH as (n2 & Hn2 & Ho2); [by eapply bstep_wf|by eapply silent_step|].
    exists (n1 ++ n2). split; [by rewrite Hn2, Hn1, app_assoc|].
    intros id [Hid|Hid]%elem_of_app; [|by apply Ho2]. eapply bsteps_another_case; [exact Hss|].
    eapply bstep_another_case; [exact Hs|]. by apply Ho1.
Qed.

(** ** Messages never outrun their commitment *)

(** A message belongs to a commitment and to an epoch it has reached; to an
    earlier one when the commitment was cancelled. *)
Definition mail_bound (db : CommitmentDb) : Prop :=
  forall k m, m_communications db !! k = Some m -> exists c, commitment_in db c /\ cm_case_id c = ce_case_id m /\
    ce_authority_epoch m <= cm_authority_epoch c /\
    (cm_state c = CS_CANCELLED -> ce_authority_epoch m < cm_authority_epoch c).

Lemma evolution_bound db c c' e :
  evolution db c c' -> e <= cm_authority_epoch c -> (cm_state c = CS_CANCELLED -> e < cm_authority_epoch c) ->
  e <= cm_authority_epoch c' /\ (cm_state c' = CS_CANCELLED -> e < cm_authority_epoch c').
Proof. intros Hev Hle Hlt. destruct Hev; (split; [lia|]); intros Hc; try congruence; lia. Qed.

Lemma cstep_mail_bound s s' : cstep s s' -> mail_bound (ms_db s) -> mail_bound (ms_db s').
Proof.
  intros Hs Hb k m Hm.
  assert (Hold : forall m0, m_communications (ms_db s) !! k = Some m0 -> ce_case_id m = ce_case_id m0 ->
    ce_authority_epoch m = ce_authority_epoch m0 -> exists c, commitment_in (ms_db s') c /\ cm_case_id c = ce_case_id m /\
      ce_authority_epoch m <= cm_authority_epoch c /\ (cm_state c = CS_CANCELLED -> ce_authority_epoch m < cm_authority_epoch c)).
  { intros m0 Hm0 -> ->. destruct (Hb k m0 Hm0) as (c0 & Hc0 & Hcase & Hle & Hlt).
    destruct Hs as [| |c| |c1 c2 Hc1 Hp Hv Hw Hev Hval| | | | |]; cbn; try (by exists c0).
    - exists c0. split; [|done]. apply commitment_in_insert. right. split; [done|]. intros E. unfold commitment_in in Hc0. congruence.
    - destruct (decide (cm_commitment_id c0 = cm_commitment_id c2)) as [E|E].
      + assert (c0 = c1) as -> by (destruct Hp as [Hid _ _ _ _ _]; unfold commitment_in in *; congruence).
        destruct (evolution_bound _ _ _ _ Hev Hle Hlt). exists c2. split_and!; [apply commitment_in_insert; by left| |done|done].
        by rewrite (sp_case _ _ Hp).
      + exists c0. split; [|done]. apply commitment_in_insert. by right. }
  assert (Hput : forall m1 m2, m_communications (ms_db s) !! ce_communication_event_id m1 = Some m1 -> same_message m1 m2 ->
     m_communications (put_row_communication (ms_db s) m2) !! k = Some m -> exists m0, m_communications (ms_db s) !! k = Some m0 /\
     ce_case_id m = ce_case_id m0 /\ ce_authority_epoch m = ce_authority_epoch m0).
  { intros m1 m2 Hm1 [Hid Hca Hep _ _] Hk. cbn in Hk. destruct (decide (k = ce_communication_event_id m2)) as [->|].
    - rewrite lookup_insert_eq in Hk. injection Hk as <-. exists m1. by rewrite Hid.
    - rewrite lookup_insert_ne in Hk by done. by exists m. }
  destruct Hs as [| | | | | | |m1 c Hv Hp Hc Hcase Hep Hcl Hnew _|m1 m2 Hv Hm1 Hsame Hst Hst'|m1 m2 c Hv Hm1 Hsame Hst Hst' _ _ _];
    try (by apply (Hold m)).
  - cbn in Hm. destruct (decide (k = ce_communication_event_id m1)) as [->|]; [|rewrite lookup_insert_ne in Hm by done; by apply (Hold m)].
    rewrite lookup_insert_eq in Hm. injection Hm as <-. exists c. split_and!; [done|done|lia|]. intros E. by rewrite E in Hcl.
  - destruct (Hput m1 m2 Hm1 Hsame Hm) as (m0 & ? & ? & ?). by apply (Hold m0).
  - destruct (Hput m1 m2 Hm1 Hsame Hm) as (m0 & ? & ? & ?). by apply (Hold m0).
Qed.

Lemma bsteps_mail_bound s s' : rtc bstep s s' -> mail_bound (ms_db s) -> mail_bound (ms_db s').
Proof.
  induction 1 as [|s1 s2 s3 Hs _ IH]; [done|]. intros Hb. apply IH. destruct Hs as [s' Hs|]; [by eapply cstep_mail_bound|done].
Qed.

Lemma cancelled_silent s c :
  tables_wf (ms_db s) -> mail_bound (ms_db s) -> commitment_in (ms_db s) c -> cm_state c = CS_CANCELLED ->
  silent (cm_case_id c) s.
Proof.
  intros Hwf Hb Hc Hst. exists c. rewrite Hst. split_and!; try done. intros k m Hm Hcase _ E.
  destruct (Hb k m Hm) as (c' & Hc' & Hcase' & _ & Hlt). assert (c' = c) as -> by (apply (tw_one_case _ Hwf); congruence).
  specialize (Hlt Hst). lia.
Qed.
