(* ===== verification/CommitmentRefinement.v ===== *)
(** * Meeting commitments: the service refines the machine

    Every operation of [CommitmentService], whatever the clock, the gateway, the
    Kernel and the other tables hold, moves the commitment tables and the sent
    messages along a path of [CommitmentMachine]: along [cstep]s when it returns,
    along [bstep]s when it raises. *)

From stdpp Require Import base gmap strings list relations.
From Stdlib Require Import ZArith Lia.
From S2P Require Import Prelude Python CPython Uuid Store Domain Policy Authority Artifacts Commitment Access Lifecycle.
From S2P Require Import Obligations Verification PolicyPlane Financial Persistence Transactions Governance Machine.
From S2P Require Import Outbox UnitOfWork Execution CommitmentService CommitmentMachine.

Open Scope Z_scope.

Definition st {P} (w : CWorld P) : MState := mkMState (k_commitments w) (k_sent w).

(** ** Quiet computations *)

(** They leave the commitment tables and the sent messages alone. *)
Definition quiet {P} : Motion (CWorld P).
Proof.
  refine {| moves w w' := st w' = st w; breaks _ w w' := st w' = st w |}; abstract congruence.
Defined.

Section quiet.
Context `{Hplat : Platform} {P : Type} `{Hprov : EffectProvider P} `{Hgate : CommunicationGateway P}
  `{Hkern : ResponsibilityKernel P} (clock : nat -> instant) (fresh : nat -> uuid).

Local Abbreviation Q := (Respects (quiet (P := P))).

#[export] Instance quiet_now : Q (now clock). Proof. by intros w r w' [= <- <-]. Qed.
#[export] Instance quiet_uuid4 : Q (uuid4 fresh). Proof. by intros w r w' [= <- <-]. Qed.

Lemma quiet_transact {A} (f : CWorld P -> result (A * CWorld P)) :
  (forall w a w', f w = Ok (a, w') -> st w' = st w) -> Q (transact f).
Proof. intros Hf. by apply respects_transact. Qed.

#[export] Instance quiet_on_uow f : Q (on_uow f).
Proof. apply quiet_transact. intros w a w' Hf. inv_ok. by simplify_eq. Qed.
#[export] Instance quiet_on_records {A} f : Q (on_records (A := A) f).
Proof. apply quiet_transact. intros w a w' Hf. inv_ok. destruct v as [a' x]. by simplify_eq. Qed.
#[export] Instance quiet_on_records_linked {A} f : Q (on_records_linked (A := A) f).
Proof. apply quiet_transact. intros w a w' Hf. inv_ok. destruct v as [a' x]. by simplify_eq. Qed.
#[export] Instance quiet_on_obligation_db {A} f : Q (on_obligation_db (A := A) f).
Proof. apply quiet_transact. intros w a w' Hf. inv_ok. destruct v as [a' x]. by simplify_eq. Qed.
#[export] Instance quiet_on_plane {A} f : Q (on_plane (A := A) f).
Proof. intros w r w'. unfold on_plane. destruct (f (k_plane w)) as [r0 p]. intros [= <- <-]. by destruct r0. Qed.
#[export] Instance quiet_load_case id : Q (load_case id). Proof. apply respects_reads. Qed.
#[export] Instance quiet_load_commitment id : Q (load_commitment id). Proof. apply respects_reads. Qed.
#[export] Instance quiet_intake_error {A} msg : Q (intake_error (A := A) msg). Proof. apply respects_throw. Qed.
#[export] Instance quiet_load_both id : Q (load_both id). Proof. unfold load_both. respect. Qed.

#[export] Instance quiet_catch {A} (m : M (CWorld P) A) c h : Q m -> Q h -> Q (catch m c h).
Proof. intros Hm Hh. apply respects_catch; try done. Qed.

#[export] Instance quiet_require_reviewer p : Q (require_reviewer clock p).
Proof. unfold require_reviewer. respect. Qed.
#[export] Instance quiet_admissible id : Q (admissible_candidate id).
Proof. unfold admissible_candidate. respect. Qed.
#[export] Instance quiet_current_policy : Q (current_policy clock).
Proof.
  unfold current_policy. respect. apply quiet_transact. intros w x w' Hf. inv_ok. destruct v as [v1 v2]. by simplify_eq.
Qed.
#[export] Instance quiet_require_approval c p e d msg : Q (require_approval clock c p e d msg).
Proof. unfold require_approval. respect. Qed.
#[export] Instance quiet_decide c e id p r msg : Q (decide_commitment clock fresh c e id p r msg).
Proof. unfold decide_commitment. respect. Qed.
#[export] Instance quiet_authorization cm c a : Q (communication_authorization clock fresh cm c a).
Proof. unfold communication_authorization. respect. Qed.
#[export] Instance quiet_choose cm c g d k : Q (choose_obligation cm c g d k).
Proof. unfold choose_obligation. respect. Qed.
#[export] Instance quiet_at_or_now t : Q (at_or_now clock t).
Proof. unfold at_or_now. respect. Qed.
#[export] Instance quiet_reevaluate c s : Q (reevaluate_facts clock fresh c s).
Proof. unfold reevaluate_facts. respect. Qed.
#[export] Instance quiet_kernel_provision c cm g : Q (kernel_provision c cm g).
Proof. unfold kernel_provision. respect. Qed.
#[export] Instance quiet_provision settings c cm g : Q (provision settings c cm g).
Proof. unfold provision. respect. Qed.
#[export] Instance quiet_open id cc r d b : Q (open_commitment_case clock fresh id cc r d b).
Proof. unfold open_commitment_case. respect. apply quiet_catch; respect. Qed.
#[export] Instance quiet_evaluate c e : Q (evaluate_commitment_case clock fresh c e).
Proof. unfold evaluate_commitment_case. respect. Qed.
#[export] Instance quiet_authorize id c e p : Q (authorize_commitment_case clock fresh id c e p).
Proof. unfold authorize_commitment_case. respect. Qed.
End quiet.

(** ** Paths *)

(** From [w] the computation follows the machine, and a result satisfies [Q]. *)
Definition path {P A} (m : M (CWorld P) A) (w : CWorld P) (Q : A -> CWorld P -> Prop) : Prop :=
  forall r w', m w = (r, w') ->
    match r with
    | Ok a => rtc cstep (st w) (st w') /\ Q a w'
    | Err _ => rtc bstep (st w) (st w')
    end.

(** The tables of a world. *)
Abbreviation db_of w := (k_commitments w).

Section paths.
Context {P : Type}.
Implicit Types (w : CWorld P).

Lemma path_mono {A} (m : M (CWorld P) A) w (Q Q' : A -> CWorld P -> Prop) :
  path m w Q -> (forall a w', rtc cstep (st w) (st w') -> Q a w' -> Q' a w') -> path m w Q'.
Proof. intros Hm HQ r w' Hr. specialize (Hm r w' Hr). destruct r; [|done]. destruct Hm. eauto. Qed.

Lemma path_ret {A} (a : A) w (Q : A -> CWorld P -> Prop) : Q a w -> path (ret a) w Q.
Proof. intros HQ r w' [= <- <-]. split; [apply rtc_refl|done]. Qed.

Lemma path_throw {A} c msg w (Q : A -> CWorld P -> Prop) : path (throw c msg) w Q.
Proof. intros r w' [= <- <-]. apply rtc_refl. Qed.

Lemma path_bind {A B} (m : M (CWorld P) A) (k : A -> M (CWorld P) B) w Q Q' :
  path m w Q' -> (forall a w1, Q' a w1 -> path (k a) w1 Q) -> path (bind m k) w Q.
Proof.
  intros Hm Hk r w'. unfold bind. destruct (m w) as [[a|e] w1] eqn:E; specialize (Hm _ _ E); intros Hr.
  - destruct Hm as [Hp Ha]. specialize (Hk a w1 Ha r w' Hr). destruct r.
    + destruct Hk. split; [by etrans|done].
    + etrans; [by apply csteps_bsteps|done].
  - by injection Hr as <- <-.
Qed.

Lemma path_quiet {A} (m : M (CWorld P) A) w :
  Respects quiet m -> path m w (fun a w1 => m w = (Ok a, w1) /\ st w1 = st w).
Proof.
  intros Hm r w' Hr. pose proof (Hm _ _ _ Hr) as Hq. destruct r; cbn in Hq; rewrite Hq; [|apply rtc_refl]. by split; [apply rtc_refl|].
Qed.

(** Sequencing after a quiet computation. *)
Lemma path_skip {A B} (m : M (CWorld P) A) (k : A -> M (CWorld P) B) w Q :
  Respects quiet m -> (forall a w1, m w = (Ok a, w1) -> st w1 = st w -> path (k a) w1 Q) -> path (bind m k) w Q.
Proof. intros Hm Hk. eapply path_bind; [by apply path_quiet|]. intros a w1 [? ?]. by apply Hk. Qed.

(** A write of the commitment tables. *)
Lemma path_write {A} (f : CommitmentDb -> result (A * CommitmentDb)) w (Q : A -> CWorld P -> Prop) :
  (forall a db', f (db_of w) = Ok (a, db') ->
     rtc cstep (st w) (mkMState db' (k_sent w)) /\ Q a (put_commitments w db')) ->
  path (on_commitments f) w Q.
Proof.
  intros Hf r w'. unfold on_commitments, transact.
  destruct (f (db_of w)) as [[a db']|e]; cbn; intros [= <- <-]; [|apply rtc_refl]. by apply Hf.
Qed.

(** A write inside a [try] whose handler resumes from the same world. *)
Lemma path_catch_write {A} (f : CommitmentDb -> result (A * CommitmentDb)) c (h : M (CWorld P) A) w Q :
  path (on_commitments f) w Q -> path h w Q -> path (catch (on_commitments f) c h) w Q.
Proof.
  intros Hm Hh r w'. unfold catch. destruct (on_commitments f w) as [[a|e] w1] eqn:E.
  - intros [= <- <-]. exact (Hm _ _ E).
  - assert (w1 = w) as ->.
    { unfold on_commitments, transact in E. destruct (f (db_of w)) as [[a db']|]; cbn in E; congruence. }
    case_bool_decide; [apply Hh|]. intros [= <- <-]. apply rtc_refl.
Qed.

Lemma path_wf {A} (m : M (CWorld P) A) w Q :
  tables_wf (db_of w) -> path m w Q -> path m w (fun a w' => Q a w' /\ tables_wf (db_of w')).
Proof.
  intros Hwf Hm. eapply path_mono; [exact Hm|]. intros a w' Hp HQ. split; [done|].
  by apply (bsteps_wf (st w) (st w') Hwf), csteps_bsteps.
Qed.

Lemma path_any {A} (m : M (CWorld P) A) w Q : path m w Q -> path m w (fun _ _ => True).
Proof. intros Hm. eapply path_mono; [exact Hm|]. done. Qed.
End paths.

Lemma st_db {P} (w w' : CWorld P) : st w' = st w -> db_of w' = db_of w.
Proof. by intros [=]. Qed.

(** Walks over the quiet steps of an operation; [w1], [w2], ... are the worlds. *)
Ltac skip :=
  match goal with
  | |- path (bind ?m _) _ _ =>
      apply path_skip; [typeclasses eauto|
        let a := fresh "a" in let w := fresh "w" in let R := fresh "R" in let E := fresh "Hst" in
        intros a w R E; cbn beta iota]
  | |- path (throw _ _) _ _ => apply path_throw
  | |- path (intake_error _) _ _ => apply path_throw
  end.

(** Splits on the tests of an operation; the refusing branches raise. *)
Ltac tests :=
  repeat first
    [ progress cbn beta iota zeta
    | apply path_throw
    | match goal with
      | |- path (intake_error _) _ _ => apply path_throw
      | |- path (if ?b then _ else _) _ _ => let E := fresh "T" in destruct b eqn:E
      | |- path (match ?x with _ => _ end) _ _ => let E := fresh "T" in destruct x eqn:E
      end ].

(** ** The repository's writes are steps *)

Ltac validator := unfold invalid, guard, raise; intros Hv; repeat (case_match; try discriminate); inv_ok; congruence.

Lemma candidate_validated c c' : CandidateCommitment_validate c = Ok c' -> c' = c.
Proof. unfold CandidateCommitment_validate. validator. Qed.
Lemma resolution_validated r r' : SpeakerPrincipalResolution_validate r = Ok r' -> r' = r.
Proof. unfold SpeakerPrincipalResolution_validate. validator. Qed.
Lemma commitment_validated c c' : CommitmentRecord_validate c = Ok c' -> c' = c.
Proof. unfold CommitmentRecord_validate. validator. Qed.
Lemma attestation_validated a a' : CommitmentFulfillmentAttestation_validate a = Ok a' -> a' = a.
Proof. unfold CommitmentFulfillmentAttestation_validate. validator. Qed.
Lemma draft_validated d d' : CommunicationDraftRecord_validate d = Ok d' -> d' = d.
Proof. unfold CommunicationDraftRecord_validate. validator. Qed.
Lemma communication_validated m m' : CommunicationEffectRecord_validate m = Ok m' -> m' = m.
Proof. unfold CommunicationEffectRecord_validate. validator. Qed.

Section writes.
Context (db : CommitmentDb) (sent : list uuid).

Local Abbreviation steps db' := (rtc cstep (mkMState db sent) (mkMState db' sent)).

Lemma put_candidate_steps c c' db' :
  CandidateCommitment_validate c = Ok c -> cc_status c = CC_ACTIVE -> put_candidate db c = Ok (c', db') -> steps db'.
Proof.
  intros Hv Hs. unfold put_candidate. destruct (m_candidates db !! _) as [row|] eqn:Hrow; intros Hp.
  - inv_ok. simplify_eq. apply rtc_refl.
  - simplify_eq. apply rtc_once. by apply (step_candidate (mkMState db sent)).
Qed.

Lemma put_resolution_steps r r' db' candidate :
  SpeakerPrincipalResolution_validate r = Ok r -> m_candidates db !! sp_candidate_ref r = Some candidate ->
  sp_source_speaker_identity r = cc_candidate_committer_identity candidate ->
  put_resolution db r = Ok (r', db') -> steps db'.
Proof.
  intros Hv Hc Hs. unfold put_resolution. destruct (m_resolutions db !! _) as [row|] eqn:Hrow; intros Hp.
  - inv_ok. simplify_eq. apply rtc_refl.
  - destruct (resolution_of db _) as [row|] eqn:Hof; [inv_ok; simplify_eq; apply rtc_refl|].
    simplify_eq. apply rtc_once. by eapply (step_resolution (mkMState db sent)).
Qed.

Lemma put_draft_steps d d' db' :
  CommunicationDraftRecord_validate d = Ok d -> put_draft db d = Ok (d', db') ->
  steps db' /\ m_commitments db' = m_commitments db.
Proof.
  intros Hv. unfold put_draft. destruct (m_drafts db !! _) as [row|] eqn:Hrow; intros Hp.
  - inv_ok. simplify_eq. split; [apply rtc_refl|done].
  - simplify_eq. split; [|done]. apply rtc_once. by apply (step_draft (mkMState db sent)).
Qed.

Lemma put_attestation_steps a a' db' c :
  CommitmentFulfillmentAttestation_validate a = Ok a -> tables_wf db -> commitment_in db c -> at_case_id a = cm_case_id c ->
  at_commitment_version a = cm_version c -> at_principal_id a = cm_committer_principal_id c ->
  put_attestation db a = Ok (a', db') -> steps db' /\ attested db' c /\ m_commitments db' = m_commitments db.
Proof.
  intros Hv Hwf Hc Hcase Hver Hpr. unfold put_attestation.
  assert (Hsame : forall k row, m_attestations db !! k = Some row -> attestation_eqb row a = true -> attested db c).
  { intros k row Hk He. exists k, row. unfold attestation_eqb in He. propify. split_and!; congruence. }
  destruct (m_attestations db !! _) as [row|] eqn:Hrow; intros Hp.
  - inv_ok. apply attestation_validated in E as ->. simplify_eq. propify. split; [apply rtc_refl|]. split; [|done]. by eapply Hsame.
  - destruct (attestation_of db _ _) as [row|] eqn:Hof.
    + apply first_row_Some in Hof as [[k Hk] _]. inv_ok. apply attestation_validated in E as ->. simplify_eq. propify.
      split; [apply rtc_refl|]. split; [|done]. by eapply Hsame.
    + simplify_eq. split; [apply rtc_once; by eapply (step_attest (mkMState db sent))|]. split; [|done].
      exists (at_attestation_id a'), a'. cbn. rewrite lookup_insert_eq. done.
Qed.

Lemma put_communication_steps m m' db' c :
  CommunicationEffectRecord_validate m = Ok m -> ce_delivery_state m = PREPARED -> commitment_in db c ->
  cm_case_id c = ce_case_id m -> cm_authority_epoch c = ce_authority_epoch m -> closed (cm_state c) = false ->
  put_communication db m = Ok (m', db') -> steps db'.
Proof.
  intros Hv Hp Hc Hcase Hep Hcl. unfold put_communication.
  destruct (m_communications db !! _) as [row|] eqn:Hrow; intros Hput.
  - inv_ok. simplify_eq. apply rtc_refl.
  - destruct (communication_of_effect db _) as [row|] eqn:Hof; [inv_ok; simplify_eq; apply rtc_refl|].
    simplify_eq. apply rtc_once. by eapply (step_prepare (mkMState db sent)).
Qed.

(** An update of a commitment the service read, as it evolves it. *)
Lemma update_commitment_steps c c1 c' db' :
  commitment_in db c -> cm_commitment_id c1 = cm_commitment_id c ->
  (let c2 := copy_commitment_values c c1 (cm_version c1 + 1) in
   cm_version c1 = cm_version c -> same_promise c c2 /\ (cm_was_overdue c = true -> cm_was_overdue c2 = true) /\
   evolution db c c2) ->
  update_commitment db c1 = Ok (c', db') ->
  steps db' /\ c' = copy_commitment_values c c1 (cm_version c1 + 1) /\ commitment_in db' c' /\
  m_communications db' = m_communications db /\ m_drafts db' = m_drafts db.
Proof.
  intros Hc Hid Hev. unfold update_commitment. rewrite Hid, Hc. intros Hup. inv_ok. propify. simplify_eq.
  pose proof (commitment_validated _ _ E0) as ->. destruct (Hev ltac:(congruence)) as (Hp & Hw & He).
  assert (Hidc : cm_commitment_id (copy_commitment_values c c1 (cm_version c1 + 1)) = cm_commitment_id c) by done.
  assert (Hin : commitment_in (set_commitments db (<[cm_commitment_id c := copy_commitment_values c c1 (cm_version c1 + 1)]>
                  (m_commitments db))) (copy_commitment_values c c1 (cm_version c1 + 1))).
  { unfold commitment_in. rewrite Hidc. cbn. apply lookup_insert_eq. }
  split_and!; try done. apply rtc_once.
  apply (step_commitment (mkMState db sent) c (copy_commitment_values c c1 (cm_version c1 + 1))); try done. cbn. congruence.
Qed.

Lemma update_candidate_steps id c' db' candidate c :
  m_candidates db !! id = Some candidate -> commitment_in db c -> cm_candidate_ref c = id ->
  update_candidate_status db id CC_ADMITTED None = Ok (c', db') ->
  steps db' /\ m_commitments db' = m_commitments db.
Proof.
  intros Hk Hc Hid. unfold update_candidate_status. rewrite Hk. intros Hup. inv_ok. simplify_eq.
  pose proof (candidate_validated _ _ E) as ->. split; [|done]. apply rtc_once.
  by eapply (step_admitted (mkMState db sent)).
Qed.
End writes.

(** ** The operations *)

Section operations.
Context `{Hplat : Platform} {P : Type} `{Hprov : EffectProvider P} `{Hgate : CommunicationGateway P}
  `{Hkern : ResponsibilityKernel P} (clock : nat -> instant) (fresh : nat -> uuid) (settings : CommitmentSettings)
  (parse_meeting : pydict -> result (list MeetingCommitmentDraft)).
Implicit Types (w : CWorld P).

Local Abbreviation anywhere := (fun _ _ => True).

Lemma create_candidate_path i a sp n d w : path (create_candidate clock i a sp n d) w anywhere.
Proof.
  unfold create_candidate. do 2 skip. apply path_skip; [typeclasses eauto|]. intros c wc Rc _.
  unfold lift in Rc. injection Rc as Rc _. pose proof (candidate_validated _ _ Rc) as ->.
  apply path_write. intros c' db' Hp. split; [|done]. by eapply put_candidate_steps.
Qed.

Lemma create_candidates_path i a sp ds : forall n w, path (create_candidates clock i a sp n ds) w anywhere.
Proof.
  induction ds as [|d ds IH]; intros n w; cbn [create_candidates]; [by apply path_ret|].
  eapply path_bind; [apply create_candidate_path|]. intros c w1 _.
  eapply path_bind; [apply IH|]. intros cs w2 _. by apply path_ret.
Qed.

Lemma create_from_interpretation_path i a sp w :
  path (create_candidates_from_interpretation clock parse_meeting i a sp) w anywhere.
Proof.
  unfold create_candidates_from_interpretation. tests; try (by apply path_ret). skip.
  eapply path_bind; [apply path_quiet; respect|]. intros ref w1 _. apply create_candidates_path.
Qed.

Lemma admissible_found id w candidate w1 :
  admissible_candidate id w = (Ok candidate, w1) -> m_candidates (db_of w) !! id = Some candidate /\ w1 = w.
Proof.
  unfold admissible_candidate, bind, reads, get_candidate.
  destruct (m_candidates (db_of w) !! id) as [row|] eqn:Hrow; [|done]. cbn.
  destruct (CandidateCommitment_validate row) as [c|] eqn:Hv; [|done]. cbn. pose proof (candidate_validated _ _ Hv) as ->.
  case_bool_decide; [done|]. intros [= -> ->]. done.
Qed.

Lemma resolve_speaker_path id reviewer subject basis provider w :
  path (resolve_speaker clock id reviewer subject basis provider) w anywhere.
Proof.
  unfold resolve_speaker. skip. apply admissible_found in R as [Hc ->]. skip. tests. skip. skip. tests. skip.
  apply path_skip; [typeclasses eauto|]. intros r w6 R' Hst'. unfold lift in R'. injection R' as R' _.
  pose proof (resolution_validated _ _ R') as ->. apply path_write. intros r' db' Hp. split; [|done].
  assert (Hdb : db_of w6 = db_of w) by (apply st_db; congruence).
  eapply put_resolution_steps; [exact R'| |reflexivity|exact Hp]. cbn. by rewrite Hdb.
Qed.

(** Preparing a message for an open commitment. *)
Lemma ensure_path commitment kind w :
  commitment_in (db_of w) commitment -> closed (cm_state commitment) = false ->
  path (ensure_communication clock fresh commitment kind) w (fun _ w' => commitment_in (db_of w') commitment).
Proof.
  intros Hc Hcl. unfold ensure_communication. skip. tests.
  eapply (path_bind _ _ _ _ (fun _ w' => commitment_in (db_of w') commitment)).
  { unfold prepare_draft. eapply path_bind.
    { apply path_quiet. apply quiet_transact. intros w1 a1 w1' Hf. inv_ok. destruct v as [x y]. by simplify_eq. }
    intros stored w1 [_ Hst1]. apply path_skip; [typeclasses eauto|]. intros d w2 R2 Hst2. unfold lift in R2.
    injection R2 as R2 _. pose proof (draft_validated _ _ R2) as ->.
    eapply path_bind; [|intros x w3 Hx; apply path_ret; exact Hx].
    apply path_write. intros d' db' Hp. destruct (put_draft_steps _ (k_sent w2) _ _ _ R2 Hp) as [Hs Hm]. split; [done|].
    unfold commitment_in. cbn. rewrite Hm. assert (Hdb : db_of w2 = db_of w) by (apply st_db; congruence). by rewrite Hdb. }
  intros draft w2 Hc2. skip. tests. skip. tests. do 2 skip.
  match goal with |- path (match ?x with _ => _ end) _ _ => destruct x as [[obligation effect_id] event_id] end. do 5 skip.
  apply path_skip; [typeclasses eauto|]. intros m w11 R' Hst'. unfold lift in R'. injection R' as R' _.
  pose proof (communication_validated _ _ R') as ->. apply path_write. intros m' db' Hp.
  assert (Hdb : db_of w11 = db_of w2) by (apply st_db; congruence).
  assert (Hc11 : commitment_in (db_of w11) commitment) by (by rewrite Hdb).
  split; [by eapply put_communication_steps|].
  unfold put_communication in Hp. revert Hp. destruct (m_communications (db_of w11) !! _); intros Hp.
  - inv_ok. by simplify_eq.
  - destruct (communication_of_effect (db_of w11) _); [inv_ok; by simplify_eq|]. by simplify_eq.
Qed.

(** Settling a communication: one update of its row, or nothing when it raises. *)
Definition settles (m : CommunicationEffectRecord) (op : M (CWorld P) CommunicationEffectRecord) : Prop :=
  forall w r w', m_communications (db_of w) !! ce_communication_event_id m = Some m -> op w = (r, w') ->
    match r with
    | Ok m' => CommunicationEffectRecord_validate m' = Ok m' /\ same_message m m' /\ ce_delivery_state m' <> PREPARED /\
               st w' = mkMState (put_row_communication (db_of w) m') (k_sent w)
    | Err _ => st w' = st w
    end.

Lemma settles_save m state ref n code at_ :
  state <> PREPARED -> settles m (save_communication (delivered m state ref n code at_)).
Proof.
  intros Hst w r w' Hm. unfold save_communication, on_commitments, transact, update_communication. cbn [delivered].
  unfold delivered. cbn [ce_communication_event_id]. rewrite Hm.
  destruct (CommunicationEffectRecord_validate _) as [m'|e] eqn:Hv; cbn; intros [= <- <-]; [|done].
  pose proof (communication_validated _ _ Hv) as ->. split_and!; try done.
Qed.

Lemma settles_after_such {A} m (q : M (CWorld P) A) k (R : A -> Prop) :
  Respects quiet q -> (forall w a w1, q w = (Ok a, w1) -> R a) -> (forall a, R a -> settles m (k a)) -> settles m (bind q k).
Proof.
  intros Hq HR Hk w r w' Hm. unfold bind. destruct (q w) as [[a|e] w1] eqn:E; pose proof (Hq _ _ _ E) as Hst; cbn in Hst.
  - intros Hr. assert (Hdb : db_of w1 = db_of w) by (by apply st_db). specialize (Hk a (HR _ _ _ E) w1 r w').
    rewrite Hdb in Hk. specialize (Hk Hm Hr). destruct r; [|congruence]. unfold st in Hst. injection Hst as _ Hsent.
    by rewrite Hsent in Hk.
  - by intros [= <- <-].
Qed.

Lemma settles_after {A} m (q : M (CWorld P) A) k :
  Respects quiet q -> (forall a, settles m (k a)) -> settles m (bind q k).
Proof. intros Hq Hk. by apply (settles_after_such _ _ _ (fun _ => True)). Qed.

Lemma settles_catch m a c h : settles m a -> settles m h -> settles m (catch a c h).
Proof.
  intros Ha Hh w r w' Hm. unfold catch. destruct (a w) as [[x|e] w1] eqn:E; specialize (Ha _ _ _ Hm E).
  - by intros [= <- <-].
  - case_bool_decide; [|by intros [= <- <-]]. intros Hr. assert (Hdb : db_of w1 = db_of w) by (by apply st_db).
    specialize (Hh w1 r w'). rewrite Hdb in Hh. specialize (Hh Hm Hr). unfold st in Ha. injection Ha as _ Hsent.
    destruct r; [by rewrite Hsent in Hh|]. unfold st in *. congruence.
Qed.

Lemma settles_unknown m name : settles m (outcome_unknown clock m name).
Proof. unfold outcome_unknown. apply settles_after; [apply _|]. intros a. by apply settles_save. Qed.

Lemma settles_save_or_unknown m state ref n code at_ :
  state <> PREPARED -> settles m (save_or_unknown clock m (delivered m state ref n code at_)).
Proof. intros Hs. apply settles_catch; [by apply settles_save|apply settles_unknown]. Qed.

Lemma settles_answer m answer : settles m (settle_answer clock m answer).
Proof.
  unfold settle_answer. destruct answer as [name|code body]; [apply settles_unknown|]. destruct (400 <=? code).
  - apply settles_after; [apply _|]. intros at_. apply settles_save_or_unknown. by case_bool_decide.
  - destruct body as [name|[]]; try apply settles_unknown. apply settles_after; [apply _|]. intros at_.
    apply settles_after; [apply _|]. intros ref. apply settles_save_or_unknown. by destruct (truthy _).
Qed.

(** A settlement without a transmission closes the message. *)
Lemma settles_path m op w :
  settles m op -> m_communications (db_of w) !! ce_communication_event_id m = Some m -> ce_delivery_state m = PREPARED ->
  path op w (fun _ w' => m_commitments (db_of w') = m_commitments (db_of w)).
Proof.
  intros Hs Hm Hp r w' Hr. specialize (Hs _ _ _ Hm Hr). destruct r; [|rewrite Hs; apply rtc_refl].
  destruct Hs as (Hv & Hsame & Hne & Hst). rewrite Hst. split.
  - apply rtc_once. apply (step_close (st w) m a); auto.
  - unfold st in Hst. injection Hst as -> _. done.
Qed.

(** Handing the message over and settling it is one step; when the settlement
    raises, the message was lost. *)
Lemma send_path {A} m (send : M (CWorld P) A) k c w :
  m_communications (db_of w) !! ce_communication_event_id m = Some m -> ce_delivery_state m = PREPARED ->
  commitment_in (db_of w) c -> cm_case_id c = ce_case_id m -> cm_authority_epoch c = ce_authority_epoch m ->
  (forall w r w', send w = (r, w') -> st w' = mkMState (db_of w) (k_sent w ++ [ce_communication_event_id m])) ->
  (forall a, settles m (k a)) ->
  path (bind send k) w (fun _ w' => m_commitments (db_of w') = m_commitments (db_of w)).
Proof.
  intros Hm Hp Hc Hcase Hep Hsend Hk r w'. unfold bind.
  destruct (send w) as [[a|e] w1] eqn:E; pose proof (Hsend _ _ _ E) as Hst; unfold st in Hst; injection Hst as Hdb Hsent.
  - intros Hr. specialize (Hk a w1 r w'). rewrite Hdb in Hk. specialize (Hk Hm Hr). destruct r as [m'|e].
    + destruct Hk as (Hv & Hsame & Hne & Hst'). rewrite Hsent in Hst'. rewrite Hst'. split.
      * apply rtc_once. by apply (step_send (st w) m m' c).
      * unfold st in Hst'. by injection Hst' as -> _.
    + unfold st in Hk. rewrite Hdb, Hsent in Hk. unfold st. rewrite Hk. apply rtc_once. by apply (bstep_lost (st w) m c).
  - intros [= <- <-]. unfold st. rewrite Hdb, Hsent. apply rtc_once. by apply (bstep_lost (st w) m c).
Qed.

(** ** Reading *)

Lemma reads_Ok {A} (f : CWorld P -> result A) w a w1 : reads f w = (Ok a, w1) -> f w = Ok a /\ w1 = w.
Proof. by intros [= ? ?]. Qed.

Lemma load_commitment_Ok id w c w1 :
  tables_wf (db_of w) -> load_commitment id w = (Ok (Some c), w1) ->
  commitment_in (db_of w) c /\ cm_case_id c = id /\ w1 = w.
Proof.
  intros Hwf [Hr ->]%reads_Ok. unfold get_commitment, read_commitment in Hr.
  destruct (commitment_of_case (db_of w) id) as [row|] eqn:E; [|done]. inv_ok. simplify_eq.
  pose proof (commitment_validated _ _ E0) as ->. apply commitment_of_case_Some in E as [? ?]; done.
Qed.

Lemma load_both_Ok id w c k w1 :
  tables_wf (db_of w) -> load_both id w = (Ok (c, k), w1) ->
  commitment_in (db_of w) c /\ cm_case_id c = id /\ get_case (k_exec w) id = Ok (Some k) /\ w1 = w.
Proof.
  intros Hwf. unfold load_both. intros (o & w2 & Ho & Hr)%bind_Ok. destruct o as [c0|].
  - destruct (load_commitment_Ok _ _ _ _ Hwf Ho) as (Hin & Hid & ->).
    apply bind_Ok in Hr as ([k0|] & w3 & [Hk ->]%reads_Ok & Hr); [|done]. injection Hr as <- <- <-. done.
  - by apply bind_Ok in Hr as (k0 & w3 & _ & Hr).
Qed.

Lemma dispatch_path id w :
  tables_wf (db_of w) ->
  path (dispatch_communication clock settings id) w (fun _ w' => m_commitments (db_of w') = m_commitments (db_of w)).
Proof.
  intros Hwf. unfold dispatch_communication. skip. apply reads_Ok in R as [R ->]. destruct a as [m|]; [|apply path_throw].
  assert (Hm : m_communications (db_of w) !! ce_communication_event_id m = Some m).
  { unfold get_communication_event, read_communication in R. destruct (m_communications (db_of w) !! id) as [row|] eqn:Hrow; [|done].
    inv_ok. simplify_eq. pose proof (communication_validated _ _ E) as ->. by destruct (tw_communications _ Hwf _ _ Hrow) as [-> _]. }
  destruct (bool_decide (ce_delivery_state m <> PREPARED)) eqn:T; [by apply path_ret|].
  apply bool_decide_eq_false in T. assert (Hp : ce_delivery_state m = PREPARED) by (by apply dec_stable).
  skip. apply reads_Ok in R0 as [_ ->]. skip. apply reads_Ok in R0 as [_ ->]. skip.
  destruct a as [draft|]; [|apply path_throw]. destruct a0 as [k|]; [|apply path_throw].
  destruct a1 as [c|]; [|apply path_throw].
  apply (load_commitment_Ok _ _ _ _ Hwf) in R0 as (Hc & Hcase & ->).
  destruct (bool_decide (ce_authority_epoch m <> cm_authority_epoch c)) eqn:Hep.
  { apply settles_path with (m := m); [|done|done]. apply settles_after; [apply _|]. intros at_. by apply settles_save. }
  apply bool_decide_eq_false, dec_stable in Hep. destruct (bool_decide _).
  - unfold dispatch_via_kernel. skip. injection R0 as _ ->. destruct a as [effect|]; [|apply path_throw].
    apply send_path with (m := m) (c := c); try done.
    + intros w1 r w1'. destruct (provider_execute _ _ _) as [r0 p]. by intros [= <- <-].
    + intros result. apply (settles_after_such _ _ _ (fun x => fst (fst x) <> PREPARED)).
      * destruct (px_status result); [|apply _..]. apply respects_bind; [apply _|]. intros o. destruct (_ && _); apply _.
      * intros w1 x w1'. destruct (px_status result); [|by intros [= <- _]..].
        intros (o & w2 & _ & Hr)%bind_Ok. destruct (_ && _); by injection Hr as <- _.
      * intros [[state code] ref] Hne. apply settles_after; [apply _|]. intros at_. by apply settles_save.
  - unfold dispatch_via_gateway. destruct (_ || _).
    { apply settles_path with (m := m); [|done|done]. apply settles_after; [apply _|]. intros at_. by apply settles_save. }
    skip. apply reads_Ok in R0 as [_ ->]. skip. injection R0 as _ <-.
    apply (send_path m _ _ c (tick w)); try done.
    + intros w1 r w1'. destruct (http_post _ _ _ _ _ _) as [answer p]. by intros [= <- <-].
    + intros answer. apply settles_answer.
Qed.

(** ** Dispatching everything prepared *)

Lemma dispatch_prepared_path items : forall w,
  tables_wf (db_of w) -> path (dispatch_prepared clock settings items) w anywhere.
Proof.
  induction items as [|item items IH]; intros w Hwf; cbn [dispatch_prepared]; [by apply path_ret|].
  destruct (bool_decide _); [|by apply IH].
  eapply path_bind; [apply path_wf; [done|apply dispatch_path; done]|]. intros m w1 [_ Hwf1].
  eapply path_bind; [by apply IH|]. intros ids w2 _. by apply path_ret.
Qed.

(** An update of the commitment an operation read. *)
Lemma save_commitment_path c c1 w :
  commitment_in (db_of w) c -> cm_commitment_id c1 = cm_commitment_id c ->
  (let c2 := copy_commitment_values c c1 (cm_version c1 + 1) in
   same_promise c c2 /\ (cm_was_overdue c = true -> cm_was_overdue c2 = true) /\ evolution (db_of w) c c2) ->
  path (save_commitment c1) w (fun c' w' => c' = copy_commitment_values c c1 (cm_version c1 + 1) /\
    commitment_in (db_of w') c' /\ m_communications (db_of w') = m_communications (db_of w)).
Proof.
  intros Hc Hid Hev. apply path_write. intros c' db' Hp.
  destruct (update_commitment_steps _ (k_sent w) c c1 c' db' Hc Hid (fun _ => Hev) Hp) as (? & ? & ? & ? & ?). done.
Qed.

Lemma drive_path id at_ w : tables_wf (db_of w) -> path (drive clock fresh settings id at_) w anywhere.
Proof.
  intros Hwf. unfold drive. skip. assert (Hdb : db_of w0 = db_of w) by (by apply st_db). rewrite <- Hdb in Hwf.
  skip. destruct a0 as [c k]. apply (load_both_Ok _ _ _ _ _ Hwf) in R0 as (Hc & Hcase & _ & ->). tests.
  eapply (path_bind _ _ _ _ (fun c' w' => (commitment_in (db_of w') c' /\
            (cm_state c' = CS_OVERDUE -> closed (cm_state c') = false)) /\ tables_wf (db_of w'))).
  { apply path_wf; [done|]. unfold advance_due. destruct (_ && _) eqn:Ht.
    - apply andb_true_iff in Ht as [Ha%bool_decide_eq_true _].
      eapply path_mono; [apply (save_commitment_path c); [done|done|]|].
      + split_and!; [by split|done|]. by apply ev_due.
      + intros c' w' _ (-> & Hin & _). split; [done|]. by intros ->.
    - apply path_ret. split; [done|]. by intros ->. }
  intros c' w1 [[Hc' Hov] Hwf1].
  eapply (path_bind _ _ _ _ (fun _ w' => tables_wf (db_of w'))).
  { eapply path_mono; [apply (path_wf _ _ anywhere); [exact Hwf1|]|intros x w' _ Hq; exact (proj2 Hq)].
    unfold ensure_reminder. destruct (bool_decide (cm_state c' = CS_OVERDUE)) eqn:Ho; [|by apply path_ret].
    apply bool_decide_eq_true in Ho. skip. apply reads_Ok in R0 as [_ ->]. destruct a0; [by apply path_ret|].
    eapply path_bind; [eapply path_any, ensure_path; [exact Hc'|by apply Hov]|]. intros m w2 _. by apply path_ret. }
  intros x w2 Hwf2. tests; [by apply path_ret|]. skip. apply reads_Ok in R0 as [_ ->].
  eapply path_bind; [by apply dispatch_prepared_path|]. intros ids w3 _. by apply path_ret.
Qed.

Lemma attest_path id p basis at_ w : tables_wf (db_of w) -> path (attest_fulfillment clock id p basis at_) w anywhere.
Proof.
  intros Hwf. unfold attest_fulfillment. skip. assert (Hdb : db_of w0 = db_of w) by (by apply st_db). rewrite <- Hdb in Hwf.
  skip. destruct a0 as [c k]. apply (load_both_Ok _ _ _ _ _ Hwf) in R0 as (Hc & Hcase & _ & ->). tests.
  apply bool_decide_eq_false, dec_stable in T0 as ->. skip. injection R0 as _ <-. tests; [by apply path_ret|].
  apply bool_decide_eq_false in T2. skip. injection R0 as _ <-. apply path_skip; [apply _|]. intros att w2 Ratt _.
  injection Ratt as Hv <-. pose proof (attestation_validated _ _ Hv) as ->.
  eapply (path_bind _ _ _ _ (fun _ w' => commitment_in (db_of w') c /\ attested (db_of w') c)).
  { apply path_write. intros a' db' Hp. destruct (put_attestation_steps _ (k_sent (tick w0)) _ _ _ _ Hv Hwf Hc eq_refl eq_refl eq_refl Hp)
      as (Hs & Ha & Hm). split; [exact Hs|]. split; [|done]. unfold commitment_in. cbn. by rewrite Hm. }
  intros x w3 [Hc3 Ha3]. eapply path_bind.
  { apply (save_commitment_path c); [done|done|]. split_and!; [by split|cbn; by intros ->|]. by apply ev_fulfil. }
  intros c' w4 _. tests; [by apply path_ret|]. skip. by apply path_ret.
Qed.

(** The messages the closing loop goes over are rows of the table. *)
Definition rows_of (items : list CommunicationEffectRecord) w : Prop :=
  NoDup (ce_communication_event_id <$> items) /\
  forall m, m ∈ items -> m_communications (db_of w) !! ce_communication_event_id m = Some m.

Lemma listed_rows id epoch w items :
  tables_wf (db_of w) -> list_communications (db_of w) id epoch = Ok items -> rows_of items w.
Proof.
  intros Hwf. unfold list_communications. set (rows := sort_by _ _). intros Hl.
  assert (items = rows) as ->.
  { apply traverse_Ok in Hl. induction Hl as [|x y l l' Hx _ IH]; [done|]. by rewrite (communication_validated _ _ Hx), IH. }
  split.
  - subst rows. rewrite sort_by_perm. apply select_where_NoDup. intros k m Hm. by destruct (tw_communications _ Hwf _ _ Hm).
  - intros m Hm. subst rows. rewrite sort_by_perm in Hm. apply elem_of_select_where in Hm as [[k Hk] _].
    by destruct (tw_communications _ Hwf _ _ Hk) as [-> _].
Qed.

Lemma close_path items at_ : forall w, rows_of items w -> path (close_communications items at_) w anywhere.
Proof.
  induction items as [|m items IH]; intros w [Hnd Hrows]; cbn [close_communications]; [by apply path_ret|].
  cbn in Hnd. apply NoDup_cons in Hnd as [Hnew Hnd]. assert (Hrest : rows_of items w).
  { split; [done|]. intros m' Hm'. apply Hrows. by right. }
  destruct (bool_decide (ce_delivery_state m ∈ _)) eqn:T; [|by apply IH].
  apply bool_decide_eq_true in T. eapply path_bind.
  - apply (path_write _ w (fun _ w' => rows_of items w')). intros m' db' Hup. unfold update_communication in Hup.
    cbn [undelivered delivered ce_communication_event_id] in Hup. unfold undelivered, delivered in Hup. cbn [ce_communication_event_id] in Hup.
    rewrite (Hrows m) in Hup by left. inv_ok. simplify_eq. pose proof (communication_validated _ _ E) as ->. split.
    + apply rtc_once. apply (step_close (st w) m (undelivered m PERMANENT_FAILED "COMMITMENT_CANCELLED" at_));
        [exact E|apply Hrows; left|done| |done].
      rewrite !elem_of_cons, elem_of_nil in T. naive_solver.
    + split; [done|]. intros m0 Hm0. cbn. rewrite lookup_insert_ne; [by apply Hrest|]. intros Eid. destruct Hnew.
      apply list_elem_of_fmap. by exists m0.
  - intros x w1 Hr. by apply IH.
Qed.

Lemma cancel_path id reviewer basis w : tables_wf (db_of w) -> path (cancel_commitment clock id reviewer basis) w anywhere.
Proof.
  intros Hwf. unfold cancel_commitment. skip. assert (Hdb : db_of w0 = db_of w) by (by apply st_db). rewrite <- Hdb in Hwf. tests.
  skip. destruct a0 as [c k]. apply (load_both_Ok _ _ _ _ _ Hwf) in R0 as (Hc & Hcase & _ & ->). tests; [by apply path_ret|].
  apply bool_decide_eq_false in T1. apply orb_false_iff in T2 as [T2%bool_decide_eq_false _].
  apply bool_decide_eq_false, dec_stable in T0. skip. injection R0 as _ <-. skip.
  assert (Hdb2 : db_of w1 = db_of w0) by (by apply st_db).
  eapply path_bind; [apply path_wf; [by rewrite Hdb2|]; apply (save_commitment_path c); [by rewrite Hdb2|done|]|].
  - split_and!; [by split|done|]. apply ev_cancel; cbn; [|done|lia|done].
    unfold closed. apply bool_decide_eq_false. rewrite !elem_of_cons, elem_of_nil. naive_solver.
  - intros c' w2 [_ Hwf2]. skip. apply reads_Ok in R1 as [Hl ->].
    eapply path_bind; [apply close_path; by eapply listed_rows|]. intros x w3 _. by apply path_ret.
Qed.

Lemma discharge_path id w : tables_wf (db_of w) -> path (discharge_responsibility clock id) w anywhere.
Proof.
  intros Hwf. unfold discharge_responsibility. skip. destruct a as [c k].
  apply (load_both_Ok _ _ _ _ _ Hwf) in R as (Hc & Hcase & _ & ->). tests. skip. tests; [by apply path_ret|].
  apply bool_decide_eq_false, dec_stable in T. do 4 skip.
  assert (Hdb : db_of w4 = db_of w) by (apply st_db; congruence).
  eapply path_any, (save_commitment_path c); [by rewrite Hdb|done|]. split_and!; [by split|done|]. by apply ev_discharge.
Qed.

(** ** Revision *)

Lemma lift_Ok {A} (r : result A) w a w1 : lift r w = (Ok a, w1) -> r = Ok a /\ w1 = w.
Proof. by intros [= ? ?]. Qed.

Lemma reevaluate_epoch c s w aw ev w1 :
  reevaluate_facts clock fresh c s w = (Ok (aw, ev), w1) -> c_authority_epoch aw = c_authority_epoch c + 2.
Proof.
  unfold reevaluate_facts. intros (t & w2 & _ & Hr)%bind_Ok. apply bind_Ok in Hr as (c1 & w3 & [H1 _]%lift_Ok & Hr).
  apply bind_Ok in Hr as (pol & w4 & _ & Hr). apply bind_Ok in Hr as (t2 & w5 & _ & Hr).
  apply bind_Ok in Hr as (c2 & w6 & [H2 _]%lift_Ok & Hr). apply bind_Ok in Hr as (t3 & w7 & _ & Hr).
  apply bind_Ok in Hr as (c3 & w8 & [H3 _]%lift_Ok & Hr). do 3 apply bind_Ok in Hr as (? & ? & _ & Hr).
  injection Hr as <- _ _. unfold replace_facts_for_reevaluation in H1. unfold start_policy_evaluation in H2.
  unfold apply_policy_evaluation in H3. inv_ok. simplify_eq. cbn in *. simplify_eq. cbn. lia.
Qed.

Lemma decide_epoch aw ev id p r msg w c w1 :
  decide_commitment clock fresh aw ev id p r msg w = (Ok c, w1) -> c_authority_epoch c = c_authority_epoch aw.
Proof.
  unfold decide_commitment. destruct (c_policy_ref aw); [|done]. intros (t & w2 & _ & Hr)%bind_Ok.
  apply bind_Ok in Hr as (sat & w3 & _ & Hr). apply bind_Ok in Hr as (t2 & w4 & _ & Hr).
  apply bind_Ok in Hr as (c1 & w5 & [H1 _]%lift_Ok & Hr). do 3 apply bind_Ok in Hr as (? & ? & _ & Hr).
  injection Hr as <- _. unfold record_decision in H1. inv_ok. cbn in H1. by injection H1 as <-.
Qed.

Lemma revise_path id reviewer due basis w :
  tables_wf (db_of w) -> path (revise_due_at clock fresh id reviewer due basis) w anywhere.
Proof.
  intros Hwf. unfold revise_due_at. skip. assert (Hdb : db_of w0 = db_of w) by (by apply st_db). rewrite <- Hdb in Hwf.
  destruct due as [|wall off]; [apply path_throw|]. tests. skip. skip. apply reads_Ok in R1 as [_ ->].
  destruct a0 as [c|]; [|apply path_throw]. destruct a1 as [k|]; [|apply path_throw].
  apply (load_commitment_Ok _ _ _ _ Hwf) in R0 as (Hc & Hcase & ->). tests.
  apply bool_decide_eq_false, dec_stable in T1. skip. injection R0 as _ <-. skip. destruct a1 as [aw ev]. skip.
  assert (Hdb2 : db_of w2 = db_of w0) by (apply st_db; congruence).
  eapply path_bind; [apply (save_commitment_path c); [by rewrite Hdb2|done|]|].
  - split_and!; [by split|done|]. apply ev_revise; cbn; [done|done|].
    by rewrite (decide_epoch _ _ _ _ _ _ _ _ _ R1), (reevaluate_epoch _ _ _ _ _ _ R0), <- T1.
  - intros c' w3 (-> & Hc' & _). eapply path_bind; [by apply ensure_path|]. intros m w4 _. by apply path_ret.
Qed.

(** ** Admission *)

Lemma put_commitment_path candidate r c w :
  tables_wf (db_of w) -> CommitmentRecord_validate c = Ok c ->
  m_candidates (db_of w) !! cm_candidate_ref c = Some candidate -> cc_classification candidate = EXPLICIT_SELF_COMMITMENT ->
  cm_commitment_action c = cc_candidate_action candidate -> resolution_of (db_of w) (cm_candidate_ref c) = Some r ->
  cm_committer_principal_id c = sp_resolved_principal_id r -> cm_committer_external_subject c = sp_external_subject r ->
  cm_state c = CS_ACTIVE -> cm_version c = 1 ->
  path (on_commitments (fun db => put_commitment db c)) w
    (fun c' w' => c' = c /\ commitment_in (db_of w') c /\ m_candidates (db_of w') = m_candidates (db_of w)).
Proof.
  intros Hwf Hv Hcand Hcl Hact Hres Hp Hs Hst Hver. apply path_write. intros c' db' Hput. unfold put_commitment in Hput.
  destruct (m_commitments (db_of w) !! cm_commitment_id c) as [row|] eqn:Hrow.
  - inv_ok. pose proof (commitment_validated _ _ E) as ->. propify. simplify_eq. split; [apply rtc_refl|done].
  - destruct (commitment_for (db_of w) (cm_candidate_ref c)) as [row|] eqn:Hfor.
    + inv_ok. pose proof (commitment_validated _ _ E) as ->. propify. simplify_eq. split; [apply rtc_refl|].
      split_and!; try done. by apply commitment_for_Some in Hfor as [? _].
    + inv_ok. propify. simplify_eq. split; [apply rtc_once; by eapply (step_admit (st w))|]. split_and!; try done.
      unfold commitment_in. cbn. apply lookup_insert_eq.
Qed.

Lemma provision_fields c cm g w cm' w1 :
  provision settings c cm g w = (Ok cm', w1) -> CommitmentRecord_validate cm = Ok cm ->
  same_promise cm cm' /\ cm_state cm' = cm_state cm /\ cm_version cm' = cm_version cm /\ CommitmentRecord_validate cm' = Ok cm'.
Proof.
  unfold provision. destruct (bool_decide _); [|intros [= -> ->] Hv; split_and!; try done; by split]. intros (refs & w2 & Hr & Hx)%bind_Ok Hv.
  injection Hx as <- _. split_and!; try done. unfold kernel_provision in Hr. destruct (c_policy_ref c); [|done].
  apply bind_Ok in Hr as (k & w3 & _ & Hr). apply bind_Ok in Hr as (rc & w4 & _ & Hr). injection Hr as <- _.
  unfold CommitmentRecord_validate in *. cbn in *. revert Hv. destruct (cm_responsibility_version cm); repeat case_match; try done; intros;
    repeat match goal with H : _ && _ = true |- _ => apply andb_true_iff in H as [H ?] end;
    repeat match goal with H : ?b = true |- _ => rewrite H in * end; try done.
Qed.

Lemma admit_path id candidate r reviewer due basis kind w :
  tables_wf (db_of w) -> m_candidates (db_of w) !! id = Some candidate ->
  cc_classification candidate = EXPLICIT_SELF_COMMITMENT -> resolution_of (db_of w) id = Some r ->
  path (admit_candidate clock fresh settings id candidate r reviewer due basis kind) w anywhere.
Proof.
  intros Hwf Hcand Hcl Hres. unfold admit_candidate. do 6 skip. tests. apply path_skip; [apply _|]. intros cm wv Rv Hv.
  apply lift_Ok in Rv as [Hvalid ->]. pose proof (commitment_validated _ _ Hvalid) as ->. apply path_skip; [apply _|].
  intros cm' wp Rp Hp. destruct (provision_fields _ _ _ _ _ _ Rp Hvalid) as ([Hi1 Hi2 Hi3 Hi4 Hi5 Hi6] & Hst' & Hver & Hval').
  assert (Hdb : db_of wp = db_of w) by (apply st_db; congruence). cbn in Hi2, Hi4, Hi5, Hi6, Hst', Hver.
  eapply path_bind.
  { apply (put_commitment_path candidate r); rewrite ?Hdb; try done; by rewrite ?Hi2. }
  intros c2 wc (-> & Hc2 & Hcs). eapply (path_bind _ _ _ _ (fun _ w' => commitment_in (db_of w') cm')).
  { apply path_write. intros c3 db' Hup. destruct (update_candidate_steps (db_of wc) (k_sent wc) id c3 db' candidate cm') as [Hs Hm]; try done.
    - by rewrite Hcs, Hdb.
    - split; [done|]. unfold commitment_in. cbn. by rewrite Hm. }
  intros x wd Hd. eapply path_bind; [apply ensure_path; [done|by rewrite Hst']|]. intros m we _. by apply path_ret.
Qed.

Lemma confirm_path id reviewer due basis kind w :
  tables_wf (db_of w) -> path (confirm_candidate clock fresh settings id reviewer due basis kind) w anywhere.
Proof.
  intros Hwf. unfold confirm_candidate. skip. assert (Hdb : db_of w0 = db_of w) by (by apply st_db). rewrite <- Hdb in Hwf.
  destruct due as [|wall off]; [apply path_throw|]. tests. skip. apply admissible_found in R0 as [Hcand ->]. tests.
  apply bool_decide_eq_false, dec_stable in T0. skip. apply reads_Ok in R0 as [Hres ->]. destruct a1 as [r|]; [|apply path_throw].
  skip. apply reads_Ok in R0 as [_ ->]. destruct a1 as [c|].
  - skip. apply reads_Ok in R0 as [_ ->]. tests. by apply path_ret.
  - apply admit_path; try done. unfold get_resolution in Hres. destruct (resolution_of (db_of w0) id) as [row|] eqn:E; [|done].
    inv_ok. simplify_eq. by rewrite (resolution_validated _ _ E0).
Qed.
End operations.
