(* ===== verification/CommitmentSafety.v ===== *)
(** * Meeting commitments: what the service guarantees

    Histories of the service: calls that return, calls that raise part way, and
    anything the rest of the system does to the other tables in between.  The
    theorems transport the invariants of [CommitmentMachine] along the refinement
    of [CommitmentRefinement]. *)

From stdpp Require Import base gmap strings list relations.
From Stdlib Require Import ZArith Lia.
From S2P Require Import Prelude Python CPython Uuid Store Domain Policy Authority Artifacts Commitment Access Lifecycle.
From S2P Require Import Obligations Verification PolicyPlane Financial Persistence Transactions Governance Machine.
From S2P Require Import Outbox UnitOfWork Execution CommitmentService CommitmentMachine CommitmentRefinement.

Open Scope Z_scope.

(** The public operations of [MeetingCommitmentService]. *)
Inductive commitment_call :=
  | CreateCandidates (interpretation : Interpretation) (source_artifact_ref : option uuid) (evidence_spans : list uuid)
  | ResolveSpeaker (candidate_id : uuid) (reviewer external_subject : string) (basis : pydict) (provider : string)
  | ConfirmCandidate (candidate_id : uuid) (reviewer : string) (due_at : datetime) (basis : string)
      (kind : CommitmentFulfillmentKind)
  | DispatchCommunication (event_id : uuid)
  | Drive (case_id : uuid) (at_ : option instant)
  | AttestFulfillment (case_id : uuid) (principal_id : string) (basis : pydict) (at_ : option instant)
  | ReviseDueAt (case_id : uuid) (reviewer : string) (due_at : datetime) (basis : string)
  | CancelCommitment (case_id : uuid) (reviewer basis : string)
  | DischargeResponsibility (case_id : uuid).

Section safety.
Context `{Hplat : Platform} {P : Type} `{Hprov : EffectProvider P} `{Hgate : CommunicationGateway P}
  `{Hkern : ResponsibilityKernel P} (clock : nat -> instant) (fresh : nat -> uuid) (settings : CommitmentSettings)
  (parse_meeting : pydict -> result (list MeetingCommitmentDraft)).
Implicit Types (w : CWorld P).

(** A call, its value dropped. *)
Definition serve (call : commitment_call) : M (CWorld P) unit :=
  let drop {A} (m : M (CWorld P) A) := bind m (fun _ => ret tt) in
  match call with
  | CreateCandidates i a sp => drop (create_candidates_from_interpretation clock parse_meeting i a sp)
  | ResolveSpeaker id r s b p => drop (resolve_speaker clock id r s b p)
  | ConfirmCandidate id r d b k => drop (confirm_candidate clock fresh settings id r d b k)
  | DispatchCommunication id => drop (dispatch_communication clock settings id)
  | Drive id t => drop (drive clock fresh settings id t)
  | AttestFulfillment id p b t => drop (attest_fulfillment clock id p b t)
  | ReviseDueAt id r d b => drop (revise_due_at clock fresh id r d b)
  | CancelCommitment id r b => drop (cancel_commitment clock id r b)
  | DischargeResponsibility id => drop (discharge_responsibility clock id)
  end.

Lemma serve_path call w : tables_wf (db_of w) -> path (serve call) w (fun _ _ => True).
Proof.
  intros Hwf.
  assert (Hdrop : forall A (m : M (CWorld P) A), path m w (fun _ _ => True) -> path (bind m (fun _ => ret tt)) w (fun _ _ => True)).
  { intros A m Hm. eapply path_bind; [exact Hm|]. intros. by apply path_ret. }
  destruct call; cbn; apply Hdrop.
  - apply create_from_interpretation_path.
  - apply resolve_speaker_path.
  - by apply confirm_path.
  - eapply path_any, dispatch_path; done.
  - by apply drive_path.
  - by apply attest_path.
  - by apply revise_path.
  - by apply cancel_path.
  - by apply discharge_path.
Qed.


(** ** Histories *)

(** Between the calls the rest of the system may do anything to the other tables,
    to the artifacts, to the gateway and to the clock. *)
Definition outside w w' : Prop := st w' = st w.

Definition calls_returned w w' : Prop := (exists call, serve call w = (Ok tt, w')) \/ outside w w'.
Definition calls_made w w' : Prop := (exists call r, serve call w = (r, w')) \/ outside w w'.

Lemma returned_history w w' : tables_wf (db_of w) -> rtc calls_returned w w' -> rtc cstep (st w) (st w').
Proof.
  intros Hwf Hh. revert Hwf. induction Hh as [w|w w1 w2 Hs _ IH]; intros Hwf; [apply rtc_refl|].
  assert (Hp : rtc cstep (st w) (st w1)).
  { destruct Hs as [[call Hc]|Ho]; [|rewrite Ho; apply rtc_refl]. by destruct (serve_path call w Hwf _ _ Hc). }
  etrans; [exact Hp|]. apply IH. by apply (bsteps_wf (st w) (st w1) Hwf), csteps_bsteps.
Qed.

Lemma made_history w w' : tables_wf (db_of w) -> rtc calls_made w w' -> rtc bstep (st w) (st w').
Proof.
  intros Hwf Hh. revert Hwf. induction Hh as [w|w w1 w2 Hs _ IH]; intros Hwf; [apply rtc_refl|].
  assert (Hp : rtc bstep (st w) (st w1)).
  { destruct Hs as [(call & r & Hc)|Ho]; [|rewrite Ho; apply rtc_refl]. pose proof (serve_path call w Hwf _ _ Hc) as Hp.
    destruct r; [|done]. by apply csteps_bsteps, (proj1 Hp). }
  etrans; [exact Hp|]. apply IH. by apply (bsteps_wf (st w) (st w1) Hwf).
Qed.

(** ** Theorems *)

(** C21: A message is handed over at most once: through any history of calls that
    return, on any commitments and interleaved with anything else, no
    communication event is given twice to the gateway or to the Kernel, and every
    event given is settled, so that no later call will send it. *)
Theorem messages_are_sent_at_most_once w w' :
  tables_wf (db_of w) -> k_sent w = [] -> rtc calls_returned w w' ->
  NoDup (k_sent w') /\ forall id, id ∈ k_sent w' ->
    exists m, m_communications (db_of w') !! id = Some m /\ ce_delivery_state m <> PREPARED.
Proof.
  intros Hwf Hnil Hh. apply (csteps_sent (st w) (st w')); [by apply returned_history|].
  split; cbn; rewrite Hnil; [constructor|]. by intros id ?%not_elem_of_nil.
Qed.

Lemma empty_history w w' :
  db_of w = empty_commitment_db -> rtc calls_made w w' ->
  tables_wf (db_of w') /\ all_genuine (db_of w') /\ mail_bound (db_of w').
Proof.
  intros He Hh. assert (Hwf : tables_wf (db_of w)) by (rewrite He; apply empty_tables_wf).
  pose proof (made_history _ _ Hwf Hh) as Hp. split_and!.
  - by apply (bsteps_wf (st w) (st w')).
  - apply (bsteps_genuine (st w) (st w') Hp). cbn. rewrite He. intros c Hc. unfold commitment_in in Hc. cbn in Hc.
    by rewrite lookup_empty in Hc.
  - apply (bsteps_mail_bound (st w) (st w') Hp). cbn. rewrite He. intros k m Hm. cbn in Hm. by rewrite lookup_empty in Hm.
Qed.

(** C22: Only what a speaker promised is ever a commitment: in every state any history
    of calls reaches, returned or broken off, a commitment belongs to a candidate
    classified as an explicit self-commitment, says what the candidate says, binds
    the principal its speaker was resolved to, and is fulfilled only if that
    principal attested an earlier version of it; it is the only commitment of its
    candidate and of its case. *)
Theorem commitments_are_genuine w w' c :
  db_of w = empty_commitment_db -> rtc calls_made w w' -> commitment_in (db_of w') c ->
  genuine (db_of w') c /\
  forall c2, commitment_in (db_of w') c2 ->
    cm_case_id c2 = cm_case_id c \/ cm_candidate_ref c2 = cm_candidate_ref c -> c2 = c.
Proof.
  intros He Hh Hc. destruct (empty_history _ _ He Hh) as (Hwf & Hg & _). split; [by apply Hg|].
  intros c2 Hc2 [E|E]; [by apply (tw_one_case _ Hwf)|by apply (tw_one_candidate _ Hwf)].
Qed.

(** A commitment only moves forward: through any history it keeps its identity,
    its committer and its action, its version and epoch never decrease, having
    been overdue is never forgotten, and once fulfilled it stays fulfilled. *)
Theorem commitments_move_forward w w' c :
  tables_wf (db_of w) -> rtc calls_made w w' -> commitment_in (db_of w) c ->
  exists c', commitment_in (db_of w') c' /\ later c c'.
Proof. intros Hwf Hh Hc. by apply (bsteps_later (st w) (st w') c); [apply made_history|]. Qed.

(** A cancelled commitment is silent: once it is cancelled, in any state the
    service reaches and even if the cancellation broke off before it closed the
    prepared messages, no later history of calls sends a message of its case. *)
Theorem cancelled_commitments_are_silent w w1 w2 c :
  db_of w = empty_commitment_db -> rtc calls_made w w1 -> commitment_in (db_of w1) c -> cm_state c = CS_CANCELLED ->
  rtc calls_made w1 w2 ->
  exists new, k_sent w2 = k_sent w1 ++ new /\
    forall id, id ∈ new -> exists m, m_communications (db_of w2) !! id = Some m /\ ce_case_id m <> cm_case_id c.
Proof.
  intros He Hh Hc Hst Hh2. destruct (empty_history _ _ He Hh) as (Hwf & _ & Hb).
  apply (silent_history (cm_case_id c) (st w1) (st w2)); [done|by apply made_history|].
  by apply (cancelled_silent (st w1) c).
Qed.

(** C23: What is stored can be read: in every state any history of calls reaches, no
    read of the repository fails: every row passes the validation of its model. *)
Theorem commitment_reads_never_fail w w' :
  db_of w = empty_commitment_db -> rtc calls_made w w' ->
  forall id, is_ok (get_candidate (db_of w') id) = true /\ is_ok (get_resolution (db_of w') id) = true /\
    is_ok (get_commitment (db_of w') id) = true /\ is_ok (get_commitment_for_candidate (db_of w') id) = true /\
    is_ok (get_draft (db_of w') id) = true /\ is_ok (get_communication_event (db_of w') id) = true /\
    (forall v, is_ok (get_attestation (db_of w') id v) = true) /\
    (forall e, is_ok (list_communications (db_of w') id e) = true) /\
    (forall s n, is_ok (list_candidates (db_of w') s n) = true).
Proof.
  intros He Hh id. destruct (empty_history _ _ He Hh) as (Hwf & _ & _).
  assert (Hlist : forall A (v : A -> result A) l, (forall x, x ∈ l -> v x = Ok x) -> is_ok (traverse v l) = true).
  { intros A v l Hl. destruct (traverse_defined v l) as [ys ->]; [|done]. intros x Hx. exists x. by apply Hl. }
  split_and!.
  - unfold get_candidate. destruct (m_candidates (db_of w') !! id) as [x|] eqn:E; [|done].
    by destruct (tw_candidates _ Hwf _ _ E) as [_ ->].
  - unfold get_resolution, resolution_of. destruct (first_row _ _) as [x|] eqn:E; [|done].
    apply first_row_Some in E as [[k Hk] _]. by destruct (tw_resolutions _ Hwf _ _ Hk) as [_ ->].
  - unfold get_commitment, read_commitment, commitment_of_case. destruct (first_row _ _) as [x|] eqn:E; [|done].
    apply first_row_Some in E as [[k Hk] _]. by destruct (tw_commitments _ Hwf _ _ Hk) as [_ ->].
  - unfold get_commitment_for_candidate, read_commitment, commitment_for. destruct (first_row _ _) as [x|] eqn:E; [|done].
    apply first_row_Some in E as [[k Hk] _]. by destruct (tw_commitments _ Hwf _ _ Hk) as [_ ->].
  - unfold get_draft. destruct (m_drafts (db_of w') !! id) as [x|] eqn:E; [|done].
    by destruct (tw_drafts _ Hwf _ _ E) as [_ ->].
  - unfold get_communication_event, read_communication. destruct (m_communications (db_of w') !! id) as [x|] eqn:E; [|done].
    by destruct (tw_communications _ Hwf _ _ E) as [_ ->].
  - intros v. unfold get_attestation, attestation_of. destruct (first_row _ _) as [x|] eqn:E; [|done].
    apply first_row_Some in E as [[k Hk] _]. by destruct (tw_attestations _ Hwf _ _ Hk) as [_ ->].
  - intros e. apply Hlist. intros x Hx. rewrite sort_by_perm in Hx. apply elem_of_select_where in Hx as [[k Hk] _].
    by destruct (tw_communications _ Hwf _ _ Hk) as [_ ->].
  - intros s n. apply Hlist. intros x [i Hi]%list_elem_of_lookup. apply lookup_take_Some in Hi as [Hi _].
    apply list_elem_of_lookup_2 in Hi. rewrite sort_by_perm in Hi. apply elem_of_select_where in Hi as [[k Hk] _].
    by destruct (tw_candidates _ Hwf _ _ Hk) as [_ ->].
Qed.

(** ** A case that moved on *)

(** The calls that work on the commitment of a case. *)
Definition works_on (case_id : uuid) (call : commitment_call) : bool :=
  match call with
  | Drive id _ | AttestFulfillment id _ _ _ | ReviseDueAt id _ _ _ | CancelCommitment id _ _ => bool_decide (id = case_id)
  | _ => false
  end.

Lemma load_moved w c k :
  tables_wf (db_of w) -> commitment_in (db_of w) c -> get_case (k_exec w) (cm_case_id c) = Ok (Some k) ->
  load_commitment (cm_case_id c) w = (Ok (Some c), w) /\ load_case (cm_case_id c) w = (Ok (Some k), w) /\
  load_both (cm_case_id c) w = (Ok (c, k), w).
Proof.
  intros Hwf Hc Hk. assert (Hl : load_commitment (cm_case_id c) w = (Ok (Some c), w)).
  { unfold load_commitment, reads, get_commitment. rewrite (proj2 (commitment_of_case_Some _ Hwf _ _) (conj Hc eq_refl)). cbn.
    by destruct (tw_commitments _ Hwf _ _ Hc) as [_ ->]. }
  assert (Hk' : load_case (cm_case_id c) w = (Ok (Some k), w)) by (unfold load_case, reads; by rewrite Hk).
  split_and!; [done|done|]. unfold load_both, bind. by rewrite Hl, Hk'.
Qed.

(** A computation that raises and leaves the tables alone. *)
Definition refuses {A} (m : M (CWorld P) A) w : Prop := exists e w', m w = (Err e, w') /\ st w' = st w.

Lemma refuses_after {A B} (q : M (CWorld P) A) (k : A -> M (CWorld P) B) w :
  Respects quiet q -> (forall a w1, q w = (Ok a, w1) -> refuses (k a) w1) -> refuses (bind q k) w.
Proof.
  intros Hq Hk. unfold refuses, bind. destruct (q w) as [[a|e] w1] eqn:E; pose proof (Hq _ _ _ E) as Hst; cbn in Hst.
  - destruct (Hk a w1 eq_refl) as (e & w2 & He & Hst2). exists e, w2. split; [done|]. congruence.
  - by exists e, w1.
Qed.

Lemma refuses_throw {A} c msg w : refuses (throw (A := A) c msg) w.
Proof. by eexists _, _. Qed.

Lemma refuses_bind {A B} (m : M (CWorld P) A) (k : A -> M (CWorld P) B) w : refuses m w -> refuses (bind m k) w.
Proof. intros (e & w1 & He & Hst). exists e, w1. unfold bind. by rewrite He. Qed.

(** Asking for the time and asking for the reviewer's roles leave the records alone. *)
Lemma at_or_now_records t w a w1 : at_or_now clock t w = (Ok a, w1) -> st w1 = st w /\ k_exec w1 = k_exec w.
Proof. destruct t; intros [= _ <-]; done. Qed.

Lemma require_reviewer_records p w a w1 :
  require_reviewer clock p w = (Ok a, w1) -> st w1 = st w /\ k_exec w1 = k_exec w.
Proof.
  unfold require_reviewer, bind, gets, now, reads. destruct (roles_for _ _ _ _); [|done].
  by destruct (_ || _); intros [= _ <-].
Qed.

(** C24: Once the authority epoch of a case moves past its commitment's, whatever
    moved it, nobody can drive, attest, revise or cancel the commitment: every such
    call is refused and changes nothing of it. *)
Theorem moved_case_refuses_its_commitment w c k call :
  tables_wf (db_of w) -> commitment_in (db_of w) c -> get_case (k_exec w) (cm_case_id c) = Ok (Some k) ->
  c_authority_epoch k <> cm_authority_epoch c -> works_on (cm_case_id c) call = true ->
  exists e w', serve call w = (Err e, w') /\ st w' = st w.
Proof.
  intros Hwf Hc Hk Hne Hw. change (refuses (serve call) w).
  assert (Hmoved : forall w1, st w1 = st w /\ k_exec w1 = k_exec w ->
            load_commitment (cm_case_id c) w1 = (Ok (Some c), w1) /\ load_case (cm_case_id c) w1 = (Ok (Some k), w1) /\
            load_both (cm_case_id c) w1 = (Ok (c, k), w1)).
  { intros w1 [Hst Hx]. apply load_moved; rewrite ?(st_db _ _ Hst), ?Hx; done. }
  assert (Hneq : bool_decide (cm_authority_epoch c <> c_authority_epoch k) = true) by (apply bool_decide_eq_true; congruence).
  destruct call; cbn in Hw; try done; apply bool_decide_eq_true in Hw as ->; cbn; apply refuses_bind.
  - apply refuses_after; [respect|]. intros a w1 (_ & _ & Hb)%at_or_now_records%Hmoved.
    unfold bind, refuses. rewrite Hb, Hneq. apply refuses_throw.
  - apply refuses_after; [respect|]. intros a w1 (_ & _ & Hb)%at_or_now_records%Hmoved.
    unfold bind, refuses. rewrite Hb, Hneq. apply refuses_throw.
  - apply refuses_after; [respect|]. intros a w1 (Hb & Hb2 & _)%require_reviewer_records%Hmoved.
    destruct due_at; [apply refuses_throw|]. destruct (negb _); [apply refuses_throw|].
    unfold bind, refuses. rewrite Hb, Hb2. destruct (bool_decide (cm_state c ∈ _)); [apply refuses_throw|].
    rewrite Hneq. apply refuses_throw.
  - apply refuses_after; [respect|]. intros a w1 (_ & _ & Hb)%require_reviewer_records%Hmoved.
    cbv zeta. destruct (negb (nonempty (strip basis))); [apply refuses_throw|]. unfold bind, refuses. rewrite Hb, Hneq. apply refuses_throw.
Qed.
End safety.
