(* ===== verification/CaseFlow.v ===== *)
(** * How a run carries its case

    The case a run returns is the case it persisted, whatever branch it took,
    and a run that completes a case has, in order: had every effect verified,
    found the governance valid again, and been given a satisfied completion
    assessment over the recorded outcomes. *)

From stdpp Require Import base gmap strings list.
From Stdlib Require Import ZArith Lia.
From S2P Require Import Prelude Python CPython Store Domain Policy Authority Lifecycle Obligations.
From S2P Require Import Completion Verification PolicyPlane Persistence Transactions Governance.
From S2P Require Import Machine Execution ExecutionSafety.

Open Scope Z_scope.
Open Scope orch_scope.

Section flow.
Context `{Hplat : Platform} {P : Type} `{Hprov : EffectProvider P} {Hcontract : ProviderContract P}
  (clock : nat -> instant) (enforced : bool).

(** The case is in the store exactly as given. *)
Definition stored (w : World P) (c : AdministrativeCase) : Prop :=
  exists q, x_cases (w_exec w) !! c_case_id c = Some (mkCaseRow q c).

Definition cases_same (w w' : World P) : Prop := x_cases (w_exec w') = x_cases (w_exec w).

Program Definition keeps_cases : Motion (World P) := {| moves := cases_same; breaks := fun _ => cases_same |}.
Next Obligation. done. Qed.
Next Obligation. unfold cases_same. congruence. Qed.
Next Obligation. done. Qed.
Next Obligation. unfold cases_same. congruence. Qed.

Lemma keeps_Ok {A} (m : M (World P) A) w r w' :
  Respects keeps_cases m -> m w = (r, w') -> cases_same w w'.
Proof. intros Hm Hrun. apply Hm in Hrun. by destruct r. Qed.

Lemma safe_step {A} (m : M (World P) A) `{!Respects safe m} w a w' : m w = (Ok a, w') -> safe_move w w'.
Proof. intros Hrun. exact (respects _ _ _ Hrun). Qed.

Lemma stored_same w w' c : cases_same w w' -> stored w c -> stored w' c.
Proof. unfold stored, cases_same. intros ->. done. Qed.

(** ** Steps that keep the case table *)

#[export] Instance keeps_utcnow : Respects keeps_cases (utcnow (P := P) clock).
Proof. by intros w r w' [= <- <-]. Qed.

#[export] Instance keeps_observe effect : Respects keeps_cases (observe (P := P) effect).
Proof. intros w r w' Hrun. apply observe_exec in Hrun. unfold keeps_cases, cases_same. cbn. rewrite Hrun. by destruct r. Qed.

#[export] Instance keeps_execute effect payload : Respects keeps_cases (execute (P := P) effect payload).
Proof.
  intros w r w' Hrun. apply execute_spec in Hrun as (Hrun & _ & _). unfold keeps_cases, cases_same. cbn.
  rewrite Hrun. by destruct r.
Qed.

Lemma keeps_on_exec {A} (f : World P -> result (A * ExecDb)) :
  (forall w a x, f w = Ok (a, x) -> x_cases x = x_cases (w_exec w)) -> Respects keeps_cases (on_exec f).
Proof.
  intros Hf. apply respects_transact. intros w a w' Hrun. inv_ok. destruct v as [a1 x]. inv_ok.
  simplify_eq. by eapply Hf.
Qed.

#[export] Instance keeps_update_status id st pr :
  Respects keeps_cases (update_effect_status (P := P) clock id st pr).
Proof.
  apply respects_bind; [apply keeps_utcnow|]. intros now. apply keeps_on_exec. intros w e x.
  unfold set_effect_status. destruct (x_effects (w_exec w) !! id); [|done].
  destruct (_ && _); intros ?; inv_ok; by simplify_eq.
Qed.

#[export] Instance keeps_put_outcome o : Respects keeps_cases (put_outcome_step (P := P) o).
Proof.
  apply respects_bind; [apply respects_lift|]. intros o1. apply keeps_on_exec. intros w o2 x Hrun.
  unfold put_outcome in Hrun. destruct (x_effects (w_exec w) !! _); [|done].
  destruct (x_realizations (w_exec w) !! _); [|done]. apply rbind_Ok in Hrun as (? & _ & Hrun).
  apply rbind_Ok in Hrun as (? & _ & Hrun).
  destruct (x_outcomes (w_exec w) !! _); inv_ok; by simplify_eq.
Qed.

#[export] Instance keeps_put_realization a case_id :
  Respects keeps_cases (on_exec (P := P) (fun w => put_realization (w_exec w) a case_id)).
Proof.
  apply keeps_on_exec. intros w a1 x Hrun. unfold put_realization in Hrun.
  destruct (x_effects (w_exec w) !! _); [|done]. apply rbind_Ok in Hrun as (? & _ & Hrun).
  destruct (x_realizations (w_exec w) !! _); inv_ok; by simplify_eq.
Qed.

#[export] Instance keeps_current_effect planned :
  Respects keeps_cases (current_effect (P := P) planned).
Proof. apply respects_gets. Qed.

Section loops.
Context (owner : Hooks (P := P)) {Hlaw : LawfulHooks owner}.

#[local] Instance keeps_payload e es p : Respects keeps_cases (payload_for_effect owner e es p).
Proof. intros w r w' Hrun. apply law_payload in Hrun as ->. destruct r; done. Qed.

Lemma keeps_drive_loop c es os ls queue b : Respects keeps_cases (drive_loop clock owner c es os ls queue b).
Proof.
  revert b. induction queue as [|planned rest IH]; intros b; cbn; [respect|].
  apply respects_bind; [|intros [|]; [respect|apply IH]].
  unfold drive_effect, dispatch_effect, execute_effect, reconcile_dispatched. respect.
Qed.

Lemma keeps_verify_loop c os ls queue b : Respects keeps_cases (verify_loop owner c os ls queue b).
Proof.
  revert b. induction queue as [|planned rest IH]; intros b; cbn; [respect|].
  apply respects_bind; [|intros [|]; [respect|apply IH]].
  unfold verify_effect, confirm_effect, verify_fresh. respect.
Qed.
End loops.

(** ** Transitions and their persistence *)

Lemma transition_Ok f (w w' : World P) c :
  transition clock f w = (Ok c, w') -> (exists now, f now = Ok c) /\ cases_same w w'.
Proof.
  unfold transition, bind, utcnow, lift. cbn. intros Hrun. injection Hrun as Hf <-. by split; [eexists|].
Qed.

(** A transition copies the case: its id and its creation time stay. *)
Definition copies (c c' : AdministrativeCase) : Prop :=
  c_case_id c' = c_case_id c /\ c_created_at c' = c_created_at c.

Lemma persist_stores before after event payload (w w' : World P) u :
  stored w before -> copies before after ->
  persist_case_transition before after event payload w = (Ok u, w') -> stored w' after.
Proof.
  intros (q & Hq) [Hid Hcr] Hrun. apply on_exec_Ok in Hrun as (x & Hup & ->). inv_ok. subst.
  simplify_eq. unfold update_case in E. rewrite Hid, Hq in E. inv_ok. subst. exists q. cbn.
  rewrite Hid, lookup_insert_eq. do 2 f_equal. unfold copy_case_into_row. cbn. f_equal.
  destruct after; cbn in *. congruence.
Qed.

Lemma move_stores c f event payload (w w1 w2 : World P) c' u :
  (forall now c', f now = Ok c' -> copies c c') -> stored w c ->
  transition clock f w = (Ok c', w1) ->
  persist_case_transition c c' event payload w1 = (Ok u, w2) -> stored w2 c'.
Proof.
  intros Hf Hst Htr Hp. apply transition_Ok in Htr as [[now Hnow] Hsame].
  eapply persist_stores; [by eapply stored_same|by eapply Hf|exact Hp].
Qed.

Ltac transition_copies :=
  intros; unfold begin_execution, begin_verification, begin_reconciliation, resume_verification,
    complete_verified_case, fail_execution, require_reopen in *; inv_ok; subst; done.

Lemma require_stored c (w w' : World P) c' :
  stored w c -> require_case (c_case_id c) w = (Ok c', w') -> c' = c /\ w' = w.
Proof.
  intros (q & Hq) Hrun. apply bind_Ok in Hrun as (found & w1 & Hget & Hrun).
  unfold reads in Hget. injection Hget as Hget <-. unfold get_case in Hget. rewrite Hq in Hget.
  unfold case_from_row in Hget. inv_ok. unfold validate_case in *. cbn in *.
  repeat match goal with HH : rbind (guard _ _ _) _ = Ok _ |- _ => apply rbind_guard_Ok in HH as [_ HH] end.
  destruct found as [c1|]; inv_ok; simplify_eq. by injection Hrun as <- <-.
Qed.

(** ** What the executor relies on to carry the case *)

Class CaseLaws (owner : Owner (P := P)) : Prop := {
  keeps_plan c : Respects keeps_cases (plan_current_effects owner c);
  keeps_governance c : Respects keeps_cases (validate_current_governance owner c);
  keeps_drive c es os ls : Respects keeps_cases (owner_drive_dispatch owner c es os ls);
  keeps_verify c es os ls : Respects keeps_cases (owner_verify_all owner c es os ls);
  keeps_assess s es os rs ls : Respects keeps_cases (assess_completion owner s es os rs ls);
  blocked_stores c a w c' w' : stored w c -> handle_completion_blocked owner c a w = (Ok c', w') ->
    stored w' c' /\ c_status c' <> COMPLETED;
}.

Section run.
Context (owner : Owner (P := P)) {Hcase : CaseLaws owner} {Hsafe : LawfulOwner owner}.

(** The governance check that let a run go on. *)
Definition governance_passes (c : AdministrativeCase) (w w' : World P) : Prop :=
  exists v, validate_current_governance owner c w = (Ok v, w') /\
    match v with Some g => gv_valid g = true | None => True end.

Lemma gate_spec c (w w' : World P) r :
  stored w c -> governance_gate clock owner c w = (Ok r, w') ->
  match r with
  | inl c' => stored w' c' /\ c_status c' = REOPEN_REQUIRED
  | inr _ => stored w' c /\ governance_passes c w w'
  end.
Proof.
  intros Hst Hrun. apply bind_Ok in Hrun as (v & w1 & Hv & Hrun).
  pose proof (stored_same _ _ _ (keeps_Ok _ _ _ _ (keeps_governance c) Hv) Hst) as Hst1.
  destruct v as [g|].
  - destruct (gv_valid g) eqn:Hg; cbn in Hrun.
    + injection Hrun as <- <-. split; [done|]. exists (Some g). by rewrite Hv.
    + apply bind_Ok in Hrun as (c' & w2 & Hre & Hrun). injection Hrun as <- <-.
      apply bind_Ok in Hre as (c1 & w3 & Htr & Hre). apply bind_Ok in Hre as (u & w4 & Hp & Hre).
      injection Hre as <- <-. split; [eapply move_stores; [|exact Hst1|exact Htr|exact Hp]; transition_copies|].
      apply transition_Ok in Htr as [[now Hnow] _]. unfold require_reopen in Hnow. inv_ok. by subst.
  - injection Hrun as <- <-. split; [done|]. exists None. by rewrite Hv.
Qed.

Lemma start_spec c (w w' : World P) c' :
  stored w c -> start_phase clock owner c w = (Ok c', w') ->
  stored w' c' /\ c_case_id c' = c_case_id c /\ c_authority_epoch c' = c_authority_epoch c /\
  (c_status c = AUTHORIZED /\ c_status c' = EXECUTING \/ c_status c <> AUTHORIZED /\ c' = c).
Proof.
  intros Hst. unfold start_phase. case_bool_decide as Ha; intros Hrun.
  - apply bind_Ok in Hrun as (u & w1 & Hplan & Hrun).
    pose proof (stored_same _ _ _ (keeps_Ok _ _ _ _ (keeps_plan c) Hplan) Hst) as Hst1.
    apply bind_Ok in Hrun as (c1 & w2 & Htr & Hrun). apply bind_Ok in Hrun as (u' & w3 & Hp & Hrun).
    injection Hrun as <- <-. split; [eapply move_stores; [|exact Hst1|exact Htr|exact Hp]; transition_copies|].
    apply transition_Ok in Htr as [[now Hnow] _]. unfold begin_execution in Hnow. inv_ok. subst.
    repeat split. by left.
  - injection Hrun as <- <-. repeat split; [done|]. by right.
Qed.

Lemma dispatch_spec c es os ls (w w' : World P) r :
  stored w c -> dispatch_phase clock owner (c_case_id c) c es os ls w = (Ok r, w') ->
  match r with
  | inl c' => stored w' c' /\ c_status c' = FAILED
  | inr c' => stored w' c' /\ c_case_id c' = c_case_id c /\ c_authority_epoch c' = c_authority_epoch c /\
      (c_status c = EXECUTING /\ (c_status c' = RECONCILING \/ c_status c' = VERIFYING) \/
       c_status c <> EXECUTING /\ c' = c)
  end.
Proof.
  intros Hst. unfold dispatch_phase. case_bool_decide as He; intros Hrun.
  - apply bind_Ok in Hrun as (d & w1 & Hd & Hrun).
    pose proof (stored_same _ _ _ (keeps_Ok _ _ _ _ (keeps_drive c es os ls) Hd) Hst) as Hst1.
    apply bind_Ok in Hrun as (c1 & w2 & Hreq & Hrun).
    destruct (require_stored _ _ _ _ Hst1 Hreq) as [-> ->].
    destruct d; apply bind_Ok in Hrun as (c1 & w2 & Htr & Hrun);
      apply bind_Ok in Hrun as (u & w3 & Hp & Hrun); injection Hrun as <- <-;
      (split; [eapply move_stores; [|exact Hst1|exact Htr|exact Hp]; transition_copies|]);
      apply transition_Ok in Htr as [[now Hnow] _];
      unfold fail_execution, begin_reconciliation, begin_verification in Hnow; inv_ok; subst; [done|..];
      (split; [done|]; split; [done|]; left; split; [done|]); [by left|by right].
  - injection Hrun as <- <-. repeat split; [done|]. by right.
Qed.

Lemma mismatch_spec c (w w' : World P) c' :
  stored w c -> reopen_for_mismatch clock c w = (Ok c', w') -> stored w' c' /\ c_status c' = REOPEN_REQUIRED.
Proof.
  intros Hst Hrun. apply bind_Ok in Hrun as (c1 & w2 & Htr & Hrun).
  apply bind_Ok in Hrun as (u & w3 & Hp & Hrun). injection Hrun as <- <-.
  split; [eapply move_stores; [|exact Hst|exact Htr|exact Hp]; transition_copies|].
  apply transition_Ok in Htr as [[now Hnow] _]. unfold require_reopen in Hnow. inv_ok. by subst.
Qed.

Lemma reconcile_spec c es os ls (w w' : World P) r :
  stored w c -> reconcile_phase clock owner (c_case_id c) c es os ls w = (Ok r, w') ->
  match r with
  | inl c' => stored w' c' /\ c_status c' <> COMPLETED
  | inr c' => stored w' c' /\ c_case_id c' = c_case_id c /\ c_authority_epoch c' = c_authority_epoch c /\
      (c_status c = RECONCILING /\ c_status c' = VERIFYING \/ c_status c <> RECONCILING /\ c' = c)
  end.
Proof.
  intros Hst. unfold reconcile_phase. case_bool_decide as He; intros Hrun.
  - apply bind_Ok in Hrun as (v & w1 & Hv & Hrun).
    pose proof (stored_same _ _ _ (keeps_Ok _ _ _ _ (keeps_verify c es os ls) Hv) Hst) as Hst1.
    destruct v.
    + apply bind_Ok in Hrun as (c1 & w2 & Hm & Hrun). injection Hrun as <- <-.
      apply mismatch_spec in Hm as [? ->]; done.
    + apply bind_Ok in Hrun as (c1 & w2 & Hreq & Hrun). injection Hrun as <- <-.
      destruct (require_stored _ _ _ _ Hst1 Hreq) as [-> ->]. by rewrite He.
    + apply bind_Ok in Hrun as (c1 & w2 & Htr & Hrun). apply bind_Ok in Hrun as (u & w3 & Hp & Hrun).
      injection Hrun as <- <-. split; [eapply move_stores; [|exact Hst1|exact Htr|exact Hp]; transition_copies|].
      apply transition_Ok in Htr as [[now Hnow] _]. unfold resume_verification in Hnow. inv_ok. subst.
      repeat split. by left.
  - injection Hrun as <- <-. repeat split; [done|]. by right.
Qed.

(** What a run that completes the case [c] from its verifying state has
    established, from the world [w] on. *)
Definition completion_grounds (c : AdministrativeCase) (es : list EffectRecord)
    (os : option AdministrativeObligationSet) (ls : list EffectObligationLink) (w w1 : World P) : Prop :=
  exists w2 w3 outcomes completion,
    owner_verify_all owner c es os ls w = (Ok verify_verified, w1) /\ governance_passes c w1 w2 /\
    list_outcomes (w_exec w2) (c_case_id c) (Some (c_authority_epoch c)) = Ok outcomes /\
    assess_phase enforced owner c es os ls outcomes w2 = (Ok completion, w3) /\
    ca_satisfied completion = true /\ length outcomes = length es.

Lemma complete_spec c es outcomes a (w w' : World P) c' :
  stored w c -> complete_phase clock c es outcomes a w = (Ok c', w') ->
  stored w' c' /\ c_case_id c' = c_case_id c /\ c_authority_epoch c' = c_authority_epoch c /\
  length outcomes = length es.
Proof.
  intros Hst Hrun. apply bind_Ok in Hrun as (c1 & w2 & Htr & Hrun).
  apply bind_Ok in Hrun as (u & w3 & Hp & Hrun). injection Hrun as <- <-.
  split; [eapply move_stores; [|exact Hst|exact Htr|exact Hp]; transition_copies|].
  apply transition_Ok in Htr as [[now Hnow] _]. unfold complete_verified_case in Hnow. inv_ok. subst.
  propify. repeat split. lia.
Qed.

Lemma keeps_assess_phase c es os ls outcomes :
  Respects keeps_cases (assess_phase enforced owner c es os ls outcomes).
Proof. unfold assess_phase. respect. apply keeps_assess. Qed.

Lemma verify_spec c es os ls (w w' : World P) c' :
  stored w c -> verify_phase clock enforced owner c es os ls w = (Ok c', w') ->
  stored w' c' /\
  (c_status c' = COMPLETED ->
   c_case_id c' = c_case_id c /\ c_authority_epoch c' = c_authority_epoch c /\
   exists w1, completion_grounds c es os ls w w1 /\ safe_move w1 w').
Proof.
  intros Hst Hrun. apply bind_Ok in Hrun as (v & w1 & Hv & Hrun).
  pose proof (stored_same _ _ _ (keeps_Ok _ _ _ _ (keeps_verify c es os ls) Hv) Hst) as Hst1.
  destruct v.
  - apply mismatch_spec in Hrun as [? ->]; done.
  - apply bind_Ok in Hrun as (c1 & w2 & Htr & Hrun). apply bind_Ok in Hrun as (u & w3 & Hp & Hrun).
    injection Hrun as <- <-. split; [eapply move_stores; [|exact Hst1|exact Htr|exact Hp]; transition_copies|].
    apply transition_Ok in Htr as [[now Hnow] _]. unfold begin_reconciliation in Hnow. inv_ok. by subst.
  - assert (Hmove : safe_move w1 w').
    { match type of Hrun with ?m _ = _ => assert (Respects safe m) as Hm by respect end.
      exact (Hm _ _ _ Hrun). }
    apply bind_Ok in Hrun as (g & w2 & Hg & Hrun). pose proof (gate_spec _ _ _ _ Hst1 Hg) as Hgs.
    destruct g as [c1|u]; [injection Hrun as <- <-; destruct Hgs as [? ->]; done|].
    destruct Hgs as [Hst2 Hgov]. apply bind_Ok in Hrun as (outcomes & w3 & Ho & Hrun).
    unfold reads in Ho. injection Ho as Ho <-.
    apply bind_Ok in Hrun as (a & w4 & Ha & Hrun).
    pose proof (stored_same _ _ _ (keeps_Ok _ _ _ _ (keeps_assess_phase _ _ _ _ _) Ha) Hst2) as Hst4.
    destruct (ca_satisfied a) eqn:Hsat; cbn in Hrun; [|by destruct (blocked_stores _ _ _ _ _ Hst4 Hrun)].
    destruct (complete_spec _ _ _ _ _ _ _ Hst4 Hrun) as (? & ? & ? & ?). split; [done|]. intros _.
    split; [done|]. split; [done|]. exists w1. split; [|done]. exists w2, w4, outcomes, a. done.
Qed.

(** The effects, the obligation set and the links the run works on, read in the
    world [w] for the case [c]. *)
Definition work_of (w : World P) (c : AdministrativeCase) (es : list EffectRecord)
    (os : option AdministrativeObligationSet) (ls : list EffectObligationLink) : Prop :=
  es = list_effects (w_exec w) (w_links w) (c_case_id c) (c_authority_epoch c) /\ es <> [] /\
  get_current (w_obligations w) (c_case_id c) (c_authority_epoch c) = Ok os /\
  ls = list_links (w_obligations w) (c_case_id c) (c_authority_epoch c).

Lemma settle_spec c es os ls (w w' : World P) c' :
  stored w c -> c_status c = VERIFYING \/ c_status c = RECONCILING ->
  settle_phase clock enforced owner (c_case_id c) c es os ls w = (Ok c', w') ->
  stored w' c' /\
  (c_status c' = COMPLETED -> exists c1 w1 w2, c_case_id c1 = c_case_id c /\
     c_authority_epoch c1 = c_authority_epoch c /\ c_case_id c' = c_case_id c /\
     c_authority_epoch c' = c_authority_epoch c /\ safe_move w w1 /\
     completion_grounds c1 es os ls w1 w2 /\ safe_move w2 w').
Proof.
  intros Hst Hstatus Hrun. apply bind_Ok in Hrun as (g & w1 & Hg & Hrun).
  pose proof (safe_step _ _ _ _ Hg) as Hm1. pose proof (gate_spec _ _ _ _ Hst Hg) as Hgs.
  destruct g as [c1|u]; [injection Hrun as <- <-; destruct Hgs as [? ->]; done|].
  destruct Hgs as [Hst1 _]. apply bind_Ok in Hrun as (r & w2 & Hr & Hrun).
  pose proof (safe_step _ _ _ _ Hr) as Hm2.
  pose proof (reconcile_spec _ _ _ _ _ _ _ Hst1 Hr) as Hrs.
  destruct r as [c1|c1]; [injection Hrun as <- <-; by destruct Hrs|].
  destruct Hrs as (Hst2 & Hid & Hep & Hcases).
  rewrite bool_decide_eq_true_2 in Hrun; [|destruct Hcases as [[_ ?]|[? ->]]; [done|by destruct Hstatus]].
  destruct (verify_spec _ _ _ _ _ _ _ Hst2 Hrun) as [Hst' Hc]. split; [done|]. intros Hcomp.
  destruct (Hc Hcomp) as (Hid' & Hep' & w3 & Hgr & Hm3). exists c1, w2, w3.
  split_and!; [done|done|congruence|congruence| |done|done]. by eapply (moves_trans safe).
Qed.

(** How a run from [w] to [w'] came to complete the case it returns as [c']:
    the work was read at [w1], the case then verified from [w2] on. *)
Definition completed_from (w w' : World P) (c' : AdministrativeCase) : Prop :=
  exists c1 es os ls w1 w2 w3, work_of w1 c' es os ls /\
    c_case_id c1 = c_case_id c' /\ c_authority_epoch c1 = c_authority_epoch c' /\
    safe_move w w1 /\ safe_move w1 w2 /\ completion_grounds c1 es os ls w2 w3 /\ safe_move w3 w'.

Lemma drive_spec c (w w' : World P) c' :
  stored w c -> not_executable (c_status c) = false ->
  drive_phase clock enforced owner (c_case_id c) c w = (Ok c', w') ->
  stored w' c' /\ (c_status c' = COMPLETED -> completed_from w w' c').
Proof.
  intros Hst Hne Hrun. apply bind_Ok in Hrun as (c1 & w2 & Hs & Hrun).
  pose proof (safe_step _ _ _ _ Hs) as Hm2.
  destruct (start_spec _ _ _ _ Hst Hs) as (Hst2 & Hid & Hep & Hcs).
  apply bind_Ok in Hrun as (es & w3 & Hes & Hrun). injection Hes as Hes <-.
  destruct es as [|e0 es']; [discriminate Hrun|]. cbn [is_nil] in Hrun.
  apply bind_Ok in Hrun as (os & w3 & Hos & Hrun). unfold reads in Hos. injection Hos as Hos <-.
  apply bind_Ok in Hrun as (ls & w3 & Hls & Hrun). injection Hls as Hls <-.
  rewrite <- Hid in Hrun. apply bind_Ok in Hrun as (d & w3 & Hd & Hrun).
  pose proof (safe_step _ _ _ _ Hd) as Hm3. pose proof (dispatch_spec _ _ _ _ _ _ _ Hst2 Hd) as Hds.
  destruct d as [c2|c2]; [injection Hrun as <- <-; destruct Hds as [? ->]; done|].
  destruct Hds as (Hst3 & Hid3 & Hep3 & Hcd). rewrite <- Hid3 in Hrun.
  assert (Hstatus : c_status c2 = VERIFYING \/ c_status c2 = RECONCILING).
  { destruct Hcd as [[_ ?]|[Hx ->]]; [tauto|]. destruct Hcs as [[_ ?]|[Hy ->]]; [congruence|].
    destruct (c_status c); try discriminate Hne; auto; congruence. }
  destruct (settle_spec _ _ _ _ _ _ _ Hst3 Hstatus Hrun) as [Hst' Hset].
  split; [done|]. intros Hcomp. destruct (Hset Hcomp) as (c3 & w4 & w5 & H1 & H2 & H3 & H4 & H5 & H6 & H7).
  exists c3, (e0 :: es'), os, ls, w2, w4, w5. unfold work_of. rewrite H3, H4, Hid3, Hep3.
  split_and!; try done; [congruence|congruence|]. by eapply (moves_trans safe).
Qed.

Lemma run_spec (w w' : World P) c c' :
  stored w c -> run clock enforced owner (c_case_id c) w = (Ok c', w') ->
  stored w' c' /\
  (not_executable (c_status c) = true /\ c' = c /\ w' = w \/
   not_executable (c_status c) = false /\ (c_status c' = COMPLETED -> completed_from w w' c')).
Proof.
  intros Hst Hrun. apply bind_Ok in Hrun as (c0 & w0 & Hreq & Hrun).
  destruct (require_stored _ _ _ _ Hst Hreq) as [-> ->].
  destruct (not_executable (c_status c)) eqn:Hne; [injection Hrun as <- <-; split; [done|by left]|].
  apply bind_Ok in Hrun as (g & w1 & Hg & Hrun). pose proof (safe_step _ _ _ _ Hg) as Hm1.
  pose proof (gate_spec _ _ _ _ Hst Hg) as Hgs.
  destruct g as [c1|u]; [injection Hrun as <- <-; destruct Hgs as [? Hr]; split; [done|]; right; by rewrite Hr|].
  destruct Hgs as [Hst1 _]. destruct (drive_spec _ _ _ _ Hst1 Hne Hrun) as [Hst' Hc].
  split; [done|]. right. split; [done|]. intros Hcomp.
  destruct (Hc Hcomp) as (c3 & es & os & ls & w4 & w5 & w6 & Hwork & Hi & He & Hm4 & Hrest).
  exists c3, es, os, ls, w4, w5, w6. split_and!; try done; try apply Hrest. by eapply (moves_trans safe).
Qed.
End run.
End flow.
