(* ===== verification/OnboardingEngine.v ===== *)
(** * The onboarding and financial engines, [onboarding_execution.py] and
      [financial_execution.py]

    The hooks [OnboardingExecutionEngine] gives the verified executor: planning
    of authorizations, effects and links from the derived obligations, current
    governance, observation checks by case kind, dispatch order and payloads,
    completion; and the runs of the two engines.  The theorems instantiate the
    executor's safety and flow with these hooks. *)

From stdpp Require Import base gmap strings list relations.
From Stdlib Require Import ZArith Lia.
From S2P Require Import Prelude Python CPython Store Domain Policy Authority Lifecycle Obligations.
From S2P Require Import Completion Verification Derivation PolicyPlane Financial Persistence.
From S2P Require Import Transactions Governance Machine Execution ExecutionSafety CaseFlow.

Open Scope Z_scope.
Open Scope orch_scope.
Open Scope machine_scope.

(** [case.case_kind in {"procurement-request", "invoice-ap-preparation"}] *)
Definition qualified_kind (kind : string) : bool :=
  bool_decide (kind = "procurement-request") || bool_decide (kind = "invoice-ap-preparation").

(** [FINANCIAL_CASE_KINDS] *)
Definition financial_kind (kind : string) : bool :=
  bool_decide (kind = "procurement-request") || bool_decide (kind = "invoice-ap-preparation")
  || bool_decide (kind = "expense-reimbursement").

Definition issuer : string := "service:administrative-orchestrator".

Definition reversibility_for (operation : string) : EffectReversibility :=
  if bool_decide (operation = "employee.create") || bool_decide (operation = "identity.create")
     || bool_decide (operation = "account.provision")
  then CORRECTABLE else REVERSIBILITY_UNKNOWN.

(** [_effect_dispatch_order]: only procurement's draft and confirm are ordered. *)
Definition dispatch_rank (e : EffectRecord) : Z * string :=
  if bool_decide (ef_operation e = "purchase_order.create_draft") then (0, uuid_str (ef_effect_id e))
  else if bool_decide (ef_operation e = "purchase_order.confirm") then (1, uuid_str (ef_effect_id e))
  else (2, "").
Definition compare_dispatch (a b : EffectRecord) : comparison :=
  cmp_then (Z.compare (fst (dispatch_rank a)) (fst (dispatch_rank b)))
    (String.compare (snd (dispatch_rank a)) (snd (dispatch_rank b))).

(** [authorization.model_copy(update={"authorization_id": ..., "issued_at": ...})] *)
Definition with_issue (a : ExecutionAuthorization) (authorization_id : uuid) (issued_at : instant)
  : ExecutionAuthorization :=
  mkExecutionAuthorization authorization_id (ea_case_id a) (ea_case_version a) (ea_authority_epoch a)
    (ea_decision_id a) (ea_approval_satisfaction_id a) (ea_issuer_principal_id a) (ea_target_system a)
    (ea_subject_ref a) (ea_allowed_operations a) (ea_authority_class a) (ea_policy_ref a) issued_at
    (ea_expires_at a) (ea_revoked_at a).

(** [plan_effect(...).model_copy(update={...})] *)
Definition with_lineage (e : EffectRecord) (effect_id obligation_id governance_basis_id : uuid)
    (at_ : instant) : EffectRecord :=
  mkEffectRecord effect_id (ef_case_id e) (ef_case_version e) (ef_authority_epoch e)
    (ef_authorization_id e) (Some obligation_id) (Some governance_basis_id) (ef_target_system e)
    (ef_operation e) (ef_subject_ref e) (ef_reversibility e) (ef_authority_class e) (ef_status e)
    (ef_provider_ref e) at_ at_.

Definition required_assessments (kind : string) : list string :=
  if bool_decide (kind = "procurement-request") then ["vendor_qualification"]
  else if bool_decide (kind = "invoice-ap-preparation")
  then ["vendor_qualification"; "duplicate_invoice_check"; "three_way_match"]
  else [].

(** [sorted(required - qualified)] *)
Definition missing_assessments (kind : string)
    (assessments : list TransactionQualificationAssessment) : list string :=
  let qualified := ta_assessment_kind
    <$> List.filter (fun a => bool_decide (ta_result a = QUALIFIED)) assessments in
  sort_by String.compare
    (List.filter (fun k => bool_decide (k ∉ qualified)) (required_assessments kind)).

Section engine.
Context `{Hplat : Platform} {P : Type} `{Hprov : EffectProvider P} (clock : nat -> instant)
  (enforced : bool).

Local Abbreviation M := (M (World P)).

(** ** Governance *)

Definition revalidate_current (basis : GovernanceBasis) (c : AdministrativeCase)
  : M GovernanceValidation :=
  do! at_ := utcnow clock in
  do! now := utcnow clock in
  gets (fun w => revalidate (w_policies w) (w_transactions w) (w_authority w) basis c at_ now).

Definition invalid_governance (reason : string) : M (option GovernanceValidation) :=
  do! now := utcnow clock in ret (Some (mkGovernanceValidation false [reason] now)).

Definition validate_onboarding_governance (c : AdministrativeCase) : M (option GovernanceValidation) :=
  do! satisfaction := gets (fun w =>
    get_approval_satisfaction (w_authority w) (c_case_id c) (c_authority_epoch c)) in
  match satisfaction with
  | None =>
      if enforced then invalid_governance "current authority epoch has no approval satisfaction"
      else ret None
  | Some s =>
      do! basis := reads (fun w => get_for_approval (w_governance w) (as_satisfaction_id s)) in
      match basis with
      | None =>
          if enforced then invalid_governance "current approval has no governance basis"
          else ret None
      | Some b => do! v := revalidate_current b c in ret (Some v)
      end
  end.

(** ** Planning *)

Definition require_financial_qualifications (c : AdministrativeCase) : M unit :=
  do! assessments := reads (fun w =>
    match list_current_assessments (w_transactions w) (c_case_id c) (c_authority_epoch c) with
    | Err (Exn TransactionRecordConflict msg) => raise TransitionError msg
    | r => r
    end) in
  let missing := missing_assessments (c_case_kind c) assessments in
  if is_nil missing then ret tt
  else throw FinancialQualificationPending
         ("financial execution requires current qualified assessments: " +:+ join ", " missing).

(** The current authority: the approval satisfaction with its revalidated
    governance basis, or, where authority is not enforced, the latest decision. *)
Definition current_authority (c : AdministrativeCase) (evaluation : PolicyEvaluation)
  : M ((ApprovalSatisfaction + Decision) * uuid) :=
  do! satisfaction := gets (fun w =>
    get_approval_satisfaction (w_authority w) (c_case_id c) (c_authority_epoch c)) in
  match satisfaction with
  | Some s =>
      if bool_decide (Some (as_policy_ref s) <> c_policy_ref c)
      then throw TransitionError "approval satisfaction policy is stale"
      else if negb (forallb (fun r => bool_decide (r ∈ as_satisfied_roles s))
                      (pe_required_decision_roles evaluation))
      then throw TransitionError
             "approval satisfaction does not cover current required decision roles"
      else
        do! basis := reads (fun w => get_for_approval (w_governance w) (as_satisfaction_id s)) in
        match basis with
        | None =>
            if enforced then throw TransitionError "governed execution requires a governance basis"
            else ret (inl s, stable_id "legacy-governance" c [])
        | Some b =>
            do! validation := revalidate_current b c in
            if negb (gv_valid validation)
            then throw TransitionError ("governance basis is stale: " +:+ join "; " (gv_reasons validation))
            else if qualified_kind (c_case_kind c) then
              do! b := on_governance (fun w =>
                bind_current_transaction_qualifications (w_governance w) (w_transactions w) b c) in
              ret (inl s, gb_basis_id b)
            else ret (inl s, gb_basis_id b)
        end
  | None =>
      if enforced
      then throw TransitionError "governed execution requires current approval satisfaction"
      else
        do! decision := gets (fun w => get_latest_decision (w_exec w) (c_case_id c)) in
        match decision with
        | None => throw TransitionError "onboarding execution requires an approving decision"
        | Some d =>
            if bool_decide (d_disposition d <> APPROVE)
            then throw TransitionError "latest onboarding decision is not approving"
            else if bool_decide (d_authority_epoch d <> c_authority_epoch c)
            then throw TransitionError "latest onboarding decision is stale"
            else ret (inr d, stable_id "legacy-governance" c [])
        end
  end.

Definition derive_obligations (c : AdministrativeCase) (evaluation : PolicyEvaluation)
    (governance_basis_id : uuid) : result AdministrativeObligationSet :=
  if bool_decide (c_case_kind c = "employee-onboarding") then
    derive_onboarding_obligations c evaluation governance_basis_id
  else if financial_kind (c_case_kind c) then
    derive_financial_obligations c evaluation governance_basis_id
  else raise TransitionError ("execution engine does not support case kind '"
                              +:+ c_case_kind c +:+ "'").

Definition mint_for (c : AdministrativeCase) (authority : ApprovalSatisfaction + Decision)
    (o : AdministrativeObligation) (authorization_id : uuid) (now : instant)
  : result ExecutionAuthorization :=
  let! a := match authority with
    | inl s => mint_execution_authorization_from_approval c s issuer (ob_target_system o)
                 [ob_required_operation o] (ob_authority_class o) None authorization_id now
    | inr d => mint_execution_authorization c d issuer (ob_target_system o)
                 [ob_required_operation o] (ob_authority_class o) None authorization_id now
    end in
  Ok (with_issue a authorization_id (c_updated_at c)).

(** The body of the planning loop: authorization, effect, link. *)
Definition plan_obligation (c : AdministrativeCase) (authority : ApprovalSatisfaction + Decision)
    (governance_basis_id : uuid) (o : AdministrativeObligation) : M unit :=
  let parts := [ob_target_system o; ob_required_operation o] in
  do! minted_at := utcnow clock in
  do! authorization := lift (mint_for c authority o (stable_id "authorization" c parts) minted_at) in
  do! authorization := on_exec (fun w => put_authorization (w_exec w) authorization) in
  do! planned_at := utcnow clock in
  do! effect := lift (plan_effect c authorization (ob_required_operation o)
                        (reversibility_for (ob_required_operation o)) (stable_id "effect" c parts)
                        planned_at) in
  do! effect := on_exec (fun w => put_effect (w_exec w) (w_links w)
    (with_lineage effect (stable_id "effect" c parts) (ob_obligation_id o) governance_basis_id
       (c_updated_at c))) in
  do! _ := on_obligations (fun w => link_effect (w_obligations w) effect o) in
  ret tt.

Fixpoint plan_obligations (c : AdministrativeCase) (authority : ApprovalSatisfaction + Decision)
    (governance_basis_id : uuid) (items : list AdministrativeObligation) : M unit :=
  match items with
  | [] => ret tt
  | o :: rest =>
      also! plan_obligation c authority governance_basis_id o then
      plan_obligations c authority governance_basis_id rest
  end.

Definition plan_onboarding_effects (c : AdministrativeCase) : M unit :=
  match c_fact_snapshot c with
  | None => throw TransitionError "onboarding execution requires a current fact snapshot"
  | Some _ =>
      also! (if qualified_kind (c_case_kind c) then require_financial_qualifications c else ret tt) then
      do! evaluation := reads (fun w => get_latest_policy_evaluation (w_exec w) (c_case_id c)) in
      match evaluation with
      | None => throw TransitionError "onboarding execution requires the current policy evaluation"
      | Some evaluation =>
          if bool_decide (Some (pe_policy_ref evaluation) <> c_policy_ref c)
          then throw TransitionError "onboarding execution requires the current policy evaluation"
          else
            do! (authority, governance_basis_id) := current_authority c evaluation in
            do! obligation_set := lift (derive_obligations c evaluation governance_basis_id) in
            do! _ := on_obligations (fun w => put_in_session (w_obligations w) obligation_set) in
            plan_obligations c authority governance_basis_id (os_obligations obligation_set)
      end
  end.

(** ** Dispatch, observation and completion *)

Definition durable_draft (w : World P) (effects : list EffectRecord) : option EffectRecord :=
  first_where (fun e => bool_decide (ef_operation e = "purchase_order.create_draft")
                        && bool_decide (ef_status e = SUCCEEDED)
                        && match ef_provider_ref e with Some r => nonempty r | None => false end)
    ((fun item => default item (get_effect (w_exec w) (w_links w) (ef_effect_id item))) <$> effects).

Definition onboarding_payload (effect : EffectRecord) (effects : list EffectRecord) (payload : pydict)
  : M (option pydict) :=
  if bool_decide (ef_operation effect <> "purchase_order.confirm") then ret (Some payload)
  else
    gets (fun w => match durable_draft w effects with
      | None => None
      | Some draft => Some (dict_set payload "purchase_order_ref" (opt_str (ef_provider_ref draft)))
      end).

Definition verify_case_observation (c : AdministrativeCase) (effect : EffectRecord)
    (observation : RealityObservation) (facts : pydict) (expected_postcondition : option pydict)
  : result SemanticVerificationResult :=
  if financial_kind (c_case_kind c)
  then verify_financial_observation effect observation expected_postcondition
  else verify_onboarding_observation effect observation (Some facts) expected_postcondition.

Definition assess_case_completion (s : AdministrativeObligationSet) (effects : list EffectRecord)
    (outcomes : list ConfirmedOutcome) (realizations : list EffectRealizationAssessment)
    (links : list EffectObligationLink) : M CompletionAssessment :=
  do! c := require_case (os_case_id s) in
  if financial_kind (c_case_kind c) then
    ret (assess_administrative_completion s effects outcomes (Some realizations) (Some links) None)
  else
    lift (assess_onboarding_completion (inl s) (inl effects) (Some outcomes) (Some realizations)
            (Some links) None).

Definition assess_without_obligations (effects : list EffectRecord) (outcomes : list ConfirmedOutcome)
    (realizations : list EffectRealizationAssessment) : result CompletionAssessment :=
  assess_onboarding_completion (inr effects) (inr outcomes) None (Some realizations) None None.

(** [_completion_blocker_payload] *)
Definition completion_blocker_payload (a : CompletionAssessment) : pydict :=
  let ids l := VList ((fun i => VStr (uuid_str i)) <$> l) in
  [("requirement_id", VStr (ca_requirement_id a));
   ("blocking_reasons", VList (VStr <$> ca_blocking_reasons a));
   ("missing_effect_ids", ids (ca_missing_effect_ids a));
   ("missing_outcome_kinds", VList (VStr <$> ca_missing_outcome_kinds a));
   ("missing_obligation_ids", ids (ca_missing_obligation_ids a));
   ("missing_realization_obligation_ids", ids (ca_missing_realization_obligation_ids a));
   ("uncovered_obligation_ids", ids (ca_uncovered_obligation_ids a));
   ("missing_domain_state_obligation_ids", ids (ca_missing_domain_state_obligation_ids a));
   ("governance_basis_id", opt_uuid (ca_governance_basis_id a))].

Definition block_completion (c : AdministrativeCase) (a : CompletionAssessment) : M AdministrativeCase :=
  do! reconciling := transition clock (begin_reconciliation c) in
  also! persist_case_transition c reconciling "case.completion_blocked" (completion_blocker_payload a) then
  ret reconciling.

(** ** The engines *)

Definition onboarding_hooks : Hooks :=
  {| plan_current_effects := plan_onboarding_effects;
     validate_current_governance := validate_onboarding_governance;
     verify_observation := verify_case_observation;
     payload_for_effect := onboarding_payload;
     effect_dispatch_order := compare_dispatch;
     assess_completion := assess_case_completion;
     assess_completion_without_obligations := assess_without_obligations;
     handle_completion_blocked := block_completion |}.

Definition onboarding_engine : Owner :=
  {| hooks := onboarding_hooks;
     owner_drive_dispatch := drive_dispatch clock onboarding_hooks;
     owner_verify_all := verify_all onboarding_hooks |}.

(** [OnboardingExecutionEngine.run]: a missing qualification leaves the case. *)
Definition onboarding_run (case_id : uuid) : M AdministrativeCase :=
  catch (run clock enforced onboarding_engine case_id) FinancialQualificationPending
    (require_case case_id).

(** [FinancialExecutionEngine.run] *)
Definition financial_run (case_id : uuid) : M AdministrativeCase :=
  do! c := require_case case_id in
  if negb (financial_kind (c_case_kind c))
  then throw TransitionError ("financial execution engine requires a financial case, got '"
                              +:+ c_case_kind c +:+ "'")
  else onboarding_run case_id.
End engine.

(** ** The engine is lawful *)

Section lawful.
Context `{Hplat : Platform} {P : Type} `{Hprov : EffectProvider P} {Hcontract : ProviderContract P}
  (clock : nat -> instant) (enforced : bool).

Lemma put_effect_safe (w : World P) e e' x :
  put_effect (w_exec w) (w_links w) e = Ok (e', x) -> safe_move w (set_exec w x).
Proof.
  unfold put_effect. destruct (x_effects (w_exec w) !! ef_effect_id e) as [row|] eqn:Hrow; intros Hput Hck.
  - inv_ok. simplify_eq. apply (quiet_move w); done.
  - inv_ok. simplify_eq. cbn [w_exec set_exec].
    match goal with |- chain_ok ?x /\ _ => assert (advance (w_exec w) x) as Ha end.
    { split; [|done|done]. cbn. intros id row Hid. exists row.
      rewrite lookup_insert_ne by congruence. by repeat split; [..|left]. }
    split; [|split; [done|exists []; split; [by apply calls_since_nil|by intros ? ?%not_elem_of_nil]]].
    eapply chain_advance; [exact Ha| |done|done|done]. cbn.
    apply (keyed_insert ef_effect_id _ (effect_row e')), (ck_effects _ Hck).
Qed.

#[export] Instance respects_put_effect (f : World P -> EffectRecord) :
  Respects safe (on_exec (fun w => put_effect (w_exec w) (w_links w) (f w))).
Proof.
  apply respects_transact. intros w e w' Hrun. inv_ok. destruct v as [e1 x]. inv_ok. simplify_eq.
  by eapply put_effect_safe.
Qed.

Lemma respects_quiet_exec {A} (f : World P -> result (A * ExecDb)) :
  (forall w a x, f w = Ok (a, x) -> same_tables (w_exec w) x) -> Respects safe (on_exec f).
Proof.
  intros Hf. apply respects_transact. intros w a w' Hrun. inv_ok. destruct v as [a1 x]. inv_ok. simplify_eq.
  apply quiet_move; [by eapply Hf|done].
Qed.

#[export] Instance respects_put_authorization a :
  Respects safe (on_exec (P := P) (fun w => put_authorization (w_exec w) a)).
Proof.
  apply respects_quiet_exec. intros w a1 x. unfold put_authorization.
  destruct (_ !! _); intros ?; inv_ok; by simplify_eq.
Qed.

#[export] Instance respects_on_obligations {A} (f : World P -> result (A * ObligationDb)) :
  Respects safe (on_obligations f).
Proof.
  apply respects_transact. intros w a w' Hrun. inv_ok. destruct v as [a1 x]. inv_ok. simplify_eq.
  by apply quiet_move.
Qed.

#[export] Instance respects_on_governance {A} (f : World P -> result (A * gmap uuid GovernanceBasis)) :
  Respects safe (on_governance f).
Proof.
  apply respects_transact. intros w a w' Hrun. inv_ok. destruct v as [a1 x]. inv_ok. simplify_eq.
  by apply quiet_move.
Qed.

#[export] Instance respects_plan_obligations c authority gb items :
  Respects safe (plan_obligations (P := P) clock c authority gb items).
Proof.
  induction items as [|o rest IH]; cbn; [respect|]. apply respects_bind; [|intros; exact IH].
  unfold plan_obligation. respect.
Qed.

#[export] Instance onboarding_hooks_lawful : LawfulHooks (onboarding_hooks (P := P) clock enforced).
Proof.
  split; cbn; intros.
  - unfold plan_onboarding_effects, require_financial_qualifications, current_authority, revalidate_current.
    respect.
  - unfold validate_onboarding_governance, invalid_governance, revalidate_current. respect.
  - unfold onboarding_payload, ret, gets in *. case_bool_decide; by simplify_eq.
  - unfold assess_case_completion. respect.
  - unfold block_completion. respect.
Qed.

#[export] Instance onboarding_engine_lawful : LawfulOwner (onboarding_engine (P := P) clock enforced).
Proof.
  split; [typeclasses eauto|..]; intros c es os ls; cbn.
  - apply (drive_dispatch_respects clock (onboarding_hooks clock enforced)).
  - apply (verify_all_respects (onboarding_hooks clock enforced)).
Qed.

(** ** The engine carries its case *)

Lemma keeps_on_obligations {A} (f : World P -> result (A * ObligationDb)) :
  Respects keeps_cases (on_obligations f).
Proof.
  apply respects_transact. intros w a w' Hrun. inv_ok. destruct v as [a1 x]. inv_ok. by simplify_eq.
Qed.

Lemma keeps_on_governance {A} (f : World P -> result (A * gmap uuid GovernanceBasis)) :
  Respects keeps_cases (on_governance f).
Proof.
  apply respects_transact. intros w a w' Hrun. inv_ok. destruct v as [a1 x]. inv_ok. by simplify_eq.
Qed.

#[export] Instance keeps_put_authorization a :
  Respects keeps_cases (on_exec (P := P) (fun w => put_authorization (w_exec w) a)).
Proof.
  apply keeps_on_exec. intros w a1 x. unfold put_authorization.
  destruct (_ !! _); intros ?; inv_ok; by simplify_eq.
Qed.

#[export] Instance keeps_put_effect (f : World P -> EffectRecord) :
  Respects keeps_cases (on_exec (fun w => put_effect (w_exec w) (w_links w) (f w))).
Proof.
  apply keeps_on_exec. intros w a1 x. unfold put_effect.
  destruct (_ !! _); intros ?; inv_ok; by simplify_eq.
Qed.

#[export] Existing Instances keeps_on_obligations keeps_on_governance.

#[export] Instance keeps_plan_obligations c authority gb items :
  Respects keeps_cases (plan_obligations (P := P) clock c authority gb items).
Proof.
  induction items as [|o rest IH]; cbn; [respect|]. apply respects_bind; [|intros; exact IH].
  unfold plan_obligation. respect.
Qed.

#[export] Instance keeps_require_case case_id : Respects keeps_cases (require_case (P := P) case_id).
Proof. unfold require_case. respect. Qed.

#[export] Instance onboarding_case_laws : CaseLaws (onboarding_engine (P := P) clock enforced).
Proof.
  split.
  - intros c. cbn. unfold plan_onboarding_effects, require_financial_qualifications, current_authority, revalidate_current.
    respect.
  - intros c. cbn. unfold validate_onboarding_governance, invalid_governance, revalidate_current. respect.
  - intros. apply keeps_drive_loop. apply onboarding_hooks_lawful.
  - intros. apply keeps_verify_loop.
  - intros. cbn. unfold assess_case_completion. respect.
  - intros c a w c' w' Hst Hrun.
    apply bind_Ok in Hrun as (c1 & w1 & Htr & Hrun). apply bind_Ok in Hrun as (u & w2 & Hp & Hrun).
    injection Hrun as <- <-. split.
    + eapply move_stores; [|exact Hst|exact Htr|exact Hp]. intros now c2 Hnow.
      unfold begin_reconciliation in Hnow. inv_ok. by subst.
    + apply transition_Ok in Htr as [[now Hnow] _]. unfold begin_reconciliation in Hnow. inv_ok. by subst.
Qed.
End lawful.

(** ** Theorems *)

Section theorems.
Context `{Hplat : Platform} {P : Type} `{Hprov : EffectProvider P} {Hcontract : ProviderContract P}
  (clock : nat -> instant) (enforced : bool).

#[export] Instance onboarding_run_respects case_id :
  Respects safe (onboarding_run (P := P) clock enforced case_id).
Proof.
  apply respects_catch; [|by apply run_respects; typeclasses eauto|typeclasses eauto].
  intros e w w' He [_ Hm]. by apply Hm.
Qed.

#[export] Instance financial_run_respects case_id :
  Respects safe (financial_run (P := P) clock enforced case_id).
Proof. unfold financial_run. respect. Qed.

Local Abbreviation engine := (onboarding_engine (P := P) clock enforced).

Lemma assess_phase_satisfied c es os ls outcomes (w w' : World P) a :
  assess_phase enforced engine c es os ls outcomes w = (Ok a, w') -> ca_satisfied a = true ->
  exists realizations,
    list_realizations (w_exec w) (c_case_id c) (Some (c_authority_epoch c)) = Ok realizations /\
    match os with
    | Some s => ca_satisfied (assess_administrative_completion s es outcomes (Some realizations)
                                (Some ls) None) = true
    | None => enforced = false /\ ca_satisfied (assess_legacy es outcomes realizations) = true
    end.
Proof.
  intros Hrun Hsat. apply bind_Ok in Hrun as (rs & w1 & Hrs & Hrun). unfold reads in Hrs.
  injection Hrs as Hrs <-. exists rs. split; [done|]. destruct os as [s|].
  - apply bind_Ok in Hrun as (c1 & w2 & _ & Hrun).
    destruct (financial_kind _); unfold ret, lift in Hrun; injection Hrun as <- _; done.
  - destruct enforced; [discriminate Hrun|]. unfold lift in Hrun. injection Hrun as <- _. done.
Qed.

(** C4: A run completes a case only on proof.  Every effect it worked on (all
    the effects of the case at its authority epoch, and there is at least one)
    has a confirmed outcome of this case and epoch resting on a verified
    realization; governance was found valid once more after verification; the
    completion assessment over the recorded outcomes and realizations is
    satisfied; and the completed case is the one persisted. *)
Theorem completion_rests_on_proof (w w' : World P) c c' :
  stored w c -> chain_ok (w_exec w) -> not_executable (c_status c) = false ->
  run clock enforced engine (c_case_id c) w = (Ok c', w') -> c_status c' = COMPLETED ->
  stored w' c' /\
  exists c1 es os ls (w1 w2 w3 : World P) outcomes realizations,
    work_of w1 c' es os ls /\ advance (w_exec w1) (w_exec w') /\
    (forall e, e ∈ es -> exists id o, x_outcomes (w_exec w') !! id = Some o /\
       co_effect_id o = ef_effect_id e /\ co_case_id o = c_case_id c' /\
       co_authority_epoch o = c_authority_epoch c' /\ outcome_backed (w_exec w') o) /\
    c_case_id c1 = c_case_id c' /\ c_authority_epoch c1 = c_authority_epoch c' /\
    governance_passes engine c1 w2 w3 /\
    list_outcomes (w_exec w3) (c_case_id c') (Some (c_authority_epoch c')) = Ok outcomes /\
    length outcomes = length es /\
    list_realizations (w_exec w3) (c_case_id c') (Some (c_authority_epoch c')) = Ok realizations /\
    match os with
    | Some s => ca_satisfied (assess_administrative_completion s es outcomes (Some realizations)
                                (Some ls) None) = true
    | None => enforced = false /\ ca_satisfied (assess_legacy es outcomes realizations) = true
    end.
Proof.
  intros Hst Hck Hne Hrun Hcomp.
  destruct (run_spec clock enforced engine _ _ _ _ Hst Hrun) as [Hst' [[Hx _]|[_ Hc]]]; [congruence|].
  split; [done|]. destruct (Hc Hcomp) as (c1 & es & os & ls & w1 & w2 & w3 & Hwork & Hid & Hep & Hm1 & Hm2 & Hgr & Hm3).
  destruct (Hm1 Hck) as (Hck1 & _ & _). destruct (Hm2 Hck1) as (Hck2 & Ha2 & _).
  destruct Hgr as (w4 & w5 & outcomes & a & Hv & Hg & Ho & Has & Hsat & Hlen).
  pose proof (verify_all_respects (onboarding_hooks clock enforced) c1 es os ls _ _ _ Hv Hck2) as (Hck3 & Ha3 & _).
  destruct (Hm3 Hck3) as (Hck' & Ha' & _).
  destruct (assess_phase_satisfied _ _ _ _ _ _ _ _ Has Hsat) as (rs & Hrs & Hcompl).
  destruct (verify_loop_confirms (onboarding_hooks clock enforced) c1 os ls es false _ _ Hck2 Hv) as [_ Hconf].
  exists c1, es, os, ls, w1, w3, w4, outcomes, rs. rewrite <- Hid, <- Hep. split_and!; try done.
  - by eapply advance_trans, advance_trans.
  - intros e He. destruct (Hconf e He) as (i & o & Hl & H1 & H2 & H3).
    exists i, o. assert (x_outcomes (w_exec w') !! i = Some o) as Hl' by by eapply lookup_weaken, adv_outcomes.
    split_and!; try done. by eapply (ck_backed _ Hck').
Qed.

(** C7: What a run returns is what it persisted, on every branch; and a case
    that is not in an executable state is returned as it is, with the world
    untouched: no provider call, no audit event, no clock reading. *)
Theorem run_returns_the_stored_case (w w' : World P) c c' :
  stored w c -> run clock enforced engine (c_case_id c) w = (Ok c', w') ->
  stored w' c' /\ (not_executable (c_status c) = true -> c' = c /\ w' = w).
Proof.
  intros Hst Hrun. destruct (run_spec clock enforced engine _ _ _ _ Hst Hrun) as [Hst' Hcases].
  split; [done|]. intros Hne. destruct Hcases as [(_ & ? & ?)|[? _]]; [done|congruence].
Qed.

(** Steps that neither call the provider nor write the execution tables. *)
Definition undisturbed (w w' : World P) : Prop :=
  same_tables (w_exec w) (w_exec w') /\ w_calls w' = w_calls w.

Program Definition quiet : Motion (World P) := {| moves := undisturbed; breaks := fun _ => undisturbed |}.
Next Obligation. by repeat split. Qed.
Next Obligation. unfold undisturbed, same_tables. intuition congruence. Qed.
Next Obligation. done. Qed.
Next Obligation. unfold undisturbed, same_tables. intuition congruence. Qed.

#[export] Instance quiet_utcnow : Respects quiet (utcnow (P := P) clock).
Proof. by intros w r w' [= <- <-]. Qed.

#[export] Instance quiet_persist before after event payload :
  Respects quiet (persist_case_transition (P := P) before after event payload).
Proof.
  apply respects_transact. intros w u w' Hrun. inv_ok. subst. simplify_eq.
  split; [by eapply update_case_tables|done].
Qed.

#[export] Instance quiet_governance c :
  Respects quiet (validate_onboarding_governance (P := P) clock enforced c).
Proof. unfold validate_onboarding_governance, invalid_governance, revalidate_current. respect. Qed.

#[export] Instance quiet_reopen c v : Respects quiet (reopen_for_governance (P := P) clock c v).
Proof. unfold reopen_for_governance, transition. respect. Qed.

(** Any engine whose governance check only reads stops at a failed check. *)
Lemma stale_gate_blocks (owner : Owner (P := P)) `{!CaseLaws owner} `{!LawfulOwner owner} (w w1 w' : World P) c c' v :
  Respects quiet (validate_current_governance owner c) ->
  stored w c -> not_executable (c_status c) = false ->
  validate_current_governance owner c w = (Ok (Some v), w1) -> gv_valid v = false ->
  run clock enforced owner (c_case_id c) w = (Ok c', w') ->
  stored w' c' /\ c_status c' = REOPEN_REQUIRED /\ c_reopen_reason c' = Some GOVERNANCE_STALE /\
  c_authority_epoch c' = c_authority_epoch c + 1 /\
  w_calls w' = w_calls w /\ same_tables (w_exec w) (w_exec w').
Proof.
  intros Hquiet Hst Hne Hv Hinv Hrun.
  pose proof (run_spec clock enforced owner _ _ _ _ Hst Hrun) as [Hst' _]. split; [done|].
  apply bind_Ok in Hrun as (c0 & w0 & Hreq & Hrun). destruct (require_stored _ _ _ _ Hst Hreq) as [-> ->].
  rewrite Hne in Hrun. apply bind_Ok in Hrun as (g & w2 & Hg & Hrun).
  apply bind_Ok in Hg as (v' & w3 & Hv' & Hg).
  assert (v' = Some v /\ w3 = w1) as [-> ->] by (rewrite Hv in Hv'; by simplify_eq).
  cbv beta iota in Hg. rewrite Hinv in Hg. cbn [negb] in Hg.
  apply bind_Ok in Hg as (c2 & w4 & Hre & Hg). injection Hg as <- <-. injection Hrun as <- <-.
  destruct (moves_trans quiet w w1 w4 (Hquiet _ _ _ Hv) (respects _ _ _ Hre)) as [Ht Hc].
  apply bind_Ok in Hre as (c3 & w5 & Htr & Hre). apply bind_Ok in Hre as (u & w6 & Hp & Hre).
  injection Hre as <- <-. apply transition_Ok in Htr as [[now Hnow] _].
  unfold require_reopen in Hnow. inv_ok. by subst.
Qed.

(** C6: Stale governance stops execution before anything happens: when the
    check at the start of the run finds the basis invalid, the run makes no
    provider call, plans nothing, and persists the case as awaiting reopen with
    the authority epoch advanced. *)
Theorem stale_governance_blocks_execution (w w1 w' : World P) c c' v :
  stored w c -> not_executable (c_status c) = false ->
  validate_onboarding_governance clock enforced c w = (Ok (Some v), w1) -> gv_valid v = false ->
  run clock enforced engine (c_case_id c) w = (Ok c', w') ->
  stored w' c' /\ c_status c' = REOPEN_REQUIRED /\ c_reopen_reason c' = Some GOVERNANCE_STALE /\
  c_authority_epoch c' = c_authority_epoch c + 1 /\
  w_calls w' = w_calls w /\ same_tables (w_exec w) (w_exec w').
Proof. exact (stale_gate_blocks engine w w1 w' c c' v (quiet_governance c)). Qed.

(** ** Planning *)

(** Rows planning has written stay. *)
Definition extends (w w' : World P) : Prop :=
  x_authorizations (w_exec w) ⊆ x_authorizations (w_exec w') /\
  x_effects (w_exec w) ⊆ x_effects (w_exec w') /\ w_links w ⊆ w_links w'.

Program Definition growing : Motion (World P) := {| moves := extends; breaks := fun _ => extends |}.
Next Obligation. by repeat split. Qed.
Next Obligation. unfold extends. intros w1 w2 w3 (? & ? & ?) (? & ? & ?). split_and!; by etrans. Qed.
Next Obligation. done. Qed.
Next Obligation. unfold extends. intros _ w1 w2 w3 (? & ? & ?) (? & ? & ?). split_and!; by etrans. Qed.

#[local] Instance growing_utcnow : Respects growing (utcnow (P := P) clock).
Proof. by intros w r w' [= <- <-]. Qed.

Lemma put_authorization_spec x a a' x' :
  put_authorization x a = Ok (a', x') ->
  a' = a /\ x_authorizations x' !! ea_authorization_id a = Some a /\
  x_authorizations x ⊆ x_authorizations x' /\ x_effects x' = x_effects x.
Proof.
  unfold put_authorization. destruct (x_authorizations x !! ea_authorization_id a) as [row|] eqn:Hrow.
  - intros Hrun. inv_ok. simplify_eq. propify. subst.
    assert (row = a) as -> by (unfold ExecutionAuthorization_validate in E; by inv_ok). done.
  - intros Hrun. inv_ok. simplify_eq. cbn. rewrite lookup_insert_eq.
    split_and!; try done. by apply insert_subseteq.
Qed.

Lemma put_effect_spec x links e e' x' :
  put_effect x links e = Ok (e', x') ->
  x_authorizations x' = x_authorizations x /\ x_effects x ⊆ x_effects x' /\
  effect_identity e' = effect_identity e /\
  exists row, x_effects x' !! ef_effect_id e = Some row /\ effect_identity row = effect_identity e.
Proof.
  unfold put_effect. destruct (x_effects x !! ef_effect_id e) as [row|] eqn:Hrow; intros Hrun; inv_ok; simplify_eq.
  - propify. split_and!; try done. by exists row.
  - split_and!; try done; [by apply insert_subseteq|]. exists (effect_row e'). cbn. by rewrite lookup_insert_eq.
Qed.

Lemma link_effect_stores db e o l db' :
  link_effect db e o = Ok (l, db') ->
  effect_obligation_links db ⊆ effect_obligation_links db' /\
  effect_obligation_links db' !! ef_effect_id e
    = Some (mkEffectObligationLink (ef_effect_id e) (ob_obligation_id o) (ob_governance_basis_id o)).
Proof.
  intros (-> & _ & _ & _ & [[-> Hl]|(Hnone & _ & ->)])%link_effect_cases; [by split|]. cbn.
  rewrite lookup_insert_eq. split; [by apply insert_subseteq|done].
Qed.

(** The obligation has its authorization, its planned effect under that
    authorization, and the link between effect and obligation. *)
Definition planned_for (w : World P) (c : AdministrativeCase) (o : AdministrativeObligation) : Prop :=
  exists a e,
    x_authorizations (w_exec w) !! ea_authorization_id a = Some a /\
    ea_case_id a = c_case_id c /\ ea_authority_epoch a = c_authority_epoch c /\
    ea_target_system a = ob_target_system o /\ ea_allowed_operations a = [ob_required_operation o] /\
    x_effects (w_exec w) !! ef_effect_id e = Some e /\ ef_case_id e = c_case_id c /\
    ef_authority_epoch e = c_authority_epoch c /\ ef_authorization_id e = ea_authorization_id a /\
    effect_implements e o = true /\
    w_links w !! ef_effect_id e
      = Some (mkEffectObligationLink (ef_effect_id e) (ob_obligation_id o) (ob_governance_basis_id o)).

Lemma planned_for_extends w w' c o : extends w w' -> planned_for w c o -> planned_for w' c o.
Proof.
  intros (Ha & He & Hl) (a & e & H1 & H2 & H3 & H4 & H5 & H6 & H7 & H8 & H9 & H10 & H11). exists a, e.
  split_and!; try done; by eapply lookup_weaken.
Qed.

#[local] Instance growing_plan_obligation c authority gb o :
  Respects growing (plan_obligation (P := P) clock c authority gb o).
Proof.
  unfold plan_obligation. respect; apply respects_transact; intros w r w' Hrun; inv_ok;
    destruct v as [r1 x]; inv_ok; simplify_eq; unfold growing, extends; cbn.
  - apply put_authorization_spec in E as (_ & _ & ? & ->). done.
  - apply put_effect_spec in E as (-> & ? & _). done.
  - apply link_effect_stores in E as [? _]. done.
Qed.

Lemma mint_for_spec c authority o id now a :
  mint_for c authority o id now = Ok a ->
  ea_case_id a = c_case_id c /\ ea_authority_epoch a = c_authority_epoch c /\
  ea_target_system a = ob_target_system o /\ ea_allowed_operations a = [ob_required_operation o] /\
  ea_authorization_id a = id.
Proof.
  unfold mint_for, mint_execution_authorization_from_approval, mint_execution_authorization,
    ExecutionAuthorization_validate.
  intros Hrun. apply rbind_Ok in Hrun as (a0 & Hmint & Hrun). inv_ok. subst a.
  destruct authority; inv_ok; destruct (c_policy_ref c); inv_ok; by subst.
Qed.

Lemma on_obligations_Ok {A} (f : World P -> result (A * ObligationDb)) w a w' :
  on_obligations f w = (Ok a, w') -> exists db, f w = Ok (a, db) /\ w' = set_obligations w db.
Proof.
  unfold on_obligations. intros Hrun. apply transact_Ok in Hrun. inv_ok. destruct v as [a1 x]. inv_ok.
  simplify_eq. eauto.
Qed.

Lemma identity_fields a b :
  effect_identity a = effect_identity b ->
  ef_effect_id a = ef_effect_id b /\ ef_case_id a = ef_case_id b /\
  ef_authority_epoch a = ef_authority_epoch b /\ ef_authorization_id a = ef_authorization_id b /\
  ef_target_system a = ef_target_system b /\ ef_operation a = ef_operation b /\
  ef_subject_ref a = ef_subject_ref b /\ ef_authority_class a = ef_authority_class b.
Proof. unfold effect_identity. by intros [=]. Qed.

Lemma plan_obligation_plans c authority gb o (w w' : World P) u :
  plan_obligation clock c authority gb o w = (Ok u, w') -> planned_for w' c o.
Proof.
  intros Hrun. apply bind_Ok in Hrun as (t1 & w1 & _ & Hrun).
  apply bind_Ok in Hrun as (a & w2 & Hmint & Hrun). unfold lift in Hmint. injection Hmint as Hmint <-.
  apply mint_for_spec in Hmint as (Hc & Hep & Hsys & Hops & Haid).
  apply bind_Ok in Hrun as (a' & w3 & Hput & Hrun). apply on_exec_Ok in Hput as (x & Hput & ->).
  apply put_authorization_spec in Hput as (-> & Hrow & _ & _).
  apply bind_Ok in Hrun as (t2 & w4 & Ht2 & Hrun). injection Ht2 as _ <-.
  apply bind_Ok in Hrun as (e & w5 & Hplan & Hrun). unfold lift in Hplan. injection Hplan as Hplan <-.
  unfold plan_effect in Hplan. inv_ok. subst e.
  apply bind_Ok in Hrun as (e & w6 & Hpe & Hrun). apply on_exec_Ok in Hpe as (x' & Hpe & ->).
  apply put_effect_spec in Hpe as (Hauth & _ & Hide & row & Hr & Hidrow).
  apply bind_Ok in Hrun as (l & w7 & Hl & Hrun). injection Hrun as <-.
  apply on_obligations_Ok in Hl as (db' & Hl & ->). pose proof (link_effect_cases _ _ _ _ _ Hl) as (_ & _ & _ & Himp & _).
  apply link_effect_stores in Hl as [_ Hlink]. cbn in *.
  apply identity_fields in Hide as (Hi1 & _ & _ & _ & Hi5 & Hi6 & Hi7 & Hi9).
  apply identity_fields in Hidrow as (Hj1 & Hj2 & Hj3 & Hj4 & Hj5 & Hj6 & Hj7 & Hj9). cbn in *.
  exists a, row. unfold w_links. cbn. rewrite Hauth, Hj1, <- Hi1. split_and!; try done; try congruence.
  unfold effect_implements in *. rewrite Hi5, Hi6, Hi7, Hi9 in Himp. by rewrite Hj5, Hj6, Hj7, Hj9.
Qed.

Lemma plan_obligations_plan c authority gb items (w w' : World P) u :
  plan_obligations clock c authority gb items w = (Ok u, w') ->
  forall o, o ∈ items -> planned_for w' c o.
Proof.
  revert w. induction items as [|o0 rest IH]; intros w Hrun o; [by intros ?%not_elem_of_nil|].
  cbn in Hrun. apply bind_Ok in Hrun as (u1 & w1 & H1 & Hrun). intros [->|Ho]%elem_of_cons; [|by eapply IH].
  eapply planned_for_extends; [|by eapply plan_obligation_plans].
  assert (Hg : Respects growing (plan_obligations (P := P) clock c authority gb rest)).
  { clear. induction rest as [|o rest IH]; cbn; [respect|]. apply respects_bind; [apply _|intros; exact IH]. }
  exact (Hg _ _ _ Hrun).
Qed.

(** The obligation repository moves by its own operations. *)
Definition obligations_step (w w' : World P) : Prop := rtc ob_step (w_obligations w) (w_obligations w').

Program Definition by_repository : Motion (World P) :=
  {| moves := obligations_step; breaks := fun _ => obligations_step |}.
Next Obligation. intros w. apply rtc_refl. Qed.
Next Obligation. unfold obligations_step. intros. by etrans. Qed.
Next Obligation. done. Qed.
Next Obligation. unfold obligations_step. intros. by etrans. Qed.

#[local] Instance by_repository_plan c authority gb items :
  Respects by_repository (plan_obligations (P := P) clock c authority gb items).
Proof.
  induction items as [|o rest IH]; cbn; [respect|]. apply respects_bind; [|intros; exact IH].
  unfold plan_obligation, utcnow. respect; try (intros w r w' [= <- <-]; apply rtc_refl);
    apply respects_transact; intros w r w' Hrun; inv_ok; destruct v as [r1 x]; inv_ok; simplify_eq;
    try apply rtc_refl. apply rtc_once. by eapply step_link.
Qed.

(** Steps that leave the obligation repository alone. *)
Program Definition same_obligations : Motion (World P) :=
  {| moves := fun w w' => w_obligations w' = w_obligations w;
     breaks := fun _ w w' => w_obligations w' = w_obligations w |}.
Next Obligation. done. Qed.
Next Obligation. cbn. congruence. Qed.
Next Obligation. done. Qed.
Next Obligation. cbn. congruence. Qed.

#[local] Instance same_obligations_utcnow : Respects same_obligations (utcnow (P := P) clock).
Proof. by intros w r w' [= <- <-]. Qed.

#[local] Instance same_obligations_governance {A} (f : World P -> result (A * gmap uuid GovernanceBasis)) :
  Respects same_obligations (on_governance f).
Proof.
  apply respects_transact. intros w a w' Hrun. inv_ok. destruct v as [a1 x]. inv_ok. by simplify_eq.
Qed.

Lemma same_obligations_authority c ev :
  Respects same_obligations (current_authority (P := P) clock enforced c ev).
Proof. unfold current_authority, revalidate_current. respect. Qed.

Lemma same_obligations_qualifications c :
  Respects same_obligations
    (if qualified_kind (c_case_kind c) then require_financial_qualifications (P := P) c else ret tt).
Proof. unfold require_financial_qualifications. respect. Qed.

(** C5: Planning leaves nothing out: when it returns, the set derived from the
    current evaluation is the stored set of the case's authority epoch, and
    every obligation of it has an authorization scoped to exactly its system
    and operation, a planned effect under that authorization which implements
    it, and the link between the two. *)
Theorem planning_covers_every_obligation (w w' : World P) c u :
  ob_reachable (w_obligations w) ->
  plan_onboarding_effects clock enforced c w = (Ok u, w') ->
  exists evaluation gb s r, derive_obligations c evaluation gb = Ok s /\
    c_policy_ref c = Some (pe_policy_ref evaluation) /\
    get_current (w_obligations w') (os_case_id s) (os_authority_epoch s) = Ok (Some r) /\
    (r = s \/ obligation_set_eqb r s = true) /\
    (forall o, o ∈ os_obligations s -> planned_for w' c o).
Proof.
  intros Hreach%reachable_wf Hrun. unfold plan_onboarding_effects in Hrun.
  destruct (c_fact_snapshot c); [|discriminate Hrun].
  apply bind_Ok in Hrun as (u1 & w1 & H1 & Hrun). apply bind_Ok in Hrun as (ev & w2 & H2 & Hrun).
  unfold reads in H2. injection H2 as _ <-.
  destruct ev as [ev|]; [|discriminate Hrun]. case_bool_decide as Hp; [discriminate Hrun|].
  apply bind_Ok in Hrun as ([authority gb] & w3 & H3 & Hrun).
  assert (w_obligations w3 = w_obligations w) as Hobs.
  { transitivity (w_obligations w1);
      [exact (same_obligations_authority _ _ _ _ _ H3)|exact (same_obligations_qualifications _ _ _ _ H1)]. }
  apply bind_Ok in Hrun as (s & w4 & Hs & Hrun). unfold lift in Hs. injection Hs as Hs <-.
  apply bind_Ok in Hrun as (s' & w5 & Hput & Hrun). apply on_obligations_Ok in Hput as (db & Hput & ->).
  rewrite Hobs in Hput. exists ev, gb, s, s'. split; [done|]. split; [done|].
  destruct (put_persists _ _ _ _ _ Hreach Hput (respects (R := by_repository) _ _ _ Hrun)) as [Hg Hr].
  split; [done|]. split; [done|]. by eapply plan_obligations_plan.
Qed.
End theorems.
