(* ===== verification/OffboardingEngine.v ===== *)
(** * The offboarding engine, [offboarding_execution.py]

    [OffboardingExecutionEngine] waits for the authoritative effective time,
    plans the external effects of a departure and carries out its Administrative
    part itself: bindings, roles and delegations are expired and the principal
    deactivated while planning, and roles handed to a qualified successor once
    the external effects are verified.  The clock of the engine is [utcnow], its
    default.  [OffboardingPolicyDefinition.model_validate], pydantic's reading of
    a stored definition, is the parameter [parse_definition]. *)

From stdpp Require Import base gmap strings list relations.
From Stdlib Require Import ZArith Lia.
From S2P Require Import Prelude Python CPython Uuid Store Domain Policy Authority AuthorityLifecycle.
From S2P Require Import Lifecycle Obligations Completion Verification Transfer Derivation PolicyPlane.
From S2P Require Import Financial Persistence Transactions Governance Machine Execution.
From S2P Require Import ExecutionSafety CaseFlow OnboardingEngine.

Open Scope Z_scope.
Open Scope orch_scope.
Open Scope machine_scope.

(** [_effect_order] *)
Definition offboarding_rank (operation : string) : Z :=
  if bool_decide (operation = "identity.disable") then 0 else
  if bool_decide (operation = "sessions.revoke") then 1 else
  if bool_decide (operation = "employee.deactivate") then 2 else 99.

Definition compare_offboarding_effects (a b : EffectRecord) : comparison :=
  cmp_then (Z.compare (offboarding_rank (ef_operation a)) (offboarding_rank (ef_operation b)))
    (String.compare (uuid_str (ef_effect_id a)) (uuid_str (ef_effect_id b))).

(** [expected[key]] *)
Definition expected_field (o : AdministrativeObligation) (key : string) : result pyval :=
  match assoc key (ob_expected_postcondition o) with
  | Some v => Ok v
  | None => raise KeyError ("'" +:+ key +:+ "'")
  end.

Definition offboarding_reason : string := "employee offboarding effective time reached".

Section offboarding.
Context `{Hplat : Platform} {P : Type} `{Hprov : EffectProvider P} (clock : nat -> instant)
  (enforced : bool) (parse_definition : pydict -> result OffboardingPolicyDefinition).

Local Abbreviation M := (M (World P)).

(** [compile_offboarding_policy] *)
Definition compile_offboarding_policy (record : PolicyVersionRecord)
  : result (PolicyRef * OffboardingPolicyDefinition) :=
  refuse bool_decide (pv_policy_id record <> "employee-offboarding") with PolicyPlaneError
    saying "record is not an employee-offboarding policy";;
  let! d := if is_nil (pv_definition record) then Ok OffboardingPolicy_default_definition
            else parse_definition (pv_definition record) in
  Ok (pv_policy_ref record, d).

(** ** Domain state *)

(** [_record_domain_fulfillment] *)
Definition record_domain_fulfillment (c : AdministrativeCase) (o : AdministrativeObligation)
    (observed : pydict) (evidence_ref : option string) : M unit :=
  do! now := utcnow clock in
  do! _ := on_obligations (fun w => record_domain_state_fulfillment (w_obligations w)
    (mkObligationDomainStateFulfillment
       (uuid5 ("administrative:domain-fulfillment:" +:+ uuid_str (ob_obligation_id o)))
       (ob_obligation_id o) (c_case_id c) (c_authority_epoch c) (ob_governance_basis_id o)
       DOMAIN_STATE_VERIFIED issuer "verified Administrative lifecycle state"
       (json_digest (VDict observed)) evidence_ref now)) in
  ret tt.

Definition event_evidence (event : AuthorityLifecycleEvent) : string :=
  "authority-event:" +:+ uuid_str (ev_event_id event).

(** The target row of an expiry, [UUID(str(expected[key]))]. *)
Definition expiry_target (o : AdministrativeObligation) (key : string) : result uuid :=
  let! v := expected_field o key in UUID_of (py_str v).

(** A successor still qualifies: active, not the departing principal, and
    holding some role in the organization scope. *)
Definition successor_still_qualifies (r : AdministrativeTransferRequirement) (successor : string) : M bool :=
  do! principal := gets (fun w => get_principal (w_authority w) successor) in
  if bool_decide (principal = None) || bool_decide (successor = tr_departing_principal_id r)
  then ret false
  else
    do! now := utcnow clock in
    do! roles := reads (fun w => roles_for (w_authority w) successor (tr_organization_scope r) now) in
    ret (negb (bool_decide (roles = ∅))).

Definition successor_assignment (r : AdministrativeTransferRequirement) (successor : string)
    (effective_at : instant) : RoleAssignment :=
  mkRoleAssignment
    (uuid5 ("administrative:offboarding-successor-role:" +:+ uuid_str (tr_requirement_id r)))
    successor (tr_role r) (tr_organization_scope r) effective_at None.

(** The [role_assignment.transfer] branch: [None] is [continue]. *)
Definition transfer_role (transfers : list AdministrativeTransferRequirement)
    (o : AdministrativeObligation) (effective_at : instant) : M (option string) :=
  do! key := lift (expected_field o "transfer_requirement_id") in
  match first_where (fun r => bool_decide (uuid_str (tr_requirement_id r) = py_str key)) (rev transfers) with
  | None => throw KeyError ("'" +:+ py_str key +:+ "'")
  | Some r =>
      if bool_decide (tr_status r <> SUCCESSOR_QUALIFIED) then ret None
      else match tr_successor_principal_id r with
      | None => throw AssertionError ""
      | Some successor =>
          do! qualifies := successor_still_qualifies r successor in
          if negb qualifies then ret None
          else
            do! assignment := on_authority (fun w =>
              put_role_assignment (w_authority w) (successor_assignment r successor effective_at)) in
            do! _ := on_transfers (fun w => mark_fulfilled (w_transfers w) (tr_requirement_id r) successor) in
            ret (Some ("role-assignment:" +:+ uuid_str (ra_assignment_id assignment)))
      end
  end.

(** The branches on the required operation: the evidence of the change made. *)
Definition apply_domain_obligation (transfers : list AdministrativeTransferRequirement)
    (o : AdministrativeObligation) (effective_at : instant) : M (option string) :=
  let operation := ob_required_operation o in
  if bool_decide (operation = "identity_binding.expire") then
    do! id := lift (expiry_target o "binding_id") in
    do! event := on_lifecycle (fun w =>
      expire_identity_binding (w_authority w) (w_lifecycle w) id issuer offboarding_reason effective_at) in
    ret (Some (event_evidence event))
  else if bool_decide (operation = "role_assignment.expire") then
    do! id := lift (expiry_target o "assignment_id") in
    do! event := on_lifecycle (fun w =>
      expire_role_assignment (w_authority w) (w_lifecycle w) id issuer offboarding_reason effective_at) in
    ret (Some (event_evidence event))
  else if bool_decide (operation = "delegation.expire") then
    do! id := lift (expiry_target o "delegation_id") in
    do! event := on_lifecycle (fun w =>
      expire_delegation (w_authority w) (w_lifecycle w) id issuer offboarding_reason effective_at) in
    ret (Some (event_evidence event))
  else if bool_decide (operation = "role_assignment.transfer") then
    transfer_role transfers o effective_at
  else if bool_decide (operation = "principal.deactivate") then
    do! principal := lift (expected_field o "principal_id") in
    do! event := on_lifecycle (fun w =>
      deactivate_principal (w_authority w) (w_lifecycle w) (py_str principal) issuer
        offboarding_reason effective_at) in
    ret (Some (event_evidence event))
  else throw TransitionError ("unsupported offboarding domain obligation " +:+ operation).

(** The body of the loop of [_fulfill_domain_state]. *)
Definition fulfill_obligation (c : AdministrativeCase) (effective_at : instant)
    (transfers : list AdministrativeTransferRequirement) (transfer_phase : bool)
    (o : AdministrativeObligation) : M unit :=
  if bool_decide (ob_fulfillment_kind o <> DOMAIN_STATE_VERIFIED) then ret tt
  else
    do! existing := reads (fun w => get_domain_state_fulfillment (w_obligations w) (ob_obligation_id o)) in
    match existing with
    | Some _ => ret tt
    | None =>
        if negb (Bool.eqb (bool_decide (ob_required_operation o = "role_assignment.transfer"))
                   transfer_phase)
        then ret tt
        else
          do! evidence := apply_domain_obligation transfers o effective_at in
          match evidence with
          | None => ret tt
          | Some ref => record_domain_fulfillment c o (ob_expected_postcondition o) (Some ref)
          end
    end.

Fixpoint fulfill_obligations (c : AdministrativeCase) (effective_at : instant)
    (transfers : list AdministrativeTransferRequirement) (transfer_phase : bool)
    (items : list AdministrativeObligation) : M unit :=
  match items with
  | [] => ret tt
  | o :: rest =>
      also! fulfill_obligation c effective_at transfers transfer_phase o then
      fulfill_obligations c effective_at transfers transfer_phase rest
  end.

(** [_fulfill_domain_state] *)
Definition fulfill_domain_state (c : AdministrativeCase) (s : AdministrativeObligationSet)
    (transfers : list AdministrativeTransferRequirement) (transfer_phase : bool) : M unit :=
  match authoritative_effective_time c with
  | None => throw TransitionError "domain revocation requires effective time"
  | Some effective_at => fulfill_obligations c effective_at transfers transfer_phase (os_obligations s)
  end.

(** ** Planning *)

(** The body of the planning loop over the external obligations. *)
Definition plan_external (c : AdministrativeCase) (satisfaction : ApprovalSatisfaction)
    (basis : GovernanceBasis) (o : AdministrativeObligation) : M unit :=
  if bool_decide (ob_fulfillment_kind o <> EXTERNAL_EFFECT_VERIFIED) then ret tt
  else
    let parts := [ob_target_system o; ob_required_operation o] in
    do! minted_at := utcnow clock in
    do! authorization := lift (mint_for c (inl satisfaction) o (stable_id "authorization" c parts) minted_at) in
    do! authorization := on_exec (fun w => put_authorization (w_exec w) authorization) in
    do! planned_at := utcnow clock in
    do! effect := lift (plan_effect c authorization (ob_required_operation o) IRREVERSIBLE
                          (stable_id "effect" c parts) planned_at) in
    do! effect := on_exec (fun w => put_effect (w_exec w) (w_links w)
      (with_lineage effect (stable_id "effect" c parts) (ob_obligation_id o) (gb_basis_id basis)
         (c_updated_at c))) in
    do! _ := on_obligations (fun w => link_effect (w_obligations w) effect o) in
    prepare c o basis.

Fixpoint plan_externals (c : AdministrativeCase) (satisfaction : ApprovalSatisfaction)
    (basis : GovernanceBasis) (items : list AdministrativeObligation) : M unit :=
  match items with
  | [] => ret tt
  | o :: rest =>
      also! plan_external c satisfaction basis o then
      plan_externals c satisfaction basis rest
  end.

(** The approval and its revalidated basis. *)
Definition offboarding_authority (c : AdministrativeCase) (evaluation : PolicyEvaluation)
  : M (ApprovalSatisfaction * GovernanceBasis) :=
  do! satisfaction := gets (fun w =>
    get_approval_satisfaction (w_authority w) (c_case_id c) (c_authority_epoch c)) in
  match satisfaction with
  | None => throw TransitionError "offboarding execution requires current approval satisfaction"
  | Some s =>
      if bool_decide (Some (as_policy_ref s) <> c_policy_ref c)
      then throw TransitionError "offboarding execution requires current approval satisfaction"
      else if negb (forallb (fun r => bool_decide (r ∈ as_satisfied_roles s))
                      (pe_required_decision_roles evaluation))
      then throw TransitionError "offboarding approval satisfaction does not cover required roles"
      else
        do! basis := reads (fun w => get_for_approval (w_governance w) (as_satisfaction_id s)) in
        match basis with
        | None => throw TransitionError "offboarding execution requires governance basis"
        | Some b =>
            do! validation := revalidate_current clock b c in
            if negb (gv_valid validation)
            then throw TransitionError ("governance basis is stale: " +:+ join "; " (gv_reasons validation))
            else ret (s, b)
        end
  end.

(** The obligation set of this epoch with its transfer requirements: the stored
    one, or derived from the current authority and stored. *)
Definition offboarding_obligations (c : AdministrativeCase) (evaluation : PolicyEvaluation)
    (policy : PolicyRef * OffboardingPolicyDefinition) (basis : GovernanceBasis)
  : M (AdministrativeObligationSet * list AdministrativeTransferRequirement) :=
  do! existing := reads (fun w => get_current (w_obligations w) (c_case_id c) (c_authority_epoch c)) in
  match existing with
  | Some s =>
      do! transfers := reads (fun w => list_for_case (w_transfers w) (c_case_id c) (c_authority_epoch c)) in
      ret (s, transfers)
  | None =>
      do! now := utcnow clock in
      do! transfers := reads (fun w =>
        derive_transfer_requirements c (snd policy) (w_authority w) (gb_basis_id basis) now) in
      do! _ := on_transfers (fun w => put_all (w_transfers w) transfers) in
      do! now := utcnow clock in
      do! s := reads (fun w => derive_offboarding_obligations c evaluation (fst policy) (snd policy)
                                 (w_authority w) (gb_basis_id basis) (Some transfers) now) in
      do! _ := on_obligations (fun w => put_in_session (w_obligations w) s) in
      ret (s, transfers)
  end.

(** [_plan_current_effects] *)
Definition plan_offboarding_effects (c : AdministrativeCase) : M unit :=
  match c_fact_snapshot c, c_policy_ref c with
  | Some _, Some ref =>
      do! evaluation := reads (fun w => get_latest_policy_evaluation (w_exec w) (c_case_id c)) in
      match evaluation with
      | None => throw TransitionError "offboarding execution requires current policy evaluation"
      | Some evaluation =>
          if bool_decide (pe_policy_ref evaluation <> ref)
          then throw TransitionError "offboarding execution requires current policy evaluation"
          else
            do! record := gets (fun w => get_version (w_policies w) (pr_policy_id ref) (pr_version ref)) in
            match record with
            | None => throw TransitionError "offboarding policy version is not persisted"
            | Some record =>
                do! policy := lift (compile_offboarding_policy record) in
                do! (satisfaction, basis) := offboarding_authority c evaluation in
                do! (s, transfers) := offboarding_obligations c evaluation policy basis in
                also! fulfill_domain_state c s transfers false then
                plan_externals c satisfaction basis (os_obligations s)
            end
      end
  | _, _ => throw TransitionError "offboarding execution requires current governed facts"
  end.

(** ** Completion *)

(** [_assess_completion] *)
Definition assess_offboarding_completion (s : AdministrativeObligationSet) (effects : list EffectRecord)
    (outcomes : list ConfirmedOutcome) (realizations : list EffectRealizationAssessment)
    (links : list EffectObligationLink) : M CompletionAssessment :=
  do! fulfillments := reads (fun w =>
    list_domain_state_fulfillments (w_obligations w) (os_case_id s) (os_authority_epoch s)) in
  ret (assess_administrative_completion s effects outcomes (Some realizations) (Some links)
         (Some fulfillments)).

(** [_handle_completion_blocked] *)
Definition block_offboarding_completion (c : AdministrativeCase) (a : CompletionAssessment)
  : M AdministrativeCase :=
  do! obligation_set := reads (fun w => get_current (w_obligations w) (c_case_id c) (c_authority_epoch c)) in
  let transfer_ids := match obligation_set with
    | Some s => ob_obligation_id <$> List.filter
        (fun o => bool_decide (ob_required_operation o = "role_assignment.transfer")) (os_obligations s)
    | None => []
    end in
  if existsb (fun i => bool_decide (i ∈ ca_missing_domain_state_obligation_ids a)) transfer_ids then
    do! reopened := transition clock (require_reopen c AUTHORITY_UNRESOLVED) in
    also! persist_case_transition c reopened "case.transfer_reassessment_required"
          (completion_blocker_payload a) then
    ret reopened
  else block_completion clock c a.

(** ** The engine *)

Definition offboarding_hooks : Hooks :=
  {| plan_current_effects := plan_offboarding_effects;
     validate_current_governance := validate_onboarding_governance clock enforced;
     verify_observation := verify_case_observation;
     payload_for_effect := onboarding_payload;
     effect_dispatch_order := compare_dispatch;
     assess_completion := assess_offboarding_completion;
     assess_completion_without_obligations := assess_without_obligations;
     handle_completion_blocked := block_offboarding_completion |}.

(** [_verify_all]: roles are handed over once every effect is verified. *)
Definition verify_offboarding (c : AdministrativeCase) (effects : list EffectRecord)
    (obligation_set : option AdministrativeObligationSet) (links : list EffectObligationLink)
  : M VerifyState :=
  do! outcome := verify_all offboarding_hooks c effects obligation_set links in
  match outcome, obligation_set with
  | verify_verified, Some s =>
      do! transfers := reads (fun w => list_for_case (w_transfers w) (c_case_id c) (c_authority_epoch c)) in
      also! fulfill_domain_state c s transfers true then
      ret outcome
  | _, _ => ret outcome
  end.

Definition offboarding_engine : Owner :=
  {| hooks := offboarding_hooks;
     owner_drive_dispatch c effects obligation_set links :=
       drive_dispatch clock offboarding_hooks c (sort_by compare_offboarding_effects effects)
         obligation_set links;
     owner_verify_all := verify_offboarding |}.

(** The inherited run, [OnboardingExecutionEngine.run]. *)
Definition run_offboarding_executor (case_id : uuid) : M AdministrativeCase :=
  catch (run clock enforced offboarding_engine case_id) FinancialQualificationPending
    (require_case case_id).

Definition await_effective_time (c : AdministrativeCase) (effective_at : instant) : M AdministrativeCase :=
  do! current := utcnow clock in
  do! waiting := transition clock (begin_waiting_for_effective_time c current) in
  also! persist_case_transition c waiting "case.waiting_for_effective_time"
        [("effective_at", VStr (isoformat effective_at))] then
  ret waiting.

(** [OffboardingExecutionEngine.run] of an engine with these hooks, [executor]
    being its inherited run. *)
Definition offboarding_run_of (engine : Owner) (executor : uuid -> M AdministrativeCase) (case_id : uuid)
  : M AdministrativeCase :=
  do! c := require_case case_id in
  if bool_decide (c_case_kind c <> "employee-offboarding")
  then throw TransitionError "offboarding engine requires employee-offboarding case"
  else if bool_decide (c_status c = AUTHORIZED) then
    match authoritative_effective_time c with
    | None => throw TransitionError "offboarding execution requires authoritative effective time"
    | Some effective_at =>
        do! now := utcnow clock in
        if now <? effective_at then await_effective_time c effective_at
        else executor case_id
    end
  else if bool_decide (c_status c = WAITING) then
    match authoritative_effective_time c with
    | None => throw TransitionError "waiting offboarding lost effective time"
    | Some effective_at =>
        do! now := utcnow clock in
        if now <? effective_at then ret c
        else
          do! gate := governance_gate clock engine c in
          match gate with
          | inl reopened => ret reopened
          | inr _ =>
              do! current := utcnow clock in
              do! resumed := transition clock (resume_from_waiting c current) in
              also! persist_case_transition c resumed "case.effective_time_reached"
                    [("effective_at", VStr (isoformat effective_at))] then
              executor case_id
          end
    end
  else executor case_id.

Definition offboarding_run : uuid -> M AdministrativeCase :=
  offboarding_run_of offboarding_engine run_offboarding_executor.
End offboarding.
