(* ===== verification/Admission.v ===== *)
(** * Admission of candidates: [admission.py]

    Assessments decide whether a candidate may become an administrative request;
    a promotion turns one admitted candidate into a request and a case, in one
    transaction.

    Every session of these services may find what others committed since the
    last one: [others n] is what they committed before the [n]-th session, an
    arbitrary function of the tables.  The ids and times of the objects a call
    makes are arguments. *)

From stdpp Require Import base gmap strings list.
From Stdlib Require Import ZArith Lia.
From S2P Require Import Prelude Python Uuid Store Domain Policy Authority FactAcquisition Access Lifecycle Obligations.
From S2P Require Import PolicyPlane Financial Persistence Transactions Governance Machine Outbox UnitOfWork Intake Api.
From S2P Require Import Execution CaseFlow OffboardingEngine.

Open Scope Z_scope.
Open Scope orch_scope.
Open Scope machine_scope.

(** The tables of intake beside those of the unit of work. *)
Record AdmissionDb := mkAdmissionDb {
  m_uow : UowDb;
  m_intake : IntakeDb;
}.
Definition set_intake (s : AdmissionDb) (d : IntakeDb) : AdmissionDb := mkAdmissionDb (m_uow s) d.

Local Abbreviation M := (M AdmissionDb).

Record PromotionResult := mkPromotionResult {
  pn_promotion : PromotionRecord;
  pn_request : AdministrativeRequest;
  pn_case : AdministrativeCase;
  pn_created : bool;
}.

(** ** [IntakeAssessmentService] *)

(** [_require_candidate] *)
Definition require_candidate (d : IntakeDb) (candidate_ref : uuid) : result CandidateAdministrativeRequest :=
  let! candidate := get_candidate_request d candidate_ref in
  match candidate with
  | None => raise AdmissionRejected "assessment requires a persisted candidate"
  | Some c =>
      refuse bool_decide (cq_status c ∉ [CR_ACTIVE; CR_ADMITTED]) with AdmissionRejected
        saying "assessment cannot target a superseded or rejected candidate";;
      Ok c
  end.

Definition finals_of (d : IntakeDb) (candidate_ref : uuid) : result (list IntakeAssessment) :=
  let! l := list_intake_assessments d candidate_ref in
  Ok (List.filter ia_is_final l).

Definition with_basis (basis : option pydict) : pydict := default [] basis.

(** [existing.reviewer_principal_id == ...] and the other fields a repeated final
    assessment must share *)
Definition same_final (existing : IntakeAssessment) (disposition : IntakeDisposition) (authority : AssessmentAuthority)
    (basis : pydict) (reviewer : option string) : bool :=
  bool_decide (ia_disposition existing = disposition) && bool_decide (ia_authority existing = authority)
  && py_eq (VDict (ia_basis existing)) (VDict basis) && bool_decide (ia_reviewer_principal_id existing = reviewer).

(** The arguments of [PromotionService.promote] after the two objects. *)
Record PromotionContext := mkPromotionContext {
  px_source_system : string;
  px_tenant_ref : string;
  px_source_event_id : string;
  px_requester_principal_id : string;
  px_channel : string;
  px_case_kind : string;
  px_subject_ref : option string;
  px_promotion_policy_ref : string;
}.

(** [value.strip()] of every argument but the subject *)
Definition stripped_context (k : PromotionContext) : PromotionContext :=
  mkPromotionContext (strip (px_source_system k)) (strip (px_tenant_ref k)) (strip (px_source_event_id k))
    (strip (px_requester_principal_id k)) (strip (px_channel k)) (strip (px_case_kind k)) (px_subject_ref k)
    (strip (px_promotion_policy_ref k)).

Definition complete_context (k : PromotionContext) : bool :=
  forallb nonempty [px_source_system k; px_tenant_ref k; px_source_event_id k; px_requester_principal_id k; px_channel k;
                    px_case_kind k; px_promotion_policy_ref k].

(** What [uuid4] and [utcnow] give the objects of one admission. *)
Record AdmissionIds := mkAdmissionIds {
  ai_request : uuid; ai_case : uuid; ai_promotion : uuid; ai_snapshot : uuid; ai_event : uuid;
}.

(** [persisted.model_dump() != given.model_dump()] *)
Definition assessment_eqb (a b : IntakeAssessment) : bool :=
  bool_decide (ia_assessment_id a = ia_assessment_id b) && bool_decide (ia_candidate_ref a = ia_candidate_ref b)
  && bool_decide (ia_disposition a = ia_disposition b) && py_eq (VDict (ia_basis a)) (VDict (ia_basis b))
  && bool_decide (ia_authority a = ia_authority b) && bool_decide (ia_is_final a = ia_is_final b)
  && bool_decide (ia_reviewer_principal_id a = ia_reviewer_principal_id b)
  && bool_decide (ia_created_at a = ia_created_at b).

(** ** The checks of a promotion *)

Definition check_candidate (d : IntakeDb) (candidate : CandidateAdministrativeRequest) : result unit :=
  let! persisted := get_candidate_request d (cq_candidate_id candidate) in
  refuse bool_decide (persisted <> Some candidate) with AdmissionRejected
    saying "promotion requires the current persisted candidate";;
  refuse bool_decide (cq_status candidate <> CR_ACTIVE) with AdmissionRejected
    saying "only an active candidate may be promoted";;
  Ok tt.

Definition check_assessment (d : IntakeDb) (assessment : IntakeAssessment) : result unit :=
  let! persisted := get_assessment d (ia_assessment_id assessment) in
  refuse match persisted with Some p => negb (assessment_eqb p assessment) | None => true end with AdmissionRejected
    saying "promotion requires the current persisted assessment";;
  refuse negb (ia_is_final assessment) || bool_decide (ia_disposition assessment <> ID_ADMIT) with AdmissionRejected
    saying "promotion requires a final ADMIT assessment";;
  refuse bool_decide (ia_authority assessment = MODEL_SUGGESTION) with AdmissionRejected
    saying "model suggestion cannot authorize promotion";;
  Ok tt.

Definition check_receipt (d : IntakeDb) (candidate : CandidateAdministrativeRequest) (k : PromotionContext)
  : result unit :=
  let! receipt := get_intake_receipt d (px_source_system k) (px_tenant_ref k) (px_source_event_id k) in
  match receipt with
  | None => raise AdmissionRejected "promotion requires a persisted IntakeReceipt"
  | Some r =>
      refuse bool_decide (re_verification_status r <> IV_VERIFIED) with AdmissionRejected
        saying "promotion requires a verified IntakeReceipt";;
      refuse match re_artifact_ref r with Some a => bool_decide (a ∉ cq_source_refs candidate) | None => false end
        with AdmissionRejected saying "IntakeReceipt artifact is not part of the candidate lineage";;
      Ok tt
  end.

(** ** What a promotion creates *)

Definition promotion_source_ref (k : PromotionContext) : string :=
  "intake:" +:+ px_source_system k +:+ "/" +:+ px_source_event_id k.

Definition promoted_request (candidate : CandidateAdministrativeRequest) (k : PromotionContext) (ids : AdmissionIds)
    (now : instant) : AdministrativeRequest :=
  mkAdministrativeRequest (ai_request ids) (px_requester_principal_id k) (px_channel k) (cq_candidate_intent candidate) now
    (Some (promotion_source_ref k)).

(** [subject_ref or str(candidate.candidate_id)] *)
Definition subject_or_candidate (candidate : CandidateAdministrativeRequest) (subject : option string) : string :=
  match subject with
  | Some s => if nonempty s then s else uuid_str (cq_candidate_id candidate)
  | None => uuid_str (cq_candidate_id candidate)
  end.

(** What a promotion is about to write. *)
Record Promotion := mkPromotion {
  pd_promotion : PromotionRecord;
  pd_request : AdministrativeRequest;
  pd_case : AdministrativeCase;
}.

Definition prepare_promotion (candidate : CandidateAdministrativeRequest) (assessment : IntakeAssessment)
    (k : PromotionContext) (ids : AdmissionIds) (clock : nat -> instant) : result Promotion :=
  let request := promoted_request candidate k ids (clock 0%nat) in
  let! case := create_case request (px_case_kind k) (subject_or_candidate candidate (px_subject_ref k)) None (ai_case ids)
                 (clock 1%nat) in
  let! promotion := PromotionRecord_validate
    (mkPromotionRecord (ai_promotion ids) (cq_candidate_id candidate) (ia_assessment_id assessment) (ai_request ids)
       (px_source_event_id k) (clock 2%nat) (px_promotion_policy_ref k)) in
  Ok (mkPromotion promotion request case).

(** [candidate_row.status = ADMITTED], if there is such a row *)
Definition admitted_candidates (d : IntakeDb) (candidate_ref : uuid) : gmap uuid CandidateAdministrativeRequest :=
  match it_candidates d !! candidate_ref with
  | Some row => <[candidate_ref := with_candidate_state row CR_ADMITTED]> (it_candidates d)
  | None => it_candidates d
  end.

Definition promotion_audit (p : PromotionRecord) : pydict :=
  [("candidate_id", VStr (uuid_str (pm_candidate_ref p))); ("assessment_id", VStr (uuid_str (pm_assessment_ref p)));
   ("request_id", VStr (uuid_str (pm_request_id p))); ("source_event_id", VStr (pm_ingress_receipt_ref p))].

(** The tables after the transaction. *)
Definition promoted_db (s : AdmissionDb) (w : Promotion) (now : instant) : AdmissionDb :=
  let u := m_uow s in
  let x := u_exec u in
  let p := pd_promotion w in
  let rid := rq_request_id (pd_request w) in
  let cid := c_case_id (pd_case w) in
  mkAdmissionDb
    (mkUowDb (append_audit (set_cases (set_requests x (<[rid := pd_request w]> (x_requests x)))
                              (<[cid := mkCaseRow rid (pd_case w)]> (x_cases x)))
                cid "intake.candidate_promoted" (promotion_audit p))
       (u_snapshots u)
       (<[pm_ingress_receipt_ref p := mkIngressReceipt (pm_ingress_receipt_ref p) rid cid now]> (u_ingress u))
       (u_authority u) (u_governance u) (u_outbox u))
    (set_promotions (set_candidates (m_intake s) (admitted_candidates (m_intake s) (pm_candidate_ref p)))
       (<[pm_promotion_id p := p]> (it_promotions (m_intake s)))).

(** The [with sessions.begin()] block of [promote]. *)
Definition promotion_transaction (w : Promotion) (now : instant) (s : AdmissionDb) : result (unit * AdmissionDb) :=
  let d := m_intake s in
  let u := m_uow s in
  let p := pd_promotion w in
  match find_promotion d (pm_candidate_ref p) with
  | Some _ => raise PromotionConflict "candidate was concurrently promoted"
  | None =>
      match u_ingress u !! pm_ingress_receipt_ref p with
      | Some _ => raise AdmissionConflict "source event already created an M5 case"
      | None =>
          let! _ := db_add (x_requests (u_exec u)) (rq_request_id (pd_request w)) (pd_request w) in
          let! _ := db_add (x_cases (u_exec u)) (c_case_id (pd_case w))
                      (mkCaseRow (rq_request_id (pd_request w)) (pd_case w)) in
          refuse request_promoted d (pm_request_id p) with IntegrityError saying "uq_promotion_request";;
          let! _ := db_add (it_promotions d) (pm_promotion_id p) p in
          Ok (tt, promoted_db s w now)
      end
  end.

(** The admission services over one store, whose other sessions are [others]. *)
Section services.
Context (others : nat -> AdmissionDb -> AdmissionDb).

(** A session of its own: it reads, or commits what it wrote. *)
Definition elsewhere (n : nat) : M unit := fun s => (Ok tt, others n s).
Definition session {A} (n : nat) (f : IntakeDb -> result A) : M A :=
  also! elsewhere n then reads (fun s => f (m_intake s)).
Definition intake_write {A} (n : nat) (f : IntakeDb -> result (A * IntakeDb)) : M A :=
  also! elsewhere n then transact (fun s => let! (a, d) := f (m_intake s) in Ok (a, set_intake s d)).

(** [IntakeAssessmentService.suggest] *)
Definition suggest (candidate_ref : uuid) (disposition : IntakeDisposition) (basis : option pydict) (id : uuid)
    (now : instant) : M IntakeAssessment :=
  do! _ := session 0 (fun d => require_candidate d candidate_ref) in
  do! a := lift (IntakeAssessment_validate
                   (mkIntakeAssessment id candidate_ref disposition (with_basis basis) MODEL_SUGGESTION false None now)) in
  intake_write 1 (fun d => append_intake_assessment d a).

(** [_finalize] *)
Definition finalize (candidate_ref : uuid) (disposition : IntakeDisposition) (authority : AssessmentAuthority)
    (basis : pydict) (reviewer : option string) (id : uuid) (now : instant) : M IntakeAssessment :=
  do! _ := session 0 (fun d => require_candidate d candidate_ref) in
  do! existing_finals := session 1 (fun d => finals_of d candidate_ref) in
  match existing_finals with
  | existing :: _ =>
      if same_final existing disposition authority basis reviewer then ret existing
      else throw AssessmentConflict "candidate already has a different final assessment"
  | [] =>
      catch
        (do! a := lift (IntakeAssessment_validate
                          (mkIntakeAssessment id candidate_ref disposition basis authority true reviewer now)) in
         intake_write 2 (fun d => append_intake_assessment d a))
        AssessmentConflict
        (do! finals := session 3 (fun d => finals_of d candidate_ref) in
         match finals with
         | _ :: _ => throw AssessmentConflict "candidate already has a different final assessment"
         | [] => throw AssessmentConflict "candidate already has a different final intake assessment"
         end)
  end.

Definition finalize_deterministic (candidate_ref : uuid) (disposition : IntakeDisposition) (rule_ref input_digest : string)
    (basis : option pydict) (id : uuid) (now : instant) : M IntakeAssessment :=
  let rule_ref := strip rule_ref in
  let input_digest := strip input_digest in
  if negb (nonempty rule_ref) || negb (nonempty input_digest)
  then throw AdmissionRejected "deterministic final assessment requires rule proof"
  else finalize candidate_ref disposition DETERMINISTIC_RULE
         (dict_merge (with_basis basis) [("rule_ref", VStr rule_ref); ("input_digest", VStr input_digest)]) None id now.

Definition finalize_human (candidate_ref : uuid) (disposition : IntakeDisposition) (reviewer_principal_id : string)
    (basis : option pydict) (id : uuid) (now : instant) : M IntakeAssessment :=
  let reviewer := strip reviewer_principal_id in
  if negb (nonempty reviewer) then throw AdmissionRejected "human final assessment requires a reviewer"
  else finalize candidate_ref disposition HUMAN_REVIEW
         (dict_merge (with_basis basis) [("reviewer_principal_id", VStr reviewer)]) (Some reviewer) id now.

(** ** [IntakePromotionService] *)

(** [_load_existing] *)
Definition load_existing (n : nat) (promotion : PromotionRecord) (assessment : IntakeAssessment) (k : PromotionContext)
  : M PromotionResult :=
  if bool_decide (pm_assessment_ref promotion <> ia_assessment_id assessment)
  then throw AdmissionConflict "candidate was already promoted with another assessment"
  else if bool_decide (pm_ingress_receipt_ref promotion <> px_source_event_id k)
  then throw AdmissionConflict "candidate was already promoted from another source event"
  else
    also! elsewhere n then reads (fun s =>
      let x := u_exec (m_uow s) in
      match u_ingress (m_uow s) !! pm_ingress_receipt_ref promotion, x_requests x !! pm_request_id promotion with
      | Some ingress, Some request =>
          match x_cases x !! ir_case_id ingress with
          | None => raise AdmissionConflict "promotion lineage points to a missing case"
          | Some case_row =>
              refuse bool_decide (rq_requester_principal_id request <> px_requester_principal_id k)
                with AdmissionConflict saying "redelivery requester differs from the promoted request";;
              let! case := case_from_row case_row in
              Ok (mkPromotionResult promotion request case false)
          end
      | _, _ => raise AdmissionConflict "promotion lineage points to missing M5 records"
      end).

(** The handler of a promotion that lost to another one. *)
Definition recover_promotion (candidate : CandidateAdministrativeRequest) (assessment : IntakeAssessment)
    (k : PromotionContext) (msg : string) : M PromotionResult :=
  do! existing := session 5 (fun d => get_promotion d (cq_candidate_id candidate)) in
  match existing with
  | None => throw AdmissionConflict msg
  | Some p => load_existing 6 p assessment k
  end.

(** [try: with sessions.begin() ... except PromotionConflict ... except IntegrityError ...] *)
Definition commit_promotion (candidate : CandidateAdministrativeRequest) (assessment : IntakeAssessment)
    (k : PromotionContext) (w : Promotion) (now : instant) : M PromotionResult := fun s =>
  match (also! elsewhere 4 then transact (promotion_transaction w now)) s with
  | (Ok _, s') => (Ok (mkPromotionResult (pd_promotion w) (pd_request w) (pd_case w) true), s')
  | (Err e, s') =>
      if bool_decide (exn_cls e = PromotionConflict)
      then recover_promotion candidate assessment k "candidate was concurrently promoted" s'
      else if bool_decide (exn_cls e = IntegrityError)
      then recover_promotion candidate assessment k "promotion transaction conflicted" s'
      else (Err e, s')
  end.

(** [IntakePromotionService.promote] *)
Definition promote (candidate : CandidateAdministrativeRequest) (assessment : IntakeAssessment) (k : PromotionContext)
    (ids : AdmissionIds) (clock : nat -> instant) : M PromotionResult :=
  let k := stripped_context k in
  if negb (complete_context k) then throw AdmissionRejected "promotion context must not contain blank identifiers"
  else
    do! existing := session 0 (fun d => get_promotion d (cq_candidate_id candidate)) in
    match existing with
    | Some p => load_existing 6 p assessment k
    | None =>
        do! _ := session 1 (fun d => check_candidate d candidate) in
        do! _ := session 2 (fun d => check_assessment d assessment) in
        do! _ := session 3 (fun d => check_receipt d candidate k) in
        do! w := lift (prepare_promotion candidate assessment k ids clock) in
        commit_promotion candidate assessment k w (clock 3%nat)
    end.
End services.
