(* ===== verification/AdmissionBridge.v ===== *)
(** * Admission bridges: [candidate_admission.py], [onboarding_admission.py],
      [offboarding_admission.py], [financial_admission.py]

    [CandidateAdministrativeAdmissionService] promotes a candidate and evaluates
    the policy of its case kind over the candidate's claims; its subclasses own
    the fact contract, the policy and the case kind, and are the values of the
    record [AdmissionKind].  Pydantic's reading of a fact contract and of a policy
    definition is the interface [FactContracts]. *)

From stdpp Require Import base gmap strings list.
From Stdlib Require Import ZArith Lia.
From S2P Require Import Prelude Python Uuid Store Domain Policy Authority FactAcquisition Access Lifecycle Obligations.
From S2P Require Import PolicyPlane Financial Persistence Transactions Governance Machine Outbox UnitOfWork Intake Api.
From S2P Require Import Execution CaseFlow OffboardingEngine Admission.

Open Scope Z_scope.
Open Scope orch_scope.
Open Scope machine_scope.

Local Abbreviation M := (M AdmissionDb).

Record CandidateAdmissionResult := mkCandidateAdmissionResult {
  cx_promotion : PromotionResult;
  cx_case : AdministrativeCase;
  cx_policy_evaluation : PolicyEvaluation;
  cx_created : bool;
}.

(** What a subclass gives. *)
Record AdmissionKind := mkAdmissionKind {
  ak_case_kind : string;
  ak_policy_id : string;
  ak_description : string;
  ak_error_type : exn_class;
  ak_snapshot_source_version : string;
  ak_facts : Type;
  (** [_candidate_facts] *)
  ak_candidate_facts : IntakeDb -> CandidateAdministrativeRequest -> string -> result ak_facts;
  (** [facts.model_dump(mode="json")] *)
  ak_dump : ak_facts -> pydict;
  (** [_compile_policy(record).evaluate] *)
  ak_evaluate : PolicyVersionRecord -> ak_facts -> result PolicyEvaluation;
}.

(** [validate] is [Facts.model_validate], [dump] is [model_dump(mode="json")] and
    [definition] is [PolicyDefinition.model_validate]. *)
Class FactContracts := {
  onboarding_validate : pydict -> result OnboardingFacts;
  offboarding_validate : pydict -> result OffboardingFacts;
  procurement_validate : pydict -> result ProcurementFacts;
  invoice_validate : pydict -> result InvoiceFacts;
  expense_validate : pydict -> result ExpenseFacts;
  procurement_dump : ProcurementFacts -> pydict;
  invoice_dump : InvoiceFacts -> pydict;
  expense_dump : ExpenseFacts -> pydict;
  onboarding_definition : pydict -> result OnboardingPolicyDefinition;
  offboarding_definition : pydict -> result OffboardingPolicyDefinition;
  procurement_definition : pydict -> result ProcurementPolicyDefinition;
  invoice_definition : pydict -> result InvoiceAPPolicyDefinition;
  expense_definition : pydict -> result ExpensePolicyDefinition;
}.

Section bridge.
Context `{Platform}.

(** ** Candidate facts *)

(** The loop that collects the values of a candidate's facts. *)
Fixpoint collect_values (error : exn_class) (service : string) (allowed : list string)
    (assertions : list CandidateFactAssertion) (values : pydict) : result pydict :=
  match assertions with
  | [] => Ok values
  | a :: rest =>
      refuse bool_decide (cf_fact_key a ∉ allowed) with error
        saying ("candidate fact " +:+ py_repr (VStr (cf_fact_key a)) +:+ " is not allowed for " +:+ service);;
      refuse dict_has values (cf_fact_key a) with error
        saying ("candidate contains duplicate " +:+ service +:+ " fact " +:+ py_repr (VStr (cf_fact_key a)));;
      collect_values error service allowed rest (dict_set values (cf_fact_key a) (cf_value a))
  end.

Definition candidate_values (error : exn_class) (service : string) (allowed : list string) (d : IntakeDb)
    (candidate : CandidateAdministrativeRequest) : result pydict :=
  let! assertions := list_candidate_facts d (cq_candidate_id candidate) in
  collect_values error service allowed assertions [].

(** [supplied_employee is not None and str(supplied_employee).strip() != subject_ref] *)
Definition other_employee (values : pydict) (subject_ref : string) : bool :=
  match dict_get values "employee_ref" with
  | VNone => false
  | v => bool_decide (strip (py_str v) <> subject_ref)
  end.

(** [try: r  except ValueError as exc: raise error(msg)] *)
Definition contract {A} (error : exn_class) (msg : string) (r : result A) : result A :=
  match r with
  | Ok a => Ok a
  | Err e => if is_ValueError (exn_cls e) then raise error msg else Err e
  end.

Definition subject_mismatch : string := "candidate employee_ref does not match the human-selected subject_ref".

Definition onboarding_fact_keys : list string :=
  ["employee_ref"; "department_ref"; "manager_principal_id"; "start_date"; "employment_type"; "requested_systems";
   "requires_privileged_access"].

Definition offboarding_candidate_fact_keys : list string :=
  ["employee_ref"; "requested_termination_date"; "reason"; "successor_principal_id"; "requested_systems"].

(** [ProcurementFacts.model_fields] and the others *)
Definition procurement_fact_keys : list string :=
  ["description"; "requested_quantity"; "estimated_amount"; "candidate_vendor"; "vendor_ref"; "vendor_tax_id";
   "cost_center"; "needed_by"; "quote_ref"].
Definition invoice_fact_keys : list string :=
  ["vendor_name"; "vendor_ref"; "vendor_tax_id"; "invoice_number"; "invoice_date"; "total"; "po_number"; "line_items";
   "document_revision"; "document_digest"].
Definition expense_fact_keys : list string :=
  ["employee_ref"; "merchant"; "expense_date"; "amount"; "category"; "business_purpose"; "receipt_ref"].

(** [OffboardingFacts(...).model_dump(mode="json")] *)
Definition OffboardingFacts_model_dump (f : OffboardingFacts) : pydict :=
  [("employee_ref", VStr (of_employee_ref f)); ("termination_status", opt_str (of_termination_status f));
   ("termination_effective_at", opt_str (of_termination_effective_at f));
   ("employment_type", opt_str (of_employment_type f)); ("department_ref", opt_str (of_department_ref f));
   ("manager_principal_id", opt_str (of_manager_principal_id f));
   ("employment_episode_ref", opt_str (of_employment_episode_ref f));
   ("departing_principal_id", opt_str (of_departing_principal_id f));
   ("successor_principal_id", opt_str (of_successor_principal_id f));
   ("requested_termination_date", opt_str (of_requested_termination_date f)); ("reason", opt_str (of_reason f));
   ("requested_systems", VList (VStr <$> of_requested_systems f));
   ("requires_privileged_access", VBool (of_requires_privileged_access f))].

Section kinds.
Context `{FactContracts}.

Definition onboarding_candidate_facts (d : IntakeDb) (candidate : CandidateAdministrativeRequest) (subject_ref : string)
  : result OnboardingFacts :=
  let! values := candidate_values OnboardingAdmissionError "onboarding" onboarding_fact_keys d candidate in
  refuse other_employee values subject_ref with OnboardingAdmissionError saying subject_mismatch;;
  contract OnboardingAdmissionError "admitted candidate facts do not satisfy the onboarding fact contract"
    (onboarding_validate (dict_set values "employee_ref" (VStr subject_ref))).

Definition offboarding_candidate_facts (d : IntakeDb) (candidate : CandidateAdministrativeRequest) (subject_ref : string)
  : result OffboardingFacts :=
  let! values := candidate_values OffboardingAdmissionError "offboarding" offboarding_candidate_fact_keys d candidate in
  refuse other_employee values subject_ref with OffboardingAdmissionError saying subject_mismatch;;
  contract OffboardingAdmissionError "admitted candidate facts do not satisfy the offboarding fact contract"
    (offboarding_validate
       [("employee_ref", VStr subject_ref);
        ("requested_termination_date", dict_get values "requested_termination_date");
        ("reason", dict_get values "reason"); ("successor_principal_id", dict_get values "successor_principal_id");
        ("requested_systems", default (VList []) (assoc "requested_systems" values))]).

Definition procurement_candidate_facts (d : IntakeDb) (candidate : CandidateAdministrativeRequest) (subject_ref : string)
  : result ProcurementFacts :=
  let! values := candidate_values FinancialAdmissionError "procurement" procurement_fact_keys d candidate in
  procurement_validate
    (if dict_has values "quote_ref" then values
     else dict_set values "quote_ref" (opt_uuid (head (cq_source_refs candidate)))).

Definition invoice_candidate_facts (d : IntakeDb) (candidate : CandidateAdministrativeRequest) (subject_ref : string)
  : result InvoiceFacts :=
  let! values := candidate_values FinancialAdmissionError "invoice" invoice_fact_keys d candidate in
  invoice_validate values.

Definition expense_candidate_facts (d : IntakeDb) (candidate : CandidateAdministrativeRequest) (subject_ref : string)
  : result ExpenseFacts :=
  let! values := candidate_values FinancialAdmissionError "expense" expense_fact_keys d candidate in
  refuse other_employee values subject_ref with FinancialAdmissionError saying subject_mismatch;;
  expense_validate (dict_set values "employee_ref" (VStr subject_ref)).

(** [definition or self.default_definition()], read by [model_validate] *)
Definition compiled {D} (policy_id msg : string) (default_definition : D) (parse : pydict -> result D)
    (record : PolicyVersionRecord) : result (PolicyRef * D) :=
  refuse bool_decide (pv_policy_id record <> policy_id) with PolicyPlaneError saying msg;;
  let! d := if is_nil (pv_definition record) then Ok default_definition else parse (pv_definition record) in
  Ok (pv_policy_ref record, d).

Definition compile_procurement_policy : PolicyVersionRecord -> result (PolicyRef * ProcurementPolicyDefinition) :=
  compiled "procurement-request" "record is not a procurement-request policy" ProcurementPolicy_default_definition
    procurement_definition.
Definition compile_invoice_ap_policy : PolicyVersionRecord -> result (PolicyRef * InvoiceAPPolicyDefinition) :=
  compiled "invoice-ap-preparation" "record is not an invoice-ap-preparation policy" InvoiceAPPolicy_default_definition
    invoice_definition.
Definition compile_expense_policy : PolicyVersionRecord -> result (PolicyRef * ExpensePolicyDefinition) :=
  compiled "expense-reimbursement" "record is not an expense-reimbursement policy" ExpensePolicy_default_definition
    expense_definition.

(** ** The case kinds *)

Definition onboarding_admission : AdmissionKind :=
  mkAdmissionKind "employee-onboarding" "employee-onboarding" "onboarding" OnboardingAdmissionError
    "m6-human-confirmed-v1" OnboardingFacts onboarding_candidate_facts OnboardingFacts_model_dump
    (fun record facts =>
       let! (ref, d) := compile_onboarding_policy onboarding_definition record in OnboardingPolicy_evaluate ref d facts).

Definition offboarding_admission : AdmissionKind :=
  mkAdmissionKind "employee-offboarding" "employee-offboarding" "offboarding" OffboardingAdmissionError
    "m7-human-confirmed-v1" OffboardingFacts offboarding_candidate_facts OffboardingFacts_model_dump
    (fun record facts =>
       let! (ref, d) := compile_offboarding_policy offboarding_definition record in OffboardingPolicy_evaluate ref d facts).

Definition procurement_admission : AdmissionKind :=
  mkAdmissionKind "procurement-request" "procurement-request" "procurement" FinancialAdmissionError
    "m8-human-confirmed-v1" ProcurementFacts procurement_candidate_facts procurement_dump
    (fun record facts => let! (ref, d) := compile_procurement_policy record in ProcurementPolicy_evaluate ref d facts).

Definition invoice_admission : AdmissionKind :=
  mkAdmissionKind "invoice-ap-preparation" "invoice-ap-preparation" "invoice/AP preparation" FinancialAdmissionError
    "m8-human-confirmed-v1" InvoiceFacts invoice_candidate_facts invoice_dump
    (fun record facts => let! (ref, d) := compile_invoice_ap_policy record in InvoiceAPPolicy_evaluate ref d facts).

Definition expense_admission : AdmissionKind :=
  mkAdmissionKind "expense-reimbursement" "expense-reimbursement" "expense reimbursement preparation"
    FinancialAdmissionError "m8-human-confirmed-v1" ExpenseFacts expense_candidate_facts expense_dump
    (fun record facts => let! (ref, d) := compile_expense_policy record in ExpensePolicy_evaluate ref d facts).
End kinds.

(** ** The fact snapshot *)

Section snapshot.
Context (A : AdmissionKind).

(** [assertions[key]] of the snapshot *)
Definition claim_assertion (assertions : list CandidateFactAssertion) (assessment : IntakeAssessment)
    (source owner source_ref key : string) (value : pyval) : FactAssertion :=
  let found := odict_get key (odict_of cf_fact_key assertions) in
  mkFactAssertion value CLAIM source owner
    (Some match found with
          | Some a => "candidate-fact:" +:+ uuid_str (cf_candidate_fact_id a)
          | None => source_ref
          end)
    (Some match found with
          | Some a => match cf_interpretation_ref a with
                      | Some i => uuid_str i
                      | None => ak_snapshot_source_version A
                      end
          | None => ak_snapshot_source_version A
          end)
    (ia_created_at assessment) (Some (value_digest value)).

(** [assessment.reviewer_principal_id or "service:administrative-orchestrator"] *)
Definition snapshot_owner (assessment : IntakeAssessment) : string :=
  match ia_reviewer_principal_id assessment with
  | Some r => if nonempty r then r else "service:administrative-orchestrator"
  | None => "service:administrative-orchestrator"
  end.

(** [_fact_snapshot] *)
Definition claim_snapshot (assertions : list CandidateFactAssertion) (assessment : IntakeAssessment)
    (flattened : pydict) (source_system source_event_id : string) (id : uuid) : result FactSnapshot :=
  let source := "intake:" +:+ source_system in
  let source_ref := "intake:" +:+ source_system +:+ "/" +:+ source_event_id in
  let owner := snapshot_owner assessment in
  let claims := (fun kv => (fst kv, claim_assertion assertions assessment source owner source_ref (fst kv) (snd kv)))
                <$> flattened in
  assertion_values_match_flattened_facts
    (mkFactSnapshot id source owner CLAIM (Some source_ref) (Some (ak_snapshot_source_version A))
       (ia_created_at assessment) flattened claims (Some (snapshot_digest flattened claims))).
End snapshot.

(** ** [CandidateAdministrativeAdmissionService] *)

Section service.
Context (others : nat -> AdmissionDb -> AdmissionDb) (policies : PolicyDb) (A : AdmissionKind).

Definition exec_session {B} (n : nat) (f : ExecDb -> result B) : M B :=
  also! elsewhere others n then reads (fun s => f (u_exec (m_uow s))).

(** The arguments a bridge passes on to [promote]. *)
Definition bridged_context (k : PromotionContext) (subject_ref : string) : PromotionContext :=
  mkPromotionContext (px_source_system k) (px_tenant_ref k) (px_source_event_id k) (px_requester_principal_id k)
    (px_channel k) (ak_case_kind A) (Some subject_ref) (px_promotion_policy_ref k).

(** The case with the claims as its facts, and the evaluation of its policy. *)
Definition evaluate_claims (current : AdministrativeCase) (assertions : list CandidateFactAssertion)
    (assessment : IntakeAssessment) (facts : ak_facts A) (k : PromotionContext) (ids : AdmissionIds)
    (clock : nat -> instant) : result (AdministrativeCase * PolicyEvaluation) :=
  let! snapshot := claim_snapshot A assertions assessment (ak_dump A facts) (px_source_system k) (px_source_event_id k)
                     (ai_snapshot ids) in
  let! changed := replace_fact_snapshot current snapshot (clock 4%nat) in
  let! ready := start_policy_evaluation changed (clock 5%nat) in
  let! record := resolve_current policies (ak_policy_id A) (clock 6%nat) in
  let! evaluation := ak_evaluate A record facts in
  let! updated := apply_policy_evaluation ready evaluation (clock 7%nat) in
  Ok (updated, evaluation).

(** The transaction of the unit of work, and the replay of one that lost. *)
Definition commit_claims (promotion : PromotionResult) (current updated : AdministrativeCase) (evaluation : PolicyEvaluation)
    (event_id : uuid) (now : instant) : M CandidateAdmissionResult := fun s =>
  match (also! elsewhere others 11 then transact (fun s =>
           let! u := replace_facts_and_apply_policy (m_uow s) current updated evaluation event_id now in
           Ok (tt, mkAdmissionDb u (m_intake s)))) s with
  | (Ok _, s') => (Ok (mkCandidateAdmissionResult promotion updated evaluation (pn_created promotion)), s')
  | (Err e, s') =>
      if is_conflict (exn_cls e) then
        (do! replayed := exec_session 12 (fun x => get_latest_policy_evaluation x (c_case_id current)) in
         match replayed with
         | None => lift (Err e)
         | Some evaluation =>
             do! stored := exec_session 13 (fun x => get_case x (c_case_id current)) in
             match stored with
             | None => throw (ak_error_type A)
                         (ak_description A +:+ " policy transition committed without a readable case")
             | Some c => ret (mkCandidateAdmissionResult promotion c evaluation (pn_created promotion))
             end
         end) s'
      else (Err e, s')
  end.

(** [promote_and_evaluate] *)
Definition promote_and_evaluate (candidate : CandidateAdministrativeRequest) (assessment : IntakeAssessment)
    (k : PromotionContext) (subject_ref : string) (ids : AdmissionIds) (clock : nat -> instant)
  : M CandidateAdmissionResult :=
  let subject_ref := strip subject_ref in
  if negb (nonempty subject_ref)
  then throw (ak_error_type A) (ak_case_kind A +:+ " promotion requires a non-blank subject_ref")
  else
    do! facts := session others 7 (fun d => ak_candidate_facts A d candidate subject_ref) in
    do! promotion := promote others candidate assessment (bridged_context k subject_ref) ids clock in
    do! current := exec_session 8 (fun x => get_case x (c_case_id (pn_case promotion))) in
    match current with
    | None => throw (ak_error_type A) "promotion created a case that cannot be reloaded"
    | Some current =>
        do! existing_evaluation := exec_session 9 (fun x => get_latest_policy_evaluation x (c_case_id current)) in
        match existing_evaluation with
        | Some evaluation => ret (mkCandidateAdmissionResult promotion current evaluation (pn_created promotion))
        | None =>
            do! assertions := session others 10 (fun d => list_candidate_facts d (cq_candidate_id candidate)) in
            do! (updated, evaluation) := lift (evaluate_claims current assertions assessment facts k ids clock) in
            commit_claims promotion current updated evaluation (ai_event ids) (clock 8%nat)
        end
    end.
End service.
End bridge.
