(* ===== verification/AdmissionSafety.v ===== *)
(** * Admission: lineage, uniqueness, atomicity

    [lineage] is the invariant of the admission tables: a candidate has at most
    one final assessment, which never is a model's suggestion, and at most one
    promotion, which rests on a final [ADMIT] and points to its request, its case
    and its ingress record.  [keeps] is what no session undoes.  Every service
    respects both, whatever the sessions between its own commit, as long as those
    respect them too. *)

From stdpp Require Import base gmap strings list relations.
From Stdlib Require Import ZArith Lia.
From S2P Require Import Prelude Python Uuid Store Domain Policy Authority FactAcquisition Access Lifecycle Obligations.
From S2P Require Import PolicyPlane Financial Persistence Transactions Governance Machine Outbox UnitOfWork Intake Api.
From S2P Require Import Execution CaseFlow OffboardingEngine Admission AdmissionBridge.

Open Scope Z_scope.
Open Scope orch_scope.
Open Scope machine_scope.

(** ** The invariant *)

(** Who may make an assessment final, and on what. *)
Definition final_ok (a : IntakeAssessment) : Prop :=
  ia_authority a <> MODEL_SUGGESTION /\ ia_basis a <> [] /\
  (ia_authority a = HUMAN_REVIEW -> exists r, ia_reviewer_principal_id a = Some r /\ nonempty (strip r) = true).

Definition final_admit (a : IntakeAssessment) : Prop := ia_is_final a = true /\ ia_disposition a = ID_ADMIT.

(** What a promotion points to. *)
Definition promoted_records (s : AdmissionDb) (p : PromotionRecord) (request : AdministrativeRequest) (row : CaseRow)
  : Prop :=
  (exists receipt, u_ingress (m_uow s) !! pm_ingress_receipt_ref p = Some receipt /\
     ir_request_id receipt = pm_request_id p /\ ir_case_id receipt = c_case_id (cr_case row)) /\
  x_requests (u_exec (m_uow s)) !! pm_request_id p = Some request /\
  x_cases (u_exec (m_uow s)) !! c_case_id (cr_case row) = Some row /\ cr_request row = pm_request_id p.

Record lineage (s : AdmissionDb) : Prop := {
  ln_assessment_ids : keyed ia_assessment_id (it_assessments (m_intake s));
  ln_final : forall k a, it_assessments (m_intake s) !! k = Some a -> ia_is_final a = true -> final_ok a;
  ln_one_final : forall k1 k2 a1 a2, it_assessments (m_intake s) !! k1 = Some a1 ->
    it_assessments (m_intake s) !! k2 = Some a2 -> ia_is_final a1 = true -> ia_is_final a2 = true ->
    ia_candidate_ref a1 = ia_candidate_ref a2 -> k1 = k2;
  ln_one_promotion : forall k1 k2 p1 p2, it_promotions (m_intake s) !! k1 = Some p1 ->
    it_promotions (m_intake s) !! k2 = Some p2 -> pm_candidate_ref p1 = pm_candidate_ref p2 -> k1 = k2;
  ln_promotion_valid : forall k p, it_promotions (m_intake s) !! k = Some p -> PromotionRecord_validate p = Ok p;
  ln_earned : forall k p, it_promotions (m_intake s) !! k = Some p ->
    exists a, it_assessments (m_intake s) !! pm_assessment_ref p = Some a /\ final_admit a;
  ln_records : forall k p, it_promotions (m_intake s) !! k = Some p -> exists request row, promoted_records s p request row;
  ln_case_ids : keyed (fun row => c_case_id (cr_case row)) (x_cases (u_exec (m_uow s)));
  ln_loads : forall k row, x_cases (u_exec (m_uow s)) !! k = Some row -> case_from_row row = Ok (cr_case row);
}.

(** What no session undoes. *)
Record keeps (s s' : AdmissionDb) : Prop := {
  kp_assessments : it_assessments (m_intake s) ⊆ it_assessments (m_intake s');
  kp_promotions : it_promotions (m_intake s) ⊆ it_promotions (m_intake s');
  kp_ingress : u_ingress (m_uow s) ⊆ u_ingress (m_uow s');
  kp_requests : x_requests (u_exec (m_uow s)) ⊆ x_requests (u_exec (m_uow s'));
  kp_cases : forall k row, x_cases (u_exec (m_uow s)) !! k = Some row ->
    exists row', x_cases (u_exec (m_uow s')) !! k = Some row' /\ cr_request row' = cr_request row;
}.

#[global] Instance keeps_preorder : PreOrder keeps.
Proof.
  split.
  - intros s. split; eauto.
  - intros s1 s2 s3 [Ha Hp Hi Hr Hc] [Ha' Hp' Hi' Hr' Hc']. split; try by etrans.
    intros k row Hk. destruct (Hc k row Hk) as (row' & Hk' & <-). by apply Hc'.
Qed.

Lemma kept {K V} `{Countable K} (m m' : gmap K V) k v : m ⊆ m' -> m !! k = Some v -> m' !! k = Some v.
Proof. intros Hs Hk. by eapply lookup_weaken. Qed.

Lemma grown {K V} `{Countable K} (m : gmap K V) k v : m !! k = None -> m ⊆ <[k := v]> m.
Proof. apply insert_subseteq. Qed.

(** A session moves the tables along both. *)
Definition advances (s s' : AdmissionDb) : Prop := keeps s s' /\ (lineage s -> lineage s').

#[global] Instance advances_preorder : PreOrder advances.
Proof.
  split; [by split|]. intros s1 s2 s3 [Hk Hl] [Hk' Hl']. split; [by etrans|auto].
Qed.

Definition admission_motion : Motion AdmissionDb.
Proof.
  refine (mkMotion advances (fun _ => advances) _ _ _ _).
  - intros s. reflexivity.
  - intros s1 s2 s3 H1 H2. by etrans.
  - done.
  - intros e s1 s2 s3 H1 H2. by etrans.
Defined.

(** A step that touches neither assessments, promotions, requests, cases nor
    ingress records. *)
Lemma advances_same s s' :
  it_assessments (m_intake s') = it_assessments (m_intake s) -> it_promotions (m_intake s') = it_promotions (m_intake s) ->
  m_uow s' = m_uow s -> advances s s'.
Proof.
  intros Ha Hp Hu. split; [split; rewrite ?Ha, ?Hp, ?Hu; eauto|].
  intros [? ? ? ? ? ? Hr ? ?]. split; rewrite ?Ha, ?Hp, ?Hu; try done.
  intros k p Hk. destruct (Hr k p Hk) as (request & row & Hrec). exists request, row.
  unfold promoted_records in *. by rewrite Hu.
Qed.

Lemma records_kept s s' p request row :
  lineage s' -> keeps s s' -> promoted_records s p request row ->
  exists row', promoted_records s' p request row' /\ c_case_id (cr_case row') = c_case_id (cr_case row).
Proof.
  intros Hl [_ _ Hi Hr Hc] ((receipt & Hrec & Hrq & Hcs) & Hreq & Hrow & Hof).
  destruct (Hc _ _ Hrow) as (row' & Hrow' & Hsame). exists row'.
  assert (Hid : c_case_id (cr_case row') = c_case_id (cr_case row)) by apply (ln_case_ids _ Hl _ _ Hrow').
  split; [|done]. unfold promoted_records. rewrite Hid, Hsame. split_and!; try done; [|by eapply kept].
  exists receipt. split_and!; try done. by eapply kept.
Qed.

(** ** Assessments *)

Lemma assessment_valid_final a : IntakeAssessment_validate a = Ok a -> ia_is_final a = true -> final_ok a.
Proof.
  unfold IntakeAssessment_validate. intros Hv Hf. destruct (sized_opt _ _); [|done]. rewrite Hf in Hv. cbn in Hv.
  inv_ok. propify. split_and!; [done|by apply is_nil_false|]. intros Hh.
  match goal with H : bool_decide (ia_authority a = HUMAN_REVIEW) && _ = false |- _ =>
    rewrite (bool_decide_eq_true_2 _ Hh) in H; cbn in H; propify end.
  destruct (ia_reviewer_principal_id a) as [r|]; [by exists r|done].
Qed.

Lemma intake_assessment_validate_Ok a a' : IntakeAssessment_validate a = Ok a' -> a' = a.
Proof.
  unfold IntakeAssessment_validate. destruct (sized_opt _ _); [|done]. intros Hv. inv_ok. done.
Qed.

Lemma append_assessment_Ok d a r d' :
  append_intake_assessment d a = Ok (r, d') ->
  r = a /\ it_assessments d !! ia_assessment_id a = None /\
  d' = set_assessments d (<[ia_assessment_id a := a]> (it_assessments d)) /\
  (ia_is_final a = true -> forall k b, it_assessments d !! k = Some b -> ia_is_final b = true ->
     ia_candidate_ref b <> ia_candidate_ref a).
Proof.
  unfold append_intake_assessment, flushed. intros Ha. inv_ok.
  destruct (db_add _ _ _) as [t|] eqn:Hadd; [|done]. inv_ok. apply db_add_Ok in Hadd as [Hnew ->].
  simplify_eq. split_and!; try done.
  intros Hf k b Hk Hb Hc. rewrite Hf in E. cbn in E. propify.
  match goal with H : is_nil _ = true |- _ => apply is_nil_true, select_where_nil with (k := k) (v := b) in H; [|done];
    rewrite Hb in H; cbn in H; by propify end.
Qed.

Lemma append_assessment_advances s a r d' :
  IntakeAssessment_validate a = Ok a -> append_intake_assessment (m_intake s) a = Ok (r, d') -> advances s (set_intake s d').
Proof.
  intros Hv Happ. apply append_assessment_Ok in Happ as (-> & Hnew & -> & Hone). split; cbn.
  - split; cbn; eauto. by apply grown.
  - intros [Hid Hfin Hone1 Hprom Hpv Hearn Hrec Hcid Hload]. split; cbn; try done.
    + by apply keyed_insert.
    + intros k b [[<- <-]|[_ Hk]]%lookup_insert_Some Hb; [by apply assessment_valid_final|by eapply Hfin].
    + intros k1 k2 a1 a2 [[<- <-]|[_ H1]]%lookup_insert_Some [[<- <-]|[_ H2]]%lookup_insert_Some F1 F2 Hc; try done.
      * by destruct (Hone F1 _ _ H2 F2).
      * by destruct (Hone F2 _ _ H1 F1).
      * by eapply Hone1.
    + intros k p Hk. destruct (Hearn k p Hk) as (b & Hb & Hadm). exists b. split; [|done].
      rewrite lookup_insert_ne; [done|]. intros E. congruence.
Qed.

(** ** The runs of a promotion *)

Lemma find_promotion_None d candidate_ref :
  find_promotion d candidate_ref = None <->
  forall k p, it_promotions d !! k = Some p -> pm_candidate_ref p <> candidate_ref.
Proof.
  unfold find_promotion. split.
  - intros Hn k p Hk Hc. destruct (select_where _ _) eqn:E; [|done].
    apply select_where_nil with (k := k) (v := p) in E; [by propify|done].
  - intros Hall. assert (Hnil : select_where (fun p => bool_decide (pm_candidate_ref p = candidate_ref)) (it_promotions d) = []).
    { apply select_where_nil. intros k p Hk. apply bool_decide_eq_false. by eapply Hall. }
    by rewrite Hnil.
Qed.

Lemma find_promotion_Some d candidate_ref p :
  find_promotion d candidate_ref = Some p -> exists k, it_promotions d !! k = Some p /\ pm_candidate_ref p = candidate_ref.
Proof.
  unfold find_promotion. intros Hf. destruct (select_where _ _) as [|q l] eqn:E; [done|]. injection Hf as ->.
  assert (p ∈ select_where (fun p => bool_decide (pm_candidate_ref p = candidate_ref)) (it_promotions d))
    as [[k Hk] Hc]%elem_of_select_where by (rewrite E; left).
  exists k. by propify.
Qed.

Lemma promotion_validate_Ok p p' : PromotionRecord_validate p = Ok p' -> p' = p.
Proof. unfold PromotionRecord_validate. destruct (_ && _); [|done]. intros Hv. inv_ok. done. Qed.

Lemma get_promotion_Some d candidate_ref p :
  get_promotion d candidate_ref = Ok (Some p) -> exists k, it_promotions d !! k = Some p /\ pm_candidate_ref p = candidate_ref.
Proof.
  unfold get_promotion. destruct (find_promotion d candidate_ref) as [row|] eqn:E; intros Hg; inv_ok; [|done].
  apply promotion_validate_Ok in E0. simplify_eq. by apply find_promotion_Some.
Qed.

(** Under the invariant the record found is the only one. *)
Lemma promotion_found s k p :
  lineage s -> it_promotions (m_intake s) !! k = Some p -> get_promotion (m_intake s) (pm_candidate_ref p) = Ok (Some p).
Proof.
  intros Hl Hk. unfold get_promotion. destruct (find_promotion _ _) as [q|] eqn:E.
  - apply find_promotion_Some in E as (k' & Hk' & Hc).
    assert (k' = k) as -> by (eapply ln_one_promotion; eauto). assert (q = p) as -> by congruence.
    by rewrite (ln_promotion_valid _ Hl _ _ Hk).
  - by destruct (proj1 (find_promotion_None _ _) E _ _ Hk).
Qed.

Lemma request_promoted_false d request_id :
  request_promoted d request_id = false -> forall k p, it_promotions d !! k = Some p -> pm_request_id p <> request_id.
Proof.
  unfold request_promoted. intros Hr k p Hk. propify. apply is_nil_true, select_where_nil with (k := k) (v := p) in Hr; [|done].
  by propify.
Qed.

Lemma promotion_transaction_Ok w now s u s' :
  promotion_transaction w now s = Ok (u, s') ->
  (forall k p, it_promotions (m_intake s) !! k = Some p -> pm_candidate_ref p <> pm_candidate_ref (pd_promotion w)) /\
  u_ingress (m_uow s) !! pm_ingress_receipt_ref (pd_promotion w) = None /\
  x_requests (u_exec (m_uow s)) !! rq_request_id (pd_request w) = None /\
  x_cases (u_exec (m_uow s)) !! c_case_id (pd_case w) = None /\
  it_promotions (m_intake s) !! pm_promotion_id (pd_promotion w) = None /\ s' = promoted_db s w now.
Proof.
  unfold promotion_transaction. intros Ht. destruct (find_promotion _ _) eqn:Hf; [done|].
  destruct (u_ingress _ !! _) eqn:Hi; [done|]. inv_ok.
  repeat match goal with H : db_add _ _ _ = Ok _ |- _ => apply db_add_Ok in H as [? _] end.
  simplify_eq. split_and!; try done. by apply find_promotion_None.
Qed.

(** What [prepare_promotion] prepares. *)
Record prepared (candidate : CandidateAdministrativeRequest) (assessment : IntakeAssessment) (k : PromotionContext)
    (w : Promotion) : Prop := {
  pp_candidate : pm_candidate_ref (pd_promotion w) = cq_candidate_id candidate;
  pp_assessment : pm_assessment_ref (pd_promotion w) = ia_assessment_id assessment;
  pp_event : pm_ingress_receipt_ref (pd_promotion w) = px_source_event_id k;
  pp_policy : pm_promotion_policy_ref (pd_promotion w) = px_promotion_policy_ref k;
  pp_request : pm_request_id (pd_promotion w) = rq_request_id (pd_request w);
  pp_requester : rq_requester_principal_id (pd_request w) = px_requester_principal_id k;
  pp_intent : rq_intent (pd_request w) = cq_candidate_intent candidate;
  pp_valid : PromotionRecord_validate (pd_promotion w) = Ok (pd_promotion w);
  pp_kind : c_case_kind (pd_case w) = px_case_kind k;
  pp_subject : c_subject_ref (pd_case w) = subject_or_candidate candidate (px_subject_ref k);
  pp_received : c_status (pd_case w) = RECEIVED /\ c_fact_snapshot (pd_case w) = None /\ c_policy_ref (pd_case w) = None;
  pp_loads : validate_case (pd_case w) = Ok (pd_case w);
}.

Lemma prepare_promotion_Ok candidate assessment k ids clock w :
  prepare_promotion candidate assessment k ids clock = Ok w -> prepared candidate assessment k w.
Proof.
  unfold prepare_promotion. intros Hp. inv_ok. subst w. pose proof E0 as Hv. apply promotion_validate_Ok in E0. subst.
  unfold create_case in E. pose proof E as Hc. unfold validate_case in E. cbn in E. injection E as <-. by split.
Qed.

Lemma promotion_advances w now s u s' candidate assessment k :
  prepared candidate assessment k w ->
  (exists a, it_assessments (m_intake s) !! ia_assessment_id assessment = Some a /\ final_admit a) ->
  promotion_transaction w now s = Ok (u, s') -> advances s s'.
Proof.
  intros Hp (a & Ha & Hadm) (Hcand & Hi & Hr & Hc & Hpr & ->)%promotion_transaction_Ok.
  split.
  - split; cbn; [done|by apply grown|by apply grown|by apply grown|].
    intros k0 row Hk0. exists row. rewrite lookup_insert_ne; [done|]. intros E. congruence.
  - intros [Hid Hfin Hone1 Hprom Hpv Hearn Hrec Hcid Hload]. split; cbn; try done.
    + intros k1 k2 p1 p2 [[<- <-]|[_ H1]]%lookup_insert_Some [[<- <-]|[_ H2]]%lookup_insert_Some Heq; try done.
      * by destruct (Hcand _ _ H2).
      * by destruct (Hcand _ _ H1).
      * by eapply Hprom.
    + intros k1 p1 [[<- <-]|[_ H1]]%lookup_insert_Some; [apply (pp_valid _ _ _ _ Hp)|by eapply Hpv].
    + intros k1 p1 [[<- <-]|[_ H1]]%lookup_insert_Some; [|by eapply Hearn].
      exists a. by rewrite (pp_assessment _ _ _ _ Hp).
    + intros k1 p1 [[<- <-]|[_ H1]]%lookup_insert_Some.
      * exists (pd_request w), (mkCaseRow (rq_request_id (pd_request w)) (pd_case w)).
        unfold promoted_records. cbn. rewrite (pp_request _ _ _ _ Hp), !lookup_insert_eq.
        split_and!; try done. by eexists.
      * destruct (Hrec _ _ H1) as (request & row & (receipt & Hrc & Hrq & Hcs) & Hreq & Hrow & Hof).
        exists request, row. unfold promoted_records. cbn.
        rewrite !lookup_insert_ne by congruence. split_and!; try done. by exists receipt.
    + by apply map_Forall_insert_2.
    + intros k1 row [[<- <-]|[_ H1]]%lookup_insert_Some; [|by eapply Hload].
      unfold case_from_row. cbn. destruct (pp_received _ _ _ _ Hp) as (_ & -> & _). cbn. apply (pp_loads _ _ _ _ Hp).
Qed.

Section runs.
Context (others : nat -> AdmissionDb -> AdmissionDb).

(** Only other sessions committed. *)
Definition idle : relation AdmissionDb := rtc (fun s s' => exists n, s' = others n s).

Lemma idle_once n s : idle s (others n s).
Proof. apply rtc_once. by exists n. Qed.

Lemma session_run {A} n (f : IntakeDb -> result A) s r s' :
  session others n f s = (r, s') -> s' = others n s /\ f (m_intake s') = r.
Proof. unfold session, bind, elsewhere, reads. by intros [= <- <-]. Qed.

(** Every way a promotion ends. *)
Inductive promotion_run (candidate : CandidateAdministrativeRequest) (assessment : IntakeAssessment) (k : PromotionContext)
    (now : instant) (s : AdmissionDb) : result PromotionResult -> AdmissionDb -> Prop :=
  | run_refused e s' : idle s s' -> promotion_run candidate assessment k now s (Err e) s'
  | run_replayed p s1 s' receipt request row :
      idle s s1 -> get_promotion (m_intake s1) (cq_candidate_id candidate) = Ok (Some p) -> idle s1 s' ->
      pm_assessment_ref p = ia_assessment_id assessment -> pm_ingress_receipt_ref p = px_source_event_id k ->
      u_ingress (m_uow s') !! pm_ingress_receipt_ref p = Some receipt ->
      x_requests (u_exec (m_uow s')) !! pm_request_id p = Some request ->
      x_cases (u_exec (m_uow s')) !! ir_case_id receipt = Some row ->
      rq_requester_principal_id request = px_requester_principal_id k ->
      case_from_row row = Ok (cr_case row) ->
      promotion_run candidate assessment k now s (Ok (mkPromotionResult p request (cr_case row) false)) s'
  | run_created w s1 s2 s3 s4 s' :
      idle s s1 -> check_candidate (m_intake s1) candidate = Ok tt ->
      idle s1 s2 -> check_assessment (m_intake s2) assessment = Ok tt ->
      idle s2 s3 -> check_receipt (m_intake s3) candidate k = Ok tt -> prepared candidate assessment k w ->
      idle s3 s4 -> promotion_transaction w now s4 = Ok (tt, s') ->
      promotion_run candidate assessment k now s
        (Ok (mkPromotionResult (pd_promotion w) (pd_request w) (pd_case w) true)) s'.

Lemma load_existing_run candidate assessment k now n p s s1 r s' :
  idle s s1 -> get_promotion (m_intake s1) (cq_candidate_id candidate) = Ok (Some p) ->
  load_existing others n p assessment k s1 = (r, s') -> promotion_run candidate assessment k now s r s'.
Proof.
  intros Hidle Hp. unfold load_existing.
  case_bool_decide as Ha; [by intros [= <- <-]; apply run_refused|].
  case_bool_decide as He; [by intros [= <- <-]; apply run_refused|].
  unfold bind, elsewhere, reads. intros [= <- <-].
  assert (Hs : idle s (others n s1)) by (etrans; [exact Hidle|apply idle_once]).
  destruct (u_ingress _ !! _) as [receipt|] eqn:Hi; [|by apply run_refused].
  destruct (x_requests _ !! _) as [request|] eqn:Hr; [|by apply run_refused].
  destruct (x_cases _ !! _) as [row|] eqn:Hc; [|by apply run_refused].
  unfold guard. case_bool_decide as Hq; cbn; [by apply run_refused|].
  destruct (case_from_row row) as [c|e] eqn:El; cbn; [|by apply run_refused].
  pose proof (case_from_row_Ok _ _ El) as ->.
  eapply run_replayed with (s1 := s1) (receipt := receipt); eauto using idle_once.
Qed.

Lemma recover_run candidate assessment k now msg s s1 r s' :
  idle s s1 -> recover_promotion others candidate assessment k msg s1 = (r, s') -> promotion_run candidate assessment k now s r s'.
Proof.
  intros Hidle. unfold recover_promotion, bind at 1. destruct (session _ _ _ _) as [[ex|e] s2] eqn:Es;
    apply session_run in Es as [-> Hex].
  - destruct ex as [p|].
    + apply load_existing_run; [|done]. etrans; [exact Hidle|apply idle_once].
    + intros [= <- <-]. apply run_refused. etrans; [exact Hidle|apply idle_once].
  - intros [= <- <-]. apply run_refused. etrans; [exact Hidle|apply idle_once].
Qed.

Lemma commit_run candidate assessment k w now s s1 s2 s3 r s' :
  idle s s1 -> check_candidate (m_intake s1) candidate = Ok tt ->
  idle s1 s2 -> check_assessment (m_intake s2) assessment = Ok tt ->
  idle s2 s3 -> check_receipt (m_intake s3) candidate k = Ok tt -> prepared candidate assessment k w ->
  commit_promotion others candidate assessment k w now s3 = (r, s') -> promotion_run candidate assessment k now s r s'.
Proof.
  intros H1 C1 H2 C2 H3 C3 Hw. assert (Hs : idle s (others 4 s3)) by (etrans; [|apply idle_once]; do 2 (etrans; [eassumption|]); done).
  unfold commit_promotion, bind, elsewhere, transact.
  destruct (promotion_transaction w now (others 4 s3)) as [[u s4]|e] eqn:Et.
  - intros [= <- <-]. destruct u. eapply run_created with (s1 := s1) (s2 := s2) (s3 := s3); eauto using idle_once.
  - case_bool_decide; [by apply recover_run|]. case_bool_decide; [by apply recover_run|].
    intros [= <- <-]. by apply run_refused.
Qed.

(** A session that raises ends the promotion; one that returns goes on. *)
Lemma session_bind {A} candidate assessment k now n (f : IntakeDb -> result A) cont s s0 r s' :
  idle s s0 ->
  (forall a, idle s (others n s0) -> f (m_intake (others n s0)) = Ok a -> cont a (others n s0) = (r, s') ->
     promotion_run candidate assessment k now s r s') ->
  bind (session others n f) cont s0 = (r, s') -> promotion_run candidate assessment k now s r s'.
Proof.
  intros Hidle Hk. assert (Hs : idle s (others n s0)) by (etrans; [exact Hidle|apply idle_once]).
  unfold bind at 1. destruct (session _ _ _ _) as [[a|e] s1] eqn:Es; apply session_run in Es as [-> Hf].
  - intros Hrun. by eapply Hk.
  - intros [= <- <-]. by apply run_refused.
Qed.

Lemma promote_runs candidate assessment k ids clock s r s' :
  promote others candidate assessment k ids clock s = (r, s') ->
  promotion_run candidate assessment (stripped_context k) (clock 3%nat) s r s'.
Proof.
  unfold promote. destruct (complete_context _); cbn [negb]; [|by intros [= <- <-]; apply run_refused].
  apply session_bind; [done|]. intros [p|] H0 Hp; [by apply load_existing_run|].
  apply session_bind; [done|]. intros [] H1 C1.
  apply session_bind; [done|]. intros [] H2 C2.
  apply session_bind; [done|]. intros [] H3 C3.
  unfold bind at 1, lift. destruct (prepare_promotion _ _ _ _ _) as [w|e] eqn:Hw; [|by intros [= <- <-]; apply run_refused].
  apply prepare_promotion_Ok in Hw. eapply (commit_run _ _ _ w _ s (others 1 (others 0 s)) (others 2 (others 1 (others 0 s))));
    eauto using idle_once.
Qed.
End runs.

(** ** The services respect the invariant *)

Lemma check_assessment_Ok d a :
  check_assessment d a = Ok tt ->
  exists row, it_assessments d !! ia_assessment_id a = Some row /\ final_admit row /\ ia_candidate_ref row = ia_candidate_ref a.
Proof.
  unfold check_assessment, get_assessment. intros Hc. inv_ok.
  destruct (it_assessments d !! ia_assessment_id a) as [row|] eqn:Hrow; inv_ok; simplify_eq.
  apply intake_assessment_validate_Ok in E3. subst. exists row. propify. unfold assessment_eqb in *. propify.
  unfold final_admit. split_and!; congruence.
Qed.

Section guarantees.
Context (others : nat -> AdmissionDb -> AdmissionDb) (Hothers : forall n s, advances s (others n s)).

Lemma idle_advances s s' : idle others s s' -> advances s s'.
Proof. induction 1 as [s|s s1 s' (n & ->) _ IH]; [done|]. etrans; [apply Hothers|done]. Qed.

#[export] Instance elsewhere_respects n : Respects admission_motion (elsewhere others n).
Proof. intros s r s' [= <- <-]. apply Hothers. Qed.

#[export] Instance session_respects {A} n (f : IntakeDb -> result A) : Respects admission_motion (session others n f).
Proof. unfold session. respect. Qed.

Lemma append_assessment_respects n a :
  IntakeAssessment_validate a = Ok a -> Respects admission_motion (intake_write others n (fun d => append_intake_assessment d a)).
Proof.
  intros Hv. unfold intake_write. respect. apply respects_transact. intros s b s' Hb. inv_ok. destruct v as [b' d'].
  simplify_eq. inv_ok. simplify_eq. by eapply append_assessment_advances.
Qed.

(** An assessment is validated, then appended. *)
Lemma assess_respects n a :
  Respects admission_motion (do! a := lift (IntakeAssessment_validate a) in
                             intake_write others n (fun d => append_intake_assessment d a)).
Proof.
  intros s r s'. unfold bind at 1, lift. destruct (IntakeAssessment_validate a) as [a'|e] eqn:Hv.
  - pose proof (intake_assessment_validate_Ok _ _ Hv) as ->. by apply append_assessment_respects.
  - intros [= <- <-]. apply breaks_refl.
Qed.

#[export] Instance suggest_respects candidate_ref disposition basis id now :
  Respects admission_motion (suggest others candidate_ref disposition basis id now).
Proof. unfold suggest. apply respects_bind; [apply _|]. intros _. apply assess_respects. Qed.

#[export] Instance finalize_respects candidate_ref disposition authority basis reviewer id now :
  Respects admission_motion (finalize others candidate_ref disposition authority basis reviewer id now).
Proof.
  unfold finalize. apply respects_bind; [apply _|]. intros _. apply respects_bind; [apply _|].
  intros [|existing l]; [|respect]. apply respects_catch; [done|apply assess_respects|respect].
Qed.

#[export] Instance finalize_deterministic_respects candidate_ref disposition rule_ref input_digest basis id now :
  Respects admission_motion (finalize_deterministic others candidate_ref disposition rule_ref input_digest basis id now).
Proof. unfold finalize_deterministic. respect. Qed.

#[export] Instance finalize_human_respects candidate_ref disposition reviewer basis id now :
  Respects admission_motion (finalize_human others candidate_ref disposition reviewer basis id now).
Proof. unfold finalize_human. respect. Qed.

(** The assessment a promotion checked is still there when it commits. *)
Lemma checked_assessment s2 s4 assessment :
  check_assessment (m_intake s2) assessment = Ok tt -> keeps s2 s4 ->
  exists a, it_assessments (m_intake s4) !! ia_assessment_id assessment = Some a /\ final_admit a.
Proof.
  intros (row & Hrow & Hadm & _)%check_assessment_Ok Hk. exists row. split; [|done]. eapply kept; [apply Hk|done].
Qed.

Lemma run_advances candidate assessment k now s r s' :
  promotion_run others candidate assessment k now s r s' -> advances s s'.
Proof.
  intros Hrun. destruct Hrun as [e s' H1|p s1 s' receipt request row H1 _ H2|w s1 s2 s3 s4 s' H1 _ H2 Ha H3 _ Hw H4 Ht].
  - by apply idle_advances.
  - apply idle_advances. by etrans.
  - assert (Hs : advances s2 s4) by (apply idle_advances; by etrans).
    assert (Hs2 : advances s s2) by (apply idle_advances; by etrans).
    etrans; [exact Hs2|]. etrans; [exact Hs|]. eapply promotion_advances; [exact Hw| |exact Ht].
    by eapply checked_assessment; [|apply Hs].
Qed.

#[export] Instance promote_respects candidate assessment k ids clock :
  Respects admission_motion (promote others candidate assessment k ids clock).
Proof. intros s r s' Hrun%promote_runs%run_advances. by destruct r. Qed.

(** What a promotion that returned points to, whoever committed it. *)
Lemma run_result candidate assessment k now s r s' :
  promotion_run others candidate assessment k now s (Ok r) s' -> lineage s ->
  exists id row, it_promotions (m_intake s') !! id = Some (pn_promotion r) /\
    pm_candidate_ref (pn_promotion r) = cq_candidate_id candidate /\
    pm_assessment_ref (pn_promotion r) = ia_assessment_id assessment /\
    pm_ingress_receipt_ref (pn_promotion r) = px_source_event_id k /\
    promoted_records s' (pn_promotion r) (pn_request r) row /\ pn_case r = cr_case row /\
    rq_requester_principal_id (pn_request r) = px_requester_principal_id k.
Proof.
  intros Hrun Hl. pose proof (run_advances _ _ _ _ _ _ _ Hrun) as [_ Hl']. specialize (Hl' Hl).
  inversion Hrun as [|p s1 ? receipt request row H1 Hp H2 Ha He Hi Hr Hc Hq Hload|w s1 s2 s3 s4 ? H1 _ H2 Ha H3 _ Hw H4 Ht]; subst; cbn.
  - apply get_promotion_Some in Hp as (id & Hid & Hcand). pose proof (idle_advances _ _ H2) as [Hk _].
    assert (Hid' : it_promotions (m_intake s') !! id = Some p) by (eapply kept; [apply Hk|done]).
    exists id, row. split_and!; try done.
    destruct (ln_records _ Hl' _ _ Hid') as (request' & row' & (receipt' & Hi' & Hrq & Hcs) & Hreq' & Hrow' & Hof).
    assert (receipt' = receipt) as -> by congruence. rewrite <- Hcs, Hc in Hrow'. injection Hrow' as <-.
    unfold promoted_records. split_and!; try done; [by exists receipt|by rewrite <- Hcs].
  - apply promotion_transaction_Ok in Ht as (_ & _ & _ & _ & _ & ->).
    exists (pm_promotion_id (pd_promotion w)), (mkCaseRow (rq_request_id (pd_request w)) (pd_case w)).
    cbn. rewrite lookup_insert_eq. unfold promoted_records. cbn. rewrite (pp_request _ _ _ _ Hw), !lookup_insert_eq.
    split_and!; try done; try apply Hw. by eexists.
Qed.
End guarantees.

(** ** Theorems *)


(** A candidate is promoted at most once: whatever happens after a promotion
    returned, a later promotion of the same candidate that returns, under any
    arguments, returns the same record, the same request and the same case, and
    says that it created nothing. *)
Theorem promoted_once others others' (Hothers : forall n s, advances s (others n s))
    (Hothers' : forall n s, advances s (others' n s)) candidate candidate' assessment assessment' k k' ids ids' clock clock'
    s r s1 s2 r' s' :
  lineage s -> promote others candidate assessment k ids clock s = (Ok r, s1) -> advances s1 s2 ->
  cq_candidate_id candidate' = cq_candidate_id candidate ->
  promote others' candidate' assessment' k' ids' clock' s2 = (Ok r', s') ->
  pn_promotion r' = pn_promotion r /\ pn_request r' = pn_request r /\ c_case_id (pn_case r') = c_case_id (pn_case r) /\
  pn_created r' = false.
Proof.
  intros Hl Hrun%promote_runs [Hk2 Hl2] Hsame Hrun'%promote_runs.
  pose proof (run_advances _ Hothers _ _ _ _ _ _ _ Hrun) as [_ Hl1]. specialize (Hl1 Hl). specialize (Hl2 Hl1).
  pose proof (run_advances _ Hothers' _ _ _ _ _ _ _ Hrun') as [Hk' Hl']. specialize (Hl' Hl2).
  destruct (run_result _ Hothers _ _ _ _ _ _ _ Hrun Hl) as (id & row & Hid & Hcand & _ & _ & Hrec & -> & _).
  destruct (run_result _ Hothers' _ _ _ _ _ _ _ Hrun' Hl2) as (id' & row' & Hid' & Hcand' & _ & _ & Hrec' & -> & _).
  assert (Hks : keeps s1 s') by (by etrans).
  assert (Hid1 : it_promotions (m_intake s') !! id = Some (pn_promotion r)) by (eapply kept; [apply Hks|done]).
  assert (id' = id) as -> by (eapply ln_one_promotion; eauto; congruence).
  assert (Hp : pn_promotion r' = pn_promotion r) by congruence. rewrite Hp in *.
  destruct (records_kept _ _ _ _ _ Hl' Hks Hrec) as (row1 & ((rc & Hrc & _ & Hc1) & Hrq & _) & <-).
  destruct Hrec' as ((rc' & Hrc' & _ & Hc') & Hrq' & _).
  split_and!; [done|congruence|congruence|].
  inversion Hrun' as [|p s3 ? receipt request row2|w s3 s4 s5 s6 ? H3 _ H4 _ H5 _ Hw H6 Ht]; subst; [done|].
  exfalso. apply promotion_transaction_Ok in Ht as (Hnone & _).
  assert (Hks6 : keeps s1 s6).
  { etrans; [exact Hk2|]. apply (idle_advances others' Hothers'). do 3 (etrans; [eassumption|]). done. }
  eapply (Hnone id (pn_promotion r)); [eapply kept; [apply Hks6|done]|].
  rewrite Hcand, (pp_candidate _ _ _ _ Hw). done.
Qed.

(** The store of one client. *)
Definition alone (n : nat) (s : AdmissionDb) : AdmissionDb := s.

Lemma alone_advances n s : advances s (alone n s).
Proof. reflexivity. Qed.

Lemma alone_idle s s' : idle alone s s' -> s' = s.
Proof. induction 1 as [s|s s1 s' (n & ->) _ ->]; done. Qed.

(** A promotion is atomic: one that is refused, for any reason, leaves every
    table as it was, and one that succeeds either writes nothing, being a replay, or
    writes exactly the request, the case in state [RECEIVED] with no facts, the
    ingress record, the promotion, the admitted status and one audit event. *)
Theorem promotion_is_atomic candidate assessment k ids clock s :
  match promote alone candidate assessment k ids clock s with
  | (Err _, s') => s' = s
  | (Ok r, s') =>
      if pn_created r
      then exists w, prepared candidate assessment (stripped_context k) w /\ s' = promoted_db s w (clock 3%nat) /\
             r = mkPromotionResult (pd_promotion w) (pd_request w) (pd_case w) true /\
             check_candidate (m_intake s) candidate = Ok tt /\ check_assessment (m_intake s) assessment = Ok tt /\
             check_receipt (m_intake s) candidate (stripped_context k) = Ok tt
      else s' = s
  end.
Proof.
  destruct (promote alone candidate assessment k ids clock s) as [r s'] eqn:Hrun. apply promote_runs in Hrun.
  destruct Hrun as [e s' ->%alone_idle|p s1 s' ? ? ? ->%alone_idle _ ->%alone_idle
                   |w s1 s2 s3 s4 s' ->%alone_idle C1 ->%alone_idle C2 ->%alone_idle C3 Hw ->%alone_idle Ht]; cbn; try done.
  exists w. by apply promotion_transaction_Ok in Ht as (_ & _ & _ & _ & _ & ->).
Qed.

(** A promotion can always be replayed: once the candidate has its promotion, the
    same assessment, source event and requester get it back, with the stored request
    and the case as it is now, and nothing is written. *)
Theorem promotion_replays candidate assessment k ids clock s p request row :
  lineage s -> get_promotion (m_intake s) (cq_candidate_id candidate) = Ok (Some p) -> promoted_records s p request row ->
  complete_context (stripped_context k) = true -> pm_assessment_ref p = ia_assessment_id assessment ->
  pm_ingress_receipt_ref p = strip (px_source_event_id k) ->
  rq_requester_principal_id request = strip (px_requester_principal_id k) ->
  promote alone candidate assessment k ids clock s = (Ok (mkPromotionResult p request (cr_case row) false), s).
Proof.
  intros Hl Hp ((receipt & Hi & _ & Hc) & Hr & Hrow & _) Hk Ha He Hq. unfold promote. rewrite Hk. cbn [negb].
  unfold bind at 1, session, bind, elsewhere, alone, reads. rewrite Hp. unfold load_existing, bind, elsewhere, reads.
  rewrite bool_decide_eq_false_2 by (intros E; by apply E). rewrite bool_decide_eq_false_2 by (intros E; by apply E).
  rewrite Hi, Hr, Hc, Hrow. cbn [guard]. rewrite bool_decide_eq_false_2 by (intros E; by apply E). cbn.
  by rewrite (ln_loads _ Hl _ _ Hrow).
Qed.
