(* ===== verification/BridgeSafety.v ===== *)
(** * Admission bridges: claims stay claims

    What an admission bridge writes.  [LawfulKind] is what the service relies on of
    a case kind: its policy answers with a valid evaluation that leaves the case to
    people; the five kinds discharge it.  [admission_call] is one call of the intake
    and admission services, and the tables reached by any calls keep their lineage. *)

From stdpp Require Import base gmap strings list relations.
From Stdlib Require Import ZArith Lia.
From S2P Require Import Prelude Python Uuid Store Domain Policy Authority FactAcquisition Access Lifecycle Obligations.
From S2P Require Import PolicyPlane Financial Persistence Transactions Governance Machine Outbox UnitOfWork Intake Api.
From S2P Require Import Execution CaseFlow OffboardingEngine Admission AdmissionBridge AdmissionSafety.

Open Scope Z_scope.
Open Scope orch_scope.
Open Scope machine_scope.

(** ** Lawful kinds *)

(** A disposition after which the case still waits for somebody. *)
Definition left_open (e : PolicyEvaluation) : Prop :=
  pe_disposition e ∈ [NEED_MORE_FACTS; HUMAN_DECISION_REQUIRED; POLICY_REOPEN_REQUIRED].

Class LawfulKind (A : AdmissionKind) : Prop :=
  evaluate_lawful : forall record facts e, ak_evaluate A record facts = Ok e -> evaluation_valid e /\ left_open e.

Lemma validated_evaluation e e' : PolicyEvaluation_validate e = Ok e' -> left_open e -> evaluation_valid e' /\ left_open e'.
Proof.
  intros Hv Ho. pose proof (PolicyEvaluation_validate_Ok _ _ Hv) as ->. split; [|done].
  by apply PolicyEvaluation_validate_spec.
Qed.

Lemma asks_for_facts ref reason missing e :
  need_more_facts ref reason missing = Ok e -> evaluation_valid e /\ left_open e.
Proof. intros He. eapply validated_evaluation; [exact He|]. unfold left_open. cbn. set_solver. Qed.

Lemma asks_to_reopen ref reason why e : reopen_required ref reason why = Ok e -> evaluation_valid e /\ left_open e.
Proof. intros He. eapply validated_evaluation; [exact He|]. unfold left_open. cbn. set_solver. Qed.

Lemma asks_for_decision ref reason roles distinct effects e :
  human_decision_required ref reason roles distinct effects = Ok e -> evaluation_valid e /\ left_open e.
Proof. intros He. eapply validated_evaluation; [exact He|]. unfold left_open. cbn. set_solver. Qed.

(** Closes a policy's branches with the three answers it may give. *)
Ltac lawful :=
  repeat first
    [ done
    | match goal with H : need_more_facts _ _ _ = Ok _ |- _ => exact (asks_for_facts _ _ _ _ H) end
    | match goal with H : reopen_required _ _ _ = Ok _ |- _ => exact (asks_to_reopen _ _ _ _ H) end
    | match goal with H : human_decision_required _ _ _ _ _ = Ok _ |- _ => exact (asks_for_decision _ _ _ _ _ _ H) end
    | match goal with H : (if ?b then _ else _) = Ok _ |- _ => destruct b end
    | match goal with H : match ?x with _ => _ end = Ok _ |- _ => destruct x end
    | progress inv_ok ].

Section kinds.
Context `{Platform} `{FactContracts}.

#[export] Instance onboarding_lawful : LawfulKind onboarding_admission.
Proof. intros record facts e He. cbn in He. inv_ok. destruct v. unfold OnboardingPolicy_evaluate in He. lawful. Qed.

#[export] Instance offboarding_lawful : LawfulKind offboarding_admission.
Proof. intros record facts e He. cbn in He. inv_ok. destruct v. unfold OffboardingPolicy_evaluate in He. lawful. Qed.

#[export] Instance procurement_lawful : LawfulKind procurement_admission.
Proof. intros record facts e He. cbn in He. inv_ok. destruct v. unfold ProcurementPolicy_evaluate in He. lawful. Qed.

#[export] Instance invoice_lawful : LawfulKind invoice_admission.
Proof. intros record facts e He. cbn in He. inv_ok. destruct v. unfold InvoiceAPPolicy_evaluate in He. lawful. Qed.

#[export] Instance expense_lawful : LawfulKind expense_admission.
Proof. intros record facts e He. cbn in He. inv_ok. destruct v. unfold ExpensePolicy_evaluate in He. lawful. Qed.
End kinds.

(** ** The snapshot of claims *)

Definition claims_only (s : FactSnapshot) : Prop :=
  fs_authority s = CLAIM /\ (fs_assertions s).*1 = (fs_facts s).*1 /\
  forall key a, (key, a) ∈ fs_assertions s -> fa_authority a = CLAIM.

Lemma matched_snapshot s s' : assertion_values_match_flattened_facts s = Ok s' -> s' = s.
Proof. unfold assertion_values_match_flattened_facts. intros Hs. inv_ok. done. Qed.

Section snapshot.
Context `{Platform} (A : AdmissionKind) `{!LawfulKind A}.

Lemma claim_snapshot_Ok assertions assessment flattened system event id s :
  claim_snapshot A assertions assessment flattened system event id = Ok s ->
  claims_only s /\ fs_facts s = flattened /\ fs_snapshot_id s = id /\ assertion_values_match_flattened_facts s = Ok s.
Proof.
  unfold claim_snapshot. intros Hs. pose proof (matched_snapshot _ _ Hs) as ->. split_and!; try done. split_and!; cbn; try done.
  - rewrite <- list_fmap_compose. by apply list_fmap_ext.
  - intros key a ([key' v] & [= -> ->] & _)%list_elem_of_fmap. done.
Qed.

(** The case a bridge is about to write. *)
Record bridged (current updated : AdministrativeCase) (evaluation : PolicyEvaluation) (facts : pydict) (id : uuid) : Prop := {
  br_case_id : c_case_id updated = c_case_id current;
  br_snapshot : exists s, c_fact_snapshot updated = Some s /\ claims_only s /\ fs_facts s = facts /\ fs_snapshot_id s = id /\
    assertion_values_match_flattened_facts s = Ok s;
  br_valid : case_valid updated;
  br_status : c_status updated ∈ [GATHERING_FACTS; AWAITING_DECISION; REOPEN_REQUIRED];
  br_policy : c_policy_ref updated = Some (pe_policy_ref evaluation);
}.

Lemma applied_status c e now c' :
  apply_policy_evaluation c e now = Ok c' -> left_open e ->
  c_status c' ∈ [GATHERING_FACTS; AWAITING_DECISION; REOPEN_REQUIRED] /\ c_policy_ref c' = Some (pe_policy_ref e) /\
  c_fact_snapshot c' = c_fact_snapshot c /\ (pe_disposition e = NEED_MORE_FACTS -> c_status c' = GATHERING_FACTS).
Proof.
  unfold apply_policy_evaluation, left_open. intros Ha Ho. inv_ok. destruct (pe_disposition e) eqn:Hd; inv_ok; subst; cbn;
    rewrite ?elem_of_cons, ?elem_of_nil in *; intuition congruence.
Qed.

Lemma evaluate_claims_Ok policies current assertions assessment facts k ids clock updated evaluation :
  case_valid current ->
  evaluate_claims policies A current assertions assessment facts k ids clock = Ok (updated, evaluation) ->
  bridged current updated evaluation (ak_dump A facts) (ai_snapshot ids) /\ left_open evaluation /\
  exists record, resolve_current policies (ak_policy_id A) (clock 6%nat) = Ok record /\
    ak_evaluate A record facts = Ok evaluation.
Proof.
  unfold evaluate_claims. intros Hv He. inv_ok. simplify_eq.
  rename v into snap, v0 into changed, v1 into ready, v2 into record.
  destruct (claim_snapshot_Ok _ _ _ _ _ _ _ E) as (Hc & Hf & Hid & Hm).
  destruct (evaluate_lawful _ _ _ E3) as [Hev Ho]. destruct (applied_status _ _ _ _ E4 Ho) as (Hst & Hpol & Hsn & _).
  assert (H1 : case_valid changed) by exact (apply_op_valid (OpReplaceFactSnapshot snap) _ _ _ Hv I E0).
  assert (H2 : case_valid ready) by exact (apply_op_valid OpStartPolicyEvaluation _ _ _ H1 I E1).
  assert (H3 : case_valid updated) by exact (apply_op_valid (OpApplyPolicyEvaluation evaluation) _ _ _ H2 Hev E4).
  assert (Hid1 : c_case_id updated = c_case_id current).
  { etrans; [apply (apply_op_frame (OpApplyPolicyEvaluation evaluation) _ _ _ E4)|].
    etrans; [apply (apply_op_frame OpStartPolicyEvaluation _ _ _ E1)|]. apply (apply_op_frame (OpReplaceFactSnapshot snap) _ _ _ E0). }
  assert (Hs : c_fact_snapshot ready = Some snap).
  { unfold replace_fact_snapshot in E0. unfold start_policy_evaluation in E1. inv_ok. by subst. }
  split_and!; [|done|eauto]. split; try done. exists snap. by rewrite Hsn.
Qed.
End snapshot.

(** ** The transaction of a bridge *)

Lemma loaded_valid x case_id c : get_case x case_id = Ok (Some c) -> case_valid c.
Proof.
  unfold get_case. destruct (x_cases x !! case_id) as [row|]; intros Hg; inv_ok; [|done]. simplify_eq.
  pose proof (case_from_row_Ok _ _ E) as ->. unfold case_from_row in E. inv_ok. by apply validate_case_spec.
Qed.

Lemma loaded_id x case_id c :
  keyed (fun row => c_case_id (cr_case row)) (x_cases x) -> get_case x case_id = Ok (Some c) -> c_case_id c = case_id.
Proof.
  unfold get_case. intros Hk. destruct (x_cases x !! case_id) as [row|] eqn:Hrow; intros Hg; inv_ok; [|done]. simplify_eq.
  apply case_from_row_Ok in E. subst. exact (Hk _ _ Hrow).
Qed.

Lemma latest_appended x row : last (List.filter (fun r => bool_decide (per_case_id r = per_case_id row)) (x ++ [row])) = Some row.
Proof. rewrite List.filter_app. cbn. rewrite bool_decide_eq_true_2 by done. by rewrite last_snoc. Qed.

Section transaction.
Context `{Platform} (A : AdmissionKind).

(** What [replace_facts_and_apply_policy] writes of the tables of admission. *)
Lemma facts_written u before after evaluation event_id now u' :
  replace_facts_and_apply_policy u before after evaluation event_id now = Ok u' ->
  x_requests (u_exec u') = x_requests (u_exec u) /\ u_ingress u' = u_ingress u /\
  (exists row, x_cases (u_exec u) !! c_case_id before = Some row /\
     x_cases (u_exec u') = <[c_case_id after := copy_case_into_row row after]> (x_cases (u_exec u))) /\
  c_case_id before = c_case_id after /\
  x_evaluations (u_exec u') =
    x_evaluations (u_exec u) ++ [mkPolicyEvaluationRow (c_case_id after) (c_version after) (c_authority_epoch after) evaluation].
Proof.
  unfold replace_facts_and_apply_policy. intros Hr. inv_ok. destruct (c_fact_snapshot after); [|done]. inv_ok. subst u'.
  propify. match goal with Hv : require_version _ _ = Ok _ |- _ => apply require_version_Ok in Hv as (Hrow & _ & _) end.
  split_and!; try done. eexists. by split.
Qed.

Lemma claims_advance s current updated evaluation facts id event_id now u' :
  bridged current updated evaluation facts id ->
  replace_facts_and_apply_policy (m_uow s) current updated evaluation event_id now = Ok u' ->
  advances s (mkAdmissionDb u' (m_intake s)).
Proof.
  intros [Hid (sn & Hsn & _ & _ & _ & Hm) Hv _ _] (Hr & Hi & (row & Hrow & Hc) & Hsame & _)%facts_written.
  rewrite <- Hsame in Hc. split.
  - split; cbn; rewrite ?Hr, ?Hi; try done. intros k row0 Hk. rewrite Hc.
    destruct (decide (k = c_case_id current)) as [->|Hne].
    + rewrite lookup_insert_eq. eexists. split; [done|]. cbn. congruence.
    + rewrite lookup_insert_ne by done. eauto.
  - intros [? ? ? ? ? ? Hrec Hcid Hload]. pose proof (Hcid _ _ Hrow) as Hcur. cbn in Hcur. split; cbn; try done.
    + intros k p Hk. destruct (Hrec k p Hk) as (request & row0 & (rc & Hrc & Hq & Hcs) & Hreq & Hrow0 & Hof).
      destruct (decide (c_case_id (cr_case row0) = c_case_id current)) as [He|Hne].
      * exists request, (copy_case_into_row row updated). unfold promoted_records. cbn. rewrite Hr, Hi, Hc, Hcur, lookup_insert_eq.
        rewrite He in Hrow0. assert (row0 = row) as -> by congruence. split_and!; try done. exists rc. split_and!; try done. congruence.
      * exists request, row0. unfold promoted_records. cbn. rewrite Hr, Hi, Hc, lookup_insert_ne by done.
        split_and!; try done. by exists rc.
    + rewrite Hc. intros k row0 [[<- <-]|[_ Hk]]%lookup_insert_Some; [done|by apply Hcid].
    + rewrite Hc. intros k row0 [[<- <-]|[_ Hk]]%lookup_insert_Some; [|by eapply Hload].
      unfold case_from_row. cbn. rewrite Hsn, Hm. cbn. by apply validate_case_spec.
Qed.
End transaction.

(** ** The service *)

Section service.
Context `{Platform} (others : nat -> AdmissionDb -> AdmissionDb) (Hothers : forall n s, advances s (others n s))
  (policies : PolicyDb) (A : AdmissionKind) `{!LawfulKind A}.

#[export] Instance exec_session_respects {B} n (f : ExecDb -> result B) : Respects admission_motion (exec_session others n f).
Proof. unfold exec_session. apply respects_bind; [by apply elsewhere_respects|]. intros. apply respects_reads. Qed.

Lemma exec_session_run {B} n (f : ExecDb -> result B) s r s' :
  exec_session others n f s = (r, s') -> s' = others n s /\ f (u_exec (m_uow s')) = r.
Proof. unfold exec_session, bind, elsewhere, reads. by intros [= <- <-]. Qed.

Lemma commit_claims_respects promotion current updated evaluation facts id event_id now :
  bridged current updated evaluation facts id ->
  Respects admission_motion (commit_claims others A promotion current updated evaluation event_id now).
Proof.
  intros Hb s r s'. unfold commit_claims, bind at 1, elsewhere, transact.
  destruct (replace_facts_and_apply_policy _ _ _ _ _ _) as [u'|e] eqn:Hr; cbn [rbind].
  - intros [= <- <-]. cbn. etrans; [apply (Hothers 11)|]. by eapply claims_advance.
  - intros Hrun. assert (Hin : match r with Ok _ => moves admission_motion (others 11 s) s'
                                       | Err e => breaks admission_motion e (others 11 s) s' end).
    { destruct (is_conflict _); [|by injection Hrun as <- <-].
      match type of Hrun with ?m _ = _ => assert (Hh : Respects admission_motion m) end.
      { apply respects_bind; [apply _|]. intros [ev|]; [|apply respects_lift].
        apply respects_bind; [apply _|]. intros [c|]; [apply respects_ret|apply respects_throw]. }
      by apply Hh in Hrun. }
    destruct r; cbn in *; (etrans; [apply (Hothers 11)|exact Hin]).
Qed.

#[export] Instance promote_and_evaluate_respects candidate assessment k subject ids clock :
  Respects admission_motion (promote_and_evaluate others policies A candidate assessment k subject ids clock).
Proof.
  unfold promote_and_evaluate. destruct (negb _); [apply respects_throw|].
  apply respects_bind; [by apply session_respects|]. intros facts.
  apply respects_bind; [by apply promote_respects|]. intros p.
  apply respects_everywhere. intros s. apply respects_bind_at; [apply at_world, _|].
  intros [current|] s1 Hget; apply at_world; [|apply respects_throw]. apply exec_session_run in Hget as [_ Hget].
  pose proof (loaded_valid _ _ _ Hget) as Hv. clear Hget.
  apply respects_bind; [apply _|]. intros [ev|]; [apply respects_ret|].
  apply respects_bind; [by apply session_respects|]. intros assertions.
  apply respects_everywhere. intros s2. apply respects_bind_at; [apply at_world, respects_lift|].
  intros [updated evaluation] s3 [= He <-]. apply at_world.
  destruct (evaluate_claims_Ok _ _ _ _ _ _ _ _ _ _ _ Hv He) as (Hb & _). by eapply commit_claims_respects.
Qed.

(** How a bridge that returned got its evaluation: another session had recorded
    one, or it recorded its own over the claims. *)
Inductive bridge_run (candidate : CandidateAdministrativeRequest) (facts : ak_facts A) (ids : AdmissionIds)
    (p : PromotionResult) (clock : nat -> instant) (s' : AdmissionDb) : CandidateAdmissionResult -> Prop :=
  | bridge_found s1 c evaluation case_id :
      advances s1 s' -> get_latest_policy_evaluation (u_exec (m_uow s1)) case_id = Ok (Some evaluation) ->
      bridge_run candidate facts ids p clock s' (mkCandidateAdmissionResult p c evaluation (pn_created p))
  | bridge_wrote s1 current updated evaluation record u' :
      bridged current updated evaluation (ak_dump A facts) (ai_snapshot ids) -> left_open evaluation ->
      resolve_current policies (ak_policy_id A) (clock 6%nat) = Ok record -> ak_evaluate A record facts = Ok evaluation ->
      replace_facts_and_apply_policy (m_uow s1) current updated evaluation (ai_event ids) (clock 8%nat) = Ok u' ->
      s' = mkAdmissionDb u' (m_intake s1) ->
      bridge_run candidate facts ids p clock s' (mkCandidateAdmissionResult p updated evaluation (pn_created p)).

Lemma commit_claims_run candidate facts ids clock p current updated evaluation record s r s' :
  bridged current updated evaluation (ak_dump A facts) (ai_snapshot ids) -> left_open evaluation ->
  resolve_current policies (ak_policy_id A) (clock 6%nat) = Ok record -> ak_evaluate A record facts = Ok evaluation ->
  commit_claims others A p current updated evaluation (ai_event ids) (clock 8%nat) s = (Ok r, s') ->
  bridge_run candidate facts ids p clock s' r.
Proof.
  intros Hb Ho Hrec Hev. unfold commit_claims, bind at 1, elsewhere, transact.
  destruct (replace_facts_and_apply_policy _ _ _ _ _ _) as [u'|e] eqn:Hr; cbn [rbind].
  - intros [= <- <-]. by eapply bridge_wrote.
  - destruct (is_conflict _); [|done]. intros Hrun. inv_run. apply exec_session_run in R as [-> Hg].
    destruct a as [ev|]; [|done]. inv_run. apply exec_session_run in R as [-> _]. destruct a as [c|]; [|done].
    unfold ret in Hrun. simplify_eq. eapply bridge_found; [apply (Hothers 13)|exact Hg].
Qed.

Lemma bridge_runs candidate assessment k subject ids clock s r s' :
  promote_and_evaluate others policies A candidate assessment k subject ids clock s = (Ok r, s') ->
  exists facts p s1, ak_candidate_facts A (m_intake (others 7 s)) candidate (strip subject) = Ok facts /\
    promote others candidate assessment (bridged_context A k (strip subject)) ids clock (others 7 s) = (Ok p, s1) /\
    advances s1 s' /\ bridge_run candidate facts ids p clock s' r.
Proof.
  unfold promote_and_evaluate. destruct (negb _); [done|]. intros Hrun. inv_run.
  apply session_run in R as [-> Hf]. apply exec_session_run in R1 as [-> Hget]. rename a into facts, a0 into p, s1 into s2.
  exists facts, p, s2. split; [done|]. split; [done|]. destruct a1 as [current|]; [|done].
  pose proof (loaded_valid _ _ _ Hget) as Hv. inv_run. apply exec_session_run in R as [-> Hl]. destruct a as [ev|].
  - unfold ret in Hrun. simplify_eq. split; [|by eapply bridge_found; [|exact Hl]]. etrans; [apply (Hothers 8)|apply (Hothers 9)].
  - inv_run. apply session_run in R as [-> _]. destruct a0 as [updated evaluation].
    unfold lift in *. simplify_eq.
    match goal with He : evaluate_claims _ _ _ _ _ _ _ _ _ = Ok _ |- _ =>
      destruct (evaluate_claims_Ok _ _ _ _ _ _ _ _ _ _ _ Hv He) as (Hb & Ho & record & Hrec & Hev) end.
    split; [|by eapply commit_claims_run].
    do 3 (etrans; [apply Hothers|]). by eapply (commit_claims_respects _ _ _ _ _ _ _ _ Hb _ (Ok r)).
Qed.
End service.

(** ** Final assessments *)

Lemma finals_elem d candidate_ref l a :
  finals_of d candidate_ref = Ok l -> a ∈ l ->
  ia_is_final a = true /\ ia_candidate_ref a = candidate_ref /\ exists k, it_assessments d !! k = Some a.
Proof.
  unfold finals_of, list_intake_assessments. intros Hf Ha. inv_ok. subst l. apply elem_of_filter_bool in Ha as [Ha Hfin].
  split; [done|]. destruct (traverse_elem_of _ _ _ _ E Ha) as (b & Hb & Hv%intake_assessment_validate_Ok). subst b.
  rewrite elem_of_sort_by in Hb. apply elem_of_select_where in Hb as [Hk Hc]. propify. eauto.
Qed.

Lemma intake_write_run {A} others n (f : IntakeDb -> result (A * IntakeDb)) s a s' :
  intake_write others n f s = (Ok a, s') ->
  exists d, f (m_intake (others n s)) = Ok (a, d) /\ s' = set_intake (others n s) d.
Proof.
  unfold intake_write, bind, elsewhere, transact. destruct (f (m_intake (others n s))) as [[a' d]|]; cbn; [|done].
  intros [= <- <-]. by exists d.
Qed.

Lemma finalize_stored others (Hothers : forall n s, advances s (others n s)) candidate_ref disposition authority basis reviewer
    id now s a s' :
  finalize others candidate_ref disposition authority basis reviewer id now s = (Ok a, s') ->
  ia_is_final a = true /\ ia_candidate_ref a = candidate_ref /\ ia_disposition a = disposition /\
  ia_authority a = authority /\ exists k, it_assessments (m_intake s') !! k = Some a.
Proof.
  unfold finalize. intros Hrun. inv_run. apply session_run in R as [-> _], R0 as [-> Hf]. destruct a1 as [|b l].
  - unfold catch in Hrun. destruct (bind _ _ _) as [[b|e] s1] eqn:Hb.
    + simplify_eq. inv_run. apply intake_write_run in Hb as (d & Happ & ->).
      match goal with Hv : IntakeAssessment_validate _ = Ok _ |- _ => apply intake_assessment_validate_Ok in Hv; subst end.
      apply append_assessment_Ok in Happ as (-> & _ & -> & _). cbn. split_and!; try done.
      exists id. apply lookup_insert_eq.
    + case_bool_decide; [|done]. inv_run. by destruct a1.
  - destruct (same_final b _ _ _ _) eqn:Hs; [|done]. unfold ret in Hrun. simplify_eq.
    destruct (finals_elem _ _ _ a Hf) as (Hfin & Hc & Hk); [left|]. unfold same_final in Hs. propify. eauto 10.
Qed.

(** A candidate is assessed once: whatever happens after a final assessment was
    returned, a later one of the same candidate that returns is that very assessment,
    so that a different disposition, authority or reviewer is always refused. *)
Theorem assessed_once others others' (Hothers : forall n s, advances s (others n s))
    (Hothers' : forall n s, advances s (others' n s)) candidate_ref disposition disposition' authority authority' basis basis'
    reviewer reviewer' id id' now now' s a s1 s2 a' s' :
  lineage s -> finalize others candidate_ref disposition authority basis reviewer id now s = (Ok a, s1) -> advances s1 s2 ->
  finalize others' candidate_ref disposition' authority' basis' reviewer' id' now' s2 = (Ok a', s') ->
  a' = a /\ disposition' = disposition /\ authority' = authority /\ authority <> MODEL_SUGGESTION.
Proof.
  intros Hl Hrun H12 Hrun'.
  assert (H1 : advances s s1) by exact (finalize_respects _ Hothers _ _ _ _ _ _ _ _ _ _ Hrun).
  assert (H2 : advances s2 s') by exact (finalize_respects _ Hothers' _ _ _ _ _ _ _ _ _ _ Hrun').
  destruct (finalize_stored _ Hothers _ _ _ _ _ _ _ _ _ _ Hrun) as (Hf & Hc & Hd & Hau & k & Hk).
  destruct (finalize_stored _ Hothers' _ _ _ _ _ _ _ _ _ _ Hrun') as (Hf' & Hc' & Hd' & Hau' & k' & Hk').
  assert (Hl' : lineage s') by (apply H2, H12, H1, Hl).
  assert (Hk1 : it_assessments (m_intake s') !! k = Some a) by (eapply kept; [|exact Hk]; etrans; [apply H12|apply H2]).
  assert (k' = k) as -> by (eapply ln_one_final; eauto; congruence). assert (a' = a) as -> by congruence.
  destruct (ln_final _ Hl' _ _ Hk1 Hf) as (Hm & _). split_and!; congruence.
Qed.

(** ** Theorems *)

(** A bridge that returns leaves a case evaluated over claims only: either some
    session had already recorded an evaluation of the case, which it returns, or the
    stored case holds exactly the candidate's contracted facts, every one of them as a
    [CLAIM] with an assertion of its own, the evaluation returned is the one the
    policy in force gives those facts and the latest one recorded, and the case waits
    for facts, for a decision or for a reopening, and is neither approved nor closed. *)
Theorem admitted_facts_are_claims `{Platform} others (Hothers : forall n s, advances s (others n s)) policies A `{!LawfulKind A}
    candidate assessment k subject ids clock s r s' :
  promote_and_evaluate others policies A candidate assessment k subject ids clock s = (Ok r, s') ->
  (exists s1 case_id, advances s1 s' /\
     get_latest_policy_evaluation (u_exec (m_uow s1)) case_id = Ok (Some (cx_policy_evaluation r))) \/
  exists facts record snapshot row,
    ak_candidate_facts A (m_intake (others 7%nat s)) candidate (strip subject) = Ok facts /\
    resolve_current policies (ak_policy_id A) (clock 6%nat) = Ok record /\
    ak_evaluate A record facts = Ok (cx_policy_evaluation r) /\
    x_cases (u_exec (m_uow s')) !! c_case_id (cx_case r) = Some row /\ c_fact_snapshot (cr_case row) = Some snapshot /\
    claims_only snapshot /\ fs_facts snapshot = ak_dump A facts /\
    c_status (cr_case row) ∈ [GATHERING_FACTS; AWAITING_DECISION; REOPEN_REQUIRED] /\
    last (List.filter (fun e => bool_decide (per_case_id e = c_case_id (cx_case r))) (x_evaluations (u_exec (m_uow s'))))
      = Some (mkPolicyEvaluationRow (c_case_id (cx_case r)) (c_version (cx_case r)) (c_authority_epoch (cx_case r))
                (cx_policy_evaluation r)).
Proof.
  intros (facts & p & s1 & Hf & _ & _ & Hrun)%bridge_runs; [|done|done].
  destruct Hrun as [s2 c evaluation case_id Ha Hg|s2 current updated evaluation record u' Hb Ho Hrec Hev Hw ->]; [left; eauto|].
  right. destruct (facts_written _ _ _ _ _ _ _ Hw) as (_ & _ & (row & _ & Hc) & _ & He).
  destruct (br_snapshot _ _ _ _ _ Hb) as (sn & Hsn & Hcl & Hfs & _). cbn.
  exists facts, record, sn, (copy_case_into_row row updated). rewrite Hc, He, lookup_insert_eq. cbn.
  split_and!; try done; [apply (br_status _ _ _ _ _ Hb)|].
  exact (latest_appended (x_evaluations (u_exec (m_uow s2)))
           (mkPolicyEvaluationRow (c_case_id updated) (c_version updated) (c_authority_epoch updated) evaluation)).
Qed.

(** An inbox cannot dismiss anybody: whatever a candidate claims, the offboarding
    bridge leaves the termination status and its effective time unset, so that under
    every policy that requires one of them the evaluation asks for facts, allows no
    effect, and the case goes on gathering facts.  [Hdefault] is pydantic's rule that
    a field that is not given has its default. *)
Theorem departure_claims_never_qualify `{Platform} `{FactContracts}
    (Hdefault : forall values f, offboarding_validate values = Ok f ->
       (assoc "termination_status" values = None -> of_termination_status f = None) /\
       (assoc "termination_effective_at" values = None -> of_termination_effective_at f = None))
    policies d candidate subject facts current assertions assessment k ids clock updated evaluation record ref definition key :
  offboarding_candidate_facts d candidate subject = Ok facts -> case_valid current ->
  resolve_current policies "employee-offboarding" (clock 6%nat) = Ok record ->
  compile_offboarding_policy offboarding_definition record = Ok (ref, definition) ->
  key ∈ ["termination_status"; "termination_effective_at"] -> key ∈ off_required_authoritative_facts definition ->
  evaluate_claims policies offboarding_admission current assertions assessment facts k ids clock = Ok (updated, evaluation) ->
  pe_disposition evaluation = NEED_MORE_FACTS /\ pe_allowed_effects evaluation = [] /\ c_status updated = GATHERING_FACTS /\
  of_termination_status facts = None /\ of_termination_effective_at facts = None.
Proof.
  intros Hf Hv Hres Hcomp Hkey Hreq He.
  assert (Hnone : of_termination_status facts = None /\ of_termination_effective_at facts = None).
  { unfold offboarding_candidate_facts in Hf. inv_ok. unfold contract in Hf.
    destruct (offboarding_validate _) as [f|e] eqn:Hval; [|by destruct (is_ValueError _)]. injection Hf as <-.
    destruct (Hdefault _ _ Hval) as [H1 H2]. split; [by apply H1|by apply H2]. }
  destruct Hnone as [Hst Hat].
  assert (Habs : offboarding_present facts key = false).
  { unfold offboarding_present, OffboardingFacts_getattr. rewrite !elem_of_cons, elem_of_nil in Hkey.
    destruct Hkey as [->|[->|[]]]; cbn; [by rewrite Hst|by rewrite Hat]. }
  assert (Hmiss : offboarding_missing definition facts <> []).
  { intros Hnil. apply (not_elem_of_nil key). rewrite <- Hnil. by apply elem_of_offboarding_missing. }
  unfold evaluate_claims in He. inv_ok. simplify_eq. cbn [ak_policy_id offboarding_admission] in E2.
  rewrite Hres in E2. simplify_eq. cbn [ak_evaluate offboarding_admission] in E3. rewrite Hcomp in E3. cbn [rbind] in E3.
  unfold OffboardingPolicy_evaluate in E3.
  change (List.filter _ (off_required_authoritative_facts definition)) with (offboarding_missing definition facts) in E3.
  rewrite bool_decide_eq_true_2 in E3 by done.
  pose proof (asks_for_facts _ _ _ _ E3) as [_ Ho]. apply PolicyEvaluation_validate_Ok in E3. subst.
  destruct (applied_status _ _ _ _ E4 Ho) as (_ & _ & _ & Hg). split_and!; try done. by apply Hg.
Qed.

(** ** Reachable tables *)

(** One call of the intake and admission services. *)
Inductive admission_call :=
  | CallReceipt (receipt : IntakeReceipt)
  | CallEnqueue (receipt : IntakeReceipt) (event_type aggregate_id : string) (payload : pydict) (now : instant)
  | CallAttach (receipt_id artifact_id : uuid)
  | CallArtifact (artifact : SourceArtifact)
  | CallSpan (span : EvidenceSpan)
  | CallInterpretation (interpretation : InterpretationRecord)
  | CallFact (fact : CandidateFactAssertion)
  | CallCandidate (candidate : CandidateAdministrativeRequest)
  | CallUpdate (update : CandidateCaseUpdate)
  | CallSuggest (candidate_ref : uuid) (disposition : IntakeDisposition) (basis : option pydict) (id : uuid) (now : instant)
  | CallRule (candidate_ref : uuid) (disposition : IntakeDisposition) (rule_ref input_digest : string)
      (basis : option pydict) (id : uuid) (now : instant)
  | CallReview (candidate_ref : uuid) (disposition : IntakeDisposition) (reviewer : string) (basis : option pydict)
      (id : uuid) (now : instant)
  | CallPromote (candidate : CandidateAdministrativeRequest) (assessment : IntakeAssessment) (k : PromotionContext)
      (ids : AdmissionIds) (clock : nat -> instant)
  | CallAdmit (policies : PolicyDb) (A : AdmissionKind) (lawful : LawfulKind A) (candidate : CandidateAdministrativeRequest)
      (assessment : IntakeAssessment) (k : PromotionContext) (subject : string) (ids : AdmissionIds)
      (clock : nat -> instant).

Definition set_uow_outbox (s : AdmissionDb) (o : OutboxDb) : UowDb :=
  let u := m_uow s in mkUowDb (u_exec u) (u_snapshots u) (u_ingress u) (u_authority u) (u_governance u) o.

Section calls.
Context `{Platform} (others : nat -> AdmissionDb -> AdmissionDb).

Definition enqueue (receipt : IntakeReceipt) (event_type aggregate_id : string) (payload : pydict) (now : instant)
  : M AdmissionDb IntakeDeliveryAcceptance :=
  also! elsewhere others 0 then transact (fun s =>
    let! (a, d, o) := persist_verified_receipt_and_enqueue (m_intake s) (u_outbox (m_uow s)) receipt event_type aggregate_id
                        payload now in
    Ok (a, mkAdmissionDb (set_uow_outbox s o) d)).

Definition run_call (call : admission_call) (s : AdmissionDb) : AdmissionDb :=
  match call with
  | CallReceipt r => snd (intake_write others 0 (fun d => persist_intake_receipt d r) s)
  | CallEnqueue r t a p now => snd (enqueue r t a p now s)
  | CallAttach r a => snd (intake_write others 0 (fun d => attach_artifact_to_receipt d r a) s)
  | CallArtifact a => snd (intake_write others 0 (fun d => append_source_artifact d a) s)
  | CallSpan e => snd (intake_write others 0 (fun d => append_evidence_span d e) s)
  | CallInterpretation i => snd (intake_write others 0 (fun d => append_interpretation d i) s)
  | CallFact f => snd (intake_write others 0 (fun d => append_candidate_fact d f) s)
  | CallCandidate c => snd (intake_write others 0 (fun d => append_candidate_request d c) s)
  | CallUpdate u => snd (intake_write others 0 (fun d => append_case_update d u) s)
  | CallSuggest c disposition basis id now => snd (suggest others c disposition basis id now s)
  | CallRule c disposition rule digest basis id now =>
      snd (finalize_deterministic others c disposition rule digest basis id now s)
  | CallReview c disposition reviewer basis id now => snd (finalize_human others c disposition reviewer basis id now s)
  | CallPromote c a k ids clock => snd (promote others c a k ids clock s)
  | CallAdmit policies A _ c a k subject ids clock =>
      snd (promote_and_evaluate others policies A c a k subject ids clock s)
  end.
End calls.

(** Tables before any admission: cases may be there, as other components made them. *)
Record fresh_admission (s : AdmissionDb) : Prop := {
  fa_assessments : it_assessments (m_intake s) = ∅;
  fa_promotions : it_promotions (m_intake s) = ∅;
  fa_case_ids : keyed (fun row => c_case_id (cr_case row)) (x_cases (u_exec (m_uow s)));
  fa_loads : forall k row, x_cases (u_exec (m_uow s)) !! k = Some row -> case_from_row row = Ok (cr_case row);
}.

Inductive admission_reachable `{Platform} : AdmissionDb -> Prop :=
  | reach_fresh s : fresh_admission s -> admission_reachable s
  | reach_call s others call : admission_reachable s -> (forall n s, advances s (others n s)) ->
      admission_reachable (run_call others call s).

(** Intake writes leave assessments and promotions alone. *)
Lemma intake_write_same {A} others (Hothers : forall n s, advances s (others n s)) n (f : IntakeDb -> result (A * IntakeDb)) s :
  (forall d a d', f d = Ok (a, d') -> it_assessments d' = it_assessments d /\ it_promotions d' = it_promotions d) ->
  advances s (snd (intake_write others n f s)).
Proof.
  intros Hf. etrans; [apply (Hothers n)|]. unfold intake_write, bind, elsewhere, transact.
  destruct (f (m_intake (others n s))) as [[a d]|e] eqn:E; cbn; [|done].
  destruct (Hf _ _ _ E) as [Ha Hp]. by apply advances_same.
Qed.

(** A repository write, case by case. *)
Ltac same_tables :=
  let d := fresh "d" in let a := fresh "a" in let d' := fresh "d'" in let Hw := fresh "Hw" in
  intros d a d' Hw; unfold persist_intake_receipt, attach_artifact_to_receipt, append_source_artifact, append_evidence_span,
    append_interpretation, append_candidate_fact, append_candidate_request, append_case_update in Hw;
  repeat match type of Hw with match ?x with _ => _ end = _ => destruct x end; inv_ok; simplify_eq; done.

Lemma call_respects {A} (m : M AdmissionDb A) s : Respects admission_motion m -> advances s (snd (m s)).
Proof. intros Hm. specialize (Hm s). destruct (m s) as [[a|e] s']; cbn; exact (Hm _ _ eq_refl). Qed.

Lemma enqueue_advances others (Hothers : forall n s, advances s (others n s)) r t a p now s :
  advances s (snd (enqueue others r t a p now s)).
Proof.
  etrans; [apply (Hothers 0%nat)|]. unfold enqueue, bind, elsewhere, transact.
  destruct (persist_verified_receipt_and_enqueue _ _ _ _ _ _ _) as [[[acc d] o]|e] eqn:E; cbn; [|done].
  assert (Hsame : it_assessments d = it_assessments (m_intake (others 0%nat s)) /\
                  it_promotions d = it_promotions (m_intake (others 0%nat s))).
  { unfold persist_verified_receipt_and_enqueue in E. inv_ok. destruct (find_receipt _ _ _ _); inv_ok; [by simplify_eq|].
    destruct v. inv_ok. by simplify_eq. }
  destruct Hsame as [Ha Hp]. split; cbn.
  - split; cbn; rewrite ?Ha, ?Hp; try done. eauto.
  - intros [? ? ? ? ? ? Hr ? ?]. split; cbn; rewrite ?Ha, ?Hp; try done.
Qed.

Lemma call_advances `{Platform} others (Hothers : forall n s, advances s (others n s)) call s :
  advances s (run_call others call s).
Proof.
  destruct call; cbn [run_call]; try (apply intake_write_same; [done|same_tables]); try (by apply enqueue_advances);
    apply call_respects.
  - by apply suggest_respects.
  - by apply finalize_deterministic_respects.
  - by apply finalize_human_respects.
  - by apply promote_respects.
  - by apply promote_and_evaluate_respects.
Qed.

Lemma fresh_lineage s : fresh_admission s -> lineage s.
Proof. intros [Ha Hp Hc Hl]. split; rewrite ?Ha, ?Hp; try done; intros * ?%lookup_empty_Some; done. Qed.

(** C30: However the calls of the intake and admission services interleave, in every
    state they reach a candidate has at most one final assessment, made by a rule or
    by a named reviewer on a basis and never by a model, and at most one promotion,
    which rests on a final [ADMIT] and points to its own ingress record, request and
    case; and every stored case can be read back. *)
Theorem admission_lineage `{Platform} s : admission_reachable s -> lineage s.
Proof.
  induction 1 as [s Hs|s others call _ IH Hothers]; [by apply fresh_lineage|by apply (call_advances others Hothers call s)].
Qed.
