(* ===== verification/IntakeApi.v ===== *)
(** * The intake endpoints of the operations API, [operations/intake.py]

    The queue and the detail of candidates, the final assessment a reviewer makes
    and the promotion of a candidate, each behind the permission the runtime
    requires ([operations/runtime.py], [OperationsRuntime.require]). *)

From stdpp Require Import base gmap strings list.
From Stdlib Require Import ZArith Lia.
From S2P Require Import Prelude Python Uuid Store Domain Policy Authority FactAcquisition Access Lifecycle Obligations.
From S2P Require Import PolicyPlane Financial Persistence Transactions Governance Machine Outbox UnitOfWork Intake Api.
From S2P Require Import Execution CaseFlow OffboardingEngine Admission AdmissionBridge AdmissionSafety BridgeSafety.

Open Scope Z_scope.
Open Scope orch_scope.

(** ** Bodies and responses *)

Record IntakeQueueItem := mkIntakeQueueItem {
  qi_candidate_id : uuid;
  qi_conversation_ref : string;
  qi_candidate_requester : string;
  qi_candidate_intent : string;
  qi_status : CandidateStatus;
  qi_created_at : instant;
  qi_latest_assessment : option IntakeAssessment;
}.

Record IntakeCandidateDetail := mkIntakeCandidateDetail {
  cd_candidate : CandidateAdministrativeRequest;
  cd_assessments : list IntakeAssessment;
  cd_promotion : option PromotionRecord;
}.

Record IntakeAssessmentBody := mkIntakeAssessmentBody {
  ab_disposition : IntakeDisposition;
  ab_basis : pydict;
}.

Record IntakePromotionBody := mkIntakePromotionBody {
  pb_assessment_id : uuid;
  pb_source_system : string;
  pb_tenant_ref : string;
  pb_source_event_id : string;
  pb_requester_principal_id : string;
  pb_channel : string;
  pb_case_kind : string;
  pb_subject_ref : option string;
  pb_bridge_to_m5 : bool;
  pb_bridge_to_m8 : bool;
  pb_promotion_policy_ref : string;
}.

Record IntakePromotionResponse := mkIntakePromotionResponse {
  ps_promotion : PromotionRecord;
  ps_request : AdministrativeRequest;
  ps_case : AdministrativeCase;
  ps_created : bool;
  ps_policy_evaluation : option PolicyEvaluation;
}.

(** The keyword arguments an endpoint passes on. *)
Definition context_of (payload : IntakePromotionBody) : PromotionContext :=
  mkPromotionContext (pb_source_system payload) (pb_tenant_ref payload) (pb_source_event_id payload)
    (pb_requester_principal_id payload) (pb_channel payload) (pb_case_kind payload) (pb_subject_ref payload)
    (pb_promotion_policy_ref payload).

Definition queue_item (c : CandidateAdministrativeRequest) (assessments : list IntakeAssessment) : IntakeQueueItem :=
  mkIntakeQueueItem (cq_candidate_id c) (cq_conversation_ref c) (cq_candidate_requester c) (cq_candidate_intent c)
    (cq_status c) (cq_created_at c) (last assessments).

Section endpoints.
Context `{Platform} `{TokenLibrary} `{FactContracts} (settings : AuthSettings)
  (others : nat -> AdmissionDb -> AdmissionDb) (policies : PolicyDb).

(** An endpoint: its answer and the tables it leaves. *)
Definition endpoint (A : Type) : Type := AdmissionDb -> reply A * AdmissionDb.

(** The answer of a part that only reads ends the endpoint unless it replies. *)
Definition after_reading {A B} (f : AdmissionDb -> reply A) (k : A -> endpoint B) : endpoint B := fun s =>
  match f s with
  | Reply a => k a s
  | HTTPError c d => (HTTPError c d, s)
  | Uncaught e => (Uncaught e, s)
  end.

(** [runtime.actor(request)] *)
Definition ops_actor (request : Request) (at_ : instant) (s : AdmissionDb) : reply AuthenticatedPrincipal :=
  authenticate settings (u_authority (m_uow s)) request at_.

(** [runtime.require(actor, permission)] *)
Definition ops_require (actor : AuthenticatedPrincipal) (permission : AdministrativePermission) (at_ : instant)
    (s : AdmissionDb) : reply unit :=
  authorize (u_authority (m_uow s)) actor permission None (Some "*") at_.

(** [runtime.intake.get_candidate] with the 404 of a missing candidate *)
Definition ops_candidate (candidate_id : uuid) (s : AdmissionDb) : reply CandidateAdministrativeRequest :=
  let? found := uncaught (get_candidate_request (m_intake s) candidate_id) in
  match found with Some c => Reply c | None => HTTPError 404 "intake candidate not found" end.

Definition intake_candidate_queue (request : Request) (status_filter : option CandidateStatus) (limit : nat)
    (clock : nat -> instant) (s : AdmissionDb) : reply (list IntakeQueueItem) :=
  let? actor := ops_actor request (clock 0%nat) s in
  let? _ := ops_require actor OPERATIONS_READ (clock 1%nat) s in
  let? candidates := uncaught (list_candidate_requests (m_intake s) status_filter limit) in
  uncaught (traverse (fun c => let! assessments := list_intake_assessments (m_intake s) (cq_candidate_id c) in
                               Ok (queue_item c assessments)) candidates).

Definition intake_candidate_detail (candidate_id : uuid) (request : Request) (clock : nat -> instant) (s : AdmissionDb)
  : reply IntakeCandidateDetail :=
  let? actor := ops_actor request (clock 0%nat) s in
  let? candidate := ops_candidate candidate_id s in
  let? _ := ops_require actor OPERATIONS_READ (clock 1%nat) s in
  let? assessments := uncaught (list_intake_assessments (m_intake s) candidate_id) in
  let? promotion := uncaught (get_promotion (m_intake s) candidate_id) in
  Reply (mkIntakeCandidateDetail candidate assessments promotion).

(** [runtime.actor] then [runtime.require_intake_review] *)
Definition reviewer (request : Request) (clock : nat -> instant) (s : AdmissionDb) : reply AuthenticatedPrincipal :=
  let? actor := ops_actor request (clock 0%nat) s in
  let? _ := ops_require actor INTAKE_REVIEW (clock 1%nat) s in
  Reply actor.

Definition finalize_intake_assessment (candidate_id : uuid) (payload : IntakeAssessmentBody) (request : Request) (id : uuid)
    (clock : nat -> instant) : endpoint IntakeAssessment :=
  after_reading (reviewer request clock) (fun actor =>
  after_reading (ops_candidate candidate_id) (fun _ s =>
    let '(r, s') := finalize_human others candidate_id (ab_disposition payload) (p_principal_id (ap_principal actor))
                      (Some (ab_basis payload)) id (clock 2%nat) s in
    (answer (fun k => bool_decide (k = AssessmentConflict) || is_ValueError k) 409 r, s'))).

(** [_admission_bridge] *)
Definition admission_bridge (case_kind : string) : result AdmissionKind :=
  if bool_decide (case_kind = "employee-onboarding") then Ok onboarding_admission else
  if bool_decide (case_kind = "employee-offboarding") then Ok offboarding_admission else
  if bool_decide (case_kind = "procurement-request") then Ok procurement_admission else
  if bool_decide (case_kind = "invoice-ap-preparation") then Ok invoice_admission else
  if bool_decide (case_kind = "expense-reimbursement") then Ok expense_admission else
  raise OnboardingAdmissionError ("typed admission does not support case_kind=" +:+ py_repr (VStr case_kind)).

(** The assessment of this candidate, or 404 *)
Definition ops_assessment (candidate_id assessment_id : uuid) (s : AdmissionDb) : reply IntakeAssessment :=
  let? found := uncaught (get_assessment (m_intake s) assessment_id) in
  match found with
  | Some a => if bool_decide (ia_candidate_ref a <> candidate_id) then HTTPError 404 "intake assessment not found" else Reply a
  | None => HTTPError 404 "intake assessment not found"
  end.

(** The [try] block of the promotion endpoint. *)
Definition promote_payload (candidate : CandidateAdministrativeRequest) (assessment : IntakeAssessment)
    (payload : IntakePromotionBody) (ids : AdmissionIds) (clock : nat -> instant) : M AdmissionDb IntakePromotionResponse :=
  if pb_bridge_to_m5 payload || pb_bridge_to_m8 payload then
    match pb_subject_ref payload with
    | None => throw OnboardingAdmissionError "typed promotion requires subject_ref"
    | Some subject_ref =>
        bind (lift (admission_bridge (pb_case_kind payload))) (fun kind =>
        bind (promote_and_evaluate others policies kind candidate assessment (context_of payload) subject_ref ids clock)
          (fun admission =>
             let p := cx_promotion admission in
             ret (mkIntakePromotionResponse (pn_promotion p) (pn_request p) (cx_case admission) (pn_created p)
                    (Some (cx_policy_evaluation admission)))))
    end
  else
    bind (promote others candidate assessment (context_of payload) ids clock) (fun p =>
      ret (mkIntakePromotionResponse (pn_promotion p) (pn_request p) (pn_case p) (pn_created p) None)).

Definition promote_intake_candidate (candidate_id : uuid) (payload : IntakePromotionBody) (request : Request)
    (ids : AdmissionIds) (clock : nat -> instant) : endpoint IntakePromotionResponse :=
  after_reading (reviewer request clock) (fun _ =>
  after_reading (ops_candidate candidate_id) (fun candidate =>
  after_reading (ops_assessment candidate_id (pb_assessment_id payload)) (fun assessment s =>
    let '(r, s') := promote_payload candidate assessment payload ids clock s in
    (answer (fun k => bool_decide (k = AdmissionConflict) || is_ValueError k) 409 r, s')))).

(** ** Correctness *)

Lemma after_reading_changes {A B} (f : AdmissionDb -> reply A) (k : A -> endpoint B) s :
  snd (after_reading f k s) <> s -> exists a, f s = Reply a /\ snd (k a s) <> s.
Proof. unfold after_reading. destruct (f s); cbn; naive_solver. Qed.

Lemma reviewer_permitted request clock s actor :
  reviewer request clock s = Reply actor ->
  authenticate settings (u_authority (m_uow s)) request (clock 0%nat) = Reply actor /\
  permitted (u_authority (m_uow s)) (p_principal_id (ap_principal actor)) INTAKE_REVIEW None (Some "*") (clock 1%nat).
Proof.
  unfold reviewer. intros (a & Ha & Hr)%reply_bind_Reply. apply reply_bind_Reply in Hr as (u & Hu & Hr). injection Hr as ->.
  split; [done|]. by eapply authorize_permitted.
Qed.

#[local] Instance bridge_lawful kind A : admission_bridge kind = Ok A -> LawfulKind A.
Proof.
  unfold admission_bridge. intros Hk. repeat case_bool_decide; simplify_eq; apply _.
Qed.

(** The two endpoints that write. *)
Inductive intake_endpoint :=
  | EndpointAssess (candidate_id : uuid) (payload : IntakeAssessmentBody) (id : uuid)
  | EndpointPromote (candidate_id : uuid) (payload : IntakePromotionBody) (ids : AdmissionIds).

Definition after_endpoint (call : intake_endpoint) (request : Request) (clock : nat -> instant) (s : AdmissionDb)
  : AdmissionDb :=
  match call with
  | EndpointAssess candidate_id payload id => snd (finalize_intake_assessment candidate_id payload request id clock s)
  | EndpointPromote candidate_id payload ids => snd (promote_intake_candidate candidate_id payload request ids clock s)
  end.

(** Which candidate a call is about, and the assessment it relies on. *)
Definition call_candidate (call : intake_endpoint) : uuid :=
  match call with EndpointAssess c _ _ | EndpointPromote c _ _ => c end.
Definition relies_on (call : intake_endpoint) (s : AdmissionDb) : Prop :=
  match call with
  | EndpointAssess _ _ _ => True
  | EndpointPromote c payload _ => exists a, it_assessments (m_intake s) !! pb_assessment_id payload = Some a /\
      ia_candidate_ref a = c
  end.

(** Only a reviewer writes through the intake endpoints: a call after which the
    tables differ was made by an authenticated principal who holds the intake-review
    permission, is about a stored candidate, and, when it promotes, relies on a stored
    assessment of that very candidate. *)
Theorem intake_endpoints_are_guarded call request clock s :
  after_endpoint call request clock s <> s ->
  exists actor candidate, authenticate settings (u_authority (m_uow s)) request (clock 0%nat) = Reply actor /\
    permitted (u_authority (m_uow s)) (p_principal_id (ap_principal actor)) INTAKE_REVIEW None (Some "*") (clock 1%nat) /\
    get_candidate_request (m_intake s) (call_candidate call) = Ok (Some candidate) /\ relies_on call s.
Proof.
  intros Hne. destruct call as [c payload id|c payload ids]; cbn [after_endpoint call_candidate relies_on] in *;
    apply after_reading_changes in Hne as (actor & [Hauth Hperm]%reviewer_permitted & Hne);
    apply after_reading_changes in Hne as (candidate & Hcand & Hne);
    apply reply_bind_Reply in Hcand as (found & Hg & Hf); unfold uncaught in Hg; apply answer_Reply in Hg;
    (destruct found; [|done]); injection Hf as ->; exists actor, candidate; split_and!; try done.
  apply after_reading_changes in Hne as (a & Ha & _). unfold ops_assessment in Ha.
  apply reply_bind_Reply in Ha as (found & Hg' & Hf). unfold uncaught in Hg'. apply answer_Reply in Hg'.
  destruct found as [b|]; [|done]. case_bool_decide as Hc; [done|]. injection Hf as ->. exists a.
  unfold get_assessment in Hg'. destruct (it_assessments (m_intake s) !! pb_assessment_id payload) as [row|]; inv_ok; [|done].
  simplify_eq. by apply intake_assessment_validate_Ok in E as ->.
Qed.

Context (Hothers : forall n s, advances s (others n s)).

Lemma promote_payload_respects candidate assessment payload ids clock :
  Respects admission_motion (promote_payload candidate assessment payload ids clock).
Proof.
  unfold promote_payload. destruct (_ || _).
  - destruct (pb_subject_ref payload) as [subject|]; [|apply respects_throw].
    apply respects_everywhere. intros s. apply respects_bind_at; [apply at_world, respects_lift|].
    intros A s1 [= Hk <-]. apply at_world. apply bridge_lawful in Hk.
    apply respects_bind; [by apply promote_and_evaluate_respects|]. intros. apply respects_ret.
  - apply respects_bind; [by apply promote_respects|]. intros. apply respects_ret.
Qed.

(** The endpoints keep the lineage of admissions. *)
Lemma endpoint_advances call request clock s : advances s (after_endpoint call request clock s).
Proof.
  assert (Hread : forall A B (f : AdmissionDb -> reply A) (k : A -> endpoint B) s,
    (forall a, advances s (snd (k a s))) -> advances s (snd (after_reading f k s))).
  { intros A B f k s0 Hk. unfold after_reading. by destruct (f s0); cbn; [apply Hk| |]. }
  destruct call as [c payload id|c payload ids]; cbn [after_endpoint]; do 2 (apply Hread; intros ?); [|apply Hread; intros ?].
  - pose proof (call_respects _ s (finalize_human_respects others Hothers c (ab_disposition payload)
                  (p_principal_id (ap_principal a)) (Some (ab_basis payload)) id (clock 2%nat))) as Hm.
    by destruct (finalize_human _ _ _ _ _ _ _ s).
  - pose proof (call_respects _ s (promote_payload_respects a0 a1 payload ids clock)) as Hm.
    by destruct (promote_payload _ _ _ _ _ s).
Qed.
End endpoints.
