(* ===== verification/Conversation.v ===== *)
(** * Conversations with providers, [conversation.py]

    A conversation is a thread of a provider's tenant.  A message is accepted when
    its authenticated sender is bound to an active principal and it continues the
    timeline of its conversation; once a candidate of the conversation is admitted, a
    message becomes an update of its case that waits for human review.  A candidate is
    replaced by superseding it.  The tables of conversations stand beside those of
    admission. *)

From stdpp Require Import base gmap strings list.
From Stdlib Require Import ZArith Lia.
From S2P Require Import Prelude Python Uuid Store Domain Policy Authority FactAcquisition Access Lifecycle Obligations.
From S2P Require Import PolicyPlane Financial Persistence Transactions Governance Machine Outbox UnitOfWork Intake Api.
From S2P Require Import Execution CaseFlow OffboardingEngine Admission.

Open Scope Z_scope.
Open Scope orch_scope.

(** ** Models *)

Record ConversationRef := mkConversationRef {
  vr_provider : string;
  vr_tenant_ref : string;
  vr_thread_ref : string;
}.

#[global] Instance ConversationRef_eq_dec : EqDecision ConversationRef. Proof. solve_decision. Defined.

Definition canonical_ref (r : ConversationRef) : string :=
  vr_provider r +:+ "/" +:+ vr_tenant_ref r +:+ "/" +:+ vr_thread_ref r.

(** The field bounds and [validate_components]. *)
Definition ConversationRef_validate (r : ConversationRef) : result ConversationRef :=
  if sized 1 255 (vr_provider r) && sized 1 512 (vr_tenant_ref r) && sized 1 1000 (vr_thread_ref r) then
    let r := mkConversationRef (strip (vr_provider r)) (strip (vr_tenant_ref r)) (strip (vr_thread_ref r)) in
    refuse negb (nonempty (vr_provider r)) with ValueError saying "provider must not be blank";;
    refuse negb (nonempty (vr_tenant_ref r)) with ValueError saying "tenant_ref must not be blank";;
    refuse negb (nonempty (vr_thread_ref r)) with ValueError saying "thread_ref must not be blank";;
    refuse Nat.ltb 1000 (String.length (canonical_ref r)) with ValueError
      saying "conversation reference exceeds the durable limit";;
    Ok r
  else invalid.

Record ConversationMessage := mkConversationMessage {
  vm_message_id : uuid;
  vm_conversation_ref : ConversationRef;
  vm_provider_message_id : string;
  vm_source_event_id : string;
  vm_sender_external_subject : string;
  vm_displayed_sender : option string;
  vm_participant_external_subjects : list string;
  vm_sequence : Z;
  vm_occurred_at : instant;
  vm_provider_tenant_ref : option string;
  vm_content_digest : option string;
  vm_source_refs : list uuid;
  vm_interpretation_refs : list uuid;
  vm_candidate_fact_refs : list uuid;
  vm_claimed_sender_external_subject : option string;
}.

(** The participants, stripped and without duplicates, the sender among them. *)
Definition participants_of (sender : string) (items : list string) : list string :=
  let participants := fromkeys [] (List.filter nonempty (strip <$> items)) in
  if bool_decide (sender ∈ participants) then participants else sender :: participants.

(** The field bounds and [validate_message_identity]. *)
Definition ConversationMessage_validate (m : ConversationMessage) : result ConversationMessage :=
  if sized 1 512 (vm_provider_message_id m) && sized 1 512 (vm_source_event_id m)
     && sized 1 1000 (vm_sender_external_subject m) && sized_opt 1000 (vm_displayed_sender m) && (1 <=? vm_sequence m)
     && sized_opt 512 (vm_provider_tenant_ref m)
     && match vm_content_digest m with Some g => sized 1 128 g | None => true end
     && sized_opt 1000 (vm_claimed_sender_external_subject m)
  then
    let provider_message_id := strip (vm_provider_message_id m) in
    let source_event_id := strip (vm_source_event_id m) in
    let sender := strip (vm_sender_external_subject m) in
    refuse negb (nonempty provider_message_id) with ValueError saying "provider_message_id must not be blank";;
    refuse negb (nonempty source_event_id) with ValueError saying "source_event_id must not be blank";;
    refuse negb (nonempty sender) with ValueError saying "sender_external_subject must not be blank";;
    Ok (mkConversationMessage (vm_message_id m) (vm_conversation_ref m) provider_message_id source_event_id sender
          (strip <$> vm_displayed_sender m) (participants_of sender (vm_participant_external_subjects m)) (vm_sequence m)
          (vm_occurred_at m) (vm_provider_tenant_ref m) (vm_content_digest m) (vm_source_refs m) (vm_interpretation_refs m)
          (vm_candidate_fact_refs m) (strip <$> vm_claimed_sender_external_subject m))
  else invalid.

Record ConversationState := mkConversationState {
  vs_conversation_ref : ConversationRef;
  vs_sender_external_subject : string;
  vs_participant_external_subjects : list string;
  vs_last_sequence : Z;
  vs_last_message_id : option uuid;
  vs_bound_case_id : option uuid;
  vs_created_at : instant;
  vs_updated_at : instant;
}.

Record ResolvedProviderIdentity := mkResolvedProviderIdentity {
  pi_provider : string;
  pi_tenant_ref : string;
  pi_external_subject : string;
  pi_principal : Principal;
}.

Record ConversationMessageResult := mkConversationMessageResult {
  vx_message : ConversationMessage;
  vx_identity : ResolvedProviderIdentity;
  vx_candidate_ref : option uuid;
  vx_case_update : option CandidateCaseUpdate;
  vx_created : bool;
}.

(** The field bounds and [validate_case_update]. *)
Definition CandidateCaseUpdate_validate (u : CandidateCaseUpdate) : result CandidateCaseUpdate :=
  if sized 1 1000 (cu_conversation_ref u) && negb (is_nil (cu_interpretation_refs u)) && negb (is_nil (cu_source_refs u))
  then let! _ := require_text (cu_conversation_ref u) "conversation_ref" in Ok u
  else invalid.

(** ** Tables *)

(** A row of a conversation; its key is the canonical reference. *)
Record ConversationRow := mkConversationRow {
  vw_ref : ConversationRef;
  vw_sender_external_subject : string;
  vw_participants : list string;
  vw_last_sequence : Z;
  vw_last_message_id : option uuid;
  vw_bound_case_id : option uuid;
  vw_created_at : instant;
  vw_updated_at : instant;
}.

Record ConversationMessageRow := mkConversationMessageRow {
  mw_message_id : uuid;
  mw_conversation_ref : string;
  mw_provider_message_id : string;
  mw_source_event_id : string;
  mw_sender_external_subject : string;
  mw_displayed_sender : option string;
  mw_participants : list string;
  mw_sequence : Z;
  mw_occurred_at : instant;
  mw_content_digest : option string;
  mw_source_refs : list uuid;
  mw_interpretation_refs : list uuid;
  mw_candidate_fact_refs : list uuid;
  mw_candidate_ref : option uuid;
  mw_case_update_id : option uuid;
  mw_created_at : instant;
}.

Record TalkDb := mkTalkDb {
  t_admission : AdmissionDb;
  t_conversations : gmap string ConversationRow;
  t_messages : gmap uuid ConversationMessageRow;
}.

(** ** Identity *)

(** [_validate_provider_context] *)
Definition validate_provider_context (ref : ConversationRef) (provider tenant_ref : option string) : result unit :=
  refuse match provider with Some p => bool_decide (strip p <> vr_provider ref) | None => false end with TenantMismatch
    saying "provider identity does not match conversation";;
  refuse match tenant_ref with Some t => bool_decide (strip t <> vr_tenant_ref ref) | None => false end with TenantMismatch
    saying "provider tenant does not match conversation";;
  Ok tt.

Definition resolve_provider_identity (db : AuthorityDb) (ref : ConversationRef) (external_subject : string)
    (claimed provider tenant_ref : option string) (at_ : instant) : result ResolvedProviderIdentity :=
  let! _ := validate_provider_context ref provider tenant_ref in
  let external_subject := strip external_subject in
  refuse negb (nonempty external_subject) with IdentityResolutionError saying "provider sender identity must not be blank";;
  let claimed := strip (default "" claimed) in
  refuse nonempty claimed && bool_decide (claimed <> external_subject) with SenderSpoof
    saying "claimed sender differs from the provider-authenticated actor";;
  match resolve_identity db (vr_provider ref) external_subject at_ with
  | None => raise IdentityResolutionError "provider sender is not bound to an active Principal"
  | Some principal => Ok (mkResolvedProviderIdentity (vr_provider ref) (vr_tenant_ref ref) external_subject principal)
  end.

(** ** Candidates of a conversation *)

(** [_validate_candidate] *)
Definition validate_message_candidate (d : IntakeDb) (ref : ConversationRef) (candidate : option CandidateAdministrativeRequest)
  : result unit :=
  match candidate with
  | None => Ok tt
  | Some c =>
      let! persisted := get_candidate_request d (cq_candidate_id c) in
      refuse bool_decide (persisted <> Some c) with ConversationRejected
        saying "message requires the current persisted candidate";;
      refuse bool_decide (cq_conversation_ref c <> canonical_ref ref) with ConversationRejected
        saying "candidate conversation does not match provider thread";;
      refuse bool_decide (cq_status c = CR_SUPERSEDED) with ConversationRejected
        saying "superseded candidate cannot receive a new message";;
      Ok tt
  end.

(** The case of an admitted candidate. *)
Definition bound_case (s : AdmissionDb) (item : CandidateAdministrativeRequest) : result uuid :=
  let! promotion := one_or_none (select_where (fun p => bool_decide (pm_candidate_ref p = cq_candidate_id item))
                                   (it_promotions (m_intake s))) in
  match promotion with
  | None => raise ConversationRejected "admitted candidate has no promotion lineage"
  | Some p =>
      let! case := one_or_none (select_where (fun row => bool_decide (cr_request row = pm_request_id p))
                                  (x_cases (u_exec (m_uow s)))) in
      match case with
      | None => raise ConversationRejected "admitted candidate has no bound case"
      | Some row => Ok (c_case_id (cr_case row))
      end
  end.

(** The candidates of a conversation, latest first. *)
Definition conversation_candidates (d : IntakeDb) (ref : ConversationRef) : result (list CandidateAdministrativeRequest) :=
  traverse CandidateAdministrativeRequest_validate
    (sort_by (fun a b => Z.compare (cq_created_at b) (cq_created_at a))
       (select_where (fun c => bool_decide (cq_conversation_ref c = canonical_ref ref)) (it_candidates d))).

(** [_admitted_case] *)
Definition admitted_case (s : AdmissionDb) (ref : ConversationRef) (candidate : option CandidateAdministrativeRequest)
  : result (option uuid * option uuid) :=
  let! candidates := match candidate with
                     | Some c => Ok [c]
                     | None => conversation_candidates (m_intake s) ref
                     end in
  match List.filter (fun c => bool_decide (cq_status c = CR_ADMITTED)) candidates with
  | item :: _ => let! case_id := bound_case s item in Ok (Some (cq_candidate_id item), Some case_id)
  | [] => Ok (cq_candidate_id <$> candidate, None)
  end.

(** ** Messages *)

(** [set(a) == set(b)] *)
Definition same_set (a b : list string) : bool :=
  bool_decide (Forall (fun x => x ∈ b) a) && bool_decide (Forall (fun x => x ∈ a) b).

(** [_same_delivery] *)
Definition same_message_delivery (row : ConversationMessageRow) (m : ConversationMessage) : bool :=
  bool_decide (mw_source_event_id row = vm_source_event_id m)
  && bool_decide (mw_provider_message_id row = vm_provider_message_id m)
  && bool_decide (mw_sender_external_subject row = vm_sender_external_subject m)
  && bool_decide (mw_displayed_sender row = vm_displayed_sender m)
  && same_set (mw_participants row) (vm_participant_external_subjects m)
  && bool_decide (mw_sequence row = vm_sequence m) && bool_decide (mw_content_digest row = vm_content_digest m)
  && bool_decide (mw_source_refs row = vm_source_refs m)
  && bool_decide (mw_interpretation_refs row = vm_interpretation_refs m)
  && bool_decide (mw_candidate_fact_refs row = vm_candidate_fact_refs m).

(** [_message_with_ref] *)
Definition message_with_ref (row : ConversationMessageRow) (ref : ConversationRef) : result ConversationMessage :=
  ConversationMessage_validate
    (mkConversationMessage (mw_message_id row) ref (mw_provider_message_id row) (mw_source_event_id row)
       (mw_sender_external_subject row) (mw_displayed_sender row) (mw_participants row) (mw_sequence row)
       (mw_occurred_at row) (Some (vr_tenant_ref ref)) (mw_content_digest row) (mw_source_refs row)
       (mw_interpretation_refs row) (mw_candidate_fact_refs row) None).

Definition row_of_message (m : ConversationMessage) (candidate_ref case_update_id : option uuid) (now : instant)
  : ConversationMessageRow :=
  mkConversationMessageRow (vm_message_id m) (canonical_ref (vm_conversation_ref m)) (vm_provider_message_id m)
    (vm_source_event_id m) (vm_sender_external_subject m) (vm_displayed_sender m) (vm_participant_external_subjects m)
    (vm_sequence m) (vm_occurred_at m) (vm_content_digest m) (vm_source_refs m) (vm_interpretation_refs m)
    (vm_candidate_fact_refs m) candidate_ref case_update_id now.

(** The rows a delivery may repeat. *)
Definition deliveries_of (t : gmap uuid ConversationMessageRow) (m : ConversationMessage) : list ConversationMessageRow :=
  select_where (fun row => bool_decide (mw_conversation_ref row = canonical_ref (vm_conversation_ref m))
                           && (bool_decide (mw_provider_message_id row = vm_provider_message_id m)
                               || bool_decide (mw_source_event_id row = vm_source_event_id m))) t.

(** The row of the conversation a new message continues or opens. *)
Definition continue_conversation (t : gmap string ConversationRow) (m : ConversationMessage) : result ConversationRow :=
  let ref := vm_conversation_ref m in
  match t !! canonical_ref ref with
  | None =>
      Ok (mkConversationRow ref (vm_sender_external_subject m) (vm_participant_external_subjects m) (vm_sequence m)
            (Some (vm_message_id m)) None (vm_occurred_at m) (vm_occurred_at m))
  | Some row =>
      refuse vm_sequence m <=? vw_last_sequence row with OutOfOrderDelivery
        saying "provider delivery would move the conversation timeline backwards";;
      refuse bool_decide (vw_sender_external_subject row <> vm_sender_external_subject m) with ParticipantChanged
        saying "conversation sender changed";;
      refuse negb (same_set (vw_participants row) (vm_participant_external_subjects m)) with ParticipantChanged
        saying "conversation participant set changed";;
      Ok row
  end.

(** The update of an admitted case, if there is one. *)
Definition case_update_of (m : ConversationMessage) (case_id : option uuid) (update_id : uuid) (now : instant)
  : result (option CandidateCaseUpdate) :=
  match case_id with
  | None => Ok None
  | Some case_id =>
      refuse is_nil (vm_source_refs m) || is_nil (vm_interpretation_refs m) with ConversationRejected
        saying "post-admission messages require source and interpretation references";;
      let! u := CandidateCaseUpdate_validate
        (mkCandidateCaseUpdate update_id case_id (canonical_ref (vm_conversation_ref m)) (vm_interpretation_refs m)
           (vm_candidate_fact_refs m) (vm_source_refs m) now CU_REQUIRES_HUMAN_REVIEW) in
      Ok (Some u)
  end.

(** [row.bound_case_id], [row.last_sequence], [row.last_message_id], [row.updated_at] *)
Definition advanced_row (row : ConversationRow) (m : ConversationMessage) (case_id : option uuid) : ConversationRow :=
  mkConversationRow (vw_ref row) (vw_sender_external_subject row) (vw_participants row) (vm_sequence m)
    (Some (vm_message_id m)) (match case_id with Some c => Some c | None => vw_bound_case_id row end) (vw_created_at row)
    (vm_occurred_at m).

(** The stored update of a message that was delivered before. *)
Definition stored_update (d : IntakeDb) (row : ConversationMessageRow) : result (option CandidateCaseUpdate) :=
  match mw_case_update_id row with
  | None => Ok None
  | Some id =>
      match it_updates d !! id with
      | None => Ok None
      | Some u => let! u := CandidateCaseUpdate_validate u in Ok (Some u)
      end
  end.

(** The transaction of a message that was not delivered before. *)
Definition append_message (s : TalkDb) (m : ConversationMessage) (identity : ResolvedProviderIdentity)
    (candidate : option CandidateAdministrativeRequest) (update_id : uuid) (clock : nat -> instant)
  : result (ConversationMessageResult * TalkDb) :=
  let ref := vm_conversation_ref m in
  let a := t_admission s in
  let d := m_intake a in
  let! row := continue_conversation (t_conversations s) m in
  let! _ := validate_message_candidate d ref candidate in
  let! (candidate_ref, case_id) := admitted_case a ref candidate in
  let! case_update := case_update_of m case_id update_id (clock 0%nat) in
  let! updates := match case_update with
                  | None => Ok (it_updates d)
                  | Some u => db_add (it_updates d) (cu_candidate_update_id u) u
                  end in
  let message_row := row_of_message m candidate_ref (cu_candidate_update_id <$> case_update) (clock 1%nat) in
  refuse negb (is_nil (select_where (fun r => bool_decide (mw_conversation_ref r = canonical_ref ref)
                                              && bool_decide (mw_sequence r = vm_sequence m)) (t_messages s)))
    with IntegrityError saying "uq_conversation_sequence";;
  let! messages := db_add (t_messages s) (vm_message_id m) message_row in
  Ok (mkConversationMessageResult m identity candidate_ref case_update true,
      mkTalkDb (set_intake a (set_updates d updates))
        (<[canonical_ref ref := advanced_row row m case_id]> (t_conversations s)) messages).

(** [accept_message] *)
Definition accept_message (s : TalkDb) (m : ConversationMessage) (provider tenant_ref : option string)
    (candidate : option CandidateAdministrativeRequest) (update_id : uuid) (clock : nat -> instant)
  : result (ConversationMessageResult * TalkDb) :=
  let ref := vm_conversation_ref m in
  let! _ := validate_provider_context ref provider tenant_ref in
  let! _ := match vm_provider_tenant_ref m with
            | Some t => validate_provider_context ref None (Some t)
            | None => Ok tt
            end in
  let! identity := resolve_provider_identity (u_authority (m_uow (t_admission s))) ref (vm_sender_external_subject m)
                     (vm_claimed_sender_external_subject m) None None (vm_occurred_at m) in
  let! existing := one_or_none (deliveries_of (t_messages s) m) in
  match existing with
  | Some row =>
      refuse negb (same_message_delivery row m) with ConversationRejected
        saying "provider message identity was redelivered with different semantics";;
      let! update := stored_update (m_intake (t_admission s)) row in
      let! message := message_with_ref row ref in
      Ok (mkConversationMessageResult message identity (mw_candidate_ref row) update false, s)
  | None => append_message s m identity candidate update_id clock
  end.

(** ** Superseding candidates *)

Definition supersede_candidate (d : IntakeDb) (previous_candidate_ref : uuid) (replacement : CandidateAdministrativeRequest)
  : result (CandidateAdministrativeRequest * IntakeDb) :=
  refuse bool_decide (cq_supersedes_candidate_ref replacement <> Some previous_candidate_ref)
    with CandidateSupersessionConflict saying "replacement must explicitly reference the superseded candidate";;
  refuse bool_decide (cq_status replacement <> CR_ACTIVE) with CandidateSupersessionConflict
    saying "replacement candidate must remain active";;
  let! previous := get_candidate_request d previous_candidate_ref in
  match previous with
  | None => raise CandidateSupersessionConflict "superseded candidate does not exist"
  | Some previous =>
      refuse bool_decide (cq_conversation_ref previous <> cq_conversation_ref replacement)
        with CandidateSupersessionConflict saying "candidate supersession cannot cross conversation identity";;
      let! existing := get_candidate_request d (cq_candidate_id replacement) in
      match existing with
      | Some existing =>
          if bool_decide (existing = replacement) && bool_decide (cq_status previous = CR_SUPERSEDED)
          then Ok (existing, d)
          else raise CandidateSupersessionConflict "replacement candidate identity already has different semantics"
      | None =>
          refuse bool_decide (cq_status previous <> CR_ACTIVE) with CandidateSupersessionConflict
            saying "only an active candidate may be superseded";;
          let! t := db_add (<[previous_candidate_ref := with_candidate_state previous CR_SUPERSEDED]> (it_candidates d))
                      (cq_candidate_id replacement) replacement in
          Ok (replacement, set_candidates d t)
      end
  end.

(** [ConversationService.append_candidate] *)
Definition append_conversation_candidate (d : IntakeDb) (candidate : CandidateAdministrativeRequest)
  : result (CandidateAdministrativeRequest * IntakeDb) :=
  match cq_supersedes_candidate_ref candidate with
  | Some previous => supersede_candidate d previous candidate
  | None => append_candidate_request d candidate
  end.

(** ** Reads *)

(** [_state_from_row] *)
Definition state_from_row (row : ConversationRow) : result ConversationState :=
  let! ref := ConversationRef_validate (vw_ref row) in
  Ok (mkConversationState ref (vw_sender_external_subject row) (vw_participants row) (vw_last_sequence row)
        (vw_last_message_id row) (vw_bound_case_id row) (vw_created_at row) (vw_updated_at row)).

Definition get_conversation (s : TalkDb) (ref : ConversationRef) : result (option ConversationState) :=
  match t_conversations s !! canonical_ref ref with
  | None => Ok None
  | Some row => let! st := state_from_row row in Ok (Some st)
  end.

(** The rows of a conversation in the order of the timeline. *)
Definition timeline (s : TalkDb) (ref : string) : list ConversationMessageRow :=
  sort_by (cmp_key mw_sequence)
    (select_where (fun row => bool_decide (mw_conversation_ref row = ref)) (t_messages s)).

Definition list_messages (s : TalkDb) (ref : ConversationRef) : result (list ConversationMessage) :=
  traverse (fun row => message_with_ref row ref) (timeline s (canonical_ref ref)).
