(* ===== verification/ConversationSafety.v ===== *)
(** * Conversations: timelines, identity, updates

    [talk_wf] is the invariant of the conversation tables: the messages of a
    conversation are told apart by provider id, source event and sequence number, none
    lies beyond the last one, and all have the sender and the participants of their
    conversation. *)

From stdpp Require Import base gmap strings list relations sorting.
From Stdlib Require Import ZArith Lia Sorted.
From S2P Require Import Prelude Python Uuid Store Domain Policy Authority FactAcquisition Access Lifecycle Obligations.
From S2P Require Import PolicyPlane Financial Persistence Transactions Governance Machine Outbox UnitOfWork Intake Api.
From S2P Require Import Execution CaseFlow OffboardingEngine Admission AdmissionBridge AdmissionSafety IntakeSafety Conversation.

Open Scope Z_scope.
Open Scope orch_scope.

Lemma same_set_refl l : same_set l l = true.
Proof. unfold same_set. rewrite !bool_decide_eq_true_2; [done|by apply Forall_forall..]. Qed.

(** ** The invariant *)

(** A message in its conversation. *)
Record in_timeline (c : ConversationRow) (r : ConversationMessageRow) : Prop := {
  it_sequence : mw_sequence r <= vw_last_sequence c;
  it_sender : mw_sender_external_subject r = vw_sender_external_subject c;
  it_participants : same_set (vw_participants c) (mw_participants r) = true;
}.

Definition same_conversation (r1 r2 : ConversationMessageRow) : Prop := mw_conversation_ref r1 = mw_conversation_ref r2.

Record talk_wf (s : TalkDb) : Prop := {
  tw_ids : keyed mw_message_id (t_messages s);
  tw_row : forall k r, t_messages s !! k = Some r ->
    exists c, t_conversations s !! mw_conversation_ref r = Some c /\ in_timeline c r;
  tw_last : forall ref c, t_conversations s !! ref = Some c ->
    exists k r, t_messages s !! k = Some r /\ mw_conversation_ref r = ref /\ mw_sequence r = vw_last_sequence c /\
      vw_last_message_id c = Some k;
  tw_unique : forall k1 k2 r1 r2, t_messages s !! k1 = Some r1 -> t_messages s !! k2 = Some r2 -> same_conversation r1 r2 ->
    mw_provider_message_id r1 = mw_provider_message_id r2 \/ mw_source_event_id r1 = mw_source_event_id r2 \/
    mw_sequence r1 = mw_sequence r2 -> k1 = k2;
}.

(** ** What accepting a message does *)

(** The message an accepted one is, and who sent it. *)
Record authentic (s : TalkDb) (m : ConversationMessage) (provider tenant_ref : option string) (i : ResolvedProviderIdentity)
  : Prop := {
  au_principal : resolve_identity (u_authority (m_uow (t_admission s))) (vr_provider (vm_conversation_ref m))
      (strip (vm_sender_external_subject m)) (vm_occurred_at m) = Some (pi_principal i);
  au_subject : pi_external_subject i = strip (vm_sender_external_subject m);
  au_claimed : forall c, vm_claimed_sender_external_subject m = Some c -> nonempty (strip c) = true ->
    strip c = strip (vm_sender_external_subject m);
  au_provider : forall p, provider = Some p -> strip p = vr_provider (vm_conversation_ref m);
  au_tenant : forall t, tenant_ref = Some t \/ vm_provider_tenant_ref m = Some t ->
    strip t = vr_tenant_ref (vm_conversation_ref m);
}.

Lemma provider_context_Ok ref provider tenant_ref u :
  validate_provider_context ref provider tenant_ref = Ok u ->
  (forall p, provider = Some p -> strip p = vr_provider ref) /\ (forall t, tenant_ref = Some t -> strip t = vr_tenant_ref ref).
Proof.
  unfold validate_provider_context. intros Hc. inv_ok. split; intros x ->; by propify.
Qed.

Lemma resolve_Ok db ref subject claimed at_ i :
  resolve_provider_identity db ref subject claimed None None at_ = Ok i ->
  resolve_identity db (vr_provider ref) (strip subject) at_ = Some (pi_principal i) /\
  pi_external_subject i = strip subject /\
  forall c, claimed = Some c -> nonempty (strip c) = true -> strip c = strip subject.
Proof.
  unfold resolve_provider_identity. intros Hr. inv_ok. destruct (resolve_identity _ _ _ _) as [p|]; [|done]. inv_ok. subst i.
  split_and!; try done. intros c -> Hn. change (default "" (Some c)) with c in *.
  match goal with H : nonempty (strip c) && _ = false |- _ => rewrite Hn in H; cbn in H; by propify end.
Qed.

(** The two ways a message is accepted. *)
Inductive accepted (s : TalkDb) (m : ConversationMessage) (candidate : option CandidateAdministrativeRequest)
    (update_id : uuid) (clock : nat -> instant) (i : ResolvedProviderIdentity)
  : ConversationMessageResult -> TalkDb -> Prop :=
  | accepted_again row update message :
      deliveries_of (t_messages s) m = [row] -> same_message_delivery row m = true ->
      stored_update (m_intake (t_admission s)) row = Ok update -> message_with_ref row (vm_conversation_ref m) = Ok message ->
      accepted s m candidate update_id clock i (mkConversationMessageResult message i (mw_candidate_ref row) update false) s
  | accepted_new row candidate_ref case_id update updates :
      deliveries_of (t_messages s) m = [] -> continue_conversation (t_conversations s) m = Ok row ->
      validate_message_candidate (m_intake (t_admission s)) (vm_conversation_ref m) candidate = Ok tt ->
      admitted_case (t_admission s) (vm_conversation_ref m) candidate = Ok (candidate_ref, case_id) ->
      case_update_of m case_id update_id (clock 0%nat) = Ok update ->
      match update with
      | None => updates = it_updates (m_intake (t_admission s))
      | Some u => it_updates (m_intake (t_admission s)) !! cu_candidate_update_id u = None /\
          updates = <[cu_candidate_update_id u := u]> (it_updates (m_intake (t_admission s)))
      end ->
      t_messages s !! vm_message_id m = None ->
      accepted s m candidate update_id clock i (mkConversationMessageResult m i candidate_ref update true)
        (mkTalkDb (set_intake (t_admission s) (set_updates (m_intake (t_admission s)) updates))
           (<[canonical_ref (vm_conversation_ref m) := advanced_row row m case_id]> (t_conversations s))
           (<[vm_message_id m := row_of_message m candidate_ref (cu_candidate_update_id <$> update) (clock 1%nat)]>
              (t_messages s))).

Lemma append_message_Ok s m i candidate update_id clock r s' :
  deliveries_of (t_messages s) m = [] -> append_message s m i candidate update_id clock = Ok (r, s') ->
  accepted s m candidate update_id clock i r s'.
Proof.
  intros Hd. unfold append_message. intros Ha. apply rbind_Ok in Ha as (row & Hrow & Ha). inv_ok.
  destruct v0 as [candidate_ref case_id]. inv_ok. rename v into update, v0 into updates.
  match goal with H : db_add (t_messages s) _ _ = Ok _ |- _ => apply db_add_Ok in H as [Hnew ->] end. simplify_eq.
  eapply accepted_new; eauto. destruct update as [u|]; [|by simplify_eq].
  match goal with H : db_add (it_updates _) _ _ = Ok _ |- _ => by apply db_add_Ok in H end.
Qed.

Lemma accept_message_Ok s m provider tenant_ref candidate update_id clock r s' :
  accept_message s m provider tenant_ref candidate update_id clock = Ok (r, s') ->
  exists i, authentic s m provider tenant_ref i /\ accepted s m candidate update_id clock i r s'.
Proof.
  unfold accept_message. intros Ha. apply rbind_Ok in Ha as (u1 & Hctx & Ha). apply rbind_Ok in Ha as (u2 & Htenant & Ha).
  apply rbind_Ok in Ha as (i & Hi & Ha). apply rbind_Ok in Ha as (existing & He & Ha). apply one_or_none_Ok in He.
  exists i. split.
  - apply provider_context_Ok in Hctx as [Hp Ht]. apply resolve_Ok in Hi as (Hpr & Hs & Hc). split; try done.
    intros t [->|Htm]; [by apply Ht|]. rewrite Htm in Htenant. apply provider_context_Ok in Htenant as [_ Ht2]. by apply Ht2.
  - destruct existing as [row|]; [|by apply append_message_Ok]. inv_ok. propify. simplify_eq. by eapply accepted_again.
Qed.

(** ** The invariant is kept *)

Lemma not_delivered t m k r :
  deliveries_of t m = [] -> t !! k = Some r -> mw_conversation_ref r = canonical_ref (vm_conversation_ref m) ->
  mw_provider_message_id r <> vm_provider_message_id m /\ mw_source_event_id r <> vm_source_event_id m.
Proof.
  intros Hd Hk Hc. apply select_where_nil with (k := k) (v := r) in Hd; [|done].
  rewrite (bool_decide_eq_true_2 _ Hc) in Hd. cbn in Hd. by propify.
Qed.

Lemma continue_Ok t m row :
  continue_conversation t m = Ok row ->
  vw_sender_external_subject row = vm_sender_external_subject m /\
  same_set (vw_participants row) (vm_participant_external_subjects m) = true /\
  match t !! canonical_ref (vm_conversation_ref m) with
  | None => vw_ref row = vm_conversation_ref m
  | Some c => row = c /\ vw_last_sequence c < vm_sequence m
  end.
Proof.
  unfold continue_conversation. destruct (t !! _) as [c|]; intros Hc; inv_ok; subst; cbn; [|by rewrite same_set_refl].
  by propify.
Qed.

Lemma accepted_wf s m candidate update_id clock i r s' :
  talk_wf s -> accepted s m candidate update_id clock i r s' -> talk_wf s'.
Proof.
  intros Hwf Ha. destruct Ha as [|row candidate_ref case_id update updates Hd (Hsend & Hpart & Hcont)%continue_Ok _ _ _ _ Hnew];
    [done|]. destruct Hwf as [Hids Hrow Hlast Huniq].
  set (ref := canonical_ref (vm_conversation_ref m)) in *.
  assert (Hbefore : forall k q, t_messages s !! k = Some q -> mw_conversation_ref q = ref ->
    t_conversations s !! ref = Some row /\ mw_sequence q < vm_sequence m).
  { intros k q Hk Hq. destruct (Hrow _ _ Hk) as (c & Hc & [Hs _ _]). rewrite Hq in Hc. rewrite Hc in Hcont.
    destruct Hcont as [-> Hlt]. split; [done|lia]. }
  split; cbn.
  - apply map_Forall_insert_2; [done|exact Hids].
  - intros k q [[<- <-]|[Hne Hk]]%lookup_insert_Some; cbn.
    + eexists. rewrite lookup_insert_eq. split; [done|]. split; cbn; [lia|done|done].
    + destruct (decide (mw_conversation_ref q = ref)) as [Hq|Hq].
      * destruct (Hbefore _ _ Hk Hq) as [Hc Hlt]. destruct (Hrow _ _ Hk) as (c & Hc' & [_ Hs Hp]).
        rewrite Hq, Hc in Hc'. injection Hc' as <-. rewrite Hq, lookup_insert_eq. eexists. split; [done|]. split; cbn; [lia|done..].
      * rewrite lookup_insert_ne by done. by apply (Hrow k).
  - intros ref' c [[<- <-]|[Hne Hc]]%lookup_insert_Some; cbn.
    + eexists _, _. rewrite lookup_insert_eq. split; [done|]. done.
    + destruct (Hlast _ _ Hc) as (k & q & Hk & Hrest). exists k, q. rewrite lookup_insert_ne by congruence. done.
  - intros k1 k2 q1 q2 [[<- <-]|[_ H1]]%lookup_insert_Some [[<- <-]|[_ H2]]%lookup_insert_Some Hsame Heq; try done;
      unfold same_conversation in Hsame; cbn in *.
    + destruct (not_delivered _ _ _ _ Hd H2) as [Hp He]; [done|]. destruct (Hbefore _ _ H2) as [_ Hlt]; [done|].
      destruct Heq as [E|[E|E]]; [congruence|congruence|lia].
    + destruct (not_delivered _ _ _ _ Hd H1) as [Hp He]; [done|]. destruct (Hbefore _ _ H1) as [_ Hlt]; [done|].
      destruct Heq as [E|[E|E]]; [congruence|congruence|lia].
    + by eapply Huniq.
Qed.

(** ** Runs *)

(** A message is accepted, or sessions of the other components commit. *)
Inductive talk_step (s : TalkDb) : TalkDb -> Prop :=
  | talk_accepts m provider tenant_ref candidate update_id clock r s' :
      accept_message s m provider tenant_ref candidate update_id clock = Ok (r, s') -> talk_step s s'
  | talk_waits a : talk_step s (mkTalkDb a (t_conversations s) (t_messages s)).

Definition silent (a : AdmissionDb) : TalkDb := mkTalkDb a ∅ ∅.

Lemma silent_wf a : talk_wf (silent a).
Proof. split; cbn; [apply keyed_empty|done..]. Qed.

Lemma talk_run_wf s s' : rtc talk_step s s' -> talk_wf s -> talk_wf s'.
Proof.
  induction 1 as [|s s1 s' Hstep _ IH]; [done|]. intros Hwf. apply IH. destruct Hstep as [m p t c u k r s2 Ha|a].
  - apply accept_message_Ok in Ha as (i & _ & Ha). by eapply accepted_wf.
  - by destruct Hwf; split.
Qed.

(** ** Timelines *)

Definition earlier (a b : ConversationMessageRow) : Prop := mw_sequence a < mw_sequence b.

Lemma strictly_sorted {A} (key : A -> Z) (id : A -> uuid) l :
  StronglySorted (fun a b => key a <= key b) l -> NoDup (id <$> l) ->
  (forall a b, a ∈ l -> b ∈ l -> key a = key b -> id a = id b) -> StronglySorted (fun a b => key a < key b) l.
Proof.
  induction 1 as [|x l _ IH Hx]; cbn; intros Hnd Hinj; [constructor|]. apply NoDup_cons in Hnd as [Hn Hnd].
  constructor; [apply IH; [done|]; intros; apply Hinj; by try right|].
  rewrite Forall_forall in Hx |- *. intros y Hy. specialize (Hx y Hy). enough (key x <> key y) by lia.
  intros E. apply Hn. rewrite (Hinj x y); [by apply list_elem_of_fmap_2|left|by right|done].
Qed.

Lemma elem_of_timeline s ref r :
  r ∈ timeline s ref <-> (exists k, t_messages s !! k = Some r) /\ mw_conversation_ref r = ref.
Proof. unfold timeline. rewrite elem_of_sort_by, elem_of_select_where. by rewrite bool_decide_eq_true. Qed.

Lemma timeline_sorted s ref : talk_wf s -> StronglySorted earlier (timeline s ref).
Proof.
  intros Hwf. apply (strictly_sorted mw_sequence mw_message_id); [apply sort_by_key_sorted| |].
  - unfold timeline. rewrite (sort_by_perm (cmp_key mw_sequence)). apply select_where_NoDup, tw_ids, Hwf.
  - intros a b [[k1 H1] Ha]%elem_of_timeline [[k2 H2] Hb]%elem_of_timeline E.
    rewrite (tw_ids _ Hwf k1 a H1), (tw_ids _ Hwf k2 b H2). eapply (tw_unique _ Hwf); eauto. unfold same_conversation. congruence.
Qed.

Lemma sorted_last l (x : ConversationMessageRow) :
  StronglySorted earlier l -> x ∈ l -> (forall y, y ∈ l -> mw_sequence y <= mw_sequence x) -> last l = Some x.
Proof.
  intros Hs Hx Hall. destruct l as [|y l _] using rev_ind; [by apply not_elem_of_nil in Hx|]. rewrite last_snoc. f_equal.
  apply elem_of_app in Hx as [Hx|Hx%list_elem_of_singleton]; [|done].
  pose proof (StronglySorted_app_1_elem_of _ _ _ _ _ Hs Hx ltac:(by apply list_elem_of_singleton)).
  specialize (Hall y ltac:(apply elem_of_app; right; left)). unfold earlier in *. lia.
Qed.


(** An accepted message that is new becomes the last message of its conversation's
    timeline, and the timelines of all other conversations stay as they are. *)
Theorem timeline_grows_at_its_end a s m provider tenant_ref candidate update_id clock r s' :
  rtc talk_step (silent a) s -> accept_message s m provider tenant_ref candidate update_id clock = Ok (r, s') ->
  vx_created r = true ->
  let ref := canonical_ref (vm_conversation_ref m) in
  timeline s' ref = timeline s ref ++
    [row_of_message m (vx_candidate_ref r) (cu_candidate_update_id <$> vx_case_update r) (clock 1%nat)] /\
  forall other, other <> ref -> timeline s' other = timeline s other.
Proof.
  intros Hrun Ha Hnew. pose proof (talk_run_wf _ _ Hrun (silent_wf a)) as Hwf.
  apply accept_message_Ok in Ha as (i & _ & Ha). pose proof (accepted_wf _ _ _ _ _ _ _ _ Hwf Ha) as Hwf'.
  destruct Ha as [|row candidate_ref case_id update updates Hd (_ & _ & Hcont)%continue_Ok _ _ _ _ Hid]; [done|].
  cbn [vx_candidate_ref vx_case_update]. set (new := row_of_message _ _ _ _).
  pose proof (fun P => select_where_insert P (t_messages s) (vm_message_id m) new Hid) as Hins. split.
  - apply sort_by_key_unique; cbn [t_messages].
    + rewrite Hins, bool_decide_eq_true_2 by done. rewrite Permutation_app_comm. unfold timeline.
      by rewrite (sort_by_perm (cmp_key mw_sequence)).
    + apply StronglySorted_app_2; [|by apply timeline_sorted|repeat constructor].
      intros x y [[k Hk] Hx]%elem_of_timeline ->%list_elem_of_singleton. destruct (tw_row _ Hwf _ _ Hk) as (c & Hc & [Hle _ _]).
      rewrite Hx in Hc. rewrite Hc in Hcont. destruct Hcont as [-> Hlt]. cbn. lia.
  - intros other Hne. apply sort_by_key_unique; cbn [t_messages]; [|by apply timeline_sorted].
    rewrite Hins, bool_decide_eq_false_2 by (cbn; congruence). unfold timeline. cbn. by rewrite (sort_by_perm (cmp_key mw_sequence)).
Qed.

(** ** Identity *)

(** A message is accepted only as what the provider authenticated: when it was sent, its
    sender was bound to a principal that is active, a claimed sender is that sender, and
    the provider and the tenants named beside the message are those of its conversation; its row records that sender. *)
Theorem accepted_messages_are_authentic s m provider tenant_ref candidate update_id clock r s' :
  accept_message s m provider tenant_ref candidate update_id clock = Ok (r, s') ->
  authentic s m provider tenant_ref (vx_identity r) /\
  exists k row, t_messages s' !! k = Some row /\ mw_conversation_ref row = canonical_ref (vm_conversation_ref m) /\
    mw_sender_external_subject row = vm_sender_external_subject m /\
    mw_provider_message_id row = vm_provider_message_id m /\ mw_source_event_id row = vm_source_event_id m.
Proof.
  intros (i & Hi & Ha)%accept_message_Ok. destruct Ha as [row update message Hd Hsame|row cref case_id update updates]; (split; [done|]).
  - assert (row ∈ deliveries_of (t_messages s) m) as [[k Hk] Hrow]%elem_of_select_where by (rewrite Hd; left). exists k, row.
    unfold same_message_delivery in Hsame. propify. naive_solver.
  - eexists _, _. cbn. rewrite lookup_insert_eq. done.
Qed.

(** ** Messages and cases *)

(** The case of an admitted candidate of a conversation. *)
Definition case_of_conversation (s : AdmissionDb) (ref : ConversationRef) (case_id : uuid) : Prop :=
  exists c p row, (exists k, it_candidates (m_intake s) !! k = Some c) /\ cq_status c = CR_ADMITTED /\
    cq_conversation_ref c = canonical_ref ref /\
    (exists k, it_promotions (m_intake s) !! k = Some p) /\ pm_candidate_ref p = cq_candidate_id c /\
    (exists k, x_cases (u_exec (m_uow s)) !! k = Some row) /\ cr_request row = pm_request_id p /\
    c_case_id (cr_case row) = case_id.

Lemma get_candidate_Ok d id c : get_candidate_request d id = Ok (Some c) -> it_candidates d !! id = Some c.
Proof.
  unfold get_candidate_request. destruct (it_candidates d !! id) as [row|]; [|done]. intros Hg. inv_ok.
  match goal with H : CandidateAdministrativeRequest_validate _ = Ok _ |- _ => apply candidate_validate_Ok in H as -> end. congruence.
Qed.

Lemma message_candidate_Ok d ref c u :
  validate_message_candidate d ref (Some c) = Ok u ->
  (exists k, it_candidates d !! k = Some c) /\ cq_conversation_ref c = canonical_ref ref.
Proof.
  unfold validate_message_candidate. intros Hv. apply rbind_Ok in Hv as (persisted & Hp & Hv). inv_ok. propify. subst persisted.
  split; [|done]. eexists. by apply get_candidate_Ok.
Qed.

Lemma conversation_candidates_Ok d ref l c :
  conversation_candidates d ref = Ok l -> c ∈ l ->
  (exists k, it_candidates d !! k = Some c) /\ cq_conversation_ref c = canonical_ref ref.
Proof.
  intros Hl Hc. destruct (traverse_elem_of _ _ _ _ Hl Hc) as (c0 & Hc0 & Hval). apply candidate_validate_Ok in Hval as ->.
  rewrite elem_of_sort_by, elem_of_select_where in Hc0. destruct Hc0 as [Hk Hr]. by propify.
Qed.

Lemma admitted_case_Ok s ref candidate u candidate_ref case_id :
  validate_message_candidate (m_intake s) ref candidate = Ok u ->
  admitted_case s ref candidate = Ok (candidate_ref, Some case_id) -> case_of_conversation s ref case_id.
Proof.
  intros Hval Ha. unfold admitted_case in Ha. apply rbind_Ok in Ha as (l & Hl & Ha).
  assert (Hstored : forall c, c ∈ l -> (exists k, it_candidates (m_intake s) !! k = Some c) /\ cq_conversation_ref c = canonical_ref ref).
  { intros c Hc. destruct candidate as [c0|]; [|by eapply conversation_candidates_Ok]. inv_ok. subst l.
    apply list_elem_of_singleton in Hc as ->. by eapply message_candidate_Ok. }
  destruct (List.filter _ l) as [|c rest] eqn:Hf; [done|].
  assert (c ∈ l /\ cq_status c = CR_ADMITTED) as [Hin Hst].
  { assert (In c (c :: rest)) as Hc by by left. rewrite <- Hf in Hc. apply filter_In in Hc as [Hc Hs]. propify.
    split; [by apply list_elem_of_In|done]. }
  apply rbind_Ok in Ha as (id & Hb & Ha). injection Ha as _ <-. destruct (Hstored c Hin) as [Hk Hr].
  unfold bound_case in Hb. apply rbind_Ok in Hb as ([p|] & Hp & Hb); [|done]. apply rbind_Ok in Hb as ([row|] & Hrow & Hb); [|done].
  apply select_one_or_none in Hp as [Hp Hpc]. apply select_one_or_none in Hrow as [Hrow Hrc]. propify. injection Hb as <-.
  exists c, p, row. done.
Qed.

Lemma case_update_Ok m case_id update_id now u :
  case_update_of m case_id update_id now = Ok (Some u) ->
  case_id = Some (cu_case_id u) /\ cu_candidate_update_id u = update_id /\ cu_status u = CU_REQUIRES_HUMAN_REVIEW /\
  cu_conversation_ref u = canonical_ref (vm_conversation_ref m) /\ cu_source_refs u = vm_source_refs m /\
  cu_interpretation_refs u = vm_interpretation_refs m /\ cu_source_refs u <> [] /\ cu_interpretation_refs u <> [] /\
  CandidateCaseUpdate_validate u = Ok u.
Proof.
  unfold case_update_of. destruct case_id as [case_id|]; [|done]. intros Hc. inv_ok.
  match goal with H : CandidateCaseUpdate_validate ?x = Ok ?v |- _ => assert (v = x) as ->; [|rename H into Hval] end.
  { match goal with H : CandidateCaseUpdate_validate _ = Ok _ |- _ => unfold CandidateCaseUpdate_validate in H; destruct (_ && _) in H end;
      [by inv_ok|done]. }
  simplify_eq. cbn. match goal with H : is_nil _ || is_nil _ = false |- _ => apply orb_false_iff in H as [Hs Hi] end.
  split_and!; try done; by destruct (vm_source_refs m), (vm_interpretation_refs m).
Qed.

(** C33: A message decides nothing: accepting it changes no case, no request, no decision and no
    candidate, it only may add one update, which waits for human review, carries the
    message's sources and interpretations, and concerns the case that an admitted
    candidate of the same conversation was promoted to. *)
Theorem messages_decide_nothing s m provider tenant_ref candidate update_id clock r s' :
  accept_message s m provider tenant_ref candidate update_id clock = Ok (r, s') ->
  s' = s \/
  exists updates, t_admission s' = set_intake (t_admission s) (set_updates (m_intake (t_admission s)) updates) /\
    match vx_case_update r with
    | None => updates = it_updates (m_intake (t_admission s))
    | Some u =>
        it_updates (m_intake (t_admission s)) !! update_id = None /\
        updates = <[update_id := u]> (it_updates (m_intake (t_admission s))) /\
        cu_status u = CU_REQUIRES_HUMAN_REVIEW /\ cu_source_refs u = vm_source_refs m /\ cu_source_refs u <> [] /\
        cu_interpretation_refs u = vm_interpretation_refs m /\ cu_interpretation_refs u <> [] /\
        case_of_conversation (t_admission s) (vm_conversation_ref m) (cu_case_id u)
    end.
Proof.
  intros (i & _ & Ha)%accept_message_Ok. destruct Ha as [|row cref case_id update updates _ _ Hval Hcase Hu Hups _]; [by left|right].
  exists updates. split; [done|]. cbn [vx_case_update]. destruct update as [u|]; [|done].
  apply case_update_Ok in Hu as (-> & Hid & Hst & Href & Hsrc & Hint & Hs & Hi & _). rewrite Hid in Hups. destruct Hups as [Hnew ->].
  split_and!; try done. by eapply admitted_case_Ok.
Qed.

(** ** Redelivery *)

Definition accepts (s s' : TalkDb) : Prop :=
  exists m provider tenant_ref candidate update_id clock r,
    accept_message s m provider tenant_ref candidate update_id clock = Ok (r, s').

Record remembers (s s' : TalkDb) : Prop := {
  rm_messages : t_messages s ⊆ t_messages s';
  rm_updates : it_updates (m_intake (t_admission s)) ⊆ it_updates (m_intake (t_admission s'));
  rm_uow : m_uow (t_admission s') = m_uow (t_admission s);
}.

#[global] Instance remembers_po : PreOrder remembers.
Proof.
  split; [by split|]. intros s1 s2 s3 [M1 U1 E1] [M2 U2 E2]. split; [by etrans|by etrans|congruence].
Qed.

Lemma accepted_remembers s m candidate update_id clock i r s' :
  accepted s m candidate update_id clock i r s' -> remembers s s'.
Proof.
  intros Ha. destruct Ha as [|row cref case_id update updates _ _ _ _ _ Hups Hnew]; [done|]. split; cbn; [by apply insert_subseteq| |done].
  destruct update as [u|]; [|by subst]. destruct Hups as [Hn ->]. by apply insert_subseteq.
Qed.

Lemma accepts_run s s' : rtc accepts s s' -> remembers s s' /\ (talk_wf s -> talk_wf s').
Proof.
  induction 1 as [|s s1 s' (m & p & t & c & u & k & r & (i & _ & Ha)%accept_message_Ok) _ [Hr Hw]]; [done|].
  split; [etrans; [by eapply accepted_remembers|done]|]. intros Hwf. by eapply Hw, accepted_wf.
Qed.

Lemma delivered_one s m k row :
  talk_wf s -> t_messages s !! k = Some row -> mw_conversation_ref row = canonical_ref (vm_conversation_ref m) ->
  mw_provider_message_id row = vm_provider_message_id m -> mw_source_event_id row = vm_source_event_id m ->
  deliveries_of (t_messages s) m = [row].
Proof.
  intros Hwf Hk Hc Hp He. unfold deliveries_of. set (P := fun r : ConversationMessageRow => _).
  assert (Hrow : row ∈ select_where P (t_messages s)).
  { apply elem_of_select_where. split; [eauto|]. unfold P. by rewrite !bool_decide_eq_true_2. }
  assert (Hone : forall k1 r1, t_messages s !! k1 = Some r1 -> P r1 = true -> k1 = k).
  { intros k1 r1 H1 HP. apply andb_true_iff in HP as [Hc1%bool_decide_eq_true HP].
    apply orb_true_iff in HP. rewrite !bool_decide_eq_true in HP. eapply (tw_unique _ Hwf k1 k r1 row); try done.
    - unfold same_conversation. congruence.
    - destruct HP; [left|right; left]; congruence. }
  pose proof (select_where_unique P (t_messages s)) as Hlen. destruct (select_where P (t_messages s)) as [|r1 [|r2 l]].
  - by apply not_elem_of_nil in Hrow.
  - by apply list_elem_of_singleton in Hrow as ->.
  - exfalso. cbn in Hlen. enough (S (S (length l)) <= 1)%nat by lia. apply Hlen. intros k1 k2 v1 v2 H1 H2 P1 P2.
    by rewrite (Hone k1 v1 H1 P1), (Hone k2 v2 H2 P2).
Qed.

Lemma accept_again s s2 m provider tenant_ref candidate candidate2 update_id update_id2 clock clock2 r s' row update message :
  accept_message s m provider tenant_ref candidate update_id clock = Ok (r, s') ->
  m_uow (t_admission s2) = m_uow (t_admission s) -> deliveries_of (t_messages s2) m = [row] -> same_message_delivery row m = true ->
  stored_update (m_intake (t_admission s2)) row = Ok update -> message_with_ref row (vm_conversation_ref m) = Ok message ->
  accept_message s2 m provider tenant_ref candidate2 update_id2 clock2 =
    Ok (mkConversationMessageResult message (vx_identity r) (mw_candidate_ref row) update false, s2).
Proof.
  intros Ha Hu Hd Hs Hup Hm. pose proof Ha as (i' & _ & Hacc)%accept_message_Ok.
  unfold accept_message in Ha |- *. apply rbind_Ok in Ha as (u1 & Hctx & Ha). apply rbind_Ok in Ha as (u2 & Htenant & Ha).
  apply rbind_Ok in Ha as (i & Hi & Ha). rewrite Hctx. cbn [rbind]. rewrite Htenant. cbn [rbind]. rewrite Hu, Hi.
  cbn [rbind]. rewrite Hd. cbn [rbind one_or_none]. rewrite Hs. cbn [negb guard rbind]. rewrite Hup. cbn [rbind]. rewrite Hm.
  cbn [rbind]. do 3 f_equal.
  apply rbind_Ok in Ha as ([row0|] & He & Ha).
  - inv_ok. by subst r.
  - apply append_message_Ok in Ha; [|by apply one_or_none_Ok in He]. by destruct Ha.
Qed.

(** The message as its row gives it back. *)
Definition given_back (m : ConversationMessage) : ConversationMessage :=
  mkConversationMessage (vm_message_id m) (vm_conversation_ref m) (vm_provider_message_id m) (vm_source_event_id m)
    (vm_sender_external_subject m) (vm_displayed_sender m) (vm_participant_external_subjects m) (vm_sequence m)
    (vm_occurred_at m) (Some (vr_tenant_ref (vm_conversation_ref m))) (vm_content_digest m) (vm_source_refs m)
    (vm_interpretation_refs m) (vm_candidate_fact_refs m) None.

Lemma given_back_Ok m cref cu now :
  ConversationRef_validate (vm_conversation_ref m) = Ok (vm_conversation_ref m) -> ConversationMessage_validate m = Ok m ->
  message_with_ref (row_of_message m cref cu now) (vm_conversation_ref m) = Ok (given_back m).
Proof.
  intros Hr Hm. assert (Ht : sized_opt 512 (Some (vr_tenant_ref (vm_conversation_ref m))) = true).
  { unfold ConversationRef_validate in Hr. destruct (_ && _ && _) eqn:E in Hr; [|done]. apply andb_true_iff in E as [[_ E]%andb_true_iff _].
    apply andb_true_iff in E as [_ E]. cbn [sized_opt]. unfold sized. by rewrite E. }
  destruct m as [id ref pid ev sender shown parts sq at_ tenant digest srcs ints facts claimed].
  unfold message_with_ref, given_back. unfold ConversationMessage_validate in Hm |- *.
  cbn -[strip sized sized_opt participants_of Z.leb] in Hm, Ht |- *.
  clear Hr. destruct (_ && _) eqn:E in Hm; [|done]. apply andb_true_iff in E as [[[Hsz _]%andb_true_iff Hdg]%andb_true_iff _].
  rewrite Hsz, Hdg, Ht. cbn [andb sized_opt]. inv_ok. rewrite E, E0, E1. cbn [guard rbind fmap option_fmap option_map].
  congruence.
Qed.

Lemma same_delivery_refl m cref cu now : same_message_delivery (row_of_message m cref cu now) m = true.
Proof.
  unfold same_message_delivery. cbn -[same_set]. rewrite same_set_refl, !bool_decide_eq_true_2; done.
Qed.

(** Redelivery is idempotent: however many messages were accepted after it, delivering a
    message again, even with another candidate, changes nothing and answers as the first
    delivery did: the same message, identity, candidate and case update, marked as not new. *)
Theorem redelivery_is_idempotent a s m provider tenant_ref candidate update_id clock r s1 s2 candidate2 update_id2 clock2 :
  rtc talk_step (silent a) s ->
  ConversationRef_validate (vm_conversation_ref m) = Ok (vm_conversation_ref m) -> ConversationMessage_validate m = Ok m ->
  accept_message s m provider tenant_ref candidate update_id clock = Ok (r, s1) -> vx_created r = true ->
  rtc accepts s1 s2 ->
  accept_message s2 m provider tenant_ref candidate2 update_id2 clock2 =
    Ok (mkConversationMessageResult (given_back m) (vx_identity r) (vx_candidate_ref r) (vx_case_update r) false, s2).
Proof.
  intros Hrun Href Hm Ha Hnew [[Hms Hups Huow] Hwf2]%accepts_run. pose proof (talk_run_wf _ _ Hrun (silent_wf a)) as Hwf.
  pose proof Ha as (i & _ & Hacc)%accept_message_Ok. specialize (Hwf2 (accepted_wf _ _ _ _ _ _ _ _ Hwf Hacc)).
  destruct (accepted_remembers _ _ _ _ _ _ _ _ Hacc) as [_ _ Huow1].
  destruct Hacc as [|row cref case_id update updates _ _ _ _ Hu Hups1 _]; [done|]. cbn [t_messages t_admission] in *.
  set (new := row_of_message m cref (cu_candidate_update_id <$> update) (clock 1%nat)) in *.
  assert (Hstored : stored_update (m_intake (t_admission s2)) new = Ok update).
  { unfold stored_update, new. cbn. destruct update as [u|]; [|done]. cbn. destruct Hups1 as [_ ->].
    rewrite (lookup_weaken _ _ _ _ (lookup_insert_eq _ _ _) Hups). by apply case_update_Ok in Hu as (_ & _ & _ & _ & _ & _ & _ & _ & ->). }
  eapply (accept_again s s2 _ _ _ _ _ _ _ _ _ _ _ new) in Ha; [exact Ha|congruence| |apply same_delivery_refl|exact Hstored|by apply given_back_Ok].
  apply (delivered_one s2 m (vm_message_id m)); try done. apply (lookup_weaken _ _ _ _ (lookup_insert_eq _ _ _) Hms).
Qed.

(** ** Supersession *)

Lemma candidate_state_validate c status :
  CandidateAdministrativeRequest_validate c = Ok c ->
  CandidateAdministrativeRequest_validate (with_candidate_state c status) = Ok (with_candidate_state c status).
Proof.
  unfold CandidateAdministrativeRequest_validate. cbn -[sized require_texts]. destruct (_ && _); [|done]. intros Hc. inv_ok.
  rewrite E. done.
Qed.

Lemma get_candidate_stored d id c :
  it_candidates d !! id = Some c -> CandidateAdministrativeRequest_validate c = Ok c -> get_candidate_request d id = Ok (Some c).
Proof. intros Hc Hv. unfold get_candidate_request. by rewrite Hc, Hv. Qed.

Lemma get_candidate_valid d id c : get_candidate_request d id = Ok (Some c) -> CandidateAdministrativeRequest_validate c = Ok c.
Proof.
  intros Hg. pose proof (get_candidate_Ok _ _ _ Hg) as Hc. unfold get_candidate_request in Hg. rewrite Hc in Hg. inv_ok. congruence.
Qed.

(** The two ways a candidate is superseded. *)
Lemma supersede_Ok d previous replacement c d' :
  supersede_candidate d previous replacement = Ok (c, d') ->
  cq_supersedes_candidate_ref replacement = Some previous /\ cq_status replacement = CR_ACTIVE /\ c = replacement /\
  exists old, get_candidate_request d previous = Ok (Some old) /\ cq_conversation_ref old = cq_conversation_ref replacement /\
    (get_candidate_request d (cq_candidate_id replacement) = Ok (Some replacement) /\ cq_status old = CR_SUPERSEDED /\ d' = d \/
     it_candidates d !! cq_candidate_id replacement = None /\ cq_status old = CR_ACTIVE /\
     d' = set_candidates d (<[cq_candidate_id replacement := replacement]>
                              (<[previous := with_candidate_state old CR_SUPERSEDED]> (it_candidates d)))).
Proof.
  unfold supersede_candidate. intros Hs. apply rbind_Ok in Hs as (? & Href%guard_Ok & Hs). apply rbind_Ok in Hs as (? & Hact%guard_Ok & Hs).
  apply rbind_Ok in Hs as ([old|] & Hold & Hs); [|done]. apply rbind_Ok in Hs as (? & Hconv%guard_Ok & Hs).
  apply rbind_Ok in Hs as ([e|] & He & Hs); propify.
  - destruct (_ && _) eqn:Hb in Hs; [|done]. propify. injection Hs as <- <-. subst e. split_and!; try done. exists old. naive_solver.
  - apply rbind_Ok in Hs as (? & Hst%guard_Ok & Hs). apply rbind_Ok in Hs as (t & [Hnew ->]%db_add_Ok & Hs). propify. injection Hs as <- <-.
    split_and!; try done. exists old. split_and!; try done. right. split_and!; try done.
    destruct (decide (previous = cq_candidate_id replacement)) as [->|Hne]; [by rewrite lookup_insert_eq in Hnew|].
    by rewrite lookup_insert_ne in Hnew.
Qed.

(** Where a candidate was superseded. *)
Lemma superseded_again d previous replacement old :
  get_candidate_request d previous = Ok (Some old) -> cq_status old = CR_SUPERSEDED ->
  cq_conversation_ref old = cq_conversation_ref replacement -> cq_supersedes_candidate_ref replacement = Some previous ->
  cq_status replacement = CR_ACTIVE -> get_candidate_request d (cq_candidate_id replacement) = Ok (Some replacement) ->
  supersede_candidate d previous replacement = Ok (replacement, d) /\
  forall other r, it_candidates d !! cq_candidate_id other = None -> supersede_candidate d previous other <> Ok r.
Proof.
  intros Hold Hst Hconv Href Hact Hrep. split.
  - unfold supersede_candidate. rewrite Href, Hact, Hold. cbn [rbind]. rewrite Hconv, Hrep, Hst. cbn [rbind].
    by repeat (rewrite bool_decide_eq_false_2 by (intros ?; done); cbn [guard rbind]); rewrite !bool_decide_eq_true_2.
  - intros other [c d'] Hnew (_ & _ & _ & old' & Hold' & _ & [(He & _)|(_ & Ha & _)])%supersede_Ok.
    + apply get_candidate_Ok in He. congruence.
    + congruence.
Qed.

(** Superseding replaces one candidate of a conversation by another and is final: the
    replacement is stored active, only the status of the replaced candidate changes and
    nothing else is touched; repeating it changes nothing, and no other new candidate can
    take the place of the replaced one. *)
Theorem supersession_is_final d previous replacement c d' :
  CandidateAdministrativeRequest_validate replacement = Ok replacement ->
  supersede_candidate d previous replacement = Ok (c, d') ->
  c = replacement /\ cq_status replacement = CR_ACTIVE /\
  it_candidates d' !! cq_candidate_id replacement = Some replacement /\
  (exists old, it_candidates d !! previous = Some old /\ cq_conversation_ref old = cq_conversation_ref replacement /\
     it_candidates d' !! previous = Some (with_candidate_state old CR_SUPERSEDED)) /\
  (forall k, k <> previous -> k <> cq_candidate_id replacement -> it_candidates d' !! k = it_candidates d !! k) /\
  supersede_candidate d' previous replacement = Ok (replacement, d') /\
  forall other r, it_candidates d' !! cq_candidate_id other = None -> supersede_candidate d' previous other <> Ok r.
Proof.
  intros Hval (Href & Hact & -> & old & Hold & Hconv & [(Hrep & Hst & ->)|(Hnew & Hst & ->)])%supersede_Ok.
  - pose proof (get_candidate_Ok _ _ _ Hold) as Ho. pose proof (get_candidate_Ok _ _ _ Hrep) as Hr.
    destruct (superseded_again _ _ _ _ Hold Hst Hconv Href Hact Hrep) as [Hagain Hnone]. split_and!; try done.
    exists old. split_and!; try done. rewrite Ho. f_equal. destruct old. cbn in *. by subst.
  - pose proof (get_candidate_Ok _ _ _ Hold) as Ho. assert (Hne : previous <> cq_candidate_id replacement) by congruence.
    set (d' := set_candidates d _).
    assert (Hr : it_candidates d' !! cq_candidate_id replacement = Some replacement) by apply lookup_insert_eq.
    assert (Hp : it_candidates d' !! previous = Some (with_candidate_state old CR_SUPERSEDED)).
    { cbn. by rewrite lookup_insert_ne, lookup_insert_eq. }
    destruct (superseded_again d' previous replacement (with_candidate_state old CR_SUPERSEDED)) as [Hagain Hnone]; try done.
    + apply get_candidate_stored; [done|]. by eapply candidate_state_validate, get_candidate_valid.
    + by apply get_candidate_stored.
    + split_and!; try done; [by exists old|]. intros k Hk1 Hk2. cbn. by rewrite !lookup_insert_ne.
Qed.
