(* ===== verification/Connectors.v ===== *)
(** * Connectors to external systems: what they share

    [integrations/effect_common.py] and [integrations/credentials.py], the HTTP
    requests the connectors send, and the text and number conversions they use.  The
    services behind HTTP are a parameter: [http] answers a request, or loses it after
    it may have taken effect.  A connector computes over a [Wire], which keeps every
    request that was sent and what came of it. *)

From stdpp Require Import base gmap strings list.
From Stdlib Require Import ZArith Ascii Lia.
From S2P Require Import Prelude Python Access Machine Artifacts.

Open Scope Z_scope.
Open Scope orch_scope.
Open Scope machine_scope.

(** ** Results, [effect_common.py] *)

Inductive ConnectorStatus := CS_SUCCEEDED | CS_FAILED | CS_UNKNOWN | CS_UNAVAILABLE.
#[global] Instance ConnectorStatus_eq_dec : EqDecision ConnectorStatus.
Proof. solve_decision. Defined.

Definition ConnectorStatus_value (s : ConnectorStatus) : string :=
  match s with
  | CS_SUCCEEDED => "succeeded"
  | CS_FAILED => "failed"
  | CS_UNKNOWN => "unknown"
  | CS_UNAVAILABLE => "unavailable"
  end.

Record ConnectorResult := mkConnectorResult {
  cn_status : ConnectorStatus;
  cn_external_operation_ref : option string;
  cn_observed_postcondition : option pydict;
  cn_error_code : option string;
  cn_error_message : option string;
  cn_reconciled : bool;
}.

Definition connector_failed (code message : string) (reconciled : bool) : ConnectorResult :=
  mkConnectorResult CS_FAILED None None (Some code) (Some message) reconciled.
Definition connector_succeeded (ref : option string) (reconciled : bool) : ConnectorResult :=
  mkConnectorResult CS_SUCCEEDED ref None None None reconciled.
Definition connector_unavailable (code message : string) : ConnectorResult :=
  mkConnectorResult CS_UNAVAILABLE None None (Some code) (Some message) false.
Definition connector_observed (ref : option string) (observed : pydict) : ConnectorResult :=
  mkConnectorResult CS_SUCCEEDED ref (Some observed) None None false.

(** [type(exc.__cause__).__name__ if exc.__cause__ else type(exc).__name__] of the two
    exceptions the connectors raise themselves. *)
Definition cause_name (e : exn) : string :=
  match exn_cls e with
  | TransportUnknown (Some name) => name
  | TransportUnknown None => "_TransportUnknown"
  | ApplicationRejected => "_ApplicationRejected"
  | HttpxError name | DecodeError name => name
  | _ => "ValueError"
  end.

Definition unknown_result (e : exn) (reconciled : bool) : ConnectorResult :=
  mkConnectorResult CS_UNKNOWN None None (Some (cause_name e)) (Some (exn_msg e)) reconciled.
Definition unavailable_result (e : exn) : ConnectorResult := connector_unavailable (cause_name e) (exn_msg e).

Definition is_transport_unknown (e : exn) : bool :=
  match exn_cls e with TransportUnknown _ => true | _ => false end.
Definition is_application_rejected (e : exn) : bool := bool_decide (exn_cls e = ApplicationRejected).

(** [_validate_base_url], over what [urllib.parse.urlparse] finds: scheme and host. *)
Class UrlLibrary := { urlparse : string -> string * option string }.

Definition validate_base_url `{UrlLibrary} (value : string) (allow_insecure_http : bool) : result unit :=
  let '(scheme, hostname) := urlparse value in
  let allowed := if allow_insecure_http then ["http"; "https"] else ["https"] in
  guard (negb (bool_decide (scheme ∈ allowed)) || negb (nonempty (default "" hostname)))
    ConnectorConfigurationError "connector base URL is not permitted".

(** ** Credentials, [credentials.py] *)

Record CredentialRef := mkCredentialRef {
  rf_configuration_ref : string;
  rf_environment_variable : string;
}.

(** The protocol [CredentialResolver]. *)
Class CredentialResolver := { resolve : CredentialRef -> result string }.

(** The single quotes of [!r]. *)
Definition credential_unavailable {A} (configuration_ref : string) : result A :=
  raise CredentialResolutionError ("credential configuration '" +:+ configuration_ref +:+ "' is unavailable").

Definition EnvironmentCredentialResolver (environ : string -> option string) : CredentialResolver := {|
  resolve ref :=
    let value := default "" (environ (rf_environment_variable ref)) in
    if negb (nonempty value) then credential_unavailable (rf_configuration_ref ref) else Ok value
|}.

(** What a path names: [is_symlink], [is_file] and [read_text]. *)
Inductive PathEntry := NoFile | Symlink | Unreadable | TextFile (content : string).

Definition read_credential_file (entry : string -> PathEntry) (path configuration_ref : string) : result string :=
  if negb (nonempty path) then credential_unavailable configuration_ref else
  match entry path with
  | TextFile content =>
      let value := strip content in
      if negb (nonempty value) then credential_unavailable configuration_ref else Ok value
  | _ => credential_unavailable configuration_ref
  end.

Definition EnvironmentOrFileCredentialResolver (environ : string -> option string) (entry : string -> PathEntry)
    (file_by_environment_variable : list (string * string)) : CredentialResolver := {|
  resolve ref :=
    let value := default "" (environ (rf_environment_variable ref)) in
    if nonempty value then Ok value else
    let file_path := default "" (assoc (rf_environment_variable ref) file_by_environment_variable) in
    if nonempty file_path then read_credential_file entry file_path (rf_configuration_ref ref)
    else credential_unavailable (rf_configuration_ref ref)
|}.

(** ** HTTP *)

Record HttpRequest := mkHttpRequest {
  hq_method : string;
  hq_url : string;
  hq_params : list (string * string);
  hq_headers : list (string * string);
  hq_json : option pyval;
  hq_form : list (string * string);
  hq_content : option string;
}.

(** The body of a response is JSON, or decoding it raises a [ValueError] of the class
    named. *)
Inductive ResponseBody := NotJson (name : string) | Json (v : pyval).
Record Response := mkResponse {
  rs_status_code : Z;
  rs_headers : list (string * string);
  rs_body : ResponseBody;
}.

(** A request is answered, or the client raises the [httpx.HTTPError] named. *)
Inductive Delivery := Lost (name : string) | Delivered (r : Response).

Class HttpService (P : Type) := { http : P -> HttpRequest -> Delivery * P }.

Definition raise_for_status (r : Response) : result unit :=
  guard (negb ((200 <=? rs_status_code r) && (rs_status_code r <? 300))) (HttpxError "HTTPStatusError") "unsuccessful status".

Definition response_json (r : Response) : result pyval :=
  match rs_body r with Json v => Ok v | NotJson name => raise (DecodeError name) "the body is not JSON" end.

(** [except (httpx.HTTPError, ValueError)] *)
Definition http_or_value_error (e : exn) : bool :=
  match exn_cls e with HttpxError _ | DecodeError _ | ValueError => true | _ => false end.

Section wire.
Context {P : Type} `{HttpService P}.

Record Wire := mkWire {
  wr_service : P;
  wr_drawn : nat;               (* fresh identifiers drawn so far *)
  wr_sent : list (HttpRequest * Delivery);   (* every request, with what came of it *)
}.

Definition send (q : HttpRequest) : M Wire Response := fun w =>
  let '(d, p) := http (wr_service w) q in
  let w' := mkWire p (wr_drawn w) (wr_sent w ++ [(q, d)]) in
  match d with
  | Lost name => (raise (HttpxError name) "the request was lost", w')
  | Delivered r => (Ok r, w')
  end.

(** [str(uuid4())] *)
Definition draw (fresh : nat -> uuid) : M Wire string := fun w =>
  (Ok (uuid_str (fresh (wr_drawn w))), mkWire (wr_service w) (S (wr_drawn w)) (wr_sent w)).
End wire.
Arguments Wire P : clear implicits.

(** [try: m  except ...: ...] with handlers that do not call out; an exception no
    handler catches is raised again. *)
Definition rescue {S A} (m : M S A) (handler : exn -> result A) : M S A := fun s =>
  match m s with
  | (Err e, s') => (handler e, s')
  | r => r
  end.

(** ** Conversions *)

(** [v[k]] of a parsed JSON value, for a text [k]. *)
Definition item_at (v : pyval) (k : string) : result pyval :=
  match v with
  | VDict d => match assoc k d with Some x => Ok x | None => raise KeyError k end
  | _ => raise TypeError "indices must be integers or slices"
  end.

(** [v.get(k)] and [v.get(k, default)] *)
Definition get_or (v : pyval) (k : string) (default_ : pyval) : result pyval :=
  match v with VDict d => Ok (default default_ (assoc k d)) | _ => raise AttributeError "get" end.

(** [dict literal]: a repeated key keeps its first place and its last value. *)
Definition dict_of (l : pydict) : pydict := fold_left (fun d kv => dict_set d (fst kv) (snd kv)) l [].

(** [rows if isinstance(rows, list) else []] *)
Definition as_rows (v : pyval) : list pyval := match v with VList l => l | _ => [] end.

(** [isinstance(v, int) and v > 0] *)
Definition positive_int (v : pyval) : bool :=
  match v with VInt z => 0 <? z | VBool b => b | _ => false end.

(** [str.isdigit]: the decimal digits and the three superscripts below 256. *)
Definition isdigit_char (c : ascii) : bool :=
  let n := nat_of_ascii c in
  (Nat.leb 48 n && Nat.leb n 57) || Nat.eqb n 178 || Nat.eqb n 179 || Nat.eqb n 185.
Definition isdigit (s : string) : bool :=
  match String.list_ascii_of_string s with [] => false | l => forallb isdigit_char l end.

Definition decimal_digit (c : ascii) : option Z :=
  let n := nat_of_ascii c in
  if Nat.leb 48 n && Nat.leb n 57 then Some (Z.of_nat n - 48) else None.

(** The digits of [int(text)]: single underscores may separate them. *)
Fixpoint int_digits (acc : Z) (after_digit : bool) (l : list ascii) : option Z :=
  match l with
  | [] => if after_digit then Some acc else None
  | c :: r =>
      match decimal_digit c with
      | Some d => int_digits (10 * acc + d) true r
      | None => if after_digit && Ascii.eqb c "_"%char && negb (is_nil r) then int_digits acc false r else None
      end
  end.

Definition int_of_text (s : string) : option Z :=
  match String.list_ascii_of_string (strip s) with
  | "-"%char :: l => Z.opp <$> int_digits 0 false l
  | "+"%char :: l => int_digits 0 false l
  | l => int_digits 0 false l
  end.

(** [int(v)] *)
Definition py_int (v : pyval) : result Z :=
  match v with
  | VInt z => Ok z
  | VBool b => Ok (if b then 1 else 0)
  | VFloat m e => Ok (if 0 <=? e then m * 2 ^ e else Z.quot m (2 ^ (- e)))
  | VStr s => match int_of_text s with Some z => Ok z | None => raise ValueError "invalid literal for int() with base 10" end
  | _ => raise TypeError "int() argument must be a string, a bytes-like object or a real number"
  end.

(** [value[len(prefix):]] of a text that starts with the prefix and goes on with digits. *)
Definition digits_after (prefix value : string) : option string :=
  match after_prefix prefix value with
  | Some rest => if isdigit rest then Some rest else None
  | None => None
  end.
