(* ===== verification/OdooConnector.v ===== *)
(** * The Odoo writers and verifiers, [integrations/odoo_effects.py]

    Odoo is reached by JSON-RPC: every call authenticates and then executes one method
    of one model.  The writers look a durable request identity up before they write;
    a lost answer is reported as unknown and left to [reconcile]. *)

From stdpp Require Import base gmap strings list.
From Stdlib Require Import ZArith Ascii Lia.
From S2P Require Import Prelude Python Access Machine Artifacts Connectors.

Open Scope Z_scope.
Open Scope orch_scope.
Open Scope machine_scope.

Record OdooEffectConnection := mkOdooEffectConnection {
  oc_base_url : string;
  oc_database : string;
  oc_username : string;
  oc_credential : CredentialRef;
  oc_request_ref_field : string;
  oc_deactivate_request_ref_field : string;
  oc_subject_ref_field : string;
  oc_transaction_request_ref_field : string;
  oc_transaction_confirm_request_ref_field : string;
  oc_transaction_subject_ref_field : string;
  oc_transaction_payload_field : string;
  oc_allow_insecure_http : bool;
}.

(** [__post_init__] *)
Definition OdooEffectConnection_validate `{UrlLibrary} (c : OdooEffectConnection) : result OdooEffectConnection :=
  let! _ := validate_base_url (oc_base_url c) (oc_allow_insecure_http c) in
  refuse negb (nonempty (strip (oc_database c))) || negb (nonempty (strip (oc_username c)))
    with ConnectorConfigurationError saying "Odoo database and username are required";;
  refuse negb (forallb (String.prefix "x_")
                 [oc_request_ref_field c; oc_deactivate_request_ref_field c; oc_subject_ref_field c;
                  oc_transaction_request_ref_field c; oc_transaction_confirm_request_ref_field c;
                  oc_transaction_subject_ref_field c; oc_transaction_payload_field c])
    with ConnectorConfigurationError saying "Odoo integration identity fields must be custom x_ fields";;
  Ok c.

(** ** References *)

(** [_odoo_numeric_ref]: a number (a boolean is one), [odoo:<model>:<digits>] or digits. *)
Definition odoo_numeric_ref (value : pyval) (model : string) : result (option pyval) :=
  match value with
  | VInt _ | VBool _ => Ok (Some value)
  | VStr s =>
      match digits_after ("odoo:" +:+ model +:+ ":") s with
      | Some rest => let! z := py_int (VStr rest) in Ok (Some (VInt z))
      | None => if isdigit s then let! z := py_int (VStr s) in Ok (Some (VInt z)) else Ok None
      end
  | _ => Ok None
  end.

Definition required_odoo_numeric_ref (value : pyval) (model : string) : result pyval :=
  let! numeric := odoo_numeric_ref value model in
  match numeric with
  | Some v => Ok v
  | None => raise ApplicationRejected ("an exact " +:+ model +:+ " reference is required")
  end.

(** [_many2one_id] *)
Definition many2one_id (value : pyval) : option pyval :=
  match value with
  | VList ((VInt _ | VBool _) as x :: _) => Some x
  | VInt _ | VBool _ => Some value
  | _ => None
  end.

(** ** JSON-RPC *)

Definition rpc_payload (id service method : string) (args : list pyval) : pyval :=
  VDict [("jsonrpc", VStr "2.0"); ("method", VStr "call");
         ("params", VDict [("service", VStr service); ("method", VStr method); ("args", VList args)]);
         ("id", VStr id)].

Definition rpc_request (base_url id service method : string) (args : list pyval) : HttpRequest :=
  mkHttpRequest "POST" (rstrip_slash base_url +:+ "/jsonrpc") [] [] (Some (rpc_payload id service method args)) [] None.

Definition texts (l : list string) : pyval := VList (VStr <$> l).

(** [[(field, "=", value)]], as JSON carries it *)
Definition equals (conditions : list (string * pyval)) : pyval :=
  VList [VList ((fun fv => VList [VStr (fst fv); VStr "="; snd fv]) <$> conditions)].
Definition search_options (fields : list string) : pyval := VDict [("fields", texts fields); ("limit", VInt 2)].

Section odoo.
Context `{Platform} `{CredentialResolver} {P : Type} `{HttpService P} (fresh : nat -> uuid) (c : OdooEffectConnection).

(** [response.raise_for_status(); raw = response.json()] under the [except] clause. *)
Definition odoo_exchange (service method : string) (args : list pyval) : M (Wire P) pyval :=
  do! id := draw fresh in
  rescue
    (do! r := send (rpc_request (oc_base_url c) id service method args) in
     also! lift (raise_for_status r) then lift (response_json r))
    (fun e => if http_or_value_error e
              then raise (TransportUnknown (Some (cause_name e))) "Odoo transport/result is ambiguous" else Err e).

(** [_rpc] *)
Definition odoo_rpc (service method : string) (args : list pyval) : M (Wire P) pyval :=
  do! raw := odoo_exchange service method args in
  lift match raw with
       | VDict d =>
           match dict_get d "error" with
           | VNone => Ok (dict_get d "result")
           | _ => raise ApplicationRejected "Odoo JSON-RPC rejected the operation"
           end
       | _ => raise ApplicationRejected "Odoo returned a non-object JSON-RPC response"
       end.

(** [_execute_kw] *)
Definition execute_kw (model method : string) (args : list pyval) (kwargs : pyval) : M (Wire P) pyval :=
  do! secret := lift (resolve (oc_credential c)) in
  do! uid := odoo_rpc "common" "authenticate" [VStr (oc_database c); VStr (oc_username c); VStr secret; VDict []] in
  if negb (positive_int uid) then throw ApplicationRejected "Odoo connector authentication rejected" else
  odoo_rpc "object" "execute_kw"
    [VStr (oc_database c); uid; VStr secret; VStr model; VStr method; VList args; kwargs].

(** [_search] *)
Definition odoo_search (model field value : string) (fields : list string) : M (Wire P) (list pyval) :=
  do! rows := execute_kw model "search_read" (as_rows (equals [(field, VStr value)])) (search_options fields) in
  ret (as_rows rows).

(** [_lookup] *)
Definition odoo_lookup (field value : string) : M (Wire P) (list pyval) :=
  odoo_search "hr.employee" field value ["id"; field].

Definition odoo_ref (model : string) (id : pyval) : string := "odoo:" +:+ model +:+ ":" +:+ py_str id.

(** The rows found under an identity: none, one that is taken for the effect, or a
    conflict. *)
Definition settled_by (model : string) (of_id : pyval -> result pyval) (code message : string) (reconciled : bool)
    (rows : list pyval) : result (option ConnectorResult) :=
  match rows with
  | [] => Ok None
  | [row] =>
      let! id := item_at row "id" in
      let! id := of_id id in
      Ok (Some (connector_succeeded (Some (odoo_ref model id)) true))
  | _ => Ok (Some (connector_failed code message reconciled))
  end.

Definition as_is (id : pyval) : result pyval := Ok id.
Definition as_int (id : pyval) : result pyval := let! z := py_int id in Ok (VInt z).

(** The [except] clauses of the writers. *)
Definition odoo_failure (reconciled : bool) (e : exn) : result ConnectorResult :=
  if is_transport_unknown e then Ok (unknown_result e reconciled) else
  if is_application_rejected e then Ok (connector_failed "OdooApplicationRejected" (exn_msg e) reconciled) else
  Err e.

(** Goes on when no row settles the effect. *)
Definition unless_settled {A} (r : result (option A)) (k : M (Wire P) A) : M (Wire P) A :=
  do! done_ := lift r in
  match done_ with Some a => ret a | None => k end.

(** ** [OdooEmployeeEffectConnector] *)

Definition set_present (values : pydict) (field : string) (v : option pyval) : pydict :=
  match v with Some x => dict_set values field x | None => values end.

Definition employee_values (request_ref subject_ref : string) (parameters : pydict) : result pydict :=
  let p := dict_get parameters in
  let values := dict_of
    [(oc_request_ref_field c, VStr request_ref); (oc_subject_ref_field c, VStr subject_ref);
     ("name", VStr (py_str (py_or (py_or (p "name") (p "employee_ref")) (VStr subject_ref))));
     ("active", VBool true)] in
  let values := if truthy (p "work_email") then dict_set values "work_email" (p "work_email") else values in
  let! department_id := odoo_numeric_ref (p "department_ref") "hr.department" in
  let values := set_present values "department_id" department_id in
  let! manager_id := odoo_numeric_ref (p "manager_ref") "hr.employee" in
  let values := set_present values "parent_id" manager_id in
  Ok (fold_left (fun values kf => match p (fst kf) with VNone => values | v => dict_set values (snd kf) v end)
        [("manager_principal_id", "x_administrative_manager_principal_id");
         ("employment_type", "x_administrative_employment_type");
         ("start_date", "x_administrative_start_date")] values).

(** The answer to a [create]. *)
Definition created_as (model subject : string) (id : pyval) : ConnectorResult :=
  if positive_int id then connector_succeeded (Some (odoo_ref model id)) false
  else connector_failed "InvalidOdooCreateResult" ("Odoo did not return a valid " +:+ subject +:+ " id") false.

Definition employee_invoke (request_ref subject_ref : string) (parameters : pydict) : M (Wire P) ConnectorResult :=
  rescue
    (do! existing := odoo_lookup (oc_request_ref_field c) request_ref in
     unless_settled (settled_by "hr.employee" as_is "DuplicateExternalRequestIdentity"
                       "multiple Odoo employees share the same request_ref" false existing)
    (do! by_subject := odoo_lookup (oc_subject_ref_field c) subject_ref in
     unless_settled (settled_by "hr.employee" as_is "DuplicateExternalSubjectIdentity"
                       "multiple Odoo employees share the same subject_ref" false by_subject)
    (do! values := lift (employee_values request_ref subject_ref parameters) in
     do! employee_id := execute_kw "hr.employee" "create" [VDict values] (VDict []) in
     ret (created_as "hr.employee" "employee" employee_id))))
    (odoo_failure false).

(** [settled_by] for a reconciliation, which says so in its failures. *)
Definition employee_reconcile (request_ref : string) : M (Wire P) (option ConnectorResult) :=
  rescue
    (do! rows := odoo_lookup (oc_request_ref_field c) request_ref in
     lift (settled_by "hr.employee" as_is "DuplicateExternalRequestIdentity"
             "reconciliation found multiple Odoo employee operations" true rows))
    (fun e => let! r := odoo_failure true e in Ok (Some r)).

(** ** [OdooEmployeeVerifier] *)

Definition verification_failure (e : exn) : result ConnectorResult :=
  if is_transport_unknown e then Ok (unavailable_result e) else
  if is_application_rejected e then Ok (connector_unavailable "OdooVerificationRejected" (exn_msg e)) else Err e.

(** [row.get(field) or None] *)
Definition or_none (row : pyval) (field : string) : result pyval :=
  let! v := get_or row field VNone in Ok (py_or v VNone).

Definition employee_payload_value (subject_ref : string) (row : pyval) (kv : string * pyval) : result pyval :=
  let '(key, expected) := kv in
  if String.eqb key "employee_ref" then Ok (VStr subject_ref) else
  if String.eqb key "department_ref" then
    let! department := get_or row "department_id" VNone in
    Ok (match many2one_id department with Some dep => VStr (odoo_ref "hr.department" dep) | None => VNone end) else
  if String.eqb key "manager_principal_id" then or_none row "x_administrative_manager_principal_id" else
  if String.eqb key "employment_type" then or_none row "x_administrative_employment_type" else
  if String.eqb key "start_date" then or_none row "x_administrative_start_date" else
  Ok expected.

(** [{key: f(key) for key in payload}] in the order of the payload *)
Fixpoint payload_of (f : string * pyval -> result pyval) (expected : pydict) : result pydict :=
  match expected with
  | [] => Ok []
  | kv :: rest =>
      let! v := f kv in
      let! more := payload_of f rest in
      Ok ((fst kv, v) :: more)
  end.

Definition expected_payload (expected_postcondition : pydict) : pydict :=
  match dict_get expected_postcondition "payload" with VDict d => d | _ => [] end.

Definition employee_state (subject_ref : string) (expected_postcondition : pydict) (row : pyval) : result pydict :=
  let! payload := payload_of (employee_payload_value subject_ref row) (expected_payload expected_postcondition) in
  let! active := get_or row "active" (VBool false) in
  Ok [("target_system", VStr "hris"); ("operation", VStr "employee.create"); ("subject_ref", VStr subject_ref);
      ("active", VBool (truthy active)); ("payload", VDict payload)].

Definition employee_observe (subject_ref : string) (expected_postcondition : pydict) : M (Wire P) ConnectorResult :=
  rescue
    (do! rows := odoo_lookup (oc_subject_ref_field c) subject_ref in
     match rows with
     | [found] =>
         do! employee_id := lift (item_at found "id") in
         do! full := execute_kw "hr.employee" "read" [VList [employee_id]]
           (VDict [("fields", texts ["id"; "department_id"; "parent_id"; "work_email"; "active";
                                     "x_administrative_manager_principal_id"; "x_administrative_employment_type";
                                     "x_administrative_start_date"; oc_subject_ref_field c])]) in
         let row := match as_rows full with row :: _ => row | [] => VDict [] end in
         do! observed := lift (employee_state subject_ref expected_postcondition row) in
         ret (connector_observed None observed)
     | _ => ret (connector_observed None [])
     end)
    verification_failure.

(** ** [OdooFinancialEffectConnector] *)

Class JsonLibrary := { (** [json.loads], [None] standing for its [ValueError] *) json_loads : string -> option pyval }.

(** [_MODELS] *)
Definition financial_model (operation : string) : option string :=
  assoc operation [("purchase_order.create_draft", "purchase.order"); ("vendor_bill.create_draft", "account.move");
                   ("expense_report.create", "hr.expense")].

(** [find_existing_vendor_bills] *)
Definition find_existing_vendor_bills (vendor_ref invoice_number : string) : M (Wire P) (list pyval) :=
  do! vendor_id := lift (odoo_numeric_ref (VStr vendor_ref) "res.partner") in
  match vendor_id with
  | Some vendor =>
      if negb (nonempty (strip invoice_number)) then ret [] else
      do! rows := execute_kw "account.move" "search_read"
        (as_rows (equals [("move_type", VStr "in_invoice"); ("partner_id", vendor); ("ref", VStr invoice_number)]))
        (search_options ["id"; "ref"; "partner_id"; oc_transaction_request_ref_field c; oc_transaction_subject_ref_field c]) in
      ret (as_rows rows)
  | None => ret []
  end.

(** [d.pop(k, None)] *)
Definition dict_pop (d : pydict) (k : string) : pydict := List.filter (fun kv => negb (String.eqb (fst kv) k)) d.

(** The amount of an expense: the field of a money object, or the value itself. *)
Definition expense_amount (parameters : pydict) : pyval :=
  match dict_get parameters "amount" with
  | VDict money => default (VStr "0") (assoc "amount" money)
  | _ => default (VStr "0") (assoc "amount" parameters)
  end.

(** [_create_values] *)
Definition create_values (operation request_ref subject_ref : string) (parameters : pydict) : result pydict :=
  let p := dict_get parameters in
  let values := dict_of
    [(oc_transaction_request_ref_field c, VStr request_ref); (oc_transaction_subject_ref_field c, VStr subject_ref);
     (oc_transaction_payload_field c, VStr (json_dumps (VDict (dict_pop parameters "subject_ref"))))] in
  let update := fold_left (fun d kv => dict_set d (fst kv) (snd kv)) in
  if String.eqb operation "purchase_order.create_draft" then
    let! partner := required_odoo_numeric_ref (py_or (p "vendor_ref") (p "candidate_vendor")) "res.partner" in
    Ok (update [("partner_id", partner); ("date_order", p "needed_by");
                ("origin", VStr (py_str (py_or (p "quote_ref") (VStr request_ref))))] values)
  else if String.eqb operation "vendor_bill.create_draft" then
    let! partner := required_odoo_numeric_ref (py_or (p "vendor_ref") (p "vendor_tax_id")) "res.partner" in
    Ok (update [("move_type", VStr "in_invoice"); ("partner_id", partner);
                ("ref", py_or (p "invoice_number") (VStr request_ref)); ("invoice_date", p "invoice_date")] values)
  else if String.eqb operation "expense_report.create" then
    let! employee := required_odoo_numeric_ref (p "employee_ref") "hr.employee" in
    Ok (update [("name", VStr (py_str (py_or (p "business_purpose") (VStr subject_ref)))); ("employee_id", employee);
                ("date", p "expense_date"); ("quantity", VInt 1);
                ("total_amount", VStr (py_str (expense_amount parameters)))] values)
  else raise ApplicationRejected "unsupported Odoo financial create operation".

(** [_success] *)
Definition odoo_success (model : string) (external_id : pyval) (reconciled : bool) : ConnectorResult :=
  connector_succeeded (Some (odoo_ref model external_id)) reconciled.

(** [v in {...}]: testing an unhashable value raises. *)
Definition in_text_set (v : pyval) (allowed : list string) : result bool :=
  refuse negb (hashable v) with TypeError saying "unhashable type";;
  Ok (match v with VStr s => bool_decide (s ∈ allowed) | _ => false end).

(** [_confirm_purchase_order]: the marker is written before the order is confirmed. *)
Definition confirmable (order_id row : pyval) (request_ref : string) : M (Wire P) ConnectorResult :=
  match row with
  | VDict fields =>
      let model := "purchase.order" in
      do! confirmed := lift (in_text_set (dict_get fields "state") ["purchase"; "done"]) in
      if confirmed : bool then ret (odoo_success model order_id true) else
      do! written := execute_kw model "write"
        [VList [order_id]; VDict [(oc_transaction_confirm_request_ref_field c, VStr request_ref)]] (VDict []) in
      match written with
      | VBool true =>
          do! result := execute_kw model "button_confirm" [VList [order_id]] (VDict []) in
          ret match result with
              | VBool true => odoo_success model order_id false
              | _ => connector_failed "PurchaseOrderConfirmRejected" "Odoo did not confirm the purchase order" false
              end
      | _ => ret (connector_failed "PurchaseOrderConfirmMarkerRejected"
                    "Odoo did not accept the purchase order confirmation marker" false)
      end
  | _ => ret (connector_failed "PurchaseOrderNotFound" "the exact purchase order draft was not found" false)
  end.

Definition confirm_purchase_order (request_ref : string) (parameters : pydict) : M (Wire P) ConnectorResult :=
  let confirm_field := oc_transaction_confirm_request_ref_field c in
  rescue
    (do! existing := odoo_search "purchase.order" confirm_field request_ref ["id"] in
     match existing with
     | _ :: _ :: _ => ret (connector_failed "DuplicateExternalRequestIdentity"
                             "multiple purchase orders share the confirm identity" false)
     | _ =>
         do! order_id := lift match existing with
                              | row :: _ => let! id := item_at row "id" in let! z := py_int id in Ok (Some (VInt z))
                              | [] => odoo_numeric_ref (py_or (dict_get parameters "purchase_order_ref") (dict_get parameters "draft_ref"))
                                        "purchase.order"
                              end in
         match order_id with
         | None => ret (connector_failed "MissingPurchaseOrderReference"
                          "purchase order confirmation requires an exact draft reference" false)
         | Some order_id =>
             do! rows := execute_kw "purchase.order" "read" [VList [order_id]]
               (VDict [("fields", texts ["id"; "state"; confirm_field])]) in
             confirmable order_id (match as_rows rows with [row] => row | _ => VNone end) request_ref
         end
     end)
    (odoo_failure false).

(** [if operation == "vendor_bill.create_draft": ...] *)
Definition check_vendor_bill (operation : string) (parameters : pydict) : M (Wire P) (option ConnectorResult) :=
  if String.eqb operation "vendor_bill.create_draft" then
    do! duplicates := find_existing_vendor_bills (py_str (py_or (dict_get parameters "vendor_ref") (VStr "")))
                        (py_str (py_or (dict_get parameters "invoice_number") (VStr ""))) in
    ret (if is_nil duplicates then None
         else Some (connector_failed "DuplicateExternalInvoiceIdentity"
                      "the vendor and invoice identity already exists in Odoo" false))
  else ret None.

Definition check_subject (operation model subject_ref : string) : M (Wire P) (option ConnectorResult) :=
  if String.eqb operation "expense_report.create" then ret None else
  do! by_subject := odoo_search model (oc_transaction_subject_ref_field c) subject_ref
                      ["id"; oc_transaction_request_ref_field c] in
  lift (settled_by model as_int "DuplicateExternalSubjectIdentity"
          "multiple Odoo transaction records share the subject identity" false by_subject).

(** [invoke] of one of the three drafts. *)
Definition draft_invoke (model operation request_ref subject_ref : string) (parameters : pydict) : M (Wire P) ConnectorResult :=
  let request_field := oc_transaction_request_ref_field c in
  rescue
    (do! existing := odoo_search model request_field request_ref ["id"; request_field] in
     unless_settled (settled_by model as_int "DuplicateExternalRequestIdentity"
                       "multiple Odoo transaction records share the request identity" false existing)
    (do! by_subject := check_subject operation model subject_ref in
     unless_settled (Ok by_subject)
    (do! duplicate := check_vendor_bill operation parameters in
     unless_settled (Ok duplicate)
    (do! values := lift (create_values operation request_ref subject_ref parameters) in
     do! external_id := execute_kw model "create" [VDict values] (VDict []) in
     ret (created_as model "transaction" external_id)))))
    (odoo_failure false).

Definition financial_invoke (request_ref subject_ref : string) (parameters : pydict) (operation : string)
  : M (Wire P) ConnectorResult :=
  match financial_model operation with
  | Some model => draft_invoke model operation request_ref subject_ref parameters
  | None =>
      if String.eqb operation "purchase_order.confirm" then confirm_purchase_order request_ref parameters
      else ret (connector_failed "UnsupportedFinancialOperation"
                  "the Odoo financial connector does not support this operation" false)
  end.

Definition financial_reconcile (request_ref operation : string) : M (Wire P) (option ConnectorResult) :=
  match financial_model operation with
  | None => ret None
  | Some model =>
      let identity_field := if String.eqb operation "purchase_order.confirm"
        then oc_transaction_confirm_request_ref_field c else oc_transaction_request_ref_field c in
      rescue
        (do! rows := odoo_search model identity_field request_ref ["id"; identity_field] in
         lift (settled_by model as_int "DuplicateExternalRequestIdentity"
                 "reconciliation found multiple Odoo transaction records" true rows))
        (fun e => let! r := odoo_failure true e in Ok (Some r))
  end.

(** ** [OdooFinancialVerifier] *)

Section verifier.
Context `{JsonLibrary}.

(** [_payload_from_row] *)
Definition payload_from_row (row : pyval) : result (option pydict) :=
  let! raw_payload := get_or row (oc_transaction_payload_field c) VNone in
  Ok match raw_payload with
     | VStr text => if nonempty text then match json_loads text with Some (VDict d) => Some d | _ => None end else None
     | _ => None
     end.

(** [[row for row in rows if self._payload_from_row(row) == expected_payload]] *)
Fixpoint rows_paying (expected : pydict) (rows : list pyval) : result (list pyval) :=
  match rows with
  | [] => Ok []
  | row :: rest =>
      let! payload := payload_from_row row in
      let! more := rows_paying expected rest in
      Ok (if match payload with Some d => py_eq (VDict d) (VDict expected) | None => false end then row :: more else more)
  end.

Definition observed_rows (operation : string) (expected_postcondition : pydict) (rows : list pyval) : result (list pyval) :=
  if String.eqb operation "expense_report.create" then
    match dict_get expected_postcondition "payload" with
    | VDict expected => rows_paying expected rows
    | _ => Ok []
    end
  else Ok rows.

(** What is read back of one record, over what was expected of it. *)
Definition transaction_state (operation subject_ref : string) (expected_postcondition : pydict) (row : pyval)
  : result pydict :=
  let! raw_state := get_or row "state" VNone in
  let state := py_str (py_or raw_state (VStr "draft")) in
  let settlement := if bool_decide (state ∈ ["draft"; "purchase"; "posted"]) then "forbidden" else state in
  let observed := dict_set (dict_set expected_postcondition "subject_ref" (VStr subject_ref)) "settlement" (VStr settlement) in
  let! actual_payload := payload_from_row row in
  let observed := match actual_payload with
    | None => dict_set observed "payload" (VDict [])
    | Some d => if py_eq (VDict d) (dict_get expected_postcondition "payload") then observed
                else dict_set observed "payload" (VDict d)
    end in
  let confirms := String.eqb operation "purchase_order.confirm" in
  Ok (if if confirms then negb (bool_decide (state ∈ ["purchase"; "done"])) else negb (String.eqb state "draft")
      then dict_set observed "state" (VStr state) else observed).

Definition financial_observe (operation subject_ref : string) (expected_postcondition : pydict) : M (Wire P) ConnectorResult :=
  match (if String.eqb operation "purchase_order.confirm" then Some "purchase.order" else financial_model operation) with
  | None => ret (connector_unavailable "UnsupportedFinancialOperation" "financial readback operation is not configured")
  | Some model =>
      let field := oc_transaction_subject_ref_field c in
      rescue
        (do! rows := odoo_search model field subject_ref ["id"; "state"; field; oc_transaction_payload_field c] in
         do! rows := lift (observed_rows operation expected_postcondition rows) in
         match rows with
         | [row] =>
             do! observed := lift (transaction_state operation subject_ref expected_postcondition row) in
             do! id := lift (item_at row "id") in
             ret (connector_observed (Some (odoo_ref model id)) observed)
         | _ => ret (connector_observed None [])
         end)
        verification_failure
  end.
End verifier.

(** ** [OdooEmployeeDeactivateConnector] *)

(** [_read] *)
Definition read_employee_row (employee_id : pyval) : M (Wire P) pyval :=
  do! rows := execute_kw "hr.employee" "read" [VList [employee_id]]
    (VDict [("fields", texts ["id"; "active"; oc_deactivate_request_ref_field c])]) in
  ret (match as_rows rows with [row] => row | _ => VDict [] end).

Definition employee_id_of (d : pydict) (subject_ref : string) : result (option pyval) :=
  odoo_numeric_ref (VStr (py_str (py_or (dict_get d "employee_external_ref") (VStr subject_ref)))) "hr.employee".

Definition deactivate_row (request_ref : string) (employee_id row : pyval) : M (Wire P) ConnectorResult :=
  if negb (truthy row) then ret (connector_failed "OdooEmployeeNotFound" "the exact Odoo employee does not exist" false) else
  let request_field := oc_deactivate_request_ref_field c in
  do! raw := lift (get_or row request_field VNone) in
  let recorded := strip (py_str (py_or raw (VStr ""))) in
  if nonempty recorded && negb (String.eqb recorded request_ref)
  then ret (connector_failed "ConflictingExternalRequestIdentity"
              "Odoo employee records a different deactivate request" false) else
  do! active := lift (get_or row "active" (VBool true)) in
  if String.eqb recorded request_ref && negb (truthy active) then ret (odoo_success "hr.employee" employee_id true) else
  do! written := execute_kw "hr.employee" "write"
    [VList [employee_id]; VDict (dict_of [("active", VBool false); (request_field, VStr request_ref)])] (VDict []) in
  ret match written with
      | VBool true => odoo_success "hr.employee" employee_id false
      | _ => connector_failed "OdooDeactivateRejected" "Odoo did not confirm the employee update" false
      end.

Definition deactivate_invoke (request_ref subject_ref : string) (parameters : pydict) : M (Wire P) ConnectorResult :=
  do! employee_id := lift (employee_id_of parameters subject_ref) in
  match employee_id with
  | None => ret (connector_failed "InvalidOdooEmployeeReference" "employee deactivation requires odoo:hr.employee:<id>" false)
  | Some employee_id =>
      rescue (do! row := read_employee_row employee_id in deactivate_row request_ref employee_id row)
        (odoo_failure false)
  end.

Definition deactivate_reconcile (request_ref : string) : M (Wire P) (option ConnectorResult) :=
  rescue
    (do! rows := odoo_lookup (oc_deactivate_request_ref_field c) request_ref in
     match rows with
     | [] => ret None
     | [found] =>
         do! id := lift (item_at found "id") in
         do! z := lift (py_int id) in
         do! row := read_employee_row (VInt z) in
         if negb (truthy row) then ret (Some (mkConnectorResult CS_UNKNOWN (Some (odoo_ref "hr.employee" (VInt z))) None
                (Some "OdooDeactivateNotObserved")
                (Some "request identity exists but inactive state is not observed") true)) else
         do! active := lift (get_or row "active" (VBool true)) in
         ret (Some (if negb (truthy active) then odoo_success "hr.employee" (VInt z) true
                    else mkConnectorResult CS_UNKNOWN (Some (odoo_ref "hr.employee" (VInt z))) None
                           (Some "OdooDeactivateNotObserved")
                           (Some "request identity exists but inactive state is not observed") true))
     | _ => ret (Some (connector_failed "DuplicateExternalRequestIdentity"
                         "multiple Odoo employees share the deactivate request_ref" true))
     end)
    (fun e => let! r := odoo_failure true e in Ok (Some r)).

(** [OdooEmployeeDeactivateVerifier.observe] *)
Definition deactivate_observe (subject_ref : string) (expected_postcondition : pydict) : M (Wire P) ConnectorResult :=
  do! employee_id := lift (employee_id_of expected_postcondition subject_ref) in
  match employee_id with
  | None => ret (connector_observed None [])
  | Some employee_id =>
      rescue
        (do! row := read_employee_row employee_id in
         if negb (truthy row) then ret (connector_observed None []) else
         do! active := lift (get_or row "active" (VBool true)) in
         ret (connector_observed None
                [("target_system", VStr "hris"); ("operation", VStr "employee.deactivate");
                 ("subject_ref", VStr subject_ref); ("active", VBool (truthy active))]))
        (fun e => if is_transport_unknown e || is_application_rejected e then Ok (unavailable_result e) else Err e)
  end.
End odoo.
