(* ===== verification/OdooSource.v ===== *)
(** * The human-resources source, [integrations/odoo.py]

    The read-only adapter behind [read_employee] of the fact acquisition.  The source
    object remembers which optional models and fields this Odoo has; [SourceWire] is
    the wire with that memory. *)

From stdpp Require Import base gmap strings list.
From Stdlib Require Import ZArith Ascii Lia.
From S2P Require Import Prelude Python Access Machine Artifacts Domain FactAcquisition Connectors OdooConnector.

Open Scope Z_scope.
Open Scope orch_scope.
Open Scope machine_scope.

Record OdooHRFactSource := mkOdooHRFactSource {
  hs_base_url : string;
  hs_database : string;
  hs_username : string;
  hs_reader_credential : CredentialRef;
  hs_allow_insecure_http : bool;
  hs_termination_status_field : string;
  hs_termination_effective_at_field : string;
  hs_employment_episode_field : string;
  hs_principal_id_field : string;
}.

(** [OdooConnection.__post_init__] *)
Definition OdooConnection_validate `{UrlLibrary} (h : OdooHRFactSource) : result OdooHRFactSource :=
  let '(scheme, hostname) := urlparse (hs_base_url h) in
  let allowed := if hs_allow_insecure_http h then ["http"; "https"] else ["https"] in
  refuse negb (bool_decide (scheme ∈ allowed)) || negb (nonempty (default "" hostname))
    with ValueError saying "Odoo base_url is not permitted";;
  refuse negb (nonempty (strip (hs_database h))) || negb (nonempty (strip (hs_username h)))
    with ValueError saying "Odoo database and reader username are required";;
  Ok h.

(** ** Values *)

(** [_numeric_id] *)
Definition numeric_id (ref expected_model : string) : result Z :=
  let value := strip ref in
  if isdigit value then py_int (VStr value) else
  match digits_after ("odoo:" +:+ expected_model +:+ ":") value with
  | Some rest => py_int (VStr rest)
  | None => raise OdooSourceError ("invalid Odoo " +:+ expected_model +:+ " reference")
  end.

(** [_many2one_id], which unlike the connector's takes no boolean for an id *)
Definition source_many2one_id (value : pyval) : option Z :=
  match value with
  | VList (VInt z :: _) => Some z
  | VInt z => Some z
  | _ => None
  end.

(** [_many2one_name] *)
Definition many2one_name (value : pyval) : pyval :=
  match value with
  | VList (_ :: VStr name :: _) => VStr name
  | VStr name => VStr name
  | _ => VNone
  end.

(** [f"odoo:{model}:{id}" if id is not None else None] *)
Definition record_ref (model : string) (id : option Z) : pyval :=
  match id with Some z => VStr ("odoo:" +:+ model +:+ ":" +:+ int_str z) | None => VNone end.

(** [rows[0]] of a value that is not falsy (so not the empty list) *)
Definition first_of (rows : pyval) : result pyval :=
  match rows with
  | VList (row :: _) => Ok row
  | VList [] => raise AttributeError "list index out of range"
  | VStr (String.String ch _) => Ok (VStr (String.String ch ""))
  | VDict _ => raise KeyError "0"
  | _ => raise TypeError "object is not subscriptable"
  end.

(** [needle in text] *)
Fixpoint contains (needle text : string) : bool :=
  String.prefix needle text || match text with String.String _ rest => contains needle rest | EmptyString => false end.

Section odoo_source.
Context `{Platform} `{CredentialResolver} {P : Type} `{HttpService P} (fresh : nat -> uuid) (h : OdooHRFactSource).

Record SourceWire := mkSourceWire {
  sw_wire : Wire P;
  sw_available_models : list (string * bool);
  sw_available_fields : list (string * list string);
}.

Definition on_wire {A} (m : M (Wire P) A) : M SourceWire A := fun s =>
  let '(r, w) := m (sw_wire s) in (r, mkSourceWire w (sw_available_models s) (sw_available_fields s)).
Definition remember_model (model : string) (available : bool) : M SourceWire unit := fun s =>
  (Ok tt, mkSourceWire (sw_wire s) (dict_set (sw_available_models s) model available) (sw_available_fields s)).
Definition remember_fields (model : string) (fields : list string) : M SourceWire unit := fun s =>
  (Ok tt, mkSourceWire (sw_wire s) (sw_available_models s) (dict_set (sw_available_fields s) model fields)).

(** The detail Odoo gives of an application error, when it gives one. *)
Definition rpc_error_detail (error : pyval) : string :=
  match error with
  | VDict e =>
      let detail := match dict_get e "data" with VDict data => py_str (py_or (dict_get data "message") (VStr "")) | _ => "" end in
      if nonempty detail then detail else py_str (py_or (dict_get e "message") (VStr ""))
  | _ => ""
  end.

(** [_rpc] *)
Definition source_rpc (service method : string) (args : list pyval) : M (Wire P) pyval :=
  do! id := draw fresh in
  do! raw := rescue
    (do! r := send (rpc_request (hs_base_url h) id service method args) in
     also! lift (raise_for_status r) then lift (response_json r))
    (fun e => if http_or_value_error e then raise OdooSourceError "Odoo authoritative read failed" else Err e) in
  lift match raw with
       | VDict d =>
           match dict_get d "error" with
           | VNone => Ok (dict_get d "result")
           | error =>
               let detail := rpc_error_detail error in
               raise OdooSourceError ("Odoo JSON-RPC returned an application error" +:+
                                      (if nonempty detail then ": " +:+ detail else ""))
           end
       | _ => raise OdooSourceError "Odoo JSON-RPC response is invalid"
       end.

(** [_execute_kw] *)
Definition source_execute_kw (model method : string) (args : list pyval) (kwargs : pyval) : M (Wire P) pyval :=
  do! secret := lift (resolve (hs_reader_credential h)) in
  do! uid := source_rpc "common" "authenticate" [VStr (hs_database h); VStr (hs_username h); VStr secret; VDict []] in
  if negb (positive_int uid) then throw OdooSourceError "Odoo reader authentication failed" else
  source_rpc "object" "execute_kw" [VStr (hs_database h); uid; VStr secret; VStr model; VStr method; VList args; kwargs].

(** [_available_fields] *)
Definition available_fields (model : string) : M SourceWire (list string) :=
  do! cached := gets (fun s => assoc model (sw_available_fields s)) in
  match cached with
  | Some fields => ret fields
  | None =>
      do! result := on_wire (rescue (do! v := source_execute_kw model "fields_get" [VList []; texts ["string"]] (VDict []) in
                                      ret (Some v))
                       (fun e => if bool_decide (exn_cls e = OdooSourceError) then Ok None else Err e)) in
      let available := match result with Some (VDict d) => fst <$> d | _ => [] end in
      also! remember_fields model available then ret available
  end.

(** [_model_available]: only the message that the model does not exist says no. *)
Definition model_available (model : string) : M SourceWire bool :=
  do! cached := gets (fun s => assoc model (sw_available_models s)) in
  match cached with
  | Some available => ret available
  | None =>
      do! available := on_wire (rescue (do! _ := source_execute_kw model "search_count" [VList []] (VDict []) in ret true)
        (fun e => if bool_decide (exn_cls e = OdooSourceError) &&
                     (contains "doesn't exist" (lower (exn_msg e)) || contains "does not exist" (lower (exn_msg e)))
                  then Ok false else Err e)) in
      also! remember_model model available then ret available
  end.

(** [_latest_contract]: [rows[0] if rows else None] *)
Definition latest_contract (employee_id : Z) : M SourceWire pyval :=
  do! installed := model_available "hr.contract" in
  if negb installed then ret VNone else
  do! rows := on_wire (source_execute_kw "hr.contract" "search_read" (as_rows (equals [("employee_id", VInt employee_id)]))
    (VDict [("fields", texts ["id"; "date_start"; "state"; "contract_type_id"; "write_date"]);
            ("order", VStr "date_start desc,id desc"); ("limit", VInt 1)])) in
  if truthy rows then lift (first_of rows) else ret VNone.

(** [_absent] *)
Definition absent_record (model : string) (record_id : Z) (now : instant) : AuthoritativeRecord :=
  build_record "odoo" ("odoo:" +:+ model +:+ ":" +:+ int_str record_id) ("absent@" +:+ isoformat now)
    [("present", VBool false); ("record_id", VInt record_id); ("model", VStr model)] now FRESH_CURRENT.

(** [contract.get(field) if contract else None] *)
Definition contract_field (contract : pyval) (field : string) : result pyval :=
  if truthy contract then get_or contract field VNone else Ok VNone.

(** The optional fields of the employee this Odoo has, in order. *)
Fixpoint known_fields (names : list string) : M SourceWire (list string) :=
  match names with
  | [] => ret []
  | name :: rest =>
      do! known := if nonempty name
                   then do! available := available_fields "hr.employee" in ret (bool_decide (name ∈ available))
                   else ret false in
      do! more := known_fields rest in
      ret (if known : bool then name :: more else more)
  end.

(** The optional facts, each under the field that carries it. *)
Definition termination_facts (known : list string) (row : pyval) : result pydict :=
  let optional (field key : string) (read : pyval -> pyval) : result pydict :=
    if bool_decide (field ∈ known) then let! v := get_or row field VNone in Ok [(key, read v)] else Ok [] in
  let! status := optional (hs_termination_status_field h) "termination_status"
    (fun raw => let status := if truthy raw then lower (strip (py_str raw)) else "" in
                VStr (if nonempty status then status else "active")) in
  let! effective_at := optional (hs_termination_effective_at_field h) "termination_effective_at" (fun v => py_or v VNone) in
  let! episode := optional (hs_employment_episode_field h) "employment_episode_ref" (fun v => py_or v VNone) in
  let! principal := optional (hs_principal_id_field h) "departing_principal_id" (fun v => py_or v VNone) in
  Ok (status ++ effective_at ++ episode ++ principal).

Definition employee_facts (employee_id : Z) (known : list string) (row contract : pyval) : result pydict :=
  let! department := get_or row "department_id" VNone in
  let! manager := get_or row "parent_id" VNone in
  let! name := get_or row "name" VNone in
  let! work_email := or_none row "work_email" in
  let! active := get_or row "active" (VBool true) in
  let! state := contract_field contract "state" in
  let! contract_type := contract_field contract "contract_type_id" in
  let! date_start := contract_field contract "date_start" in
  let! optional := termination_facts known row in
  Ok ([("present", VBool true); ("employee_ref", record_ref "hr.employee" (Some employee_id)); ("employee_id", VInt employee_id);
       ("name", name); ("department_ref", record_ref "hr.department" (source_many2one_id department));
       ("manager_ref", record_ref "hr.employee" (source_many2one_id manager)); ("work_email", work_email);
       ("active", VBool (truthy active)); ("employment_state", state);
       ("employment_type", if truthy contract then many2one_name contract_type else VNone); ("start_date", date_start)]
      ++ optional).

Definition employee_version (row contract : pyval) : result string :=
  let! write_date := get_or row "write_date" VNone in
  let version := py_str (py_or write_date (VStr "unknown")) in
  let! contract_date := contract_field contract "write_date" in
  Ok (if truthy contract_date then version +:+ "|contract:" +:+ py_str contract_date else version).

(** [read_employee] *)
Definition source_read_employee (employee_ref : string) (now : instant) : M SourceWire AuthoritativeRecord :=
  do! employee_id := lift (numeric_id employee_ref "hr.employee") in
  do! known := known_fields [hs_termination_status_field h; hs_termination_effective_at_field h;
                             hs_employment_episode_field h; hs_principal_id_field h] in
  do! rows := on_wire (source_execute_kw "hr.employee" "read" [VList [VInt employee_id]]
    (VDict [("fields", texts (["id"; "name"; "department_id"; "parent_id"; "work_email"; "active"; "write_date"] ++ known))])) in
  if negb (truthy rows) then ret (absent_record "hr.employee" employee_id now) else
  do! row := lift (first_of rows) in
  also! lift (get_or row "department_id" VNone) then   (* a row that is no object fails before the contract is read *)
  do! contract := latest_contract employee_id in
  do! value := lift (employee_facts employee_id known row contract) in
  do! version := lift (employee_version row contract) in
  ret (build_record "odoo" ("odoo:hr.employee:" +:+ int_str employee_id) version value now FRESH_CURRENT).

(** [read_department] *)
Definition source_read_department (department_ref : string) (now : instant) : M SourceWire AuthoritativeRecord :=
  do! department_id := lift (numeric_id department_ref "hr.department") in
  do! rows := on_wire (source_execute_kw "hr.department" "read" [VList [VInt department_id]]
    (VDict [("fields", texts ["id"; "name"; "manager_id"; "parent_id"; "active"; "write_date"])])) in
  if negb (truthy rows) then ret (absent_record "hr.department" department_id now) else
  do! row := lift (first_of rows) in
  lift (let! manager := get_or row "manager_id" VNone in
        let! parent := get_or row "parent_id" VNone in
        let! write_date := get_or row "write_date" VNone in
        let! name := get_or row "name" VNone in
        let! active := get_or row "active" (VBool true) in
        Ok (build_record "odoo" ("odoo:hr.department:" +:+ int_str department_id)
              (py_str (py_or write_date (VStr "unknown")))
              [("present", VBool true); ("department_ref", record_ref "hr.department" (Some department_id)); ("name", name);
               ("manager_ref", record_ref "hr.employee" (source_many2one_id manager));
               ("parent_department_ref", record_ref "hr.department" (source_many2one_id parent));
               ("active", VBool (truthy active))] now FRESH_CURRENT)).

(** [read_manager] *)
Definition source_read_manager (employee_ref : string) (now : instant) : M SourceWire AuthoritativeRecord :=
  do! employee := source_read_employee employee_ref now in
  let manager_ref := dict_get (rec_value employee) "manager_ref" in
  ret (build_record "odoo" (rec_source_ref employee +:+ ":manager") (rec_source_version employee)
         [("employee_ref", dict_get (rec_value employee) "employee_ref"); ("manager_ref", manager_ref);
          ("present", VBool (match manager_ref with VNone => false | _ => true end))]
         (rec_observed_at employee) FRESH_CURRENT).
End odoo_source.
