(* ===== verification/KeycloakConnector.v ===== *)
(** * The Keycloak writers and verifiers, [integrations/keycloak_effects.py]

    The writers that create, disable and log out an identity, and their verifiers.
    Every request to the administration API fetches a token first. *)

From stdpp Require Import base gmap strings list.
From Stdlib Require Import ZArith Ascii Lia.
From S2P Require Import Prelude Python Access Machine Artifacts Domain FactAcquisition Connectors OdooConnector.

Open Scope Z_scope.
Open Scope orch_scope.
Open Scope machine_scope.

Record KeycloakEffectConnection := mkKeycloakEffectConnection {
  kc_base_url : string;
  kc_realm : string;
  kc_client_id : string;
  kc_credential : CredentialRef;
  kc_request_ref_attribute : string;
  kc_disable_request_ref_attribute : string;
  kc_session_revoke_request_ref_attribute : string;
  kc_subject_ref_attribute : string;
  kc_allow_insecure_http : bool;
}.

(** [__post_init__] *)
Definition KeycloakEffectConnection_validate `{UrlLibrary} (c : KeycloakEffectConnection) : result KeycloakEffectConnection :=
  let! _ := validate_base_url (kc_base_url c) (kc_allow_insecure_http c) in
  refuse negb (nonempty (strip (kc_realm c))) || negb (nonempty (strip (kc_client_id c)))
    with ConnectorConfigurationError saying "Keycloak realm and client_id are required";;
  Ok c.

(** ** Requests *)

Definition token_request (base_url realm client_id secret : string) : HttpRequest :=
  mkHttpRequest "POST" (rstrip_slash base_url +:+ "/realms/" +:+ realm +:+ "/protocol/openid-connect/token") [] [] None
    [("grant_type", "client_credentials"); ("client_id", client_id); ("client_secret", secret)] None.

Definition admin_request (base_url token method path : string) (params : list (string * string)) (json : option pyval)
  : HttpRequest :=
  mkHttpRequest method (rstrip_slash base_url +:+ path) params [("Authorization", "Bearer " +:+ token)] json [] None.

(** ** Users *)

(** [_first_attribute] *)
Definition first_attribute (attributes : pydict) (name : string) : option string :=
  match dict_get attributes name with
  | VList (VStr s :: _) => Some s
  | VStr s => Some s
  | _ => None
  end.

(** [_user_attributes] *)
Definition user_attributes (user : pydict) : pydict :=
  match dict_get user "attributes" with VDict d => d | _ => [] end.

(** [_keycloak_user_update] *)
Definition keycloak_user_update (user : pydict) (marker request_ref : string) (enabled : option bool) : pydict :=
  let body := [("username", dict_get user "username");
               ("enabled", VBool (default (truthy (default (VBool true) (assoc "enabled" user))) enabled));
               ("attributes", VDict (dict_set (user_attributes user) marker (VList [VStr request_ref])))] in
  fold_left (fun d k => match assoc k user with Some v => dict_set d k v | None => d end)
    ["email"; "firstName"; "lastName"] body.

Section keycloak.
Context `{Platform} `{CredentialResolver} {P : Type} `{HttpService P} (c : KeycloakEffectConnection).

(** [except (httpx.HTTPError, ValueError) as exc: raise _TransportUnknown(message) from exc] *)
Definition ambiguous (message : string) {A} (e : exn) : result A :=
  if http_or_value_error e then raise (TransportUnknown (Some (cause_name e))) message else Err e.

(** [_token] *)
Definition keycloak_token : M (Wire P) string :=
  do! secret := lift (resolve (kc_credential c)) in
  do! raw := rescue
    (do! r := send (token_request (kc_base_url c) (kc_realm c) (kc_client_id c) secret) in
     also! lift (raise_for_status r) then lift (response_json r))
    (ambiguous "Keycloak client-credential authentication is ambiguous") in
  match raw with
  | VDict d =>
      match dict_get d "access_token" with
      | VStr token => if nonempty token then ret token
                      else throw (TransportUnknown None) "Keycloak token response lacks access_token"
      | _ => throw (TransportUnknown None) "Keycloak token response lacks access_token"
      end
  | _ => throw (TransportUnknown None) "Keycloak token response lacks access_token"
  end.

(** [_request] *)
Definition keycloak_request (method path : string) (params : list (string * string)) (json : option pyval)
  : M (Wire P) Response :=
  do! token := keycloak_token in
  rescue (send (admin_request (kc_base_url c) token method path params json))
    (fun e => match exn_cls e with
              | HttpxError name => raise (TransportUnknown (Some name)) "Keycloak transport/result is ambiguous"
              | _ => Err e
              end).

Definition users_path : string := "/admin/realms/" +:+ kc_realm c +:+ "/users".
Definition user_path (user_id : string) : string := users_path +:+ "/" +:+ user_id.

(** The checks of a read: a server error or an undecodable body is ambiguous, any other
    status is a rejection. *)
Definition read_json (what : string) (r : Response) : result pyval :=
  refuse 500 <=? rs_status_code r with TransportUnknown None
    saying "Keycloak " +:+ what +:+ " returned HTTP " +:+ int_str (rs_status_code r);;
  refuse negb (rs_status_code r =? 200) with ApplicationRejected
    saying "Keycloak " +:+ what +:+ " rejected HTTP " +:+ int_str (rs_status_code r);;
  match rs_body r with
  | Json v => Ok v
  | NotJson name => raise (TransportUnknown (Some name)) ("Keycloak " +:+ what +:+ " returned invalid JSON")
  end.

(** [[item for item in raw if isinstance(item, dict)]] *)
Definition objects (l : list pyval) : list pydict := omap (fun v => match v with VDict d => Some d | _ => None end) l.

(** [_find_by_attribute] *)
Definition find_by_attribute (name value : string) : M (Wire P) (list pydict) :=
  do! r := keycloak_request "GET" users_path [("q", name +:+ ":" +:+ value); ("max", "2")] None in
  do! raw := lift (read_json "search" r) in
  ret (objects (as_rows raw)).

(** [_get_user] *)
Definition get_user (user_id : string) : M (Wire P) pydict :=
  do! r := keycloak_request "GET" (user_path user_id) [] None in
  do! raw := lift (read_json "user read" r) in
  match raw with
  | VDict d => ret d
  | _ => throw (TransportUnknown None) "Keycloak user read returned invalid representation"
  end.

(** [_keycloak_sessions] *)
Definition keycloak_sessions (user_id : string) : M (Wire P) (list pydict) :=
  do! r := keycloak_request "GET" (user_path user_id +:+ "/sessions") [] None in
  do! raw := lift (read_json "session read" r) in
  match raw with
  | VList l => ret (objects l)
  | _ => throw (TransportUnknown None) "Keycloak session read returned invalid representation"
  end.

(** [str(user["id"])] *)
Definition id_of (user : pydict) : result string :=
  match assoc "id" user with Some v => Ok (py_str v) | None => raise KeyError "id" end.

(** [_keycloak_subject_user] *)
Definition keycloak_subject_user (subject_ref : string) : M (Wire P) (option pydict) :=
  do! rows := find_by_attribute (kc_subject_ref_attribute c) subject_ref in
  match rows with
  | [row] => if truthy (dict_get row "id") then do! user := get_user (py_str (dict_get row "id")) in ret (Some user)
             else ret None
  | _ => ret None
  end.

(** ** Results *)

Definition keycloak_ref (user_id : string) : string := "keycloak:user:" +:+ user_id.
Definition keycloak_success (user_id : string) (reconciled : bool) : ConnectorResult :=
  connector_succeeded (Some (keycloak_ref user_id)) reconciled.

(** [_keycloak_write_result] *)
Definition keycloak_write_result (r : Response) (user_id operation : string) : ConnectorResult :=
  let told := Some ("Keycloak " +:+ operation +:+ " returned HTTP " +:+ int_str (rs_status_code r)) in
  if 500 <=? rs_status_code r
  then mkConnectorResult CS_UNKNOWN (Some (keycloak_ref user_id)) None (Some "KeycloakServerResultAmbiguous") told false
  else if negb (bool_decide (rs_status_code r ∈ [200; 204]))
  then mkConnectorResult CS_FAILED (Some (keycloak_ref user_id)) None (Some "KeycloakOperationRejected") told false
  else keycloak_success user_id false.

Definition keycloak_subject_failure (subject_ref : string) : ConnectorResult :=
  connector_failed "KeycloakSubjectNotUnique" ("Keycloak subject is absent or ambiguous: " +:+ subject_ref) false.

Definition keycloak_duplicate_request (operation : string) : ConnectorResult :=
  connector_failed "DuplicateExternalRequestIdentity" ("multiple Keycloak users share the " +:+ operation +:+ " request_ref") true.

(** The [except] clauses of the disable and session connectors. *)
Definition keycloak_failure (reconciled : bool) (e : exn) : result ConnectorResult :=
  if is_transport_unknown e then Ok (unknown_result e reconciled) else
  if is_application_rejected e then Ok (connector_failed "KeycloakApplicationRejected" (exn_msg e) reconciled) else Err e.

(** ** [KeycloakIdentityEffectConnector] *)

Definition identity_settled (code message : string) (reconciled : bool) (rows : list pydict) : result (option ConnectorResult) :=
  match rows with
  | [] => Ok None
  | [row] => let! id := id_of row in Ok (Some (keycloak_success id true))
  | _ => Ok (Some (connector_failed code message reconciled))
  end.

Definition identity_body (request_ref subject_ref : string) (parameters : pydict) : pydict :=
  let p := dict_get parameters in
  let username := py_str (py_or (py_or (py_or (p "username") (p "work_email")) (p "employee_ref")) (VStr subject_ref)) in
  let attributes := fold_left
    (fun d key => match p key with VNone => d | v => dict_set d ("administrative_" +:+ key) (VList [VStr (py_str v)]) end)
    ["employee_ref"; "department_ref"; "manager_principal_id"; "start_date"; "employment_type"]
    (dict_of [(kc_request_ref_attribute c, VList [VStr request_ref]); (kc_subject_ref_attribute c, VList [VStr subject_ref])]) in
  [("username", VStr username); ("email", py_or (p "work_email") VNone); ("enabled", VBool true); ("attributes", VDict attributes)].

(** [location.rstrip("/").rsplit("/", 1)[-1] if location else ""] *)
Fixpoint after_last_slash (acc l : list ascii) : list ascii :=
  match l with
  | [] => rev acc
  | ch :: r => if Ascii.eqb ch ch_slash then after_last_slash [] r else after_last_slash (ch :: acc) r
  end.
Definition last_segment (location : string) : string :=
  String.string_of_list_ascii (after_last_slash [] (String.list_ascii_of_string (rstrip_slash location))).

Definition identity_created (request_ref : string) (r : Response) : M (Wire P) ConnectorResult :=
  let told := "Keycloak create returned HTTP " +:+ int_str (rs_status_code r) in
  if 500 <=? rs_status_code r
  then ret (mkConnectorResult CS_UNKNOWN None None (Some "KeycloakServerResultAmbiguous") (Some told) false) else
  if negb (bool_decide (rs_status_code r ∈ [201; 204])) then ret (connector_failed "KeycloakCreateRejected" told false) else
  let user_id := last_segment (default "" (assoc "Location" (rs_headers r))) in
  do! user_id := if nonempty user_id then ret user_id else
    do! found := find_by_attribute (kc_request_ref_attribute c) request_ref in
    match found with [row] => lift (id_of row) | _ => ret user_id end in
  ret (connector_succeeded (if nonempty user_id then Some (keycloak_ref user_id) else None) false).

Definition identity_invoke (request_ref subject_ref : string) (parameters : pydict) : M (Wire P) ConnectorResult :=
  rescue
    (do! existing := find_by_attribute (kc_request_ref_attribute c) request_ref in
     unless_settled (identity_settled "DuplicateExternalRequestIdentity"
                       "multiple Keycloak users share the same request_ref" false existing)
    (do! by_subject := find_by_attribute (kc_subject_ref_attribute c) subject_ref in
     unless_settled (identity_settled "DuplicateExternalSubjectIdentity"
                       "multiple Keycloak users share the same subject_ref" false by_subject)
    (do! r := keycloak_request "POST" users_path [] (Some (VDict (identity_body request_ref subject_ref parameters))) in
     identity_created request_ref r)))
    (fun e => if is_transport_unknown e then Ok (unknown_result e false) else Err e).

Definition identity_reconcile (request_ref : string) : M (Wire P) (option ConnectorResult) :=
  do! rows := rescue (do! rows := find_by_attribute (kc_request_ref_attribute c) request_ref in ret (inl rows))
    (fun e => if is_transport_unknown e then Ok (inr (unknown_result e true)) else Err e) in
  match rows with
  | inr r => ret (Some r)
  | inl rows => lift (identity_settled "DuplicateExternalRequestIdentity" "reconciliation found multiple Keycloak users" true rows)
  end.

(** [KeycloakIdentityVerifier.observe] *)
Definition identity_payload_value (subject_ref : string) (attributes : pydict) (kv : string * pyval) : result pyval :=
  let found := first_attribute attributes ("administrative_" +:+ fst kv) in
  Ok (if String.eqb (fst kv) "employee_ref"
      then VStr (if nonempty (default "" found) then default "" found else subject_ref)
      else match found with Some s => VStr s | None => VNone end).

(** The [except] clauses of the verifiers. *)
Definition readback_failure (e : exn) : result ConnectorResult :=
  if is_transport_unknown e || is_application_rejected e then Ok (unavailable_result e) else Err e.

Definition identity_observe (subject_ref : string) (expected_postcondition : pydict) : M (Wire P) ConnectorResult :=
  rescue
    (do! user := keycloak_subject_user subject_ref in
     match user with
     | None => ret (connector_observed None [])
     | Some user =>
         do! payload := lift (payload_of (identity_payload_value subject_ref (user_attributes user))
                                (expected_payload expected_postcondition)) in
         ret (connector_observed None
                [("target_system", VStr "iam"); ("operation", VStr "identity.create"); ("subject_ref", VStr subject_ref);
                 ("active", VBool (truthy (default (VBool false) (assoc "enabled" user)))); ("payload", VDict payload)])
     end)
    readback_failure.

(** ** [KeycloakIdentityDisableConnector] *)

Definition is_false (v : pyval) : bool := match v with VBool false => true | _ => false end.

Definition disable_user (request_ref : string) (user : pydict) : M (Wire P) ConnectorResult :=
  do! user_id := lift (id_of user) in
  let marker := kc_disable_request_ref_attribute c in
  let recorded := default "" (first_attribute (user_attributes user) marker) in
  if nonempty recorded && negb (String.eqb recorded request_ref)
  then ret (connector_failed "ConflictingExternalRequestIdentity" "Keycloak user records a different disable request" false) else
  if bool_decide (first_attribute (user_attributes user) marker = Some request_ref) && is_false (dict_get user "enabled")
  then ret (keycloak_success user_id true) else
  do! r := keycloak_request "PUT" (user_path user_id) [] (Some (VDict (keycloak_user_update user marker request_ref (Some false)))) in
  ret (keycloak_write_result r user_id "disable").

Definition disable_invoke (request_ref subject_ref : string) : M (Wire P) ConnectorResult :=
  rescue
    (do! user := keycloak_subject_user subject_ref in
     match user with
     | None => ret (keycloak_subject_failure subject_ref)
     | Some user => disable_user request_ref user
     end)
    (keycloak_failure false).

(** The one user a request identity names: [len(rows) != 1 or not rows[0].get("id")] *)
Definition marked_user (rows : list pydict) : option string :=
  match rows with [row] => if truthy (dict_get row "id") then Some (py_str (dict_get row "id")) else None | _ => None end.

Definition disable_reconcile (request_ref : string) : M (Wire P) (option ConnectorResult) :=
  rescue
    (do! rows := find_by_attribute (kc_disable_request_ref_attribute c) request_ref in
     if is_nil rows then ret None else
     match marked_user rows with
     | None => ret (Some (keycloak_duplicate_request "disable"))
     | Some marked =>
         do! user := get_user marked in
         do! user_id := lift (id_of user) in
         ret (Some (if is_false (dict_get user "enabled") then keycloak_success user_id true
                    else mkConnectorResult CS_UNKNOWN (Some (keycloak_ref user_id)) None (Some "KeycloakDisableNotObserved")
                           (Some "disable request identity exists but enabled=false is not observed") true))
     end)
    (fun e => let! r := keycloak_failure true e in Ok (Some r)).

(** [KeycloakIdentityDisableVerifier.observe] *)
Definition disable_observe (subject_ref : string) : M (Wire P) ConnectorResult :=
  rescue
    (do! user := keycloak_subject_user subject_ref in
     ret (connector_observed None
            match user with
            | None => []
            | Some user =>
                [("target_system", VStr "iam"); ("operation", VStr "identity.disable"); ("subject_ref", VStr subject_ref);
                 ("enabled", VBool (truthy (default (VBool true) (assoc "enabled" user))))]
            end))
    readback_failure.

(** ** [KeycloakSessionRevokeConnector] *)

(** The marker is recorded before any session is closed. *)
Definition mark_revocation (request_ref : string) (user : pydict) (user_id : string) : M (Wire P) (option ConnectorResult) :=
  let marker := kc_session_revoke_request_ref_attribute c in
  if bool_decide (first_attribute (user_attributes user) marker = Some request_ref) then ret None else
  do! r := keycloak_request "PUT" (user_path user_id) [] (Some (VDict (keycloak_user_update user marker request_ref None))) in
  let result := keycloak_write_result r user_id "session marker" in
  ret (if bool_decide (cn_status result <> CS_SUCCEEDED) then Some result else None).

Definition revoke_user (request_ref : string) (user : pydict) : M (Wire P) ConnectorResult :=
  do! user_id := lift (id_of user) in
  let recorded := default "" (first_attribute (user_attributes user) (kc_session_revoke_request_ref_attribute c)) in
  if nonempty recorded && negb (String.eqb recorded request_ref)
  then ret (connector_failed "ConflictingExternalRequestIdentity"
              "Keycloak user records a different session revoke request" false) else
  do! refused := mark_revocation request_ref user user_id in
  unless_settled (Ok refused)
  (do! sessions := keycloak_sessions user_id in
   if is_nil sessions then ret (keycloak_success user_id true) else
   do! r := keycloak_request "POST" (user_path user_id +:+ "/logout") [] None in
   ret (keycloak_write_result r user_id "session revoke")).

Definition revoke_invoke (request_ref subject_ref : string) : M (Wire P) ConnectorResult :=
  rescue
    (do! user := keycloak_subject_user subject_ref in
     match user with
     | None => ret (keycloak_subject_failure subject_ref)
     | Some user => revoke_user request_ref user
     end)
    (keycloak_failure false).

Definition revoke_reconcile (request_ref : string) : M (Wire P) (option ConnectorResult) :=
  rescue
    (do! rows := find_by_attribute (kc_session_revoke_request_ref_attribute c) request_ref in
     if is_nil rows then ret None else
     match marked_user rows with
     | None => ret (Some (keycloak_duplicate_request "session revoke"))
     | Some user_id =>
         do! sessions := keycloak_sessions user_id in
         ret (Some (if is_nil sessions then keycloak_success user_id true
                    else mkConnectorResult CS_UNKNOWN (Some (keycloak_ref user_id)) None (Some "KeycloakSessionsStillActive")
                           (Some "session revoke request exists but active sessions remain") true))
     end)
    (fun e => let! r := keycloak_failure true e in Ok (Some r)).

(** [KeycloakSessionVerifier.observe] *)
Definition revoke_observe (subject_ref : string) : M (Wire P) ConnectorResult :=
  rescue
    (do! user := keycloak_subject_user subject_ref in
     match user with
     | None => ret (connector_observed None [])
     | Some user =>
         do! user_id := lift (id_of user) in
         do! sessions := keycloak_sessions user_id in
         ret (connector_observed None
                [("target_system", VStr "iam"); ("operation", VStr "sessions.revoke"); ("subject_ref", VStr subject_ref);
                 ("active_sessions", VInt (Z.of_nat (length sessions)))])
     end)
    readback_failure.
End keycloak.
