(* ===== verification/CommunicationConnector.v ===== *)
(** * The message connector and its verifier, [integrations/communication_effects.py]

    The connector signs a frozen draft and hands it to the gateway; the verifier reads
    the message back from Feishu and the recipient from the gateway's ledger. *)

From stdpp Require Import base gmap strings list.
From Stdlib Require Import ZArith NArith Ascii Lia.
From S2P Require Import Prelude Python Access Machine Artifacts Connectors OdooConnector.

Open Scope Z_scope.
Open Scope orch_scope.
Open Scope machine_scope.

Record AdministrativeCommunicationEffectConnection := mkCommunicationConnection {
  mc_gateway_base_url : string;
  mc_transport_credential : CredentialRef;
  mc_timeout_positive : bool;      (* [timeout_seconds > 0] *)
  mc_allow_insecure_http : bool;
}.

(** [__post_init__] *)
Definition CommunicationConnection_validate `{UrlLibrary} (c : AdministrativeCommunicationEffectConnection)
  : result AdministrativeCommunicationEffectConnection :=
  let! _ := validate_base_url (mc_gateway_base_url c) (mc_allow_insecure_http c) in
  refuse negb (mc_timeout_positive c) with ConnectorConfigurationError saying "communication timeout must be positive";;
  Ok c.

(** ** Bytes *)

(** The ranges the bytes after a first byte of UTF-8 must lie in; [None] when it can
    begin no character. *)
Definition continuation (b : N) : option (list (N * N)) :=
  let any := (128, 191)%N in
  if (b <? 128)%N then Some [] else
  if (b <? 194)%N then None else
  if (b <? 224)%N then Some [any] else
  if (b =? 224)%N then Some [(160, 191)%N; any] else
  if (b =? 237)%N then Some [(128, 159)%N; any] else
  if (b <? 240)%N then Some [any; any] else
  if (b =? 240)%N then Some [(144, 191)%N; any; any] else
  if (b <? 244)%N then Some [any; any; any] else
  if (b =? 244)%N then Some [(128, 143)%N; any; any] else None.

Fixpoint utf8_bytes (pending : list (N * N)) (l : list ascii) : bool :=
  match l with
  | [] => is_nil pending
  | ch :: r =>
      let b := N_of_ascii ch in
      match pending with
      | (lo, hi) :: more => (lo <=? b)%N && (b <=? hi)%N && utf8_bytes more r
      | [] => match continuation b with Some more => utf8_bytes more r | None => false end
      end
  end.

(** [content.decode("utf-8")]; the text is kept as its bytes. *)
Definition decode_utf8 (content : string) : result string :=
  if utf8_bytes [] (String.list_ascii_of_string content) then Ok content
  else raise (DecodeError "UnicodeDecodeError") "invalid UTF-8".

Class HmacLibrary := {
  (** [hmac.new(secret, message, hashlib.sha256).hexdigest()] *)
  hmac_hexdigest : string -> string -> string;
}.

Definition newline : string := String.String (Ascii.ascii_of_nat 10) "".

Section communication.
Context `{Platform} `{CredentialResolver} `{JsonLibrary} `{HmacLibrary} {P : Type} `{HttpService P}.

(** [str(d.get(k) or fallback).strip()] *)
Definition text_at (d : pydict) (k fallback : string) : string := strip (py_str (py_or (dict_get d k) (VStr fallback))).

Definition signed_headers (secret timestamp event_id body_digest : string) : list (string * string) :=
  [("X-Event-ID", event_id); ("X-Timestamp", timestamp);
   ("X-Signature", hmac_hexdigest (encode secret) (encode (timestamp +:+ newline +:+ event_id +:+ newline +:+ body_digest)))].

(** [json.dumps({...}, ensure_ascii=False, separators=(",", ":")).encode("utf-8")], over
    the bytes of the text *)
Definition message_body (event_id recipient text draft_kind : string) : string :=
  let field k v := json_quote json_char_raw k +:+ ":" +:+ json_quote json_char_raw v in
  "{" +:+ join "," [field "eventId" (encode event_id); field "recipientOpenId" (encode recipient); field "text" text;
                    field "draftKind" (encode draft_kind)] +:+ "}".

(** ** [AdministrativeCommunicationEffectConnector] *)

Definition send_message_request (c : AdministrativeCommunicationEffectConnection) (event_id secret body : string) (seconds : Z)
  : HttpRequest :=
  mkHttpRequest "POST" (rstrip_slash (mc_gateway_base_url c) +:+ "/v1/administrative/communications") []
    (("Content-Type", "application/json") :: signed_headers secret (int_str seconds) event_id (sha256_bytes body))
    None [] (Some body).

Definition message_answer (subject_ref event_id : string) (r : Response) : result ConnectorResult :=
  let code := Some ("GatewayHTTP" +:+ int_str (rs_status_code r)) in
  if 500 <=? rs_status_code r
  then Ok (mkConnectorResult CS_UNKNOWN None None code (Some "communication transport outcome is unknown") false) else
  if 400 <=? rs_status_code r
  then Ok (mkConnectorResult CS_FAILED None None code (Some "communication gateway rejected the transport request") false) else
  let! raw := response_json r in
  match raw with
  | VDict d =>
      let ref := dict_get d "providerMessageRef" in
      Ok (connector_observed (if truthy ref then Some (py_str ref) else None)
            [("target_system", VStr "communication"); ("operation", VStr "message.send"); ("subject_ref", VStr subject_ref);
             ("communication_event_id", VStr event_id); ("transport_accepted", VBool (truthy (dict_get d "transportAccepted")));
             ("delivery_confirmed", VBool (truthy (dict_get d "deliveryConfirmed"))); ("read_state", VStr "unknown")])
  | _ => Ok (connector_failed "InvalidCommunicationReceipt" "communication gateway receipt is not an object" false)
  end.

Definition communication_invoke (c : AdministrativeCommunicationEffectConnection) (artifacts : ArtifactDir)
    (request_ref subject_ref : string) (parameters : pydict) (seconds : Z) : M (Wire P) ConnectorResult :=
  let event_id := text_at parameters "communication_event_id" request_ref in
  let recipient := text_at parameters "recipient_open_id" subject_ref in
  let storage_ref := text_at parameters "content_storage_ref" "" in
  let digest := text_at parameters "content_digest" "" in
  let draft_kind := text_at parameters "draft_kind" "confirmation" in
  if negb (nonempty recipient) || negb (nonempty storage_ref) || negb (Nat.eqb (String.length digest) 64)
  then ret (connector_failed "CommunicationParametersIncomplete" "communication transport parameters are incomplete" false) else
  rescue
    (do! text := lift (let! content := artifact_get artifacts storage_ref (Some digest) in decode_utf8 content) in
     let body := message_body event_id recipient text draft_kind in
     do! secret := lift (resolve (mc_transport_credential c)) in
     do! r := send (send_message_request c event_id secret body seconds) in
     lift (message_answer subject_ref event_id r))
    (fun e => if http_or_value_error e
              then Ok (mkConnectorResult CS_UNKNOWN None None (Some (cause_name e))
                         (Some "communication transport outcome is unknown") false)
              else Err e).

(** [reconcile]: a lost acknowledgement is reconciled by the gateway's event id. *)
Definition communication_reconcile (request_ref : string) : M (Wire P) (option ConnectorResult) := ret None.

(** ** [FeishuCommunicationVerifier] *)

Record FeishuCommunicationVerifier := mkFeishuCommunicationVerifier {
  fv_base_url : string;
  fv_app_id : string;
  fv_app_secret : CredentialRef;
  fv_gateway_base_url : string;
  fv_gateway_secret : option CredentialRef;
}.

(** [__init__] *)
Definition FeishuCommunicationVerifier_init `{UrlLibrary} (v : FeishuCommunicationVerifier) : result FeishuCommunicationVerifier :=
  let! _ := validate_base_url (fv_base_url v) false in
  Ok (mkFeishuCommunicationVerifier (rstrip_slash (fv_base_url v)) (fv_app_id v) (fv_app_secret v)
        (rstrip_slash (fv_gateway_base_url v)) (fv_gateway_secret v)).

Section verifier.
Context (v : FeishuCommunicationVerifier) (clock : nat -> Z).

Definition ledger_request (secret event_id : string) (seconds : Z) : HttpRequest :=
  mkHttpRequest "GET" (fv_gateway_base_url v +:+ "/v1/administrative/communications/" +:+ event_id) []
    (signed_headers secret (int_str seconds) event_id (sha256_bytes "")) None [] None.

Definition as_dict (x : pyval) : option pydict := match x with VDict d => Some d | _ => None end.

(** The message id the expectation names, or else the one in the gateway's ledger. *)
Definition find_message (expected : pydict) : M (Wire P) (string * option pydict) :=
  let message_id := text_at expected "provider_message_ref" "" in
  let event_id := text_at expected "communication_event_id" "" in
  match fv_gateway_secret v with
  | Some credential =>
      if nonempty message_id || negb (nonempty (fv_gateway_base_url v)) || negb (nonempty event_id) then ret (message_id, None) else
      do! secret := lift (resolve credential) in
      do! r := send (ledger_request secret event_id (clock 0%nat)) in
      if negb (rs_status_code r <? 400) then ret (message_id, None) else
      do! raw := lift (response_json r) in
      match raw with
      | VDict ledger => ret (text_at ledger "providerMessageRef" "", Some ledger)
      | _ => ret (message_id, None)
      end
  | None => ret (message_id, None)
  end.

(** The token of the verifier's own application. *)
Definition verifier_token : M (Wire P) (option string) :=
  do! secret := lift (resolve (fv_app_secret v)) in
  do! r := send (mkHttpRequest "POST" (fv_base_url v +:+ "/open-apis/auth/v3/tenant_access_token/internal") [] []
                   (Some (VDict [("app_id", VStr (fv_app_id v)); ("app_secret", VStr secret)])) [] None) in
  also! lift (raise_for_status r) then
  do! raw := lift (response_json r) in
  ret match raw with
      | VDict d => match dict_get d "tenant_access_token" with VStr t => if nonempty t then Some t else None | _ => None end
      | _ => None
      end.

(** [raw.get("code") not in (0, None)] *)
Definition code_accepted (code : pyval) : bool := match code with VNone => true | _ => py_eq code (VInt 0) end.

(** The message an answer carries: its code and error text when it carries none. *)
Definition message_data (raw : pyval) : (string * string) + pydict :=
  match raw with
  | VDict d =>
      if negb (code_accepted (dict_get d "code")) then inl ("FeishuMessageReadbackRejected", "Feishu message readback was rejected") else
      match dict_get d "data" with
      | VDict data =>
          match dict_get data "items" with
          | VList [VDict item] => inr item
          | VList _ => inl ("FeishuMessageReadbackMalformed", "Feishu message readback did not contain one message")
          | _ => inr data
          end
      | _ => inl ("FeishuMessageReadbackMalformed", "Feishu message readback did not contain message data")
      end
  | _ => inl ("FeishuMessageReadbackRejected", "Feishu message readback was rejected")
  end.

(** The text of a message: the [text] of its content, or the content itself. *)
Definition message_text (data : pydict) : option string :=
  match dict_get data "body" with
  | VDict body =>
      match dict_get body "content" with
      | VStr content =>
          match json_loads content with
          | Some (VDict d) => match dict_get d "text" with VStr text => Some text | _ => if nonempty content then Some content else None end
          | _ => if nonempty content then Some content else None
          end
      | _ => None
      end
  | _ => None
  end.

(** The recipient and the message the ledger records. *)
Definition check_ledger (message_id recipient : string) (expected : pydict) (ledger : option pydict) : ConnectorResult :=
  let field k := match ledger with Some d => dict_get d k | None => VNone end in
  if negb (py_eq (field "recipientDigest") (VStr (sha256_hex recipient)))
  then connector_unavailable "FeishuRecipientDigestMismatch" "Feishu recipient did not match the governed recipient binding" else
  if truthy (field "providerMessageRef") && negb (py_eq (field "providerMessageRef") (VStr message_id))
  then connector_unavailable "FeishuMessageReferenceMismatch" "Gateway and Feishu message references did not match" else
  mkConnectorResult CS_SUCCEEDED (Some message_id) (Some (dict_set expected "provider_message_ref" (VStr message_id))) None None true.

Definition verify_recipient (message_id recipient : string) (expected : pydict) (ledger : option pydict) : M (Wire P) ConnectorResult :=
  match fv_gateway_secret v with
  | Some credential =>
      if negb (nonempty (fv_gateway_base_url v))
      then ret (connector_unavailable "RecipientReadbackUnavailable" "Feishu recipient verification requires the Gateway ledger") else
      let event_id := text_at expected "communication_event_id" "" in
      if negb (nonempty event_id)
      then ret (connector_unavailable "CommunicationEventUnavailable" "Feishu recipient verification lacks a communication event") else
      do! secret := lift (resolve credential) in
      do! ledger := match ledger with
        | Some d => ret (Some d)
        | None =>
            do! r := send (ledger_request secret event_id (clock 1%nat)) in
            also! lift (raise_for_status r) then
            do! raw := lift (response_json r) in
            ret (as_dict raw)
        end in
      ret (check_ledger message_id recipient expected ledger)
  | None => ret (connector_unavailable "RecipientReadbackUnavailable" "Feishu recipient verification requires the Gateway ledger")
  end.

Definition message_observe (expected : pydict) : M (Wire P) ConnectorResult :=
  rescue
    (do! found := find_message expected in
     let '(message_id, ledger) := found in
     if negb (nonempty message_id)
     then ret (connector_unavailable "ProviderMessageRefUnavailable" "Feishu message reference is unavailable") else
     let recipient := text_at expected "recipient_external_subject" "" in
     let content_digest := text_at expected "content_digest" "" in
     if negb (nonempty recipient) || negb (Nat.eqb (String.length content_digest) 64)
     then ret (connector_unavailable "ReadbackExpectationIncomplete" "Feishu readback expectation is incomplete") else
     do! token := verifier_token in
     match token with
     | None => ret (connector_unavailable "FeishuVerifierAuthenticationFailed" "Feishu verifier authentication failed")
     | Some token =>
         do! r := send (mkHttpRequest "GET" (fv_base_url v +:+ "/open-apis/im/v1/messages/" +:+ message_id) []
                          [("Authorization", "Bearer " +:+ token)] None [] None) in
         also! lift (raise_for_status r) then
         do! raw := lift (response_json r) in
         match message_data raw with
         | inl (code, message) => ret (connector_unavailable code message)
         | inr data =>
             match message_text data with
             | None => ret (connector_unavailable "FeishuMessageContentUnavailable"
                              "Feishu message content was unavailable for verification")
             | Some text =>
                 if negb (String.eqb (sha256_hex text) content_digest)
                 then ret (connector_unavailable "FeishuMessageContentDigestMismatch"
                             "Feishu message content digest did not match the frozen draft")
                 else verify_recipient message_id recipient expected ledger
             end
         end
     end)
    (fun e => if http_or_value_error e then Ok (connector_unavailable (cause_name e) "Feishu message readback unavailable") else Err e).
End verifier.
End communication.
