(* ===== verification/ConnectorSafety.v ===== *)
(** * What the connectors do to the systems behind them

    Which requests a connector sends, whatever it is answered; that Odoo records
    carry a request identity at most once, under the documented behaviour of Odoo
    ([OdooService]); that a departure is marked before it takes effect; that a message
    counts as read back only with the right content and recipient. *)

From stdpp Require Import base gmap strings list relations.
From Stdlib Require Import ZArith Ascii Lia.
From S2P Require Import Prelude Python Access Machine Artifacts Domain FactAcquisition Connectors OdooConnector OdooSource.
From S2P Require Import KeycloakConnector CommunicationConnector.

Open Scope Z_scope.
Open Scope orch_scope.
Open Scope machine_scope.

(** ** Computations over a wire *)

Section motions.
Context {S : Type}.

(** Handlers that do not call out keep a motion that makes no difference between
    returning and raising. *)
Lemma respects_rescue (R : Motion S) {A} (m : M S A) handler :
  (forall e s s', breaks R e s s' -> moves R s s') -> Respects R m -> Respects R (rescue m handler).
Proof.
  intros Hb Hm s r s'. unfold rescue. destruct (m s) as [[a|e] s1] eqn:E; apply Hm in E.
  - by intros [= <- <-].
  - intros [= <- <-]. apply Hb in E. destruct (handler e); [done|by apply moves_breaks].
Qed.

(** What a pure call returned may be used in what follows. *)
Lemma respects_lift_bind (R : Motion S) {A B} (x : result A) (k : A -> M S B) :
  (forall a, x = Ok a -> Respects R (k a)) -> Respects R (bind (lift x) k).
Proof.
  intros Hk s r s'. unfold bind, lift. destruct x as [a|e]; [by apply Hk|]. intros [= <- <-]. apply breaks_refl.
Qed.

Lemma rescue_world {A} (m : M S A) handler s : snd (rescue m handler s) = snd (m s).
Proof. unfold rescue. by destruct (m s) as [[] ?]. Qed.

Lemma rescue_Ok {A} (m : M S A) handler s a s' :
  rescue m handler s = (Ok a, s') <->
  m s = (Ok a, s') \/ exists e, m s = (Err e, s') /\ handler e = Ok a.
Proof.
  unfold rescue. destruct (m s) as [[x|e] s1]; split; [naive_solver..|].
  intros [?|(e' & [= -> ->] & Hh)]; [done|]. by rewrite Hh.
Qed.
End motions.

Section sending.
Context {P : Type} `{HttpService P}.

(** From [w] to [w'] only requests that satisfy [Q] were sent. *)
Definition sends_only (Q : HttpRequest -> Prop) (w w' : Wire P) : Prop :=
  exists l, wr_sent w' = wr_sent w ++ l /\ Forall (fun x => Q (fst x)) l.

Lemma sends_only_refl Q w : sends_only Q w w.
Proof. exists []. by rewrite app_nil_r. Qed.
Lemma sends_only_trans Q w1 w2 w3 : sends_only Q w1 w2 -> sends_only Q w2 w3 -> sends_only Q w1 w3.
Proof.
  intros (l & Hl & HQ) (l' & Hl' & HQ'). exists (l ++ l'). rewrite Hl', Hl, app_assoc. split; [done|]. by apply Forall_app.
Qed.

Definition sending (Q : HttpRequest -> Prop) : Motion (Wire P).
Proof.
  refine (mkMotion (sends_only Q) (fun _ => sends_only Q) _ _ _ _); intros;
    [apply sends_only_refl|by eapply sends_only_trans|done|by eapply sends_only_trans].
Defined.

Lemma send_sends (Q : HttpRequest -> Prop) q : Q q -> Respects (sending Q) (send q).
Proof.
  intros Hq w r w'. unfold send. destruct (http (wr_service w) q) as [[name|resp] p];
    intros [= <- <-]; (eexists; split; [reflexivity|by repeat constructor]).
Qed.

#[export] Instance draw_sends Q fresh : Respects (sending Q) (draw fresh).
Proof. intros w r w' [= <- <-]. exists []. by rewrite app_nil_r. Qed.

#[export] Instance rescue_sends Q {A} (m : M (Wire P) A) handler : Respects (sending Q) m -> Respects (sending Q) (rescue m handler).
Proof. by apply respects_rescue. Qed.

#[export] Instance unless_settled_sends Q {A} (r : result (option A)) (k : M (Wire P) A) :
  Respects (sending Q) k -> Respects (sending Q) (unless_settled r k).
Proof. intros Hk. unfold unless_settled. respect. Qed.
End sending.

(** ** Odoo: the calls a connector makes *)

Section odoo_calls.
Context `{Platform} `{CredentialResolver} {P : Type} `{HttpService P}.

(** A request that authenticates, or calls a method of a model that is allowed. *)
Definition odoo_call (base_url database username : string) (allowed : string -> string -> list pyval -> Prop) (q : HttpRequest)
  : Prop :=
  (exists id secret, q = rpc_request base_url id "common" "authenticate" [VStr database; VStr username; VStr secret; VDict []]) \/
  (exists id uid secret model method args kwargs,
     q = rpc_request base_url id "object" "execute_kw" [VStr database; uid; VStr secret; VStr model; VStr method; VList args; kwargs] /\
     allowed model method args).

Section effects.
Context (fresh : nat -> uuid) (c : OdooEffectConnection).
Abbreviation calls allowed := (odoo_call (oc_base_url c) (oc_database c) (oc_username c) allowed) (only parsing).

Lemma odoo_rpc_sends (Q : HttpRequest -> Prop) service method args :
  (forall id, Q (rpc_request (oc_base_url c) id service method args)) -> Respects (sending Q) (odoo_rpc (P := P) fresh c service method args).
Proof.
  intros HQ. unfold odoo_rpc, odoo_exchange. apply respects_bind; [|respect]. apply respects_bind; [apply draw_sends|]. intros id.
  apply rescue_sends. apply respects_bind; [by apply send_sends|]. respect.
Qed.

Lemma execute_kw_sends (allowed : string -> string -> list pyval -> Prop) model method args kwargs :
  allowed model method args -> Respects (sending (calls allowed)) (execute_kw (P := P) fresh c model method args kwargs).
Proof.
  intros Ha. unfold execute_kw. apply respects_bind; [apply respects_lift|]. intros secret. apply respects_bind.
  { apply odoo_rpc_sends. intros id. left. by eauto. }
  intros uid. destruct (negb (positive_int uid)); [apply respects_throw|]. apply odoo_rpc_sends. intros id. right. eauto 10.
Qed.

Lemma odoo_search_sends (allowed : string -> string -> list pyval -> Prop) model field value fields :
  (forall args, allowed model "search_read" args) -> Respects (sending (calls allowed)) (odoo_search (P := P) fresh c model field value fields).
Proof. intros Ha. unfold odoo_search. apply respects_bind; [by apply execute_kw_sends|]. respect. Qed.

(** The object calls the financial connector may make: searches and reads, the creation
    of one of the three drafts, and the marking and confirmation of a purchase order. *)
Inductive draft_call : string -> string -> list pyval -> Prop :=
  | draft_search operation model args : financial_model operation = Some model -> draft_call model "search_read" args
  | draft_read id : draft_call "purchase.order" "read" [VList [id]]
  | draft_create operation model request_ref subject_ref parameters values :
      financial_model operation = Some model -> create_values c operation request_ref subject_ref parameters = Ok values ->
      draft_call model "create" [VDict values]
  | draft_mark id request_ref :
      draft_call "purchase.order" "write" [VList [id]; VDict [(oc_transaction_confirm_request_ref_field c, VStr request_ref)]]
  | draft_confirm id : draft_call "purchase.order" "button_confirm" [VList [id]].

Inductive FinancialCall :=
  | FinancialInvoke (request_ref subject_ref : string) (parameters : pydict) (operation : string)
  | FinancialReconcile (request_ref operation : string)
  | FinancialObserve (operation subject_ref : string) (expected_postcondition : pydict).

Definition after_financial `{JsonLibrary} (call : FinancialCall) (w : Wire P) : Wire P :=
  match call with
  | FinancialInvoke request_ref subject_ref parameters operation =>
      snd (financial_invoke fresh c request_ref subject_ref parameters operation w)
  | FinancialReconcile request_ref operation => snd (financial_reconcile fresh c request_ref operation w)
  | FinancialObserve operation subject_ref expected => snd (financial_observe fresh c operation subject_ref expected w)
  end.

(** Reconciling and observing only search. *)
Definition financial_allows (call : FinancialCall) : string -> string -> list pyval -> Prop :=
  match call with
  | FinancialInvoke _ _ _ _ => draft_call
  | _ => fun model method _ => method = "search_read" /\ exists operation, financial_model operation = Some model
  end.

Lemma purchase_order_model : financial_model "purchase_order.create_draft" = Some "purchase.order".
Proof. done. Qed.
Lemma vendor_bill_model : financial_model "vendor_bill.create_draft" = Some "account.move".
Proof. done. Qed.

Lemma confirm_sends request_ref parameters : Respects (sending (calls draft_call)) (confirm_purchase_order (P := P) fresh c request_ref parameters).
Proof.
  unfold confirm_purchase_order. apply rescue_sends. apply respects_bind.
  { apply odoo_search_sends. intros args. eapply draft_search, purchase_order_model. }
  intros existing.
  assert (Hconfirm : forall id row, Respects (sending (calls draft_call)) (confirmable (P := P) fresh c id row request_ref)).
  { intros id row. unfold confirmable. destruct row; try apply respects_ret. apply respects_bind; [apply respects_lift|].
    intros confirmed. destruct confirmed; [apply respects_ret|]. apply respects_bind; [apply execute_kw_sends; constructor|].
    intros written. destruct written as [|[]| | | | |]; try apply respects_ret. apply respects_bind; [apply execute_kw_sends; constructor|]. respect. }
  assert (Hread : forall id : pyval, Respects (sending (calls draft_call))
            (bind (execute_kw (P := P) fresh c "purchase.order" "read" [VList [id]]
                (VDict [("fields", texts ["id"; "state"; oc_transaction_confirm_request_ref_field c])]))
               (fun rows => confirmable fresh c id (match as_rows rows with [row] => row | _ => VNone end) request_ref))).
  { intros id. apply respects_bind; [apply execute_kw_sends; constructor|]. intros rows. apply Hconfirm. }
  destruct existing as [|row [|? ?]]; [| |apply respects_ret]; (apply respects_bind; [apply respects_lift|]);
    (intros [id|]; [apply Hread|apply respects_ret]).
Qed.

Lemma draft_invoke_sends model operation request_ref subject_ref parameters :
  financial_model operation = Some model ->
  Respects (sending (calls draft_call)) (draft_invoke (P := P) fresh c model operation request_ref subject_ref parameters).
Proof.
  intros Hm. assert (Hsearch : forall field value fields, Respects (sending (calls draft_call)) (odoo_search (P := P) fresh c model field value fields)).
  { intros. apply odoo_search_sends. intros args. by eapply draft_search. }
  unfold draft_invoke. apply rescue_sends. apply respects_bind; [apply Hsearch|]. intros existing. apply unless_settled_sends.
  apply respects_bind.
  { unfold check_subject. destruct (String.eqb operation "expense_report.create"); [apply respects_ret|].
    apply respects_bind; [apply Hsearch|]. respect. }
  intros by_subject. apply unless_settled_sends. apply respects_bind.
  { unfold check_vendor_bill. destruct (String.eqb operation "vendor_bill.create_draft"); [|apply respects_ret].
    apply respects_bind; [|respect]. unfold find_existing_vendor_bills. apply respects_bind; [apply respects_lift|].
    intros [vendor|]; [|apply respects_ret]. destruct (negb _); [apply respects_ret|]. apply respects_bind; [|respect].
    apply execute_kw_sends. eapply draft_search, vendor_bill_model. }
  intros duplicate. apply unless_settled_sends. apply respects_lift_bind. intros values Hv.
  apply respects_bind; [apply execute_kw_sends; by eapply draft_create|]. respect.
Qed.

(** C39: Whatever Odoo answers and wherever an exchange breaks off, the financial connector
    sends nothing but authentications, searches on its three models, reads of purchase
    orders, the creation of a draft with exactly the values computed for its operation,
    and the marking and confirmation of a purchase order: no call pays, posts or settles
    anything. Reconciling and observing only search. *)
Theorem financial_connector_is_bounded `{JsonLibrary} call w :
  sends_only (calls (financial_allows call)) w (after_financial call w).
Proof.
  assert (Hrun : forall A (m : M (Wire P) A) Q, Respects (sending Q) m -> sends_only Q w (snd (m w))).
  { intros A m Q Hm. destruct (m w) as [r w'] eqn:E. apply Hm in E. by destruct r. }
  destruct call as [request_ref subject_ref parameters operation|request_ref operation|operation subject_ref expected];
    cbn [after_financial financial_allows]; apply Hrun.
  - unfold financial_invoke. destruct (financial_model operation) as [model|] eqn:Hm; [by apply draft_invoke_sends|].
    destruct (String.eqb _ _); [apply confirm_sends|apply respects_ret].
  - unfold financial_reconcile. destruct (financial_model operation) as [model|] eqn:Hm; [|apply respects_ret].
    apply rescue_sends. apply respects_bind; [|respect]. apply odoo_search_sends. by eauto.
  - unfold financial_observe.
    assert (Hgo : forall model, (exists op, financial_model op = Some model) -> Respects (sending (calls (financial_allows (FinancialObserve operation subject_ref expected))))
        (odoo_search (P := P) fresh c model (oc_transaction_subject_ref_field c) subject_ref
           ["id"; "state"; oc_transaction_subject_ref_field c; oc_transaction_payload_field c])).
    { intros model Hm. apply odoo_search_sends. intros args. by split. }
    destruct (String.eqb operation "purchase_order.confirm").
    + apply rescue_sends. apply respects_bind; [apply Hgo; eexists; apply purchase_order_model|]. respect.
    + destruct (financial_model operation) as [model|] eqn:Hm; [|apply respects_ret].
      apply rescue_sends. apply respects_bind; [apply Hgo; by eauto|]. respect.
Qed.
End effects.
End odoo_calls.

(** ** The human-resources source only reads *)

Section source_calls.
Context `{Platform} `{CredentialResolver} {P : Type} `{HttpService P} (fresh : nat -> uuid) (h : OdooHRFactSource).

Definition reading_call (model method : string) (args : list pyval) : Prop :=
  method ∈ ["read"; "search_read"; "search_count"; "fields_get"].
Abbreviation reads_of := (odoo_call (hs_base_url h) (hs_database h) (hs_username h) reading_call) (only parsing).

Definition source_sending : Motion (SourceWire (P := P)).
Proof.
  refine (mkMotion (fun s s' => sends_only reads_of (sw_wire s) (sw_wire s')) (fun _ s s' => sends_only reads_of (sw_wire s) (sw_wire s'))
            _ _ _ _); intros; [apply sends_only_refl|by eapply sends_only_trans|done|by eapply sends_only_trans].
Defined.

#[local] Instance on_wire_reads {A} (m : M (Wire P) A) : Respects (sending reads_of) m -> Respects source_sending (on_wire m).
Proof.
  intros Hm s r s'. unfold on_wire. destruct (m (sw_wire s)) as [r1 w] eqn:E. apply Hm in E. intros [= <- <-]. by destruct r1.
Qed.
#[local] Instance remember_model_reads model b : Respects source_sending (remember_model model b).
Proof. intros s r s' [= <- <-]. apply sends_only_refl. Qed.
#[local] Instance remember_fields_reads model l : Respects source_sending (remember_fields model l).
Proof. intros s r s' [= <- <-]. apply sends_only_refl. Qed.

#[local] Instance source_rpc_sends service method args :
  (forall id, reads_of (rpc_request (hs_base_url h) id service method args)) ->
  Respects (sending reads_of) (source_rpc (P := P) fresh h service method args).
Proof.
  intros HQ. unfold source_rpc. apply respects_bind; [apply draw_sends|]. intros id. apply respects_bind; [|respect].
  apply rescue_sends. apply respects_bind; [by apply send_sends|]. respect.
Qed.

Lemma source_execute_kw_sends model method args kwargs :
  reading_call model method args -> Respects (sending reads_of) (source_execute_kw (P := P) fresh h model method args kwargs).
Proof.
  intros Ha. unfold source_execute_kw. apply respects_bind; [apply respects_lift|]. intros secret. apply respects_bind.
  { apply source_rpc_sends. intros id. left. by eauto. }
  intros uid. destruct (negb (positive_int uid)); [apply respects_throw|]. apply source_rpc_sends. intros id. right. eauto 10.
Qed.

Ltac reads_only := apply source_execute_kw_sends; unfold reading_call; set_solver.

#[local] Instance available_fields_reads model : Respects source_sending (available_fields (P := P) fresh h model).
Proof.
  unfold available_fields. apply respects_bind; [apply respects_gets|]. intros [l|]; [apply respects_ret|].
  apply respects_bind; [|respect]. apply on_wire_reads, rescue_sends. apply respects_bind; [reads_only|]. respect.
Qed.

#[local] Instance known_fields_reads names : Respects source_sending (known_fields (P := P) fresh h names).
Proof. induction names as [|name names IH]; cbn [known_fields]; respect. Qed.

#[local] Instance latest_contract_reads id : Respects source_sending (latest_contract (P := P) fresh h id).
Proof.
  unfold latest_contract. apply respects_bind.
  { unfold model_available. apply respects_bind; [apply respects_gets|]. intros [b|]; [apply respects_ret|].
    apply respects_bind; [|respect]. apply on_wire_reads, rescue_sends. apply respects_bind; [reads_only|]. respect. }
  intros installed. destruct (negb installed); [apply respects_ret|].
  apply respects_bind; [apply on_wire_reads; reads_only|]. respect.
Qed.

#[local] Instance source_read_employee_reads ref now : Respects source_sending (source_read_employee (P := P) fresh h ref now).
Proof.
  unfold source_read_employee. apply respects_bind; [apply respects_lift|]. intros id. apply respects_bind; [apply known_fields_reads|].
  intros known. apply respects_bind; [apply on_wire_reads; reads_only|]. respect.
Qed.

(** Whatever Odoo answers, the human-resources source sends nothing but authentications
    and reads. *)
Theorem hr_source_only_reads ref now s :
  sends_only reads_of (sw_wire s) (sw_wire (snd (source_read_employee fresh h ref now s))) /\
  sends_only reads_of (sw_wire s) (sw_wire (snd (source_read_department fresh h ref now s))) /\
  sends_only reads_of (sw_wire s) (sw_wire (snd (source_read_manager fresh h ref now s))).
Proof.
  assert (Hrun : forall A (m : M (SourceWire (P := P)) A), Respects source_sending m -> sends_only reads_of (sw_wire s) (sw_wire (snd (m s)))).
  { intros A m Hm. destruct (m s) as [r s'] eqn:E. apply Hm in E. by destruct r. }
  split_and!; apply Hrun.
  - apply source_read_employee_reads.
  - unfold source_read_department. apply respects_bind; [apply respects_lift|]. intros id.
    apply respects_bind; [apply on_wire_reads; reads_only|]. respect.
  - unfold source_read_manager. respect.
Qed.
End source_calls.

(** ** Odoo: records carry a request identity at most once *)

(** The result of a JSON-RPC exchange that was answered without an error. *)
Definition rpc_answer (d : Delivery) : option pyval :=
  match d with
  | Delivered r =>
      if (200 <=? rs_status_code r) && (rs_status_code r <? 300) then
        match rs_body r with
        | Json (VDict fields) => match dict_get fields "error" with VNone => Some (dict_get fields "result") | _ => None end
        | _ => None
        end
      else None
  | Lost _ => None
  end.

Definition sets_text (values : pydict) (f v : string) : bool :=
  match assoc f values with Some (VStr s) => String.eqb s v | _ => false end.

(** The records of a model in an object call, as Odoo's external API documents its
    methods: [tagged p model field value] counts the records of [model] whose custom
    field [field] is the text [value]. Whether a call is answered, refused or lost, it
    changes the records as stated. *)
Class OdooService (P : Type) `{HttpService P} := {
  tagged : P -> string -> string -> string -> nat;
  odoo_authenticates p base id args : forall m f v,
    tagged (snd (http p (rpc_request base id "common" "authenticate" args))) m f v = tagged p m f v;
  (** [read] and [search_read] change nothing; [button_confirm] no custom field *)
  odoo_keeps p base id db uid secret model method args kwargs :
    method ∈ ["read"; "search_read"; "button_confirm"] -> forall m f v, String.prefix "x_" f = true ->
    tagged (snd (http p (rpc_request base id "object" "execute_kw" [db; uid; secret; VStr model; VStr method; args; kwargs]))) m f v
      = tagged p m f v;
  (** [search_read] of one equation with a limit of two lists that many records *)
  odoo_searches p base id db uid secret model f v fields found :
    rpc_answer (fst (http p (rpc_request base id "object" "execute_kw"
      [db; uid; secret; VStr model; VStr "search_read"; equals [(f, VStr v)]; search_options fields]))) = Some found ->
    exists rows, found = VList rows /\ length rows = Nat.min 2 (tagged p model f v);
  (** [write] sets the fields it is given *)
  odoo_writes p base id db uid secret model ids values kwargs : forall m f v, f ∉ values.*1 ->
    tagged (snd (http p (rpc_request base id "object" "execute_kw"
      [db; uid; secret; VStr model; VStr "write"; VList [ids; VDict values]; kwargs]))) m f v = tagged p m f v;
  (** [create] adds at most one record, with the fields it is given *)
  odoo_creates p base id db uid secret model values kwargs : forall m f v, String.prefix "x_" f = true ->
    (tagged (snd (http p (rpc_request base id "object" "execute_kw"
      [db; uid; secret; VStr model; VStr "create"; VList [VDict values]; kwargs]))) m f v
      <= tagged p m f v + (if bool_decide (m = model) && sets_text values f v then 1 else 0))%nat;
}.

(** The identity fields are custom fields of their own, none of them a field the
    connectors write for another purpose. *)
Definition separate_fields (c : OdooEffectConnection) : bool :=
  let fields := [oc_request_ref_field c; oc_deactivate_request_ref_field c; oc_subject_ref_field c;
                 oc_transaction_request_ref_field c; oc_transaction_confirm_request_ref_field c;
                 oc_transaction_subject_ref_field c; oc_transaction_payload_field c;
                 "x_administrative_manager_principal_id"; "x_administrative_employment_type"; "x_administrative_start_date"] in
  forallb (String.prefix "x_") fields && bool_decide (NoDup fields).

(** The field that carries the request identity of the records of a model. *)
Definition request_identity (c : OdooEffectConnection) (model : string) : option string :=
  if bool_decide (model = "hr.employee") then Some (oc_request_ref_field c) else
  if bool_decide (model ∈ ["purchase.order"; "account.move"; "hr.expense"]) then Some (oc_transaction_request_ref_field c) else None.

Section created_once.
Context `{Platform} `{CredentialResolver} {P : Type} `{OdooService P} (fresh : nat -> uuid) (c : OdooEffectConnection).

(** No record of a connector's models shares its request identity with another. *)
Definition identified_once (w : Wire P) : Prop :=
  forall model field ref, request_identity c model = Some field -> (tagged (wr_service w) model field ref <= 1)%nat.

(** The connectors that write employees and transactions. *)
Inductive OdooCall :=
  | EmployeeInvoke (request_ref subject_ref : string) (parameters : pydict)
  | EmployeeReconcile (request_ref : string)
  | TransactionInvoke (request_ref subject_ref : string) (parameters : pydict) (operation : string)
  | TransactionReconcile (request_ref operation : string)
  | DeactivateInvoke (request_ref subject_ref : string) (parameters : pydict)
  | DeactivateReconcile (request_ref : string).

Definition after_odoo (call : OdooCall) (w : Wire P) : Wire P :=
  match call with
  | EmployeeInvoke request_ref subject_ref parameters => snd (employee_invoke fresh c request_ref subject_ref parameters w)
  | EmployeeReconcile request_ref => snd (employee_reconcile fresh c request_ref w)
  | TransactionInvoke request_ref subject_ref parameters operation =>
      snd (financial_invoke fresh c request_ref subject_ref parameters operation w)
  | TransactionReconcile request_ref operation => snd (financial_reconcile fresh c request_ref operation w)
  | DeactivateInvoke request_ref subject_ref parameters => snd (deactivate_invoke fresh c request_ref subject_ref parameters w)
  | DeactivateReconcile request_ref => snd (deactivate_reconcile fresh c request_ref w)
  end.

(** A call of a connector, or anything else that happens in Odoo and adds no record
    under a request identity. *)
Inductive odoo_step (w : Wire P) : Wire P -> Prop :=
  | os_call call : odoo_step w (after_odoo call w)
  | os_elsewhere w' :
      (forall model field ref, request_identity c model = Some field ->
         tagged (wr_service w') model field ref <= tagged (wr_service w) model field ref)%nat ->
      odoo_step w w'.

(** Calls that add nothing under a request identity. *)
Definition adds_nothing (w w' : Wire P) : Prop :=
  forall model field ref, request_identity c model = Some field ->
    (tagged (wr_service w') model field ref <= tagged (wr_service w) model field ref)%nat.

Lemma adds_nothing_refl w : adds_nothing w w.
Proof. intros model field ref _. lia. Qed.
Lemma adds_nothing_trans w1 w2 w3 : adds_nothing w1 w2 -> adds_nothing w2 w3 -> adds_nothing w1 w3.
Proof. intros H12 H23 model field ref Hi. specialize (H12 _ _ ref Hi). specialize (H23 _ _ ref Hi). lia. Qed.

Definition keeping : Motion (Wire P).
Proof.
  refine (mkMotion adds_nothing (fun _ => adds_nothing) _ _ _ _); intros;
    [apply adds_nothing_refl|by eapply adds_nothing_trans|done|by eapply adds_nothing_trans].
Defined.

#[local] Instance draw_keeps : Respects keeping (draw (P := P) fresh).
Proof. intros w r w' [= <- <-] model field ref _. cbn. lia. Qed.
#[local] Instance rescue_keeps {A} (m : M (Wire P) A) handler : Respects keeping m -> Respects keeping (rescue m handler).
Proof. by apply respects_rescue. Qed.
#[local] Instance unless_settled_keeps {A} (r : result (option A)) (k : M (Wire P) A) :
  Respects keeping k -> Respects keeping (unless_settled r k).
Proof. intros Hk. unfold unless_settled. respect. Qed.

(** What one exchange does to the service. *)
Lemma odoo_rpc_inv service method args w r w' :
  odoo_rpc (P := P) fresh c service method args w = (r, w') ->
  exists id, let exchange := http (wr_service w) (rpc_request (oc_base_url c) id service method args) in
    wr_service w' = snd exchange /\ forall v, r = Ok v -> rpc_answer (fst exchange) = Some v.
Proof.
  unfold odoo_rpc, odoo_exchange, bind, draw, rescue, send, lift. cbn [wr_service wr_drawn wr_sent].
  generalize (uuid_str (fresh (wr_drawn w))). intros id Hrun. exists id. cbn zeta.
  generalize dependent (rpc_request (oc_base_url c) id service method args). intros q Hrun.
  destruct (http (wr_service w) q) as [d p]; cbn [fst snd].
  assert (Hno : forall e w1, (@Err pyval e, w1) = (r, w') -> wr_service w1 = p ->
                  wr_service w' = p /\ forall v, r = Ok v -> rpc_answer d = Some v) by (intros e w1 [= <- <-]; by split).
  unfold rpc_answer in *. destruct d as [name|resp]; cbn in Hrun; [by apply (Hno _ _ Hrun)|].
  unfold raise_for_status, guard, response_json in Hrun.
  destruct ((200 <=? rs_status_code resp) && (rs_status_code resp <? 300)); cbn in Hrun; [|by apply (Hno _ _ Hrun)].
  destruct (rs_body resp) as [name|v]; cbn in Hrun; [by apply (Hno _ _ Hrun)|]. destruct v; cbn in Hrun; try by apply (Hno _ _ Hrun).
  destruct (dict_get d "error"); cbn in Hrun; try by apply (Hno _ _ Hrun). injection Hrun as <- <-. split; [done|]. by intros v [= <-].
Qed.

(** An object call authenticates, and may get no further. *)
Lemma execute_kw_inv model method args kwargs w r w' :
  execute_kw (P := P) fresh c model method args kwargs w = (r, w') ->
  exists p, (forall m f v, tagged p m f v = tagged (wr_service w) m f v) /\
    ((wr_service w' = p /\ forall v, r <> Ok v) \/
     exists id uid secret, let exchange := http p (rpc_request (oc_base_url c) id "object" "execute_kw"
         [VStr (oc_database c); uid; VStr secret; VStr model; VStr method; VList args; kwargs]) in
       wr_service w' = snd exchange /\ forall v, r = Ok v -> rpc_answer (fst exchange) = Some v).
Proof.
  unfold execute_kw. intros Hrun. unfold bind at 1, lift in Hrun. destruct (resolve (oc_credential c)) as [secret|e].
  2: { injection Hrun as <- <-. exists (wr_service w). by eauto. }
  unfold bind in Hrun. destruct (odoo_rpc fresh c "common" "authenticate" _ w) as [r1 w1] eqn:Hauth.
  apply odoo_rpc_inv in Hauth as (id & Hp & _). exists (wr_service w1). split; [rewrite Hp; intros; apply odoo_authenticates|].
  destruct r1 as [uid|e]; [|left; by simplify_eq]. destruct (negb (positive_int uid)); [left; by injection Hrun as <- <-|].
  right. apply odoo_rpc_inv in Hrun as (id' & Hrun). by exists id', uid, secret.
Qed.

Section separate.
Context (Hc : separate_fields c = true).

Lemma identity_custom model field : request_identity c model = Some field -> String.prefix "x_" field = true.
Proof.
  unfold separate_fields in Hc. apply andb_true_iff in Hc as [Hx _]. rewrite forallb_elem_of in Hx. unfold request_identity.
  intros Hi. repeat case_bool_decide; simplify_eq; apply Hx; set_solver.
Qed.

Lemma execute_kw_keeps model method args kwargs :
  method ∈ ["read"; "search_read"; "button_confirm"] -> Respects keeping (execute_kw (P := P) fresh c model method args kwargs).
Proof.
  intros Hm w r w' Hrun. assert (adds_nothing w w'); [|by destruct r]. intros model' field ref Hi%identity_custom.
  apply execute_kw_inv in Hrun as (p & Hp & [[-> _]|(id & uid & secret & -> & _)]); rewrite <- Hp; [done|].
  by rewrite odoo_keeps.
Qed.

Lemma write_keeps model ids values kwargs :
  (forall m f, request_identity c m = Some f -> f ∉ values.*1) ->
  Respects keeping (execute_kw (P := P) fresh c model "write" [ids; VDict values] kwargs).
Proof.
  intros Hv w r w' Hrun. assert (adds_nothing w w'); [|by destruct r]. intros model' field ref Hi.
  apply execute_kw_inv in Hrun as (p & Hp & [[-> _]|(id & uid & secret & -> & _)]); rewrite <- Hp; [done|].
  rewrite odoo_writes; [done|by eapply Hv].
Qed.

Lemma search_exact model field value fields w rows w' :
  String.prefix "x_" field = true ->
  odoo_search (P := P) fresh c model field value fields w = (Ok rows, w') ->
  length rows = Nat.min 2 (tagged (wr_service w) model field value) /\
  tagged (wr_service w') model field value = tagged (wr_service w) model field value.
Proof.
  intros Hf Hrun. unfold odoo_search in Hrun. apply bind_Ok in Hrun as (found & w1 & Hrun & [= <- <-]).
  apply execute_kw_inv in Hrun as (p & Hp & [[_ Hno]|(id & uid & secret & Hw & Ha)]); [by destruct (Hno found)|].
  specialize (Ha _ eq_refl). apply odoo_searches in Ha as (rows & -> & Hlen). rewrite Hp in Hlen. split; [done|].
  rewrite Hw, odoo_keeps; [by rewrite Hp|set_solver|done].
Qed.

(** A creation under an identity no record carries leaves at most one that does. *)
Lemma create_once model field request_ref values kwargs w r w' :
  request_identity c model = Some field -> assoc field values = Some (VStr request_ref) ->
  tagged (wr_service w) model field request_ref = 0%nat -> identified_once w ->
  execute_kw (P := P) fresh c model "create" [VDict values] kwargs w = (r, w') -> identified_once w'.
Proof.
  intros Hm Hv Hzero Hw Hrun model' field' ref Hi. pose proof (Hw _ _ ref Hi) as Hone.
  apply execute_kw_inv in Hrun as (p & Hp & [[-> _]|(id & uid & secret & -> & _)]); [by rewrite Hp|].
  pose proof (odoo_creates p (oc_base_url c) id (VStr (oc_database c)) uid (VStr secret) model values kwargs model' field' ref
                (identity_custom _ _ Hi)) as Hadd.
  rewrite Hp in Hadd. case_bool_decide as Heq; cbn [andb] in Hadd; [|lia]. subst model'. simplify_eq. unfold sets_text in Hadd.
  rewrite Hv in Hadd. destruct (String.eqb request_ref ref) eqn:E; [|lia]. apply String.eqb_eq in E as ->. lia.
Qed.

(** *** The values of a creation carry the request identity *)

Lemma ok_same {A} (a b : A) : Ok a = Ok b -> a = b.
Proof. by intros [= ->]. Qed.

Lemma custom_ne f k : String.prefix "x_" f = true -> String.prefix "x_" k = false -> f <> k.
Proof. by intros Hf Hk ->; rewrite Hf in Hk. Qed.

Lemma assoc_set_other (d : pydict) f k v : f <> k -> assoc f (dict_set d k v) = assoc f d.
Proof. intros Hne. rewrite assoc_dict_set. by rewrite bool_decide_eq_false_2. Qed.

Lemma assoc_set_all f (l d : pydict) :
  f ∉ l.*1 -> assoc f (fold_left (fun d kv => dict_set d (fst kv) (snd kv)) l d) = assoc f d.
Proof.
  revert d. induction l as [|[k v] l IH]; intros d Hf; [done|]. cbn. apply not_elem_of_cons in Hf as [Hne Hf].
  rewrite IH by done. by apply assoc_set_other.
Qed.

Lemma assoc_set_present f (d : pydict) k v : f <> k -> assoc f (set_present d k v) = assoc f d.
Proof. intros Hne. destruct v; [by apply assoc_set_other|done]. Qed.

Lemma assoc_set_given f (d : pydict) k v : f <> k ->
  assoc f (match v with
           | VNone => d
           | VBool b => dict_set d k (VBool b)
           | VInt z => dict_set d k (VInt z)
           | VFloat m e => dict_set d k (VFloat m e)
           | VStr t => dict_set d k (VStr t)
           | VList l => dict_set d k (VList l)
           | VDict x => dict_set d k (VDict x)
           end) = assoc f d.
Proof. intros Hne. destruct v; [done|by apply assoc_set_other..]. Qed.

Lemma separate_parts :
  Forall (fun f => String.prefix "x_" f = true) [oc_request_ref_field c; oc_transaction_request_ref_field c] /\
  oc_request_ref_field c ∉ [oc_deactivate_request_ref_field c; oc_subject_ref_field c; "x_administrative_manager_principal_id";
                            "x_administrative_employment_type"; "x_administrative_start_date"] /\
  oc_transaction_request_ref_field c ∉ [oc_deactivate_request_ref_field c; oc_transaction_confirm_request_ref_field c;
                                        oc_transaction_subject_ref_field c; oc_transaction_payload_field c] /\
  oc_transaction_confirm_request_ref_field c <> oc_request_ref_field c.
Proof.
  pose proof Hc as Hs. unfold separate_fields in Hs. apply andb_true_iff in Hs as [Hx Hd].
  rewrite forallb_elem_of in Hx. apply bool_decide_eq_true in Hd. rewrite !NoDup_cons in Hd.
  destruct_and!. split_and!; [repeat constructor; apply Hx; set_solver|set_solver..].
Qed.

Ltac other_field := solve [assumption | apply custom_ne; [assumption|reflexivity]].

Lemma employee_values_identity request_ref subject_ref parameters values :
  employee_values c request_ref subject_ref parameters = Ok values ->
  assoc (oc_request_ref_field c) values = Some (VStr request_ref).
Proof.
  destruct separate_parts as ((Hx & _)%Forall_cons & Hne & _). rewrite !not_elem_of_cons in Hne. destruct Hne as (_ & ? & ? & ? & ? & _).
  unfold employee_values. cbn zeta. intros Hv.
  apply rbind_Ok in Hv as (department & _ & Hv). apply rbind_Ok in Hv as (manager & _ & Hv). apply ok_same in Hv as <-.
  assert (Hlast : forall d, assoc (oc_request_ref_field c)
            (fold_left (fun values kf => match dict_get parameters (fst kf) with VNone => values | v => dict_set values (snd kf) v end)
               [("manager_principal_id", "x_administrative_manager_principal_id");
                ("employment_type", "x_administrative_employment_type");
                ("start_date", "x_administrative_start_date")] d) = assoc (oc_request_ref_field c) d).
  { intros d. cbn [fold_left fst snd]. by rewrite !assoc_set_given by other_field. }
  rewrite Hlast, !assoc_set_present by other_field.
  assert (Hmail : forall d, assoc (oc_request_ref_field c) (if truthy (dict_get parameters "work_email")
      then dict_set d "work_email" (dict_get parameters "work_email") else d) = assoc (oc_request_ref_field c) d).
  { intros d. destruct (truthy _); [apply assoc_set_other; other_field|done]. }
  rewrite Hmail. unfold dict_of. cbn [fold_left fst snd]. rewrite !assoc_set_other by other_field. cbn. by rewrite String.eqb_refl.
Qed.

Lemma create_values_identity operation request_ref subject_ref parameters values :
  create_values c operation request_ref subject_ref parameters = Ok values ->
  assoc (oc_transaction_request_ref_field c) values = Some (VStr request_ref).
Proof.
  destruct separate_parts as ((_ & (Hx & _)%Forall_cons)%Forall_cons & _ & Hne & _).
  rewrite !not_elem_of_cons in Hne. destruct Hne as (_ & _ & ? & ? & _). unfold create_values. cbn zeta.
  assert (Hbase : forall payload, assoc (oc_transaction_request_ref_field c)
            (dict_of [(oc_transaction_request_ref_field c, VStr request_ref); (oc_transaction_subject_ref_field c, VStr subject_ref);
                      (oc_transaction_payload_field c, payload)]) = Some (VStr request_ref)).
  { intros payload. unfold dict_of. cbn [fold_left fst snd]. rewrite !assoc_set_other by other_field. cbn. by rewrite String.eqb_refl. }
  assert (Hnot : forall l : list string, forallb (fun k => negb (String.prefix "x_" k)) l = true -> oc_transaction_request_ref_field c ∉ l).
  { intros l Hl Hin. rewrite forallb_elem_of in Hl. specialize (Hl _ Hin). by rewrite Hx in Hl. }
  intros Hv. destruct (String.eqb operation "purchase_order.create_draft").
  { apply rbind_Ok in Hv as (partner & _ & <-%ok_same). rewrite assoc_set_all by by apply Hnot. apply Hbase. }
  destruct (String.eqb operation "vendor_bill.create_draft").
  { apply rbind_Ok in Hv as (partner & _ & <-%ok_same). rewrite assoc_set_all by by apply Hnot. apply Hbase. }
  destruct (String.eqb operation "expense_report.create"); [|discriminate Hv].
  apply rbind_Ok in Hv as (employee & _ & <-%ok_same). rewrite assoc_set_all by by apply Hnot. apply Hbase.
Qed.

(** *** The calls *)

Lemma keeps_once w w' : adds_nothing w w' -> identified_once w -> identified_once w'.
Proof. intros Ha Hw model field ref Hi. specialize (Ha _ _ ref Hi). specialize (Hw _ _ ref Hi). lia. Qed.

Lemma respects_keeps_once {A} (m : M (Wire P) A) w : Respects keeping m -> identified_once w -> identified_once (snd (m w)).
Proof. intros Hm. destruct (m w) as [r w'] eqn:E. apply Hm in E. apply keeps_once. by destruct r. Qed.

(** No record carries the identity yet. *)
Definition unused (model field ref : string) (w : Wire P) : Prop :=
  identified_once w /\ tagged (wr_service w) model field ref = 0%nat.

Section one_identity.
Context (model field ref : string) (Hi : request_identity c model = Some field).

(** What keeps the identity unused may come before what uses it. *)
Lemma unused_then {A B} (m : M (Wire P) A) (k : A -> M (Wire P) B) w :
  Respects keeping m -> (forall a w1, m w = (Ok a, w1) -> unused model field ref w1 -> identified_once (snd (k a w1))) ->
  unused model field ref w -> identified_once (snd (bind m k w)).
Proof.
  intros Hm Hk [Hw Hzero]. unfold bind. destruct (m w) as [[a|e] w1] eqn:E; pose proof (Hm _ _ _ E) as Ha.
  - apply (Hk a); [done|]. split; [exact (keeps_once _ _ Ha Hw)|]. specialize (Ha _ _ ref Hi). lia.
  - exact (keeps_once _ _ Ha Hw).
Qed.

Lemma unused_unless {A} (r : result (option A)) (k : M (Wire P) A) w :
  (unused model field ref w -> identified_once (snd (k w))) -> unused model field ref w -> identified_once (snd (unless_settled r k w)).
Proof. intros Hk Hw. unfold unless_settled, bind, lift. destruct r as [[a|]|e]; [exact (proj1 Hw)|by apply Hk|exact (proj1 Hw)]. Qed.

(** A lookup of the identity goes on only when it is unused. *)
Lemma looked_up {A} (fields : list string) (settle : list pyval -> result (option A)) (k : M (Wire P) A) w :
  (forall row rows, settle (row :: rows) <> Ok None) ->
  (forall w1, unused model field ref w1 -> identified_once (snd (k w1))) -> identified_once w ->
  identified_once (snd (bind (odoo_search fresh c model field ref fields) (fun rows => unless_settled (settle rows) k) w)).
Proof.
  intros Hs Hk Hw. unfold bind. assert (Hkeep : Respects keeping (odoo_search (P := P) fresh c model field ref fields)).
  { unfold odoo_search. apply respects_bind; [|respect]. apply execute_kw_keeps. set_solver. }
  destruct (odoo_search fresh c model field ref fields w) as [[rows|e] w1] eqn:E; pose proof (Hkeep _ _ _ E) as Ha;
    pose proof (keeps_once _ _ Ha Hw) as Hw1; [|done].
  apply search_exact in E as [Hlen Hsame]; [|by eapply identity_custom].
  destruct rows as [|row rows].
  - unfold unless_settled, bind, lift. destruct (settle []) as [[a|]|e]; [done| |done]. apply Hk. split; [done|]. simpl length in Hlen. rewrite Hsame. lia.
  - unfold unless_settled, bind, lift. specialize (Hs row rows). by destruct (settle (row :: rows)) as [[a|]|e].
Qed.

Lemma settled_by_some of_id code message reconciled row rows :
  settled_by (H := H) model of_id code message reconciled (row :: rows) <> Ok None.
Proof.
  destruct rows as [|row' rows]; cbn; [|done]. destruct (item_at row "id") as [id|e]; cbn; [|done]. by destruct (of_id id).
Qed.
End one_identity.

#[local] Instance search_keeps model field value fields : Respects keeping (odoo_search (P := P) fresh c model field value fields).
Proof. unfold odoo_search. apply respects_bind; [|respect]. apply execute_kw_keeps. set_solver. Qed.
#[local] Instance lookup_keeps field value : Respects keeping (odoo_lookup (P := P) fresh c field value).
Proof. apply search_keeps. Qed.
#[local] Instance read_row_keeps id : Respects keeping (read_employee_row (P := P) fresh c id).
Proof. unfold read_employee_row. apply respects_bind; [|respect]. apply execute_kw_keeps. set_solver. Qed.

Lemma employee_identity : request_identity c "hr.employee" = Some (oc_request_ref_field c).
Proof. unfold request_identity. by rewrite bool_decide_eq_true_2. Qed.

Lemma draft_identity operation model : financial_model operation = Some model -> request_identity c model = Some (oc_transaction_request_ref_field c).
Proof.
  unfold financial_model. intros Hm%assoc_elem_of. unfold request_identity.
  rewrite !elem_of_cons, elem_of_nil in Hm. destruct Hm as [[= _ ->]|[[= _ ->]|[[= _ ->]|[]]]]; reflexivity.
Qed.

Lemma employee_invoke_once request_ref subject_ref parameters w :
  identified_once w -> identified_once (snd (employee_invoke fresh c request_ref subject_ref parameters w)).
Proof.
  unfold employee_invoke. rewrite rescue_world. apply looked_up; [apply employee_identity|apply settled_by_some|].
  intros w1. apply unused_then; [apply employee_identity|apply lookup_keeps|]. intros by_subject w2 _. apply unused_unless.
  intros [Hw Hzero]. unfold bind, lift. destruct (employee_values c request_ref subject_ref parameters) as [values|e] eqn:Hv; [|done].
  destruct (execute_kw fresh c "hr.employee" "create" _ _ w2) as [r w3] eqn:Hx.
  apply (create_once "hr.employee" (oc_request_ref_field c) request_ref) in Hx;
    [by destruct r|apply employee_identity|by eapply employee_values_identity|done|done].
Qed.

#[local] Instance check_subject_keeps operation model subject_ref : Respects keeping (check_subject (P := P) fresh c operation model subject_ref).
Proof. unfold check_subject. respect. Qed.
#[local] Instance check_vendor_bill_keeps operation parameters : Respects keeping (check_vendor_bill (P := P) fresh c operation parameters).
Proof.
  unfold check_vendor_bill. destruct (String.eqb operation "vendor_bill.create_draft"); [|apply respects_ret].
  apply respects_bind; [|respect]. unfold find_existing_vendor_bills. apply respects_bind; [apply respects_lift|].
  intros [vendor|]; [|apply respects_ret]. destruct (negb _); [apply respects_ret|]. apply respects_bind; [|respect].
  apply execute_kw_keeps. set_solver.
Qed.

Lemma draft_invoke_once model operation request_ref subject_ref parameters w :
  financial_model operation = Some model -> identified_once w ->
  identified_once (snd (draft_invoke fresh c model operation request_ref subject_ref parameters w)).
Proof.
  intros Hm%draft_identity. unfold draft_invoke. rewrite rescue_world. apply looked_up; [done|apply settled_by_some|].
  intros w1. apply unused_then; [done|apply check_subject_keeps|]. intros by_subject w2 _. apply unused_unless.
  apply unused_then; [done|apply check_vendor_bill_keeps|]. intros duplicate w3 _. apply unused_unless.
  intros [Hw Hzero]. unfold bind, lift. destruct (create_values c operation request_ref subject_ref parameters) as [values|e] eqn:Hv; [|done].
  destruct (execute_kw fresh c model "create" _ _ w3) as [r w4] eqn:Hx.
  apply (create_once model (oc_transaction_request_ref_field c) request_ref) in Hx;
    [by destruct r|done|by eapply create_values_identity|done|done].
Qed.

(** Neither marker is a request identity. *)
Lemma identity_not_marker model field :
  request_identity c model = Some field ->
  field <> oc_transaction_confirm_request_ref_field c /\ field <> oc_deactivate_request_ref_field c /\ field <> "active".
Proof.
  intros Hi. pose proof (identity_custom _ _ Hi) as Hx. destruct separate_parts as (_ & Hr & Ht & Hcr).
  rewrite !not_elem_of_cons in Hr, Ht. unfold request_identity in Hi.
  split_and!; [| |by apply custom_ne]; repeat case_bool_decide; simplify_eq; naive_solver.
Qed.

#[local] Instance confirm_keeps request_ref parameters : Respects keeping (confirm_purchase_order (P := P) fresh c request_ref parameters).
Proof.
  unfold confirm_purchase_order. apply rescue_keeps. apply respects_bind; [apply search_keeps|]. intros existing.
  assert (Hconfirm : forall id row, Respects keeping (confirmable (P := P) fresh c id row request_ref)).
  { intros id row. unfold confirmable. destruct row; try apply respects_ret. apply respects_bind; [apply respects_lift|].
    intros confirmed. destruct confirmed; [apply respects_ret|]. apply respects_bind.
    { apply write_keeps. intros m f Hi%identity_not_marker. set_solver. }
    intros written. destruct written as [|[]| | | | |]; try apply respects_ret. apply respects_bind; [|respect].
    apply execute_kw_keeps. set_solver. }
  destruct existing as [|row [|? ?]]; [| |apply respects_ret]; (apply respects_bind; [apply respects_lift|]);
    (intros [id|]; [|apply respects_ret]); (apply respects_bind; [apply execute_kw_keeps; set_solver|]); intros rows; apply Hconfirm.
Qed.

#[local] Instance deactivate_keeps request_ref subject_ref parameters :
  Respects keeping (deactivate_invoke (P := P) fresh c request_ref subject_ref parameters).
Proof.
  unfold deactivate_invoke. apply respects_bind; [apply respects_lift|]. intros [id|]; [|apply respects_ret].
  apply rescue_keeps. apply respects_bind; [apply read_row_keeps|]. intros row. unfold deactivate_row.
  destruct (negb (truthy row)); [apply respects_ret|]. apply respects_bind; [apply respects_lift|]. intros raw.
  cbn zeta. destruct (_ && _); [apply respects_ret|]. apply respects_bind; [apply respects_lift|]. intros active.
  destruct (_ && _); [apply respects_ret|]. apply respects_bind; [|respect]. apply write_keeps. intros m f Hi%identity_not_marker.
  unfold dict_of. cbn [fold_left fst snd dict_set]. case_match; cbn; set_solver.
Qed.

End separate.
End created_once.

(** ** What was heard on the wire *)

Section heard.
Context {P : Type} `{HttpService P}.

Abbreviation anything := (fun _ : HttpRequest => True) (only parsing).

(** Between [w] and [w'] this exchange took place. *)
Definition exchanged (w w' : Wire P) (x : HttpRequest * Delivery) : Prop :=
  exists l, wr_sent w' = wr_sent w ++ l /\ x ∈ l.

Lemma exchanged_later w w1 w2 x : exchanged w w1 x -> sends_only anything w1 w2 -> exchanged w w2 x.
Proof.
  intros (l & Hl & Hx) (l' & Hl' & _). exists (l ++ l'). rewrite Hl', Hl, app_assoc. split; [done|]. apply elem_of_app. by left.
Qed.
Lemma exchanged_earlier w w1 w2 x : sends_only anything w w1 -> exchanged w1 w2 x -> exchanged w w2 x.
Proof.
  intros (l & Hl & _) (l' & Hl' & Hx). exists (l ++ l'). rewrite Hl', Hl, app_assoc. split; [done|]. apply elem_of_app. by right.
Qed.

Lemma send_Ok q w r w' : send q w = (Ok r, w') -> exchanged w w' (q, Delivered r).
Proof.
  unfold send. destruct (http (wr_service w) q) as [[name|resp] p]; [done|]. intros [= <- <-].
  eexists. split; [reflexivity|]. set_solver.
Qed.

Lemma grows_of {A} (m : M (Wire P) A) w a w' : Respects (sending anything) m -> m w = (Ok a, w') -> sends_only anything w w'.
Proof. intros Hm Hrun. exact (Hm _ _ _ Hrun). Qed.

#[export] Instance send_any q : Respects (sending anything) (send (P := P) q).
Proof. by apply send_sends. Qed.
End heard.

(** ** A message that was read back *)

Section readback.
Context `{Platform} `{CredentialResolver} `{JsonLibrary} `{HmacLibrary} {P : Type} `{HttpService P}.
Context (v : FeishuCommunicationVerifier) (clock : nat -> Z).

Lemma py_eq_text x s : py_eq x (VStr s) = true -> x = VStr s.
Proof. destruct x; cbn; try done. by intros ->%String.eqb_eq. Qed.

(** The ledger entry of the event, as the gateway answered it. *)
Definition ledger_read (expected ledger : pydict) (w w' : Wire P) : Prop :=
  exists secret seconds resp,
    exchanged w w' (ledger_request v secret (text_at expected "communication_event_id" "") seconds, Delivered resp) /\
    rs_body resp = Json (VDict ledger).

(** The message of the identifier, as Feishu answered it, with this text. *)
Definition message_read (message_id text : string) (w w' : Wire P) : Prop :=
  exists token resp raw data,
    exchanged w w' (mkHttpRequest "GET" (fv_base_url v +:+ "/open-apis/im/v1/messages/" +:+ message_id) []
                      [("Authorization", "Bearer " +:+ token)] None [] None, Delivered resp) /\
    rs_body resp = Json raw /\ message_data raw = inr data /\ message_text data = Some text.

#[local] Instance find_message_any expected : Respects (sending (fun _ => True)) (find_message (P := P) v clock expected).
Proof. unfold find_message. respect. Qed.
#[local] Instance verifier_token_any : Respects (sending (fun _ => True)) (verifier_token (P := P) v).
Proof. unfold verifier_token. respect. Qed.
#[local] Instance verify_recipient_any m r expected l : Respects (sending (fun _ => True)) (verify_recipient (P := P) v clock m r expected l).
Proof. unfold verify_recipient. respect. Qed.

Lemma response_json_Ok r x : response_json r = Ok x -> rs_body r = Json x.
Proof. unfold response_json. destruct (rs_body r); [done|]. by intros [= ->]. Qed.

Lemma find_message_ledger expected w m ledger w' :
  find_message (P := P) v clock expected w = (Ok (m, Some ledger), w') -> ledger_read expected ledger w w'.
Proof.
  unfold find_message. destruct (fv_gateway_secret v) as [credential|]; [|done]. destruct (_ || _); [done|]. intros Hrun.
  apply bind_Ok in Hrun as (secret & w1 & [= _ <-] & Hrun). apply bind_Ok in Hrun as (r & w2 & Hsend%send_Ok & Hrun).
  destruct (negb _); [done|]. apply bind_Ok in Hrun as (raw & w3 & [= Hraw <-] & Hrun). apply response_json_Ok in Hraw.
  destruct raw; try discriminate Hrun. injection Hrun as _ <- <-. by exists secret, (clock 0%nat), r.
Qed.

(** The recipient was compared with a ledger that was given or read now. *)
Lemma verify_recipient_success m recipient expected given w r w' :
  verify_recipient (P := P) v clock m recipient expected given w = (Ok r, w') -> cn_status r = CS_SUCCEEDED ->
  exists ledger, (given = Some ledger \/ ledger_read expected ledger w w') /\
    r = check_ledger m recipient expected (Some ledger).
Proof.
  unfold verify_recipient. intros Hrun Hs. destruct (fv_gateway_secret v) as [credential|]; [|by injection Hrun as <- _].
  destruct (negb _); [by injection Hrun as <- _|]. cbn zeta in Hrun. destruct (negb _); [by injection Hrun as <- _|].
  apply bind_Ok in Hrun as (secret & w1 & [= _ <-] & Hrun). apply bind_Ok in Hrun as (ledger & w2 & Hl & [= <- <-]).
  destruct given as [d|]; [injection Hl as <- <-; by eauto|].
  apply bind_Ok in Hl as (resp & w3 & Hsend%send_Ok & Hl). apply bind_Ok in Hl as ([] & w4 & [= _ <-] & Hl).
  apply bind_Ok in Hl as (raw & w5 & [= Hraw <-] & [= <- <-]). apply response_json_Ok in Hraw.
  destruct raw as [| | | | | |d]; cbn in Hs; try done. exists d. split; [|done]. right. by exists secret, (clock 1%nat), resp.
Qed.

(** C40: A message counts as observed only when, during the observation, Feishu returned
    under its identifier a text with the digest of the frozen draft and the gateway's
    ledger returned for its event the digest of the governed recipient and no other
    message; what is then observed is exactly the expectation with that identifier. *)
Theorem readback_is_genuine expected w r w' :
  message_observe (P := P) v clock expected w = (Ok r, w') -> cn_status r = CS_SUCCEEDED ->
  exists message_id text ledger,
    message_read message_id text w w' /\ sha256_hex text = text_at expected "content_digest" "" /\
    ledger_read expected ledger w w' /\
    dict_get ledger "recipientDigest" = VStr (sha256_hex (text_at expected "recipient_external_subject" "")) /\
    (truthy (dict_get ledger "providerMessageRef") = true -> dict_get ledger "providerMessageRef" = VStr message_id) /\
    cn_external_operation_ref r = Some message_id /\
    cn_observed_postcondition r = Some (dict_set expected "provider_message_ref" (VStr message_id)).
Proof.
  unfold message_observe. intros [Hrun|(e & _ & He)]%rescue_Ok Hs.
  2: { destruct (http_or_value_error e); [|done]. by injection He as <-. }
  apply bind_Ok in Hrun as ([message_id ledger] & w1 & Hfind & Hrun). pose proof (grows_of _ _ _ _ (find_message_any expected) Hfind) as H01.
  cbn zeta in Hrun. destruct (negb _); [by injection Hrun as <- _|]. destruct (_ || _); [by injection Hrun as <- _|].
  apply bind_Ok in Hrun as ([token|] & w2 & Htoken & Hrun); [|by injection Hrun as <- _].
  pose proof (grows_of _ _ _ _ verifier_token_any Htoken) as H12. pose proof (sends_only_trans _ _ _ _ H01 H12) as H02.
  apply bind_Ok in Hrun as (resp & w3 & Hsend & Hrun). pose proof (grows_of _ _ _ _ (send_any _) Hsend) as H23. apply send_Ok in Hsend.
  apply bind_Ok in Hrun as ([] & w4 & [= _ <-] & Hrun). apply bind_Ok in Hrun as (raw & w5 & [= Hraw <-] & Hrun).
  apply response_json_Ok in Hraw. destruct (message_data raw) as [[code message]|data] eqn:Hdata; [by injection Hrun as <- _|].
  destruct (message_text data) as [text|] eqn:Htext; [|by injection Hrun as <- _].
  destruct (String.eqb (sha256_hex text) _) eqn:Hdigest; [|by injection Hrun as <- _]. apply String.eqb_eq in Hdigest. cbn in Hrun.
  pose proof (grows_of _ _ _ _ (verify_recipient_any _ _ _ _) Hrun) as H34.
  destruct (verify_recipient_success _ _ _ _ _ _ _ Hrun Hs) as (d & Hledger & ->). exists message_id, text, d. split.
  { exists token, resp, raw, data. split; [|done]. eapply exchanged_later; [|exact H34]. by eapply exchanged_earlier. }
  split; [done|]. split.
  { destruct Hledger as [->|(secret & seconds & lr & Hx & Hb)].
    - apply find_message_ledger in Hfind as (secret & seconds & lr & Hx & Hb). exists secret, seconds, lr. split; [|done].
      eapply exchanged_later; [exact Hx|]. eapply sends_only_trans; [exact H12|]. by eapply sends_only_trans.
    - exists secret, seconds, lr. split; [|done]. eapply exchanged_earlier; [|exact Hx]. by eapply sends_only_trans. }
  clear Hrun Hfind. unfold check_ledger in *. cbn in Hs |- *.
  destruct (py_eq (dict_get d "recipientDigest") _) eqn:Hrec; [|done]. apply py_eq_text in Hrec. cbn in Hs |- *.
  destruct (truthy (dict_get d "providerMessageRef")) eqn:Htr; cbn in Hs |- *; [|by split_and!].
  destruct (py_eq (dict_get d "providerMessageRef") _) eqn:Href; [|done]. apply py_eq_text in Href. by split_and!.
Qed.
End readback.

(** ** Sessions are closed only under a recorded marker *)

Section revocation.
Context `{Platform} `{CredentialResolver} {P : Type} `{HttpService P} (c : KeycloakEffectConnection).

Definition is_logout (q : HttpRequest) : Prop :=
  exists token user_id, q = admin_request (kc_base_url c) token "POST" (user_path c user_id +:+ "/logout") [] None.
Abbreviation quiet := (fun q => ~ is_logout q) (only parsing).

#[local] Instance token_quiet : Respects (sending quiet) (keycloak_token (P := P) c).
Proof.
  unfold keycloak_token. apply respects_bind; [apply respects_lift|]. intros secret. apply respects_bind; [|respect].
  apply rescue_sends. apply respects_bind; [|respect]. apply send_sends. by intros (token & user_id & [=]).
Qed.

Lemma request_quiet method path params json :
  method <> "POST" -> Respects (sending quiet) (keycloak_request (P := P) c method path params json).
Proof.
  intros Hm. unfold keycloak_request. apply respects_bind; [apply token_quiet|]. intros token. apply rescue_sends, send_sends.
  intros (t & u & Hq). apply (f_equal hq_method) in Hq. by cbn in Hq.
Qed.

#[local] Instance get_user_quiet id : Respects (sending quiet) (get_user (P := P) c id).
Proof. unfold get_user. apply respects_bind; [by apply request_quiet|]. respect. Qed.
#[local] Instance find_quiet name value : Respects (sending quiet) (find_by_attribute (P := P) c name value).
Proof. unfold find_by_attribute. apply respects_bind; [by apply request_quiet|]. respect. Qed.
#[local] Instance sessions_quiet id : Respects (sending quiet) (keycloak_sessions (P := P) c id).
Proof. unfold keycloak_sessions. apply respects_bind; [by apply request_quiet|]. respect. Qed.
#[local] Instance subject_quiet subject_ref : Respects (sending quiet) (keycloak_subject_user (P := P) c subject_ref).
Proof. unfold keycloak_subject_user. respect. Qed.
#[local] Instance mark_quiet request_ref user id : Respects (sending quiet) (mark_revocation (P := P) c request_ref user id).
Proof. unfold mark_revocation. destruct (bool_decide _); [apply respects_ret|]. apply respects_bind; [by apply request_quiet|]. respect. Qed.

Lemma quiet_grows (w w' : Wire P) : sends_only quiet w w' -> sends_only (fun _ => True) w w'.
Proof. intros (l & Hl & _). exists l. split; [done|]. by apply Forall_true. Qed.

Lemma request_exchanged method path params json w r w' :
  keycloak_request (P := P) c method path params json w = (Ok r, w') ->
  exists token, exchanged w w' (admin_request (kc_base_url c) token method path params json, Delivered r).
Proof.
  unfold keycloak_request. intros Hrun. apply bind_Ok in Hrun as (token & w1 & Ht & Hrun). exists token.
  apply rescue_Ok in Hrun as [Hrun|(e & _ & He)].
  - eapply exchanged_earlier; [|by apply send_Ok]. apply quiet_grows. exact (token_quiet _ _ _ Ht).
  - by destruct (exn_cls e).
Qed.

Lemma subject_user_read subject_ref w user w' :
  keycloak_subject_user (P := P) c subject_ref w = (Ok (Some user), w') ->
  exists token path resp, exchanged w w' (admin_request (kc_base_url c) token "GET" path [] None, Delivered resp) /\
    rs_body resp = Json (VDict user).
Proof.
  unfold keycloak_subject_user. intros Hrun. apply bind_Ok in Hrun as (rows & w1 & Hfind & Hrun).
  pose proof (quiet_grows _ _ (find_quiet _ _ _ _ _ Hfind)) as H01. destruct rows as [|row [|? ?]]; [done| |done].
  destruct (truthy _); [|done]. apply bind_Ok in Hrun as (u & w2 & Hget & [= <- <-]). unfold get_user in Hget.
  apply bind_Ok in Hget as (resp & w3 & Hreq & Hget). apply request_exchanged in Hreq as [token Hreq].
  apply bind_Ok in Hget as (raw & w4 & [= Hraw <-] & Hget). destruct raw; try done. injection Hget as <- <-.
  exists token, (user_path c (py_str (dict_get row "id"))), resp. split; [by eapply exchanged_earlier|].
  unfold read_json in Hraw. apply rbind_Ok in Hraw as (? & _ & Hraw). apply rbind_Ok in Hraw as (? & _ & Hraw).
  destruct (rs_body resp); [done|]. by injection Hraw as ->.
Qed.

(** The marker was already on the user, or Keycloak accepted it. *)
Definition marker_on (request_ref : string) (user : pydict) (user_id : string) (heard : HttpRequest * Delivery -> Prop) : Prop :=
  let marker := kc_session_revoke_request_ref_attribute c in
  first_attribute (user_attributes user) marker = Some request_ref \/
  exists token resp, heard (admin_request (kc_base_url c) token "PUT" (user_path c user_id) []
      (Some (VDict (keycloak_user_update user marker request_ref None))), Delivered resp) /\ rs_status_code resp ∈ [200; 204].

Lemma mark_revocation_accepted request_ref user user_id w w' :
  mark_revocation (P := P) c request_ref user user_id w = (Ok None, w') -> marker_on request_ref user user_id (exchanged w w').
Proof.
  unfold mark_revocation, marker_on. cbn zeta. case_bool_decide as Hrec; [by left|]. intros Hrun. right.
  apply bind_Ok in Hrun as (resp & w1 & Hreq & Hrun). apply request_exchanged in Hreq as [token Hreq].
  injection Hrun as Hres <-. exists token, resp. split; [done|]. unfold keycloak_write_result in Hres.
  destruct (500 <=? rs_status_code resp); [done|]. case_bool_decide as Hin; [done|].
  apply dec_stable. intros Hno. by destruct (bool_decide_reflect (rs_status_code resp ∈ [200; 204])).
Qed.

(** What [l1] must hold before the sessions of a user are closed: the user was read, and
    the marker was on it or was accepted. *)
Definition marked_before (request_ref user_id : string) (l1 : list (HttpRequest * Delivery)) : Prop :=
  exists user token path resp,
    (admin_request (kc_base_url c) token "GET" path [] None, Delivered resp) ∈ l1 /\ rs_body resp = Json (VDict user) /\
    id_of user = Ok user_id /\ marker_on request_ref user user_id (fun x => x ∈ l1).

(** A log whose only logout comes last, after its marker. *)
Definition orderly (request_ref : string) (l : list (HttpRequest * Delivery)) : Prop :=
  forall l1 q d l2, l = l1 ++ (q, d) :: l2 -> is_logout q ->
    l2 = [] /\ exists token user_id,
      q = admin_request (kc_base_url c) token "POST" (user_path c user_id +:+ "/logout") [] None /\
      marked_before request_ref user_id l1.

Lemma quiet_orderly request_ref l : Forall (fun x => ~ is_logout (fst x)) l -> orderly request_ref l.
Proof. intros Hl l1 q d l2 -> Hq. apply Forall_app in Hl as [_ [Hl _]%Forall_cons]. by destruct Hl. Qed.

Lemma logout_orderly request_ref l q d :
  Forall (fun x => ~ is_logout (fst x)) l ->
  (exists token user_id, q = admin_request (kc_base_url c) token "POST" (user_path c user_id +:+ "/logout") [] None /\
     marked_before request_ref user_id l) ->
  orderly request_ref (l ++ [(q, d)]).
Proof.
  intros Hl Hm l1 q' d' l2 Heq Hq'. destruct l2 as [|x l2 _] using rev_ind.
  - apply app_inj_tail in Heq as [-> [= -> ->]]. done.
  - rewrite app_comm_cons, app_assoc in Heq. apply app_inj_tail in Heq as [-> _].
    apply Forall_app in Hl as [_ [Hl _]%Forall_cons]. by destruct Hl.
Qed.

(** What a revocation sent: a log that is orderly. *)
Definition sent_orderly (request_ref : string) (w w' : Wire P) : Prop :=
  exists l, wr_sent w' = wr_sent w ++ l /\ orderly request_ref l.

Lemma quiet_sent request_ref w w' : sends_only quiet w w' -> sent_orderly request_ref w w'.
Proof. intros (l & Hl & Hq). exists l. split; [done|]. by apply quiet_orderly. Qed.

Lemma revoke_user_orderly request_ref user w0 w :
  (exists token path resp, exchanged w0 w (admin_request (kc_base_url c) token "GET" path [] None, Delivered resp) /\
     rs_body resp = Json (VDict user)) ->
  sends_only quiet w0 w -> sent_orderly request_ref w0 (snd (revoke_user (P := P) c request_ref user w)).
Proof.
  intros (token & path & resp & Hread & Hbody) Hw0. unfold revoke_user, bind at 1, lift at 1.
  destruct (id_of user) as [user_id|e] eqn:Hid; [|by apply quiet_sent]. cbn zeta. destruct (_ && _); [by apply quiet_sent|].
  unfold bind at 1. destruct (mark_revocation c request_ref user user_id w) as [r1 w1] eqn:Hmark.
  assert (Hw1 : sends_only quiet w w1) by (pose proof (mark_quiet _ _ _ _ _ _ Hmark); by destruct r1).
  pose proof (sends_only_trans _ _ _ _ Hw0 Hw1) as Hw01. destruct r1 as [[refused|]|e]; [by apply quiet_sent| |by apply quiet_sent].
  apply mark_revocation_accepted in Hmark. unfold unless_settled, bind at 1, lift at 1. unfold bind at 1.
  destruct (keycloak_sessions c user_id w1) as [r2 w2] eqn:Hsess.
  assert (Hw2 : sends_only quiet w1 w2) by (pose proof (sessions_quiet _ _ _ _ Hsess); by destruct r2).
  pose proof (sends_only_trans _ _ _ _ Hw01 Hw2) as Hw02. destruct r2 as [sessions|e]; [|by apply quiet_sent].
  destruct (is_nil sessions); [by apply quiet_sent|]. unfold bind at 1, keycloak_request. unfold bind at 1.
  destruct (keycloak_token c w2) as [r3 w3] eqn:Htok.
  assert (Hw3 : sends_only quiet w2 w3) by (pose proof (token_quiet _ _ _ Htok); by destruct r3).
  pose proof (sends_only_trans _ _ _ _ Hw02 Hw3) as Hw03. destruct r3 as [tok|e]; [|by apply quiet_sent].
  assert (Hlater : forall x, exchanged w0 w x -> exchanged w0 w3 x).
  { intros x Hx. eapply exchanged_later; [exact Hx|]. apply quiet_grows. eapply sends_only_trans; [exact Hw1|]. by eapply sends_only_trans. }
  destruct Hw03 as (l & Hl & Hq). set (q := admin_request _ _ _ _ _ _).
  assert (Hin : forall x, exchanged w0 w3 x -> x ∈ l).
  { intros x (l' & Hl' & Hx). rewrite Hl in Hl'. by apply app_inv_head in Hl' as ->. }
  assert (Hready : orderly request_ref (l ++ [(q, fst (http (wr_service w3) q))])).
  { apply logout_orderly; [done|]. exists tok, user_id. split; [done|]. exists user, token, path, resp.
    split; [by apply Hin, Hlater|]. split_and!; [done..|]. destruct Hmark as [Hm|(t & rp & Hx & Hs)]; [by left|]. right.
    exists t, rp. split; [|done]. apply Hin. eapply exchanged_earlier; [apply quiet_grows; exact Hw0|].
    eapply exchanged_later; [exact Hx|]. apply quiet_grows. by eapply sends_only_trans. }
  exists (l ++ [(q, fst (http (wr_service w3) q))]). split; [|done]. rewrite app_assoc, <- Hl. unfold rescue, send.
  destruct (http (wr_service w3) q) as [[name|rp] p]; reflexivity.
Qed.

(** Whatever Keycloak answers and wherever it breaks off, a revocation closes the
    sessions of a user only after it has read that user and the request's marker was on
    it or Keycloak accepted the marker; it does so at most once, and nothing follows it. *)
Theorem sessions_are_closed_under_a_marker request_ref subject_ref w :
  sent_orderly request_ref w (snd (revoke_invoke (P := P) c request_ref subject_ref w)).
Proof.
  unfold revoke_invoke. rewrite rescue_world. unfold bind.
  destruct (keycloak_subject_user c subject_ref w) as [r w1] eqn:Hsub.
  assert (Hw0 : sends_only quiet w w1) by (pose proof (subject_quiet _ _ _ _ Hsub); by destruct r).
  destruct r as [[user|]|e]; [|by apply quiet_sent..]. apply revoke_user_orderly; [by eapply subject_user_read|done].
Qed.
End revocation.
