(* ===== verification/Investigation.v ===== *)
(** * Investigations: models, tables, repository

    An investigation asks an advisory service about a case, within a budget, and
    ends in an assessment of whether the case is to be reopened
    ([investigation_models.py], [investigation_rows.py],
    [investigation_serialization.py], [investigation_repository.py]).  Every
    operation of the repository is one transaction; where a transaction commits
    that a budget is used up and the operation then raises, its value is
    [Exhausted]. *)

From stdpp Require Import base gmap strings list.
From Stdlib Require Import ZArith Lia.
From S2P Require Import Prelude Python Uuid Store Domain Policy Authority Lifecycle Obligations Persistence Financial.
From S2P Require Import PolicyPlane Transactions Governance Commitment.

Open Scope Z_scope.
Open Scope orch_scope.

(** ** Models *)

Inductive InvestigationTriggerType :=
  | TT_AMBIGUOUS_EVIDENCE | TT_CONFLICTING_FACTS | TT_MISSING_QUALIFICATION | TT_MISSING_AUTHORITY
  | TT_POLICY_UNDERSPECIFIED | TT_UNEXPECTED_REALITY_STATE | TT_OUTCOME_UNKNOWN | TT_VERIFICATION_CONTRADICTION
  | TT_OBLIGATION_STALLED | TT_COMMITMENT_CONFLICT | TT_LATE_EVIDENCE | TT_HUMAN_REQUESTED_REVIEW.

Inductive InvestigationStatus :=
  | IS_REQUESTED | IS_RUNNING | IS_PROPOSAL_RECORDED | IS_AWAITING_EVIDENCE | IS_REQUIRES_HUMAN_REVIEW
  | IS_CLOSURE_PRESERVED | IS_REOPENED | IS_FAILED | IS_EXPIRED.

Inductive EvidenceRequestStatus := ER_OPEN | ER_FULFILLED | ER_REJECTED | ER_EXPIRED.

Inductive ReopenAssessmentDisposition :=
  | RD_PRESERVE_CLOSURE | RD_REOPEN_REQUIRED | RD_REQUIRES_HUMAN_REVIEW | RD_INSUFFICIENT_EVIDENCE | RD_SUPERSEDED.

Inductive ReopenAssessmentKind := RK_DETERMINISTIC | RK_HUMAN.

Inductive ReframingStatus := RF_PROPOSED | RF_ACCEPTED | RF_REJECTED | RF_SUPERSEDED.

#[global] Instance InvestigationTriggerType_eq_dec : EqDecision InvestigationTriggerType. Proof. solve_decision. Defined.
#[global] Instance InvestigationStatus_eq_dec : EqDecision InvestigationStatus. Proof. solve_decision. Defined.
#[global] Instance EvidenceRequestStatus_eq_dec : EqDecision EvidenceRequestStatus. Proof. solve_decision. Defined.
#[global] Instance ReopenAssessmentDisposition_eq_dec : EqDecision ReopenAssessmentDisposition. Proof. solve_decision. Defined.
#[global] Instance ReopenAssessmentKind_eq_dec : EqDecision ReopenAssessmentKind. Proof. solve_decision. Defined.
#[global] Instance ReframingStatus_eq_dec : EqDecision ReframingStatus. Proof. solve_decision. Defined.

Definition InvestigationTriggerType_value (t : InvestigationTriggerType) : string :=
  match t with
  | TT_AMBIGUOUS_EVIDENCE => "ambiguous_evidence" | TT_CONFLICTING_FACTS => "conflicting_facts"
  | TT_MISSING_QUALIFICATION => "missing_qualification" | TT_MISSING_AUTHORITY => "missing_authority"
  | TT_POLICY_UNDERSPECIFIED => "policy_underspecified" | TT_UNEXPECTED_REALITY_STATE => "unexpected_reality_state"
  | TT_OUTCOME_UNKNOWN => "outcome_unknown" | TT_VERIFICATION_CONTRADICTION => "verification_contradiction"
  | TT_OBLIGATION_STALLED => "obligation_stalled" | TT_COMMITMENT_CONFLICT => "commitment_conflict"
  | TT_LATE_EVIDENCE => "late_evidence" | TT_HUMAN_REQUESTED_REVIEW => "human_requested_review"
  end.

Definition InvestigationStatus_value (s : InvestigationStatus) : string :=
  match s with
  | IS_REQUESTED => "requested" | IS_RUNNING => "running" | IS_PROPOSAL_RECORDED => "proposal_recorded"
  | IS_AWAITING_EVIDENCE => "awaiting_evidence" | IS_REQUIRES_HUMAN_REVIEW => "requires_human_review"
  | IS_CLOSURE_PRESERVED => "closure_preserved" | IS_REOPENED => "reopened" | IS_FAILED => "failed"
  | IS_EXPIRED => "expired"
  end.

Definition ReopenAssessmentDisposition_value (d : ReopenAssessmentDisposition) : string :=
  match d with
  | RD_PRESERVE_CLOSURE => "preserve_closure" | RD_REOPEN_REQUIRED => "reopen_required"
  | RD_REQUIRES_HUMAN_REVIEW => "requires_human_review" | RD_INSUFFICIENT_EVIDENCE => "insufficient_evidence"
  | RD_SUPERSEDED => "superseded"
  end.

Definition ReopenAssessmentKind_value (k : ReopenAssessmentKind) : string :=
  match k with RK_DETERMINISTIC => "deterministic" | RK_HUMAN => "human" end.

Definition ReframingStatus_value (s : ReframingStatus) : string :=
  match s with
  | RF_PROPOSED => "proposed" | RF_ACCEPTED => "accepted" | RF_REJECTED => "rejected" | RF_SUPERSEDED => "superseded"
  end.

Definition ReopenReason_value (r : ReopenReason) : string :=
  match r with
  | NO_APPLICABLE_POLICY => "no_applicable_policy" | POLICY_CONFLICT => "policy_conflict"
  | MISSING_REQUIRED_FACT => "missing_required_fact" | AUTHORITY_UNRESOLVED => "authority_unresolved"
  | POLICY_UNDERSPECIFIED => "policy_underspecified" | GOVERNANCE_STALE => "governance_stale"
  | SUBJECT_CHANGED => "subject_changed" | OUTCOME_UNKNOWN_REASON => "outcome_unknown"
  | REALITY_MISMATCH => "reality_mismatch" | SCOPE_EXPANSION => "scope_expansion"
  | UNKNOWN_RISK_DIMENSION => "unknown_risk_dimension" | OBLIGATION_STALLED => "obligation_stalled"
  | COMMITMENT_CONFLICT => "commitment_conflict" | LATE_EVIDENCE => "late_evidence"
  | HUMAN_REQUESTED_REVIEW => "human_requested_review"
  end.

(** A finite float [m * 2^e]; [ge=0.0, le=1.0]. *)
Record pyfloat := mkpyfloat { fl_mantissa : Z; fl_exponent : Z }.
#[global] Instance pyfloat_eq_dec : EqDecision pyfloat. Proof. solve_decision. Defined.
Definition unit_float (x : pyfloat) : bool :=
  (0 <=? fl_mantissa x)
  && (if 0 <=? fl_exponent x then fl_mantissa x * 2 ^ fl_exponent x <=? 1 else fl_mantissa x <=? 2 ^ (- fl_exponent x)).

Definition between (lo n hi : Z) : bool := (lo <=? n) && (n <=? hi).

Record InvestigationConstraints := mkInvestigationConstraints {
  ik_max_rounds : Z;
  ik_max_model_calls : Z;
  ik_max_evidence_requests : Z;
  ik_allowed_source_kinds : list string;
  ik_deadline : option instant;
  ik_human_review_threshold : pyfloat;
}.
#[global] Instance InvestigationConstraints_eq_dec : EqDecision InvestigationConstraints. Proof. solve_decision. Defined.

Definition InvestigationConstraints_default : InvestigationConstraints :=
  mkInvestigationConstraints 4 4 4 ["administrative"] None (mkpyfloat 3 (-2)).

(** The field bounds and [validate_sources]. *)
Definition InvestigationConstraints_validate (k : InvestigationConstraints) : result InvestigationConstraints :=
  if between 1 (ik_max_rounds k) 32 && between 0 (ik_max_model_calls k) 64 && between 0 (ik_max_evidence_requests k) 64
     && unit_float (ik_human_review_threshold k)
  then
    refuse is_nil (ik_allowed_source_kinds k) with ValueError
      saying "investigation requires at least one allowed source kind";;
    refuse existsb (fun item => negb (nonempty (strip item))) (ik_allowed_source_kinds k) with ValueError
      saying "allowed source kinds cannot be blank";;
    Ok k
  else invalid.

Record InvestigationTrigger := mkInvestigationTrigger {
  ig_trigger_id : uuid;
  ig_case_id : uuid;
  ig_authority_epoch : Z;
  ig_trigger_type : InvestigationTriggerType;
  ig_reason : string;
  ig_evidence_refs : list string;
  ig_source_type : string;
  ig_reconciliation_ref : option string;
  ig_created_by : string;
  ig_created_at : instant;
  ig_idempotency_key : string;
}.
#[global] Instance InvestigationTrigger_eq_dec : EqDecision InvestigationTrigger. Proof. solve_decision. Defined.

Definition blank_reconciliation (t : InvestigationTrigger) : bool :=
  bool_decide (ig_trigger_type t = TT_OUTCOME_UNKNOWN) && negb (nonempty (strip (default "" (ig_reconciliation_ref t)))).

(** The field bounds and [validate_trigger]. *)
Definition InvestigationTrigger_validate (t : InvestigationTrigger) : result InvestigationTrigger :=
  if (1 <=? ig_authority_epoch t) && sized 1 2000 (ig_reason t) && sized 1 128 (ig_source_type t)
     && sized_opt 512 (ig_reconciliation_ref t) && sized 1 255 (ig_created_by t) && sized 1 512 (ig_idempotency_key t)
  then
    refuse blank_reconciliation t with ValueError
      saying "outcome_unknown investigation requires a completed Kernel reconciliation reference";;
    Ok t
  else invalid.

Record InvestigationRequest := mkInvestigationRequest {
  iq_investigation_id : uuid;
  iq_tenant_id : string;
  iq_case_id : uuid;
  iq_authority_epoch : Z;
  iq_trigger : InvestigationTrigger;
  iq_requested_question : string;
  iq_allowed_evidence_refs : list string;
  iq_current_fact_snapshot_ref : option string;
  iq_current_governance_basis_ref : option string;
  iq_current_obligation_refs : list string;
  iq_current_commitment_refs : list string;
  iq_constraints : InvestigationConstraints;
  iq_created_at : instant;
  iq_created_by : string;
  iq_status : InvestigationStatus;
  iq_idempotency_key : string;
  iq_rounds_used : Z;
  iq_model_calls_used : Z;
  iq_evidence_requests_used : Z;
  iq_last_error_code : option string;
  iq_updated_at : instant;
}.

(** The field bounds, those of the parts, and [validate_lineage]. *)
Definition InvestigationRequest_validate (q : InvestigationRequest) : result InvestigationRequest :=
  let! _ := InvestigationTrigger_validate (iq_trigger q) in
  let! _ := InvestigationConstraints_validate (iq_constraints q) in
  if sized 1 512 (iq_tenant_id q) && (1 <=? iq_authority_epoch q) && sized 1 4000 (iq_requested_question q)
     && sized_opt 512 (iq_current_fact_snapshot_ref q) && sized_opt 512 (iq_current_governance_basis_ref q)
     && sized 1 255 (iq_created_by q) && sized 1 512 (iq_idempotency_key q) && (0 <=? iq_rounds_used q)
     && (0 <=? iq_model_calls_used q) && (0 <=? iq_evidence_requests_used q) && sized_opt 256 (iq_last_error_code q)
  then
    refuse bool_decide (ig_case_id (iq_trigger q) <> iq_case_id q) with ValueError
      saying "investigation trigger belongs to another case";;
    refuse bool_decide (ig_authority_epoch (iq_trigger q) <> iq_authority_epoch q) with ValueError
      saying "investigation trigger is stale for the request epoch";;
    refuse ik_max_rounds (iq_constraints q) <? iq_rounds_used q with ValueError
      saying "investigation rounds exceed the configured budget";;
    refuse ik_max_model_calls (iq_constraints q) <? iq_model_calls_used q with ValueError
      saying "investigation model calls exceed the configured budget";;
    refuse ik_max_evidence_requests (iq_constraints q) <? iq_evidence_requests_used q with ValueError
      saying "investigation evidence requests exceed the configured budget";;
    Ok q
  else invalid.

Record InvestigationHypothesis := mkInvestigationHypothesis {
  ih_hypothesis_ref : string;
  ih_statement : string;
  ih_basis_refs : list string;
  ih_uncertainty : pyfloat;
}.

(** [effect_class] is the literal [read-only] in every instance. *)
Record InvestigationQueryRecommendation := mkInvestigationQueryRecommendation {
  iy_query_ref : string;
  iy_question : string;
  iy_source_kind : string;
  iy_effect_class : string;
  iy_expected_discrimination : pyfloat;
  iy_basis_refs : list string;
}.

Record InvestigationModelProvenance := mkInvestigationModelProvenance {
  iv_provider : string;
  iv_model_identity : string;
  iv_model_version : string;
  iv_prompt_ref : string;
  iv_schema_ref : string;
  iv_response_digest : string;
}.

Record ReframingProposal := mkReframingProposal {
  rp_reframing_id : uuid;
  rp_investigation_id : uuid;
  rp_case_id : uuid;
  rp_current_frame : string;
  rp_proposed_frame : string;
  rp_reason : string;
  rp_evidence_refs : list string;
  rp_status : ReframingStatus;
  rp_created_at : instant;
}.

Record InvestigationProposal := mkInvestigationProposal {
  io_proposal_id : uuid;
  io_investigation_id : uuid;
  io_case_id : uuid;
  io_authority_epoch : Z;
  io_representation_version : string;
  io_hypotheses : list InvestigationHypothesis;
  io_ambiguities : list string;
  io_missing_evidence : list string;
  io_recommended_queries : list InvestigationQueryRecommendation;
  io_recommended_human_questions : list string;
  io_possible_reframings : list ReframingProposal;
  io_possible_reopen_targets : list string;
  io_uncertainty : pydict;
  io_model_provenance : InvestigationModelProvenance;
  io_created_at : instant;
  io_idempotency_key : string;
}.

Definition hypothesis_ok (h : InvestigationHypothesis) : bool :=
  sized 1 512 (ih_hypothesis_ref h) && sized 1 4000 (ih_statement h) && unit_float (ih_uncertainty h).
Definition query_ok (q : InvestigationQueryRecommendation) : bool :=
  sized 1 512 (iy_query_ref q) && sized 1 4000 (iy_question q) && sized 1 128 (iy_source_kind q)
  && bool_decide (iy_effect_class q = "read-only") && unit_float (iy_expected_discrimination q).
Definition reframing_ok (r : ReframingProposal) : bool :=
  sized 1 2000 (rp_current_frame r) && sized 1 2000 (rp_proposed_frame r) && sized 1 4000 (rp_reason r).
Definition provenance_ok (v : InvestigationModelProvenance) : bool :=
  sized 1 128 (iv_provider v) && sized 1 512 (iv_model_identity v) && sized 1 256 (iv_model_version v)
  && sized 1 512 (iv_prompt_ref v) && sized 1 512 (iv_schema_ref v) && sized 1 128 (iv_response_digest v).

(** The field bounds, those of the parts, and [validate_lineage]. *)
Definition InvestigationProposal_validate (p : InvestigationProposal) : result InvestigationProposal :=
  if (1 <=? io_authority_epoch p) && sized 1 256 (io_representation_version p) && forallb hypothesis_ok (io_hypotheses p)
     && forallb query_ok (io_recommended_queries p) && forallb reframing_ok (io_possible_reframings p)
     && provenance_ok (io_model_provenance p) && sized 1 512 (io_idempotency_key p)
  then
    let! _ := traverse (fun item =>
      refuse bool_decide (rp_investigation_id item <> io_investigation_id p) || bool_decide (rp_case_id item <> io_case_id p)
        with ValueError saying "reframing proposal does not belong to the investigation";;
      refuse bool_decide (rp_status item <> RF_PROPOSED) with ValueError
        saying "advisory output cannot accept or reject its own reframing";;
      Ok tt) (io_possible_reframings p) in
    Ok p
  else invalid.

Record InvestigationEvidenceRequest := mkInvestigationEvidenceRequest {
  ie_evidence_request_id : uuid;
  ie_investigation_id : uuid;
  ie_case_id : uuid;
  ie_authority_epoch : Z;
  ie_source_kind : string;
  ie_requested_question : string;
  ie_allowed_evidence_refs : list string;
  ie_status : EvidenceRequestStatus;
  ie_evidence_refs : list string;
  ie_requested_by : string;
  ie_created_at : instant;
  ie_fulfilled_at : option instant;
  ie_idempotency_key : string;
}.
#[global] Instance InvestigationEvidenceRequest_eq_dec : EqDecision InvestigationEvidenceRequest. Proof. solve_decision. Defined.

Definition InvestigationEvidenceRequest_validate (e : InvestigationEvidenceRequest) : result InvestigationEvidenceRequest :=
  if (1 <=? ie_authority_epoch e) && sized 1 128 (ie_source_kind e) && sized 1 4000 (ie_requested_question e)
     && sized 1 255 (ie_requested_by e) && sized 1 512 (ie_idempotency_key e)
  then Ok e else invalid.

Record InvestigationEvidence := mkInvestigationEvidence {
  iw_evidence_id : uuid;
  iw_investigation_id : uuid;
  iw_case_id : uuid;
  iw_authority_epoch : Z;
  iw_evidence_request_id : option uuid;
  iw_evidence_ref : string;
  iw_source_kind : string;
  iw_source : string;
  iw_owner : string;
  iw_source_ref : option string;
  iw_source_version : option string;
  iw_digest : option string;
  iw_added_by : string;
  iw_created_at : instant;
  iw_idempotency_key : string;
}.
#[global] Instance InvestigationEvidence_eq_dec : EqDecision InvestigationEvidence. Proof. solve_decision. Defined.

Definition InvestigationEvidence_validate (e : InvestigationEvidence) : result InvestigationEvidence :=
  if (1 <=? iw_authority_epoch e) && sized 1 1000 (iw_evidence_ref e) && sized 1 128 (iw_source_kind e)
     && sized 1 512 (iw_source e) && sized 1 255 (iw_owner e) && sized_opt 1000 (iw_source_ref e)
     && sized_opt 256 (iw_source_version e) && sized_opt 128 (iw_digest e) && sized 1 255 (iw_added_by e)
     && sized 1 512 (iw_idempotency_key e)
  then Ok e else invalid.

Record ReopenAssessment := mkReopenAssessment {
  oa_assessment_id : uuid;
  oa_investigation_id : uuid;
  oa_case_id : uuid;
  oa_authority_epoch : Z;
  oa_disposition : ReopenAssessmentDisposition;
  oa_reason : string;
  oa_evidence_refs : list string;
  oa_proposal_ref : option uuid;
  oa_assessment_kind : ReopenAssessmentKind;
  oa_assessed_by : string;
  oa_created_at : instant;
  oa_idempotency_key : string;
}.

Definition ReopenAssessment_validate (a : ReopenAssessment) : result ReopenAssessment :=
  if (1 <=? oa_authority_epoch a) && sized 1 4000 (oa_reason a) && sized 1 255 (oa_assessed_by a)
     && sized 1 512 (oa_idempotency_key a)
  then Ok a else invalid.

Record ReopenRecord := mkReopenRecord {
  oo_reopen_id : uuid;
  oo_investigation_id : uuid;
  oo_case_id : uuid;
  oo_assessment_ref : uuid;
  oo_previous_authority_epoch : Z;
  oo_new_authority_epoch : Z;
  oo_reopen_reason : string;
  oo_evidence_refs : list string;
  oo_authorized_by : string;
  oo_invalidated_decision_refs : list string;
  oo_invalidated_governance_basis_refs : list string;
  oo_affected_obligation_refs : list string;
  oo_affected_execution_authorization_refs : list string;
  oo_affected_commitment_refs : list string;
  oo_created_at : instant;
  oo_idempotency_key : string;
}.

Definition ReopenRecord_validate (r : ReopenRecord) : result ReopenRecord :=
  if (1 <=? oo_previous_authority_epoch r) && (1 <=? oo_new_authority_epoch r) && sized 1 4000 (oo_reopen_reason r)
     && sized 1 255 (oo_authorized_by r) && sized 1 512 (oo_idempotency_key r)
  then Ok r else invalid.

(** ** Digests, [investigation_serialization.py] *)

Definition jtexts (l : list string) : pyval := VList (VStr <$> l).
Definition jtext (o : option string) : pyval := match o with Some s => VStr s | None => VNone end.
Definition jcount {A} (l : list A) : pyval := VInt (Z.of_nat (length l)).
Definition jfloat (x : pyfloat) : pyval := VFloat (fl_mantissa x) (fl_exponent x).

Section digests.
Context `{Platform}.

Definition constraints_json (k : InvestigationConstraints) : pyval :=
  VDict [("max_rounds", VInt (ik_max_rounds k)); ("max_model_calls", VInt (ik_max_model_calls k));
         ("max_evidence_requests", VInt (ik_max_evidence_requests k));
         ("allowed_source_kinds", jtexts (ik_allowed_source_kinds k));
         ("deadline", match ik_deadline k with Some d => VStr (json_datetime d) | None => VNone end);
         ("human_review_threshold", jfloat (ik_human_review_threshold k))].

(** [model_dump] of the trigger without its id and its time. *)
Definition trigger_semantics (t : InvestigationTrigger) : pyval :=
  VDict [("case_id", VStr (uuid_str (ig_case_id t))); ("authority_epoch", VInt (ig_authority_epoch t));
         ("trigger_type", VStr (InvestigationTriggerType_value (ig_trigger_type t))); ("reason", VStr (ig_reason t));
         ("evidence_refs", jtexts (ig_evidence_refs t)); ("source_type", VStr (ig_source_type t));
         ("reconciliation_ref", jtext (ig_reconciliation_ref t)); ("created_by", VStr (ig_created_by t));
         ("idempotency_key", VStr (ig_idempotency_key t))].

Definition request_digest (q : InvestigationRequest) : string :=
  json_digest (VDict
    [("tenant_id", VStr (iq_tenant_id q)); ("case_id", VStr (uuid_str (iq_case_id q)));
     ("authority_epoch", VInt (iq_authority_epoch q)); ("trigger", trigger_semantics (iq_trigger q));
     ("requested_question", VStr (iq_requested_question q)); ("allowed_evidence_refs", jtexts (iq_allowed_evidence_refs q));
     ("current_fact_snapshot_ref", jtext (iq_current_fact_snapshot_ref q));
     ("current_governance_basis_ref", jtext (iq_current_governance_basis_ref q));
     ("current_obligation_refs", jtexts (iq_current_obligation_refs q));
     ("current_commitment_refs", jtexts (iq_current_commitment_refs q)); ("constraints", constraints_json (iq_constraints q));
     ("created_by", VStr (iq_created_by q)); ("idempotency_key", VStr (iq_idempotency_key q))]).

Definition hypothesis_json (h : InvestigationHypothesis) : pyval :=
  VDict [("hypothesis_ref", VStr (ih_hypothesis_ref h)); ("statement", VStr (ih_statement h));
         ("basis_refs", jtexts (ih_basis_refs h)); ("uncertainty", jfloat (ih_uncertainty h))].
Definition query_json (q : InvestigationQueryRecommendation) : pyval :=
  VDict [("query_ref", VStr (iy_query_ref q)); ("question", VStr (iy_question q)); ("source_kind", VStr (iy_source_kind q));
         ("effect_class", VStr (iy_effect_class q)); ("expected_discrimination", jfloat (iy_expected_discrimination q));
         ("basis_refs", jtexts (iy_basis_refs q))].
Definition reframing_json (r : ReframingProposal) : pyval :=
  VDict [("reframing_id", VStr (uuid_str (rp_reframing_id r))); ("investigation_id", VStr (uuid_str (rp_investigation_id r)));
         ("case_id", VStr (uuid_str (rp_case_id r))); ("current_frame", VStr (rp_current_frame r));
         ("proposed_frame", VStr (rp_proposed_frame r)); ("reason", VStr (rp_reason r));
         ("evidence_refs", jtexts (rp_evidence_refs r)); ("status", VStr (ReframingStatus_value (rp_status r)));
         ("created_at", VStr (json_datetime (rp_created_at r)))].
Definition provenance_json (v : InvestigationModelProvenance) : pyval :=
  VDict [("provider", VStr (iv_provider v)); ("model_identity", VStr (iv_model_identity v));
         ("model_version", VStr (iv_model_version v)); ("prompt_ref", VStr (iv_prompt_ref v));
         ("schema_ref", VStr (iv_schema_ref v)); ("response_digest", VStr (iv_response_digest v))].

Definition proposal_digest (p : InvestigationProposal) : string :=
  json_digest (VDict
    [("investigation_id", VStr (uuid_str (io_investigation_id p))); ("case_id", VStr (uuid_str (io_case_id p)));
     ("authority_epoch", VInt (io_authority_epoch p)); ("representation_version", VStr (io_representation_version p));
     ("hypotheses", VList (hypothesis_json <$> io_hypotheses p)); ("ambiguities", jtexts (io_ambiguities p));
     ("missing_evidence", jtexts (io_missing_evidence p));
     ("recommended_queries", VList (query_json <$> io_recommended_queries p));
     ("recommended_human_questions", jtexts (io_recommended_human_questions p));
     ("possible_reframings", VList (reframing_json <$> io_possible_reframings p));
     ("possible_reopen_targets", jtexts (io_possible_reopen_targets p)); ("uncertainty", VDict (io_uncertainty p));
     ("model_provenance", provenance_json (io_model_provenance p))]).

Definition assessment_digest (a : ReopenAssessment) : string :=
  json_digest (VDict
    [("investigation_id", VStr (uuid_str (oa_investigation_id a))); ("case_id", VStr (uuid_str (oa_case_id a)));
     ("authority_epoch", VInt (oa_authority_epoch a));
     ("disposition", VStr (ReopenAssessmentDisposition_value (oa_disposition a))); ("reason", VStr (oa_reason a));
     ("evidence_refs", jtexts (oa_evidence_refs a));
     ("proposal_ref", match oa_proposal_ref a with Some u => VStr (uuid_str u) | None => VNone end);
     ("assessment_kind", VStr (ReopenAssessmentKind_value (oa_assessment_kind a)));
     ("assessed_by", VStr (oa_assessed_by a))]).
End digests.

(** ** Tables *)

(** Rows carry the columns of their models; reading one builds the model again. *)
Record InvestigationRow := mkInvestigationRow { nr_request : InvestigationRequest; nr_request_digest : string }.
Record InvestigationProposalRow := mkInvestigationProposalRow { np_proposal : InvestigationProposal; np_proposal_digest : string }.
Record ReframingProposalRow := mkReframingProposalRow { nf_reframing : ReframingProposal; nf_proposal_id : uuid }.
Record ReopenAssessmentRow := mkReopenAssessmentRow { na_assessment : ReopenAssessment; na_assessment_digest : string }.

Record InvestigationDb := mkInvestigationDb {
  nv_exec : ExecDb;
  nv_governance : gmap uuid GovernanceBasis;
  nv_obligations : ObligationDb;
  nv_commitments : CommitmentDb;
  nv_investigations : gmap uuid InvestigationRow;
  nv_proposals : gmap uuid InvestigationProposalRow;
  nv_reframings : gmap uuid ReframingProposalRow;
  nv_evidence_requests : gmap uuid InvestigationEvidenceRequest;
  nv_evidence : gmap uuid InvestigationEvidence;
  nv_assessments : gmap uuid ReopenAssessmentRow;
  nv_records : gmap uuid ReopenRecord;
}.

Definition nv_set_exec (d : InvestigationDb) x :=
  mkInvestigationDb x (nv_governance d) (nv_obligations d) (nv_commitments d) (nv_investigations d) (nv_proposals d)
    (nv_reframings d) (nv_evidence_requests d) (nv_evidence d) (nv_assessments d) (nv_records d).
Definition nv_set_investigations (d : InvestigationDb) t :=
  mkInvestigationDb (nv_exec d) (nv_governance d) (nv_obligations d) (nv_commitments d) t (nv_proposals d)
    (nv_reframings d) (nv_evidence_requests d) (nv_evidence d) (nv_assessments d) (nv_records d).
Definition nv_set_proposals (d : InvestigationDb) t reframings :=
  mkInvestigationDb (nv_exec d) (nv_governance d) (nv_obligations d) (nv_commitments d) (nv_investigations d) t
    reframings (nv_evidence_requests d) (nv_evidence d) (nv_assessments d) (nv_records d).
Definition nv_set_evidence_requests (d : InvestigationDb) t :=
  mkInvestigationDb (nv_exec d) (nv_governance d) (nv_obligations d) (nv_commitments d) (nv_investigations d)
    (nv_proposals d) (nv_reframings d) t (nv_evidence d) (nv_assessments d) (nv_records d).
Definition nv_set_evidence (d : InvestigationDb) t :=
  mkInvestigationDb (nv_exec d) (nv_governance d) (nv_obligations d) (nv_commitments d) (nv_investigations d)
    (nv_proposals d) (nv_reframings d) (nv_evidence_requests d) t (nv_assessments d) (nv_records d).
Definition nv_set_assessments (d : InvestigationDb) t :=
  mkInvestigationDb (nv_exec d) (nv_governance d) (nv_obligations d) (nv_commitments d) (nv_investigations d)
    (nv_proposals d) (nv_reframings d) (nv_evidence_requests d) (nv_evidence d) t (nv_records d).
Definition nv_set_records (d : InvestigationDb) t :=
  mkInvestigationDb (nv_exec d) (nv_governance d) (nv_obligations d) (nv_commitments d) (nv_investigations d)
    (nv_proposals d) (nv_reframings d) (nv_evidence_requests d) (nv_evidence d) (nv_assessments d) t.

Definition nv_audit (d : InvestigationDb) (case_id : uuid) (event_type : string) (payload : pydict) : InvestigationDb :=
  nv_set_exec d (append_audit (nv_exec d) case_id event_type payload).

(** The row of an investigation after the assignments to its columns. *)
Definition nv_progress (row : InvestigationRow) (status : InvestigationStatus) (rounds calls requests : Z)
    (error : option string) (now : instant) : InvestigationRow :=
  let q := nr_request row in
  mkInvestigationRow
    (mkInvestigationRequest (iq_investigation_id q) (iq_tenant_id q) (iq_case_id q) (iq_authority_epoch q) (iq_trigger q)
       (iq_requested_question q) (iq_allowed_evidence_refs q) (iq_current_fact_snapshot_ref q)
       (iq_current_governance_basis_ref q) (iq_current_obligation_refs q) (iq_current_commitment_refs q) (iq_constraints q)
       (iq_created_at q) (iq_created_by q) status (iq_idempotency_key q) rounds calls requests error now)
    (nr_request_digest row).

Definition with_inquiry_status (row : InvestigationRow) (status : InvestigationStatus) (now : instant) : InvestigationRow :=
  let q := nr_request row in
  nv_progress row status (iq_rounds_used q) (iq_model_calls_used q) (iq_evidence_requests_used q) (iq_last_error_code q) now.

Definition with_error_code (row : InvestigationRow) (status : InvestigationStatus) (error : string) (now : instant)
  : InvestigationRow :=
  let q := nr_request row in
  nv_progress row status (iq_rounds_used q) (iq_model_calls_used q) (iq_evidence_requests_used q)
    (Some (String.substring 0 256 error)) now.

(** [row.rounds_used += 1; row.model_calls_used += 1] *)
Definition with_round_spent (row : InvestigationRow) (status : InvestigationStatus) (now : instant) : InvestigationRow :=
  let q := nr_request row in
  nv_progress row status (iq_rounds_used q + 1) (iq_model_calls_used q + 1) (iq_evidence_requests_used q)
    (iq_last_error_code q) now.

Definition put_investigation (d : InvestigationDb) (row : InvestigationRow) : InvestigationDb :=
  nv_set_investigations d (<[iq_investigation_id (nr_request row) := row]> (nv_investigations d)).

(** ** Repository *)

Definition request_from_row (row : InvestigationRow) : result InvestigationRequest :=
  InvestigationRequest_validate (nr_request row).
Definition proposal_from_row (row : InvestigationProposalRow) : result InvestigationProposal :=
  InvestigationProposal_validate (np_proposal row).
Definition reopen_assessment_from_row (row : ReopenAssessmentRow) : result ReopenAssessment :=
  ReopenAssessment_validate (na_assessment row).

(** What a transaction that may use up a budget commits. *)
Inductive settled (A : Type) := Done (a : A) | Exhausted (msg : string).
Arguments Done {A} a.
Arguments Exhausted {A} msg.

Definition by_time {A} (time : A -> instant) (id : A -> uuid) (a b : A) : comparison :=
  cmp_then (Z.compare (time a) (time b)) (N.compare (id a) (id b)).

Definition terminal_statuses : list InvestigationStatus := [IS_CLOSURE_PRESERVED; IS_REOPENED; IS_EXPIRED].

Section repository.
Context `{Platform}.

(** [db.get(InvestigationRow, investigation_id)] with its [InvestigationNotFound] *)
Definition investigation_row (d : InvestigationDb) (investigation_id : uuid) : result InvestigationRow :=
  match nv_investigations d !! investigation_id with
  | None => raise InvestigationNotFound (uuid_str investigation_id)
  | Some row => Ok row
  end.

(** [_assert_case_epoch] *)
Definition assert_case_epoch (d : InvestigationDb) (case_id : uuid) (authority_epoch : Z) : result unit :=
  match x_cases (nv_exec d) !! case_id with
  | None => raise InvestigationNotFound (uuid_str case_id)
  | Some row =>
      refuse bool_decide (c_authority_epoch (cr_case row) <> authority_epoch) with InvestigationConflict
        saying "investigation mutation is stale for the current case authority epoch";;
      Ok tt
  end.

Definition create_request (d : InvestigationDb) (trigger : InvestigationTrigger) (request : InvestigationRequest)
  : result (InvestigationRequest * InvestigationDb) :=
  refuse bool_decide (trigger <> iq_trigger request) with InvestigationConflict
    saying "request trigger lineage does not match";;
  let digest := request_digest request in
  let! existing := one_or_none (select_where (fun row =>
      bool_decide (iq_case_id (nr_request row) = iq_case_id request)
      && bool_decide (iq_idempotency_key (nr_request row) = iq_idempotency_key request)) (nv_investigations d)) in
  match existing with
  | Some row =>
      refuse bool_decide (nr_request_digest row <> digest) with InvestigationConflict
        saying "investigation idempotency key was reused with different semantics";;
      let! q := request_from_row row in Ok (q, d)
  | None =>
      let! t := db_add (nv_investigations d) (iq_investigation_id request) (mkInvestigationRow request digest) in
      let id := ("investigation_id", VStr (uuid_str (iq_investigation_id request))) in
      let epoch := ("authority_epoch", VInt (iq_authority_epoch request)) in
      let d := nv_set_investigations d t in
      let d := nv_audit d (iq_case_id request) "investigation.triggered"
        [id; ("trigger_type", VStr (InvestigationTriggerType_value (ig_trigger_type (iq_trigger request)))); epoch;
         ("source_type", VStr (ig_source_type (iq_trigger request)));
         ("evidence_ref_count", VInt (Z.of_nat (length (ig_evidence_refs (iq_trigger request)))))] in
      let d := nv_audit d (iq_case_id request) "investigation.requested"
        [id; epoch; ("status", VStr (InvestigationStatus_value (iq_status request)));
         ("max_rounds", VInt (ik_max_rounds (iq_constraints request)));
         ("max_model_calls", VInt (ik_max_model_calls (iq_constraints request)));
         ("max_evidence_requests", VInt (ik_max_evidence_requests (iq_constraints request)))] in
      Ok (request, d)
  end.

Definition get_request (d : InvestigationDb) (investigation_id : uuid) : result (option InvestigationRequest) :=
  match nv_investigations d !! investigation_id with
  | None => Ok None
  | Some row => let! q := request_from_row row in Ok (Some q)
  end.

Definition list_requests (d : InvestigationDb) (case_id : uuid) : result (list InvestigationRequest) :=
  traverse request_from_row
    (sort_by (by_time (fun r => iq_created_at (nr_request r)) (fun r => iq_investigation_id (nr_request r)))
       (select_where (fun r => bool_decide (iq_case_id (nr_request r) = case_id)) (nv_investigations d))).

Definition budget_exhausted (d : InvestigationDb) (row : InvestigationRow) (budget : string) (now : instant)
  : InvestigationDb :=
  nv_audit (put_investigation d (with_inquiry_status row IS_REQUIRES_HUMAN_REVIEW now)) (iq_case_id (nr_request row))
    "investigation.budget_exhausted"
    [("investigation_id", VStr (uuid_str (iq_investigation_id (nr_request row)))); ("budget", VStr budget)].

Definition mark_running (d : InvestigationDb) (investigation_id : uuid) (now : instant)
  : result (settled InvestigationRequest * InvestigationDb) :=
  let! row := investigation_row d investigation_id in
  let q := nr_request row in
  refuse bool_decide (iq_status q ∈ terminal_statuses) with InvestigationConflict
    saying "terminal investigation cannot run again";;
  refuse bool_decide (iq_status q = IS_REQUIRES_HUMAN_REVIEW) with InvestigationBudgetExceeded
    saying "investigation requires human review before another advisory run";;
  let! _ := assert_case_epoch d (iq_case_id q) (iq_authority_epoch q) in
  let! constraints := InvestigationConstraints_validate (iq_constraints q) in
  if ik_max_rounds constraints <=? iq_rounds_used q then
    let! _ := request_from_row (with_inquiry_status row IS_REQUIRES_HUMAN_REVIEW now) in
    Ok (Exhausted "investigation round budget exhausted", budget_exhausted d row "max_rounds" now)
  else if ik_max_model_calls constraints <=? iq_model_calls_used q then
    let! _ := request_from_row (with_inquiry_status row IS_REQUIRES_HUMAN_REVIEW now) in
    Ok (Exhausted "investigation model-call budget exhausted", budget_exhausted d row "max_model_calls" now)
  else
    let row' := with_round_spent row IS_RUNNING now in
    let! r := request_from_row row' in
    Ok (Done r, put_investigation d row').

Definition mark_failed (d : InvestigationDb) (investigation_id : uuid) (error_code : string) (now : instant)
  : result (InvestigationRequest * InvestigationDb) :=
  let! row := investigation_row d investigation_id in
  let q := nr_request row in
  if bool_decide (iq_status q ∈ IS_REQUIRES_HUMAN_REVIEW :: terminal_statuses)
  then let! r := request_from_row row in Ok (r, d)
  else
    let row' := with_error_code row IS_FAILED error_code now in
    let! r := request_from_row row' in
    Ok (r, nv_audit (put_investigation d row') (iq_case_id q) "investigation.failed"
             [("investigation_id", VStr (uuid_str (iq_investigation_id q))); ("authority_epoch", VInt (iq_authority_epoch q));
              ("error_code", VStr (String.substring 0 256 error_code))]).

Definition mark_expired (d : InvestigationDb) (investigation_id : uuid) (reason : string) (now : instant)
  : result (InvestigationRequest * InvestigationDb) :=
  let! row := investigation_row d investigation_id in
  let q := nr_request row in
  if bool_decide (iq_status q ∈ terminal_statuses)
  then let! r := request_from_row row in Ok (r, d)
  else
    let row' := with_error_code row IS_EXPIRED reason now in
    let! r := request_from_row row' in
    Ok (r, nv_audit (put_investigation d row') (iq_case_id q) "investigation.expired"
             [("investigation_id", VStr (uuid_str (iq_investigation_id q))); ("authority_epoch", VInt (iq_authority_epoch q));
              ("reason", VStr (String.substring 0 256 reason))]).

(** [for reframing in proposal.possible_reframings: db.add(...)] *)
Definition add_reframings (t : gmap uuid ReframingProposalRow) (p : InvestigationProposal)
  : result (gmap uuid ReframingProposalRow) :=
  for_each (fun t r => db_add t (rp_reframing_id r) (mkReframingProposalRow r (io_proposal_id p)))
    (io_possible_reframings p) t.

Definition proposal_audit (d : InvestigationDb) (p : InvestigationProposal) : InvestigationDb :=
  let ids := [("investigation_id", VStr (uuid_str (io_investigation_id p))); ("proposal_id", VStr (uuid_str (io_proposal_id p)))] in
  fold_left (fun d r => nv_audit d (io_case_id p) "case.reframing_proposed"
                          (ids ++ [("reframing_id", VStr (uuid_str (rp_reframing_id r)))]))
    (io_possible_reframings p)
    (nv_audit d (io_case_id p) "investigation.proposal_recorded"
       (ids ++ [("authority_epoch", VInt (io_authority_epoch p)); ("hypothesis_count", jcount (io_hypotheses p));
                ("missing_evidence_count", jcount (io_missing_evidence p));
                ("reframing_count", jcount (io_possible_reframings p))])).

(** The rows of an investigation under an idempotency key. *)
Definition proposals_under (d : InvestigationDb) (investigation_id : uuid) (key : string) : list InvestigationProposalRow :=
  select_where (fun r => bool_decide (io_investigation_id (np_proposal r) = investigation_id)
                         && bool_decide (io_idempotency_key (np_proposal r) = key)) (nv_proposals d).

Definition record_proposal (d : InvestigationDb) (p : InvestigationProposal) (now : instant)
  : result (settled InvestigationProposal * InvestigationDb) :=
  let digest := proposal_digest p in
  let! row := investigation_row d (io_investigation_id p) in
  let q := nr_request row in
  refuse bool_decide (iq_case_id q <> io_case_id p) with InvestigationConflict saying "proposal belongs to another case";;
  refuse bool_decide (iq_authority_epoch q <> io_authority_epoch p) with InvestigationConflict
    saying "proposal is stale for the investigation epoch";;
  let! existing := one_or_none (proposals_under d (io_investigation_id p) (io_idempotency_key p)) in
  match existing with
  | Some stored =>
      refuse bool_decide (np_proposal_digest stored <> digest) with InvestigationConflict
        saying "proposal callback idempotency key was reused with different semantics";;
      let! r := proposal_from_row stored in Ok (Done r, d)
  | None =>
      let! _ := assert_case_epoch d (io_case_id p) (io_authority_epoch p) in
      let reserved := bool_decide (iq_status q = IS_RUNNING) in
      refuse bool_decide (iq_status q ∈ terminal_statuses) with InvestigationConflict
        saying "terminal investigation cannot record a proposal";;
      refuse bool_decide (iq_status q = IS_REQUIRES_HUMAN_REVIEW) with InvestigationBudgetExceeded
        saying "investigation requires human review before another proposal";;
      let! constraints := InvestigationConstraints_validate (iq_constraints q) in
      if negb reserved && (ik_max_rounds constraints <=? iq_rounds_used q) then
        Ok (Exhausted "investigation round budget exhausted", budget_exhausted d row "max_rounds" now)
      else if negb reserved && (ik_max_model_calls constraints <=? iq_model_calls_used q) then
        Ok (Exhausted "investigation model-call budget exhausted", budget_exhausted d row "max_model_calls" now)
      else
        let! proposals := db_add (nv_proposals d) (io_proposal_id p) (mkInvestigationProposalRow p digest) in
        let! reframings := add_reframings (nv_reframings d) p in
        let row' := if reserved then with_inquiry_status row IS_PROPOSAL_RECORDED now
                    else with_round_spent row IS_PROPOSAL_RECORDED now in
        Ok (Done p, proposal_audit (put_investigation (nv_set_proposals d proposals reframings) row') p)
  end.

Definition list_proposals (d : InvestigationDb) (investigation_id : uuid) : result (list InvestigationProposal) :=
  traverse proposal_from_row
    (sort_by (by_time (fun r => io_created_at (np_proposal r)) (fun r => io_proposal_id (np_proposal r)))
       (select_where (fun r => bool_decide (io_investigation_id (np_proposal r) = investigation_id)) (nv_proposals d))).

Definition get_proposal (d : InvestigationDb) (proposal_id : uuid) : result (option InvestigationProposal) :=
  match nv_proposals d !! proposal_id with
  | None => Ok None
  | Some row => let! p := proposal_from_row row in Ok (Some p)
  end.

Definition evidence_requests_under (d : InvestigationDb) (investigation_id : uuid) (key : string)
  : list InvestigationEvidenceRequest :=
  select_where (fun r => bool_decide (ie_investigation_id r = investigation_id) && bool_decide (ie_idempotency_key r = key))
    (nv_evidence_requests d).

Definition create_evidence_request (d : InvestigationDb) (item : InvestigationEvidenceRequest) (now : instant)
  : result (settled InvestigationEvidenceRequest * InvestigationDb) :=
  let! row := investigation_row d (ie_investigation_id item) in
  let q := nr_request row in
  refuse bool_decide (iq_case_id q <> ie_case_id item) with InvestigationConflict
    saying "evidence request belongs to another case";;
  refuse bool_decide (iq_authority_epoch q <> ie_authority_epoch item) with InvestigationConflict
    saying "evidence request is stale";;
  let! existing := one_or_none (evidence_requests_under d (ie_investigation_id item) (ie_idempotency_key item)) in
  match existing with
  | Some stored =>
      let! restored := InvestigationEvidenceRequest_validate stored in
      refuse bool_decide (restored <> item) with InvestigationConflict
        saying "evidence request idempotency key was reused with different semantics";;
      Ok (Done restored, d)
  | None =>
      let! _ := assert_case_epoch d (ie_case_id item) (ie_authority_epoch item) in
      let! constraints := InvestigationConstraints_validate (iq_constraints q) in
      if ik_max_evidence_requests constraints <=? iq_evidence_requests_used q then
        Ok (Exhausted "investigation evidence-request budget exhausted",
            put_investigation d (with_inquiry_status row IS_REQUIRES_HUMAN_REVIEW now))
      else
        refuse bool_decide (ie_source_kind item ∉ ik_allowed_source_kinds constraints) with InvestigationConflict
          saying "evidence source kind is outside the investigation boundary";;
        let! t := db_add (nv_evidence_requests d) (ie_evidence_request_id item) item in
        let row' := nv_progress row IS_AWAITING_EVIDENCE (iq_rounds_used q) (iq_model_calls_used q)
                      (iq_evidence_requests_used q + 1) (iq_last_error_code q) now in
        Ok (Done item,
            nv_audit (put_investigation (nv_set_evidence_requests d t) row') (ie_case_id item)
              "investigation.evidence_requested"
              [("investigation_id", VStr (uuid_str (ie_investigation_id item)));
               ("evidence_request_id", VStr (uuid_str (ie_evidence_request_id item)));
               ("source_kind", VStr (ie_source_kind item)); ("authority_epoch", VInt (ie_authority_epoch item))])
  end.

Definition list_evidence_requests (d : InvestigationDb) (investigation_id : uuid)
  : result (list InvestigationEvidenceRequest) :=
  traverse InvestigationEvidenceRequest_validate
    (sort_by (by_time ie_created_at ie_evidence_request_id)
       (select_where (fun r => bool_decide (ie_investigation_id r = investigation_id)) (nv_evidence_requests d))).

(** The request an item of evidence answers, updated, or the reason it does not. *)
Definition answered_request (d : InvestigationDb) (item : InvestigationEvidence) (request_id : uuid)
  : result InvestigationEvidenceRequest :=
  match nv_evidence_requests d !! request_id with
  | None => raise InvestigationConflict "evidence request lineage is missing"
  | Some r =>
      refuse bool_decide (ie_investigation_id r <> iw_investigation_id item) || bool_decide (ie_case_id r <> iw_case_id item)
             || bool_decide (ie_authority_epoch r <> iw_authority_epoch item)
        with InvestigationConflict saying "evidence request lineage is missing";;
      refuse bool_decide (ie_source_kind r <> iw_source_kind item) with InvestigationConflict
        saying "evidence source kind does not match the request";;
      refuse negb (is_nil (ie_allowed_evidence_refs r)) && bool_decide (iw_evidence_ref item ∉ ie_allowed_evidence_refs r)
        with InvestigationConflict saying "evidence reference is outside the evidence request boundary";;
      Ok (mkInvestigationEvidenceRequest (ie_evidence_request_id r) (ie_investigation_id r) (ie_case_id r)
            (ie_authority_epoch r) (ie_source_kind r) (ie_requested_question r) (ie_allowed_evidence_refs r) ER_FULFILLED
            (fromkeys [] (ie_evidence_refs r ++ [iw_evidence_ref item])) (ie_requested_by r) (ie_created_at r)
            (Some (iw_created_at item)) (ie_idempotency_key r))
  end.

Definition evidence_under (d : InvestigationDb) (investigation_id : uuid) (key : string) : list InvestigationEvidence :=
  select_where (fun r => bool_decide (iw_investigation_id r = investigation_id) && bool_decide (iw_idempotency_key r = key))
    (nv_evidence d).

Definition add_investigation_evidence (d : InvestigationDb) (item : InvestigationEvidence) (now : instant)
  : result (InvestigationEvidence * InvestigationDb) :=
  let! row := investigation_row d (iw_investigation_id item) in
  let q := nr_request row in
  refuse bool_decide (iq_case_id q <> iw_case_id item) with InvestigationConflict saying "evidence belongs to another case";;
  refuse bool_decide (iq_authority_epoch q <> iw_authority_epoch item) with InvestigationConflict
    saying "evidence is stale for the investigation epoch";;
  let! existing := one_or_none (evidence_under d (iw_investigation_id item) (iw_idempotency_key item)) in
  match existing with
  | Some stored =>
      let! restored := InvestigationEvidence_validate stored in
      refuse bool_decide (restored <> item) with InvestigationConflict
        saying "evidence idempotency key was reused with different semantics";;
      Ok (restored, d)
  | None =>
      let! _ := assert_case_epoch d (iw_case_id item) (iw_authority_epoch item) in
      let! requests := match iw_evidence_request_id item with
                       | None => Ok (nv_evidence_requests d)
                       | Some id => let! r := answered_request d item id in Ok (<[id := r]> (nv_evidence_requests d))
                       end in
      let! t := db_add (nv_evidence d) (iw_evidence_id item) item in
      let row' := with_inquiry_status row IS_REQUIRES_HUMAN_REVIEW now in
      Ok (item,
          nv_audit (put_investigation (nv_set_evidence (nv_set_evidence_requests d requests) t) row') (iw_case_id item)
            "investigation.evidence_added"
            [("investigation_id", VStr (uuid_str (iw_investigation_id item)));
             ("evidence_id", VStr (uuid_str (iw_evidence_id item)));
             ("evidence_request_id", opt_uuid (iw_evidence_request_id item)); ("source_kind", VStr (iw_source_kind item));
             ("source", VStr (iw_source item)); ("authority_epoch", VInt (iw_authority_epoch item))])
  end.

Definition list_evidence (d : InvestigationDb) (investigation_id : uuid) : result (list InvestigationEvidence) :=
  traverse InvestigationEvidence_validate
    (sort_by (by_time iw_created_at iw_evidence_id)
       (select_where (fun r => bool_decide (iw_investigation_id r = investigation_id)) (nv_evidence d))).

Definition assessments_under (d : InvestigationDb) (investigation_id : uuid) (key : string) : list ReopenAssessmentRow :=
  select_where (fun r => bool_decide (oa_investigation_id (na_assessment r) = investigation_id)
                         && bool_decide (oa_idempotency_key (na_assessment r) = key)) (nv_assessments d).

Definition record_reopen_assessment (d : InvestigationDb) (a : ReopenAssessment) (now : instant)
  : result (ReopenAssessment * InvestigationDb) :=
  let digest := assessment_digest a in
  let! row := investigation_row d (oa_investigation_id a) in
  let q := nr_request row in
  refuse bool_decide (iq_case_id q <> oa_case_id a) with InvestigationConflict
    saying "reopen assessment belongs to another case";;
  refuse bool_decide (iq_authority_epoch q <> oa_authority_epoch a) with InvestigationConflict
    saying "reopen assessment is stale";;
  let! existing := one_or_none (assessments_under d (oa_investigation_id a) (oa_idempotency_key a)) in
  match existing with
  | Some stored =>
      refuse bool_decide (na_assessment_digest stored <> digest) with InvestigationConflict
        saying "reopen assessment idempotency key was reused with different semantics";;
      let! r := reopen_assessment_from_row stored in Ok (r, d)
  | None =>
      refuse bool_decide (oa_assessment_kind a = RK_HUMAN) && negb (nonempty (oa_assessed_by a)) with InvestigationConflict
        saying "human assessment requires an authenticated principal";;
      let! t := db_add (nv_assessments d) (oa_assessment_id a) (mkReopenAssessmentRow a digest) in
      let preserve := bool_decide (oa_disposition a = RD_PRESERVE_CLOSURE) in
      let row' := with_inquiry_status row (if preserve then IS_CLOSURE_PRESERVED else IS_REQUIRES_HUMAN_REVIEW) now in
      Ok (a,
          nv_audit (put_investigation (nv_set_assessments d t) row') (oa_case_id a)
            (if preserve then "case.closure_preserved" else "case.reopen_assessed")
            [("investigation_id", VStr (uuid_str (oa_investigation_id a)));
             ("assessment_id", VStr (uuid_str (oa_assessment_id a))); ("authority_epoch", VInt (oa_authority_epoch a));
             ("disposition", VStr (ReopenAssessmentDisposition_value (oa_disposition a)));
             ("assessment_kind", VStr (ReopenAssessmentKind_value (oa_assessment_kind a)))])
  end.

Definition get_reopen_assessment (d : InvestigationDb) (assessment_id : uuid) : result (option ReopenAssessment) :=
  match nv_assessments d !! assessment_id with
  | None => Ok None
  | Some row => let! a := reopen_assessment_from_row row in Ok (Some a)
  end.

Definition get_assessment_by_idempotency (d : InvestigationDb) (investigation_id : uuid) (key : string)
  : result (option ReopenAssessment) :=
  let! row := one_or_none (assessments_under d investigation_id key) in
  match row with
  | None => Ok None
  | Some row => let! a := reopen_assessment_from_row row in Ok (Some a)
  end.

Definition list_reopen_assessments (d : InvestigationDb) (case_id : uuid) : result (list ReopenAssessment) :=
  traverse reopen_assessment_from_row
    (sort_by (by_time (fun r => oa_created_at (na_assessment r)) (fun r => oa_assessment_id (na_assessment r)))
       (select_where (fun r => bool_decide (oa_case_id (na_assessment r) = case_id)) (nv_assessments d))).

(** *** Reopening *)

(** The ids of the rows of a case and epoch, as texts. *)
Definition refs_where {A} (id : A -> uuid) (P : A -> bool) (t : gmap uuid A) : list string :=
  (fun r => uuid_str (id r)) <$> select_where P t.

Definition invalidated_decisions (d : InvestigationDb) (case_id : uuid) (epoch : Z) : list string :=
  refs_where d_decision_id (fun r => bool_decide (d_case_id r = case_id) && bool_decide (d_authority_epoch r = epoch))
    (x_decisions (nv_exec d)).
Definition invalidated_authorizations (d : InvestigationDb) (case_id : uuid) (epoch : Z) : list string :=
  refs_where ea_authorization_id
    (fun r => bool_decide (ea_case_id r = case_id) && bool_decide (ea_authority_epoch r = epoch))
    (x_authorizations (nv_exec d)).

(** [_current_lineage_refs] *)
Definition current_lineage_refs (d : InvestigationDb) (case : AdministrativeCase)
  : list string * list string * list string :=
  let of_case (id : uuid) (epoch : Z) :=
    bool_decide (id = c_case_id case) && bool_decide (epoch = c_authority_epoch case) in
  let governance := refs_where gb_basis_id (fun r => of_case (gb_case_id r) (gb_authority_epoch r)) (nv_governance d) in
  let duties := refs_where or_obligation_id (fun r => of_case (or_case_id r) (or_authority_epoch r))
                  (obligations (nv_obligations d)) in
  let sets := refs_where sr_requirement_id (fun r => of_case (sr_case_id r) (sr_authority_epoch r))
                (obligation_sets (nv_obligations d)) in
  let promises := refs_where cm_commitment_id (fun r => of_case (cm_case_id r) (cm_authority_epoch r))
                    (m_commitments (nv_commitments d)) in
  (governance, sets ++ duties, promises).

(** The columns of the case that a reopening assigns. *)
Definition reopened_row (row : CaseRow) (epoch : Z) (now : instant) : CaseRow :=
  let c := cr_case row in
  mkCaseRow (cr_request row)
    (mkAdministrativeCase (c_case_id c) (c_case_kind c) (c_requester_principal_id c) (c_subject_ref c) GATHERING_FACTS
       (c_version c + 1) epoch (c_fact_snapshot c) (c_policy_ref c) (c_evidence c) None (c_created_at c) now).

Definition record_of_reopen (d : InvestigationDb) (case : AdministrativeCase) (a : ReopenAssessment) (reason : ReopenReason)
    (evidence_refs : list string) (key : string) (reopen_id : uuid) (authorized_by : string) (now : instant) : ReopenRecord :=
  let '(governance, duties, promises) := current_lineage_refs d case in
  mkReopenRecord reopen_id (oa_investigation_id a) (c_case_id case) (oa_assessment_id a) (c_authority_epoch case)
    (c_authority_epoch case + 1) (ReopenReason_value reason) evidence_refs authorized_by
    (invalidated_decisions d (c_case_id case) (c_authority_epoch case)) governance duties
    (invalidated_authorizations d (c_case_id case) (c_authority_epoch case)) promises now key.

Definition reopen_audit (d : InvestigationDb) (r : ReopenRecord) : InvestigationDb :=
  let audit event payload d := nv_audit d (oo_case_id r) event payload in
  let investigation := ("investigation_id", VStr (uuid_str (oo_investigation_id r))) in
  let reopen := ("reopen_id", VStr (uuid_str (oo_reopen_id r))) in
  let previous := ("previous_authority_epoch", VInt (oo_previous_authority_epoch r)) in
  let new := ("new_authority_epoch", VInt (oo_new_authority_epoch r)) in
  let d := audit "governance.invalidated"
    [investigation; ("assessment_id", VStr (uuid_str (oo_assessment_ref r))); previous; new;
     ("governance_basis_refs", jtexts (oo_invalidated_governance_basis_refs r))] d in
  let d := audit "authority.epoch_advanced" [investigation; reopen; previous; new] d in
  let d := if is_nil (oo_affected_obligation_refs r) then d
           else audit "obligation.revalidation_required" [reopen; ("obligation_count", jcount (oo_affected_obligation_refs r))] d in
  let d := if is_nil (oo_affected_commitment_refs r) then d
           else audit "commitment.revalidation_required" [reopen; ("commitment_count", jcount (oo_affected_commitment_refs r))] d in
  audit "case.reopened" [investigation; reopen; ("authorized_by", VStr (oo_authorized_by r)); new;
                         ("status", VStr (CaseStatus_value GATHERING_FACTS))] d.

Definition records_under (d : InvestigationDb) (case_id : uuid) (key : string) : list ReopenRecord :=
  select_where (fun r => bool_decide (oo_case_id r = case_id) && bool_decide (oo_idempotency_key r = key)) (nv_records d).

(** The record of the key, or else of the assessment. *)
Definition existing_reopen (d : InvestigationDb) (case_id : uuid) (key : string) (assessment_id : uuid)
  : result (option ReopenRecord) :=
  let! by_key := one_or_none (records_under d case_id key) in
  match by_key with
  | Some r => Ok (Some r)
  | None => one_or_none (select_where (fun r => bool_decide (oo_assessment_ref r = assessment_id)) (nv_records d))
  end.

Definition apply_reopen (d : InvestigationDb) (case : AdministrativeCase) (a : ReopenAssessment) (reason : ReopenReason)
    (evidence_refs : list string) (key : string) (reopen_id : uuid) (authorized_by : string) (now : instant)
  : result (ReopenRecord * AdministrativeCase * bool * InvestigationDb) :=
  refuse bool_decide (oa_disposition a <> RD_REOPEN_REQUIRED) with InvestigationConflict
    saying "only a REOPEN_REQUIRED assessment may authorize reopen";;
  refuse bool_decide (oa_case_id a <> c_case_id case) || bool_decide (oa_authority_epoch a <> c_authority_epoch case)
    with InvestigationConflict saying "reopen assessment is stale for the current case";;
  let! existing := existing_reopen d (c_case_id case) key (oa_assessment_id a) in
  match existing with
  | Some r =>
      let! r := ReopenRecord_validate r in
      let! current := get_case (nv_exec d) (c_case_id case) in
      Ok (r, default case current, false, d)
  | None =>
      match x_cases (nv_exec d) !! c_case_id case with
      | None => raise InvestigationNotFound (uuid_str (c_case_id case))
      | Some row =>
          refuse bool_decide (c_version (cr_case row) <> c_version case)
                 || bool_decide (c_authority_epoch (cr_case row) <> c_authority_epoch case)
            with ConcurrencyConflict saying ("case " +:+ uuid_str (c_case_id case) +:+ " changed before authorized reopen");;
          match nv_assessments d !! oa_assessment_id a with
          | None => raise InvestigationConflict "reopen assessment is not persisted"
          | Some _ =>
              let! r := ReopenRecord_validate
                          (record_of_reopen d case a reason evidence_refs key reopen_id authorized_by now) in
              let! records := db_add (nv_records d) (oo_reopen_id r) r in
              let row' := reopened_row row (oo_new_authority_epoch r) (oo_created_at r) in
              let x := set_cases (nv_exec d) (<[c_case_id case := row']> (x_cases (nv_exec d))) in
              let! inquiry := investigation_row d (oa_investigation_id a) in
              let d' := put_investigation (nv_set_records (nv_set_exec d x) records)
                          (with_inquiry_status inquiry IS_REOPENED (oo_created_at r)) in
              let! updated := case_from_row row' in
              Ok (r, updated, true, reopen_audit d' r)
          end
      end
  end.

Definition list_reopen_records (d : InvestigationDb) (case_id : uuid) : result (list ReopenRecord) :=
  traverse ReopenRecord_validate
    (sort_by (by_time oo_created_at oo_reopen_id)
       (select_where (fun r => bool_decide (oo_case_id r = case_id)) (nv_records d))).

Definition get_reopen_record (d : InvestigationDb) (case_id : uuid) (key : string) : result (option ReopenRecord) :=
  let! row := one_or_none (records_under d case_id key) in
  match row with
  | None => Ok None
  | Some r => let! r := ReopenRecord_validate r in Ok (Some r)
  end.
End repository.
