(* ===== verification/InvestigationService.v ===== *)
(** * Investigations: the service

    [investigation_service.py], [investigation_reconciliation.py] and the envelope
    of [investigation_client.py].  The advisory client is a parameter that may
    answer anything and may answer differently each time; the world keeps what it
    was asked.  The verifier of Kernel reconciliations is a parameter of the
    service, and [local_verify] is the one the repository has. *)

From stdpp Require Import base gmap strings list.
From Stdlib Require Import ZArith Lia.
From S2P Require Import Prelude Python Uuid Store Domain Policy Authority Lifecycle Obligations Persistence Financial.
From S2P Require Import PolicyPlane Transactions Governance Commitment Machine Kernel KernelClient Investigation.

Open Scope Z_scope.
Open Scope orch_scope.
Open Scope machine_scope.

(** ** The envelope *)

Record InvestigationRequestEnvelope := mkInvestigationRequestEnvelope {
  en_investigation_id : uuid;
  en_case_id : uuid;
  en_tenant_id : string;
  en_case_kind : string;
  en_case_status : string;
  en_authority_epoch : Z;
  en_trigger_type : InvestigationTriggerType;
  en_requested_question : string;
  en_allowed_evidence_refs : list string;
  en_current_fact_snapshot_ref : option string;
  en_current_governance_basis_ref : option string;
  en_current_obligation_refs : list string;
  en_current_commitment_refs : list string;
  en_constraints : InvestigationConstraints;
}.

Definition InvestigationRequestEnvelope_validate (e : InvestigationRequestEnvelope) : result InvestigationRequestEnvelope :=
  if sized 1 512 (en_tenant_id e) && sized 1 128 (en_case_kind e) && sized 1 64 (en_case_status e)
     && (1 <=? en_authority_epoch e) && sized 1 4000 (en_requested_question e)
  then Ok e else invalid.

(** ** Reconciliations of the Kernel *)

(** [_TERMINAL_RECONCILIATION_STATUSES] *)
Definition TERMINAL_RECONCILIATION_STATUSES : list string :=
  ["authorization-rejected"; "execution-failed"; "verified-fail"; "completed"; "recovered-failed"; "recovered-verified-fail";
   "recovered-completed"].

(** [LocalKernelReconciliationVerifier.verify]; [inspect] is the recovery client. *)
Definition local_verify (bridge : BridgeDb) (inspect : string -> option string -> result (option KernelExecutionResolution))
    (case_id : uuid) (authority_epoch : Z) (reconciliation_ref : string) : result unit :=
  let reference := strip reconciliation_ref in
  refuse negb (nonempty reference) with KernelReconciliationVerificationError
    saying "Kernel reconciliation reference must not be blank";;
  let! projections := list_projections_for_case bridge case_id in
  match head (List.filter (fun p => bool_decide (kernel_execution_ref (kp_execution p) = Some reference)) projections) with
  | None => raise KernelReconciliationVerificationError "Kernel reconciliation reference is not bound to this case"
  | Some p =>
      refuse authority_epoch <? ps_authority_epoch (kp_semantics p) with KernelReconciliationVerificationError
        saying "Kernel reconciliation reference belongs to a future authority epoch";;
      refuse bool_decide (kernel_execution_status (kp_execution p) <> Some KE_EXECUTION_UNKNOWN) with KernelReconciliationVerificationError
        saying "Kernel reconciliation reference is not an execution-unknown target";;
      match inspect reference (kernel_work_ref (kp_work p)) with
      | Err e =>
          if bool_decide (exn_cls e = KernelRecoveryError)
          then raise KernelReconciliationVerificationError "Kernel reconciliation resolution is unavailable"
          else Err e
      | Ok None => raise KernelReconciliationVerificationError "Kernel reconciliation resolution is unavailable"
      | Ok (Some resolution) =>
          refuse bool_decide (rn_current_status resolution ∉ TERMINAL_RECONCILIATION_STATUSES)
            with KernelReconciliationVerificationError
            saying "Kernel reconciliation has not reached a terminal resolution";;
          Ok tt
      end
  end.

(** ** The policy boundary *)

(** [InvestigationPolicyBoundary.validate_trigger] *)
Definition boundary_validate_trigger (t : InvestigationTrigger) : result unit :=
  refuse blank_reconciliation t with InvestigationConflict
    saying "outcome_unknown investigation requires Kernel reconciliation first";;
  Ok tt.

(** [InvestigationPolicyBoundary.validate_proposal] *)
Definition boundary_validate_proposal (q : InvestigationRequest) (p : InvestigationProposal) : result unit :=
  refuse bool_decide (iq_case_id q <> io_case_id p) || bool_decide (iq_authority_epoch q <> io_authority_epoch p)
    with InvestigationConflict saying "proposal is stale for the current investigation";;
  refuse bool_decide (io_investigation_id p <> iq_investigation_id q) with InvestigationConflict
    saying "proposal belongs to another investigation";;
  refuse existsb (fun item => bool_decide (iy_effect_class item <> "read-only")) (io_recommended_queries p)
    with InvestigationConflict saying "investigation proposal contains an effectful query";;
  Ok tt.

(** [_REOPEN_REASON_BY_TRIGGER] *)
Definition reopen_reason_by_trigger (t : InvestigationTriggerType) : ReopenReason :=
  match t with
  | TT_AMBIGUOUS_EVIDENCE | TT_MISSING_QUALIFICATION => MISSING_REQUIRED_FACT
  | TT_CONFLICTING_FACTS => POLICY_CONFLICT
  | TT_MISSING_AUTHORITY => AUTHORITY_UNRESOLVED
  | TT_POLICY_UNDERSPECIFIED => NO_APPLICABLE_POLICY
  | TT_UNEXPECTED_REALITY_STATE | TT_VERIFICATION_CONTRADICTION => REALITY_MISMATCH
  | TT_OUTCOME_UNKNOWN => OUTCOME_UNKNOWN_REASON
  | TT_OBLIGATION_STALLED => OBLIGATION_STALLED
  | TT_COMMITMENT_CONFLICT => COMMITMENT_CONFLICT
  | TT_LATE_EVIDENCE => LATE_EVIDENCE
  | TT_HUMAN_REQUESTED_REVIEW => HUMAN_REQUESTED_REVIEW
  end.

(** ** The service *)

(** The tables, and what the advisory client was asked, latest first. *)
Record InvestigationWorld := mkInvestigationWorld {
  vw_db : InvestigationDb;
  vw_asked : list InvestigationRequestEnvelope;
}.
Definition vw_set_db (w : InvestigationWorld) (d : InvestigationDb) : InvestigationWorld := mkInvestigationWorld d (vw_asked w).

Local Abbreviation M := (M InvestigationWorld).

Definition inquiry_read {A} (f : InvestigationDb -> result A) : M A := reads (fun w => f (vw_db w)).
Definition inquiry_write {A} (f : InvestigationDb -> result (A * InvestigationDb)) : M A :=
  transact (fun w => let! (a, d) := f (vw_db w) in Ok (a, vw_set_db w d)).
(** The transaction commits, then the operation raises what it found exhausted. *)
Definition inquiry_settle {A} (f : InvestigationDb -> result (settled A * InvestigationDb)) : M A :=
  do! o := inquiry_write f in
  match o with
  | Done a => ret a
  | Exhausted msg => throw InvestigationBudgetExceeded msg
  end.

(** [except (InvestigationClientError, InvestigationConflict, InvestigationBudgetExceeded) as exc: ...; raise] *)
Definition advisory_failure (c : exn_class) : option string :=
  match c with
  | InvestigationClientError => Some "InvestigationClientError"
  | InvestigationConflict => Some "InvestigationConflict"
  | InvestigationBudgetExceeded => Some "InvestigationBudgetExceeded"
  | _ => None
  end.
Definition on_failure {A} (m : M A) (handler : string -> M unit) : M A := fun w =>
  match m w with
  | (Err e, w') =>
      match advisory_failure (exn_cls e) with
      | Some name => match handler name w' with (Ok _, w'') => (Err e, w'') | (Err e', w'') => (Err e', w'') end
      | None => (Err e, w')
      end
  | r => r
  end.

(** The fields of a request a caller chooses. *)
Record InvestigationCall := mkInvestigationCall {
  cl_trigger_type : InvestigationTriggerType;
  cl_reason : string;
  cl_requested_question : string;
  cl_created_by : string;
  cl_idempotency_key : string;
  cl_evidence_refs : list string;
  cl_allowed_evidence_refs : list string;
  cl_constraints : option InvestigationConstraints;
  cl_source_type : string;
  cl_reconciliation_ref : option string;
}.

Section service.
Context `{Platform}.
Context (client : list InvestigationRequestEnvelope -> InvestigationRequestEnvelope -> result InvestigationProposal).
Context (verifier : uuid -> Z -> string -> result unit).

(** [self._case(case_id)] *)
Definition inquiry_case (d : InvestigationDb) (case_id : uuid) : result AdministrativeCase :=
  let! case := get_case (nv_exec d) case_id in
  match case with
  | None => raise InvestigationNotFound (uuid_str case_id)
  | Some c => Ok c
  end.

Definition require_request (d : InvestigationDb) (investigation_id : uuid) : result InvestigationRequest :=
  let! q := get_request d investigation_id in
  match q with
  | None => raise InvestigationNotFound (uuid_str investigation_id)
  | Some q => Ok q
  end.

(** [_ensure_not_expired] *)
Definition ensure_not_expired (q : InvestigationRequest) (now : instant) : M unit :=
  if match ik_deadline (iq_constraints q) with None => true | Some deadline => now <? deadline end then ret tt
  else
    do! _ := inquiry_write (fun d => mark_expired d (iq_investigation_id q) "deadline_expired" now) in
    throw InvestigationConflict "investigation deadline has expired".

(** [_ensure_current_epoch] *)
Definition ensure_current_epoch (q : InvestigationRequest) (now : instant) : M AdministrativeCase :=
  do! case := inquiry_read (fun d => inquiry_case d (iq_case_id q)) in
  if bool_decide (c_authority_epoch case = iq_authority_epoch q) then ret case
  else
    do! _ := inquiry_write (fun d => mark_expired d (iq_investigation_id q) "authority_epoch_advanced" now) in
    throw InvestigationConflict "investigation authority_epoch is stale for the current case".

(** [_request] *)
Definition open_request (investigation_id : uuid) (now : instant) : M InvestigationRequest :=
  do! q := inquiry_read (fun d => require_request d investigation_id) in
  do! _ := ensure_not_expired q now in
  if bool_decide (iq_status q ∈ terminal_statuses)
  then throw InvestigationConflict "investigation is no longer accepting new inputs"
  else ret q.

Definition tenant_of_case (case : AdministrativeCase) : string :=
  match c_fact_snapshot case with
  | Some s => match dict_get (fs_facts s) "tenant_ref" with
              | VStr t => if nonempty (strip t) then strip t else "*"
              | _ => "*"
              end
  | None => "*"
  end.

(** The objects [request_investigation] stores. *)
Definition prepare_request (d : InvestigationDb) (case : AdministrativeCase) (trigger : InvestigationTrigger)
    (call : InvestigationCall) (id : uuid) (now : instant) : result InvestigationRequest :=
  let! basis := get_current_for_case (nv_governance d) (c_case_id case) (c_authority_epoch case) in
  let! duties := get_current (nv_obligations d) (c_case_id case) (c_authority_epoch case) in
  let! promise := get_commitment (nv_commitments d) (c_case_id case) in
  InvestigationRequest_validate
    (mkInvestigationRequest id (tenant_of_case case) (c_case_id case) (c_authority_epoch case) trigger
       (cl_requested_question call) (cl_allowed_evidence_refs call)
       ((fun s => uuid_str (fs_snapshot_id s)) <$> c_fact_snapshot case)
       ((fun b => uuid_str (gb_basis_id b)) <$> basis)
       (match duties with Some s => (fun o => uuid_str (ob_obligation_id o)) <$> os_obligations s | None => [] end)
       (match promise with Some c => [uuid_str (cm_commitment_id c)] | None => [] end)
       (default InvestigationConstraints_default (cl_constraints call)) now (cl_created_by call) IS_REQUESTED
       (cl_idempotency_key call) 0 0 0 None now).

Definition request_investigation (case_id : uuid) (call : InvestigationCall) (trigger_id id : uuid) (clock : nat -> instant)
  : M InvestigationRequest :=
  do! case := inquiry_read (fun d => inquiry_case d case_id) in
  do! trigger := lift (InvestigationTrigger_validate
    (mkInvestigationTrigger trigger_id (c_case_id case) (c_authority_epoch case) (cl_trigger_type call) (cl_reason call)
       (cl_evidence_refs call) (cl_source_type call) (cl_reconciliation_ref call) (cl_created_by call) (clock 0%nat)
       (cl_idempotency_key call))) in
  do! _ := lift (boundary_validate_trigger trigger) in
  do! _ := lift (if bool_decide (ig_trigger_type trigger = TT_OUTCOME_UNKNOWN)
                 then match verifier (c_case_id case) (c_authority_epoch case) (default "" (ig_reconciliation_ref trigger)) with
                      | Err e => if bool_decide (exn_cls e = KernelReconciliationVerificationError)
                                 then raise InvestigationConflict (exn_msg e) else Err e
                      | Ok u => Ok u
                      end
                 else Ok tt) in
  do! request := inquiry_read (fun d => prepare_request d case trigger call id (clock 1%nat)) in
  inquiry_write (fun d => create_request d trigger request).

(** [_envelope] *)
Definition envelope_of (d : InvestigationDb) (q : InvestigationRequest) : result InvestigationRequestEnvelope :=
  let! case := inquiry_case d (iq_case_id q) in
  InvestigationRequestEnvelope_validate
    (mkInvestigationRequestEnvelope (iq_investigation_id q) (iq_case_id q) (iq_tenant_id q) (c_case_kind case)
       (CaseStatus_value (c_status case)) (iq_authority_epoch q) (ig_trigger_type (iq_trigger q)) (iq_requested_question q)
       (iq_allowed_evidence_refs q) (iq_current_fact_snapshot_ref q) (iq_current_governance_basis_ref q)
       (iq_current_obligation_refs q) (iq_current_commitment_refs q) (iq_constraints q)).

(** [self.client.investigate(envelope)] *)
Definition ask_client (e : InvestigationRequestEnvelope) : M InvestigationProposal := fun w =>
  (client (vw_asked w) e, mkInvestigationWorld (vw_db w) (e :: vw_asked w)).

Definition stale_answer (q : InvestigationRequest) (p : InvestigationProposal) : bool :=
  bool_decide (io_investigation_id p <> iq_investigation_id q) || bool_decide (io_case_id p <> iq_case_id q)
  || bool_decide (io_authority_epoch p <> iq_authority_epoch q).

(** The body of the [try] of [run]. *)
Definition advise (q : InvestigationRequest) (e : InvestigationRequestEnvelope) (now : instant) : M InvestigationProposal :=
  do! p := ask_client e in
  if stale_answer q p then throw InvestigationClientError "advisory proposal lineage is stale or mismatched"
  else
    do! _ := lift (boundary_validate_proposal q p) in
    inquiry_settle (fun d => record_proposal d p now).

(** The rest of [run], once the investigation is current and has no proposal to return. *)
Definition advisory_round (investigation_id : uuid) (q : InvestigationRequest) (clock : nat -> instant) : M InvestigationProposal :=
  do! _ := inquiry_settle (fun d => mark_running d investigation_id (clock 2%nat)) in
  do! e := inquiry_read (fun d => envelope_of d q) in
  on_failure (advise q e (clock 3%nat))
    (fun name => do! _ := inquiry_write (fun d => mark_failed d investigation_id name (clock 4%nat)) in ret tt).

Definition run_investigation (investigation_id : uuid) (clock : nat -> instant) : M InvestigationProposal :=
  do! q := inquiry_read (fun d => require_request d investigation_id) in
  do! _ := ensure_not_expired q (clock 0%nat) in
  do! _ := ensure_current_epoch q (clock 1%nat) in
  do! existing := inquiry_read (fun d => list_proposals d investigation_id) in
  match last existing with
  | Some p => if bool_decide (iq_status q = IS_REQUESTED) then advisory_round investigation_id q clock else ret p
  | None => advisory_round investigation_id q clock
  end.

(** [InvestigationService.record_proposal] *)
Definition submit_proposal (p : InvestigationProposal) (clock : nat -> instant) : M InvestigationProposal :=
  do! q := inquiry_read (fun d => require_request d (io_investigation_id p)) in
  do! _ := ensure_not_expired q (clock 0%nat) in
  do! _ := ensure_current_epoch q (clock 1%nat) in
  do! _ := lift (boundary_validate_proposal q p) in
  inquiry_settle (fun d => record_proposal d p (clock 2%nat)).

Definition request_evidence (investigation_id : uuid) (source_kind question requested_by key : string)
    (allowed : list string) (id : uuid) (clock : nat -> instant) : M InvestigationEvidenceRequest :=
  do! q := open_request investigation_id (clock 0%nat) in
  do! item := lift (InvestigationEvidenceRequest_validate
    (mkInvestigationEvidenceRequest id (iq_investigation_id q) (iq_case_id q) (iq_authority_epoch q) source_kind question
       allowed ER_OPEN [] requested_by (clock 1%nat) None key)) in
  do! _ := ensure_current_epoch q (clock 2%nat) in
  inquiry_settle (fun d => create_evidence_request d item (clock 3%nat)).

(** The fields of an item of evidence a caller chooses. *)
Record EvidenceCall := mkEvidenceCall {
  ec_evidence_request_id : option uuid;
  ec_evidence_ref : string;
  ec_source_kind : string;
  ec_source : string;
  ec_owner : string;
  ec_source_ref : option string;
  ec_source_version : option string;
  ec_digest : option string;
  ec_added_by : string;
  ec_idempotency_key : string;
}.

(** [InvestigationService.add_evidence] *)
Definition supply_evidence (investigation_id : uuid) (call : EvidenceCall) (id : uuid) (clock : nat -> instant)
  : M InvestigationEvidence :=
  do! q := open_request investigation_id (clock 0%nat) in
  do! _ := ensure_current_epoch q (clock 1%nat) in
  do! item := lift (
    refuse bool_decide (ec_source_kind call ∉ ik_allowed_source_kinds (iq_constraints q)) with InvestigationConflict
      saying "evidence source kind is outside the investigation boundary";;
    refuse negb (is_nil (iq_allowed_evidence_refs q)) && bool_decide (ec_evidence_ref call ∉ iq_allowed_evidence_refs q)
      with InvestigationConflict saying "evidence reference is outside the investigation boundary";;
    InvestigationEvidence_validate
      (mkInvestigationEvidence id (iq_investigation_id q) (iq_case_id q) (iq_authority_epoch q) (ec_evidence_request_id call)
         (ec_evidence_ref call) (ec_source_kind call) (ec_source call) (ec_owner call) (ec_source_ref call)
         (ec_source_version call) (ec_digest call) (ec_added_by call) (clock 2%nat) (ec_idempotency_key call))) in
  inquiry_write (fun d => add_investigation_evidence d item (clock 3%nat)).

(** The fields of an assessment a caller chooses. *)
Record AssessmentCall := mkAssessmentCall {
  al_disposition : ReopenAssessmentDisposition;
  al_reason : string;
  al_evidence_refs : list string;
  al_proposal_ref : option uuid;
  al_assessment_kind : ReopenAssessmentKind;
  al_assessed_by : string;
  al_idempotency_key : string;
}.

(** The proposal an assessment refers to is one of the investigation. *)
Definition check_proposal_ref (d : InvestigationDb) (q : InvestigationRequest) (proposal_ref : option uuid) : result unit :=
  match proposal_ref with
  | None => Ok tt
  | Some id =>
      let! p := get_proposal d id in
      refuse match p with None => true | Some p => stale_answer q p end with InvestigationConflict
        saying "reopen assessment proposal reference is invalid";;
      Ok tt
  end.

(** Every cited item is known from the trigger or was added. *)
Definition check_known_evidence (d : InvestigationDb) (q : InvestigationRequest) (evidence_refs : list string) : result unit :=
  let! added := list_evidence d (iq_investigation_id q) in
  refuse existsb (fun item => bool_decide (item ∉ ig_evidence_refs (iq_trigger q) ++ (iw_evidence_ref <$> added))) evidence_refs
    with InvestigationConflict saying "reopen assessment references unknown evidence";;
  Ok tt.

Definition assess_reopen (investigation_id : uuid) (call : AssessmentCall) (id : uuid) (clock : nat -> instant)
  : M ReopenAssessment :=
  do! q := inquiry_read (fun d => require_request d investigation_id) in
  do! _ := inquiry_read (fun d => check_proposal_ref d q (al_proposal_ref call)) in
  do! _ := inquiry_read (fun d => check_known_evidence d q (al_evidence_refs call)) in
  do! known := inquiry_read (fun d => get_assessment_by_idempotency d investigation_id (al_idempotency_key call)) in
  do! _ := match known with
           | Some _ => ret tt
           | None => do! _ := open_request investigation_id (clock 0%nat) in
                     do! _ := ensure_current_epoch q (clock 1%nat) in ret tt
           end in
  do! a := lift (ReopenAssessment_validate
    (mkReopenAssessment id (iq_investigation_id q) (iq_case_id q) (iq_authority_epoch q) (al_disposition call)
       (al_reason call) (al_evidence_refs call) (al_proposal_ref call) (al_assessment_kind call) (al_assessed_by call)
       (clock 2%nat) (al_idempotency_key call))) in
  inquiry_write (fun d => record_reopen_assessment d a (clock 3%nat)).

(** [uuid5(NAMESPACE_URL, f"administrative-reopen:{case_id}:{idempotency_key}")] *)
Definition reopen_id_of (case_id : uuid) (key : string) : uuid :=
  uuid5 ("administrative-reopen:" +:+ uuid_str case_id +:+ ":" +:+ key).

Definition other_semantics (r : ReopenRecord) (a : ReopenAssessment) (assessment_id : uuid) (authorized_by : string) : bool :=
  bool_decide (oo_assessment_ref r <> assessment_id) || bool_decide (oo_investigation_id r <> oa_investigation_id a)
  || bool_decide (oo_authorized_by r <> authorized_by).

(** A reopening that was not authorized before under its key. *)
Definition reopen_now (case : AdministrativeCase) (a : ReopenAssessment) (authorized_by key : string) (clock : nat -> instant)
  : M (ReopenRecord * AdministrativeCase * bool) :=
  if bool_decide (oa_authority_epoch a <> c_authority_epoch case)
  then throw InvestigationConflict "reopen assessment is stale for the current case"
  else if bool_decide (c_status case = CANCELLED)
  then throw InvestigationConflict "cancelled case cannot be reopened by this path"
  else
    do! q := open_request (oa_investigation_id a) (clock 0%nat) in
    inquiry_write (fun d => apply_reopen d case a (reopen_reason_by_trigger (ig_trigger_type (iq_trigger q)))
                              (oa_evidence_refs a) key (reopen_id_of (c_case_id case) key) authorized_by (clock 1%nat)).

Definition authorize_reopen (case_id assessment_id : uuid) (authorized_by key : string) (clock : nat -> instant)
  : M (ReopenRecord * AdministrativeCase * bool) :=
  do! case := inquiry_read (fun d => inquiry_case d case_id) in
  do! a := inquiry_read (fun d => get_reopen_assessment d assessment_id) in
  match a with
  | None => throw InvestigationConflict "reopen assessment not found for case"
  | Some a =>
      if bool_decide (oa_case_id a <> case_id) then throw InvestigationConflict "reopen assessment not found for case"
      else
        do! existing := inquiry_read (fun d => get_reopen_record d case_id key) in
        match existing with
        | Some r =>
            if other_semantics r a assessment_id authorized_by
            then throw InvestigationConflict "reopen authorization idempotency key was reused with different semantics"
            else ret (r, case, false)
        | None => reopen_now case a authorized_by key clock
        end
  end.

(** [detail] *)
Record InvestigationDetail := mkInvestigationDetail {
  dt_request : InvestigationRequest;
  dt_proposals : list InvestigationProposal;
  dt_evidence_requests : list InvestigationEvidenceRequest;
  dt_evidence : list InvestigationEvidence;
  dt_reopen_assessments : list ReopenAssessment;
}.
Definition investigation_detail (d : InvestigationDb) (investigation_id : uuid) : result InvestigationDetail :=
  let! q := require_request d investigation_id in
  let! proposals := list_proposals d investigation_id in
  let! requests := list_evidence_requests d investigation_id in
  let! evidence := list_evidence d investigation_id in
  let! assessments := list_reopen_assessments d (iq_case_id q) in
  Ok (mkInvestigationDetail q proposals requests evidence
        (List.filter (fun a => bool_decide (oa_investigation_id a = investigation_id)) assessments)).
End service.
