(* ===== verification/InvestigationSafety.v ===== *)
(** * Investigations: budgets, reopenings, staleness

    [bureau_step] is what the sessions of the repository can do in any order: each
    transaction is a step, and the advisory client is asked only by a holder of a
    reservation that [mark_running] committed.  Every call of the service is a path
    of such steps, so what the steps keep holds under every interleaving. *)

From stdpp Require Import base gmap strings list relations.
From Stdlib Require Import ZArith Lia.
From S2P Require Import Prelude Python Uuid Store Domain Policy Authority Lifecycle Obligations Persistence Financial.
From S2P Require Import PolicyPlane Transactions Governance Commitment Machine Kernel KernelClient Investigation InvestigationService.

Open Scope Z_scope.
Open Scope orch_scope.
Open Scope machine_scope.

(** ** Validation *)

Lemma constraints_validate_Ok k k' : InvestigationConstraints_validate k = Ok k' -> k' = k.
Proof. unfold InvestigationConstraints_validate. destruct (_ && _); [|done]. intros Hv. by inv_ok. Qed.

Lemma request_validate_Ok q q' : InvestigationRequest_validate q = Ok q' -> q' = q.
Proof.
  unfold InvestigationRequest_validate. intros Hv. apply rbind_Ok in Hv as (? & _ & Hv). apply rbind_Ok in Hv as (? & _ & Hv).
  destruct (_ && _) in Hv; [|done]. by inv_ok.
Qed.

Lemma evidence_request_validate_Ok e e' : InvestigationEvidenceRequest_validate e = Ok e' -> e' = e.
Proof. unfold InvestigationEvidenceRequest_validate. destruct (_ && _); [|done]. by intros [= <-]. Qed.

Lemma reopen_assessment_validate_Ok a a' : ReopenAssessment_validate a = Ok a' -> a' = a.
Proof. unfold ReopenAssessment_validate. destruct (_ && _); [|done]. by intros [= <-]. Qed.

Lemma record_validate_Ok r r' : ReopenRecord_validate r = Ok r' -> r' = r.
Proof. unfold ReopenRecord_validate. destruct (_ && _); [|done]. by intros [= <-]. Qed.

(** The budgets a valid request keeps. *)
Lemma valid_budgets q :
  InvestigationRequest_validate q = Ok q ->
  0 <= iq_rounds_used q <= ik_max_rounds (iq_constraints q) /\
  0 <= iq_model_calls_used q <= ik_max_model_calls (iq_constraints q) /\
  0 <= iq_evidence_requests_used q <= ik_max_evidence_requests (iq_constraints q) /\
  ik_max_rounds (iq_constraints q) <= 32 /\ ik_max_model_calls (iq_constraints q) <= 64 /\
  ik_max_evidence_requests (iq_constraints q) <= 64.
Proof.
  unfold InvestigationRequest_validate. intros Hv. apply rbind_Ok in Hv as (? & _ & Hv). apply rbind_Ok in Hv as (k & Hk & Hv).
  unfold InvestigationConstraints_validate in Hk. destruct (_ && _) eqn:Hb in Hk; [|done]. unfold between in Hb.
  destruct (_ && _) eqn:Hs in Hv; [|done]. inv_ok. propify. lia.
Qed.

(** Validity depends on the status and the times in no way, and on the counters only
    through the budgets. *)
Lemma progress_valid row status rounds calls requests error now :
  InvestigationRequest_validate (nr_request row) = Ok (nr_request row) ->
  0 <= rounds <= ik_max_rounds (iq_constraints (nr_request row)) ->
  0 <= calls <= ik_max_model_calls (iq_constraints (nr_request row)) ->
  0 <= requests <= ik_max_evidence_requests (iq_constraints (nr_request row)) -> sized_opt 256 error = true ->
  let q := nr_request (nv_progress row status rounds calls requests error now) in InvestigationRequest_validate q = Ok q.
Proof.
  intros Hv Hr Hc He Hs. cbn. unfold InvestigationRequest_validate in Hv |- *.
  apply rbind_Ok in Hv as (t & Ht & Hv). apply rbind_Ok in Hv as (k & Hk & Hv).
  cbn -[sized sized_opt Z.leb Z.ltb InvestigationTrigger_validate InvestigationConstraints_validate]. rewrite Ht, Hk.
  cbn -[sized sized_opt Z.leb Z.ltb]. destruct (_ && _) eqn:Hb in Hv; [|done]. inv_ok.
  apply andb_true_iff in Hb as [[[[Hb _]%andb_true_iff _]%andb_true_iff _]%andb_true_iff _]. rewrite Hb, Hs, E, E0.
  rewrite !(proj2 (Z.leb_le 0 _)), !(proj2 (Z.ltb_ge _ _)) by lia. done.
Qed.

Lemma valid_error q : InvestigationRequest_validate q = Ok q -> sized_opt 256 (iq_last_error_code q) = true.
Proof.
  unfold InvestigationRequest_validate. intros Hv. apply rbind_Ok in Hv as (? & _ & Hv). apply rbind_Ok in Hv as (? & _ & Hv).
  destruct (_ && _) eqn:E in Hv; [|done]. by apply andb_true_iff in E as [_ E].
Qed.

Lemma status_valid row status now :
  InvestigationRequest_validate (nr_request row) = Ok (nr_request row) ->
  let q := nr_request (with_inquiry_status row status now) in InvestigationRequest_validate q = Ok q.
Proof.
  intros Hv. pose proof (valid_budgets _ Hv) as Hb. apply progress_valid; try done; try lia. by apply valid_error.
Qed.

(** ** The bureau *)

(** The tables, the investigations the client was asked about, and the reservations
    whose holders have not asked yet. *)
Record Bureau := mkBureau {
  bu_db : InvestigationDb;
  bu_asked : list uuid;
  bu_reserved : list uuid;
}.

(** A request as its model builds it. *)
Definition fresh_request (q : InvestigationRequest) : Prop :=
  InvestigationRequest_validate q = Ok q /\ iq_status q = IS_REQUESTED /\ iq_rounds_used q = 0 /\ iq_model_calls_used q = 0 /\
  iq_evidence_requests_used q = 0.

Definition same_inquiries (d d' : InvestigationDb) : Prop :=
  nv_investigations d' = nv_investigations d /\ nv_proposals d' = nv_proposals d /\ nv_reframings d' = nv_reframings d /\
  nv_evidence_requests d' = nv_evidence_requests d /\ nv_evidence d' = nv_evidence d /\
  nv_assessments d' = nv_assessments d /\ nv_records d' = nv_records d.

(** The other components never lose a case and never lower its authority epoch. *)
Definition epochs_grow (d d' : InvestigationDb) : Prop :=
  forall k row, x_cases (nv_exec d) !! k = Some row ->
    exists row', x_cases (nv_exec d') !! k = Some row' /\ c_authority_epoch (cr_case row) <= c_authority_epoch (cr_case row').

Section bureau.
Context `{Platform}.

(** A transaction of the repository other than [mark_running]. *)
Inductive inquiry_tx (d : InvestigationDb) : InvestigationDb -> Prop :=
  | tx_create trigger q r d' : fresh_request q -> create_request d trigger q = Ok (r, d') -> inquiry_tx d d'
  | tx_failed id code now r d' : mark_failed d id code now = Ok (r, d') -> inquiry_tx d d'
  | tx_expired id reason now r d' : mark_expired d id reason now = Ok (r, d') -> inquiry_tx d d'
  | tx_proposal p now o d' : record_proposal d p now = Ok (o, d') -> inquiry_tx d d'
  | tx_request item now o d' : create_evidence_request d item now = Ok (o, d') -> inquiry_tx d d'
  | tx_evidence item now r d' : add_investigation_evidence d item now = Ok (r, d') -> inquiry_tx d d'
  | tx_assessment a now r d' : record_reopen_assessment d a now = Ok (r, d') -> inquiry_tx d d'
  | tx_reopen case a digest reason refs key id by_ now r d' :
      nv_assessments d !! oa_assessment_id a = Some (mkReopenAssessmentRow a digest) ->
      apply_reopen d case a reason refs key id by_ now = Ok (r, d') -> inquiry_tx d d'.

Inductive bureau_step : Bureau -> Bureau -> Prop :=
  | bs_tx d asked reserved d' : inquiry_tx d d' -> bureau_step (mkBureau d asked reserved) (mkBureau d' asked reserved)
  | bs_reserve d asked reserved id now r d' :
      mark_running d id now = Ok (Done r, d') -> bureau_step (mkBureau d asked reserved) (mkBureau d' asked (id :: reserved))
  | bs_exhaust d asked reserved id now msg d' :
      mark_running d id now = Ok (Exhausted msg, d') -> bureau_step (mkBureau d asked reserved) (mkBureau d' asked reserved)
  | bs_ask d asked before id after :
      bureau_step (mkBureau d asked (before ++ id :: after)) (mkBureau d (id :: asked) (before ++ after))
  | bs_abandon d asked before id after :
      bureau_step (mkBureau d asked (before ++ id :: after)) (mkBureau d asked (before ++ after))
  | bs_elsewhere d asked reserved d' :
      same_inquiries d d' -> epochs_grow d d' -> bureau_step (mkBureau d asked reserved) (mkBureau d' asked reserved).

(** ** Budgets *)

Definition count (id : uuid) (l : list uuid) : Z := Z.of_nat (count_occ N.eq_dec l id).
Definition rows_of {A} (inquiry : A -> uuid) (t : gmap uuid A) (id : uuid) : Z :=
  Z.of_nat (length (select_where (fun r => bool_decide (inquiry r = id)) t)).

(** What concerns one investigation. *)
Record tally := mkTally {
  ty_row : option InvestigationRow;
  ty_used : Z;          (* asked or reserved *)
  ty_proposals : Z;
  ty_requests : Z;
}.

Definition tally_of (b : Bureau) (id : uuid) : tally :=
  mkTally (nv_investigations (bu_db b) !! id) (count id (bu_asked b) + count id (bu_reserved b))
    (rows_of (fun r => io_investigation_id (np_proposal r)) (nv_proposals (bu_db b)) id)
    (rows_of ie_investigation_id (nv_evidence_requests (bu_db b)) id).

Definition running (s : InvestigationStatus) : Z := if bool_decide (s = IS_RUNNING) then 1 else 0.

Definition within_budget (id : uuid) (t : tally) : Prop :=
  match ty_row t with
  | None => ty_used t = 0 /\ ty_proposals t = 0 /\ ty_requests t = 0
  | Some row =>
      iq_investigation_id (nr_request row) = id /\
      InvestigationRequest_validate (nr_request row) = Ok (nr_request row) /\
      ty_used t <= iq_model_calls_used (nr_request row) /\
      ty_proposals t + running (iq_status (nr_request row)) <= iq_rounds_used (nr_request row) /\
      ty_requests t = iq_evidence_requests_used (nr_request row)
  end.

Definition budget_wf (b : Bureau) : Prop := forall id, within_budget id (tally_of b id).

(** A step that concerns one investigation. *)
Lemma budget_step b b' id :
  budget_wf b -> (forall other, other <> id -> tally_of b' other = tally_of b other) ->
  within_budget id (tally_of b' id) -> budget_wf b'.
Proof. intros Hb Hother Hid k. destruct (decide (k = id)) as [->|Hne]; [done|]. rewrite Hother by done. apply Hb. Qed.

Lemma rows_of_insert {A} (inquiry : A -> uuid) t k v id :
  t !! k = None -> rows_of inquiry (<[k := v]> t) id = rows_of inquiry t id + (if decide (inquiry v = id) then 1 else 0).
Proof.
  intros Hk. unfold rows_of. rewrite (select_where_insert _ _ _ _ Hk), length_app, Nat2Z.inj_add, Z.add_comm.
  f_equal. case_bool_decide; case_decide; done.
Qed.

Lemma rows_of_update {A} (inquiry : A -> uuid) t k v v' id :
  t !! k = Some v -> inquiry v' = inquiry v -> rows_of inquiry (<[k := v']> t) id = rows_of inquiry t id.
Proof.
  intros Hk Hv. rewrite <- (insert_delete_id t k v Hk) at 2. rewrite <- insert_delete_eq.
  rewrite !rows_of_insert by apply lookup_delete_eq. by rewrite Hv.
Qed.

(** *** Steps that keep the inquiries *)

#[export] Instance same_inquiries_po : PreOrder same_inquiries.
Proof. split; [intros d; by split_and!|]. intros d1 d2 d3 H1 H2. unfold same_inquiries in *. naive_solver congruence. Qed.

Lemma audit_same d case_id event payload : same_inquiries d (nv_audit d case_id event payload).
Proof. by split_and!. Qed.

Lemma proposal_audit_same d p : same_inquiries d (proposal_audit d p).
Proof.
  unfold proposal_audit. set (d0 := nv_audit d _ _ _). trans d0; [apply audit_same|]. clearbody d0.
  revert d0. induction (io_possible_reframings p) as [|r l IH]; intros d0; cbn; [done|]. etrans; [apply audit_same|apply IH].
Qed.

Lemma reopen_audit_same d r : same_inquiries d (reopen_audit d r).
Proof. unfold reopen_audit. destruct (is_nil _), (is_nil _); by split_and!. Qed.

Lemma budget_same d d' asked reserved :
  same_inquiries d d' -> budget_wf (mkBureau d asked reserved) -> budget_wf (mkBureau d' asked reserved).
Proof.
  intros (Hi & Hp & _ & Hr & _) Hb id. specialize (Hb id). unfold tally_of in *. cbn [bu_db bu_asked bu_reserved] in *.
  by rewrite Hi, Hp, Hr.
Qed.

(** *** Steps that rewrite the row of one investigation *)

Lemma running_nonneg st : 0 <= running st <= 1.
Proof. unfold running. case_bool_decide; lia. Qed.

Lemma running_not st : st <> IS_RUNNING -> running st = 0.
Proof. intros Hst. unfold running. by rewrite bool_decide_eq_false_2. Qed.

Lemma budget_put d d1 row row' asked reserved asked' reserved' id :
  budget_wf (mkBureau d asked reserved) -> nv_investigations d !! id = Some row ->
  nv_investigations d1 = nv_investigations d ->
  iq_investigation_id (nr_request row') = iq_investigation_id (nr_request row) ->
  (forall k, k <> id -> count k asked' + count k reserved' = count k asked + count k reserved /\
     rows_of (fun r => io_investigation_id (np_proposal r)) (nv_proposals d1) k =
       rows_of (fun r => io_investigation_id (np_proposal r)) (nv_proposals d) k /\
     rows_of ie_investigation_id (nv_evidence_requests d1) k = rows_of ie_investigation_id (nv_evidence_requests d) k) ->
  InvestigationRequest_validate (nr_request row') = Ok (nr_request row') ->
  count id asked' + count id reserved' <= iq_model_calls_used (nr_request row') ->
  rows_of (fun r => io_investigation_id (np_proposal r)) (nv_proposals d1) id + running (iq_status (nr_request row'))
    <= iq_rounds_used (nr_request row') ->
  rows_of ie_investigation_id (nv_evidence_requests d1) id = iq_evidence_requests_used (nr_request row') ->
  budget_wf (mkBureau (put_investigation d1 row') asked' reserved').
Proof.
  intros Hb Hrow Hd1 Hid Hother Hval Hused Hprop Hreq. assert (Hkey : iq_investigation_id (nr_request row) = id).
  { specialize (Hb id). unfold within_budget, tally_of in Hb. cbn [ty_row bu_db] in Hb. rewrite Hrow in Hb. apply Hb. }
  rewrite Hkey in Hid. apply (budget_step (mkBureau d asked reserved) _ id); [done| |].
  - intros k Hk. unfold tally_of. cbn. rewrite Hid, Hd1, lookup_insert_ne by done. destruct (Hother k Hk) as (-> & -> & ->). done.
  - unfold within_budget, tally_of. cbn. rewrite Hid, lookup_insert_eq. done.
Qed.

Lemma budget_row b id row :
  budget_wf b -> nv_investigations (bu_db b) !! id = Some row -> within_budget id (tally_of b id) /\ ty_row (tally_of b id) = Some row.
Proof. intros Hb Hrow. split; [apply Hb|done]. Qed.

(** The row changes in its status, error and time alone. *)
Lemma budget_touch d d1 row row' asked reserved id :
  budget_wf (mkBureau d asked reserved) -> nv_investigations d !! id = Some row ->
  nv_investigations d1 = nv_investigations d -> nv_proposals d1 = nv_proposals d ->
  (forall k, rows_of ie_investigation_id (nv_evidence_requests d1) k = rows_of ie_investigation_id (nv_evidence_requests d) k) ->
  InvestigationRequest_validate (nr_request row') = Ok (nr_request row') ->
  (exists status error now, row' = nv_progress row status (iq_rounds_used (nr_request row)) (iq_model_calls_used (nr_request row))
     (iq_evidence_requests_used (nr_request row)) error now /\ status <> IS_RUNNING) ->
  budget_wf (mkBureau (put_investigation d1 row') asked reserved).
Proof.
  intros Hb Hrow Hi Hp Hr Hval (status & error & now & -> & Hst). pose proof (Hb id) as Hid. unfold within_budget, tally_of in Hid.
  cbn in Hid. rewrite Hrow in Hid. destruct Hid as (_ & _ & Hused & Hprop & Hreq).
  pose proof (running_nonneg (iq_status (nr_request row))).
  eapply (budget_put d d1 row _ asked reserved); try done; cbn.
  - intros k _. by rewrite Hp, Hr.
  - rewrite Hp. rewrite (running_not status) by done. lia.
  - by rewrite Hr.
Qed.

Lemma budget_status d d1 row status now asked reserved id :
  budget_wf (mkBureau d asked reserved) -> nv_investigations d !! id = Some row ->
  nv_investigations d1 = nv_investigations d -> nv_proposals d1 = nv_proposals d ->
  (forall k, rows_of ie_investigation_id (nv_evidence_requests d1) k = rows_of ie_investigation_id (nv_evidence_requests d) k) ->
  status <> IS_RUNNING -> budget_wf (mkBureau (put_investigation d1 (with_inquiry_status row status now)) asked reserved).
Proof.
  intros Hb Hrow Hi Hp Hr Hst. eapply budget_touch; try done.
  - apply status_valid. specialize (Hb id). unfold within_budget, tally_of in Hb. cbn in Hb. rewrite Hrow in Hb. apply Hb.
  - unfold with_inquiry_status. eauto.
Qed.

(** *** The transactions *)

Lemma investigation_row_Ok d id row : investigation_row d id = Ok row -> nv_investigations d !! id = Some row.
Proof. unfold investigation_row. destruct (_ !! id); [by intros [= ->]|done]. Qed.

Lemma request_from_row_valid row q : request_from_row row = Ok q -> InvestigationRequest_validate (nr_request row) = Ok (nr_request row).
Proof. unfold request_from_row. intros Hv. pose proof (request_validate_Ok _ _ Hv) as ->. done. Qed.

Lemma exhausted_budget d row budget now asked reserved id :
  budget_wf (mkBureau d asked reserved) -> nv_investigations d !! id = Some row ->
  budget_wf (mkBureau (budget_exhausted d row budget now) asked reserved).
Proof.
  intros Hb Hrow. eapply budget_same; [apply audit_same|]. by eapply budget_status.
Qed.

Lemma create_request_budget d trigger q r d' asked reserved :
  fresh_request q -> create_request d trigger q = Ok (r, d') ->
  budget_wf (mkBureau d asked reserved) -> budget_wf (mkBureau d' asked reserved).
Proof.
  intros (Hval & Hst & Hr & Hc & He) Hrun Hb. unfold create_request in Hrun. apply rbind_Ok in Hrun as (? & _ & Hrun).
  apply rbind_Ok in Hrun as ([row|] & _ & Hrun); [by inv_ok; subst|]. apply rbind_Ok in Hrun as (t & [Hnew ->]%db_add_Ok & Hrun).
  injection Hrun as _ <-. eapply budget_same; [apply audit_same|]. eapply budget_same; [apply audit_same|].
  pose proof (Hb (iq_investigation_id q)) as Hid. unfold within_budget, tally_of in Hid. cbn in Hid. rewrite Hnew in Hid.
  destruct Hid as (Hu & Hp & Hq). apply (budget_step (mkBureau d asked reserved) _ (iq_investigation_id q)); [done| |].
  - intros k Hk. unfold tally_of. cbn. by rewrite lookup_insert_ne.
  - unfold within_budget, tally_of. cbn. rewrite lookup_insert_eq. cbn. rewrite Hst, Hu, Hp, Hq, Hr, Hc, He. done.
Qed.

Lemma mark_failed_budget d id code now r d' asked reserved :
  mark_failed d id code now = Ok (r, d') -> budget_wf (mkBureau d asked reserved) -> budget_wf (mkBureau d' asked reserved).
Proof.
  intros Hrun Hb. unfold mark_failed in Hrun. apply rbind_Ok in Hrun as (row & Hrow%investigation_row_Ok & Hrun).
  case_bool_decide; [by inv_ok; subst|]. apply rbind_Ok in Hrun as (q & Hq%request_from_row_valid & Hrun). injection Hrun as _ <-.
  eapply budget_same; [apply audit_same|]. eapply budget_touch; try done. unfold with_error_code. eauto.
Qed.

Lemma mark_expired_budget d id reason now r d' asked reserved :
  mark_expired d id reason now = Ok (r, d') -> budget_wf (mkBureau d asked reserved) -> budget_wf (mkBureau d' asked reserved).
Proof.
  intros Hrun Hb. unfold mark_expired in Hrun. apply rbind_Ok in Hrun as (row & Hrow%investigation_row_Ok & Hrun).
  case_bool_decide; [by inv_ok; subst|]. apply rbind_Ok in Hrun as (q & Hq%request_from_row_valid & Hrun). injection Hrun as _ <-.
  eapply budget_same; [apply audit_same|]. eapply budget_touch; try done. unfold with_error_code. eauto.
Qed.

Lemma mark_running_budget d id now o d' asked reserved :
  mark_running d id now = Ok (o, d') -> budget_wf (mkBureau d asked reserved) ->
  budget_wf (mkBureau d' asked (match o with Done _ => id :: reserved | Exhausted _ => reserved end)).
Proof.
  intros Hrun Hb. unfold mark_running in Hrun. apply rbind_Ok in Hrun as (row & Hrow%investigation_row_Ok & Hrun).
  do 3 apply rbind_Ok in Hrun as (? & _ & Hrun). apply rbind_Ok in Hrun as (k & Hk & Hrun).
  destruct (_ <=? _) in Hrun; [inv_ok; simplify_eq; by eapply exhausted_budget|].
  destruct (_ <=? _) in Hrun; [inv_ok; simplify_eq; by eapply exhausted_budget|].
  apply rbind_Ok in Hrun as (q & Hq%request_from_row_valid & Hrun). injection Hrun as <- <-.
  pose proof (Hb id) as Hid. unfold within_budget, tally_of in Hid. cbn in Hid. rewrite Hrow in Hid.
  destruct Hid as (_ & _ & Hused & Hprop & Hreq). pose proof (running_nonneg (iq_status (nr_request row))).
  eapply (budget_put d d row); try done.
  - intros k' Hne. unfold count. cbn [count_occ]. destruct (N.eq_dec id k'); [congruence|]. done.
  - unfold count in *. cbn [count_occ]. destruct (N.eq_dec id id); [|done]. cbn. lia.
  - cbn. unfold running at 1. rewrite bool_decide_eq_true_2 by done. lia.
Qed.

Lemma record_proposal_budget d p now o d' asked reserved :
  record_proposal d p now = Ok (o, d') -> budget_wf (mkBureau d asked reserved) -> budget_wf (mkBureau d' asked reserved).
Proof.
  intros Hrun Hb. unfold record_proposal in Hrun. apply rbind_Ok in Hrun as (row & Hrow%investigation_row_Ok & Hrun).
  do 2 apply rbind_Ok in Hrun as (? & _ & Hrun). apply rbind_Ok in Hrun as ([stored|] & _ & Hrun).
  { inv_ok. by simplify_eq. }
  do 3 apply rbind_Ok in Hrun as (? & _ & Hrun). apply rbind_Ok in Hrun as (k & ->%constraints_validate_Ok & Hrun).
  destruct (negb _ && _) eqn:Hr in Hrun; [simplify_eq; by eapply exhausted_budget|].
  destruct (negb _ && _) eqn:Hc in Hrun; [simplify_eq; by eapply exhausted_budget|].
  apply rbind_Ok in Hrun as (t & [Hnew ->]%db_add_Ok & Hrun). apply rbind_Ok in Hrun as (reframings & _ & Hrun).
  injection Hrun as _ <-. eapply budget_same; [apply proposal_audit_same|].
  pose proof (Hb (io_investigation_id p)) as Hid. unfold within_budget, tally_of in Hid. cbn in Hid. rewrite Hrow in Hid.
  destruct Hid as (_ & Hval & Hused & Hprop & Hreq). pose proof (valid_budgets _ Hval) as Hbud.
  set (reserved_round := bool_decide (iq_status (nr_request row) = IS_RUNNING)) in *.
  eapply (budget_put d _ row); try done; cbn [nv_proposals nv_set_proposals nv_evidence_requests].
  - by destruct reserved_round.
  - intros k Hne. rewrite rows_of_insert by done. cbn. rewrite decide_False by done. split_and!; [done|lia|done].
  - destruct reserved_round; [by apply status_valid|]. cbn [negb andb] in *. propify. apply progress_valid; try done; try lia.
    by apply valid_error.
  - destruct reserved_round; cbn; lia.
  - rewrite rows_of_insert by done. cbn [np_proposal]. rewrite decide_True by done. unfold running in Hprop.
    destruct reserved_round eqn:E; cbn; unfold reserved_round in E; rewrite E in Hprop; rewrite running_not by done; lia.
  - destruct reserved_round; cbn; lia.
Qed.

Lemma create_evidence_request_budget d item now o d' asked reserved :
  create_evidence_request d item now = Ok (o, d') ->
  budget_wf (mkBureau d asked reserved) -> budget_wf (mkBureau d' asked reserved).
Proof.
  intros Hrun Hb. unfold create_evidence_request in Hrun. apply rbind_Ok in Hrun as (row & Hrow%investigation_row_Ok & Hrun).
  do 2 apply rbind_Ok in Hrun as (? & _ & Hrun). apply rbind_Ok in Hrun as ([stored|] & _ & Hrun).
  { inv_ok. by simplify_eq. }
  apply rbind_Ok in Hrun as (? & _ & Hrun). apply rbind_Ok in Hrun as (k & ->%constraints_validate_Ok & Hrun).
  destruct (_ <=? _) eqn:Hmax in Hrun; [simplify_eq; by eapply budget_status|].
  apply rbind_Ok in Hrun as (? & _ & Hrun). apply rbind_Ok in Hrun as (t & [Hnew ->]%db_add_Ok & Hrun). injection Hrun as _ <-.
  eapply budget_same; [apply audit_same|].
  pose proof (Hb (ie_investigation_id item)) as Hid. unfold within_budget, tally_of in Hid. cbn in Hid. rewrite Hrow in Hid.
  destruct Hid as (_ & Hval & Hused & Hprop & Hreq). pose proof (valid_budgets _ Hval) as Hbud. propify.
  pose proof (running_nonneg (iq_status (nr_request row))).
  eapply (budget_put d _ row); try done; cbn -[running Z.add].
  - intros k Hne. rewrite rows_of_insert by done. rewrite decide_False by done. split_and!; [done..|lia].
  - apply progress_valid; try done; try lia. by apply (valid_error _ Hval).
  - rewrite running_not by done. lia.
  - rewrite rows_of_insert, decide_True by done. lia.
Qed.

Lemma add_evidence_budget d item now r d' asked reserved :
  add_investigation_evidence d item now = Ok (r, d') ->
  budget_wf (mkBureau d asked reserved) -> budget_wf (mkBureau d' asked reserved).
Proof.
  intros Hrun Hb. unfold add_investigation_evidence in Hrun. apply rbind_Ok in Hrun as (row & Hrow%investigation_row_Ok & Hrun).
  do 2 apply rbind_Ok in Hrun as (? & _ & Hrun). apply rbind_Ok in Hrun as ([stored|] & _ & Hrun).
  { inv_ok. by simplify_eq. }
  apply rbind_Ok in Hrun as (? & _ & Hrun). apply rbind_Ok in Hrun as (requests & Hreq & Hrun).
  apply rbind_Ok in Hrun as (t & _ & Hrun). injection Hrun as _ <-. eapply budget_same; [apply audit_same|].
  eapply budget_status; try done. intros k. cbn. destruct (iw_evidence_request_id item) as [id|]; [|by simplify_eq].
  apply rbind_Ok in Hreq as (q & Hq & Hreq). injection Hreq as <-. unfold answered_request in Hq.
  destruct (nv_evidence_requests d !! id) as [q0|] eqn:Hq0; [|done]. inv_ok. subst q. by eapply rows_of_update.
Qed.

Lemma record_assessment_budget d a now r d' asked reserved :
  record_reopen_assessment d a now = Ok (r, d') -> budget_wf (mkBureau d asked reserved) -> budget_wf (mkBureau d' asked reserved).
Proof.
  intros Hrun Hb. unfold record_reopen_assessment in Hrun. apply rbind_Ok in Hrun as (row & Hrow%investigation_row_Ok & Hrun).
  do 2 apply rbind_Ok in Hrun as (? & _ & Hrun). apply rbind_Ok in Hrun as ([stored|] & _ & Hrun).
  { inv_ok. by simplify_eq. }
  apply rbind_Ok in Hrun as (? & _ & Hrun). apply rbind_Ok in Hrun as (t & _ & Hrun). injection Hrun as _ <-.
  eapply budget_same; [apply audit_same|]. eapply budget_status; try done. by destruct (bool_decide _).
Qed.

(** What a reopening that is not a replay does. *)
Lemma apply_reopen_created d case a reason refs key id by_ now r c d' :
  apply_reopen d case a reason refs key id by_ now = Ok (r, c, true, d') ->
  exists row inquiry,
    r = record_of_reopen d case a reason refs key id by_ now /\
    oa_disposition a = RD_REOPEN_REQUIRED /\ oa_case_id a = c_case_id case /\ oa_authority_epoch a = c_authority_epoch case /\
    existing_reopen d (c_case_id case) key (oa_assessment_id a) = Ok None /\
    x_cases (nv_exec d) !! c_case_id case = Some row /\ c_version (cr_case row) = c_version case /\
    c_authority_epoch (cr_case row) = c_authority_epoch case /\ nv_records d !! id = None /\
    nv_investigations d !! oa_investigation_id a = Some inquiry /\
    case_from_row (reopened_row row (c_authority_epoch case + 1) now) = Ok c /\ ReopenRecord_validate r = Ok r /\
    d' = reopen_audit (put_investigation
           (nv_set_records
              (nv_set_exec d (set_cases (nv_exec d)
                 (<[c_case_id case := reopened_row row (c_authority_epoch case + 1) now]> (x_cases (nv_exec d)))))
              (<[id := r]> (nv_records d)))
           (with_inquiry_status inquiry IS_REOPENED now)) r.
Proof.
  unfold apply_reopen. intros Hrun. apply rbind_Ok in Hrun as (? & Hdisp%guard_Ok & Hrun).
  apply rbind_Ok in Hrun as (? & Hcase%guard_Ok & Hrun). apply rbind_Ok in Hrun as ([e|] & Hex & Hrun).
  { inv_ok. simplify_eq. }
  destruct (x_cases _ !! _) as [row|] eqn:Hrow; [|done]. apply rbind_Ok in Hrun as (? & Hver%guard_Ok & Hrun).
  destruct (nv_assessments d !! _); [|done]. apply rbind_Ok in Hrun as (stored & Hr & Hrun).
  pose proof (record_validate_Ok _ _ Hr) as ->. apply rbind_Ok in Hrun as (records & [Hnew ->]%db_add_Ok & Hrun).
  apply rbind_Ok in Hrun as (inquiry & Hinq%investigation_row_Ok & Hrun). apply rbind_Ok in Hrun as (updated & Hup & Hrun).
  propify. unfold record_of_reopen in *. destruct (current_lineage_refs d case) as [[gov duties] promises].
  injection Hrun as <- <- <-. exists row, inquiry. split_and!; try done.
Qed.

Lemma apply_reopen_replayed d case a reason refs key id by_ now r c d' :
  apply_reopen d case a reason refs key id by_ now = Ok (r, c, false, d') -> d' = d.
Proof.
  unfold apply_reopen. intros Hrun. do 2 apply rbind_Ok in Hrun as (? & _ & Hrun). apply rbind_Ok in Hrun as ([e|] & _ & Hrun).
  { inv_ok. by simplify_eq. }
  destruct (x_cases _ !! _); [|done]. apply rbind_Ok in Hrun as (? & _ & Hrun). destruct (nv_assessments d !! _); [|done]. by inv_ok.
Qed.

Lemma apply_reopen_budget d case a reason refs key id by_ now r d' asked reserved :
  apply_reopen d case a reason refs key id by_ now = Ok (r, d') ->
  budget_wf (mkBureau d asked reserved) -> budget_wf (mkBureau d' asked reserved).
Proof.
  destruct r as [[r c] []]; intros Hrun Hb.
  - apply apply_reopen_created in Hrun as (row & inquiry & -> & _ & _ & _ & _ & _ & _ & _ & _ & Hinq & _ & _ & ->).
    eapply budget_same; [apply reopen_audit_same|]. by eapply budget_status.
  - by apply apply_reopen_replayed in Hrun as ->.
Qed.

Lemma tx_budget d d' asked reserved :
  inquiry_tx d d' -> budget_wf (mkBureau d asked reserved) -> budget_wf (mkBureau d' asked reserved).
Proof.
  destruct 1; eauto using create_request_budget, mark_failed_budget, mark_expired_budget, record_proposal_budget,
    create_evidence_request_budget, add_evidence_budget, record_assessment_budget, apply_reopen_budget.
Qed.

Lemma count_split k before id after : count k (before ++ id :: after) = count k (before ++ after) + (if N.eq_dec id k then 1 else 0).
Proof. unfold count. rewrite !count_occ_app. cbn. destruct (N.eq_dec id k); lia. Qed.

Lemma within_budget_less id row used used' proposals requests :
  within_budget id (mkTally row used proposals requests) -> 0 <= used' -> used' <= used ->
  within_budget id (mkTally row used' proposals requests).
Proof.
  unfold within_budget. destruct row as [row|]; cbn; [|lia]. intros (? & ? & ? & ? & ?) ? ?. split_and!; [done..|lia|done|done].
Qed.

Lemma bureau_budget b b' : bureau_step b b' -> budget_wf b -> budget_wf b'.
Proof.
  destruct 1 as [d asked reserved d' Htx|d asked reserved id now r d' Hrun|d asked reserved id now msg d' Hrun
                |d asked before id after|d asked before id after|d asked reserved d' Hsame _]; intros Hb.
  - by eapply tx_budget.
  - by apply (mark_running_budget _ _ _ _ _ asked reserved Hrun).
  - by apply (mark_running_budget _ _ _ _ _ asked reserved Hrun).
  - intros k. specialize (Hb k). unfold tally_of in *. cbn [bu_db bu_asked bu_reserved] in *. rewrite count_split in Hb.
    replace (count k (id :: asked) + count k (before ++ after))
      with (count k asked + (count k (before ++ after) + (if N.eq_dec id k then 1 else 0))); [done|].
    unfold count. cbn [count_occ]. destruct (N.eq_dec id k); lia.
  - intros k. eapply within_budget_less; [apply (Hb k)|..]; cbn; rewrite ?count_split; unfold count; destruct (N.eq_dec id k); lia.
  - by eapply budget_same.
Qed.

(** Tables without investigations, nobody asking. *)
Definition no_inquiries (d : InvestigationDb) : Prop :=
  nv_investigations d = ∅ /\ nv_proposals d = ∅ /\ nv_evidence_requests d = ∅ /\ nv_assessments d = ∅ /\ nv_records d = ∅.

Lemma no_inquiries_budget d : no_inquiries d -> budget_wf (mkBureau d [] []).
Proof. intros (Hi & Hp & Hr & _) id. unfold within_budget, tally_of. cbn. by rewrite Hi, Hp, Hr. Qed.

Lemma bureau_run_budget b b' : rtc bureau_step b b' -> budget_wf b -> budget_wf b'.
Proof. induction 1; eauto using bureau_budget. Qed.


(** ** Reopenings *)

(** Steps that leave assessments, reopenings and cases alone. *)
Definition frame (d d' : InvestigationDb) : Prop :=
  nv_assessments d' = nv_assessments d /\ nv_records d' = nv_records d /\ x_cases (nv_exec d') = x_cases (nv_exec d).

#[export] Instance frame_po : PreOrder frame.
Proof. split; [intros d; by split_and!|]. intros d1 d2 d3 H1 H2. unfold frame in *. naive_solver congruence. Qed.

Lemma audit_frame d case_id event payload : frame d (nv_audit d case_id event payload).
Proof. by split_and!. Qed.

Lemma proposal_audit_frame d p : frame d (proposal_audit d p).
Proof.
  unfold proposal_audit. set (d0 := nv_audit d _ _ _). trans d0; [apply audit_frame|]. clearbody d0.
  revert d0. induction (io_possible_reframings p) as [|r l IH]; intros d0; cbn; [done|]. etrans; [apply audit_frame|apply IH].
Qed.

Lemma reopen_audit_frame d r : frame d (reopen_audit d r).
Proof. unfold reopen_audit. destruct (is_nil _), (is_nil _); by split_and!. Qed.

(** Walks through a transaction that returned. *)
Ltac crunch H :=
  repeat match type of H with
    | rbind _ _ = Ok _ => apply rbind_Ok in H as (? & _ & H)
    | (if ?b then _ else _) = Ok _ => destruct b
    | match ?o with Some _ => _ | None => _ end = Ok _ => destruct o
    end.

Lemma mark_running_frame d id now o d' : mark_running d id now = Ok (o, d') -> frame d d'.
Proof. unfold mark_running. intros Hr. crunch Hr; simplify_eq; by split_and!. Qed.

Lemma tx_frame d d' :
  inquiry_tx d d' ->
  frame d d' \/
  (exists a digest, nv_assessments d !! oa_assessment_id a = None /\
     nv_assessments d' = <[oa_assessment_id a := mkReopenAssessmentRow a digest]> (nv_assessments d) /\
     nv_records d' = nv_records d /\ x_cases (nv_exec d') = x_cases (nv_exec d)) \/
  (exists case a digest reason refs key id by_ now r c,
     nv_assessments d !! oa_assessment_id a = Some (mkReopenAssessmentRow a digest) /\
     apply_reopen d case a reason refs key id by_ now = Ok (r, c, true, d')).
Proof.
  destruct 1 as [trigger q r d' _ Hr|id code now r d' Hr|id reason now r d' Hr|p now o d' Hr|item now o d' Hr|item now r d' Hr
                |a now r d' Hr|case a digest reason refs key id by_ now [[r c] []] d' Ha Hr].
  - left. unfold create_request in Hr. crunch Hr; simplify_eq; by split_and!.
  - left. unfold mark_failed in Hr. crunch Hr; simplify_eq; by split_and!.
  - left. unfold mark_expired in Hr. crunch Hr; simplify_eq; by split_and!.
  - left. unfold record_proposal in Hr. crunch Hr; simplify_eq; try by split_and!. all: etrans; [|apply proposal_audit_frame]; by split_and!.
  - left. unfold create_evidence_request in Hr. crunch Hr; simplify_eq; by split_and!.
  - left. unfold add_investigation_evidence in Hr. crunch Hr; simplify_eq; by split_and!.
  - unfold record_reopen_assessment in Hr. apply rbind_Ok in Hr as (? & _ & Hr). do 2 apply rbind_Ok in Hr as (? & _ & Hr).
    apply rbind_Ok in Hr as ([stored|] & _ & Hr); [left; crunch Hr; simplify_eq; by split_and!|].
    apply rbind_Ok in Hr as (? & _ & Hr). apply rbind_Ok in Hr as (t & [Hnew ->]%db_add_Ok & Hr). injection Hr as _ <-.
    right. left. by exists a, (assessment_digest a).
  - right. right. by exists case, a, digest, reason, refs, key, id, by_, now, r, c.
  - left. by apply apply_reopen_replayed in Hr as ->.
Qed.

(** What every stored reopening rests on. *)
Record earned_record (d : InvestigationDb) (r : ReopenRecord) : Prop := {
  er_assessment : exists a digest, nv_assessments d !! oo_assessment_ref r = Some (mkReopenAssessmentRow a digest) /\
    oa_disposition a = RD_REOPEN_REQUIRED /\ oa_case_id a = oo_case_id r /\
    oa_authority_epoch a = oo_previous_authority_epoch r /\ oa_investigation_id a = oo_investigation_id r;
  er_epoch : oo_new_authority_epoch r = oo_previous_authority_epoch r + 1;
  er_valid : ReopenRecord_validate r = Ok r;
  er_case : exists row, x_cases (nv_exec d) !! oo_case_id r = Some row /\ oo_new_authority_epoch r <= c_authority_epoch (cr_case row);
}.

Record reopen_wf (d : InvestigationDb) : Prop := {
  rw_assessments : keyed (fun r => oa_assessment_id (na_assessment r)) (nv_assessments d);
  rw_earned : forall k r, nv_records d !! k = Some r -> earned_record d r;
  rw_epoch_once : forall k1 k2 r1 r2, nv_records d !! k1 = Some r1 -> nv_records d !! k2 = Some r2 -> oo_case_id r1 = oo_case_id r2 ->
    oo_previous_authority_epoch r1 = oo_previous_authority_epoch r2 -> k1 = k2;
  rw_key_once : forall k1 k2 r1 r2, nv_records d !! k1 = Some r1 -> nv_records d !! k2 = Some r2 -> oo_case_id r1 = oo_case_id r2 ->
    oo_idempotency_key r1 = oo_idempotency_key r2 -> k1 = k2;
}.

(** Records stay earned while assessments stay and epochs do not fall. *)
Lemma earned_mono d d' r :
  nv_assessments d ⊆ nv_assessments d' -> epochs_grow d d' -> earned_record d r -> earned_record d' r.
Proof.
  intros Ha He [(a & digest & Hs & Hrest) Hep Hv (row & Hrow & Hle)]. destruct (He _ _ Hrow) as (row' & Hrow' & Hle').
  split; [|done|done|exists row'; split; [done|lia]]. exists a, digest. split; [by eapply lookup_weaken|done].
Qed.

Lemma reopen_wf_grow d d' :
  reopen_wf d -> nv_assessments d ⊆ nv_assessments d' -> keyed (fun r => oa_assessment_id (na_assessment r)) (nv_assessments d') ->
  nv_records d' = nv_records d -> epochs_grow d d' -> reopen_wf d'.
Proof.
  intros [_ He Ho Hk] Ha Hkeyed Hr Hg. split; rewrite ?Hr; try done. intros k r Hrec. by eapply earned_mono, He.
Qed.

Lemma frame_epochs d d' : frame d d' -> epochs_grow d d'.
Proof. intros (_ & _ & Hx) k row Hrow. rewrite Hx. eauto with lia. Qed.

Lemma frame_wf d d' : frame d d' -> reopen_wf d -> reopen_wf d'.
Proof.
  intros Hf Hwf. pose proof (frame_epochs _ _ Hf). destruct Hf as (Ha & Hr & _).
  apply (reopen_wf_grow d); rewrite ?Ha; try done. apply Hwf.
Qed.

(** No record of the key or of the assessment. *)
Lemma no_existing_reopen d case_id key assessment_id k r :
  existing_reopen d case_id key assessment_id = Ok None -> nv_records d !! k = Some r ->
  ~ (oo_case_id r = case_id /\ oo_idempotency_key r = key) /\ oo_assessment_ref r <> assessment_id.
Proof.
  unfold existing_reopen. intros He Hk. apply rbind_Ok in He as ([x|] & Hb & He); [done|]. apply one_or_none_Ok in Hb, He.
  unfold records_under in Hb. rewrite select_where_nil in Hb, He. specialize (Hb _ _ Hk). specialize (He _ _ Hk). propify.
  split; [|done]. intros [Hc Hkey]. rewrite (bool_decide_eq_true_2 _ Hc), (bool_decide_eq_true_2 _ Hkey) in Hb. done.
Qed.

Lemma record_fields d case a reason refs key id by_ now :
  let r := record_of_reopen d case a reason refs key id by_ now in
  oo_reopen_id r = id /\ oo_investigation_id r = oa_investigation_id a /\ oo_case_id r = c_case_id case /\
  oo_assessment_ref r = oa_assessment_id a /\ oo_previous_authority_epoch r = c_authority_epoch case /\
  oo_new_authority_epoch r = c_authority_epoch case + 1 /\ oo_authorized_by r = by_ /\ oo_idempotency_key r = key /\
  oo_invalidated_decision_refs r = invalidated_decisions d (c_case_id case) (c_authority_epoch case) /\
  oo_affected_execution_authorization_refs r = invalidated_authorizations d (c_case_id case) (c_authority_epoch case).
Proof. unfold record_of_reopen. destruct (current_lineage_refs d case) as [[gov duties] promises]. done. Qed.

Lemma reopen_keeps_wf d case a digest reason refs key id by_ now r c d' :
  nv_assessments d !! oa_assessment_id a = Some (mkReopenAssessmentRow a digest) ->
  apply_reopen d case a reason refs key id by_ now = Ok (r, c, true, d') -> reopen_wf d -> reopen_wf d'.
Proof.
  intros Ha Hrun Hwf. apply apply_reopen_created in Hrun as (row & inquiry & Hr & Hdisp & Hcase & Hepoch & Hnone & Hrow & _ & Hrep & Hid & _ & _ & Hval & ->).
  pose proof (record_fields d case a reason refs key id by_ now) as Hfields. cbn zeta in Hfields. rewrite <- Hr in Hfields.
  destruct Hfields as (_ & Hfi & Hfc & Hfa & Hfp & Hfn & _ & Hfk & _ & _).
  eapply frame_wf; [apply reopen_audit_frame|]. set (d1 := put_investigation _ _).
  assert (Hg : epochs_grow d d1).
  { intros k q Hq. cbn. destruct (decide (k = c_case_id case)) as [->|Hne]; [|rewrite lookup_insert_ne by done; eauto with lia].
    rewrite lookup_insert_eq. eexists. split; [done|]. cbn. simplify_eq. lia. }
  assert (Hnew : earned_record d1 r).
  { split; [|lia|done|].
    - exists a, digest. rewrite Hfa, Hfc, Hfp, Hfi. done.
    - rewrite Hfc, Hfn. cbn. rewrite lookup_insert_eq. eexists. split; [done|]. cbn. lia. }
  assert (Hfresh : forall k q, nv_records d !! k = Some q -> oo_case_id q = oo_case_id r ->
    oo_previous_authority_epoch q <> oo_previous_authority_epoch r /\ oo_idempotency_key q <> oo_idempotency_key r).
  { intros k q Hq Hc. destruct (no_existing_reopen _ _ _ _ _ _ Hnone Hq) as [Hkey _]. split; [|intros E; apply Hkey; split; congruence].
    destruct (rw_earned _ Hwf _ _ Hq) as [_ Hep _ (row0 & Hrow0 & Hle)]. rewrite Hc, Hfc, Hrow in Hrow0. simplify_eq. lia. }
  split; cbn.
  - apply Hwf.
  - intros k q [[<- <-]|[_ Hq]]%lookup_insert_Some; [done|]. eapply earned_mono, (rw_earned _ Hwf _ _ Hq); done.
  - intros k1 k2 r1 r2 [[<- <-]|[_ H1]]%lookup_insert_Some [[<- <-]|[_ H2]]%lookup_insert_Some Hc Hp; try done.
    + by destruct (Hfresh _ _ H2) as [Hn _].
    + by destruct (Hfresh _ _ H1) as [Hn _].
    + by eapply (rw_epoch_once _ Hwf).
  - intros k1 k2 r1 r2 [[<- <-]|[_ H1]]%lookup_insert_Some [[<- <-]|[_ H2]]%lookup_insert_Some Hc Hp; try done.
    + by destruct (Hfresh _ _ H2) as [_ Hn].
    + by destruct (Hfresh _ _ H1) as [_ Hn].
    + by eapply (rw_key_once _ Hwf).
Qed.

Lemma tx_reopen_wf d d' : inquiry_tx d d' -> reopen_wf d -> reopen_wf d'.
Proof.
  intros [Hf|[(a & digest & Hnew & Ha & Hr & Hx)|(case & a & digest & reason & refs & key & id & by_ & now & r & c & Ha & Hrun)]]%tx_frame Hwf.
  - by eapply frame_wf.
  - apply (reopen_wf_grow d); try done.
    + rewrite Ha. by apply insert_subseteq.
    + rewrite Ha. apply map_Forall_insert_2; [done|apply Hwf].
    + intros k row Hrow. rewrite Hx. eauto with lia.
  - by eapply reopen_keeps_wf.
Qed.

Lemma bureau_reopen_wf b b' : bureau_step b b' -> reopen_wf (bu_db b) -> reopen_wf (bu_db b').
Proof.
  destruct 1 as [d asked reserved d' Htx|d asked reserved id now r d' Hrun|d asked reserved id now msg d' Hrun
                | | |d asked reserved d' Hsame Hg]; cbn; intros Hwf; try done.
  - by eapply tx_reopen_wf.
  - eapply frame_wf; [by eapply mark_running_frame|done].
  - eapply frame_wf; [by eapply mark_running_frame|done].
  - destruct Hsame as (_ & _ & _ & _ & _ & Ha & Hr). apply (reopen_wf_grow d); rewrite ?Ha; try done. apply Hwf.
Qed.

Lemma bureau_run_reopen_wf b b' : rtc bureau_step b b' -> reopen_wf (bu_db b) -> reopen_wf (bu_db b').
Proof. induction 1; eauto using bureau_reopen_wf. Qed.

Lemma no_inquiries_reopen_wf d : no_inquiries d -> reopen_wf d.
Proof. intros (_ & _ & _ & Ha & Hr). split; rewrite ?Ha, ?Hr; [apply keyed_empty|done..]. Qed.

(** C35: However the sessions interleave, every stored reopening of a case rests on a stored
    assessment of the same case, epoch and investigation that requires it, advances the
    authority epoch by one, and is the only reopening that leaves its epoch: no two
    reopenings of a case leave the same epoch, rest on the same assessment or share an
    idempotency key. *)
Theorem reopenings_are_earned_once d b k r :
  no_inquiries d -> rtc bureau_step (mkBureau d [] []) b -> nv_records (bu_db b) !! k = Some r ->
  earned_record (bu_db b) r /\
  forall k' r', nv_records (bu_db b) !! k' = Some r' ->
    oo_assessment_ref r' = oo_assessment_ref r \/
    oo_case_id r' = oo_case_id r /\ (oo_previous_authority_epoch r' = oo_previous_authority_epoch r \/
                                      oo_idempotency_key r' = oo_idempotency_key r) -> k' = k.
Proof.
  intros Hd Hrun Hr. pose proof (bureau_run_reopen_wf _ _ Hrun (no_inquiries_reopen_wf d Hd)) as Hwf.
  split; [by eapply rw_earned|]. intros k' r' Hr' [Ha|[Hc [Hp|Hk]]].
  - destruct (rw_earned _ Hwf _ _ Hr) as [(a & g & Hs & _ & Hc & He & _) _ _ _].
    destruct (rw_earned _ Hwf _ _ Hr') as [(a' & g' & Hs' & _ & Hc' & He' & _) _ _ _]. rewrite Ha, Hs in Hs'. simplify_eq.
    eapply (rw_epoch_once _ Hwf); eauto; congruence.
  - by eapply (rw_epoch_once _ Hwf).
  - by eapply (rw_key_once _ Hwf).
Qed.
End bureau.
