(* ===== verification/InvestigationFlow.v ===== *)
(** * Investigations: the calls of the service

    Every call of the service is a path of the bureau, whatever the client answers
    and wherever the call breaks off; what a reopening does to its case; and what is
    left of an investigation once the authority epoch of its case has advanced. *)

From stdpp Require Import base gmap strings list relations.
From Stdlib Require Import ZArith Lia.
From S2P Require Import Prelude Python Uuid Store Domain Policy Authority Lifecycle Obligations Persistence Financial.
From S2P Require Import PolicyPlane Transactions Governance Commitment Machine Kernel KernelClient Investigation InvestigationService.
From S2P Require Import InvestigationSafety.

Open Scope Z_scope.
Open Scope orch_scope.
Open Scope machine_scope.

Section flow.
Context `{Platform}.
Context (client : list InvestigationRequestEnvelope -> InvestigationRequestEnvelope -> result InvestigationProposal).
Context (verifier : uuid -> Z -> string -> result unit).

(** ** Calls as paths *)

Definition bureau_of (w : InvestigationWorld) (reserved : list uuid) : Bureau :=
  mkBureau (vw_db w) (en_investigation_id <$> vw_asked w) reserved.

Definition walks (w w' : InvestigationWorld) : Prop :=
  forall reserved, rtc bureau_step (bureau_of w reserved) (bureau_of w' reserved).

Definition paths : Motion InvestigationWorld.
Proof.
  refine {| moves := walks; breaks := fun _ => walks |}.
  - intros w reserved. apply rtc_refl.
  - intros w1 w2 w3 H1 H2 reserved. by etrans; [apply H1|apply H2].
  - done.
  - intros _ w1 w2 w3 H1 H2 reserved. by etrans; [apply H1|apply H2].
Defined.

Lemma walks_tx w d : inquiry_tx (vw_db w) d -> walks w (vw_set_db w d).
Proof. intros Ht reserved. apply rtc_once. by apply bs_tx. Qed.

Lemma inquiry_write_Ok {A} (f : InvestigationDb -> result (A * InvestigationDb)) w a w' :
  inquiry_write f w = (Ok a, w') <-> exists d, f (vw_db w) = Ok (a, d) /\ w' = vw_set_db w d.
Proof.
  unfold inquiry_write, transact. destruct (f (vw_db w)) as [[a0 d]|e]; cbn; [|naive_solver].
  split; [intros [= <- <-]; eauto|intros (d0 & [= <- <-] & ->); done].
Qed.

Lemma inquiry_write_Err {A} (f : InvestigationDb -> result (A * InvestigationDb)) w e w' :
  inquiry_write f w = (Err e, w') -> w' = w /\ f (vw_db w) = Err e.
Proof. unfold inquiry_write, transact. destruct (f (vw_db w)) as [[a0 d]|e0]; cbn; [done|]. by intros [= <- <-]. Qed.

Lemma write_at {A} (f : InvestigationDb -> result (A * InvestigationDb)) w :
  (forall a d, f (vw_db w) = Ok (a, d) -> inquiry_tx (vw_db w) d) -> respects_at paths (inquiry_write f) w.
Proof.
  intros Hf [a|e] w' Hrun.
  - apply inquiry_write_Ok in Hrun as (d & Hd & ->). by eapply walks_tx, Hf.
  - apply inquiry_write_Err in Hrun as [-> _]. apply (moves_refl paths).
Qed.

Lemma inquiry_settle_at {A} (f : InvestigationDb -> result (settled A * InvestigationDb)) w :
  (forall o d, f (vw_db w) = Ok (o, d) -> inquiry_tx (vw_db w) d) -> respects_at paths (inquiry_settle f) w.
Proof.
  intros Hf. unfold inquiry_settle. apply respects_bind_at; [by apply write_at|]. intros [a|msg] w1 _; apply at_world; typeclasses eauto.
Qed.

Lemma write_respects {A} (f : InvestigationDb -> result (A * InvestigationDb)) :
  (forall d a d', f d = Ok (a, d') -> inquiry_tx d d') -> Respects paths (inquiry_write f).
Proof. intros Hf. apply respects_everywhere. intros w. apply write_at. eauto. Qed.

Lemma settle_respects {A} (f : InvestigationDb -> result (settled A * InvestigationDb)) :
  (forall d o d', f d = Ok (o, d') -> inquiry_tx d d') -> Respects paths (inquiry_settle f).
Proof. intros Hf. apply respects_everywhere. intros w. apply inquiry_settle_at. eauto. Qed.

#[local] Instance read_respects {A} (f : InvestigationDb -> result A) : Respects paths (inquiry_read f).
Proof. unfold inquiry_read. typeclasses eauto. Qed.
#[local] Instance failed_respects id code now : Respects paths (inquiry_write (fun d => mark_failed d id code now)).
Proof. apply write_respects. eauto using inquiry_tx. Qed.
#[local] Instance expired_respects id reason now : Respects paths (inquiry_write (fun d => mark_expired d id reason now)).
Proof. apply write_respects. eauto using inquiry_tx. Qed.
#[local] Instance proposal_respects p now : Respects paths (inquiry_settle (fun d => record_proposal d p now)).
Proof. apply settle_respects. eauto using inquiry_tx. Qed.
#[local] Instance evidence_request_respects item now : Respects paths (inquiry_settle (fun d => create_evidence_request d item now)).
Proof. apply settle_respects. eauto using inquiry_tx. Qed.
#[local] Instance evidence_respects item now : Respects paths (inquiry_write (fun d => add_investigation_evidence d item now)).
Proof. apply write_respects. eauto using inquiry_tx. Qed.
#[local] Instance assessment_respects a now : Respects paths (inquiry_write (fun d => record_reopen_assessment d a now)).
Proof. apply write_respects. eauto using inquiry_tx. Qed.

#[local] Instance not_expired_respects q now : Respects paths (ensure_not_expired q now).
Proof. unfold ensure_not_expired. respect. Qed.
#[local] Instance current_epoch_respects q now : Respects paths (ensure_current_epoch q now).
Proof. unfold ensure_current_epoch. respect. Qed.
#[local] Instance open_respects id now : Respects paths (open_request id now).
Proof. unfold open_request. respect. Qed.
#[local] Instance submit_respects p clock : Respects paths (submit_proposal p clock).
Proof. unfold submit_proposal. respect. Qed.
#[local] Instance request_evidence_respects id kind question by_ key allowed eid clock :
  Respects paths (request_evidence id kind question by_ key allowed eid clock).
Proof. unfold request_evidence. respect. Qed.
#[local] Instance add_evidence_respects id call eid clock : Respects paths (supply_evidence id call eid clock).
Proof. unfold supply_evidence. respect. Qed.
#[local] Instance assess_respects id call aid clock : Respects paths (assess_reopen id call aid clock).
Proof. unfold assess_reopen. respect. Qed.

(** *** Asking the client *)

(** A path that uses up a reservation. *)
Definition spends (id : uuid) (w w' : InvestigationWorld) : Prop :=
  forall reserved, rtc bureau_step (bureau_of w (id :: reserved)) (bureau_of w' reserved).

Lemma spends_walks id w w1 w2 : spends id w w1 -> walks w1 w2 -> spends id w w2.
Proof. intros Hs Hw reserved. etrans; [apply Hs|apply Hw]. Qed.

Lemma advise_spends q e now w r w' : advise client q e now w = (r, w') -> spends (en_investigation_id e) w w'.
Proof.
  unfold advise, bind, ask_client. set (w1 := mkInvestigationWorld _ _). intros Hrun.
  assert (Hask : spends (en_investigation_id e) w w1).
  { intros reserved. apply rtc_once. exact (bs_ask (vw_db w) (en_investigation_id <$> vw_asked w) [] (en_investigation_id e) reserved). }
  destruct (client (vw_asked w) e) as [p|x]; [|by simplify_eq]. eapply spends_walks; [exact Hask|].
  destruct (stale_answer q p); [injection Hrun as <- <-; apply (moves_refl paths)|].
  assert (Hr : Respects paths (do! _ := lift (boundary_validate_proposal q p) in inquiry_settle (fun d => record_proposal d p now)))
    by respect.
  apply Hr in Hrun. by destruct r.
Qed.

Lemma on_failure_spends id {A} (m : M InvestigationWorld A) handler w r w' :
  (forall r1 w1, m w = (r1, w1) -> spends id w w1) -> (forall name, Respects paths (handler name)) ->
  on_failure m handler w = (r, w') -> spends id w w'.
Proof.
  intros Hm Hh. unfold on_failure. destruct (m w) as [[a|e] w1] eqn:E; specialize (Hm _ _ eq_refl); [by intros [= <- <-]|].
  destruct (advisory_failure (exn_cls e)) as [name|]; [|by intros [= <- <-]].
  destruct (handler name w1) as [r2 w2] eqn:E2. intros Hrun. assert (walks w1 w2) by (apply (Hh name) in E2; by destruct r2).
  eapply spends_walks; [exact Hm|]. by destruct r2; simplify_eq.
Qed.

Lemma round_at id q clock w : iq_investigation_id q = id -> respects_at paths (advisory_round client id q clock) w.
Proof.
  intros Hid r w' Hrun. enough (walks w w') by (by destruct r). unfold advisory_round, inquiry_settle in Hrun. unfold bind at 1 2 in Hrun.
  destruct (inquiry_write _ w) as [[[q1|msg]|e] w1] eqn:Ew in Hrun.
  - apply inquiry_write_Ok in Ew as (d & Hrun1 & ->). cbn [ret] in Hrun.
    assert (Hres : forall reserved, bureau_step (bureau_of w reserved) (bureau_of (vw_set_db w d) (id :: reserved))).
    { intros reserved. by eapply bs_reserve. }
    enough (spends id (vw_set_db w d) w') as Hs by (intros reserved; eapply rtc_l; [apply Hres|apply Hs]).
    unfold bind at 1, inquiry_read, reads in Hrun. destruct (envelope_of _ q) as [e|x] eqn:Ee.
    + assert (He : en_investigation_id e = id).
      { unfold envelope_of, InvestigationRequestEnvelope_validate in Ee. apply rbind_Ok in Ee as (c & _ & Ee).
        destruct (_ && _) in Ee; [|done]. by simplify_eq. }
      refine (on_failure_spends id _ _ _ _ _ _ _ Hrun). intros r1 w1 Ha. rewrite <- He. by eapply advise_spends.
    + injection Hrun as <- <-. intros reserved. apply rtc_once. exact (bs_abandon _ _ [] id reserved).
  - apply inquiry_write_Ok in Ew as (d & Hrun1 & ->). injection Hrun as <- <-. intros reserved. apply rtc_once. by eapply bs_exhaust.
  - apply inquiry_write_Err in Ew as [-> _]. injection Hrun as <- <-. apply (moves_refl paths).
Qed.

(** Every row is stored under its id. *)
Definition keyed_inquiries (w : InvestigationWorld) : Prop :=
  forall id row, nv_investigations (vw_db w) !! id = Some row -> iq_investigation_id (nr_request row) = id.

Lemma require_request_Ok d id q : require_request d id = Ok q ->
  exists digest, nv_investigations d !! id = Some (mkInvestigationRow q digest) /\ InvestigationRequest_validate q = Ok q.
Proof.
  unfold require_request, get_request, request_from_row. destruct (_ !! id) as [[q0 digest]|]; cbn; [|done]. intros Hr.
  destruct (InvestigationRequest_validate q0) as [q1|] eqn:E; [|done]. cbn in Hr. simplify_eq.
  pose proof (request_validate_Ok _ _ E) as ->. by exists digest.
Qed.

Lemma run_at id clock w : keyed_inquiries w -> respects_at paths (run_investigation client id clock) w.
Proof.
  intros Hk. unfold run_investigation. apply respects_bind_at; [apply at_world; typeclasses eauto|]. intros q w1 Hq.
  unfold inquiry_read, reads in Hq. injection Hq as Hq <-. destruct (require_request_Ok _ _ _ Hq) as (digest & Hrow & _).
  pose proof (Hk _ _ Hrow) as Hid. cbn in Hid.
  do 3 (apply respects_bind_at; [apply at_world; typeclasses eauto|]; intros ? ? _).
  repeat (case_match; try by apply round_at). apply at_world. typeclasses eauto.
Qed.

(** *** Requests and reopenings *)

Lemma prepare_request_fresh d case trigger call id now q :
  prepare_request d case trigger call id now = Ok q -> fresh_request q.
Proof.
  unfold prepare_request. intros Hp. do 3 apply rbind_Ok in Hp as (? & _ & Hp). pose proof (request_validate_Ok _ _ Hp) as ->. by split.
Qed.

Lemma request_at case_id call trigger_id id clock w :
  respects_at paths (request_investigation verifier case_id call trigger_id id clock) w.
Proof.
  unfold request_investigation.
  do 4 (apply respects_bind_at; [apply at_world; typeclasses eauto|]; intros ? ? _).
  apply respects_bind_at; [apply at_world; typeclasses eauto|]. intros q w1 Hq. apply write_at. intros r d Hc.
  unfold inquiry_read, reads in Hq. injection Hq as Hq <-. by eapply tx_create; [eapply prepare_request_fresh|].
Qed.

Lemma get_reopen_assessment_Ok d id a : get_reopen_assessment d id = Ok (Some a) ->
  exists digest, nv_assessments d !! id = Some (mkReopenAssessmentRow a digest).
Proof.
  unfold get_reopen_assessment, reopen_assessment_from_row. destruct (_ !! id) as [[a0 digest]|]; [|done]. cbn. intros Hr.
  destruct (ReopenAssessment_validate a0) eqn:E; [|done]. cbn in Hr. simplify_eq. apply reopen_assessment_validate_Ok in E as ->. eauto.
Qed.

Lemma open_request_Ok id now w q w' : open_request id now w = (Ok q, w') ->
  w' = w /\ require_request (vw_db w) id = Ok q /\ iq_status q ∉ terminal_statuses.
Proof.
  unfold open_request. intros Hr. inv_run. unfold inquiry_read, reads in R. injection R as R <-.
  unfold ensure_not_expired in R0. destruct (match _ with Some _ => _ | None => _ end) in R0; [|by inv_run].
  injection R0 as <-. case_bool_decide; [done|]. by injection Hr as <- <-.
Qed.

Lemma authorize_at case_id assessment_id by_ key clock w :
  keyed (fun r => oa_assessment_id (na_assessment r)) (nv_assessments (vw_db w)) ->
  respects_at paths (authorize_reopen case_id assessment_id by_ key clock) w.
Proof.
  intros Hk. unfold authorize_reopen. apply respects_bind_at; [apply at_world; typeclasses eauto|]. intros case w1 Hcase.
  unfold inquiry_read, reads in Hcase. injection Hcase as _ <-.
  apply respects_bind_at; [apply at_world; typeclasses eauto|]. intros [a|] w1 Ha; [|apply at_world; typeclasses eauto].
  unfold inquiry_read, reads in Ha. injection Ha as (digest & Ha)%get_reopen_assessment_Ok <-.
  case_bool_decide; [apply at_world; typeclasses eauto|].
  apply respects_bind_at; [apply at_world; typeclasses eauto|]. intros [r|] w1 Hr.
  { destruct (other_semantics _ _ _ _); apply at_world; typeclasses eauto. }
  unfold inquiry_read, reads in Hr. injection Hr as _ <-. unfold reopen_now.
  do 2 (case_bool_decide; [apply at_world; typeclasses eauto|]).
  apply respects_bind_at; [apply at_world; typeclasses eauto|]. intros q w1 (-> & _)%open_request_Ok.
  apply write_at. intros x d Hx. eapply tx_reopen; [|exact Hx]. pose proof (Hk _ _ Ha) as Hid. cbn in Hid. by rewrite Hid.
Qed.

(** ** Every call is a path *)

Inductive inquiry_call :=
  | CallInquire (case_id : uuid) (call : InvestigationCall) (trigger_id id : uuid)
  | CallAdvise (id : uuid)
  | CallPropose (p : InvestigationProposal)
  | CallRequestEvidence (id : uuid) (kind question by_ key : string) (allowed : list string) (evidence_request_id : uuid)
  | CallAddEvidence (id : uuid) (call : EvidenceCall) (evidence_id : uuid)
  | CallAssess (id : uuid) (call : AssessmentCall) (assessment_id : uuid)
  | CallReopen (case_id assessment_id : uuid) (by_ key : string).

Definition discard {A} (m : M InvestigationWorld A) : M InvestigationWorld unit := do! _ := m in ret tt.

Definition inquire (c : inquiry_call) (clock : nat -> instant) : M InvestigationWorld unit :=
  match c with
  | CallInquire case_id call trigger_id id => discard (request_investigation verifier case_id call trigger_id id clock)
  | CallAdvise id => discard (run_investigation client id clock)
  | CallPropose p => discard (submit_proposal p clock)
  | CallRequestEvidence id kind question by_ key allowed eid =>
      discard (request_evidence id kind question by_ key allowed eid clock)
  | CallAddEvidence id call eid => discard (supply_evidence id call eid clock)
  | CallAssess id call aid => discard (assess_reopen id call aid clock)
  | CallReopen case_id aid by_ key => discard (authorize_reopen case_id aid by_ key clock)
  end.

Lemma discard_at {A} (m : M InvestigationWorld A) w : respects_at paths m w -> respects_at paths (discard m) w.
Proof. intros Hm. apply respects_bind_at; [done|]. intros. apply at_world. typeclasses eauto. Qed.

Lemma budget_keyed w reserved : budget_wf (bureau_of w reserved) -> keyed_inquiries w.
Proof.
  intros Hb id row Hrow. specialize (Hb id). unfold within_budget, tally_of in Hb. cbn in Hb. rewrite Hrow in Hb. apply Hb.
Qed.

Lemma inquire_at c clock w :
  budget_wf (bureau_of w []) -> reopen_wf (vw_db w) -> respects_at paths (inquire c clock) w.
Proof.
  intros Hb Ho. destruct c; cbn; apply discard_at; try (apply at_world; typeclasses eauto).
  - apply request_at.
  - apply run_at. by eapply budget_keyed.
  - apply authorize_at, Ho.
Qed.

(** C36: Every call of the investigation service, whatever the client and the verifier answer
    and wherever it breaks off, is a path of the bureau: it reserves before it asks and asks
    at most once per reservation, and stores nothing but by the transactions. *)
Theorem service_follows_the_bureau c clock w r w' :
  budget_wf (bureau_of w []) -> reopen_wf (vw_db w) -> inquire c clock w = (r, w') ->
  rtc bureau_step (bureau_of w []) (bureau_of w' []).
Proof.
  intros Hb Ho Hrun. apply (inquire_at c clock w Hb Ho) in Hrun. destruct r; apply Hrun.
Qed.

(** ** Reopening a case *)

Definition keyed_cases (d : InvestigationDb) : Prop := keyed (fun row => c_case_id (cr_case row)) (x_cases (nv_exec d)).

Lemma inquiry_case_Ok d case_id c : inquiry_case d case_id = Ok c ->
  exists row, x_cases (nv_exec d) !! case_id = Some row /\ case_from_row row = Ok c /\ c = cr_case row.
Proof.
  unfold inquiry_case, get_case. destruct (_ !! case_id) as [row|]; [|done]. cbn. intros Hc.
  destruct (case_from_row row) as [c0|] eqn:E; [|done]. cbn in Hc. simplify_eq. exists row. split_and!; [done..|by apply case_from_row_Ok].
Qed.

(** What an authorized reopening comes from, and the transaction that made it. *)
Lemma authorize_created case_id aid by_ key clock w r c w' :
  authorize_reopen case_id aid by_ key clock w = (Ok (r, c, true), w') ->
  exists row a digest q d,
    x_cases (nv_exec (vw_db w)) !! case_id = Some row /\ c_status (cr_case row) <> CANCELLED /\
    nv_assessments (vw_db w) !! aid = Some (mkReopenAssessmentRow a digest) /\ get_reopen_assessment (vw_db w) aid = Ok (Some a) /\
    oa_case_id a = case_id /\ require_request (vw_db w) (oa_investigation_id a) = Ok q /\ iq_status q ∉ terminal_statuses /\
    apply_reopen (vw_db w) (cr_case row) a (reopen_reason_by_trigger (ig_trigger_type (iq_trigger q))) (oa_evidence_refs a) key
      (reopen_id_of (c_case_id (cr_case row)) key) by_ (clock 1%nat) = Ok (r, c, true, d) /\ w' = vw_set_db w d.
Proof.
  unfold authorize_reopen. intros Hrun. apply bind_Ok in Hrun as (case & w1 & Hcase & Hrun).
  unfold inquiry_read, reads in Hcase. injection Hcase as (row & Hrow & _ & ->)%inquiry_case_Ok <-.
  apply bind_Ok in Hrun as ([a|] & w1 & Ha & Hrun); [|done]. unfold inquiry_read, reads in Ha. injection Ha as Ha <-.
  case_bool_decide as Hcase; [done|]. apply bind_Ok in Hrun as ([r0|] & w1 & Hr & Hrun).
  { destruct (other_semantics _ _ _ _); by inv_run. }
  unfold inquiry_read, reads in Hr. injection Hr as _ <-. unfold reopen_now in Hrun. case_bool_decide as Hep; [done|].
  case_bool_decide as Hst; [done|]. apply bind_Ok in Hrun as (q & w1 & (-> & Hq & Hopen)%open_request_Ok & Hrun).
  apply inquiry_write_Ok in Hrun as (d & Happ & ->). destruct (get_reopen_assessment_Ok _ _ _ Ha) as [digest Hs].
  exists row, a, digest, q, d. split_and!; done.
Qed.

(** The decisions and authorizations of a case and epoch are those a record lists. *)
Lemma elem_of_refs {A} (id : A -> uuid) P (t : gmap uuid A) text :
  text ∈ refs_where id P t <-> exists k v, t !! k = Some v /\ P v = true /\ text = uuid_str (id v).
Proof. clear. unfold refs_where. rewrite list_elem_of_fmap. setoid_rewrite elem_of_select_where. naive_solver. Qed.


(** ** Investigations of an epoch that is over *)

(** At most, the row of the investigation becomes expired. *)
Record fades (id : uuid) (w w' : InvestigationWorld) : Prop := {
  fa_asked : vw_asked w' = vw_asked w;
  fa_frame : frame (vw_db w) (vw_db w');
  fa_proposals : nv_proposals (vw_db w') = nv_proposals (vw_db w);
  fa_reframings : nv_reframings (vw_db w') = nv_reframings (vw_db w);
  fa_requests : nv_evidence_requests (vw_db w') = nv_evidence_requests (vw_db w);
  fa_evidence : nv_evidence (vw_db w') = nv_evidence (vw_db w);
  fa_inquiries : nv_investigations (vw_db w') = nv_investigations (vw_db w) \/
    exists row, iq_status (nr_request row) = IS_EXPIRED /\ nv_investigations (vw_db w') = <[id := row]> (nv_investigations (vw_db w));
}.

Lemma fades_refl id w : fades id w w.
Proof. split; try done. by left. Qed.

Definition refuses {A} (id : uuid) (m : M InvestigationWorld A) (w : InvestigationWorld) : Prop :=
  forall r w', m w = (r, w') -> (exists e, r = Err e) /\ fades id w w'.

(** What was done before the refusal left the world as it was, or refused itself. *)
Definition prelude_to {A} (id : uuid) (m : M InvestigationWorld A) (w : InvestigationWorld) : Prop :=
  forall r w', m w = (r, w') -> match r with Ok _ => w' = w | Err _ => fades id w w' end.

Lemma inquiry_refuses_after {A B} id (m : M InvestigationWorld A) (k : A -> M InvestigationWorld B) w :
  prelude_to id m w -> (forall a, m w = (Ok a, w) -> refuses id (k a) w) -> refuses id (bind m k) w.
Proof.
  intros Hm Hk r w'. unfold bind. destruct (m w) as [[a|e] w1] eqn:E; specialize (Hm _ _ E); cbn in Hm.
  - subst w1. by apply Hk.
  - intros [= <- <-]. eauto.
Qed.

Lemma refuses_first {A B} id (m : M InvestigationWorld A) (k : A -> M InvestigationWorld B) w :
  refuses id m w -> refuses id (bind m k) w.
Proof.
  intros Hm r w'. unfold bind. destruct (m w) as [[a|e] w1] eqn:E; destruct (Hm _ _ E) as [[x Hx] Hf]; [done|].
  intros [= <- <-]. eauto.
Qed.

Lemma read_prelude {A} id (f : InvestigationDb -> result A) w : prelude_to id (inquiry_read f) w.
Proof. intros r w'. unfold inquiry_read, reads. intros [= <- <-]. destruct (f (vw_db w)); [done|apply fades_refl]. Qed.

Lemma lift_prelude {A} id (x : result A) w : prelude_to id (lift x) w.
Proof. intros r w'. unfold lift. intros [= <- <-]. destruct x; [done|apply fades_refl]. Qed.

Lemma expiring_refuses {A} id q reason now msg w :
  keyed_inquiries w -> iq_investigation_id q = id ->
  refuses (A := A) id (do! _ := inquiry_write (fun d => mark_expired d (iq_investigation_id q) reason now) in
                       throw InvestigationConflict msg) w.
Proof.
  intros Hk Hid r w'. unfold bind. destruct (inquiry_write _ w) as [[a|e] w1] eqn:E.
  - apply inquiry_write_Ok in E as (d & Hd & ->). intros [= <- <-]. split; [eauto|]. rewrite Hid in Hd.
    unfold mark_expired in Hd. apply rbind_Ok in Hd as (row & Hrow%investigation_row_Ok & Hd). pose proof (Hk _ _ Hrow) as Hkey.
    case_bool_decide; [inv_ok; simplify_eq; destruct w; apply fades_refl|]. apply rbind_Ok in Hd as (q1 & _ & Hd). injection Hd as _ <-.
    split; try done. right. eexists. split; [|cbn; by rewrite Hkey]. done.
  - apply inquiry_write_Err in E as [-> _]. intros [= <- <-]. split; [eauto|apply fades_refl].
Qed.

Lemma not_expired_prelude id q now w :
  keyed_inquiries w -> iq_investigation_id q = id -> prelude_to id (ensure_not_expired q now) w.
Proof.
  intros Hk Hid r w'. unfold ensure_not_expired. destruct (match _ with Some _ => _ | None => _ end); [by intros [= <- <-]|].
  intros Hrun. apply (expiring_refuses id) in Hrun as [[e ->] Hf]; done.
Qed.

(** The investigation [q] is stored and its case has left its epoch. *)
Definition stale (w : InvestigationWorld) (q : InvestigationRequest) : Prop :=
  keyed_inquiries w /\ (exists digest, nv_investigations (vw_db w) !! iq_investigation_id q = Some (mkInvestigationRow q digest)) /\
  forall row, x_cases (nv_exec (vw_db w)) !! iq_case_id q = Some row -> c_authority_epoch (cr_case row) <> iq_authority_epoch q.

Lemma stale_refuses w q now : stale w q -> refuses (iq_investigation_id q) (ensure_current_epoch q now) w.
Proof.
  intros (Hk & _ & Hstale). unfold ensure_current_epoch. apply inquiry_refuses_after; [apply read_prelude|]. intros c Hc.
  unfold inquiry_read, reads in Hc. injection Hc as (row & Hrow & _ & ->)%inquiry_case_Ok. rewrite bool_decide_eq_false_2 by by apply Hstale.
  by apply expiring_refuses.
Qed.

Lemma stale_request w q id q' : stale w q -> id = iq_investigation_id q -> require_request (vw_db w) id = Ok q' -> q' = q.
Proof. intros (_ & (digest & Hrow) & _) -> (digest' & Hrow' & _)%require_request_Ok. congruence. Qed.

Lemma open_prelude w q now : stale w q -> prelude_to (iq_investigation_id q) (open_request (iq_investigation_id q) now) w.
Proof.
  intros Hs r w'. unfold open_request, bind at 1, inquiry_read, reads.
  destruct (require_request _ _) as [q'|e] eqn:Hq; [|intros [= <- <-]; apply fades_refl].
  pose proof (stale_request _ _ _ _ Hs eq_refl Hq) as ->. pose proof (not_expired_prelude _ q now w (proj1 Hs) eq_refl) as Hp.
  unfold bind. destruct (ensure_not_expired q now w) as [[u|e] w1] eqn:E; specialize (Hp _ _ E); cbn in Hp; [|by intros [= <- <-]].
  subst w1. case_bool_decide; intros [= <- <-]; [apply fades_refl|done].
Qed.

Lemma open_stale w q now q' : stale w q -> open_request (iq_investigation_id q) now w = (Ok q', w) -> q' = q.
Proof. intros Hs (_ & Hq & _)%open_request_Ok. by eapply stale_request. Qed.

Lemma run_stale w q clock : stale w q -> refuses (iq_investigation_id q) (run_investigation client (iq_investigation_id q) clock) w.
Proof.
  intros Hs. unfold run_investigation. apply inquiry_refuses_after; [apply read_prelude|]. intros q' Hq.
  unfold inquiry_read, reads in Hq. injection Hq as Hq. pose proof (stale_request _ _ _ _ Hs eq_refl Hq) as ->.
  apply inquiry_refuses_after; [apply not_expired_prelude; [apply Hs|done]|]. intros u _. by apply refuses_first, stale_refuses.
Qed.

Lemma submit_stale w q p clock :
  stale w q -> io_investigation_id p = iq_investigation_id q -> refuses (iq_investigation_id q) (submit_proposal p clock) w.
Proof.
  intros Hs Hp. unfold submit_proposal. rewrite Hp. apply inquiry_refuses_after; [apply read_prelude|]. intros q' Hq.
  unfold inquiry_read, reads in Hq. injection Hq as Hq. pose proof (stale_request _ _ _ _ Hs eq_refl Hq) as ->.
  apply inquiry_refuses_after; [apply not_expired_prelude; [apply Hs|done]|]. intros u _. by apply refuses_first, stale_refuses.
Qed.

Lemma request_evidence_stale w q kind question by_ key allowed eid clock :
  stale w q -> refuses (iq_investigation_id q) (request_evidence (iq_investigation_id q) kind question by_ key allowed eid clock) w.
Proof.
  intros Hs. unfold request_evidence. apply inquiry_refuses_after; [by apply open_prelude|]. intros q' Hq. pose proof (open_stale _ _ _ _ Hs Hq) as ->.
  apply inquiry_refuses_after; [apply lift_prelude|]. intros item _. by apply refuses_first, stale_refuses.
Qed.

Lemma add_evidence_stale w q call eid clock :
  stale w q -> refuses (iq_investigation_id q) (supply_evidence (iq_investigation_id q) call eid clock) w.
Proof.
  intros Hs. unfold supply_evidence. apply inquiry_refuses_after; [by apply open_prelude|]. intros q' Hq. pose proof (open_stale _ _ _ _ Hs Hq) as ->.
  by apply refuses_first, stale_refuses.
Qed.

(** A repeated assessment is answered from the table. *)
Lemma assessment_replay d a now r d' x :
  get_assessment_by_idempotency d (oa_investigation_id a) (oa_idempotency_key a) = Ok (Some x) ->
  record_reopen_assessment d a now = Ok (r, d') -> d' = d.
Proof.
  unfold get_assessment_by_idempotency, record_reopen_assessment. intros Hg Hr. apply rbind_Ok in Hg as ([row|] & Hrow & Hg); [|done].
  do 3 apply rbind_Ok in Hr as (? & _ & Hr). rewrite Hrow in Hr. cbn in Hr. inv_ok. by simplify_eq.
Qed.

Lemma assess_stale w q call aid clock r w' :
  stale w q -> assess_reopen (iq_investigation_id q) call aid clock w = (r, w') ->
  fades (iq_investigation_id q) w w' /\ (forall a, r = Ok a -> w' = w).
Proof.
  intros Hs Hrun. unfold assess_reopen in Hrun. unfold bind at 1, inquiry_read at 1, reads in Hrun.
  destruct (require_request (vw_db w) _) as [q'|e] eqn:Hq in Hrun; [|injection Hrun as <- <-; split; [apply fades_refl|done]].
  pose proof (stale_request _ _ _ _ Hs eq_refl Hq) as ->. do 3 (unfold bind at 1, inquiry_read at 1, reads in Hrun).
  destruct (check_proposal_ref _ _ _); [|injection Hrun as <- <-; split; [apply fades_refl|done]].
  destruct (check_known_evidence _ _ _); [|injection Hrun as <- <-; split; [apply fades_refl|done]].
  destruct (get_assessment_by_idempotency _ _ _) as [[x|]|e] eqn:Hg in Hrun; [| |injection Hrun as <- <-; split; [apply fades_refl|done]].
  - unfold bind at 1, ret at 1 in Hrun. unfold bind at 1, lift in Hrun. destruct (ReopenAssessment_validate _) as [new|e] eqn:Ha in Hrun;
      [|injection Hrun as <- <-; split; [apply fades_refl|done]]. apply reopen_assessment_validate_Ok in Ha.
    destruct r as [r|e]; [|apply inquiry_write_Err in Hrun as [-> _]; split; [apply fades_refl|done]].
    apply inquiry_write_Ok in Hrun as (d & Hd & ->). apply assessment_replay with (x := x) in Hd as ->; [|by subst new].
    destruct w. split; [apply fades_refl|done].
  - unfold bind at 1 in Hrun. destruct (bind _ _ w) as [r1 w1] eqn:E in Hrun.
    assert (refuses (iq_investigation_id q) (do! _ := open_request (iq_investigation_id q) (clock 0%nat) in
              do! _ := ensure_current_epoch q (clock 1%nat) in ret tt) w) as Href.
    { apply inquiry_refuses_after; [by apply open_prelude|]. intros q' _. by apply refuses_first, stale_refuses. }
    apply Href in E as [[e ->] Hf]. injection Hrun as <- <-. done.
Qed.

Definition concerns (q : InvestigationRequest) (c : inquiry_call) : Prop :=
  match c with
  | CallAdvise id | CallRequestEvidence id _ _ _ _ _ _ | CallAddEvidence id _ _ | CallAssess id _ _ => id = iq_investigation_id q
  | CallPropose p => io_investigation_id p = iq_investigation_id q
  | CallInquire _ _ _ _ | CallReopen _ _ _ _ => False
  end.

Lemma discard_refuses {A} id (m : M InvestigationWorld A) w : refuses id m w -> refuses id (discard m) w.
Proof. apply refuses_first. Qed.

(** Once the authority epoch of its case has advanced, an investigation is inert: running
    it, proposing, requesting or adding evidence and assessing it are refused, the client
    is not asked, and no proposal, evidence, assessment, reopening or case changes; at most
    the investigation is marked as expired. Only a repeated assessment is still answered,
    from the table. *)
Theorem stale_investigations_are_inert c clock w q r w' :
  stale w q -> concerns q c -> inquire c clock w = (r, w') ->
  fades (iq_investigation_id q) w w' /\ (r = Ok tt -> w' = w /\ exists call aid, c = CallAssess (iq_investigation_id q) call aid).
Proof.
  intros Hs Hc Hrun. destruct c; cbn in Hc, Hrun; try done; try subst id.
  - destruct (discard_refuses _ _ _ (run_stale _ _ clock Hs) _ _ Hrun) as [[e ->] Hf]. done.
  - destruct (discard_refuses _ _ _ (submit_stale _ _ p clock Hs Hc) _ _ Hrun) as [[e ->] Hf]. done.
  - destruct (discard_refuses _ _ _ (request_evidence_stale _ _ kind question by_ key allowed evidence_request_id clock Hs) _ _ Hrun)
      as [[e ->] Hf]. done.
  - destruct (discard_refuses _ _ _ (add_evidence_stale _ _ call evidence_id clock Hs) _ _ Hrun) as [[e ->] Hf]. done.
  - unfold discard, bind in Hrun. destruct (assess_reopen _ _ _ _ w) as [[a|e] w1] eqn:E in Hrun;
      apply (assess_stale _ _ _ _ _ _ _ Hs) in E as [Hf Hw]; injection Hrun as <- <-; (split; [done|]); [|done].
    intros _. split; [by eapply Hw|]. eauto.
Qed.

(** A repeated request for evidence is never answered: its id and its time are new each
    time, so it differs from the stored request of its idempotency key. *)
Theorem repeated_evidence_requests_fail id kind question by_ key allowed eid clock w stored item w' :
  keyed_inquiries w -> evidence_requests_under (vw_db w) id key = [stored] -> ie_evidence_request_id stored <> eid ->
  request_evidence id kind question by_ key allowed eid clock w <> (Ok item, w').
Proof.
  intros Hk Hu Hid Hrun. unfold request_evidence in Hrun. apply bind_Ok in Hrun as (q & w1 & (-> & Hq & _)%open_request_Ok & Hrun).
  apply bind_Ok in Hrun as (it & w1 & Hit & Hrun). unfold lift in Hit. injection Hit as Hit%evidence_request_validate_Ok <-.
  apply bind_Ok in Hrun as (c & w1 & Hc & Hrun). unfold ensure_current_epoch in Hc. apply bind_Ok in Hc as (c0 & w2 & Hc0 & Hc).
  unfold inquiry_read, reads in Hc0. injection Hc0 as _ <-. case_bool_decide; [|by inv_run]. injection Hc as _ <-.
  destruct (require_request_Ok _ _ _ Hq) as (digest & Hrow & _). pose proof (Hk _ _ Hrow) as Hkey. cbn in Hkey.
  unfold inquiry_settle in Hrun. apply bind_Ok in Hrun as (o & w1 & (d & Hd & ->)%inquiry_write_Ok & _). subst it.
  unfold create_evidence_request in Hd. do 3 apply rbind_Ok in Hd as (? & _ & Hd). cbn [ie_investigation_id ie_idempotency_key] in Hd.
  rewrite Hkey, Hu in Hd. cbn [one_or_none rbind] in Hd. apply rbind_Ok in Hd as (restored & ->%evidence_request_validate_Ok & Hd).
  apply rbind_Ok in Hd as (? & Heq%guard_Ok & _). propify. apply Hid. by rewrite Heq.
Qed.
End flow.
