(* ===== verification/InvestigationApi.v ===== *)
(** * The investigation endpoints of the operations API, [operations/investigations.py]

    Each endpoint authenticates its caller, finds the case (through the
    investigation, where the path names one), requires a permission on that case and
    then calls the service; [authority] are the tables the access policy reads. *)

From stdpp Require Import base gmap strings list relations.
From Stdlib Require Import ZArith Lia.
From S2P Require Import Prelude Python Uuid Store Domain Policy Authority Access Lifecycle Obligations Persistence Financial.
From S2P Require Import PolicyPlane Transactions Governance Commitment Machine Kernel KernelClient Investigation InvestigationService.
From S2P Require Import InvestigationSafety InvestigationFlow.

Open Scope Z_scope.
Open Scope orch_scope.

(** ** Bodies *)

Record InvestigationRequestBody := mkInvestigationRequestBody {
  rb_trigger : InvestigationTriggerType;
  rb_reason : string;
  rb_requested_question : string;
  rb_evidence_refs : list string;
  rb_allowed_evidence_refs : list string;
  rb_constraints : InvestigationConstraints;
  rb_source_type : string;
  rb_reconciliation_ref : option string;
  rb_idempotency_key : string;
}.

Record InvestigationEvidenceRequestBody := mkInvestigationEvidenceRequestBody {
  eb_source_kind : string;
  eb_requested_question : string;
  eb_allowed_evidence_refs : list string;
  eb_idempotency_key : string;
}.

Record InvestigationEvidenceBody := mkInvestigationEvidenceBody {
  vb_evidence_request_id : option uuid;
  vb_evidence_ref : string;
  vb_source_kind : string;
  vb_source : string;
  vb_owner : string;
  vb_source_ref : option string;
  vb_source_version : option string;
  vb_digest : option string;
  vb_idempotency_key : string;
}.

Record ReopenAssessmentBody := mkReopenAssessmentBody {
  sb_investigation_id : uuid;
  sb_disposition : ReopenAssessmentDisposition;
  sb_reason : string;
  sb_evidence_refs : list string;
  sb_proposal_ref : option uuid;
  sb_idempotency_key : string;
}.

Record ReopenCaseBody := mkReopenCaseBody {
  ob_assessment_id : uuid;
  ob_idempotency_key : string;
}.

(** ** Replies *)

(** [except (InvestigationConflict, InvestigationBudgetExceeded, ValueError)] *)
Definition inquiry_refusal (c : exn_class) : bool :=
  bool_decide (c = InvestigationConflict) || bool_decide (c = InvestigationBudgetExceeded) || is_ValueError c.

(** The handlers of [run_investigation] in their order. *)
Definition answer_run {A} (r : result A) : reply A :=
  match r with
  | Err e =>
      if bool_decide (exn_cls e = InvestigationNotFound) then HTTPError 404 "investigation not found" else
      if bool_decide (exn_cls e = InvestigationClientError) then HTTPError 503 "investigation advisory unavailable" else
      answer inquiry_refusal 409 r
  | Ok _ => answer inquiry_refusal 409 r
  end.

(** The handlers of [authorize_case_reopen]. *)
Definition answer_reopen {A} (r : result A) : reply A :=
  match r with
  | Err e =>
      if bool_decide (exn_cls e = InvestigationNotFound) then HTTPError 404 "reopen assessment not found" else
      answer (fun c => inquiry_refusal c || bool_decide (c = ConcurrencyConflict)) 409 r
  | Ok _ => answer (fun _ => false) 500 r
  end.

Section endpoints.
Context `{Platform} `{TokenLibrary} (settings : AuthSettings) (authority : AuthorityDb).
Context (client : list InvestigationRequestEnvelope -> InvestigationRequestEnvelope -> result InvestigationProposal).
Context (verifier : uuid -> Z -> string -> result unit).

Definition inquiry_endpoint (A : Type) : Type := InvestigationWorld -> reply A * InvestigationWorld.

(** The part of an endpoint that only reads, then the call of the service. *)
Definition inquiry_then {A B} (r : InvestigationWorld -> reply A) (k : A -> inquiry_endpoint B) : inquiry_endpoint B := fun w =>
  match r w with
  | Reply a => k a w
  | HTTPError c d => (HTTPError c d, w)
  | Uncaught e => (Uncaught e, w)
  end.
Definition inquiry_answer {A} (f : result A -> reply A) (m : M InvestigationWorld A) : inquiry_endpoint A := fun w =>
  let '(r, w') := m w in (f r, w').

(** [runtime.store.get_case] with its 404 *)
Definition find_case (w : InvestigationWorld) (case_id : uuid) : reply AdministrativeCase :=
  let? found := uncaught (get_case (nv_exec (vw_db w)) case_id) in
  match found with Some c => Reply c | None => HTTPError 404 "case not found" end.

(** [repository.get_request] with its 404 *)
Definition find_inquiry (w : InvestigationWorld) (investigation_id : uuid) : reply InvestigationRequest :=
  let? found := uncaught (get_request (vw_db w) investigation_id) in
  match found with Some q => Reply q | None => HTTPError 404 "investigation not found" end.

(** [runtime.actor], [runtime.store.get_case], [runtime.require(actor, permission, case=case)] *)
Definition on_case (case_id : uuid) (permission : AdministrativePermission) (request : Request) (clock : nat -> instant)
    (w : InvestigationWorld) : reply AuthenticatedPrincipal :=
  let? actor := authenticate settings authority request (clock 0%nat) in
  let? case := find_case w case_id in
  let? _ := authorize authority actor permission (Some case) None (clock 1%nat) in
  Reply actor.

(** The same through an investigation. *)
Definition on_inquiry (investigation_id : uuid) (permission : AdministrativePermission) (request : Request)
    (clock : nat -> instant) (w : InvestigationWorld) : reply AuthenticatedPrincipal :=
  let? actor := authenticate settings authority request (clock 0%nat) in
  let? q := find_inquiry w investigation_id in
  let? case := find_case w (iq_case_id q) in
  let? _ := authorize authority actor permission (Some case) None (clock 1%nat) in
  Reply actor.

Definition later (clock : nat -> instant) (n : nat) : instant := clock (S (S n)).
Definition principal_of (actor : AuthenticatedPrincipal) : string := p_principal_id (ap_principal actor).

(** ** Endpoints *)

Definition request_case_investigation (case_id : uuid) (b : InvestigationRequestBody) (trigger_id id : uuid) (request : Request)
    (clock : nat -> instant) : inquiry_endpoint InvestigationRequest :=
  inquiry_then (on_case case_id INVESTIGATION_REQUEST request clock) (fun actor =>
    inquiry_answer (answer inquiry_refusal 409)
      (request_investigation verifier case_id
         (mkInvestigationCall (rb_trigger b) (rb_reason b) (rb_requested_question b) (principal_of actor) (rb_idempotency_key b)
            (rb_evidence_refs b) (rb_allowed_evidence_refs b) (Some (rb_constraints b)) (rb_source_type b)
            (rb_reconciliation_ref b)) trigger_id id (later clock))).

Definition list_case_investigations (case_id : uuid) (request : Request) (clock : nat -> instant) (w : InvestigationWorld)
  : reply (list InvestigationRequest) :=
  let? _ := on_case case_id INVESTIGATION_READ request clock w in
  uncaught (list_requests (vw_db w) case_id).

Definition show_investigation (investigation_id : uuid) (request : Request) (clock : nat -> instant) (w : InvestigationWorld)
  : reply InvestigationDetail :=
  let? _ := on_inquiry investigation_id INVESTIGATION_READ request clock w in
  uncaught (investigation_detail (vw_db w) investigation_id).

Definition run_investigation_endpoint (investigation_id : uuid) (request : Request) (clock : nat -> instant)
  : inquiry_endpoint InvestigationProposal :=
  inquiry_then (on_inquiry investigation_id INVESTIGATION_REVIEW request clock) (fun _ =>
    inquiry_answer answer_run (run_investigation client investigation_id (later clock))).

Definition record_investigation_proposal (investigation_id : uuid) (p : InvestigationProposal) (request : Request)
    (clock : nat -> instant) : inquiry_endpoint InvestigationProposal :=
  inquiry_then (on_inquiry investigation_id INVESTIGATION_REVIEW request clock) (fun _ =>
    if bool_decide (io_investigation_id p <> investigation_id)
    then fun w => (HTTPError 409 "proposal investigation identity mismatch", w)
    else inquiry_answer (answer inquiry_refusal 409) (submit_proposal p (later clock))).

Definition request_investigation_evidence (investigation_id : uuid) (b : InvestigationEvidenceRequestBody) (id : uuid)
    (request : Request) (clock : nat -> instant) : inquiry_endpoint InvestigationEvidenceRequest :=
  inquiry_then (on_inquiry investigation_id INVESTIGATION_REVIEW request clock) (fun actor =>
    inquiry_answer (answer inquiry_refusal 409)
      (request_evidence investigation_id (eb_source_kind b) (eb_requested_question b) (principal_of actor) (eb_idempotency_key b)
         (eb_allowed_evidence_refs b) id (later clock))).

Definition add_evidence_endpoint (investigation_id : uuid) (b : InvestigationEvidenceBody) (id : uuid) (request : Request)
    (clock : nat -> instant) : inquiry_endpoint InvestigationEvidence :=
  inquiry_then (on_inquiry investigation_id INVESTIGATION_REVIEW request clock) (fun actor =>
    inquiry_answer (answer inquiry_refusal 409)
      (supply_evidence investigation_id
         (mkEvidenceCall (vb_evidence_request_id b) (vb_evidence_ref b) (vb_source_kind b) (vb_source b) (vb_owner b)
            (vb_source_ref b) (vb_source_version b) (vb_digest b) (principal_of actor) (vb_idempotency_key b)) id (later clock))).

(** The call of the service both assessment endpoints make. *)
Definition human_assessment (investigation_id : uuid) (b : ReopenAssessmentBody) (actor : AuthenticatedPrincipal) (id : uuid)
    (clock : nat -> instant) : inquiry_endpoint ReopenAssessment :=
  inquiry_answer (answer inquiry_refusal 409)
    (assess_reopen investigation_id
       (mkAssessmentCall (sb_disposition b) (sb_reason b) (sb_evidence_refs b) (sb_proposal_ref b) RK_HUMAN (principal_of actor)
          (sb_idempotency_key b)) id (later clock)).

Definition assess_investigation_reopen (investigation_id : uuid) (b : ReopenAssessmentBody) (id : uuid) (request : Request)
    (clock : nat -> instant) : inquiry_endpoint ReopenAssessment :=
  inquiry_then (on_inquiry investigation_id INVESTIGATION_REVIEW request clock) (fun actor =>
    if bool_decide (sb_investigation_id b <> investigation_id)
    then fun w => (HTTPError 409 "assessment investigation identity mismatch", w)
    else human_assessment investigation_id b actor id clock).

(** The investigation of this case, or 404. *)
Definition inquiry_of_case (case_id investigation_id : uuid) (w : InvestigationWorld) : reply InvestigationRequest :=
  let? found := uncaught (get_request (vw_db w) investigation_id) in
  match found with
  | Some q => if bool_decide (iq_case_id q <> case_id) then HTTPError 404 "investigation not found for case" else Reply q
  | None => HTTPError 404 "investigation not found for case"
  end.

Definition assess_case_reopen (case_id : uuid) (b : ReopenAssessmentBody) (id : uuid) (request : Request)
    (clock : nat -> instant) : inquiry_endpoint ReopenAssessment :=
  inquiry_then (on_case case_id INVESTIGATION_REVIEW request clock) (fun actor =>
  inquiry_then (inquiry_of_case case_id (sb_investigation_id b)) (fun _ =>
    human_assessment (sb_investigation_id b) b actor id clock)).

Definition authorize_case_reopen (case_id : uuid) (b : ReopenCaseBody) (request : Request) (clock : nat -> instant)
  : inquiry_endpoint (ReopenRecord * AdministrativeCase * bool) :=
  inquiry_then (on_case case_id REOPEN_AUTHORIZE request clock) (fun actor =>
    inquiry_answer answer_reopen
      (authorize_reopen case_id (ob_assessment_id b) (principal_of actor) (ob_idempotency_key b) (later clock))).

Definition case_reopen_history (case_id : uuid) (request : Request) (clock : nat -> instant) (w : InvestigationWorld)
  : reply (list ReopenRecord) :=
  let? _ := on_case case_id INVESTIGATION_READ request clock w in
  uncaught (list_reopen_records (vw_db w) case_id).

(** ** Correctness *)

Inductive inquiry_request :=
  | ReqInquire (case_id : uuid) (b : InvestigationRequestBody) (trigger_id id : uuid)
  | ReqRun (investigation_id : uuid)
  | ReqPropose (investigation_id : uuid) (p : InvestigationProposal)
  | ReqEvidence (investigation_id : uuid) (b : InvestigationEvidenceRequestBody) (id : uuid)
  | ReqAdd (investigation_id : uuid) (b : InvestigationEvidenceBody) (id : uuid)
  | ReqAssess (investigation_id : uuid) (b : ReopenAssessmentBody) (id : uuid)
  | ReqAssessCase (case_id : uuid) (b : ReopenAssessmentBody) (id : uuid)
  | ReqReopen (case_id : uuid) (b : ReopenCaseBody).

Definition after_request (c : inquiry_request) (request : Request) (clock : nat -> instant) (w : InvestigationWorld)
  : InvestigationWorld :=
  match c with
  | ReqInquire case_id b trigger_id id => snd (request_case_investigation case_id b trigger_id id request clock w)
  | ReqRun id => snd (run_investigation_endpoint id request clock w)
  | ReqPropose id p => snd (record_investigation_proposal id p request clock w)
  | ReqEvidence id b eid => snd (request_investigation_evidence id b eid request clock w)
  | ReqAdd id b eid => snd (add_evidence_endpoint id b eid request clock w)
  | ReqAssess id b aid => snd (assess_investigation_reopen id b aid request clock w)
  | ReqAssessCase case_id b aid => snd (assess_case_reopen case_id b aid request clock w)
  | ReqReopen case_id b => snd (authorize_case_reopen case_id b request clock w)
  end.

Definition permission_for (c : inquiry_request) : AdministrativePermission :=
  match c with
  | ReqInquire _ _ _ _ => INVESTIGATION_REQUEST
  | ReqReopen _ _ => REOPEN_AUTHORIZE
  | _ => INVESTIGATION_REVIEW
  end.

(** The case a request is about. *)
Definition about_case (c : inquiry_request) (w : InvestigationWorld) (case : AdministrativeCase) : Prop :=
  match c with
  | ReqInquire case_id _ _ _ | ReqAssessCase case_id _ _ | ReqReopen case_id _ => get_case (nv_exec (vw_db w)) case_id = Ok (Some case)
  | ReqRun id | ReqPropose id _ | ReqEvidence id _ _ | ReqAdd id _ _ | ReqAssess id _ _ =>
      exists q, get_request (vw_db w) id = Ok (Some q) /\ get_case (nv_exec (vw_db w)) (iq_case_id q) = Ok (Some case)
  end.

Lemma inquiry_then_changes {A B} (r : InvestigationWorld -> reply A) (k : A -> inquiry_endpoint B) w :
  snd (inquiry_then r k w) <> w -> exists a, r w = Reply a.
Proof. unfold inquiry_then. destruct (r w); cbn; naive_solver. Qed.

Lemma find_case_Reply w case_id c : find_case w case_id = Reply c -> get_case (nv_exec (vw_db w)) case_id = Ok (Some c).
Proof.
  unfold find_case. intros (found & Hf%answer_Reply & Hc)%reply_bind_Reply. destruct found; [|done]. by injection Hc as ->.
Qed.

Lemma find_inquiry_Reply w id q : find_inquiry w id = Reply q -> get_request (vw_db w) id = Ok (Some q).
Proof.
  unfold find_inquiry. intros (found & Hf%answer_Reply & Hc)%reply_bind_Reply. destruct found; [|done]. by injection Hc as ->.
Qed.

Lemma on_case_Reply case_id permission request clock w actor :
  on_case case_id permission request clock w = Reply actor ->
  exists case, authenticate settings authority request (clock 0%nat) = Reply actor /\
    get_case (nv_exec (vw_db w)) case_id = Ok (Some case) /\
    permitted authority (principal_of actor) permission (Some case) None (clock 1%nat).
Proof.
  unfold on_case. intros (a & Ha & Hr)%reply_bind_Reply. apply reply_bind_Reply in Hr as (case & Hc%find_case_Reply & Hr).
  apply reply_bind_Reply in Hr as (u & Hu%authorize_permitted & Hr). injection Hr as ->. eauto.
Qed.

Lemma on_inquiry_Reply id permission request clock w actor :
  on_inquiry id permission request clock w = Reply actor ->
  exists case q, authenticate settings authority request (clock 0%nat) = Reply actor /\
    get_request (vw_db w) id = Ok (Some q) /\ get_case (nv_exec (vw_db w)) (iq_case_id q) = Ok (Some case) /\
    permitted authority (principal_of actor) permission (Some case) None (clock 1%nat).
Proof.
  unfold on_inquiry. intros (a & Ha & Hr)%reply_bind_Reply. apply reply_bind_Reply in Hr as (q & Hq%find_inquiry_Reply & Hr).
  apply reply_bind_Reply in Hr as (case & Hc%find_case_Reply & Hr). apply reply_bind_Reply in Hr as (u & Hu%authorize_permitted & Hr).
  injection Hr as ->. eauto 10.
Qed.

(** A request after which anything differs, what the client was asked included, was made by
    an authenticated principal with the permission the request needs on the very case it is
    about. *)
Theorem investigation_endpoints_are_guarded c request clock w :
  after_request c request clock w <> w ->
  exists actor case, authenticate settings authority request (clock 0%nat) = Reply actor /\ about_case c w case /\
    permitted authority (principal_of actor) (permission_for c) (Some case) None (clock 1%nat).
Proof.
  intros Hne. destruct c; cbn [after_request] in Hne; apply inquiry_then_changes in Hne as [actor Ha];
    first [apply on_case_Reply in Ha as (case & Hauth & Hc & Hp)|apply on_inquiry_Reply in Ha as (case & q & Hauth & Hq & Hc & Hp)];
    exists actor, case; cbn [about_case permission_for]; eauto 10.
Qed.
End endpoints.
