(* ===== verification/OffboardingSafety.v ===== *)
(** * The offboarding engine obeys the executor's laws

    The hooks of the offboarding engine discharge the interfaces the executor is
    verified against, so that everything proved of a run holds of its runs too;
    and what its planning does to the authority of the departing principal. *)

From stdpp Require Import base gmap strings list relations.
From Stdlib Require Import ZArith Lia.
From S2P Require Import Prelude Python CPython Uuid Store Domain Policy Authority AuthorityLifecycle.
From S2P Require Import Lifecycle Obligations Completion Verification Transfer Derivation PolicyPlane.
From S2P Require Import Financial Persistence Transactions Governance Machine Execution.
From S2P Require Import ExecutionSafety CaseFlow OnboardingEngine OffboardingEngine.

Open Scope Z_scope.
Open Scope orch_scope.

Section laws.
Context `{Hplat : Platform} {P : Type} `{Hprov : EffectProvider P} {Hcontract : ProviderContract P}
  (clock : nat -> instant) (enforced : bool)
  (parse_definition : pydict -> result OffboardingPolicyDefinition).

(** ** Steps on the authority, lifecycle and transfer tables *)

#[export] Instance respects_on_authority {A} (f : World P -> result (A * AuthorityDb)) :
  Respects safe (on_authority f).
Proof.
  apply respects_transact. intros w a w' Hrun. inv_ok. destruct v as [a1 x]. inv_ok. simplify_eq.
  by apply quiet_move.
Qed.

#[export] Instance respects_on_lifecycle {A} (f : World P -> result (A * (AuthorityDb * EventDb))) :
  Respects safe (on_lifecycle f).
Proof.
  apply respects_transact. intros w a w' Hrun. inv_ok. destruct v as [a1 x]. inv_ok. simplify_eq.
  by apply quiet_move.
Qed.

#[export] Instance respects_on_transfers {A} (f : World P -> result (A * TransferDb)) :
  Respects safe (on_transfers f).
Proof.
  apply respects_transact. intros w a w' Hrun. inv_ok. destruct v as [a1 x]. inv_ok. simplify_eq.
  by apply quiet_move.
Qed.

#[export] Instance respects_prepare c o b : Respects safe (prepare (P := P) c o b).
Proof.
  intros w r w'. unfold prepare. destruct (provider_prepare _ _ _ _) as [x p]. intros [= <- <-].
  assert (Hm : safe_move w (set_provider w p (Prepared (ob_obligation_id o)))).
  { by apply (quiet_calls _ _ [Prepared (ob_obligation_id o)]). }
  destruct x; [done|by apply move_break].
Qed.

#[export] Instance keeps_on_authority {A} (f : World P -> result (A * AuthorityDb)) :
  Respects keeps_cases (on_authority f).
Proof.
  apply respects_transact. intros w a w' Hrun. inv_ok. destruct v as [a1 x]. inv_ok. by simplify_eq.
Qed.

#[export] Instance keeps_on_lifecycle {A} (f : World P -> result (A * (AuthorityDb * EventDb))) :
  Respects keeps_cases (on_lifecycle f).
Proof.
  apply respects_transact. intros w a w' Hrun. inv_ok. destruct v as [a1 x]. inv_ok. by simplify_eq.
Qed.

#[export] Instance keeps_on_transfers {A} (f : World P -> result (A * TransferDb)) :
  Respects keeps_cases (on_transfers f).
Proof.
  apply respects_transact. intros w a w' Hrun. inv_ok. destruct v as [a1 x]. inv_ok. by simplify_eq.
Qed.

#[export] Instance keeps_prepare c o b : Respects keeps_cases (prepare (P := P) c o b).
Proof.
  intros w r w'. unfold prepare. destruct (provider_prepare _ _ _ _) as [x p]. intros [= <- <-].
  by destruct x.
Qed.

(** ** The loops *)

#[export] Instance respects_fulfill c s transfers phase :
  Respects safe (fulfill_domain_state (P := P) clock c s transfers phase).
Proof.
  unfold fulfill_domain_state. destruct (authoritative_effective_time c) as [t|]; [|respect].
  induction (os_obligations s) as [|o rest IH]; cbn [fulfill_obligations]; [respect|].
  apply respects_bind; [|intros; exact IH].
  unfold fulfill_obligation, apply_domain_obligation, transfer_role, successor_still_qualifies,
    record_domain_fulfillment. respect.
Qed.

#[export] Instance keeps_fulfill c s transfers phase :
  Respects keeps_cases (fulfill_domain_state (P := P) clock c s transfers phase).
Proof.
  unfold fulfill_domain_state. destruct (authoritative_effective_time c) as [t|]; [|respect].
  induction (os_obligations s) as [|o rest IH]; cbn [fulfill_obligations]; [respect|].
  apply respects_bind; [|intros; exact IH].
  unfold fulfill_obligation, apply_domain_obligation, transfer_role, successor_still_qualifies,
    record_domain_fulfillment. respect.
Qed.

#[export] Instance respects_plan_externals c satisfaction basis items :
  Respects safe (plan_externals (P := P) clock c satisfaction basis items).
Proof.
  induction items as [|o rest IH]; cbn [plan_externals]; [respect|]. apply respects_bind; [|intros; exact IH].
  unfold plan_external. respect.
Qed.

#[export] Instance keeps_plan_externals c satisfaction basis items :
  Respects keeps_cases (plan_externals (P := P) clock c satisfaction basis items).
Proof.
  induction items as [|o rest IH]; cbn [plan_externals]; [respect|]. apply respects_bind; [|intros; exact IH].
  unfold plan_external. respect.
Qed.

Local Abbreviation offboarding_hooks := (offboarding_hooks (P := P) clock enforced parse_definition).
Local Abbreviation engine := (offboarding_engine (P := P) clock enforced parse_definition).

#[export] Instance offboarding_hooks_lawful : LawfulHooks offboarding_hooks.
Proof.
  split; cbn; intros.
  - unfold plan_offboarding_effects, offboarding_authority, offboarding_obligations, revalidate_current.
    respect.
  - unfold validate_onboarding_governance, invalid_governance, revalidate_current. respect.
  - unfold onboarding_payload, ret, gets in *. case_bool_decide; by simplify_eq.
  - unfold assess_offboarding_completion. respect.
  - unfold block_offboarding_completion, block_completion. respect.
Qed.

#[export] Instance offboarding_engine_lawful : LawfulOwner engine.
Proof.
  split; [typeclasses eauto|..]; intros c es os ls; cbn.
  - apply (drive_dispatch_respects clock offboarding_hooks).
  - unfold verify_offboarding.
    apply respects_bind; [apply (verify_all_respects offboarding_hooks)|]. respect.
Qed.

Lemma reopened_stores c (w w' : World P) reason event payload c' :
  stored w c ->
  bind (transition clock (require_reopen c reason)) (fun reopened =>
    bind (persist_case_transition c reopened event payload) (fun _ => ret reopened)) w = (Ok c', w') ->
  stored w' c' /\ c_status c' <> COMPLETED.
Proof.
  intros Hst Hrun. apply bind_Ok in Hrun as (c1 & w1 & Htr & Hrun).
  apply bind_Ok in Hrun as (u & w2 & Hp & Hrun). injection Hrun as <- <-. split.
  - eapply move_stores; [|exact Hst|exact Htr|exact Hp]. intros now c2 Hnow.
    unfold require_reopen in Hnow. inv_ok. by subst.
  - apply transition_Ok in Htr as [[now Hnow] _]. unfold require_reopen in Hnow. inv_ok. by subst.
Qed.

#[export] Instance offboarding_case_laws : CaseLaws engine.
Proof.
  split.
  - intros c. cbn. unfold plan_offboarding_effects, offboarding_authority, offboarding_obligations,
      revalidate_current. respect.
  - intros c. cbn. unfold validate_onboarding_governance, invalid_governance, revalidate_current. respect.
  - intros. apply keeps_drive_loop. apply offboarding_hooks_lawful.
  - intros. cbn. unfold verify_offboarding. apply respects_bind; [apply keeps_verify_loop|]. respect.
  - intros. cbn. unfold assess_offboarding_completion. respect.
  - intros c a w c' w' Hst Hrun. apply bind_Ok in Hrun as (s & w1 & Hs & Hrun).
    unfold reads in Hs. injection Hs as _ <-. cbv zeta in Hrun. destruct (existsb _ _).
    + by eapply reopened_stores.
    + pose proof (onboarding_case_laws (P := P) clock enforced) as Hlaws. by eapply Hlaws.
Qed.

(** ** Completion *)

Lemma verify_offboarding_verified c es os ls (w w' : World P) :
  verify_offboarding clock enforced parse_definition c es os ls w = (Ok verify_verified, w') ->
  exists w1, verify_all offboarding_hooks c es os ls w = (Ok verify_verified, w1) /\ safe_move w1 w'.
Proof.
  intros Hrun. apply bind_Ok in Hrun as (v & w1 & Hv & Hrun). exists w1.
  assert (Hmove : safe_move w1 w').
  { refine (safe_step _ _ _ _ Hrun). destruct v, os; respect. }
  split; [|done]. destruct v; [injection Hrun as H _; discriminate H..|]. done.
Qed.

Lemma offboarding_assessed c es os ls outcomes (w w' : World P) a :
  assess_phase enforced engine c es os ls outcomes w = (Ok a, w') -> ca_satisfied a = true ->
  exists realizations,
    list_realizations (w_exec w) (c_case_id c) (Some (c_authority_epoch c)) = Ok realizations /\
    match os with
    | Some s => exists fulfillments,
        list_domain_state_fulfillments (w_obligations w) (os_case_id s) (os_authority_epoch s) = Ok fulfillments /\
        ca_satisfied (assess_administrative_completion s es outcomes (Some realizations) (Some ls)
                        (Some fulfillments)) = true
    | None => enforced = false /\ ca_satisfied (assess_legacy es outcomes realizations) = true
    end.
Proof.
  intros Hrun Hsat. apply bind_Ok in Hrun as (rs & w1 & Hrs & Hrun). unfold reads in Hrs.
  injection Hrs as Hrs <-. exists rs. split; [done|]. destruct os as [s|].
  - apply bind_Ok in Hrun as (fs & w2 & Hfs & Hrun). unfold reads in Hfs. injection Hfs as Hfs <-.
    exists fs. split; [done|]. by injection Hrun as <- _.
  - destruct enforced; [discriminate Hrun|]. unfold lift in Hrun. by injection Hrun as <- _.
Qed.

(** A departure is completed only on proof: every external effect of the epoch
    has a confirmed outcome resting on a verified realization, and the completion
    assessment over outcomes, realizations and the recorded fulfillments of the
    Administrative obligations, role transfers included, is satisfied. *)
Theorem offboarding_completion_rests_on_proof (w w' : World P) c c' :
  stored w c -> chain_ok (w_exec w) -> not_executable (c_status c) = false ->
  run clock enforced engine (c_case_id c) w = (Ok c', w') -> c_status c' = COMPLETED ->
  stored w' c' /\
  exists es os ls (w1 w2 : World P) outcomes realizations,
    work_of w1 c' es os ls /\ advance (w_exec w1) (w_exec w') /\
    (forall e, e ∈ es -> exists id o, x_outcomes (w_exec w') !! id = Some o /\
       co_effect_id o = ef_effect_id e /\ co_case_id o = c_case_id c' /\
       co_authority_epoch o = c_authority_epoch c' /\ outcome_backed (w_exec w') o) /\
    list_outcomes (w_exec w2) (c_case_id c') (Some (c_authority_epoch c')) = Ok outcomes /\
    list_realizations (w_exec w2) (c_case_id c') (Some (c_authority_epoch c')) = Ok realizations /\
    match os with
    | Some s => exists fulfillments,
        list_domain_state_fulfillments (w_obligations w2) (os_case_id s) (os_authority_epoch s) = Ok fulfillments /\
        ca_satisfied (assess_administrative_completion s es outcomes (Some realizations) (Some ls)
                        (Some fulfillments)) = true
    | None => enforced = false /\ ca_satisfied (assess_legacy es outcomes realizations) = true
    end.
Proof.
  intros Hst Hck Hne Hrun Hcomp.
  destruct (run_spec clock enforced engine _ _ _ _ Hst Hrun) as [Hst' [[Hx _]|[_ Hc]]]; [congruence|].
  split; [done|]. destruct (Hc Hcomp) as (c1 & es & os & ls & w1 & w2 & w3 & Hwork & Hid & Hep & Hm1 & Hm2 & Hgr & Hm3).
  destruct (Hm1 Hck) as (Hck1 & _ & _). destruct (Hm2 Hck1) as (Hck2 & Ha2 & _).
  destruct Hgr as (w4 & w5 & outcomes & a & Hv & _ & Ho & Has & Hsat & _).
  apply verify_offboarding_verified in Hv as (w6 & Hv & Hm6).
  pose proof (verify_all_respects offboarding_hooks c1 es os ls _ _ _ Hv Hck2) as (Hck6 & Ha6 & _).
  destruct (Hm6 Hck6) as (Hck3 & Ha3 & _). destruct (Hm3 Hck3) as (Hck' & Ha' & _).
  destruct (offboarding_assessed _ _ _ _ _ _ _ _ Has Hsat) as (rs & Hrs & Hcompl).
  destruct (verify_loop_confirms offboarding_hooks c1 os ls es false _ _ Hck2 Hv) as [_ Hconf].
  exists es, os, ls, w1, w4, outcomes, rs. rewrite <- Hid, <- Hep.
  assert (Hadv : advance (w_exec w6) (w_exec w')) by (by eapply advance_trans).
  split_and!; try done; [by eapply advance_trans, advance_trans|].
  intros e He. destruct (Hconf e He) as (i & o & Hl & H1 & H2 & H3). exists i, o.
  assert (x_outcomes (w_exec w') !! i = Some o) as Hl' by by eapply lookup_weaken, adv_outcomes.
  split_and!; try done. by eapply (ck_backed _ Hck').
Qed.
End laws.

(** ** Before the effective time *)

Section waiting.
Context `{Hplat : Platform} {P : Type} `{Hprov : EffectProvider P}
  (clock : nat -> instant) (enforced : bool)
  (parse_definition : pydict -> result OffboardingPolicyDefinition).

Lemma require_reads (w : World P) c :
  get_case (w_exec w) (c_case_id c) = Ok (Some c) -> require_case (c_case_id c) w = (Ok c, w).
Proof. unfold require_case, bind, reads. by intros ->. Qed.

(** What carries authority, obligations or effects is as it was. *)
Definition nothing_done (w w' : World P) : Prop :=
  w_calls w' = w_calls w /\ same_tables (w_exec w) (w_exec w') /\ w_authority w' = w_authority w /\
  w_obligations w' = w_obligations w /\ w_transfers w' = w_transfers w /\
  w_lifecycle w' = w_lifecycle w /\ w_provider w' = w_provider w.

(** The persisting of a transition the row admits. *)
Lemma persist_runs (w : World P) c c' event payload :
  stored w c -> copies c c' ->
  exists w', persist_case_transition c c' event payload w = (Ok tt, w') /\ stored w' c' /\ nothing_done w w'.
Proof.
  intros [q Hq] [Hid Hcr]. unfold persist_case_transition, on_exec, transact, update_case.
  rewrite Hid, Hq. cbn. rewrite bool_decide_eq_false_2 by (intros Hn; by apply Hn). cbn.
  eexists. split; [done|]. split; [|by repeat split]. exists q. cbn. rewrite Hid, lookup_insert_eq.
  do 2 f_equal. unfold copy_case_into_row. cbn. f_equal. destruct c'; cbn in *. congruence.
Qed.

Lemma await_runs (w : World P) c t :
  stored w c -> c_case_kind c = "employee-offboarding" -> c_status c = AUTHORIZED ->
  authoritative_effective_time c = Some t -> clock (w_ticks w) < t ->
  exists c' w', await_effective_time clock c t w = (Ok c', w') /\ stored w' c' /\ c_status c' = WAITING /\
    c_authority_epoch c' = c_authority_epoch c /\ nothing_done w w'.
Proof.
  intros Hst Hkind Hs Htime Hnow. unfold await_effective_time, bind, utcnow, transition, lift. cbn.
  unfold begin_waiting_for_effective_time. rewrite Hkind, Hs, Htime.
  rewrite !bool_decide_eq_false_2 by (intros Hn; by apply Hn). cbn [guard rbind].
  destruct (Z.leb_spec t (clock (w_ticks w))) as [|_]; [lia|]. cbn [guard rbind].
  match goal with |- context [persist_case_transition c ?c1 ?ev ?pl ?w1] =>
    destruct (persist_runs w1 c c1 ev pl) as (w' & Hp & Hst' & Hno); [done|by split|] end.
  rewrite Hp. eexists _, w'. split; [done|]. split; [done|]. split; [done|]. by split.
Qed.

(** A departure does nothing before its time: run while the authoritative
    effective time is ahead, the engine returns, the case is stored as waiting
    with its authority epoch unchanged, and no provider call is made, no effect,
    obligation or transfer is recorded and nobody's authority changes. *)
Theorem nothing_happens_before_effective_time (w : World P) c t :
  stored w c -> get_case (w_exec w) (c_case_id c) = Ok (Some c) ->
  c_case_kind c = "employee-offboarding" -> c_status c = AUTHORIZED \/ c_status c = WAITING ->
  authoritative_effective_time c = Some t ->
  clock (w_ticks w) < t -> clock (S (w_ticks w)) < t ->
  exists c' w', offboarding_run clock enforced parse_definition (c_case_id c) w = (Ok c', w') /\
    stored w' c' /\ c_status c' = WAITING /\ c_authority_epoch c' = c_authority_epoch c /\
    nothing_done w w'.
Proof.
  intros Hst Hget Hkind Hstatus Htime Hnow1 Hnow2. unfold offboarding_run, offboarding_run_of, bind at 1.
  rewrite (require_reads w c Hget), Hkind, bool_decide_eq_false_2 by (intros Hn; by apply Hn).
  rewrite Htime. unfold bind, utcnow. destruct Hstatus as [Hs|Hs]; rewrite Hs.
  - rewrite bool_decide_eq_true_2 by done. destruct (Z.ltb_spec (clock (w_ticks w)) t) as [_|]; [|lia].
    destruct (await_runs (set_ticks w (S (w_ticks w))) c t) as (c' & w' & Hrun & Hrest); [done..|].
    by exists c', w'.
  - rewrite bool_decide_eq_false_2, bool_decide_eq_true_2 by done.
    destruct (Z.ltb_spec (clock (w_ticks w)) t) as [_|]; [|lia]. eexists c, _. split; [done|]. by split_and!.
Qed.
End waiting.

(** ** What verification reads *)

Definition with_state (observation : RealityObservation) (state : pydict) : RealityObservation :=
  mkRealityObservation (ro_availability observation) (ro_presence observation) (ro_freshness observation)
    (ro_target_system observation) (ro_operation observation) (ro_subject_ref observation)
    (ro_provider_ref observation) state (ro_digest observation) (ro_observed_at observation)
    (ro_error_class observation) (ro_found observation).

Section reads.
Context `{Platform}.

(** Of the observed state, only [active] and [payload] are read. *)
Lemma verification_reads effect observation state facts expected :
  dict_get state "active" = dict_get (ro_state observation) "active" ->
  dict_get state "payload" = dict_get (ro_state observation) "payload" ->
  verify_onboarding_observation effect (with_state observation state) facts expected =
  verify_onboarding_observation effect observation facts expected.
Proof.
  intros Ha Hp. unfold verify_onboarding_observation. change (ro_state (with_state observation state)) with state.
  change (observation_refusal (with_state observation state)) with (observation_refusal observation).
  unfold compare_active, compare_payload, compare_employee. by rewrite Ha, Hp.
Qed.

(** The disabling of an identity and the revocation of its sessions are demanded
    by the derived postcondition and not verified: the verdict on such an effect
    is the same whatever the authoritative observation reports of [enabled] and
    [active_sessions]. *)
Theorem disabling_is_demanded_but_not_verified c facts gb t o effect observation facts' v :
  offboarding_effect_obligation c facts gb t = Ok o ->
  (t_operation t = "identity.disable" ->
     assoc "enabled" (ob_expected_postcondition o) = Some (VBool false)) /\
  (t_operation t = "sessions.revoke" ->
     assoc "active_sessions" (ob_expected_postcondition o) = Some (VInt 0)) /\
  verify_onboarding_observation effect
    (with_state observation (dict_set (ro_state observation) "enabled" v)) facts'
    (Some (ob_expected_postcondition o)) =
  verify_onboarding_observation effect observation facts' (Some (ob_expected_postcondition o)) /\
  verify_onboarding_observation effect
    (with_state observation (dict_set (ro_state observation) "active_sessions" v)) facts'
    (Some (ob_expected_postcondition o)) =
  verify_onboarding_observation effect observation facts' (Some (ob_expected_postcondition o)).
Proof.
  unfold offboarding_effect_obligation. intros Ho.
  split_and!; [intros Hop|intros Hop|apply verification_reads; by apply dict_get_set..];
    rewrite Hop in Ho; by injection Ho as <-.
Qed.
End reads.
