(* ===== verification/OffboardingRevocation.v ===== *)
(** * What offboarding revokes

    The planning of a departure carries out its Administrative part.  Whatever
    happens, even an exception, the authority tables only move by revocations;
    and the first planning that returns has ended, from the effective time on,
    every binding, role and delegation the departing principal had at that time,
    and deactivated the principal.  [discharged] says of one obligation that its
    demand is met in the authority tables. *)

From stdpp Require Import base gmap strings list relations.
From Stdlib Require Import ZArith Lia.
From S2P Require Import Prelude Python CPython Uuid Store Domain Policy Authority AuthorityLifecycle.
From S2P Require Import Lifecycle Obligations Completion Verification Transfer Derivation PolicyPlane.
From S2P Require Import Financial Persistence Transactions Governance Machine Execution.
From S2P Require Import ExecutionSafety CaseFlow OnboardingEngine OffboardingEngine OffboardingSafety.

Open Scope Z_scope.
Open Scope orch_scope.

(** ** Planning only revokes *)

Section revoking.
Context `{Hplat : Platform} {P : Type} `{Hprov : EffectProvider P}
  (clock : nat -> instant) (enforced : bool)
  (parse_definition : pydict -> result OffboardingPolicyDefinition).

Definition authority_of (w : World P) : AuthorityDb * EventDb := (w_authority w, w_lifecycle w).

Definition only_revokes (w w' : World P) : Prop := rtc revocation (authority_of w) (authority_of w').

Program Definition revoking : Motion (World P) :=
  {| moves := only_revokes; breaks := fun _ => only_revokes |}.
Next Obligation. intros w. constructor. Qed.
Next Obligation. intros w1 w2 w3 H12 H23. by eapply (transitivity (R := rtc revocation)), H23. Qed.
Next Obligation. done. Qed.
Next Obligation. intros e w1 w2 w3 H12 H23. by eapply (transitivity (R := rtc revocation)), H23. Qed.

Lemma untouched_revokes (w w' : World P) : authority_of w' = authority_of w -> only_revokes w w'.
Proof. unfold only_revokes. intros ->. constructor. Qed.

#[export] Instance revoking_utcnow : Respects revoking (utcnow (P := P) clock).
Proof. intros w r w' [= <- <-]. by apply untouched_revokes. Qed.

#[export] Instance revoking_on_exec {A} (f : World P -> result (A * ExecDb)) : Respects revoking (on_exec f).
Proof.
  apply respects_transact. intros w a w' Hrun. inv_ok. destruct v as [a1 x]. inv_ok. simplify_eq.
  by apply untouched_revokes.
Qed.

#[export] Instance revoking_on_obligations {A} (f : World P -> result (A * ObligationDb)) :
  Respects revoking (on_obligations f).
Proof.
  apply respects_transact. intros w a w' Hrun. inv_ok. destruct v as [a1 x]. inv_ok. simplify_eq.
  by apply untouched_revokes.
Qed.

#[export] Instance revoking_on_transfers {A} (f : World P -> result (A * TransferDb)) :
  Respects revoking (on_transfers f).
Proof.
  apply respects_transact. intros w a w' Hrun. inv_ok. destruct v as [a1 x]. inv_ok. simplify_eq.
  by apply untouched_revokes.
Qed.

#[export] Instance revoking_prepare c o b : Respects revoking (prepare (P := P) c o b).
Proof.
  intros w r w'. unfold prepare. destruct (provider_prepare _ _ _ _) as [x p]. intros [= <- <-].
  destruct x; by apply untouched_revokes.
Qed.

Lemma revoking_on_lifecycle {A} (f : World P -> result (A * (AuthorityDb * EventDb))) :
  (forall w a s, f w = Ok (a, s) -> revocation (authority_of w) s) -> Respects revoking (on_lifecycle f).
Proof.
  intros Hf. apply respects_transact. intros w a w' Hrun. inv_ok. destruct v as [a1 [db ev]]. inv_ok.
  simplify_eq. apply rtc_once. by eapply Hf.
Qed.

Local Ltac revoke := apply revoking_on_lifecycle; intros ? ? ? ?;
  first [by eapply revoke_binding | by eapply revoke_role | by eapply revoke_delegation
        | by eapply revoke_principal].

Lemma revoking_apply transfers o t :
  ob_required_operation o <> "role_assignment.transfer" ->
  Respects revoking (apply_domain_obligation (P := P) clock transfers o t).
Proof.
  intros Hop. unfold apply_domain_obligation. rewrite (bool_decide_eq_false_2 (_ = "role_assignment.transfer")) by done.
  repeat (case_bool_decide; [apply respects_bind; [respect|intros]; apply respects_bind; [revoke|respect]|]).
  respect.
Qed.

#[export] Instance revoking_fulfill_one c t transfers o :
  Respects revoking (fulfill_obligation (P := P) clock c t transfers false o).
Proof.
  unfold fulfill_obligation. case_bool_decide; [respect|]. apply respects_bind; [respect|].
  intros [f|]; [respect|]. case_bool_decide as Hop; cbn [Bool.eqb negb]; [respect|].
  apply respects_bind; [by apply revoking_apply|]. unfold record_domain_fulfillment. respect.
Qed.

Lemma revoking_fulfill_all c t transfers items :
  Respects revoking (fulfill_obligations (P := P) clock c t transfers false items).
Proof. induction items as [|o rest IH]; cbn [fulfill_obligations]; respect. Qed.

#[export] Instance revoking_fulfill c s transfers :
  Respects revoking (fulfill_domain_state (P := P) clock c s transfers false).
Proof.
  unfold fulfill_domain_state. destruct (authoritative_effective_time c); [|respect].
  apply revoking_fulfill_all.
Qed.

#[export] Instance revoking_plan_externals c satisfaction basis items :
  Respects revoking (plan_externals (P := P) clock c satisfaction basis items).
Proof.
  induction items as [|o rest IH]; cbn [plan_externals]; [respect|]. apply respects_bind; [|intros; exact IH].
  unfold plan_external. respect.
Qed.

Lemma planning_revokes c : Respects revoking (plan_offboarding_effects (P := P) clock parse_definition c).
Proof.
  unfold plan_offboarding_effects, offboarding_authority, offboarding_obligations, revalidate_current. respect.
Qed.
End revoking.

(** ** Discharged obligations *)

(** No row of the table with this id is in force at [t] or later. *)
Definition ended {R} `{Windowed R} (table : gmap uuid R) (id : uuid) (t : instant) : Prop :=
  forall row s, table !! id = Some row -> in_window row s -> s < t.

Definition target_ended `{Platform} {R} `{Windowed R} (table : gmap uuid R) (t : instant)
    (o : AdministrativeObligation) (operation key : string) : Prop :=
  forall v id, domain_demand o operation key v -> UUID_of (py_str v) = Ok id -> ended table id t.

(** What a domain obligation other than a transfer demands holds from [t] on. *)
Record discharged `{Platform} (db : AuthorityDb) (t : instant) (o : AdministrativeObligation) : Prop := {
  dis_binding : target_ended (identity_bindings db) t o "identity_binding.expire" "binding_id";
  dis_role : target_ended (role_assignments db) t o "role_assignment.expire" "assignment_id";
  dis_delegation : target_ended (delegations db) t o "delegation.expire" "delegation_id";
  dis_principal : forall v, domain_demand o "principal.deactivate" "principal_id" v ->
    get_principal db (py_str v) = None;
}.

Lemma ended_narrowed {R} `{Windowed R} (m m' : gmap uuid R) id t :
  narrowed m m' -> ended m id t -> ended m' id t.
Proof. intros Hn He row s (r & Hr & _ & Hw)%Hn Hs. by eapply He, Hw. Qed.

Lemma discharged_reduced `{Platform} db db' t o : reduced db db' -> discharged db t o -> discharged db' t o.
Proof.
  intros [Hp Hb Hr Hd] [Db Dr Dd Dp]. split.
  - intros v id Hv Hid. by eapply ended_narrowed, Db.
  - intros v id Hv Hid. by eapply ended_narrowed, Dr.
  - intros v id Hv Hid. by eapply ended_narrowed, Dd.
  - intros v Hv. destruct (get_principal db' (py_str v)) as [q|] eqn:Hq; [|done].
    apply Hp in Hq. by rewrite (Dp v Hv) in Hq.
Qed.

Lemma ended_by_expiry `{Platform} {R} `{WindowedLaws R} (table table' : gmap uuid R) events events' et tp label
    id actor reason t ev :
  expire_validity et tp label table events id actor reason t = Ok (ev, (table', events')) -> ended table' id t.
Proof.
  intros (_ & row & _ & _ & -> & _)%expire_row r s. rewrite lookup_insert_eq. intros [= <-] Hs.
  by apply closed_window in Hs as [_ ?].
Qed.

(** A demand for one operation is not a demand for another. *)
Lemma other_operation `{Platform} o operation operation' key v (Q : Prop) :
  ob_required_operation o = operation -> operation <> operation' -> domain_demand o operation' key v -> Q.
Proof. intros <- Hne (_ & _ & Heq & _). by destruct Hne. Qed.

Lemma target_other `{Platform} {R} `{Windowed R} (table : gmap uuid R) t o operation operation' key :
  ob_required_operation o = operation -> operation <> operation' -> target_ended table t o operation' key.
Proof. intros Ho Hne v id Hd. by eapply other_operation. Qed.

Lemma expected_target `{Platform} o operation key v id :
  domain_demand o operation key v -> expiry_target o key = Ok id -> UUID_of (py_str v) = Ok id.
Proof. intros (_ & _ & _ & Hk). unfold expiry_target, expected_field. by rewrite Hk. Qed.

Section loop.
Context `{Hplat : Platform} {P : Type} `{Hprov : EffectProvider P} (clock : nat -> instant).

(** The transaction of an expiry or a deactivation. *)
Lemma on_lifecycle_Ok {A} (f : World P -> result (A * (AuthorityDb * EventDb))) w a w' :
  on_lifecycle f w = (Ok a, w') ->
  exists db ev, f w = Ok (a, (db, ev)) /\ w_authority w' = db /\ w_obligations w' = w_obligations w.
Proof.
  unfold on_lifecycle. intros Hrun%transact_Ok. inv_ok. destruct v as [a1 [db ev]]. inv_ok. simplify_eq.
  by exists db, ev.
Qed.

Lemma expired_target {R} `{WindowedLaws R} (o : AdministrativeObligation) operation key id
    (table table' : gmap uuid R) events events' et tp label actor reason t ev :
  expiry_target o key = Ok id ->
  expire_validity et tp label table events id actor reason t = Ok (ev, (table', events')) ->
  target_ended table' t o operation key.
Proof.
  intros Hid Hexp v id' Hd Hv. rewrite (expected_target _ _ _ _ _ Hd Hid) in Hv. injection Hv as <-.
  by eapply ended_by_expiry.
Qed.

Local Ltac other Hop := eapply target_other; [exact Hop|discriminate].

Lemma apply_discharges transfers o t (w w' : World P) ref :
  ob_required_operation o <> "role_assignment.transfer" ->
  apply_domain_obligation clock transfers o t w = (Ok ref, w') ->
  ref <> None /\ discharged (w_authority w') t o /\ w_obligations w' = w_obligations w.
Proof.
  intros Hop. unfold apply_domain_obligation.
  rewrite (bool_decide_eq_false_2 (_ = "role_assignment.transfer")) by done.
  case_bool_decide as Hb; [|case_bool_decide as Hr; [|case_bool_decide as Hd; [|case_bool_decide as Hp]]];
    intros Hrun; inv_run;
    match goal with H : on_lifecycle _ _ = _ |- _ => apply on_lifecycle_Ok in H as (db & es & Hf & -> & ->) end;
    (split; [done|split; [|done]]).
  - unfold expire_identity_binding in Hf. inv_ok. destruct v as [e [tb es']]. inv_ok. simplify_eq.
    split; [by eapply expired_target|other Hb..|]. intros v. by eapply other_operation.
  - unfold expire_role_assignment in Hf. inv_ok. destruct v as [e [tb es']]. inv_ok. simplify_eq.
    split; [other Hr|by eapply expired_target|other Hr|]. intros v. by eapply other_operation.
  - unfold expire_delegation in Hf. inv_ok. destruct v as [e [tb es']]. inv_ok. simplify_eq.
    split; [other Hd..|by eapply expired_target|]. intros v. by eapply other_operation.
  - unfold deactivate_principal in Hf. inv_ok. destruct (principals _ !! _) as [row|]; [|done]. inv_ok.
    destruct v as [e es']. inv_ok. simplify_eq.
    split; [other Hp..|]. intros v (_ & _ & _ & Hk). unfold expected_field in R. rewrite Hk in R.
    injection R as <-. unfold get_principal. cbn. by rewrite lookup_insert_eq.
Qed.

(** Obligations of these ids have no fulfillment yet. *)
Definition unfulfilled (db : ObligationDb) (ids : list uuid) : Prop :=
  forall k f, obligation_fulfillments db !! k = Some f -> fr_obligation_id f ∉ ids.

Lemma unfulfilled_reads db ids id :
  unfulfilled db ids -> id ∈ ids -> get_domain_state_fulfillment db id = Ok None.
Proof.
  intros Hu Hid. unfold get_domain_state_fulfillment.
  rewrite (proj2 (select_where_nil _ _)); [done|]. intros k f Hf. apply bool_decide_eq_false.
  intros <-. by apply (Hu k f Hf).
Qed.

Lemma unfulfilled_record db f f' db' ids :
  unfulfilled db ids -> fl_obligation_id f ∉ ids ->
  record_domain_state_fulfillment db f = Ok (f', db') -> unfulfilled db' ids.
Proof.
  intros Hu Hf (_ & _ & [[-> _]|(_ & _ & ->)])%record_fulfillment_cases; [done|].
  intros k g; cbn; intros [[_ <-]|[_ Hg]]%lookup_insert_Some; [done|by eapply Hu].
Qed.

(** One iteration on an obligation not fulfilled yet. *)
Lemma fulfill_discharges c t transfers o ids (w w' : World P) :
  unfulfilled (w_obligations w) (ob_obligation_id o :: ids) -> ob_obligation_id o ∉ ids ->
  fulfill_obligation clock c t transfers false o w = (Ok tt, w') ->
  unfulfilled (w_obligations w') ids /\
  (ob_fulfillment_kind o = DOMAIN_STATE_VERIFIED -> ob_required_operation o <> "role_assignment.transfer" ->
   discharged (w_authority w') t o).
Proof.
  intros Hu Hid. assert (Hu' : unfulfilled (w_obligations w) ids).
  { intros k f Hf Hin. apply (Hu k f Hf). by right. }
  unfold fulfill_obligation. case_bool_decide as Hk; [by intros Hrun; inv_run|].
  intros Hrun. inv_run. rewrite (unfulfilled_reads _ _ _ Hu) in R by left. injection R as <-.
  case_bool_decide as Hop; cbn [Bool.eqb negb] in Hrun; [by inv_run|]. inv_run.
  apply apply_discharges in R as (Href & Hdis & Hobs); [|done]. destruct a as [ref|]; [|done].
  unfold record_domain_fulfillment in Hrun. inv_run. unfold on_obligations in R0. inv_run. inv_ok.
  destruct v as [f db]. inv_ok. simplify_eq.
  match goal with H : utcnow _ _ = _ |- _ => injection H as <- <- end.
  split; [|done]. refine (unfulfilled_record _ _ _ _ _ _ _ E); [|exact Hid].
  change (unfulfilled (w_obligations s0) ids). by rewrite Hobs.
Qed.

Lemma fulfill_loop_discharges c t transfers items (w w' : World P) :
  NoDup (ob_obligation_id <$> items) -> unfulfilled (w_obligations w) (ob_obligation_id <$> items) ->
  fulfill_obligations clock c t transfers false items w = (Ok tt, w') ->
  forall o, o ∈ items -> ob_fulfillment_kind o = DOMAIN_STATE_VERIFIED ->
    ob_required_operation o <> "role_assignment.transfer" -> discharged (w_authority w') t o.
Proof.
  revert w. induction items as [|o rest IH]; intros w Hnd Hu Hrun x Hx; [by apply elem_of_nil in Hx|].
  cbn [fmap list_fmap fulfill_obligations] in *. apply NoDup_cons in Hnd as [Hid Hnd]. inv_run.
  destruct a. destruct (fulfill_discharges _ _ _ _ _ _ _ Hu Hid R) as [Hu' Hdis].
  apply elem_of_cons in Hx as [->|Hx]; [|by eapply IH]. intros Hk Hop.
  apply (revoking_fulfill_all clock) in Hrun. eapply discharged_reduced; [|by apply Hdis].
  by apply revocations_reduce in Hrun.
Qed.

(** The rows of a freshly stored set were not there before. *)
Lemma add_rows_fresh l m m' r :
  for_each add_obligation_row l m = Ok m' -> r ∈ l -> m !! or_obligation_id r = None.
Proof.
  revert m. induction l as [|x l IH]; intros m Hrun Hr; [by apply elem_of_nil in Hr|]. cbn in Hrun. inv_ok.
  unfold add_obligation_row in E. inv_ok. apply db_add_Ok in E as [Hk ->].
  apply elem_of_cons in Hr as [->|Hr]; [done|]. specialize (IH _ Hrun Hr).
  by apply lookup_insert_None in IH as [? _].
Qed.

Lemma fresh_set_unfulfilled db s r db' :
  ob_wf db -> get_current db (os_case_id s) (os_authority_epoch s) = Ok None ->
  put_in_session db s = Ok (r, db') ->
  NoDup (ob_obligation_id <$> os_obligations s) /\
  unfulfilled db' (ob_obligation_id <$> os_obligations s).
Proof.
  intros Hwf Hnone Hput. destruct (put_persists db db' db' s r Hwf Hput) as [Hcur _]; [done|].
  pose proof (get_current_NoDup _ _ _ _ (put_in_session_wf _ _ _ _ Hwf Hput) Hcur) as Hnd.
  apply put_in_session_cases in Hput as [(_ & _ & row & Hrow & Hload)|(-> & _ & _ & rows & Hrows & ->)].
  { rewrite get_current_wf in Hnone by done. rewrite Hrow, Hload in Hnone. done. }
  split; [done|]. intros k f Hf (o & Ho & Hin)%list_elem_of_fmap. cbn in Hf.
  destruct (wf_fulfillments_fk _ Hwf k f Hf) as (row & Hrow & _).
  apply list_elem_of_lookup in Hin as [i Hi].
  assert (obligations db !! ob_obligation_id o = None) as Hnew.
  { eapply (add_rows_fresh _ _ _ (obligation_row (os_requirement_id s) i o)); [exact Hrows|].
    apply elem_of_imap_row. eauto. }
  congruence.
Qed.
End loop.

(** ** The first planning *)

(** Rows are stored under their own id, a 128-bit number. *)
Definition identified {R} (key : R -> uuid) (table : gmap uuid R) : Prop :=
  forall k row, table !! k = Some row -> key row = k /\ (k < 2 ^ 128)%N.

(** What a principal holds at [t] or later was granted to start after [t]. *)
Definition left_by {R} `{Windowed R} (mine : R -> Prop) (table : gmap uuid R) (t : instant) : Prop :=
  forall k row s, table !! k = Some row -> mine row -> t <= s -> in_window row s -> t < win_from row.

Lemma ended_leaves {R} `{WindowedLaws R} (mine : R -> Prop) (key : R -> uuid) (table table' : gmap uuid R) t :
  identified key table -> narrowed table table' ->
  (forall r u, mine (win_close r u) -> mine r) ->
  (forall k row, table !! k = Some row -> mine row -> in_window row t -> (key row < 2 ^ 128)%N ->
     ended table' (key row) t) ->
  left_by mine table' t.
Proof.
  intros Hid Hn Hmine Hended k row' s Hrow' Hm Hle Hs.
  destruct (Hn k row' Hrow') as (row & Hrow & Hc & Hw). destruct (Hid k row Hrow) as [Hkey Hk].
  assert (win_from row' = win_from row /\ mine row) as [Hf Hm0].
  { destruct Hc as [->|[u ->]]; [done|]. rewrite from_close. eauto. }
  destruct (Z.lt_ge_cases t (win_from row')) as [|Hge]; [done|]. exfalso.
  assert (in_window row t) as Ht.
  { pose proof (Hw s Hs) as [_ Hu]. split; [lia|]. destruct (win_until row); [lia|done]. }
  assert (s < t); [|lia]. eapply (Hended k row Hrow Hm0 Ht); [by rewrite Hkey|by rewrite Hkey|done].
Qed.

Section planning.
Context `{Hplat : Platform} {P : Type} `{Hprov : EffectProvider P}
  (clock : nat -> instant) (enforced : bool)
  (parse_definition : pydict -> result OffboardingPolicyDefinition).

Definition looked (w w' : World P) : Prop :=
  w_authority w' = w_authority w /\ w_obligations w' = w_obligations w.

Program Definition looking : Motion (World P) := {| moves := looked; breaks := fun _ => looked |}.
Next Obligation. by intros w. Qed.
Next Obligation. unfold looked. intros w1 w2 w3 [-> ->] [-> ->]. done. Qed.
Next Obligation. done. Qed.
Next Obligation. unfold looked. intros e w1 w2 w3 [-> ->] [-> ->]. done. Qed.

#[local] Instance looking_utcnow : Respects looking (utcnow (P := P) clock).
Proof. by intros w r w' [= <- <-]. Qed.

Lemma authority_looks c evaluation : Respects looking (offboarding_authority (P := P) clock c evaluation).
Proof. unfold offboarding_authority, revalidate_current. respect. Qed.

Lemma fresh_obligations c evaluation policy basis (w w' : World P) s transfers :
  get_current (w_obligations w) (c_case_id c) (c_authority_epoch c) = Ok None ->
  offboarding_obligations clock c evaluation policy basis w = (Ok (s, transfers), w') ->
  exists now1 now2 r,
    derive_transfer_requirements c policy.2 (w_authority w) (gb_basis_id basis) now1 = Ok transfers /\
    derive_offboarding_obligations c evaluation policy.1 policy.2 (w_authority w) (gb_basis_id basis)
      (Some transfers) now2 = Ok s /\
    put_in_session (w_obligations w) s = Ok (r, w_obligations w') /\ w_authority w' = w_authority w.
Proof.
  intros Hnone Hrun. unfold offboarding_obligations in Hrun. inv_run.
  match goal with H : get_current _ _ _ = Ok _ |- _ => rewrite Hnone in H; injection H as <- end. inv_run.
  unfold on_transfers, on_obligations, utcnow in *. inv_run. inv_ok. inv_run.
  repeat match goal with x : prod _ _ |- _ => destruct x; inv_ok end. simplify_eq. cbn in *. eauto 10.
Qed.

(** Each part of the departing principal's authority at the effective time has
    its obligation. *)
Lemma current_row_listed {R} `{Windowed R} (table : gmap uuid R) (mine : R -> bool) current k row t :
  (forall r, current r = window_current (win_from r) (win_until r) t) ->
  table !! k = Some row -> mine row = true -> in_window row t ->
  row ∈ List.filter current (select_where mine table).
Proof.
  intros Hc Hrow Hm Hw. apply elem_of_filter_bool. rewrite elem_of_select_where, Hc.
  split; [by eauto|by apply window_current_in_window].
Qed.

Lemma current_role_required c d db gb now transfers snapshot t k a :
  derive_transfer_requirements c d db gb now = Ok transfers ->
  c_fact_snapshot c = Some snapshot ->
  fact_instant (fs_facts snapshot) (off_effective_time_fact d) = Some t ->
  role_assignments db !! k = Some a ->
  ra_principal_id a = fact_text (fs_facts snapshot) "departing_principal_id" -> in_window a t ->
  exists r, r ∈ transfers /\ tr_relationship_ref r = ra_assignment_id a.
Proof.
  intros Htr Hsnap Ht Ha Hp Hw. unfold derive_transfer_requirements in Htr. rewrite Hsnap in Htr. inv_ok.
  rewrite Ht in Htr. destruct (traverse_elem_of_l _ _ _ a Htr) as (r & Hr & Hd).
  { eapply current_row_listed; [done|exact Ha|by apply bool_decide_eq_true_2|done]. }
  exists r. split; [done|]. by apply derive_one_spec in Hd as (_ & ? & _).
Qed.

Lemma current_delegation_listed db p t ds k g :
  list_current_delegations_involving db p t = Ok ds -> delegations db !! k = Some g ->
  dg_from_principal_id g = p \/ dg_to_principal_id g = p -> in_window g t -> g ∈ ds.
Proof.
  unfold list_current_delegations_involving. intros Hds Hg Hp Hw. inv_ok. subst ds.
  destruct (traverse_elem_of_l _ _ _ g E) as (g' & Hg' & [-> _]%delegation_from_row_Ok).
  { apply elem_of_select_where. split; [by exists k|]. rewrite orb_true_iff, !bool_decide_eq_true. done. }
  apply elem_of_filter_bool. split; [done|]. unfold delegation_current. destruct Hw as [Hf Hu]. cbn in Hf, Hu.
  apply andb_true_iff. by rewrite Z.leb_le, Z.ltb_lt.
Qed.

(** The obligations the planning has to discharge. *)
Definition all_discharged (db : AuthorityDb) (t : instant) (items : list AdministrativeObligation) : Prop :=
  forall o, o ∈ items -> ob_fulfillment_kind o = DOMAIN_STATE_VERIFIED ->
    ob_required_operation o <> "role_assignment.transfer" -> discharged db t o.

Lemma demand_discharged db t items o operation key v :
  all_discharged db t items -> o ∈ items -> domain_demand o operation key v ->
  operation <> "role_assignment.transfer" -> discharged db t o.
Proof. intros Hall Ho (Hk & _ & Hop & _) Hne. apply Hall; congruence. Qed.

Lemma target_row_ended {R} `{Windowed R} (table : gmap uuid R) t o operation key id :
  target_ended table t o operation key -> domain_demand o operation key (VStr (uuid_str id)) ->
  (id < 2 ^ 128)%N -> ended table id t.
Proof. intros Ht Hd Hid. apply (Ht _ _ Hd). by apply UUID_round_trip. Qed.

(** The revocation of a principal's authority as of [t]. *)
Record departed (db : AuthorityDb) (p : string) (t : instant) : Prop := {
  dep_inactive : get_principal db p = None;
  dep_bindings : left_by (fun b => ib_principal_id b = p) (identity_bindings db) t;
  dep_roles : left_by (fun a => ra_principal_id a = p) (role_assignments db) t;
  dep_delegations : left_by (fun g => dg_from_principal_id g = p \/ dg_to_principal_id g = p)
    (delegations db) t;
}.

Definition rows_identified (db : AuthorityDb) : Prop :=
  identified ib_binding_id (identity_bindings db) /\ identified ra_assignment_id (role_assignments db) /\
  identified dg_delegation_id (delegations db).

Lemma discharged_departs c evaluation ref d db db' gb now1 now2 transfers s snapshot t :
  rows_identified db -> reduced db db' ->
  derive_transfer_requirements c d db gb now1 = Ok transfers ->
  derive_offboarding_obligations c evaluation ref d db gb (Some transfers) now2 = Ok s ->
  c_fact_snapshot c = Some snapshot ->
  fact_instant (fs_facts snapshot) (off_effective_time_fact d) = Some t ->
  all_discharged db' t (os_obligations s) ->
  departed db' (fact_text (fs_facts snapshot) "departing_principal_id") t.
Proof.
  intros (Ib & Ir & Id) [_ Nb Nr Nd] Htr Hob Hsnap Ht Hall. set (p := fact_text _ _).
  destruct (offboarding_shape _ _ _ _ _ _ _ _ _ _ _ Hob Hsnap Ht) as (ext & ds & _ & Hds & Hos).
  fold p in Hds, Hos. rewrite Hos in Hall. split.
  - assert (Hd : domain_demand (deactivate_obligation c gb p) "principal.deactivate" "principal_id" (VStr p)) by done.
    eapply (dis_principal _ t _ (demand_discharged _ _ _ _ _ _ _ Hall ltac:(rewrite !elem_of_app; do 4 right; by left) Hd ltac:(done)) _ Hd).
  - eapply (ended_leaves _ _ _ _ _ Ib Nb); [done|]. intros k b Hb Hp Hw Hlt.
    assert (Hd : domain_demand (identity_binding_obligation c gb p b) "identity_binding.expire" "binding_id"
                   (VStr (uuid_str (ib_binding_id b)))) by done.
    eapply target_row_ended; [eapply dis_binding, demand_discharged; [exact Hall| |exact Hd|done]|exact Hd|done].
    rewrite !elem_of_app. right; left. apply list_elem_of_fmap_2.
    eapply current_row_listed; [done|exact Hb|by apply bool_decide_eq_true_2|done].
  - eapply (ended_leaves _ _ _ _ _ Ir Nr); [done|]. intros k a Ha Hp Hw Hlt.
    destruct (current_role_required _ _ _ _ _ _ _ _ _ _ Htr Hsnap Ht Ha Hp Hw) as (r & Hr & Href).
    assert (exists o, o ∈ transfer_obligations c gb p r /\ domain_demand o "role_assignment.expire"
              "assignment_id" (VStr (uuid_str (ra_assignment_id a)))) as (o & Ho & Hd)
      by (rewrite <- Href; eexists; split; [left|done]).
    eapply target_row_ended; [eapply dis_role, demand_discharged; [exact Hall| |exact Hd|done]|exact Hd|done].
    rewrite !elem_of_app. right; right; left. apply list_elem_of_bind. by exists r.
  - eapply (ended_leaves _ _ _ _ _ Id Nd); [done|]. intros k g Hg Hp Hw Hlt.
    assert (Hd : domain_demand (delegation_obligation c gb g) "delegation.expire" "delegation_id"
                   (VStr (uuid_str (dg_delegation_id g)))) by done.
    eapply target_row_ended; [eapply dis_delegation, demand_discharged; [exact Hall| |exact Hd|done]|exact Hd|done].
    rewrite !elem_of_app. do 3 right; left. apply list_elem_of_fmap_2. by eapply current_delegation_listed.
Qed.

(** The effective time the planning revokes at, and the one the obligations were
    derived for, are the same. *)
Definition plans_departure_at (w : World P) (c : AdministrativeCase) (p : string) (t : instant) : Prop :=
  exists snapshot ref record d,
    c_fact_snapshot c = Some snapshot /\ c_policy_ref c = Some ref /\
    get_version (w_policies w) (pr_policy_id ref) (pr_version ref) = Some record /\
    compile_offboarding_policy parse_definition record = Ok (pv_policy_ref record, d) /\
    fact_instant (fs_facts snapshot) (off_effective_time_fact d) = Some t /\
    fact_text (fs_facts snapshot) "departing_principal_id" = p.

Lemma derived_case c evaluation ref d db gb transfers now s :
  derive_offboarding_obligations c evaluation ref d db gb transfers now = Ok s ->
  os_case_id s = c_case_id c /\ os_authority_epoch s = c_authority_epoch c.
Proof.
  unfold derive_offboarding_obligations. intros Hd. inv_ok. destruct (c_fact_snapshot c); [|done]. inv_ok.
  destruct (fact_instant _ _); [|done]. inv_ok. by subst s.
Qed.

(** C18: Departure revokes authority.  Planning an offboarding, even when it raises,
    changes the authority tables by revocations alone.  When the first planning
    of an epoch returns, the departing principal is deactivated and from the
    effective time on no identity binding, role assignment or delegation given
    or received by that principal is in force, except those that were granted to
    start later still. *)
Theorem departure_revokes_authority (w w' : World P) c r p t :
  plan_offboarding_effects clock parse_definition c w = (r, w') ->
  rtc revocation (w_authority w, w_lifecycle w) (w_authority w', w_lifecycle w') /\
  (ob_reachable (w_obligations w) ->
   get_current (w_obligations w) (c_case_id c) (c_authority_epoch c) = Ok None ->
   rows_identified (w_authority w) ->
   plans_departure_at w c p t -> authoritative_effective_time c = Some t ->
   r = Ok tt -> departed (w_authority w') p t).
Proof.
  intros Hrun. split.
  { pose proof (planning_revokes clock parse_definition c _ _ _ Hrun) as Hm. destruct r; exact Hm. }
  intros Hwf%reachable_wf Hnone Hids (snapshot & ref & record & d & Hsnap & Href & Hver & Hcomp & Ht & <-) Htime ->.
  unfold plan_offboarding_effects in Hrun. rewrite Hsnap, Href in Hrun. inv_run.
  destruct a as [evaluation|]; [|done]. case_bool_decide; [done|]. inv_run.
  rewrite Hver in Hrun. inv_run. rewrite Hcomp in R0. injection R0 as <-.
  destruct a0 as [satisfaction basis]. inv_run. destruct a as [os transfers]. inv_run.
  apply (authority_looks c evaluation) in R1 as [Ha Ho]. rewrite <- Ho in Hwf, Hnone.
  apply (fresh_obligations _ _ _ _ _ _ _ _ Hnone) in R0 as (now1 & now2 & r & Htr & Hob & Hput & Ha').
  cbn [fst snd] in Htr, Hob. rewrite Ha in Htr, Hob, Ha'. pose proof (derived_case _ _ _ _ _ _ _ _ _ Hob) as [Hc He].
  rewrite <- Hc, <- He in Hnone. destruct (fresh_set_unfulfilled _ _ _ _ Hwf Hnone Hput) as [Hnd Hu].
  pose proof (revoking_plan_externals clock _ _ _ _ _ _ _ Hrun) as Hext%revocations_reduce.
  pose proof (revoking_fulfill clock _ _ _ _ _ _ R2) as Hful%revocations_reduce. cbn [fst authority_of] in Hext, Hful.
  rewrite Ha' in Hful. eapply discharged_departs; [exact Hids|by eapply reduced_trans|exact Htr|exact Hob|done..|].
  unfold fulfill_domain_state in R2. rewrite Htime in R2. destruct a. intros o Hin Hk Hop.
  eapply discharged_reduced; [exact Hext|]. by eapply fulfill_loop_discharges.
Qed.
End planning.
