(* ===== verification/ProductionTrust.v ===== *)
(** * The production engines, [production_trust_execution.py] and the end of
      [offboarding_execution.py]

    The production profile strengthens one hook of the onboarding and of the
    offboarding engine: the governance check also reads the human-resources
    system again and fails when an authoritative fact of the case has changed,
    or cannot be confirmed.  [read_employee n subject] is what the source answers
    to the read made at the [n]-th reading of the clock. *)

From stdpp Require Import base gmap strings list relations.
From Stdlib Require Import ZArith Lia.
From S2P Require Import Prelude Python CPython Store Domain Policy Authority FactAcquisition Lifecycle Obligations.
From S2P Require Import Completion Verification Derivation PolicyPlane Financial Persistence.
From S2P Require Import Transactions Governance Machine Execution ExecutionSafety CaseFlow.
From S2P Require Import OnboardingEngine OffboardingEngine OffboardingSafety.

Open Scope Z_scope.
Open Scope orch_scope.
Open Scope machine_scope.

Section trust.
Context `{Hplat : Platform} {P : Type} `{Hprov : EffectProvider P} (clock : nat -> instant)
  (enforced : bool) (parse_definition : pydict -> result OffboardingPolicyDefinition)
  (read_employee : nat -> string -> result AuthoritativeRecord) (max_fact_age_seconds : Z).

Local Abbreviation M := (M (World P)).

(** [AuthoritativeFactRevalidator.validate_with_dependencies]: the source is read
    only when there is something to compare, the clock only after a read. *)
Definition revalidate_facts (c : AdministrativeCase) (expected_change_keys : list string)
  : M ExternalFactValidation :=
  match c_fact_snapshot c with
  | None => ret (validate_with_dependencies c expected_change_keys (raise ValueError "") 0 0)
  | Some s =>
      if is_nil (dependencies s expected_change_keys)
      then ret (validate_with_dependencies c expected_change_keys (raise ValueError "") 0 0)
      else
        do! read := gets (fun w => read_employee (w_ticks w) (c_subject_ref c)) in
        match read with
        | Err e => ret (validate_with_dependencies c expected_change_keys (Err e) 0 0)
        | Ok current =>
            do! now := utcnow clock in
            ret (validate_with_dependencies c expected_change_keys (Ok current) now max_fact_age_seconds)
        end
  end.

(** The common end of both overrides. *)
Definition with_external (domain : option GovernanceValidation) (external : ExternalFactValidation)
  : M (option GovernanceValidation) :=
  if negb (xv_valid external) then
    do! now := utcnow clock in
    ret (Some (mkGovernanceValidation false
                 ((match domain with Some d => gv_reasons d | None => [] end)
                  ++ ((fun reason => "external-authoritative-fact: " +:+ reason) <$> xv_reasons external)) now))
  else match domain with
       | Some d => ret (Some d)
       | None => do! now := utcnow clock in ret (Some (mkGovernanceValidation true [] now))
       end.

(** [domain is not None and not domain.valid] *)
Definition refuted (domain : option GovernanceValidation) : bool :=
  match domain with Some d => negb (gv_valid d) | None => false end.

(** [ProductionTrustOnboardingExecutionEngine._validate_current_governance]; the
    metric it records is not modelled. *)
Definition validate_trusted_onboarding (c : AdministrativeCase) : M (option GovernanceValidation) :=
  do! domain := validate_onboarding_governance clock enforced c in
  if refuted domain then ret domain
  else do! external := revalidate_facts c [] in with_external domain external.

(** [ProductionTrustOffboardingExecutionEngine._validate_current_governance] *)
Definition validate_trusted_offboarding (c : AdministrativeCase) : M (option GovernanceValidation) :=
  do! domain := validate_onboarding_governance clock enforced c in
  if refuted domain then ret domain
  else
    do! satisfaction := gets (fun w =>
      get_approval_satisfaction (w_authority w) (c_case_id c) (c_authority_epoch c)) in
    do! basis := match satisfaction with
                 | Some s => reads (fun w => get_for_approval (w_governance w) (as_satisfaction_id s))
                 | None => ret None
                 end in
    let expected_change_keys := match basis with Some b => gb_expected_change_keys b | None => [] end in
    do! external := revalidate_facts c expected_change_keys in
    with_external domain external.

(** A subclass that overrides the governance hook. *)
Definition with_governance (h : Hooks) (v : AdministrativeCase -> M (option GovernanceValidation)) : Hooks :=
  {| plan_current_effects := plan_current_effects h;
     validate_current_governance := v;
     verify_observation := verify_observation h;
     payload_for_effect := payload_for_effect h;
     effect_dispatch_order := effect_dispatch_order h;
     assess_completion := assess_completion h;
     assess_completion_without_obligations := assess_completion_without_obligations h;
     handle_completion_blocked := handle_completion_blocked h |}.

Definition trusted_onboarding_hooks : Hooks :=
  with_governance (onboarding_hooks clock enforced) validate_trusted_onboarding.

(** [ProductionTrustOnboardingExecutionEngine] *)
Definition trusted_onboarding_engine : Owner :=
  {| hooks := trusted_onboarding_hooks;
     owner_drive_dispatch := drive_dispatch clock trusted_onboarding_hooks;
     owner_verify_all := verify_all trusted_onboarding_hooks |}.

Definition trusted_onboarding_run (case_id : uuid) : M AdministrativeCase :=
  catch (run clock enforced trusted_onboarding_engine case_id) FinancialQualificationPending
    (require_case case_id).

Definition trusted_offboarding_hooks : Hooks :=
  with_governance (offboarding_hooks clock enforced parse_definition) validate_trusted_offboarding.

(** [ProductionTrustOffboardingExecutionEngine] *)
Definition trusted_offboarding_engine : Owner :=
  {| hooks := trusted_offboarding_hooks;
     owner_drive_dispatch c effects obligation_set links :=
       drive_dispatch clock trusted_offboarding_hooks c (sort_by compare_offboarding_effects effects)
         obligation_set links;
     owner_verify_all := verify_offboarding clock enforced parse_definition |}.

Definition run_trusted_offboarding (case_id : uuid) : M AdministrativeCase :=
  catch (run clock enforced trusted_offboarding_engine case_id) FinancialQualificationPending
    (require_case case_id).

Definition trusted_offboarding_run : uuid -> M AdministrativeCase :=
  offboarding_run_of clock trusted_offboarding_engine run_trusted_offboarding.
End trust.

(** ** The production engines are lawful *)

Section lawful.
Context `{Hplat : Platform} {P : Type} `{Hprov : EffectProvider P} {Hcontract : ProviderContract P}
  (clock : nat -> instant) (enforced : bool)
  (parse_definition : pydict -> result OffboardingPolicyDefinition)
  (read_employee : nat -> string -> result AuthoritativeRecord) (max_age : Z).

Local Abbreviation onboarding := (trusted_onboarding_engine (P := P) clock enforced read_employee max_age).
Local Abbreviation offboarding :=
  (trusted_offboarding_engine (P := P) clock enforced parse_definition read_employee max_age).

Section checks.
Context (R : Motion (World P)) `{!Respects R (utcnow (P := P) clock)}.

#[local] Instance revalidate_facts_respects c keys :
  Respects R (revalidate_facts (P := P) clock read_employee max_age c keys).
Proof. unfold revalidate_facts. respect. Qed.

#[local] Instance with_external_respects d x : Respects R (with_external (P := P) clock d x).
Proof. unfold with_external. respect. Qed.

Lemma trusted_onboarding_respects c :
  Respects R (validate_trusted_onboarding (P := P) clock enforced read_employee max_age c).
Proof.
  unfold validate_trusted_onboarding, validate_onboarding_governance, invalid_governance, revalidate_current. respect.
Qed.

Lemma trusted_offboarding_respects c :
  Respects R (validate_trusted_offboarding (P := P) clock enforced read_employee max_age c).
Proof.
  unfold validate_trusted_offboarding, validate_onboarding_governance, invalid_governance, revalidate_current. respect.
Qed.
End checks.

#[export] Instance trusted_onboarding_lawful : LawfulOwner onboarding.
Proof.
  assert (Hh : LawfulHooks (trusted_onboarding_hooks (P := P) clock enforced read_employee max_age)).
  { pose proof (onboarding_hooks_lawful (P := P) clock enforced) as [Hp _ Hy Ha Hb]. split; cbn; try done.
    intros c. apply trusted_onboarding_respects. apply _. }
  split; [exact Hh|..]; intros; cbn; [by apply (drive_dispatch_respects clock)|by apply (verify_all_respects)].
Qed.

#[export] Instance trusted_onboarding_case_laws : CaseLaws onboarding.
Proof.
  pose proof (onboarding_case_laws (P := P) clock enforced) as [Hp _ _ _ Ha Hb]. split.
  - exact Hp.
  - intros c. apply trusted_onboarding_respects. apply _.
  - intros. apply keeps_drive_loop. apply (law_hooks (owner := onboarding)).
  - intros. apply keeps_verify_loop.
  - exact Ha.
  - exact Hb.
Qed.

#[export] Instance trusted_offboarding_lawful : LawfulOwner offboarding.
Proof.
  assert (Hh : LawfulHooks (trusted_offboarding_hooks (P := P) clock enforced parse_definition read_employee max_age)).
  { pose proof (offboarding_hooks_lawful (P := P) clock enforced parse_definition) as [Hp _ Hy Ha Hb]. split; cbn; try done.
    intros c. apply trusted_offboarding_respects. apply _. }
  split; [exact Hh|..]; intros; cbn.
  - by apply (drive_dispatch_respects clock).
  - apply (law_verify (owner := offboarding_engine clock enforced parse_definition)).
Qed.

#[export] Instance trusted_offboarding_case_laws : CaseLaws offboarding.
Proof.
  pose proof (offboarding_case_laws (P := P) clock enforced parse_definition) as [Hp _ _ Hv Ha Hb]. split.
  - exact Hp.
  - intros c. apply trusted_offboarding_respects. apply _.
  - intros. apply keeps_drive_loop. apply (law_hooks (owner := offboarding)).
  - exact Hv.
  - exact Ha.
  - exact Hb.
Qed.

#[export] Instance trusted_onboarding_run_respects case_id :
  Respects safe (trusted_onboarding_run (P := P) clock enforced read_employee max_age case_id).
Proof.
  apply respects_catch; [|by apply run_respects; typeclasses eauto|typeclasses eauto].
  intros e w w' He [_ Hm]. by apply Hm.
Qed.

#[export] Instance run_trusted_offboarding_respects case_id :
  Respects safe (run_trusted_offboarding (P := P) clock enforced parse_definition read_employee max_age case_id).
Proof.
  apply respects_catch; [|by apply run_respects; typeclasses eauto|typeclasses eauto].
  intros e w w' He [_ Hm]. by apply Hm.
Qed.

#[export] Instance trusted_offboarding_run_respects case_id :
  Respects safe (trusted_offboarding_run (P := P) clock enforced parse_definition read_employee max_age case_id).
Proof. unfold trusted_offboarding_run, offboarding_run_of, await_effective_time. respect. Qed.

(** ** Changed reality stops the engine *)

(** What the source would have to answer for the facts of the case to stand. *)
Definition facts_confirmed (c : AdministrativeCase) (keys : list string) (w : World P) : Prop :=
  exists s current, c_fact_snapshot c = Some s /\ dependencies s keys <> [] /\
    read_employee (w_ticks w) (c_subject_ref c) = Ok current /\
    is_fresh_at current (clock (w_ticks w)) max_age = true /\ present current = true /\
    forall k a, (k, a) ∈ dependencies s keys -> still_holds current k a.

Lemma revalidate_facts_exact c keys (w w' : World P) v :
  revalidate_facts clock read_employee max_age c keys w = (Ok v, w') ->
  (xv_valid v = true <-> facts_confirmed c keys w).
Proof.
  unfold revalidate_facts, facts_confirmed. destruct (c_fact_snapshot c) as [s|] eqn:Hs.
  - destruct (dependencies s keys) as [|d ds] eqn:Hd; cbn [is_nil].
    + intros [= <- _]. rewrite validate_exact, Hs. naive_solver.
    + unfold bind, gets. destruct (read_employee (w_ticks w) (c_subject_ref c)) as [current|e] eqn:Hread.
      * unfold utcnow, ret. intros [= <- _]. rewrite validate_exact, Hs. naive_solver.
      * intros [= <- _]. rewrite validate_exact, Hs. naive_solver.
  - intros [= <- _]. rewrite validate_exact, Hs. naive_solver.
Qed.

Lemma revalidate_facts_total c keys (w : World P) :
  exists v w', revalidate_facts clock read_employee max_age c keys w = (Ok v, w').
Proof.
  unfold revalidate_facts. destruct (c_fact_snapshot c) as [s|]; [|by eexists _, _].
  destruct (is_nil _); [by eexists _, _|]. unfold bind, gets. destruct (read_employee _ _); by eexists _, _.
Qed.

(** The end of both checks: it passes only when the facts are confirmed. *)
Lemma external_check c keys domain (w w' : World P) r :
  refuted domain = false ->
  bind (revalidate_facts clock read_employee max_age c keys) (with_external clock domain) w = (r, w') ->
  exists v, r = Ok (Some v) /\ (gv_valid v = true <-> facts_confirmed c keys w).
Proof.
  intros Hd Hrun. destruct (revalidate_facts_total c keys w) as (x & w1 & Hx). pose proof (revalidate_facts_exact _ _ _ _ _ Hx) as Hv.
  unfold bind at 1 in Hrun. rewrite Hx in Hrun. unfold with_external in Hrun. destruct (xv_valid x); cbn [negb] in Hrun.
  - destruct domain as [d|]; injection Hrun as <- _; eexists; (split; [done|]).
    + cbn in Hd. apply negb_false_iff in Hd. rewrite Hd. naive_solver.
    + cbn. naive_solver.
  - injection Hrun as <- _. eexists. split; [done|]. cbn. naive_solver.
Qed.

(** The check of the production onboarding engine on a world its domain check
    leaves in [w0]. *)
Lemma trusted_onboarding_check c domain (w w0 : World P) :
  validate_onboarding_governance clock enforced c w = (Ok domain, w0) ->
  exists v w1, validate_trusted_onboarding clock enforced read_employee max_age c w = (Ok (Some v), w1) /\
    (gv_valid v = true <-> refuted domain = false /\ facts_confirmed c [] w0).
Proof.
  intros Hdom. unfold validate_trusted_onboarding, bind at 1. rewrite Hdom. destruct (refuted domain) eqn:Href.
  - destruct domain as [d|]; [|done]. cbn in Href. exists d, w0. split; [done|]. destruct (gv_valid d); naive_solver.
  - destruct (bind _ _ w0) as [r w1] eqn:Hrun. destruct (external_check _ _ _ _ _ _ Href Hrun) as (v & -> & Hv).
    exists v, w1. split; [done|]. naive_solver.
Qed.

End lawful.
