(* ===== verification/Engines.v ===== *)
(** * Histories of the engines

    The onboarding, financial and offboarding engines, and their production
    variants, attempt cases in any
    order, some attempts breaking off with an exception, while the rest of the
    system and the world outside go on.  Whatever the history, no effect is sent
    to the provider twice and the evidence chain stays intact. *)

From stdpp Require Import base gmap strings list relations.
From Stdlib Require Import ZArith Lia.
From S2P Require Import Prelude Python CPython Store Domain Policy Authority Lifecycle Obligations.
From S2P Require Import Completion Verification Derivation PolicyPlane Financial Persistence.
From S2P Require Import Transactions Governance Machine Execution ExecutionSafety CaseFlow.
From S2P Require Import FactAcquisition OnboardingEngine OffboardingEngine OffboardingSafety ProductionTrust.

Open Scope Z_scope.
Open Scope orch_scope.

Section histories.
Context `{Hplat : Platform} {P : Type} `{Hprov : EffectProvider P} {Hcontract : ProviderContract P}
  (clock : nat -> instant) (enforced : bool)
  (parse_definition : pydict -> result OffboardingPolicyDefinition)
  (read_employee : nat -> string -> result AuthoritativeRecord) (max_age : Z).

#[local] Instance offboarding_executor_respects case_id :
  Respects safe (run_offboarding_executor (P := P) clock enforced parse_definition case_id).
Proof.
  apply respects_catch; [|by apply run_respects; typeclasses eauto|typeclasses eauto].
  intros e w w' He [_ Hm]. by apply Hm.
Qed.

#[local] Instance offboarding_run_respects case_id :
  Respects safe (offboarding_run (P := P) clock enforced parse_definition case_id).
Proof. unfold offboarding_run, offboarding_run_of, await_effective_time. respect. Qed.

(** One attempt of an engine on some case, with its result. *)
Definition attempt (w : World P) (r : result AdministrativeCase) (w' : World P) : Prop :=
  exists case_id, onboarding_run clock enforced case_id w = (r, w') \/
                  financial_run clock enforced case_id w = (r, w') \/
                  offboarding_run clock enforced parse_definition case_id w = (r, w') \/
                  trusted_onboarding_run clock enforced read_employee max_age case_id w = (r, w') \/
                  trusted_offboarding_run clock enforced parse_definition read_employee max_age case_id w = (r, w').

(** What the rest of the system and reality may do between attempts: anything
    but write the execution tables. *)
Definition elsewhere (w w' : World P) : Prop :=
  same_tables (w_exec w) (w_exec w') /\ w_calls w' = w_calls w.

Lemma attempt_moves w r w' :
  attempt w r w' -> match r with Ok _ => safe_move w w' | Err e => safe_raise e w w' end.
Proof. intros (case_id & [Hrun|[Hrun|[Hrun|[Hrun|Hrun]]]]); by apply (respects (R := safe)) in Hrun. Qed.



(** C3: The evidence chain survives every attempt, returned or broken: each
    confirmed outcome rests on a persisted verified realization, with evidence,
    of the same effect, case, version and epoch; outcomes and realizations are
    never rewritten; effects keep their identity and their status only moves
    forward. *)
Theorem evidence_chain_is_preserved (w w' : World P) :
  chain_ok (w_exec w) ->
  rtc (fun w w' => (exists r, attempt w r w') \/ elsewhere w w') w w' ->
  chain_ok (w_exec w') /\ advance (w_exec w) (w_exec w').
Proof.
  intros Hck Hhist. induction Hhist as [w|w w1 w2 Hstep _ IH]; [split; [done|apply advance_refl]|].
  assert (chain_ok (w_exec w1) /\ advance (w_exec w) (w_exec w1)) as [Hck1 Ha1].
  { destruct Hstep as [[r Hr%attempt_moves]|[Ht Hc]].
    - destruct r as [c|e]; [by destruct (Hr Hck) as (? & ? & _)|]. destruct Hr as [Hr _].
      by destruct (Hr Hck) as (? & ? & _).
    - split; [by eapply same_tables_chain|by apply same_tables_advance]. }
  destruct (IH Hck1) as [? ?]. split; [done|]. by eapply advance_trans.
Qed.
End histories.
