(* ===== verification/Sandbox.v ===== *)
(** * The sandbox plane and its HTTP client, [sandbox.py] and [effect_provider.py]

    The authoritative sandbox keeps realized effects and request bindings; its
    handlers are transactions that answer or raise an HTTP error.
    [HttpEffectProvider] calls it over a network that may lose a request or a
    response: the next fault of the plane decides, and is the only thing the
    client cannot see.  Together they are an instance of [EffectProvider]. *)

From stdpp Require Import base gmap strings list.
From Stdlib Require Import ZArith Lia.
From Stdlib Require String.
From S2P Require Import Prelude Python CPython Store Domain Policy Obligations Verification.
From S2P Require Import Derivation Execution.

Open Scope Z_scope.
Open Scope orch_scope.

(** ** The sandbox *)

Record RealizedEffectRow := mkRealizedEffectRow {
  rz_effect_id : uuid;
  rz_target_system : string;
  rz_operation : string;
  rz_subject_ref : string;
  rz_payload : pydict;
  rz_state : pydict;
  rz_digest : string;
  rz_apply_attempts : Z;
  rz_realized_at : instant;
}.

Record EffectRequestBindingRow := mkEffectRequestBindingRow {
  rb_request_ref : string;
  rb_effect_id : uuid;
  rb_bound_at : instant;
}.

Record SandboxDb := mkSandboxDb {
  sb_effects : gmap uuid RealizedEffectRow;
  sb_bindings : gmap string EffectRequestBindingRow;
}.

Definition empty_sandbox : SandboxDb := mkSandboxDb ∅ ∅.

Record ApplyEffectBody := mkApplyEffectBody {
  ab_target_system : string;
  ab_operation : string;
  ab_subject_ref : string;
  ab_payload : pydict;
  ab_request_ref : option string;
}.

Record ObservationResponse := mkObservationResponse {
  or_found : bool;
  or_target_system : string;
  or_operation : string;
  or_subject_ref : string;
  or_provider_ref : string;
  or_state : pydict;
  or_digest : string;
  or_apply_attempts : Z;
  or_observed_at : instant;
  or_request_ref : option string;
}.

(** [HTTPException(status_code, detail)] *)
Record HTTPException := mkHTTPException { http_status : Z; http_detail : string }.

Section sandbox.
Context `{Platform}.

(** [json.dumps(..., ensure_ascii=False)] *)
Definition canonical_digest (value : pydict) : string :=
  sha256_hex (json_encode (json_quote json_char_raw) (VDict value)).

Definition binding_of (db : SandboxDb) (effect_id : uuid) : option EffectRequestBindingRow :=
  head (select_where (fun b => bool_decide (rb_effect_id b = effect_id)) (sb_bindings db)).

(** [_bind_request] *)
Definition bind_request (db : SandboxDb) (request_ref : option string) (effect_id : uuid)
    (now : instant) : HTTPException + SandboxDb :=
  match request_ref with
  | None => inr db
  | Some r =>
      let request_ref := strip r in
      if negb (nonempty request_ref) then inl (mkHTTPException 422 "request_ref must not be blank")
      else
        match sb_bindings db !! request_ref with
        | Some by_request =>
            if bool_decide (rb_effect_id by_request <> effect_id)
            then inl (mkHTTPException 409 "request ref already bound to a different realized effect")
            else inr db
        | None =>
            match binding_of db effect_id with
            | Some by_effect =>
                if bool_decide (rb_request_ref by_effect <> request_ref)
                then inl (mkHTTPException 409 "realized effect already bound to a different request ref")
                else inr (mkSandboxDb (sb_effects db)
                            (<[request_ref := mkEffectRequestBindingRow request_ref effect_id now]>
                               (sb_bindings db)))
            | None =>
                inr (mkSandboxDb (sb_effects db)
                       (<[request_ref := mkEffectRequestBindingRow request_ref effect_id now]>
                          (sb_bindings db)))
            end
        end
  end.

Definition realized_state (body : ApplyEffectBody) : pydict :=
  [("target_system", VStr (ab_target_system body)); ("operation", VStr (ab_operation body));
   ("subject_ref", VStr (ab_subject_ref body)); ("payload", VDict (ab_payload body));
   ("active", VBool true)].

Definition sandbox_ref (effect_id : uuid) : string := "sandbox:" +:+ uuid_str effect_id.

Definition same_semantics (row : RealizedEffectRow) (body : ApplyEffectBody) : bool :=
  bool_decide (rz_target_system row = ab_target_system body)
  && bool_decide (rz_operation row = ab_operation body)
  && bool_decide (rz_subject_ref row = ab_subject_ref body)
  && py_eq (VDict (rz_payload row)) (VDict (ab_payload body)).

(** [PUT /v1/effects/{effect_id}]: the transaction commits unless it raises. *)
Definition apply_effect (db : SandboxDb) (effect_id : uuid) (body : ApplyEffectBody) (now : instant)
  : (HTTPException + string) * SandboxDb :=
  let state := realized_state body in
  let digest := canonical_digest state in
  match sb_effects db !! effect_id with
  | Some existing =>
      if negb (same_semantics existing body)
      then (inl (mkHTTPException 409 "effect id already realized with different semantics"), db)
      else
        match bind_request db (ab_request_ref body) effect_id now with
        | inl e => (inl e, db)
        | inr db' =>
            let row := mkRealizedEffectRow (rz_effect_id existing) (rz_target_system existing)
              (rz_operation existing) (rz_subject_ref existing) (rz_payload existing)
              (rz_state existing) (rz_digest existing) (rz_apply_attempts existing + 1)
              (rz_realized_at existing) in
            (inr (sandbox_ref effect_id),
             mkSandboxDb (<[effect_id := row]> (sb_effects db')) (sb_bindings db'))
        end
  | None =>
      let row := mkRealizedEffectRow effect_id (ab_target_system body) (ab_operation body)
        (ab_subject_ref body) (ab_payload body) state digest 1 now in
      let db' := mkSandboxDb (<[effect_id := row]> (sb_effects db)) (sb_bindings db) in
      match bind_request db' (ab_request_ref body) effect_id now with
      | inl e => (inl e, db)
      | inr db' => (inr (sandbox_ref effect_id), db')
      end
  end.

(** [_observation] *)
Definition observation_of (db : SandboxDb) (row : RealizedEffectRow) : ObservationResponse :=
  mkObservationResponse true (rz_target_system row) (rz_operation row) (rz_subject_ref row)
    (sandbox_ref (rz_effect_id row)) (rz_state row) (rz_digest row) (rz_apply_attempts row)
    (rz_realized_at row) (rb_request_ref <$> binding_of db (rz_effect_id row)).

Definition observe_effect (db : SandboxDb) (effect_id : uuid) : HTTPException + ObservationResponse :=
  match sb_effects db !! effect_id with
  | None => inl (mkHTTPException 404 "effect not found")
  | Some row => inr (observation_of db row)
  end.

Definition reconcile_effect (db : SandboxDb) (request_ref : string)
  : HTTPException + ObservationResponse :=
  match sb_bindings db !! request_ref with
  | None => inl (mkHTTPException 404 "request ref not found")
  | Some binding =>
      match sb_effects db !! rb_effect_id binding with
      | None => inl (mkHTTPException 409 "request binding has no realized effect")
      | Some row => inr (observation_of db row)
      end
  end.

(** ** [HttpEffectProvider] *)

(** What the network does with a call: deliver it, lose the request, or lose
    the response of a request that was served. *)
Inductive fault := Delivered | RequestLost | ResponseLost.

Record Plane := mkPlane {
  pl_db : SandboxDb;
  pl_faults : list fault;     (* of the next calls; delivered when exhausted *)
  pl_now : instant;
}.

Definition next_fault (p : Plane) : fault := default Delivered (head (pl_faults p)).
Definition after_call (p : Plane) (db : SandboxDb) : Plane :=
  mkPlane db (tail (pl_faults p)) (pl_now p + 1).

(** [f"HTTP {code}: {text[:500]}"], the body of the response being its detail. *)
Definition http_error (e : HTTPException) : string :=
  "HTTP " +:+ int_str (http_status e) +:+ ": "
  +:+ String.substring 0 500 ("{" +:+ json_string "detail" +:+ ":" +:+ json_string (http_detail e) +:+ "}").

Definition http_execute (p : Plane) (effect : EffectRecord) (payload : pydict)
  : result ProviderExecutionResult * Plane :=
  let body := mkApplyEffectBody (ef_target_system effect) (ef_operation effect) (ef_subject_ref effect)
                payload None in
  let served := apply_effect (pl_db p) (ef_effect_id effect) body (pl_now p) in
  let lost := mkProviderExecutionResult PX_OUTCOME_UNKNOWN None (Some "timed out") false in
  match next_fault p with
  | RequestLost => (Ok lost, after_call p (pl_db p))
  | ResponseLost => (Ok lost, after_call p (snd served))
  | Delivered =>
      (Ok match fst served with
          | inl e => mkProviderExecutionResult PX_FAILED None (Some (http_error e))
                       ((500 <=? http_status e) && (http_status e <? 600))
          | inr provider_ref => mkProviderExecutionResult PX_SUCCEEDED (Some provider_ref) None false
          end,
       after_call p (snd served))
  end.

Definition bare_observation (effect : EffectRecord) (a : ObservationAvailability)
    (presence : ObservationPresence) (f : ObservationFreshness) (now : instant)
    (error_class : option string) : RealityObservation :=
  fill_legacy_found
    (mkRealityObservation a presence f (ef_target_system effect) (ef_operation effect)
       (ef_subject_ref effect) None [] None now error_class None).

(** [RealityObservation.model_validate(response.json())] *)
Definition reality_of (r : ObservationResponse) : RealityObservation :=
  fill_legacy_found
    (mkRealityObservation AVAILABLE (map_legacy_found None (Some (Some (or_found r)))) CURRENT
       (or_target_system r) (or_operation r) (or_subject_ref r) (Some (or_provider_ref r)) (or_state r)
       (Some (or_digest r)) (or_observed_at r) None (Some (or_found r))).

Definition http_observe (p : Plane) (effect : EffectRecord) : result RealityObservation * Plane :=
  (Ok match next_fault p with
      | RequestLost | ResponseLost =>
          bare_observation effect UNAVAILABLE PRESENCE_UNKNOWN FRESHNESS_UNKNOWN (pl_now p)
            (Some "ReadTimeout")
      | Delivered =>
          match observe_effect (pl_db p) (ef_effect_id effect) with
          | inl e =>
              if http_status e =? 404
              then bare_observation effect AVAILABLE ABSENT CURRENT (pl_now p) None
              else bare_observation effect UNAVAILABLE PRESENCE_UNKNOWN FRESHNESS_UNKNOWN (pl_now p)
                     (Some ("http_" +:+ int_str (http_status e)))
          | inr r => reality_of r
          end
      end,
   after_call p (pl_db p)).

#[export] Instance http_provider : EffectProvider Plane :=
  {| provider_execute := http_execute; provider_observe := http_observe;
     provider_prepare p _ _ _ := (Ok tt, p) |}.

#[export] Instance http_provider_contract : ProviderContract Plane.
Proof. intros p effect payload e p'. cbn. unfold http_execute. by destruct (next_fault p). Qed.

(** ** What the sandbox keeps *)

Inductive sandbox_step (db db' : SandboxDb) : Prop :=
  | sandbox_apply effect_id body now r (Hs : apply_effect db effect_id body now = (r, db')).

(** A realization is never rewritten: only its count of attempts moves. *)
Definition same_realization (row row' : RealizedEffectRow) : Prop :=
  rz_effect_id row' = rz_effect_id row /\ rz_target_system row' = rz_target_system row /\
  rz_operation row' = rz_operation row /\ rz_subject_ref row' = rz_subject_ref row /\
  rz_payload row' = rz_payload row /\ rz_state row' = rz_state row /\
  rz_digest row' = rz_digest row /\ rz_realized_at row' = rz_realized_at row /\
  rz_apply_attempts row <= rz_apply_attempts row'.

Lemma bind_request_effects db r effect_id now db' :
  bind_request db r effect_id now = inr db' -> sb_effects db' = sb_effects db.
Proof.
  unfold bind_request. destruct r as [r|]; [|by intros [= <-]].
  destruct (nonempty (strip r)); cbn; [|done].
  destruct (sb_bindings db !! strip r); [case_bool_decide; naive_solver|].
  destruct (binding_of db effect_id); [case_bool_decide; naive_solver|]. by intros [= <-].
Qed.

Lemma step_keeps_realization db db' id row :
  sandbox_step db db' -> sb_effects db !! id = Some row ->
  exists row', sb_effects db' !! id = Some row' /\ same_realization row row'.
Proof.
  intros [effect_id body now r Hs] Hrow. unfold apply_effect in Hs.
  assert (same_realization row row) as Hrefl by (by split_and!).
  destruct (sb_effects db !! effect_id) as [old|] eqn:Hold.
  - destruct (same_semantics old body); cbn in Hs; [|injection Hs as _ <-; eauto].
    destruct (bind_request _ _ _ _) as [e|db1] eqn:Hb; injection Hs as _ <-; [eauto|].
    apply bind_request_effects in Hb. cbn. rewrite Hb.
    destruct (decide (id = effect_id)) as [->|Hne]; [|rewrite lookup_insert_ne by done; eauto].
    assert (old = row) as -> by congruence. rewrite lookup_insert_eq. eexists. split; [done|].
    unfold same_realization. cbn. split_and!; try done. lia.
  - destruct (bind_request _ _ _ _) as [e|db1] eqn:Hb; injection Hs as _ <-; [eauto|].
    apply bind_request_effects in Hb. rewrite Hb. cbn.
    rewrite lookup_insert_ne by congruence. eauto.
Qed.

Lemma steps_keep_realization db db' id row :
  rtc sandbox_step db db' -> sb_effects db !! id = Some row ->
  exists row', sb_effects db' !! id = Some row' /\ same_realization row row'.
Proof.
  intros Hr. revert row. induction Hr as [db|db db1 db2 H1 _ IH]; intros row Hrow.
  - exists row. split; [done|]. unfold same_realization. by split_and!.
  - destruct (step_keeps_realization _ _ _ _ H1 Hrow) as (row1 & Hrow1 & Hs1).
    destruct (IH _ Hrow1) as (row2 & Hrow2 & Hs2). exists row2. split; [done|].
    unfold same_realization in *. intuition (try congruence; try lia).
Qed.

(** An execution that reached the sandbox realized the effect. *)
Lemma served_execution p effect payload r p' :
  sb_effects (pl_db p) !! ef_effect_id effect = None -> next_fault p <> RequestLost ->
  http_execute p effect payload = (Ok r, p') ->
  exists row, sb_effects (pl_db p') !! ef_effect_id effect = Some row /\
    rz_effect_id row = ef_effect_id effect /\
    rz_target_system row = ef_target_system effect /\ rz_operation row = ef_operation effect /\
    rz_subject_ref row = ef_subject_ref effect /\
    rz_state row = realized_state (mkApplyEffectBody (ef_target_system effect) (ef_operation effect)
                                     (ef_subject_ref effect) payload None).
Proof.
  intros Hnone Hfault. unfold http_execute, apply_effect. rewrite Hnone. cbn.
  destruct (next_fault p); [|done|]; intros [= _ <-]; cbn; rewrite lookup_insert_eq; eauto 10.
Qed.

(** C9: What was executed verifies.  An onboarding effect whose request reached
    the sandbox, even if the response was lost, is found by every later
    delivered observation, whatever else is applied meanwhile, and that
    observation verifies the frozen postcondition of its obligation. *)
Theorem executed_effects_verify (c : AdministrativeCase) (template : AuthorizedEffectTemplate)
    (effect : EffectRecord) (facts : pydict) (p p' : Plane) r (later : SandboxDb) :
  ef_target_system effect = t_target_system template -> ef_operation effect = t_operation template ->
  ef_subject_ref effect = c_subject_ref c ->
  keys_distinct (VDict facts) = true ->
  dict_get facts "employee_ref" = VStr (c_subject_ref c) ->
  (t_operation template = "account.provision" ->
     exists systems, dict_get facts "requested_systems" = VList systems /\
       VStr (t_target_system template) ∈ systems) ->
  sb_effects (pl_db p) !! ef_effect_id effect = None -> next_fault p <> RequestLost ->
  http_execute p effect facts = (Ok r, p') -> rtc sandbox_step (pl_db p') later ->
  exists o v, observe_effect later (ef_effect_id effect) = inr o /\
    verify_onboarding_observation effect (reality_of o) (Some facts)
      (Some (onboarding_postcondition c facts template)) = Ok v /\ sv_disposition v = V_VERIFIED.
Proof.
  intros Hsys Hop Hsub Hdist Hemp Hreq Hnone Hfault Hex Hlater.
  destruct (served_execution _ _ _ _ _ Hnone Hfault Hex) as (row & Hrow & _ & Htgt & Hopr & Hsubr & Hst).
  destruct (steps_keep_realization _ _ _ _ Hlater Hrow) as (row' & Hrow' & _ & Ht' & Ho' & Hs' & _ & Hst' & _).
  exists (observation_of later row'). unfold observe_effect. rewrite Hrow'.
  cut (exists v, verify_onboarding_observation effect (reality_of (observation_of later row')) (Some facts)
    (Some (onboarding_postcondition c facts template)) = Ok v /\ sv_disposition v = V_VERIFIED); [naive_solver|].
  assert (exists k v rest, onboarding_postcondition c facts template = (k, v) :: rest) as (k0 & v0 & rest & Hexp).
  { unfold onboarding_postcondition. case_bool_decide; eauto. }
  rewrite Hexp. apply onboarding_verified_spec. rewrite <- Hexp.
  unfold established, identity_agrees, active_agrees, payload_agrees, employee_agrees, requested_agrees.
  unfold reality_of, fill_legacy_found, observation_of. cbn [ro_state ro_target_system ro_operation ro_subject_ref
    ro_availability ro_freshness ro_presence or_found ro_found or_state or_target_system or_operation or_subject_ref].
  rewrite Hst', Hst, Ht', Ho', Hs', Htgt, Hopr, Hsubr, Hsys, Hop, Hsub.
  assert (Hpay : forall k v, (k, v) ∈ present_facts payload_fields facts -> py_eq (dict_get facts k) v = true).
  { intros k v (f & _ & Hf)%list_elem_of_omap. cbv beta in Hf.
    assert (k = f /\ v = dict_get facts f) as [-> ->] by (destruct (dict_get facts f); naive_solver).
    by apply py_eq_refl, dict_get_distinct. }
  unfold onboarding_postcondition, realized_state. case_bool_decide as Hprov;
    cbn -[present_facts py_eq]; cbn [py_eq]; rewrite ?String.eqb_refl.
  - destruct (Hreq Hprov) as (systems & Hsystems & Hin). split_and!; try done.
    + by intros v [= <-].
    + intros _. by exists facts, (present_facts payload_fields facts).
    + intros payload [= <-]. rewrite Hemp. cbn. apply String.eqb_refl.
    + right. destruct systems as [|s0 systems']; [by apply not_elem_of_nil in Hin|].
      change (default VNone (assoc "requested_systems" facts)) with (dict_get facts "requested_systems").
      rewrite Hsystems. cbn. eexists. split; [done|]. right. eexists. split; [exact Hin|]. apply String.eqb_refl.
  - split_and!; try done.
    + by intros v [= <-].
    + intros _. by exists facts, (present_facts payload_fields facts).
    + intros payload [= <-]. rewrite Hemp. cbn. apply String.eqb_refl.
    + by left.
Qed.
End sandbox.
