(* ===== verification/Scenario.v ===== *)
(** * A governed onboarding, end to end

    One concrete history on the concrete platform: an onboarding case is
    created, evaluated, approved by the role the policy requires, given a
    governance basis and executed against the sandbox.  The witnesses of the
    theorems evaluate it. *)

From stdpp Require Import base gmap strings list relations.
From Stdlib Require Import ZArith Lia.
From S2P Require Import Prelude Python CPython Store Domain Policy Authority Lifecycle Obligations.
From S2P Require Import Completion Verification Derivation PolicyPlane Financial Persistence.
From S2P Require Import Transactions Governance Machine Execution ExecutionSafety CaseFlow.
From S2P Require Import OnboardingEngine OffboardingEngine OffboardingSafety Engines Sandbox.

Open Scope Z_scope.

Definition ok_or {A} (d : A) (r : result A) : A := match r with Ok a => a | Err _ => d end.

(** ** The case *)

Definition s_facts : pydict :=
  [("employee_ref", VStr "emp-1"); ("department_ref", VStr "eng");
   ("manager_principal_id", VStr "boss"); ("start_date", VStr "2026-02-01");
   ("employment_type", VStr "full_time"); ("requested_systems", VList [VStr "wiki"]);
   ("requires_privileged_access", VBool false)].

Definition s_snapshot : FactSnapshot :=
  mkFactSnapshot 11%N "hris" "hr" AUTHORITATIVE None None 10 s_facts [] None.

Definition s_request : AdministrativeRequest :=
  mkAdministrativeRequest 21%N "requester" "chat" "onboard emp-1" 10 None.

Definition s_created : AdministrativeCase :=
  mkAdministrativeCase 1%N "employee-onboarding" "requester" "emp-1" RECEIVED 1 1 (Some s_snapshot)
    None [] None 20 20.

Definition s_policy : PolicyVersionRecord :=
  mkPolicyVersionRecord "employee-onboarding" "v1" "hr" ACTIVE 0 None [("kind", VStr "onboarding")] 0.

Definition s_onboarding_facts : OnboardingFacts :=
  mkOnboardingFacts "emp-1" (Some "eng") (Some "boss") (Some "2026-02-01") (Some "full_time")
    ["wiki"] false.

Definition s_evaluation : PolicyEvaluation :=
  mkPolicyEvaluation (pv_policy_ref s_policy) HUMAN_DECISION_REQUIRED
    "standard onboarding requires approval" [] ["hr_approver"] false
    [mkTemplate "hris" "employee.create" EMPLOYMENT;
     mkTemplate "iam" "identity.create" PRIVILEGED_ACCESS;
     mkTemplate "wiki" "account.provision" NORMAL] None.

Definition s_decision : Decision :=
  mkDecision 31%N 1%N 3 2 "ann" (Some "hr_approver") APPROVE "welcome" (pv_policy_ref s_policy) 50.

Definition s_approval_ops : list case_op :=
  [OpRecordDecision s_decision true; OpApplyPolicyEvaluation s_evaluation; OpStartPolicyEvaluation].

(** The case after the three operations, at times 30, 40 and 50. *)
Definition s_case : AdministrativeCase :=
  mkAdministrativeCase 1%N "employee-onboarding" "requester" "emp-1" AUTHORIZED 4 2 (Some s_snapshot)
    (Some (pv_policy_ref s_policy)) [] None 20 50.

Definition s_ready : AdministrativeCase :=
  mkAdministrativeCase 1%N "employee-onboarding" "requester" "emp-1" READY_FOR_POLICY 2 1
    (Some s_snapshot) None [] None 20 30.
Definition s_awaiting : AdministrativeCase :=
  mkAdministrativeCase 1%N "employee-onboarding" "requester" "emp-1" AWAITING_DECISION 3 2
    (Some s_snapshot) (Some (pv_policy_ref s_policy)) [] None 20 40.

Lemma s_create : create_case s_request "employee-onboarding" "emp-1" (Some s_snapshot) 1%N 20 = Ok s_created.
Proof. reflexivity. Qed.

Lemma s_approved : Lifecycle.run s_created s_approval_ops s_case.
Proof.
  unfold s_approval_ops.
  eapply (run_step _ _ s_awaiting _ 50); [|done|reflexivity].
  eapply (run_step _ _ s_ready _ 40); [|unfold op_valid, evaluation_valid; cbn; intuition discriminate|reflexivity].
  eapply (run_step _ _ s_created _ 30); [|done|reflexivity]. apply run_nil.
Qed.

(** ** Authority and governance *)

Definition s_assignment : RoleAssignment := mkRoleAssignment 41%N "ann" "hr_approver" "*" 0 None.

Definition s_binding : DecisionAuthorityBinding :=
  mkDecisionAuthorityBinding 31%N "hr_approver" "acme" "ann" 50.

Definition s_authority_base : AuthorityDb :=
  mkAuthorityDb {[ "ann" := mkPrincipalRow PERSON "Ann" true ]} ∅ {[ 41%N := s_assignment ]} ∅
    {[ 31%N := s_binding ]} ∅.

Definition s_satisfaction : ApprovalSatisfaction :=
  mkApprovalSatisfaction (uuid5 (satisfaction_name 1%N 2 [31%N])) 1%N 2 (pv_policy_ref s_policy)
    [31%N] ["hr_approver"] 50.

Definition s_authority : AuthorityDb :=
  with_satisfactions s_authority_base {[ as_satisfaction_id s_satisfaction := s_satisfaction ]}.

Definition s_policies : PolicyDb :=
  mkPolicyDb {[ ("employee-onboarding", "v1") := s_policy ]} ∅.

Definition s_exec : ExecDb :=
  mkExecDb {[ 21%N := s_request ]} {[ 1%N := mkCaseRow 21%N s_case ]}
    [mkPolicyEvaluationRow 1%N 3 2 s_evaluation] {[ 31%N := s_decision ]} ∅ ∅ ∅ ∅ [].

Definition s_empty_basis : GovernanceBasis :=
  mkGovernanceBasis 0%N 0%N 0 0 0%N "-" (pv_policy_ref s_policy) "-" "-" 0%N [] "-" "-" 0 None [] [] [].

Definition s_created_basis : result (GovernanceBasis * gmap uuid GovernanceBasis) :=
  create_for_approval ∅ s_exec s_authority s_policies empty_txn_db s_case s_satisfaction "acme"
    (Some ["employee_ref"; "department_ref"]) [].

Definition s_basis : GovernanceBasis := fst (ok_or (s_empty_basis, ∅) s_created_basis).
Definition s_governance : gmap uuid GovernanceBasis := {[ gb_basis_id s_basis := s_basis ]}.

(** ** The worlds *)

Definition s_clock (n : nat) : instant := 1000 + Z.of_nat n.

Definition s_world (faults : list fault) : World Plane :=
  mkWorld s_exec empty_obligation_db s_authority s_governance s_policies empty_txn_db ∅ ∅
    (mkPlane empty_sandbox faults 500) [] 0.

Notation s_run w := (Execution.run s_clock true (onboarding_engine s_clock true) (c_case_id s_case) w)
  (only parsing).

Definition result_status (r : result AdministrativeCase) : option CaseStatus :=
  match r with Ok c => Some (c_status c) | Err _ => None end.

(** The happy path: three effects executed once each, verified, completed. *)
Example s_completes :
  let '(r, w) := s_run (s_world []) in
  result_status r = Some COMPLETED /\ length (executed (w_calls w)) = 3%nat.
Proof. vm_compute. done. Qed.

(** A lost response: the effect is not sent again; the case reconciles by
    observation and completes in the same run. *)
Example s_reconciles :
  let '(r, w) := s_run (s_world [ResponseLost]) in
  result_status r = Some COMPLETED /\ length (executed (w_calls w)) = 3%nat.
Proof. vm_compute. done. Qed.

(** A lost request: the effect is never sent again, and the case waits. *)
Example s_waits :
  let '(r, w) := s_run (s_world [RequestLost]) in
  result_status r = Some RECONCILING /\
  result_status (fst (s_run w)) = Some RECONCILING /\
  length (executed (w_calls (snd (s_run w)))) = 3%nat.
Proof. vm_compute. done. Qed.
