(* ===== verification/KernelWitnesses.v ===== *)
(** * The Agent Kernel bridge on a concrete Kernel

    A small Kernel that answers the protocol, the governed onboarding of [Scenario]
    prepared and executed over it, and the witnesses of the bridge's theorems. *)

From stdpp Require Import base gmap strings list relations.
From Stdlib Require Import ZArith Lia.
From S2P Require Import Prelude Python CPython Uuid Store Domain Policy Authority Access Lifecycle Obligations Completion.
From S2P Require Import Verification Transfer Derivation PolicyPlane Financial Persistence Transactions Governance Kernel Machine.
From S2P Require Import KernelClient Execution KernelBridge KernelSafety ResponsibilityDischarge DischargeSafety ExecutionSafety OnboardingEngine Sandbox Scenario.

Open Scope Z_scope.

(** ** A Kernel

    It remembers the commands it executed, by the path of their evidence, how many
    answers to executions will be lost, the responsibilities proposed to it, by the
    path of their status and by their work, and those discharged. *)
Record MiniKernel := mkMiniKernel {
  mk_losses : nat;
  mk_commands : list (string * pydict);
  mk_held : list (string * string);
  mk_discharged : list string;
}.

Definition mk_evidence_path (work_ref : string) : string := "/v1/domain-effects/evidence/evidence:" +:+ work_ref.

Definition mk_text (d : pydict) (key : string) : string := match dict_get d key with VStr s => s | _ => "-" end.
Definition mk_dict (d : pydict) (key : string) : pydict := match dict_get d key with VDict s => s | _ => [] end.

Definition mk_current (s : string) : pyval := VDict [("current", VStr s)].

Definition mk_catalog : pydict :=
  [("catalog_version", VStr "agent-kernel-contracts-v1"); ("owner", VStr "agent-kernel/contracts");
   ("runtime_protocol", VStr "2.0");
   ("contracts", VDict
     [("persistent_responsibility", mk_current "persistent-responsibility-v1");
      ("domain_responsibility_proposal", mk_current "domain-responsibility-proposal-v1");
      ("responsibility_work_admission", mk_current EXPECTED_WORK_ADMISSION);
      ("bounded_domain_effect_execution", mk_current EXPECTED_EXECUTION);
      ("bounded_domain_effect_recovery",
       VDict [("current", VStr EXPECTED_RECOVERY); ("resolution", VStr EXPECTED_RESOLUTION)])]);
   ("views", VDict [("domain_effect_verification_evidence", mk_current EXPECTED_EVIDENCE_VIEW)])].

Definition mk_time : pyval := VStr "2026-01-05T00:00:00Z".

Definition mk_post (k : MiniKernel) (path : string) (d : pydict) : HttpReply * MiniKernel :=
  if bool_decide (path = "/v1/responsibilities/domain-proposals") then
    (HttpJson (VDict
       [("schema", VStr "domain-responsibility-proposal-receipt-v1"); ("status", VStr "proposal-recorded");
        ("authority_bearing", VBool false); ("responsibility_ref", VStr (mk_text (mk_dict d "responsibility") "id"));
        ("admission_ref", VStr (mk_text (mk_dict d "admission") "id"));
        ("assessment_ref", VStr (mk_text (mk_dict d "assessment") "id"));
        ("proposal_ref", VStr (mk_text (mk_dict d "proposal") "id"))]),
     let ref := mk_text (mk_dict d "responsibility") "id" in
     mkMiniKernel (mk_losses k) (mk_commands k)
       (("/v1/responsibilities/" +:+ url_quote ref +:+ "/status", ref)
        :: ("work:" +:+ mk_text (mk_dict d "proposal") "id", ref) :: mk_held k) (mk_discharged k))
  else if bool_decide (path = "/v1/responsibilities/work-admissions") then
    (HttpJson (VDict
       [("schema", VStr "responsibility-work-admission-receipt-v1"); ("status", VStr "work-materialized");
        ("authority_bearing", VBool false); ("proposal_ref", VStr (mk_text d "proposal_ref"));
        ("policy_ref", VStr (mk_text d "expected_policy_ref")); ("priority_judgment_ref", VStr "priority-1");
        ("resource_pool_ref", VStr "pool-1"); ("portfolio_admission_ref", VStr "portfolio-1");
        ("reservation_ref", VStr "reservation-1"); ("commitment_ref", VStr "commitment-1");
        ("work_ref", VStr ("work:" +:+ mk_text d "proposal_ref"))]), k)
  else if bool_decide (path = "/v1/domain-effects/executions") then
    let executed := (mk_evidence_path (mk_text d "work_ref"), d) :: mk_commands k in
    match mk_losses k with
    | S n => (HttpLost "read timed out", mkMiniKernel n executed (mk_held k) (mk_discharged k))
    | O => (HttpJson (VDict
       [("schema", VStr "bounded-domain-effect-execution-receipt-v1");
        ("status", VStr "completed");
        ("authority_bearing", VBool false); ("execution_ref", VStr ("execution:" +:+ mk_text d "work_ref"));
        ("work_ref", VStr (mk_text d "work_ref")); ("processed_at", mk_time); ("run_ref", VStr "run-1");
        ("request_ref", VStr "request-1"); ("authorization_ref", VStr "authorization-1");
        ("provider_id", VStr "hris-adapter"); ("external_operation_ref", VStr "operation-1");
        ("action_ref", VStr "action-1"); ("outcome_ref", VStr "outcome-1"); ("evidence_ref", VStr ("evidence:" +:+ mk_text d "work_ref"));
        ("responsibility_ref", VStr (default "-" (assoc (mk_text d "work_ref") (mk_held k))))]),
     mkMiniKernel 0 executed (mk_held k) (mk_discharged k))
    end
  else if bool_decide (path = "/v1/responsibilities/assessments") then
    (HttpJson (VDict [("schema", VStr "responsibility-assessment-receipt-v1"); ("authority_bearing", VBool false);
                      ("assessment", dict_get d "assessment")]), k)
  else if bool_decide (path = "/v1/responsibilities/discharge-decisions") then
    (HttpJson (VDict [("schema", VStr "responsibility-discharge-decision-receipt-v1"); ("authority_bearing", VBool false);
                      ("decision", dict_get d "decision"); ("status_after_decision", VStr "active")]), k)
  else if bool_decide (path = "/v1/responsibilities/lifecycle-transitions") then
    (HttpJson (VDict [("schema", VStr "responsibility-lifecycle-transition-receipt-v1"); ("authority_bearing", VBool false);
                      ("transition", dict_get d "transition"); ("current_status", VStr "discharged")]),
     mkMiniKernel (mk_losses k) (mk_commands k) (mk_held k)
       (mk_text (mk_dict d "transition") "responsibility_ref" :: mk_discharged k))
  else (HttpRefused 404 "no such route" "404", k).

Definition mk_get (k : MiniKernel) (path : string) : HttpReply * MiniKernel :=
  if bool_decide (path = "/v1/contracts") then (HttpJson (VDict mk_catalog), k)
  else
    match assoc path (mk_commands k) with
    | Some command =>
        let work := mk_text command "work_ref" in
        let expected := VDict (mk_dict command "expected_postcondition") in
        (HttpJson (VDict
           [("schema", VStr "domain-effect-verification-evidence-view-v1"); ("authority_bearing", VBool false);
            ("evidence_ref", VStr ("evidence:" +:+ work)); ("objective_result", VStr "pass");
            ("observed_postcondition", expected); ("expected_postcondition", expected); ("captured_at", mk_time);
            ("action_ref", VStr "action-1"); ("work_ref", VStr work); ("run_ref", VStr "run-1");
            ("verification_request_ref", VStr "verification-1"); ("verification_attempt_ref", VStr "attempt-1");
            ("verifier_provider_id", VStr "hris-verifier");
            ("verifier_provider_execution_binding_ref", VStr "binding-1")]), k)
    | None =>
        match assoc path (mk_held k) with
        | Some ref =>
            (HttpJson (VDict
               [("schema", VStr "responsibility-status-view-v1"); ("authority_bearing", VBool false);
                ("responsibility_ref", VStr ref); ("responsibility_version", VInt 1);
                ("current_status", VStr (if bool_decide (ref ∈ mk_discharged k) then "discharged" else "active"))]), k)
        | None => (HttpRefused 404 "no such route" "404", k)
        end
    end.

#[export] Instance mini_kernel : KernelHttp MiniKernel := {| kernel_post := mk_post; kernel_get := mk_get |}.

(** ** The onboarding over it *)

Definition k_settings : KernelSettings := mkKernelSettings "cutover" "" "development" "policy-ref-1" true false.

Definition k_set : AdministrativeObligationSet :=
  ok_or (mkAdministrativeObligationSet 0 0 0 0 [])
    (derive_onboarding_obligations s_case s_evaluation (gb_basis_id s_basis)).
Definition k_obligations : ObligationDb :=
  snd (ok_or (k_set, empty_obligation_db) (put_in_session empty_obligation_db k_set)).

Definition k_records (_ : nat) : Records :=
  mkRecords s_exec k_obligations s_authority s_governance s_policies empty_txn_db.

Definition k_bridge (losses : nat) : Bridge MiniKernel :=
  mkBridge empty_bridge_db None ∅ (mkMiniKernel losses [] [] []) [] 0.
Definition k_provider (losses : nat) : KernelProvider Plane MiniKernel :=
  mkKernelProvider (mkPlane empty_sandbox [] 500) (k_bridge losses).

#[local] Instance k_cutover : EffectProvider (KernelProvider Plane MiniKernel) := cutover_provider s_clock k_records k_settings.

Definition k_world (losses : nat) : World (KernelProvider Plane MiniKernel) :=
  mkWorld s_exec k_obligations s_authority s_governance s_policies empty_txn_db ∅ ∅ (k_provider losses) [] 0.

Definition k_run (w : World (KernelProvider Plane MiniKernel)) :=
  Execution.run s_clock true (onboarding_engine s_clock true) (c_case_id s_case) w.

(** The case completes: the Kernel executes the two capabilities it owns, the
    fallback provider the third effect. *)
Example k_completes :
  let '(r, w) := k_run (k_world 0) in
  (result_status r, length (executed (w_calls w)), length (br_commands (kv_bridge (w_provider w)))) =
  (Some COMPLETED, 3%nat, 2%nat).
Proof. vm_compute. reflexivity. Qed.

(** ** Witnesses *)

(** The obligation to create the employee, prepared once and twice. *)
Definition k_none : AdministrativeObligation := mkAdministrativeObligation 0 0 0 0 "-" "-" "-" "-" [] NORMAL true EXTERNAL_EFFECT_VERIFIED.
Definition k_hris : AdministrativeObligation := default k_none (head (os_obligations k_set)).
Definition k_call : kernel_call := KernelPrepare s_case k_hris s_basis.

Abbreviation k_serve k := (kernel_serve s_clock k_records k_settings k_call k) (only parsing).
Definition k_once (losses : nat) : KernelProvider Plane MiniKernel := snd (k_serve (k_provider losses)).
Definition k_twice (losses : nat) : KernelProvider Plane MiniKernel := snd (k_serve (k_once losses)).

Lemma k_served (k : KernelProvider Plane MiniKernel) : kernel_step s_clock k_records k_settings k (snd (k_serve k)).
Proof. left. exists k_call, (fst (k_serve k)). apply surjective_pairing. Qed.

Lemma k_history losses : rtc (kernel_step s_clock k_records k_settings) (k_provider losses) (k_twice losses).
Proof. eapply rtc_l; [apply k_served|]. eapply rtc_l; [apply k_served|]. apply rtc_refl. Qed.

Lemma k_once_wf losses : bwf (kv_bridge (k_once losses)).
Proof.
  eapply (history_keeps s_clock k_records k_settings (k_provider losses)); [|by apply fresh_wf].
  eapply rtc_l; [apply k_served|apply rtc_refl].
Qed.

(** The first answer is lost, and the same command is sent again. *)
Definition k_log : list (uuid * pydict) := br_commands (kv_bridge (k_twice 1)).
Definition k_sent (n : nat) : uuid * pydict := default (0%N, []) (k_log !! n).

Example k_sent_twice : length k_log = 2%nat /\ (k_sent 0).1 = (k_sent 1).1.
Proof. vm_compute. done. Qed.

Lemma k_log_two : k_log = [k_sent 0; k_sent 1].
Proof. vm_compute. reflexivity. Qed.
Lemma k_sent_in n : (n < 2)%nat -> k_sent n ∈ k_log.
Proof. rewrite k_log_two. intros Hn. destruct n as [|[|n]]; [left|right; left|lia]. Qed.

Lemma commands_are_frozen_witness :
  exists p1 p2, bd_projections (br_db (kv_bridge (k_twice 1))) !! (k_sent 0).1 = Some p1 /\
    bd_projections (br_db (kv_bridge (k_twice 1))) !! (k_sent 1).1 = Some p2 /\ in_work p1 /\ in_work p2 /\
    (ps_obligation_id (kp_semantics p1) = ps_obligation_id (kp_semantics p2) ->
     (k_sent 0).1 = (k_sent 1).1 /\ (k_sent 0).2 = (k_sent 1).2).
Proof.
  apply (commands_are_frozen s_clock k_records k_settings (k_provider 1)); [done|apply k_history| |].
  - pose proof (k_sent_in 0 ltac:(lia)) as H. destruct (k_sent 0). exact H.
  - pose proof (k_sent_in 1 ltac:(lia)) as H. destruct (k_sent 1). exact H.
Defined.

(** The projection of the obligation once its execution is answered. *)
Definition k_nothing : KernelShadowProjection :=
  mkKernelShadowProjection (mkProjectionSemantics 0 0 0 0 0 0 "-" "-" "-" [] [] [] [] 0) KP_SHADOW no_proposal no_work
    (mkExecutionRefs None None None None None None None None None None None) 0.
Definition k_projection : KernelShadowProjection :=
  default k_nothing (snd <$> head (map_to_list (bd_projections (br_db (kv_bridge (k_once 0)))))).

Lemma k_stored : bd_projections (br_db (kv_bridge (k_once 0))) !! kp_id k_projection = Some k_projection.
Proof. vm_compute. reflexivity. Qed.
Lemma k_receipted : kernel_execution_status (kp_execution k_projection) = Some KE_COMPLETED.
Proof. vm_compute. reflexivity. Qed.

Lemma receipts_are_final_witness :
  (exists p', bd_projections (br_db (kv_bridge (k_twice 0))) !! kp_id k_projection = Some p' /\
     kp_semantics p' = kp_semantics k_projection /\ kp_execution p' = kp_execution k_projection /\
     kp_status p' = kp_status k_projection /\ kp_work p' = kp_work k_projection) /\
  filter (fun x => x.1 = kp_id k_projection) (br_commands (kv_bridge (k_twice 0))) =
  filter (fun x => x.1 = kp_id k_projection) (br_commands (kv_bridge (k_once 0))).
Proof.
  apply (receipts_are_final s_clock k_records k_settings (k_once 0)); [apply k_once_wf|apply k_stored| |].
  - unfold receipted. rewrite k_receipted. discriminate.
  - eapply rtc_l; [apply k_served|apply rtc_refl].
Defined.

(** The effect that implements the obligation, executed and observed. *)
Definition k_effect : EffectRecord :=
  mkEffectRecord 71%N 1%N 4 2 72%N (Some (ob_obligation_id k_hris)) (Some (gb_basis_id s_basis)) (ob_target_system k_hris)
    (ob_required_operation k_hris) (ob_subject_ref k_hris) CORRECTABLE (ob_authority_class k_hris) DISPATCHED None 100 100.

Abbreviation k_executed := (kernel_execute s_clock k_records k_settings k_effect [] (kv_bridge (k_once 0))) (only parsing).
Abbreviation k_observed := (kernel_observe k_effect (kv_bridge (k_once 0))) (only parsing).

Lemma k_succeeds : exists r, fst k_executed = Ok r /\ px_status r = PX_SUCCEEDED.
Proof. vm_compute. eexists. split; reflexivity. Qed.
Lemma k_available : exists o, fst k_observed = Ok o /\ ro_availability o = AVAILABLE.
Proof. vm_compute. eexists. split; reflexivity. Qed.

Lemma success_rests_on_receipt_witness :
  exists obligation p, ef_obligation_id k_effect = Some obligation /\
    bd_projections (br_db (snd k_executed)) !! kp_id p = Some p /\ ps_obligation_id (kp_semantics p) = obligation /\
    success_basis p.
Proof.
  destruct k_succeeds as (r & Hr & Hs).
  apply (success_rests_on_receipt s_clock k_records k_settings k_effect [] (kv_bridge (k_once 0)) _ r); [apply k_once_wf| |exact Hs].
  rewrite (surjective_pairing k_executed) at 1. rewrite Hr. reflexivity.
Defined.

Lemma observations_rest_on_evidence_witness :
  exists o obligation p i v ref result plane,
    fst k_observed = Ok o /\ ef_obligation_id k_effect = Some obligation /\
    get_projection_for_obligation (br_db (kv_bridge (k_once 0))) obligation = Ok (Some p) /\
    claims_evidence p (kv_bridge (k_once 0)) ref result /\ fst (inspect_evidence ref plane) = Ok (Some v) /\
    get_intent (br_db (kv_bridge (k_once 0))) (ps_intent_id (kp_semantics p)) = Some i /\ evidence_supports p i v result /\
    o = evidence_observation k_effect v /\ ro_state o = ev_observed_postcondition v.
Proof.
  destruct k_available as (o & Ho & Ha).
  destruct (observations_rest_on_evidence k_effect (kv_bridge (k_once 0)) (snd k_observed) o)
    as (obligation & p & i & v & ref & result & plane & H); [|exact Ha|].
  - rewrite (surjective_pairing k_observed) at 1. rewrite Ho. reflexivity.
  - exists o, obligation, p, i, v, ref, result, plane. split; [exact Ho|exact H].
Defined.

(** ** Discharge

    The onboarding without an account outside the Kernel's capabilities, run to
    completion over a Kernel whose commands are recorded, then discharged. *)
Definition q_evaluation : PolicyEvaluation :=
  mkPolicyEvaluation (pv_policy_ref s_policy) HUMAN_DECISION_REQUIRED
    "standard onboarding requires approval" [] ["hr_approver"] false
    [mkTemplate "hris" "employee.create" EMPLOYMENT; mkTemplate "iam" "identity.create" PRIVILEGED_ACCESS] None.
Definition q_exec : ExecDb :=
  mkExecDb {[ 21%N := s_request ]} {[ 1%N := mkCaseRow 21%N s_case ]}
    [mkPolicyEvaluationRow 1%N 3 2 q_evaluation] {[ 31%N := s_decision ]} ∅ ∅ ∅ ∅ [].
Definition q_set : AdministrativeObligationSet :=
  ok_or (mkAdministrativeObligationSet 0 0 0 0 []) (derive_onboarding_obligations s_case q_evaluation (gb_basis_id s_basis)).
Definition q_obligations : ObligationDb :=
  snd (ok_or (q_set, empty_obligation_db) (put_in_session empty_obligation_db q_set)).
Definition q_records (_ : nat) : Records :=
  mkRecords q_exec q_obligations s_authority s_governance s_policies empty_txn_db.

#[local] Instance q_cutover : EffectProvider (KernelProvider Plane (Traced MiniKernel)) :=
  cutover_provider s_clock q_records k_settings.

Definition q_bridge : Bridge (Traced MiniKernel) :=
  mkBridge empty_bridge_db None ∅ (mkTraced (mkMiniKernel 0 [] [] []) []) [] 0.
Definition q_world : World (KernelProvider Plane (Traced MiniKernel)) :=
  mkWorld q_exec q_obligations s_authority s_governance s_policies empty_txn_db ∅ ∅
    (mkKernelProvider (mkPlane empty_sandbox [] 500) q_bridge) [] 0.

Abbreviation q_run := (Execution.run s_clock true (onboarding_engine s_clock true) (c_case_id s_case) q_world) (only parsing).
Definition q_done : World (KernelProvider Plane (Traced MiniKernel)) := snd q_run.
Definition q_case : AdministrativeCase := ok_or s_case (fst q_run).
Abbreviation q_discharge :=
  (discharge k_settings (w_exec q_done) (w_obligations q_done) q_case (kv_bridge (w_provider q_done))) (only parsing).

(** Two responsibilities, each driven through its three commands. *)
Example q_discharges :
  (match fst q_discharge with Ok r => (Some (rd_status r), length (rd_responsibility_refs r), rd_blocker r) | Err _ => (None, 0%nat, None) end,
   fst <$> drop (length (bridge_posts (kv_bridge (w_provider q_done)))) (bridge_posts (snd q_discharge))) =
  ((Some DISCHARGE_DISCHARGED, 2%nat, None),
   ["/v1/responsibilities/assessments"; "/v1/responsibilities/discharge-decisions";
    "/v1/responsibilities/lifecycle-transitions"; "/v1/responsibilities/assessments";
    "/v1/responsibilities/discharge-decisions"; "/v1/responsibilities/lifecycle-transitions"]).
Proof. vm_compute. reflexivity. Qed.

Lemma q_returns : exists r, fst q_discharge = Ok r /\ rd_status r = DISCHARGE_DISCHARGED.
Proof. vm_compute. eexists. split; reflexivity. Qed.

(** The tables the run left are well formed, every projection cut over. *)
Definition tables_check (d : BridgeDb) : bool :=
  bool_decide (map_Forall (fun id (g : AdministrativeExecutionGrant) => gr_grant_id g = id) (bd_grants d)) &&
  bool_decide (map_Forall (fun id (i : AdministrativeEffectIntent) => ei_intent_id i = id) (bd_intents d)) &&
  bool_decide (map_Forall (fun id (p : KernelShadowProjection) =>
    kp_id p = id /\ is_ok (refs_match_status p) = true /\ kp_status p = KP_CUTOVER) (bd_projections d)) &&
  bool_decide (NoDup ((fun '(_, p) => ps_obligation_id (kp_semantics p)) <$> map_to_list (bd_projections d))).

Lemma tables_check_ok d : tables_check d = true -> tables_ok d.
Proof.
  unfold tables_check. intros [[[Hg Hi]%andb_true_iff Hp]%andb_true_iff Hn]%andb_true_iff.
  apply bool_decide_eq_true in Hg, Hi, Hp, Hn. split; [exact Hg|exact Hi|..].
  - intros id p Hl. destruct (Hp id p Hl) as (Hid & Hr & _). split; [exact Hid|]. unfold is_ok in Hr.
    destruct (refs_match_status p) as [q|] eqn:E; [|discriminate Hr]. by apply refs_match_id in E as E'; subst.
  - intros id1 id2 p1 p2 H1 H2 Ho. apply elem_of_map_to_list in H1, H2.
    apply list_elem_of_lookup in H1 as [n1 H1], H2 as [n2 H2].
    assert (n1 = n2) as -> by (eapply (NoDup_lookup _ _ _ (ps_obligation_id (kp_semantics p1)) Hn);
      rewrite list_lookup_fmap; [by rewrite H1|by rewrite H2, Ho]). congruence.
  - intros id p Hl. destruct (Hp id p Hl) as (_ & _ & Hc). split; [intros _; by right|done].
Qed.

Lemma q_tables : tables_ok (br_db (kv_bridge (w_provider q_done))).
Proof. apply tables_check_ok. vm_compute. reflexivity. Qed.

Lemma discharge_leaves_nothing_behind_witness :
  exists r s records ps, fst q_discharge = Ok r /\
    get_current (w_obligations q_done) (c_case_id q_case) (c_authority_epoch q_case) = Ok (Some s) /\
    completion_records (w_exec q_done) (w_obligations q_done) q_case = Ok records /\
    c_status q_case = COMPLETED /\ ca_satisfied (completion_of s records) = true /\ cutover k_settings = true /\
    list_projections_for_case (br_db (kv_bridge (w_provider q_done))) (c_case_id q_case) = Ok ps /\
    (forall o, o ∈ required_external s -> exists p ref, current_projections q_case o ps = [p] /\
       kernel_responsibility_ref (kp_proposal p) = Some ref /\ execution_completed (P := Traced MiniKernel) p ref) /\
    (forall p, p ∈ ps -> exists ref version, carries_responsibility p ref version /\ ref ∈ rd_responsibility_refs r /\
       reported_discharged (P := Traced MiniKernel) ref version) /\
    pg_discharged (rd_progress r) = rd_responsibility_refs r.
Proof.
  destruct q_returns as (r & Hr & Hs). exists r.
  destruct (discharge_leaves_nothing_behind k_settings (w_exec q_done) (w_obligations q_done) q_case
              (kv_bridge (w_provider q_done)) (snd q_discharge) r q_tables) as (s & records & ps & H); [|exact Hs|].
  - rewrite <- Hr. apply surjective_pairing.
  - exists s, records, ps. split; [exact Hr|exact H].
Defined.

Lemma discharge_follows_the_protocol_witness :
  bstill (kv_bridge (w_provider q_done)) (snd q_discharge) /\
  (bridge_posts (snd q_discharge) = bridge_posts (kv_bridge (w_provider q_done)) \/
   exists s records handles sent,
     get_current (w_obligations q_done) (c_case_id q_case) (c_authority_epoch q_case) = Ok (Some s) /\
     completion_records (w_exec q_done) (w_obligations q_done) q_case = Ok records /\
     c_status q_case = COMPLETED /\ ca_satisfied (completion_of s records) = true /\
     NoDup (rh_responsibility_ref <$> handles) /\
     bridge_posts (snd q_discharge) = bridge_posts (kv_bridge (w_provider q_done)) ++ concat sent /\
     Forall2 (fun h l => l `prefix_of` discharge_chain q_case (completion_of s records) records h) handles sent).
Proof.
  apply (discharge_follows_the_protocol k_settings (w_exec q_done) (w_obligations q_done) q_case _ _ (fst q_discharge)).
  apply surjective_pairing.
Defined.
