(* ===== verification/Witnesses.v ===== *)
(** * Witnesses

    For each theorem with hypotheses, a concrete input at which they hold: the
    theorem is applied there, the hypotheses discharged by evaluation. *)

From stdpp Require Import base gmap strings list relations.
From Stdlib Require Import ZArith Lia.
From S2P Require Import Prelude Python CPython Store Domain Policy Authority Lifecycle Obligations.
From S2P Require Import Completion Verification Transfer Derivation PolicyPlane Financial.
From S2P Require Import Persistence Transactions Governance Machine Execution ExecutionSafety.
From S2P Require Import CaseFlow FactAcquisition OnboardingEngine OffboardingEngine OffboardingSafety Engines.
From S2P Require Import Sandbox Scenario.

Open Scope Z_scope.

(** A computation that returned, as an equation. *)
Lemma returned {A S} (r : result A * S) : is_ok (fst r) = true -> exists a, r = (Ok a, snd r).
Proof. destruct r as [[a|e] s]; [|done]. intros _. by exists a. Qed.

Lemma ok_value {A} (d : A) (r : result A) : is_ok r = true -> r = Ok (ok_or d r).
Proof. by destruct r. Qed.

(** ** The engines *)

(** Every stored definition read as the default one. *)
Definition s_parse (_ : pydict) : result OffboardingPolicyDefinition :=
  Ok OffboardingPolicy_default_definition.

(** A production source that is never reached. *)
Definition s_unread (_ : nat) (_ : string) : result AuthoritativeRecord :=
  raise RuntimeError "authoritative source is unavailable".

Notation s_onboard w := (onboarding_run s_clock true 1%N w) (only parsing).

Lemma s_chain faults : chain_ok (w_exec (s_world faults)).
Proof. split; cbn; try apply keyed_empty. apply map_Forall_empty. Qed.

Lemma s_stored faults : stored (s_world faults) s_case.
Proof. exists 21%N. reflexivity. Qed.

Lemma s_attempt (w : World Plane) : attempt s_clock true s_parse s_unread 60 w (fst (s_onboard w)) (snd (s_onboard w)).
Proof. exists 1%N. left. apply surjective_pairing. Qed.

Lemma attempt_chain (w w' : World Plane) r :
  attempt s_clock true s_parse s_unread 60 w r w' -> chain_ok (w_exec w) -> chain_ok (w_exec w').
Proof.
  intros Hm%attempt_moves Hck. destruct r as [c|e]; [|destruct Hm as [Hm _]];
    destruct (Hm Hck) as [Hck' _]; exact Hck'.
Qed.



Lemma evidence_chain_is_preserved_witness :
  chain_ok (w_exec (snd (s_onboard (s_world [])))) /\
  size (x_outcomes (w_exec (snd (s_onboard (s_world []))))) = 3%nat.
Proof.
  split; [|vm_compute; reflexivity].
  apply (evidence_chain_is_preserved s_clock true s_parse s_unread 60 (s_world [])); [apply s_chain|].
  apply rtc_once. left. eexists. apply s_attempt.
Defined.

Lemma s_run_ok : is_ok (fst (s_run (s_world []))) = true.
Proof. vm_compute. reflexivity. Qed.

Lemma s_run_completed : result_status (fst (s_run (s_world []))) = Some COMPLETED.
Proof. vm_compute. reflexivity. Qed.

Lemma completion_rests_on_proof_witness :
  exists c', s_run (s_world []) = (Ok c', snd (s_run (s_world []))) /\ c_status c' = COMPLETED /\
    stored (snd (s_run (s_world []))) c'.
Proof.
  destruct (returned _ s_run_ok) as [c' Hrun]. exists c'. split; [exact Hrun|].
  pose proof s_run_completed as Hs. rewrite Hrun in Hs. injection Hs as Hst. split; [exact Hst|].
  exact (proj1 (completion_rests_on_proof s_clock true (s_world []) _ s_case c'
                  (s_stored []) (s_chain []) eq_refl Hrun Hst)).
Defined.

(** A completed case, run again: nothing happens. *)
Definition s_done_case : AdministrativeCase :=
  mkAdministrativeCase 1%N "employee-onboarding" "requester" "emp-1" COMPLETED 7 2 (Some s_snapshot)
    (Some (pv_policy_ref s_policy)) [] None 20 60.
Definition s_done_world : World Plane :=
  set_exec (s_world []) (set_cases s_exec {[ 1%N := mkCaseRow 21%N s_done_case ]}).
Notation s_done_run :=
  (Execution.run s_clock true (onboarding_engine s_clock true) (c_case_id s_done_case) s_done_world)
  (only parsing).

Lemma s_done_ok : is_ok (fst s_done_run) = true.
Proof. vm_compute. reflexivity. Qed.

Lemma s_done_stored : stored s_done_world s_done_case.
Proof. by exists 21%N. Qed.

Lemma run_returns_the_stored_case_witness : s_done_run = (Ok s_done_case, s_done_world).
Proof.
  destruct (returned _ s_done_ok) as [c' Hrun].
  destruct (run_returns_the_stored_case s_clock true s_done_world _ s_done_case c' s_done_stored Hrun)
    as [_ Hsame].
  destruct (Hsame eq_refl) as [Hc Hw]. rewrite Hrun, Hc, Hw. reflexivity.
Defined.

(** The approver lost the role: the basis is stale. *)
Definition s_stale_world : World Plane :=
  mkWorld s_exec empty_obligation_db (with_role_assignments s_authority ∅) s_governance s_policies
    empty_txn_db ∅ ∅ (mkPlane empty_sandbox [] 500) [] 0.

Notation s_verdict := (validate_onboarding_governance s_clock true s_case s_stale_world) (only parsing).

Definition refused (r : result (option GovernanceValidation)) : bool :=
  match r with Ok (Some g) => negb (gv_valid g) | _ => false end.

Lemma s_stale_refused : refused (fst s_verdict) = true.
Proof. vm_compute. reflexivity. Qed.

Lemma s_stale_ok : is_ok (fst (s_run s_stale_world)) = true.
Proof. vm_compute. reflexivity. Qed.

Lemma s_stale_stored : stored s_stale_world s_case.
Proof. by exists 21%N. Qed.

Lemma refused_inv {S} (r : result (option GovernanceValidation) * S) :
  refused (fst r) = true -> exists v, r = (Ok (Some v), snd r) /\ gv_valid v = false.
Proof.
  destruct r as [[[v|]|e] s]; try done. cbn. intros Hv%negb_true_iff. by exists v.
Qed.

Lemma stale_governance_blocks_execution_witness :
  exists c', s_run s_stale_world = (Ok c', snd (s_run s_stale_world)) /\
    c_status c' = REOPEN_REQUIRED /\ w_calls (snd (s_run s_stale_world)) = [].
Proof.
  destruct (returned _ s_stale_ok) as [c' Hrun]. destruct (refused_inv _ s_stale_refused) as (v & Hv & Hinv).
  destruct (stale_governance_blocks_execution s_clock true s_stale_world _ _ s_case c' v
              s_stale_stored eq_refl Hv Hinv Hrun) as (_ & Hst & _ & _ & Hcalls & _).
  exists c'. split; [exact Hrun|]. split; [exact Hst|exact Hcalls].
Defined.

Notation s_planned := (plan_onboarding_effects s_clock true s_case (s_world [])) (only parsing).

Lemma s_planned_ok : is_ok (fst s_planned) = true.
Proof. vm_compute. reflexivity. Qed.

Lemma s_planned_three : size (x_effects (w_exec (snd s_planned))) = 3%nat.
Proof. vm_compute. reflexivity. Qed.

Lemma planning_covers_every_obligation_witness :
  size (x_effects (w_exec (snd s_planned))) = 3%nat /\
  exists evaluation gb s, derive_obligations s_case evaluation gb = Ok s /\
    forall o, o ∈ os_obligations s -> planned_for (snd s_planned) s_case o.
Proof.
  destruct (returned _ s_planned_ok) as [u Hrun].
  destruct (planning_covers_every_obligation s_clock true (s_world []) _ s_case u (rtc_refl _ _) Hrun)
    as (ev & gb & s & r & Hs & _ & _ & _ & Hall).
  split; [exact s_planned_three|]. exists ev, gb, s. split; [exact Hs|exact Hall].
Defined.

Definition s_effects : list EffectRecord :=
  list_effects (w_exec (snd s_planned)) (w_links (snd s_planned)) 1%N 2.

Notation s_dispatched :=
  (drive_dispatch s_clock (onboarding_hooks s_clock true) s_case s_effects None [] (snd s_planned))
  (only parsing).

Lemma s_planned_chain : chain_ok (w_exec (snd s_planned)).
Proof.
  pose proof (law_plan (P := Plane) (owner := onboarding_hooks s_clock true) s_case) as Hplan.
  destruct (returned _ s_planned_ok) as [u Hrun].
  exact (proj1 (Hplan _ _ _ Hrun (s_chain []))).
Qed.

Lemma s_effects_stored e :
  e ∈ s_effects -> is_Some (x_effects (w_exec (snd s_planned)) !! ef_effect_id e).
Proof.
  intros He. unfold s_effects, list_effects in He.
  apply list_elem_of_fmap in He as (row & -> & Hrow). apply elem_of_sort_by, elem_of_select_where in Hrow as [[k Hk] _].
  pose proof (ck_effects _ s_planned_chain k row Hk) as Hkey. cbn [effect_from_row ef_effect_id].
  cbn in Hkey. rewrite Hkey. exists row. exact Hk.
Qed.

Lemma s_dispatched_ok : is_ok (fst s_dispatched) = true.
Proof. vm_compute. reflexivity. Qed.

Lemma dispatch_state_is_faithful_witness :
  exists d, s_dispatched = (Ok d, snd s_dispatched) /\
    (d = dispatch_succeeded ->
       forall e, e ∈ s_effects -> has_status (snd s_dispatched) (ef_effect_id e) SUCCEEDED).
Proof.
  destruct (returned _ s_dispatched_ok) as [d Hrun]. exists d. split; [exact Hrun|].
  exact (proj1 (dispatch_state_is_faithful s_clock (onboarding_hooks s_clock true) s_case s_effects None []
                  _ _ d s_planned_chain s_effects_stored Hrun)).
Defined.

(** ** The sandbox *)

Definition s_wiki : AuthorizedEffectTemplate := mkTemplate "wiki" "account.provision" NORMAL.
Definition s_effect : EffectRecord :=
  mkEffectRecord 77%N 1%N 4 2 78%N None None "wiki" "account.provision" "emp-1" CORRECTABLE NORMAL
    DISPATCHED None 50 50.
Definition s_plane : Plane := mkPlane empty_sandbox [ResponseLost] 500.
Definition s_other_body : ApplyEffectBody := mkApplyEffectBody "hris" "employee.create" "emp-2" [] (Some "r1").

Lemma executed_effects_verify_witness :
  let p' := snd (http_execute s_plane s_effect s_facts) in
  let later := snd (apply_effect (pl_db p') 99%N s_other_body 600) in
  exists o v, observe_effect later 77%N = inr o /\
    verify_onboarding_observation s_effect (reality_of o) (Some s_facts)
      (Some (onboarding_postcondition s_case s_facts s_wiki)) = Ok v /\ sv_disposition v = V_VERIFIED.
Proof.
  intros p' later.
  apply (executed_effects_verify s_case s_wiki s_effect s_facts s_plane p'
           (mkProviderExecutionResult PX_OUTCOME_UNKNOWN None (Some "timed out") false) later);
    try reflexivity.
  - intros _. exists [VStr "wiki"]. split; [reflexivity|left].
  - discriminate.
  - apply rtc_once. exists 99%N s_other_body 600 (fst (apply_effect (pl_db p') 99%N s_other_body 600)).
    apply surjective_pairing.
Defined.

(** ** Governance *)

Lemma s_basis_created : is_ok s_created_basis = true.
Proof. vm_compute. reflexivity. Qed.

Lemma s_created_basis_eq : exists g, s_created_basis = Ok (s_basis, g).
Proof.
  pose proof s_basis_created as Hok. unfold s_basis. destruct s_created_basis as [[b g]|e]; [|discriminate Hok].
  exists g. reflexivity.
Qed.

Lemma fresh_basis_revalidates_witness :
  gv_valid (revalidate s_policies empty_txn_db s_authority s_basis s_case 50 50) = true.
Proof.
  destruct s_created_basis_eq as [g Hb].
  apply (fresh_basis_revalidates ∅ s_exec s_authority s_policies empty_txn_db s_case s_satisfaction
           "acme" (Some ["employee_ref"; "department_ref"]) [] s_basis g s_policy 50 Hb).
  - apply lookup_empty.
  - intros s [= <-]. reflexivity.
  - vm_compute. reflexivity.
  - reflexivity.
  - reflexivity.
Defined.

Lemma qualification_agrees_with_roles_witness :
  is_Some (select_qualification_basis s_authority "ann" "hr_approver" "acme" 50).
Proof.
  apply (qualification_agrees_with_roles s_authority "ann" "hr_approver" "acme" 50 {["hr_approver"]}).
  - vm_compute. reflexivity.
  - split; [exists (mkPrincipalRow PERSON "Ann" true); split; reflexivity|]. apply elem_of_singleton_2.
    reflexivity.
Defined.

(** ** Authority *)

Lemma roles_for_exact_witness :
  exists roles, roles_for s_authority "ann" "acme" 50 = Ok roles /\ "hr_approver" ∈ roles.
Proof.
  destruct (roles_for_exact s_authority "ann" "acme" 50) as (roles & Hr & Hspec).
  - intros k d Hd. discriminate Hd.
  - exists roles. split; [exact Hr|]. apply Hspec. left. exists 41%N, s_assignment.
    repeat split; reflexivity.
Defined.

Lemma resolve_decision_role_sound_witness :
  "hr_approver" ∈ pe_required_decision_roles s_evaluation /\
  (holds_directly s_authority "ann" "acme" 50 "hr_approver" \/
   holds_by_delegation s_authority "ann" "acme" 50 "hr_approver").
Proof.
  exact (proj1 (resolve_decision_role_sound s_authority "ann" s_evaluation "acme" None 50 "hr_approver"
                  ltac:(vm_compute; reflexivity))).
Defined.

Lemma assess_approval_exact_witness :
  exists a sel, assess_approval_satisfaction s_authority 1%N 2 (pv_policy_ref s_policy) s_evaluation
              [s_decision] "acme" 50 = Ok a /\ aa_satisfied a = true /\
    approval_witness s_authority 1%N 2 (pv_policy_ref s_policy) s_evaluation [s_decision] "acme" sel.
Proof.
  destruct (assess_approval_satisfaction s_authority 1%N 2 (pv_policy_ref s_policy) s_evaluation
              [s_decision] "acme" 50) as [a|e] eqn:Ha; [|exfalso; vm_compute in Ha; discriminate Ha].
  assert (Hsat : aa_satisfied a = true) by (vm_compute in Ha; injection Ha as <-; reflexivity).
  destruct (proj1 (proj1 (assess_approval_exact _ _ _ _ _ _ _ _ a Ha)) Hsat) as [sel Hsel].
  exists a, sel. split; [reflexivity|]. split; [exact Hsat|exact Hsel].
Defined.

(** ** The case lifecycle *)

Definition s_authorization : ExecutionAuthorization :=
  mkExecutionAuthorization 51%N 1%N 4 2 (Some 31%N) None "service" "hris" "emp-1" ["employee.create"]
    EMPLOYMENT (pv_policy_ref s_policy) 60 None None.
Definition s_executing : AdministrativeCase := move s_case EXECUTING 70.

Lemma s_run_executing : Lifecycle.run s_case [OpBeginExecution] s_executing.
Proof. eapply (run_step _ _ s_case _ 70); [apply run_nil|done|reflexivity]. Qed.

Lemma authorization_fenced_by_epoch_witness :
  c_policy_ref s_executing = Some (ea_policy_ref s_authorization) /\
  "employee.create" ∈ ea_allowed_operations s_authorization.
Proof.
  destruct (authorization_fenced_by_epoch s_case s_authorization [OpBeginExecution] s_executing
              "employee.create" 80) as (_ & _ & _ & _ & Hop & _ & Hp).
  - left. exists s_decision, "service", "hris", ["employee.create"], EMPLOYMENT, None, 51%N, 60. reflexivity.
  - exact s_run_executing.
  - vm_compute. reflexivity.
  - split; [exact Hp|exact Hop].
Defined.

Lemma reachable_case_valid_witness :
  validate_case s_case = Ok s_case /\ 1 <= c_authority_epoch s_case <= c_version s_case.
Proof.
  destruct (reachable_case_valid _ _ _ _ _ _ _ _ _ s_create s_approved) as (Hv & _ & _ & _ & He).
  split; [exact Hv|exact He].
Defined.

Lemma execution_requires_approval_witness :
  exists d, OpRecordDecision d true ∈ s_approval_ops /\ d_disposition d = APPROVE /\ d_case_id d = 1%N.
Proof.
  destruct (execution_requires_approval _ _ _ _ _ _ _ _ _ s_create s_approved eq_refl)
    as (d & Hin & Hd & Hid & _).
  exists d. split; [exact Hin|]. split; [exact Hd|exact Hid].
Defined.

Definition s_verifying : AdministrativeCase := move s_executing VERIFYING 80.
Definition s_finished : AdministrativeCase := move s_verifying COMPLETED 90.
Definition s_finish_ops : list case_op :=
  [OpComplete 3 3; OpBeginVerification; OpBeginExecution] ++ s_approval_ops.

Lemma s_run_finished : Lifecycle.run s_created s_finish_ops s_finished.
Proof.
  eapply (run_step _ _ s_verifying _ 90); [|done|reflexivity].
  eapply (run_step _ _ s_executing _ 80); [|done|reflexivity].
  eapply (run_step _ _ s_case _ 70); [apply s_approved|done|reflexivity].
Qed.

Lemma completion_is_earned_witness :
  exists e, apply_op (OpRequireReopen REALITY_MISMATCH) s_finished 100 = Err e.
Proof.
  exact (proj2 (completion_is_earned _ _ _ _ _ _ _ _ _ s_create s_run_finished eq_refl) _ _).
Defined.

Definition s_leaving_snapshot : FactSnapshot :=
  mkFactSnapshot 12%N "hris" "hr" AUTHORITATIVE None None 10
    [("termination_effective_at", VStr "2026-01-01T00:00:00+00:00")]
    [("termination_effective_at", mkFactAssertion (VStr "2026-01-01T00:00:00+00:00") AUTHORITATIVE
        "hris" "hr" None None 10 None)] None.
Definition s_leaving : AdministrativeCase :=
  mkAdministrativeCase 2%N "employee-offboarding" "requester" "emp-1" AUTHORIZED 4 2
    (Some s_leaving_snapshot) None [] None 20 50.
Notation s_parked := (begin_waiting_for_effective_time s_leaving 100 100) (only parsing).

Lemma s_parked_ok : is_ok s_parked = true.
Proof. vm_compute. reflexivity. Qed.

Lemma waiting_round_trip_witness :
  exists w effective_at, s_parked = Ok w /\
    authoritative_effective_time s_leaving = Some effective_at /\ 100 < effective_at.
Proof.
  pose proof (ok_value s_leaving _ s_parked_ok) as Hw.
  destruct (waiting_round_trip s_leaving 100 100 _ 200 200 Hw) as (t & Ht & Hlt & _).
  exists (ok_or s_leaving s_parked), t. split; [exact Hw|]. split; [exact Ht|exact Hlt].
Defined.

(** ** Policy *)

Definition s_offboarding_facts : OffboardingFacts :=
  mkOffboardingFacts "emp-1" (Some "terminated") (Some "2026-01-01T00:00:00+00:00") (Some "full_time")
    (Some "eng") (Some "boss") (Some "ep-1") (Some "p-1") None None None [] false.

Lemma offboarding_evaluate_exact_witness :
  exists e, OffboardingPolicy_evaluate sample_policy_ref OffboardingPolicy_default_definition
              s_offboarding_facts = Ok e /\ evaluation_valid e.
Proof.
  destruct (offboarding_evaluate_exact sample_policy_ref OffboardingPolicy_default_definition
              s_offboarding_facts) as (e & He & Hv & _).
  - split; [discriminate|cbn; first [discriminate|intros _; lia]].
  - split; [discriminate|cbn; first [discriminate|intros _; lia]].
  - exists e. split; [exact He|exact Hv].
Defined.
