(* ===== verification/Departure.v ===== *)
(** * A governed departure, end to end

    One concrete offboarding on the concrete platform: a manager leaves, with an
    identity binding, a role to hand over to a named successor and a delegation
    received.  [Directory] is a provider that does what it is asked and reports
    it.  The witnesses of the offboarding theorems evaluate this history. *)

From stdpp Require Import base gmap strings list relations.
From Stdlib Require Import ZArith Lia.
From S2P Require Import Prelude Python CPython Uuid Store Domain Policy Authority AuthorityLifecycle.
From S2P Require Import Lifecycle Obligations Completion Verification Transfer Derivation PolicyPlane.
From S2P Require Import Financial Persistence Transactions Governance Machine Execution.
From S2P Require Import ExecutionSafety CaseFlow OnboardingEngine OffboardingEngine OffboardingSafety.
From S2P Require Import OffboardingRevocation Engines Sandbox Scenario Witnesses.

Open Scope Z_scope.

(** ** An obedient provider *)

Definition Directory : Type := gmap uuid RealityObservation.

Definition directory_state (effect : EffectRecord) (payload : pydict) : pydict :=
  [("target_system", VStr (ef_target_system effect)); ("operation", VStr (ef_operation effect));
   ("subject_ref", VStr (ef_subject_ref effect)); ("payload", VDict (present_facts offboarding_fields payload))]
  ++ default [] (offboarding_effect_state (ef_operation effect)).

Definition directory_observation (effect : EffectRecord) (payload : pydict) : RealityObservation :=
  mkRealityObservation AVAILABLE PRESENT CURRENT (ef_target_system effect) (ef_operation effect)
    (ef_subject_ref effect) (Some "directory") (directory_state effect payload) (Some "digest") 1002000
    None None.

#[export] Instance directory_provider : EffectProvider Directory :=
  {| provider_execute p effect payload :=
       (Ok (mkProviderExecutionResult PX_SUCCEEDED (Some "directory") None false),
        <[ef_effect_id effect := directory_observation effect payload]> p);
     provider_observe p effect :=
       (match p !! ef_effect_id effect with
        | Some o => Ok o
        | None => raise KeyError (uuid_str (ef_effect_id effect))
        end, p);
     provider_prepare p _ _ _ := (Ok tt, p) |}.

#[export] Instance directory_contract : ProviderContract Directory.
Proof. intros p effect payload e p'. discriminate. Qed.

(** ** The case *)

Definition d_effective : string := "1970-01-01T00:00:01+00:00".
Definition d_time : instant := 1000000.

Definition d_facts : pydict :=
  [("employee_ref", VStr "emp-2"); ("termination_status", VStr "scheduled");
   ("termination_effective_at", VStr d_effective); ("departing_principal_id", VStr "dan");
   ("successor_principal_id", VStr "sue")].

Definition d_assertion (v : pyval) : FactAssertion :=
  mkFactAssertion v AUTHORITATIVE "hris" "hr" None None 10 None.

Definition d_snapshot : FactSnapshot :=
  mkFactSnapshot 12%N "hris" "hr" AUTHORITATIVE None None 10 d_facts
    ((fun kv => (fst kv, d_assertion (snd kv))) <$> d_facts) None.

Definition d_policy : PolicyVersionRecord :=
  mkPolicyVersionRecord "employee-offboarding" "v1" "hr" ACTIVE 0 None [] 0.

Definition d_request : AdministrativeRequest :=
  mkAdministrativeRequest 22%N "requester" "chat" "offboard emp-2" 10 None.

Definition d_evaluation : PolicyEvaluation :=
  mkPolicyEvaluation (pv_policy_ref d_policy) HUMAN_DECISION_REQUIRED "offboarding requires approval" []
    ["hr_approver"] false (off_base_effects OffboardingPolicy_default_definition) None.

Definition d_decision : Decision :=
  mkDecision 32%N 2%N 3 2 "ann" (Some "hr_approver") APPROVE "agreed" (pv_policy_ref d_policy) 50.

Definition d_case : AdministrativeCase :=
  mkAdministrativeCase 2%N "employee-offboarding" "requester" "emp-2" AUTHORIZED 4 2 (Some d_snapshot)
    (Some (pv_policy_ref d_policy)) [] None 20 50.

(** ** Authority and governance *)

Definition d_satisfaction : ApprovalSatisfaction :=
  mkApprovalSatisfaction (uuid5 (satisfaction_name 2%N 2 [32%N])) 2%N 2 (pv_policy_ref d_policy)
    [32%N] ["hr_approver"] 50.

Definition d_authority : AuthorityDb :=
  mkAuthorityDb
    {[ "ann" := mkPrincipalRow PERSON "Ann" true; "dan" := mkPrincipalRow PERSON "Dan" true;
       "sue" := mkPrincipalRow PERSON "Sue" true ]}
    {[ 51%N := mkIdentityBinding 51%N "oidc" "dan@acme" "dan" 0 None ]}
    {[ 41%N := s_assignment; 42%N := mkRoleAssignment 42%N "dan" "manager" "eng" 0 None;
       43%N := mkRoleAssignment 43%N "sue" "access_approver" "eng" 0 None ]}
    {[ 61%N := mkDelegation 61%N "ann" "dan" "hr_approver" "eng" 0 9000000 ]}
    {[ 32%N := mkDecisionAuthorityBinding 32%N "hr_approver" "acme" "ann" 50 ]}
    {[ as_satisfaction_id d_satisfaction := d_satisfaction ]}.

Definition d_policies : PolicyDb := mkPolicyDb {[ ("employee-offboarding", "v1") := d_policy ]} ∅.

Definition d_exec : ExecDb :=
  mkExecDb {[ 22%N := d_request ]} {[ 2%N := mkCaseRow 22%N d_case ]}
    [mkPolicyEvaluationRow 2%N 3 2 d_evaluation] {[ 32%N := d_decision ]} ∅ ∅ ∅ ∅ [].

Definition d_basis : GovernanceBasis :=
  fst (ok_or (s_empty_basis, ∅)
         (create_for_approval ∅ d_exec d_authority d_policies empty_txn_db d_case d_satisfaction "acme"
            (Some ["termination_status"]) [])).

(** Readings 0 to 999 are before the effective time. *)
Definition d_clock (n : nat) : instant := 999000 + Z.of_nat n.

Definition d_world (ticks : nat) : World Directory :=
  mkWorld d_exec empty_obligation_db d_authority {[ gb_basis_id d_basis := d_basis ]} d_policies
    empty_txn_db ∅ ∅ ∅ [] ticks.

Notation d_run w := (Execution.run d_clock true (offboarding_engine d_clock true s_parse) 2%N w) (only parsing).
Notation d_offboard w := (offboarding_run d_clock true s_parse 2%N w) (only parsing).
Notation d_plan w := (plan_offboarding_effects d_clock s_parse d_case w) (only parsing).

(** The departure completes; the successor has the role, the departing principal
    none. *)
Example d_completes :
  let '(r, w) := d_offboard (d_world 2000) in
  result_status r = Some COMPLETED /\ length (executed (w_calls w)) = 3%nat /\
  get_principal (w_authority w) "dan" = None /\
  roles_for (w_authority w) "dan" "eng" 1003000 = Ok ∅ /\
  roles_for (w_authority w) "sue" "eng" 1003000 = Ok {[ "access_approver"; "manager" ]}.
Proof. vm_compute. done. Qed.

(** ** Witnesses *)

Lemma d_stored ticks : stored (d_world ticks) d_case.
Proof. by exists 22%N. Qed.

Lemma d_read ticks : get_case (w_exec (d_world ticks)) (c_case_id d_case) = Ok (Some d_case).
Proof. vm_compute. reflexivity. Qed.

Lemma d_authoritative : authoritative_effective_time d_case = Some d_time.
Proof. vm_compute. reflexivity. Qed.

Lemma d_chain ticks : chain_ok (w_exec (d_world ticks)).
Proof. split; cbn; try apply keyed_empty. apply map_Forall_empty. Qed.

Lemma nothing_happens_before_effective_time_witness :
  exists c' w', d_offboard (d_world 0) = (Ok c', w') /\ c_status c' = WAITING /\
    w_authority w' = d_authority /\ w_calls w' = [].
Proof.
  destruct (nothing_happens_before_effective_time d_clock true s_parse (d_world 0) d_case d_time
              (d_stored 0) (d_read 0) eq_refl (or_introl eq_refl) d_authoritative)
    as (c' & w' & Hrun & _ & Hst & _ & Hcalls & _ & Ha & _); [reflexivity..|].
  exists c', w'. split_and!; assumption.
Defined.

Lemma d_identified : rows_identified d_authority.
Proof.
  split_and!; intros k row Hrow; cbn in Hrow.
  - apply lookup_singleton_Some in Hrow as [<- <-]. by split.
  - repeat (apply lookup_insert_Some in Hrow as [[<- <-]|[_ Hrow]]; [by split|]).
    apply lookup_singleton_Some in Hrow as [<- <-]. by split.
  - apply lookup_singleton_Some in Hrow as [<- <-]. by split.
Qed.

Lemma d_plan_ok : fst (d_plan (d_world 2000)) = Ok tt.
Proof. vm_compute. reflexivity. Qed.

Lemma d_plans : plans_departure_at s_parse (d_world 2000) d_case "dan" d_time.
Proof.
  exists d_snapshot, (pv_policy_ref d_policy), d_policy, OffboardingPolicy_default_definition.
  split_and!; vm_compute; reflexivity.
Qed.

Lemma departure_revokes_authority_witness :
  departed (w_authority (snd (d_plan (d_world 2000)))) "dan" d_time.
Proof.
  destruct (departure_revokes_authority d_clock s_parse (d_world 2000) _ d_case _ "dan" d_time
              (surjective_pairing (d_plan (d_world 2000)))) as [_ Hdep].
  apply Hdep; [apply rtc_refl|reflexivity|exact d_identified|exact d_plans|exact d_authoritative|exact d_plan_ok].
Defined.

Lemma d_run_ok : is_ok (fst (d_run (d_world 2000))) = true.
Proof. vm_compute. reflexivity. Qed.

Lemma d_run_completed : result_status (fst (d_run (d_world 2000))) = Some COMPLETED.
Proof. vm_compute. reflexivity. Qed.

Lemma offboarding_completion_rests_on_proof_witness :
  exists c', d_run (d_world 2000) = (Ok c', snd (d_run (d_world 2000))) /\ c_status c' = COMPLETED /\
    stored (snd (d_run (d_world 2000))) c'.
Proof.
  destruct (returned _ d_run_ok) as [c' Hrun]. exists c'. split; [exact Hrun|].
  pose proof d_run_completed as Hs. rewrite Hrun in Hs. injection Hs as Hst. split; [exact Hst|].
  exact (proj1 (offboarding_completion_rests_on_proof d_clock true s_parse (d_world 2000) _ d_case c'
                  (d_stored 2000) (d_chain 2000) eq_refl Hrun Hst)).
Defined.

(** An identity the authoritative system reports as still enabled. *)
Definition d_disable : AuthorizedEffectTemplate := mkTemplate "iam" "identity.disable" PRIVILEGED_ACCESS.

Definition d_disable_effect : EffectRecord :=
  mkEffectRecord 71%N 2%N 4 2 72%N (Some 73%N) (Some 74%N) "iam" "identity.disable" "emp-2"
    IRREVERSIBLE PRIVILEGED_ACCESS SUCCEEDED None 60 60.

Definition d_disable_obligation : result AdministrativeObligation :=
  offboarding_effect_obligation d_case d_facts 74%N d_disable.

Definition d_still_enabled : RealityObservation :=
  with_state (directory_observation d_disable_effect d_facts)
    (dict_set (ro_state (directory_observation d_disable_effect d_facts)) "enabled" (VBool true)).

Definition d_verdict (observation : RealityObservation) : option VerificationDisposition :=
  match d_disable_obligation with
  | Ok o => match verify_onboarding_observation d_disable_effect observation (Some d_facts)
                    (Some (ob_expected_postcondition o)) with
            | Ok r => Some (sv_disposition r)
            | Err _ => None
            end
  | Err _ => None
  end.

Lemma disabling_is_demanded_but_not_verified_witness :
  d_verdict d_still_enabled = Some V_VERIFIED /\
  dict_get (ro_state d_still_enabled) "enabled" = VBool true.
Proof.
  split; [|reflexivity]. unfold d_verdict. destruct d_disable_obligation as [o|e] eqn:Ho; [|discriminate Ho].
  destruct (disabling_is_demanded_but_not_verified d_case d_facts 74%N d_disable o d_disable_effect
              (directory_observation d_disable_effect d_facts) (Some d_facts) (VBool true) Ho)
    as (_ & _ & Hv & _).
  unfold d_still_enabled. rewrite Hv. injection Ho as <-. vm_compute. reflexivity.
Defined.

(** *** Revocation *)

Definition d_table : gmap uuid RoleAssignment := role_assignments d_authority.

Definition d_expiry :=
  expire_validity "role_assignment.expired" "role-assignment" "role assignment expiry" d_table ∅ 42%N
    "admin" "left" d_time.

Lemma expire_validity_exact_witness :
  match d_expiry with
  | Ok (ev, (table', events')) =>
      ev_occurred_at ev = d_time /\
      expire_validity "role_assignment.expired" "role-assignment" "role assignment expiry" table' events'
        42%N "admin" "left" d_time = Ok (ev, (table', events'))
  | Err _ => False
  end.
Proof.
  destruct d_expiry as [[ev [table' events']]|e] eqn:He; [|discriminate He].
  unfold d_expiry in He. destruct (expire_validity_exact _ _ _ _ _ _ _ _ _ _ _ _ He) as (_ & Hat & _ & _ & Hagain).
  split; assumption.
Defined.

Definition d_state : AuthorityDb * gmap uuid AuthorityLifecycleEvent := (d_authority, ∅).

Definition d_deactivated : AuthorityDb * gmap uuid AuthorityLifecycleEvent :=
  match deactivate_principal d_authority ∅ "dan" "admin" "left" d_time with
  | Ok (_, s) => s
  | Err _ => d_state
  end.

Lemma d_disjoint : identities_disjoint (fst d_state).
Proof.
  intros k1 k2 b1 b2 at_ H1 H2 _ _ _ _. cbn in H1, H2.
  apply lookup_singleton_Some in H1 as [<- _]. by apply lookup_singleton_Some in H2 as [<- _].
Qed.

Lemma d_revoked : revocation d_state d_deactivated.
Proof. eapply (revoke_principal _ _ "dan" "admin" "left" d_time). reflexivity. Qed.

Lemma revocations_never_grant_witness :
  (forall p q, get_principal (fst d_deactivated) p = Some q -> get_principal d_authority p = Some q) /\
  resolve_identity d_authority "oidc" "dan@acme" 5 <> None /\
  resolve_identity (fst d_deactivated) "oidc" "dan@acme" 5 = None.
Proof.
  destruct (revocations_never_grant d_state d_deactivated d_disjoint (rtc_once _ _ d_revoked)) as (_ & Hp & _).
  split; [exact Hp|]. split; [discriminate|reflexivity].
Defined.

Lemma identity_resolution_exact_witness :
  resolve_identity (fst d_deactivated) "oidc" "dan@acme" 5 = None /\
  ~ exists k b q, identity_bindings (fst d_deactivated) !! k = Some b /\ ib_provider b = "oidc" /\
      ib_external_subject b = "dan@acme" /\ in_window b 5 /\
      get_principal (fst d_deactivated) (ib_principal_id b) = Some q.
Proof.
  split; [reflexivity|]. intros (k & b & q & Hk & Hp & Hs & Hw & Hq).
  assert (Hr : resolve_identity (fst d_deactivated) "oidc" "dan@acme" 5 = Some q).
  { apply (identity_resolution_exact d_state d_deactivated "oidc" "dan@acme" 5 q d_disjoint
             (rtc_once _ _ (istep_revoke _ _ d_revoked))). by exists k, b. }
  discriminate Hr.
Defined.

Lemma expiry_at_start_poisons_roles_witness :
  match expire_delegation d_authority ∅ 61%N "admin" "left" 0 with
  | Ok (_, (db', _)) => exists e, roles_for db' "dan" "eng" 5 = Err e
  | Err _ => False
  end.
Proof.
  destruct (expire_delegation d_authority ∅ 61%N "admin" "left" 0) as [[ev [db' events']]|e] eqn:He;
    [|discriminate He].
  exact (expiry_at_start_poisons_roles d_authority ∅ 61%N "admin" "left" ev db' events' _ eq_refl He "eng" 5).
Defined.
