(* ===== verification/TrustWitnesses.v ===== *)
(** * Authoritative facts at work

    A case whose facts were merged from the human-resources system is executed
    by the production engine while the source answers, first with the same
    values, then with others.  Each witness applies one theorem of
    [FactAcquisition] or [ProductionTrust] to this history. *)

From stdpp Require Import base gmap strings list relations.
From Stdlib Require Import ZArith Lia.
From S2P Require Import Prelude Python CPython Store Domain Policy Authority FactAcquisition Lifecycle Obligations.
From S2P Require Import Completion Verification Derivation PolicyPlane Financial Persistence.
From S2P Require Import Transactions Governance Machine Execution ExecutionSafety CaseFlow.
From S2P Require Import OnboardingEngine OffboardingEngine OffboardingSafety ProductionTrust Engines Sandbox Scenario.

Open Scope Z_scope.

(** ** A claim and the source's record *)

Definition t_claimed : FactSnapshot := mkFactSnapshot 11%N "ingress:chat" "requester" CLAIM None None 10 s_facts [] None.

Definition t_claim_case : AdministrativeCase :=
  mkAdministrativeCase 1%N "employee-onboarding" "requester" "emp-1" GATHERING_FACTS 1 1 (Some t_claimed) None [] None
    20 20.

(** The source's answer: [department] is what it says of the department. *)
Definition t_record (department : pyval) (observed_at : instant) : AuthoritativeRecord :=
  build_record "odoo" "hr.employee:7" "v3"
    [("present", VBool true); ("employee_ref", VStr "emp-1"); ("department_ref", department);
     ("employment_type", VStr "full_time")] observed_at FRESH_CURRENT.

Lemma t_claimed_wf : snapshot_wf t_claimed.
Proof. split; [vm_compute; reflexivity|apply NoDup_nil_2|reflexivity]. Qed.

Lemma t_record_distinct d t : keys_distinct d = true -> keys_distinct (VDict (rec_value (t_record d t))) = true.
Proof. intros Hd. cbn. rewrite Hd. vm_compute. reflexivity. Qed.

Notation t_merge r := (merge_authoritative_onboarding_facts t_claim_case r "administrative" 12%N) (only parsing).
Definition t_merged : FactSnapshot := ok_or t_claimed (t_merge (t_record (VStr "eng") 900)).

Lemma t_merge_ok : t_merge (t_record (VStr "eng") 900) = Ok t_merged.
Proof. vm_compute. reflexivity. Qed.

Lemma overlay_is_exact_witness :
  exists s', t_merge (t_record (VStr "sales") 900) = Ok s' /\ fs_authority s' = CLAIM /\
    forall k, merged_key (t_record (VStr "sales") 900) "administrative" ONBOARDING_AUTHORITATIVE_KEYS t_claimed s' k.
Proof.
  exact (overlay_is_exact t_claim_case t_claimed (t_record (VStr "sales") 900) "composite:employee-onboarding"
           ONBOARDING_AUTHORITATIVE_KEYS "administrative" 12%N eq_refl t_claimed_wf
           (t_record_distinct (VStr "sales") 900 eq_refl)).
Defined.

Definition t_merged_case : AdministrativeCase :=
  mkAdministrativeCase 1%N "employee-onboarding" "requester" "emp-1" AUTHORIZED 4 2 (Some t_merged)
    (Some (pv_policy_ref s_policy)) [] None 20 50.

Lemma first_merge_revalidates_witness :
  xv_valid (validate_with_dependencies t_merged_case [] (Ok (t_record (VStr "eng") 950)) 1000 60) = true.
Proof.
  apply (first_merge_revalidates t_claim_case t_claimed (t_record (VStr "eng") 900) "administrative" 12%N t_merged
           t_merged_case (t_record (VStr "eng") 950) 1000 60 "department_ref" (VStr "eng"));
    try reflexivity; first [exact t_claimed_wf|exact t_merge_ok|idtac].
  - intros k a Ha%assoc_elem_of. apply list_elem_of_fmap in Ha as ([k' v] & [= -> ->] & _). discriminate.
  - apply (bool_decide_unpack _). vm_compute. done.
Defined.

(** The source no longer reports a department. *)
Definition t_withdrawn_case : AdministrativeCase :=
  mkAdministrativeCase 1%N "employee-onboarding" "requester" "emp-1" GATHERING_FACTS 5 3 (Some t_merged) None [] None
    20 60.
Definition t_remerged : FactSnapshot :=
  ok_or t_claimed (merge_authoritative_onboarding_facts t_withdrawn_case (t_record VNone 950) "administrative" 13%N).
Definition t_remerged_case : AdministrativeCase :=
  mkAdministrativeCase 1%N "employee-onboarding" "requester" "emp-1" GATHERING_FACTS 6 4 (Some t_remerged) None []
    None 20 70.

Lemma t_merged_wf : snapshot_wf t_merged.
Proof. split; [vm_compute; reflexivity| |vm_compute; reflexivity]. apply (bool_decide_unpack _). vm_compute. done. Qed.

Lemma withdrawn_value_never_revalidates_witness :
  xv_valid (validate_with_dependencies t_remerged_case [] (Ok (t_record VNone 950)) 1000 60) = false.
Proof.
  apply (withdrawn_value_never_revalidates t_withdrawn_case t_merged (t_record VNone 950) "administrative" 13%N
           t_remerged t_remerged_case (t_record VNone 950) 1000 60 "department_ref"
           (authoritative_assertion (t_record (VStr "eng") 900) "administrative" (VStr "eng")));
    try reflexivity; try (vm_compute; reflexivity).
  - apply t_merged_wf.
  - apply (bool_decide_unpack _). vm_compute. done.
  - discriminate.
Defined.

(** ** The production engine *)

Definition t_exec : ExecDb := set_cases s_exec {[ 1%N := mkCaseRow 21%N t_merged_case ]}.
Definition t_created_basis : result (GovernanceBasis * gmap uuid GovernanceBasis) :=
  create_for_approval ∅ t_exec s_authority s_policies empty_txn_db t_merged_case s_satisfaction "acme"
    (Some ["employee_ref"; "department_ref"]) [].
Definition t_basis : GovernanceBasis := fst (ok_or (s_empty_basis, ∅) t_created_basis).

Definition t_world : World Plane :=
  mkWorld t_exec empty_obligation_db s_authority {[ gb_basis_id t_basis := t_basis ]} s_policies empty_txn_db ∅ ∅
    (mkPlane empty_sandbox [] 500) [] 0.

(** What the source says of the department when asked. *)
Definition t_read (department : pyval) (n : nat) (_ : string) : result AuthoritativeRecord :=
  Ok (t_record department (s_clock n)).

Notation t_engine d := (trusted_onboarding_engine s_clock true (t_read d) 60) (only parsing).
Notation t_run d := (Execution.run s_clock true (t_engine d) 1%N t_world) (only parsing).
Notation t_domain := (validate_onboarding_governance s_clock true t_merged_case t_world) (only parsing).

(** As long as the source confirms the facts, the case is executed to its end. *)
Example t_confirmed_run :
  let '(r, w) := t_run (VStr "eng") in
  result_status r = Some COMPLETED /\ length (executed (w_calls w)) = 3%nat.
Proof. vm_compute. done. Qed.

Lemma t_stored : stored t_world t_merged_case.
Proof. exists 21%N. reflexivity. Qed.

Lemma t_moved : ~ facts_confirmed s_clock (t_read (VStr "sales")) 60 t_merged_case [] (snd t_domain).
Proof.
  intros (s & current & [= <-] & _ & [= <-] & _ & _ & Hall).
  specialize (Hall "department_ref"
    (authoritative_assertion (t_record (VStr "eng") 900) "administrative" (VStr "eng"))).
  destruct Hall as (_ & _ & Heq); [|vm_compute in Heq; discriminate].
  apply dependency_in; [apply t_merged_wf|]. split_and!; [vm_compute; reflexivity|reflexivity|apply not_elem_of_nil|].
  apply (bool_decide_unpack _). vm_compute. done.
Qed.

Lemma t_refuses :
  is_ok (fst (t_run (VStr "sales"))) = true /\ is_ok (fst t_domain) = true /\
  match fst t_domain with Ok d => refuted d | Err _ => true end = false.
Proof. vm_compute. done. Qed.

