(* ===== verification/ServiceWitnesses.v ===== *)
(** * The service at work

    A concrete history of the endpoints, the unit of work and the outbox on the
    concrete platform: a requester files an onboarding, a human-resources approver
    decides it, the relay wakes its workflow.  Each witness applies one theorem of
    the service to this history. *)

From stdpp Require Import base gmap strings list relations.
From Stdlib Require Import ZArith Lia.
From S2P Require Import Prelude Python CPython Uuid Store Domain Policy Authority Access Lifecycle Obligations.
From S2P Require Import Completion PolicyPlane Financial Persistence Transactions Governance Machine Outbox.
From S2P Require Import UnitOfWork Api.

Open Scope Z_scope.

(** ** The deployment *)

#[local] Instance v_tokens : TokenLibrary := {|
  decode_json_segment s :=
    Ok (if String.eqb s "h" then [("alg", VStr "HS256")]
        else [("sub", VStr " ann "); ("iat", VInt 0); ("exp", VInt 100); ("iss", VStr "idp");
              ("aud", VList [VStr "orchestrator"])]);
  compare_hmac_sha256 secret signing_input signature := Ok (String.eqb signature secret);
  oidc_verify token := raise ValueError "not configured";
|}.

Definition v_settings : AuthSettings := mkAuthSettings " Development " "key" "idp" "orchestrator" "".
Definition v_jwt_settings : AuthSettings := mkAuthSettings "jwt" "key" "idp" "orchestrator" "".
Definition as_user (p : string) : Request := mkRequest (Some p) None.
Definition v_parse (d : pydict) : result OnboardingPolicyDefinition := raise ValueError "no stored definition".

Definition v_authority : AuthorityDb :=
  mkAuthorityDb
    (list_to_map [("requester", mkPrincipalRow PERSON "R" true); ("ann", mkPrincipalRow PERSON "Ann" true);
                  ("clerk", mkPrincipalRow PERSON "C" true)])
    {[ 51%N := mkIdentityBinding 51%N "idp" "ann" "ann" 0 None ]}
    (list_to_map [(41%N, mkRoleAssignment 41%N "ann" "hr_approver" "*" 0 None);
                  (42%N, mkRoleAssignment 42%N "clerk" "administrative_operator" "eng" 0 None)])
    ∅ ∅ ∅.

Definition v_policy : PolicyVersionRecord :=
  mkPolicyVersionRecord "employee-onboarding" "v1" "hr" ACTIVE 0 None [] 0.

Definition empty_exec : ExecDb := mkExecDb ∅ ∅ [] ∅ ∅ ∅ ∅ ∅ [].

Definition v_db0 : ApiDb :=
  mkApiDb (mkUowDb empty_exec ∅ ∅ v_authority ∅ empty_outbox)
    (mkPolicyDb {[ ("employee-onboarding", "v1") := v_policy ]} ∅) empty_txn_db empty_obligation_db.

Definition v_clock (n : nat) : instant := 1000 + Z.of_nat n.
Definition v_ids (n : N) : FreshIds := mkFreshIds (n + 1)%N (n + 2)%N (n + 3)%N (n + 4)%N (n + 5)%N.

Definition v_facts (employee : string) : OnboardingFacts :=
  mkOnboardingFacts employee (Some "eng") (Some "boss") (Some "2026-02-01") (Some "full_time") ["wiki"] false.

(** ** A case is filed and decided *)

Definition v_payload : CreateOnboardingCase := mkCreateOnboardingCase (v_facts "emp-1") "chat" (Some "evt-1").
Definition v_replay : CreateOnboardingCase := mkCreateOnboardingCase (v_facts "emp-9") "chat" (Some " evt-1 ").
Definition v_approve : RecordDecisionBody := mkRecordDecisionBody None APPROVE "welcome".
Definition v_reject : RecordDecisionBody := mkRecordDecisionBody None REJECT "no budget".

Definition got {A} (d : A) (r : reply A) : A := match r with Reply a => a | _ => d end.
Definition no_case : AdministrativeCase :=
  mkAdministrativeCase 0%N "-" "-" "-" RECEIVED 1 1 None None [] None 0 0.
Definition no_evaluation : PolicyEvaluation :=
  mkPolicyEvaluation (pv_policy_ref v_policy) DENIED "-" [] [] false [] None.
Definition no_decision : Decision :=
  mkDecision 0%N 0%N 0 0 "-" None REJECT "-" (pv_policy_ref v_policy) 0.

Notation v_create := (create_onboarding v_settings v_parse v_payload (as_user " requester") (v_ids 100) v_clock v_db0)
  (only parsing).
Definition v_db1 : ApiDb := snd v_create.
Definition v_filed : OnboardingCaseResponse := got (mkOnboardingCaseResponse no_case no_evaluation) (fst v_create).
Notation v_case_id := 103%N.

Notation v_decide := (submit_decision v_settings v_case_id v_approve (as_user "ann") (v_ids 200) v_clock v_db1)
  (only parsing).
Definition v_db2 : ApiDb := snd v_decide.
Definition v_decided : DecisionResponse := got (mkDecisionResponse no_decision no_case None) (fst v_decide).

Lemma v_filing : v_create = (Reply v_filed, v_db1) /\ c_status (or_case v_filed) = AWAITING_DECISION /\
  c_case_id (or_case v_filed) = v_case_id.
Proof. vm_compute. done. Qed.

Lemma v_deciding : v_decide = (Reply v_decided, v_db2) /\ c_status (dr_case v_decided) = AUTHORIZED.
Proof. vm_compute. done. Qed.

Lemma v_steps : rtc (api_step v_settings v_parse) v_db0 v_db2.
Proof.
  eapply rtc_l; [by apply (step_call _ _ _ _ (CallCreate v_payload) (as_user " requester") (v_ids 100) v_clock)|].
  apply rtc_once. by apply (step_call _ _ _ _ (CallDecide v_case_id v_approve) (as_user "ann") (v_ids 200) v_clock).
Qed.

Definition v_row : CaseRow := default (mkCaseRow 0%N no_case) (x_cases (a_exec v_db2) !! v_case_id).

Lemma v_stored : x_cases (a_exec v_db2) !! v_case_id = Some v_row /\ c_status (cr_case v_row) = AUTHORIZED.
Proof. vm_compute. done. Qed.

(** ** Witnesses of the endpoints *)


Definition v_actor (p : string) : AuthenticatedPrincipal :=
  mkAuthenticatedPrincipal (mkPrincipal p PERSON p) "development" p.

Lemma authorization_is_exact_witness :
  ~ permitted v_authority "ann" CASE_REASSESS None (Some "eng") 1000 /\
  permitted v_authority "clerk" CASE_REASSESS None (Some "eng") 1000.
Proof.
  assert (Hread : forall p, delegations_readable v_authority p).
  { intros p k d Hk. change (delegations v_authority) with (∅ : gmap uuid Delegation) in Hk. by rewrite lookup_empty in Hk. }
  split.
  - destruct (authorization_is_exact v_authority (v_actor "ann") CASE_REASSESS None (Some "eng") 1000 (Hread "ann"))
      as [[Hyes _]|[_ Hno]]; [|exact Hno]. vm_compute in Hyes. discriminate Hyes.
  - destruct (authorization_is_exact v_authority (v_actor "clerk") CASE_REASSESS None (Some "eng") 1000 (Hread "clerk"))
      as [[_ Hyes]|[Hno _]]; [exact Hyes|]. vm_compute in Hno. discriminate Hno.
Defined.

Lemma v_changed : after_call v_settings v_parse (CallDecide v_case_id v_approve) (as_user "ann") (v_ids 200) v_clock v_db1
  <> v_db1.
Proof.
  intros Heq. assert (Hd : x_decisions (a_exec v_db2) = x_decisions (a_exec v_db1)) by exact (f_equal (fun d => x_decisions (a_exec d)) Heq).
  vm_compute in Hd. discriminate Hd.
Qed.

Lemma changes_need_permission_witness :
  exists actor c, get_case (a_exec v_db1) v_case_id = Ok (Some c) /\
    permitted (a_authority v_db1) (p_principal_id (ap_principal actor)) DECISION_SUBMIT (Some c) None (v_clock 1).
Proof.
  destruct (changes_need_permission v_settings v_parse (CallDecide v_case_id v_approve) (as_user "ann") (v_ids 200)
              v_clock v_db1 v_changed) as (actor & _ & c & Hc & Hp).
  exists actor, c. exact (conj Hc Hp).
Defined.

Lemma authorization_is_earned_witness :
  exists c evaluation sel,
    approval_witness (a_authority v_db1) (c_case_id c) (c_authority_epoch c) (pe_policy_ref evaluation) evaluation
      (list_decisions (a_exec v_db1) (a_authority v_db1) (c_case_id c) ++ [dr_decision v_decided])
      (api_case_scope c) sel.
Proof.
  destruct (authorization_is_earned v_settings v_case_id v_approve (as_user "ann") (v_ids 200) v_clock v_db1 v_decided
              v_db2 (proj1 v_deciding) (proj2 v_deciding)) as (c & e & sel & s & b & _ & _ & _ & _ & _ & Hw & _).
  exists c, e, sel. exact Hw.
Defined.

Lemma authorized_cases_are_approved_witness : approved (a_uow v_db2) v_case_id (cr_case v_row).
Proof.
  exact (authorized_cases_are_approved v_settings v_parse v_db0 v_db2 v_case_id v_row eq_refl eq_refl v_steps
           (proj1 v_stored) (proj2 v_stored)).
Defined.

Lemma v_later : rtc (api_step v_settings v_parse) v_db1 v_db2.
Proof. apply rtc_once. by apply (step_call _ _ _ _ (CallDecide v_case_id v_approve) (as_user "ann") (v_ids 200) v_clock). Qed.

Notation v_again := (create_onboarding v_settings v_parse v_replay (as_user "requester") (v_ids 300) v_clock v_db2)
  (only parsing).

Lemma replayed_creation_changes_nothing_witness : snd v_again = v_db2.
Proof.
  exact (proj1 (replayed_creation_changes_nothing v_settings v_parse v_payload (as_user " requester") (v_ids 100) v_clock
    v_db0 v_filed v_db1 "evt-1" v_db2 v_replay (as_user "requester") (v_ids 300) v_clock " evt-1 " (fst v_again) (snd v_again)
    eq_refl eq_refl (proj1 v_filing) v_later eq_refl eq_refl (surjective_pairing v_again))).
Defined.

(** A cancelled case whose facts an operator tries to replace. *)
Notation v_cancel := (submit_decision v_settings v_case_id v_reject (as_user "ann") (v_ids 400) v_clock v_db1) (only parsing).
Definition v_db_cancelled : ApiDb := snd v_cancel.
Definition v_cancelled : AdministrativeCase := dr_case (got (mkDecisionResponse no_decision no_case None) (fst v_cancel)).
Definition v_clerk : AuthenticatedPrincipal := mkAuthenticatedPrincipal (mkPrincipal "clerk" PERSON "C") "development" "clerk".
Definition v_new_facts : ReplaceOnboardingFacts := mkReplaceOnboardingFacts (v_facts "emp-1") None.

Lemma v_open_cancelled : open_case v_settings v_case_id FACTS_ATTEST (as_user "clerk") v_clock v_db_cancelled
  = (Reply (v_clerk, v_cancelled), v_db_cancelled).
Proof. vm_compute. done. Qed.

Lemma v_current_policy : current_onboarding_policy v_parse (v_clock 2) v_db_cancelled
  = (Reply (pv_policy_ref v_policy, OnboardingPolicy_default_definition), v_db_cancelled).
Proof. vm_compute. done. Qed.

Lemma v_cancelled_is : c_case_kind v_cancelled = "employee-onboarding" /\ c_subject_ref v_cancelled = "emp-1" /\
  terminal (c_status v_cancelled) = true.
Proof. vm_compute. done. Qed.

Lemma closed_case_refusal_is_unhandled_witness :
  fst (replace_onboarding_facts v_settings v_parse v_case_id v_new_facts (as_user "clerk") (v_ids 500) v_clock v_db_cancelled)
  = Uncaught (Exn TransitionError "terminal case cannot replace current facts").
Proof.
  rewrite (closed_case_refusal_is_unhandled v_settings v_parse v_case_id v_new_facts (as_user "clerk") (v_ids 500) v_clock
    v_db_cancelled v_clerk v_cancelled _ v_open_cancelled (proj1 v_cancelled_is) (proj1 (proj2 v_cancelled_is))
    (proj2 (proj2 v_cancelled_is)) v_current_policy).
  reflexivity.
Defined.

(** ** Witnesses of the unit of work *)

Definition v_u1 : UowDb := a_uow v_db1.
Definition v_u2 : UowDb := a_uow v_db2.
Definition v_before : AdministrativeCase :=
  match get_case (u_exec v_u1) v_case_id with Ok (Some c) => c | _ => no_case end.
Definition v_after : AdministrativeCase := dr_case v_decided.
Definition v_decision : Decision := dr_decision v_decided.
Definition v_satisfaction : ApprovalSatisfaction :=
  default (mkApprovalSatisfaction 0%N 0%N 0 (pv_policy_ref v_policy) [] [] 0) (dr_approval v_decided ≫= aa_satisfaction).

Lemma v_transition : apply_decision_transition (a_policies v_db0) empty_txn_db v_u1 v_before v_after v_decision
  (Some "eng") (Some v_satisfaction) 205%N (v_clock 6) = Ok v_u2.
Proof. vm_compute. done. Qed.

Definition v_move : case_move (a_policies v_db0) empty_txn_db v_u1 v_u2 v_before v_after :=
  move_decision _ _ _ _ _ _ v_decision (Some "eng") (Some v_satisfaction) 205%N (v_clock 6) v_transition.

Lemma transitions_wake_the_workflow_witness :
  exists event_id event, ox_events (u_outbox v_u1) !! event_id = None /\
    ox_events (u_outbox v_u2) = <[event_id := event]> (ox_events (u_outbox v_u1)) /\
    oe_status event = OUTBOX_PENDING.
Proof.
  destruct (transitions_wake_the_workflow (a_policies v_db0) empty_txn_db v_u1 v_u2 v_before v_after v_move)
    as (_ & _ & event_id & event & action & Hnew & Hins & Hs & _).
  exists event_id, event. exact (conj Hnew (conj Hins Hs)).
Defined.


Lemma approval_commits_with_its_basis_witness :
  d_decision_id v_decision ∈ as_decision_ids v_satisfaction /\
  exists b, u_governance v_u2 !! gb_basis_id b = Some b /\ basis_of_approval b v_after v_satisfaction.
Proof.
  assert (Hrole : d_decision_role v_decision = Some "hr_approver") by (vm_compute; reflexivity).
  destruct (approval_commits_with_its_basis (a_policies v_db0) empty_txn_db v_u1 v_u2 v_before v_after v_decision "hr_approver"
              (Some "eng") v_satisfaction 205%N (v_clock 6) v_transition Hrole) as (_ & _ & _ & Hin & Hb & _).
  exact (conj Hin Hb).
Defined.

Definition v_request : AdministrativeRequest := mkAdministrativeRequest 601%N "requester" "chat" "onboard emp-2" 10 None.
Definition v_new_case : AdministrativeCase :=
  mkAdministrativeCase 602%N "employee-onboarding" "requester" "emp-2" RECEIVED 1 1 None None [] None 20 20.
Definition uow_or (d : UowDb) (r : result UowDb) : UowDb := match r with Ok u => u | Err _ => d end.
Definition v_u3 : UowDb := uow_or v_u2 (uow_create_case v_u2 v_request v_new_case (Some "evt-2") 30).

Lemma v_created : uow_create_case v_u2 v_request v_new_case (Some "evt-2") 30 = Ok v_u3.
Proof. vm_compute. done. Qed.

Lemma one_case_per_source_event_witness :
  get_ingress_receipt (u_ingress v_u3) " evt-2" = Some (mkIngressReceipt "evt-2" 601%N 602%N 30).
Proof.
  exact (proj1 (one_case_per_source_event (a_policies v_db0) empty_txn_db v_u2 v_u3 v_u3 v_request v_new_case "evt-2" 30
    " evt-2" v_request v_new_case 40 v_u3 v_created (rtc_refl _ v_u3) eq_refl)).
Defined.

(** ** Witnesses of the outbox *)

Definition o_row : OutboxEventRow :=
  mkOutboxEventRow 7%N "workflow.case_changed" (uuid_str 1) [("case_id", VStr (uuid_str 1)); ("case_kind", VStr "employee-onboarding")]
    OUTBOX_PENDING 0 None None None 100.
Definition o_db : OutboxDb := mkOutboxDb {[ 7%N := o_row ]} ∅.

Lemma o_wf : outbox_wf 3 o_db.
Proof.
  split.
  - intros k r Hr. cbn in Hr. apply lookup_singleton_Some in Hr as [<- <-]. done.
  - intros k r Hr. cbn in Hr. apply lookup_singleton_Some in Hr as [<- <-]. by apply new_row_ok.
Qed.

(** A worker claims the event and dies; its lease expires and is recovered. *)
Definition o_claimed : OutboxDb := snd (claim_outbox o_db 5 10 200).
Definition o_recovered : OutboxDb := snd (recover_expired_leases o_claimed 5 20000000).

Lemma o_run : outbox_run 3 [Claimed 200; Recovered 20000000] o_db o_recovered.
Proof. eapply run_then; [apply step_claim|]. eapply run_then; [apply step_recover|constructor]. Qed.

Lemma outbox_loses_nothing_witness :
  exists r', ox_events o_recovered !! 7%N = Some r' /\ content r' = content o_row.
Proof.
  destruct (outbox_loses_nothing 3 ltac:(lia) [Claimed 200; Recovered 20000000] o_db o_recovered 7%N o_row o_wf o_run eq_refl)
    as (r' & Hr & Hc & _). exists r'. exact (conj Hr Hc).
Defined.

Lemma claims_are_exclusive_witness :
  7%N ∉ ox_event_id <$> fst (claim_outbox o_claimed 5 10 5000000).
Proof.
  apply (claims_are_exclusive 3 ltac:(lia) 5 10 200 o_db [] o_claimed 7%N 5000000 5 10 o_wf).
  - vm_compute. left.
  - constructor.
  - constructor.
  - vm_compute. discriminate.
Defined.

Lemma attempts_are_bounded_witness :
  exists r', ox_events o_recovered !! 7%N = Some r' /\ oe_attempts r' = 0.
Proof.
  destruct (attempts_are_bounded 3 ltac:(lia) [Claimed 200; Recovered 20000000] o_db o_recovered 7%N o_row 0 5 10 o_wf o_run
              ltac:(repeat constructor) eq_refl eq_refl) as (r' & Hr & Ha & _).
  exists r'. exact (conj Hr Ha).
Defined.

(** A runtime that records the workflows it wakes. *)
#[local] Instance o_runtime : WorkflowRuntime (list string) := {|
  runtime_wake d _ action := (Ok tt, d ++ [wa_workflow_id action]);
  runtime_feishu := None;
|}.

Definition o_relay : Relay (list string) := mkRelay o_db [] 0 [].

Lemma relay_pass_settles_witness :
  exists (recovered : nat) (events : list OutboxEvent) (oks : list bool) w', relay_once v_clock empty_exec 5 10 3 o_relay
      = ((recovered, length (List.filter id oks), length (List.filter negb oks)), w') /\
    length oks = length events.
Proof.
  destruct (relay_pass_settles v_clock empty_exec 3 5 10 o_relay o_wf ltac:(lia))
    as (recovered & events & oks & ls & w' & Hrun & _ & _ & Hlen & _).
  exists recovered, events, oks, w'. exact (conj Hrun Hlen).
Defined.

Example o_wakes : rl_runtime (snd (relay_once v_clock empty_exec 5 10 3 o_relay)) = [uuid_str 1].
Proof. vm_compute. reflexivity. Qed.
