(* ===== verification/AdmissionWitnesses.v ===== *)
(** * Admissions at work

    A concrete history of intake on the concrete platform: a delivery is accepted,
    its interpretation is projected and stored, a reviewer admits the candidate and
    it is promoted, against a rival promotion and again as a replay; a departure
    request is bridged.  Each witness applies one theorem of intake or admission to
    this history. *)

From stdpp Require Import base gmap strings list relations.
From Stdlib Require Import ZArith Lia.
From S2P Require Import Prelude Python CPython Uuid Store Domain Policy Authority FactAcquisition Access Lifecycle Obligations.
From S2P Require Import PolicyPlane Financial Persistence Transactions Governance Machine Outbox UnitOfWork Intake IntakeSafety.
From S2P Require Import Api Execution CaseFlow OffboardingEngine Admission AdmissionBridge AdmissionSafety BridgeSafety IntakeApi.
From S2P Require Import Scenario ServiceWitnesses.

Open Scope Z_scope.

#[local] Existing Instance v_tokens.

(** ** The deployment *)

Definition str_field (values : pydict) (key : string) : option string :=
  match dict_get values key with VStr s => Some s | _ => None end.
Definition strs_field (values : pydict) (key : string) : list string :=
  match dict_get values key with VList l => omap (fun v => match v with VStr s => Some s | _ => None end) l | _ => [] end.

(** A reading of the contracts: texts are kept, what is absent has its default. *)
#[local] Instance w_contracts : FactContracts := {|
  onboarding_validate v :=
    match dict_get v "employee_ref" with
    | VStr e => Ok (mkOnboardingFacts e (str_field v "department_ref") (str_field v "manager_principal_id")
                      (str_field v "start_date") (str_field v "employment_type") (strs_field v "requested_systems") false)
    | _ => raise ValueError "employee_ref"
    end;
  offboarding_validate v :=
    match dict_get v "employee_ref" with
    | VStr e => Ok (mkOffboardingFacts e (str_field v "termination_status") (str_field v "termination_effective_at")
                      (str_field v "employment_type") (str_field v "department_ref") (str_field v "manager_principal_id")
                      (str_field v "employment_episode_ref") (str_field v "departing_principal_id")
                      (str_field v "successor_principal_id") (str_field v "requested_termination_date")
                      (str_field v "reason") (strs_field v "requested_systems") false)
    | _ => raise ValueError "employee_ref"
    end;
  procurement_validate _ := raise ValueError "not used";
  invoice_validate _ := raise ValueError "not used";
  expense_validate _ := raise ValueError "not used";
  procurement_dump _ := [];
  invoice_dump _ := [];
  expense_dump _ := [];
  onboarding_definition _ := raise ValueError "no stored definition";
  offboarding_definition _ := raise ValueError "no stored definition";
  procurement_definition _ := raise ValueError "no stored definition";
  invoice_definition _ := raise ValueError "no stored definition";
  expense_definition _ := raise ValueError "no stored definition";
|}.

Definition w_authority : AuthorityDb :=
  mkAuthorityDb (list_to_map [("olga", mkPrincipalRow PERSON "Olga" true)]) ∅
    {[ 43%N := mkRoleAssignment 43%N "olga" "administrative_operator" "*" 0 None ]} ∅ ∅ ∅.

Definition w_policies : PolicyDb :=
  mkPolicyDb
    (list_to_map [(("employee-onboarding", "v1"), v_policy);
                  (("employee-offboarding", "v1"),
                   mkPolicyVersionRecord "employee-offboarding" "v1" "hr" ACTIVE 0 None [] 0)]) ∅.

Definition w_start : AdmissionDb := mkAdmissionDb (mkUowDb empty_exec ∅ ∅ w_authority ∅ empty_outbox) empty_intake_db.
Definition w_clock (n : nat) : instant := 2000 + Z.of_nat n.

(** ** A delivery and its projection *)

Definition w_receipt : IntakeReceipt := mkIntakeReceipt 500%N "feishu" "acme" "evt-7" 100 IV_VERIFIED (Some 60%N) "digest-1".
Definition w_redelivered : IntakeReceipt := mkIntakeReceipt 501%N "feishu" "acme" "evt-7" 101 IV_VERIFIED None "digest-1".

Definition w_entry (key value : string) (refs : list pyval) : pyval :=
  VDict [("fact_key", VStr key); ("value", VStr value); ("authority", VStr "authoritative"); ("evidence_span_refs", VList refs)].

Definition w_interpretation : InterpretationRecord :=
  mkInterpretationRecord 70%N [60%N] "profile" "vendor" "model" "v1" "schema" 110
    [("candidate_intent", VStr "onboard emp-7");
     ("candidate_facts", VList [w_entry "department_ref" "eng" [VStr (uuid_str 80); VStr (uuid_str 80); VStr (uuid_str 99)];
                                w_entry "manager_principal_id" "boss" []; w_entry "start_date" "2026-03-01" [];
                                w_entry "employment_type" "full_time" []]);
     ("draft_response", VStr "Noted.")]
    [80%N] "response" IN_SUCCEEDED.

Definition w_ids (n : nat) : uuid := (900 + N.of_nat n)%N.
Definition no_candidate : CandidateAdministrativeRequest := mkCandidateAdministrativeRequest 0%N "-" [] "-" "-" [] [] 0 None CR_ACTIVE.
Definition w_projection : CandidateProjection :=
  ok_or (mkCandidateProjection no_candidate [] None)
    (project_candidate w_interpretation "chat-1" "ou_7" [60%N] w_ids w_clock).

Lemma w_projected :
  project_candidate w_interpretation "chat-1" "ou_7" [60%N] w_ids w_clock = Ok w_projection /\ length (jp_facts w_projection) = 4%nat.
Proof. vm_compute. done. Qed.

Abbreviation w_candidate := (jp_candidate w_projection) (only parsing).

(** ** Calls *)

Definition w_calls : list admission_call :=
  CallEnqueue w_receipt "intake.feishu.received" "evt-7" [] 100 ::
  (CallFact <$> jp_facts w_projection) ++
  [CallCandidate w_candidate; CallSuggest 904%N ID_ADMIT None 600%N 115;
   CallReview 904%N ID_ADMIT " olga " (Some [("note", VStr "seen")]) 601%N 120].

Definition w_after (calls : list admission_call) (s : AdmissionDb) : AdmissionDb :=
  fold_left (fun s c => run_call alone c s) calls s.
Definition w_assessed : AdmissionDb := w_after w_calls w_start.

Lemma w_after_advances calls s : advances s (w_after calls s).
Proof.
  revert s. induction calls as [|c calls IH]; intros s; cbn; [done|]. etrans; [|apply IH].
  apply call_advances, alone_advances.
Qed.

Lemma w_start_fresh : fresh_admission w_start.
Proof. split; done. Qed.

Lemma w_assessed_lineage : lineage w_assessed.
Proof. apply (w_after_advances w_calls w_start), fresh_lineage, w_start_fresh. Qed.

Lemma w_after_reachable calls s : admission_reachable s -> admission_reachable (w_after calls s).
Proof.
  revert s. induction calls as [|c calls IH]; intros s Hs; cbn; [done|]. apply IH, reach_call; [done|apply alone_advances].
Qed.

Definition no_assessment : IntakeAssessment := mkIntakeAssessment 0%N 0%N ID_AMBIGUOUS [] MODEL_SUGGESTION false None 0.
Definition w_assessment : IntakeAssessment := default no_assessment (it_assessments (m_intake w_assessed) !! 601%N).

Lemma w_admitted : it_assessments (m_intake w_assessed) !! 601%N = Some w_assessment /\ ia_is_final w_assessment = true /\
  ia_candidate_ref w_assessment = 904%N /\ size (it_assessments (m_intake w_assessed)) = 2%nat.
Proof. vm_compute. done. Qed.

(** ** Promotions *)

Definition w_context (policy : string) : PromotionContext :=
  mkPromotionContext " feishu" "acme" "evt-7 " "requester" "intake" "employee-onboarding" (Some "emp-7") policy.
Definition w_promotion_ids (n : N) : AdmissionIds := mkAdmissionIds (n + 1)%N (n + 2)%N (n + 3)%N (n + 4)%N (n + 5)%N.

(** Another session promotes the candidate just before the transaction. *)
Definition rival (n : nat) (s : AdmissionDb) : AdmissionDb :=
  if Nat.eqb n 4 then snd (promote alone w_candidate w_assessment (w_context "rival") (w_promotion_ids 700) w_clock s) else s.

Lemma rival_advances n s : advances s (rival n s).
Proof. unfold rival. destruct (Nat.eqb n 4); [|done]. apply call_respects, promote_respects, alone_advances. Qed.

Abbreviation w_raced :=
  (promote rival w_candidate w_assessment (w_context "m6") (w_promotion_ids 710) w_clock w_assessed) (only parsing).
Definition no_promotion : PromotionResult :=
  mkPromotionResult (mkPromotionRecord 0%N 0%N 0%N 0%N "-" 0 "-") (mkAdministrativeRequest 0%N "-" "-" "-" 0 None) no_case true.
Definition w_race : PromotionResult := ok_or no_promotion (fst w_raced).
Definition w_promoted : AdmissionDb := snd w_raced.

Lemma w_raced_ok : w_raced = (Ok w_race, w_promoted) /\ pn_created w_race = false /\
  pm_promotion_policy_ref (pn_promotion w_race) = "rival".
Proof. vm_compute. done. Qed.


Abbreviation w_again :=
  (promote alone w_candidate w_assessment (w_context "later") (w_promotion_ids 720) w_clock w_promoted) (only parsing).
Definition w_replay : PromotionResult := ok_or no_promotion (fst w_again).

Lemma w_again_ok : w_again = (Ok w_replay, snd w_again).
Proof. vm_compute. reflexivity. Qed.

Lemma promoted_once_witness : pn_request w_replay = pn_request w_race /\ pn_created w_replay = false.
Proof.
  destruct (promoted_once rival alone rival_advances alone_advances w_candidate w_candidate w_assessment w_assessment
              (w_context "m6") (w_context "later") (w_promotion_ids 710) (w_promotion_ids 720) w_clock w_clock
              w_assessed w_race w_promoted w_promoted w_replay (snd w_again) w_assessed_lineage (proj1 w_raced_ok)
              (reflexivity _) eq_refl w_again_ok) as (_ & Hr & _ & Hc).
  split; [exact Hr|exact Hc].
Defined.

Lemma w_promoted_lineage : lineage w_promoted.
Proof.
  assert (Ha : advances w_assessed w_promoted); [|apply Ha, w_assessed_lineage].
  apply (call_respects (promote rival w_candidate w_assessment (w_context "m6") (w_promotion_ids 710) w_clock) w_assessed).
  apply promote_respects, rival_advances.
Qed.

Definition w_row : CaseRow := default (mkCaseRow 0%N no_case) (x_cases (u_exec (m_uow w_promoted)) !! 702%N).

Lemma w_found : get_promotion (m_intake w_promoted) (cq_candidate_id w_candidate) = Ok (Some (pn_promotion w_race)).
Proof. vm_compute. reflexivity. Qed.

Lemma w_records : promoted_records w_promoted (pn_promotion w_race) (pn_request w_race) w_row.
Proof.
  unfold promoted_records. split_and!; [|vm_compute; reflexivity..].
  exists (mkIngressReceipt "evt-7" 701%N 702%N 2003). vm_compute. done.
Qed.

Lemma promotion_replays_witness : fst w_again = Ok (mkPromotionResult (pn_promotion w_race) (pn_request w_race) (cr_case w_row) false).
Proof.
  rewrite (promotion_replays w_candidate w_assessment (w_context "later") (w_promotion_ids 720) w_clock w_promoted
             (pn_promotion w_race) (pn_request w_race) w_row w_promoted_lineage w_found w_records); [reflexivity|..];
    vm_compute; reflexivity.
Defined.

(** ** Final assessments *)

Abbreviation w_first := (finalize alone 904%N ID_ADMIT HUMAN_REVIEW [("reviewer_principal_id", VStr "olga")] (Some "olga") 601%N 120)
  (only parsing).
Definition w_unassessed : AdmissionDb := w_after (take 6 w_calls) w_start.
Definition w_final : IntakeAssessment := ok_or no_assessment (fst (w_first w_unassessed)).
Definition w_finalized : AdmissionDb := snd (w_first w_unassessed).

Lemma w_unassessed_lineage : lineage w_unassessed.
Proof. apply (w_after_advances (take 6 w_calls) w_start), fresh_lineage, w_start_fresh. Qed.

Lemma w_first_ok : w_first w_unassessed = (Ok w_final, w_finalized).
Proof. vm_compute. reflexivity. Qed.

Abbreviation w_second := (finalize alone 904%N ID_ADMIT HUMAN_REVIEW [("reviewer_principal_id", VStr "olga")] (Some "olga") 609%N 130)
  (only parsing).
Definition w_repeat : IntakeAssessment := ok_or no_assessment (fst (w_second w_finalized)).
Lemma w_second_ok : w_second w_finalized = (Ok w_repeat, w_finalized).
Proof. vm_compute. reflexivity. Qed.

Lemma assessed_once_witness : w_repeat = w_final /\ HUMAN_REVIEW <> MODEL_SUGGESTION.
Proof.
  destruct (assessed_once alone alone alone_advances alone_advances 904%N ID_ADMIT ID_ADMIT HUMAN_REVIEW HUMAN_REVIEW
              [("reviewer_principal_id", VStr "olga")] [("reviewer_principal_id", VStr "olga")] (Some "olga") (Some "olga")
              601%N 609%N 120 130 w_unassessed w_final w_finalized w_finalized w_repeat w_finalized w_unassessed_lineage
              w_first_ok (reflexivity _) w_second_ok) as (He & _ & _ & Hm).
  split; [exact He|exact Hm].
Defined.

(** The reached tables keep their lineage. *)
Lemma admission_lineage_witness : lineage (w_after w_calls w_start).
Proof. apply admission_lineage, w_after_reachable, reach_fresh, w_start_fresh. Defined.

(** ** Bridges *)

Abbreviation w_bridge :=
  (promote_and_evaluate alone w_policies onboarding_admission w_candidate w_assessment (w_context "m6") " emp-7"
     (w_promotion_ids 730) w_clock w_assessed) (only parsing).
Definition no_admission : CandidateAdmissionResult := mkCandidateAdmissionResult no_promotion no_case no_evaluation false.
Definition w_admission : CandidateAdmissionResult := ok_or no_admission (fst w_bridge).
Definition w_bridged : AdmissionDb := snd w_bridge.

Lemma w_bridge_ok : w_bridge = (Ok w_admission, w_bridged).
Proof. vm_compute. reflexivity. Qed.

Lemma w_bridge_status : c_status (cx_case w_admission) = AWAITING_DECISION /\ c_case_id (cx_case w_admission) = 732%N /\
  c_subject_ref (cx_case w_admission) = "emp-7".
Proof. vm_compute. done. Qed.

Lemma admitted_facts_are_claims_witness :
  (exists s1 case_id, advances s1 w_bridged /\
     get_latest_policy_evaluation (u_exec (m_uow s1)) case_id = Ok (Some (cx_policy_evaluation w_admission))) \/
  exists snapshot row, x_cases (u_exec (m_uow w_bridged)) !! c_case_id (cx_case w_admission) = Some row /\
    c_fact_snapshot (cr_case row) = Some snapshot /\ claims_only snapshot.
Proof.
  destruct (admitted_facts_are_claims alone alone_advances w_policies onboarding_admission w_candidate w_assessment
              (w_context "m6") " emp-7" (w_promotion_ids 730) w_clock w_assessed w_admission w_bridged w_bridge_ok)
    as [Hl|(facts & record & snapshot & row & _ & _ & _ & Hrow & Hsn & Hcl & _)]; [left; exact Hl|right].
  exists snapshot, row. split; [exact Hrow|]. split; [exact Hsn|exact Hcl].
Defined.

(** A departure request: the candidate even claims a status the contract does not take. *)
Definition w_fact (id : uuid) (key value : string) : CandidateFactAssertion :=
  mkCandidateFactAssertion id key (VStr value) CA_CLAIM None [60%N] [] (Some "said so") None 100.
Definition w_leaver : CandidateAdministrativeRequest :=
  mkCandidateAdministrativeRequest 950%N "chat-2" [70%N] "ou_8" "leave" [951%N; 952%N] [60%N] 100 None CR_ACTIVE.
Definition w_leaving : IntakeDb :=
  m_intake (w_after [CallFact (w_fact 951%N "reason" "moving"); CallFact (w_fact 952%N "requested_termination_date" "2026-05-01");
                     CallCandidate w_leaver] w_start).
Definition no_facts : OffboardingFacts :=
  mkOffboardingFacts "-" None None None None None None None None None None [] false.
Definition w_departure : OffboardingFacts := ok_or no_facts (offboarding_candidate_facts w_leaving w_leaver "emp-8").
Definition w_leaver_case : AdministrativeCase :=
  mkAdministrativeCase 9%N "employee-offboarding" "requester" "emp-8" RECEIVED 1 1 None None [] None 20 20.
Definition w_leaver_policy : PolicyVersionRecord :=
  mkPolicyVersionRecord "employee-offboarding" "v1" "hr" ACTIVE 0 None [] 0.

Lemma w_departure_ok : offboarding_candidate_facts w_leaving w_leaver "emp-8" = Ok w_departure /\
  of_reason w_departure = Some "moving".
Proof. vm_compute. done. Qed.

Abbreviation w_claimed :=
  (evaluate_claims w_policies offboarding_admission w_leaver_case [] w_assessment w_departure (w_context "m7")
     (w_promotion_ids 740) w_clock) (only parsing).
Definition w_waiting : AdministrativeCase * PolicyEvaluation := ok_or (no_case, no_evaluation) w_claimed.

Lemma w_claimed_ok : w_claimed = Ok (fst w_waiting, snd w_waiting).
Proof. vm_compute. reflexivity. Qed.

Lemma w_defaults values f : offboarding_validate values = Ok f ->
  (assoc "termination_status" values = None -> of_termination_status f = None) /\
  (assoc "termination_effective_at" values = None -> of_termination_effective_at f = None).
Proof.
  cbn. destruct (dict_get values "employee_ref"); try done. intros [= <-]. unfold str_field, dict_get. cbn.
  split; intros ->; done.
Qed.

Lemma departure_claims_never_qualify_witness : c_status (fst w_waiting) = GATHERING_FACTS /\ pe_allowed_effects (snd w_waiting) = [].
Proof.
  destruct (departure_claims_never_qualify w_defaults w_policies w_leaving w_leaver "emp-8" w_departure w_leaver_case []
              w_assessment (w_context "m7") (w_promotion_ids 740) w_clock (fst w_waiting) (snd w_waiting) w_leaver_policy
              (pv_policy_ref w_leaver_policy) OffboardingPolicy_default_definition "termination_status"
              (proj1 w_departure_ok)) as (_ & He & Hs & _).
  - apply validate_case_spec. reflexivity.
  - vm_compute. reflexivity.
  - reflexivity.
  - left.
  - apply (bool_decide_unpack _). vm_compute. exact I.
  - exact w_claimed_ok.
  - split; [exact Hs|exact He].
Defined.

(** ** Deliveries *)

Abbreviation w_accept :=
  (persist_verified_receipt_and_enqueue empty_intake_db empty_outbox w_receipt "intake.feishu.received" "evt-7" [] 100)
  (only parsing).
Definition w_accepted : IntakeDeliveryAcceptance * IntakeDb * OutboxDb :=
  ok_or (mkIntakeDeliveryAcceptance w_receipt 0%N false, empty_intake_db, empty_outbox) w_accept.

Lemma w_accept_ok : w_accept = Ok (fst (fst w_accepted), snd (fst w_accepted), snd w_accepted).
Proof. vm_compute. reflexivity. Qed.

Lemma w_no_receipts : receipts_wf empty_intake_db.
Proof. split; [apply keyed_empty|intros *; cbn; rewrite lookup_empty; done..]. Qed.

Lemma delivery_is_handed_over_once_witness :
  persist_verified_receipt_and_enqueue (snd (fst w_accepted)) (snd w_accepted) w_redelivered "x" "y" [] 200 =
    Ok (mkIntakeDeliveryAcceptance w_receipt 500%N false, snd (fst w_accepted), snd w_accepted).
Proof.
  destruct (delivery_is_handed_over_once empty_intake_db empty_outbox w_receipt "intake.feishu.received" "evt-7" [] 100
              (fst (fst w_accepted)) (snd (fst w_accepted)) (snd w_accepted) w_redelivered "x" "y" [] 200 w_no_receipts
              eq_refl w_accept_ok eq_refl eq_refl) as (_ & _ & _ & Hr).
  rewrite Hr. reflexivity.
Defined.

(** ** Projections *)

Lemma projection_only_claims_witness : Forall2 (projected w_interpretation [60%N])
  (match dict_get (ip_structured_output w_interpretation) "candidate_facts" with VList l => l | _ => [] end) (jp_facts w_projection).
Proof.
  destruct (projection_only_claims w_interpretation "chat-1" "ou_7" [60%N] w_ids w_clock w_projection (proj1 w_projected))
    as (raws & Hr & Hf & _).
  injection Hr as Hr. rewrite <- Hr in Hf. exact Hf.
Defined.

Lemma w_fact_ids : (cf_candidate_fact_id <$> jp_facts w_projection) = [900; 901; 902; 903]%N.
Proof. vm_compute. reflexivity. Qed.


(** ** Endpoints *)

Definition w_body : IntakePromotionBody :=
  mkIntakePromotionBody 601%N "feishu" "acme" "evt-7" "requester" "intake" "employee-onboarding" (Some "emp-7") true false "m6".

Lemma w_endpoint_writes :
  after_endpoint v_settings alone w_policies (EndpointPromote 904%N w_body (w_promotion_ids 750)) (as_user "olga") w_clock w_assessed
    <> w_assessed.
Proof.
  intros E. apply (f_equal (fun s => size (it_promotions (m_intake s)))) in E. vm_compute in E. discriminate E.
Qed.

Lemma intake_endpoints_are_guarded_witness :
  exists actor, authenticate v_settings w_authority (as_user "olga") 2000 = Reply actor /\
    permitted w_authority (p_principal_id (ap_principal actor)) INTAKE_REVIEW None (Some "*") 2001.
Proof.
  destruct (intake_endpoints_are_guarded v_settings alone w_policies (EndpointPromote 904%N w_body (w_promotion_ids 750))
              (as_user "olga") w_clock w_assessed w_endpoint_writes) as (actor & candidate & Ha & Hp & _).
  exists actor. split; [exact Ha|exact Hp].
Defined.
