(* ===== verification/ConversationWitnesses.v ===== *)
(** * A conversation at work

    A thread of two messages about an admitted candidate, one of them delivered
    twice, and a candidate that is superseded.  Each witness applies one theorem of
    conversations to it. *)

From stdpp Require Import base gmap strings list relations sorting.
From Stdlib Require Import ZArith Lia.
From S2P Require Import Prelude Python Uuid Store Domain Policy Authority FactAcquisition Access Lifecycle Obligations.
From S2P Require Import PolicyPlane Financial Persistence Transactions Governance Machine Outbox UnitOfWork Intake Api.
From S2P Require Import Execution CaseFlow OffboardingEngine Admission Conversation ConversationSafety Scenario ServiceWitnesses.

Open Scope Z_scope.

(** ** The thread *)

Definition q_ref : ConversationRef := mkConversationRef "feishu" "acme" "t-1".
Definition q_authority : AuthorityDb :=
  mkAuthorityDb (list_to_map [("ann", mkPrincipalRow PERSON "Ann" true)])
    {[ 51%N := mkIdentityBinding 51%N "feishu" "ou_ann" "ann" 0 None ]} ∅ ∅ ∅ ∅.
Definition q_candidate : CandidateAdministrativeRequest :=
  mkCandidateAdministrativeRequest 950%N "feishu/acme/t-1" [70%N] "ou_ann" "onboard" [] [60%N] 100 None CR_ADMITTED.
Definition q_case : AdministrativeCase :=
  mkAdministrativeCase 9%N "employee-onboarding" "requester" "emp-8" RECEIVED 1 1 None None [] None 20 20.
Definition q_intake : IntakeDb :=
  set_promotions (set_candidates empty_intake_db {[ 950%N := q_candidate ]})
    {[ 960%N := mkPromotionRecord 960%N 950%N 961%N 962%N "evt-0" 110 "m6" ]}.
Definition q_start : AdmissionDb :=
  mkAdmissionDb (mkUowDb (set_cases empty_exec {[ 9%N := mkCaseRow 962%N q_case ]}) ∅ ∅ q_authority ∅ empty_outbox) q_intake.

Definition q_message (id : uuid) (pid event : string) (seq : Z) (claimed : option string) : ConversationMessage :=
  mkConversationMessage id q_ref pid event "ou_ann" (Some "Ann") ["ou_ann"; "bot"] seq (1000 + seq) None None [60%N] [70%N] []
    claimed.
Definition q_first : ConversationMessage := q_message 1%N "om-1" "evt-1" 3 (Some "ou_ann").
Definition q_second : ConversationMessage := q_message 2%N "om-2" "evt-2" 8 None.
Definition q_clock (n : nat) : instant := 3000 + Z.of_nat n.

Definition q_result0 : ConversationMessageResult :=
  mkConversationMessageResult q_first (mkResolvedProviderIdentity "" "" "" (mkPrincipal "" PERSON "")) None None false.
Definition q_run (s : TalkDb) (m : ConversationMessage) (update_id : uuid) : result (ConversationMessageResult * TalkDb) :=
  accept_message s m (Some "feishu ") (Some "acme") None update_id q_clock.

Definition q_step1 := Eval vm_compute in ok_or (q_result0, silent q_start) (q_run (silent q_start) q_first 700%N).
Definition q_step2 := Eval vm_compute in ok_or (q_result0, silent q_start) (q_run (snd q_step1) q_second 701%N).

Lemma q_step1_ok : q_run (silent q_start) q_first 700%N = Ok (fst q_step1, snd q_step1).
Proof. vm_compute. reflexivity. Qed.
Lemma q_step2_ok : q_run (snd q_step1) q_second 701%N = Ok (fst q_step2, snd q_step2).
Proof. vm_compute. reflexivity. Qed.

Lemma q_reach1 : rtc talk_step (silent q_start) (snd q_step1).
Proof. apply rtc_once. eapply talk_accepts. exact q_step1_ok. Qed.
Lemma q_reach2 : rtc talk_step (silent q_start) (snd q_step2).
Proof. eapply rtc_r; [exact q_reach1|]. eapply talk_accepts. exact q_step2_ok. Qed.

Definition q_row : ConversationRow :=
  default (mkConversationRow q_ref "" [] 0 None None 0 0) (t_conversations (snd q_step2) !! "feishu/acme/t-1").
Lemma q_row_found : t_conversations (snd q_step2) !! "feishu/acme/t-1" = Some q_row.
Proof. vm_compute. reflexivity. Qed.

Lemma q_two_messages : length (timeline (snd q_step2) "feishu/acme/t-1") = 2%nat /\ vw_bound_case_id q_row = Some 9%N.
Proof. vm_compute. done. Qed.


Lemma timeline_grows_at_its_end_witness :
  timeline (snd q_step2) "feishu/acme/t-1" =
    timeline (snd q_step1) "feishu/acme/t-1" ++ [row_of_message q_second (Some 950%N) (Some 701%N) 3001].
Proof.
  exact (proj1 (timeline_grows_at_its_end q_start (snd q_step1) q_second (Some "feishu ") (Some "acme") None 701%N q_clock
                  (fst q_step2) (snd q_step2) q_reach1 q_step2_ok eq_refl)).
Defined.

Lemma accepted_messages_are_authentic_witness :
  resolve_identity q_authority "feishu" "ou_ann" 1003 = Some (mkPrincipal "ann" PERSON "Ann").
Proof.
  destruct (accepted_messages_are_authentic (silent q_start) q_first (Some "feishu ") (Some "acme") None 700%N q_clock
              (fst q_step1) (snd q_step1) q_step1_ok) as [[Hp _ _ _ _] _].
  exact Hp.
Defined.

Lemma messages_decide_nothing_witness :
  snd q_step1 = silent q_start \/
  exists updates, t_admission (snd q_step1) = set_intake q_start (set_updates q_intake updates).
Proof.
  destruct (messages_decide_nothing (silent q_start) q_first (Some "feishu ") (Some "acme") None 700%N q_clock
              (fst q_step1) (snd q_step1) q_step1_ok) as [He|(updates & Ha & _)]; [left; exact He|right].
  exists updates. exact Ha.
Defined.

Lemma redelivery_is_idempotent_witness :
  q_run (snd q_step2) q_first 777%N =
    Ok (mkConversationMessageResult (given_back q_first) (vx_identity (fst q_step1)) (Some 950%N)
          (vx_case_update (fst q_step1)) false, snd q_step2).
Proof.
  refine (redelivery_is_idempotent q_start (silent q_start) q_first (Some "feishu ") (Some "acme") None 700%N q_clock
            (fst q_step1) (snd q_step1) (snd q_step2) None 777%N q_clock (rtc_refl _ _) _ _ q_step1_ok eq_refl _).
  - vm_compute. reflexivity.
  - vm_compute. reflexivity.
  - apply rtc_once. do 7 eexists. exact q_step2_ok.
Defined.

(** ** Supersession *)

Definition q_active (id : uuid) (intent : string) (previous : option uuid) : CandidateAdministrativeRequest :=
  mkCandidateAdministrativeRequest id "feishu/acme/t-1" [70%N] "ou_ann" intent [] [60%N] 100 previous CR_ACTIVE.
Definition q_candidates : IntakeDb := set_candidates empty_intake_db {[ 971%N := q_active 971%N "onboard" None ]}.
Definition q_replacement : CandidateAdministrativeRequest := q_active 972%N "onboard emp-9" (Some 971%N).
Definition q_superseded : CandidateAdministrativeRequest * IntakeDb :=
  ok_or (q_candidate, empty_intake_db) (supersede_candidate q_candidates 971%N q_replacement).

Lemma q_superseded_ok : supersede_candidate q_candidates 971%N q_replacement = Ok (fst q_superseded, snd q_superseded).
Proof. vm_compute. reflexivity. Qed.

Lemma supersession_is_final_witness :
  supersede_candidate (snd q_superseded) 971%N q_replacement = Ok (q_replacement, snd q_superseded) /\
  forall r, supersede_candidate (snd q_superseded) 971%N (q_active 973%N "late" (Some 971%N)) <> Ok r.
Proof.
  destruct (supersession_is_final q_candidates 971%N q_replacement (fst q_superseded) (snd q_superseded) eq_refl q_superseded_ok)
    as (_ & _ & _ & _ & _ & Ha & Hn).
  split; [exact Ha|]. intros r. apply Hn. vm_compute. reflexivity.
Defined.
