(* ===== verification/InvestigationWitnesses.v ===== *)
(** * An investigation at work

    A case is investigated: the advisory client is asked once and proposes, evidence is
    requested and added, a reviewer finds that the case must be reopened, and it is.
    Each witness applies one theorem of investigations to this history. *)

From stdpp Require Import base gmap strings list relations.
From Stdlib Require Import ZArith Lia.
From S2P Require Import Prelude Python CPython Uuid Store Domain Policy Authority Lifecycle Obligations Persistence Financial.
From S2P Require Import PolicyPlane Transactions Governance Commitment Machine Kernel KernelClient Investigation InvestigationService.
From S2P Require Import InvestigationSafety InvestigationFlow Scenario ServiceWitnesses.

Open Scope Z_scope.

(** ** The deployment *)

Definition j_policy : PolicyRef := mkPolicyRef "employee-onboarding" "v1" "hr" 0 None.
Definition j_case : AdministrativeCase :=
  mkAdministrativeCase 9%N "employee-onboarding" "requester" "emp-8" RECEIVED 3 1 None None [] None 20 20.
Definition j_decision : Decision := mkDecision 31%N 9%N 2 1 "boss" (Some "manager") APPROVE "fine" j_policy 25.
Definition j_exec : ExecDb :=
  mkExecDb ∅ {[ 9%N := mkCaseRow 962%N j_case ]} [] {[ 31%N := j_decision ]} ∅ ∅ ∅ ∅ [].
Definition j_start : InvestigationWorld :=
  mkInvestigationWorld (mkInvestigationDb j_exec ∅ empty_obligation_db empty_commitment_db ∅ ∅ ∅ ∅ ∅ ∅ ∅) [].

(** The client proposes, each time under a new id. *)
Definition j_client (asked : list InvestigationRequestEnvelope) (e : InvestigationRequestEnvelope) : result InvestigationProposal :=
  Ok (mkInvestigationProposal (500 + N.of_nat (length asked))%N (en_investigation_id e) (en_case_id e) (en_authority_epoch e) "r1"
        [mkInvestigationHypothesis "h1" "the start date is wrong" [] (mkpyfloat 1 (-1))] [] ["contract"] [] [] [] [] []
        (mkInvestigationModelProvenance "vendor" "model" "v1" "prompt" "schema" "digest") 900
        ("answer-" +:+ int_str (Z.of_nat (length asked)))).
Definition j_verifier (case_id : uuid) (epoch : Z) (ref : string) : result unit := Ok tt.
Definition j_clock (n : nat) : instant := 1000 + Z.of_nat n.

Definition j_request : inquiry_call :=
  CallInquire 9%N (mkInvestigationCall TT_LATE_EVIDENCE "a contract arrived" "Is the start date right?" "olga" "k-1" ["mail-1"] [] None
                     "administrative" None) 100%N 101%N.
Definition j_ask_evidence (id : uuid) : inquiry_call := CallRequestEvidence 101%N "administrative" "The contract?" "olga" "k-2" [] id.
Definition j_assessment : AssessmentCall :=
  mkAssessmentCall RD_REOPEN_REQUIRED "the date is wrong" ["mail-1"; "contract-1"] (Some 500%N) RK_HUMAN "olga" "k-4".

Definition j_calls : list inquiry_call :=
  [j_request; CallAdvise 101%N; j_ask_evidence 102%N;
   CallAddEvidence 101%N (mkEvidenceCall (Some 102%N) "contract-1" "administrative" "archive" "hr" None None None "olga" "k-3") 103%N;
   CallAssess 101%N j_assessment 104%N; CallReopen 9%N 104%N "olga" "k-5"].

Definition j_after (calls : list inquiry_call) (w : InvestigationWorld) : InvestigationWorld :=
  fold_left (fun w c => snd (inquire j_client j_verifier c j_clock w)) calls w.
Definition j_asked : InvestigationWorld := Eval vm_compute in j_after (take 3 j_calls) j_start.
Definition j_assessed : InvestigationWorld := Eval vm_compute in j_after (take 5 j_calls) j_start.
Definition j_reopened : InvestigationWorld := Eval vm_compute in j_after j_calls j_start.

Lemma j_start_fresh : no_inquiries (vw_db j_start).
Proof. by split_and!. Qed.

Lemma j_after_path calls w :
  budget_wf (bureau_of w []) -> reopen_wf (vw_db w) -> rtc bureau_step (bureau_of w []) (bureau_of (j_after calls w) []).
Proof.
  revert w. induction calls as [|c calls IH]; intros w Hb Ho; cbn; [apply rtc_refl|].
  destruct (inquire j_client j_verifier c j_clock w) as [r w'] eqn:E.
  assert (Hp : rtc bureau_step (bureau_of w []) (bureau_of w' [])).
  { pose proof (inquire_at j_client j_verifier c j_clock w Hb Ho _ _ E) as Hp. destruct r; apply Hp. }
  cbn. etrans; [exact Hp|]. apply IH.
  - eapply bureau_run_budget; [exact Hp|exact Hb].
  - exact (bureau_run_reopen_wf _ _ Hp Ho).
Qed.

Lemma j_reached : rtc bureau_step (mkBureau (vw_db j_start) [] []) (bureau_of j_reopened []).
Proof.
  change j_reopened with (j_after j_calls j_start). apply (j_after_path j_calls j_start).
  - apply (no_inquiries_budget _ j_start_fresh).
  - apply (no_inquiries_reopen_wf _ j_start_fresh).
Qed.

Definition no_request : InvestigationRow :=
  mkInvestigationRow
    (mkInvestigationRequest 0%N "" 0%N 0 (mkInvestigationTrigger 0%N 0%N 0 TT_LATE_EVIDENCE "" [] "" None "" 0 "") "" [] None None [] []
       InvestigationConstraints_default 0 "" IS_FAILED "" 0 0 0 None 0) "".
Definition j_row (w : InvestigationWorld) : InvestigationRow := default no_request (nv_investigations (vw_db w) !! 101%N).

Lemma j_row_found : nv_investigations (bu_db (bureau_of j_reopened [])) !! 101%N = Some (j_row j_reopened).
Proof. vm_compute. reflexivity. Qed.

Lemma j_history : iq_status (nr_request (j_row j_reopened)) = IS_REOPENED /\ length (vw_asked j_reopened) = 1%nat /\
  c_authority_epoch (cr_case (default (mkCaseRow 0%N j_case) (x_cases (nv_exec (vw_db j_reopened)) !! 9%N))) = 2.
Proof. vm_compute. done. Qed.

(** ** Witnesses *)


Definition no_record : ReopenRecord := mkReopenRecord 0%N 0%N 0%N 0%N 0 0 "" [] "" [] [] [] [] [] 0 "".
Definition j_reopen_id : uuid := Eval vm_compute in reopen_id_of 9%N "k-5".
Definition j_record : ReopenRecord := default no_record (nv_records (vw_db j_reopened) !! j_reopen_id).

Lemma j_record_found : nv_records (bu_db (bureau_of j_reopened [])) !! j_reopen_id = Some j_record.
Proof. vm_compute. reflexivity. Qed.

Lemma reopenings_are_earned_once_witness : earned_record (vw_db j_reopened) j_record.
Proof.
  exact (proj1 (reopenings_are_earned_once (vw_db j_start) (bureau_of j_reopened []) j_reopen_id j_record j_start_fresh j_reached
                  j_record_found)).
Defined.

Lemma service_follows_the_bureau_witness :
  rtc bureau_step (bureau_of j_start []) (bureau_of (snd (inquire j_client j_verifier j_request j_clock j_start)) []).
Proof.
  apply (service_follows_the_bureau j_client j_verifier j_request j_clock j_start
           (fst (inquire j_client j_verifier j_request j_clock j_start))).
  - apply (no_inquiries_budget _ j_start_fresh).
  - apply (no_inquiries_reopen_wf _ j_start_fresh).
  - vm_compute. reflexivity.
Defined.

Definition j_grant : ReopenRecord * AdministrativeCase * bool :=
  match fst (authorize_reopen 9%N 104%N "olga" "k-5" j_clock j_assessed) with Ok x => x | Err _ => (no_record, j_case, false) end.
Definition j_granted : InvestigationWorld := snd (authorize_reopen 9%N 104%N "olga" "k-5" j_clock j_assessed).

Lemma j_grant_ok :
  authorize_reopen 9%N 104%N "olga" "k-5" j_clock j_assessed = (Ok (fst (fst j_grant), snd (fst j_grant), true), j_granted).
Proof. vm_compute. reflexivity. Qed.

Lemma j_cases_keyed : keyed_cases (vw_db j_assessed).
Proof. apply (bool_decide_unpack _). vm_compute. exact I. Qed.


Lemma j_keyed (w : InvestigationWorld) :
  bool_decide (map_Forall (fun k row => iq_investigation_id (nr_request row) = k) (nv_investigations (vw_db w))) = true ->
  keyed_inquiries w.
Proof. intros Hk id row Hrow. apply bool_decide_eq_true in Hk. exact (Hk _ _ Hrow). Qed.

Lemma j_stale : stale j_reopened (nr_request (j_row j_reopened)).
Proof.
  split; [apply j_keyed; vm_compute; reflexivity|]. split; [exists (nr_request_digest (j_row j_reopened)); vm_compute; reflexivity|].
  intros row Hrow Heq. vm_compute in Hrow. injection Hrow as <-. vm_compute in Heq. discriminate Heq.
Qed.

Lemma stale_investigations_are_inert_witness :
  fades 101%N j_reopened (snd (inquire j_client j_verifier (CallAdvise 101%N) j_clock j_reopened)).
Proof.
  refine (proj1 (stale_investigations_are_inert j_client j_verifier (CallAdvise 101%N) j_clock j_reopened (nr_request (j_row j_reopened))
                   (fst (inquire j_client j_verifier (CallAdvise 101%N) j_clock j_reopened)) _ j_stale _ _)).
  - vm_compute. reflexivity.
  - vm_compute. reflexivity.
Defined.

Definition no_evidence_request : InvestigationEvidenceRequest :=
  mkInvestigationEvidenceRequest 0%N 0%N 0%N 0 "" "" [] ER_OPEN [] "" 0 None "".
Definition j_stored : InvestigationEvidenceRequest := default no_evidence_request (nv_evidence_requests (vw_db j_asked) !! 102%N).

Lemma repeated_evidence_requests_fail_witness : forall item w',
  request_evidence 101%N "administrative" "The contract?" "olga" "k-2" [] 112%N j_clock j_asked <> (Ok item, w').
Proof.
  intros item w'.
  apply (repeated_evidence_requests_fail 101%N "administrative" "The contract?" "olga" "k-2" [] 112%N j_clock j_asked j_stored item w').
  - apply j_keyed. vm_compute. reflexivity.
  - vm_compute. reflexivity.
  - vm_compute. discriminate.
Defined.
