(* ===== verification/ConnectorWitnesses.v ===== *)
(** * Connectors on concrete services

    A small Odoo that keeps records and loses some of its answers, and a gateway with a
    Feishu behind it; the theorems about the connectors at histories of them. *)

From stdpp Require Import base gmap strings list relations.
From Stdlib Require Import ZArith Ascii Lia.
From S2P Require Import Prelude Python CPython Access Machine Artifacts Connectors OdooConnector OdooSource KeycloakConnector.
From S2P Require Import CommunicationConnector ConnectorSafety.

Open Scope Z_scope.
Open Scope orch_scope.

(** ** A small Odoo *)

Record SmallOdoo := mkSmallOdoo {
  so_records : list (string * pydict);   (* model and fields *)
  so_losses : list bool;                 (* whether the next answers are lost *)
}.

Definition rpc_parts (q : HttpRequest) : option (string * list pyval) :=
  match hq_json q with
  | Some (VDict [_; _; (_, VDict [_; (_, VStr method); (_, VList args)]); _]) => Some (method, args)
  | _ => None
  end.

Definition small_match (model f v : string) (r : string * pydict) : bool :=
  String.eqb (fst r) model && sets_text (snd r) f v.

Definition has_id (model : string) (id : Z) (r : string * pydict) : bool :=
  String.eqb (fst r) model && match dict_get (snd r) "id" with VInt n => n =? id | _ => false end.

Definition small_write (model : string) (id : Z) (values : pydict) (r : string * pydict) : string * pydict :=
  if has_id model id r then (fst r, fold_left (fun d kv => dict_set d (fst kv) (snd kv)) values (snd r)) else r.

(** One method of one model: its result and the records after it. *)
Definition small_method (records : list (string * pydict)) (model method : string) (args : list pyval)
  : pyval * list (string * pydict) :=
  if String.eqb method "search_read" then
    (VList match args with
           | [VList [VList [VStr f; _; VStr v]]] => take 2 (VDict ∘ snd <$> List.filter (small_match model f v) records)
           | _ => []
           end, records)
  else if String.eqb method "create" then
    let id := VInt (Z.of_nat (length records) + 1) in
    match args with [VDict values] => (id, records ++ [(model, ("id", id) :: values)]) | _ => (VNone, records) end
  else if String.eqb method "write" then
    match args with
    | [VList [VInt id]; VDict values] => (VBool true, small_write model id values <$> records)
    | _ => (VBool false, records)
    end
  else if String.eqb method "read" then
    (VList match args with [VList [VInt id]] => VDict ∘ snd <$> List.filter (has_id model id) records | _ => [] end, records)
  else (VBool true, records).

Definition small_answer (records : list (string * pydict)) (q : HttpRequest) : pyval * list (string * pydict) :=
  match rpc_parts q with
  | Some (rpc_method, args) =>
      if String.eqb rpc_method "authenticate" then (VInt 7, records) else
      match args with
      | [_; _; _; VStr model; VStr method; VList args; _] => small_method records model method args
      | _ => (VNone, records)
      end
  | None => (VNone, records)
  end.

#[local] Instance small_odoo_http : HttpService SmallOdoo := {
  http p q :=
    let '(v, records) := small_answer (so_records p) q in
    let p' := mkSmallOdoo records (tail (so_losses p)) in
    match so_losses p with
    | true :: _ => (Lost "ReadTimeout", p')
    | _ => (Delivered (mkResponse 200 [] (Json (VDict [("result", v)]))), p')
    end
}.

Lemma small_http_records p q : so_records (snd (http p q)) = snd (small_answer (so_records p) q).
Proof. cbn. destruct (small_answer (so_records p) q) as [v records]. by destruct (so_losses p) as [|[] ?]. Qed.

Lemma small_http_answer p q v : rpc_answer (fst (http p q)) = Some v -> v = fst (small_answer (so_records p) q).
Proof. cbn. destruct (small_answer (so_records p) q) as [x records]. destruct (so_losses p) as [|[] ?]; cbn; by intros [= <-]. Qed.

Definition small_tagged (p : SmallOdoo) (model f v : string) : nat := length (List.filter (small_match model f v) (so_records p)).

Lemma small_write_match model id values m f v r :
  f ∉ values.*1 -> small_match m f v (small_write model id values r) = small_match m f v r.
Proof.
  intros Hf. unfold small_write. destruct (has_id model id r); [|done]. unfold small_match, sets_text. cbn. by rewrite assoc_set_all.
Qed.

Lemma filter_fmap_same {A} (g : A -> A) (T : A -> bool) l :
  (forall x, T (g x) = T x) -> length (List.filter T (g <$> l)) = length (List.filter T l).
Proof. intros Hg. induction l as [|x l IH]; cbn; [done|]. rewrite Hg. destruct (T x); cbn; congruence. Qed.

Lemma small_authenticates p base id args m f v :
  small_tagged (snd (http p (rpc_request base id "common" "authenticate" args))) m f v = small_tagged p m f v.
Proof. unfold small_tagged. by rewrite small_http_records. Qed.

Lemma small_keeps p base id db uid secret model method args kwargs :
  method ∈ ["read"; "search_read"; "button_confirm"] -> forall m f v, String.prefix "x_" f = true ->
  small_tagged (snd (http p (rpc_request base id "object" "execute_kw" [db; uid; secret; VStr model; VStr method; args; kwargs]))) m f v
    = small_tagged p m f v.
Proof.
  intros Hm m f v _. unfold small_tagged. rewrite small_http_records. unfold small_answer, rpc_parts. cbn [hq_json rpc_request rpc_payload].
  destruct args; try reflexivity. rewrite !elem_of_cons, elem_of_nil in Hm. destruct Hm as [->|[->|[->|[]]]]; reflexivity.
Qed.

Lemma small_searches p base id db uid secret model f v fields found :
  rpc_answer (fst (http p (rpc_request base id "object" "execute_kw"
    [db; uid; secret; VStr model; VStr "search_read"; equals [(f, VStr v)]; search_options fields]))) = Some found ->
  exists rows, found = VList rows /\ length rows = Nat.min 2 (small_tagged p model f v).
Proof.
  intros Hf%small_http_answer. subst found.
  exists (take 2 (VDict ∘ snd <$> List.filter (small_match model f v) (so_records p))). split; [reflexivity|].
  by rewrite length_take, length_fmap.
Qed.

Lemma small_writes p base id db uid secret model ids values kwargs m f v :
  f ∉ values.*1 ->
  small_tagged (snd (http p (rpc_request base id "object" "execute_kw"
    [db; uid; secret; VStr model; VStr "write"; VList [ids; VDict values]; kwargs]))) m f v = small_tagged p m f v.
Proof.
  intros Hf. unfold small_tagged. rewrite small_http_records. unfold small_answer, rpc_parts. cbn [hq_json rpc_request rpc_payload].
  destruct ids as [| | | | |[|[] [|]]|]; try reflexivity. cbn [snd]. apply filter_fmap_same. intros r. by apply small_write_match.
Qed.

Lemma small_creates p base id db uid secret model values kwargs m f v :
  String.prefix "x_" f = true ->
  (small_tagged (snd (http p (rpc_request base id "object" "execute_kw"
    [db; uid; secret; VStr model; VStr "create"; VList [VDict values]; kwargs]))) m f v
    <= small_tagged p m f v + (if bool_decide (m = model) && sets_text values f v then 1 else 0))%nat.
Proof.
  intros Hf. unfold small_tagged. rewrite small_http_records.
  change (snd (small_answer _ _)) with (so_records p ++ [(model, ("id", VInt (Z.of_nat (length (so_records p)) + 1)) :: values)]).
  rewrite List.filter_app, length_app. apply Nat.add_le_mono_l. cbn [List.filter]. unfold small_match, sets_text. cbn [fst snd].
  assert (Hid : assoc f (("id", VInt (Z.of_nat (length (so_records p)) + 1)) :: values) = assoc f values).
  { cbn. destruct (String.eqb_spec f "id") as [->|]; [discriminate Hf|done]. }
  rewrite Hid. destruct (String.eqb_spec model m) as [->|Hne]; cbn [andb].
  - rewrite bool_decide_eq_true_2 by done. cbn [andb]. destruct (match assoc f values with Some (VStr s) => String.eqb s v | _ => false end); cbn; lia.
  - cbn. lia.
Qed.

#[local] Instance small_odoo : OdooService SmallOdoo := {|
  tagged := small_tagged;
  odoo_authenticates := small_authenticates;
  odoo_keeps := small_keeps;
  odoo_searches := small_searches;
  odoo_writes := small_writes;
  odoo_creates := small_creates;
|}.

(** ** An employee whose creation is acknowledged to nobody *)

Definition o_conn : OdooEffectConnection :=
  mkOdooEffectConnection "https://odoo.example/" "db" "writer" (mkCredentialRef "odoo" "ODOO_SECRET") "x_administrative_request_ref"
    "x_administrative_deactivate_request_ref" "x_administrative_subject_ref" "x_administrative_transaction_request_ref"
    "x_administrative_transaction_confirm_request_ref" "x_administrative_transaction_subject_ref" "x_administrative_m8_payload_json" false.
#[local] Instance o_credentials : CredentialResolver := EnvironmentCredentialResolver (fun _ => Some "secret").
Definition o_fresh (n : nat) : uuid := N.of_nat n.

(** The answer to the first creation, the sixth exchange, is lost. *)
Definition o_start : Wire SmallOdoo := mkWire (mkSmallOdoo [] [false; false; false; false; false; true]) 0 [].
Definition o_hire : OdooCall := EmployeeInvoke "req-1" "emp-8" [("name", VStr "Ada")].
Definition o_lost : Wire SmallOdoo := after_odoo o_fresh o_conn o_hire o_start.
Definition o_bill : OdooCall :=
  TransactionInvoke "req-2" "inv-1" [("vendor_ref", VStr "odoo:res.partner:4"); ("invoice_number", VStr "F-9")] "vendor_bill.create_draft".
Definition o_billed : Wire SmallOdoo := after_odoo o_fresh o_conn o_bill o_lost.
Definition o_again : Wire SmallOdoo := after_odoo o_fresh o_conn o_hire o_billed.

Lemma o_fields_separate : separate_fields o_conn = true.
Proof. vm_compute. reflexivity. Qed.
Lemma o_history : rtc (odoo_step o_fresh o_conn) o_start o_again.
Proof.
  exact (rtc_l _ _ _ _ (os_call o_fresh o_conn o_start o_hire : odoo_step o_fresh o_conn o_start o_lost)
           (rtc_l _ _ _ _ (os_call o_fresh o_conn o_lost o_bill : odoo_step o_fresh o_conn o_lost o_billed)
              (rtc_once _ _ (os_call o_fresh o_conn o_billed o_hire : odoo_step o_fresh o_conn o_billed o_again)))).
Qed.

Example o_first_unknown : cn_status <$> (match fst (employee_invoke o_fresh o_conn "req-1" "emp-8" [("name", VStr "Ada")] o_start) with
                                          | Ok r => Some r | Err _ => None end) = Some CS_UNKNOWN.
Proof. vm_compute. reflexivity. Qed.

Lemma o_start_once : identified_once o_conn o_start.
Proof. intros model field ref _. cbn. lia. Qed.


(** ** A message that is read back *)

(** A gateway whose ledger knows the message, and Feishu with its text. *)
Definition f_text : string := "Please confirm.".
Definition f_answer (q : HttpRequest) : pyval :=
  if String.eqb (hq_method q) "POST" then VDict [("tenant_access_token", VStr "token")] else
  if String.eqb (hq_url q) "https://feishu.example/open-apis/im/v1/messages/om_1"
  then VDict [("code", VInt 0); ("data", VDict [("items", VList [VDict [("body", VDict [("content", VStr f_text)])]])])]
  else VDict [("providerMessageRef", VStr "om_1"); ("recipientDigest", VStr (sha256_hex "ou_7"))].
#[local] Instance feishu_http : HttpService unit := { http p q := (Delivered (mkResponse 200 [] (Json (f_answer q))), p) }.
#[local] Instance no_json : JsonLibrary := { json_loads _ := None }.
#[local] Instance small_hmac : HmacLibrary := { hmac_hexdigest key message := sha256_bytes (key +:+ message) }.

Definition f_verifier : FeishuCommunicationVerifier :=
  mkFeishuCommunicationVerifier "https://feishu.example" "app" (mkCredentialRef "app" "APP_SECRET") "https://gateway.example"
    (Some (mkCredentialRef "gateway" "GATEWAY_SECRET")).
Definition f_expected : pydict :=
  [("communication_event_id", VStr "evt-1"); ("recipient_external_subject", VStr "ou_7"); ("content_digest", VStr (sha256_hex f_text))].
Definition f_start : Wire unit := mkWire () 0 [].
Definition f_clock (n : nat) : Z := 100 + Z.of_nat n.
Definition f_result : ConnectorResult :=
  match fst (message_observe f_verifier f_clock f_expected f_start) with Ok r => r | Err _ => connector_unavailable "" "" end.
Definition f_end : Wire unit := snd (message_observe f_verifier f_clock f_expected f_start).

Lemma f_run_ok : message_observe f_verifier f_clock f_expected f_start = (Ok f_result, f_end).
Proof. vm_compute. reflexivity. Qed.
Lemma f_succeeded : cn_status f_result = CS_SUCCEEDED.
Proof. vm_compute. reflexivity. Qed.

Lemma readback_is_genuine_witness :
  cn_status f_result = CS_SUCCEEDED /\
  exists message_id text ledger, message_read f_verifier message_id text f_start f_end /\
    sha256_hex text = text_at f_expected "content_digest" "" /\ ledger_read f_verifier f_expected ledger f_start f_end /\
    dict_get ledger "recipientDigest" = VStr (sha256_hex (text_at f_expected "recipient_external_subject" "")) /\
    (truthy (dict_get ledger "providerMessageRef") = true -> dict_get ledger "providerMessageRef" = VStr message_id) /\
    cn_external_operation_ref f_result = Some message_id /\
    cn_observed_postcondition f_result = Some (dict_set f_expected "provider_message_ref" (VStr message_id)).
Proof.
  split; [exact f_succeeded|].
  exact (readback_is_genuine f_verifier f_clock f_expected f_start f_result f_end f_run_ok f_succeeded).
Defined.
