(* ===== verification/ComponentWitnesses.v ===== *)
(** * Witnesses of the component theorems

    Concrete obligation sets, assessments, policies and financial documents at
    which the hypotheses of the repositories', derivations' and evaluators'
    theorems hold; each witness applies its theorem there. *)

From stdpp Require Import base gmap strings list relations.
From Stdlib Require Import ZArith Lia.
From S2P Require Import Prelude Python CPython Store Domain Policy Authority Lifecycle Obligations.
From S2P Require Import Completion Verification Transfer Derivation PolicyPlane Financial.
From S2P Require Import Persistence Transactions Governance Scenario.

Open Scope Z_scope.

Lemma ok_or_value {A} (d : A) (r : result A) : is_ok r = true -> r = Ok (ok_or d r).
Proof. by destruct r. Qed.

(** ** Onboarding obligations, stored *)

Definition v_no_set : AdministrativeObligationSet := mkAdministrativeObligationSet 0%N 0%N 0 0%N [].
Notation v_derived := (derive_onboarding_obligations s_case s_evaluation 77%N) (only parsing).
Definition v_set : AdministrativeObligationSet := ok_or v_no_set v_derived.
Notation v_put := (put_in_session empty_obligation_db v_set) (only parsing).
Definition v_db : ObligationDb := snd (ok_or (v_no_set, empty_obligation_db) v_put).

Lemma v_derived_ok : v_derived = Ok v_set.
Proof. apply ok_or_value. vm_compute. reflexivity. Qed.

Lemma onboarding_obligations_exact_witness :
  os_case_id v_set = 1%N /\ exists o, o ∈ os_obligations v_set /\
    demands o (mkTemplate "hris" "employee.create" EMPLOYMENT).
Proof.
  destruct (onboarding_obligations_exact s_case s_evaluation 77%N v_set v_derived_ok)
    as (Hc & _ & _ & _ & _ & Hall & _).
  split; [exact Hc|]. apply Hall. cbn. apply list_elem_of_here.
Defined.

Lemma v_put_ok : v_put = Ok (fst (ok_or (v_no_set, empty_obligation_db) v_put), v_db).
Proof. vm_compute. reflexivity. Qed.

Lemma v_reachable : ob_reachable v_db.
Proof. apply rtc_once. eapply step_put. exact v_put_ok. Qed.

Lemma repository_reads_never_fail_witness :
  exists o, get_current v_db 1%N 2 = Ok o.
Proof. exact (proj1 (repository_reads_never_fail v_db 1%N 2 v_reachable)). Defined.

Lemma obligation_set_is_immutable_witness :
  exists r, get_current v_db 1%N 2 = Ok (Some r) /\ length (os_obligations r) = 3%nat.
Proof.
  destruct (obligation_set_is_immutable empty_obligation_db v_db v_db v_set _ (rtc_refl _ _) v_put_ok
              (rtc_refl _ _)) as [Hg _].
  eexists. split; [exact Hg|vm_compute; reflexivity].
Defined.

(** Nothing linked yet: the stored set is not satisfied. *)
Lemma v_current : get_current v_db 1%N 2 = Ok (Some v_set).
Proof. vm_compute. reflexivity. Qed.

Lemma stored_completion_exact_witness :
  ~ (forall o, o ∈ os_obligations v_set -> ob_required o = true ->
       obligation_proven 1%N 2 [] [] [] (list_links v_db 1%N 2) [] o).
Proof.
  intros Hall.
  pose proof (proj2 (stored_completion_exact v_db 1%N 2 v_set [] [] [] [] v_reachable v_current
    eq_refl NoDup_nil_2 NoDup_nil_2) Hall) as Hs.
  vm_compute in Hs. discriminate Hs.
Defined.

(** A domain-state obligation and its fulfillment. *)
Definition v_domain_obligation : AdministrativeObligation :=
  mkAdministrativeObligation 61%N 2%N 2 77%N "authority_lifecycle" "emp-1" "authority" "principal.deactivate"
    [("principal_id", VStr "emp-1")] EMPLOYMENT true DOMAIN_STATE_VERIFIED.
Definition v_domain_set : AdministrativeObligationSet :=
  mkAdministrativeObligationSet 60%N 2%N 2 77%N [v_domain_obligation].
Definition v_fulfillment : ObligationDomainStateFulfillment :=
  mkObligationDomainStateFulfillment 62%N 61%N 2%N 2 77%N DOMAIN_STATE_VERIFIED "engine" "done" "sha" None 90.

Lemma completion_exact_witness :
  obligation_proven 2%N 2 [] [] [] [] [v_fulfillment] v_domain_obligation.
Proof.
  assert (Hs : ca_satisfied (assess_administrative_completion v_domain_set [] [] (Some []) (Some [])
                (Some [v_fulfillment])) = true) by (vm_compute; reflexivity).
  refine (proj1 (completion_exact v_domain_set [] [] [] [v_fulfillment] _ _ _ _ _ []) Hs
            v_domain_obligation _ eq_refl).
  - apply NoDup_singleton.
  - apply NoDup_nil_2.
  - apply NoDup_nil_2.
  - apply NoDup_nil_2.
  - apply NoDup_singleton.
  - apply list_elem_of_here.
Defined.

(** ** Offboarding: transfers and obligations *)

Definition v_leaver_facts : pydict :=
  [("departing_principal_id", VStr "ann"); ("successor_principal_id", VStr "bob");
   ("termination_effective_at", VStr "2026-01-01T00:00:00+00:00")].
Definition v_leaver_snapshot : FactSnapshot :=
  mkFactSnapshot 13%N "hris" "hr" AUTHORITATIVE None None 10 v_leaver_facts [] None.
Definition v_leaver : AdministrativeCase :=
  mkAdministrativeCase 2%N "employee-offboarding" "requester" "ann" AUTHORIZED 4 2
    (Some v_leaver_snapshot) (Some sample_policy_ref) [] None 20 50.
Definition v_at : instant := default 0 (fact_instant v_leaver_facts "termination_effective_at").
Definition v_authority : AuthorityDb :=
  mkAuthorityDb {[ "ann" := mkPrincipalRow PERSON "Ann" true; "bob" := mkPrincipalRow PERSON "Bob" true ]} ∅
    (list_to_map [(41%N, mkRoleAssignment 41%N "ann" "manager" "acme" 0 None);
                  (42%N, mkRoleAssignment 42%N "ann" "hr_approver" "*" 0 None);
                  (43%N, mkRoleAssignment 43%N "bob" "engineer" "acme" 0 None)]) ∅ ∅ ∅.
Notation v_off := OffboardingPolicy_default_definition (only parsing).
Notation v_transfers_run := (derive_transfer_requirements v_leaver v_off v_authority 77%N 60) (only parsing).
Definition v_transfers : list AdministrativeTransferRequirement := ok_or [] v_transfers_run.

Lemma v_transfers_ok : v_transfers_run = Ok v_transfers.
Proof. apply ok_or_value. vm_compute. reflexivity. Qed.

Lemma v_at_ok : fact_instant (fs_facts v_leaver_snapshot) (off_effective_time_fact v_off) = Some v_at.
Proof. vm_compute. reflexivity. Qed.

(** Ann manages and approves: the management role goes to Bob, who qualifies. *)
Lemma transfer_requirements_exact_witness :
  length v_transfers = 2%nat /\ Forall (fun r => tr_status r <> TRANSFER_FULFILLED) v_transfers.
Proof.
  split; [vm_compute; reflexivity|].
  pose proof (transfer_requirements_exact v_leaver v_off v_authority 77%N 60 v_transfers
                v_leaver_snapshot v_at v_transfers_ok eq_refl v_at_ok) as HF.
  cbv zeta in HF. eapply Forall2_Forall_r; [exact HF|]. apply Forall_true.
  intros a r (_ & _ & _ & _ & _ & Hn). exact Hn.
Defined.

Definition v_transfer_db : TransferDb := list_to_map ((fun r => (tr_requirement_id r, r)) <$> v_transfers).
Definition v_no_transfer : AdministrativeTransferRequirement :=
  mkTransferRequirement 0%N 0%N 0 0%N "-" "-" 0%N "-" "-" REVOKE_ONLY None 0 READY_TO_REVOKE "-" 0.
Definition v_qualified : AdministrativeTransferRequirement :=
  default v_no_transfer
    (List.find (fun r => bool_decide (tr_status r = SUCCESSOR_QUALIFIED)) v_transfers).
Notation v_marked := (mark_fulfilled v_transfer_db (tr_requirement_id v_qualified) "bob") (only parsing).

Lemma v_marked_ok : is_ok v_marked = true.
Proof. vm_compute. reflexivity. Qed.

Lemma mark_fulfilled_exact_witness :
  exists r db, v_marked = Ok (r, db) /\ tr_status r = TRANSFER_FULFILLED.
Proof.
  pose proof (ok_or_value (v_no_transfer, v_transfer_db) _ v_marked_ok) as Hm.
  destruct (ok_or (v_no_transfer, v_transfer_db) v_marked) as [r db]. exists r, db. split; [exact Hm|].
  exact (proj1 (proj2 (mark_fulfilled_exact v_transfer_db db _ "bob" r Hm))).
Defined.

Definition v_off_evaluation : PolicyEvaluation :=
  mkPolicyEvaluation sample_policy_ref HUMAN_DECISION_REQUIRED "termination" [] ["hr_approver"] false
    (off_base_effects v_off) None.
Notation v_off_run :=
  (derive_offboarding_obligations v_leaver v_off_evaluation sample_policy_ref v_off v_authority 77%N
     (Some v_transfers) 60) (only parsing).

Lemma v_off_run_ok : is_ok v_off_run = true.
Proof. vm_compute. reflexivity. Qed.

Lemma offboarding_obligations_cover_witness :
  exists s (o : AdministrativeObligation), v_off_run = Ok s /\ o ∈ os_obligations s /\
    domain_demand o "principal.deactivate" "principal_id" (VStr "ann").
Proof.
  pose proof (ok_or_value v_no_set _ v_off_run_ok) as Hs.
  pose proof (offboarding_obligations_cover v_leaver v_off_evaluation sample_policy_ref v_off v_authority
                77%N v_transfers 60 _ v_leaver_snapshot v_at Hs eq_refl v_at_ok) as Hc.
  destruct Hc as (_ & _ & _ & _ & _ & (o & Ho & Hd)).
  exists (ok_or v_no_set v_off_run), o. split; [exact Hs|]. split; [exact Ho|exact Hd].
Defined.

(** ** Policy versions *)

Definition v_policy_v2 : PolicyVersionRecord :=
  mkPolicyVersionRecord "employee-onboarding" "v2" "hr" DRAFT 5 None [("kind", VStr "onboarding")] 5.
Notation v_policy_put := (put_version empty_policy_db s_policy) (only parsing).
Definition v_policies : PolicyDb := snd (ok_or (s_policy, empty_policy_db) v_policy_put).
Definition v_policies2 : PolicyDb :=
  snd (ok_or (s_policy, empty_policy_db) (create_draft v_policies v_policy_v2)).

Lemma v_policies_reachable : policy_reachable v_policies.
Proof. apply rtc_once. eapply (pstep_put _ _ s_policy s_policy). vm_compute. reflexivity. Qed.

Lemma resolve_current_exact_witness :
  resolve_current v_policies "employee-onboarding" 100 = Ok s_policy /\
  in_force v_policies "employee-onboarding" 100 s_policy.
Proof.
  assert (Hr : resolve_current v_policies "employee-onboarding" 100 = Ok s_policy)
    by (vm_compute; reflexivity).
  split; [exact Hr|].
  exact (proj1 (proj1 (resolve_current_exact v_policies "employee-onboarding" 100 v_policies_reachable)
                  s_policy) Hr).
Defined.

Lemma policy_version_is_immutable_witness :
  exists s, get_version v_policies2 "employee-onboarding" "v1" = Some (with_status s_policy s).
Proof.
  apply (policy_version_is_immutable v_policies v_policies2 "employee-onboarding" "v1" s_policy).
  - vm_compute. reflexivity.
  - apply rtc_once. eapply (pstep_draft _ _ v_policy_v2 v_policy_v2). vm_compute. reflexivity.
Defined.

(** ** Financial documents *)

Definition v_assessment (id : uuid) (supersedes : option uuid) (r : TransactionQualificationResult)
    (reasons : list string) : TransactionQualificationAssessment :=
  mkAssessment id 3%N 1 "vendor_qualification" supersedes ["doc"] "rule" r reasons 50.
Notation v_append t a := (snd (snd (ok_or (a, (s_exec, t)) (append_assessment s_exec t a)))) (only parsing).
Definition v_first : TransactionQualificationAssessment := v_assessment 71%N None AMBIGUOUS ["two vendors"].
Definition v_second : TransactionQualificationAssessment := v_assessment 72%N (Some 71%N) QUALIFIED [].
Definition v_txn1 : TxnDb := v_append empty_txn_db v_first.
Definition v_txn2 : TxnDb := v_append v_txn1 v_second.

Lemma v_txn_step t a :
  is_ok (append_assessment s_exec t a) = true -> txn_step t (v_append t a).
Proof.
  intros Hok. destruct (append_assessment s_exec t a) as [[r [x t']]|e] eqn:E; [|discriminate].
  eapply tstep_assess. exact E.
Qed.

Lemma current_assessments_exact_witness :
  exists current, list_current_assessments v_txn2 3%N 1 = Ok current /\ current = [v_second].
Proof.
  assert (Hr : txn_reachable v_txn2).
  { eapply rtc_l; [apply (v_txn_step _ v_first); vm_compute; reflexivity|].
    apply rtc_once. apply (v_txn_step _ v_second). vm_compute. reflexivity. }
  destruct (current_assessments_exact v_txn2 3%N 1 Hr) as (current & Hc & _).
  exists current. split; [exact Hc|]. vm_compute in Hc. injection Hc as <-. reflexivity.
Defined.

Definition v_vendor : VendorMasterRecord := mkVendorMasterRecord "v-1" "Acme" (Some "T1") None.
Definition v_invoice : InvoiceFacts :=
  mkInvoiceFacts (Some "Acme") (Some "v-1") (Some "T1") (Some "INV-1") (Some "2026-01-01")
    (Some (mkMoney (DFin 1050 (-2)) "USD")) (Some "PO-1") [] None (Some "sha").
Definition v_po : pydict :=
  [("currency", VStr "USD"); ("po_number", VStr "PO-1"); ("total", VStr "10.5");
   ("receipt_ref", VStr "R-1")].
Definition v_receipt : pydict := [("receipt_ref", VStr "R-1")].
Notation v_qualification :=
  (qualify_invoice_transaction 3%N 1 v_invoice [v_vendor] v_po v_receipt [] ["doc"] "rule" []
     81%N 82%N 83%N 50) (only parsing).

Lemma v_qualification_ok :
  (let! (s, _) := v_qualification in Ok (summary_result s)) = Ok QUALIFIED.
Proof. vm_compute. reflexivity. Qed.

Lemma qualify_invoice_exact_witness :
  exists summary assessments, v_qualification = Ok (summary, assessments) /\
    length assessments = 3%nat /\ three_way_agreement v_invoice v_po v_receipt.
Proof.
  pose proof v_qualification_ok as Hq.
  destruct v_qualification as [[summary assessments]|e] eqn:E; [|discriminate Hq].
  injection Hq as Hq. exists summary, assessments. split; [reflexivity|].
  destruct (qualify_invoice_exact _ _ _ _ _ _ _ _ _ _ _ _ _ _ _ _ E) as (_ & Hiff & Hv).
  split; [exact (proj1 (proj1 Hiff Hq))|].
  destruct (Hv Hq) as (v & _ & _ & _ & _ & H3). exact H3.
Defined.

Definition v_purchase : ProcurementFacts :=
  mkProcurementFacts (Some "laptops") (Some (DFin 3 0)) (Some (mkMoney (DFin 2000000 (-2)) "USD"))
    (Some "Acme") None None (Some "cc-1") None None.

(** Twenty thousand dollars exceed the threshold: two distinct approvers. *)
Lemma procurement_evaluate_exact_witness :
  exists ev, ProcurementPolicy_evaluate sample_policy_ref ProcurementPolicy_default_definition v_purchase
               = Ok ev /\ evaluation_valid ev.
Proof.
  destruct (procurement_evaluate_exact sample_policy_ref ProcurementPolicy_default_definition v_purchase
              2000000 (-2) 1000000 (-2) "USD") as (ev & He & Hv & _).
  - repeat constructor; eexists; reflexivity.
  - split; [discriminate|cbn; first [discriminate|intros _; lia]].
  - split; [discriminate|cbn; first [discriminate|intros _; lia]].
  - reflexivity.
  - reflexivity.
  - exists ev. split; [exact He|exact Hv].
Defined.

Definition v_purchase_facts : pydict :=
  [("description", VStr "laptops"); ("cost_center", VStr "cc-1"); ("currency", VStr "USD")].
Definition v_purchase_case : AdministrativeCase :=
  mkAdministrativeCase 3%N "procurement-request" "requester" "pr-1" AUTHORIZED 4 2
    (Some (mkFactSnapshot 14%N "erp" "finance" AUTHORITATIVE None None 10 v_purchase_facts [] None))
    (Some sample_policy_ref) [] None 20 50.
Definition v_purchase_evaluation : PolicyEvaluation :=
  mkPolicyEvaluation sample_policy_ref HUMAN_DECISION_REQUIRED "procurement" [] ["procurement_approver"] false
    [erp_effect "purchase_order.create_draft"; erp_effect "purchase_order.confirm"] None.
Notation v_fin_run := (derive_financial_obligations v_purchase_case v_purchase_evaluation 77%N) (only parsing).

Lemma v_fin_run_ok : is_ok v_fin_run = true.
Proof. vm_compute. reflexivity. Qed.

Lemma financial_obligations_bounded_witness :
  exists s, v_fin_run = Ok s /\ forall o, o ∈ os_obligations s -> ob_target_system o = "erp".
Proof.
  pose proof (ok_or_value v_no_set _ v_fin_run_ok) as Hs. eexists. split; [exact Hs|].
  destruct (financial_obligations_bounded _ _ _ _ Hs) as ((ops & _ & Ho) & _).
  intros o Hin. exact (proj1 (Ho o Hin)).
Defined.
