(* ===== verification/CommitmentWitnesses.v ===== *)
(** * A meeting commitment, end to end

    One concrete history on the concrete platform: a meeting interpretation
    proposes a commitment, a reviewer resolves the speaker and admits it, the due
    coordinator makes it overdue, reminds the committer and sends both messages
    through the gateway, the committer attests fulfilment.  Side branches cancel
    the commitment and strand it by a revision that is refused half way.  Each
    witness applies one theorem of [CommitmentSafety] or [Artifacts]. *)

From stdpp Require Import base gmap strings list relations.
From Stdlib Require Import ZArith Lia.
From S2P Require Import Prelude Python CPython Uuid Store Domain Policy Authority Artifacts Commitment Access Lifecycle.
From S2P Require Import Obligations Verification PolicyPlane Financial Persistence Transactions Governance Machine.
From S2P Require Import Outbox UnitOfWork Execution CommitmentService CommitmentMachine CommitmentRefinement CommitmentSafety.

Open Scope Z_scope.
Open Scope orch_scope.

(** ** The outside: a gateway that delivers, a Kernel that is not used *)

Definition Post : Type := list string.

#[local] Instance post_gateway : CommunicationGateway Post := {
  hmac_sha256 secret message := sha256_bytes (secret +:+ message);
  http_post p url body event timestamp signature :=
    (HttpStatus 200 (inr (VDict [("deliveryConfirmed", VBool true); ("providerMessageRef", VStr event)])), p ++ [event]);
  bind_text v := match v with VStr s => Ok (Some s) | VNone => Ok None | _ => raise ValueError "unsupported type" end;
}.

#[local] Instance post_kernel : ResponsibilityKernel Post := {
  kernel_contract p := (Ok "responsibility.v1", p);
  kernel_submit p _ _ _ _ := (raise ValueError "not connected", p);
  kernel_status p _ _ := (Ok "active", p);
  kernel_record_assessment p _ := (Ok tt, p);
  kernel_record_discharge_decision p _ := (Ok tt, p);
  kernel_apply_lifecycle_transition p _ := (Ok tt, p);
}.

#[local] Instance post_provider : EffectProvider Post := {
  provider_execute p _ _ := (raise ValueError "not connected", p);
  provider_observe p _ := (raise ValueError "not connected", p);
  provider_prepare p _ _ _ := (Ok tt, p);
}.

Definition n_settings : CommitmentSettings :=
  mkCommitmentSettings true "disabled" "https://gateway/" (Some "secret") "" None.
Definition n_clock (n : nat) : instant := m9_baseline + 1000000 * Z.of_nat n.
Definition n_fresh (n : nat) : uuid := (1000 + N.of_nat n)%N.

(** The parser: the interpretation proposes what Ann said. *)
Definition n_parse (output : pydict) : result (list MeetingCommitmentDraft) :=
  Ok [mkMeetingCommitmentDraft "Ann" "send the minutes" None None None None EXPLICIT_SELF_COMMITMENT [7%N]].
Definition n_interpretation : Interpretation :=
  mkInterpretation 5%N [6%N] "meeting.commitment.v1" [("commitments", VList [])] [7%N].

(** The reviewer Rita is an operator, Adam only an administrator. *)
Definition n_authority : AuthorityDb :=
  mkAuthorityDb
    {[ "ann" := mkPrincipalRow PERSON "Ann" true; "rita" := mkPrincipalRow PERSON "Rita" true;
       "adam" := mkPrincipalRow PERSON "Adam" true ]}
    {[ 51%N := mkIdentityBinding 51%N "feishu" "ou_ann" "ann" 0 None ]}
    {[ 41%N := mkRoleAssignment 41%N "rita" "administrative_operator" "*" 0 None;
       42%N := mkRoleAssignment 42%N "adam" "administrative_admin" "*" 0 None ]} ∅ ∅ ∅.

Definition n_exec : ExecDb := mkExecDb ∅ ∅ [] ∅ ∅ ∅ ∅ ∅ [].

Definition n_world : CWorld Post :=
  mkCWorld (mkUowDb n_exec ∅ ∅ n_authority ∅ empty_outbox) empty_policy_db empty_txn_db empty_obligation_db
    empty_commitment_db empty_dir [] [] 0.

Notation n_serve := (serve n_clock n_fresh n_settings n_parse) (only parsing).

Definition n_candidate : uuid := Eval vm_compute in m9_id ("candidate:" +:+ uuid_str 5%N +:+ ":0").
Definition n_case : uuid := Eval vm_compute in m9_id ("case:" +:+ uuid_str n_candidate).
Definition n_due : datetime := Aware (m9_baseline + 3600000000) 0.

Definition n_admission : list commitment_call :=
  [CreateCandidates n_interpretation None [7%N];
   ResolveSpeaker n_candidate "rita" "ou_ann" [("source", VStr "attendance list")] "feishu";
   ConfirmCandidate n_candidate "rita" n_due "said in the meeting" AUTHORIZED_ATTESTATION].

Definition n_fulfilment : list commitment_call :=
  [Drive n_case (Some (m9_baseline + 7200000000));
   AttestFulfillment n_case "ann" [("link", VStr "minutes.pdf")] (Some (m9_baseline + 7300000000))].

(** The calls in order, keeping what each returned. *)
Fixpoint n_run (calls : list commitment_call) (w : CWorld Post) : list (result unit) * CWorld Post :=
  match calls with
  | [] => ([], w)
  | call :: rest => let '(r, w1) := n_serve call w in let '(rs, w2) := n_run rest w1 in (r :: rs, w2)
  end.

Definition n_admitted : CWorld Post := snd (n_run n_admission n_world).
Notation n_made := (calls_made n_clock n_fresh n_settings n_parse) (only parsing).
Notation n_returned := (calls_returned n_clock n_fresh n_settings n_parse) (only parsing).

Lemma n_run_made calls w : rtc n_made w (snd (n_run calls w)).
Proof.
  revert w. induction calls as [|call calls IH]; intros w; [apply rtc_refl|]. cbn [n_run].
  destruct (n_serve call w) as [r w1] eqn:E. pose proof (IH w1) as IH1. destruct (n_run calls w1) as [rs w2].
  apply (rtc_l _ _ w1); [left; by eexists _, _|exact IH1].
Qed.

Lemma n_run_returned calls w :
  forallb is_ok (fst (n_run calls w)) = true -> rtc n_returned w (snd (n_run calls w)).
Proof.
  revert w. induction calls as [|call calls IH]; intros w; [intros _; apply rtc_refl|]. cbn [n_run].
  destruct (n_serve call w) as [r w1] eqn:E. pose proof (IH w1) as IH1. destruct (n_run calls w1) as [rs w2].
  cbn. intros [Hr Hrs]%andb_prop. destruct r as [[]|]; [|discriminate Hr].
  apply (rtc_l _ _ w1); [left; by eexists|exact (IH1 Hrs)].
Qed.

Definition n_done : CWorld Post := snd (n_run (n_admission ++ n_fulfilment) n_world).

(** Every call returns, and the confirmation and one reminder were sent. *)
Lemma n_all_return : forallb is_ok (fst (n_run (n_admission ++ n_fulfilment) n_world)) = true.
Proof. vm_compute. reflexivity. Qed.
Example n_two_messages : length (k_sent n_done) = 2%nat /\ k_plane n_done = uuid_str <$> k_sent n_done.
Proof. vm_compute. done. Qed.

Lemma messages_are_sent_at_most_once_witness :
  NoDup (k_sent n_done) /\ forall id, id ∈ k_sent n_done ->
    exists m, m_communications (db_of n_done) !! id = Some m /\ ce_delivery_state m <> PREPARED.
Proof.
  exact (messages_are_sent_at_most_once n_clock n_fresh n_settings n_parse n_world n_done empty_tables_wf eq_refl
           (n_run_returned (n_admission ++ n_fulfilment) n_world n_all_return)).
Defined.

Definition no_commitment : CommitmentRecord :=
  mkCommitmentRecord 0%N 0%N 0%N 0 "" "" "" 0 "" None None AUTHORIZED_ATTESTATION CS_ACTIVE 0 None None None None None
    None None None 0 0 false.

(** The commitment of the case in a world. *)
Definition n_commitment (w : CWorld Post) : CommitmentRecord :=
  default no_commitment (commitment_of_case (k_commitments w) n_case).

Definition n_stored (w : CWorld Post) : bool :=
  bool_decide (m_commitments (k_commitments w) !! cm_commitment_id (n_commitment w) = Some (n_commitment w)).

Lemma n_done_stored : n_stored n_done = true.
Proof. vm_compute. reflexivity. Qed.
Example n_done_fulfilled : cm_state (n_commitment n_done) = CS_FULFILLED /\ cm_was_overdue (n_commitment n_done) = true.
Proof. vm_compute. done. Qed.

Lemma commitments_are_genuine_witness :
  genuine (db_of n_done) (n_commitment n_done) /\
  forall c2, commitment_in (db_of n_done) c2 ->
    cm_case_id c2 = cm_case_id (n_commitment n_done) \/ cm_candidate_ref c2 = cm_candidate_ref (n_commitment n_done) ->
    c2 = n_commitment n_done.
Proof.
  exact (commitments_are_genuine n_clock n_fresh n_settings n_parse n_world n_done (n_commitment n_done) eq_refl
           (n_run_made (n_admission ++ n_fulfilment) n_world) (bool_decide_eq_true_1 _ n_done_stored)).
Defined.

Lemma commitment_reads_never_fail_witness :
  is_ok (get_candidate (db_of n_done) n_candidate) = true /\ is_ok (get_attestation (db_of n_done) n_case 2) = true.
Proof.
  destruct (commitment_reads_never_fail n_clock n_fresh n_settings n_parse n_world n_done eq_refl
              (n_run_made (n_admission ++ n_fulfilment) n_world) n_candidate) as (H1 & _).
  destruct (commitment_reads_never_fail n_clock n_fresh n_settings n_parse n_world n_done eq_refl
              (n_run_made (n_admission ++ n_fulfilment) n_world) n_case) as (_ & _ & _ & _ & _ & _ & H2 & _).
  exact (conj H1 (H2 2)).
Defined.

(** ** From the admitted commitment *)

Lemma n_admitted_stored : n_stored n_admitted = true.
Proof. vm_compute. reflexivity. Qed.

Lemma n_admitted_wf : tables_wf (db_of n_admitted).
Proof. exact (proj1 (empty_history n_clock n_fresh n_settings n_parse n_world n_admitted eq_refl (n_run_made n_admission n_world))). Qed.

Definition n_later : CWorld Post := snd (n_run n_fulfilment n_admitted).

Lemma commitments_move_forward_witness :
  exists c', commitment_in (db_of n_later) c' /\ later (n_commitment n_admitted) c'.
Proof.
  exact (commitments_move_forward n_clock n_fresh n_settings n_parse n_admitted n_later (n_commitment n_admitted)
           n_admitted_wf (n_run_made n_fulfilment n_admitted) (bool_decide_eq_true_1 _ n_admitted_stored)).
Defined.

Definition n_drive : commitment_call := Drive n_case (Some (m9_baseline + 7200000000)).
Definition n_driven : CWorld Post := snd (n_serve n_drive n_admitted).

Lemma n_drive_returns : fst (n_serve n_drive n_admitted) = Ok tt.
Proof. vm_compute. reflexivity. Qed.


(** ** Cancellation *)

Definition n_cancel : list commitment_call := n_admission ++ [CancelCommitment n_case "rita" "withdrawn"].
Definition n_cancelled : CWorld Post := snd (n_run n_cancel n_world).
Definition n_after_cancel : CWorld Post := snd (n_run n_fulfilment n_cancelled).

Lemma n_cancelled_stored : n_stored n_cancelled = true.
Proof. vm_compute. reflexivity. Qed.
Lemma n_cancelled_state : cm_state (n_commitment n_cancelled) = CS_CANCELLED.
Proof. vm_compute. reflexivity. Qed.

(** A cancelled commitment can still be attested: nothing is sent, the
    commitment becomes fulfilled while its case stays cancelled. *)
Example n_attested_after_cancel :
  fst (n_run n_fulfilment n_cancelled) = [Ok tt; Ok tt] /\ cm_state (n_commitment n_after_cancel) = CS_FULFILLED /\
  option_map c_status (match get_case (k_exec n_after_cancel) n_case with Ok o => o | _ => None end) = Some CANCELLED.
Proof. vm_compute. done. Qed.

Lemma cancelled_commitments_are_silent_witness :
  exists new, k_sent n_after_cancel = k_sent n_cancelled ++ new /\
    forall id, id ∈ new ->
      exists m, m_communications (db_of n_after_cancel) !! id = Some m /\ ce_case_id m <> cm_case_id (n_commitment n_cancelled).
Proof.
  exact (cancelled_commitments_are_silent n_clock n_fresh n_settings n_parse n_world n_cancelled n_after_cancel
           (n_commitment n_cancelled) eq_refl (n_run_made n_cancel n_world)
           (bool_decide_eq_true_1 _ n_cancelled_stored) n_cancelled_state (n_run_made n_fulfilment n_cancelled)).
Defined.

(** ** A revision that is refused half way *)

(** Adam may review but does not hold the role the policy asks of the decision:
    the call raises after the new facts and the new epoch are stored. *)
Definition n_revision : commitment_call := ReviseDueAt n_case "adam" (Aware (m9_baseline + 9000000000) 0) "moved".
Definition n_stranded : CWorld Post := snd (n_serve n_revision n_admitted).

Definition no_case : AdministrativeCase :=
  mkAdministrativeCase 0%N "" "" "" RECEIVED 0 0 None None [] None 0 0.
Definition n_moved_case : AdministrativeCase :=
  match get_case (k_exec n_stranded) n_case with Ok (Some c) => c | _ => no_case end.

Lemma n_revision_refused : is_ok (fst (n_serve n_revision n_admitted)) = false.
Proof. vm_compute. reflexivity. Qed.

Lemma n_stranded_wf : tables_wf (db_of n_stranded).
Proof.
  apply (bsteps_wf (st n_admitted) (st n_stranded) n_admitted_wf).
  apply (made_history n_clock n_fresh n_settings n_parse n_admitted n_stranded n_admitted_wf).
  apply rtc_once. left. exists n_revision, (fst (n_serve n_revision n_admitted)). apply surjective_pairing.
Qed.

Lemma n_stranded_stored : n_stored n_stranded = true.
Proof. vm_compute. reflexivity. Qed.
Lemma n_stranded_case : get_case (k_exec n_stranded) (cm_case_id (n_commitment n_stranded)) = Ok (Some n_moved_case).
Proof. vm_compute. reflexivity. Qed.
Lemma n_stranded_epoch : c_authority_epoch n_moved_case <> cm_authority_epoch (n_commitment n_stranded).
Proof. vm_compute. discriminate. Qed.
Lemma n_stranded_works : works_on (cm_case_id (n_commitment n_stranded)) (CancelCommitment n_case "rita" "withdrawn") = true.
Proof. vm_compute. reflexivity. Qed.

Lemma moved_case_refuses_its_commitment_witness :
  exists e w', n_serve (CancelCommitment n_case "rita" "withdrawn") n_stranded = (Err e, w') /\ st w' = st n_stranded.
Proof.
  exact (moved_case_refuses_its_commitment n_clock n_fresh n_settings n_parse n_stranded (n_commitment n_stranded)
           n_moved_case (CancelCommitment n_case "rita" "withdrawn") n_stranded_wf
           (bool_decide_eq_true_1 _ n_stranded_stored) n_stranded_case n_stranded_epoch n_stranded_works).
Defined.

(** ** Artifacts *)

Definition n_put : result (StoredArtifact * ArtifactDir) := artifact_put empty_dir "hello" None.
Definition n_artifact : StoredArtifact := stored_artifact (sha256_bytes "hello") "hello".
Definition n_dir : ArtifactDir := mkArtifactDir {[ sha256_bytes "hello" := "hello" ]} true.

Lemma n_put_ok : n_put = Ok (n_artifact, n_dir).
Proof. vm_compute. reflexivity. Qed.
Lemma n_hello_digest : is_digest (sha256_bytes "hello") = true.
Proof. vm_compute. reflexivity. Qed.

Lemma artifacts_round_trip_witness :
  exists bytes, artifact_get n_dir (sa_storage_ref n_artifact) (Some (sa_digest n_artifact)) = Ok bytes /\
     sha256_bytes bytes = sha256_bytes "hello" /\ sa_size n_artifact = Z.of_nat (String.length bytes) /\
     (ad_objects empty_dir !! sha256_bytes "hello" = None -> bytes = "hello"%string).
Proof.
  exact (proj1 (proj2 (artifacts_round_trip empty_dir "hello" None n_artifact n_dir n_dir n_hello_digest n_put_ok
                         (reflexivity (R := (⊆)) _) eq_refl))).
Defined.
